(* ===== verification/_CoqProject ===== *)
-Q . S2P
Prelude.v
Js.v
Numbers.v
Csv.v
Redact.v
Schema.v
Sql.v
DbWf.v
Env.v
Secrets.v
Queue.v
Testbed.v
QueueFacts.v
QueueSpec.v
Settings.v
SettingsFacts.v
Template.v
Signature.v
Migrate.v
Format.v
Mailer.v
Alerts.v
DbInv.v
MailerFacts.v
Placements.v
PlacementFacts.v
ProvisionFacts.v
CreateFacts.v
Labs.v
Students.v
LabImport.v
Nodes.v
Protocol.v
Ingest.v
Hub.v
HubConn.v
Web.v
WebFixture.v
Maintenance.v
WebDav.v
Backup.v
BackupFacts.v
Gpu.v
Announce.v
AnnounceFacts.v
RateLimit.v
Flash.v
Auth.v
Stats.v
Actions.v
LabActions.v
SettingsActions.v
StatsActions.v
Console.v
HubConnFacts.v
ConsoleFacts.v
System.v
DrainFacts.v
HubTraces.v
Isolation.v
IngestFacts.v
CredentialFacts.v
RemovalFacts.v
TeardownFacts.v
NodeFacts.v
LabFacts.v
LabImportFacts.v
View.v
LabPages.v
SettingsPages.v
NodePages.v
StatsPage.v
AnnouncePage.v
ImportForms.v
Shell.v
Catalog.v
Rows.v
Scripts.v
Upgrade.v
Boot.v
