(* ===== verification/Prelude.v ===== *)
(** * The lab controller: a formal model and its correctness

    The program under [src/controller] is the controller of a set of machines that host student
    labs: administrators use a web console to define labs, rosters and placements (a lab on a
    node); the controller keeps the truth in one SQLite file, queues tasks for an agent on
    every node, and takes the agents' results and telemetry over one WebSocket per node.  This
    library is a shallow embedding of that program: every operation is a Rocq function over an
    explicit world, written statement by statement after the source, and the theorems are about
    those functions.

    ** The parts and where they are modelled

    File names on the right are under [src/controller/src/lib] unless a path is given.

    - [Prelude], [Js], [Numbers]: the state-and-exception monad [M W E A], association lists,
      stable sorting and tables as lists of rows; JavaScript strings, doubles, JSON values,
      dates, regular expressions.
    - [Schema], [Sql], [DbWf], [DbInv]: the tables of [db.ts] after the last migration, the SQL
      statements the program runs, the integrity the schema declares ([db_wf]) and its
      preservation by every statement.
    - [Migrate], [Scripts]: the migration runner and all 26 migrations, statement by statement.
      [Catalog] is the schema language they are written in: what a CREATE, an ALTER and a DROP
      do to the catalog of a file, refused where SQLite's answer depends on the rows; [Rows]
      writes the records of the model as SQL rows and says when a catalog holds of them
      ([conforms]); [Upgrade] relates the two: what a start makes of a file of any version.
    - [Env] ([env.ts]); [Secrets] ([secrets.ts], [passwords.ts], [email.ts], [audit.ts]);
      [Settings], [SettingsFacts] ([settings.ts]); [Template], [Signature] ([template.ts]), [Format]
      ([format.ts]).
    - [Redact], [Queue], [QueueFacts], [QueueSpec] ([queue.ts]): the durable per-node task queue,
      its masked log, and the abstract queue it refines.
    - [Mailer], [Alerts], [MailerFacts] ([mailer.ts], [alerts.ts]).
    - [Placements] with [PlacementFacts], [ProvisionFacts], [CreateFacts], [CredentialFacts],
      [RemovalFacts], [TeardownFacts] ([placements.ts]); [Labs], [LabFacts] ([labs.ts]);
      [Students] ([students.ts]); [LabImport], [LabImportFacts] ([labimport.ts]); [Csv]
      ([csv.ts]).
    - [Nodes], [NodeFacts] ([nodes.ts], [nodegroups.ts]).
    - [Protocol] ([protocol.ts]); [Ingest], [IngestFacts], [Isolation]
      ([ingest.ts]); [Hub] (the frames of [hub.ts]), [HubConn], [HubConnFacts], [DrainFacts],
      [HubTraces] (its sockets, connection table and timers).
    - [Maintenance] ([maintenance.ts]); [WebDav], [Backup], [BackupFacts]
      ([webdav.ts], [backup.ts], [backupcrypto.ts], the restore at the opening of [db.ts]).
    - [Stats] ([stats.ts], [usage-report.ts]); [Gpu] ([gpu.ts]); [Announce],
      [AnnounceFacts] ([announcements.ts]).
    - The web layer: [Web] (requests, forms, redirects), [RateLimit], [Flash], [Auth]
      ([ratelimit.ts], [flash.ts], [auth.ts], the login and signup pages); the server
      actions [Actions], [LabActions], [SettingsActions],
      [StatsActions] ([src/app/(app)/*/actions.ts]); [Console] dispatches all
      of them, [ConsoleFacts] proves what holds of every one.
    - [System] puts it together: hub events, browser requests, the hourly tick, the ends of mails
      in flight and restarts as one step relation.  [Boot] is [server.ts]: the environment, the file, the hub, the ticker
      and the port, in that order, and what a throw on the way ends in.
    - The two mails a confirmed account sets off are asynchronous: [Hub.deliver_mails] runs each
      call up to its [await] and leaves the rest in [w_mails]; [Hub.settle_mail], a step of its
      own of [System], runs it at any later time, whatever changed in between.
    - The pages (under [src/app] and [src/components]): [View] is what a rendered page is for a
      browser - texts, links, forms, controls, the data set a form sends - and the browser's
      rules (disabled and required controls, unticked boxes, options, line breaks of a text
      area).  [LabPages], [SettingsPages], [NodePages], [StatsPage], [AnnouncePage] and [Shell]
      are the page components, functions from what the libraries return to such a tree;
      client components with state ([ImportForms], the composer and its picker in
      [AnnouncePage], the report control in [StatsPage]) are state machines whose events are
      clicks, edits and answers.  Wording that is fixed, table heads and styling are left out.
      [Shell] also holds the route gate of [src/proxy.ts].  The second part of each of these
      files relates what a page offers to what the action behind it does.

    ** State

    [Schema.World] is the database, the queue engine's state, the process-local maps of the
    libraries, the mails in flight and the positions in the platform's sources (clock ticks,
    random bytes, SMTP answers).  [HubConn.Hub] adds the sockets, the connection table, the
    intervals and the pending offline alerts; [Web.WebWorld] adds the rate limiter's buckets, the flash store and
    the request being served; [WebDav.BackupWorld] the backup server, the files and the boot.

    ** What the theorems show

    - Integrity: [System.system_type_invariant] and [HubConnFacts.hub_reachable_consistent] - in
      every reachable state the database is well-formed, the hub's tables agree and the stores
      are within capacity; [NodeFacts.cold_topology_invariant] for the storage topology.
    - The queue: [QueueSpec.queue_refines_spec] (refinement, over runs in which the engine puts
      jobs back between the calls), [DrainFacts.queued_tasks_delivered] (liveness), order of
      delivery, revocation.
    - Isolation and gating: an agent changes no row of another node, in any table, and the mails
      it sets off are for its own members ([Isolation.ingestFrame_isolated]); no action runs for
      a request that is not signed in ([ConsoleFacts.console_gated]); only frames within the
      schema reach a handler.
    - The placement lifecycle: all-or-nothing creation, guarded teardown, credentials revealed
      once, mailed or kept ([CredentialFacts.credential_mailed_or_kept], over any state after the
      [await]; [CredentialFacts.late_delivery_burns_newer] is what goes wrong there), completion
      mails sent once, removal of shared data once.
    - Imports: a CSV file reads back, a roster import only adds and is idempotent.
    - Backups: what retention keeps, that a backup restores, what a restore can stage, when one
      is due.
    - Migrations: [Upgrade.upgrade_outcome] - a file of any earlier version ends at the catalog of
      a new one, with its integrity, or is refused for one of three reasons the rows decide;
      [Upgrade.fresh_install], [Migrate.migrate_resumes], the numbers and addresses the
      accounts get, and what becomes of a signature ([Signature.legacy_signature_text]).
    - Boot: a start listens only after every check passed and the state is one the other
      theorems start from ([Boot.boot_fails_closed]); [Boot.oversized_cap_stops_boot] is a
      stored setting no later start gets past.
    - Settings: each key of the interface ([Schema.Settings]) reads at its type in every state, up
      to the null JSON keeps of a number that is not finite ([System.reachable_settings_typed],
      [SettingsFacts.infinite_setting]), and reads back what was saved
      ([SettingsFacts.setSetting_getSetting]).
    - Sessions, the throttle, mail failover, announcements.
    - Pages against actions: a form can be sent exactly when the library behind it would accept
      the request ([AnnouncePage.compose_form_accepted], [LabPages.grant_form_offers]),
      saves what it shows ([StatsPage.group_form_saves], [SettingsPages.smtp_resave]),
      sends rows the server reads as the browser did ([ImportForms.import_form_agrees]), and
      shows no stored secret ([SettingsPages.settings_page_hides_secrets]); a visit changes
      nothing ([Shell.visits_read_only]).
    - Theorems that exhibit a defect are listed as findings: they prove on a reachable or
      concrete state what the code does against its comment or its evident purpose.

    ** Parameters and what is assumed of them

    Code outside the repository is a parameter, a class with its laws where laws are needed:
    the queue engine ([Honker], [HonkerSpec]; [HonkerClaims] for claims, retries and redelivery),
    the clock, randomness, SMTP and the environment
    ([Platform]), the cipher and hashes ([CryptoSpec]), uuid ([UuidSpec]), zod ([Zod],
    [ZodSpec]), bcrypt and jose ([AuthLib], [AuthSpec]), the calendar ([Zones]), HTTP
    ([HttpClient]), SQLite's file format and the backup cipher ([BackupLib],
    [BackupCryptoSpec]).  Formatting by a locale ([toLocaleString], [localeTime]), the printed
    form of a date in range ([isoString]) and indented JSON are functions the pages take.
    [Testbed], [QueueFacts], [WebFixture] and [Protocol] give concrete
    instances; every theorem with a hypothesis has a witness in them.

    ** Conventions

    - SQL is a language of the program: its statements are given their documented meaning, on
      tables as lists of rows.
    - An exception is a value; it keeps the writes made before it, except inside a
      transaction, which is rolled back.
    - Strings are lists of 8-bit code units; [length] is their number.  Numbers that the
      program divides, rounds or receives are doubles, ids, counters and times are [Z].
    - [revalidatePath] touches no modelled state and is left out; the other fire-and-forget
      mails, after which nothing is written, run with their handler.
    - But for the mails of a confirmed account, a server action, a backup, an announcement (its
      mails one after the other) and the hourly tick run to their end as one step of [System];
      [BackupFacts.stageRestore_safe] covers what may come between the halves of a restore.
    - Intervals and clock readings are whole milliseconds, the SSH port range whole numbers.

    ** Bounds and fuel

    [HubConn.DRAIN_BATCH] is the source's 20.  A drain recurses on the batch, so it needs no
    other fuel; the search for a free uid ([Students.next_uid]) has one unit per number of the
    range; the loop of the backup schedule ([Maintenance.advance]) leaves at its first test for
    any fuel, as [BackupFacts] shows; the scanners of [WebDav] take the length of their
    input.  Everything else is structural.

    ** Not modelled

    The Next.js runtime (whether it prepares is a parameter of [Boot]) and the shims for it
    ([node-env.ts], [utils.ts]); the Python agent under [src/agent]
    (the other side of the wire protocol: every frame it may send is an event of the hub); the wrappers of HTML elements in
    [src/components/ui]. *)
From Stdlib Require Import ZArith Lia.
From coqutil Require Export Datatypes.RecordSettersUsingExistingGetters.
From stdpp Require Export base tactics strings gmap sorting numbers.
From stdpp Require Export list.

#[global] Open Scope string_scope.
#[global] Open Scope list_scope.
#[global] Open Scope rs.
#[global] Open Scope Z_scope.

Arguments RecordSettersUsingExistingGetters.const {E} newValue _ /.

(** Reduces record updates to the record they build. *)
Ltac unset := cbv [tset set const gafu_getter gafu_field_updater] in *.

(** ** Fallible, stateful code

    A JavaScript function that reads and writes the process's state and may throw is a
    function from the state to an outcome and a state.  The state is returned also when
    the outcome is an exception: a throw does not undo the writes made before it. *)

Inductive result (E A : Type) : Type :=
| Ok (a : A)
| Throw (e : E).
Arguments Ok {E A} a.
Arguments Throw {E A} e.

Definition M (W E A : Type) : Type := W -> result E A * W.

Section monad.
Context {W E : Type}.

#[global] Instance M_ret : MRet (M W E) := fun A a w => (Ok a, w).

#[global] Instance M_bind : MBind (M W E) := fun A B k m w =>
  match m w with
  | (Ok a, w') => k a w'
  | (Throw e, w') => (Throw e, w')
  end.

#[global] Instance result_ret : MRet (result E) := fun A a => Ok a.
#[global] Instance result_bind : MBind (result E) := fun A B k m =>
  match m with Ok a => k a | Throw e => Throw e end.

(** A computation that reads no state. *)
Definition lift {A} (r : result E A) : M W E A := fun w => (r, w).
Definition throw {A} (e : E) : M W E A := fun w => (Throw e, w).
Definition get : M W E W := fun w => (Ok w, w).
Definition gets {A} (f : W -> A) : M W E A := fun w => (Ok (f w), w).
Definition modify (f : W -> W) : M W E unit := fun w => (Ok tt, f w).

(** [if (c) throw e;] *)
Definition throw_if (c : bool) (e : E) : M W E unit := if c then throw e else mret tt.

(** [if (c) m;] *)
Definition when (c : bool) (m : M W E unit) : M W E unit := if c then m else mret tt.

(** [try { m } catch (e) { h e }] *)
Definition catch {A} (m : M W E A) (h : E -> M W E A) : M W E A := fun w =>
  match m w with
  | (Ok a, w') => (Ok a, w')
  | (Throw e, w') => h e w'
  end.

(** [for (const x of l) f(x);] *)
Fixpoint for_each {A} (f : A -> M W E unit) (l : list A) : M W E unit :=
  match l with
  | [] => mret tt
  | x :: l' => f x ;; for_each f l'
  end.

(** A loop that collects one value per element. *)
Fixpoint for_map {A B} (f : A -> M W E B) (l : list A) : M W E (list B) :=
  match l with
  | [] => mret []
  | x :: l' => y ← f x; ys ← for_map f l'; mret (y :: ys)
  end.

(** [wp m Q w]: running [m] from [w] ends with an outcome and a state that satisfy [Q]. *)
Definition wp {A} (m : M W E A) (Q : result E A -> W -> Prop) (w : W) : Prop :=
  Q (m w).1 (m w).2.

(** [m] preserves [I], whatever its outcome. *)
Definition preserves {A} (I : W -> Prop) (m : M W E A) : Prop :=
  forall w, I w -> I (m w).2.

(** [m] does not throw from a state in [I], and leaves a state in [I]. *)
Definition total {A} (I : W -> Prop) (m : M W E A) : Prop :=
  forall w, I w -> exists a, (m w).1 = Ok a /\ I (m w).2.

Lemma bind_ok {A B} (m : M W E A) (k : A -> M W E B) w b w' :
  (m ≫= k) w = (Ok b, w') <-> exists a w1, m w = (Ok a, w1) /\ k a w1 = (Ok b, w').
Proof.
  unfold mbind, M_bind. destruct (m w) as [[a|e] w1]; split.
  - eauto.
  - by intros (? & ? & [= <- <-] & ?).
  - done.
  - by intros (? & ? & [=] & ?).
Qed.

Lemma bind_step {A B} (m : M W E A) (k : A -> M W E B) w a w1 :
  m w = (Ok a, w1) -> (m ≫= k) w = k a w1.
Proof. unfold mbind, M_bind. by intros ->. Qed.

Lemma bind_throw {A B} (m : M W E A) (k : A -> M W E B) w e w1 :
  m w = (Throw e, w1) -> (m ≫= k) w = (Throw e, w1).
Proof. unfold mbind, M_bind. by intros ->. Qed.

Lemma wp_bind {A B} (m : M W E A) (k : A -> M W E B) Q w :
  wp m (fun r w1 => match r with Ok a => wp (k a) Q w1 | Throw e => Q (Throw e) w1 end) w ->
  wp (m ≫= k) Q w.
Proof. unfold wp, mbind, M_bind. destruct (m w) as [[a|e] w1]; done. Qed.

Lemma preserves_ret {A} I (a : A) : preserves I (mret a).
Proof. by intros w. Qed.
Lemma preserves_throw {A} I e : preserves I (throw (A:=A) e).
Proof. by intros w. Qed.
Lemma preserves_lift {A} I (r : result E A) : preserves I (lift r).
Proof. by intros w. Qed.
Lemma preserves_gets {A} I (f : W -> A) : preserves I (gets f).
Proof. by intros w. Qed.
Lemma preserves_get I : preserves I get.
Proof. by intros w. Qed.
Lemma preserves_throw_if I c e : preserves I (throw_if c e).
Proof. by destruct c; intros w. Qed.
Lemma preserves_when I c m : preserves I m -> preserves I (when c m).
Proof. by destruct c; intros ? w; simpl; auto. Qed.
Lemma preserves_modify (I : W -> Prop) f : (forall w, I w -> I (f w)) -> preserves I (modify f).
Proof. intros H w. apply H. Qed.
Lemma preserves_bind {A B} I (m : M W E A) (k : A -> M W E B) :
  preserves I m -> (forall a, preserves I (k a)) -> preserves I (m ≫= k).
Proof.
  intros Hm Hk w Hw. unfold mbind, M_bind.
  pose proof (Hm w Hw) as H1. destruct (m w) as [[a|e] w1]; [by apply Hk | done].
Qed.
(** The same, when the first statement's result is known to satisfy [Q]. *)
Lemma preserves_bind_post {A B} (I : W -> Prop) (Q : A -> Prop) (m : M W E A) (k : A -> M W E B) :
  preserves I m -> (forall w a, I w -> (m w).1 = Ok a -> Q a) ->
  (forall a, Q a -> preserves I (k a)) -> preserves I (m ≫= k).
Proof.
  intros Hm HQ Hk w Hw. unfold mbind, M_bind. pose proof (Hm w Hw) as H1.
  specialize (HQ w). destruct (m w) as [[a|e] w1]; [|done]. apply Hk; [by apply HQ|done].
Qed.
Lemma preserves_catch {A} I (m : M W E A) h :
  preserves I m -> (forall e, preserves I (h e)) -> preserves I (catch m h).
Proof.
  intros Hm Hh w Hw. unfold catch.
  pose proof (Hm w Hw) as H1. destruct (m w) as [[a|e] w1]; [done | by apply Hh].
Qed.
Lemma preserves_for_each {A} I (f : A -> M W E unit) l :
  (forall x, preserves I (f x)) -> preserves I (for_each f l).
Proof.
  intros Hf. induction l as [|x l IH]; [apply preserves_ret|].
  simpl. by apply preserves_bind.
Qed.
Lemma preserves_for_map {A B} I (f : A -> M W E B) l :
  (forall x, preserves I (f x)) -> preserves I (for_map f l).
Proof.
  intros Hf. induction l as [|x l IH]; [apply preserves_ret|].
  simpl. apply preserves_bind; [done|]. intros y.
  apply preserves_bind; [done|]. intros. apply preserves_ret.
Qed.

(** [m] returns from [w], with a value and a state that satisfy [Q]. *)
Definition runs {A} (m : M W E A) (w : W) (Q : A -> W -> Prop) : Prop :=
  exists a w', m w = (Ok a, w') /\ Q a w'.

Lemma runs_eq {A} (m : M W E A) w a w' (Q : A -> W -> Prop) :
  m w = (Ok a, w') -> Q a w' -> runs m w Q.
Proof. intros. by exists a, w'. Qed.

Lemma runs_ret {A} (a : A) w (Q : A -> W -> Prop) : Q a w -> runs (mret a) w Q.
Proof. by apply runs_eq. Qed.

Lemma runs_bind {A B} (m : M W E A) (k : A -> M W E B) w (P : A -> W -> Prop) (Q : B -> W -> Prop) :
  runs m w P -> (forall a w1, P a w1 -> runs (k a) w1 Q) -> runs (m ≫= k) w Q.
Proof.
  intros (a & w1 & Hm & HP) Hk. destruct (Hk a w1 HP) as (b & w2 & Hr & HQ).
  exists b, w2. split; [|done]. by rewrite (bind_step _ _ _ _ _ Hm).
Qed.

(** A read. *)
Lemma runs_gets {A B} (f : W -> A) (k : A -> M W E B) w (Q : B -> W -> Prop) :
  runs (k (f w)) w Q -> runs (gets f ≫= k) w Q.
Proof. done. Qed.

Lemma runs_assoc {A B C} (m : M W E A) (f : A -> M W E B) (g : B -> M W E C) w Q :
  runs ((m ≫= f) ≫= g) w Q <-> runs (m ≫= (fun a => f a ≫= g)) w Q.
Proof. unfold runs, mbind, M_bind. by destruct (m w) as [[a|e] w1]. Qed.

Lemma runs_mono {A} (m : M W E A) w (P Q : A -> W -> Prop) :
  runs m w P -> (forall a w', P a w' -> Q a w') -> runs m w Q.
Proof. intros (a & w' & Hm & HP) H. exists a, w'. auto. Qed.

Lemma runs_throw_if {B} (c : bool) (e : E) (k : unit -> M W E B) w (Q : B -> W -> Prop) :
  c = false -> runs (k tt) w Q -> runs (throw_if c e ≫= k) w Q.
Proof. by intros ->. Qed.

(** The rules of [wp], for an operation that may also throw. *)
Lemma wp_gets {A B} (f : W -> A) (k : A -> M W E B) Q w : wp (k (f w)) Q w -> wp (gets f ≫= k) Q w.
Proof. done. Qed.
Lemma wp_lift {A B} (r : result E A) (k : A -> M W E B) Q w :
  (forall a, r = Ok a -> wp (k a) Q w) -> (forall e, r = Throw e -> Q (Throw e) w) ->
  wp (lift r ≫= k) Q w.
Proof. destruct r; unfold wp, lift, mbind, M_bind; cbn; auto. Qed.
Lemma wp_throw_if {B} (c : bool) (e : E) (k : unit -> M W E B) Q w :
  (c = true -> Q (Throw e) w) -> (c = false -> wp (k tt) Q w) -> wp (throw_if c e ≫= k) Q w.
Proof. destruct c; unfold wp, mbind, M_bind; cbn; auto. Qed.
Lemma wp_runs {A} (m : M W E A) (Q : result E A -> W -> Prop) w :
  runs m w (fun a w' => Q (Ok a) w') -> wp m Q w.
Proof. intros (a & w' & H & HQ). unfold wp. by rewrite H. Qed.
Lemma wp_step {A B} (m : M W E A) (k : A -> M W E B) Q w a w1 :
  m w = (Ok a, w1) -> wp (k a) Q w1 -> wp (m ≫= k) Q w.
Proof. intros H HQ. unfold wp. by rewrite (bind_step _ _ _ _ _ H). Qed.

(** A loop, by an invariant over the elements done and to do. *)
Lemma runs_for_each {A} (f : A -> M W E unit) l w (R : list A -> list A -> W -> Prop) :
  R [] l w ->
  (forall x done todo w, R done (x :: todo) w -> runs (f x) w (fun _ w' => R (done ++ [x]) todo w')) ->
  runs (for_each f l) w (fun _ w' => R l [] w').
Proof.
  intros H0 Hf.
  assert (forall done todo w, R done todo w -> runs (for_each f todo) w (fun _ w' => R (done ++ todo) [] w')) as H.
  { intros done todo. revert done. induction todo as [|x todo IH]; intros done w1 HR; cbn.
    - apply runs_ret. by rewrite app_nil_r.
    - eapply runs_bind; [by apply Hf|]. intros [] w2 H2.
      eapply runs_mono; [by apply IH|]. intros [] w3. by rewrite <- app_assoc. }
  by apply (H []).
Qed.
End monad.

Create HintDb preserve discriminated.
#[export] Hint Resolve preserves_ret preserves_throw preserves_lift preserves_gets preserves_get
  preserves_throw_if : preserve.

(** [solve_preserves] walks through the code of an operation: sequencing, branches, loops
    and exception handlers, and closes the leaves with the [preserve] hints. *)
Ltac preserves_step :=
  match goal with
  | |- preserves _ (_ ≫= _) => apply preserves_bind; [|intros ?]
  | |- preserves _ (for_each _ _) => apply preserves_for_each; intros ?
  | |- preserves _ (for_map _ _) => apply preserves_for_map; intros ?
  | |- preserves _ (catch _ _) => apply preserves_catch; [|intros ?]
  | |- preserves _ (when _ _) => apply preserves_when
  | |- preserves _ (match ?x with _ => _ end) => destruct x
  | |- preserves _ (let '(_, _) := ?x in _) => destruct x
  end.
Ltac solve_preserves :=
  repeat (first [ solve [auto with preserve nocore] | preserves_step ]).

(** [guards H] turns a guard that did not fire into its negated conditions. *)
Ltac guards H :=
  rewrite ?orb_false_iff, ?negb_false_iff, ?andb_true_iff, ?bool_decide_eq_false,
    ?bool_decide_eq_true, ?Z.leb_le, ?Z.ltb_lt in H;
  destruct_and? H.

(** [step_with lem] runs the first statement of a sequence. *)
Ltac step_with lem := rewrite (bind_step _ _ _ _ _ lem); cbv beta.

(** [inv_bind H] takes apart the run of a sequence that returned. *)
Ltac inv_bind H :=
  let a := fresh "a" in let w := fresh "w" in let E := fresh "E" in
  apply bind_ok in H as (a & w & E & H).

(** ** Rows

    A table is the list of its rows in insertion order.  The generic part of the SQL
    statements the program prepares: a [SELECT ... LIMIT 1], an [UPDATE ... WHERE] and a
    [DELETE ... WHERE]. *)

Section rows.
Context {A : Type}.
Implicit Types (l : list A) (P : A -> Prop).

Definition select P `{!forall x, Decision (P x)} l : list A := filter P l.
Definition get_row P `{!forall x, Decision (P x)} l : option A := head (select P l).
Definition update_where P `{!forall x, Decision (P x)} (f : A -> A) l : list A :=
  (fun x => if decide (P x) then f x else x) <$> l.
Definition delete_where P `{!forall x, Decision (P x)} l : list A :=
  filter (fun x => ~ P x) l.

Context (P : A -> Prop) {PDec : forall x, Decision (P x)}.

Lemma elem_of_select x l : x ∈ select P l <-> P x /\ x ∈ l.
Proof. unfold select. by rewrite list_elem_of_filter. Qed.

Lemma get_row_Some x l : get_row P l = Some x -> P x /\ x ∈ l.
Proof.
  unfold get_row. intros H. apply elem_of_select.
  destruct (select P l); simplify_eq/=. constructor.
Qed.

Lemma get_row_None l : get_row P l = None <-> forall x, x ∈ l -> ~ P x.
Proof.
  unfold get_row. destruct (select P l) as [|y k] eqn:Hs; simpl; split; try done.
  - intros Hl x Hx HP. assert (x ∈ select P l) as Hin by by apply elem_of_select.
    rewrite Hs in Hin. by apply elem_of_nil in Hin.
  - intros H. assert (y ∈ select P l) as [HP Hy]%elem_of_select
      by (rewrite Hs; constructor).
    by destruct (H y Hy).
Qed.

(** Under a uniqueness constraint on [key] the row found is the row. *)
Lemma get_row_unique {K} (key : A -> K) x l :
  NoDup (key <$> l) -> x ∈ l -> P x -> (forall y, y ∈ l -> P y -> key y = key x) ->
  get_row P l = Some x.
Proof.
  intros Hnd Hx HP Hk. destruct (get_row P l) as [y|] eqn:Hg.
  - apply get_row_Some in Hg as [HPy Hy]. f_equal.
    apply list_elem_of_lookup in Hx as [i Hi], Hy as [j Hj].
    assert (i = j) as ->; [|congruence].
    eapply NoDup_lookup; [done| |].
    + rewrite list_lookup_fmap, Hi. done.
    + rewrite list_lookup_fmap, Hj. simpl. f_equal.
      apply Hk; [|done]. by eapply list_elem_of_lookup_2.
  - rewrite get_row_None in Hg. by destruct (Hg x Hx).
Qed.

(** The row just inserted. *)
Lemma get_row_last x l : (forall y, y ∈ l -> ~ P y) -> P x -> get_row P (l ++ [x]) = Some x.
Proof.
  intros Hl Hx. unfold get_row, select. induction l as [|y l IH]; cbn [app].
  - by rewrite filter_cons_True.
  - rewrite filter_cons_False by (apply Hl; constructor). apply IH. intros z Hz. apply Hl. by constructor.
Qed.

Lemma elem_of_update_where f x l :
  x ∈ update_where P f l <-> exists y, y ∈ l /\ ((P y /\ x = f y) \/ (~ P y /\ x = y)).
Proof.
  unfold update_where. rewrite list_elem_of_fmap. split.
  - intros (y & -> & Hy). exists y. case_decide; naive_solver.
  - intros (y & Hy & H). exists y. case_decide; naive_solver.
Qed.

Lemma elem_of_delete_where x l : x ∈ delete_where P l <-> ~ P x /\ x ∈ l.
Proof. unfold delete_where. by rewrite list_elem_of_filter. Qed.

Lemma update_where_fmap {K} (key : A -> K) f l :
  (forall x, key (f x) = key x) -> key <$> update_where P f l = key <$> l.
Proof.
  intros Hf. unfold update_where. rewrite <- list_fmap_compose.
  apply list_fmap_ext. intros i x _. simpl. case_decide; auto.
Qed.

Lemma length_update_where f l : length (update_where P f l) = length l.
Proof. apply length_fmap. Qed.

Lemma update_where_id f l : (forall x, x ∈ l -> ~ P x) -> update_where P f l = l.
Proof.
  intros H. unfold update_where. induction l as [|x l IH]; [done|]. simpl.
  rewrite decide_False by (apply H; constructor).
  f_equal. apply IH. intros y Hy. apply H. by constructor.
Qed.

Lemma delete_where_sublist l : delete_where P l `sublist_of` l.
Proof. apply sublist_filter. Qed.
End rows.

(** Two rows with the same value in a unique column are the same row. *)
Lemma NoDup_fmap_inj {A K} (key : A -> K) (l : list A) x y :
  NoDup (key <$> l) -> x ∈ l -> y ∈ l -> key x = key y -> x = y.
Proof.
  intros Hnd Hx Hy Hk.
  apply list_elem_of_lookup in Hx as [i Hi], Hy as [j Hj].
  assert (i = j) as ->; [|congruence].
  eapply NoDup_lookup; [done| |].
  - rewrite list_lookup_fmap, Hi. done.
  - rewrite list_lookup_fmap, Hj. simpl. by rewrite Hk.
Qed.

(** ** Sorting

    [Array.prototype.sort] is stable and so is this insertion sort; an [ORDER BY] on a
    unique column is the same list. *)

Section sort.
Context {A : Type} (leb : A -> A -> bool).

Fixpoint insert_by (x : A) (l : list A) : list A :=
  match l with
  | [] => [x]
  | y :: l' => if leb x y then x :: y :: l' else y :: insert_by x l'
  end.

Fixpoint sort_by (l : list A) : list A :=
  match l with
  | [] => []
  | x :: l' => insert_by x (sort_by l')
  end.

Lemma insert_by_perm x l : insert_by x l ≡ₚ x :: l.
Proof.
  induction l as [|y l IH]; simpl; [done|]. destruct (leb x y); [done|].
  rewrite IH. apply Permutation_swap.
Qed.

Lemma sort_by_perm l : sort_by l ≡ₚ l.
Proof. induction l as [|x l IH]; simpl; [done|]. by rewrite insert_by_perm, IH. Qed.

Lemma elem_of_sort_by x l : x ∈ sort_by l <-> x ∈ l.
Proof. by rewrite sort_by_perm. Qed.

Lemma length_sort_by l : length (sort_by l) = length l.
Proof. apply Permutation_length, sort_by_perm. Qed.

Context (leb_total : forall x y, leb x y = true \/ leb y x = true).
Context (leb_trans : forall x y z, leb x y = true -> leb y z = true -> leb x z = true).

Lemma insert_by_sorted x l :
  StronglySorted (fun a b => leb a b = true) l ->
  StronglySorted (fun a b => leb a b = true) (insert_by x l).
Proof using leb_total leb_trans.
  induction 1 as [|y l Hl IH Hy]; simpl; [by repeat constructor|].
  destruct (leb x y) eqn:Hxy.
  - constructor; [by constructor|]. constructor; [done|].
    eapply Forall_impl; [exact Hy|]. simpl. intros z. by apply leb_trans.
  - constructor; [done|]. rewrite insert_by_perm. constructor; [|done].
    destruct (leb_total x y); congruence.
Qed.

Lemma sort_by_sorted l : StronglySorted (fun a b => leb a b = true) (sort_by l).
Proof using leb_total leb_trans. induction l; simpl; [constructor | by apply insert_by_sorted]. Qed.
End sort.

(** Sorting on a two-valued key is a stable partition. *)
Lemma sort_by_bool {A} (key : A -> bool) (l : list A) :
  sort_by (fun x y => key x || negb (key y)) l =
  filter (fun x => key x = true) l ++ filter (fun x => key x = false) l.
Proof.
  induction l as [|x l IH]; [done|]. simpl. rewrite IH. clear IH.
  rewrite !filter_cons. destruct (key x) eqn:Hx.
  - rewrite decide_True, decide_False by done. simpl.
    destruct (filter _ l ++ _); simpl; [done|]. by rewrite Hx.
  - rewrite decide_False, decide_True by done.
    assert (forall k, Forall (fun y => key y = true) k ->
      insert_by (fun x y => key x || negb (key y)) x (k ++ filter (fun x => key x = false) l)
      = k ++ x :: filter (fun x => key x = false) l) as ->; [|done|].
    + induction 1 as [|y k Hy Hk IHk]; simpl.
      * destruct (filter _ l) as [|z k] eqn:Hf; simpl; [done|]. rewrite Hx.
        assert (z ∈ filter (fun x => key x = false) l) as [Hz _]%list_elem_of_filter
          by (rewrite Hf; constructor).
        by rewrite Hz.
      * rewrite Hx, Hy. simpl. by rewrite IHk.
    + apply Forall_forall. by intros y [Hy _]%list_elem_of_filter.
Qed.

(** ** Association lists with string keys: JavaScript's objects and maps, in insertion order *)

Fixpoint alookup {A} (k : string) (l : list (string * A)) : option A :=
  match l with
  | [] => None
  | (k', v) :: l' => if String.eqb k k' then Some v else alookup k l'
  end.

(** [m.set(k, v)]: an existing key keeps its place. *)
Fixpoint aset {A} (k : string) (v : A) (l : list (string * A)) : list (string * A) :=
  match l with
  | [] => [(k, v)]
  | (k', v') :: l' => if String.eqb k k' then (k, v) :: l' else (k', v') :: aset k v l'
  end.

Lemma alookup_None {A} k (l : list (string * A)) : alookup k l = None <-> k ∉ l.*1.
Proof.
  induction l as [|[k' v] l IH]; cbn; [split; [intros _; apply not_elem_of_nil|done]|].
  rewrite not_elem_of_cons, <- IH. destruct (String.eqb_spec k k'); split; [done|by intros []|done|by intros []].
Qed.

Lemma alookup_in {A} k (v : A) l : alookup k l = Some v -> (k, v) ∈ l.
Proof.
  induction l as [|[k' v'] l IH]; cbn; [done|].
  destruct (String.eqb_spec k k') as [->|]; [intros [= ->]; constructor|]. intros. constructor. auto.
Qed.

Lemma alookup_aset {A} k (v : A) l : alookup k (aset k v l) = Some v.
Proof.
  induction l as [|[k' v'] l IH]; cbn; [by rewrite String.eqb_refl|].
  destruct (String.eqb_spec k k'); cbn; [by rewrite String.eqb_refl|].
  by rewrite (proj2 (String.eqb_neq k k')).
Qed.

Lemma aset_fresh {A} k (v : A) l : k ∉ l.*1 -> aset k v l = l ++ [(k, v)].
Proof.
  induction l as [|[k' v'] l IH]; cbn; [done|]. intros [Hk Hl]%not_elem_of_cons.
  rewrite (proj2 (String.eqb_neq k k')) by done. by rewrite IH.
Qed.

Lemma fst_aset {A} k (v : A) l : (aset k v l).*1 = if decide (k ∈ l.*1) then l.*1 else l.*1 ++ [k].
Proof.
  induction l as [|[j u] l IH]; cbn; [done|]. destruct (String.eqb_spec k j) as [->|Hne]; cbn.
  - by rewrite decide_True by left.
  - change (list_fmap _ _ fst (aset k v l)) with ((aset k v l).*1). rewrite IH.
    change (list_fmap _ _ fst l) with (l.*1). destruct (decide (k ∈ l.*1)).
    + by rewrite decide_True by (by right).
    + rewrite decide_False; [done|]. by intros [?|?]%elem_of_cons.
Qed.
Lemma alookup_aset_ne {A} k j (v : A) l : j <> k -> alookup j (aset k v l) = alookup j l.
Proof.
  intros Hne. induction l as [|[k' v'] l IH]; cbn; [by rewrite (proj2 (String.eqb_neq j k))|].
  destruct (String.eqb_spec k k'); cbn; [|by rewrite IH].
  subst. by rewrite (proj2 (String.eqb_neq j k')).
Qed.

(** ** Options as JavaScript's nullable values *)

(** [a ?? b] *)
Definition nullish {A} (o : option A) (d : A) : A := default d o.
(** [a ?? b] with a nullable right-hand side *)
Definition nullish_or {A} (o o' : option A) : option A :=
  match o with Some _ => o | None => o' end.
Notation is_some o := (match o with Some _ => true | None => false end).

Lemma filter_all {A} (P : A -> Prop) {PDec : forall x, Decision (P x)} (l : list A) :
  Forall P l -> filter P l = l.
Proof. induction 1 as [|x l Hx _ IH]; [done|]. rewrite filter_cons_True by done. by rewrite IH. Qed.

Lemma filter_none {A} (P : A -> Prop) {PDec : forall x, Decision (P x)} (l : list A) :
  (forall x, x ∈ l -> ~ P x) -> filter P l = [].
Proof.
  induction l as [|x l IH]; intros H; [done|]. rewrite filter_cons_False by (apply H; constructor).
  apply IH. intros y Hy. apply H. by constructor.
Qed.

(** The first matching row of an extended table. *)
Lemma get_row_app {A} (P : A -> Prop) {PDec : forall x, Decision (P x)} l k :
  get_row P (l ++ k) = match get_row P l with Some y => Some y | None => get_row P k end.
Proof.
  unfold get_row, select. rewrite filter_app. by destruct (filter P l).
Qed.

Lemma get_row_single {A} (P : A -> Prop) {PDec : forall x, Decision (P x)} x :
  P x -> get_row P [x] = Some x.
Proof. intros H. unfold get_row, select. by rewrite filter_cons_True. Qed.

Lemma get_row_is_Some {A} (P : A -> Prop) {PDec : forall x, Decision (P x)} l x :
  x ∈ l -> P x -> is_Some (get_row P l).
Proof.
  intros Hx HP. destruct (get_row P l) eqn:H; [by eexists|].
  rewrite get_row_None in H. by destruct (H x Hx).
Qed.

(** ** [[...new Set(l)]]: the distinct elements, first occurrences first *)

Fixpoint dedup {A} `{EqDecision A} (seen : list A) (l : list A) : list A :=
  match l with
  | [] => []
  | t :: l' => if bool_decide (t ∈ seen) then dedup seen l' else t :: dedup (t :: seen) l'
  end.

Lemma elem_of_dedup {A} `{EqDecision A} (seen l : list A) x : x ∈ dedup seen l <-> x ∈ l /\ x ∉ seen.
Proof.
  revert seen. induction l as [|t l IH]; intros seen; cbn; [set_solver|].
  case_bool_decide; rewrite ?elem_of_cons, ?IH; [set_solver|].
  destruct (decide (x = t)); set_solver.
Qed.

Lemma NoDup_dedup {A} `{EqDecision A} (seen l : list A) : NoDup (dedup seen l).
Proof.
  revert seen. induction l as [|t l IH]; intros seen; cbn; [constructor|].
  case_bool_decide; [done|]. constructor; [|done]. rewrite elem_of_dedup. set_solver.
Qed.

(** An update that keeps the condition's columns is seen by the look-up. *)
Lemma get_row_update {A} (P Q : A -> Prop) {PDec : forall x, Decision (P x)}
    {QDec : forall x, Decision (Q x)} f l :
  (forall x, P (f x) <-> P x) ->
  get_row P (update_where Q f l) = (fun x => if decide (Q x) then f x else x) <$> get_row P l.
Proof.
  intros Hf. unfold get_row, select, update_where. induction l as [|x l IH]; [done|].
  rewrite fmap_cons, !filter_cons. destruct (decide (P x)) as [Hp|Hp].
  - rewrite decide_True by (case_decide; by rewrite ?Hf). done.
  - rewrite decide_False by (case_decide; by rewrite ?Hf). exact IH.
Qed.

(** ** Tables seen through a change of their rows *)

Lemma get_row_fmap {A} (P : A -> Prop) {PDec : forall x, Decision (P x)} (k : A -> A) l :
  (forall x, P (k x) <-> P x) -> get_row P (k <$> l) = k <$> get_row P l.
Proof.
  intros Hk. unfold get_row, select. induction l as [|x l IH]; [done|].
  rewrite fmap_cons, !filter_cons. destruct (decide (P x)).
  - by rewrite decide_True by by apply Hk.
  - rewrite decide_False by by rewrite Hk. exact IH.
Qed.

Lemma omap_fmap_comm {A B} (g g' : A -> option B) (h : A -> A) (k : B -> B) (l : list A) :
  (forall x, g' (h x) = k <$> g x) -> omap g' (h <$> l) = k <$> omap g l.
Proof.
  intros H. induction l as [|x l IH]; [done|]. cbn. rewrite H. destruct (g x); cbn; [by f_equal|done].
Qed.

(** Nothing to delete. *)
Lemma delete_where_none {A} (P : A -> Prop) {PDec : forall x, Decision (P x)} l :
  (forall x, x ∈ l -> ~ P x) -> delete_where P l = l.
Proof.
  intros H. unfold delete_where. induction l as [|x l IH]; [done|]. rewrite filter_cons_True.
  - f_equal. apply IH. intros y Hy. apply H. by constructor.
  - apply H. constructor.
Qed.

(** [let x = m.get(k); if (!x) { x = init; m.set(k, x); } f(x);] on a [Map] in insertion
    order. *)
Fixpoint alter_or {A} (k : string) (init : A) (f : A -> A) (m : list (string * A))
    : list (string * A) :=
  match m with
  | [] => [(k, f init)]
  | (k', a) :: m' => if String.eqb k k' then (k', f a) :: m' else (k', a) :: alter_or k init f m'
  end.

(** ** Grouping: a fold of [alter_or] *)

Section groups.
Context {E A : Type} (key : E -> string) (init : E -> A) (f : E -> A -> A).

Definition grouped (es : list E) : list (string * A) :=
  fold_left (fun m e => alter_or (key e) (init e) (f e) m) es [].
(** The entry of a key: its elements in order, the first one making it. *)
Definition entry_of (es : list E) : option A :=
  match es with e :: _ => Some (fold_left (fun a e => f e a) es (init e)) | [] => None end.

Lemma alter_or_keys k i (g : A -> A) (m : list (string * A)) :
  (alter_or k i g m).*1 = if decide (k ∈ m.*1) then m.*1 else m.*1 ++ [k].
Proof.
  induction m as [|[k' a] m IH]; cbn; [done|]. destruct (String.eqb_spec k k') as [->|Hne]; cbn.
  - by rewrite decide_True by constructor.
  - rewrite IH. repeat case_decide; set_solver.
Qed.

Lemma alookup_alter_or k i (g : A -> A) m j :
  alookup j (alter_or k i g m) =
  if String.eqb j k then Some (g (default i (alookup k m))) else alookup j m.
Proof.
  induction m as [|[k' a] m IH]; cbn; [done|]. destruct (String.eqb_spec k k') as [->|Hne]; cbn.
  - by destruct (String.eqb_spec j k').
  - rewrite IH. destruct (String.eqb_spec j k'); [|done]. subst. by destruct (String.eqb_spec k' k).
Qed.

Lemma grouped_snoc es e :
  grouped (es ++ [e]) = alter_or (key e) (init e) (f e) (grouped es).
Proof. unfold grouped. by rewrite fold_left_app. Qed.

Lemma grouped_keys es : NoDup (grouped es).*1 /\ forall k, k ∈ (grouped es).*1 <-> k ∈ key <$> es.
Proof.
  induction es as [|e es [Hnd IH]] using rev_ind; [split; [constructor|set_solver]|].
  rewrite grouped_snoc, alter_or_keys, fmap_app. case_decide.
  - split; [done|]. intros k. specialize (IH k). set_solver.
  - split; [|intros k; specialize (IH k); set_solver]. apply NoDup_app. split; [done|].
    split; [set_solver|apply NoDup_singleton].
Qed.

Lemma grouped_lookup es k :
  alookup k (grouped es) = entry_of (filter (fun e => key e = k) es).
Proof.
  induction es as [|e es IH] using rev_ind; [done|].
  rewrite grouped_snoc, alookup_alter_or, filter_app. destruct (String.eqb_spec k (key e)) as [->|Hne].
  - rewrite filter_cons_True, filter_nil by done. rewrite IH.
    destruct (filter _ es) as [|e0 l]; [done|]. cbn [entry_of default app].
    by rewrite app_comm_cons, fold_left_app.
  - rewrite filter_cons_False, filter_nil, app_nil_r by done. done.
Qed.

Lemma grouped_entry es k a :
  (k, a) ∈ grouped es -> entry_of (filter (fun e => key e = k) es) = Some a.
Proof.
  rewrite <- grouped_lookup. intros Hin. pose proof (proj1 (grouped_keys es)) as Hnd.
  induction (grouped es) as [|[k' a'] m IH]; cbn in *; [set_solver|].
  apply NoDup_cons in Hnd as [Hk Hnd]. apply elem_of_cons in Hin as [[= <- <-]|Hin].
  - by rewrite String.eqb_refl.
  - destruct (String.eqb_spec k k') as [->|_]; [|auto]. destruct Hk. by apply (list_elem_of_fmap_2 fst _ (k', a)).
Qed.
End groups.
