(* ===== verification/Js.v ===== *)
(** * Js: the JavaScript values the program computes with

    Strings are sequences of 8-bit code units, the Latin-1 part of JavaScript's UTF-16
    strings.  Numbers are IEEE-754 doubles ([spec_float]) where the program divides,
    rounds or receives them from the wire, and [Z] where it counts, indexes or stamps time.
    A regular expression literal is a term of [re]; [re_test] is its executable matcher and
    [accepts] its declarative meaning. *)
From S2P Require Import Prelude.
From Stdlib Require Export Floats.SpecFloat.
From Stdlib Require Import Ascii Lia.
From stdpp Require Import pretty.
Open Scope Z_scope.

#[global] Arguments String.app : simpl nomatch.

(** ** Strings *)

Definition code (c : ascii) : N := N_of_ascii c.
Definition in_range (lo hi : N) (c : ascii) : bool := (lo <=? code c)%N && (code c <=? hi)%N.

(** White space and line terminators below U+0100. *)
Definition is_space (c : ascii) : bool :=
  in_range 9 13 c || (code c =? 32)%N || (code c =? 160)%N.

Fixpoint trim_start (s : string) : string :=
  match s with
  | String c s' => if is_space c then trim_start s' else s
  | EmptyString => ""
  end.

Fixpoint trim_end (s : string) : string :=
  match s with
  | String c s' =>
      match trim_end s' with
      | EmptyString => if is_space c then "" else String c ""
      | t => String c t
      end
  | EmptyString => ""
  end.

(** [s.trim()] *)
Definition trim (s : string) : string := trim_end (trim_start s).

Definition lower_char (c : ascii) : ascii :=
  if in_range 65 90 c || (in_range 192 222 c && negb (code c =? 215)%N)
  then ascii_of_N (code c + 32) else c.

(** [s.toLowerCase()] *)
Fixpoint to_lower (s : string) : string :=
  match s with
  | String c s' => String (lower_char c) (to_lower s')
  | EmptyString => ""
  end.

(** [s.slice(0, n)] *)
Fixpoint take_str (n : nat) (s : string) : string :=
  match n, s with
  | S n', String c s' => String c (take_str n' s')
  | _, _ => ""
  end.

Fixpoint starts_with (p s : string) : bool :=
  match p, s with
  | EmptyString, _ => true
  | String a p', String b s' => Ascii.eqb a b && starts_with p' s'
  | _, _ => false
  end.

(** [s.includes(p)] *)
Fixpoint includes (p s : string) : bool :=
  starts_with p s || match s with String _ s' => includes p s' | EmptyString => false end.

(** [s.split(c)] for a one-character separator *)
Fixpoint split_on (c : ascii) (s : string) : list string :=
  match s with
  | EmptyString => [""]
  | String a s' =>
      if Ascii.eqb a c then "" :: split_on c s'
      else match split_on c s' with
           | t :: ts => String a t :: ts
           | [] => [String a ""]
           end
  end.

(** [l.join(sep)] *)
Fixpoint join (sep : string) (l : list string) : string :=
  match l with
  | [] => ""
  | [s] => s
  | s :: l' => s +:+ sep +:+ join sep l'
  end.

(** A string used as a condition. *)
Definition truthy (s : string) : bool := negb (String.eqb s "").
(** [s || null] *)
Definition or_null (s : string) : option string := if truthy s then Some s else None.
(** [a || b] *)
Definition or_str (a b : string) : string := if truthy a then a else b.

(** SQLite's BINARY collation and JavaScript's [<] on strings. *)
Definition str_leb (a b : string) : bool :=
  match String.compare a b with Gt => false | _ => true end.

(** Decimal digits of an integer, [String(n)]. *)
Definition string_of_Z (n : Z) : string := pretty n.

(** ** Regular expressions *)

Inductive re : Type :=
| RNone
| REps
| RChr (p : ascii -> bool)
| RSeq (a b : re)
| RAlt (a b : re)
| RStar (a : re).

Inductive accepts : re -> string -> Prop :=
| acc_eps : accepts REps ""
| acc_chr p c : p c = true -> accepts (RChr p) (String c "")
| acc_seq a b s t : accepts a s -> accepts b t -> accepts (RSeq a b) (s +:+ t)
| acc_altl a b s : accepts a s -> accepts (RAlt a b) s
| acc_altr a b s : accepts b s -> accepts (RAlt a b) s
| acc_star_nil a : accepts (RStar a) ""
| acc_star a s t : accepts a s -> accepts (RStar a) t -> accepts (RStar a) (s +:+ t).

(** Simplifying constructors keep the derivatives small. *)
Definition mk_seq (a b : re) : re :=
  match a, b with
  | RNone, _ | _, RNone => RNone
  | REps, _ => b
  | _, _ => RSeq a b
  end.
Definition mk_alt (a b : re) : re :=
  match a, b with
  | RNone, _ => b
  | _, RNone => a
  | _, _ => RAlt a b
  end.

Fixpoint nullable (r : re) : bool :=
  match r with
  | RNone | RChr _ => false
  | REps | RStar _ => true
  | RSeq a b => nullable a && nullable b
  | RAlt a b => nullable a || nullable b
  end.

Fixpoint deriv (c : ascii) (r : re) : re :=
  match r with
  | RNone | REps => RNone
  | RChr p => if p c then REps else RNone
  | RSeq a b =>
      if nullable a then mk_alt (mk_seq (deriv c a) b) (deriv c b)
      else mk_seq (deriv c a) b
  | RAlt a b => mk_alt (deriv c a) (deriv c b)
  | RStar a => mk_seq (deriv c a) (RStar a)
  end.

(** [/^r$/.test(s)] *)
Fixpoint re_test (r : re) (s : string) : bool :=
  match s with
  | EmptyString => nullable r
  | String c s' => re_test (deriv c r) s'
  end.

Definition rany : re := RStar (RChr (fun _ => true)).
(** [/r/.test(s)], unanchored *)
Definition re_search (r : re) (s : string) : bool := re_test (RSeq rany (RSeq r rany)) s.

Fixpoint rlit (s : string) : re :=
  match s with
  | EmptyString => REps
  | String c s' => RSeq (RChr (Ascii.eqb c)) (rlit s')
  end.
(** A literal under the [i] flag. *)
Fixpoint rlit_ci (s : string) : re :=
  match s with
  | EmptyString => REps
  | String c s' => RSeq (RChr (fun d => Ascii.eqb (lower_char c) (lower_char d))) (rlit_ci s')
  end.
Definition ropt (r : re) : re := RAlt REps r.
Definition rplus (r : re) : re := RSeq r (RStar r).
(** [r{0,n}] *)
Fixpoint rupto (n : nat) (r : re) : re :=
  match n with O => REps | S n' => ropt (RSeq r (rupto n' r)) end.
(** [r{n}] *)
Fixpoint rtimes (n : nat) (r : re) : re :=
  match n with O => REps | S n' => RSeq r (rtimes n' r) end.

Definition c_digit := in_range 48 57.
Definition c_lower := in_range 97 122.
Definition c_upper := in_range 65 90.
Definition c_alpha (c : ascii) := c_lower c || c_upper c.
Definition c_alnum (c : ascii) := c_alpha c || c_digit c.
Fixpoint c_of (s : string) (c : ascii) : bool :=
  match s with EmptyString => false | String d s' => Ascii.eqb c d || c_of s' c end.

Lemma accepts_none s : ~ accepts RNone s.
Proof. inversion 1. Qed.
Lemma accepts_eps s : accepts REps s <-> s = "".
Proof. split; [by inversion 1 | intros ->; constructor]. Qed.
Lemma accepts_chr p s : accepts (RChr p) s <-> exists c, s = String c "" /\ p c = true.
Proof. split; [inversion 1; eauto | intros (c & -> & ?); by constructor]. Qed.
Lemma accepts_seq a b s :
  accepts (RSeq a b) s <-> exists t u, s = t +:+ u /\ accepts a t /\ accepts b u.
Proof. split; [inversion 1; eauto | intros (t & u & -> & ? & ?); by constructor]. Qed.
Lemma accepts_alt a b s : accepts (RAlt a b) s <-> accepts a s \/ accepts b s.
Proof. split; [inversion 1; eauto | intros []; [by apply acc_altl | by apply acc_altr]]. Qed.

Lemma str_app_nil_r (s : string) : s +:+ "" = s.
Proof. induction s as [|c s IH]; [done|]. cbn. by f_equal. Qed.

Lemma str_app_assoc (a b c : string) : (a +:+ b) +:+ c = a +:+ (b +:+ c).
Proof. induction a as [|d a IH]; cbn; [done|]. by rewrite IH. Qed.

Lemma mk_seq_spec a b s : accepts (mk_seq a b) s <-> accepts (RSeq a b) s.
Proof.
  assert (forall s, accepts (RSeq RNone b) s -> accepts RNone s) as Hn.
  { intros t (? & ? & -> & H & _)%accepts_seq. by destruct (accepts_none _ H). }
  assert (forall a s, accepts (RSeq a RNone) s -> accepts RNone s) as Hm.
  { intros a' t (? & ? & -> & _ & H)%accepts_seq. by destruct (accepts_none _ H). }
  split.
  - unfold mk_seq. destruct a, b; try done; intros H;
      try (by destruct (accepts_none _ H)); by apply (acc_seq REps _ ""); [constructor|].
  - unfold mk_seq. destruct a, b; try done; intros H; try by eauto.
    all: apply accepts_seq in H as (t & u & -> & Ht%accepts_eps & Hu); by subst.
Qed.

Lemma mk_alt_spec a b s : accepts (mk_alt a b) s <-> accepts (RAlt a b) s.
Proof.
  rewrite accepts_alt. unfold mk_alt.
  destruct a, b; rewrite ?accepts_alt; pose proof (accepts_none s); tauto.
Qed.

Lemma nullable_spec r : nullable r = true <-> accepts r "".
Proof.
  induction r as [| |p|a IHa b IHb|a IHa b IHb|a IHa]; simpl.
  - split; [done | by intros ?%accepts_none].
  - split; [by constructor | done].
  - split; [done|]. intros (c & ? & _)%accepts_chr. done.
  - rewrite andb_true_iff, IHa, IHb, accepts_seq. split.
    + intros [? ?]. by exists "", "".
    + intros ([] & [] & Heq & ? & ?); by cbn in Heq.
  - by rewrite orb_true_iff, IHa, IHb, accepts_alt.
  - split; [constructor | done].
Qed.

Lemma accepts_star_cons a c s :
  accepts (RStar a) (String c s) <->
  exists t u, s = t +:+ u /\ accepts a (String c t) /\ accepts (RStar a) u.
Proof.
  split.
  - intros H. remember (RStar a) as r eqn:Hr. remember (String c s) as x eqn:Hx.
    revert Hr c s Hx.
    induction H as [| | | | | |a' s t Hs IHs Ht IHt]; intros Hr c0 s0 Hx; try discriminate.
    injection Hr as ->. destruct s as [|d s]; cbn in Hx; [by apply IHt|].
    injection Hx as <- <-. by exists s, t.
  - intros (t & u & -> & H1 & H2). apply (acc_star a (String c t) u H1 H2).
Qed.

Lemma deriv_spec c r s : accepts (deriv c r) s <-> accepts r (String c s).
Proof.
  revert s. induction r as [| |p|a IHa b IHb|a IHa b IHb|a IHa]; intros s; simpl.
  - split; by intros ?%accepts_none.
  - split; [by intros ?%accepts_none | by inversion 1].
  - rewrite accepts_chr. destruct (p c) eqn:Hp.
    + rewrite accepts_eps. split; [intros ->; eauto | by intros (d & [= <- ->] & _)].
    + split; [by intros ?%accepts_none | intros (d & [= <- ->] & ?); congruence].
  - assert (accepts (mk_seq (deriv c a) b) s <->
      exists t u, s = t +:+ u /\ accepts a (String c t) /\ accepts b u) as Hd.
    { rewrite mk_seq_spec, accepts_seq. by setoid_rewrite IHa. }
    rewrite accepts_seq. destruct (nullable a) eqn:Hn.
    + rewrite mk_alt_spec, accepts_alt, Hd, IHb. apply nullable_spec in Hn. split.
      * intros [(t & u & -> & ? & ?)|?]; [by exists (String c t), u | by exists "", (String c s)].
      * intros ([|d t] & u & Heq & ? & ?); cbn in Heq; [by right; subst|].
        injection Heq as -> ->. left. by exists t, u.
    + rewrite Hd. split.
      * intros (t & u & -> & ? & ?). by exists (String c t), u.
      * intros ([|d t] & u & Heq & Ha & ?); cbn in Heq.
        { apply nullable_spec in Ha. congruence. }
        injection Heq as -> ->. by exists t, u.
  - by rewrite mk_alt_spec, !accepts_alt, IHa, IHb.
  - rewrite mk_seq_spec, accepts_seq, accepts_star_cons. by setoid_rewrite IHa.
Qed.

Lemma re_test_accepts r s : re_test r s = true <-> accepts r s.
Proof.
  revert r. induction s as [|c s IH]; intros r; simpl.
  - apply nullable_spec.
  - by rewrite IH, deriv_spec.
Qed.

Lemma rany_accepts s : accepts rany s.
Proof.
  induction s as [|c s IH]; [constructor|].
  apply (acc_star _ (String c "") s); [by constructor | done].
Qed.

Lemma re_search_accepts r s :
  re_search r s = true <-> exists p m q, s = p +:+ m +:+ q /\ accepts r m.
Proof.
  unfold re_search. rewrite re_test_accepts, accepts_seq. split.
  - intros (p & u & -> & _ & (m & q & -> & ? & _)%accepts_seq). eauto.
  - intros (p & m & q & -> & Hm). exists p, (m +:+ q). split; [done|].
    split; [apply rany_accepts|]. apply accepts_seq. eauto using rany_accepts.
Qed.

(** Every character of a matched string satisfies [p] when every class of the expression
    implies it. *)
Fixpoint re_all (p : ascii -> Prop) (r : re) : Prop :=
  match r with
  | RNone | REps => True
  | RChr q => forall c, q c = true -> p c
  | RSeq a b | RAlt a b => re_all p a /\ re_all p b
  | RStar a => re_all p a
  end.

Fixpoint str_all (p : ascii -> Prop) (s : string) : Prop :=
  match s with EmptyString => True | String c s' => p c /\ str_all p s' end.

Lemma str_all_app p s t : str_all p (s +:+ t) <-> str_all p s /\ str_all p t.
Proof. induction s as [|c s IH]; simpl; [tauto | rewrite IH; tauto]. Qed.

Lemma accepts_all p r s : re_all p r -> accepts r s -> str_all p s.
Proof.
  intros Hr. induction 1; simpl in *; rewrite ?str_all_app; naive_solver.
Qed.

Lemma re_all_rupto p n r : re_all p r -> re_all p (rupto n r).
Proof. intros H. induction n; simpl; auto. Qed.

(** ** Numbers *)

Notation num := spec_float.

Definition num_of_Z (z : Z) : num := binary_normalize 53 1024 z 0 false.
Definition num_add : num -> num -> num := SFadd 53 1024.
Definition num_sub : num -> num -> num := SFsub 53 1024.
Definition num_mul : num -> num -> num := SFmul 53 1024.
Definition num_div : num -> num -> num := SFdiv 53 1024.
Definition num_ltb : num -> num -> bool := SFltb.
Definition num_leb : num -> num -> bool := SFleb.
Definition num_eqb : num -> num -> bool := SFeqb.

(** [Number.isFinite(x)] *)
Definition is_finite (x : num) : bool :=
  match x with S754_zero _ | S754_finite _ _ _ => true | _ => false end.

(** A number used as a condition. *)
Definition num_truthy (x : num) : bool :=
  match x with S754_zero _ | S754_nan => false | _ => true end.

(** A finite number is [k * 2^e]. *)
Definition signed (s : bool) (m : positive) : Z := if s then Z.neg m else Z.pos m.

(** [Math.trunc(x)] and [Math.floor(x + 0.5)] ([Math.round]) of a finite number. *)
Definition trunc_Z (x : num) : Z :=
  match x with
  | S754_finite s m e =>
      if e <? 0 then Z.quot (signed s m) (2 ^ (- e)) else signed s m * 2 ^ e
  | _ => 0
  end.
Definition round_Z (x : num) : Z :=
  match x with
  | S754_finite s m e =>
      if e <? 0 then (2 * signed s m + 2 ^ (- e)) / 2 ^ (1 - e) else signed s m * 2 ^ e
  | _ => 0
  end.

(** [Math.floor(x)] and [Math.ceil(x)] of a finite number *)
Definition floor_Z (x : num) : Z :=
  match x with
  | S754_finite s m e =>
      if e <? 0 then signed s m / 2 ^ (- e) else signed s m * 2 ^ e
  | _ => 0
  end.
Definition ceil_Z (x : num) : Z :=
  match x with
  | S754_finite s m e =>
      if e <? 0 then - ((- signed s m) / 2 ^ (- e)) else signed s m * 2 ^ e
  | _ => 0
  end.

Definition num_trunc (x : num) : num := if is_finite x then num_of_Z (trunc_Z x) else x.
Definition num_floor (x : num) : num := if is_finite x then num_of_Z (floor_Z x) else x.
Definition num_round (x : num) : num := if is_finite x then num_of_Z (round_Z x) else x.

(** [Number.isInteger(x)] *)
Definition is_integer (x : num) : bool := is_finite x && num_eqb (num_trunc x) x.

#[global] Instance num_eq_dec : EqDecision num.
Proof. solve_decision. Defined.

(** [s.length]: the UTF-16 units of a text in UTF-8 *)
Fixpoint js_length (s : string) : nat :=
  match s with
  | EmptyString => 0%nat
  | String c s' =>
      ((if (code c <? 128)%N then 1 else if (code c <? 192)%N then 0
        else if (code c <? 240)%N then 1 else 2) + js_length s')%nat
  end.

(** ** JSON *)

Inductive json : Type :=
| JNull
| JBool (b : bool)
| JNum (n : num)
| JStr (s : string)
| JArr (l : list json)
| JObj (l : list (string * json)).

Definition jz (z : Z) : json := JNum (num_of_Z z).
Definition jopt {A} (f : A -> json) (o : option A) : json :=
  match o with Some a => f a | None => JNull end.

(** The properties of an object literal whose value may be [undefined]: [JSON.stringify]
    drops them. *)
Definition defined_only (l : list (string * option json)) : list (string * json) :=
  omap (fun '(k, o) => match o with Some v => Some (k, v) | None => None end) l.

(** [v.k] where [v] is an object; [undefined] elsewhere *)
Definition field (k : string) (v : json) : option json :=
  match v with JObj l => alookup k l | _ => None end.

Definition as_str (v : option json) : option string :=
  match v with Some (JStr s) => Some s | _ => None end.
Definition as_num (v : option json) : option num :=
  match v with Some (JNum n) => Some n | _ => None end.

(** A string property used as a condition: its value when it is a non-empty string. *)
Definition str_field (k : string) (v : json) : option string :=
  match as_str (field k v) with Some s => or_null s | None => None end.

(** What [JSON.stringify] prints: a number that is not finite is printed as null. *)
Fixpoint stringified (v : json) : json :=
  match v with
  | JNum n => if is_finite n then v else JNull
  | JArr l => JArr (List.map stringified l)
  | JObj l => JObj (List.map (fun kv => (kv.1, stringified kv.2)) l)
  | _ => v
  end.

(** A text: one printed by [JSON.stringify] stands for the value it was printed from; any
    other is the characters themselves. *)
Inductive text : Type :=
| TJson (v : json)
| TRaw (s : string).

#[global] Instance text_inhabited : Inhabited text := populate (TRaw "").

Definition json_dec : forall x y : json, {x = y} + {x <> y}.
Proof.
  fix IH 1. intros x y.
  decide equality;
    [apply Bool.bool_dec | apply num_eq_dec | apply String.string_dec
    | apply (List.list_eq_dec IH)
    | apply List.list_eq_dec; intros [k v] [k' v']; destruct (String.string_dec k k') as [->|];
      [destruct (IH v v') as [->|]; [by left|right; congruence] | right; congruence]].
Defined.
#[global] Instance json_eq_dec : EqDecision json := json_dec.
#[global] Instance text_eq_dec : EqDecision text.
Proof. solve_decision. Defined.

Section json_ind.
Context (P : json -> Prop).
Context (Hnull : P JNull) (Hbool : forall b, P (JBool b)) (Hnum : forall n, P (JNum n))
  (Hstr : forall s, P (JStr s)) (Harr : forall l, Forall P l -> P (JArr l))
  (Hobj : forall l, Forall (fun kv => P kv.2) l -> P (JObj l)).

Fixpoint json_nested_ind (v : json) : P v :=
  match v with
  | JNull => Hnull
  | JBool b => Hbool b
  | JNum n => Hnum n
  | JStr s => Hstr s
  | JArr l => Harr l ((fix go l := match l return Forall P l with
      | [] => List.Forall_nil _
      | x :: l' => List.Forall_cons _ _ _ (json_nested_ind x) (go l') end) l)
  | JObj l => Hobj l ((fix go l := match l return Forall (fun kv => P kv.2) l with
      | [] => List.Forall_nil _
      | x :: l' => List.Forall_cons _ _ _ (json_nested_ind x.2) (go l') end) l)
  end.
End json_ind.

(** ** Facts about strings *)

Lemma trim_end_nonspace s c : is_space c = false -> trim_end (s +:+ String c "") = s +:+ String c "".
Proof.
  intros Hc. induction s as [|d s IH]; simpl; [by rewrite Hc|].
  rewrite IH. by destruct s.
Qed.

Lemma trim_end_idem s : trim_end (trim_end s) = trim_end s.
Proof.
  induction s as [|c s IH]; simpl; [done|].
  destruct (trim_end s) as [|d t] eqn:Ht.
  - destruct (is_space c) eqn:Hc; simpl; [done|]. by rewrite Hc.
  - change (trim_end (String c (String d t))) with
      (match trim_end (String d t) with
       | EmptyString => if is_space c then "" else String c ""
       | t' => String c t' end).
    by rewrite IH.
Qed.

(** A non-empty trimmed string does not start with white space. *)
Lemma trim_start_head s c t : trim_start s = String c t -> is_space c = false.
Proof.
  induction s as [|d s IH]; simpl; [done|].
  destruct (is_space d) eqn:Hd; [done|]. by intros [= -> ->].
Qed.

Lemma trim_end_head s c t : trim_end s = String c t -> exists t', s = String c t'.
Proof.
  destruct s as [|d s]; simpl; [done|].
  destruct (trim_end s); [destruct (is_space d); [done|]|]; intros [= -> _]; eauto.
Qed.

Lemma trim_idem s : trim (trim s) = trim s.
Proof.
  unfold trim. destruct (trim_end (trim_start s)) as [|c t] eqn:Ht; [done|].
  pose proof (trim_end_head _ _ _ Ht) as [t' Hs]. apply trim_start_head in Hs as Hc.
  simpl trim_start. rewrite Hc. rewrite <- Ht. apply trim_end_idem.
Qed.

Lemma lower_char_idem c : lower_char (lower_char c) = lower_char c.
Proof. by destruct c as [[] [] [] [] [] [] [] []]. Qed.
Lemma to_lower_idem s : to_lower (to_lower s) = to_lower s.
Proof. induction s as [|c s IH]; simpl; [done|]. by rewrite lower_char_idem, IH. Qed.

Lemma is_space_lower c : is_space (lower_char c) = is_space c.
Proof. by destruct c as [[] [] [] [] [] [] [] []]. Qed.
Lemma to_lower_trim s : to_lower (trim s) = trim (to_lower s).
Proof.
  assert (forall s, to_lower (trim_end s) = trim_end (to_lower s)) as He.
  { clear s. intros s. induction s as [|c s IH]; simpl; [done|].
    rewrite <- IH, is_space_lower. destruct (trim_end s); simpl; [by destruct (is_space c)|done]. }
  unfold trim. rewrite He. f_equal.
  induction s as [|c s IH]; simpl; [done|].
  rewrite is_space_lower. by destruct (is_space c).
Qed.

Lemma or_null_Some s t : or_null s = Some t <-> s = t /\ t <> "".
Proof.
  unfold or_null, truthy. destruct (String.eqb_spec s ""); simpl; naive_solver.
Qed.

Lemma truthy_ne s : s <> "" -> truthy s = true.
Proof. unfold truthy. by destruct (String.eqb_spec s ""). Qed.

Lemma str_leb_total a b : str_leb a b = true \/ str_leb b a = true.
Proof.
  unfold str_leb. rewrite (String.compare_antisym b a).
  destruct (String.compare a b); simpl; auto.
Qed.

