(* ===== verification/Numbers.v ===== *)
(** * Numbers: the integers below 2^53 as doubles

    [num_of_Z] is the conversion of [Js]; it is exact and injective on the integers the
    program uses as ids and counters. *)
From S2P Require Import Prelude Js.
From Stdlib Require Import Lia.
Open Scope Z_scope.

Lemma digits2_iter m d : digits2_pos (Pos.iter xO m d) = Pos.add (digits2_pos m) d.
Proof.
  induction d as [|d IH] using Pos.peano_ind; cbn; [lia|].
  rewrite Pos.iter_succ. cbn. rewrite IH. lia.
Qed.

Lemma num_of_pos m : Z.pos (digits2_pos m) <= 53 ->
  num_of_Z (Z.pos m) =
  S754_finite false (match (53 - Z.pos (digits2_pos m))%Z with Z.pos d => Pos.iter xO m d | _ => m end)
    (Z.pos (digits2_pos m) - 53).
Proof.
  intros Hd. unfold num_of_Z, binary_normalize, binary_round.
  assert (fexp 53 1024 (Z.pos (digits2_pos m) + 0) = Z.pos (digits2_pos m) - 53) as ->.
  { unfold fexp, emin. lia. }
  set (e := Z.pos (digits2_pos m) - 53).
  set (n := match 53 - Z.pos (digits2_pos m) with Z.pos d => Pos.iter xO m d | _ => m end).
  assert (shl_align m 0 e = (n, e)) as ->.
  { unfold shl_align, n, e. destruct (Z.pos (digits2_pos m) - 53 - 0) as [|p|p] eqn:He; [|lia|].
    - replace (53 - Z.pos (digits2_pos m)) with 0 by lia. f_equal. lia.
    - replace (53 - Z.pos (digits2_pos m)) with (Z.pos p) by lia. done. }
  assert (Z.pos (digits2_pos n) = 53) as Hn.
  { unfold n. destruct (53 - Z.pos (digits2_pos m)) as [|p|p] eqn:He; [lia| |lia].
    rewrite digits2_iter. lia. }
  assert (shr_fexp 53 1024 (Z.pos n) e loc_Exact = (Build_shr_record (Z.pos n) false false, e)) as Hs.
  { unfold shr_fexp. cbn [Zdigits2]. rewrite Hn.
    replace (fexp 53 1024 (53 + e) - e) with 0; [done|]. unfold fexp, emin. lia. }
  unfold binary_round_aux. rewrite Hs. cbn [shr_m loc_of_shr_record round_nearest_even]. rewrite Hs.
  cbn [shr_m]. rewrite (proj2 (Z.leb_le _ _)); [done|]. lia.
Qed.

Lemma digits2_pos_bound m : 2 ^ (Z.pos (digits2_pos m) - 1) <= Z.pos m < 2 ^ Z.pos (digits2_pos m).
Proof.
  assert (forall p, 2 ^ (Z.pos (Pos.succ p) - 1) = 2 ^ Z.pos p) as Hs by (intros; f_equal; lia).
  induction m as [m IH|m IH|]; cbn [digits2_pos]; [| |done]; rewrite Hs, Pos2Z.inj_succ;
    replace (2 ^ Z.pos (digits2_pos m)) with (2 * 2 ^ (Z.pos (digits2_pos m) - 1)) in *
      by (rewrite <- Z.pow_succ_r by lia; f_equal; lia);
    rewrite Z.pow_succ_r by lia;
    replace (2 ^ Z.pos (digits2_pos m)) with (2 * 2 ^ (Z.pos (digits2_pos m) - 1))
      by (rewrite <- Z.pow_succ_r by lia; f_equal; lia); lia.
Qed.

Lemma digits2_small m : Z.pos m < 2 ^ 53 -> Z.pos (digits2_pos m) <= 53.
Proof.
  intros H. pose proof (digits2_pos_bound m) as [Hl _].
  destruct (Z.le_gt_cases (Z.pos (digits2_pos m)) 53) as [|Hg]; [done|].
  pose proof (Z.pow_le_mono_r 2 53 (Z.pos (digits2_pos m) - 1)). lia.
Qed.

Lemma iter_xO m d : Z.pos (Pos.iter xO m d) = Z.pos m * 2 ^ Z.pos d.
Proof.
  induction d as [|d IH] using Pos.peano_ind; [cbn; lia|].
  rewrite Pos.iter_succ, Pos2Z.inj_succ, Z.pow_succ_r by lia.
  change (Z.pos (Pos.iter xO m d)~0) with (2 * Z.pos (Pos.iter xO m d)). rewrite IH. lia.
Qed.

(** Integers below 2^53 are distinct doubles. *)
Lemma num_of_Z_eqb a b : 0 <= a < 2 ^ 53 -> 0 <= b < 2 ^ 53 ->
  num_eqb (num_of_Z a) (num_of_Z b) = true <-> a = b.
Proof.
  intros Ha Hb. destruct a as [|a|a], b as [|b|b]; try lia;
    rewrite ?num_of_pos by (apply digits2_small; lia); [done|done|done|].
  unfold num_eqb, SFeqb. cbn [SFcompare].
  split.
  - destruct (Z.compare_spec (Z.pos (digits2_pos a) - 53) (Z.pos (digits2_pos b) - 53)) as [He| |]; [|done|done].
    replace (Z.pos (digits2_pos b)) with (Z.pos (digits2_pos a)) by lia.
    change (Pos.compare_cont Eq) with Pos.compare. intros H.
    match type of H with context [Pos.compare ?x ?y] => destruct (Pos.compare_spec x y) as [Hm| |]; try done end.
    destruct (53 - Z.pos (digits2_pos a)) as [|p|p]; [congruence| |congruence].
    apply (f_equal Z.pos) in Hm. rewrite !iter_xO in Hm.
    apply Z.mul_cancel_r in Hm; [done|]. apply Z.pow_nonzero; lia.
  - intros [= ->]. rewrite Z.compare_refl. change (Pos.compare_cont Eq) with Pos.compare.
    by rewrite Pos.compare_refl.
Qed.

Lemma mantissa m : Z.pos (digits2_pos m) <= 53 ->
  Z.pos (match (53 - Z.pos (digits2_pos m))%Z with Z.pos d => Pos.iter xO m d | _ => m end) =
  Z.pos m * 2 ^ (53 - Z.pos (digits2_pos m)).
Proof.
  intros H. destruct (53 - Z.pos (digits2_pos m)) as [|d|d] eqn:Hd; [cbn; lia|apply iter_xO|lia].
Qed.

(** Doubles of integers below 2^53 are ordered as the integers are. *)
Lemma num_compare a b : 0 <= a < 2 ^ 53 -> 0 <= b < 2 ^ 53 ->
  SFcompare (num_of_Z a) (num_of_Z b) = Some (a ?= b).
Proof.
  intros Ha Hb. destruct a as [|a|a], b as [|b|b]; try lia; [done| | |].
  { by rewrite num_of_pos by (apply digits2_small; lia). }
  { by rewrite num_of_pos by (apply digits2_small; lia). }
  pose proof (digits2_small a ltac:(lia)) as Da. pose proof (digits2_small b ltac:(lia)) as Db.
  pose proof (digits2_pos_bound a) as [La Ua]. pose proof (digits2_pos_bound b) as [Lb Ub].
  rewrite !num_of_pos by done. unfold SFcompare. change (Pos.compare_cont Eq) with Pos.compare. f_equal.
  destruct (Z.compare_spec (Z.pos (digits2_pos a) - 53) (Z.pos (digits2_pos b) - 53)) as [He|He|He].
  - rewrite Pos2Z.inj_compare, !mantissa by done.
    replace (Z.pos (digits2_pos b)) with (Z.pos (digits2_pos a)) by lia.
    symmetry. apply Zmult_compare_compat_r, Z.lt_gt, Z.pow_pos_nonneg; lia.
  - pose proof (Z.pow_le_mono_r 2 (Z.pos (digits2_pos a)) (Z.pos (digits2_pos b) - 1)).
    symmetry. apply Z.compare_lt_iff. lia.
  - pose proof (Z.pow_le_mono_r 2 (Z.pos (digits2_pos b)) (Z.pos (digits2_pos a) - 1)).
    symmetry. apply Z.compare_gt_iff. lia.
Qed.

Lemma num_of_Z_leb a b : 0 <= a < 2 ^ 53 -> 0 <= b < 2 ^ 53 ->
  num_leb (num_of_Z a) (num_of_Z b) = (a <=? b).
Proof. intros Ha Hb. unfold num_leb, SFleb. rewrite num_compare by done. unfold Z.leb. by destruct (a ?= b). Qed.
Lemma num_of_Z_ltb a b : 0 <= a < 2 ^ 53 -> 0 <= b < 2 ^ 53 ->
  num_ltb (num_of_Z a) (num_of_Z b) = (a <? b).
Proof. intros Ha Hb. unfold num_ltb, SFltb. rewrite num_compare by done. unfold Z.ltb. by destruct (a ?= b). Qed.

Lemma ceil_of_Z a : 0 <= a < 2 ^ 53 -> ceil_Z (num_of_Z a) = a.
Proof.
  intros Ha. destruct a as [|a|a]; [done| |lia].
  pose proof (digits2_small a ltac:(lia)) as Da.
  rewrite num_of_pos by done. unfold ceil_Z, signed.
  replace (- (Z.pos (digits2_pos a) - 53)) with (53 - Z.pos (digits2_pos a)) by lia.
  rewrite !mantissa by done. destruct (Z.ltb_spec (Z.pos (digits2_pos a) - 53) 0).
  - rewrite <- Z.mul_opp_l, Z.div_mul; [lia|]. apply Z.pow_nonzero; lia.
  - replace (Z.pos (digits2_pos a)) with 53 by lia. cbn. lia.
Qed.

Lemma trunc_of_Z a : 0 <= a < 2 ^ 53 -> trunc_Z (num_of_Z a) = a.
Proof.
  intros Ha. destruct a as [|a|a]; [done| |lia].
  pose proof (digits2_small a ltac:(lia)) as Da.
  rewrite num_of_pos by done. unfold trunc_Z, signed.
  replace (- (Z.pos (digits2_pos a) - 53)) with (53 - Z.pos (digits2_pos a)) by lia.
  rewrite !mantissa by done. destruct (Z.ltb_spec (Z.pos (digits2_pos a) - 53) 0).
  - rewrite Z.quot_mul; [lia|]. apply Z.pow_nonzero; lia.
  - replace (Z.pos (digits2_pos a)) with 53 by lia. cbn. lia.
Qed.

Lemma is_finite_of_Z a : 0 <= a < 2 ^ 53 -> is_finite (num_of_Z a) = true.
Proof.
  intros Ha. destruct a as [|a|a]; [done| |lia]. by rewrite num_of_pos by (apply digits2_small; lia).
Qed.

(** An integer below 2^53 is an integer for [Number.isInteger]. *)
Lemma is_integer_of_Z a : 0 <= a < 2 ^ 53 -> is_integer (num_of_Z a) = true.
Proof.
  intros Ha. unfold is_integer, num_trunc. rewrite is_finite_of_Z, trunc_of_Z by done.
  by apply num_of_Z_eqb.
Qed.
