(* ===== verification/Csv.v ===== *)
(** * Csv: [lib/csv.ts], the CSV reader and the row validation of an import

    The reader is the loop of [parseCsv] as a state machine over the characters; [file_text]
    is the reference grammar it is proved against. *)
From S2P Require Import Prelude Js.
From Stdlib Require Import Ascii.
Open Scope Z_scope.

Definition quote_char : ascii := "034".
Definition lf : ascii := "010".
Definition cr : ascii := "013".

Definition CsvRow : Type := list (string * string).
Record ParsedCsv := mkParsedCsv { headers : list string; csv_rows : list CsvRow }.

(** The variables of the loop of [parseCsv]. *)
Record Scan := mkScan {
  sc_records : list (list string); sc_field : string; sc_row : list string; sc_inQuotes : bool }.
Definition scan0 : Scan := mkScan [] "" [] false.

Definition pushField (s : Scan) : Scan :=
  s <| sc_row ::= fun r => r ++ [sc_field s] |> <| sc_field := "" |>.
Definition pushRow (s : Scan) : Scan :=
  let s := pushField s in
  s <| sc_records ::= fun rs => rs ++ [sc_row s] |> <| sc_row := [] |>.
(** [field += c] *)
Definition addChar (c : ascii) (s : Scan) : Scan := s <| sc_field ::= fun f => f +:+ String c "" |>.

(** [for (let i = 0; i < text.length; i++)]; [text[i + 1]] is the head of the rest. *)
Fixpoint scan (text : string) (s : Scan) : Scan :=
  match text with
  | EmptyString => s
  | String c rest =>
      if sc_inQuotes s then
        if Ascii.eqb c quote_char then
          match rest with
          | String d rest' =>
              if Ascii.eqb d quote_char then scan rest' (addChar quote_char s)
              else scan rest (s <| sc_inQuotes := false |>)
          | EmptyString => s <| sc_inQuotes := false |>
          end
        else scan rest (addChar c s)
      else if Ascii.eqb c quote_char then scan rest (s <| sc_inQuotes := true |>)
      else if Ascii.eqb c "," then scan rest (pushField s)
      else if Ascii.eqb c lf then scan rest (pushRow s)
      else if Ascii.eqb c cr then scan rest s
      else scan rest (addChar c s)
  end.

Definition finish (s : Scan) : list (list string) :=
  sc_records (if truthy (sc_field s) || negb (bool_decide (sc_row s = [])) then pushRow s else s).

(** [obj[h] = v] on an object literal: assigning a string to [__proto__] does nothing. *)
Definition set_prop (h v : string) (obj : CsvRow) : CsvRow :=
  if String.eqb h "__proto__" then obj else aset h v obj.

(** [headers.forEach((h, idx) => (obj[h] = (r[idx] ?? "").trim()))] *)
Fixpoint fill_row (hs : list string) (r : list string) (obj : CsvRow) : CsvRow :=
  match hs with
  | [] => obj
  | h :: hs' => fill_row hs' (tail r) (set_prop h (trim (default "" (head r))) obj)
  end.

(** [r.some((cell) => cell.trim() !== "")] *)
Definition some_cell (r : list string) : bool := existsb (fun cell => truthy (trim cell)) r.

Definition parseCsv (text : string) : ParsedCsv :=
  let records := finish (scan text scan0) in
  match filter (fun r => some_cell r = true) records with
  | [] => mkParsedCsv [] []
  | first :: others =>
      let headers := trim <$> first in
      mkParsedCsv headers ((fun r => fill_row headers r []) <$> others)
  end.

Record ColumnMapping := mkMapping {
  cm_username : string; cm_email : option string; cm_name : option string;
  cm_studentId : option string }.

Record ImportRow := mkImportRow {
  ir_username : string; ir_email : option string; ir_name : option string;
  ir_studentId : option string; ir_issues : list string }.

(** [/^[a-z_][a-z0-9_-]{0,31}$/] *)
Definition USERNAME_RE : re :=
  RSeq (RChr (fun c => c_lower c || c_of "_" c))
    (rupto 31 (RChr (fun c => c_lower c || c_digit c || c_of "_-" c))).

Record RawImportRow := mkRawRow {
  rr_username : option string; rr_email : option string; rr_name : option string;
  rr_studentId : option string }.

(** [v?.trim() || undefined] *)
Definition trimmed (v : option string) : option string := (trim <$> v) ≫= or_null.

(** One row, against the usernames [seen] before it. *)
Definition validate_row (requireEmail : bool) (seen : list string) (r : RawImportRow) : ImportRow :=
  let username := to_lower (trim (default "" (rr_username r))) in
  let email := trimmed (rr_email r) in
  let issues :=
    (if negb (truthy username) then ["missing username"]
     else if negb (re_test USERNAME_RE username) then ["invalid username"]
     else if bool_decide (username ∈ seen) then ["duplicate username in file"] else []) ++
    (if requireEmail && negb (is_some email) then ["missing email"] else []) in
  mkImportRow username email (trimmed (rr_name r)) (trimmed (rr_studentId r)) issues.

Fixpoint validate_rows (requireEmail : bool) (seen : list string) (rows : list RawImportRow)
    : list ImportRow :=
  match rows with
  | [] => []
  | r :: rows' =>
      let v := validate_row requireEmail seen r in
      v :: validate_rows requireEmail
             (if truthy (ir_username v) then ir_username v :: seen else seen) rows'
  end.

Definition validateImportRows (rows : list RawImportRow) (requireEmail : bool) : list ImportRow :=
  validate_rows requireEmail [] rows.

(** [r[k]]: a property of the row, or one it inherits from [Object.prototype], which is no
    string ([None] here). *)
Definition object_members : list string :=
  ["constructor"; "__defineGetter__"; "__defineSetter__"; "hasOwnProperty"; "__lookupGetter__";
   "__lookupSetter__"; "isPrototypeOf"; "propertyIsEnumerable"; "toString"; "valueOf";
   "__proto__"; "toLocaleString"].
Definition row_cell (r : CsvRow) (k : string) : option string :=
  match alookup k r with
  | Some v => Some v
  | None => if bool_decide (k ∈ object_members) then None else Some ""
  end.

(** [mapping.c ? (r[mapping.c] ?? "") : undefined] *)
Definition mapped_cell (r : CsvRow) (c : option string) : option (option string) :=
  match c with
  | Some k => if truthy k then Some <$> row_cell r k else Some None
  | None => Some None
  end.

(** [None] where [trim] is called on an inherited member and throws. *)
Definition applyMapping (parsed : ParsedCsv) (mapping : ColumnMapping) : option (list ImportRow) :=
  raw ← mapM (fun r =>
      u ← row_cell r (cm_username mapping);
      e ← mapped_cell r (cm_email mapping);
      n ← mapped_cell r (cm_name mapping);
      i ← mapped_cell r (cm_studentId mapping);
      Some (mkRawRow (Some u) e n i)) (csv_rows parsed);
  Some (validateImportRows raw (match cm_email mapping with Some e => truthy e | None => false end)).

(** ** The reference grammar *)

(** The characters a bare field may not hold. *)
Definition special (c : ascii) : bool :=
  Ascii.eqb c quote_char || Ascii.eqb c "," || Ascii.eqb c lf || Ascii.eqb c cr.
Fixpoint bare (s : string) : bool :=
  match s with EmptyString => true | String c s' => negb (special c) && bare s' end.
(** Every quote is doubled. *)
Fixpoint escape (s : string) : string :=
  match s with
  | EmptyString => ""
  | String c s' =>
      if Ascii.eqb c quote_char then String c (String c (escape s')) else String c (escape s')
  end.

(** A field is written bare or between quotes. *)
Inductive field_text : string -> string -> Prop :=
| field_bare f : bare f = true -> field_text f f
| field_quoted f : field_text f (String quote_char (escape f +:+ String quote_char "")).

Inductive row_text : list string -> string -> Prop :=
| row_one f t : field_text f t -> row_text [f] t
| row_more f t r u : field_text f t -> row_text r u -> row_text (f :: r) (t +:+ String "," u).

(** A line ends in LF or CRLF; the last one may lack it, unless its only field is empty. *)
Inductive file_text : list (list string) -> string -> Prop :=
| file_nil : file_text [] ""
| file_last r t : row_text r t -> r <> [""] -> file_text [r] t
| file_lf r t rs u : row_text r t -> file_text rs u -> file_text (r :: rs) (t +:+ String lf u)
| file_crlf r t rs u : row_text r t -> file_text rs u ->
    file_text (r :: rs) (t +:+ String cr (String lf u)).

(** ** The reader accepts the grammar *)

Lemma escape_noquote c s : Ascii.eqb c quote_char = false -> escape (String c s) = String c (escape s).
Proof. cbn. by intros ->. Qed.

Lemma add_field s f g : (s <| sc_field ::= fun h => h +:+ f |>) <| sc_field ::= fun h => h +:+ g |>
  = s <| sc_field ::= fun h => h +:+ (f +:+ g) |>.
Proof.
  destruct s. unset. cbn. by rewrite str_app_assoc.
Qed.

Lemma add_nothing s : s <| sc_field ::= fun h => h +:+ "" |> = s.
Proof. destruct s. unset. cbn. by rewrite str_app_nil_r. Qed.

Lemma scan_bare f rest s :
  bare f = true -> sc_inQuotes s = false ->
  scan (f +:+ rest) s = scan rest (s <| sc_field ::= fun g => g +:+ f |>).
Proof.
  revert s. induction f as [|c f IH]; intros s Hf Hq; cbn [String.app].
  - by rewrite add_nothing.
  - cbn in Hf. apply andb_true_iff in Hf as [Hc Hf]. apply negb_true_iff in Hc.
    unfold special in Hc. rewrite !orb_false_iff in Hc. destruct Hc as [[[H1 H2] H3] H4].
    cbn [scan]. rewrite Hq, H1, H2, H3, H4. rewrite IH by done. unfold addChar.
    by rewrite add_field.
Qed.

(** What may follow a field. *)
Definition after_field (rest : string) : bool :=
  match rest with EmptyString => true | String c _ => negb (Ascii.eqb c quote_char) end.

Lemma scan_quoted f rest s :
  after_field rest = true -> sc_inQuotes s = true ->
  scan (escape f +:+ String quote_char rest) s =
  scan rest (s <| sc_field ::= fun g => g +:+ f |> <| sc_inQuotes := false |>).
Proof.
  intros Hr. revert s. induction f as [|c f IH]; intros s Hq.
  - rewrite add_nothing. cbn [escape String.app scan]. rewrite Hq. cbn. destruct rest as [|c rest]; [done|].
    cbn in Hr. apply negb_true_iff in Hr. by rewrite Hr.
  - assert (scan (escape (String c f) +:+ String quote_char rest) s =
      scan (escape f +:+ String quote_char rest) (addChar c s)) as ->.
    { cbn [escape]. destruct (Ascii.eqb_spec c quote_char) as [->|Hc]; cbn [String.app scan];
        rewrite Hq; [done|]. by rewrite (proj2 (Ascii.eqb_neq c quote_char)). }
    rewrite IH by (by destruct s). unfold addChar. by rewrite add_field.
Qed.

Lemma scan_field f t rest s :
  field_text f t -> after_field rest = true -> sc_inQuotes s = false ->
  scan (t +:+ rest) s = scan rest (s <| sc_field ::= fun g => g +:+ f |>).
Proof.
  intros [f' Hf|f'] Hr Hq; [by apply scan_bare|].
  cbn [String.app]. rewrite str_app_assoc. cbn [scan String.app]. rewrite Hq. cbn.
  rewrite scan_quoted by (done || by destruct s). f_equal. destruct s. cbn in Hq. by subst.
Qed.

(** The state between two fields of a row. *)
Definition between (rs : list (list string)) (r : list string) : Scan := mkScan rs "" r false.

Lemma scan_row rs r0 r t rest :
  row_text r t -> after_field rest = true ->
  exists r' f, r = r' ++ [f] /\
  scan (t +:+ rest) (between rs r0) = scan rest (mkScan rs f (r0 ++ r') false).
Proof.
  intros Ht Hr. revert r0. induction Ht as [f t Hf|f t r u Hf Hu IH]; intros r0.
  - exists [], f. rewrite app_nil_r. split; [done|]. by rewrite (scan_field f).
  - destruct (IH (r0 ++ [f])) as (r' & g & -> & Hs). exists (f :: r'), g. split; [done|].
    rewrite str_app_assoc, (scan_field f) by done.
    etransitivity; [exact Hs|]. by rewrite <- app_assoc.
Qed.

(** The records of a rendered table are the table. *)
Lemma scan_file rs rows t :
  file_text rows t -> finish (scan t (between rs [])) = rs ++ rows.
Proof.
  intros H. revert rs. induction H as [|r t Hr Hne|r t rows u Hr _ IH|r t rows u Hr _ IH]; intros rs.
  - cbn. by rewrite app_nil_r.
  - destruct (scan_row rs [] r t "" Hr eq_refl) as (r' & f & -> & Hs).
    rewrite str_app_nil_r in Hs. rewrite Hs. unfold finish. cbn -[truthy pushRow].
    destruct (String.eqb_spec f "") as [->|Hf].
    + rewrite bool_decide_eq_false_2; [done|]. by intros ->.
    + by rewrite truthy_ne.
  - destruct (scan_row rs [] r t (String lf u) Hr eq_refl) as (r' & f & -> & ->).
    etransitivity; [exact (IH (rs ++ [r' ++ [f]]))|]. by rewrite <- app_assoc.
  - destruct (scan_row rs [] r t (String cr (String lf u)) Hr eq_refl) as (r' & f & -> & ->).
    etransitivity; [exact (IH (rs ++ [r' ++ [f]]))|]. by rewrite <- app_assoc.
Qed.

Lemma fill_row_zip hs r obj :
  NoDup hs -> "__proto__" ∉ hs -> length r = length hs ->
  (forall h, h ∈ hs -> h ∉ obj.*1) ->
  fill_row hs r obj = obj ++ zip hs (trim <$> r).
Proof.
  intros Hnd Hp. revert r obj. induction Hnd as [|h hs Hh Hnd IH]; intros [|c r] obj Hl Ho;
    try done; [cbn; by rewrite app_nil_r|]. apply not_elem_of_cons in Hp as [Hph Hp].
  change (fill_row hs r (set_prop h (trim c) obj) = obj ++ (h, trim c) :: zip hs (trim <$> r)).
  assert (set_prop h (trim c) obj = obj ++ [(h, trim c)]) as ->.
  { unfold set_prop. rewrite (proj2 (String.eqb_neq h "__proto__")) by done.
    apply aset_fresh, Ho. constructor. }
  rewrite IH; [by rewrite <- app_assoc|done|by injection Hl|].
  intros h' Hin. rewrite fmap_app, not_elem_of_app. split; [apply Ho; by constructor|].
  intros ->%list_elem_of_singleton. done.
Qed.

(** C40: the CSV reader is the inverse of CSV writing: a table written with any mix of bare and
    quoted fields (quotes doubled, commas and line breaks inside quotes) and of LF and CRLF line
    ends is read back as its trimmed header and, for every later row, the trimmed cells under
    the header's names, when every row has a cell that is not blank and the header's names are
    distinct. *)
Theorem parseCsv_roundtrip hdr rows t :
  file_text (hdr :: rows) t ->
  Forall (fun r => some_cell r = true) (hdr :: rows) ->
  NoDup (trim <$> hdr) -> "__proto__" ∉ trim <$> hdr ->
  Forall (fun r => length r = length hdr) rows ->
  parseCsv t = mkParsedCsv (trim <$> hdr) ((fun r => zip (trim <$> hdr) (trim <$> r)) <$> rows).
Proof.
  intros Ht Hc Hnd Hp Hl. unfold parseCsv.
  change scan0 with (between [] []). rewrite (scan_file [] (hdr :: rows) t Ht).
  cbn [app]. rewrite (filter_all (fun r => some_cell r = true)) by done. f_equal.
  apply Forall_fmap_ext_1. eapply Forall_impl; [exact Hl|]. intros r Hr.
  rewrite fill_row_zip; [done|done|done|by rewrite length_fmap|]. intros h _. apply not_elem_of_nil.
Qed.

Definition roster_header : list string := ["role"; "username"; "name"].
Definition roster_rows : list (list string) :=
  [["pi"; "ada"; "Lovelace, Ada"]; [""; " bob "; "Bob"]].
Definition roster_text : string :=
  "role,username,name" +:+ String cr (String lf
  ("pi,ada," +:+ String quote_char ("Lovelace, Ada" +:+ String quote_char (String lf
  (", bob ,Bob"))))).

Lemma roster_text_ok : file_text (roster_header :: roster_rows) roster_text.
Proof.
  apply (file_crlf _ "role,username,name").
  { repeat first [ apply (row_more _ "role") | apply (row_more _ "username") | apply row_one
                 | by constructor ]. }
  apply (file_lf _ ("pi,ada," +:+ String quote_char ("Lovelace, Ada" +:+ String quote_char ""))).
  { apply (row_more _ "pi"); [by constructor|]. apply (row_more _ "ada"); [by constructor|].
    apply row_one. apply (field_quoted "Lovelace, Ada"). }
  apply file_last; [|done]. apply (row_more _ ""); [by constructor|].
  apply (row_more _ " bob "); [by constructor|]. apply row_one. by constructor.
Qed.

Lemma parseCsv_roundtrip_witness :
  file_text (roster_header :: roster_rows) roster_text /\
  parseCsv roster_text = mkParsedCsv ["role"; "username"; "name"]
    [[("role", "pi"); ("username", "ada"); ("name", "Lovelace, Ada")];
     [("role", ""); ("username", "bob"); ("name", "Bob")]].
Proof.
  split; [exact roster_text_ok|].
  etransitivity; [apply (parseCsv_roundtrip roster_header roster_rows roster_text)|reflexivity].
  - exact roster_text_ok.
  - repeat constructor.
  - apply (bool_decide_unpack _). reflexivity.
  - apply (bool_decide_unpack _). reflexivity.
  - repeat constructor.
Defined.

(** ** The rows an import may commit *)

Definition norm_username (r : RawImportRow) : string := to_lower (trim (default "" (rr_username r))).

Lemma re_test_empty : re_test USERNAME_RE "" = false.
Proof. reflexivity. Qed.

Lemma validate_row_clean req seen r :
  ir_issues (validate_row req seen r) = [] <->
  accepts USERNAME_RE (norm_username r) /\ norm_username r ∉ seen /\
  (req = true -> is_Some (trimmed (rr_email r))).
Proof.
  rewrite <- re_test_accepts. unfold validate_row, norm_username. cbn -[USERNAME_RE].
  generalize (to_lower (trim (default "" (rr_username r)))). intros u.
  destruct (String.eqb_spec u "") as [->|Hu].
  { rewrite re_test_empty. split; [done|]. by intros []. }
  rewrite truthy_ne by done. cbn -[USERNAME_RE]. destruct (re_test _ u); cbn; [|naive_solver].
  case_bool_decide; cbn; [naive_solver|].
  destruct req, (trimmed (rr_email r)); cbn; naive_solver.
Qed.

(** What a row leaves in [seen]. *)
Definition remember (seen : list string) (rows : list RawImportRow) : list string :=
  foldl (fun seen r => if truthy (norm_username r) then norm_username r :: seen else seen) seen rows.

Lemma elem_of_remember u seen rows :
  u <> "" -> u ∈ remember seen rows <-> u ∈ seen \/ u ∈ norm_username <$> rows.
Proof.
  intros Hu. unfold remember. revert seen. induction rows as [|r rows IH]; intros seen; cbn.
  - rewrite elem_of_nil. tauto.
  - rewrite IH. destruct (String.eqb_spec (norm_username r) "") as [He|He].
    + rewrite He. cbn. rewrite elem_of_cons. naive_solver.
    + rewrite truthy_ne by done. rewrite !elem_of_cons. tauto.
Qed.

Lemma validate_rows_lookup req seen rows i r :
  rows !! i = Some r ->
  validate_rows req seen rows !! i = Some (validate_row req (remember seen (take i rows)) r).
Proof.
  revert seen i. induction rows as [|x rows IH]; intros seen [|i]; cbn -[validate_row]; [done|done| |].
  - by intros [= ->].
  - intros H. rewrite (IH _ i H). done.
Qed.

Lemma length_validate_rows req seen rows : length (validate_rows req seen rows) = length rows.
Proof. revert seen. induction rows; intros seen; cbn; [done|]. by f_equal. Qed.

(** Validation keeps one output row per input row, in order, and a row is reported clean
    exactly when its normalised username matches the username pattern, does not occur in any
    earlier row, and, when email addresses are required, an email is present; so the clean rows
    have pairwise distinct usernames. *)
Theorem validateImportRows_spec rows req :
  let out := validateImportRows rows req in
  length out = length rows /\
  (forall i r, rows !! i = Some r -> exists v, out !! i = Some v /\
     ir_username v = norm_username r /\
     (ir_issues v = [] <->
        accepts USERNAME_RE (norm_username r) /\
        norm_username r ∉ norm_username <$> take i rows /\
        (req = true -> is_Some (ir_email v)))) /\
  (forall i j v v', out !! i = Some v -> out !! j = Some v' -> ir_issues v = [] ->
     ir_issues v' = [] -> ir_username v = ir_username v' -> i = j).
Proof.
  cbv zeta. unfold validateImportRows.
  assert (forall i r, rows !! i = Some r ->
    (ir_issues (validate_row req (remember [] (take i rows)) r) = [] <->
       accepts USERNAME_RE (norm_username r) /\ norm_username r ∉ norm_username <$> take i rows /\
       (req = true -> is_Some (trimmed (rr_email r))))) as Hclean.
  { intros i r Hr. rewrite validate_row_clean.
    destruct (String.eqb_spec (norm_username r) "") as [He|He].
    - rewrite He, <- re_test_accepts, re_test_empty. naive_solver.
    - rewrite elem_of_remember, elem_of_nil by done. naive_solver. }
  split; [apply length_validate_rows|]. split.
  - intros i r Hr. eexists. split; [by apply validate_rows_lookup|]. split; [done|]. by apply Hclean.
  - assert (forall i j v v', (i < j)%nat ->
      validate_rows req [] rows !! i = Some v -> validate_rows req [] rows !! j = Some v' ->
      ir_issues v' = [] -> ir_username v = ir_username v' -> False) as Hlt.
    { intros i j v v' Hij Hv Hv' Hc Hu.
      assert (forall k x, validate_rows req [] rows !! k = Some x -> exists r, rows !! k = Some r) as Hin.
      { intros k x Hx. apply lookup_lt_is_Some_2. apply lookup_lt_Some in Hx.
        by rewrite length_validate_rows in Hx. }
      destruct (Hin _ _ Hv) as [r Hr], (Hin _ _ Hv') as [r' Hr'].
      rewrite (validate_rows_lookup _ _ _ _ _ Hr) in Hv. injection Hv as <-.
      rewrite (validate_rows_lookup _ _ _ _ _ Hr') in Hv'. injection Hv' as <-.
      apply (Hclean _ _ Hr') in Hc as (_ & Hn & _). apply Hn. cbn in Hu.
      apply list_elem_of_fmap. exists r. split; [done|].
      apply list_elem_of_lookup. exists i. by rewrite lookup_take_lt. }
    intros i j v v' Hv Hv' Hc Hc' Hu. destruct (Nat.lt_trichotomy i j) as [H|[H|H]]; [|done|];
      exfalso; eauto.
Qed.
