(* ===== verification/Redact.v ===== *)
(** * Redact: the masking of credentials in [lib/queue.ts]

    [redactSecrets] is what the long-lived [task_log] keeps of a task's parameters; [clean]
    is the specification it implements. *)
From S2P Require Import Prelude Js.
Open Scope Z_scope.

(** [/pass|token|secret|key/i] *)
Definition SECRET_KEY_RE : re :=
  RAlt (rlit_ci "pass") (RAlt (rlit_ci "token") (RAlt (rlit_ci "secret") (rlit_ci "key"))).
Definition secret_key (k : string) : bool := re_search SECRET_KEY_RE k.
#[global] Arguments secret_key : simpl never.

(** Six bullets, by the bytes of their encoding. *)
Definition REDACTED : string := "••••••".

Fixpoint redactSecrets (value : json) : json :=
  match value with
  | JArr l => JArr (List.map redactSecrets l)
  | JObj l =>
      JObj (List.map (fun kv =>
        (kv.1, if secret_key kv.1 then JStr REDACTED else redactSecrets kv.2)) l)
  | _ => value
  end.

(** At every depth, the value under a credential-looking key is the mask. *)
Inductive clean : json -> Prop :=
| clean_null : clean JNull
| clean_bool b : clean (JBool b)
| clean_num n : clean (JNum n)
| clean_str s : clean (JStr s)
| clean_arr l : Forall clean l -> clean (JArr l)
| clean_obj l :
    Forall (fun kv => secret_key kv.1 = true -> kv.2 = JStr REDACTED) l ->
    Forall (fun kv => clean kv.2) l -> clean (JObj l).

(** The strings of a value, outside object keys. *)
Inductive mentions (s : string) : json -> Prop :=
| mentions_str : mentions s (JStr s)
| mentions_arr l v : v ∈ l -> mentions s v -> mentions s (JArr l)
| mentions_obj l k v : (k, v) ∈ l -> mentions s v -> mentions s (JObj l).

(** The strings of a value that are not under a credential-looking key. *)
Inductive shows (s : string) : json -> Prop :=
| shows_str : shows s (JStr s)
| shows_arr l v : v ∈ l -> shows s v -> shows s (JArr l)
| shows_obj l k v : (k, v) ∈ l -> secret_key k = false -> shows s v -> shows s (JObj l).

Lemma redactSecrets_clean v : clean (redactSecrets v).
Proof.
  induction v as [| | | |l IH|l IH] using json_nested_ind; cbn; try constructor.
  - apply Forall_fmap. eapply Forall_impl; [exact IH|]. auto.
  - apply Forall_fmap, Forall_forall. intros [k v] _. cbn. by destruct (secret_key k).
  - apply Forall_fmap. eapply Forall_impl; [exact IH|]. intros [k v] Hv. cbn in *.
    destruct (secret_key k); [constructor|done].
Qed.

Lemma clean_redact v : clean v -> redactSecrets v = v.
Proof.
  induction v as [| | | |l IH|l IH] using json_nested_ind; inversion 1 as [| | | |l' Hl|l' Hm Hl];
    subst; cbn; try done; f_equal.
  - rewrite <- (map_id l) at 2. apply map_ext_in. intros v Hv.
    apply list_elem_of_In in Hv. rewrite Forall_forall in IH, Hl. auto.
  - rewrite <- (map_id l) at 2. apply map_ext_in. intros [k v] Hv.
    apply list_elem_of_In in Hv. rewrite Forall_forall in IH, Hm, Hl.
    specialize (IH _ Hv). specialize (Hm _ Hv). specialize (Hl _ Hv). cbn in *.
    destruct (secret_key k); f_equal; [by rewrite Hm|auto].
Qed.

Lemma redactSecrets_idem v : redactSecrets (redactSecrets v) = redactSecrets v.
Proof. apply clean_redact, redactSecrets_clean. Qed.

(** A string of the masked copy is the mask itself, or appeared outside the credentials. *)
Lemma redact_mentions s v : mentions s (redactSecrets v) -> s = REDACTED \/ shows s v.
Proof.
  induction v as [| | | |l IH|l IH] using json_nested_ind; cbn;
    inversion 1 as [|l' v Hin Hv|l' k v Hin Hv]; subst.
  - right. constructor.
  - apply list_elem_of_fmap in Hin as (v' & -> & Hin). rewrite Forall_forall in IH.
    destruct (IH _ Hin Hv) as [?|?]; [by left|right; by eapply shows_arr].
  - apply list_elem_of_fmap in Hin as ([k' v'] & [= -> ->] & Hin). cbn in *.
    rewrite Forall_forall in IH. specialize (IH _ Hin). cbn in IH.
    destruct (secret_key k') eqn:Hk.
    + left. inversion Hv. done.
    + destruct (IH Hv) as [?|?]; [by left|right; by eapply shows_obj].
Qed.

(** Keys, shape and everything outside the credentials are kept. *)
Lemma redact_keeps s v : shows s v -> shows s (redactSecrets v).
Proof.
  induction v as [| | | |l IH|l IH] using json_nested_ind; cbn;
    inversion 1 as [|l' v Hin Hv|l' k v Hin Hk Hv]; subst; try done.
  - rewrite Forall_forall in IH. apply shows_arr with (redactSecrets v); [|by apply IH].
    by apply (list_elem_of_fmap_2 redactSecrets).
  - rewrite Forall_forall in IH. apply shows_obj with k (redactSecrets v); [|done|by apply (IH _ Hin)].
    apply list_elem_of_fmap. exists (k, v). cbn. by rewrite Hk.
Qed.

