(* ===== verification/Schema.v ===== *)
(** * Schema: the database of [lib/db.ts] and the world the controller runs in

    One record per table, with the columns after the last migration; one [Db] of tables;
    the [World] is the database with the queue engine's state, the process-local maps and
    the positions in the platform's sources (clock, randomness, SMTP answers).  The SQL
    statements of the program are the operations on rows below: a statement that violates
    a constraint of the schema throws and changes nothing, a delete runs the schema's
    [ON DELETE] actions. *)
From S2P Require Import Prelude Js.

(** ** Columns of enumerated type *)

Inductive ColdBackend := LocalZfs | Smb.
Inductive PlacementState := PQueued | PProvisioning | PActive | PFailed | PDeleting.
Inductive MemberState := MQueued | MProvisioning | MActive | MFailed | MRemoving.
Inductive TaskState := TQueued | TSent | TOk | TFailed.

#[global] Instance ColdBackend_eq_dec : EqDecision ColdBackend.
Proof. solve_decision. Defined.
#[global] Instance PlacementState_eq_dec : EqDecision PlacementState.
Proof. solve_decision. Defined.
#[global] Instance MemberState_eq_dec : EqDecision MemberState.
Proof. solve_decision. Defined.
#[global] Instance TaskState_eq_dec : EqDecision TaskState.
Proof. solve_decision. Defined.

(** ** Rows *)

Record AdminRow := mkAdmin {
  ad_id : Z; ad_name : string; ad_email : string; ad_password_hash : string;
  ad_created_at : Z; ad_is_active : bool; ad_token_version : Z }.

Record NodeRow := mkNode {
  n_id : Z; n_name : string; n_last_seen : option Z; n_online : bool;
  n_capabilities : option text; n_pools : option text; n_created_at : Z;
  n_last_scrub : option Z; n_scrub_status : option text;
  n_token_hash : option string; n_allowed : bool; n_alias : option string;
  n_cold_backend : ColdBackend; n_cold_owner_node_id : option Z;
  n_cold_mount_path : option string; n_cold_ready : bool }.

Record LabRow := mkLab {
  l_id : Z; l_name : string; l_pi_name : option string; l_pi_email : option string;
  l_pi_student_id : option Z; l_created_at : Z; l_updated_at : Z }.

Record StudentRow := mkStudent {
  s_id : Z; s_student_id : option string; s_username : string; s_email : option string;
  s_name : option string; s_linux_uid : Z; s_created_at : Z; s_updated_at : Z }.

Record LabMemberRow := mkLabMember {
  lm_id : Z; lm_lab_id : Z; lm_student_id : Z; lm_created_at : Z }.

Record PlacementRow := mkPlacement {
  p_id : Z; p_lab_id : Z; p_node_id : Z;
  p_fast_quota_bytes : Z; p_cold_quota_bytes : option Z;
  p_student_fast_quota_bytes : option Z; p_student_cold_quota_bytes : option Z;
  p_ssh_port : Z; p_image : string; p_container_options : option text;
  p_state : PlacementState; p_last_error : option string;
  p_usage_scanned_at : option num; p_last_usage_scan : option Z;
  p_completion_email_sent_at : option Z; p_created_at : Z; p_updated_at : Z }.

Record PlacementMemberRow := mkPlacementMember {
  pm_id : Z; pm_placement_id : Z; pm_student_id : Z; pm_state : MemberState;
  pm_last_error : option string; pm_credential_secret : option string;
  pm_credential_delivered_at : option Z; pm_created_at : Z; pm_updated_at : Z }.

Record TaskRow := mkTask {
  t_id : Z; t_task_uuid : string; t_job_id : Z; t_node : string; t_action : string;
  t_params : option text; t_requested_by : option string; t_state : TaskState;
  t_result : option text; t_error : option string; t_received_at : option Z;
  t_attempts : Z; t_result_cached : bool; t_created_at : Z; t_updated_at : Z }.

Record LogRow := mkLog {
  log_id : Z; log_ts : num; log_node : option string; log_level : string;
  log_source : option string; log_lab : option string; log_user : option string;
  log_task_id : option string; log_msg : string; log_detail : option string }.

Record GpuSnapshotRow := mkGpuSnapshot {
  gs_node : string; gs_pid : json; gs_user : option string; gs_lab : option string;
  gs_placement_id : option Z; gs_vram_bytes : option json; gs_util : option json;
  gs_ts : Z; gs_cmd : option string; gs_started_at : option num }.

Record GpuEventRow := mkGpuEvent {
  ge_id : Z; ge_node : string; ge_pid : option num; ge_user : option string;
  ge_lab : option string; ge_placement_id : option Z; ge_vram_bytes : option num;
  ge_state : string; ge_ts : num; ge_cmd : option string; ge_idle_s : option num }.

Record SampleRow := mkSample {
  ss_id : Z; ss_placement_id : option Z; ss_lab_id : option Z; ss_student_id : option Z;
  ss_pool : string; ss_used_bytes : num; ss_quota_bytes : option json; ss_ts : Z }.

Record QuotaAlertRow := mkQuotaAlert {
  qa_id : Z; qa_placement_id : option Z; qa_lab_id : option Z; qa_pool : string;
  qa_pct : num; qa_ts : Z }.

Record StudentQuotaAlertRow := mkStudentQuotaAlert {
  sqa_id : Z; sqa_placement_id : Z; sqa_student_id : Z; sqa_pool : string;
  sqa_pct : num; sqa_ts : Z }.

Record AuditRow := mkAudit {
  au_id : Z; au_ts : Z; au_actor : option string; au_action : string;
  au_target : option string; au_detail : option string }.

Record NodeGroupRow := mkNodeGroup { g_id : Z; g_name : string; g_created_at : Z }.
Record NodeGroupMemberRow := mkNodeGroupMember { gm_group_id : Z; gm_node_id : Z }.
#[global] Instance NodeGroupMemberRow_eq_dec : EqDecision NodeGroupMemberRow.
Proof. solve_decision. Defined.

Record AnnouncementRow := mkAnnouncement {
  an_id : Z; an_ts : Z; an_actor : option string; an_audiences : string;
  an_subject : string; an_body : string; an_recipients : Z; an_sent : Z; an_skipped : bool }.
Record AnnouncementTemplateRow := mkAnnouncementTemplate {
  at_id : Z; at_name : string; at_subject : string; at_body : string; at_sort : Z }.

(** ** Settings

    [interface Settings]: the keys of the table [settings] and the type of the value of each.
    The hour and the minute the backups are aligned to are whole numbers within their range. *)
Inductive SettingType :=
| TNumber | TString | TBoolean
| TClock (max : Z)
| TOneOf (l : list string)
| TConfigs.
Definition Settings : list (string * SettingType) :=
  [("fastQuotaDefaultBytes", TNumber); ("slowQuotaDefaultBytes", TNumber); ("sshPortStart", TNumber);
   ("sshPortEnd", TNumber); ("usageScanEnabled", TBoolean); ("usageScanHour", TNumber);
   ("usageScanTimezone", TString); ("smtpHost", TString); ("smtpPort", TNumber); ("smtpUser", TString);
   ("smtpPass", TString); ("smtpFrom", TString); ("smtpSecure", TBoolean); ("smtpConfigs", TConfigs);
   ("emailSignatureText", TString); ("welcomeEmailSubject", TString); ("welcomeEmailBody", TString);
   ("gpuEnabled", TBoolean); ("gpuUtilThreshold", TNumber); ("gpuIdleMinutes", TNumber);
   ("gpuGraceMinutes", TNumber); ("gpuImmediate", TBoolean); ("gpuWhitelistUsers", TString);
   ("gpuWhitelistLabs", TString); ("gpuWarnEmailSubject", TString); ("gpuWarnEmailBody", TString);
   ("gpuKillEmailSubject", TString); ("gpuKillEmailBody", TString); ("removalEmailSubject", TString);
   ("removalEmailBody", TString); ("quotaEmailSubject", TString); ("quotaEmailBody", TString);
   ("usageReportStudentSubject", TString); ("usageReportStudentBody", TString);
   ("usageReportPiSubject", TString); ("usageReportPiBody", TString);
   ("placementCompleteEmailSubject", TString); ("placementCompleteEmailBody", TString);
   ("testEmailSubject", TString); ("testEmailBody", TString); ("alertsEnabled", TBoolean);
   ("alertLevel", TOneOf ["WARN"; "ERROR"]); ("alertDedupMinutes", TNumber);
   ("nodeOfflineGraceSeconds", TNumber); ("logRetentionDays", TNumber); ("logMaxEntries", TNumber);
   ("logMaxSizeMb", TNumber); ("quotaAlertPct", TNumber); ("studentQuotaAlertsEnabled", TBoolean);
   ("studentQuotaAlertPct", TNumber); ("studentQuotaNotifyAdmins", TBoolean);
   ("studentQuotaEmailSubject", TString); ("studentQuotaEmailBody", TString); ("webdavUrl", TString);
   ("webdavUser", TString); ("webdavPass", TString); ("webdavBaseDir", TString); ("backupEnabled", TBoolean);
   ("backupIntervalHours", TNumber); ("backupAnchorHour", TClock 23); ("backupAnchorMinute", TClock 59);
   ("backupTimezone", TString); ("backupKeepRecent", TNumber); ("backupKeepWeekly", TNumber);
   ("backupKeepMonthly", TNumber); ("backupKeepYearly", TNumber); ("backupLastRun", TNumber);
   ("backupLastStatus", TOneOf [EmptyString; "ok"; "failed"]); ("backupLastError", TString);
   ("backupLastName", TString); ("scrubEnabled", TBoolean); ("scrubIntervalDays", TNumber);
   ("scrubHour", TNumber); ("scrubTimezone", TString)].

Definition SMTP_FIELDS : list (string * SettingType) :=
  [("id", TString); ("name", TString); ("rank", TNumber); ("host", TString); ("port", TNumber);
   ("user", TString); ("pass", TString); ("from", TString); ("secure", TBoolean)].

(** The values of a declared type. *)
Definition scalar (ty : SettingType) (v : json) : bool :=
  match ty, v with
  | TNumber, JNum _ | TString, JStr _ | TBoolean, JBool _ => true
  | TClock max, JNum n => is_integer n && num_leb (num_of_Z 0) n && num_leb n (num_of_Z max)
  | TOneOf l, JStr s => existsb (String.eqb s) l
  | _, _ => false
  end.
(** What a stored value of the type reads back as: JSON keeps null of a number that is not
    finite. *)
Definition stored_as (ty : SettingType) (v : json) : bool :=
  scalar ty v || match ty, v with TNumber, JNull => true | _, _ => false end.

Definition config_by (ok : SettingType -> json -> bool) (c : json) : bool :=
  forallb (fun f => match field f.1 c with Some v => ok f.2 v | None => false end) SMTP_FIELDS.
Definition typed_by (ok : SettingType -> json -> bool) (ty : SettingType) (v : json) : bool :=
  match ty with
  | TConfigs => match v with JArr l => forallb (config_by ok) l | _ => false end
  | _ => ok ty v
  end.
Definition has_type : SettingType -> json -> bool := typed_by scalar.
Definition reads_as : SettingType -> json -> bool := typed_by stored_as.
(** The value may be stored under the key; nothing is asked of a key of an earlier version. *)
Definition setting_typed (key : string) (v : json) : bool :=
  match alookup key Settings with Some ty => reads_as ty v | None => true end.
(** A stored row: the text of such a value. *)
Definition setting_fits (r : string * text) : bool :=
  match alookup r.1 Settings, r.2 with
  | None, _ => true
  | Some ty, TJson v => reads_as ty v
  | Some _, TRaw _ => false
  end.

(** ** Tables

    An [INTEGER PRIMARY KEY AUTOINCREMENT] table never reuses an id: [last_id] is its row of
    [sqlite_sequence]. *)
Record table (A : Type) := mkTable { rows : list A; last_id : Z }.
Arguments mkTable {A} rows last_id.
Arguments rows {A} t.
Arguments last_id {A} t.

Record Db := mkDb {
  admins : table AdminRow;
  settings : list (string * text);
  nodes : table NodeRow;
  labs : table LabRow;
  students : table StudentRow;
  lab_members : table LabMemberRow;
  lab_placements : table PlacementRow;
  placement_members : table PlacementMemberRow;
  task_log : table TaskRow;
  logs : table LogRow;
  gpu_snapshot : list GpuSnapshotRow;
  gpu_events : table GpuEventRow;
  storage_samples : table SampleRow;
  quota_alerts : table QuotaAlertRow;
  student_quota_alerts : table StudentQuotaAlertRow;
  audit_log : table AuditRow;
  node_groups : table NodeGroupRow;
  node_group_members : list NodeGroupMemberRow;
  announcements : table AnnouncementRow;
  announcement_templates : table AnnouncementTemplateRow }.

Definition empty_table {A} : table A := mkTable [] 0.
Definition empty_db : Db :=
  mkDb empty_table [] empty_table empty_table empty_table empty_table empty_table empty_table
    empty_table empty_table [] empty_table empty_table empty_table empty_table empty_table
    empty_table [] empty_table empty_table.

(** ** Exceptions: one constructor per throw site, with what its message interpolates *)
Inductive exn :=
| ESqlConstraint (table_name : string)
| ESqlSchema (name : string)   (* no such table or column, or one there already *)
| EJsonSyntax
| EUnknownNode | EUnknownNodeName (name : string) | EInvalidNodeName (name : string)
| EInvalidImage (image : string) | EInvalidCpus | EInvalidMemory | EInvalidShm
| EInvalidRootfs | EInvalidRestart
| ENoFreePort
| ESmbNoOwner (node : string)
| EOwnerHasNoPlacement (owner : string)
| EOwnerNotActive (owner : string) (state : PlacementState)
| ESmbMountNotReady (node : string)
| EUsernsMismatch (client owner : string)
| EColdQuotaRequired
| EStudentFastQuota | EStudentColdQuota | ESmbStudentColdQuota
| ECredentialNotReady | ECredentialGone | ECredentialUndecryptable
| EUnknownPlacement
| EFastOverCapacity (quota : Z) (capacity : num) | EColdOverCapacity (quota : Z) (capacity : num)
| EOnlyFailedRetried
| ESmbDependents (lab node : string) (clients : list string)
| ENodeOnline (node : string)
| EInvalidLabName | ELabExists (name : string) | EUnknownLab
| EPiUsernameRequired | EPiUsernameFixed
| EUidExhausted
| EAlreadyMember (user lab : string) | EPiProtected | ENotMember
| ENodeHasPlacements (node : string) (n : nat)
| ENodeIsOwner (node : string) (clients : list string)
| EOwnerRequired | EUnknownOwner (name : string) | EOwnOwner | EOwnerNotLocal (name : string)
| EImportNotCommittable (invalid conflicts : nat) (first : option (Z * string))
| EPiNotCreated
| EGroupNameRequired | EGroupNameTooLong | EGroupExists (name : string) | EUnknownGroup
| EMissingEnv (name : string) | EPlaceholder (name marker : string)
| EWeakLength (name : string) (min : nat) | EWeakRepeated (name : string)
| EPortSyntax | EPortRange
| EDomain (why : string) | ESessionSecretShort
| ESignupToken | EPasswordShort | EEmailRequired | EAdminExists
| ERedirect (to : string)
| ETemplateName | ETemplateBody | ETemplateMissing
| ESubjectRequired | EMessageRequired | EPlaceholdersMissing (tokens : list string)
| ENoRecipients | EUnknownRecipient (email : string)
| EEventNotFound | EAnnouncementNotFound
| EBadNodeName | EInvalidBackend (backend : string)
| ELabNameRequired | EUsernameRequired | ELabAndNodeRequired
| EQuotaTb (label : string) | EQuotaUnit (label : string) | EQuotaAmount (label : string)
| EQuotaTooLarge (label : string)
| EFetch | EDav (message : string) | EUri
| EBackupKeyMissing | EBackupCorrupt
| ETypeError | ERangeError | EReactChild
| EUpgradeRefused.

#[global] Instance exn_eq_dec : EqDecision exn.
Proof. solve_decision. Defined.

(** ** The queue engine

    honker is a third-party engine with a database of its own: an instance of this class
    is one implementation of the calls the program makes; [HonkerSpec] states what the
    program relies on. *)
Class Honker := {
  hkq : Type;
  hk_enqueue : string -> json -> hkq -> Z * hkq;
  hk_claim_one : string -> string -> hkq -> option (Z * json) * hkq;
  hk_ack_batch : string -> list Z -> string -> hkq -> hkq;
  hk_retry : string -> Z -> string -> Z -> string -> hkq -> option hkq }.

(** A job waits in its queue until a worker claims it; each queue is first in, first out;
    an acknowledged job is gone. *)
Class HonkerSpec `{Honker} := {
  pending : hkq -> string -> list (Z * json);
  pending_enqueue q n v :
    pending (hk_enqueue n v q).2 n = pending q n ++ [((hk_enqueue n v q).1, v)];
  pending_enqueue_other q n m v : n <> m -> pending (hk_enqueue n v q).2 m = pending q m;
  claim_empty q n wk : pending q n = [] ->
    (hk_claim_one n wk q).1 = None /\ pending (hk_claim_one n wk q).2 n = [];
  claim_first q n wk j l : pending q n = j :: l ->
    (hk_claim_one n wk q).1 = Some j /\ pending (hk_claim_one n wk q).2 n = l;
  claim_other q n m wk : n <> m -> pending (hk_claim_one n wk q).2 m = pending q m;
  pending_ack q n m js wk : pending (hk_ack_batch n js wk q) m = pending q m }.

(** A job that left the line: its claimer, or none while a retry's delay runs. *)
Record HeldJob := mkHeld { hj_id : Z; hj_worker : option string; hj_payload : json }.
(** [ackBatch(js, wk)] releases the jobs [js] that [wk] claimed, [_retry(i, wk)] sets [wk]'s
    job [i] back. *)
Definition acked (js : list Z) (wk : string) (h : HeldJob) : Prop :=
  hj_worker h = Some wk /\ hj_id h ∈ js.
#[global] Instance acked_dec js wk h : Decision (acked js wk h).
Proof. unfold acked. apply _. Defined.
Definition set_back (i : Z) (wk : string) (h : HeldJob) : HeldJob :=
  if decide (acked [i] wk h) then mkHeld (hj_id h) None (hj_payload h) else h.

(** The jobs out of the line, and what the engine does on its own in a line, [hk_returns]: a job that was
    not acknowledged in time, or whose delay is over, is put back somewhere in its line, or
    given up after too many attempts. *)
Class HonkerClaims `{HonkerSpec} := {
  held : hkq -> string -> list HeldJob;
  hk_returns : string -> hkq -> hkq -> Prop;
  held_enqueue q n m v : held (hk_enqueue n v q).2 m = held q m;
  held_claim_none q n m wk : (hk_claim_one n wk q).1 = None ->
    held (hk_claim_one n wk q).2 m = held q m;
  held_claim q n wk j : (hk_claim_one n wk q).1 = Some j ->
    held (hk_claim_one n wk q).2 n = mkHeld j.1 (Some wk) j.2 :: held q n;
  held_claim_other q n m wk : n <> m -> held (hk_claim_one n wk q).2 m = held q m;
  held_ack q n js wk :
    held (hk_ack_batch n js wk q) n = filter (fun h => ~ acked js wk h) (held q n);
  held_ack_other q n m js wk : n <> m -> held (hk_ack_batch n js wk q) m = held q m;
  pending_retry q n m i wk d e q' : hk_retry n i wk d e q = Some q' -> pending q' m = pending q m;
  held_retry q n i wk d e q' : hk_retry n i wk d e q = Some q' ->
    held q' n = set_back i wk <$> held q n;
  held_retry_other q n m i wk d e q' :
    n <> m -> hk_retry n i wk d e q = Some q' -> held q' m = held q m;
  returns_inv n q q' : hk_returns n q q' -> exists l1 h l2,
    held q n = l1 ++ h :: l2 /\ held q' n = l1 ++ l2 /\
    (pending q' n = pending q n \/
     exists p1 p2, pending q n = p1 ++ p2 /\ pending q' n = p1 ++ (hj_id h, hj_payload h) :: p2) /\
    forall m, m <> n -> held q' m = held q m /\ pending q' m = pending q m }.

(** ** The platform: Node's clock, randomness and cryptography, the process environment,
    and the SMTP servers *)
Class Platform := {
  clock : nat -> Z;                 (* the n-th reading of [Date.now()] *)
  random_byte : nat -> Z;           (* the n-th byte of [randomBytes] *)
  random_uuid : nat -> string;      (* the n-th [randomUUID()] *)
  random_iv : nat -> string;        (* the n-th 12-byte nonce, base64 *)
  process_env : string -> option string;
  sha256 : string -> string;
  hmac_sha256 : string -> string -> string;
  (** AES-256-GCM under the key derived from a secret: nonce and plaintext to tag and
      ciphertext, both base64 *)
  gcm_seal : string -> string -> text -> string * string;
  gcm_open : string -> string -> string -> string -> option text;
  (** [JSON.parse] on a text the program did not print; [None] where it throws *)
  parse_raw : string -> option json;
  (** [JSON.stringify] as characters, where the program embeds it in another text *)
  print_json : json -> string;
  (** [a.localeCompare(b) <= 0], and [Number(s)] of a string *)
  locale_leb : string -> string -> bool;
  str_to_num : string -> num;
  (** the message of an exception: the literals of the throw sites and the engines' own *)
  error_text : exn -> string;
  (** SQLite's column affinities: the text of a number in a TEXT column, and the number a
      numeric column reads in a text *)
  sql_text_of : num -> string;
  sql_num_of : string -> option num;
  (** the answer to the n-th SMTP transaction: accepted, or an error message *)
  smtp_answer : nat -> option string }.

(** [JSON.parse(t)], [None] where it throws *)
Definition json_parse `{Platform} (t : text) : option json :=
  match t with TJson v => Some v | TRaw s => parse_raw s end.

(** ** The world *)

Record Mail := mkMail { m_from : string; m_to : string; m_subject : string; m_text : string }.
(** [interface SmtpConfig] *)
Record SmtpConfig := mkSmtp {
  sc_id : string; sc_name : string; sc_rank : num; sc_host : string; sc_port : num;
  sc_user : string; sc_pass : string; sc_from : string; sc_secure : bool }.
(** A mail being handed to the servers: its recipient, its subject and text, and the usable
    servers, all read before the first [await]. *)
Record Outgoing := mkOutgoing {
  og_to : string; og_subject : string; og_text : string; og_configs : list SmtpConfig }.
(** What an asynchronous function does once its mail is through: the credential of a member is
    burnt, or the completion mail of a placement is stamped. *)
Inductive Delivery :=
| DCredential (memberId : Z)
| DCompletion (placementId : Z).
(** A call of such a function the hub did not wait for: the node, lab and account its error
    handler logs, the rest of it, and its mail ([None] when there is no server or recipient). *)
Record InFlight := mkInFlight {
  if_node : string; if_lab : string; if_user : option string;
  if_delivery : Delivery; if_mail : option Outgoing }.
Record KeyState := mkKeyState { ks_lastSent : Z; ks_suppressed : Z }.

Record World `{Honker} := mkWorld {
  w_db : Db;
  w_hk : hkq;
  w_ticks : nat;                     (* clock readings so far *)
  w_bytes : nat;                     (* random bytes so far *)
  w_uuids : nat;
  w_ivs : nat;
  w_smtp : nat;                      (* SMTP transactions so far *)
  w_outbox : list Mail;              (* messages some SMTP server accepted, oldest first *)
  w_alert_state : gmap string KeyState;  (* [state] of lib/alerts.ts *)
  w_gpu_mail : gmap string Z;            (* [gpuMailState] of lib/hub.ts *)
  w_mails : list InFlight }.             (* the mails in flight, oldest first *)

Abbreviation Act := (M World exn).
