(* ===== verification/Sql.v ===== *)
(** * Sql: the SQL statements on the tables of [Schema], and the platform calls

    An insert checks the table's UNIQUE constraints, foreign keys and triggers and throws
    [ESqlConstraint] when one fails; a delete runs the [ON DELETE] actions declared in
    [lib/db.ts]; each statement is atomic. *)
From S2P Require Import Prelude Js Schema.

(** Statements on one table *)
Section table_ops.
Context {A : Type}.
Definition tbl_insert (mk : Z -> A) (t : table A) : table A :=
  mkTable (rows t ++ [mk (last_id t + 1)]) (last_id t + 1).
Definition tbl_update (P : A -> Prop) `{!forall x, Decision (P x)} (f : A -> A)
    (t : table A) : table A := mkTable (update_where P f (rows t)) (last_id t).
Definition tbl_delete (P : A -> Prop) `{!forall x, Decision (P x)} (t : table A) : table A :=
  mkTable (delete_where P (rows t)) (last_id t).
Definition tbl_map (f : A -> A) (t : table A) : table A := mkTable (f <$> rows t) (last_id t).
End table_ops.

(** ** The schema's actions *)

(** A nullable reference to one of [ids]. *)
Definition ref_in (o : option Z) (ids : list Z) : Prop :=
  match o with Some i => i ∈ ids | None => False end.
#[global] Instance ref_in_dec o ids : Decision (ref_in o ids).
Proof. destruct o; simpl; apply _. Defined.

Definition clear_ref (o : option Z) (ids : list Z) : option Z :=
  if decide (ref_in o ids) then None else o.

(** [DELETE FROM lab_placements WHERE P]: cascades to placement_members, storage_samples,
    quota_alerts and student_quota_alerts, and clears the GPU rows' references. *)
Definition drop_placements (P : PlacementRow -> Prop) `{!forall x, Decision (P x)} (d : Db) : Db :=
  let ids := p_id <$> select P (rows (lab_placements d)) in
  d <| lab_placements ::= tbl_delete P |>
    <| placement_members ::= tbl_delete (fun m => pm_placement_id m ∈ ids) |>
    <| storage_samples ::= tbl_delete (fun s => ref_in (ss_placement_id s) ids) |>
    <| quota_alerts ::= tbl_delete (fun q => ref_in (qa_placement_id q) ids) |>
    <| student_quota_alerts ::= tbl_delete (fun q => sqa_placement_id q ∈ ids) |>
    <| gpu_snapshot ::= fmap (fun g => g <| gs_placement_id ::= fun o => clear_ref o ids |>) |>
    <| gpu_events ::= tbl_map (fun g => g <| ge_placement_id ::= fun o => clear_ref o ids |>) |>.

(** [DELETE FROM labs WHERE id = i]: cascades to its placements, roster, samples and alerts. *)
Definition drop_lab (i : Z) (d : Db) : Db :=
  (drop_placements (fun p => p_lab_id p = i) d)
    <| lab_members ::= tbl_delete (fun m => lm_lab_id m = i) |>
    <| storage_samples ::= tbl_delete (fun s => ss_lab_id s = Some i) |>
    <| quota_alerts ::= tbl_delete (fun q => qa_lab_id q = Some i) |>
    <| labs ::= tbl_delete (fun l => l_id l = i) |>.

(** [DELETE FROM students WHERE id = i], past the [RESTRICT] check. *)
Definition drop_student (i : Z) (d : Db) : Db :=
  d <| lab_members ::= tbl_delete (fun m => lm_student_id m = i) |>
    <| placement_members ::= tbl_delete (fun m => pm_student_id m = i) |>
    <| student_quota_alerts ::= tbl_delete (fun q => sqa_student_id q = i) |>
    <| storage_samples ::= tbl_map (fun s => s <| ss_student_id ::= fun o => clear_ref o [i] |>) |>
    <| students ::= tbl_delete (fun s => s_id s = i) |>.

(** [DELETE FROM nodes WHERE id = i], past the foreign-key checks. *)
Definition drop_node (i : Z) (d : Db) : Db :=
  d <| node_group_members ::= delete_where (fun m => gm_node_id m = i) |>
    <| nodes ::= tbl_delete (fun n => n_id n = i) |>.

Definition drop_group (i : Z) (d : Db) : Db :=
  d <| node_group_members ::= delete_where (fun m => gm_group_id m = i) |>
    <| node_groups ::= tbl_delete (fun g => g_id g = i) |>.

Definition UID_MIN : Z := 10000.
Definition UID_MAX : Z := 59999.

(** SQLite stores a NaN as NULL. *)
Definition sql_null (x : num) : bool := match x with S754_nan => true | _ => false end.
Definition json_null (v : json) : bool := match v with JNull => true | JNum n => sql_null n | _ => false end.

Section sql.
Context {HK : Honker} {PF : Platform}.

(** ** Platform calls *)

Definition date_now : Act Z := fun w => (Ok (clock (w_ticks w)), w <| w_ticks ::= S |>).
Definition new_uuid : Act string := fun w => (Ok (random_uuid (w_uuids w)), w <| w_uuids ::= S |>).
Definition new_iv : Act string := fun w => (Ok (random_iv (w_ivs w)), w <| w_ivs ::= S |>).
(** [randomBytes(n)] *)
Definition random_bytes (n : nat) : Act (list Z) := fun w =>
  (Ok (random_byte <$> seq (w_bytes w) n), w <| w_bytes ::= Nat.add n |>).

Definition db : Act Db := gets w_db.
Definition exec (f : Db -> Db) : Act unit := modify (fun w => w <| w_db ::= f |>).

(** [db().transaction(() => m)()]: a throw rolls the database back. *)
Definition transaction {A} (m : Act A) : Act A := fun w =>
  match m w with
  | (Ok a, w') => (Ok a, w')
  | (Throw e, w') => (Throw e, w' <| w_db := w_db w |>)
  end.

(** ** Binding a value the program has not typed

    The driver binds null, undefined, numbers and strings, and throws on everything else; the
    column's affinity decides what is stored. *)

Definition bind_text (o : option json) : result exn (option string) :=
  match o with
  | None | Some JNull => Ok None
  | Some (JStr s) => Ok (Some s)
  | Some (JNum n) => Ok (Some (sql_text_of n))
  | _ => Throw ETypeError
  end.

Definition bind_numeric (o : option json) : result exn (option json) :=
  match o with
  | None | Some JNull => Ok None
  | Some (JNum n) => Ok (Some (JNum n))
  | Some (JStr s) => Ok (Some (match sql_num_of s with Some n => JNum n | None => JStr s end))
  | _ => Throw ETypeError
  end.

(** ** Inserts *)

Definition insert_lab (name : string) (pi_name pi_email : option string) (now : Z) : Act Z :=
  d ← db;
  throw_if (bool_decide (name ∈ l_name <$> rows (labs d))) (ESqlConstraint "labs");;
  exec (fun d => d <| labs ::= tbl_insert (fun i => mkLab i name pi_name pi_email None now now) |>);;
  mret (last_id (labs d) + 1).

Definition insert_student (student_id : option string) (username : string)
    (email name : option string) (uid now : Z) : Act Z :=
  d ← db;
  let ss := rows (students d) in
  throw_if (bool_decide (username ∈ s_username <$> ss)
    || bool_decide (is_Some student_id /\ student_id ∈ s_student_id <$> ss)
    || bool_decide (uid ∈ s_linux_uid <$> ss)
    || negb ((UID_MIN <=? uid) && (uid <=? UID_MAX))) (ESqlConstraint "students");;
  exec (fun d => d <| students ::= tbl_insert (fun i =>
    mkStudent i student_id username email name uid now now) |>);;
  mret (last_id (students d) + 1).

Definition insert_lab_member (lab_id student_id now : Z) : Act unit :=
  d ← db;
  throw_if (negb (bool_decide (lab_id ∈ l_id <$> rows (labs d)))
    || negb (bool_decide (student_id ∈ s_id <$> rows (students d)))
    || bool_decide ((lab_id, student_id) ∈
         (fun m => (lm_lab_id m, lm_student_id m)) <$> rows (lab_members d)))
    (ESqlConstraint "lab_members");;
  exec (fun d => d <| lab_members ::= tbl_insert (fun i => mkLabMember i lab_id student_id now) |>).

(** [mk] gives the other columns, for the new id. *)
Definition insert_placement (lab_id node_id port : Z) (mk : Z -> PlacementRow) : Act Z :=
  d ← db;
  let ps := rows (lab_placements d) in
  throw_if (negb (bool_decide (lab_id ∈ l_id <$> rows (labs d)))
    || negb (bool_decide (node_id ∈ n_id <$> rows (nodes d)))
    || bool_decide ((lab_id, node_id) ∈ (fun p => (p_lab_id p, p_node_id p)) <$> ps)
    || bool_decide ((node_id, port) ∈ (fun p => (p_node_id p, p_ssh_port p)) <$> ps))
    (ESqlConstraint "lab_placements");;
  exec (fun d => d <| lab_placements ::= tbl_insert (fun i =>
    (mk i) <| p_id := i |> <| p_lab_id := lab_id |> <| p_node_id := node_id |>
         <| p_ssh_port := port |>) |>);;
  mret (last_id (lab_placements d) + 1).

Definition insert_placement_member (placement_id student_id : Z)
    (secret : option string) (now : Z) : Act unit :=
  d ← db;
  throw_if (negb (bool_decide (placement_id ∈ p_id <$> rows (lab_placements d)))
    || negb (bool_decide (student_id ∈ s_id <$> rows (students d)))
    || bool_decide ((placement_id, student_id) ∈
         (fun m => (pm_placement_id m, pm_student_id m)) <$> rows (placement_members d)))
    (ESqlConstraint "placement_members");;
  exec (fun d => d <| placement_members ::= tbl_insert (fun i =>
    mkPlacementMember i placement_id student_id MProvisioning None secret None now now) |>).

Definition insert_task (uuid : string) (job_id : Z) (node action : string) (params : text)
    (requested_by : option string) (now : Z) : Act unit :=
  d ← db;
  throw_if (bool_decide (uuid ∈ t_task_uuid <$> rows (task_log d))) (ESqlConstraint "task_log");;
  exec (fun d => d <| task_log ::= tbl_insert (fun i =>
    mkTask i uuid job_id node action (Some params) requested_by TQueued None None None 0 false
      now now) |>).

Definition insert_log (mk : Z -> LogRow) : Act unit :=
  d ← db;
  throw_if (sql_null (log_ts (mk (last_id (logs d) + 1)))) (ESqlConstraint "logs");;
  exec (fun d => d <| logs ::= tbl_insert (fun i => (mk i) <| log_id := i |>) |>).

Definition insert_audit (ts : Z) (actor : option string) (action : string)
    (target detail : option string) : Act unit :=
  exec (fun d => d <| audit_log ::= tbl_insert (fun i => mkAudit i ts actor action target detail) |>).

(** ** Updates and deletes *)

Definition update_nodes (P : NodeRow -> Prop) `{!forall x, Decision (P x)} f : Act unit :=
  exec (fun d => d <| nodes ::= tbl_update P f |>).
Definition update_labs (P : LabRow -> Prop) `{!forall x, Decision (P x)} f : Act unit :=
  exec (fun d => d <| labs ::= tbl_update P f |>).
Definition update_students (P : StudentRow -> Prop) `{!forall x, Decision (P x)} f : Act unit :=
  exec (fun d => d <| students ::= tbl_update P f |>).
Definition update_placements (P : PlacementRow -> Prop) `{!forall x, Decision (P x)} f : Act unit :=
  exec (fun d => d <| lab_placements ::= tbl_update P f |>).
Definition update_members (P : PlacementMemberRow -> Prop) `{!forall x, Decision (P x)} f : Act unit :=
  exec (fun d => d <| placement_members ::= tbl_update P f |>).
Definition update_tasks (P : TaskRow -> Prop) `{!forall x, Decision (P x)} f : Act unit :=
  exec (fun d => d <| task_log ::= tbl_update P f |>).

(** [UPDATE labs SET pi_student_id = s]: a foreign key. *)
Definition set_lab_pi (lab_id student_id : Z) : Act unit :=
  d ← db;
  throw_if (negb (bool_decide (student_id ∈ s_id <$> rows (students d)))) (ESqlConstraint "labs");;
  update_labs (fun l => l_id l = lab_id) (fun l => l <| l_pi_student_id := Some student_id |>).

Definition delete_placements (P : PlacementRow -> Prop) `{!forall x, Decision (P x)} : Act unit :=
  exec (drop_placements P).
Definition delete_lab (i : Z) : Act unit := exec (drop_lab i).
Definition delete_student (i : Z) : Act unit :=
  d ← db;
  throw_if (bool_decide (Some i ∈ l_pi_student_id <$> rows (labs d))) (ESqlConstraint "students");;
  exec (drop_student i).
Definition delete_node (i : Z) : Act unit :=
  d ← db;
  throw_if (bool_decide (i ∈ p_node_id <$> rows (lab_placements d))
    || bool_decide (Some i ∈ n_cold_owner_node_id <$>
         select (fun n => n_id n <> i) (rows (nodes d)))) (ESqlConstraint "nodes");;
  exec (drop_node i).
Definition delete_lab_members (P : LabMemberRow -> Prop) `{!forall x, Decision (P x)} : Act unit :=
  exec (fun d => d <| lab_members ::= tbl_delete P |>).
Definition delete_members (P : PlacementMemberRow -> Prop) `{!forall x, Decision (P x)} : Act unit :=
  exec (fun d => d <| placement_members ::= tbl_delete P |>).
Definition delete_tasks (P : TaskRow -> Prop) `{!forall x, Decision (P x)} : Act unit :=
  exec (fun d => d <| task_log ::= tbl_delete P |>).
Definition delete_logs (P : LogRow -> Prop) `{!forall x, Decision (P x)} : Act unit :=
  exec (fun d => d <| logs ::= tbl_delete P |>).
Definition delete_gpu_events (P : GpuEventRow -> Prop) `{!forall x, Decision (P x)} : Act unit :=
  exec (fun d => d <| gpu_events ::= tbl_delete P |>).
Definition delete_gpu_snapshot (node : string) : Act unit :=
  exec (fun d => d <| gpu_snapshot ::= delete_where (fun g => gs_node g = node) |>).
Definition delete_quota_alerts (P : QuotaAlertRow -> Prop) `{!forall x, Decision (P x)} : Act unit :=
  exec (fun d => d <| quota_alerts ::= tbl_delete P |>).
Definition delete_samples (P : SampleRow -> Prop) `{!forall x, Decision (P x)} : Act unit :=
  exec (fun d => d <| storage_samples ::= tbl_delete P |>).

(** ** The other tables *)

Definition upsert_setting (key : string) (value : text) : Act unit :=
  exec (fun d => d <| settings ::= aset key value |>).

(** [INSERT INTO nodes (...) ON CONFLICT(name) DO UPDATE SET ...] *)
Definition upsert_node (name : string) (mk : Z -> NodeRow) (f : NodeRow -> NodeRow) : Act unit :=
  exec (fun d =>
    if decide (name ∈ n_name <$> rows (nodes d))
    then d <| nodes ::= tbl_update (fun n => n_name n = name) f |>
    else d <| nodes ::= tbl_insert (fun i => (mk i) <| n_id := i |> <| n_name := name |>
                                               <| n_cold_owner_node_id := None |>) |>).

(** [UPDATE nodes SET cold_backend = ?, cold_owner_node_id = ? WHERE id = ?]: a foreign key. *)
Definition set_node_cold (id : Z) (backend : ColdBackend) (owner : option Z) : Act unit :=
  d ← db;
  throw_if (match owner with
            | Some o => negb (bool_decide (o ∈ n_id <$> rows (nodes d)))
            | None => false
            end) (ESqlConstraint "nodes");;
  exec (fun d => d <| nodes ::= tbl_update (fun n => n_id n = id)
    (fun n => n <| n_cold_backend := backend |> <| n_cold_owner_node_id := owner |>) |>).
Definition clear_node_owner (id : Z) : Act unit :=
  exec (fun d => d <| nodes ::= tbl_update (fun n => n_cold_owner_node_id n = Some id)
    (fun n => n <| n_cold_owner_node_id := None |> <| n_cold_ready := false |>) |>).

(** A nullable reference to a row of [ids]. *)
Definition ref_ok (o : option Z) (ids : list Z) : bool :=
  match o with Some i => bool_decide (i ∈ ids) | None => true end.

Definition insert_sample (placement lab student : option Z) (pool : string) (used : num)
    (quota : option json) (ts : Z) : Act unit :=
  d ← db;
  throw_if (sql_null used || negb (ref_ok placement (p_id <$> rows (lab_placements d)))
    || negb (ref_ok lab (l_id <$> rows (labs d)))
    || negb (ref_ok student (s_id <$> rows (students d)))) (ESqlConstraint "storage_samples");;
  exec (fun d => d <| storage_samples ::= tbl_insert (fun i =>
    mkSample i placement lab student pool used quota ts) |>).

Definition insert_quota_alert (placement lab : option Z) (pool : string) (pct : num) (ts : Z)
    : Act unit :=
  d ← db;
  throw_if (sql_null pct || negb (ref_ok placement (p_id <$> rows (lab_placements d)))
    || negb (ref_ok lab (l_id <$> rows (labs d)))) (ESqlConstraint "quota_alerts");;
  exec (fun d => d <| quota_alerts ::= tbl_insert (fun i =>
    mkQuotaAlert i placement lab pool pct ts) |>).

Definition insert_student_quota_alert (placement student : Z) (pool : string) (pct : num)
    (ts : Z) : Act unit :=
  d ← db;
  throw_if (sql_null pct || negb (bool_decide (placement ∈ p_id <$> rows (lab_placements d)))
    || negb (bool_decide (student ∈ s_id <$> rows (students d))))
    (ESqlConstraint "student_quota_alerts");;
  exec (fun d => d <| student_quota_alerts ::= tbl_insert (fun i =>
    mkStudentQuotaAlert i placement student pool pct ts) |>).

(** [INSERT OR REPLACE] on the primary key (node, pid). *)
Definition replace_gpu_snapshot (g : GpuSnapshotRow) : Act unit :=
  d ← db;
  throw_if (json_null (gs_pid g) ||
      negb (ref_ok (gs_placement_id g) (p_id <$> rows (lab_placements d))))
    (ESqlConstraint "gpu_snapshot");;
  exec (fun d => d <| gpu_snapshot ::= fun l =>
    delete_where (fun h => gs_node h = gs_node g /\ gs_pid h = gs_pid g) l ++ [g] |>).

Definition insert_gpu_event (placement : option Z) (mk : Z -> GpuEventRow) : Act unit :=
  d ← db;
  throw_if (sql_null (ge_ts (mk (last_id (gpu_events d) + 1)))
    || negb (ref_ok placement (p_id <$> rows (lab_placements d)))) (ESqlConstraint "gpu_events");;
  exec (fun d => d <| gpu_events ::= tbl_insert (fun i =>
    (mk i) <| ge_id := i |> <| ge_placement_id := placement |>) |>).

Definition insert_group (name : string) (now : Z) : Act Z :=
  d ← db;
  throw_if (bool_decide (name ∈ g_name <$> rows (node_groups d))) (ESqlConstraint "node_groups");;
  exec (fun d => d <| node_groups ::= tbl_insert (fun i => mkNodeGroup i name now) |>);;
  mret (last_id (node_groups d) + 1).
Definition rename_group_row (id : Z) (name : string) : Act unit :=
  d ← db;
  throw_if (bool_decide (name ∈ g_name <$> select (fun g => g_id g <> id) (rows (node_groups d))))
    (ESqlConstraint "node_groups");;
  exec (fun d => d <| node_groups ::= tbl_update (fun g => g_id g = id)
    (fun g => g <| g_name := name |>) |>).
Definition delete_group_row (id : Z) : Act unit := exec (drop_group id).
Definition delete_group_members (id : Z) : Act unit :=
  exec (fun d => d <| node_group_members ::= delete_where (fun m => gm_group_id m = id) |>).
Definition insert_group_member (group node : Z) : Act unit :=
  d ← db;
  throw_if (negb (bool_decide (group ∈ g_id <$> rows (node_groups d)))
    || negb (bool_decide (node ∈ n_id <$> rows (nodes d)))
    || bool_decide (mkNodeGroupMember group node ∈ node_group_members d))
    (ESqlConstraint "node_group_members");;
  exec (fun d => d <| node_group_members ::= fun l => l ++ [mkNodeGroupMember group node] |>).

Definition insert_announcement (mk : Z -> AnnouncementRow) : Act unit :=
  exec (fun d => d <| announcements ::= tbl_insert (fun i => (mk i) <| an_id := i |>) |>).
Definition delete_announcements (P : AnnouncementRow -> Prop) `{!forall x, Decision (P x)} : Act unit :=
  exec (fun d => d <| announcements ::= tbl_delete P |>).
Definition insert_template (mk : Z -> AnnouncementTemplateRow) : Act Z :=
  d ← db;
  exec (fun d => d <| announcement_templates ::= tbl_insert (fun i => (mk i) <| at_id := i |>) |>);;
  mret (last_id (announcement_templates d) + 1).
Definition update_templates (P : AnnouncementTemplateRow -> Prop) `{!forall x, Decision (P x)} f
    : Act unit := exec (fun d => d <| announcement_templates ::= tbl_update P f |>).
Definition delete_templates (P : AnnouncementTemplateRow -> Prop) `{!forall x, Decision (P x)}
    : Act unit := exec (fun d => d <| announcement_templates ::= tbl_delete P |>).

Definition insert_admin (name email hash : string) (now : Z) : Act Z :=
  d ← db;
  throw_if (bool_decide (email ∈ ad_email <$> rows (admins d))) (ESqlConstraint "admins");;
  exec (fun d => d <| admins ::= tbl_insert (fun i => mkAdmin i name email hash now true 0) |>);;
  mret (last_id (admins d) + 1).
Definition update_admins (P : AdminRow -> Prop) `{!forall x, Decision (P x)} f : Act unit :=
  exec (fun d => d <| admins ::= tbl_update P f |>).

(** [UPDATE students SET student_id = sid WHERE username = u]: a UNIQUE column. *)
Definition set_student_number (sid : option string) (username : string) : Act unit :=
  d ← db;
  throw_if (bool_decide (is_Some sid /\
      sid ∈ s_student_id <$> select (fun s => s_username s <> username) (rows (students d))))
    (ESqlConstraint "students");;
  update_students (fun s => s_username s = username) (fun s => s <| s_student_id := sid |>).
End sql.
