(* ===== verification/DbWf.v ===== *)
(** * DbWf: the integrity of the database, and that every SQL statement keeps it

    [db_wf] collects the constraints the schema of [lib/db.ts] declares: primary keys, UNIQUE
    columns, foreign keys and the uid trigger.  The statements of [Sql] check one row; the
    lemmas here show that checking one row, and running the [ON DELETE] actions, keeps the
    whole database consistent. *)
From S2P Require Import Prelude Js Redact Schema Sql.

(** ** Keys and references *)

(** An AUTOINCREMENT primary key. *)
Definition pk {A} (id : A -> Z) (t : table A) : Prop :=
  NoDup (id <$> rows t) /\ Forall (fun r => 0 < id r <= last_id t) (rows t).

(** A foreign key: the non-null references of [l] point into [ids]. *)
Definition fk {A} (ref : A -> option Z) (l : list A) (ids : list Z) : Prop :=
  Forall (fun r => forall i, ref r = Some i -> i ∈ ids) l.

(** A nullable UNIQUE column: nulls are distinct from each other. *)
Definition unique_opt {A K} (key : A -> option K) (l : list A) : Prop :=
  forall x y k, x ∈ l -> y ∈ l -> key x = Some k -> key y = Some k -> x = y.

Section keys.
Context {A : Type}.
Implicit Types (t : table A) (l : list A) (id : A -> Z) (ref : A -> option Z) (ids : list Z).

Lemma pk_insert id t (mk : Z -> A) :
  pk id t -> 0 <= last_id t -> id (mk (last_id t + 1)) = last_id t + 1 ->
  pk id (tbl_insert mk t).
Proof.
  intros [Hnd Hr] Hs Hid. unfold pk. cbn. split.
  - rewrite fmap_app. apply NoDup_app. split; [done|]. split; [|apply NoDup_singleton].
    intros i Hi ->%list_elem_of_singleton. apply list_elem_of_fmap in Hi as (r & Hi & Hin).
    rewrite Forall_forall in Hr. specialize (Hr _ Hin). rewrite Hid in Hi. lia.
  - apply Forall_app. split; [|by constructor; [lia|]].
    eapply Forall_impl; [exact Hr|]. cbn. lia.
Qed.

Lemma pk_update id t P {PDec : forall x, Decision (P x)} f :
  (forall r, id (f r) = id r) -> pk id t -> pk id (tbl_update P f t).
Proof.
  intros Hf [Hnd Hr]. unfold pk, tbl_update. cbn. rewrite update_where_fmap by done.
  split; [done|]. apply Forall_forall. intros r (y & Hy & H)%elem_of_update_where.
  rewrite Forall_forall in Hr. specialize (Hr _ Hy).
  destruct H as [[_ ->]|[_ ->]]; rewrite ?Hf; done.
Qed.

Lemma pk_map id t f : (forall r, id (f r) = id r) -> pk id t -> pk id (tbl_map f t).
Proof.
  intros Hf [Hnd Hr]. unfold pk, tbl_map. cbn. rewrite <- list_fmap_compose.
  rewrite (list_fmap_ext (id ∘ f) id) by (intros; apply Hf). split; [done|].
  rewrite Forall_fmap. eapply Forall_impl; [exact Hr|]. cbn. intros r. by rewrite Hf.
Qed.

Lemma pk_delete id t P {PDec : forall x, Decision (P x)} : pk id t -> pk id (tbl_delete P t).
Proof.
  intros [Hnd Hr]. unfold pk, tbl_delete. cbn. split.
  - eapply sublist_NoDup; [done|]. apply fmap_sublist, delete_where_sublist.
  - apply Forall_forall. intros r [_ H]%elem_of_delete_where.
    rewrite Forall_forall in Hr. by apply Hr.
Qed.

Lemma NoDup_insert {K} (key : A -> K) (mk : Z -> A) t :
  NoDup (key <$> rows t) -> key (mk (last_id t + 1)) ∉ key <$> rows t ->
  NoDup (key <$> rows (tbl_insert mk t)).
Proof.
  intros Hnd Hk. cbn. rewrite fmap_app. apply NoDup_app. split; [done|].
  split; [|apply NoDup_singleton]. intros k Hin ->%list_elem_of_singleton. done.
Qed.

Lemma NoDup_update {K} (key : A -> K) P {PDec : forall x, Decision (P x)} f t :
  (forall r, key (f r) = key r) -> NoDup (key <$> rows t) ->
  NoDup (key <$> rows (tbl_update P f t)).
Proof. intros Hf. cbn. by rewrite update_where_fmap. Qed.

Lemma NoDup_delete {K} (key : A -> K) P {PDec : forall x, Decision (P x)} t :
  NoDup (key <$> rows t) -> NoDup (key <$> rows (tbl_delete P t)).
Proof. intros Hnd. eapply sublist_NoDup; [done|]. apply fmap_sublist, delete_where_sublist. Qed.

Lemma unique_opt_insert {K} (key : A -> option K) (mk : Z -> A) t :
  unique_opt key (rows t) ->
  (key (mk (last_id t + 1)) = None \/ key (mk (last_id t + 1)) ∉ key <$> rows t) ->
  unique_opt key (rows (tbl_insert mk t)).
Proof.
  intros Hu Hk x y k. cbn. rewrite !elem_of_app, !list_elem_of_singleton.
  assert (forall z, z ∈ rows t -> key z = Some k -> key (mk (last_id t + 1)) = Some k -> False)
    as Hno.
  { intros z Hz Hkz Hm. destruct Hk as [Hk|Hk]; [congruence|].
    apply Hk. apply list_elem_of_fmap. exists z. split; [congruence|done]. }
  intros [Hx| ->] [Hy| ->] H1 H2; [by eapply Hu| | |done]; exfalso; by eapply Hno.
Qed.

Lemma unique_opt_update {K} (key : A -> option K) P {PDec : forall x, Decision (P x)} f l :
  (forall r, key (f r) = key r) -> unique_opt key l -> unique_opt key (update_where P f l).
Proof.
  intros Hf Hu x y k (x0 & Hx & Ex)%elem_of_update_where (y0 & Hy & Ey)%elem_of_update_where Hkx Hky.
  assert (x0 = y0) as ->.
  { apply (Hu x0 y0 k); [done|done| |].
    - destruct Ex as [[_ ->]|[_ ->]]; by rewrite ?Hf in Hkx.
    - destruct Ey as [[_ ->]|[_ ->]]; by rewrite ?Hf in Hky. }
  destruct Ex as [[? ->]|[? ->]], Ey as [[? ->]|[? ->]]; done.
Qed.

Lemma unique_opt_delete {K} (key : A -> option K) P {PDec : forall x, Decision (P x)} l :
  unique_opt key l -> unique_opt key (delete_where P l).
Proof.
  intros Hu x y k [_ Hx]%elem_of_delete_where [_ Hy]%elem_of_delete_where. by apply Hu.
Qed.

(** An update that matches nothing. *)
Lemma tbl_update_none P {PDec : forall x, Decision (P x)} f t :
  (forall x, x ∈ rows t -> ~ P x) -> tbl_update P f t = t.
Proof. intros H. unfold tbl_update. rewrite update_where_id by done. by destruct t. Qed.

Lemma fk_nil ref ids : fk ref [] ids.
Proof. constructor. Qed.

Lemma fk_app ref l l' ids : fk ref (l ++ l') ids <-> fk ref l ids /\ fk ref l' ids.
Proof. apply Forall_app. Qed.

Lemma fk_single ref r ids : (forall i, ref r = Some i -> i ∈ ids) -> fk ref [r] ids.
Proof. intros H. by constructor; [|constructor]. Qed.

Lemma fk_update ref P {PDec : forall x, Decision (P x)} f l ids :
  (forall r, ref (f r) = ref r) -> fk ref l ids -> fk ref (update_where P f l) ids.
Proof.
  intros Hf H. apply Forall_forall. intros r (y & Hy & E)%elem_of_update_where i Hi.
  unfold fk in H. rewrite Forall_forall in H. apply (H y Hy).
  destruct E as [[_ ->]|[_ ->]]; by rewrite ?Hf in Hi.
Qed.

Lemma fk_map ref f l ids :
  (forall r i, ref (f r) = Some i -> ref r = Some i) -> fk ref l ids -> fk ref (f <$> l) ids.
Proof.
  intros Hf H. unfold fk. rewrite Forall_fmap. eapply Forall_impl; [exact H|].
  cbn. eauto.
Qed.

Lemma fk_delete ref P {PDec : forall x, Decision (P x)} l ids :
  fk ref l ids -> fk ref (delete_where P l) ids.
Proof.
  intros H. apply Forall_forall. intros r [_ Hr]%elem_of_delete_where.
  unfold fk in H. rewrite Forall_forall in H. by apply H.
Qed.

Lemma fk_grow ref l ids ids' : ids ⊆ ids' -> fk ref l ids -> fk ref l ids'.
Proof. intros Hs H. eapply Forall_impl; [exact H|]. cbn. eauto. Qed.

(** Deleting parents is safe when no remaining child points to a deleted one. *)
Lemma fk_shrink {B} ref l (id : B -> Z) (ps : list B) (Q : B -> Prop) {QDec : forall x, Decision (Q x)} :
  fk ref l (id <$> ps) ->
  (forall r i p, r ∈ l -> ref r = Some i -> p ∈ ps -> id p = i -> ~ Q p) ->
  fk ref l (id <$> delete_where Q ps).
Proof.
  intros H Hno. apply Forall_forall. intros r Hr i Hi.
  unfold fk in H. rewrite Forall_forall in H.
  pose proof (H r Hr i Hi) as (p & -> & Hp)%list_elem_of_fmap.
  apply list_elem_of_fmap. exists p. split; [done|].
  apply elem_of_delete_where. split; [by eapply Hno|done].
Qed.

Lemma fk_elim ref l ids r i : fk ref l ids -> r ∈ l -> ref r = Some i -> i ∈ ids.
Proof. unfold fk. rewrite Forall_forall. eauto. Qed.
End keys.

(** ** The schema's constraints *)

Record db_wf (d : Db) : Prop := {
  wf_admins : pk ad_id (admins d) /\ 0 <= last_id (admins d);
  wf_admin_email : NoDup (ad_email <$> rows (admins d));
  wf_nodes : pk n_id (nodes d) /\ 0 <= last_id (nodes d);
  wf_node_name : NoDup (n_name <$> rows (nodes d));
  wf_labs : pk l_id (labs d) /\ 0 <= last_id (labs d);
  wf_lab_name : NoDup (l_name <$> rows (labs d));
  wf_students : pk s_id (students d) /\ 0 <= last_id (students d);
  wf_username : NoDup (s_username <$> rows (students d));
  wf_student_id : unique_opt s_student_id (rows (students d));
  wf_uid : NoDup (s_linux_uid <$> rows (students d));
  wf_uid_range : Forall (fun s => UID_MIN <= s_linux_uid s <= UID_MAX) (rows (students d));
  wf_lm : pk lm_id (lab_members d) /\ 0 <= last_id (lab_members d);
  wf_lm_unique : NoDup ((fun m => (lm_lab_id m, lm_student_id m)) <$> rows (lab_members d));
  wf_pl : pk p_id (lab_placements d) /\ 0 <= last_id (lab_placements d);
  wf_pl_lab_node : NoDup ((fun p => (p_lab_id p, p_node_id p)) <$> rows (lab_placements d));
  wf_pl_node_port : NoDup ((fun p => (p_node_id p, p_ssh_port p)) <$> rows (lab_placements d));
  wf_pm : pk pm_id (placement_members d) /\ 0 <= last_id (placement_members d);
  wf_pm_unique :
    NoDup ((fun m => (pm_placement_id m, pm_student_id m)) <$> rows (placement_members d));
  wf_task : pk t_id (task_log d) /\ 0 <= last_id (task_log d);
  wf_task_uuid : NoDup (t_task_uuid <$> rows (task_log d));
  wf_groups : pk g_id (node_groups d) /\ 0 <= last_id (node_groups d);
  wf_group_name : NoDup (g_name <$> rows (node_groups d));
  wf_group_member : NoDup (node_group_members d);
  wf_setting : NoDup ((settings d).*1);
  wf_gpu_process : NoDup ((fun g => (gs_node g, gs_pid g)) <$> gpu_snapshot d);
  wf_gpu_pid : Forall (fun g => json_null (gs_pid g) = false) (gpu_snapshot d);
  wf_log : pk log_id (logs d) /\ 0 <= last_id (logs d);
  wf_gpu_event : pk ge_id (gpu_events d) /\ 0 <= last_id (gpu_events d);
  wf_sample : pk ss_id (storage_samples d) /\ 0 <= last_id (storage_samples d);
  wf_quota_alert : pk qa_id (quota_alerts d) /\ 0 <= last_id (quota_alerts d);
  wf_student_quota_alert : pk sqa_id (student_quota_alerts d) /\ 0 <= last_id (student_quota_alerts d);
  wf_audit : pk au_id (audit_log d) /\ 0 <= last_id (audit_log d);
  wf_announcement : pk an_id (announcements d) /\ 0 <= last_id (announcements d);
  wf_template : pk at_id (announcement_templates d) /\ 0 <= last_id (announcement_templates d);
  nn_log_ts : Forall (fun l => sql_null (log_ts l) = false) (rows (logs d));
  nn_event_ts : Forall (fun g => sql_null (ge_ts g) = false) (rows (gpu_events d));
  nn_sample_used : Forall (fun s => sql_null (ss_used_bytes s) = false) (rows (storage_samples d));
  nn_alert_pct : Forall (fun q => sql_null (qa_pct q) = false) (rows (quota_alerts d));
  nn_student_alert_pct : Forall (fun q => sql_null (sqa_pct q) = false) (rows (student_quota_alerts d));
  fk_lab_pi : fk l_pi_student_id (rows (labs d)) (s_id <$> rows (students d));
  fk_node_owner : fk n_cold_owner_node_id (rows (nodes d)) (n_id <$> rows (nodes d));
  fk_lm_lab : fk (Some ∘ lm_lab_id) (rows (lab_members d)) (l_id <$> rows (labs d));
  fk_lm_student : fk (Some ∘ lm_student_id) (rows (lab_members d)) (s_id <$> rows (students d));
  fk_pl_lab : fk (Some ∘ p_lab_id) (rows (lab_placements d)) (l_id <$> rows (labs d));
  fk_pl_node : fk (Some ∘ p_node_id) (rows (lab_placements d)) (n_id <$> rows (nodes d));
  fk_pm_pl : fk (Some ∘ pm_placement_id) (rows (placement_members d)) (p_id <$> rows (lab_placements d));
  fk_pm_student : fk (Some ∘ pm_student_id) (rows (placement_members d)) (s_id <$> rows (students d));
  fk_ss_pl : fk ss_placement_id (rows (storage_samples d)) (p_id <$> rows (lab_placements d));
  fk_ss_lab : fk ss_lab_id (rows (storage_samples d)) (l_id <$> rows (labs d));
  fk_ss_student : fk ss_student_id (rows (storage_samples d)) (s_id <$> rows (students d));
  fk_qa_pl : fk qa_placement_id (rows (quota_alerts d)) (p_id <$> rows (lab_placements d));
  fk_qa_lab : fk qa_lab_id (rows (quota_alerts d)) (l_id <$> rows (labs d));
  fk_sqa_pl : fk (Some ∘ sqa_placement_id) (rows (student_quota_alerts d)) (p_id <$> rows (lab_placements d));
  fk_sqa_student : fk (Some ∘ sqa_student_id) (rows (student_quota_alerts d)) (s_id <$> rows (students d));
  fk_gs_pl : fk gs_placement_id (gpu_snapshot d) (p_id <$> rows (lab_placements d));
  fk_ge_pl : fk ge_placement_id (rows (gpu_events d)) (p_id <$> rows (lab_placements d));
  fk_gm_group : fk (Some ∘ gm_group_id) (node_group_members d) (g_id <$> rows (node_groups d));
  fk_gm_node : fk (Some ∘ gm_node_id) (node_group_members d) (n_id <$> rows (nodes d)) }.

Lemma db_wf_empty : db_wf empty_db.
Proof.
  constructor; cbn; repeat split; try constructor; try (intros x y k Hx; by apply elem_of_nil in Hx); lia.
Qed.

Create HintDb wf discriminated.
#[export] Hint Resolve fk_delete fk_nil unique_opt_delete NoDup_delete pk_delete : wf.

Lemma ids_insert {A} (id : A -> Z) (mk : Z -> A) t : id <$> rows t ⊆ id <$> rows (tbl_insert mk t).
Proof. cbn. rewrite fmap_app. set_solver. Qed.

Lemma fk_grow_insert {A B} (ref : A -> option Z) l (id : B -> Z) (mk : Z -> B) t :
  fk ref l (id <$> rows t) -> fk ref l (id <$> rows (tbl_insert mk t)).
Proof. apply fk_grow, ids_insert. Qed.

Lemma fk_insert {A} (ref : A -> option Z) (mk : Z -> A) t ids :
  fk ref (rows t) ids -> (forall i, ref (mk (last_id t + 1)) = Some i -> i ∈ ids) ->
  fk ref (rows (tbl_insert mk t)) ids.
Proof. intros H Hm. cbn. apply fk_app. split; [done|]. by apply fk_single. Qed.

Lemma ids_update {A} (id : A -> Z) P {PDec : forall x, Decision (P x)} f t :
  (forall r, id (f r) = id r) -> id <$> rows (tbl_update P f t) = id <$> rows t.
Proof. intros H. cbn. by apply update_where_fmap. Qed.

Lemma clear_ref_Some o ids i : clear_ref o ids = Some i -> o = Some i /\ i ∉ ids.
Proof. unfold clear_ref. case_decide as H; [done|]. intros ->. by split. Qed.

#[local] Arguments tbl_insert : simpl never.
#[local] Arguments tbl_update : simpl never.
#[local] Arguments tbl_delete : simpl never.
#[local] Arguments tbl_map : simpl never.

(** ** Statements on one table keep the constraints *)

Lemma pk_insert' {A} (id : A -> Z) (t : table A) (mk : Z -> A) :
  pk id t /\ 0 <= last_id t -> id (mk (last_id t + 1)) = last_id t + 1 ->
  pk id (tbl_insert mk t) /\ 0 <= last_id (tbl_insert mk t).
Proof. intros [??] ?. split; [by apply pk_insert|]. unfold tbl_insert. cbn. lia. Qed.

Lemma pk_update' {A} (id : A -> Z) (t : table A) P {PDec : forall x, Decision (P x)} f :
  (forall r, id (f r) = id r) -> pk id t /\ 0 <= last_id t ->
  pk id (tbl_update P f t) /\ 0 <= last_id (tbl_update P f t).
Proof. intros ? [??]. split; [by apply pk_update|done]. Qed.

Lemma pk_delete' {A} (id : A -> Z) (t : table A) P {PDec : forall x, Decision (P x)} :
  pk id t /\ 0 <= last_id t -> pk id (tbl_delete P t) /\ 0 <= last_id (tbl_delete P t).
Proof. intros [??]. split; [by apply pk_delete|done]. Qed.

Lemma pk_map' {A} (id : A -> Z) (t : table A) f :
  (forall r, id (f r) = id r) -> pk id t /\ 0 <= last_id t ->
  pk id (tbl_map f t) /\ 0 <= last_id (tbl_map f t).
Proof. intros ? [??]. split; [by apply pk_map|done]. Qed.

Lemma fk_tbl_delete {A} (ref : A -> option Z) P {PDec : forall x, Decision (P x)} t ids :
  fk ref (rows t) ids -> fk ref (rows (tbl_delete P t)) ids.
Proof. apply fk_delete. Qed.

Lemma fk_tbl_update {A} (ref : A -> option Z) P {PDec : forall x, Decision (P x)} f t ids :
  (forall r, ref (f r) = ref r) -> fk ref (rows t) ids -> fk ref (rows (tbl_update P f t)) ids.
Proof. apply fk_update. Qed.

Lemma unique_opt_tbl_update {A K} (key : A -> option K) P {PDec : forall x, Decision (P x)} f t :
  (forall r, key (f r) = key r) -> unique_opt key (rows t) ->
  unique_opt key (rows (tbl_update P f t)).
Proof. apply unique_opt_update. Qed.

Lemma unique_opt_tbl_delete {A K} (key : A -> option K) P {PDec : forall x, Decision (P x)} t :
  unique_opt key (rows t) -> unique_opt key (rows (tbl_delete P t)).
Proof. apply unique_opt_delete. Qed.

Lemma Forall_tbl_delete {A} (Q : A -> Prop) P {PDec : forall x, Decision (P x)} t :
  Forall Q (rows t) -> Forall Q (rows (tbl_delete P t)).
Proof.
  rewrite !Forall_forall. intros HQ x [_ Hx]%elem_of_delete_where. by apply HQ.
Qed.

Lemma Forall_tbl_insert {A} (Q : A -> Prop) (mk : Z -> A) t :
  Forall Q (rows t) -> Q (mk (last_id t + 1)) -> Forall Q (rows (tbl_insert mk t)).
Proof. intros. unfold tbl_insert. cbn. apply Forall_app. by repeat constructor. Qed.

Lemma Forall_tbl_update {A} (Q : A -> Prop) P {PDec : forall x, Decision (P x)} f t :
  (forall x, Q x -> Q (f x)) -> Forall Q (rows t) -> Forall Q (rows (tbl_update P f t)).
Proof.
  rewrite !Forall_forall. intros Hf HQ x (y & Hy & [[_ ->]|[_ ->]])%elem_of_update_where; auto.
Qed.

Lemma NoDup_tbl_update {A K} (key : A -> K) P {PDec : forall x, Decision (P x)} f t :
  (forall r, key (f r) = key r) -> NoDup (key <$> rows t) ->
  NoDup (key <$> rows (tbl_update P f t)).
Proof. apply NoDup_update. Qed.

Lemma NoDup_snoc {K} (l : list K) k : NoDup l -> k ∉ l -> NoDup (l ++ [k]).
Proof.
  intros Hl Hk. apply NoDup_app. split; [done|]. split; [|apply NoDup_singleton].
  by intros j Hj ->%list_elem_of_singleton.
Qed.

Lemma NoDup_map {A K} (key : A -> K) f (l : list A) :
  (forall r, key (f r) = key r) -> NoDup (key <$> l) -> NoDup (key <$> (f <$> l)).
Proof. intros Hf. by rewrite <- list_fmap_compose, (list_fmap_ext (key ∘ f) key) by (intros; apply Hf). Qed.

Lemma Forall_map_stable {A} (Q : A -> Prop) f (l : list A) :
  (forall x, Q x -> Q (f x)) -> Forall Q l -> Forall Q (f <$> l).
Proof. intros Hf H. apply Forall_fmap. eapply Forall_impl; [exact H|exact Hf]. Qed.

Lemma Forall_delete {A} (Q : A -> Prop) P {PDec : forall x, Decision (P x)} l :
  Forall Q l -> Forall Q (delete_where P l).
Proof. rewrite !Forall_forall. intros HQ x [_ Hx]%elem_of_delete_where. by apply HQ. Qed.

Lemma NoDup_delete_where {A K} (key : A -> K) P {PDec : forall x, Decision (P x)} l :
  NoDup (key <$> l) -> NoDup (key <$> delete_where P l).
Proof. intros Hnd. eapply sublist_NoDup; [done|]. apply fmap_sublist, delete_where_sublist. Qed.

#[export] Hint Resolve NoDup_map Forall_delete NoDup_delete_where : wf.
#[export] Hint Extern 2 (Forall _ (_ <$> _)) => (apply Forall_map_stable; [by intros|assumption]) : wf.
#[export] Hint Extern 2 (Forall _ (rows (tbl_map _ _))) =>
  (apply Forall_map_stable; [by intros|assumption]) : wf.
#[export] Hint Resolve pk_insert' pk_update' pk_delete' pk_map' fk_grow_insert fk_insert
  fk_tbl_delete fk_tbl_update unique_opt_tbl_update unique_opt_tbl_delete unique_opt_insert
  Forall_tbl_delete Forall_tbl_insert Forall_tbl_update NoDup_tbl_update NoDup_insert : wf.

#[export] Hint Extern 1 (_ = _) => (cbn; reflexivity) : wf.
#[export] Hint Extern 1 (forall _, _ = _) => (intros; cbn; reflexivity) : wf.
#[export] Hint Extern 2 (forall i, _ = Some i -> i ∈ _) =>
  (let H := fresh in intros ? H; cbn in H; simplify_eq; assumption) : wf.

(** The clauses of [db_wf] one statement leaves alone, or keeps by a hint. *)
Ltac wf_clauses :=
  constructor; cbn; try assumption; rewrite ?ids_update by done; try assumption;
  try (by eauto 3 with wf).

Section statements.
Context {HK : Honker} {PF : Platform}.
Implicit Types (d : Db) (w : World).

(** Every parameter record of the task log is masked. *)
Definition clean_params (t : TaskRow) : Prop :=
  forall p, t_params t = Some p -> exists v, p = TJson v /\ clean v.
Definition log_clean d : Prop := Forall clean_params (rows (task_log d)).
(** Every stored setting has the type of its key. *)
Definition settings_typed d : Prop := Forall (fun r => setting_fits r = true) (settings d).
Definition content_ok d : Prop := log_clean d /\ settings_typed d.
Lemma content_ok_empty : content_ok empty_db.
Proof. by split; constructor. Qed.

(** The invariant of the program's database. *)
Definition wf (w : World) : Prop := db_wf (w_db w) /\ content_ok (w_db w).

Lemma exec_wf f :
  (forall d, db_wf d -> db_wf (f d)) -> (forall d, content_ok d -> content_ok (f d)) ->
  preserves wf (exec f).
Proof. intros Hf Hl w []. split; cbn; auto. Qed.

Lemma transaction_wf {A} (m : Act A) : preserves wf m -> preserves wf (transaction m).
Proof.
  intros Hm w Hw. pose proof (Hm w Hw) as H1. unfold transaction.
  destruct (m w) as [[a|e] w1]; [done|]. split; apply Hw.
Qed.

Lemma date_now_wf : preserves wf date_now. Proof. by intros w. Qed.
Lemma new_uuid_wf : preserves wf new_uuid. Proof. by intros w. Qed.
Lemma new_iv_wf : preserves wf new_iv. Proof. by intros w. Qed.
Lemma random_bytes_wf n : preserves wf (random_bytes n). Proof. by intros w. Qed.
Lemma db_act_ro I : preserves I db. Proof. by intros w. Qed.

(** A checked insert. *)
Lemma checked_wf {A} (c : Db -> bool) e (f : Db -> Db) (k : Db -> Act A) :
  (forall d, db_wf d -> c d = false -> db_wf (f d)) ->
  (forall d, content_ok d -> content_ok (f d)) -> (forall d, preserves wf (k d)) ->
  preserves wf (d ← db; throw_if (c d) e;; exec f;; k d).
Proof.
  intros Hf Hl Hk w [Hw Hw']. unfold mbind, M_bind. cbn.
  destruct (c (w_db w)) eqn:Hc; cbn; [done|]. apply Hk. split; cbn; auto.
Qed.

Lemma checked_wf' (c : Db -> bool) e (f : Db -> Db) :
  (forall d, db_wf d -> c d = false -> db_wf (f d)) ->
  (forall d, content_ok d -> content_ok (f d)) ->
  preserves wf (d ← db; throw_if (c d) e;; exec f).
Proof.
  intros Hf Hl w [Hw Hw']. unfold mbind, M_bind. cbn.
  destruct (c (w_db w)) eqn:Hc; cbn; [done|]. split; cbn; auto.
Qed.

Lemma insert_lab_wf name pi_name pi_email now :
  preserves wf (insert_lab name pi_name pi_email now).
Proof.
  apply checked_wf; [|done|intros; apply preserves_ret].
  intros d Hd Hc%bool_decide_eq_false. destruct Hd. wf_clauses.
Qed.

Lemma insert_student_wf sid user email name uid now :
  preserves wf (insert_student sid user email name uid now).
Proof.
  apply checked_wf; [|done|intros; apply preserves_ret].
  intros d Hd Hc. guards Hc. destruct Hd. wf_clauses.
  apply unique_opt_insert; [done|]. cbn. destruct sid; [right; naive_solver|by left].
Qed.

Lemma insert_lab_member_wf lab_id student_id now :
  preserves wf (insert_lab_member lab_id student_id now).
Proof.
  apply checked_wf'; [|done]. intros d Hd Hc. guards Hc. destruct Hd. wf_clauses.
Qed.

Lemma insert_placement_wf lab_id node_id port mk :
  preserves wf (insert_placement lab_id node_id port mk).
Proof.
  apply checked_wf; [|done|intros; apply preserves_ret].
  intros d Hd Hc. guards Hc. destruct Hd. wf_clauses.
Qed.

Lemma insert_placement_member_wf placement_id student_id secret now :
  preserves wf (insert_placement_member placement_id student_id secret now).
Proof.
  apply checked_wf'; [|done]. intros d Hd Hc. guards Hc. destruct Hd. wf_clauses.
Qed.

Lemma insert_task_wf uuid job node action v by_ now :
  clean v -> preserves wf (insert_task uuid job node action (TJson v) by_ now).
Proof.
  intros Hv. apply checked_wf'.
  - intros d Hd Hc. guards Hc. destruct Hd. wf_clauses.
  - intros d [Hd Hs]. split; [|exact Hs]. apply Forall_tbl_insert; [done|]. intros p [= <-]. eauto.
Qed.

Lemma insert_log_wf mk : preserves wf (insert_log mk).
Proof. apply checked_wf'; [|done]. intros d [] Hc. wf_clauses. Qed.

Lemma insert_audit_wf ts actor action target detail :
  preserves wf (insert_audit ts actor action target detail).
Proof. apply exec_wf; [|done]. intros d []. wf_clauses. Qed.

(** An update may not touch a column of a constraint. *)
Lemma update_nodes_wf P {PDec : forall x, Decision (P x)} f :
  (forall r, n_id (f r) = n_id r) -> (forall r, n_name (f r) = n_name r) ->
  (forall r, n_cold_owner_node_id (f r) = n_cold_owner_node_id r) ->
  preserves wf (update_nodes P f).
Proof. intros H1 H2 H3. apply exec_wf; [|done]. intros d []. wf_clauses. Qed.

Lemma update_labs_wf P {PDec : forall x, Decision (P x)} f :
  (forall r, l_id (f r) = l_id r) -> (forall r, l_name (f r) = l_name r) ->
  (forall r, l_pi_student_id (f r) = l_pi_student_id r) -> preserves wf (update_labs P f).
Proof. intros H1 H2 H3. apply exec_wf; [|done]. intros d []. wf_clauses. Qed.

Lemma update_students_wf P {PDec : forall x, Decision (P x)} f :
  (forall r, s_id (f r) = s_id r) -> (forall r, s_username (f r) = s_username r) ->
  (forall r, s_linux_uid (f r) = s_linux_uid r) ->
  (forall r, s_student_id (f r) = s_student_id r) -> preserves wf (update_students P f).
Proof.
  intros H1 H2 H3 H4. apply exec_wf; [|done]. intros d []. wf_clauses.
  apply Forall_tbl_update; [|done]. intros x. by rewrite H3.
Qed.

Lemma update_placements_wf P {PDec : forall x, Decision (P x)} f :
  (forall r, p_id (f r) = p_id r) -> (forall r, p_lab_id (f r) = p_lab_id r) ->
  (forall r, p_node_id (f r) = p_node_id r) -> (forall r, p_ssh_port (f r) = p_ssh_port r) ->
  preserves wf (update_placements P f).
Proof.
  intros H1 H2 H3 H4. apply exec_wf; [|done]. intros d []. wf_clauses.
  - apply NoDup_tbl_update; [|done]. intros r. by rewrite H2, H3.
  - apply NoDup_tbl_update; [|done]. intros r. by rewrite H3, H4.
  - apply fk_tbl_update; [|done]. intros r. cbn. by rewrite H2.
  - apply fk_tbl_update; [|done]. intros r. cbn. by rewrite H3.
Qed.

Lemma update_members_wf P {PDec : forall x, Decision (P x)} f :
  (forall r, pm_id (f r) = pm_id r) -> (forall r, pm_placement_id (f r) = pm_placement_id r) ->
  (forall r, pm_student_id (f r) = pm_student_id r) -> preserves wf (update_members P f).
Proof.
  intros H1 H2 H3. apply exec_wf; [|done]. intros d []. wf_clauses.
  - apply NoDup_tbl_update; [|done]. intros r. by rewrite H2, H3.
  - apply fk_tbl_update; [|done]. intros r. cbn. by rewrite H2.
  - apply fk_tbl_update; [|done]. intros r. cbn. by rewrite H3.
Qed.

Lemma update_tasks_wf P {PDec : forall x, Decision (P x)} f :
  (forall r, t_id (f r) = t_id r) -> (forall r, t_task_uuid (f r) = t_task_uuid r) ->
  (forall r, t_params (f r) = t_params r) -> preserves wf (update_tasks P f).
Proof.
  intros H1 H2 H3. apply exec_wf; [intros d []; wf_clauses|].
  intros d [Hl Hs]. split; [|exact Hs]. revert Hl. apply Forall_tbl_update. intros t. unfold clean_params. by rewrite H3.
Qed.

Lemma set_lab_pi_wf lab_id student_id : preserves wf (set_lab_pi lab_id student_id).
Proof.
  apply checked_wf'; [|done]. intros d Hd Hc. guards Hc. destruct Hd. wf_clauses.
  apply Forall_forall. intros r (y & Hy & [[_ ->]|[_ ->]])%elem_of_update_where i; cbn.
  - by intros [= <-].
  - by apply (fk_elim _ _ _ _ _ fk_lab_pi0 Hy).
Qed.

(** ** Deletes *)

(** Deleting the parents [P] keeps a reference whose children no longer point to them. *)
Lemma fk_parents {A B} (ref : A -> option Z) l (id : B -> Z) t P
    {PDec : forall x, Decision (P x)} :
  fk ref l (id <$> rows t) ->
  Forall (fun r => ~ ref_in (ref r) (id <$> select P (rows t))) l ->
  fk ref l (id <$> rows (tbl_delete P t)).
Proof.
  intros H Hno. apply fk_shrink; [done|]. intros r i p Hr Hi Hp Hid HP.
  rewrite Forall_forall in Hno. apply (Hno r Hr). rewrite Hi. cbn.
  apply list_elem_of_fmap. exists p. split; [done|]. by apply elem_of_select.
Qed.

Lemma fk_parent {A B} (ref : A -> option Z) l (id : B -> Z) t i :
  fk ref l (id <$> rows t) -> Forall (fun r => ref r <> Some i) l ->
  fk ref l (id <$> rows (tbl_delete (fun x => id x = i) t)).
Proof.
  intros H Hno. apply fk_shrink; [done|]. intros r j p Hr Hj Hp <- HP.
  rewrite Forall_forall in Hno. apply (Hno r Hr). by rewrite <- HP.
Qed.

Lemma Forall_deleted {A} (Q P : A -> Prop) {PDec : forall x, Decision (P x)} t :
  (forall x, ~ P x -> Q x) -> Forall Q (rows (tbl_delete P t)).
Proof. intros H. apply Forall_forall. intros x [? _]%elem_of_delete_where. auto. Qed.

Lemma Forall_tbl_map {A} (Q : A -> Prop) f t : (forall x, Q (f x)) -> Forall Q (rows (tbl_map f t)).
Proof. intros H. apply Forall_fmap, Forall_forall. intros x _. apply H. Qed.

Lemma clear_ref_out o ids : ~ ref_in (clear_ref o ids) ids.
Proof. unfold clear_ref. case_decide; [by intros []|done]. Qed.

Lemma fk_tbl_map {A} (ref : A -> option Z) f t ids :
  (forall r i, ref (f r) = Some i -> ref r = Some i) -> fk ref (rows t) ids ->
  fk ref (rows (tbl_map f t)) ids.
Proof. apply fk_map. Qed.

Lemma clear_ref_sub o ids i : clear_ref o ids = Some i -> o = Some i.
Proof. intros H. by apply clear_ref_Some in H as [? _]. Qed.

Lemma drop_placements_wf P {PDec : forall x, Decision (P x)} d :
  db_wf d -> db_wf (drop_placements P d).
Proof.
  intros []. unfold drop_placements. wf_clauses.
  - apply fk_parents; [by apply fk_tbl_delete|]. by apply Forall_deleted.
  - apply fk_parents; [by apply fk_tbl_delete|]. by apply Forall_deleted.
  - apply fk_parents; [by apply fk_tbl_delete|]. by apply Forall_deleted.
  - apply fk_parents; [by apply fk_tbl_delete|]. by apply Forall_deleted.
  - apply fk_parents; [|apply Forall_fmap, Forall_forall; intros; apply clear_ref_out].
    apply fk_map; [|done]. intros r i. apply clear_ref_sub.
  - apply fk_parents; [|apply Forall_tbl_map; intros; apply clear_ref_out].
    apply fk_tbl_map; [|done]. intros r i. apply clear_ref_sub.
Qed.

Lemma drop_lab_wf i d : db_wf d -> db_wf (drop_lab i d).
Proof.
  intros Hd. unfold drop_lab. set (d' := drop_placements _ _).
  assert (Forall (fun p => (Some ∘ p_lab_id) p <> Some i) (rows (lab_placements d'))) as Hno.
  { apply Forall_deleted. cbn. congruence. }
  assert (db_wf d') as Hd' by by apply drop_placements_wf.
  clearbody d'. clear d Hd. destruct d', Hd'. cbn in *. wf_clauses.
  all: apply fk_parent; [by auto with wf|].
  all: first [done | apply Forall_deleted; cbn; congruence].
Qed.

Lemma drop_student_wf i d :
  Some i ∉ l_pi_student_id <$> rows (labs d) -> db_wf d -> db_wf (drop_student i d).
Proof.
  intros Hpi Hd. unfold drop_student. destruct d, Hd. cbn in *. wf_clauses.
  - apply fk_parent; [done|]. apply Forall_forall. intros l Hl Hi. apply Hpi. rewrite <- Hi.
    by apply list_elem_of_fmap_2.
  - apply fk_parent; [by auto with wf|]. apply Forall_deleted. cbn. congruence.
  - apply fk_parent; [by auto with wf|]. apply Forall_deleted. cbn. congruence.
  - by apply fk_tbl_map.
  - by apply fk_tbl_map.
  - apply fk_parent; [apply fk_tbl_map; [intros r j; apply clear_ref_sub|done]|].
    apply Forall_tbl_map. intros r. cbn. intros Hr.
    pose proof (clear_ref_out (ss_student_id r) [i]) as Ho. rewrite Hr in Ho. apply Ho. cbn.
    constructor.
  - apply fk_parent; [by auto with wf|]. apply Forall_deleted. cbn. congruence.
Qed.

Lemma drop_node_wf i d :
  i ∉ p_node_id <$> rows (lab_placements d) ->
  Some i ∉ n_cold_owner_node_id <$> select (fun n => n_id n <> i) (rows (nodes d)) ->
  db_wf d -> db_wf (drop_node i d).
Proof.
  intros Hpl Hown Hd. unfold drop_node. destruct d, Hd. cbn in *. wf_clauses.
  - eapply sublist_NoDup; [done|]. apply delete_where_sublist.
  - apply fk_parent; [by auto with wf|]. apply Forall_forall.
    intros n [Hn Hin]%elem_of_delete_where Ho. apply Hown. rewrite <- Ho.
    apply list_elem_of_fmap_2. by apply elem_of_select.
  - apply fk_parent; [done|]. apply Forall_forall. intros p Hp [= Hi]. apply Hpl.
    rewrite <- Hi. by apply list_elem_of_fmap_2.
  - apply fk_parent; [by apply fk_delete|]. apply Forall_forall.
    intros m [Hm _]%elem_of_delete_where. cbn. congruence.
Qed.

Lemma drop_group_wf i d : db_wf d -> db_wf (drop_group i d).
Proof.
  intros Hd. unfold drop_group. destruct d, Hd. cbn in *. wf_clauses.
  - eapply sublist_NoDup; [done|]. apply delete_where_sublist.
  - apply fk_parent; [by apply fk_delete|]. apply Forall_forall.
    intros m [Hm _]%elem_of_delete_where. cbn. congruence.
Qed.

Lemma delete_placements_wf P {PDec : forall x, Decision (P x)} : preserves wf (delete_placements P).
Proof. apply exec_wf; [|done]. intros d. apply drop_placements_wf. Qed.
Lemma delete_lab_wf i : preserves wf (delete_lab i).
Proof. apply exec_wf; [|done]. intros d. apply drop_lab_wf. Qed.
Lemma delete_student_wf i : preserves wf (delete_student i).
Proof. apply checked_wf'; [|done]. intros d Hd Hc. guards Hc. by apply drop_student_wf. Qed.
Lemma delete_node_wf i : preserves wf (delete_node i).
Proof. apply checked_wf'; [|done]. intros d Hd Hc. guards Hc. by apply drop_node_wf. Qed.
Lemma delete_lab_members_wf P {PDec : forall x, Decision (P x)} : preserves wf (delete_lab_members P).
Proof. apply exec_wf; [|done]. intros d []. wf_clauses. Qed.
Lemma delete_members_wf P {PDec : forall x, Decision (P x)} : preserves wf (delete_members P).
Proof. apply exec_wf; [|done]. intros d []. wf_clauses. Qed.
Lemma delete_tasks_wf P {PDec : forall x, Decision (P x)} : preserves wf (delete_tasks P).
Proof. apply exec_wf; [intros d []; wf_clauses|]. intros d [Hl Hs]. split; [|exact Hs]. by apply Forall_tbl_delete. Qed.
Lemma delete_logs_wf P {PDec : forall x, Decision (P x)} : preserves wf (delete_logs P).
Proof. apply exec_wf; [|done]. intros d []. wf_clauses. Qed.
Lemma delete_gpu_events_wf P {PDec : forall x, Decision (P x)} : preserves wf (delete_gpu_events P).
Proof. apply exec_wf; [|done]. intros d []. wf_clauses. Qed.
Lemma delete_gpu_snapshot_wf node : preserves wf (delete_gpu_snapshot node).
Proof. apply exec_wf; [|done]. intros d []. wf_clauses. Qed.
Lemma delete_quota_alerts_wf P {PDec : forall x, Decision (P x)} : preserves wf (delete_quota_alerts P).
Proof. apply exec_wf; [|done]. intros d []. wf_clauses. Qed.
Lemma delete_samples_wf P {PDec : forall x, Decision (P x)} : preserves wf (delete_samples P).
Proof. apply exec_wf; [|done]. intros d []. wf_clauses. Qed.

(** ** The other tables *)

Lemma NoDup_aset {A} k (v : A) l : NoDup l.*1 -> NoDup (aset k v l).*1.
Proof. intros H. rewrite fst_aset. case_decide; [done|]. apply NoDup_snoc; [done|done]. Qed.
Lemma Forall_aset {A} (P : string * A -> Prop) k v l : P (k, v) -> Forall P l -> Forall P (aset k v l).
Proof.
  intros Hv. induction 1 as [|[j w] l Hj Hl IH]; cbn; [by apply Forall_singleton|].
  destruct (String.eqb k j); by apply Forall_cons_2.
Qed.
Lemma upsert_setting_wf key value : setting_fits (key, value) = true -> preserves wf (upsert_setting key value).
Proof.
  intros Hv. apply exec_wf.
  - intros d []. wf_clauses. by apply NoDup_aset.
  - intros d [Hl Hs]. split; [exact Hl|]. by apply Forall_aset.
Qed.

Lemma upsert_node_wf name mk f :
  (forall r, n_id (f r) = n_id r) -> (forall r, n_name (f r) = n_name r) ->
  (forall r, n_cold_owner_node_id (f r) = n_cold_owner_node_id r) ->
  preserves wf (upsert_node name mk f).
Proof.
  intros H1 H2 H3. apply exec_wf; intros d; case_decide; try done;
    intros []; wf_clauses.
Qed.

Lemma ref_ok_Some o ids i : ref_ok o ids = true -> o = Some i -> i ∈ ids.
Proof. intros H ->. by apply bool_decide_eq_true in H. Qed.

Lemma fk_update_to {A} (ref : A -> option Z) P {PDec : forall x, Decision (P x)} f o t ids :
  (forall r, ref (f r) = o) -> (forall i, o = Some i -> i ∈ ids) -> fk ref (rows t) ids ->
  fk ref (rows (tbl_update P f t)) ids.
Proof.
  intros Hf Ho H. apply Forall_forall. intros r (y & Hy & [[_ ->]|[_ ->]])%elem_of_update_where i.
  - rewrite Hf. apply Ho.
  - by apply (fk_elim _ _ _ _ _ H Hy).
Qed.

Lemma set_node_cold_wf id backend owner : preserves wf (set_node_cold id backend owner).
Proof.
  apply checked_wf'; [|done]. intros d Hd Hc. destruct Hd. wf_clauses.
  apply (fk_update_to _ _ _ owner); [done| |done]. intros i ->.
  by apply negb_false_iff, bool_decide_eq_true in Hc.
Qed.

Lemma clear_node_owner_wf id : preserves wf (clear_node_owner id).
Proof.
  apply exec_wf; [|done]. intros d []. wf_clauses.
  by apply (fk_update_to _ _ _ None).
Qed.

Lemma insert_sample_wf pl lab st pool used quota ts :
  preserves wf (insert_sample pl lab st pool used quota ts).
Proof.
  apply checked_wf'; [|done]. intros d Hd Hc. guards Hc. destruct Hd.
  wf_clauses; apply fk_insert; try done; intros i; by apply ref_ok_Some.
Qed.
Lemma insert_quota_alert_wf pl lab pool pct ts : preserves wf (insert_quota_alert pl lab pool pct ts).
Proof.
  apply checked_wf'; [|done]. intros d Hd Hc. guards Hc. destruct Hd.
  wf_clauses; apply fk_insert; try done; intros i; by apply ref_ok_Some.
Qed.
Lemma insert_student_quota_alert_wf pl st pool pct ts :
  preserves wf (insert_student_quota_alert pl st pool pct ts).
Proof. apply checked_wf'; [|done]. intros d Hd Hc. guards Hc. destruct Hd. wf_clauses. Qed.

Lemma replace_gpu_snapshot_wf g : preserves wf (replace_gpu_snapshot g).
Proof.
  apply checked_wf'; [|done]. intros d Hd Hc. guards Hc. destruct Hd. wf_clauses.
  - rewrite fmap_app. apply NoDup_snoc; [by apply NoDup_delete_where|].
    by intros (h & [= Hn Hp] & [Hd _]%elem_of_delete_where)%list_elem_of_fmap; destruct Hd.
  - apply Forall_app. split; [by apply Forall_delete|by constructor].
  - apply fk_app. split; [by apply fk_delete|]. apply fk_single. intros i. by apply ref_ok_Some.
Qed.
Lemma insert_gpu_event_wf pl mk : preserves wf (insert_gpu_event pl mk).
Proof.
  apply checked_wf'; [|done]. intros d Hd Hc. guards Hc. destruct Hd. wf_clauses.
  apply fk_insert; [done|]. intros i. by apply ref_ok_Some.
Qed.

Lemma insert_group_wf name now : preserves wf (insert_group name now).
Proof.
  apply checked_wf; [|done|intros; apply preserves_ret].
  intros d Hd Hc. guards Hc. destruct Hd. wf_clauses.
Qed.

(** Writing a fresh value to the rows of one key keeps the column unique. *)
Lemma NoDup_update_key {A K} (id : A -> Z) (key : A -> K) f t i k :
  NoDup (id <$> rows t) -> NoDup (key <$> rows t) -> (forall r, key (f r) = k) ->
  k ∉ key <$> select (fun r => id r <> i) (rows t) ->
  NoDup (key <$> rows (tbl_update (fun r => id r = i) f t)).
Proof.
  unfold tbl_update, update_where, select. cbn. generalize (rows t). clear t.
  intros l Hid Hkey Hf Hk. induction l as [|r l IH]; cbn; [constructor|].
  cbn in Hid, Hkey. apply NoDup_cons in Hid as [Hri Hid], Hkey as [Hrk Hkey].
  rewrite filter_cons in Hk.
  assert (forall x, x ∈ l -> id x = id r -> False) as Hno.
  { intros x Hx He. apply Hri. rewrite <- He. by apply list_elem_of_fmap_2. }
  destruct (decide (id r = i)) as [Hr|Hr];
    [rewrite decide_False in Hk by tauto | rewrite decide_True in Hk by done]; cbn in Hk.
  - apply NoDup_cons. split; [|by apply IH].
    rewrite Hf. intros (y & -> & (x & Hx & [[Hi ->]|[Hi ->]])%elem_of_update_where)%list_elem_of_fmap.
    + by apply (Hno x Hx); congruence.
    + apply Hk, list_elem_of_fmap_2, list_elem_of_filter. done.
  - apply not_elem_of_cons in Hk as [Hne Hk]. apply NoDup_cons. split; [|by apply IH].
    intros (y & Hy & (x & Hx & [[Hi ->]|[Hi ->]])%elem_of_update_where)%list_elem_of_fmap.
    + rewrite Hf in Hy. congruence.
    + apply Hrk. rewrite Hy. by apply list_elem_of_fmap_2.
Qed.

Lemma rename_group_row_wf id name : preserves wf (rename_group_row id name).
Proof.
  apply checked_wf'; [|done]. intros d Hd Hc. guards Hc. destruct Hd. wf_clauses.
  apply (NoDup_update_key _ _ _ _ _ name); [apply wf_groups0|done|done|done].
Qed.
Lemma delete_group_row_wf id : preserves wf (delete_group_row id).
Proof. apply exec_wf; [|done]. intros d. apply drop_group_wf. Qed.
Lemma delete_group_members_wf id : preserves wf (delete_group_members id).
Proof.
  apply exec_wf; [|done]. intros d []. wf_clauses.
  eapply sublist_NoDup; [done|]. apply delete_where_sublist.
Qed.
Lemma insert_group_member_wf group node : preserves wf (insert_group_member group node).
Proof.
  apply checked_wf'; [|done]. intros d Hd Hc. guards Hc. destruct Hd. wf_clauses.
  - apply NoDup_app. split; [done|]. split; [|apply NoDup_singleton].
    by intros m Hm ->%list_elem_of_singleton.
  - apply fk_app. split; [done|]. apply fk_single. by intros i [= <-].
  - apply fk_app. split; [done|]. apply fk_single. by intros i [= <-].
Qed.

Lemma insert_announcement_wf mk : preserves wf (insert_announcement mk).
Proof. apply exec_wf; [|done]. intros d []. wf_clauses. Qed.
Lemma delete_announcements_wf P {PDec : forall x, Decision (P x)} :
  preserves wf (delete_announcements P).
Proof. apply exec_wf; [|done]. intros d []. wf_clauses. Qed.
Lemma insert_template_wf mk : preserves wf (insert_template mk).
Proof.
  unfold insert_template. apply preserves_bind; [by intros w|]. intros d0.
  apply preserves_bind; [|intros; apply preserves_ret].
  apply exec_wf; [|done]. intros d []. wf_clauses.
Qed.
Lemma update_templates_wf P {PDec : forall x, Decision (P x)} f :
  (forall r, at_id (f r) = at_id r) -> preserves wf (update_templates P f).
Proof. intros H. apply exec_wf; [|done]. intros d []. wf_clauses. Qed.
Lemma delete_templates_wf P {PDec : forall x, Decision (P x)} : preserves wf (delete_templates P).
Proof. apply exec_wf; [|done]. intros d []. wf_clauses. Qed.

Lemma insert_admin_wf name email hash now : preserves wf (insert_admin name email hash now).
Proof.
  apply checked_wf; [|done|intros; apply preserves_ret].
  intros d Hd Hc. guards Hc. destruct Hd. wf_clauses.
Qed.
Lemma update_admins_wf P {PDec : forall x, Decision (P x)} f :
  (forall r, ad_id (f r) = ad_id r) -> (forall r, ad_email (f r) = ad_email r) ->
  preserves wf (update_admins P f).
Proof. intros H1 H2. apply exec_wf; [|done]. intros d []. wf_clauses. Qed.

Lemma set_student_number_wf sid username : preserves wf (set_student_number sid username).
Proof.
  apply checked_wf'; [|done]. intros d Hd Hc. guards Hc. destruct Hd. wf_clauses.
  - intros x y k (x0 & Hx & Ex)%elem_of_update_where (y0 & Hy & Ey)%elem_of_update_where Hkx Hky.
    assert (forall z, z ∈ rows (students d) -> s_username z <> username ->
      s_student_id z = Some k -> sid = Some k -> False) as Hno.
    { intros z Hz Hu Hk ->. apply Hc. split; [done|]. rewrite <- Hk.
      apply list_elem_of_fmap_2, elem_of_select. done. }
    destruct Ex as [[Hux ->]|[Hux ->]], Ey as [[Huy ->]|[Huy ->]]; cbn in Hkx, Hky.
    + f_equal. apply (NoDup_fmap_inj s_username (rows (students d))); congruence.
    + exfalso. by eapply (Hno y0).
    + exfalso. by eapply (Hno x0).
    + by eapply wf_student_id0.
Qed.
End statements.

#[export] Hint Resolve transaction_wf date_now_wf new_uuid_wf new_iv_wf random_bytes_wf db_act_ro
  insert_lab_wf insert_student_wf insert_lab_member_wf insert_placement_wf
  insert_placement_member_wf insert_log_wf insert_audit_wf set_lab_pi_wf
  delete_placements_wf delete_lab_wf delete_student_wf delete_node_wf delete_lab_members_wf
  delete_members_wf delete_tasks_wf delete_logs_wf delete_gpu_events_wf delete_gpu_snapshot_wf
  delete_quota_alerts_wf delete_samples_wf upsert_setting_wf set_node_cold_wf clear_node_owner_wf
  insert_sample_wf insert_quota_alert_wf insert_student_quota_alert_wf replace_gpu_snapshot_wf
  insert_gpu_event_wf insert_group_wf rename_group_row_wf delete_group_row_wf
  delete_group_members_wf insert_group_member_wf insert_announcement_wf delete_announcements_wf
  insert_template_wf delete_templates_wf insert_admin_wf
  set_student_number_wf : preserve.
#[export] Hint Extern 1 (preserves wf (update_nodes _ _)) =>
  (apply update_nodes_wf; intros; reflexivity) : preserve.
#[export] Hint Extern 1 (preserves wf (upsert_node _ _ _)) =>
  (apply upsert_node_wf; intros; reflexivity) : preserve.
#[export] Hint Extern 1 (preserves wf (update_labs _ _)) =>
  (apply update_labs_wf; intros; reflexivity) : preserve.
#[export] Hint Extern 1 (preserves wf (update_students _ _)) =>
  (apply update_students_wf; intros; reflexivity) : preserve.
#[export] Hint Extern 1 (preserves wf (update_placements _ _)) =>
  (apply update_placements_wf; intros; reflexivity) : preserve.
#[export] Hint Extern 1 (preserves wf (update_members _ _)) =>
  (apply update_members_wf; intros; reflexivity) : preserve.
#[export] Hint Extern 1 (preserves wf (update_tasks _ _)) =>
  (apply update_tasks_wf; intros; reflexivity) : preserve.
#[export] Hint Extern 1 (preserves wf (update_admins _ _)) =>
  (apply update_admins_wf; intros; reflexivity) : preserve.
#[export] Hint Extern 1 (preserves wf (update_templates _ _)) =>
  (apply update_templates_wf; intros; reflexivity) : preserve.
