(* ===== verification/Env.v ===== *)
(** * Env: [lib/env.ts], the validated environment variables

    A getter is a [result]: the value, or the error it throws.  [process_env] is the
    platform's. *)
From S2P Require Import Prelude Js Schema.
From Stdlib Require Import Ascii.
Open Scope Z_scope.

Definition PLACEHOLDER_MARKERS : list string :=
  ["replace_with"; "changeme"; "change-me"; "placeholder"; "example"].

(** [/^(.)\1*$/]: [.] matches no line terminator. *)
Fixpoint all_char (c : ascii) (s : string) : bool :=
  match s with EmptyString => true | String d s' => Ascii.eqb c d && all_char c s' end.
Definition single_repeated (s : string) : bool :=
  match s with
  | EmptyString => false
  | String c s' => negb ((code c =? 10)%N || (code c =? 13)%N) && all_char c s'
  end.

(** The label of a host name, and [HOSTNAME_RE] without its length assertion. *)
Definition host_label : re :=
  RSeq (RChr c_alnum)
    (ropt (RSeq (rupto 61 (RChr (fun c => c_alnum c || Ascii.eqb c "-"))) (RChr c_alnum))).
Definition HOSTNAME_RE : re := RSeq host_label (RStar (RSeq (rlit ".") host_label)).
Definition hostname_test (v : string) : bool :=
  (1 <=? String.length v)%nat && (String.length v <=? 253)%nat && re_test HOSTNAME_RE v.

(** Decimal digits, most significant first. *)
Fixpoint parse_digits (acc : Z) (s : string) : Z :=
  match s with
  | String c s' =>
      if c_digit c then parse_digits (acc * 10 + (Z.of_N (code c) - 48)) s' else acc
  | EmptyString => acc
  end.
(** [parseInt(s, 10)] of digits between white space *)
Definition parse_int10 (s : string) : Z := parse_digits 0 (trim_start s).

Definition find_marker (lower : string) : option string :=
  head (filter (fun m => includes m lower = true) PLACEHOLDER_MARKERS).

(** One hostname, or [""] when unset. *)
Definition validateControllerDomain (raw : string) : result exn string :=
  let v := trim raw in
  if String.eqb v "" then Ok ""
  else if includes "," v then Throw (EDomain "comma")
  else if includes "://" v || includes "/" v then Throw (EDomain "scheme or path")
  else if includes "*" v then Throw (EDomain "wildcard")
  else if includes ":" v then Throw (EDomain "port")
  else if negb (hostname_test v) then Throw (EDomain "hostname")
  else Ok (to_lower v).

Section env.
Context {PF : Platform}.

Definition required (name : string) : result exn string :=
  match process_env name with
  | Some value => if truthy value then Ok value else Throw (EMissingEnv name)
  | None => Throw (EMissingEnv name)
  end.

Definition isProdEnv : bool := bool_decide (process_env "NODE_ENV" = Some "production").

Definition rejectWeak (name value : string) (minLenProd : nat) : result exn string :=
  match find_marker (to_lower value) with
  | Some marker => Throw (EPlaceholder name marker)
  | None =>
      if isProdEnv then
        if (String.length value <? minLenProd)%nat then Throw (EWeakLength name minLenProd)
        else if single_repeated value then Throw (EWeakRepeated name)
        else Ok value
      else Ok value
  end.

Definition env_dbPath : string := nullish (process_env "DB_PATH") "./data/controller.db".

Definition env_port : result exn Z :=
  let raw := nullish (process_env "PORT") "8443" in
  if negb (re_test (rplus (RChr c_digit)) (trim raw)) then Throw EPortSyntax
  else
    let n := parse_int10 raw in
    if (n <? 1) || (65535 <? n) then Throw EPortRange else Ok n.

Definition env_signupToken : result exn string :=
  v ← required "SIGNUP_TOKEN"; rejectWeak "SIGNUP_TOKEN" v 16.

Definition env_agentToken : result exn string :=
  v ← required "AGENT_TOKEN"; rejectWeak "AGENT_TOKEN" v 16.

Definition env_sessionSecret : result exn string :=
  v ← required "SESSION_SECRET";
  secret ← rejectWeak "SESSION_SECRET" v 32;
  if (String.length secret <? 32)%nat then Throw ESessionSecretShort else Ok secret.

Definition env_controllerDomain : result exn string :=
  validateControllerDomain (nullish (process_env "CONTROLLER_DOMAIN") "").

Definition env_controllerOrigin : result exn string :=
  d ← validateControllerDomain (nullish (process_env "CONTROLLER_DOMAIN") "");
  mret (if truthy d then "https://" +:+ d else "").

Definition env_isProd : bool := bool_decide (process_env "NODE_ENV" = Some "production").

Definition env_trustProxy : result exn bool :=
  d ← validateControllerDomain (nullish (process_env "CONTROLLER_DOMAIN") "");
  mret (truthy d || bool_decide (process_env "TRUST_PROXY" = Some "1")).

Definition env_backupKey : result exn string :=
  let v := nullish (process_env "BACKUP_KEY") "" in
  if String.eqb v "" then Ok "" else rejectWeak "BACKUP_KEY" v 16.

Definition assertEnv : result exn unit :=
  env_port;; env_signupToken;; env_agentToken;; env_sessionSecret;; env_controllerDomain;; mret tt.
End env.

(** ** What an accepted variable satisfies *)

Lemma find_marker_None lower m : find_marker lower = None -> m ∈ PLACEHOLDER_MARKERS -> includes m lower = false.
Proof.
  unfold find_marker. intros H Hm. destruct (includes m lower) eqn:Hi; [|done].
  assert (m ∈ filter (fun m => includes m lower = true) PLACEHOLDER_MARKERS) as Hin
    by by apply list_elem_of_filter.
  destruct (filter _ _); [by apply elem_of_nil in Hin|done].
Qed.

Lemma c_alnum_lower c : c_alnum c = true -> c_alnum (lower_char c) = true.
Proof. by destruct c as [[] [] [] [] [] [] [] []]. Qed.

Definition host_char (c : ascii) : Prop := c_alnum c || Ascii.eqb c "-" || Ascii.eqb c "." = true.

Lemma HOSTNAME_RE_chars : re_all host_char HOSTNAME_RE.
Proof.
  assert (forall c, c_alnum c = true -> host_char c) as Ha.
  { intros c Hc. unfold host_char. by rewrite Hc. }
  assert (re_all host_char host_label) as Hl.
  { split; [done|]. split; [done|]. split; [|done]. apply re_all_rupto. intros c Hc.
    unfold host_char. by rewrite Hc. }
  split; [done|]. split; [|done]. cbn. split; [|done].
  intros c Hc. unfold host_char. destruct c as [[] [] [] [] [] [] [] []]; done.
Qed.

Lemma host_char_lower c : host_char c -> host_char (lower_char c).
Proof. unfold host_char. by destruct c as [[] [] [] [] [] [] [] []]. Qed.

Lemma str_all_lower (P : ascii -> Prop) s :
  (forall c, P c -> P (lower_char c)) -> str_all P s -> str_all P (to_lower s).
Proof. intros HP. induction s as [|c s IH]; cbn; [done|]. intros [??]. auto. Qed.

Lemma length_to_lower s : String.length (to_lower s) = String.length s.
Proof. induction s; cbn; auto. Qed.

Section env_facts.
Context {PF : Platform}.

Lemma required_Ok name v : required name = Ok v -> process_env name = Some v /\ v <> "".
Proof.
  unfold required, truthy. destruct (process_env name) as [s|]; [|done].
  destruct (String.eqb_spec s ""); cbn; [done|]. by intros [= <-].
Qed.

Lemma rejectWeak_Ok name value n v :
  rejectWeak name value n = Ok v ->
  v = value /\ (forall m, m ∈ PLACEHOLDER_MARKERS -> includes m (to_lower v) = false) /\
  (isProdEnv = true -> (n <= String.length v)%nat /\ single_repeated v = false).
Proof.
  unfold rejectWeak. destruct (find_marker _) eqn:Hm; [done|].
  intros H. assert (v = value /\ (isProdEnv = true ->
    (n <= String.length v)%nat /\ single_repeated v = false)) as [-> ?].
  { destruct isProdEnv; [|naive_solver].
    destruct (Nat.ltb_spec (String.length value) n); [done|].
    destruct (single_repeated value) eqn:?; naive_solver. }
  split; [done|]. split; [|done]. intros m. by apply find_marker_None.
Qed.

Lemma sessionSecret_strong s :
  env_sessionSecret = Ok s ->
  process_env "SESSION_SECRET" = Some s /\ (32 <= String.length s)%nat /\
  (forall m, m ∈ PLACEHOLDER_MARKERS -> includes m (to_lower s) = false) /\
  (isProdEnv = true -> single_repeated s = false).
Proof.
  unfold env_sessionSecret, mbind, result_bind.
  destruct (required _) as [v|] eqn:Hr; [|done]. apply required_Ok in Hr as [Hr _].
  destruct (rejectWeak _ _ _) as [v'|] eqn:Hw; [|done].
  apply rejectWeak_Ok in Hw as (-> & Hm & Hp).
  destruct (Nat.ltb_spec (String.length v) 32); [done|]. intros [= <-].
  split_and!; [done|lia|done|naive_solver].
Qed.

Lemma controllerDomain_ok d :
  env_controllerDomain = Ok d ->
  d = "" \/ (str_all host_char d /\ (1 <= String.length d <= 253)%nat /\
             exists v, accepts HOSTNAME_RE v /\ d = to_lower v).
Proof.
  unfold env_controllerDomain, validateControllerDomain.
  generalize (trim (nullish (process_env "CONTROLLER_DOMAIN") "")). intros v.
  repeat case_match; try done; intros [= <-]; [by left|right].
  match goal with H : negb (hostname_test v) = false |- _ =>
    unfold hostname_test in H; apply negb_false_iff in H;
    rewrite !andb_true_iff, !Nat.leb_le, re_test_accepts in H; destruct H as [Hl Ha] end.
  split; [|split].
  - apply str_all_lower; [apply host_char_lower|].
    eapply accepts_all; [apply HOSTNAME_RE_chars|done].
  - by rewrite length_to_lower.
  - by exists v.
Qed.
End env_facts.
