(* ===== verification/Secrets.v ===== *)
(** * Secrets: [lib/secrets.ts], [lib/passwords.ts], [lib/email.ts] and [lib/audit.ts]

    AES-256-GCM is the platform's ([gcm_seal], [gcm_open]); [CryptoSpec] states what the
    program relies on.  The derived key is cached by the source; the environment does not
    change, so reading it again is the same key. *)
From S2P Require Import Prelude Js Schema Sql DbWf Env.
From Stdlib Require Import Ascii.
Open Scope Z_scope.

Definition PREFIX : string := "enc:v1:".

(** [s.slice(n)] *)
Fixpoint drop_str (n : nat) (s : string) : string :=
  match n, s with
  | S n', String _ s' => drop_str n' s'
  | _, _ => s
  end.

Fixpoint has_char (c : ascii) (s : string) : bool :=
  match s with EmptyString => false | String d s' => Ascii.eqb d c || has_char c s' end.

(** Base64 holds no colon; a sealed text opens again under the same key and nonce. *)
Class CryptoSpec `{Platform} : Prop := {
  iv_plain n : has_char ":" (random_iv n) = false /\ random_iv n <> "";
  tag_plain k iv t : has_char ":" (gcm_seal k iv t).1 = false /\ (gcm_seal k iv t).1 <> "";
  ct_plain k iv t : has_char ":" (gcm_seal k iv t).2 = false;
  ct_nonempty k iv t : t <> TRaw "" -> (gcm_seal k iv t).2 <> "";
  seal_open k iv t : gcm_open k iv (gcm_seal k iv t).1 (gcm_seal k iv t).2 = Some t }.

(** [normalizeEmail] *)
Definition normalizeEmail (email : option string) : option string :=
  match email with
  | None => None
  | Some s => let e := to_lower (trim s) in if String.eqb e "" then None else Some e
  end.

Definition PASSWORD_CHARS : string := "abcdefghijkmnpqrstuvwxyzABCDEFGHJKLMNPQRSTUVWXYZ23456789".
Definition password_char (b : Z) : ascii :=
  match String.get (Z.to_nat (b mod Z.of_nat (String.length PASSWORD_CHARS))) PASSWORD_CHARS with
  | Some c => c
  | None => "?"%char
  end.
Fixpoint password_of (bytes : list Z) : string :=
  match bytes with [] => "" | b :: bs => String (password_char b) (password_of bs) end.

Definition isEncrypted (value : string) : bool := starts_with PREFIX value.

Section secrets.
Context {HK : Honker} {PF : Platform}.

Definition encryptSecret (plain : text) : Act string :=
  match plain with
  | TRaw EmptyString => mret ""
  | _ =>
      iv ← new_iv;
      key ← lift env_sessionSecret;
      let '(tag, ct) := gcm_seal key iv plain in
      mret (PREFIX +:+ iv +:+ ":" +:+ tag +:+ ":" +:+ ct)
  end.

Definition decryptSecret (stored : string) : text :=
  if negb (starts_with PREFIX stored) then TRaw stored
  else
    match split_on ":" (drop_str (String.length PREFIX) stored) with
    | ivB64 :: tagB64 :: ctB64 :: _ =>
        if negb (truthy ivB64) || negb (truthy tagB64) || negb (truthy ctB64) then TRaw stored
        else
          match env_sessionSecret with
          | Throw _ => TRaw ""
          | Ok key => default (TRaw "") (gcm_open key ivB64 tagB64 ctB64)
          end
    | _ => TRaw stored
    end.

(** [generatePassword(length)]; every caller takes the default 14. *)
Definition generatePassword (length : nat) : Act string :=
  bytes ← random_bytes length; mret (password_of bytes).

Definition audit (actor : option string) (action : string) (target detail : option string)
    : Act unit :=
  ts ← date_now; insert_audit ts actor action target detail.

Lemma encryptSecret_wf plain : preserves wf (encryptSecret plain).
Proof. unfold encryptSecret. solve_preserves. Qed.
Lemma generatePassword_wf n : preserves wf (generatePassword n).
Proof. unfold generatePassword. solve_preserves. Qed.
Lemma audit_wf actor action target detail : preserves wf (audit actor action target detail).
Proof. unfold audit. solve_preserves. Qed.
End secrets.
#[global] Arguments encryptSecret : simpl never.
#[global] Arguments decryptSecret : simpl never.
#[export] Hint Resolve encryptSecret_wf generatePassword_wf audit_wf : preserve.

(** ** Strings without a separator *)

Lemma split_on_fresh c a b :
  has_char c a = false -> split_on c (a +:+ String c b) = a :: split_on c b.
Proof.
  induction a as [|d a IH]; cbn; intros H.
  - by rewrite Ascii.eqb_refl.
  - apply orb_false_iff in H as [Hd Ha]. by rewrite Hd, IH.
Qed.
Lemma split_on_single c a : has_char c a = false -> split_on c a = [a].
Proof.
  induction a as [|d a IH]; cbn; intros H; [done|].
  apply orb_false_iff in H as [Hd Ha]. by rewrite Hd, IH.
Qed.

Section secrets_facts.
Context {HK : Honker} {PF : Platform}.

Lemma encryptSecret_run plain w key :
  env_sessionSecret = Ok key ->
  exists s w', encryptSecret plain w = (Ok s, w') /\ (w' = w \/ w' = w <| w_ivs ::= S |>) /\
               (plain <> TRaw "" -> w' = w <| w_ivs ::= S |>).
Proof.
  intros Hk. unfold encryptSecret, lift, mbind, M_bind.
  destruct plain as [v|[|c r]]; cbn -[gcm_seal]; rewrite ?Hk;
    try (destruct (gcm_seal _ _ _)); eauto 10.
  eexists _, _. split; [done|]. split; [by left|done].
Qed.

Lemma encryptSecret_inv plain w s w' :
  encryptSecret plain w = (Ok s, w') -> plain <> TRaw "" -> w' = w <| w_ivs ::= S |>.
Proof.
  intros H Hne. destruct env_sessionSecret as [key|e] eqn:Hk.
  - destruct (encryptSecret_run plain w key Hk) as (s' & w1 & Hr & _ & Hw).
    rewrite H in Hr. injection Hr as _ <-. auto.
  - exfalso. unfold encryptSecret, lift, mbind, M_bind in H.
    destruct plain as [v|[|c r]]; cbn -[gcm_seal] in H; rewrite ?Hk in H; done.
Qed.

Lemma encryptSecret_starts plain w s w' :
  encryptSecret plain w = (Ok s, w') -> plain <> TRaw "" -> starts_with PREFIX s = true.
Proof.
  intros H Hne. unfold encryptSecret in H. destruct plain as [v|[|c r]]; [|done|];
  inv_bind H; inv_bind H; destruct (gcm_seal _ _ _); by injection H as <- _.
Qed.

(** What was encrypted under the session secret decrypts to itself. *)
Lemma decrypt_encrypt {CS : CryptoSpec} plain w s w' :
  encryptSecret plain w = (Ok s, w') -> decryptSecret s = plain.
Proof.
  intros H. unfold encryptSecret in H.
  assert (plain = TRaw "" \/ plain <> TRaw "") as [->|Hne].
  { destruct plain as [v|[|c r]]; auto. }
  { by injection H as <- _. }
  assert (exists iv k, s = PREFIX +:+ iv +:+ ":" +:+ (gcm_seal k iv plain).1 +:+ ":" +:+
      (gcm_seal k iv plain).2 /\ env_sessionSecret = Ok k /\
      has_char ":" iv = false /\ iv <> "") as (iv & k & -> & Hk & Hiv & Hivne).
  { destruct plain as [v|[|c r]]; [|done|]; inv_bind H; inv_bind H;
      injection E as <- <-; injection E0 as Hk <-;
      destruct (gcm_seal _ _ _) eqn:Hg; injection H as <- <-;
      (exists (random_iv (w_ivs w)), a0); rewrite Hg; (split; [done|]);
      (split; [done|]); apply iv_plain. }
  clear H w w'. pose proof (tag_plain k iv plain) as [Htag Htne].
  pose proof (ct_plain k iv plain) as Hct. pose proof (ct_nonempty k iv plain Hne) as Hcne.
  pose proof (seal_open k iv plain) as Hopen.
  revert Htag Htne Hct Hcne Hopen. generalize (gcm_seal k iv plain).1, (gcm_seal k iv plain).2.
  intros tag ct Htag Htne Hct Hcne Hopen. unfold decryptSecret.
  change (starts_with PREFIX _) with true. cbn [negb].
  change (drop_str _ _) with (iv +:+ String ":" (tag +:+ String ":" ct)).
  rewrite split_on_fresh, split_on_fresh, split_on_single by done.
  rewrite !truthy_ne by done. cbn. by rewrite Hk, Hopen.
Qed.
End secrets_facts.

(** ** Email addresses *)

Lemma normalizeEmail_idem e : normalizeEmail (normalizeEmail e) = normalizeEmail e.
Proof.
  destruct e as [s|]; cbn; [|done]. destruct (String.eqb_spec (to_lower (trim s)) ""); [done|].
  cbn. rewrite <- to_lower_trim, to_lower_idem, trim_idem, to_lower_trim in *.
  by destruct (String.eqb_spec (trim (to_lower s)) "").
Qed.

Lemma normalizeEmail_nonempty e s : normalizeEmail e = Some s -> s <> "".
Proof.
  destruct e as [r|]; cbn; [|done]. destruct (String.eqb_spec (to_lower (trim r)) "");
    naive_solver.
Qed.

(** ** Passwords *)

Lemma length_password_of bs : String.length (password_of bs) = length bs.
Proof. induction bs; cbn; auto. Qed.

Lemma get_has_char s n c : String.get n s = Some c -> has_char c s = true.
Proof.
  revert n. induction s as [|d s IH]; intros [|n]; cbn; try done.
  - intros [= ->]. by rewrite Ascii.eqb_refl.
  - intros H. by rewrite (IH _ H), orb_true_r.
Qed.

Lemma get_lt s n : (n < String.length s)%nat -> is_Some (String.get n s).
Proof.
  revert n. induction s as [|d s IH]; intros [|n] H; cbn in *; eauto; try lia. apply IH. lia.
Qed.

Lemma password_char_ok b : has_char (password_char b) PASSWORD_CHARS = true.
Proof.
  unfold password_char. destruct (String.get _ _) as [c|] eqn:Hg; [by eapply get_has_char|].
  destruct (get_lt PASSWORD_CHARS (Z.to_nat (b mod Z.of_nat (String.length PASSWORD_CHARS))))
    as [c Hc]; [|congruence].
  pose proof (Z.mod_pos_bound b (Z.of_nat (String.length PASSWORD_CHARS)) eq_refl). lia.
Qed.

Lemma password_of_ok bs : str_all (fun c => has_char c PASSWORD_CHARS = true) (password_of bs).
Proof. induction bs as [|b bs IH]; [done|]. split; [apply password_char_ok|done]. Qed.
