(* ===== verification/Queue.v ===== *)
(** * Queue: [lib/queue.ts], the durable per-node task queue and its mirror in [task_log]

    The queue's payload is the whole frame, encrypted; the long-lived [task_log] holds a copy
    of the parameters in which every value under a credential-looking key is masked. *)
From S2P Require Import Prelude Js Redact Schema Sql DbWf Env Secrets.
From Stdlib Require Import Ascii.
Open Scope Z_scope.

Record TaskFrame := mkFrame {
  f_id : string; f_action : string; f_params : json; f_requested_by : option string; f_ts : Z }.

(** [JSON.stringify(frame)]: an undefined [requested_by] is dropped. *)
Definition encode_frame (f : TaskFrame) : json :=
  JObj (defined_only
    [("type", Some (JStr "task")); ("id", Some (JStr (f_id f)));
     ("action", Some (JStr (f_action f))); ("params", Some (f_params f));
     ("requested_by", JStr <$> f_requested_by f); ("ts", Some (jz (f_ts f)))]).

Definition task_done (s : TaskState) : bool := match s with TOk | TFailed => true | _ => false end.
Definition node_queue (node : string) : string := "node:" +:+ node.

Section queue.
Context {HK : Honker} {PF : Platform}.

Definition decodeFrame (payload : json) : result exn json :=
  match as_str (field "_enc" payload) with
  | Some e =>
      match json_parse (decryptSecret e) with
      | Some v => Ok v
      | None => Throw EJsonSyntax
      end
  | None => Ok payload
  end.

(** honker's calls on the queue of one node *)
Definition hk_enqueue_act (node : string) (v : json) : Act Z := fun w =>
  let '(id, q) := hk_enqueue (node_queue node) v (w_hk w) in (Ok id, w <| w_hk := q |>).
Definition hk_claim_act (node worker : string) : Act (option (Z * json)) := fun w =>
  let '(j, q) := hk_claim_one (node_queue node) worker (w_hk w) in (Ok j, w <| w_hk := q |>).

Definition enqueueTask (node action : string) (params : json) (requestedBy : option string)
    : Act TaskFrame :=
  id ← new_uuid;
  ts ← date_now;
  let frame := mkFrame id action params requestedBy ts in
  enc ← encryptSecret (TJson (encode_frame frame));
  jobId ← hk_enqueue_act node (JObj [("_enc", JStr enc)]);
  now ← date_now;
  insert_task (f_id frame) jobId node action (TJson (redactSecrets params)) requestedBy now;;
  mret frame.

Definition getTask (taskUuid : string) : Act (option TaskRow) :=
  d ← db; mret (get_row (fun t => t_task_uuid t = taskUuid) (rows (task_log d))).

Definition claimTask (node workerId : string) : Act (option (Z * json)) :=
  job ← hk_claim_act node workerId;
  match job with
  | None => mret None
  | Some (id, payload) => frame ← lift (decodeFrame payload); mret (Some (id, frame))
  end.

Definition ackTask (node : string) (jobId : Z) (workerId : string) : Act unit :=
  modify (fun w => w <| w_hk ::= hk_ack_batch (node_queue node) [jobId] workerId |>).

Definition retryTask (node : string) (jobId : Z) (workerId error : string) : Act unit :=
  modify (fun w =>
    match hk_retry (node_queue node) jobId workerId 5 error (w_hk w) with
    | Some q => w <| w_hk := q |>
    | None => w
    end).

(** The rows [markTaskState] updates. *)
Definition open_task (node taskUuid : string) (t : TaskRow) : Prop :=
  t_task_uuid t = taskUuid /\ t_node t = node /\ task_done (t_state t) = false.
#[global] Instance open_task_dec node u t : Decision (open_task node u t).
Proof. unfold open_task. apply _. Defined.

Definition markTaskState (node taskUuid : string) (state : TaskState) (res : option json)
    (error : option string) (cached : bool) : Act bool :=
  now ← date_now;
  d ← db;
  update_tasks (open_task node taskUuid) (fun t =>
    t <| t_state := state |> <| t_result := TJson <$> res |> <| t_error := error |>
      <| t_result_cached := cached |> <| t_updated_at := now |>);;
  mret (bool_decide (select (open_task node taskUuid) (rows (task_log d)) <> [])).

Definition markTaskReceived (node taskUuid : string) : Act unit :=
  now ← date_now;
  update_tasks (fun t => t_task_uuid t = taskUuid /\ t_node t = node /\ t_received_at t = None)
    (fun t => t <| t_received_at := Some now |>).

Definition bumpAttempts (node taskUuid : string) : Act unit :=
  update_tasks (fun t => t_task_uuid t = taskUuid /\ t_node t = node)
    (fun t => t <| t_attempts ::= Z.add 1 |>).

(** ** The database stays well-formed *)

Lemma hk_enqueue_act_wf node v : preserves wf (hk_enqueue_act node v).
Proof. intros w Hw. unfold hk_enqueue_act. by destruct (hk_enqueue _ _ _). Qed.
Lemma hk_claim_act_wf node worker : preserves wf (hk_claim_act node worker).
Proof. intros w Hw. unfold hk_claim_act. by destruct (hk_claim_one _ _ _). Qed.
#[local] Hint Resolve hk_enqueue_act_wf hk_claim_act_wf insert_task_wf redactSecrets_clean : preserve.

Lemma enqueueTask_wf node action params by_ : preserves wf (enqueueTask node action params by_).
Proof. unfold enqueueTask. solve_preserves. Qed.
Lemma getTask_wf u : preserves wf (getTask u).
Proof. unfold getTask. solve_preserves. Qed.
Lemma claimTask_wf node worker : preserves wf (claimTask node worker).
Proof. unfold claimTask. solve_preserves. Qed.
Lemma ackTask_wf node j worker : preserves wf (ackTask node j worker).
Proof. by intros w. Qed.
Lemma retryTask_wf node j worker e : preserves wf (retryTask node j worker e).
Proof. intros w Hw. unfold retryTask. cbn. by destruct (hk_retry _ _ _ _ _ _). Qed.
Lemma markTaskState_wf node u s r e c : preserves wf (markTaskState node u s r e c).
Proof. unfold markTaskState. solve_preserves. Qed.
Lemma markTaskReceived_wf node u : preserves wf (markTaskReceived node u).
Proof. unfold markTaskReceived. solve_preserves. Qed.
Lemma bumpAttempts_wf node u : preserves wf (bumpAttempts node u).
Proof. unfold bumpAttempts. solve_preserves. Qed.
End queue.
#[export] Hint Resolve enqueueTask_wf getTask_wf claimTask_wf ackTask_wf retryTask_wf
  markTaskState_wf markTaskReceived_wf bumpAttempts_wf : preserve.
