(* ===== verification/Testbed.v ===== *)
(** * Testbed: a concrete queue engine and platform

    One implementation of the parameters of the model: it shows that [HonkerSpec],
    [HonkerClaims] and [CryptoSpec] hold together, and the witnesses evaluate the program in it.  The toy
    cipher writes a text as its binary code; nothing here says anything about honker or
    AES. *)
From S2P Require Import Prelude Js Schema Env Secrets.
From Stdlib Require Import Ascii.
From stdpp Require Import countable pretty.
Open Scope Z_scope.

(** ** A queue engine: the waiting jobs in order, and the claimed ones *)

Record toy_queue := mkToy {
  tq_jobs : list (string * (Z * json));
  tq_claimed : list (string * HeldJob);
  tq_next : Z }.

Definition toy_pending (q : toy_queue) (n : string) : list (Z * json) :=
  (filter (fun j => j.1 = n) (tq_jobs q)).*2.

Fixpoint toy_take (n : string) (l : list (string * (Z * json)))
    : option (Z * json) * list (string * (Z * json)) :=
  match l with
  | [] => (None, [])
  | j :: l' =>
      if decide (j.1 = n) then (Some j.2, l')
      else let '(r, l'') := toy_take n l' in (r, j :: l'')
  end.

#[global] Instance toy_honker : Honker := {|
  hkq := toy_queue;
  hk_enqueue n v q :=
    (tq_next q, mkToy (tq_jobs q ++ [(n, (tq_next q, v))]) (tq_claimed q) (tq_next q + 1));
  hk_claim_one n wk q :=
    let '(j, l) := toy_take n (tq_jobs q) in
    (j, mkToy l (match j with Some x => (n, mkHeld x.1 (Some wk) x.2) :: tq_claimed q | None => tq_claimed q end)
          (tq_next q));
  hk_ack_batch n js wk q :=
    mkToy (tq_jobs q) (filter (fun h => ~ (h.1 = n /\ acked js wk h.2)) (tq_claimed q)) (tq_next q);
  hk_retry n i wk _ _ q :=
    Some (mkToy (tq_jobs q)
      ((fun h => if decide (h.1 = n) then (h.1, set_back i wk h.2) else h) <$> tq_claimed q)
      (tq_next q)) |}.

(** A held job returns to the end of its line. *)
Definition toy_returns (n : string) (q q' : toy_queue) : Prop := exists l1 h l2,
  tq_claimed q = l1 ++ (n, h) :: l2 /\
  q' = mkToy (tq_jobs q ++ [(n, (hj_id h, hj_payload h))]) (l1 ++ l2) (tq_next q).
Definition toy_held (q : toy_queue) (n : string) : list HeldJob :=
  (filter (fun h => h.1 = n) (tq_claimed q)).*2.

Lemma toy_take_first n l :
  (toy_take n l).1 = head (filter (fun j => j.1 = n) l).*2 /\
  (filter (fun j => j.1 = n) (toy_take n l).2).*2 = tail (filter (fun j => j.1 = n) l).*2.
Proof.
  induction l as [|j l [IH1 IH2]]; [done|]. cbn.
  destruct (decide (j.1 = n)) as [Hj|Hj]; [done|]. destruct (toy_take n l) as [r l'] eqn:He.
  cbn in *. by rewrite decide_False.
Qed.

Lemma toy_take_other n m l : n <> m ->
  filter (fun j => j.1 = m) (toy_take n l).2 = filter (fun j => j.1 = m) l.
Proof.
  intros Hne. induction l as [|j l IH]; [done|]. cbn.
  destruct (decide (j.1 = n)) as [Hj|Hj]; cbn.
  - by rewrite decide_False by congruence.
  - destruct (toy_take n l) as [r l'] eqn:He. cbn in *. case_decide; [f_equal|]; exact IH.
Qed.

#[global] Instance toy_honker_spec : HonkerSpec.
Proof.
  refine {| pending := toy_pending : @hkq toy_honker -> string -> list (Z * json) |}.
  - intros q n v. unfold toy_pending. cbn. rewrite filter_app, fmap_app.
    cbn. by rewrite decide_True.
  - intros q n m v Hne. unfold toy_pending. cbn. rewrite filter_app.
    cbn. by rewrite decide_False, app_nil_r by done.
  - intros q n wk H. cbn. pose proof (toy_take_first n (tq_jobs q)) as [H1 H2].
    unfold toy_pending in *. destruct (toy_take n _). cbn in *. by rewrite H1, H2, H.
  - intros q n wk j l H. cbn. pose proof (toy_take_first n (tq_jobs q)) as [H1 H2].
    unfold toy_pending in *. destruct (toy_take n _). cbn in *. by rewrite H1, H2, H.
  - intros q n m wk Hne. cbn. pose proof (toy_take_other n m (tq_jobs q) Hne) as H1.
    unfold toy_pending. destruct (toy_take n _). cbn in *. by rewrite H1.
  - intros q n m js wk. done.
Defined.

Lemma toy_held_ack n js wk (l : list (string * HeldJob)) :
  (filter (fun h => h.1 = n) (filter (fun h => ~ (h.1 = n /\ acked js wk h.2)) l)).*2 =
  filter (fun h => ~ acked js wk h) (filter (fun h : string * HeldJob => h.1 = n) l).*2.
Proof.
  induction l as [|[k h] l IH]; [done|]. rewrite !filter_cons. cbn [fst snd].
  destruct (decide (k = n)) as [->|Hk].
  - cbn [fmap list_fmap]. rewrite filter_cons. cbn [snd]. destruct (decide (acked js wk h)) as [Ha|Ha].
    + by rewrite !decide_False by tauto.
    + rewrite !decide_True by tauto. rewrite filter_cons, decide_True by done. cbn. by rewrite IH.
  - rewrite decide_True by tauto. by rewrite filter_cons, decide_False by done.
Qed.
Lemma toy_held_ack_other n m js wk (l : list (string * HeldJob)) : n <> m ->
  filter (fun h => h.1 = m) (filter (fun h => ~ (h.1 = n /\ acked js wk h.2)) l) =
  filter (fun h : string * HeldJob => h.1 = m) l.
Proof.
  intros Hne. rewrite list_filter_filter_l; [done|]. intros h Hm [Hn _]. congruence.
Qed.
Lemma toy_held_retry n m i wk (l : list (string * HeldJob)) :
  (filter (fun h => h.1 = m)
     ((fun h => if decide (h.1 = n) then (h.1, set_back i wk h.2) else h) <$> l)).*2 =
  (if decide (n = m) then set_back i wk else id) <$>
    (filter (fun h : string * HeldJob => h.1 = m) l).*2.
Proof.
  induction l as [|[k h] l IH]; [by case_decide|]. rewrite fmap_cons, !filter_cons. cbn [fst snd].
  destruct (decide (k = n)) as [->|Hk]; cbn [fst snd]; [|destruct (decide (k = m)) as [->|Hm]];
    [destruct (decide (n = m))| |]; rewrite ?fmap_cons; cbn [snd]; rewrite IH; try done.
  by rewrite decide_False by congruence.
Qed.

#[global] Instance toy_honker_claims : HonkerClaims.
Proof.
  refine {| held := toy_held : @hkq toy_honker -> string -> list HeldJob;
            hk_returns := toy_returns : string -> @hkq toy_honker -> @hkq toy_honker -> Prop |}.
  - done.
  - intros q n m wk. cbn. destruct (toy_take n (tq_jobs q)) as [j l]. cbn. by intros ->.
  - intros q n wk j. cbn. destruct (toy_take n (tq_jobs q)) as [j' l]. cbn. intros ->.
    unfold toy_held. cbn. by rewrite decide_True.
  - intros q n m wk Hne. cbn. destruct (toy_take n (tq_jobs q)) as [[j|] l]; [|done].
    unfold toy_held. cbn. by rewrite decide_False.
  - intros q n js wk. apply toy_held_ack.
  - intros q n m js wk Hne. unfold toy_held. cbn. by rewrite toy_held_ack_other.
  - intros q n m i wk d e q' [= <-]. done.
  - intros q n i wk d e q' [= <-]. unfold toy_held. cbn. by rewrite toy_held_retry, decide_True.
  - intros q n m i wk d e q' Hne [= <-]. unfold toy_held. cbn.
    by rewrite toy_held_retry, decide_False, list_fmap_id by done.
  - intros n q q' (l1 & h & l2 & Hc & ->).
    exists (filter (fun h => h.1 = n) l1).*2, h, (filter (fun h => h.1 = n) l2).*2.
    unfold toy_held, toy_pending. cbn. rewrite Hc. split_and!.
    + rewrite filter_app, filter_cons, decide_True, fmap_app by done. done.
    + by rewrite filter_app, fmap_app.
    + right. exists (toy_pending q n), []. rewrite app_nil_r. split; [done|].
      rewrite filter_app, fmap_app. cbn. by rewrite decide_True.
    + intros m Hm. rewrite !filter_app, filter_cons, decide_False by done. split; [done|].
      cbn. by rewrite decide_False, app_nil_r by done.
Defined.

(** ** A platform *)

#[local] Instance num_countable : Countable num.
Proof.
  refine (inj_countable'
    (fun x => match x with
      | S754_zero s => inl (inl s) | S754_infinity s => inl (inr s)
      | S754_nan => inr (inl tt) | S754_finite s m e => inr (inr (s, m, e)) end)
    (fun y => match y with
      | inl (inl s) => S754_zero s | inl (inr s) => S754_infinity s
      | inr (inl _) => S754_nan | inr (inr (s, m, e)) => S754_finite s m e end) _).
  by intros [].
Defined.

Definition leaf : Type := bool + (num + string).

Fixpoint tree_of (v : json) : gen_tree leaf :=
  match v with
  | JNull => GenNode 0 []
  | JBool b => GenLeaf (inl b)
  | JNum n => GenLeaf (inr (inl n))
  | JStr s => GenLeaf (inr (inr s))
  | JArr l => GenNode 1 (List.map tree_of l)
  | JObj l => GenNode 2 (List.map (fun kv => GenNode 3 [GenLeaf (inr (inr kv.1)); tree_of kv.2]) l)
  end.

Fixpoint json_of (t : gen_tree leaf) : json :=
  match t with
  | GenLeaf (inl b) => JBool b
  | GenLeaf (inr (inl n)) => JNum n
  | GenLeaf (inr (inr s)) => JStr s
  | GenNode 1 l => JArr (List.map json_of l)
  | GenNode 2 l => JObj (List.map (fun t =>
      match t with
      | GenNode _ [GenLeaf (inr (inr k)); t'] => (k, json_of t')
      | _ => (EmptyString, JNull)
      end) l)
  | _ => JNull
  end.

Lemma json_of_tree v : json_of (tree_of v) = v.
Proof.
  induction v as [| | | |l IH|l IH] using json_nested_ind; cbn; try done; f_equal.
  - rewrite map_map. induction IH; cbn; f_equal; auto.
  - rewrite map_map. induction IH as [|[k v] l Hv _ IHl]; cbn in *; f_equal; [by f_equal|auto].
Qed.

#[local] Instance json_countable : Countable json := inj_countable' tree_of json_of json_of_tree.
#[local] Instance text_countable : Countable text.
Proof.
  refine (inj_countable' (fun t => match t with TJson v => inl v | TRaw s => inr s end)
    (fun y => match y with inl v => TJson v | inr s => TRaw s end) _).
  by intros [].
Defined.

(** Binary digits of a positive, least significant first. *)
Fixpoint bits (p : positive) : string :=
  match p with xH => "1" | xO p' => String "0" (bits p') | xI p' => String "1" (bits p') end.
Fixpoint unbits (s : string) : positive :=
  match s with
  | String c EmptyString => xH
  | String c s' => if Ascii.eqb c "1" then xI (unbits s') else xO (unbits s')
  | EmptyString => xH
  end.

Lemma bits_ne p : exists c s, bits p = String c s.
Proof. destruct p; cbn; eauto. Qed.
Lemma unbits_bits p : unbits (bits p) = p.
Proof.
  induction p as [p IH|p IH|]; [| |done]; pose proof (bits_ne p) as (c & s & Hs);
    change (bits _) with (String "1" (bits p)) || change (bits _) with (String "0" (bits p));
    rewrite Hs in *; cbn in IH |- *; by rewrite IH.
Qed.
Lemma bits_plain p : has_char ":" (bits p) = false.
Proof. by induction p. Qed.

(** With a clock of its own. *)
Definition toy_platform_at (clk : nat -> Z) (env : list (string * string))
    (smtp : nat -> option string) : Platform := {|
  clock := clk;
  random_byte n := (Z.of_nat n * 37 + 11) mod 256;
  random_uuid n := "uuid-" +:+ pretty (N.of_nat n);
  random_iv n := "iv" +:+ pretty (N.of_nat n);
  process_env k := alookup k env;
  sha256 s := "sha256(" +:+ s +:+ ")";
  hmac_sha256 k m := "hmac(" +:+ k +:+ "," +:+ m +:+ ")";
  gcm_seal _ _ t := ("tag", bits (encode t));
  gcm_open _ _ tag ct := if String.eqb tag "tag" then decode (unbits ct) else None;
  parse_raw _ := None;
  print_json _ := "{...}";
  locale_leb := str_leb;
  str_to_num s := num_of_Z (parse_digits 0 s);
  error_text _ := "error";
  sql_text_of n := "number";
  sql_num_of _ := None;
  smtp_answer := smtp |}.
Definition toy_platform : list (string * string) -> (nat -> option string) -> Platform :=
  toy_platform_at (fun n => 1700000000000 + 1000 * Z.of_nat n).

(** The decimal digits of a natural number read back. *)
Lemma parse_pretty_go x s : parse_digits 0 (pretty_N_go x s) = parse_digits (Z.of_N x) s.
Proof.
  revert s. induction (N.lt_wf_0 x) as [x _ IH]. intros s.
  destruct (decide (0 < x)%N) as [Hx|Hx].
  - rewrite pretty_N_go_step, IH by (done || by apply N.div_lt).
    assert (Z.of_N (x / 10) * 10 + Z.of_N (x mod 10) = Z.of_N x) as Hd.
    { pose proof (N.div_mod x 10). lia. }
    pose proof (N.mod_lt x 10) as Hm. revert Hd Hm. generalize (x / 10)%N, (x mod 10)%N.
    intros q r Hd Hm. rewrite <- Hd.
    assert (r = 0 \/ r = 1 \/ r = 2 \/ r = 3 \/ r = 4 \/ r = 5 \/ r = 6 \/ r = 7 \/ r = 8 \/ r = 9)%N
      as Hr by lia.
    by destruct_or! Hr; subst r.
  - assert (x = 0%N) as -> by lia. by rewrite pretty_N_go_0.
Qed.
Lemma parse_pretty z : 0 <= z -> parse_digits 0 (pretty z) = z.
Proof.
  intros Hz. destruct z as [|p|p]; [done| |lia].
  change (pretty (Z.pos p)) with (pretty_N_go (N.pos p) ""). by rewrite parse_pretty_go.
Qed.

Lemma pretty_N_plain (n : N) : has_char ":" (pretty n) = false.
Proof.
  assert (forall x s, has_char ":" s = false -> has_char ":" (pretty_N_go x s) = false) as H.
  { intros x. induction (N.lt_wf_0 x) as [x _ IH]. intros s Hs.
    destruct (decide (0 < x)%N) as [Hx|Hx].
    - rewrite pretty_N_go_step by done. apply IH; [by apply N.div_lt|].
      cbn. rewrite Hs, orb_false_r. unfold pretty_N_char. by repeat case_match.
    - assert (x = 0%N) as -> by lia. by rewrite pretty_N_go_0. }
  unfold pretty, pretty_N. case_decide; [done|]. by apply H.
Qed.

Lemma toy_crypto env smtp : @CryptoSpec (toy_platform env smtp).
Proof.
  split; cbn; intros.
  - split; [|done]. apply pretty_N_plain.
  - done.
  - apply bits_plain.
  - intros Hb. pose proof (bits_ne (encode t)) as (c & s & Hs). congruence.
  - by rewrite unbits_bits, decode_encode.
Qed.

(** The environment of the witnesses. *)
Definition toy_env : list (string * string) :=
  [("SESSION_SECRET", "0123456789abcdef0123456789abcdef"); ("AGENT_TOKEN", "agent-token-0123456789");
   ("SIGNUP_TOKEN", "signup-token-0123456789"); ("NODE_ENV", "production")].

Definition toy_world : World :=
  mkWorld toy_honker empty_db (mkToy [] [] 1) 0 0 0 0 0 [] ∅ ∅ [].
