(* ===== verification/QueueFacts.v ===== *)
(** * QueueFacts: what the task queue promises

    Delivery: a task that was queued is claimed, in order, with the parameters it was queued
    with, while the log shows the masked copy.  Completion: a task completes once, and only
    for the node it was queued for.

    The last part is a populated world in which the witnesses evaluate the program: two nodes (one with a
    pool of its own, one SMB client of it) and a lab with two members. *)
From S2P Require Import Prelude Js Redact Schema Sql DbWf Env Secrets Queue Testbed.
From stdpp Require Import pretty.
Open Scope Z_scope.

Definition tasks `{Honker} (w : World) : list TaskRow := rows (task_log (w_db w)).

(** [crypto.randomUUID] does not repeat. *)
Class UuidSpec `{Platform} : Prop := random_uuid_inj j k : random_uuid j = random_uuid k -> j = k.

Section facts.
Context {HK : Honker} {PF : Platform}.
Implicit Types (w : World).

(** The uuids of the log were drawn before. *)
Definition uuids_drawn w : Prop :=
  Forall (fun t => exists k, (k < w_uuids w)%nat /\ t_task_uuid t = random_uuid k) (tasks w).

Lemma uuids_drawn_fresh {US : UuidSpec} w :
  uuids_drawn w -> random_uuid (w_uuids w) ∉ t_task_uuid <$> tasks w.
Proof.
  intros H (t & Ht & Hin)%list_elem_of_fmap. unfold uuids_drawn in H.
  rewrite Forall_forall in H. destruct (H t Hin) as (k & Hk & Hu).
  rewrite <- Ht in Hu. apply random_uuid_inj in Hu. lia.
Qed.

Lemma uuids_drawn_seq w :
  t_task_uuid <$> tasks w = random_uuid <$> seq 0 (w_uuids w) -> uuids_drawn w.
Proof.
  intros H. unfold uuids_drawn. apply Forall_forall. intros t Ht.
  assert (t_task_uuid t ∈ random_uuid <$> seq 0 (w_uuids w)) as (k & Hk & Hin)%list_elem_of_fmap
    by (rewrite <- H; by apply list_elem_of_fmap_2).
  exists k. apply elem_of_seq in Hin. split; [lia|done].
Qed.

(** What [enqueueTask] does when it returns. *)
Record enqueued (node action : string) (params : json) (by_ : option string) w (f : TaskFrame) w'
    : Prop := {
  enq_id : f_id f = random_uuid (w_uuids w);
  enq_action : f_action f = action;
  enq_params : f_params f = params;
  enq_by : f_requested_by f = by_;
  enq_queue : exists enc now,
    w_hk w' = (hk_enqueue (node_queue node) (JObj [("_enc", JStr enc)]) (w_hk w)).2 /\
    (CryptoSpec -> decryptSecret enc = TJson (encode_frame f)) /\
    w_db w' = (w_db w) <| task_log ::= tbl_insert (fun i =>
      mkTask i (f_id f) (hk_enqueue (node_queue node) (JObj [("_enc", JStr enc)]) (w_hk w)).1
        node action (Some (TJson (redactSecrets params))) by_ TQueued None None None 0 false
        now now) |>;
  enq_uuids : w_uuids w' = S (w_uuids w);
  enq_smtp : w_smtp w' = w_smtp w;
  enq_outbox : w_outbox w' = w_outbox w;
  enq_bytes : w_bytes w' = w_bytes w }.

Lemma enqueueTask_inv node action params by_ w f w' :
  enqueueTask node action params by_ w = (Ok f, w') -> enqueued node action params by_ w f w'.
Proof.
  intros H. unfold enqueueTask in H.
  inv_bind H. injection E as <- <-. inv_bind H. injection E as <- <-.
  inv_bind H. pose proof (encryptSecret_inv _ _ _ _ E ltac:(done)) as ->.
  inv_bind H. unfold hk_enqueue_act in E0. cbn -[hk_enqueue] in E0.
  destruct (hk_enqueue _ _ _) as [jid q] eqn:Hq. injection E0 as <- <-.
  inv_bind H. injection E0 as <- <-. inv_bind H. injection H as <- <-.
  unfold insert_task in E0. inv_bind E0. injection E1 as <- <-. inv_bind E0.
  unfold throw_if in E1. case_match; [done|]. injection E1 as <- <-. injection E0 as _ <-.
  split; try done. cbn -[hk_enqueue]. eexists a, _. rewrite Hq. split; [done|]. split; [|done].
  intros CS. by apply (decrypt_encrypt _ _ _ _ E).
Qed.

Lemma enqueueTask_run node action params by_ w key :
  env_sessionSecret = Ok key -> random_uuid (w_uuids w) ∉ t_task_uuid <$> tasks w ->
  exists f w', enqueueTask node action params by_ w = (Ok f, w') /\
               enqueued node action params by_ w f w'.
Proof.
  intros Hk Hu. destruct (enqueueTask node action params by_ w) as [[f|e] w'] eqn:H.
  { exists f, w'. split; [done|]. by apply enqueueTask_inv. }
  exfalso. unfold enqueueTask, mbind, M_bind in H. cbn in H.
  match type of H with context [encryptSecret ?p ?w0] =>
    destruct (encryptSecret_run p w0 key Hk) as (enc & w1 & He & _ & Hw1) end.
  rewrite He, Hw1 in H by done. clear He Hw1. unfold hk_enqueue_act in H. cbn -[hk_enqueue] in H.
  destruct (hk_enqueue _ _ _). cbn in H. unfold insert_task, mbind, M_bind in H. cbn in H.
  by rewrite bool_decide_eq_false_2 in H.
Qed.

Lemma uuids_drawn_enqueue node action params by_ w f w' :
  enqueued node action params by_ w f w' -> uuids_drawn w -> uuids_drawn w'.
Proof.
  intros [] Hd. destruct enq_queue0 as (enc & now & _ & _ & Hdb).
  unfold uuids_drawn, tasks. rewrite Hdb, enq_uuids0. cbn. apply Forall_app. split.
  - eapply Forall_impl; [exact Hd|]. cbn. intros t (k & Hk & Ht). exists k. split; [lia|done].
  - constructor; [|constructor]. cbn. exists (w_uuids w). split; [lia|done].
Qed.

(** Queued frames come out in order. *)
Lemma claim_pending {HS : HonkerSpec} node wk w j enc l v :
  pending (w_hk w) (node_queue node) = (j, JObj [("_enc", JStr enc)]) :: l ->
  decryptSecret enc = TJson v ->
  exists w', claimTask node wk w = (Ok (Some (j, v)), w') /\
             pending (w_hk w') (node_queue node) = l /\ w_db w' = w_db w.
Proof.
  intros Hp Hd. destruct (claim_first _ _ wk _ _ Hp) as [Hc Hl].
  unfold claimTask, hk_claim_act, mbind, M_bind. cbn -[hk_claim_one].
  destruct (hk_claim_one _ _ _) as [o q] eqn:Hq. cbn in Hc, Hl. rewrite Hc. cbn.
  unfold decodeFrame. cbn. rewrite Hd. cbn. by eexists.
Qed.

Lemma open_task_unique w t t' u :
  wf w -> t ∈ tasks w -> t' ∈ tasks w -> t_task_uuid t = u -> t_task_uuid t' = u -> t = t'.
Proof.
  intros [Hwf _] Ht Ht' <- Hu. by apply (NoDup_fmap_inj t_task_uuid (tasks w)); [apply Hwf|..].
Qed.

Lemma markTaskState_eq node u s res err cached w :
  markTaskState node u s res err cached w =
    (Ok (bool_decide (select (open_task node u) (tasks w) <> [])),
     w <| w_ticks ::= S |> <| w_db ::= fun d => d <| task_log ::= tbl_update (open_task node u)
       (fun t => t <| t_state := s |> <| t_result := TJson <$> res |> <| t_error := err |>
          <| t_result_cached := cached |> <| t_updated_at := clock (w_ticks w) |>) |> |>).
Proof. done. Qed.

Lemma select_nonempty {A} (P : A -> Prop) {PDec : forall x, Decision (P x)} l :
  bool_decide (select P l <> []) = true <-> exists x, x ∈ l /\ P x.
Proof.
  rewrite bool_decide_eq_true. split.
  - destruct (select P l) as [|x k] eqn:Hs; [done|]. intros _. exists x.
    assert (x ∈ select P l) as [??]%elem_of_select by (rewrite Hs; constructor). done.
  - intros (x & Hx & HP) Hs. assert (x ∈ select P l) as Hin by by apply elem_of_select.
    rewrite Hs in Hin. by apply elem_of_nil in Hin.
Qed.

(** After a terminal mark nothing matches the uuid any more. *)
Lemma marked_closed node u s res err cached w t w' :
  wf w -> t ∈ tasks w -> open_task node u t -> task_done s = true ->
  (markTaskState node u s res err cached w).2 = w' ->
  forall n' t', t' ∈ tasks w' -> ~ open_task n' u t'.
Proof.
  intros Hwf Ht Ho Hs <- n' t' Ht' (Hu & _ & Hd). rewrite markTaskState_eq in Ht'. cbn in Ht'.
  apply elem_of_update_where in Ht' as (t0 & Ht0 & [[_ ->]|[Hno ->]]); cbn in *; [congruence|].
  apply Hno. by rewrite (open_task_unique w t0 t u) by (first [done | apply Ho]).
Qed.

(** ** The life of a log row under one agent's messages *)

Definition ident (t : TaskRow) :=
  (t_id t, t_task_uuid t, t_job_id t, t_node t, t_action t, t_params t, t_requested_by t, t_created_at t).
Definition outcome (t : TaskRow) := (t_state t, t_result t, t_error t, t_result_cached t).

(** How a row may change under the messages of [node]'s agent. *)
Record evolves (node : string) (t t' : TaskRow) : Prop := {
  ev_ident : ident t' = ident t;
  ev_foreign : t_node t <> node -> t' = t;
  ev_done : task_done (t_state t) = true -> outcome t' = outcome t;
  ev_received : forall ts, t_received_at t = Some ts -> t_received_at t' = Some ts;
  ev_attempts : t_attempts t <= t_attempts t' }.

Lemma evolves_refl node t : evolves node t t.
Proof. by split. Qed.

Lemma evolves_trans node t t' t'' : evolves node t t' -> evolves node t' t'' -> evolves node t t''.
Proof.
  intros H1 H2. pose proof (ev_ident _ _ _ H1) as Hi.
  assert (t_node t' = t_node t) as Hn by by injection Hi.
  split.
  - by rewrite (ev_ident _ _ _ H2).
  - intros Hf. rewrite (ev_foreign _ _ _ H2) by congruence. by apply (ev_foreign _ _ _ H1).
  - intros Hd. pose proof (ev_done _ _ _ H1 Hd) as Ho. rewrite (ev_done _ _ _ H2); [done|].
    injection Ho as -> _ _ _. done.
  - intros ts Hts. by apply (ev_received _ _ _ H2), (ev_received _ _ _ H1).
  - etrans; [apply (ev_attempts _ _ _ H1)|apply (ev_attempts _ _ _ H2)].
Qed.

(** The calls the hub makes on the log for a connected agent. *)
Inductive agent_call (node : string) : World -> World -> Prop :=
| call_mark w u s res err cached :
    agent_call node w (markTaskState node u s res err cached w).2
| call_received w u : agent_call node w (markTaskReceived node u w).2
| call_attempt w u : agent_call node w (bumpAttempts node u w).2.

Lemma evolves_update node (P : TaskRow -> Prop) {PDec : forall x, Decision (P x)} f l :
  (forall t, P t -> evolves node t (f t)) -> Forall2 (evolves node) l (update_where P f l).
Proof.
  intros Hf. unfold update_where. induction l as [|t l IH]; cbn; constructor; [|done].
  case_decide; [by apply Hf|apply evolves_refl].
Qed.

Lemma agent_call_evolves node w w' :
  agent_call node w w' -> Forall2 (evolves node) (tasks w) (tasks w').
Proof.
  intros []; apply evolves_update.
  - intros t (_ & Hn & Hd). split; cbn; try done; congruence.
  - intros t (_ & Hn & Hr). split; cbn; try done; congruence.
  - intros t (_ & Hn). split; cbn; try done; try congruence; lia.
Qed.
End facts.

(** Whatever sequence of receipts, redeliveries and results an agent sends, the log keeps
    its rows in place; a row keeps its identity, its first receipt time and never loses
    attempts; a completed task keeps its state, result and error; and a row queued for
    another node does not change at all. *)
Theorem agent_cannot_rewrite_log {HK : Honker} {PF : Platform} node w w' :
  rtc (agent_call node) w w' -> Forall2 (evolves node) (tasks w) (tasks w').
Proof.
  induction 1 as [w|w w1 w' Hc _ IH].
  - induction (tasks w); constructor; [apply evolves_refl|done].
  - apply agent_call_evolves in Hc. eapply Forall2_trans; [|exact Hc|exact IH].
    intros t1 t2 t3. apply evolves_trans.
Qed.

(** The first terminal result of a task is recorded and every later one, from any node
    and of any kind, matches nothing and leaves the database as it is. *)
Theorem task_completes_once {HK : Honker} {PF : Platform} node u s res err cached w w1 :
  wf w -> task_done s = true -> markTaskState node u s res err cached w = (Ok true, w1) ->
  (exists t, t ∈ tasks w /\ open_task node u t /\
     forall t', t' ∈ tasks w1 <->
       (t' ∈ tasks w /\ t' <> t) \/
       t' = t <| t_state := s |> <| t_result := TJson <$> res |> <| t_error := err |>
              <| t_result_cached := cached |> <| t_updated_at := clock (w_ticks w) |>) /\
  forall n' s' res' err' cached', exists w2,
    markTaskState n' u s' res' err' cached' w1 = (Ok false, w2) /\ w_db w2 = w_db w1.
Proof.
  intros Hwf Hs Hm. pose proof Hm as Hm'. rewrite markTaskState_eq in Hm.
  injection Hm as Hb Hw. apply select_nonempty in Hb as (t & Ht & Ho). split.
  - exists t. split; [done|]. split; [done|]. intros t'.
    assert (tasks w1 = update_where (open_task node u) (fun t => t <| t_state := s |>
      <| t_result := TJson <$> res |> <| t_error := err |> <| t_result_cached := cached |>
      <| t_updated_at := clock (w_ticks w) |>) (tasks w)) as -> by by rewrite <- Hw.
    rewrite elem_of_update_where. split.
    + intros (t0 & Ht0 & [[Hop ->]|[Hop ->]]).
      * right. by rewrite (open_task_unique w t0 t u) by (first [done | apply Hop | apply Ho]).
      * left. split; [done|]. by intros ->.
    + intros [[Ht' Hne]| ->]; [|by eauto]. exists t'. split; [done|]. right. split; [|done].
      intros Hop. apply Hne. by apply (open_task_unique w _ _ u); first [done | apply Hop | apply Ho].
  - intros n' s' res' err' cached'. rewrite markTaskState_eq.
    assert (forall t', t' ∈ tasks w1 -> ~ open_task n' u t') as Hno.
    { intros t'. eapply (marked_closed node u s res err cached w t w1); try done. }
    eexists. split.
    + f_equal. f_equal. apply not_true_is_false. rewrite select_nonempty. intros (t' & ? & ?).
      by apply (Hno t').
    + revert Hno. unfold tasks. cbn -[tbl_update]. destruct (w_db w1). cbn -[tbl_update]. intros Hno.
      unset. cbn -[tbl_update]. by rewrite tbl_update_none.
Qed.

(** A queued task waits at the end of its node's queue and of no other; when its turn
    comes the agent's claim returns the frame with exactly the parameters it was queued with,
    passwords included; and the log gains one row for it, in state queued, with the masked
    copy. *)
Theorem enqueueTask_delivers {HK : Honker} {HS : HonkerSpec} {PF : Platform} {CS : CryptoSpec}
    node action params by_ w f w' :
  enqueueTask node action params by_ w = (Ok f, w') ->
  exists j payload row,
    pending (w_hk w') (node_queue node) = pending (w_hk w) (node_queue node) ++ [(j, payload)] /\
    (forall m, m <> node_queue node -> pending (w_hk w') m = pending (w_hk w) m) /\
    (forall w0 worker l, pending (w_hk w0) (node_queue node) = (j, payload) :: l ->
       exists w1, claimTask node worker w0 = (Ok (Some (j, encode_frame f)), w1) /\
                  pending (w_hk w1) (node_queue node) = l) /\
    f_params f = params /\ tasks w' = tasks w ++ [row] /\ t_task_uuid row = f_id f /\
    t_job_id row = j /\ t_node row = node /\ t_state row = TQueued /\
    t_params row = Some (TJson (redactSecrets params)).
Proof.
  intros H%enqueueTask_inv. destruct (enq_queue _ _ _ _ _ _ _ H) as (enc & now & Hq & Hd & Hdb).
  exists (hk_enqueue (node_queue node) (JObj [("_enc", JStr enc)]) (w_hk w)).1,
    (JObj [("_enc", JStr enc)]).
  unfold tasks. rewrite Hq, Hdb. eexists.
  split; [apply pending_enqueue|]. split; [intros m Hm; by rewrite pending_enqueue_other|].
  split; [|split; [by apply (enq_params _ _ _ _ _ _ _ H)|done]].
  intros w0 worker l Hp. destruct (claim_pending node worker w0 _ _ _ _ Hp (Hd _)) as (w1 & ? & ? & _).
  eauto.
Qed.

(** ** Witnesses *)

Definition toy_accepts : nat -> option string := fun _ => None.

Section witness.
#[local] Existing Instance toy_honker.
#[local] Instance toy_pf : Platform := toy_platform toy_env toy_accepts.
#[local] Instance toy_cs : CryptoSpec := toy_crypto toy_env toy_accepts.

Definition toy_params : json :=
  JObj [("lab", JStr "vision"); ("username", JStr "ann"); ("password", JStr "hunter22")].
Definition toy_queued : World := (enqueueTask "n1" "student.add" toy_params (Some "root") toy_world).2.
Definition toy_marked : World := (markTaskState "n1" "uuid-0" TOk None None false toy_queued).2.

Lemma toy_world_wf : wf toy_world.
Proof. split; [apply db_wf_empty|apply content_ok_empty]. Qed.

Lemma enqueueTask_delivers_witness : exists f j payload,
  pending (w_hk toy_queued) "node:n1" = [(j, payload)] /\ f_params f = toy_params.
Proof.
  destruct (enqueueTask_delivers "n1" "student.add" toy_params (Some "root") toy_world
    (mkFrame "uuid-0" "student.add" toy_params (Some "root") 1700000000000) toy_queued)
    as (j & payload & row & Hp & _ & _ & Hf & _); [vm_compute; reflexivity|].
  exists (mkFrame "uuid-0" "student.add" toy_params (Some "root") 1700000000000), j, payload.
  split; [exact Hp|exact Hf].
Defined.

Lemma agent_cannot_rewrite_log_witness :
  Forall2 (evolves "n1") (tasks toy_queued) (tasks toy_marked).
Proof.
  apply agent_cannot_rewrite_log. apply rtc_once. apply call_mark.
Defined.

Lemma task_completes_once_witness : exists w2,
  markTaskState "n1" "uuid-0" TFailed None None false toy_marked = (Ok false, w2).
Proof.
  destruct (task_completes_once "n1" "uuid-0" TOk None None false toy_queued toy_marked)
    as [_ Hlater].
  - apply enqueueTask_wf, toy_world_wf.
  - reflexivity.
  - vm_compute. reflexivity.
  - destruct (Hlater "n1" TFailed None None false) as (w2 & Hw & _). exists w2. exact Hw.
Defined.
End witness.

(** * A populated world in which the witnesses evaluate the program

    Two nodes (one with a pool of its own, one SMB client of it), a lab with two members,
    inserted through the statements of [Sql] on the platform of [Testbed]. *)


Definition demo_accepts : nat -> option string := fun _ => None.
Definition demo_refuses : nat -> option string := fun _ => Some "550 no".
Definition demo_pf (smtp : nat -> option string) : Platform := toy_platform toy_env smtp.

Definition demo_node (name : string) (online : bool) (now i : Z) : NodeRow :=
  mkNode i name (Some now) online (Some (TJson (JObj [("runtime",
      JObj [("userns_start", jz 100000); ("userns_size", jz 65536)])]))) None now None None
    (Some "hash") true None LocalZfs None None true.

Definition demo_setup {PF : Platform} : @M (@World toy_honker) exn unit :=
  now ← date_now;
  upsert_node "n1" (demo_node "n1" true now) id;;
  upsert_node "n2" (demo_node "n2" false now) id;;
  set_node_cold 2 Smb (Some 1);;
  lab ← insert_lab "vision" (Some "Dr. Lin") (Some "lin@lab.edu") now;
  ann ← insert_student (Some "s1") "ann" (Some "ann@lab.edu") (Some "Ann") 10000 now;
  ben ← insert_student None "ben" None None 10001 now;
  set_lab_pi lab ann;;
  insert_lab_member lab ann now;;
  insert_lab_member lab ben now.

Definition demo_world (smtp : nat -> option string) : @World toy_honker :=
  (@demo_setup (demo_pf smtp) toy_world).2.

Lemma demo_setup_wf {PF : Platform} : preserves wf demo_setup.
Proof. unfold demo_setup. solve_preserves. Qed.

Lemma demo_world_wf smtp : wf (demo_world smtp).
Proof. apply demo_setup_wf. split; [apply db_wf_empty|apply content_ok_empty]. Qed.

Lemma demo_uuid smtp : @UuidSpec (demo_pf smtp).
Proof.
  intros j k H. cbn in H. injection H as H. apply (inj pretty) in H. lia.
Qed.
