(* ===== verification/QueueSpec.v ===== *)
(** * QueueSpec: what the task queue is, and that the implementation refines it

    The abstract queue is, per node, a first-in-first-out line of clear frames and the jobs out of
    the line - claimed by a worker, or set back and waiting for their delay - and a log that maps
    a task's id to its node, its action and its state.  The implementation keeps the frames
    encrypted in honker and the log as rows of [task_log]; [represents] relates the two.  A run
    interleaves the program's calls with what honker does on its own: a job that was not
    acknowledged in time comes back into its line, or is given up. *)
From S2P Require Import Prelude Js Redact Schema Sql DbWf Env Secrets Queue Testbed QueueFacts.
From stdpp Require Import functions pretty.
Open Scope Z_scope.

(** ** The specification *)

Record Entry := mkEntry {
  en_node : string; en_action : string; en_by : option string; en_masked : json; en_state : TaskState }.
(** A job of a line, and a job out of it. *)
Definition Waiting : Type := Z * TaskFrame.
Record Held := mkHeldFrame { h_job : Z; h_worker : option string; h_frame : TaskFrame }.
Record AbstractQueue := mkAQ {
  aq_waiting : string -> list Waiting;
  aq_held : string -> list Held;
  aq_log : string -> option Entry }.

(** The calls of the program on the queue, and what they return. *)
Inductive queue_op :=
| QEnqueue (node action : string) (params : json) (by_ : option string)
| QClaim (node worker : string)
| QAck (node : string) (job : Z) (worker : string)
| QRetry (node : string) (job : Z) (worker error : string)
| QMark (node uuid : string) (state : TaskState) (res : option json) (error : option string) (cached : bool)
| QReceived (node uuid : string)
| QAttempt (node uuid : string).
Inductive queue_result :=
| RFrame (f : TaskFrame)
| RClaimed (job : option (Z * json))
| RMarked (b : bool)
| RUnit.

(** A log entry that [node] may still complete. *)
Definition open_entry (node : string) (e : Entry) : bool :=
  bool_decide (en_node e = node) && negb (task_done (en_state e)).
Definition set_entry (s : TaskState) (e : Entry) : Entry :=
  mkEntry (en_node e) (en_action e) (en_by e) (en_masked e) s.

(** [worker]'s job: the one an acknowledgement ends and a retry sets back. *)
Definition claimed_by (job : Z) (worker : string) (h : Held) : Prop :=
  h_worker h = Some worker /\ h_job h = job.
#[global] Instance claimed_by_dec job worker h : Decision (claimed_by job worker h).
Proof. unfold claimed_by. apply _. Defined.
Definition unclaim (job : Z) (worker : string) (h : Held) : Held :=
  if decide (claimed_by job worker h) then mkHeldFrame (h_job h) None (h_frame h) else h.

Inductive spec_step (a : AbstractQueue) : queue_op -> queue_result -> AbstractQueue -> Prop :=
| spec_enqueue node action params by_ job f :
    f_action f = action -> f_params f = params -> f_requested_by f = by_ ->
    aq_log a (f_id f) = None ->
    spec_step a (QEnqueue node action params by_) (RFrame f)
      (mkAQ (<[node := aq_waiting a node ++ [(job, f)]]> (aq_waiting a)) (aq_held a)
         (<[f_id f := Some (mkEntry node action by_ (redactSecrets params) TQueued)]> (aq_log a)))
| spec_claim_empty node worker :
    aq_waiting a node = [] -> spec_step a (QClaim node worker) (RClaimed None) a
| spec_claim node worker job f l :
    aq_waiting a node = (job, f) :: l ->
    spec_step a (QClaim node worker) (RClaimed (Some (job, encode_frame f)))
      (mkAQ (<[node := l]> (aq_waiting a))
         (<[node := mkHeldFrame job (Some worker) f :: aq_held a node]> (aq_held a)) (aq_log a))
| spec_ack node job worker :
    spec_step a (QAck node job worker) RUnit
      (mkAQ (aq_waiting a)
         (<[node := filter (fun h => ~ claimed_by job worker h) (aq_held a node)]> (aq_held a)) (aq_log a))
| spec_retry node job worker error :
    spec_step a (QRetry node job worker error) RUnit
      (mkAQ (aq_waiting a) (<[node := unclaim job worker <$> aq_held a node]> (aq_held a)) (aq_log a))
| spec_retry_refused node job worker error : spec_step a (QRetry node job worker error) RUnit a
| spec_mark node uuid state res error cached e :
    aq_log a uuid = Some e -> open_entry node e = true ->
    spec_step a (QMark node uuid state res error cached) (RMarked true)
      (mkAQ (aq_waiting a) (aq_held a) (<[uuid := Some (set_entry state e)]> (aq_log a)))
| spec_mark_ignored node uuid state res error cached :
    (forall e, aq_log a uuid = Some e -> open_entry node e = false) ->
    spec_step a (QMark node uuid state res error cached) (RMarked false) a
| spec_received node uuid : spec_step a (QReceived node uuid) RUnit a
| spec_attempt node uuid : spec_step a (QAttempt node uuid) RUnit a.

(** What the engine does between two calls: a job out of the line returns, or is given up; the
    log is not the engine's. *)
Inductive spec_event (a : AbstractQueue) : AbstractQueue -> Prop :=
| spec_return node l1 h l2 p1 p2 :
    aq_held a node = l1 ++ h :: l2 -> aq_waiting a node = p1 ++ p2 ->
    spec_event a (mkAQ (<[node := p1 ++ (h_job h, h_frame h) :: p2]> (aq_waiting a))
      (<[node := l1 ++ l2]> (aq_held a)) (aq_log a))
| spec_give_up node l1 h l2 :
    aq_held a node = l1 ++ h :: l2 ->
    spec_event a (mkAQ (aq_waiting a) (<[node := l1 ++ l2]> (aq_held a)) (aq_log a)).

Inductive spec_run : AbstractQueue -> list queue_op -> list queue_result -> AbstractQueue -> Prop :=
| spec_done a : spec_run a [] [] a
| spec_next a op r a1 ops rs a2 :
    spec_step a op r a1 -> spec_run a1 ops rs a2 -> spec_run a (op :: ops) (r :: rs) a2
| spec_engine a a1 ops rs a2 : spec_event a a1 -> spec_run a1 ops rs a2 -> spec_run a ops rs a2.

(** ** The implementation *)

Section implementation.
Context {HK : Honker} {HS : HonkerSpec} {PF : Platform}.

Definition exec_op (op : queue_op) : Act queue_result :=
  match op with
  | QEnqueue node action params by_ => f ← enqueueTask node action params by_; mret (RFrame f)
  | QClaim node worker => j ← claimTask node worker; mret (RClaimed j)
  | QAck node job worker => ackTask node job worker;; mret RUnit
  | QRetry node job worker error => retryTask node job worker error;; mret RUnit
  | QMark node uuid state res error cached =>
      b ← markTaskState node uuid state res error cached; mret (RMarked b)
  | QReceived node uuid => markTaskReceived node uuid;; mret RUnit
  | QAttempt node uuid => bumpAttempts node uuid;; mret RUnit
  end.

(** A run: calls that return, the engine acting between them. *)
Inductive exec_run `{HC : !HonkerClaims} : World -> list queue_op -> list queue_result -> World -> Prop :=
| exec_done w : exec_run w [] [] w
| exec_call w op r w1 ops rs w2 :
    exec_op op w = (Ok r, w1) -> exec_run w1 ops rs w2 -> exec_run w (op :: ops) (r :: rs) w2
| exec_engine w node q ops rs w2 :
    hk_returns (node_queue node) (w_hk w) q -> exec_run (w <| w_hk := q |>) ops rs w2 -> exec_run w ops rs w2.

(** The entry of a row; the row's parameters are the masked copy. *)
Definition entry_row (t : TaskRow) (e : Entry) : Prop :=
  e = mkEntry (t_node t) (t_action t) (t_requested_by t) (en_masked e) (t_state t) /\
  t_params t = Some (TJson (en_masked e)).
Definition log_row (w : World) (u : string) : option TaskRow :=
  get_row (fun t => t_task_uuid t = u) (tasks w).

(** A job of honker's and its abstraction: the same id, the frame encrypted. *)
Definition sealed (payload : json) (f : TaskFrame) : Prop := decodeFrame payload = Ok (encode_frame f).
Definition line_job (j : Z * json) (f : Waiting) : Prop := j.1 = f.1 /\ sealed j.2 f.2.
Definition held_job (j : HeldJob) (h : Held) : Prop :=
  hj_id j = h_job h /\ hj_worker j = h_worker h /\ sealed (hj_payload j) (h_frame h).

Record represents {HC : HonkerClaims} (w : World) (a : AbstractQueue) : Prop := {
  rep_wf : wf w;
  rep_uuids : uuids_drawn w;
  rep_waiting node : Forall2 line_job (pending (w_hk w) (node_queue node)) (aq_waiting a node);
  rep_held node : Forall2 held_job (held (w_hk w) (node_queue node)) (aq_held a node);
  rep_log u : option_Forall2 entry_row (log_row w u) (aq_log a u) }.
End implementation.

(** ** The simulation *)

Section simulation.
Context {HK : Honker} {HS : HonkerSpec} {HC : HonkerClaims} {PF : Platform} {CS : CryptoSpec} {US : UuidSpec}.
Implicit Types (w : World) (a : AbstractQueue).

#[local] Arguments node_queue : simpl never.

Lemma node_queue_inj n m : node_queue n = node_queue m -> n = m.
Proof. apply (inj (String.app "node:")). Qed.

(** A step that leaves the queue alone and changes rows, their identity kept. *)
Lemma represents_update w w' a a' :
  wf w' -> w_hk w' = w_hk w -> w_uuids w' = w_uuids w -> represents w a ->
  t_task_uuid <$> tasks w' = t_task_uuid <$> tasks w -> aq_waiting a' = aq_waiting a -> aq_held a' = aq_held a ->
  (forall u, option_Forall2 entry_row (log_row w' u) (aq_log a' u)) -> represents w' a'.
Proof.
  intros Hw Hq Hu [_ Hd Hp Hh _] Ht Ha Hah Hl. split; [done| | | |done].
  - set (drawn := fun u => exists k, (k < w_uuids w)%nat /\ u = random_uuid k).
    assert (Forall drawn (t_task_uuid <$> tasks w')) as H by (rewrite Ht; by apply Forall_fmap).
    rewrite Forall_fmap in H. unfold uuids_drawn. rewrite Hu. exact H.
  - intros node. by rewrite Hq, Ha.
  - intros node. by rewrite Hq, Hah.
Qed.

Lemma update_uuids (P : TaskRow -> Prop) {PDec : forall x, Decision (P x)} f l :
  (forall t, t_task_uuid (f t) = t_task_uuid t) -> t_task_uuid <$> update_where P f l = t_task_uuid <$> l.
Proof.
  intros Hf. unfold update_where. rewrite <- list_fmap_compose. apply list_fmap_ext. intros i t _. cbn.
  case_decide; [apply Hf|done].
Qed.

Lemma sim_enqueue node action params by_ w a key :
  env_sessionSecret = Ok key -> represents w a ->
  exists r w' a', exec_op (QEnqueue node action params by_) w = (Ok r, w') /\
    spec_step a (QEnqueue node action params by_) r a' /\ represents w' a'.
Proof.
  intros Hk R. destruct (enqueueTask_run node action params by_ w key Hk) as (f & w' & He & Hf).
  { apply uuids_drawn_fresh, R. }
  destruct (enq_queue _ _ _ _ _ _ _ Hf) as (enc & now & Hq & Hd & Hdb).
  assert (log_row w (f_id f) = None) as Hfresh.
  { apply get_row_None. intros t Ht Hu. apply (uuids_drawn_fresh w (rep_uuids _ _ R)).
    rewrite <- (enq_id _ _ _ _ _ _ _ Hf), <- Hu. by apply list_elem_of_fmap_2. }
  pose proof (rep_log _ _ R (f_id f)) as Hn. rewrite Hfresh in Hn.
  assert (aq_log a (f_id f) = None) as Hnone by (by inversion Hn). clear Hn.
  eexists _, w', _. split; [|split; [apply (spec_enqueue a node action params by_ (hk_enqueue (node_queue node) (JObj [("_enc", JStr enc)]) (w_hk w)).1 f); try done; apply Hf|]].
  { unfold exec_op. by rewrite (bind_step _ _ _ _ _ He). }
  assert (tasks w' = tasks w ++ [mkTask (last_id (task_log (w_db w)) + 1) (f_id f)
    (hk_enqueue (node_queue node) (JObj [("_enc", JStr enc)]) (w_hk w)).1
    node action (Some (TJson (redactSecrets params))) by_ TQueued None None None 0 false now now]) as Ht.
  { unfold tasks. by rewrite Hdb. }
  split.
  - pose proof (enqueueTask_wf node action params by_ w (rep_wf _ _ R)) as H. by rewrite He in H.
  - by apply (uuids_drawn_enqueue _ _ _ _ _ _ _ Hf), R.
  - intros n. cbn. rewrite Hq. destruct (decide (n = node)) as [->|Hne].
    + rewrite fn_lookup_insert, pending_enqueue. apply Forall2_app; [apply R|].
      constructor; [|constructor]. split; [done|]. unfold sealed, decodeFrame. cbn. by rewrite (Hd CS).
    + rewrite fn_lookup_insert_ne by congruence.
      rewrite pending_enqueue_other by (intros H; by apply node_queue_inj in H). apply R.
  - intros n. cbn. rewrite Hq, held_enqueue. apply R.
  - intros u. unfold log_row. rewrite Ht, get_row_app. cbn [aq_log].
    destruct (decide (u = f_id f)) as [->|Hne].
    + unfold log_row in Hfresh. rewrite Hfresh, fn_lookup_insert, get_row_single by done. by constructor.
    + rewrite fn_lookup_insert_ne by congruence. pose proof (rep_log _ _ R u) as H. unfold log_row in H.
      destruct (get_row _ (tasks w)); [done|].
      assert (get_row (fun t => t_task_uuid t = u) [mkTask (last_id (task_log (w_db w)) + 1) (f_id f)
        (hk_enqueue (node_queue node) (JObj [("_enc", JStr enc)]) (w_hk w)).1
        node action (Some (TJson (redactSecrets params))) by_ TQueued None None None 0 false now now] = None) as ->; [|done].
      apply get_row_None. intros t ->%list_elem_of_singleton. cbn. congruence.
Qed.

(** A change of honker's alone. *)
Lemma represents_queue w q a a' n :
  represents w a -> aq_log a' = aq_log a ->
  (forall m, m <> n -> pending q (node_queue m) = pending (w_hk w) (node_queue m) /\
     aq_waiting a' m = aq_waiting a m) ->
  (forall m, m <> n -> held q (node_queue m) = held (w_hk w) (node_queue m) /\
     aq_held a' m = aq_held a m) ->
  Forall2 line_job (pending q (node_queue n)) (aq_waiting a' n) ->
  Forall2 held_job (held q (node_queue n)) (aq_held a' n) -> represents (w <| w_hk := q |>) a'.
Proof.
  intros [Hw Hu Hp Hh Hlog] Hl Hop Hoh Hpn Hhn. split; [done|done|..].
  - intros m. cbn. destruct (decide (m = n)) as [->|Hne]; [done|].
    destruct (Hop m Hne) as [-> ->]. apply Hp.
  - intros m. cbn. destruct (decide (m = n)) as [->|Hne]; [done|].
    destruct (Hoh m Hne) as [-> ->]. apply Hh.
  - intros u. rewrite Hl. apply Hlog.
Qed.
Ltac other_node :=
  intros ? ?; cbn; rewrite ?fn_lookup_insert_ne by congruence; split; [|reflexivity].

Lemma sim_claim node worker w a : represents w a ->
  exists r w' a', exec_op (QClaim node worker) w = (Ok r, w') /\
    spec_step a (QClaim node worker) r a' /\ represents w' a'.
Proof.
  intros R. unfold exec_op, claimTask, hk_claim_act, mbind, M_bind.
  pose proof (fun m => claim_other (w_hk w) (node_queue node) (node_queue m) worker) as Hop.
  pose proof (fun m => held_claim_other (w_hk w) (node_queue node) (node_queue m) worker) as Hoh.
  pose proof (rep_waiting _ _ R node) as Hw. pose proof (rep_held _ _ R node) as Hh.
  pose proof (held_claim_none (w_hk w) (node_queue node) (node_queue node) worker) as Hn.
  pose proof (held_claim (w_hk w) (node_queue node) worker) as Hs.
  assert (forall m, m <> node -> node_queue node <> node_queue m) as Hq by (intros m Hm H; by apply node_queue_inj in H).
  destruct (pending (w_hk w) (node_queue node)) as [|j l] eqn:Hp.
  - apply (claim_empty _ _ worker) in Hp as [Hc Hl]. apply Forall2_nil_inv_l in Hw.
    destruct (hk_claim_one _ worker (w_hk w)) as [o q]. cbn in *. subst o.
    eexists _, _, a. split; [reflexivity|]. split; [by apply spec_claim_empty|].
    apply (represents_queue w q a a node); [done|done|other_node; by apply Hop, Hq|other_node; by apply Hoh, Hq|..].
    + by rewrite Hl, Hw.
    + by rewrite Hn.
  - apply Forall2_cons_inv_l in Hw as ([k f] & fs & [Hj Hx] & Hl' & Ha).
    destruct (claim_first _ _ worker _ _ Hp) as [Hc Hl].
    destruct (hk_claim_one _ worker (w_hk w)) as [o q]. cbn in *. subst o. specialize (Hs j eq_refl).
    destruct j as [jid payload]. cbn in *. subst jid. unfold sealed in Hx. rewrite Hx.
    eexists _, _, _. split; [reflexivity|]. split; [by apply (spec_claim a node worker k f fs)|].
    apply (represents_queue w q a _ node); [done|done|other_node; by apply Hop, Hq|other_node; by apply Hoh, Hq|..];
      cbn; rewrite fn_lookup_insert; [by rewrite Hl|]. rewrite Hs. by constructor.
Qed.

Lemma sim_ack node job worker w a : represents w a ->
  exists r w' a', exec_op (QAck node job worker) w = (Ok r, w') /\
    spec_step a (QAck node job worker) r a' /\ represents w' a'.
Proof.
  intros R. exists RUnit, (w <| w_hk := hk_ack_batch (node_queue node) [job] worker (w_hk w) |>).
  eexists. split; [reflexivity|]. split; [constructor|].
  apply (represents_queue w _ a _ node); [done|done|other_node|other_node| |]; cbn.
  - apply pending_ack.
  - apply held_ack_other. intros Hq. by apply node_queue_inj in Hq.
  - rewrite pending_ack. apply R.
  - rewrite held_ack, fn_lookup_insert. pose proof (rep_held _ _ R node) as Hh.
    induction Hh as [|j h l l' (Hi & Hw & Hx) _ IH]; [constructor|]. rewrite !filter_cons.
    assert (acked [job] worker j <-> claimed_by job worker h) as He.
    { unfold acked, claimed_by. by rewrite Hi, Hw, list_elem_of_singleton. }
    destruct (decide (~ claimed_by job worker h)) as [Hc|Hc].
    + rewrite decide_True by (by rewrite He). by constructor.
    + by rewrite decide_False by (by rewrite He).
Qed.

Lemma sim_retry node job worker error w a : represents w a ->
  exists r w' a', exec_op (QRetry node job worker error) w = (Ok r, w') /\
    spec_step a (QRetry node job worker error) r a' /\ represents w' a'.
Proof.
  intros R. unfold exec_op, retryTask, mbind, M_bind. cbn.
  destruct (hk_retry (node_queue node) job worker 5 error (w_hk w)) as [q|] eqn:Hr.
  - eexists _, _, _. split; [reflexivity|]. split; [apply spec_retry|].
    apply (represents_queue w _ a _ node); [done|done|other_node|other_node| |]; cbn.
    + exact (pending_retry _ _ _ _ _ _ _ _ Hr).
    + eapply held_retry_other; [|exact Hr]. intros Hq. by apply node_queue_inj in Hq.
    + rewrite (pending_retry _ _ _ _ _ _ _ _ Hr). apply R.
    + rewrite (held_retry _ _ _ _ _ _ _ Hr), fn_lookup_insert. apply Forall2_fmap.
      eapply Forall2_impl; [apply R|]. intros j h (Hi & Hw & Hx). unfold set_back, unclaim.
      assert (acked [job] worker j <-> claimed_by job worker h) as He.
      { unfold acked, claimed_by. by rewrite Hi, Hw, list_elem_of_singleton. }
      destruct (decide (claimed_by job worker h)) as [Hc|Hc].
      * by rewrite decide_True by (by apply He).
      * by rewrite decide_False by (by rewrite He).
  - eexists _, _, a. split; [reflexivity|]. split; [apply spec_retry_refused|done].
Qed.

(** The engine's own steps. *)
Lemma sim_event node w q a : represents w a -> hk_returns (node_queue node) (w_hk w) q ->
  exists a', spec_event a a' /\ represents (w <| w_hk := q |>) a'.
Proof.
  intros R (l1 & h & l2 & Hh & Hh' & Hp & Ho)%returns_inv.
  pose proof (rep_held _ _ R node) as Hheld. rewrite Hh in Hheld.
  apply Forall2_app_inv_l in Hheld as (k1 & k & H1 & (f & k2 & (Hi & Hw & Hx) & H2 & ->)%Forall2_cons_inv_l & Hk).
  assert (forall m, m <> node -> node_queue m <> node_queue node) as Hq by (intros m Hm H; by apply node_queue_inj in H).
  destruct Hp as [Hp|(p1 & p2 & Hp & Hp')].
  - eexists. split; [by eapply spec_give_up|].
    apply (represents_queue w _ a _ node); [done|done|other_node; by apply Ho, Hq|other_node; by apply Ho, Hq|..]; cbn.
    + rewrite Hp. apply R.
    + rewrite Hh', fn_lookup_insert. by apply Forall2_app.
  - pose proof (rep_waiting _ _ R node) as Hwait. rewrite Hp in Hwait.
    apply Forall2_app_inv_l in Hwait as (f1 & f2 & G1 & G2 & Hf).
    eexists. split; [by eapply spec_return|].
    apply (represents_queue w _ a _ node); [done|done|other_node; by apply Ho, Hq|other_node; by apply Ho, Hq|..]; cbn.
    + rewrite Hp', fn_lookup_insert. apply Forall2_app; [done|]. by constructor.
    + rewrite Hh', fn_lookup_insert. by apply Forall2_app.
Qed.

(** A statement on the log: the row of [u] is the old one, updated or not. *)
Lemma log_row_update (P : TaskRow -> Prop) {PDec : forall x, Decision (P x)} f w w' u :
  (forall t, t_task_uuid (f t) = t_task_uuid t) -> tasks w' = update_where P f (tasks w) ->
  log_row w' u = (fun t => if decide (P t) then f t else t) <$> log_row w u.
Proof. intros Hf Ht. unfold log_row. rewrite Ht, get_row_update; [done|]. intros t. by rewrite Hf. Qed.

(** One that changes nothing the specification sees. *)
Lemma sim_unseen (P : TaskRow -> Prop) {PDec : forall x, Decision (P x)} f (m : Act unit) w w' a op :
  represents w a -> m w = (Ok tt, w') -> preserves wf m -> w_hk w' = w_hk w -> w_uuids w' = w_uuids w ->
  tasks w' = update_where P f (tasks w) ->
  (forall t, t_task_uuid (f t) = t_task_uuid t) ->
  (forall t e, entry_row t e -> entry_row (f t) e) ->
  exec_op op = (m;; mret RUnit) -> spec_step a op RUnit a ->
  exists r w' a', exec_op op w = (Ok r, w') /\ spec_step a op r a' /\ represents w' a'.
Proof.
  intros R Hm Hwf Hq Hu Ht Hf He Hop Hs. exists RUnit, w', a. rewrite Hop, (bind_step _ _ _ _ _ Hm).
  split; [done|]. split; [done|]. apply (represents_update w w' a a); try done.
  - pose proof (Hwf w (rep_wf _ _ R)) as H. by rewrite Hm in H.
  - rewrite Ht. by apply update_uuids.
  - intros u. rewrite (log_row_update P f w w') by done. destruct (rep_log _ _ R u) as [t e Hte|]; cbn; constructor.
    case_decide; [by apply He|done].
Qed.

Lemma sim_mark node u s res err cached w a : represents w a ->
  exists r w' a', exec_op (QMark node u s res err cached) w = (Ok r, w') /\
    spec_step a (QMark node u s res err cached) r a' /\ represents w' a'.
Proof.
  intros R. unfold exec_op. pose proof (markTaskState_eq node u s res err cached w) as Hm.
  set (w' := w <| w_ticks ::= S |> <| w_db ::= _ |>) in Hm. rewrite (bind_step _ _ _ _ _ Hm).
  assert (forall v, log_row w' v = (fun t => if decide (open_task node u t) then t <| t_state := s |>
    <| t_result := TJson <$> res |> <| t_error := err |> <| t_result_cached := cached |>
    <| t_updated_at := clock (w_ticks w) |> else t) <$> log_row w v) as Hrow by (intros v; by apply log_row_update).
  assert (t_task_uuid <$> tasks w' = t_task_uuid <$> tasks w) as Hids by by apply update_uuids.
  assert (wf w') as Hwf.
  { pose proof (markTaskState_wf node u s res err cached w (rep_wf _ _ R)) as H. by rewrite Hm in H. }
  assert (forall t, log_row w u = Some t -> t ∈ tasks w /\ t_task_uuid t = u) as Hget.
  { intros t [? ?]%get_row_Some. done. }
  pose proof (rep_log _ _ R u) as Hu.
  destruct (bool_decide (select (open_task node u) (tasks w) <> [])) eqn:Hb.
  - apply select_nonempty in Hb as (t & Ht & Ho).
    assert (log_row w u = Some t) as Hlr.
    { apply (get_row_unique _ t_task_uuid); [apply (rep_wf _ _ R)|done|apply Ho|].
      intros y _ Hy. by rewrite Hy, (proj1 Ho). }
    rewrite Hlr in Hu. inversion Hu as [? e [He Hp]|]; subst.
    exists (RMarked true), w', (mkAQ (aq_waiting a) (aq_held a) (<[u := Some (set_entry s e)]> (aq_log a))).
    split; [done|]. split.
    { apply spec_mark; [done|]. rewrite He. unfold open_entry. cbn. destruct Ho as (_ & -> & Hd).
      by rewrite bool_decide_eq_true_2, Hd. }
    apply (represents_update w w' a); try done. intros v. rewrite Hrow. cbn.
    destruct (decide (v = u)) as [->|Hne].
    + rewrite Hlr, fn_lookup_insert. cbn. rewrite decide_True by done. constructor. split; [by rewrite He|done].
    + rewrite fn_lookup_insert_ne by congruence. pose proof (rep_log _ _ R v) as Hv.
      destruct (log_row w v) as [t'|] eqn:Ht'; [|exact Hv]. inversion Hv as [? e' Hte Ht1|]; subst. cbn. constructor.
      rewrite decide_False; [done|]. intros (Hu' & _). apply get_row_Some in Ht' as [Hv' _]. congruence.
  - assert (forall t, t ∈ tasks w -> ~ open_task node u t) as Hno.
    { intros t Ht Ho. assert (bool_decide (select (open_task node u) (tasks w) <> []) = true) as Hx; [|congruence].
      apply select_nonempty. by exists t. }
    exists (RMarked false), w', a. split; [done|]. split.
    { apply spec_mark_ignored. intros e He. rewrite He in Hu. inversion Hu as [t ? [-> _] Ht|]; subst.
      destruct (Hget t) as [Hin Huu]; [done|]. specialize (Hno t Hin). unfold open_task in Hno. unfold open_entry. cbn.
      destruct (bool_decide_reflect (t_node t = node)); [|done]. destruct (task_done (t_state t)); [done|]. by destruct Hno. }
    apply (represents_update w w' a); try done. intros v. rewrite Hrow. pose proof (rep_log _ _ R v) as Hv.
    destruct (log_row w v) as [t'|] eqn:Ht'; [|exact Hv]. inversion Hv; subst. constructor.
    apply get_row_Some in Ht' as [_ Hin]. by rewrite decide_False by by apply Hno.
Qed.

Lemma sim_op op w a key : env_sessionSecret = Ok key -> represents w a ->
  exists r w' a', exec_op op w = (Ok r, w') /\ spec_step a op r a' /\ represents w' a'.
Proof.
  intros Hk R. destruct op as [node action params by_|node worker|node job worker|node job worker error|node u s res err cached|node u|node u].
  - by eapply sim_enqueue.
  - by apply sim_claim.
  - by apply sim_ack.
  - by apply sim_retry.
  - by apply sim_mark.
  - apply (sim_unseen (fun t => t_task_uuid t = u /\ t_node t = node /\ t_received_at t = None)
      (fun t => t <| t_received_at := Some (clock (w_ticks w)) |>) (markTaskReceived node u) w
      (markTaskReceived node u w).2); try done; [apply markTaskReceived_wf|apply spec_received].
  - apply (sim_unseen (fun t => t_task_uuid t = u /\ t_node t = node)
      (fun t => t <| t_attempts ::= Z.add 1 |>) (bumpAttempts node u) w
      (bumpAttempts node u w).2); try done; [apply bumpAttempts_wf|apply spec_attempt].
Qed.
End simulation.

(** C6: the task queue refines its specification. From a state that represents an abstract queue,
    take any run: calls in any order and for any nodes - tasks queued, claims, acknowledgements,
    retries, results, receipts, delivery counts - with the engine bringing back or giving up jobs
    between them. It returns what the specification allows: each claim the clear frame at the head
    of the node's line, an acknowledgement or a retry acting on nothing but the caller's own job,
    each result accepted exactly once and only for its node, whether or not its job is delivered
    again; and it ends in a state that represents the specification's, where every call returns
    without an error. *)
Theorem queue_refines_spec {HK : Honker} {HS : HonkerSpec} {HC : HonkerClaims} {PF : Platform} {CS : CryptoSpec} {US : UuidSpec}
    key ops rs w w' a :
  env_sessionSecret = Ok key -> represents w a -> exec_run w ops rs w' ->
  (exists a', spec_run a ops rs a' /\ represents w' a') /\
  forall op, exists r w2, exec_op op w' = (Ok r, w2).
Proof.
  intros Hk R Hr.
  assert (exists a', spec_run a ops rs a' /\ represents w' a') as (a' & Hs & R').
  { revert a R. induction Hr as [w|w op r w1 ops rs w2 He _ IH|w node q ops rs w2 He _ IH]; intros a R.
    - exists a. split; [constructor|done].
    - destruct (sim_op op w a key Hk R) as (r' & w1' & a1 & H1 & Hs1 & R1).
      rewrite He in H1. injection H1 as <- <-. destruct (IH a1 R1) as (a2 & Hs2 & R2).
      exists a2. split; [by eapply spec_next|done].
    - destruct (sim_event node w q a R He) as (a1 & Hs1 & R1). destruct (IH a1 R1) as (a2 & Hs2 & R2).
      exists a2. split; [by eapply spec_engine|done]. }
  split; [by exists a'|]. intros op. destruct (sim_op op w' a' key Hk R') as (r & w2 & _ & H & _). by exists r, w2.
Qed.

(** ** A run *)

Definition empty_queue : AbstractQueue := mkAQ (fun _ => []) (fun _ => []) (fun _ => None).

Section witness.
#[local] Existing Instance toy_honker.
#[local] Existing Instance toy_pf.
#[local] Existing Instance toy_cs.

Lemma toy_uuids : UuidSpec.
Proof. intros j k H. cbn in H. by apply (inj (String.app "uuid-")), (inj pretty), Nat2N.inj in H. Qed.

Lemma toy_represents : represents toy_world empty_queue.
Proof.
  split; [apply toy_world_wf|constructor| | |].
  - intros node. by constructor.
  - intros node. by constructor.
  - intros u. constructor.
Qed.

(** A task is delivered, its result accepted, and its job - which the hub could not acknowledge -
    set back, put into the line again and delivered once more: its second result is ignored. *)
Definition before_return : list queue_op :=
  [QEnqueue "n1" "student.add" toy_params (Some "root"); QEnqueue "n2" "node.check" (JObj []) None;
   QClaim "n2" "w"; QClaim "n1" "w"; QMark "n1" "uuid-0" TOk None None false;
   QMark "n1" "uuid-1" TOk None None false; QRetry "n1" 1 "v" "not its job"; QRetry "n1" 1 "w" "send failed";
   QClaim "n1" "w"].
Definition after_return : list queue_op :=
  [QClaim "n1" "w"; QMark "n1" "uuid-0" TFailed None None false; QAck "n1" 1 "w"; QClaim "n1" "w"].

(** The calls one after the other, and what they return. *)
Fixpoint calls (ops : list queue_op) (w : World) : list queue_result * World :=
  match ops with
  | [] => ([], w)
  | op :: ops' =>
      match exec_op op w with
      | (Ok r, w1) => let '(rs, w2) := calls ops' w1 in (r :: rs, w2)
      | (Throw _, w1) => ([], w1)
      end
  end.
Lemma calls_run ops : forall w rest rs w', length (calls ops w).1 = length ops ->
  exec_run (calls ops w).2 rest rs w' -> exec_run w (ops ++ rest) ((calls ops w).1 ++ rs) w'.
Proof.
  induction ops as [|op ops IH]; intros w rest rs w'; cbn [calls]; [done|].
  destruct (exec_op op w) as [[r|e] w1] eqn:He; [|done]. specialize (IH w1).
  destruct (calls ops w1) as [rs1 w2]. cbn. intros [= Hl] H. eapply exec_call; [exact He|]. by apply IH.
Qed.

Lemma calls_all ops w : length (calls ops w).1 = length ops -> exec_run w ops (calls ops w).1 (calls ops w).2.
Proof.
  intros Hl. pose proof (calls_run ops w [] [] (calls ops w).2 Hl (exec_done _)) as H.
  by rewrite !app_nil_r in H.
Qed.

Definition world_before : World := (calls before_return toy_world).2.
(** The job that was set back is due. *)
Definition back_in_line (q : toy_queue) : toy_queue :=
  match tq_claimed q with
  | (n, h) :: l => mkToy (tq_jobs q ++ [(n, (hj_id h, hj_payload h))]) l (tq_next q)
  | [] => q
  end.
Lemma back_returns n q : fst <$> head (tq_claimed q) = Some n -> toy_returns n q (back_in_line q).
Proof.
  unfold back_in_line, toy_returns. destruct (tq_claimed q) as [|[m h] l]; [done|]. intros [= ->]. by exists [], h, l.
Qed.
Definition returned (w : World) : World := w <| w_hk := back_in_line (w_hk w) |>.
Lemma returned_run w node ops rs w' : fst <$> head (tq_claimed (w_hk w)) = Some (node_queue node) ->
  exec_run (returned w) ops rs w' -> exec_run w ops rs w'.
Proof.
  intros Hh Hr. apply (exec_engine (HK := toy_honker) _ node (back_in_line (w_hk w))); [by apply back_returns|exact Hr].
Qed.

Definition between_run := calls after_return (returned world_before).
Definition toy_results : list queue_result := (calls before_return toy_world).1 ++ between_run.1.
Lemma toy_run : exec_run toy_world (before_return ++ after_return) toy_results between_run.2.
Proof.
  unfold toy_results. apply calls_run; [vm_compute; reflexivity|].
  apply (returned_run _ "n1"); [vm_compute; reflexivity|].
  apply calls_all. vm_compute. reflexivity.
Qed.

Definition shown (r : queue_result) : option (Z + bool) :=
  match r with RClaimed (Some j) => Some (inl j.1) | RMarked b => Some (inr b) | _ => None end.

Lemma queue_refines_spec_witness :
  exists w' a', exec_run toy_world (before_return ++ after_return) toy_results w' /\
    spec_run empty_queue (before_return ++ after_return) toy_results a' /\
    shown <$> toy_results =
      [None; None; Some (inl 2); Some (inl 1); Some (inr true); Some (inr false); None; None; None;
       Some (inl 1); Some (inr false); None; None].
Proof.
  destruct (@queue_refines_spec _ _ _ _ _ toy_uuids "0123456789abcdef0123456789abcdef" (before_return ++ after_return)
    toy_results toy_world between_run.2 empty_queue) as [(a' & Hs & _) _];
    [reflexivity|apply toy_represents|apply toy_run|].
  exists between_run.2, a'. split; [apply toy_run|]. split; [exact Hs|].
  vm_compute. reflexivity.
Defined.
End witness.
