(* ===== verification/Settings.v ===== *)
(** * Settings: [lib/settings.ts]

    The key/value table of operational settings: a value is stored as JSON, a credential
    encrypted inside it; a missing or unreadable row reads as the default. *)
From S2P Require Import Prelude Js Redact Schema Sql DbWf Env Secrets Queue.
From Stdlib Require Import Ascii.
Open Scope Z_scope.

(** A double quote. *)
Definition qt : string := String (ascii_of_nat 34) EmptyString.

Definition TIB : Z := 1024 ^ 4.

Definition DEFAULT_WELCOME_SUBJECT : string := "Your access to lab {lab}".
Definition DEFAULT_WELCOME_BODY : string := "Hello {name},

You have been added to the lab " +:+ qt +:+ "{lab}" +:+ qt +:+ " on {node}. Connect over SSH:

    ssh {username}@{host} -p {port}

  Username: {username}
  Password: {password}

Your home directory contains:
  ~                fast storage for working data
  ~/cold-storage   slower storage for data you want to keep but rarely touch

Please change your password after first login (run: passwd).".
Definition DEFAULT_GPU_WARN_SUBJECT : string := "Idle GPU process warning".
Definition DEFAULT_GPU_WARN_BODY : string := "Hello {username},

One of your processes (PID {pid}) on node {node} is holding GPU memory but is not using the GPU.

If it stays idle it will be terminated in about {grace_minutes} minutes to free the GPU for others. If you still need it, start using the GPU again or contact an admin.".
Definition DEFAULT_GPU_KILL_SUBJECT : string := "Idle GPU process terminated".
Definition DEFAULT_GPU_KILL_BODY : string := "Hello {username},

Your idle process (PID {pid}) on node {node} was terminated because it held GPU memory without using the GPU.

Please checkpoint long-running work and keep the GPU active, or ask an admin to whitelist your job.".
Definition DEFAULT_REMOVAL_SUBJECT : string := "Removed from lab {lab}".
Definition DEFAULT_REMOVAL_BODY : string := "You have been removed from the lab " +:+ qt +:+ "{lab}" +:+ qt +:+ ". {data_status}".
Definition REMOVAL_DATA_DELETED : string := "Your home and cold-storage data in this lab has been deleted.".
Definition REMOVAL_DATA_RETAINED : string := "Your data has been retained for now; contact an admin if you need it.".
Definition DEFAULT_QUOTA_SUBJECT : string := "Lab {lab} is at {pct}% of its {pool} quota".
Definition DEFAULT_QUOTA_BODY : string := "Lab " +:+ qt +:+ "{lab}" +:+ qt +:+ " has reached {pct}% of its {pool} storage quota ({used} of {quota}).

Per-student usage on the {pool} pool:
{breakdown}

You may want to ask students to clean up unneeded data, or request a larger quota.".
Definition DEFAULT_STUDENT_QUOTA_SUBJECT : string := "[{lab}] Your {pool} storage is {pct}% full".
Definition DEFAULT_STUDENT_QUOTA_BODY : string := "Hi {name},

Your account {username} on {node} is using {used} of its {quota} {pool}-storage quota ({pct}%).

Please remove files you no longer need or contact the lab administrator if the assignment needs to be reviewed. You can check current usage by running `labquota` after signing in.".
Definition DEFAULT_USAGE_REPORT_STUDENT_SUBJECT : string := "[{lab}] Please review your storage usage on {node}".
Definition DEFAULT_USAGE_REPORT_STUDENT_BODY : string := "Hi {name},

Your lab '{lab}' on node {node} is using a significant amount of storage. Please take a few minutes to review your files and remove anything you no longer need — old datasets, model checkpoints, caches, and build artifacts are the usual suspects.

Current usage (your row is marked " +:+ qt +:+ "(you)" +:+ qt +:+ "):

{report}

HOME (fast) is your home directory on the fast pool; COLD (slow) is /cold-storage. You can check live usage anytime by running `labquota` inside the lab container.

Thank you for helping keep the lab within its quota.".
Definition DEFAULT_USAGE_REPORT_PI_SUBJECT : string := "[{lab}] Lab storage usage report — {node}".
Definition DEFAULT_USAGE_REPORT_PI_BODY : string := "Hi {name},

Here is the current storage usage report for your lab '{lab}' on node {node}. Please ask your group to clean up files they no longer need — old datasets, model checkpoints, caches, and build artifacts are the usual suspects.

{report}

Per-student numbers come from the most recent nightly scan; lab totals are live. Students can check their own usage anytime by running `labquota` inside the lab container.".
Definition DEFAULT_PLACEMENT_COMPLETE_SUBJECT : string := "[{lab}] Node setup complete — {node}".
Definition DEFAULT_PLACEMENT_COMPLETE_BODY : string := "Hi {name},

Setup for lab " +:+ qt +:+ "{lab}" +:+ qt +:+ " on node {node} is complete. The node agent successfully signed in over SSH with every initial credential before this message was sent.

Verified usernames:
{usernames}

Current quota assignment:
  Fast storage: {fast_quota}
  Cold storage: {cold_quota}
  Per-user fast: {student_fast_quota}
  Per-user cold: {student_cold_quota}".
Definition DEFAULT_TEST_SUBJECT : string := "Lab Manager test email".
Definition DEFAULT_TEST_BODY : string := "This is a test email from the Lab Manager controller. SMTP is configured correctly.".
Definition DEFAULT_EMAIL_SIGNATURE_TEXT : string := "Ningxi Cheng, Graduate Research Assistant
School of Computing | Ph.D. Student
edwardcheng@uga.edu
University of Georgia".

Definition DEFAULT_SETTINGS : list (string * json) :=
  [("fastQuotaDefaultBytes", jz (2 * TIB));
   ("slowQuotaDefaultBytes", jz (3 * TIB));
   ("sshPortStart", jz 50000);
   ("sshPortEnd", jz 51000);
   ("usageScanEnabled", JBool true);
   ("usageScanHour", jz 0);
   ("usageScanTimezone", JStr "UTC");
   ("smtpHost", JStr "");
   ("smtpPort", jz 587);
   ("smtpUser", JStr "");
   ("smtpPass", JStr "");
   ("smtpFrom", JStr "");
   ("smtpSecure", JBool false);
   ("smtpConfigs", JArr []);
   ("emailSignatureText", JStr DEFAULT_EMAIL_SIGNATURE_TEXT);
   ("welcomeEmailSubject", JStr DEFAULT_WELCOME_SUBJECT);
   ("welcomeEmailBody", JStr DEFAULT_WELCOME_BODY);
   ("gpuEnabled", JBool false);
   ("gpuUtilThreshold", jz 5);
   ("gpuIdleMinutes", jz 20);
   ("gpuGraceMinutes", jz 10);
   ("gpuImmediate", JBool false);
   ("gpuWhitelistUsers", JStr "");
   ("gpuWhitelistLabs", JStr "");
   ("gpuWarnEmailSubject", JStr DEFAULT_GPU_WARN_SUBJECT);
   ("gpuWarnEmailBody", JStr DEFAULT_GPU_WARN_BODY);
   ("gpuKillEmailSubject", JStr DEFAULT_GPU_KILL_SUBJECT);
   ("gpuKillEmailBody", JStr DEFAULT_GPU_KILL_BODY);
   ("removalEmailSubject", JStr DEFAULT_REMOVAL_SUBJECT);
   ("removalEmailBody", JStr DEFAULT_REMOVAL_BODY);
   ("quotaEmailSubject", JStr DEFAULT_QUOTA_SUBJECT);
   ("quotaEmailBody", JStr DEFAULT_QUOTA_BODY);
   ("studentQuotaAlertsEnabled", JBool true);
   ("studentQuotaAlertPct", jz 50);
   ("studentQuotaNotifyAdmins", JBool false);
   ("studentQuotaEmailSubject", JStr DEFAULT_STUDENT_QUOTA_SUBJECT);
   ("studentQuotaEmailBody", JStr DEFAULT_STUDENT_QUOTA_BODY);
   ("usageReportStudentSubject", JStr DEFAULT_USAGE_REPORT_STUDENT_SUBJECT);
   ("usageReportStudentBody", JStr DEFAULT_USAGE_REPORT_STUDENT_BODY);
   ("usageReportPiSubject", JStr DEFAULT_USAGE_REPORT_PI_SUBJECT);
   ("usageReportPiBody", JStr DEFAULT_USAGE_REPORT_PI_BODY);
   ("placementCompleteEmailSubject", JStr DEFAULT_PLACEMENT_COMPLETE_SUBJECT);
   ("placementCompleteEmailBody", JStr DEFAULT_PLACEMENT_COMPLETE_BODY);
   ("testEmailSubject", JStr DEFAULT_TEST_SUBJECT);
   ("testEmailBody", JStr DEFAULT_TEST_BODY);
   ("alertsEnabled", JBool true);
   ("alertLevel", JStr "ERROR");
   ("alertDedupMinutes", jz 15);
   ("nodeOfflineGraceSeconds", jz 60);
   ("logRetentionDays", jz 30);
   ("logMaxEntries", jz 0);
   ("logMaxSizeMb", jz 0);
   ("quotaAlertPct", jz 90);
   ("webdavUrl", JStr "");
   ("webdavUser", JStr "");
   ("webdavPass", JStr "");
   ("webdavBaseDir", JStr "/backups");
   ("backupEnabled", JBool false);
   ("backupIntervalHours", jz 24);
   ("backupAnchorHour", jz 2);
   ("backupAnchorMinute", jz 0);
   ("backupTimezone", JStr "America/New_York");
   ("backupKeepRecent", jz 7);
   ("backupKeepWeekly", jz 4);
   ("backupKeepMonthly", jz 12);
   ("backupKeepYearly", jz 3);
   ("backupLastRun", jz 0);
   ("backupLastStatus", JStr "");
   ("backupLastError", JStr "");
   ("backupLastName", JStr "");
   ("scrubEnabled", JBool false);
   ("scrubIntervalDays", jz 30);
   ("scrubHour", jz 2);
   ("scrubTimezone", JStr "UTC")].

Definition ENCRYPTED_KEYS : list string := ["smtpPass"; "webdavPass"].

(** A JSON value used as a condition. *)
Definition json_truthy (v : json) : bool :=
  match v with
  | JNull => false
  | JBool b => b
  | JNum n => num_truthy n
  | JStr s => truthy s
  | JArr _ | JObj _ => true
  end.
Definition ojson_truthy (o : option json) : bool :=
  match o with Some v => json_truthy v | None => false end.

Section settings.
Context {HK : Honker} {PF : Platform}.

(** A text as the string the program holds. *)
Definition text_str (t : text) : string :=
  match t with TRaw s => s | TJson v => print_json v end.

(** [String(v)] *)
Fixpoint js_String (v : json) : string :=
  match v with
  | JStr s => s
  | JArr l => join "," (List.map (fun x => match x with JNull => "" | _ => js_String x end) l)
  | JObj _ => "[object Object]"
  | _ => print_json v
  end.
(** [Number(v)], for values other than arrays and objects *)
Definition js_Number (o : option json) : num :=
  match o with
  | Some (JNum n) => n
  | Some (JBool b) => num_of_Z (if b then 1 else 0)
  | Some JNull => num_of_Z 0
  | Some (JStr s) => str_to_num s
  | _ => S754_nan
  end.

Definition default_setting (key : string) : json := default JNull (alookup key DEFAULT_SETTINGS).

(** [{ ...config, pass: typeof config?.pass === "string" ? decryptSecret(config.pass) : "" }];
    the elements of the stored array are objects. *)
Definition open_config (config : json) : json :=
  let pass := match as_str (field "pass" config) with
              | Some p => text_str (decryptSecret p)
              | None => ""
              end in
  match config with
  | JObj l => JObj (aset "pass" (JStr pass) l)
  | _ => JObj [("pass", JStr pass)]
  end.

(** The value a stored row reads as. *)
Definition read_setting (key : string) (row : option text) : json :=
  match row with
  | None => default_setting key
  | Some t =>
      match json_parse t with
      | None => default_setting key
      | Some parsed =>
          match parsed with
          | JArr l => if String.eqb key "smtpConfigs" then JArr (open_config <$> l) else parsed
          | JStr s =>
              if bool_decide (key ∈ ENCRYPTED_KEYS) then JStr (text_str (decryptSecret s))
              else parsed
          | _ => parsed
          end
      end
  end.

Definition getSetting (key : string) : Act json :=
  d ← db; mret (read_setting key (alookup key (settings d))).

(** A setting at the type its key has; a stored null counts as zero. *)
Definition num_of_json (v : json) : num :=
  match v with JNum n => n | JNull => num_of_Z 0 | _ => S754_nan end.
Definition Z_of_json (v : json) : Z := match v with JNum n => trunc_Z n | _ => 0 end.
Definition str_of_json (v : json) : string := match v with JStr s => s | _ => "" end.
Definition getSetting_num (key : string) : Act num := v ← getSetting key; mret (num_of_json v).
Definition getSetting_Z (key : string) : Act Z := v ← getSetting key; mret (Z_of_json v).
Definition getSetting_str (key : string) : Act string := v ← getSetting key; mret (str_of_json v).
Definition getSetting_bool (key : string) : Act bool := v ← getSetting key; mret (json_truthy v).

Definition getSettings : Act (list (string * json)) :=
  for_map (fun k => v ← getSetting k; mret (k, v)) DEFAULT_SETTINGS.*1.

(** [encryptSecret(config.pass)]: a missing password is a TypeError. *)
Definition seal_config (config : json) : Act json :=
  match as_str (field "pass" config), config with
  | Some p, JObj l => e ← encryptSecret (TRaw p); mret (JObj (aset "pass" (JStr e) l))
  | _, _ => throw ETypeError
  end.

Definition setSetting (key : string) (value : json) : Act unit :=
  toStore ← match value with
    | JArr l => if String.eqb key "smtpConfigs" then l' ← for_map seal_config l; mret (JArr l')
                else mret value
    | JStr s => if bool_decide (key ∈ ENCRYPTED_KEYS) then e ← encryptSecret (TRaw s); mret (JStr e)
                else mret value
    | _ => mret value
    end;
  upsert_setting key (TJson (stringified toStore)).

Definition isWebdavConfigured : Act bool :=
  url ← getSetting_str "webdavUrl"; mret (negb (String.eqb (trim url) "")).

Definition backupEnv : string := if env_isProd then "prod" else "dev".

(** [s.replace(/\/+$/, "")] and [s.replace(/^\/+/, "")] *)
Fixpoint strip_slashes_start (s : string) : string :=
  match s with
  | String c s' => if Ascii.eqb c "/" then strip_slashes_start s' else s
  | EmptyString => ""
  end.
Fixpoint strip_slashes_end (s : string) : string :=
  match s with
  | String c s' =>
      match strip_slashes_end s' with
      | EmptyString => if Ascii.eqb c "/" then "" else String c ""
      | t => String c t
      end
  | EmptyString => ""
  end.

Definition webdavConfig : Act (string * string * string) :=
  url ← getSetting_str "webdavUrl";
  dir ← getSetting_str "webdavBaseDir";
  let root := strip_slashes_end (trim url) in
  let base := strip_slashes_end (strip_slashes_start (trim dir)) in
  user ← getSetting_str "webdavUser";
  pass ← getSetting_str "webdavPass";
  mret (join "/" (filter (fun s => truthy s = true) [root; base; backupEnv]), user, pass).

Definition csv_list (s : string) : list string :=
  filter (fun x => truthy x = true) (trim <$> split_on "," s).

(** The GPU policy payload broadcast to agents (gpu.policy.update). *)
Definition gpuPolicyPayload : Act json :=
  enabled ← getSetting "gpuEnabled";
  util ← getSetting "gpuUtilThreshold";
  idle ← getSetting "gpuIdleMinutes";
  grace ← getSetting "gpuGraceMinutes";
  immediate ← getSetting "gpuImmediate";
  users ← getSetting_str "gpuWhitelistUsers";
  labs ← getSetting_str "gpuWhitelistLabs";
  mret (JObj [("enabled", enabled); ("util_threshold", util); ("idle_minutes", idle);
    ("grace_minutes", grace); ("immediate", immediate);
    ("whitelist_users", JArr (JStr <$> csv_list users));
    ("whitelist_labs", JArr (JStr <$> csv_list labs))]).

Definition broadcastGpuPolicy (actor : option string) : Act unit :=
  payload ← gpuPolicyPayload;
  d ← db;
  for_each (fun n => enqueueTask (n_name n) "gpu.policy.update" payload actor;; mret tt)
    (rows (nodes d)).

(** The stored configuration number [index], with its missing fields filled in. *)
Definition smtp_of_json (index : nat) (c : json) : SmtpConfig :=
  let str k := match field k c with
               | Some v => if json_truthy v then js_String v else ""
               | None => "" end in
  let i := Z.of_nat index + 1 in
  let rank := js_Number (field "rank" c) in
  let port := js_Number (field "port" c) in
  {| sc_id := or_str (str "id") ("smtp-" +:+ string_of_Z i);
     sc_name := or_str (str "name") ("SMTP " +:+ string_of_Z i);
     sc_rank := if is_finite rank
                then (if num_ltb (num_trunc rank) (num_of_Z 1) then num_of_Z 1 else num_trunc rank)
                else num_of_Z i;
     sc_host := trim (str "host");
     sc_port := if num_ltb (num_of_Z 0) port then num_trunc port else num_of_Z 587;
     sc_user := trim (str "user");
     sc_pass := str "pass";
     sc_from := trim (str "from");
     sc_secure := ojson_truthy (field "secure" c) |}.

(** Failover order: by rank, then by name. *)
Definition smtp_leb (a b : SmtpConfig) : bool :=
  num_ltb (sc_rank a) (sc_rank b) ||
  (num_eqb (sc_rank a) (sc_rank b) && locale_leb (sc_name a) (sc_name b)).

Definition is_object (v : json) : bool := match v with JArr _ | JObj _ => true | _ => false end.

Definition getSmtpConfigs : Act (list SmtpConfig) :=
  d ← db;
  if is_some (alookup "smtpConfigs" (settings d)) then
    v ← getSetting "smtpConfigs";
    match v with
    | JArr l =>
        mret (sort_by smtp_leb
          (imap smtp_of_json (filter (fun c => is_object c = true) l)))
    | _ => throw ETypeError
    end
  else
    host ← getSetting_str "smtpHost";
    from ← getSetting_str "smtpFrom";
    let host := trim host in
    let from := trim from in
    if negb (truthy host) && negb (truthy from) then mret []
    else
      port ← getSetting_num "smtpPort";
      user ← getSetting_str "smtpUser";
      pass ← getSetting_str "smtpPass";
      secure ← getSetting_bool "smtpSecure";
      mret [{| sc_id := "legacy"; sc_name := "Primary SMTP"; sc_rank := num_of_Z 1;
               sc_host := host; sc_port := port; sc_user := trim user; sc_pass := pass;
               sc_from := from; sc_secure := secure |}].

Definition usable_smtp (c : SmtpConfig) : bool := truthy (sc_host c) && truthy (sc_from c).

Definition isSmtpConfigured : Act bool :=
  cs ← getSmtpConfigs; mret (existsb usable_smtp cs).

(** ** The database stays well-formed *)

Lemma getSetting_ro I k : preserves I (getSetting k).
Proof. unfold getSetting. solve_preserves. Qed.
#[local] Hint Resolve getSetting_ro : preserve.
Lemma getSetting_num_ro I k : preserves I (getSetting_num k).
Proof. unfold getSetting_num. solve_preserves. Qed.
Lemma getSetting_Z_ro I k : preserves I (getSetting_Z k).
Proof. unfold getSetting_Z. solve_preserves. Qed.
Lemma getSetting_str_ro I k : preserves I (getSetting_str k).
Proof. unfold getSetting_str. solve_preserves. Qed.
Lemma getSetting_bool_ro I k : preserves I (getSetting_bool k).
Proof. unfold getSetting_bool. solve_preserves. Qed.
#[local] Hint Resolve getSetting_num_ro getSetting_Z_ro getSetting_str_ro getSetting_bool_ro : preserve.

(** *** A value of the type of its key is stored at that type *)

Lemma field_stringified k v : field k (stringified v) = stringified <$> field k v.
Proof.
  destruct v as [| |n| | |l]; try done; cbn [field stringified]; [by destruct (is_finite n)|].
  induction l as [|[j x] l IH]; [done|]. cbn [List.map alookup fst snd]. by destruct (String.eqb k j).
Qed.
Lemma stored_stringified ty v : stored_as ty v = true -> stored_as ty (stringified v) = true.
Proof.
  destruct ty, v as [| |n| | |]; try done; unfold stringified; destruct (is_finite n) eqn:E; try done.
  unfold stored_as. cbn. unfold is_integer. by rewrite E.
Qed.
Lemma smtp_stringified c : config_by stored_as c = true -> config_by stored_as (stringified c) = true.
Proof.
  unfold config_by. rewrite !forallb_forall. intros H [k ty] Hk. pose proof (H _ Hk) as H1. cbn in H1 |- *.
  rewrite field_stringified. destruct (field k c); [by apply stored_stringified|done].
Qed.
Lemma typed_stringified ty v : reads_as ty v = true -> reads_as ty (stringified v) = true.
Proof.
  destruct ty; try apply stored_stringified. destruct v as [| | | |l|]; try done. cbn. rewrite !forallb_forall.
  intros H x (c & <- & Hc)%in_map_iff. by apply smtp_stringified, H.
Qed.
(** A password in a configuration is a text, sealed or not. *)
Lemma smtp_config_pass e l : config_by stored_as (JObj l) = true -> config_by stored_as (JObj (aset "pass" (JStr e) l)) = true.
Proof.
  unfold config_by. rewrite !forallb_forall. intros H [k ty] Hk. pose proof (H _ Hk) as H1. cbn [field fst snd] in H1 |- *.
  destruct (decide (k = "pass")) as [->|Hne]; [rewrite alookup_aset|by rewrite alookup_aset_ne].
  cbn in Hk. by destruct_or! Hk; simplify_eq.
Qed.

Lemma seal_config_typed c w w' v : seal_config c w = (Ok v, w') -> config_by stored_as c = true -> config_by stored_as v = true.
Proof.
  unfold seal_config. intros H Hc. destruct (as_str (field "pass" c)) as [p|]; [|done]. destruct c; try done.
  inv_bind H. injection H as <- _. by apply smtp_config_pass.
Qed.
Lemma seal_configs_typed l : forall w w' l', for_map seal_config l w = (Ok l', w') ->
  forallb (config_by stored_as) l = true -> forallb (config_by stored_as) l' = true.
Proof.
  induction l as [|c l IH]; intros w w' l' H; cbn in H; [by injection H as <- _|].
  inv_bind H. inv_bind H. injection H as <- _. cbn. intros [Hc Hl]%andb_true_iff.
  apply andb_true_iff. split; [exact (seal_config_typed _ _ _ _ E Hc)|exact (IH _ _ _ E0 Hl)].
Qed.
Lemma setSetting_wf k v : setting_typed k v = true -> preserves wf (setSetting k v).
Proof.
  intros Hv. unfold setSetting. apply (preserves_bind_post _ (fun v' => setting_typed k v' = true)).
  - unfold seal_config. solve_preserves.
  - intros w v' _ H. destruct v as [| | |s|l|]; try (by injection H as <-).
    + destruct (bool_decide (k ∈ ENCRYPTED_KEYS)) eqn:Hk; [|by injection H as <-]. apply bool_decide_eq_true in Hk.
      revert H. unfold mbind, M_bind. destruct (encryptSecret _ w) as [[e|] w']; [|done]. intros [= <-].
      repeat (apply elem_of_cons in Hk as [->|Hk]; [done|]). by apply elem_of_nil in Hk.
    + destruct (String.eqb_spec k "smtpConfigs") as [->|Hk]; [|by injection H as <-].
      revert H. unfold mbind, M_bind. destruct (for_map seal_config l w) as [[l'|] w'] eqn:E; [|done]. intros [= <-].
      apply (seal_configs_typed _ _ _ _ E), Hv.
  - intros v' H. apply upsert_setting_wf. unfold setting_fits. unfold setting_typed in H. cbn [fst snd].
    destruct (alookup k Settings) as [ty|]; [by apply (typed_stringified ty)|done].
Qed.
Lemma gpuPolicyPayload_ro I : preserves I gpuPolicyPayload.
Proof. unfold gpuPolicyPayload. solve_preserves. Qed.
#[local] Hint Resolve gpuPolicyPayload_ro : preserve.
Lemma broadcastGpuPolicy_wf actor : preserves wf (broadcastGpuPolicy actor).
Proof. unfold broadcastGpuPolicy. solve_preserves. Qed.
Lemma getSmtpConfigs_ro I : preserves I getSmtpConfigs.
Proof. unfold getSmtpConfigs. solve_preserves. Qed.
#[local] Hint Resolve getSmtpConfigs_ro : preserve.
Lemma isSmtpConfigured_ro I : preserves I isSmtpConfigured.
Proof. unfold isSmtpConfigured. solve_preserves. Qed.
End settings.
#[export] Hint Extern 1 (setting_typed _ _ = true) =>
  first [reflexivity | match goal with |- context [if ?b then _ else _] => destruct b; reflexivity end] : preserve.
#[export] Hint Resolve getSetting_ro getSetting_num_ro getSetting_Z_ro getSetting_str_ro
  getSetting_bool_ro setSetting_wf gpuPolicyPayload_ro broadcastGpuPolicy_wf getSmtpConfigs_ro
  isSmtpConfigured_ro : preserve.
