(* ===== verification/SettingsFacts.v ===== *)
(** * SettingsFacts: a saved setting reads back, and its credentials are stored encrypted *)
From S2P Require Import Prelude Js Redact Schema Sql DbWf Env Secrets Queue Settings Testbed.
Open Scope Z_scope.

Lemma aset_aset {A} k (v v' : A) l : aset k v (aset k v' l) = aset k v l.
Proof.
  induction l as [|[k' u] l IH]; cbn; [by rewrite String.eqb_refl|].
  destruct (String.eqb_spec k k') as [->|Hne]; cbn; [by rewrite String.eqb_refl|].
  rewrite (proj2 (String.eqb_neq k k')) by done. by rewrite IH.
Qed.

Lemma aset_id {A} k (v : A) l : alookup k l = Some v -> aset k v l = l.
Proof.
  induction l as [|[k' u] l IH]; cbn; [done|].
  destruct (String.eqb_spec k k') as [->|Hne]; [by intros [= ->]|]. intros H. by rewrite IH.
Qed.

(** The characters of every credential of [stored] are the cipher's. *)
Definition sealed_string (s : string) : Prop := s = "" \/ starts_with PREFIX s = true.
Definition sealed_pass (config : json) : Prop :=
  exists p, as_str (field "pass" config) = Some p /\ sealed_string p.

Section facts.
Context {HK : Honker} {PF : Platform} {CS : CryptoSpec}.

Lemma encrypt_sealed s w e w' : encryptSecret (TRaw s) w = (Ok e, w') -> sealed_string e.
Proof.
  destruct (decide (s = "")) as [->|Hne].
  - intros [= <- <-]. by left.
  - intros H. right. eapply encryptSecret_starts; [done|]. congruence.
Qed.

Lemma encryptSecret_db plain w e w' : encryptSecret plain w = (Ok e, w') -> w_db w' = w_db w.
Proof.
  intros H. destruct plain as [v|s]; [|destruct (decide (s = "")) as [->|Hne]].
  - by rewrite (encryptSecret_inv _ _ _ _ H).
  - by injection H as _ <-.
  - rewrite (encryptSecret_inv _ _ _ _ H) by congruence. done.
Qed.

Lemma seal_open_config c w c' w' :
  seal_config c w = (Ok c', w') -> open_config c' = c /\ sealed_pass c' /\ w_db w' = w_db w.
Proof.
  unfold seal_config. destruct c as [| | | | |l]; cbn; try done.
  destruct (as_str (alookup "pass" l)) as [p|] eqn:Hp; [|done]. intros H. inv_bind H.
  injection H as <- <-. unfold open_config, sealed_pass. cbn. rewrite alookup_aset. cbn.
  rewrite (decrypt_encrypt _ _ _ _ E). cbn. rewrite aset_aset.
  split; [|split; [|by apply (encryptSecret_db _ _ _ _ E)]].
  - rewrite aset_id; [done|]. destruct (alookup "pass" l) as [[]|]; naive_solver.
  - eexists. split; [done|]. by eapply encrypt_sealed.
Qed.

Lemma seal_open_configs l w l' w' :
  for_map seal_config l w = (Ok l', w') ->
  open_config <$> l' = l /\ Forall sealed_pass l' /\ w_db w' = w_db w.
Proof.
  revert w l'. induction l as [|c l IH]; intros w l' H; cbn in H.
  - by injection H as <- <-.
  - inv_bind H. inv_bind H. injection H as <- <-.
    destruct (seal_open_config _ _ _ _ E) as (Ho & Hs & Hd).
    destruct (IH _ _ E0) as (Hol & Hsl & Hdl). cbn. split_and!; [by f_equal|by constructor|congruence].
Qed.

(** Printing and the passwords of the SMTP servers. *)
Definition printed_field (kv : string * json) : string * json := (kv.1, stringified kv.2).

Lemma alookup_printed k l : alookup k (List.map printed_field l) = stringified <$> alookup k l.
Proof. induction l as [|[k' v] l IH]; cbn; [done|]. by destruct (String.eqb k k'). Qed.

Lemma aset_printed k v l :
  List.map printed_field (aset k v l) = aset k (stringified v) (List.map printed_field l).
Proof.
  induction l as [|[k' u] l IH]; cbn; [done|].
  destruct (String.eqb k k'); cbn; [done|]. by f_equal.
Qed.

Lemma open_printed c : sealed_pass c -> open_config (stringified c) = stringified (open_config c).
Proof.
  intros (p & Hp & _). destruct c as [| | | | |l]; try done. unfold open_config. cbn in *.
  change (fun kv => _) with printed_field.
  rewrite alookup_printed, aset_printed. destruct (alookup "pass" l) as [[]|]; naive_solver.
Qed.

Lemma sealed_printed c : sealed_pass c -> sealed_pass (stringified c).
Proof.
  intros (p & Hp & Hs). exists p. split; [|done]. destruct c as [| | | | |l]; try done. cbn in *.
  change (fun kv => _) with printed_field. rewrite alookup_printed.
  destruct (alookup "pass" l) as [[]|]; naive_solver.
Qed.

Lemma open_configs_printed l :
  Forall sealed_pass l -> open_config <$> List.map stringified l = List.map stringified (open_config <$> l).
Proof. induction 1 as [|c l Hc _ IH]; cbn; [done|]. by rewrite open_printed, IH. Qed.

(** What [setSetting] writes. *)
Lemma setSetting_stored k v w w' :
  setSetting k v w = (Ok tt, w') ->
  exists stored, w_db w' = (w_db w) <| settings ::= aset k (TJson stored) |> /\
    read_setting k (Some (TJson stored)) = stringified v /\
    (k ∈ ENCRYPTED_KEYS -> forall s, v = JStr s -> exists e, stored = JStr e /\ sealed_string e) /\
    (k = "smtpConfigs" -> forall l, v = JArr l -> exists l', stored = JArr l' /\ Forall sealed_pass l').
Proof.
  intros H. unfold setSetting in H. inv_bind H. injection H as <-.
  assert (w_db w0 = w_db w /\ read_setting k (Some (TJson (stringified a))) = stringified v /\
    (k ∈ ENCRYPTED_KEYS -> forall s, v = JStr s -> exists e, stringified a = JStr e /\ sealed_string e) /\
    (k = "smtpConfigs" -> forall l, v = JArr l -> exists l', stringified a = JArr l' /\ Forall sealed_pass l'))
    as (Hd & Hrest).
  2: { exists (stringified a). split; [|exact Hrest]. cbn. by rewrite Hd. }
  destruct v as [| |n|s|l|]; try (injection E as <- <-; by split_and!).
  - injection E as <- <-. split_and!; try done. cbn. by destruct (is_finite n).
  - unfold read_setting, json_parse. destruct (bool_decide (k ∈ ENCRYPTED_KEYS)) eqn:Hk.
    + inv_bind E. injection E as <- <-. cbn [stringified]. rewrite (decrypt_encrypt _ _ _ _ E0).
      split; [by apply (encryptSecret_db _ _ _ _ E0)|]. split; [done|]. split; [|done].
      intros _ s' [= <-]. eexists. split; [done|]. by eapply encrypt_sealed.
    + injection E as <- <-. apply bool_decide_eq_false in Hk. by split_and!.
  - unfold read_setting, json_parse. destruct (String.eqb_spec k "smtpConfigs") as [->|Hne].
    + inv_bind E. injection E as <- <-. destruct (seal_open_configs _ _ _ _ E0) as (Ho & Hs & Hd).
      cbn [stringified]. rewrite open_configs_printed, Ho by done.
      split_and!; [done|done|done|]. intros _ l' [= <-]. eexists. split; [done|].
      apply Forall_map. eapply Forall_impl; [exact Hs|]. apply sealed_printed.
    + injection E as <- <-. by split_and!.
Qed.
End facts.

(** A setting that was saved reads back as the value saved, a number that is not finite
    as null, whatever was stored before;
    the other settings are untouched; and a credential setting and the password of every SMTP
    server are stored only encrypted (or empty). *)
Theorem setSetting_getSetting {HK : Honker} {PF : Platform} {CS : CryptoSpec} k v w w' :
  setSetting k v w = (Ok tt, w') ->
  getSetting k w' = (Ok (stringified v), w') /\
  (forall k', k' <> k -> (getSetting k' w').1 = (getSetting k' w).1) /\
  (k ∈ ENCRYPTED_KEYS -> forall s, v = JStr s -> exists e,
     alookup k (settings (w_db w')) = Some (TJson (JStr e)) /\ sealed_string e) /\
  (k = "smtpConfigs" -> forall l, v = JArr l -> exists l',
     alookup k (settings (w_db w')) = Some (TJson (JArr l')) /\ Forall sealed_pass l').
Proof.
  intros H. destruct (setSetting_stored _ _ _ _ H) as (stored & Hd & Hr & He & Hs).
  unfold getSetting, mbind, M_bind. cbn. rewrite Hd. cbn. rewrite alookup_aset, Hr.
  split; [done|]. split; [intros k' Hne; by rewrite alookup_aset_ne|]. split.
  - intros Hk s Hv. destruct (He Hk s Hv) as (e & -> & Hse). eauto.
  - intros Hk l Hv. destruct (Hs Hk l Hv) as (l' & -> & Hsl). eauto.
Qed.

Section witness.
#[local] Existing Instance toy_honker.
#[local] Instance toy_pf : Platform := toy_platform toy_env (fun _ => None).
#[local] Instance toy_cs : CryptoSpec := toy_crypto toy_env (fun _ => None).

Lemma setSetting_getSetting_witness :
  let w' := (setSetting "smtpPass" (JStr "hunter22") toy_world).2 in
  getSetting "smtpPass" w' = (Ok (JStr "hunter22"), w').
Proof. apply (setSetting_getSetting "smtpPass" (JStr "hunter22") toy_world). reflexivity. Defined.
End witness.

(** ** Every setting reads at its type *)

(** The defaults are those of the interface, each of its type. *)
Lemma DEFAULT_SETTINGS_typed :
  DEFAULT_SETTINGS.*1 ≡ₚ Settings.*1 /\ Forall (fun kv => setting_typed kv.1 kv.2 = true) DEFAULT_SETTINGS.
Proof. split; [|repeat (apply Forall_cons_2; [by vm_compute|]); apply Forall_nil_2]. by apply (bool_decide_unpack _); vm_compute. Qed.

Section typed.
Context {HK : Honker} {PF : Platform}.

Lemma default_typed k ty : alookup k Settings = Some ty -> reads_as ty (default_setting k) = true.
Proof.
  intros Hk. destruct DEFAULT_SETTINGS_typed as [Hp Hd]. unfold default_setting.
  destruct (alookup k DEFAULT_SETTINGS) as [v|] eqn:Hv; cbn.
  - rewrite Forall_forall in Hd. pose proof (Hd _ (alookup_in _ _ _ Hv)) as H. unfold setting_typed in H. cbn [fst snd] in H.
    by rewrite Hk in H.
  - exfalso. apply alookup_None in Hv. apply Hv. rewrite Hp. apply alookup_in in Hk. by apply list_elem_of_fmap_2 with (f := fst) in Hk.
Qed.
Lemma open_config_typed c : config_by stored_as c = true -> config_by stored_as (open_config c) = true.
Proof.
  intros Hc. unfold open_config. destruct c as [| | | | |l]; try done. by apply smtp_config_pass.
Qed.
Lemma encrypted_text k ty : k ∈ ENCRYPTED_KEYS -> alookup k Settings = Some ty -> ty = TString.
Proof. repeat (intros [->|Hk]%elem_of_cons; [by intros [= <-]|revert Hk]). by intros ?%elem_of_nil. Qed.

Lemma read_setting_typed k ty row :
  alookup k Settings = Some ty -> (forall t, row = Some t -> setting_fits (k, t) = true) ->
  reads_as ty (read_setting k row) = true.
Proof.
  intros Hk Hr. unfold read_setting. destruct row as [t|]; [|by apply default_typed].
  specialize (Hr t eq_refl). unfold setting_fits in Hr. cbn [fst snd] in Hr. rewrite Hk in Hr.
  destruct t as [v|]; [|done]. cbn [json_parse]. destruct v as [| | |s|l|]; try done.
  - case_bool_decide as He; [by rewrite (encrypted_text k ty He Hk)|done].
  - destruct (String.eqb k "smtpConfigs"); [|done]. destruct ty; try done. cbn in *. rewrite !forallb_forall in *.
    intros x (c & <- & Hc)%in_map_iff. by apply open_config_typed, Hr.
Qed.

Lemma getSetting_typed w k ty :
  settings_typed (w_db w) -> alookup k Settings = Some ty ->
  exists v, getSetting k w = (Ok v, w) /\ reads_as ty v = true.
Proof.
  intros Hs Hk. eexists. split; [reflexivity|]. apply read_setting_typed; [done|]. intros t Ht%alookup_in.
  unfold settings_typed in Hs. rewrite Forall_forall in Hs. exact (Hs _ Ht).
Qed.

(** Read as its declared type, but for the null of a number that was not finite. *)
Lemma reads_as_cases ty v : reads_as ty v = true ->
  has_type ty v = true \/ (ty = TNumber /\ v = JNull) \/ (ty = TConfigs /\ reads_as TConfigs v = true).
Proof.
  destruct ty; [..|by right; right]; unfold reads_as, has_type, typed_by, stored_as; intros [H|H]%orb_true_iff;
    try (by left); try done. destruct v; try done. by right; left.
Qed.

(** A threshold that is not finite is kept by [num_or] and stored as null, which no comparison
    with a percentage passes over. *)
Lemma infinite_setting k w w' :
  alookup k Settings = Some TNumber -> setSetting k (JNum (S754_infinity false)) w = (Ok tt, w') ->
  getSetting k w' = (Ok JNull, w') /\ getSetting_num k w' = (Ok (num_of_Z 0), w').
Proof.
  intros Hk H. cbn in H. injection H as <-. unfold getSetting_num, getSetting, mbind, M_bind. cbn.
  rewrite alookup_aset. by split.
Qed.
End typed.
