(* ===== verification/Template.v ===== *)
(** * Template: [lib/template.ts], placeholder substitution in mail templates

    Both substitutions are one left-to-right pass: a value is never scanned again.  The
    conversion of old HTML signatures is in [Signature]. *)
From S2P Require Import Prelude Js.
From Stdlib Require Import Ascii.
Open Scope Z_scope.

(** [s.replace(/op(token)cl/g, f)] for a token whose characters differ from [op] and
    [cl]: [ok b c] says that [c] may follow the characters [b] of a token.  [pending] is the
    token read so far, after its [op]. *)
Section tokens.
Context (op cl : ascii) (ok : string -> ascii -> bool) (f : string -> string).

Fixpoint replace_tokens (pending : option string) (s : string) : string :=
  match s with
  | EmptyString => match pending with Some b => String op b | None => "" end
  | String c s' =>
      match pending with
      | None =>
          if Ascii.eqb c op then replace_tokens (Some "") s'
          else String c (replace_tokens None s')
      | Some b =>
          if Ascii.eqb c cl && truthy b then f b +:+ replace_tokens None s'
          else if ok b c then replace_tokens (Some (b +:+ String c "")) s'
          else String op b +:+
            (if Ascii.eqb c op then replace_tokens (Some "") s'
             else String c (replace_tokens None s'))
      end
  end.

(** The tokens [s.matchAll] yields. *)
Fixpoint find_tokens (pending : option string) (s : string) : list string :=
  match s with
  | EmptyString => []
  | String c s' =>
      match pending with
      | None => if Ascii.eqb c op then find_tokens (Some "") s' else find_tokens None s'
      | Some b =>
          if Ascii.eqb c cl && truthy b then b :: find_tokens None s'
          else if ok b c then find_tokens (Some (b +:+ String c "")) s'
          else if Ascii.eqb c op then find_tokens (Some "") s' else find_tokens None s'
      end
  end.
End tokens.

(** [\w] *)
Definition word_char (c : ascii) : bool := c_alnum c || Ascii.eqb c "_".

(** [/\{(\w+)\}/g]; an absent value has been coerced to the empty string. *)
Definition renderTemplate (template : string) (vars : list (string * string)) : string :=
  replace_tokens "{" "}" (fun _ => word_char)
    (fun key => match alookup key vars with Some v => v | None => "{" +:+ key +:+ "}" end)
    None template.

(** A bracketed token: a capital, then capitals, digits, blanks and [_/-]. *)
Definition bracket_char (b : string) (c : ascii) : bool :=
  if truthy b then c_upper c || c_digit c || c_of " _/-" c else c_upper c.

Definition extractBracketTokens (text : string) : list string :=
  dedup [] (find_tokens "[" "]" bracket_char None text).

Definition fillBracketTokens (text : string) (values : list (string * string)) : string :=
  replace_tokens "[" "]" bracket_char
    (fun t => match alookup t values with Some v => v | None => "[" +:+ t +:+ "]" end) None text.

(** [/\n*\s*—\s*Lab Manager\s*$/i]; the dash by the bytes of its encoding *)
Definition SIGNATURE_RE : re :=
  let ws := RStar (RChr is_space) in
  RSeq (RStar (RChr (Ascii.eqb "010"))) (RSeq ws (RSeq (rlit "—") (RSeq ws
    (RSeq (rlit_ci "Lab Manager") ws)))).

(** The leftmost suffix that matches is dropped. *)
Fixpoint strip_signature (s : string) : string :=
  if re_test SIGNATURE_RE s then ""
  else match s with String c s' => String c (strip_signature s') | EmptyString => "" end.

Definition stripLegacyEmailSignature (text : string) : string := trim_end (strip_signature text).

(** ** Substitution of a template given as its pieces *)

Inductive piece := PText (s : string) | PToken (key : string).

Section pieces.
Context (op cl : ascii) (ok : string -> ascii -> bool) (f : string -> string).
Context (op_cl : op <> cl).

(** Text without the opening character; a non-empty token of token characters. *)
Fixpoint token_chars (b key : string) : Prop :=
  match key with
  | EmptyString => True
  | String c key' => c <> cl /\ ok b c = true /\ token_chars (b +:+ String c "") key'
  end.
Definition piece_ok (p : piece) : Prop :=
  match p with
  | PText s => str_all (fun c => c <> op) s
  | PToken key => key <> "" /\ token_chars "" key
  end.

Definition source (p : piece) : string :=
  match p with PText s => s | PToken key => String op (key +:+ String cl "") end.
Definition rendered (p : piece) : string :=
  match p with PText s => s | PToken key => f key end.

Fixpoint concat (g : piece -> string) (l : list piece) : string :=
  match l with [] => "" | p :: l' => g p +:+ concat g l' end.

Lemma replace_text s t :
  str_all (fun c => c <> op) s ->
  replace_tokens op cl ok f None (s +:+ t) = s +:+ replace_tokens op cl ok f None t.
Proof.
  induction s as [|c s IH]; cbn; [done|]. intros [Hc Hs].
  rewrite (proj2 (Ascii.eqb_neq c op)) by done. by rewrite IH.
Qed.

Lemma replace_token key b t :
  token_chars b key -> b +:+ key <> "" ->
  replace_tokens op cl ok f (Some b) (key +:+ String cl t) =
  f (b +:+ key) +:+ replace_tokens op cl ok f None t.
Proof.
  revert b. induction key as [|c key IH]; intros b; cbn.
  - intros _ Hb. rewrite str_app_nil_r in *. rewrite Ascii.eqb_refl. cbn.
    unfold truthy. by rewrite (proj2 (String.eqb_neq b "")).
  - intros (Hc & Hok & Hkey) _. rewrite (proj2 (Ascii.eqb_neq c cl)) by done. cbn. rewrite Hok.
    assert ((b +:+ String c "") +:+ key = b +:+ String c key) as Ha.
    { clear. induction b as [|d b IH]; cbn; [done|]. by rewrite IH. }
    rewrite IH, Ha; [done|done|]. rewrite Ha. by destruct b.
Qed.

Lemma replace_pieces l :
  Forall piece_ok l ->
  replace_tokens op cl ok f None (concat source l) = concat rendered l.
Proof.
  induction 1 as [|p l Hp Hl IH]; [done|]. cbn [concat]. destruct p as [s|key]; cbn in Hp.
  - cbn [source rendered]. by rewrite replace_text, IH.
  - destruct Hp as [Hne Hkey]. cbn [source rendered]. cbn. rewrite Ascii.eqb_refl.
    replace ((key +:+ String cl "") +:+ concat source l) with (key +:+ String cl (concat source l))
      by (clear; induction key as [|d k IHk]; cbn; [done|by rewrite IHk]).
    rewrite replace_token by done. by rewrite IH.
Qed.
End pieces.

Lemma word_token_chars b key :
  str_all (fun c => word_char c = true) key -> token_chars "}" (fun _ => word_char) b key.
Proof.
  revert b. induction key as [|c key IH]; intros b; cbn; [done|]. intros [Hc Hk].
  split; [|split; [done|by apply IH]]. by intros ->.
Qed.

(** A template read as literal text (free of opening braces) and placeholders renders to
    the text with each known placeholder replaced by its value and each unknown one left as it
    was written; a value that itself looks like a placeholder is inserted verbatim, not
    substituted again. *)
Theorem renderTemplate_single_pass vars l :
  Forall (fun p => match p with
    | PText s => str_all (fun c => c <> "{"%char) s
    | PToken key => key <> "" /\ str_all (fun c => word_char c = true) key
    end) l ->
  renderTemplate (concat (source "{" "}") l) vars =
  concat (fun p => match p with
    | PText s => s
    | PToken key => match alookup key vars with Some v => v | None => "{" +:+ key +:+ "}" end
    end) l.
Proof.
  intros H. unfold renderTemplate. rewrite replace_pieces.
  - done.
  - eapply Forall_impl; [exact H|]. intros [s|key]; cbn; [done|].
    intros [Hne Hk]. split; [done|by apply word_token_chars].
Qed.

Lemma renderTemplate_single_pass_witness :
  renderTemplate "Hi {name}, port {port}" [("name", "{port}")] = "Hi {port}, port {port}".
Proof.
  apply (renderTemplate_single_pass [("name", "{port}")]
    [PText "Hi "; PToken "name"; PText ", port "; PToken "port"]).
  repeat constructor; try (intros [=]); cbn; intuition discriminate.
Defined.
