(* ===== verification/Signature.v ===== *)
(** * Signature: [legacySignatureHtmlToText] of [lib/template.ts]

    The one-off conversion of a mail signature that was HTML: each [replace] of the chain is a
    matcher of its pattern at the start of a string under one replacing loop.  A code point above
    U+00FF is written by the bytes of its encoding, as in the other texts of the program. *)
From S2P Require Import Prelude Js Template.
From Stdlib Require Import Ascii.
Open Scope Z_scope.

(** ** Replacing

    [s.replace(/r/g, f)] for a pattern without lookbehind: [m] is the match at the start of a
    string, as what replaces it and what is left; a match is never empty.  [skip] counts the
    characters of the last match that are still to pass. *)
Fixpoint gsub (m : string -> option (string * string)) (skip : nat) (s : string) : string :=
  match s with
  | EmptyString => ""
  | String c s' =>
      match skip with
      | S k => gsub m k s'
      | O => match m s with
             | Some (by_, rest) => by_ +:+ gsub m (String.length s' - String.length rest) s'
             | None => String c (gsub m 0 s')
             end
      end
  end.

(** The pieces of the patterns; none of them has a second way to match that could succeed. *)
Fixpoint drop_while (p : ascii -> bool) (s : string) : string :=
  match s with String c s' => if p c then drop_while p s' else s | EmptyString => "" end.
Fixpoint take_while (p : ascii -> bool) (s : string) : string :=
  match s with String c s' => if p c then String c (take_while p s') else "" | EmptyString => "" end.
(** A literal under the flag [i]. *)
Fixpoint eat (p s : string) : option string :=
  match p, s with
  | EmptyString, _ => Some s
  | String a p', String b s' => if Ascii.eqb (lower_char a) (lower_char b) then eat p' s' else None
  | _, EmptyString => None
  end.
Fixpoint first_some {A B} (f : A -> option B) (l : list A) : option B :=
  match l with [] => None | x :: l' => match f x with Some y => Some y | None => first_some f l' end end.
(** [\b] after a word character *)
Definition word_ends (s : string) : bool :=
  match s with String c _ => negb (word_char c) | EmptyString => true end.
Definition not_gt (c : ascii) : bool := negb (Ascii.eqb c ">").
Definition blank (c : ascii) : bool := c_of (String "009" " ") c.

(** [/<(script|style)\b[^>]*>[\s\S]*?<\/\1>/gi] *)
Fixpoint after_close (name s : string) : option string :=
  match eat ("</" +:+ name +:+ ">") s with
  | Some rest => Some rest
  | None => match s with String _ s' => after_close name s' | EmptyString => None end
  end.
Definition match_script (s : string) : option (string * string) :=
  first_some (fun name =>
    s ← eat ("<" +:+ name) s;
    if negb (word_ends s) then None
    else s ← eat ">" (drop_while not_gt s); rest ← after_close name s; Some ("", rest))
    ["script"; "style"].

(** [alt\s*=\s*(q)(.*?)\1[^>]*>] for a quote [q], single or double: the quoted text and what
    follows the tag.  Past the first closing quote the text can only grow when no [>] follows,
    and then it never matches. *)
Fixpoint quoted (q : ascii) (s : string) : option (string * string) :=
  match s with
  | EmptyString => None
  | String c s' =>
      if Ascii.eqb c q then s ← eat ">" (drop_while not_gt s'); Some ("", s)
      else if Ascii.eqb c "010" || Ascii.eqb c "013" then None
      else '(t, rest) ← quoted q s'; Some (String c t, rest)
  end.
Definition alt_here (s : string) : option (string * string) :=
  s ← eat "alt" s;
  s ← eat "=" (drop_while is_space s);
  match drop_while is_space s with
  | String q s => if Ascii.eqb q "034" || Ascii.eqb q "'" then quoted q s else None
  | EmptyString => None
  end.
(** [[^>]*\balt...]: the last [alt] of the tag that matches. *)
Fixpoint last_alt (prev : ascii) (s : string) : option (string * string) :=
  match s with
  | EmptyString => None
  | String c s' =>
      if Ascii.eqb c ">" then None
      else match last_alt c s' with
           | Some r => Some r
           | None => if word_char prev then None else alt_here s
           end
  end.
(** [/<img\b[^>]*\balt\s*=\s*(q)(.*?)\1[^>]*>/gi], to the text on a line of its own *)
Definition match_img (s : string) : option (string * string) :=
  s ← eat "<img" s;
  if negb (word_ends s) then None
  else '(t, rest) ← last_alt "g" s; Some (String "010" (t +:+ String "010" ""), rest).

(** [/<br\s*\/?\s*>/gi] and [/<\/(div|p|li|tr|h[1-6])\s*>/gi], to a line break *)
Definition match_br (s : string) : option (string * string) :=
  s ← eat "<br" s;
  let s := drop_while is_space s in
  let s := default s (eat "/" s) in
  rest ← eat ">" (drop_while is_space s);
  Some (String "010" "", rest).
Definition BLOCKS : list string := ["div"; "p"; "li"; "tr"; "h1"; "h2"; "h3"; "h4"; "h5"; "h6"].
Definition match_block (s : string) : option (string * string) :=
  first_some (fun name =>
    s ← eat ("</" +:+ name) s; rest ← eat ">" (drop_while is_space s); Some (String "010" "", rest)) BLOCKS.

(** [/<[^>]+>/g] *)
Definition match_tag (s : string) : option (string * string) :=
  s ← eat "<" s;
  match s with
  | String c s' => if Ascii.eqb c ">" then None else rest ← eat ">" (drop_while not_gt s'); Some ("", rest)
  | EmptyString => None
  end.

(** *** Character references *)

(** A character by its code point: above U+00FF by the bytes of its encoding. *)
Definition byte (n : Z) : ascii := ascii_of_N (Z.to_N n).
Definition fromCodePoint (n : Z) : string :=
  let tail k := byte (128 + Z.land (Z.shiftr n k) 63) in
  if n <? 256 then String (byte n) ""
  else if n <? 2048 then String (byte (192 + Z.shiftr n 6)) (String (tail 0) "")
  else if n <? 65536 then String (byte (224 + Z.shiftr n 12)) (String (tail 6) (String (tail 0) ""))
  else String (byte (240 + Z.shiftr n 18)) (String (tail 12) (String (tail 6) (String (tail 0) ""))).

Definition c_hex (c : ascii) : bool := c_digit c || in_range 97 102 (lower_char c).
Definition digit_of (c : ascii) : Z :=
  if c_digit c then Z.of_N (code c) - 48 else Z.of_N (code (lower_char c)) - 87.
Fixpoint parse_base (base acc : Z) (s : string) : Z :=
  match s with String c s' => parse_base base (acc * base + digit_of c) s' | EmptyString => acc end.

(** [namedEntities[entity.toLowerCase()]]: an entry, or a member every object inherits, which is
    rendered as JavaScript converts it to a string. *)
Definition namedEntities : list (string * string) :=
  [("amp", "&"); ("apos", "'"); ("gt", ">"); ("lt", "<"); ("nbsp", " "); ("quot", String "034" "");
   ("constructor", "function Object() { [native code] }"); ("__proto__", "[object Object]")].

Inductive entity := EHex (digits : string) | EDec (digits : string) | EName (name : string).
(** The whole reference, as it was written. *)
Definition reference (whole rest : string) : string := take_str (String.length whole - String.length rest) whole.
Definition decode (whole : string) (e : entity) : string :=
  let point n := if n <=? 1114111 then fromCodePoint n else whole in
  match e with
  | EHex ds => point (parse_base 16 0 ds)
  | EDec ds => point (parse_base 10 0 ds)
  | EName name => default whole (alookup (to_lower name) namedEntities)
  end.

(** [/&(#x[\da-f]+|#\d+|\w+);/gi] *)
Definition match_entity (s : string) : option (string * string) :=
  t ← eat "&" s;
  let read (start : string) (p : ascii -> bool) (mk : string -> entity) :=
    u ← eat start t;
    let ds := take_while p u in
    if negb (truthy ds) then None
    else rest ← eat ";" (drop_while p u); Some (decode (reference s rest) (mk ds), rest) in
  first_some (fun '(start, p, mk) => read start p mk)
    [("#x", c_hex, EHex); ("#", c_digit, EDec); ("", word_char, EName)].

(** *** Lines *)

(** [/[ \t]+\n/g], [/\n[ \t]+/g] and [/\n{3,}/g] *)
Definition match_blank_nl (s : string) : option (string * string) :=
  match s with
  | String c _ => if blank c then rest ← eat (String "010" "") (drop_while blank s); Some (String "010" "", rest) else None
  | EmptyString => None
  end.
Definition match_nl_blank (s : string) : option (string * string) :=
  t ← eat (String "010" "") s;
  match t with
  | String c _ => if blank c then Some (String "010" "", drop_while blank t) else None
  | EmptyString => None
  end.
Definition nl2 : string := String "010" (String "010" "").
Definition match_nls (s : string) : option (string * string) :=
  t ← eat (String "010" nl2) s; Some (nl2, drop_while (Ascii.eqb "010") t).

Definition strip_markup (html : string) : string :=
  gsub match_tag 0 (gsub match_block 0 (gsub match_br 0 (gsub match_img 0 (gsub match_script 0 html)))).
Definition tidy_lines (s : string) : string :=
  gsub match_nls 0 (gsub match_nl_blank 0 (gsub match_blank_nl 0 s)).
Definition legacySignatureHtmlToText (html : string) : string :=
  trim (tidy_lines (gsub match_entity 0 (strip_markup html))).


(** ** A signature written as markup

    The markup an editor produces: text with its special characters escaped, line breaks, and
    tags without attributes. *)

Inductive node := NText (s : string) | NBr (slash : bool) | NOpen (tag : string) | NClose (tag : string).

Definition INLINE : list string := ["b"; "i"; "strong"; "em"; "span"; "ul"; "table"].
Definition node_ok (n : node) : Prop :=
  match n with NOpen t | NClose t => t ∈ BLOCKS ++ INLINE | _ => True end.

Definition escape_char (c : ascii) : string :=
  if Ascii.eqb c "&" then "&amp;" else if Ascii.eqb c "<" then "&lt;" else if Ascii.eqb c ">" then "&gt;"
  else if Ascii.eqb c "034" then "&quot;" else if Ascii.eqb c "'" then "&apos;" else String c "".
Fixpoint escape_html (s : string) : string :=
  match s with String c s' => escape_char c +:+ escape_html s' | EmptyString => "" end.

Definition line_break : string := String "010" "".
Definition markup (n : node) : string :=
  match n with
  | NText s => escape_html s
  | NBr slash => if slash then "<br/>" else "<br>"
  | NOpen t => "<" +:+ t +:+ ">"
  | NClose t => "</" +:+ t +:+ ">"
  end.
(** What a reader sees of it. *)
Definition plain (n : node) : string :=
  match n with
  | NText s => s
  | NBr _ => line_break
  | NOpen _ => ""
  | NClose t => if bool_decide (t ∈ BLOCKS) then line_break else ""
  end.
Fixpoint document (f : node -> string) (l : list node) : string :=
  match l with [] => "" | n :: l' => f n +:+ document f l' end.

Lemma gsub_skip m p t : gsub m (String.length p) (p +:+ t) = gsub m 0 t.
Proof. induction p as [|c p IH]; [by destruct t|]. cbn. apply IH. Qed.

Lemma length_app_str (p t : string) : String.length (p +:+ t) = (String.length p + String.length t)%nat.
Proof. induction p as [|c p IH]; cbn; [done|]. by rewrite IH. Qed.

(** A match is replaced, and what follows it is scanned afresh. *)
Lemma gsub_hit m c p t by_ : m (String c (p +:+ t)) = Some (by_, t) ->
  gsub m 0 (String c (p +:+ t)) = by_ +:+ gsub m 0 t.
Proof.
  intros H. cbn [gsub]. rewrite H, length_app_str. f_equal. rewrite <- (gsub_skip m p t). f_equal. lia.
Qed.
Lemma gsub_miss m c t : m (String c t) = None -> gsub m 0 (String c t) = String c (gsub m 0 t).
Proof. intros H. cbn [gsub]. by rewrite H. Qed.

(** Stage by stage, node by node. *)
Lemma gsub_document m f g l :
  (forall n t, node_ok n -> gsub m 0 (f n +:+ t) = g n +:+ gsub m 0 t) -> Forall node_ok l ->
  gsub m 0 (document f l) = document g l.
Proof.
  intros H. induction 1 as [|n l Hn _ IH]; [done|]. cbn [document]. by rewrite H, IH.
Qed.

(** Patterns that start with a tag pass over text. *)
Definition tag_only (m : string -> option (string * string)) : Prop :=
  forall c t, c <> "<"%char -> m (String c t) = None.

Lemma eat_char c b p t : lower_char b <> lower_char c -> eat (String b p) (String c t) = None.
Proof. intros H. cbn. by rewrite (proj2 (Ascii.eqb_neq _ _) H). Qed.
Lemma eat_lt c p t : c <> "<"%char -> eat (String "<" p) (String c t) = None.
Proof. intros H. apply eat_char. intros E. apply H. revert E. by destruct c as [[] [] [] [] [] [] [] []]. Qed.

Lemma tags_only : Forall tag_only [match_script; match_img; match_br; match_block; match_tag].
Proof.
  repeat constructor; intros c t H.
  - unfold match_script. cbn [first_some]. change ("<" +:+ ?n) with (String "<" n). by rewrite !eat_lt.
  - unfold match_img. by rewrite eat_lt.
  - unfold match_br. by rewrite eat_lt.
  - unfold match_block. cbn [first_some BLOCKS]. change ("</" +:+ ?n) with (String "<" ("/" +:+ n)). by rewrite !eat_lt.
  - unfold match_tag. by rewrite eat_lt.
Qed.

Lemma escape_no_lt s : str_all (fun c => c <> "<"%char) (escape_html s).
Proof.
  induction s as [|c s IH]; [done|]. cbn [escape_html]. apply str_all_app. split; [|done].
  unfold escape_char. repeat (match goal with |- context [Ascii.eqb c ?d] => destruct (Ascii.eqb_spec c d) end; [repeat (split; [discriminate|]); done|]). cbn. by split.
Qed.

Lemma gsub_text m s t : tag_only m -> str_all (fun c => c <> "<"%char) s ->
  gsub m 0 (s +:+ t) = s +:+ gsub m 0 t.
Proof.
  intros Hm. induction s as [|c s IH]; [done|]. intros [Hc Hs]. cbn [String.app].
  rewrite gsub_miss by by apply Hm. cbn [String.app]. f_equal. by apply IH.
Qed.
Lemma gsub_keep m p t : tag_only m -> m (String "<" (p +:+ t)) = None -> str_all (fun c => c <> "<"%char) p ->
  gsub m 0 (String "<" p +:+ t) = String "<" p +:+ gsub m 0 t.
Proof. intros Hm Hn Hp. cbn [String.app]. rewrite gsub_miss by done. cbn [String.app]. f_equal. by apply gsub_text. Qed.

(** After [<br>], after the closing tags of blocks, after all tags. *)
Definition unbroken (n : node) : string := match n with NBr _ => line_break | _ => markup n end.
Definition unblocked (n : node) : string := match n with NClose _ => if truthy (plain n) then plain n else markup n | _ => unbroken n end.
Definition untagged (n : node) : string := match n with NText _ => markup n | _ => plain n end.

Ltac each_tag H := repeat (apply elem_of_cons in H as [->|H]); [..|by apply elem_of_nil in H].
Ltac stage m :=
  let n := fresh "n" in let t := fresh "t" in let H := fresh "H" in
  assert (tag_only m) as Htag by (pose proof tags_only as HT; rewrite Forall_forall in HT; apply HT; cbn; set_solver);
  intros n t H; destruct n as [s|[]|tag|tag]; cbn [markup unbroken unblocked untagged plain node_ok app BLOCKS INLINE] in H |- *;
  [by apply gsub_text, escape_no_lt| | |each_tag H|each_tag H];
  first [by apply gsub_keep; [done|reflexivity|repeat (split; [discriminate|])]
        |by apply (gsub_hit m "<")
        |by apply gsub_text].
Lemma stage_script n t : node_ok n -> gsub match_script 0 (markup n +:+ t) = markup n +:+ gsub match_script 0 t.
Proof. revert n t. stage match_script. Qed.
Lemma stage_img n t : node_ok n -> gsub match_img 0 (markup n +:+ t) = markup n +:+ gsub match_img 0 t.
Proof. revert n t. stage match_img. Qed.
Lemma stage_br n t : node_ok n -> gsub match_br 0 (markup n +:+ t) = unbroken n +:+ gsub match_br 0 t.
Proof. revert n t. stage match_br. Qed.
Lemma stage_block n t : node_ok n -> gsub match_block 0 (unbroken n +:+ t) = unblocked n +:+ gsub match_block 0 t.
Proof. revert n t. stage match_block. Qed.
Lemma stage_tag n t : node_ok n -> gsub match_tag 0 (unblocked n +:+ t) = untagged n +:+ gsub match_tag 0 t.
Proof. revert n t. stage match_tag. Qed.

Lemma entity_char c t : gsub match_entity 0 (escape_char c +:+ t) = String c (gsub match_entity 0 t).
Proof.
  unfold escape_char. repeat (match goal with |- context [Ascii.eqb c ?d] => destruct (Ascii.eqb_spec c d) as [->|] end).
  - by apply (gsub_hit match_entity "&" "amp;" t "&").
  - by apply (gsub_hit match_entity "&" "lt;" t "<").
  - by apply (gsub_hit match_entity "&" "gt;" t ">").
  - by apply (gsub_hit match_entity "&" "quot;" t (String "034" "")).
  - by apply (gsub_hit match_entity "&" "apos;" t "'").
  - apply (gsub_miss match_entity). unfold match_entity. rewrite eat_char; [done|].
    intros E. revert dependent c. by intros [[] [] [] [] [] [] [] []].
Qed.

Lemma stage_entity n t : node_ok n -> gsub match_entity 0 (untagged n +:+ t) = plain n +:+ gsub match_entity 0 t.
Proof.
  intros _. destruct n as [s| | |tag]; cbn [untagged plain markup]; [|done|done|by destruct (bool_decide _)].
  induction s as [|c s IH]; [done|]. cbn [escape_html]. by rewrite str_app_assoc, entity_char, IH.
Qed.

(** C39: the conversion of a signature that an editor wrote - escaped text, line breaks, and the
    tags of blocks and of common inline elements in any order, balanced or not - gives its visible
    text with a line for every break and every end of a block, tidied: every special character
    comes back, and no markup is left. *)
Theorem legacy_signature_text l : Forall node_ok l ->
  legacySignatureHtmlToText (document markup l) = trim (tidy_lines (document plain l)).
Proof.
  intros Hl. unfold legacySignatureHtmlToText, strip_markup.
  rewrite (gsub_document match_script _ _ l stage_script Hl), (gsub_document match_img _ _ l stage_img Hl),
    (gsub_document match_br _ _ l stage_br Hl), (gsub_document match_block _ _ l stage_block Hl),
    (gsub_document match_tag _ _ l stage_tag Hl), (gsub_document match_entity _ _ l stage_entity Hl).
  done.
Qed.

Lemma legacy_signature_text_witness :
  legacySignatureHtmlToText (document markup
    [NOpen "div"; NOpen "strong"; NText "Research & Compute"; NClose "strong"; NBr false; NText "<team@lab.edu>";
     NClose "div"; NBr true; NText "  'UGA' "]) =
  "Research & Compute" +:+ line_break +:+ "<team@lab.edu>" +:+ line_break +:+ line_break +:+ "'UGA'".
Proof.
  etransitivity; [apply (legacy_signature_text)|reflexivity].
  repeat (constructor; [cbn; first [exact I|apply (bool_decide_unpack _); reflexivity]|]). constructor.
Defined.
