(* ===== verification/Migrate.v ===== *)
(** * Migrate: the migrations of [lib/db.ts]

    The runner, and the functions and statements that rewrite rows.

    The connection is any state [S] on which [exec] runs SQL of some form [Q] and a migration's function any
    operation that may throw; the runner asks whether there is SQL and does not look into either.  [co_applied] is the table [_migrations]. *)
From S2P Require Import Prelude Js Schema Sql Template Signature.
From Stdlib Require Import Ascii.
Open Scope Z_scope.

Section migrate.
Context {PF : Platform} {S Q : Type} (sql_empty : Q -> bool) (exec : Q -> S -> result exn S).

Record Migration := mkMigration {
  mg_id : string; mg_sql : option Q; mg_fn : option (S -> result exn S) }.
Record Connection := mkConnection {
  co_state : S; co_applied : list (string * Z); co_ticks : nat }.

(** What a migration does to the database: its statements, then its function. *)
Definition mg_run (m : Migration) (s : S) : result exn S :=
  s' ← match mg_sql m with Some q => if sql_empty q then Ok s else exec q s | None => Ok s end;
  match mg_fn m with Some f => f s' | None => Ok s' end.

(** One migration in its transaction: a throw rolls it back. *)
Definition run_migration (m : Migration) : M Connection exn unit := fun c =>
  match mg_run m (co_state c) with
  | Throw e => (Throw e, c)
  | Ok s =>
      let now := clock (co_ticks c) in
      if bool_decide (mg_id m ∈ (co_applied c).*1)
      then (Throw (ESqlConstraint "_migrations"), mkConnection (co_state c) (co_applied c) (Datatypes.S (co_ticks c)))
      else (Ok tt, mkConnection s (co_applied c ++ [(mg_id m, now)]) (Datatypes.S (co_ticks c)))
  end.

Definition migrate (ms : list Migration) : M Connection exn unit :=
  c ← get;
  let applied := (co_applied c).*1 in
  for_each (fun m => if bool_decide (mg_id m ∈ applied) then mret tt else run_migration m) ms.

(** The migrations a start has to run. *)
Definition outstanding (ms : list Migration) (c : Connection) : list Migration :=
  filter (fun m => mg_id m ∉ (co_applied c).*1) ms.

(** Running operations in turn. *)
Fixpoint run_all (ms : list Migration) (s : S) : result exn S :=
  match ms with [] => Ok s | m :: ms' => s' ← mg_run m s; run_all ms' s' end.

Lemma run_all_app l k s s1 : run_all l s = Ok s1 -> run_all (l ++ k) s = run_all k s1.
Proof.
  revert s. induction l as [|m l IH]; intros s; cbn; [by intros [= ->]|].
  destruct (mg_run m s) as [s'|]; cbn; [apply IH|done].
Qed.

(** What a run leaves: the migrations [pre] of [out] ran, and the rest waits behind one that threw. *)
Record progress (out : list Migration) (c c' : Connection) (r : result exn unit) : Prop := {
  pg_split : exists pre post, out = pre ++ post /\ (co_applied c').*1 = (co_applied c).*1 ++ (mg_id <$> pre) /\
    run_all pre (co_state c) = Ok (co_state c') /\
    match r with
    | Ok _ => post = []
    | Throw e => exists m post', post = m :: post' /\ mg_run m (co_state c') = Throw e
    end }.

Lemma for_each_progress ms c0 c :
  NoDup (mg_id <$> ms) -> (forall m, m ∈ ms -> mg_id m ∉ (co_applied c0).*1 -> mg_id m ∉ (co_applied c).*1) ->
  let '(r, c') := for_each (fun m => if bool_decide (mg_id m ∈ (co_applied c0).*1) then mret tt else run_migration m) ms c in
  progress (outstanding ms c0) c c' r.
Proof.
  revert c. induction ms as [|m ms IH]; intros c Hnd Hc; cbn [for_each].
  { split. exists [], []. split_and!; [done|by rewrite app_nil_r|done|done]. }
  rewrite fmap_cons in Hnd. apply NoDup_cons in Hnd as [Hm Hnd].
  unfold outstanding. rewrite filter_cons. unfold mbind, M_bind. case_bool_decide as Ha.
  - rewrite decide_False by naive_solver. cbn. apply IH; [done|]. intros m' Hm'. apply Hc. by right.
  - rewrite decide_True by done. unfold run_migration. destruct (mg_run m (co_state c)) as [s|e] eqn:Hr.
    + rewrite bool_decide_eq_false_2 by (apply Hc; [by left|done]).
      set (c1 := mkConnection s _ _).
      specialize (IH c1 Hnd). destruct (for_each _ ms c1) as [r c'] eqn:Hf.
      destruct IH as [(pre & post & He & Hap & Hra & Hpost)].
      { intros m' Hm' Hn. cbn. rewrite fmap_app, not_elem_of_app. split; [apply Hc; [by right|done]|].
        cbn. intros Heq%list_elem_of_singleton. apply Hm. rewrite <- Heq. by apply list_elem_of_fmap_2. }
      split. exists (m :: pre), post. unfold outstanding in He. rewrite He. split; [done|].
      split; [by rewrite Hap; cbn; rewrite fmap_app, <- app_assoc|]. split; [|done]. cbn. by rewrite Hr.
    + split. exists [], (m :: outstanding ms c0). rewrite app_nil_r. split; [done|]. split; [done|]. split; [done|].
      by exists m, (outstanding ms c0).
Qed.

(** The database's schema is brought up to date step by step: a start runs exactly the migrations the
    table does not list, in their order, each recorded with its effect or not at all; when one
    throws, those before it stay applied and the next start resumes with it; and after a start
    that succeeded the next one changes nothing. *)
Theorem migrate_resumes ms c :
  NoDup (mg_id <$> ms) ->
  let '(r, c') := migrate ms c in
  progress (outstanding ms c) c c' r /\
  (exists pre, outstanding ms c = pre ++ outstanding ms c') /\
  (r = Ok tt -> outstanding ms c' = [] /\ migrate ms c' = (Ok tt, c')).
Proof.
  intros Hnd. unfold migrate, mbind, M_bind. cbn [get].
  pose proof (for_each_progress ms c c Hnd ltac:(auto)) as H.
  destruct (for_each _ ms c) as [r c']. split; [done|].
  destruct H as [(pre & post & He & Hap & Hra & Hpost)].
  assert (outstanding ms c' = post) as Hout.
  { assert (outstanding ms c' = filter (fun m => mg_id m ∉ mg_id <$> pre) (outstanding ms c)) as ->.
    { unfold outstanding. rewrite list_filter_filter. apply list_filter_iff. intros m.
      rewrite Hap, not_elem_of_app. naive_solver. }
    assert (NoDup (mg_id <$> pre ++ post)) as Hpp.
    { rewrite <- He. unfold outstanding. eapply sublist_NoDup; [exact Hnd|]. apply fmap_sublist, sublist_filter. }
    rewrite He, filter_app. rewrite fmap_app in Hpp. apply NoDup_app in Hpp as (_ & Hd & _).
    rewrite filter_none, filter_all; [done| |].
    - apply Forall_forall. intros m Hm Hin. apply (Hd _ Hin). by apply list_elem_of_fmap_2.
    - intros m Hm Hn. apply Hn. by apply list_elem_of_fmap_2. }
  split; [exists pre; by rewrite Hout|]. intros ->. subst post. split; [done|].
  assert (forall l, (forall m, m ∈ l -> m ∈ ms) ->
    for_each (fun m => if bool_decide (mg_id m ∈ (co_applied c').*1) then mret tt else run_migration m) l c' = (Ok tt, c')) as Hl;
    [|by apply Hl].
  induction l as [|m l IH]; intros Hin; cbn [for_each]; [done|].
  rewrite bool_decide_eq_true_2; [unfold mbind, M_bind; cbn; apply IH; intros m' Hm'; apply Hin; by right|].
  destruct (decide (mg_id m ∈ (co_applied c').*1)) as [|Hno]; [done|]. exfalso.
  assert (m ∈ outstanding ms c') as Hx by (apply list_elem_of_filter; split; [done|apply Hin; by left]).
  rewrite Hout in Hx. by apply elem_of_nil in Hx.
Qed.
End migrate.

(** ** The migrations that change data

    The functions of [MIGRATIONS] and the statements that rewrite rows, on the tables they read
    and write; what they do to the schema is in [Schema]. *)

(** [0014_normalize_emails]: [lower(trim(email))] as SQLite computes it, on ASCII letters and
    blanks only.  Every row is checked against the unique index as it is written. *)
Fixpoint sql_trim_start (s : string) : string :=
  match s with String c s' => if Ascii.eqb c " " then sql_trim_start s' else s | EmptyString => "" end.
Fixpoint sql_trim_end (s : string) : string :=
  match s with
  | String c s' => match sql_trim_end s' with
                   | EmptyString => if Ascii.eqb c " " then "" else String c ""
                   | t => String c t
                   end
  | EmptyString => ""
  end.
Definition sql_lower_char (c : ascii) : ascii := if c_upper c then ascii_of_N (code c + 32) else c.
Fixpoint sql_lower (s : string) : string :=
  match s with
  | String c s' => String (sql_lower_char c) (sql_lower s')
  | EmptyString => ""
  end.
Definition sql_email (s : string) : string := sql_lower (sql_trim_end (sql_trim_start s)).

Fixpoint update_unique (before after : list AdminRow) : result exn (list AdminRow) :=
  match after with
  | [] => Ok before
  | a :: after' =>
      let e := sql_email (ad_email a) in
      if String.eqb e (ad_email a) then update_unique (before ++ [a]) after'
      else if bool_decide (e ∈ ad_email <$> before ++ after') then Throw (ESqlConstraint "admins")
      else update_unique (before ++ [a <| ad_email := e |>]) after'
  end.
Definition normalize_emails (d : Db) : result exn Db :=
  l ← update_unique [] (rows (admins d));
  Ok (d <| admins := mkTable l (last_id (admins d)) |>
        <| students ::= tbl_map (fun s => s <| s_email := sql_email <$> s_email s |>) |>).

Section data.
Context {PF : Platform}.

(** [0009_redesign_placements]: refused while the old tables hold anything. *)
Definition redesign_guard (labs nodes students : nat) : result exn unit :=
  if (0 <? labs + nodes + students)%nat then Throw EUpgradeRefused else Ok tt.

(** [0011_node_hmac_tokens]: no token of before is accepted. *)
Definition node_hmac_tokens (d : Db) : Db :=
  d <| nodes ::= tbl_map (fun n => n <| n_token_hash := None |>) |>.

(** [0017_announcement_templates], [0022_system_intro_template] *)
Definition lines (l : list string) : string := join (String "010" "") l.
Definition SEED_TEMPLATES : list (string * string * string) :=
  [("Scheduled maintenance", "Scheduled maintenance on [DATE]", lines
     ["Hello {name},"; "";
      "The lab cluster will be unavailable for scheduled maintenance on [DATE] from [START] to [END] ([TIMEZONE])."; "";
      "Please save your work and log out before the window begins. Long-running jobs should be checkpointed or paused — anything still running may be interrupted."; "";
      "We'll email again once everything is back online."]);
   ("Storage cleanup request", "Action needed: free up storage in your lab", lines
     ["Hello {name},"; "";
      "Storage on the cluster is running low. Please review your home and cold-storage directories and remove anything you no longer need."; "";
      "You can check your usage by logging in and running:"; "    du -sh ~ ~/cold-storage"; "";
      "Thanks for helping keep the cluster healthy."])].
Definition insert_template (t : string * string * string) (sort : Z) (d : Db) : Db :=
  d <| announcement_templates ::= tbl_insert (fun i => mkAnnouncementTemplate i t.1.1 t.1.2 t.2 sort) |>.
Definition announcement_templates_seed (d : Db) : Db :=
  fold_left (fun d t => insert_template t.2 (Z.of_nat t.1) d) (imap pair SEED_TEMPLATES)
    (d <| announcement_templates := empty_table |>).
Definition INTRO_TEMPLATE : string * string * string :=
  ("System introduction", "Welcome to the lab cluster", lines
     ["Hello {name},"; "";
      "A quick introduction to the lab cluster you have access to. It gives every research lab its own isolated Ubuntu environment on shared GPU nodes: you connect over SSH, keep full sudo inside your lab, and get CUDA build tooling plus two storage areas — a fast home directory (~) for working data and ~/cold-storage for data you rarely touch."; "";
      "Full details, including the student guide covering connections, SSH keys, and day-to-day usage, are on GitHub:"; "";
      "    https://github.com/EC061/docker-mass-deployment"; "";
      "If you have questions, reply to this email and {sender} ({sender_email}) will get back to you."]).
(** [COALESCE(MAX(sort), -1)] *)
Definition max_sort (l : list AnnouncementTemplateRow) : Z :=
  match l with [] => -1 | t :: l' => fold_left Z.max (at_sort <$> l') (at_sort t) end.
Definition system_intro_template (d : Db) : Db :=
  insert_template INTRO_TEMPLATE (max_sort (rows (announcement_templates d)) + 1) d.

(** [0018_universal_email_signature] *)
Definition SIGNED_BODIES : list string :=
  ["welcomeEmailBody"; "gpuWarnEmailBody"; "gpuKillEmailBody"; "removalEmailBody"; "quotaEmailBody"; "testEmailBody"].
Definition unsign (s : list (string * text)) (key : string) : list (string * text) :=
  match alookup key s ≫= json_parse with
  | Some (JStr body) =>
      let clean := stripLegacyEmailSignature body in
      if String.eqb clean body then s else aset key (TJson (JStr clean)) s
  | _ => s
  end.
Definition universal_email_signature (d : Db) : Db :=
  d <| settings ::= fun s => fold_left unsign SIGNED_BODIES s |>.

(** [0019_plain_text_email_signature]: the text is kept where there is one. *)
Definition plain_text_email_signature (d : Db) : Db :=
  let s := settings d in
  let s := match alookup "emailSignatureHtml" s ≫= json_parse with
           | Some (JStr html) =>
               if is_some (alookup "emailSignatureText" s) then s
               else aset "emailSignatureText" (TJson (JStr (legacySignatureHtmlToText html))) s
           | _ => s
           end in
  d <| settings := filter (fun kv => kv.1 <> "emailSignatureHtml") s |>.

(** [0020_student_linux_uid]: the accounts there are get the first numbers, in the order of their
    ids. *)
Definition set_uids (start : Z) (ids : list Z) (l : list StudentRow) : list StudentRow :=
  fold_left (fun l '(index, id) => update_where (fun s => s_id s = id) (fun s => s <| s_linux_uid := start + Z.of_nat index |>) l)
    (imap pair ids) l.
Definition student_linux_uid (d : Db) : result exn Db :=
  let ids := sort_by Z.leb (s_id <$> rows (students d)) in
  if 50000 <? Z.of_nat (length ids) then Throw EUidExhausted
  else Ok (d <| students ::= fun t => mkTable (set_uids UID_MIN ids (rows t)) (last_id t) |>).
End data.

(** ** What they do *)

Lemma sql_trim_end_head s c t : sql_trim_end s = String c t -> exists t', s = String c t'.
Proof.
  destruct s as [|d s]; [done|]. cbn. destruct (sql_trim_end s); [destruct (Ascii.eqb d " "); [done|]|];
    intros [= -> _]; eauto.
Qed.
Lemma sql_trim_end_idem s : sql_trim_end (sql_trim_end s) = sql_trim_end s.
Proof.
  induction s as [|c s IH]; [done|]. cbn. destruct (sql_trim_end s) as [|d t] eqn:Ht.
  - destruct (Ascii.eqb c " ") eqn:Hc; [done|]. cbn. by rewrite Hc.
  - cbn [sql_trim_end] in IH |- *. by rewrite IH.
Qed.
Lemma sql_trim_start_head s c t : sql_trim_start s = String c t -> Ascii.eqb c " " = false.
Proof. induction s as [|d s IH]; [done|]. cbn. destruct (Ascii.eqb d " ") eqn:Hd; [done|]. by intros [= <- <-]. Qed.
Lemma sql_trim_idem s :
  sql_trim_end (sql_trim_start (sql_trim_end (sql_trim_start s))) = sql_trim_end (sql_trim_start s).
Proof.
  destruct (sql_trim_end (sql_trim_start s)) as [|c t] eqn:Ht; [done|].
  destruct (sql_trim_end_head _ _ _ Ht) as [t' Hs]. cbn [sql_trim_start].
  rewrite (sql_trim_start_head _ _ _ Hs), <- Ht. apply sql_trim_end_idem.
Qed.

Lemma sql_lower_char_idem c : sql_lower_char (sql_lower_char c) = sql_lower_char c.
Proof. by destruct c as [[] [] [] [] [] [] [] []]. Qed.
Lemma sql_lower_char_blank c : Ascii.eqb (sql_lower_char c) " " = Ascii.eqb c " ".
Proof. by destruct c as [[] [] [] [] [] [] [] []]. Qed.
Lemma sql_lower_idem s : sql_lower (sql_lower s) = sql_lower s.
Proof. induction s as [|c s IH]; [done|]. cbn [sql_lower]. by rewrite IH, sql_lower_char_idem. Qed.
Lemma sql_lower_trim_start s : sql_trim_start (sql_lower s) = sql_lower (sql_trim_start s).
Proof.
  induction s as [|c s IH]; [done|]. cbn [sql_lower sql_trim_start]. rewrite (sql_lower_char_blank c).
  by destruct (Ascii.eqb c " ").
Qed.
Lemma sql_lower_trim_end s : sql_trim_end (sql_lower s) = sql_lower (sql_trim_end s).
Proof.
  induction s as [|c s IH]; [done|]. cbn [sql_lower sql_trim_end]. rewrite IH, (sql_lower_char_blank c).
  destruct (sql_trim_end s); [by destruct (Ascii.eqb c " ")|done].
Qed.
#[local] Arguments sql_email : simpl never.
Lemma sql_email_idem s : sql_email (sql_email s) = sql_email s.
Proof.
  unfold sql_email. by rewrite sql_lower_trim_start, sql_lower_trim_end, sql_lower_idem, sql_trim_idem.
Qed.

Definition norm_admin (a : AdminRow) : AdminRow := a <| ad_email := sql_email (ad_email a) |>.
Definition finals (l : list AdminRow) : list string := sql_email <$> (ad_email <$> l).

Lemma finals_norm before a after : finals ((before ++ [norm_admin a]) ++ after) = finals (before ++ a :: after).
Proof. unfold finals. rewrite <- app_assoc, !fmap_app. cbn. by rewrite sql_email_idem. Qed.

Lemma clash before a after x :
  x ∈ before ++ after -> sql_email (ad_email x) = sql_email (ad_email a) -> ~ NoDup (finals (before ++ a :: after)).
Proof.
  intros Hx He Hnd.
  assert (finals (before ++ a :: after) ≡ₚ sql_email (ad_email a) :: finals (before ++ after)) as Hp.
  { unfold finals. by rewrite <- Permutation_middle. }
  rewrite Hp in Hnd. apply NoDup_cons in Hnd as [Hn _]. apply Hn. unfold finals. rewrite <- list_fmap_compose, <- He.
  by apply (list_elem_of_fmap_2 (fun y => sql_email (ad_email y))).
Qed.

Lemma update_unique_spec after : forall before,
  NoDup (ad_email <$> before ++ after) -> Forall (fun a => norm_admin a = a) before ->
  update_unique before after =
    if decide (NoDup (finals (before ++ after))) then Ok (before ++ (norm_admin <$> after))
    else Throw (ESqlConstraint "admins").
Proof.
  induction after as [|a after IH]; intros before Hnd Hb; cbn [update_unique].
  - change (norm_admin <$> []) with (@nil AdminRow). rewrite !app_nil_r in *. rewrite decide_True; [done|].
    unfold finals.
    assert (sql_email <$> (ad_email <$> before) = ad_email <$> before) as ->; [|done].
    rewrite <- list_fmap_compose. apply list_fmap_ext. intros i x Hx%list_elem_of_lookup_2.
    rewrite Forall_forall in Hb. exact (f_equal ad_email (Hb x Hx)).
  - cbv zeta. destruct (String.eqb_spec (sql_email (ad_email a)) (ad_email a)) as [He|He].
    + assert (norm_admin a = a) as Ha by (unfold norm_admin; rewrite He; by destruct a).
      rewrite (IH (before ++ [a])); [|by rewrite <- app_assoc|by apply Forall_app; split; [done|by constructor]].
      rewrite <- !app_assoc. cbn [app]. by rewrite fmap_cons, Ha.
    + case_bool_decide as Hin.
      * apply list_elem_of_fmap in Hin as (x & Hx & Hin). rewrite decide_False; [done|].
        apply (clash _ _ _ x); [done|]. by rewrite <- Hx, sql_email_idem.
      * fold (norm_admin a). rewrite (IH (before ++ [norm_admin a])), finals_norm, <- app_assoc; [done| |].
        -- rewrite <- app_assoc. revert Hnd Hin. rewrite !fmap_app, fmap_cons. cbn [app fmap list_fmap].
           rewrite <- !Permutation_middle, !NoDup_cons. tauto.
        -- apply Forall_app. split; [done|]. constructor; [|done]. unfold norm_admin. cbn. by rewrite sql_email_idem.
Qed.

(** The emails migration succeeds exactly when no two administrators' normalised addresses
    agree; then every address is normalised and nothing else of the accounts changes; otherwise it
    is refused as a whole. *)
Theorem normalize_emails_spec d : NoDup (ad_email <$> rows (admins d)) ->
  normalize_emails d =
    if decide (NoDup (finals (rows (admins d))))
    then Ok (d <| admins ::= tbl_map norm_admin |>
               <| students ::= tbl_map (fun s => s <| s_email := sql_email <$> s_email s |>) |>)
    else Throw (ESqlConstraint "admins").
Proof.
  intros Hnd. unfold normalize_emails. rewrite (update_unique_spec _ []) by done. cbn [app].
  by case_decide.
Qed.

(** On ASCII text whose only white space is the blank SQLite normalises an address as the program
    does; a tab or a no-break space at an end is left by the one and dropped by the other. *)
Definition plain_address (c : ascii) : Prop := in_range 128 255 c = false /\ (is_space c = true -> c = " "%char).

Lemma blank_space c : plain_address c -> is_space c = Ascii.eqb c " ".
Proof.
  intros [_ Hc]. destruct (Ascii.eqb_spec c " ") as [->|Hne]; [done|].
  destruct (is_space c); [|done]. by destruct Hne, Hc.
Qed.
Theorem sql_email_normalizes e : str_all plain_address e -> sql_email e = to_lower (trim e).
Proof.
  intros He. unfold sql_email, trim.
  assert (forall s, str_all plain_address s -> sql_trim_start s = trim_start s /\ str_all plain_address (trim_start s)) as Hst.
  { induction s as [|c s IH]; [done|]. intros [Hc Hs]. cbn. rewrite (blank_space c Hc).
    destruct (Ascii.eqb c " "); [by apply IH|done]. }
  assert (forall s, str_all plain_address s -> sql_trim_end s = trim_end s /\ str_all plain_address (trim_end s)) as Hen.
  { induction s as [|c s IH]; [done|]. intros [Hc Hs]. destruct (IH Hs) as [E Hp]. cbn. rewrite E, (blank_space c Hc).
    destruct (trim_end s); [by destruct (Ascii.eqb c " ")|done]. }
  destruct (Hst e He) as [-> H1]. destruct (Hen _ H1) as [-> H2]. revert H2.
  induction (trim_end (trim_start e)) as [|c s IH]; [done|]. intros [[Hc _] Hs]. cbn. rewrite IH by done. f_equal.
  revert Hc. by destruct c as [[] [] [] [] [] [] [] []].
Qed.
Example tab_kept : sql_email (String "009" "a") <> to_lower (trim (String "009" "a")).
Proof. by vm_compute. Qed.

(** *** Numbers for the accounts *)

Definition assigned (start : Z) (ps : list (nat * Z)) (s : StudentRow) : StudentRow :=
  match get_row (fun p => p.2 = s_id s) ps with
  | Some p => s <| s_linux_uid := start + Z.of_nat p.1 |>
  | None => s
  end.

Lemma fold_assigned start ps : forall l, NoDup ps.*2 ->
  fold_left (fun l '(index, id) => update_where (fun s => s_id s = id) (fun s => s <| s_linux_uid := start + Z.of_nat index |>) l)
    ps l = assigned start ps <$> l.
Proof.
  induction ps as [|[k i] ps IH]; intros l Hnd; cbn [fold_left].
  - symmetry. apply list_fmap_id.
  - rewrite fmap_cons in Hnd. apply NoDup_cons in Hnd as [Hi Hnd]. rewrite IH by done.
    unfold update_where. rewrite <- list_fmap_compose. apply list_fmap_ext. intros j s _. cbn.
    unfold assigned. cbn -[get_row]. unfold get_row at 2, select. rewrite filter_cons. cbn.
    destruct (decide (s_id s = i)) as [E|Hne].
    + rewrite decide_True by done. cbn. rewrite (proj2 (get_row_None _ ps)); [done|].
      intros p Hp Heq. cbn in Heq. apply Hi. cbn. rewrite <- E, <- Heq. by apply (list_elem_of_fmap_2 snd).
    + by rewrite decide_False by done.
Qed.

Lemma sorted_index (l : list Z) (j k : nat) x y : StronglySorted (fun a b => (a <=? b) = true) l ->
  l !! j = Some x -> l !! k = Some y -> x < y -> (j < k)%nat.
Proof.
  intros Hs. revert j k. induction Hs as [|z l Hs IH Hz]; intros [|j] [|k] Hj Hk Hlt; cbn in *; simplify_eq; try lia.
  - apply list_elem_of_lookup_2 in Hj. rewrite Forall_forall in Hz. specialize (Hz x Hj). lia.
  - specialize (IH j k Hj Hk Hlt). lia.
Qed.

(** The accounts there are get distinct numbers of the range in the order of their ids, and
    nothing else of them changes; there is no other outcome up to fifty thousand accounts. *)
Theorem student_linux_uid_spec d :
  NoDup (s_id <$> rows (students d)) -> Z.of_nat (length (rows (students d))) <= 50000 ->
  exists l, student_linux_uid d = Ok (d <| students ::= fun t => mkTable l (last_id t) |>) /\
    (exists uid, l = (fun s => s <| s_linux_uid := uid s |>) <$> rows (students d)) /\
    Forall (fun s => UID_MIN <= s_linux_uid s <= UID_MAX) l /\
    (forall s t, s ∈ l -> t ∈ l -> s_id s < s_id t -> s_linux_uid s < s_linux_uid t).
Proof.
  intros Hnd Hlen. set (ids := sort_by Z.leb (s_id <$> rows (students d))).
  assert (NoDup ids) as Hids by (unfold ids; by rewrite sort_by_perm).
  assert ((imap pair ids).*2 = ids) as Hsnd.
  { rewrite fmap_imap. cbn. etransitivity; [apply (imap_const id)|apply list_fmap_id]. }
  unfold student_linux_uid. fold ids. cbv zeta.
  assert (length ids = length (rows (students d))) as Hl by (unfold ids; by rewrite length_sort_by, length_fmap).
  rewrite (proj2 (Z.ltb_ge _ _)) by lia.
  exists (set_uids UID_MIN ids (rows (students d))). split; [done|].
  unfold set_uids. rewrite fold_assigned by by rewrite Hsnd.
  assert (forall s, s ∈ rows (students d) -> exists k, ids !! k = Some (s_id s) /\
    assigned UID_MIN (imap pair ids) s = s <| s_linux_uid := UID_MIN + Z.of_nat k |>) as Hat.
  { intros s Hs. unfold assigned.
    assert (s_id s ∈ ids) as [k Hk]%list_elem_of_lookup
      by (unfold ids; rewrite elem_of_sort_by; by apply (list_elem_of_fmap_2 s_id)).
    rewrite (get_row_unique _ snd (k, s_id s)); [by exists k|by rewrite Hsnd| |done|by intros p _ ->].
    apply list_elem_of_lookup. exists k. by rewrite list_lookup_imap, Hk. }
  split_and!.
  - exists (fun s => s_linux_uid (assigned UID_MIN (imap pair ids) s)). apply list_fmap_ext.
    intros i s Hs%list_elem_of_lookup_2. destruct (Hat s Hs) as (k & _ & ->). by destruct s.
  - apply Forall_fmap, Forall_forall. intros s Hs. destruct (Hat s Hs) as (k & Hk%lookup_lt_Some & E).
    cbn. rewrite E. cbn. unfold UID_MIN, UID_MAX. lia.
  - intros s' t' (s & -> & Hs)%list_elem_of_fmap (t & -> & Ht)%list_elem_of_fmap.
    destruct (Hat s Hs) as (j & Hj & ->), (Hat t Ht) as (k & Hk & ->). cbn. intros Hlt.
    assert (StronglySorted (fun a b => (a <=? b) = true) ids) as Hsort by (apply sort_by_sorted; intros *; rewrite !Z.leb_le; lia).
    pose proof (sorted_index ids j k _ _ Hsort Hj Hk Hlt). lia.
Qed.

(** *** The signatures *)

Lemma alookup_without {A} key k (s : list (string * A)) :
  alookup k (filter (fun kv => kv.1 <> key) s) = if decide (k = key) then None else alookup k s.
Proof.
  induction s as [|[k' v] s IH]; [by case_decide|]. destruct (decide (k' = key)) as [->|Hk].
  - rewrite filter_cons_False by (by intros H; apply H). rewrite IH. case_decide as H; [done|]. cbn.
    by rewrite (proj2 (String.eqb_neq _ _) H).
  - rewrite filter_cons_True by done. cbn [alookup]. destruct (String.eqb_spec k k') as [->|]; [by rewrite decide_False|done].
Qed.

Section signatures.
Context {PF : Platform}.

(** The value of a mail body after the migration. *)
Definition unsigned (o : option text) : option text :=
  match o ≫= json_parse with
  | Some (JStr body) =>
      if String.eqb (stripLegacyEmailSignature body) body then o else Some (TJson (JStr (stripLegacyEmailSignature body)))
  | _ => o
  end.

Lemma unsign_lookup s key k :
  alookup k (unsign s key) = if decide (k = key) then unsigned (alookup k s) else alookup k s.
Proof.
  unfold unsign, unsigned. destruct (decide (k = key)) as [->|Hne].
  - destruct (alookup key s) as [t|] eqn:Ht; cbn; [|done].
    destruct (json_parse t) as [[| | |b| |]|]; try done. destruct (String.eqb _ b); [done|]. by rewrite alookup_aset.
  - destruct (alookup key s ≫= json_parse) as [[| | |b| |]|]; try done. destruct (String.eqb _ b); [done|].
    by rewrite alookup_aset_ne.
Qed.

Lemma unsigned_lookup keys k : forall s, NoDup keys ->
  alookup k (fold_left unsign keys s) = if decide (k ∈ keys) then unsigned (alookup k s) else alookup k s.
Proof.
  induction keys as [|key keys IH]; intros s Hnd; cbn [fold_left]; [done|].
  apply NoDup_cons in Hnd as [Hkey Hnd]. rewrite IH, unsign_lookup by done.
  destruct (decide (k = key)) as [->|Hne].
  - rewrite decide_False by done. by rewrite decide_True by left.
  - destruct (decide (k ∈ keys)) as [Hin|Hin]; [by rewrite decide_True by (by right)|].
    rewrite decide_False; [done|]. by intros [?|?]%elem_of_cons.
Qed.

(** After the two migrations of the mail signature no setting holds markup: the old setting is
    gone, its text is the new one unless there was one already, the mail bodies have lost the
    footer they ended in, and every other setting is as it was. *)
Theorem email_signature_migrated d :
  let s := settings d in
  let s' := settings (plain_text_email_signature (universal_email_signature d)) in
  alookup "emailSignatureHtml" s' = None /\
  alookup "emailSignatureText" s' =
    match alookup "emailSignatureText" s, alookup "emailSignatureHtml" s ≫= json_parse with
    | None, Some (JStr html) => Some (TJson (JStr (legacySignatureHtmlToText html)))
    | o, _ => o
    end /\
  (forall k, k ∈ SIGNED_BODIES -> alookup k s' = unsigned (alookup k s)) /\
  (forall k, k ∉ "emailSignatureHtml" :: "emailSignatureText" :: SIGNED_BODIES -> alookup k s' = alookup k s).
Proof.
  cbv zeta. set (s := settings d).
  set (s1 := fold_left unsign SIGNED_BODIES s).
  assert (forall k, alookup k s1 = if decide (k ∈ SIGNED_BODIES) then unsigned (alookup k s) else alookup k s) as H1.
  { intros k. apply unsigned_lookup. apply (bool_decide_unpack _). reflexivity. }
  assert (alookup "emailSignatureHtml" s1 = alookup "emailSignatureHtml" s) as Hh by (by rewrite H1).
  assert (alookup "emailSignatureText" s1 = alookup "emailSignatureText" s) as Ht by (by rewrite H1).
  change (settings (plain_text_email_signature (universal_email_signature d))) with
    (filter (fun kv : string * text => kv.1 <> "emailSignatureHtml")
      match alookup "emailSignatureHtml" s1 ≫= json_parse with
      | Some (JStr html) =>
          if is_some (alookup "emailSignatureText" s1) then s1
          else aset "emailSignatureText" (TJson (JStr (legacySignatureHtmlToText html))) s1
      | _ => s1
      end).
  rewrite Hh, Ht. set (s2 := match _ with Some _ => _ | None => _ end).
  assert (forall k, k <> "emailSignatureText" -> alookup k s2 = alookup k s1) as H2.
  { intros k Hk. subst s2. destruct (alookup "emailSignatureHtml" s ≫= json_parse) as [[| | |html| |]|]; try done.
    destruct (alookup "emailSignatureText" s); [done|]. by rewrite alookup_aset_ne. }
  split; [by rewrite alookup_without|]. split; [|split].
  - rewrite alookup_without. cbn [decide]. rewrite decide_False by done. subst s2.
    destruct (alookup "emailSignatureText" s) as [t|] eqn:Het;
      destruct (alookup "emailSignatureHtml" s ≫= json_parse) as [[| | |html| |]|]; rewrite ?Ht; try done.
    by rewrite alookup_aset.
  - assert ("emailSignatureHtml" ∉ SIGNED_BODIES /\ "emailSignatureText" ∉ SIGNED_BODIES) as [Nh Nt]
      by (split; apply (bool_decide_unpack _); reflexivity).
    intros k Hk. by rewrite alookup_without, decide_False, H2, H1, decide_True by (done || by intros ->).
  - intros k Hk. rewrite !not_elem_of_cons in Hk. destruct Hk as (Hk1 & Hk2 & Hk3).
    by rewrite alookup_without, decide_False, H2, H1, decide_False.
Qed.
End signatures.
