(* ===== verification/Format.v ===== *)
(** * Format: [lib/format.ts], byte counts, durations and percentages as the program shows them *)
From S2P Require Import Prelude Js Schema Sql.
Open Scope Z_scope.

Definition MB : Z := 1024 ^ 2.
Definition GB : Z := 1024 ^ 3.
Definition TB : Z := 1024 ^ 4.

(** [v.toFixed(f)], [v] finite and below 10^21 in magnitude: the nearest multiple of 10^-f. *)
Definition fixed_digits (f : Z) (x : num) : Z :=
  match x with
  | S754_finite _ m e =>
      let n := Z.pos m * 10 ^ f in
      if e <? 0 then (2 * n + 2 ^ (- e)) / 2 ^ (1 - e) else n * 2 ^ e
  | _ => 0
  end.
Definition num_neg (x : num) : bool :=
  match x with S754_finite s _ _ => s | S754_infinity s => s | _ => false end.
Definition pad_zeros (n : nat) (s : string) : string :=
  (fix go k := match k with O => s | S k' => "0" +:+ (go k') end)
    (n - String.length s)%nat.
Definition toFixed (f : nat) (x : num) : string :=
  let d := fixed_digits (Z.of_nat f) x in
  let k := 10 ^ Z.of_nat f in
  (if num_neg x then "-" else "") +:+ string_of_Z (d / k) +:+
  (if (f =? 0)%nat then "" else "." +:+ pad_zeros f (string_of_Z (d mod k))).

(** [while (v >= 1024 && i < units.length - 1)]: the units that are left bound the loop. *)
Fixpoint fmt_units (v : num) (unit : string) (rest : list string) (first : bool) : string :=
  match rest with
  | u :: rest' =>
      if num_leb (num_of_Z 1024) v then fmt_units (num_div v (num_of_Z 1024)) u rest' false
      else toFixed (if num_leb (num_of_Z 100) v || first then 0%nat else 1%nat) v +:+ " " +:+ unit
  | [] => toFixed (if num_leb (num_of_Z 100) v || first then 0%nat else 1%nat) v +:+ " " +:+ unit
  end.

Definition fmtBytes (n : option num) : string :=
  match n with
  | None => "—"
  | Some v => fmt_units v "B" ["KB"; "MB"; "GB"; "TB"; "PB"] true
  end.
Definition fmtBytesZ (n : Z) : string := fmtBytes (Some (num_of_Z n)).

Inductive QuotaUnit := UMB | UGB | UTB.
Definition QUOTA_UNIT_BYTES (u : QuotaUnit) : Z := match u with UMB => MB | UGB => GB | UTB => TB end.

(** Rounded to three decimals. *)
Definition bytesToQuotaInput (bytes : num) : num * QuotaUnit :=
  let unit := if num_leb (num_of_Z TB) bytes then UTB
              else if num_leb (num_of_Z GB) bytes then UGB else UMB in
  (num_div (num_round (num_mul (num_div bytes (num_of_Z (QUOTA_UNIT_BYTES unit))) (num_of_Z 1000)))
     (num_of_Z 1000), unit).

Definition ago `{HK : Honker, PF : Platform} (ts : option Z) : Act string :=
  match ts with
  | None => mret "never"
  | Some t =>
      if t =? 0 then mret "never"
      else
        now ← date_now;
        let s := (now - t) / 1000 in
        mret (if s <? 60 then string_of_Z s +:+ "s ago"
              else if s <? 3600 then string_of_Z (s / 60) +:+ "m ago"
              else if s <? 86400 then string_of_Z (s / 3600) +:+ "h ago"
              else string_of_Z (s / 86400) +:+ "d ago")
  end.

(** A whole number of seconds. *)
Definition fmtDuration (seconds : option Z) : string :=
  match seconds with
  | None => "—"
  | Some s =>
      if s <? 0 then "—"
      else if s <? 60 then string_of_Z s +:+ "s"
      else if s <? 3600 then string_of_Z (s / 60) +:+ "m"
      else if s <? 86400 then
        let m := s mod 3600 / 60 in
        string_of_Z (s / 3600) +:+ "h" +:+ (if m =? 0 then "" else " " +:+ string_of_Z m +:+ "m")
      else
        let h := s mod 86400 / 3600 in
        string_of_Z (s / 86400) +:+ "d" +:+ (if h =? 0 then "" else " " +:+ string_of_Z h +:+ "h")
  end.

(** [Math.min(100, Math.round((used / quota) * 100))] *)
Definition pct (used : num) (quota : option num) : option num :=
  match quota with
  | None => None
  | Some q =>
      if negb (num_truthy q) || num_leb q (num_of_Z 0) then None
      else
        let r := num_round (num_mul (num_div used q) (num_of_Z 100)) in
        Some (match SFcompare r (num_of_Z 100) with
              | Some Gt => num_of_Z 100
              | _ => r
              end)
  end.

Example fmtBytes_examples :
  fmtBytesZ 0 = "0 B" /\ fmtBytesZ 1536 = "1.5 KB" /\ fmtBytesZ (2 * TB) = "2.0 TB" /\
  fmtBytesZ (150 * GB) = "150 GB" /\ fmtBytesZ 1023 = "1023 B".
Proof. by vm_compute. Qed.
