(* ===== verification/Mailer.v ===== *)
(** * Mailer: [lib/mailer.ts], mail over the ranked SMTP servers

    The n-th SMTP transaction is answered by the platform; an accepted message enters
    [w_outbox].  [sendMail] reads the servers and the text before its first [await]
    ([prepareMail]) and only talks to the servers after it ([transmit]): a caller that reads or
    writes the database around the [await] is modelled in these two halves. *)
From S2P Require Import Prelude Js Redact Schema Sql DbWf Env Secrets Queue Settings Template Format.
From Stdlib Require Import Ascii.
Open Scope Z_scope.

Definition nl : string := String (ascii_of_nat 10) EmptyString.

Record SendResult := mkSend { sr_sent : bool; sr_skipped : bool; sr_error : option string }.

Record CredentialEmail := mkCredentialEmail {
  ce_to : string; ce_name : option string; ce_username : string; ce_password : string;
  ce_host : string; ce_port : Z; ce_lab : string; ce_node : option string;
  ce_hostAlias : string; ce_studentId : option string }.

Record GpuEmailOpts := mkGpuEmail {
  ge_username : string; ge_labname : option string; ge_pidno : option num; ge_nodename : string;
  ge_graceMinutes : option num }.

Record QuotaEmail := mkQuotaEmail {
  qe_to : string; qe_lab : string; qe_pool : string; qe_pct : num; qe_used : string;
  qe_quota : string; qe_breakdown : list (string * string) }.

Record StudentQuotaEmail := mkStudentQuotaEmail {
  sq_to : string; sq_name : string; sq_username : string; sq_lab : string; sq_node : string;
  sq_pool : string; sq_pct : num; sq_used : string; sq_quota : string }.

Record UsageReportEmailVars := mkUsageVars {
  ur_name : string; ur_lab : string; ur_node : string; ur_report : string }.

Record PlacementCompleteEmail := mkCompleteEmail {
  pc_to : string; pc_name : string; pc_lab : string; pc_node : string; pc_usernames : list string;
  pc_fastQuota : string; pc_coldQuota : string; pc_studentFastQuota : string;
  pc_studentColdQuota : string }.

(** [s.padEnd(n)] *)
Definition padEnd (n : nat) (s : string) : string :=
  s +:+ (fix go k := match k with O => "" | S k' => " " +:+ go k' end) (n - js_length s)%nat.

Section mailer.
Context {HK : Honker} {PF : Platform}.

(** [String(n)] *)
Definition num_str (n : num) : string :=
  if is_integer n then string_of_Z (trunc_Z n) else print_json (JNum n).

Definition emailContent (body : string) : Act string :=
  let cleanBody := trim_end (stripLegacyEmailSignature body) in
  s ← getSetting_str "emailSignatureText";
  mret (join (nl +:+ nl) (filter (fun t => truthy t = true) [cleanBody; trim s])).

(** [transport(config).sendMail(m)]: [None] when the server accepted the message. *)
Definition smtp_send (m : Mail) : Act (option string) := fun w =>
  let w1 := w <| w_smtp ::= S |> in
  match smtp_answer (w_smtp w) with
  | None => (Ok None, w1 <| w_outbox ::= fun l => l ++ [m] |>)
  | Some e => (Ok (Some e), w1)
  end.

(** The servers in order until one accepts; the errors so far. *)
Fixpoint try_servers (single : bool) (to subject text : string) (errors : list string)
    (configs : list SmtpConfig) : Act SendResult :=
  match configs with
  | [] => mret (mkSend false false (Some (join "; " errors)))
  | c :: cs =>
      r ← smtp_send (mkMail (sc_from c) to subject text);
      match r with
      | None => mret (mkSend true false None)
      | Some message =>
          try_servers single to subject text
            (errors ++ [if single then message else sc_name c +:+ ": " +:+ message]) cs
      end
  end.

(** Up to the first [await]: [None] when there is no server or no recipient. *)
Definition prepareMail (to subject text : string) : Act (option Outgoing) :=
  cs ← getSmtpConfigs;
  let configs := filter (fun c => usable_smtp c = true) cs in
  if bool_decide (configs = []) then mret None
  else if negb (truthy to) then mret None
  else
    content ← emailContent text;
    mret (Some (mkOutgoing to subject content configs)).

(** From there on. *)
Definition transmit (o : option Outgoing) : Act SendResult :=
  match o with
  | None => mret (mkSend false true None)
  | Some o =>
      try_servers (bool_decide (length (og_configs o) = 1%nat)) (og_to o) (og_subject o) (og_text o)
        [] (og_configs o)
  end.

Definition sendMail (to subject text : string) : Act SendResult :=
  o ← prepareMail to subject text; transmit o.

(** [getSetting(key).trim() || fallback] *)
Definition template_or (key fallback : string) : Act string :=
  v ← getSetting_str key; mret (or_str (trim v) fallback).

(** An editable template pair rendered with [vars]. *)
Definition render_pair (skey sdef bkey bdef : string) (vars : list (string * string))
    : Act (string * string) :=
  subject ← template_or skey sdef;
  body ← template_or bkey bdef;
  mret (renderTemplate subject vars, renderTemplate body vars).

Definition sendTestEmail (to : string) : Act SendResult :=
  subject ← template_or "testEmailSubject" DEFAULT_TEST_SUBJECT;
  body ← template_or "testEmailBody" DEFAULT_TEST_BODY;
  sendMail to subject body.

Definition renderRemovalEmail (lab : string) (dataDeleted : bool) : Act (string * string) :=
  render_pair "removalEmailSubject" DEFAULT_REMOVAL_SUBJECT
    "removalEmailBody" DEFAULT_REMOVAL_BODY
    [("lab", lab);
     ("data_status", if dataDeleted then REMOVAL_DATA_DELETED else REMOVAL_DATA_RETAINED)].
Definition sendRemovalEmail (to lab : string) (dataDeleted : bool) : Act SendResult :=
  '(subject, body) ← renderRemovalEmail lab dataDeleted; sendMail to subject body.

Definition gpuEmailVars (opts : GpuEmailOpts) : list (string * string) :=
  [("username", ge_username opts); ("pid", default "" (num_str <$> ge_pidno opts));
   ("lab", default "" (ge_labname opts)); ("node", ge_nodename opts);
   ("grace_minutes", default "" (num_str <$> ge_graceMinutes opts))].
Definition renderGpuWarningEmail (opts : GpuEmailOpts) : Act (string * string) :=
  render_pair "gpuWarnEmailSubject" DEFAULT_GPU_WARN_SUBJECT
    "gpuWarnEmailBody" DEFAULT_GPU_WARN_BODY (gpuEmailVars opts).
Definition renderGpuKillEmail (opts : GpuEmailOpts) : Act (string * string) :=
  render_pair "gpuKillEmailSubject" DEFAULT_GPU_KILL_SUBJECT
    "gpuKillEmailBody" DEFAULT_GPU_KILL_BODY (gpuEmailVars opts).
Definition sendGpuWarningEmail (to : string) (opts : GpuEmailOpts) : Act SendResult :=
  '(subject, body) ← renderGpuWarningEmail opts; sendMail to subject body.
Definition sendGpuKillEmail (to : string) (opts : GpuEmailOpts) : Act SendResult :=
  '(subject, body) ← renderGpuKillEmail opts; sendMail to subject body.

Definition quotaEmailVars (info : QuotaEmail) : list (string * string) :=
  let breakdown :=
    match qe_breakdown info with
    | [] => "  (no per-student usage reported yet)"
    | l => join nl ((fun b => "  " +:+ padEnd 20 b.1 +:+ " " +:+ b.2) <$> l)
    end in
  [("lab", qe_lab info); ("pool", qe_pool info); ("pct", num_str (qe_pct info));
   ("used", qe_used info); ("quota", qe_quota info); ("breakdown", breakdown)].
Definition renderQuotaEmail (info : QuotaEmail) : Act (string * string) :=
  render_pair "quotaEmailSubject" DEFAULT_QUOTA_SUBJECT "quotaEmailBody" DEFAULT_QUOTA_BODY
    (quotaEmailVars info).
Definition sendQuotaEmail (info : QuotaEmail) : Act SendResult :=
  '(subject, body) ← renderQuotaEmail info; sendMail (qe_to info) subject body.

Definition renderStudentQuotaEmail (info : StudentQuotaEmail) : Act (string * string) :=
  render_pair "studentQuotaEmailSubject" DEFAULT_STUDENT_QUOTA_SUBJECT
    "studentQuotaEmailBody" DEFAULT_STUDENT_QUOTA_BODY
    [("name", sq_name info); ("username", sq_username info); ("lab", sq_lab info);
     ("node", sq_node info); ("pool", sq_pool info); ("pct", num_str (sq_pct info));
     ("used", sq_used info); ("quota", sq_quota info)].
Definition sendStudentQuotaEmail (info : StudentQuotaEmail) : Act SendResult :=
  '(subject, body) ← renderStudentQuotaEmail info; sendMail (sq_to info) subject body.

Definition renderUsageReportEmail (isPi : bool) (v : UsageReportEmailVars)
    : Act (string * string) :=
  render_pair (if isPi then "usageReportPiSubject" else "usageReportStudentSubject")
    (if isPi then DEFAULT_USAGE_REPORT_PI_SUBJECT else DEFAULT_USAGE_REPORT_STUDENT_SUBJECT)
    (if isPi then "usageReportPiBody" else "usageReportStudentBody")
    (if isPi then DEFAULT_USAGE_REPORT_PI_BODY else DEFAULT_USAGE_REPORT_STUDENT_BODY)
    [("name", ur_name v); ("lab", ur_lab v); ("node", ur_node v); ("report", ur_report v)].
Definition sendUsageReportEmail (to : string) (isPi : bool) (v : UsageReportEmailVars)
    : Act SendResult :=
  '(subject, body) ← renderUsageReportEmail isPi v; sendMail to subject body.

Definition renderPlacementCompleteEmail (info : PlacementCompleteEmail) : Act (string * string) :=
  render_pair "placementCompleteEmailSubject" DEFAULT_PLACEMENT_COMPLETE_SUBJECT
    "placementCompleteEmailBody" DEFAULT_PLACEMENT_COMPLETE_BODY
    [("name", pc_name info); ("lab", pc_lab info); ("node", pc_node info);
     ("usernames", join nl ((fun u => "  " +:+ u) <$> pc_usernames info));
     ("fast_quota", pc_fastQuota info); ("cold_quota", pc_coldQuota info);
     ("student_fast_quota", pc_studentFastQuota info);
     ("student_cold_quota", pc_studentColdQuota info)].
Definition preparePlacementCompleteEmail (info : PlacementCompleteEmail) : Act (option Outgoing) :=
  '(subject, body) ← renderPlacementCompleteEmail info; prepareMail (pc_to info) subject body.

Definition welcomeEmailVars (info : CredentialEmail) : list (string * string) :=
  [("name", nullish (ce_name info) (ce_username info)); ("username", ce_username info);
   ("password", ce_password info); ("host", ce_host info);
   ("host_alias", or_str (ce_hostAlias info) (ce_host info));
   ("port", string_of_Z (ce_port info)); ("lab", ce_lab info);
   ("node", nullish (ce_node info) (ce_host info));
   ("student_id", default "" (ce_studentId info)); ("email", ce_to info)].
Definition renderWelcomeEmail (info : CredentialEmail) : Act (string * string) :=
  render_pair "welcomeEmailSubject" DEFAULT_WELCOME_SUBJECT
    "welcomeEmailBody" DEFAULT_WELCOME_BODY (welcomeEmailVars info).
Definition prepareCredentialEmail (info : CredentialEmail) : Act (option Outgoing) :=
  '(subject, body) ← renderWelcomeEmail info; prepareMail (ce_to info) subject body.

(** ** What sending touches: the SMTP transactions and the outbox *)

Record mail_only (w w' : World) : Prop := {
  mo_db : w_db w' = w_db w;
  mo_hk : w_hk w' = w_hk w;
  mo_ticks : w_ticks w' = w_ticks w;
  mo_bytes : w_bytes w' = w_bytes w;
  mo_uuids : w_uuids w' = w_uuids w;
  mo_ivs : w_ivs w' = w_ivs w;
  mo_alert : w_alert_state w' = w_alert_state w;
  mo_gpu : w_gpu_mail w' = w_gpu_mail w;
  mo_mails : w_mails w' = w_mails w;
  mo_outbox : w_outbox w `prefix_of` w_outbox w' }.

(** An invariant that sending does not disturb. *)
Class MailStable (I : World -> Prop) : Prop := mail_stable w w' : mail_only w w' -> I w -> I w'.

#[global] Instance wf_mail_stable : MailStable wf.
Proof. intros w w' []. unfold wf. by rewrite mo_db0. Qed.

Lemma mail_only_refl w : mail_only w w.
Proof. by split. Qed.
#[global] Instance mail_only_stable w0 : MailStable (mail_only w0).
Proof. intros w w' [] []. split; try congruence. by etrans. Qed.

Context (I : World -> Prop) {MS : MailStable I}.


Lemma smtp_send_stable m : preserves I (smtp_send m).
Proof using MS.
  intros w. apply MS. unfold smtp_send. destruct (smtp_answer _); split; try done.
  cbn. by apply prefix_app_r.
Qed.
#[local] Hint Resolve smtp_send_stable : preserve.
Lemma try_servers_stable single to subject text errors cs :
  preserves I (try_servers single to subject text errors cs).
Proof using MS. revert errors. induction cs as [|c cs IH]; intros errors; cbn; solve_preserves. Qed.
#[local] Hint Resolve try_servers_stable : preserve.
Lemma prepareMail_ro to subject text : preserves I (prepareMail to subject text).
Proof using. unfold prepareMail, emailContent. solve_preserves. Qed.
Lemma transmit_stable o : preserves I (transmit o).
Proof using MS. unfold transmit. solve_preserves. Qed.
#[local] Hint Resolve prepareMail_ro transmit_stable : preserve.
Lemma sendMail_stable to subject text : preserves I (sendMail to subject text).
Proof using MS. unfold sendMail. solve_preserves. Qed.
#[local] Hint Resolve sendMail_stable : preserve.
Lemma render_pair_ro a b c d vars : preserves I (render_pair a b c d vars).
Proof using. unfold render_pair, template_or. solve_preserves. Qed.
#[local] Hint Resolve render_pair_ro : preserve.
Lemma sendTestEmail_stable to : preserves I (sendTestEmail to).
Proof using MS. unfold sendTestEmail, template_or. solve_preserves. Qed.
Lemma sendRemovalEmail_stable to lab b : preserves I (sendRemovalEmail to lab b).
Proof using MS. unfold sendRemovalEmail, renderRemovalEmail. solve_preserves. Qed.
Lemma sendGpuWarningEmail_stable to o : preserves I (sendGpuWarningEmail to o).
Proof using MS. unfold sendGpuWarningEmail, renderGpuWarningEmail. solve_preserves. Qed.
Lemma sendGpuKillEmail_stable to o : preserves I (sendGpuKillEmail to o).
Proof using MS. unfold sendGpuKillEmail, renderGpuKillEmail. solve_preserves. Qed.
Lemma sendQuotaEmail_stable i : preserves I (sendQuotaEmail i).
Proof using MS. unfold sendQuotaEmail, renderQuotaEmail. solve_preserves. Qed.
Lemma sendStudentQuotaEmail_stable i : preserves I (sendStudentQuotaEmail i).
Proof using MS. unfold sendStudentQuotaEmail, renderStudentQuotaEmail. solve_preserves. Qed.
Lemma sendUsageReportEmail_stable to k v : preserves I (sendUsageReportEmail to k v).
Proof using MS. unfold sendUsageReportEmail, renderUsageReportEmail. solve_preserves. Qed.
Lemma preparePlacementCompleteEmail_ro i : preserves I (preparePlacementCompleteEmail i).
Proof using. unfold preparePlacementCompleteEmail, renderPlacementCompleteEmail. solve_preserves. Qed.
Lemma prepareCredentialEmail_ro i : preserves I (prepareCredentialEmail i).
Proof using. unfold prepareCredentialEmail, renderWelcomeEmail. solve_preserves. Qed.
End mailer.
#[export] Hint Resolve prepareMail_ro transmit_stable sendMail_stable sendTestEmail_stable
  sendRemovalEmail_stable sendGpuWarningEmail_stable sendGpuKillEmail_stable sendQuotaEmail_stable
  sendStudentQuotaEmail_stable sendUsageReportEmail_stable preparePlacementCompleteEmail_ro
  prepareCredentialEmail_ro : preserve.
#[export] Hint Extern 0 (MailStable _) => typeclasses eauto : preserve.
