(* ===== verification/Alerts.v ===== *)
(** * Alerts: [lib/alerts.ts], admin alerts rate-limited per key

    [w_alert_state] is the module's map from a key to its last mail and the number of alerts
    suppressed since. *)
From S2P Require Import Prelude Js Redact Schema Sql DbWf Env Secrets Queue Settings Template Format Mailer.
Open Scope Z_scope.

Definition LEVELS (level : string) : option Z :=
  alookup level [("DEBUG", 10); ("INFO", 20); ("WARN", 30); ("ERROR", 40)].

Section alerts.
Context {HK : Honker} {PF : Platform}.

(** [void f()]: a rejection of the promise does not reach the caller. *)
Definition detached (m : Act unit) : Act unit := catch m (fun _ => mret tt).

Definition adminEmails : Act (list string) :=
  d ← db; mret (filter (fun e => truthy e = true) (ad_email <$> rows (admins d))).

Definition alert_note (suppressed : Z) : string :=
  if 0 <? suppressed
  then nl +:+ nl +:+ "(" +:+ string_of_Z suppressed +:+ " similar suppressed since the last alert)"
  else "".

Definition alertAdmins (key subject body : string) : Act unit :=
  enabled ← getSetting_bool "alertsEnabled";
  if negb enabled then mret tt
  else
    now ← date_now;
    minutes ← getSetting_num "alertDedupMinutes";
    let windowMs := num_mul (num_mul minutes (num_of_Z 60)) (num_of_Z 1000) in
    st ← gets (fun w => w_alert_state w !! key);
    if match st with
       | Some k => num_ltb (num_of_Z (now - ks_lastSent k)) windowMs
       | None => false
       end
    then modify (fun w => w <| w_alert_state ::=
           alter (fun k => k <| ks_suppressed ::= Z.add 1 |>) key |>)
    else
      let suppressed := default 0 (ks_suppressed <$> st) in
      modify (fun w => w <| w_alert_state ::= insert key (mkKeyState now 0) |>);;
      emails ← adminEmails;
      for_each (fun to => sendMail to subject (body +:+ alert_note suppressed);; mret tt) emails.

Definition maybeAlertOnLog (node : option string) (level : string) (source : option string)
    (msg : string) (detail : option string) : Act unit :=
  lvl ← getSetting_str "alertLevel";
  let threshold := default 40 (LEVELS lvl) in
  if default 0 (LEVELS level) <? threshold then mret tt
  else
    let key := "log:" +:+ nullish node "-" +:+ ":" +:+ nullish source "-" +:+ ":" +:+ level in
    let subject := trim ("[" +:+ level +:+ "] " +:+ nullish node "controller" +:+ " " +:+
                         nullish source "") in
    let body := msg +:+ match detail with
                        | Some t => if truthy t then nl +:+ nl +:+ t else ""
                        | None => ""
                        end in
    detached (alertAdmins key subject body).

Definition alertNodeOffline (node : string) (label : option string) : Act unit :=
  let display := match label with
                 | Some l => if truthy l && negb (String.eqb l node)
                             then l +:+ " (" +:+ node +:+ ")" else node
                 | None => node
                 end in
  detached (alertAdmins ("node-offline:" +:+ node) ("Node offline: " +:+ display)
    ("Node " +:+ display +:+
     " has been disconnected from the controller for longer than the grace window.")).

Definition alertTaskFailed (node action error : string) : Act unit :=
  detached (alertAdmins ("task-failed:" +:+ node +:+ ":" +:+ action)
    ("Task failed on " +:+ node +:+ ": " +:+ action)
    ("A " +:+ action +:+ " task failed on node " +:+ node +:+ "." +:+ nl +:+ nl +:+ error)).

Lemma detached_wf m : preserves wf m -> preserves wf (detached m).
Proof. intros Hm. apply preserves_catch; [done|]. intros. apply preserves_ret. Qed.
Lemma alertAdmins_wf key subject body : preserves wf (alertAdmins key subject body).
Proof.
  unfold alertAdmins, adminEmails. solve_preserves; by apply preserves_modify.
Qed.
#[local] Hint Resolve alertAdmins_wf : preserve.
Lemma maybeAlertOnLog_wf node level source msg detail :
  preserves wf (maybeAlertOnLog node level source msg detail).
Proof. unfold maybeAlertOnLog, detached. solve_preserves. Qed.
Lemma alertNodeOffline_wf node label : preserves wf (alertNodeOffline node label).
Proof. unfold alertNodeOffline, detached. solve_preserves. Qed.
Lemma alertTaskFailed_wf node action error : preserves wf (alertTaskFailed node action error).
Proof. unfold alertTaskFailed, detached. solve_preserves. Qed.
End alerts.
#[export] Hint Resolve detached_wf alertAdmins_wf maybeAlertOnLog_wf alertNodeOffline_wf
  alertTaskFailed_wf : preserve.
