(* ===== verification/DbInv.v ===== *)
(** * DbInv: invariants of the database alone

    For a property [J] of the database, [on_db J] is the property of the world; operations that
    do not write the database preserve it, and a write does when its function does.  Reads keep
    [J] at hand for what follows them. *)
From S2P Require Import Prelude Js Redact Schema Sql DbWf Env Secrets Queue Settings Template Format Mailer Alerts.
Open Scope Z_scope.

Definition on_db {HK : Honker} (J : Db -> Prop) (w : World) : Prop := J (w_db w).

Section dbinv.
Context {HK : Honker} {PF : Platform} (J : Db -> Prop).
#[local] Notation I := (on_db J).

#[export] Instance on_db_mail : MailStable I.
Proof. intros w w' Hm. unfold on_db. by rewrite (mo_db _ _ Hm). Qed.

Lemma same_db {A} (m : Act A) : (forall w, w_db (m w).2 = w_db w) -> preserves I m.
Proof. intros H w. unfold on_db. by rewrite H. Qed.

Lemma exec_inv f : (forall d, J d -> J (f d)) -> preserves I (exec f).
Proof. intros H w. cbn. apply H. Qed.

Lemma transaction_inv {A} (m : Act A) : preserves I m -> preserves I (transaction m).
Proof.
  intros Hm w Hw. pose proof (Hm w Hw) as H1. unfold transaction. by destruct (m w) as [[a|e] w1].
Qed.

(** A read of the database. *)
Lemma db_inv {A} (k : Db -> Act A) : (forall d, J d -> preserves I (k d)) -> preserves I (d ← db; k d).
Proof. intros H w Hw. by apply (H (w_db w)). Qed.

(** An operation that only reads. *)
Lemma read_inv {A B} (m : Act A) (f : Db -> A) (k : A -> Act B) :
  (forall w, m w = (Ok (f (w_db w)), w)) -> (forall d, J d -> preserves I (k (f d))) ->
  preserves I (m ≫= k).
Proof. intros Hm H w Hw. rewrite (bind_step _ _ _ _ _ (Hm w)). by apply (H (w_db w)). Qed.

Lemma gets_inv {A B} (f : Db -> A) (k : A -> Act B) :
  (forall d, J d -> preserves I (k (f d))) -> preserves I (gets (fun w => f (w_db w)) ≫= k).
Proof. intros H w Hw. by apply (H (w_db w)). Qed.

Lemma date_now_inv : preserves I date_now. Proof. by apply same_db. Qed.
Lemma new_uuid_inv : preserves I new_uuid. Proof. by apply same_db. Qed.
Lemma new_iv_inv : preserves I new_iv. Proof. by apply same_db. Qed.
Lemma random_bytes_inv n : preserves I (random_bytes n). Proof. by apply same_db. Qed.
Lemma hk_enqueue_act_inv node v : preserves I (hk_enqueue_act node v).
Proof. apply same_db. intros w. unfold hk_enqueue_act. by destruct (hk_enqueue _ _ _). Qed.
Lemma hk_claim_act_inv node wk : preserves I (hk_claim_act node wk).
Proof. apply same_db. intros w. unfold hk_claim_act. by destruct (hk_claim_one _ _ _). Qed.
Lemma ackTask_inv node j wk : preserves I (ackTask node j wk).
Proof. by apply same_db. Qed.
Lemma retryTask_inv node j wk e : preserves I (retryTask node j wk e).
Proof. apply same_db. intros w. unfold retryTask. cbn. by destruct (hk_retry _ _ _ _ _ _). Qed.
#[local] Hint Resolve date_now_inv new_uuid_inv new_iv_inv random_bytes_inv hk_enqueue_act_inv
  hk_claim_act_inv : preserve.

Lemma encryptSecret_dbinv t : preserves I (encryptSecret t).
Proof. unfold encryptSecret. solve_preserves. Qed.
Lemma generatePassword_inv n : preserves I (generatePassword n).
Proof. unfold generatePassword. solve_preserves. Qed.
#[local] Hint Resolve encryptSecret_dbinv db_act_ro : preserve.

(** The module-local maps are not in the database. *)
Lemma modify_inv f : (forall w, w_db (f w) = w_db w) -> preserves I (modify f : Act unit).
Proof. intros H. apply same_db. exact H. Qed.

Lemma alertAdmins_inv key subject body : preserves I (alertAdmins key subject body).
Proof. unfold alertAdmins, adminEmails. solve_preserves; by apply modify_inv. Qed.
#[local] Hint Resolve alertAdmins_inv : preserve.
Lemma maybeAlertOnLog_inv node level source msg detail :
  preserves I (maybeAlertOnLog node level source msg detail).
Proof. unfold maybeAlertOnLog, detached. solve_preserves. Qed.
Lemma alertNodeOffline_inv node label : preserves I (alertNodeOffline node label).
Proof. unfold alertNodeOffline, detached. solve_preserves. Qed.
Lemma alertTaskFailed_inv node action error : preserves I (alertTaskFailed node action error).
Proof. unfold alertTaskFailed, detached. solve_preserves. Qed.

(** A checked write. *)
Lemma checked_inv (c : Db -> bool) e (f : Db -> Db) :
  (forall d, J d -> c d = false -> J (f d)) -> preserves I (d ← db; throw_if (c d) e;; exec f).
Proof.
  intros H w Hw. unfold mbind, M_bind. cbn. destruct (c (w_db w)) eqn:Hc; cbn; [done|]. by apply H.
Qed.
Lemma checked_inv' {A} (c : Db -> bool) e (f : Db -> Db) (k : Db -> Act A) :
  (forall d, J d -> c d = false -> J (f d)) -> (forall d, preserves I (k d)) ->
  preserves I (d ← db; throw_if (c d) e;; exec f;; k d).
Proof.
  intros H Hk w Hw. unfold mbind, M_bind. cbn. destruct (c (w_db w)) eqn:Hc; cbn; [done|].
  apply Hk. by apply H.
Qed.

(** Queueing a task adds one masked row to the log. *)
Lemma enqueueTask_db node action params by_ :
  (forall d uuid j now, J d -> uuid ∉ t_task_uuid <$> rows (task_log d) ->
     J (d <| task_log ::= tbl_insert (fun i =>
       mkTask i uuid j node action (Some (TJson (redactSecrets params))) by_ TQueued None None None 0
         false now now) |>)) ->
  preserves I (enqueueTask node action params by_).
Proof.
  intros H. assert (forall uuid j t now, t = TJson (redactSecrets params) ->
    preserves I (insert_task uuid j node action t by_ now)) as Hi.
  { intros uuid j t now ->. unfold insert_task. apply checked_inv.
    intros d Hd Hb%bool_decide_eq_false. by apply H. }
  unfold enqueueTask. solve_preserves. by apply Hi.
Qed.
End dbinv.

#[export] Hint Resolve date_now_inv new_uuid_inv new_iv_inv random_bytes_inv hk_enqueue_act_inv
  hk_claim_act_inv ackTask_inv retryTask_inv encryptSecret_dbinv generatePassword_inv alertAdmins_inv maybeAlertOnLog_inv
  alertNodeOffline_inv alertTaskFailed_inv db_act_ro : preserve.
#[export] Hint Extern 2 (preserves (on_db _) (modify _)) => (apply modify_inv; reflexivity) : preserve.

(** [read_db] keeps the invariant of the database a sequence starts by reading. *)
Ltac read_db d H := apply db_inv; intros d H.

(** Statements whose function is the goal. *)
Ltac inv_writes :=
  solve_preserves;
  repeat match goal with
  | |- preserves (on_db _) (exec _) => apply exec_inv; intros ? ?
  | |- preserves (on_db _) (transaction _) => apply transaction_inv; solve_preserves
  end.
