(* ===== verification/MailerFacts.v ===== *)
(** * MailerFacts: failover between SMTP servers, and alert storms *)
From S2P Require Import Prelude Js Redact Schema Sql DbWf Env Secrets Queue Settings Template Format Mailer Alerts Testbed.
Open Scope Z_scope.

Section facts.
Context {HK : Honker} {PF : Platform}.
Implicit Types (w : World).

Lemma getSetting_run k w : getSetting k w = (Ok (read_setting k (alookup k (settings (w_db w)))), w).
Proof. done. Qed.

Lemma getSetting_str_run k w : exists s, getSetting_str k w = (Ok s, w).
Proof. unfold getSetting_str, mbind, M_bind. rewrite getSetting_run. eauto. Qed.

Lemma getSetting_bool_run k w :
  getSetting_bool k w = (Ok (json_truthy (read_setting k (alookup k (settings (w_db w))))), w).
Proof. done. Qed.
Lemma getSetting_num_run k w :
  getSetting_num k w = (Ok (num_of_json (read_setting k (alookup k (settings (w_db w))))), w).
Proof. done. Qed.
Lemma date_now_run w : date_now w = (Ok (clock (w_ticks w)), w <| w_ticks ::= S |>).
Proof. done. Qed.
Lemma gets_run {A} (f : World -> A) w : gets (E:=exn) f w = (Ok (f w), w).
Proof. done. Qed.

Lemma getSmtpConfigs_same w cs w' : getSmtpConfigs w = (Ok cs, w') -> w' = w.
Proof.
  intros H. pose proof (getSmtpConfigs_ro (eq w) w eq_refl) as Hr. by rewrite H in Hr.
Qed.

Lemma prepareMail_run to subject text w cs : getSmtpConfigs w = (Ok cs, w) ->
  exists o, prepareMail to subject text w = (Ok o, w) /\
    match o with
    | None => filter (fun c => usable_smtp c = true) cs = [] \/ to = ""
    | Some o => og_to o = to /\ og_subject o = subject /\ emailContent text w = (Ok (og_text o), w) /\
        og_configs o = filter (fun c => usable_smtp c = true) cs
    end.
Proof.
  intros Hcs. unfold prepareMail. rewrite (bind_step _ _ _ _ _ Hcs).
  case_bool_decide; [by exists None; auto|]. destruct (truthy to) eqn:Ht; cbn [negb].
  - destruct (getSetting_str_run "emailSignatureText" w) as [s Hs].
    assert (exists content, emailContent text w = (Ok content, w)) as [content Hc].
    { unfold emailContent. rewrite (bind_step _ _ _ _ _ Hs). by eexists. }
    rewrite (bind_step _ _ _ _ _ Hc). by eexists (Some _).
  - exists None. split; [done|]. right. by destruct to.
Qed.

(** The first server that accepts, counting transactions from [n]. *)
Fixpoint first_accepting (n : nat) (cs : list SmtpConfig) : option (nat * SmtpConfig) :=
  match cs with
  | [] => None
  | c :: cs' => match smtp_answer n with None => Some (n, c) | Some _ => first_accepting (S n) cs' end
  end.

Lemma try_servers_run single to subject text errors cs w :
  exists r w', try_servers single to subject text errors cs w = (Ok r, w') /\ mail_only w w' /\
    sr_skipped r = false /\
    match first_accepting (w_smtp w) cs with
    | Some (n, c) => sr_sent r = true /\ w_smtp w' = S n /\
        w_outbox w' = w_outbox w ++ [mkMail (sc_from c) to subject text]
    | None => sr_sent r = false /\ is_Some (sr_error r) /\
        w_smtp w' = (w_smtp w + length cs)%nat /\ w_outbox w' = w_outbox w
    end.
Proof.
  revert errors w. induction cs as [|c cs IH]; intros errors w; cbn [try_servers first_accepting].
  - eexists _, w. split; [done|]. split; [apply mail_only_refl|]. split; [done|]. cbn.
    split_and!; [done|by eexists|lia|done].
  - unfold mbind, M_bind, smtp_send. cbn. destruct (smtp_answer (w_smtp w)) as [e|]; cbn.
    + edestruct IH as (r & w' & Hr & Hm & Hs & Hrest). rewrite Hr. exists r, w'. split; [done|].
      split; [by destruct Hm; split|]. split; [done|]. cbn in Hrest.
      destruct (first_accepting _ _) as [[n c']|]; [done|]. destruct Hrest as (?&?&->&?).
      split_and!; [done|done|lia|done].
    + eexists _, _. split; [done|]. split; [split; try done; cbn; by apply prefix_app_r|].
      done.
Qed.

(** ** Alert keys *)

Definition alert_window w : num :=
  num_mul (num_mul (num_of_json (read_setting "alertDedupMinutes"
    (alookup "alertDedupMinutes" (settings (w_db w))))) (num_of_Z 60)) (num_of_Z 1000).
Definition alerts_on w : bool :=
  json_truthy (read_setting "alertsEnabled" (alookup "alertsEnabled" (settings (w_db w)))).

(** [now] is inside the window of the key's last mail. *)
Definition in_window w (k : KeyState) (now : Z) : bool :=
  num_ltb (num_of_Z (now - ks_lastSent k)) (alert_window w).

Lemma alertAdmins_suppressed key subject body w k :
  alerts_on w = true -> w_alert_state w !! key = Some k ->
  in_window w k (clock (w_ticks w)) = true ->
  alertAdmins key subject body w =
    (Ok tt, w <| w_ticks ::= S |>
              <| w_alert_state ::= alter (fun k => k <| ks_suppressed ::= Z.add 1 |>) key |>).
Proof.
  intros Hon Hk Hw. unfold alertAdmins. step_with (getSetting_bool_run "alertsEnabled" w).
  unfold alerts_on in Hon. rewrite Hon. cbn [negb]. step_with (date_now_run w).
  step_with (getSetting_num_run "alertDedupMinutes" (w <| w_ticks ::= S |>)).
  step_with (gets_run (fun w => w_alert_state w !! key) (w <| w_ticks ::= S |>)).
  change (w_alert_state (w <| w_ticks ::= S |>)) with (w_alert_state w). rewrite Hk.
  unfold in_window, alert_window in Hw. change (w_db (w <| w_ticks ::= S |>)) with (w_db w).
  by rewrite Hw.
Qed.

Lemma alertAdmins_sends key subject body w :
  alerts_on w = true ->
  match w_alert_state w !! key with
  | Some k => in_window w k (clock (w_ticks w)) = false
  | None => True
  end ->
  alertAdmins key subject body w =
    for_each (fun to => sendMail to subject
        (body +:+ alert_note (default 0 (ks_suppressed <$> w_alert_state w !! key)));; mret tt)
      (filter (fun e => truthy e = true) (ad_email <$> rows (admins (w_db w))))
      (w <| w_ticks ::= S |>
         <| w_alert_state ::= insert key (mkKeyState (clock (w_ticks w)) 0) |>).
Proof.
  intros Hon Hk. unfold alertAdmins. step_with (getSetting_bool_run "alertsEnabled" w).
  unfold alerts_on in Hon. rewrite Hon. cbn [negb]. step_with (date_now_run w).
  step_with (getSetting_num_run "alertDedupMinutes" (w <| w_ticks ::= S |>)).
  step_with (gets_run (fun w => w_alert_state w !! key) (w <| w_ticks ::= S |>)).
  change (w_alert_state (w <| w_ticks ::= S |>)) with (w_alert_state w).
  destruct (w_alert_state w !! key) as [k|]; [|done].
  unfold in_window, alert_window in Hk. change (w_db (w <| w_ticks ::= S |>)) with (w_db w).
  by rewrite Hk.
Qed.
End facts.

(** A message is offered to the usable servers in failover order until one accepts it:
    exactly one copy leaves, from the first server that accepts, addressed to the recipient,
    and no later server is contacted; when all refuse, nothing leaves and the result carries
    the errors. Nothing else of the program's state changes. *)
Theorem sendMail_failover {HK : Honker} {PF : Platform} to subject text w cs :
  getSmtpConfigs w = (Ok cs, w) -> to <> "" -> filter (fun c => usable_smtp c = true) cs <> [] ->
  exists r w' content, sendMail to subject text w = (Ok r, w') /\ mail_only w w' /\
    emailContent text w = (Ok content, w) /\ sr_skipped r = false /\
    match first_accepting (w_smtp w) (filter (fun c => usable_smtp c = true) cs) with
    | Some (n, c) => sr_sent r = true /\ w_smtp w' = S n /\
        w_outbox w' = w_outbox w ++ [mkMail (sc_from c) to subject content]
    | None => sr_sent r = false /\ is_Some (sr_error r) /\
        w_smtp w' = (w_smtp w + length (filter (fun c => usable_smtp c = true) cs))%nat /\
        w_outbox w' = w_outbox w
    end.
Proof.
  intros Hcs Hto Hne. destruct (prepareMail_run to subject text w cs Hcs) as (o & Hp & Ho).
  unfold sendMail. rewrite (bind_step _ _ _ _ _ Hp). destruct o as [o|]; [|by destruct Ho].
  destruct Ho as (<- & <- & Hc & <-). edestruct try_servers_run as (r & w' & Hr & Hm & Hsk & Hrest).
  unfold transmit. rewrite Hr. by exists r, w', (og_text o).
Qed.

(** An error storm sends one mail. While a key is inside its dedup window, any number of
    alerts for it sends nothing and changes nothing but the key's count of suppressed alerts;
    the next alert after the window reports that count to every admin, and the count starts
    again from zero. *)
Theorem alert_storm {HK : Honker} {PF : Platform} key w k (storm : list (string * string)) :
  alerts_on w = true -> w_alert_state w !! key = Some k ->
  (forall i, (i < length storm)%nat -> in_window w k (clock (w_ticks w + i)) = true) ->
  exists w1, for_each (fun a => alertAdmins key a.1 a.2) storm w = (Ok tt, w1) /\
    w_db w1 = w_db w /\ w_outbox w1 = w_outbox w /\ w_smtp w1 = w_smtp w /\
    w_alert_state w1 = <[key := mkKeyState (ks_lastSent k)
                                  (ks_suppressed k + Z.of_nat (length storm))]> (w_alert_state w) /\
    (forall subject body, in_window w k (clock (w_ticks w1)) = false ->
       exists w2, alertAdmins key subject body w1 =
           for_each (fun to => sendMail to subject
             (body +:+ alert_note (ks_suppressed k + Z.of_nat (length storm)));; mret tt)
             (filter (fun e => truthy e = true) (ad_email <$> rows (admins (w_db w)))) w2 /\
         w_alert_state w2 !! key = Some (mkKeyState (clock (w_ticks w1)) 0)).
Proof.
  revert w k. induction storm as [|a storm IH]; intros w k Hon Hk Hw.
  - exists w. split; [done|]. split_and!; try done.
    + rewrite Z.add_0_r. symmetry. apply insert_id. by destruct k.
    + intros subject body Hout. rewrite alertAdmins_sends; [|done|by rewrite Hk].
      eexists. split; [by rewrite Hk; cbn; rewrite Z.add_0_r|]. cbn. by rewrite lookup_insert_eq.
  - cbn [for_each]. pose proof (Hw 0%nat ltac:(cbn; lia)) as Hw0. rewrite Nat.add_0_r in Hw0.
    rewrite (bind_step _ _ _ _ _ (alertAdmins_suppressed key a.1 a.2 w k Hon Hk Hw0)).
    edestruct (IH (w <| w_ticks ::= S |>
        <| w_alert_state ::= alter (fun k => k <| ks_suppressed ::= Z.add 1 |>) key |>)
        (k <| ks_suppressed ::= Z.add 1 |>)) as (w1 & Hr & Hd & Ho & Hs & Ha & Hnext).
    + done.
    + cbn. by rewrite lookup_alter_eq, Hk.
    + intros i Hi. cbn. replace (S (w_ticks w + i)) with (w_ticks w + S i)%nat by lia.
      apply Hw. cbn. lia.
    + exists w1. split; [done|]. split; [done|]. split; [done|]. split; [done|]. cbn in Ha, Hnext.
      replace (1 + ks_suppressed k + Z.of_nat (length storm))
        with (ks_suppressed k + Z.of_nat (length (a :: storm))) in * by (cbn; lia).
      split; [|done]. rewrite Ha. apply map_eq. intros j.
      destruct (decide (j = key)) as [->|Hj]; [by rewrite !lookup_insert_eq|].
      by rewrite !lookup_insert_ne, lookup_alter_ne by done.
Qed.

Section witness.
#[local] Existing Instance toy_honker.
(** The first server refuses, the second accepts. *)
#[local] Instance toy_pf : Platform :=
  toy_platform toy_env (fun n => match n with O => Some "421" | _ => None end).

Definition toy_server (name from : string) (rank : Z) : json :=
  JObj [("name", JStr name); ("rank", jz rank); ("host", JStr "h"); ("from", JStr from);
        ("pass", JStr "")].
Definition toy_mail_world : World :=
  (setSetting "smtpConfigs" (JArr [toy_server "b" "b@x" 2; toy_server "a" "a@x" 1]) toy_world).2.

Lemma sendMail_failover_witness : exists r w',
  sendMail "ann@x" "hi" "hello" toy_mail_world = (Ok r, w') /\ sr_sent r = true /\
  (m_from <$> w_outbox w') = ["b@x"].
Proof.
  destruct (sendMail_failover "ann@x" "hi" "hello" toy_mail_world
    (match (getSmtpConfigs toy_mail_world).1 with Ok cs => cs | Throw _ => [] end))
    as (r & w' & content & Hr & _ & _ & _ & Hrest).
  - vm_compute. reflexivity.
  - discriminate.
  - vm_compute. discriminate.
  - exists r, w'. split; [exact Hr|].
    match type of Hrest with context [first_accepting ?n ?cs] =>
      replace (first_accepting n cs) with (Some (1%nat, smtp_of_json 0 (toy_server "b" "b@x" 2)))
        in Hrest by (vm_compute; reflexivity) end.
    destruct Hrest as (Hs & _ & Ho). split; [exact Hs|]. rewrite Ho. vm_compute. reflexivity.
Defined.

Lemma alert_storm_witness : exists w1,
  for_each (fun a => alertAdmins "k" a.1 a.2) [("s", "b"); ("s", "b")]
    (toy_world <| w_alert_state := {[ "k" := mkKeyState 1700000000000 0 ]} |>) = (Ok tt, w1) /\
  w_outbox w1 = [] /\ w_alert_state w1 !! "k" = Some (mkKeyState 1700000000000 2).
Proof.
  destruct (alert_storm "k"
    (toy_world <| w_alert_state := {[ "k" := mkKeyState 1700000000000 0 ]} |>)
    (mkKeyState 1700000000000 0) [("s", "b"); ("s", "b")])
    as (w1 & Hr & _ & Ho & _ & Ha & _).
  - vm_compute. reflexivity.
  - vm_compute. reflexivity.
  - intros i Hi. destruct i as [|[|i]]; [vm_compute; reflexivity..|cbn in Hi; lia].
  - exists w1. split; [exact Hr|]. split; [exact Ho|]. rewrite Ha. vm_compute. reflexivity.
Defined.
End witness.
