(* ===== verification/Placements.v ===== *)
(** * Placements: [lib/placements.ts], one lab on one node

    A placement row carries the quotas, the SSH port, the image and the lifecycle state; its
    members carry the per-node account of every student.  Every change is written to the
    database and queued for the node's agent. *)
From S2P Require Import Prelude Js Redact Schema Sql DbWf Env Secrets Queue Settings Template Format Mailer.
From Stdlib Require Import Ascii.
Open Scope Z_scope.

(** ** Container options *)

Record ContainerOptions := mkOptions {
  co_cpus : string; co_memory : string; co_shm_size : string; co_rootfs_quota : string;
  co_restart : string }.

(** The object with these fields. *)
Definition options_obj (o : ContainerOptions) : list (string * json) :=
  [("cpus", JStr (co_cpus o)); ("memory", JStr (co_memory o)); ("shm_size", JStr (co_shm_size o));
   ("rootfs_quota", JStr (co_rootfs_quota o)); ("restart", JStr (co_restart o))].

Definition DEFAULT_CONTAINER_OPTIONS : ContainerOptions :=
  {| co_cpus := "4"; co_memory := "8g"; co_shm_size := "1g"; co_rootfs_quota := "300g";
     co_restart := "unless-stopped" |}.

(** Registry and path, tag, digest. *)
Definition DOCKER_IMAGE_RE : re :=
  RSeq (RChr c_alnum)
    (RSeq (RStar (RChr (fun c => c_alnum c || c_of "._/-" c)))
      (RSeq (ropt (RSeq (rlit ":") (rplus (RChr (fun c => c_alnum c || c_of "._-" c)))))
        (ropt (RSeq (rlit "@sha256:") (rtimes 64 (RChr (fun c => c_digit c || in_range 97 102 c))))))).

Definition NUMBER_RE : re :=
  RSeq (rplus (RChr c_digit)) (ropt (RSeq (rlit ".") (rplus (RChr c_digit)))).

Definition SIZE_RE : re :=
  RSeq NUMBER_RE
    (RSeq (RStar (RChr is_space)) (RSeq (ropt (RChr (c_of "kKmMgGtT"))) (ropt (RChr (c_of "bB"))))).

Definition RESTART_POLICIES : list string := ["no"; "on-failure"; "always"; "unless-stopped"].

(** ** Views *)

(** A row of [PLACEMENT_SELECT]: the placement with its lab, node and cold-storage owner. *)
Record Placement := mkView {
  pl_row : PlacementRow;
  pl_lab_name : string;
  pl_node_name : string;
  pl_online : bool;
  pl_cold_backend : ColdBackend;
  pl_cold_owner_node_id : option Z;
  pl_cold_owner_name : option string;
  pl_cold_ready : bool }.

Definition lab_of (d : Db) (i : Z) : option LabRow := get_row (fun l => l_id l = i) (rows (labs d)).
Definition node_of (d : Db) (i : Z) : option NodeRow := get_row (fun n => n_id n = i) (rows (nodes d)).
Definition student_of (d : Db) (i : Z) : option StudentRow :=
  get_row (fun s => s_id s = i) (rows (students d)).
Definition placement_of (d : Db) (i : Z) : option PlacementRow :=
  get_row (fun p => p_id p = i) (rows (lab_placements d)).

Definition view (d : Db) (p : PlacementRow) : option Placement :=
  l ← lab_of d (p_lab_id p);
  n ← node_of d (p_node_id p);
  Some {| pl_row := p; pl_lab_name := l_name l; pl_node_name := n_name n; pl_online := n_online n;
          pl_cold_backend := n_cold_backend n; pl_cold_owner_node_id := n_cold_owner_node_id n;
          pl_cold_owner_name := n_name <$> (i ← n_cold_owner_node_id n; node_of d i);
          pl_cold_ready := n_cold_ready n |}.

Definition views (d : Db) : list Placement := omap (view d) (rows (lab_placements d)).

Definition by_name {A} (name : A -> string) (a b : A) : bool := str_leb (name a) (name b).

Section placements.
Context {HK : Honker} {PF : Platform}.

(** [String(v)] of a field of the merged options *)
Definition opt_field (k : string) (l : list (string * json)) : string :=
  match alookup k l with Some v => js_String v | None => "undefined" end.

Definition validateContainerConfig (image : string) (opts : list (string * json)) : result exn unit :=
  if negb (re_test DOCKER_IMAGE_RE image) || (256 <? String.length image)%nat
  then Throw (EInvalidImage image)
  else if negb (re_test NUMBER_RE (opt_field "cpus" opts)) then Throw EInvalidCpus
  else if negb (re_test SIZE_RE (opt_field "memory" opts)) then Throw EInvalidMemory
  else if negb (re_test SIZE_RE (opt_field "shm_size" opts)) then Throw EInvalidShm
  else if negb (re_test SIZE_RE (opt_field "rootfs_quota" opts)) then Throw EInvalidRootfs
  else if negb (bool_decide (opt_field "restart" opts ∈ RESTART_POLICIES)) then Throw EInvalidRestart
  else Ok tt.

(** [{ ...DEFAULT_CONTAINER_OPTIONS, ...parsed }]; the stored text is an object's. *)
Definition containerOptionsOf (p : PlacementRow) : list (string * json) :=
  let parsed := match p_container_options p with
                | Some t => match json_parse t with Some (JObj l) => l | _ => [] end
                | None => []
                end in
  fold_left (fun acc kv => aset kv.1 kv.2 acc) parsed (options_obj DEFAULT_CONTAINER_OPTIONS).

Definition listPlacements (labId : Z) : Act (list Placement) :=
  d ← db;
  mret (sort_by (by_name pl_node_name) (filter (fun v => p_lab_id (pl_row v) = labId) (views d))).

Definition listPlacementsForNode (nodeId : Z) : Act (list Placement) :=
  d ← db;
  mret (sort_by (by_name pl_lab_name) (filter (fun v => p_node_id (pl_row v) = nodeId) (views d))).

Definition listAllPlacements : Act (list Placement) :=
  d ← db;
  mret (sort_by (fun a b =>
    if String.eqb (pl_lab_name a) (pl_lab_name b) then str_leb (pl_node_name a) (pl_node_name b)
    else str_leb (pl_lab_name a) (pl_lab_name b)) (views d)).

Definition find_placement (d : Db) (id : Z) : option Placement := p ← placement_of d id; view d p.
Definition getPlacement (id : Z) : Act (option Placement) := d ← db; mret (find_placement d id).

Definition find_by_lab_node (d : Db) (lab node : string) : option Placement :=
  get_row (fun v => pl_lab_name v = lab /\ pl_node_name v = node) (views d).
Definition getPlacementByLabNode (labName nodeName : string) : Act (option Placement) :=
  d ← db; mret (find_by_lab_node d labName nodeName).

Definition placementExists (labId nodeId : Z) : Act bool :=
  d ← db;
  mret (is_some (get_row (fun p => p_lab_id p = labId /\ p_node_id p = nodeId) (rows (lab_placements d)))).

(** ** SSH ports *)

(** [for (let p = start; p <= end; p++) if (!used.has(p)) return p;] over [n] candidates *)
Fixpoint first_free (used : list Z) (p : Z) (n : nat) : option Z :=
  match n with
  | O => None
  | S n' => if bool_decide (p ∈ used) then first_free used (p + 1) n' else Some p
  end.

Definition used_ports (d : Db) (nodeId : Z) : list Z :=
  p_ssh_port <$> select (fun p => p_node_id p = nodeId) (rows (lab_placements d)).

Definition nextSshPortForNode (nodeId : Z) : Act Z :=
  start ← getSetting_Z "sshPortStart";
  end_ ← getSetting_Z "sshPortEnd";
  d ← db;
  match first_free (used_ports d nodeId) start (Z.to_nat (end_ - start + 1)) with
  | Some p => mret p
  | None => throw ENoFreePort
  end.

Definition touch (placementId : Z) : Act unit :=
  now ← date_now;
  update_placements (fun p => p_id p = placementId) (fun p => p <| p_updated_at := now |>).

Definition taskContainerOptions (v : Placement) : json :=
  JObj (aset "ssh_port" (jz (p_ssh_port (pl_row v)))
         (aset "image" (JStr (p_image (pl_row v))) (containerOptionsOf (pl_row v)))).

Definition create_params (v : Placement) : json :=
  let p := pl_row v in
  JObj [("lab", JStr (pl_lab_name v));
        ("fast_quota_bytes", jz (p_fast_quota_bytes p));
        ("slow_quota_bytes", jz (nullish (p_cold_quota_bytes p) 0));
        ("student_fast_quota_bytes", jopt jz (p_student_fast_quota_bytes p));
        ("student_cold_quota_bytes", jopt jz (p_student_cold_quota_bytes p));
        ("image", JStr (p_image p));
        ("ssh_port", jz (p_ssh_port p));
        ("container_options", taskContainerOptions v)].

Definition enqueuePlacementCreate (v : Placement) (actor : option string) : Act unit :=
  enqueueTask (pl_node_name v) "lab.create" (create_params v) actor;; mret tt.

(** ** Members *)

Record ProvisionStudent := mkProvision { ps_id : Z; ps_username : string; ps_linux_uid : Z }.

Definition member_row (d : Db) (placementId studentId : Z) : option PlacementMemberRow :=
  get_row (fun m => pm_placement_id m = placementId /\ pm_student_id m = studentId)
    (rows (placement_members d)).

Definition add_params (v : Placement) (username password : string) (uid : Z) : json :=
  JObj [("lab", JStr (pl_lab_name v)); ("username", JStr username); ("password", JStr password);
        ("uid", jz uid); ("gid", jz uid);
        ("student_fast_quota_bytes", jopt jz (p_student_fast_quota_bytes (pl_row v)));
        ("student_cold_quota_bytes", jopt jz (p_student_cold_quota_bytes (pl_row v)))].

Definition provisionMemberOnPlacement (v : Placement) (s : ProvisionStudent)
    (actor : option string) : Act (option string) :=
  d ← db;
  if is_some (member_row d (p_id (pl_row v)) (ps_id s)) then mret None
  else
    now ← date_now;
    password ← generatePassword 14;
    secret ← encryptSecret (TRaw password);
    insert_placement_member (p_id (pl_row v)) (ps_id s) (Some secret) now;;
    enqueueTask (pl_node_name v) "student.add"
      (add_params v (ps_username s) password (ps_linux_uid s)) actor;;
    mret (Some (pl_node_name v)).

(** The roster of a lab, by username. *)
Definition roster (d : Db) (labId : Z) : list ProvisionStudent :=
  (fun s => mkProvision (s_id s) (s_username s) (s_linux_uid s)) <$>
    sort_by (by_name s_username)
      (omap (fun m => student_of d (lm_student_id m))
         (select (fun m => lm_lab_id m = labId) (rows (lab_members d)))).

Record PlacementMember := mkMember {
  mem_student : StudentRow; mem_state : MemberState; mem_last_error : option string;
  mem_credential_available : bool; mem_updated_at : Z }.

Definition listPlacementMembers (placementId : Z) : Act (list PlacementMember) :=
  d ← db;
  mret (sort_by (by_name (fun m => s_username (mem_student m)))
    (omap (fun m => (fun s => mkMember s (pm_state m) (pm_last_error m)
                                (is_some (pm_credential_secret m)) (pm_updated_at m))
                    <$> student_of d (pm_student_id m))
      (select (fun m => pm_placement_id m = placementId) (rows (placement_members d))))).

(** ** Creating a placement *)

Record CreatePlacementInput := mkCreate {
  ci_labId : Z; ci_nodeId : Z; ci_fastQuotaBytes : Z; ci_coldQuotaBytes : option Z;
  ci_studentFastQuotaBytes : option Z; ci_studentColdQuotaBytes : option Z;
  ci_sshPort : Z; ci_image : string; ci_containerOptions : ContainerOptions;
  ci_actor : option string }.

(** The user-namespace mapping a node's agent reported. *)
Definition userns_mapping (raw : option text) : option (Z * Z) :=
  match json_parse (nullish raw (TJson (JObj []))) with
  | Some v =>
      match field "runtime" v with
      | Some rt =>
          match as_num (field "userns_start" rt), as_num (field "userns_size" rt) with
          | Some s, Some n =>
              if is_integer s && is_integer n then Some (trunc_Z s, trunc_Z n) else None
          | _, _ => None
          end
      | None => None
      end
  | None => None
  end.

(** The rules for an SMB client: its owner hosts the lab, is active, the mount is live and the
    user namespaces agree.  The result is the placement's cold quota. *)
Definition smb_gate (d : Db) (labId : Z) (node : NodeRow) : result exn unit :=
  match n_cold_owner_node_id node with
  | None => Throw (ESmbNoOwner (n_name node))
  | Some oid =>
      match node_of d oid with
      | None => Throw ETypeError
      | Some owner =>
          match get_row (fun p => p_lab_id p = labId /\ p_node_id p = oid) (rows (lab_placements d)) with
          | None => Throw (EOwnerHasNoPlacement (n_name owner))
          | Some op =>
              if negb (bool_decide (p_state op = PActive))
              then Throw (EOwnerNotActive (n_name owner) (p_state op))
              else if negb (n_cold_ready node) then Throw (ESmbMountNotReady (n_name node))
              else
                match userns_mapping (n_capabilities node), userns_mapping (n_capabilities owner) with
                | Some a, Some b =>
                    if bool_decide (a = b) then Ok tt
                    else Throw (EUsernsMismatch (n_name node) (n_name owner))
                | _, _ => Throw (EUsernsMismatch (n_name node) (n_name owner))
                end
          end
      end
  end.

(** [q <= 0 || q > limit] *)
Definition bad_share (q limit : Z) : bool := (q <=? 0) || (limit <? q).
Definition bad_share_of (q limit : option Z) : bool :=
  match q, limit with Some q, Some l => bad_share q l | _, _ => false end.

Definition createPlacement (input : CreatePlacementInput) : Act Placement :=
  d ← db;
  match node_of d (ci_nodeId input) with
  | None => throw EUnknownNode
  | Some node =>
      lift (validateContainerConfig (ci_image input) (options_obj (ci_containerOptions input)));;
      let smb := bool_decide (n_cold_backend node = Smb) in
      coldQuota ← (if smb then lift (smb_gate d (ci_labId input) node);; mret None
                   else match ci_coldQuotaBytes input with
                        | None => throw EColdQuotaRequired
                        | Some q => mret (Some q)
                        end);
      throw_if (bad_share_of (ci_studentFastQuotaBytes input) (Some (ci_fastQuotaBytes input)))
        EStudentFastQuota;;
      let studentColdQuota := if smb then None else ci_studentColdQuotaBytes input in
      throw_if (bad_share_of studentColdQuota coldQuota) EStudentColdQuota;;
      now ← date_now;
      id ← insert_placement (ci_labId input) (ci_nodeId input) (ci_sshPort input) (fun i =>
        {| p_id := i; p_lab_id := ci_labId input; p_node_id := ci_nodeId input;
           p_fast_quota_bytes := ci_fastQuotaBytes input; p_cold_quota_bytes := coldQuota;
           p_student_fast_quota_bytes := ci_studentFastQuotaBytes input;
           p_student_cold_quota_bytes := studentColdQuota;
           p_ssh_port := ci_sshPort input; p_image := ci_image input;
           p_container_options := Some (TJson (JObj (options_obj (ci_containerOptions input))));
           p_state := PProvisioning; p_last_error := None; p_usage_scanned_at := None;
           p_last_usage_scan := None; p_completion_email_sent_at := None;
           p_created_at := now; p_updated_at := now |});
      placement ← getPlacement id;
      match placement with
      | None => throw ETypeError
      | Some v =>
          enqueuePlacementCreate v (ci_actor input);;
          audit (ci_actor input) "placement.create"
            (Some (pl_lab_name v +:+ "@" +:+ pl_node_name v)) None;;
          d ← db;
          for_each (fun s => provisionMemberOnPlacement v s (ci_actor input);; mret tt)
            (roster d (ci_labId input));;
          mret v
      end
  end.

(** ** Credentials *)

(** The member with the rows it joins. *)
Record PendingCredential := mkPending {
  pc_member : PlacementMemberRow; pc_student : StudentRow; pc_placement : PlacementRow;
  pc_lab_row : LabRow; pc_node_row : NodeRow }.

Definition join_member (d : Db) (m : PlacementMemberRow) : option PendingCredential :=
  s ← student_of d (pm_student_id m);
  p ← placement_of d (pm_placement_id m);
  l ← lab_of d (p_lab_id p);
  n ← node_of d (p_node_id p);
  Some (mkPending m s p l n).

Definition pendingCredential (d : Db) (labName nodeName username : string) : option PendingCredential :=
  get_row (fun c => l_name (pc_lab_row c) = labName /\ n_name (pc_node_row c) = nodeName /\
                    s_username (pc_student c) = username)
    (omap (join_member d) (rows (placement_members d))).

(** [UPDATE placement_members SET credential_secret = NULL, credential_delivered_at = now] *)
Definition burn_credential (memberId : Z) : Act unit :=
  now ← date_now;
  update_members (fun m => pm_id m = memberId)
    (fun m => m <| pm_credential_secret := None |> <| pm_credential_delivered_at := Some now |>).

(** [deliverPlacementCredential] up to its [await]: the member whose credential is mailed, and
    the mail. *)
Definition startCredentialDelivery (labName nodeName username : string)
    : Act (option (Z * option Outgoing)) :=
  d ← db;
  match pendingCredential d labName nodeName username with
  | None => mret None
  | Some c =>
      match pm_state (pc_member c), pm_credential_secret (pc_member c), s_email (pc_student c) with
      | MActive, Some secret, Some email =>
          if negb (truthy secret) || negb (truthy email) then mret None
          else
            let password := text_str (decryptSecret secret) in
            if negb (truthy password) then mret None
            else
              let node := pc_node_row c in
              let alias := default "" (trim <$> n_alias node) in
              mail ← prepareCredentialEmail
                {| ce_to := email; ce_name := s_name (pc_student c);
                   ce_username := s_username (pc_student c); ce_password := password;
                   ce_host := n_name node; ce_port := p_ssh_port (pc_placement c);
                   ce_lab := l_name (pc_lab_row c); ce_node := Some (or_str alias (n_name node));
                   ce_hostAlias := alias; ce_studentId := s_student_id (pc_student c) |};
              mret (Some (pm_id (pc_member c), mail))
      | _, _, _ => mret None
      end
  end.

(** ... and after it: the member named before the [await] is burnt, whatever its row holds now. *)
Definition finishCredentialDelivery (memberId : Z) (mail : option Outgoing) : Act bool :=
  res ← transmit mail;
  if negb (sr_sent res) then mret false
  else burn_credential memberId;; mret true.

(** A call that nothing waits for: it goes on later ([settle_mail] of the hub). *)
Definition send_off (f : InFlight) : Act unit :=
  modify (fun w => w <| w_mails ::= fun l => l ++ [f] |>).

Definition deliverPlacementCredential (labName nodeName username : string) : Act unit :=
  started ← startCredentialDelivery labName nodeName username;
  match started with
  | None => mret tt
  | Some (memberId, mail) =>
      send_off (mkInFlight nodeName labName (Some username) (DCredential memberId) mail)
  end.

(** [UPDATE ... SET completion_email_sent_at = -1 WHERE id = ? AND completion_email_sent_at IS NULL] *)
Definition unclaimed (placementId : Z) (p : PlacementRow) : Prop :=
  p_id p = placementId /\ p_completion_email_sent_at p = None.
#[global] Instance unclaimed_dec i p : Decision (unclaimed i p).
Proof. unfold unclaimed. apply _. Defined.

Definition claim_completion (placementId : Z) : Act bool :=
  d ← db;
  update_placements (unclaimed placementId) (fun p => p <| p_completion_email_sent_at := Some (-1) |>);;
  mret (bool_decide (select (unclaimed placementId) (rows (lab_placements d)) <> [])).

(** The usernames and states of a placement's members, by username. *)
Definition member_states (d : Db) (placementId : Z) : list (string * MemberState) :=
  sort_by (by_name fst)
    (omap (fun m => (fun s => (s_username s, pm_state m)) <$> student_of d (pm_student_id m))
      (select (fun m => pm_placement_id m = placementId) (rows (placement_members d)))).

(** A claimed completion mail. *)
Record CompletionJob := mkCompletion { cj_placement : Z; cj_mail : PlacementCompleteEmail }.

Definition quota_or (o : option Z) (fallback : string) : string :=
  match o with None => fallback | Some q => fmtBytesZ q end.

Definition completion_mail (v : Placement) (l : LabRow) (alias : option string)
    (piName piEmail piUsername nodeName : string) (members : list (string * MemberState))
    : PlacementCompleteEmail :=
  let p := pl_row v in
  {| pc_to := piEmail;
     pc_name := or_str piName piUsername;
     pc_lab := pl_lab_name v;
     pc_node := or_str (default "" (trim <$> alias)) nodeName;
     pc_usernames := fst <$> members;
     pc_fastQuota := fmtBytesZ (p_fast_quota_bytes p);
     pc_coldQuota := quota_or (p_cold_quota_bytes p) "managed by the cold-storage owner";
     pc_studentFastQuota := quota_or (p_student_fast_quota_bytes p) "shared placement quota";
     pc_studentColdQuota := quota_or (p_student_cold_quota_bytes p) "shared or owner-managed" |}.

Definition claimPlacementCompletion (labName nodeName : string) : Act (option CompletionJob) :=
  d ← db;
  match find_by_lab_node d labName nodeName with
  | None => mret None
  | Some v =>
      let p := pl_row v in
      match lab_of d (p_lab_id p), node_of d (p_node_id p) with
      | Some l, Some n =>
          let piEmail := default "" (l_pi_email l) in
          let piUsername := default "" (s_username <$> (i ← l_pi_student_id l; student_of d i)) in
          if negb (bool_decide (p_state p = PActive)) || is_some (p_completion_email_sent_at p)
             || negb (truthy piEmail) || negb (truthy piUsername)
          then mret None
          else
            let members := member_states d (p_id p) in
            if bool_decide (members = [])
               || existsb (fun m => negb (bool_decide (m.2 = MActive))) members
            then mret None
            else
              claimed ← claim_completion (p_id p);
              if negb claimed then mret None
              else mret (Some (mkCompletion (p_id p)
                     (completion_mail v l (n_alias n) (default "" (l_pi_name l)) piEmail piUsername
                        nodeName members)))
      | _, _ => mret None
      end
  end.

(** What follows the [await]: the final time, or the claim given back. *)
Definition settlePlacementCompletion (placementId : Z) (mail : option Outgoing) : Act bool :=
  res ← transmit mail;
  at_ ← (if sr_sent res then now ← date_now; mret (Some now) else mret None);
  update_placements (fun p => p_id p = placementId)
    (fun p => p <| p_completion_email_sent_at := at_ |>);;
  mret (sr_sent res).

(** The rest of a claimed delivery, when nothing comes in between. *)
Definition finishPlacementCompletion (job : CompletionJob) : Act bool :=
  mail ← preparePlacementCompleteEmail (cj_mail job);
  settlePlacementCompletion (cj_placement job) mail.

Definition maybeDeliverPlacementCompletion (labName nodeName : string) : Act unit :=
  job ← claimPlacementCompletion labName nodeName;
  match job with
  | None => mret tt
  | Some j =>
      mail ← preparePlacementCompleteEmail (cj_mail j);
      send_off (mkInFlight nodeName labName None (DCompletion (cj_placement j)) mail)
  end.

Definition consumePlacementCredential (placementId studentId : Z) (actor : option string)
    : Act (string * string) :=
  d ← db;
  match get_row (fun c => pm_placement_id (pc_member c) = placementId /\
                          pm_student_id (pc_member c) = studentId)
          (omap (join_member d) (rows (placement_members d))) with
  | None => throw ECredentialNotReady
  | Some c =>
      throw_if (negb (bool_decide (pm_state (pc_member c) = MActive))) ECredentialNotReady;;
      match pm_credential_secret (pc_member c) with
      | None => throw ECredentialGone
      | Some secret =>
          throw_if (negb (truthy secret)) ECredentialGone;;
          let password := text_str (decryptSecret secret) in
          throw_if (negb (truthy password)) ECredentialUndecryptable;;
          burn_credential (pm_id (pc_member c));;
          audit actor "placement.credential_reveal"
            (Some (l_name (pc_lab_row c) +:+ "/" +:+ s_username (pc_student c) +:+ "@" +:+
                   n_name (pc_node_row c))) None;;
          mret (s_username (pc_student c), password)
      end
  end.

(** ** Removing students *)

Record Removal := mkRemoval { rm_id : string; rm_coldCleanupNodes : list string }.

Definition removeMemberFromPlacement (v : Placement) (studentId : Z) (username : string)
    (deleteData : bool) (actor : option string) (removal : option Removal) : Act unit :=
  enqueueTask (pl_node_name v) "student.remove"
    (JObj ([("lab", JStr (pl_lab_name v)); ("username", JStr username);
            ("delete_data", JBool deleteData)] ++
           match removal with
           | Some r => [("removal_id", JStr (rm_id r));
                        ("cold_cleanup_nodes", JArr (JStr <$> rm_coldCleanupNodes r))]
           | None => []
           end)) actor;;
  delete_members (fun m => pm_placement_id m = p_id (pl_row v) /\ pm_student_id m = studentId).

(** [json_extract(params, '$.removal_id') = rid] *)
Definition has_removal_id (rid : string) (t : TaskRow) : Prop :=
  match t_params t with Some (TJson v) => field "removal_id" v = Some (JStr rid) | _ => False end.
#[global] Instance has_removal_id_dec rid t : Decision (has_removal_id rid t).
Proof. unfold has_removal_id. destruct (t_params t) as [[]|]; apply _. Defined.

Definition removal_of (rid : string) (t : TaskRow) : Prop :=
  t_action t = "student.remove" /\ has_removal_id rid t.
#[global] Instance removal_of_dec rid t : Decision (removal_of rid t).
Proof. unfold removal_of. apply _. Defined.

Definition cleanup_of (node rid : string) (t : TaskRow) : Prop :=
  t_node t = node /\ t_action t = "student.delete_cold" /\ has_removal_id rid t.
#[global] Instance cleanup_of_dec node rid t : Decision (cleanup_of node rid t).
Proof. unfold cleanup_of. apply _. Defined.

(** The strings of [params.cold_cleanup_nodes ?? []], without repetitions. *)
Definition cleanup_nodes (v : json) : list string :=
  match field "cold_cleanup_nodes" v with
  | Some (JArr l) => dedup [] (omap (fun x => as_str (Some x)) l)
  | _ => []
  end.

Definition completeStudentRemoval (taskUuid : string) : Act unit :=
  d ← db;
  match get_row (fun t => t_task_uuid t = taskUuid /\ t_action t = "student.remove" /\ t_state t = TOk)
          (rows (task_log d)) with
  | None => mret tt
  | Some task =>
      match t_params task with
      | None => mret tt
      | Some params =>
          match json_parse params with
          | None => mret tt
          | Some v =>
              match str_field "removal_id" v, str_field "lab" v, str_field "username" v with
              | Some rid, Some lab, Some username =>
                  let states := t_state <$> select (removal_of rid) (rows (task_log d)) in
                  if negb (truthy rid && truthy lab && truthy username) then mret tt
                  else if bool_decide (states = []) || existsb (fun s => negb (bool_decide (s = TOk))) states
                  then mret tt
                  else
                    for_each (fun node =>
                      d ← db;
                      if bool_decide (select (cleanup_of node rid) (rows (task_log d)) = [])
                      then enqueueTask node "student.delete_cold"
                             (JObj [("lab", JStr lab); ("username", JStr username);
                                    ("removal_id", JStr rid)]) (t_requested_by task);; mret tt
                      else mret tt) (cleanup_nodes v)
              | _, _, _ => mret tt
              end
          end
      end
  end.

(** ** Quotas *)

Record NodePoolCapacity := mkCapacity { cap_fast : option num; cap_cold : option num }.

Definition pool_size (o : option json) : option num :=
  match o with Some v => as_num (field "size" v) | None => None end.

Definition pool_capacity (d : Db) (nodeId : Z) : NodePoolCapacity :=
  match node_of d nodeId with
  | None => mkCapacity None None
  | Some n =>
      match n_pools n with
      | None => mkCapacity None None
      | Some t =>
          match json_parse t with
          | Some (JArr arr) => mkCapacity (pool_size (arr !! 0%nat)) (pool_size (arr !! 1%nat))
          | _ => mkCapacity None None
          end
      end
  end.
Definition nodePoolCapacityBytes (nodeId : Z) : Act NodePoolCapacity :=
  d ← db; mret (pool_capacity d nodeId).

Definition over_capacity (q : option Z) (cap : option num) : bool :=
  match q, cap with Some q, Some c => num_ltb c (num_of_Z q) | _, _ => false end.

(** [fast] is absent or a number; [cold] absent, null or a number. *)
Definition updatePlacementQuota (placementId : Z) (fast : option Z) (cold : option (option Z))
    (actor : option string) : Act unit :=
  p ← getPlacement placementId;
  match p with
  | None => throw EUnknownPlacement
  | Some v =>
      capacity ← nodePoolCapacityBytes (p_node_id (pl_row v));
      throw_if (over_capacity fast (cap_fast capacity))
        (EFastOverCapacity (default 0 fast) (default S754_nan (cap_fast capacity)));;
      throw_if (over_capacity (mjoin cold) (cap_cold capacity))
        (EColdOverCapacity (default 0 (mjoin cold)) (default S754_nan (cap_cold capacity)));;
      match fast with
      | Some q => update_placements (fun p => p_id p = placementId)
                    (fun p => p <| p_fast_quota_bytes := q |>)
      | None => mret tt
      end;;
      match cold with
      | Some q => update_placements (fun p => p_id p = placementId)
                    (fun p => p <| p_cold_quota_bytes := q |>)
      | None => mret tt
      end;;
      touch placementId;;
      let params := JObj (defined_only
        [("lab", Some (JStr (pl_lab_name v))); ("fast_quota_bytes", jz <$> fast);
         ("slow_quota_bytes", jz <$> mjoin cold)]) in
      enqueueTask (pl_node_name v) "lab.set_quota" params actor;;
      audit actor "placement.set_quota" (Some (pl_lab_name v +:+ "@" +:+ pl_node_name v))
        (Some (print_json params))
  end.

(** ** Recreating, retrying *)

Definition reprovisionPlacementMembers (v : Placement) (actor : option string) : Act unit :=
  d ← db;
  let members := sort_by (by_name (fun m => s_username m.2))
    (omap (fun m => (fun s => (pm_id m, s)) <$> student_of d (pm_student_id m))
      (select (fun m => pm_placement_id m = p_id (pl_row v)) (rows (placement_members d)))) in
  now ← date_now;
  for_each (fun m =>
    password ← generatePassword 14;
    secret ← encryptSecret (TRaw password);
    update_members (fun r => pm_id r = m.1)
      (fun r => r <| pm_state := MProvisioning |> <| pm_last_error := None |>
                  <| pm_credential_secret := Some secret |> <| pm_updated_at := now |>);;
    enqueueTask (pl_node_name v) "student.add"
      (add_params v (s_username m.2) password (s_linux_uid m.2)) actor;;
    mret tt) members.

Record RecreateInput := mkRecreate {
  ri_image : option string; ri_containerOptions : option ContainerOptions;
  ri_studentFastQuotaBytes : option (option Z); ri_studentColdQuotaBytes : option (option Z) }.

(** [if (v !== undefined) UPDATE lab_placements SET column = v WHERE id = ?] *)
Definition set_if {A} (o : option A) (placementId : Z) (f : A -> PlacementRow -> PlacementRow) : Act unit :=
  match o with
  | Some a => update_placements (fun p => p_id p = placementId) (f a)
  | None => mret tt
  end.

Definition recreatePlacement (placementId : Z) (input : RecreateInput) (actor : option string) : Act unit :=
  p ← getPlacement placementId;
  match p with
  | None => throw EUnknownPlacement
  | Some v =>
      lift (validateContainerConfig (nullish (ri_image input) (p_image (pl_row v)))
        (match ri_containerOptions input with
         | Some o => options_obj o
         | None => containerOptionsOf (pl_row v)
         end));;
      throw_if (bad_share_of (mjoin (ri_studentFastQuotaBytes input)) (Some (p_fast_quota_bytes (pl_row v))))
        EStudentFastQuota;;
      throw_if (bool_decide (pl_cold_backend v = Smb) && is_some (mjoin (ri_studentColdQuotaBytes input)))
        ESmbStudentColdQuota;;
      throw_if (bad_share_of (mjoin (ri_studentColdQuotaBytes input)) (p_cold_quota_bytes (pl_row v)))
        EStudentColdQuota;;
      set_if (ri_image input) placementId (fun i p => p <| p_image := i |>);;
      set_if (ri_containerOptions input) placementId
        (fun o p => p <| p_container_options := Some (TJson (JObj (options_obj o))) |>);;
      set_if (ri_studentFastQuotaBytes input) placementId
        (fun q p => p <| p_student_fast_quota_bytes := q |>);;
      set_if (ri_studentColdQuotaBytes input) placementId
        (fun q p => p <| p_student_cold_quota_bytes := q |>);;
      touch placementId;;
      update_placements (fun p => p_id p = placementId)
        (fun p => p <| p_completion_email_sent_at := None |>);;
      fresh ← getPlacement placementId;
      match fresh with
      | None => throw ETypeError
      | Some f =>
          enqueueTask (pl_node_name f) "container.recreate"
            (JObj [("lab", JStr (pl_lab_name f)); ("image", JStr (p_image (pl_row f)));
                   ("ssh_port", jz (p_ssh_port (pl_row f)));
                   ("container_options", taskContainerOptions f);
                   ("student_fast_quota_bytes", jopt jz (p_student_fast_quota_bytes (pl_row f)));
                   ("student_cold_quota_bytes", jopt jz (p_student_cold_quota_bytes (pl_row f)))])
            actor;;
          reprovisionPlacementMembers f actor;;
          audit actor "placement.recreate" (Some (pl_lab_name f +:+ "@" +:+ pl_node_name f)) None
      end
  end.

Definition retryPlacement (placementId : Z) (actor : option string) : Act unit :=
  p ← getPlacement placementId;
  match p with
  | None => throw EUnknownPlacement
  | Some v =>
      throw_if (negb (bool_decide (p_state (pl_row v) = PFailed))) EOnlyFailedRetried;;
      now ← date_now;
      update_placements (fun p => p_id p = placementId)
        (fun p => p <| p_state := PProvisioning |> <| p_last_error := None |> <| p_updated_at := now |>);;
      enqueuePlacementCreate v actor;;
      audit actor "placement.retry" (Some (pl_lab_name v +:+ "@" +:+ pl_node_name v)) None
  end.

(** ** Teardown *)

(** The live placements of the lab on SMB clients of this node. *)
Definition smb_dependents (d : Db) (v : Placement) : list string :=
  omap (fun p =>
      n ← node_of d (p_node_id p);
      if decide (n_cold_owner_node_id n = Some (p_node_id (pl_row v))) then Some (n_name n) else None)
    (select (fun p => p_lab_id p = p_lab_id (pl_row v) /\ p_state p <> PDeleting)
       (rows (lab_placements d))).

Definition assertNoSmbDependents (v : Placement) : Act unit :=
  d ← db;
  if negb (bool_decide (pl_cold_backend v = LocalZfs)) then mret tt
  else
    let dependents := smb_dependents d v in
    throw_if (negb (bool_decide (dependents = [])))
      (ESmbDependents (pl_lab_name v) (pl_node_name v) dependents).

Definition destroyPlacement (placementId : Z) (actor : option string) : Act unit :=
  p ← getPlacement placementId;
  match p with
  | None => mret tt
  | Some v =>
      assertNoSmbDependents v;;
      now ← date_now;
      update_placements (fun p => p_id p = placementId)
        (fun p => p <| p_state := PDeleting |> <| p_updated_at := now |>);;
      enqueueTask (pl_node_name v) "lab.destroy" (JObj [("lab", JStr (pl_lab_name v))]) actor;;
      audit actor "placement.destroy" (Some (pl_lab_name v +:+ "@" +:+ pl_node_name v)) None
  end.

Definition forceDeletePlacement (placementId : Z) (actor : option string) : Act unit :=
  p ← getPlacement placementId;
  match p with
  | None => mret tt
  | Some v =>
      throw_if (pl_online v) (ENodeOnline (pl_node_name v));;
      assertNoSmbDependents v;;
      enqueueTask (pl_node_name v) "lab.destroy" (JObj [("lab", JStr (pl_lab_name v))]) actor;;
      delete_placements (fun p => p_id p = placementId);;
      audit actor "placement.force_delete" (Some (pl_lab_name v +:+ "@" +:+ pl_node_name v)) None
  end.

(** ** Results *)

Definition markPlacementState (placementId : Z) (state : PlacementState) (lastError : option string)
    : Act unit :=
  now ← date_now;
  update_placements (fun p => p_id p = placementId)
    (fun p => p <| p_state := state |> <| p_last_error := lastError |> <| p_updated_at := now |>).

Definition markPlacementStateByLabNode (labName nodeName : string) (state : PlacementState)
    (lastError : option string) : Act unit :=
  p ← getPlacementByLabNode labName nodeName;
  match p with Some v => markPlacementState (p_id (pl_row v)) state lastError | None => mret tt end.

Definition markPlacementMemberState (labName nodeName username : string) (state : MemberState)
    (lastError : option string) : Act unit :=
  d ← db;
  match pendingCredential d labName nodeName username with
  | None => mret tt
  | Some c =>
      now ← date_now;
      update_members (fun m => pm_id m = pm_id (pc_member c))
        (fun m => m <| pm_state := state |> <| pm_last_error := lastError |> <| pm_updated_at := now |>)
  end.

Definition confirmPlacementDestroyed (labName nodeName : string) : Act unit :=
  p ← getPlacementByLabNode labName nodeName;
  match p with
  | Some v =>
      if bool_decide (p_state (pl_row v) = PDeleting)
      then delete_placements (fun p => p_id p = p_id (pl_row v)) else mret tt
  | None => mret tt
  end.
End placements.

(** ** The database stays well-formed *)

Section placements_wf.
Context {HK : Honker} {PF : Platform}.

Lemma getPlacement_ro I id : preserves I (getPlacement id).
Proof. unfold getPlacement. solve_preserves. Qed.
Lemma getPlacementByLabNode_ro I l n : preserves I (getPlacementByLabNode l n).
Proof. unfold getPlacementByLabNode. solve_preserves. Qed.
Lemma nextSshPortForNode_ro I n : preserves I (nextSshPortForNode n).
Proof. unfold nextSshPortForNode. solve_preserves. Qed.
Lemma nodePoolCapacityBytes_ro I n : preserves I (nodePoolCapacityBytes n).
Proof. unfold nodePoolCapacityBytes. solve_preserves. Qed.
Lemma assertNoSmbDependents_ro I v : preserves I (assertNoSmbDependents v).
Proof. unfold assertNoSmbDependents. solve_preserves. Qed.
#[local] Hint Resolve getPlacement_ro getPlacementByLabNode_ro nodePoolCapacityBytes_ro
  assertNoSmbDependents_ro : preserve.

Lemma touch_wf i : preserves wf (touch i).
Proof. unfold touch. solve_preserves. Qed.
Lemma provisionMemberOnPlacement_wf v s actor : preserves wf (provisionMemberOnPlacement v s actor).
Proof. unfold provisionMemberOnPlacement. solve_preserves. Qed.
#[local] Hint Resolve touch_wf provisionMemberOnPlacement_wf : preserve.
Lemma createPlacement_wf input : preserves wf (createPlacement input).
Proof. unfold createPlacement, enqueuePlacementCreate. solve_preserves. Qed.
Lemma burn_credential_wf i : preserves wf (burn_credential i).
Proof. unfold burn_credential. solve_preserves. Qed.
#[local] Hint Resolve burn_credential_wf : preserve.
Lemma send_off_wf f : preserves wf (send_off f).
Proof. by intros w. Qed.
#[local] Hint Resolve send_off_wf : preserve.
Lemma startCredentialDelivery_wf l n u : preserves wf (startCredentialDelivery l n u).
Proof. unfold startCredentialDelivery. solve_preserves. Qed.
#[local] Hint Resolve startCredentialDelivery_wf : preserve.
Lemma deliverPlacementCredential_wf l n u : preserves wf (deliverPlacementCredential l n u).
Proof. unfold deliverPlacementCredential. solve_preserves. Qed.
Lemma finishCredentialDelivery_wf i o : preserves wf (finishCredentialDelivery i o).
Proof. unfold finishCredentialDelivery. solve_preserves. Qed.
Lemma claimPlacementCompletion_wf l n : preserves wf (claimPlacementCompletion l n).
Proof. unfold claimPlacementCompletion, claim_completion. solve_preserves. Qed.
Lemma settlePlacementCompletion_wf i o : preserves wf (settlePlacementCompletion i o).
Proof. unfold settlePlacementCompletion. solve_preserves. Qed.
#[local] Hint Resolve claimPlacementCompletion_wf settlePlacementCompletion_wf : preserve.
Lemma finishPlacementCompletion_wf j : preserves wf (finishPlacementCompletion j).
Proof. unfold finishPlacementCompletion. solve_preserves. Qed.
Lemma maybeDeliverPlacementCompletion_wf l n : preserves wf (maybeDeliverPlacementCompletion l n).
Proof. unfold maybeDeliverPlacementCompletion. solve_preserves. Qed.
Lemma consumePlacementCredential_wf p s actor : preserves wf (consumePlacementCredential p s actor).
Proof. unfold consumePlacementCredential. solve_preserves. Qed.
Lemma removeMemberFromPlacement_wf v s u b actor r :
  preserves wf (removeMemberFromPlacement v s u b actor r).
Proof. unfold removeMemberFromPlacement. solve_preserves. Qed.
Lemma completeStudentRemoval_wf u : preserves wf (completeStudentRemoval u).
Proof. unfold completeStudentRemoval. solve_preserves. Qed.
Lemma updatePlacementQuota_wf i f c actor : preserves wf (updatePlacementQuota i f c actor).
Proof. unfold updatePlacementQuota. solve_preserves. Qed.
Lemma reprovisionPlacementMembers_wf v actor : preserves wf (reprovisionPlacementMembers v actor).
Proof. unfold reprovisionPlacementMembers. solve_preserves. Qed.
#[local] Hint Resolve reprovisionPlacementMembers_wf : preserve.
Lemma recreatePlacement_wf i input actor : preserves wf (recreatePlacement i input actor).
Proof. unfold recreatePlacement, set_if. solve_preserves. Qed.
Lemma retryPlacement_wf i actor : preserves wf (retryPlacement i actor).
Proof. unfold retryPlacement, enqueuePlacementCreate. solve_preserves. Qed.
Lemma destroyPlacement_wf i actor : preserves wf (destroyPlacement i actor).
Proof. unfold destroyPlacement. solve_preserves. Qed.
Lemma forceDeletePlacement_wf i actor : preserves wf (forceDeletePlacement i actor).
Proof. unfold forceDeletePlacement. solve_preserves. Qed.
Lemma markPlacementState_wf i s e : preserves wf (markPlacementState i s e).
Proof. unfold markPlacementState. solve_preserves. Qed.
#[local] Hint Resolve markPlacementState_wf : preserve.
Lemma markPlacementStateByLabNode_wf l n s e : preserves wf (markPlacementStateByLabNode l n s e).
Proof. unfold markPlacementStateByLabNode. solve_preserves. Qed.
Lemma markPlacementMemberState_wf l n u s e : preserves wf (markPlacementMemberState l n u s e).
Proof. unfold markPlacementMemberState. solve_preserves. Qed.
Lemma confirmPlacementDestroyed_wf l n : preserves wf (confirmPlacementDestroyed l n).
Proof. unfold confirmPlacementDestroyed. solve_preserves. Qed.
End placements_wf.
#[export] Hint Resolve getPlacement_ro getPlacementByLabNode_ro nextSshPortForNode_ro
  nodePoolCapacityBytes_ro assertNoSmbDependents_ro touch_wf provisionMemberOnPlacement_wf
  createPlacement_wf deliverPlacementCredential_wf finishCredentialDelivery_wf
  claimPlacementCompletion_wf settlePlacementCompletion_wf maybeDeliverPlacementCompletion_wf consumePlacementCredential_wf
  removeMemberFromPlacement_wf completeStudentRemoval_wf updatePlacementQuota_wf
  recreatePlacement_wf retryPlacement_wf destroyPlacement_wf forceDeletePlacement_wf
  markPlacementState_wf markPlacementStateByLabNode_wf markPlacementMemberState_wf
  confirmPlacementDestroyed_wf : preserve.
