(* ===== verification/PlacementFacts.v ===== *)
(** * PlacementFacts: allocation, gating, credentials and teardown of placements *)
From S2P Require Import Prelude Js Redact Schema Sql DbWf Env Secrets Queue Testbed QueueFacts Settings SettingsFacts Template Format Mailer MailerFacts Placements.
Open Scope Z_scope.

(** ** SSH ports *)

Lemma first_free_Some used p n q :
  first_free used p n = Some q ->
  p <= q < p + Z.of_nat n /\ q ∉ used /\ forall r, p <= r < q -> r ∈ used.
Proof.
  revert p. induction n as [|n IH]; intros p; cbn; [done|].
  destruct (bool_decide (p ∈ used)) eqn:Hp.
  - intros (H1 & H2 & H3)%IH. split; [lia|]. split; [done|]. intros r Hr.
    destruct (decide (r = p)) as [->|]; [by apply bool_decide_eq_true in Hp|]. apply H3. lia.
  - intros [= <-]. apply bool_decide_eq_false in Hp. split; [lia|]. split; [done|]. lia.
Qed.

Lemma first_free_None used p n :
  first_free used p n = None -> forall r, p <= r < p + Z.of_nat n -> r ∈ used.
Proof.
  revert p. induction n as [|n IH]; intros p; cbn; [lia|].
  destruct (bool_decide (p ∈ used)) eqn:Hp; [|done]. intros H r Hr.
  destruct (decide (r = p)) as [->|]; [by apply bool_decide_eq_true in Hp|].
  apply (IH (p + 1)); [done|lia].
Qed.

Section facts.
Context {HK : Honker} {PF : Platform}.
Implicit Types (w : World).

(** ** A controller that can queue tasks *)

Record ready w : Prop := {
  rd_key : exists key, env_sessionSecret = Ok key;
  rd_wf : wf w;
  rd_uuids : uuids_drawn w }.

Lemma runs_enqueue {US : UuidSpec} node action params by_ w :
  ready w -> runs (enqueueTask node action params by_) w (fun f w' =>
    enqueued node action params by_ w f w' /\ ready w').
Proof.
  intros [[key Hk] Hwf Hu].
  destruct (enqueueTask_run node action params by_ w key Hk (uuids_drawn_fresh w Hu))
    as (f & w' & Hr & He).
  exists f, w'. split; [done|]. split; [done|]. split; [by exists key| |].
  - pose proof (enqueueTask_wf node action params by_ w Hwf) as Hw. by rewrite Hr in Hw.
  - by eapply uuids_drawn_enqueue.
Qed.

Lemma runs_enqueue_unit {US : UuidSpec} node action params by_ w :
  ready w -> runs (enqueueTask node action params by_;; mret tt) w (fun _ w' =>
    exists f, enqueued node action params by_ w f w' /\ ready w').
Proof.
  intros Hr. eapply runs_bind; [by apply runs_enqueue|]. intros f w1 H. apply runs_ret. by exists f.
Qed.

(** Statements that keep the log keep a controller ready. *)
Lemma ready_step w w' :
  ready w -> wf w' -> tasks w' = tasks w -> (w_uuids w <= w_uuids w')%nat -> ready w'.
Proof.
  intros [Hk _ Hu] Hwf Ht Hle. split; [done|done|]. unfold uuids_drawn in *. rewrite Ht.
  eapply Forall_impl; [exact Hu|]. cbn. intros t (k & ? & ?). exists k. split; [lia|done].
Qed.

Lemma runs_encrypt plain w :
  ready w -> runs (encryptSecret plain) w (fun s w' => ready w' /\ w_db w' = w_db w /\ w_hk w' = w_hk w).
Proof.
  intros Hr. destruct (rd_key w Hr) as [key Hk].
  destruct (encryptSecret_run plain w key Hk) as (s & w' & He & Hw & _).
  exists s, w'. split; [done|]. pose proof (encryptSecret_wf plain w (rd_wf w Hr)) as Hwf.
  rewrite He in Hwf. destruct Hw as [->| ->]; [done|]. split; [|done].
  by eapply ready_step.
Qed.
End facts.

(** The port chosen for a new placement is the lowest port of the configured range that no
    placement on the node uses; an error is raised exactly when every port of the range is in
    use on the node. *)
Theorem nextSshPortForNode_lowest {HK : Honker} {PF : Platform} nodeId w :
  let d := w_db w in
  let lo := Z_of_json (read_setting "sshPortStart" (alookup "sshPortStart" (settings d))) in
  let hi := Z_of_json (read_setting "sshPortEnd" (alookup "sshPortEnd" (settings d))) in
  match nextSshPortForNode nodeId w with
  | (Ok p, w') => w' = w /\ lo <= p <= hi /\
      (forall q, q ∈ rows (lab_placements d) -> p_node_id q = nodeId -> p_ssh_port q <> p) /\
      (forall r, lo <= r < p -> exists q, q ∈ rows (lab_placements d) /\ p_node_id q = nodeId /\ p_ssh_port q = r)
  | (Throw e, w') => w' = w /\ e = ENoFreePort /\
      (forall r, lo <= r <= hi -> exists q, q ∈ rows (lab_placements d) /\ p_node_id q = nodeId /\ p_ssh_port q = r)
  end.
Proof.
  intros d lo hi.
  assert (forall r, r ∈ used_ports d nodeId <->
    exists q, q ∈ rows (lab_placements d) /\ p_node_id q = nodeId /\ p_ssh_port q = r) as Hin.
  { intros r. unfold used_ports. rewrite list_elem_of_fmap. setoid_rewrite elem_of_select. naive_solver. }
  unfold nextSshPortForNode, getSetting_Z, getSetting, mbind, M_bind. cbn -[read_setting first_free].
  fold d. fold lo hi. destruct (first_free _ _ _) as [p|] eqn:Hf; cbn.
  - apply first_free_Some in Hf as (Hr & Hno & Hlow). split; [done|]. split; [lia|]. split.
    + intros q Hq Hn Hp. apply Hno, Hin. eauto.
    + intros r Hr'. apply Hin, Hlow. lia.
  - split; [done|]. split; [done|]. intros r Hr. apply Hin. eapply first_free_None; [done|]. lia.
Qed.

(** ** What was queued *)

Section sends.
Context {HK : Honker} {HS : HonkerSpec} {PF : Platform} {CS : CryptoSpec}.
Implicit Types (w : World).

(** A log row and a waiting job of one task: the row masked, the job with everything. *)
Record sent_task (node : string) (a : string * json) (t : TaskRow) (j : Z * json) : Prop := {
  st_node : t_node t = node;
  st_action : t_action t = a.1;
  st_params : t_params t = Some (TJson (redactSecrets a.2));
  st_state : t_state t = TQueued;
  st_job : t_job_id t = j.1;
  st_frame : exists f, decodeFrame j.2 = Ok (encode_frame f) /\ f_id f = t_task_uuid t /\
                       f_action f = a.1 /\ f_params f = a.2 }.

(** The tasks queued for [node] between two states, in order. *)
Definition sends (node : string) (acts : list (string * json)) w w' : Prop :=
  exists ts js, tasks w' = tasks w ++ ts /\
    pending (w_hk w') (node_queue node) = pending (w_hk w) (node_queue node) ++ js /\
    Forall3 (sent_task node) acts ts js.

Lemma sends_refl node w : sends node [] w w.
Proof. exists [], []. rewrite !app_nil_r. split_and!; [done|done|constructor]. Qed.

Lemma sends_trans node l l' w w1 w2 :
  sends node l w w1 -> sends node l' w1 w2 -> sends node (l ++ l') w w2.
Proof.
  intros (ts & js & Ht & Hj & H) (ts' & js' & Ht' & Hj' & H').
  exists (ts ++ ts'), (js ++ js'). rewrite Ht', Ht, Hj', Hj, <- !app_assoc.
  split_and!; [done|done|]. by apply Forall3_app.
Qed.

(** A statement that touches neither the log nor the queue. *)
Lemma sends_same node l w w1 w2 :
  sends node l w w1 -> tasks w2 = tasks w1 -> w_hk w2 = w_hk w1 -> sends node l w w2.
Proof. intros (ts & js & Ht & Hj & H) H1 H2. exists ts, js. by rewrite H1, H2. Qed.

Lemma sends_same_l node l w w1 w2 :
  sends node l w1 w2 -> tasks w1 = tasks w -> w_hk w1 = w_hk w -> sends node l w w2.
Proof. intros (ts & js & Ht & Hj & H) H1 H2. exists ts, js. by rewrite <- H1, <- H2. Qed.

Lemma enqueued_sends node action params by_ w f w' :
  enqueued node action params by_ w f w' -> sends node [(action, params)] w w'.
Proof.
  intros H. destruct (enq_queue _ _ _ _ _ _ _ H) as (enc & now & Hq & Hd & Hdb).
  unfold sends, tasks. rewrite Hq, Hdb. cbn. eexists _, _. split; [done|].
  split; [apply pending_enqueue|]. constructor; [|constructor]. split; try done.
  exists f. unfold decodeFrame. cbn. rewrite (Hd CS). cbn.
  split_and!; [done|done|by apply (enq_action _ _ _ _ _ _ _ H)|by apply (enq_params _ _ _ _ _ _ _ H)].
Qed.
End sends.

(** ** Reads that depend on few tables *)

(** The tables that describe labs, nodes, students and placements. *)
Definition core (d : Db) :=
  (settings d, nodes d, labs d, students d, lab_members d, lab_placements d).

Lemma view_ext d d' p : labs d' = labs d -> nodes d' = nodes d -> view d' p = view d p.
Proof. unfold view, lab_of, node_of. by intros -> ->. Qed.

Lemma wf_lookup {A} (id : A -> Z) l i : i ∈ id <$> l -> is_Some (get_row (fun x => id x = i) l).
Proof. intros (x & -> & Hx)%list_elem_of_fmap. by eapply get_row_is_Some. Qed.

Lemma lookup_wf {A} (id : A -> Z) l i x : get_row (fun x => id x = i) l = Some x -> i ∈ id <$> l.
Proof. intros [<- Hx]%get_row_Some. by apply list_elem_of_fmap_2. Qed.

(** In a well-formed database every placement has its joins. *)
Lemma view_total d p : db_wf d -> p ∈ rows (lab_placements d) -> is_Some (view d p).
Proof.
  intros Hd Hp. unfold view, lab_of, node_of.
  destruct (wf_lookup l_id (rows (labs d)) (p_lab_id p)) as [l ->].
  { by apply (fk_elim _ _ _ _ _ (fk_pl_lab _ Hd) Hp). }
  destruct (wf_lookup n_id (rows (nodes d)) (p_node_id p)) as [n ->].
  { by apply (fk_elim _ _ _ _ _ (fk_pl_node _ Hd) Hp). }
  by eexists.
Qed.

Lemma view_row d p v : view d p = Some v -> pl_row v = p.
Proof. unfold view. intros H. by repeat (apply bind_Some in H as (? & ? & H)); simplify_eq. Qed.

Lemma elem_of_views d v : v ∈ views d <-> exists p, p ∈ rows (lab_placements d) /\ view d p = Some v.
Proof. unfold views. by rewrite list_elem_of_omap. Qed.

Lemma view_names d p v :
  view d p = Some v -> exists l n, lab_of d (p_lab_id p) = Some l /\ node_of d (p_node_id p) = Some n /\
    pl_lab_name v = l_name l /\ pl_node_name v = n_name n /\ pl_online v = n_online n /\
    pl_cold_backend v = n_cold_backend n.
Proof.
  unfold view. intros H. apply bind_Some in H as (l & Hl & H). apply bind_Some in H as (n & Hn & H).
  exists l, n. by simplify_eq.
Qed.

(** A look-up by lab and node after the placements' other columns changed. *)
Lemma find_by_lab_node_map f d lab node :
  (forall p, p_lab_id (f p) = p_lab_id p /\ p_node_id (f p) = p_node_id p) ->
  find_by_lab_node (d <| lab_placements ::= tbl_map f |>) lab node =
  (fun v => v <| pl_row ::= f |>) <$> find_by_lab_node d lab node.
Proof.
  intros Hf. unfold find_by_lab_node, views. rewrite <- get_row_fmap by done. f_equal.
  cbn. apply omap_fmap_comm. intros p. unfold view, lab_of, node_of. cbn.
  destruct (Hf p) as [-> ->].
  destruct (get_row (fun l => l_id l = _) _); cbn; [|done].
  by destruct (get_row (fun n => n_id n = p_node_id p) _).
Qed.

(** ** Statements on one placement *)

Section one.
Context {HK : Honker} {PF : Platform}.
Implicit Types (w : World) (v : Placement).

Lemma find_by_lab_node_row d lab node v :
  find_by_lab_node d lab node = Some v -> pl_row v ∈ rows (lab_placements d).
Proof.
  intros (_ & (p & Hp & Hv)%elem_of_views)%get_row_Some. by rewrite (view_row _ _ _ Hv).
Qed.

(** The state set by a result. *)
Definition in_state (s : PlacementState) (e : option string) (now : Z) (p : PlacementRow) : PlacementRow :=
  p <| p_state := s |> <| p_last_error := e |> <| p_updated_at := now |>.

Lemma mark_run lab node s e v w :
  find_by_lab_node (w_db w) lab node = Some v ->
  exists w', markPlacementStateByLabNode lab node s e w = (Ok tt, w') /\
    w_db w' = (w_db w) <| lab_placements ::=
      tbl_update (fun p => p_id p = p_id (pl_row v)) (in_state s e (clock (w_ticks w))) |>.
Proof.
  intros Hv. unfold markPlacementStateByLabNode, getPlacementByLabNode.
  rewrite (bind_step _ _ w (Some v) w).
  - by eexists.
  - rewrite (bind_step db _ w (w_db w) w) by done. by rewrite Hv.
Qed.

Lemma find_marked lab node s e now v d :
  find_by_lab_node d lab node = Some v ->
  find_by_lab_node (d <| lab_placements ::=
      tbl_update (fun p => p_id p = p_id (pl_row v)) (in_state s e now) |>) lab node =
  Some (v <| pl_row ::= in_state s e now |>).
Proof.
  intros Hv. set (f := fun p => if decide (p_id p = p_id (pl_row v)) then in_state s e now p else p).
  change (find_by_lab_node (d <| lab_placements ::= tbl_map f |>) lab node = Some (v <| pl_row ::= in_state s e now |>)).
  rewrite (find_by_lab_node_map f), Hv.
  - cbn. f_equal. unset. f_equal. unfold f. by rewrite decide_True.
  - intros p. unfold f. by case_decide.
Qed.

Lemma confirm_run lab node v w :
  find_by_lab_node (w_db w) lab node = Some v ->
  confirmPlacementDestroyed lab node w =
    if bool_decide (p_state (pl_row v) = PDeleting)
    then (Ok tt, w <| w_db ::= drop_placements (fun p => p_id p = p_id (pl_row v)) |>) else (Ok tt, w).
Proof.
  intros Hv. unfold confirmPlacementDestroyed, getPlacementByLabNode.
  rewrite (bind_step _ _ w (Some v) w).
  - by case_bool_decide.
  - rewrite (bind_step db _ w (w_db w) w) by done. by rewrite Hv.
Qed.
End one.
