(* ===== verification/ProvisionFacts.v ===== *)
(** * ProvisionFacts: creating a placement and provisioning its roster *)
From S2P Require Import Prelude Js Redact Schema Sql DbWf Env Secrets Queue Testbed QueueFacts Settings SettingsFacts Template Format Mailer MailerFacts Placements PlacementFacts.
Open Scope Z_scope.

Section facts.
Context {HK : Honker} {HS : HonkerSpec} {PF : Platform} {CS : CryptoSpec} {US : UuidSpec}.
Implicit Types (w : World) (v : Placement).

Lemma runs_password n w :
  ready w -> runs (generatePassword n) w (fun p w' =>
    p = password_of (random_byte <$> seq (w_bytes w) n) /\ ready w' /\ w_db w' = w_db w /\ w_hk w' = w_hk w).
Proof.
  intros Hr. eexists _, _. split; [done|]. split; [done|]. split; [|done].
  by apply (ready_step w); [done|apply (rd_wf w Hr)|..].
Qed.

Lemma runs_audit actor action target detail w :
  ready w -> runs (audit actor action target detail) w (fun _ w' =>
    ready w' /\ tasks w' = tasks w /\ w_hk w' = w_hk w /\ core (w_db w') = core (w_db w) /\
    placement_members (w_db w') = placement_members (w_db w)).
Proof.
  intros Hr. eexists _, _. split; [done|]. split; [|done].
  by apply (ready_step w); [done|apply (audit_wf actor action target detail w (rd_wf w Hr))|..].
Qed.

(** One account: its member row, holding the encrypted password, and the task that carries the
    same password to the agent. *)
Record provisioned v (s : ProvisionStudent) (m : PlacementMemberRow) (a : string * json) : Prop := {
  pv_placement : pm_placement_id m = p_id (pl_row v);
  pv_student : pm_student_id m = ps_id s;
  pv_state : pm_state m = MProvisioning;
  pv_secret : exists secret pw, pm_credential_secret m = Some secret /\ decryptSecret secret = TRaw pw /\
    String.length pw = 14%nat /\ a = ("student.add", add_params v (ps_username s) pw (ps_linux_uid s)) }.

Lemma runs_insert_member pid sid secret now w :
  ready w -> pid ∈ p_id <$> rows (lab_placements (w_db w)) -> sid ∈ s_id <$> rows (students (w_db w)) ->
  member_row (w_db w) pid sid = None ->
  runs (insert_placement_member pid sid secret now) w (fun _ w' =>
    ready w' /\ tasks w' = tasks w /\ w_hk w' = w_hk w /\ core (w_db w') = core (w_db w) /\
    placement_members (w_db w') = tbl_insert (fun i =>
      mkPlacementMember i pid sid MProvisioning None secret None now now) (placement_members (w_db w))).
Proof.
  intros Hr Hp Hs Hm. pose proof (insert_placement_member_wf pid sid secret now w (rd_wf w Hr)) as Hwf.
  assert (insert_placement_member pid sid secret now w = (Ok tt, w <| w_db ::= fun d =>
    d <| placement_members ::= tbl_insert (fun i =>
      mkPlacementMember i pid sid MProvisioning None secret None now now) |> |>)) as He.
  { unfold insert_placement_member, mbind, M_bind. cbn -[tbl_insert].
    rewrite !bool_decide_eq_true_2 by done. cbn. rewrite bool_decide_eq_false_2; [done|].
    intros (m & [= -> ->] & Hin)%list_elem_of_fmap. unfold member_row in Hm.
    rewrite get_row_None in Hm. by apply (Hm m Hin). }
  rewrite He in Hwf. eexists _, _. split; [exact He|]. split; [|done]. by apply (ready_step w).
Qed.

(** Provisioning a student without an account on the placement. *)
Lemma runs_provision v s actor w :
  ready w -> p_id (pl_row v) ∈ p_id <$> rows (lab_placements (w_db w)) ->
  ps_id s ∈ s_id <$> rows (students (w_db w)) ->
  member_row (w_db w) (p_id (pl_row v)) (ps_id s) = None ->
  runs (provisionMemberOnPlacement v s actor) w (fun r w' =>
    r = Some (pl_node_name v) /\ ready w' /\ core (w_db w') = core (w_db w) /\ exists m a,
      rows (placement_members (w_db w')) = rows (placement_members (w_db w)) ++ [m] /\
      provisioned v s m a /\ sends (pl_node_name v) [a] w w').
Proof.
  intros Hr Hp Hs Hm. unfold provisionMemberOnPlacement.
  apply runs_gets. rewrite Hm. apply (runs_bind _ _ _ (fun now w1 =>
    ready w1 /\ w_db w1 = w_db w /\ w_hk w1 = w_hk w)).
  { eexists _, _. split; [done|]. split; [|done]. by apply (ready_step w); [done|apply (rd_wf w Hr)|cbn..]. }
  intros now w1 (Hr1 & Hd1 & Hk1).
  eapply runs_bind; [by apply runs_password|]. intros pw w2 (-> & Hr2 & Hd2 & Hk2).
  set (pw := password_of _).
  destruct (runs_encrypt (TRaw pw) w2 Hr2) as (secret & w3 & He & Hr3 & Hd3 & Hk3).
  eapply runs_bind; [by eapply (runs_eq _ _ _ _ (fun s w' => s = secret /\ w' = w3))|].
  intros ? ? [-> ->]. assert (w_db w3 = w_db w) as Hd by congruence.
  eapply runs_bind; [apply runs_insert_member; [done|by rewrite Hd..]|].
  intros [] w4 (Hr4 & Ht4 & Hk4 & Hc4 & Hm4).
  eapply runs_bind; [by apply runs_enqueue|]. intros f w5 [Hq Hr5]. apply runs_ret.
  split; [done|]. split; [done|]. pose proof Hq as Hq'. destruct Hq' as [_ _ _ _ (enc & now5 & _ & _ & Hd5) _ _ _ _].
  split; [rewrite Hd5; cbn; by rewrite <- Hd, <- Hc4|].
  eexists _, ("student.add", add_params v (ps_username s) pw (ps_linux_uid s)). split; [|split].
  - rewrite Hd5. cbn. rewrite Hm4. unfold tbl_insert. cbn. by rewrite Hd.
  - split; try done. exists secret, pw. split_and!; [done|by apply (decrypt_encrypt _ _ _ _ He)| |done].
    unfold pw. by rewrite length_password_of, length_fmap, length_seq.
  - apply enqueued_sends in Hq. apply (sends_same_l _ _ _ w4); [done| |congruence].
    rewrite Ht4. unfold tasks. by rewrite Hd.
Qed.

(** ** The roster *)

Lemma elem_of_roster d lab s :
  s ∈ roster d lab <-> exists m st, m ∈ rows (lab_members d) /\ lm_lab_id m = lab /\
    student_of d (lm_student_id m) = Some st /\ s = mkProvision (s_id st) (s_username st) (s_linux_uid st).
Proof.
  unfold roster. rewrite list_elem_of_fmap. setoid_rewrite elem_of_sort_by.
  setoid_rewrite list_elem_of_omap. setoid_rewrite elem_of_select. naive_solver.
Qed.

Lemma omap_fmap_id {A B} (f : A -> option B) (key : A -> Z) (key' : B -> Z) (l : list A) :
  (forall a b, f a = Some b -> key' b = key a) -> (forall a, a ∈ l -> is_Some (f a)) ->
  key' <$> omap f l = key <$> l.
Proof.
  intros Hk Hs. induction l as [|a l IH]; [done|]. cbn.
  destruct (Hs a ltac:(constructor)) as [b Hb]. rewrite Hb. cbn. f_equal; [by apply Hk|].
  apply IH. intros x Hx. apply Hs. by constructor.
Qed.

(** Every member of the lab appears once, as an existing student. *)
Lemma roster_ids d lab : db_wf d ->
  (ps_id <$> roster d lab) ≡ₚ lm_student_id <$> select (fun m => lm_lab_id m = lab) (rows (lab_members d)).
Proof.
  intros Hd. unfold roster. rewrite <- list_fmap_compose, sort_by_perm.
  change (ps_id ∘ _) with s_id. erewrite omap_fmap_id; [done| |].
  - intros m s [Hs _]%get_row_Some. done.
  - intros m [_ Hm]%elem_of_select. unfold student_of. apply wf_lookup.
    apply (fk_elim _ _ _ _ _ (fk_lm_student _ Hd) Hm). done.
Qed.

Lemma roster_NoDup d lab : db_wf d -> NoDup (ps_id <$> roster d lab).
Proof.
  intros Hd. rewrite roster_ids by done. pose proof (wf_lm_unique _ Hd) as Hu.
  assert (NoDup ((fun m => (lm_lab_id m, lm_student_id m)) <$>
    select (fun m => lm_lab_id m = lab) (rows (lab_members d)))) as Hn.
  { eapply sublist_NoDup; [exact Hu|]. apply fmap_sublist, sublist_filter. }
  assert (Forall (fun m => lm_lab_id m = lab) (select (fun m => lm_lab_id m = lab) (rows (lab_members d)))) as Hl.
  { apply Forall_forall. by intros m [??]%elem_of_select. }
  induction Hl as [|m l Hm Hl IH]; cbn in *; [constructor|].
  apply NoDup_cons in Hn as [Hn Hnl]. apply NoDup_cons. split; [|by apply IH].
  intros (m' & He & Hin)%list_elem_of_fmap. apply Hn. apply list_elem_of_fmap. exists m'.
  split; [|done]. f_equal; [|done]. rewrite Forall_forall in Hl. rewrite Hm. symmetry. by apply Hl.
Qed.

(** ** Provisioning the roster *)

(** The members added so far, with their tasks. *)
Definition added v w0 (done : list ProvisionStudent) w : Prop :=
  ready w /\ core (w_db w) = core (w_db w0) /\ exists ms acts,
    rows (placement_members (w_db w)) = rows (placement_members (w_db w0)) ++ ms /\
    Forall3 (provisioned v) done ms acts /\ sends (pl_node_name v) acts w0 w.

Lemma runs_provision_all v l actor w0 :
  ready w0 -> p_id (pl_row v) ∈ p_id <$> rows (lab_placements (w_db w0)) ->
  (forall s, s ∈ l -> ps_id s ∈ s_id <$> rows (students (w_db w0))) -> NoDup (ps_id <$> l) ->
  (forall m, m ∈ rows (placement_members (w_db w0)) -> pm_placement_id m <> p_id (pl_row v)) ->
  runs (for_each (fun s => provisionMemberOnPlacement v s actor;; mret tt) l) w0
    (fun _ w => added v w0 l w).
Proof.
  intros Hr Hp Hs Hnd Hno.
  apply (runs_mono _ _ (fun _ w => l = l ++ [] /\ added v w0 l w)); [|by intros ? ? []].
  apply (runs_for_each _ _ _ (fun done todo w => l = done ++ todo /\ added v w0 done w)).
  - split; [done|]. split; [done|]. split; [done|]. exists [], []. rewrite app_nil_r.
    split_and!; [done|constructor|apply sends_refl].
  - intros s done todo w (Hl & Hr1 & Hc & ms & acts & Hms & Hf & Hsend).
    assert (Hc' := Hc). injection Hc' as _ _ _ Hst _ Hpl.
    eapply runs_bind.
    + apply runs_provision; [done|by rewrite Hpl|rewrite Hst; apply Hs; rewrite Hl; set_solver|].
      apply get_row_None. rewrite Hms. intros m [Hm|Hm]%elem_of_app [H1 H2]; [by apply (Hno m Hm)|].
      apply Forall3_length_lm in Hf as Hlen.
      apply list_elem_of_lookup in Hm as [i Hi].
      destruct (Forall3_lookup_m _ _ _ _ _ _ Hf Hi) as (s' & a & Hs' & _ & [_ Hsid _ _]).
      rewrite Hl in Hnd. rewrite fmap_app in Hnd. apply NoDup_app in Hnd as (_ & Hd & _).
      apply (Hd (ps_id s)); [|cbn; constructor]. rewrite <- H2, Hsid.
      apply list_elem_of_fmap_2. by eapply list_elem_of_lookup_2.
    + intros r w1 (-> & Hr2 & Hc2 & m & a & Hm & Hpv & Hs1). apply runs_ret.
      split; [by rewrite <- app_assoc|]. split; [done|]. split; [congruence|].
      exists (ms ++ [m]), (acts ++ [a]). rewrite Hm, Hms, <- app_assoc. split; [done|].
      split; [|by eapply sends_trans]. apply Forall3_app; [done|]. constructor; [done|]. apply Forall3_nil.
Qed.
End facts.
