(* ===== verification/CreateFacts.v ===== *)
(** * CreateFacts: granting a lab access to a node is all or nothing *)
From S2P Require Import Prelude Js Redact Schema Sql DbWf Env Secrets Queue Testbed QueueFacts Settings SettingsFacts Template Format Mailer MailerFacts Placements PlacementFacts ProvisionFacts.
Open Scope Z_scope.

Section facts.
Context {HK : Honker} {HS : HonkerSpec} {PF : Platform} {CS : CryptoSpec} {US : UuidSpec}.
Implicit Types (w : World) (v : Placement).

(** The cold quota and the per-student cold quota a new placement gets, and what an SMB client
    needs first. *)
Definition cold_terms (d : Db) (input : CreatePlacementInput) (node : NodeRow) (p : PlacementRow) : Prop :=
  match n_cold_backend node with
  | Smb => smb_gate d (ci_labId input) node = Ok tt /\ p_cold_quota_bytes p = None /\
           p_student_cold_quota_bytes p = None
  | LocalZfs => is_Some (ci_coldQuotaBytes input) /\ p_cold_quota_bytes p = ci_coldQuotaBytes input /\
           p_student_cold_quota_bytes p = ci_studentColdQuotaBytes input
  end.

(** What a successful grant leaves behind. *)
Record granted (input : CreatePlacementInput) (node : NodeRow) v w w' : Prop := {
  gr_ready : ready w';
  gr_row : rows (lab_placements (w_db w')) = rows (lab_placements (w_db w)) ++ [pl_row v];
  gr_lab : p_lab_id (pl_row v) = ci_labId input;
  gr_node : p_node_id (pl_row v) = ci_nodeId input;
  gr_port : p_ssh_port (pl_row v) = ci_sshPort input;
  gr_fast : p_fast_quota_bytes (pl_row v) = ci_fastQuotaBytes input;
  gr_state : p_state (pl_row v) = PProvisioning;
  gr_cold : cold_terms (w_db w) input node (pl_row v);
  gr_rest : nodes (w_db w') = nodes (w_db w) /\ labs (w_db w') = labs (w_db w) /\
            students (w_db w') = students (w_db w) /\ lab_members (w_db w') = lab_members (w_db w);
  gr_members : exists ms acts,
    rows (placement_members (w_db w')) = rows (placement_members (w_db w)) ++ ms /\
    Forall3 (provisioned v) (roster (w_db w) (ci_labId input)) ms acts /\
    sends (n_name node) (("lab.create", create_params v) :: acts) w w' }.

(** The statements after the insert. *)
Definition grant_tail (input : CreatePlacementInput) (id : Z) : Act Placement :=
  placement ← getPlacement id;
  match placement with
  | None => throw ETypeError
  | Some v =>
      enqueuePlacementCreate v (ci_actor input);;
      audit (ci_actor input) "placement.create"
        (Some (pl_lab_name v +:+ "@" +:+ pl_node_name v)) None;;
      d ← db;
      for_each (fun s => provisionMemberOnPlacement v s (ci_actor input);; mret tt)
        (roster d (ci_labId input));;
      mret v
  end.

Lemma runs_getPlacement {A} id (k : option Placement -> Act A) w Q :
  runs (k (find_placement (w_db w) id)) w Q -> runs (getPlacement id ≫= k) w Q.
Proof. done. Qed.

Lemma roster_ext d d' lab :
  students d' = students d -> lab_members d' = lab_members d -> roster d' lab = roster d lab.
Proof. unfold roster, student_of. by intros -> ->. Qed.

Lemma runs_grant_tail input p w :
  ready w -> p ∈ rows (lab_placements (w_db w)) -> p_lab_id p = ci_labId input ->
  (forall m, m ∈ rows (placement_members (w_db w)) -> pm_placement_id m <> p_id p) ->
  runs (grant_tail input (p_id p)) w (fun v w' =>
    pl_row v = p /\ ready w' /\ core (w_db w') = core (w_db w) /\
    (exists node, node_of (w_db w) (p_node_id p) = Some node /\ pl_node_name v = n_name node) /\
    exists ms acts,
      rows (placement_members (w_db w')) = rows (placement_members (w_db w)) ++ ms /\
      Forall3 (provisioned v) (roster (w_db w) (ci_labId input)) ms acts /\
      sends (pl_node_name v) (("lab.create", create_params v) :: acts) w w').
Proof.
  intros Hr Hp Hlab Hno. pose proof (proj1 (rd_wf w Hr)) as Hd.
  destruct (view_total _ p Hd Hp) as [v Hv]. pose proof (view_row _ _ _ Hv) as Hrow.
  assert (find_placement (w_db w) (p_id p) = Some v) as Hfind.
  { unfold find_placement, placement_of.
    rewrite (get_row_unique _ p_id p); [done|apply (wf_pl _ Hd)|done|done|done]. }
  unfold grant_tail. apply runs_getPlacement. rewrite Hfind. unfold enqueuePlacementCreate.
  eapply runs_bind; [by apply runs_enqueue_unit|]. intros [] w1 (f & Hq & Hr1).
  eapply runs_bind; [by apply runs_audit|]. intros [] w2 (Hr2 & Ht2 & Hk2 & Hc2 & Hm2).
  apply runs_gets. pose proof (enqueued_sends _ _ _ _ _ _ _ Hq) as Hs1.
  destruct Hq as [_ _ _ _ (enc & now & _ & _ & Hd1) _ _ _ _].
  assert (core (w_db w2) = core (w_db w)) as Hc by (rewrite Hc2, Hd1; done).
  assert (placement_members (w_db w2) = placement_members (w_db w)) as Hm by (rewrite Hm2, Hd1; done).
  assert (Hc' := Hc). injection Hc' as _ _ _ Hst Hlm Hpl.
  rewrite (roster_ext (w_db w)) by done.
  eapply runs_bind.
  { apply runs_provision_all; [done| | |by apply roster_NoDup|].
    - rewrite Hpl, Hrow. by apply list_elem_of_fmap_2.
    - intros s (m & st & _ & _ & Hs & ->)%elem_of_roster. rewrite Hst. cbn.
      apply get_row_Some in Hs as [_ Hs]. by apply list_elem_of_fmap_2.
    - rewrite Hm, Hrow. exact Hno. }
  intros [] w3 (Hr3 & Hc3 & ms & acts & Hms & Hf & Hs3). apply runs_ret.
  split; [done|]. split; [done|]. split; [congruence|]. split.
  { destruct (view_names _ _ _ Hv) as (l & n & _ & Hn & _ & Hname & _). eauto. }
  exists ms, acts. split; [by rewrite Hms, Hm|]. split; [done|].
  change (("lab.create", create_params v) :: acts) with ([("lab.create", create_params v)] ++ acts).
  eapply sends_trans; [exact Hs1|]. by apply (sends_same_l _ _ _ w2).
Qed.

(** A fresh placement id has no members. *)
Lemma fresh_no_members d m :
  db_wf d -> m ∈ rows (placement_members d) -> pm_placement_id m <> last_id (lab_placements d) + 1.
Proof.
  intros Hd Hm Hi.
  pose proof (fk_elim _ _ _ _ _ (fk_pm_pl _ Hd) Hm eq_refl) as (p & Hp & Hin)%list_elem_of_fmap.
  cbn in Hp. destruct (wf_pl _ Hd) as [[_ Hr] _]. rewrite Forall_forall in Hr.
  specialize (Hr _ Hin). lia.
Qed.
End facts.

(** The insert fails on a constraint and changes nothing, or adds the row under the next id. *)
Lemma insert_placement_cases {HK : Honker} lab node port mk w :
  let i := last_id (lab_placements (w_db w)) + 1 in
  insert_placement lab node port mk w = (Throw (ESqlConstraint "lab_placements"), w) \/
  insert_placement lab node port mk w = (Ok i, w <| w_db ::= fun d => d <| lab_placements ::= tbl_insert
    (fun i => (mk i) <| p_id := i |> <| p_lab_id := lab |> <| p_node_id := node |>
                     <| p_ssh_port := port |>) |> |>).
Proof.
  intros i. unfold insert_placement. rewrite (bind_step _ _ w (w_db w) w) by done. cbv beta.
  destruct (_ || _); [by left|by right].
Qed.

(** The row of a grant. *)
Definition new_placement (input : CreatePlacementInput) (smb : bool) (cold : option Z) (now i : Z)
    : PlacementRow :=
  {| p_id := i; p_lab_id := ci_labId input; p_node_id := ci_nodeId input;
     p_fast_quota_bytes := ci_fastQuotaBytes input; p_cold_quota_bytes := cold;
     p_student_fast_quota_bytes := ci_studentFastQuotaBytes input;
     p_student_cold_quota_bytes := if smb then None else ci_studentColdQuotaBytes input;
     p_ssh_port := ci_sshPort input; p_image := ci_image input;
     p_container_options := Some (TJson (JObj (options_obj (ci_containerOptions input))));
     p_state := PProvisioning; p_last_error := None; p_usage_scanned_at := None;
     p_last_usage_scan := None; p_completion_email_sent_at := None;
     p_created_at := now; p_updated_at := now |}.

Definition all_or_nothing {HK : Honker} {HS : HonkerSpec} {PF : Platform} {CS : CryptoSpec}
    input (w : World) (r : result exn Placement) (w' : World) : Prop :=
  match r with
  | Throw e => w_db w' = w_db w /\ w_hk w' = w_hk w
  | Ok v => exists node, node_of (w_db w) (ci_nodeId input) = Some node /\ granted input node v w w'
  end.

(** The grant once its cold quota is decided. *)
Lemma wp_grant {HK : Honker} {HS : HonkerSpec} {PF : Platform} {CS : CryptoSpec} {US : UuidSpec}
    input node cold (w : World) :
  let smb := bool_decide (n_cold_backend node = Smb) in
  ready w -> node_of (w_db w) (ci_nodeId input) = Some node ->
  (forall now i, cold_terms (w_db w) input node (new_placement input smb cold now i)) ->
  wp (now ← date_now;
      id ← insert_placement (ci_labId input) (ci_nodeId input) (ci_sshPort input)
        (new_placement input smb cold now);
      grant_tail input id) (all_or_nothing input w) w.
Proof.
  intros smb Hr Hnode Hcold. eapply wp_step; [done|]. set (now := clock (w_ticks w)).
  set (w1 := w <| w_ticks ::= S |>).
  set (mk := new_placement input smb cold now).
  pose proof (insert_placement_wf (ci_labId input) (ci_nodeId input) (ci_sshPort input) mk w1 (rd_wf w Hr)) as Hwf.
  destruct (insert_placement_cases (ci_labId input) (ci_nodeId input) (ci_sshPort input) mk w1) as [Hi|Hi].
  { unfold wp. by rewrite (bind_throw _ _ _ _ _ Hi). }
  rewrite Hi in Hwf. set (w2 := (_ : result exn Z * World).2) in Hwf.
  assert (ready w2) as Hr2 by by apply (ready_step w).
  eapply wp_step; [exact Hi|]. cbn [w_db w1].
  set (p := mk (last_id (lab_placements (w_db w)) + 1)).
  apply wp_runs. eapply runs_mono.
  { apply (runs_grant_tail input p w2); [done|unfold w2; cbn; set_solver|done|].
    intros m. by apply (fresh_no_members (w_db w) m (proj1 (rd_wf w Hr))). }
  intros v w3 (Hv & Hr3 & Hc3 & (n & Hn & Hname) & ms & acts & Hms & Hf & Hs).
  exists node. split; [done|]. assert (n = node) as ->.
  { change (node_of (w_db w) (ci_nodeId input) = Some n) in Hn. congruence. }
  rewrite Hname in Hs.
  injection Hc3 as _ H1 H2 H3 H4 H5. split; rewrite ?Hv; try done.
  - by rewrite H5.
  - apply Hcold.
  - exists ms, acts. split_and!; [done|done|by apply (sends_same_l _ _ _ w2)].
Qed.

(** C14: under a controller that can queue tasks, granting a lab access to a node either fails
    and leaves the database and the queues as they were, or creates exactly one placement,
    provisioning, with the quotas, port and node asked for; an SMB client only passes when its
    owner hosts the lab, is active, has a live mount and the same user-namespace mapping, and
    then gets no cold quota of its own; every member of the lab gets one provisioning account
    whose stored credential decrypts to the password sent to the agent; and the node is sent
    lab.create first, then one student.add per member in roster order. *)
Theorem createPlacement_all_or_nothing {HK : Honker} {HS : HonkerSpec} {PF : Platform}
    {CS : CryptoSpec} {US : UuidSpec} input w :
  ready w ->
  match createPlacement input w with
  | (Throw e, w') => w_db w' = w_db w /\ w_hk w' = w_hk w
  | (Ok v, w') => exists node, node_of (w_db w) (ci_nodeId input) = Some node /\ granted input node v w w'
  end.
Proof.
  intros Hr. cut (wp (createPlacement input) (all_or_nothing input w) w);
    [unfold wp, all_or_nothing; by destruct (createPlacement input w) as [[]]|].
  unfold createPlacement. apply wp_gets.
  destruct (node_of (w_db w) (ci_nodeId input)) as [node|] eqn:Hnode; [|done].
  apply wp_lift; [intros [] _|done].
  destruct (bool_decide (n_cold_backend node = Smb)) eqn:Hsmb; cbv iota.
  - apply bool_decide_eq_true in Hsmb. apply wp_bind. apply wp_lift; [intros [] Hg|done].
    change (wp (throw_if (bad_share_of (ci_studentFastQuotaBytes input) (Some (ci_fastQuotaBytes input))) EStudentFastQuota;;
       throw_if false EStudentColdQuota;; (now ← date_now; id ← insert_placement (ci_labId input) (ci_nodeId input) (ci_sshPort input)
        (new_placement input true None now); grant_tail input id)) (all_or_nothing input w) w).
    do 2 (apply wp_throw_if; [done|intros _]).
    pose proof (wp_grant input node None w Hr Hnode) as H. rewrite bool_decide_eq_true_2 in H by done.
    apply H. intros now i. unfold cold_terms. by rewrite Hsmb.
  - apply bool_decide_eq_false in Hsmb. destruct (ci_coldQuotaBytes input) as [q|] eqn:Hq; [|done].
    apply wp_bind. do 2 (apply wp_throw_if; [done|intros _]).
    pose proof (wp_grant input node (Some q) w Hr Hnode) as H. rewrite bool_decide_eq_false_2 in H by done.
    apply H. intros now i. unfold cold_terms. destruct (n_cold_backend node); [|done]. cbn. by rewrite Hq.
Qed.

(** ** The fixture *)

Section witness.
#[local] Existing Instance toy_honker.
#[local] Instance create_pf : Platform := demo_pf demo_accepts.
#[local] Instance create_cs : CryptoSpec := toy_crypto toy_env demo_accepts.
#[local] Instance create_us : UuidSpec := demo_uuid demo_accepts.

Definition demo_input : CreatePlacementInput :=
  {| ci_labId := 1; ci_nodeId := 1; ci_fastQuotaBytes := 1000000; ci_coldQuotaBytes := Some 2000000;
     ci_studentFastQuotaBytes := None; ci_studentColdQuotaBytes := Some 1000;
     ci_sshPort := 2200; ci_image := "ubuntu:24.04"; ci_containerOptions := DEFAULT_CONTAINER_OPTIONS;
     ci_actor := Some "root" |}.

Lemma demo_ready : ready (demo_world demo_accepts).
Proof.
  split; [eexists; vm_compute; reflexivity|apply demo_world_wf|].
  unfold uuids_drawn. assert (tasks (demo_world demo_accepts) = []) as -> by (vm_compute; reflexivity).
  constructor.
Qed.

Lemma createPlacement_all_or_nothing_witness : exists v w',
  createPlacement demo_input (demo_world demo_accepts) = (Ok v, w') /\
  exists ms acts, Forall3 (provisioned v) (roster (w_db (demo_world demo_accepts)) 1) ms acts /\
    sends "n1" (("lab.create", create_params v) :: acts) (demo_world demo_accepts) w' /\
    length acts = 2%nat.
Proof.
  pose proof (createPlacement_all_or_nothing demo_input (demo_world demo_accepts) demo_ready) as H.
  destruct (createPlacement demo_input (demo_world demo_accepts)) as [[v|e] w'] eqn:E.
  - exists v, w'. split; [reflexivity|]. destruct H as (node & Hn & Hg).
    assert (n_name node = "n1") as Hname.
    { assert (is_Some (node_of (w_db (demo_world demo_accepts)) (ci_nodeId demo_input)) /\
        n_name <$> node_of (w_db (demo_world demo_accepts)) (ci_nodeId demo_input) = Some "n1") as [_ Hx].
      { rewrite Hn. split; [exists node; reflexivity|]. rewrite <- Hn. vm_compute. reflexivity. }
      rewrite Hn in Hx. by injection Hx. }
    destruct (gr_members _ _ _ _ _ Hg) as (ms & acts & _ & Hf & Hs). exists ms, acts.
    split; [exact Hf|]. rewrite Hname in Hs. split; [exact Hs|].
    apply Forall3_length_lr in Hf. rewrite <- Hf. vm_compute. reflexivity.
  - exfalso. assert (is_Ok : match (createPlacement demo_input (demo_world demo_accepts)).1 with
      | Ok _ => true | Throw _ => false end = true) by (vm_compute; reflexivity).
    rewrite E in is_Ok. discriminate is_Ok.
Defined.
End witness.
