(* ===== verification/Labs.v ===== *)
(** * Labs: [lib/labs.ts], the logical labs *)
From S2P Require Import Prelude Js Redact Schema Sql DbWf Env Secrets Queue Settings Template Format Mailer Placements.
From Stdlib Require Import Ascii.
Open Scope Z_scope.

Definition LAB_NAME_RE : re :=
  RSeq (RChr c_alnum) (rupto 39 (RChr (fun c => c_alnum c || c_of "_-" c))).
Definition isValidLabName (name : string) : bool := re_test LAB_NAME_RE name.

(** A lab with the counts of the Labs page. *)
Record LabSummary := mkLabSummary {
  ls_lab : LabRow; ls_student_count : nat; ls_placement_count : nat; ls_active_placements : nat }.
Record LabPlacementSummary := mkLabPlacement {
  lp_lab_id : Z; lp_id : Z; lp_node_name : string; lp_state : PlacementState }.

Record CreateLabInput := mkCreateLab {
  cl_name : string; cl_piName : option string; cl_piEmail : option string; cl_actor : option string }.

Record DestroyLabResult := mkDestroyed { dl_deleted : bool; dl_teardownStarted : nat }.

(** SMB clients before local owners. *)
Definition smb_first (a b : Placement) : bool :=
  bool_decide (pl_cold_backend a = Smb) || negb (bool_decide (pl_cold_backend b = Smb)).

Section labs.
Context {HK : Honker} {PF : Platform}.

Definition listLabs : Act (list LabSummary) :=
  d ← db;
  mret ((fun l => mkLabSummary l
          (length (select (fun m => lm_lab_id m = l_id l) (rows (lab_members d))))
          (length (select (fun p => p_lab_id p = l_id l) (rows (lab_placements d))))
          (length (select (fun p => p_lab_id p = l_id l /\ p_state p = PActive)
                     (rows (lab_placements d)))))
    <$> sort_by (by_name l_name) (rows (labs d))).

Definition listLabPlacementSummaries : Act (list LabPlacementSummary) :=
  d ← db;
  mret (sort_by (fun a b =>
      if lp_lab_id a =? lp_lab_id b then str_leb (lp_node_name a) (lp_node_name b)
      else lp_lab_id a <? lp_lab_id b)
    (omap (fun p => (fun n => mkLabPlacement (p_lab_id p) (p_id p) (n_name n) (p_state p))
                      <$> node_of d (p_node_id p))
      (rows (lab_placements d)))).

Definition getLab (id : Z) : Act (option LabRow) := d ← db; mret (lab_of d id).
Definition getLabByName (name : string) : Act (option LabRow) :=
  d ← db; mret (get_row (fun l => l_name l = name) (rows (labs d))).

Definition createLab (input : CreateLabInput) : Act LabRow :=
  throw_if (negb (isValidLabName (cl_name input))) EInvalidLabName;;
  existing ← getLabByName (cl_name input);
  throw_if (is_some existing) (ELabExists (cl_name input));;
  now ← date_now;
  id ← insert_lab (cl_name input) (cl_piName input) (cl_piEmail input) now;
  audit (cl_actor input) "lab.create" (Some (cl_name input)) None;;
  lab ← getLab id;
  match lab with Some l => mret l | None => throw ETypeError end.

(** A field is absent, null or a string. *)
Definition updateLabMeta (labId : Z) (piName piEmail : option (option string)) (actor : option string)
    : Act unit :=
  lab ← getLab labId;
  match lab with
  | None => throw EUnknownLab
  | Some l =>
      match piName with
      | Some v => update_labs (fun l => l_id l = labId) (fun l => l <| l_pi_name := v ≫= or_null |>)
      | None => mret tt
      end;;
      match piEmail with
      | Some v => update_labs (fun l => l_id l = labId) (fun l => l <| l_pi_email := v ≫= or_null |>)
      | None => mret tt
      end;;
      now ← date_now;
      update_labs (fun l => l_id l = labId) (fun l => l <| l_updated_at := now |>);;
      audit actor "lab.update_meta" (Some (l_name l)) None
  end.

(** Every placement is told to tear down, or purged when forced and offline; the result is the
    number of teardowns started. *)
Fixpoint teardown (force : bool) (actor : option string) (l : list Placement) : Act nat :=
  match l with
  | [] => mret 0%nat
  | p :: l' =>
      started ← (if force && negb (pl_online p)
                 then forceDeletePlacement (p_id (pl_row p)) actor;; mret 0%nat
                 else destroyPlacement (p_id (pl_row p)) actor;; mret 1%nat);
      n ← teardown force actor l';
      mret (started + n)%nat
  end.

(** Students without a membership left are dropped; the result is their number. *)
Fixpoint drop_orphans (ids : list Z) : Act nat :=
  match ids with
  | [] => mret 0%nat
  | sid :: ids' =>
      d ← db;
      removed ← (if is_some (get_row (fun m => lm_student_id m = sid) (rows (lab_members d)))
                 then mret 0%nat else delete_student sid;; mret 1%nat);
      n ← drop_orphans ids';
      mret (removed + n)%nat
  end.

Definition destroyLab (labId : Z) (actor : option string) (force : bool) : Act DestroyLabResult :=
  lab ← getLab labId;
  match lab with
  | None => mret (mkDestroyed false 0)
  | Some l =>
      listed ← listPlacements labId;
      let placements := sort_by smb_first listed in
      teardownStarted ← teardown force actor placements;
      if (0 <? teardownStarted)%nat then mret (mkDestroyed false teardownStarted)
      else
        d ← db;
        let memberIds := lm_student_id <$> select (fun m => lm_lab_id m = labId) (rows (lab_members d)) in
        delete_lab labId;;
        orphansRemoved ← drop_orphans memberIds;
        audit actor "lab.delete" (Some (l_name l))
          (if (orphansRemoved =? 0)%nat then None
           else Some (string_of_Z (Z.of_nat orphansRemoved) +:+ " students removed"));;
        mret (mkDestroyed true 0)
  end.
End labs.

(** ** The database stays well-formed *)

Section labs_wf.
Context {HK : Honker} {PF : Platform}.

Lemma getLab_ro I i : preserves I (getLab i).
Proof. unfold getLab. solve_preserves. Qed.
Lemma getLabByName_ro I n : preserves I (getLabByName n).
Proof. unfold getLabByName. solve_preserves. Qed.
Lemma listPlacements_ro I i : preserves I (listPlacements i).
Proof. unfold listPlacements. solve_preserves. Qed.
#[local] Hint Resolve getLab_ro getLabByName_ro listPlacements_ro : preserve.
Lemma createLab_wf input : preserves wf (createLab input).
Proof. unfold createLab. solve_preserves. Qed.
Lemma updateLabMeta_wf i n e actor : preserves wf (updateLabMeta i n e actor).
Proof. unfold updateLabMeta. solve_preserves. Qed.
Lemma teardown_wf force actor l : preserves wf (teardown force actor l).
Proof. induction l; cbn; solve_preserves. Qed.
Lemma drop_orphans_wf ids : preserves wf (drop_orphans ids).
Proof. induction ids; cbn; solve_preserves. Qed.
#[local] Hint Resolve teardown_wf drop_orphans_wf : preserve.
Lemma destroyLab_wf i actor force : preserves wf (destroyLab i actor force).
Proof. unfold destroyLab. solve_preserves. Qed.
End labs_wf.
#[export] Hint Resolve getLab_ro getLabByName_ro listPlacements_ro createLab_wf updateLabMeta_wf
  destroyLab_wf : preserve.
