(* ===== verification/Students.v ===== *)
(** * Students: [lib/students.ts], the students and the rosters of labs *)
From S2P Require Import Prelude Js Redact Schema Sql DbWf Env Secrets Queue Settings Template Format Mailer Alerts Placements Labs.
Open Scope Z_scope.

Record Member := mkRosterMember { mb_student : StudentRow; mb_member_id : Z; mb_is_pi : bool }.

Record StudentInput := mkStudentInput {
  si_username : string; si_email : option string; si_name : option string;
  si_studentId : option string }.

(** [provisioned] holds the node names. *)
Record AddMemberResult := mkAdded { am_student : StudentRow; am_provisioned : list string }.
Record CopyMembersResult := mkCopied { cm_added : nat; cm_skipped : nat }.

Definition as_provision (s : StudentRow) : ProvisionStudent :=
  mkProvision (s_id s) (s_username s) (s_linux_uid s).

(** [while (linuxUid <= 59_999 && used.has(linuxUid)) linuxUid++] *)
Fixpoint next_uid (used : list Z) (uid : Z) (fuel : nat) : Z :=
  match fuel with
  | O => uid
  | S n => if (uid <=? UID_MAX) && bool_decide (uid ∈ used) then next_uid used (uid + 1) n else uid
  end.
(** One candidate per value of the range. *)
Definition uid_fuel : nat := Z.to_nat (UID_MAX + 1 - UID_MIN).

Section students.
Context {HK : Honker} {PF : Platform}.

Definition listStudents : Act (list StudentRow) :=
  d ← db; mret (sort_by (by_name s_username) (rows (students d))).

Definition members_of (d : Db) (labId : Z) : list Member :=
  sort_by (by_name (fun m => s_username (mb_student m)))
    (omap (fun m =>
        s ← student_of d (lm_student_id m);
        l ← lab_of d (lm_lab_id m);
        Some (mkRosterMember s (lm_id m) (bool_decide (l_pi_student_id l = Some (s_id s)))))
      (select (fun m => lm_lab_id m = labId) (rows (lab_members d)))).
Definition listMembers (labId : Z) : Act (list Member) := d ← db; mret (members_of d labId).

Definition findOrCreateStudent (input : StudentInput) : Act StudentRow :=
  let username := to_lower (trim (si_username input)) in
  d ← db;
  let byId := match si_studentId input with
              | Some i => if truthy i then get_row (fun s => s_student_id s = Some i) (rows (students d))
                          else None
              | None => None
              end in
  match byId with
  | Some s => mret s
  | None =>
      match get_row (fun s => s_username s = username) (rows (students d)) with
      | Some s => mret s
      | None =>
          transaction (
            d ← db;
            let used := s_linux_uid <$> rows (students d) in
            let linuxUid := next_uid used UID_MIN uid_fuel in
            throw_if (UID_MAX <? linuxUid) EUidExhausted;;
            now ← date_now;
            id ← insert_student (si_studentId input) username (normalizeEmail (si_email input))
                   (si_name input) linuxUid now;
            d ← db;
            match student_of d id with Some s => mret s | None => throw ETypeError end)
      end
  end.

Definition lab_member (d : Db) (labId studentId : Z) : option LabMemberRow :=
  get_row (fun m => lm_lab_id m = labId /\ lm_student_id m = studentId) (rows (lab_members d)).

(** [for (const p of listPlacements(labId)) ...] *)
Definition provision_everywhere (labId : Z) (record : StudentRow) (actor : option string)
    : Act (list string) :=
  ps ← listPlacements labId;
  res ← for_map (fun p => provisionMemberOnPlacement p (as_provision record) actor) ps;
  mret (omap id res).

Definition ensurePiAccess (labId : Z) (input : StudentInput) (actor : option string)
    : Act AddMemberResult :=
  lab ← getLab labId;
  match lab with
  | None => throw EUnknownLab
  | Some l =>
      throw_if (negb (truthy (trim (si_username input)))) EPiUsernameRequired;;
      record ← findOrCreateStudent input;
      current ← getLab labId;
      throw_if (match current ≫= l_pi_student_id with
                | Some i => negb (i =? 0) && negb (i =? s_id record)
                | None => false
                end) EPiUsernameFixed;;
      let name := (trim <$> si_name input) ≫= or_null in
      let email := normalizeEmail (si_email input) in
      now ← date_now;
      update_students (fun s => s_id s = s_id record)
        (fun s => s <| s_email := email |> <| s_name := name |> <| s_updated_at := now |>);;
      now ← date_now;
      set_lab_pi labId (s_id record);;
      update_labs (fun l => l_id l = labId)
        (fun l => l <| l_pi_name := name |> <| l_pi_email := email |> <| l_updated_at := now |>);;
      d ← db;
      (if is_some (lab_member d labId (s_id record)) then mret tt
       else now ← date_now; insert_lab_member labId (s_id record) now);;
      audit actor "pi.access.ensure" (Some (l_name l +:+ "/" +:+ s_username record)) None;;
      provisioned ← provision_everywhere labId record actor;
      mret (mkAdded record provisioned)
  end.

Definition addStudentToLab (labId : Z) (student : StudentInput) (actor : option string)
    : Act AddMemberResult :=
  lab ← getLab labId;
  match lab with
  | None => throw EUnknownLab
  | Some l =>
      record ← findOrCreateStudent student;
      d ← db;
      throw_if (is_some (lab_member d labId (s_id record)))
        (EAlreadyMember (s_username record) (l_name l));;
      now ← date_now;
      insert_lab_member labId (s_id record) now;;
      audit actor "member.add" (Some (l_name l +:+ "/" +:+ s_username record)) None;;
      provisioned ← provision_everywhere labId record actor;
      mret (mkAdded record provisioned)
  end.

Fixpoint copy_loop (toLabId : Z) (actor : option string) (l : list Member) (r : CopyMembersResult)
    : Act CopyMembersResult :=
  match l with
  | [] => mret r
  | m :: l' =>
      d ← db;
      let s := mb_student m in
      if is_some (lab_member d toLabId (s_id s))
      then copy_loop toLabId actor l' (mkCopied (cm_added r) (cm_skipped r + 1))
      else
        addStudentToLab toLabId
          {| si_username := s_username s; si_email := s_email s; si_name := s_name s;
             si_studentId := s_student_id s |} actor;;
        copy_loop toLabId actor l' (mkCopied (cm_added r + 1) (cm_skipped r))
  end.
Definition copyMembers (fromLabId toLabId : Z) (actor : option string) : Act CopyMembersResult :=
  members ← listMembers fromLabId;
  copy_loop toLabId actor members (mkCopied 0 0).

(** The owners of the cold data of a removal, and its id. *)
Definition cold_cleanup_nodes (deleteData : bool) (placements : list Placement) : list string :=
  if deleteData
  then pl_node_name <$> filter (fun p => pl_cold_backend p = LocalZfs) placements
  else [].

(** The mail is sent after the handler returns: [void sendRemovalEmail(...)]. *)
Definition removeStudentFromLab (labId studentId : Z) (deleteData : bool) (actor : option string)
    : Act unit :=
  lab ← getLab labId;
  match lab with
  | None => throw EUnknownLab
  | Some l =>
      d ← db;
      throw_if (bool_decide (l_pi_student_id l = Some studentId)) EPiProtected;;
      match (lab_member d labId studentId;; student_of d studentId) with
      | None => throw ENotMember
      | Some s =>
          placements ← listPlacements labId;
          removal ← (if deleteData && negb (bool_decide (placements = []))
                     then uuid ← new_uuid;
                          mret (Some (mkRemoval uuid (cold_cleanup_nodes deleteData placements)))
                     else mret None);
          for_each (fun p =>
            removeMemberFromPlacement p studentId (s_username s) deleteData actor removal) placements;;
          delete_lab_members (fun m => lm_lab_id m = labId /\ lm_student_id m = studentId);;
          audit actor "member.remove" (Some (l_name l +:+ "/" +:+ s_username s))
            (if deleteData then Some "data deleted" else None);;
          match s_email s with
          | Some email => when (truthy email) (detached (sendRemovalEmail email (l_name l) deleteData;; mret tt))
          | None => mret tt
          end
      end
  end.
End students.

(** ** The database stays well-formed *)

Section students_wf.
Context {HK : Honker} {PF : Platform}.

Lemma listMembers_ro I i : preserves I (listMembers i).
Proof. unfold listMembers. solve_preserves. Qed.
#[local] Hint Resolve listMembers_ro : preserve.
Lemma findOrCreateStudent_wf input : preserves wf (findOrCreateStudent input).
Proof.
  unfold findOrCreateStudent. solve_preserves. apply transaction_wf. solve_preserves.
Qed.
Lemma provision_everywhere_wf i r actor : preserves wf (provision_everywhere i r actor).
Proof. unfold provision_everywhere. solve_preserves. Qed.
#[local] Hint Resolve findOrCreateStudent_wf provision_everywhere_wf : preserve.
Lemma ensurePiAccess_wf i input actor : preserves wf (ensurePiAccess i input actor).
Proof. unfold ensurePiAccess. solve_preserves. Qed.
Lemma addStudentToLab_wf i s actor : preserves wf (addStudentToLab i s actor).
Proof. unfold addStudentToLab. solve_preserves. Qed.
#[local] Hint Resolve addStudentToLab_wf : preserve.
Lemma copyMembers_wf i j actor : preserves wf (copyMembers i j actor).
Proof.
  unfold copyMembers. apply preserves_bind; [solve_preserves|]. intros l.
  generalize (mkCopied 0 0). induction l; intros r; cbn; solve_preserves.
Qed.
Lemma removeStudentFromLab_wf i s b actor : preserves wf (removeStudentFromLab i s b actor).
Proof. unfold removeStudentFromLab, detached. solve_preserves. Qed.
End students_wf.
#[export] Hint Resolve listMembers_ro findOrCreateStudent_wf ensurePiAccess_wf addStudentToLab_wf
  copyMembers_wf removeStudentFromLab_wf : preserve.
