(* ===== verification/LabImport.v ===== *)
(** * LabImport: [lib/labimport.ts], the roster import of one lab

    [planRosterImport] is a function of the database and the text; [applyRosterImport] derives
    the plan again, commits it in one transaction and provisions the new members.  The maps of
    the source are association lists in insertion order. *)
From S2P Require Import Prelude Js Csv Redact Schema Sql DbWf Env Secrets Queue Settings Template Format Mailer Alerts Placements Labs Students.
From Stdlib Require Import Ascii.
Open Scope Z_scope.

Definition MAX_IMPORT_BYTES : Z := 1000000.
Definition MAX_IMPORT_ROWS : Z := 5000.

(** [/^[^\s@]+@[^\s@]+\.[^\s@]+$/] *)
Definition EMAIL_RE : re :=
  let c := rplus (RChr (fun c => negb (is_space c) && negb (Ascii.eqb c "@"))) in
  RSeq c (RSeq (rlit "@") (RSeq c (RSeq (rlit ".") c))).
(** [/^[A-Za-z0-9][A-Za-z0-9._-]{0,63}$/] *)
Definition STUDENT_ID_RE : re :=
  RSeq (RChr c_alnum) (rupto 63 (RChr (fun c => c_alnum c || c_of "._-" c))).

Record ImportIssue := mkIssue { ii_line : Z; ii_message : string }.
Record StudentCreate := mkStudentCreate {
  sc_username : string; sc_studentId : option string; sc_name : option string;
  sc_email : option string }.
Record StudentUpdate := mkStudentUpdate {
  su_username : string; su_studentId : option string; su_name : option string;
  su_email : option string }.
Record PiUpdate := mkPiUpdate {
  pu_piUsername : option string; pu_piName : option string; pu_piEmail : option string }.
Record RosterImportPlan := mkPlan {
  pn_lab : string; pn_piUpdate : option PiUpdate; pn_studentsToCreate : list StudentCreate;
  pn_studentsToUpdate : list StudentUpdate; pn_membershipsToAdd : list string;
  pn_conflicts : list ImportIssue; pn_invalid : list ImportIssue; pn_ok : bool }.

Inductive Role := RStudent | RPi.
#[global] Instance Role_eq_dec : EqDecision Role.
Proof. solve_decision. Defined.

(** [user] is never null in a row that passed phase A. *)
Record ValidRow := mkValidRow {
  vr_line : Z; vr_role : Role; vr_user : string; vr_sid : option string;
  vr_sname : option string; vr_semail : option string }.

Definition q (s : string) : string := "'" +:+ s +:+ "'".

(** [norm] and [lower] of the property [k] of a row. *)
Definition norm_cell (k : string) (r : CsvRow) : string := trim (default "" (alookup k r)).
Definition lower_cell (k : string) (r : CsvRow) : string := to_lower (norm_cell k r).

Definition emptyPlan (lab : string) (issue : option ImportIssue) : RosterImportPlan :=
  mkPlan lab None [] [] [] [] (match issue with Some i => [i] | None => [] end) false.

(** ** Phase A *)

Definition role_of (roleRaw : string) : option Role :=
  if String.eqb roleRaw "student" then Some RStudent
  else if String.eqb roleRaw "pi" then Some RPi else None.

(** A row, or why it is invalid. *)
Definition check_row (line : Z) (r : CsvRow) : string + ValidRow :=
  let roleRaw := or_str (lower_cell "role" r) "student" in
  let sid := or_null (norm_cell "student_id" r) in
  let sname := or_null (norm_cell "name" r) in
  let semail := or_null (lower_cell "email" r) in
  let bad_sid := match sid with Some s => negb (re_test STUDENT_ID_RE s) | None => false end in
  let bad_email := match semail with Some e => negb (re_test EMAIL_RE e) | None => false end in
  match role_of roleRaw, or_null (lower_cell "username" r) with
  | None, _ => inl ("unknown role " +:+ q roleRaw +:+ " (use 'student' or 'pi')")
  | Some RPi, None => inl "username required on a pi row"
  | Some RPi, Some user =>
      if negb (re_test USERNAME_RE user) then inl ("invalid username " +:+ q user)
      else if negb (is_some semail) then inl "email required on a pi row"
      else if bad_email then inl "invalid pi email"
      else if bad_sid then inl ("invalid student_id " +:+ q (default "" sid))
      else inr (mkValidRow line RPi user sid sname semail)
  | Some RStudent, None => inl "username required on a student row"
  | Some RStudent, Some user =>
      if negb (re_test USERNAME_RE user) then inl ("invalid username " +:+ q user)
      else if bad_sid then inl ("invalid student_id " +:+ q (default "" sid))
      else if bad_email then inl "invalid email"
      else inr (mkValidRow line RStudent user sid sname semail)
  end.

(** [i + 2]: the header is line 1. *)
Definition phaseA (rows : list CsvRow) : list (ImportIssue + ValidRow) :=
  imap (fun i r => let line := Z.of_nat i + 2 in
    match check_row line r with inl m => inl (mkIssue line m) | inr v => inr v end) rows.
Definition lefts {A B} (l : list (A + B)) : list A := omap (fun x => match x with inl a => Some a | inr _ => None end) l.
Definition rights {A B} (l : list (A + B)) : list B := omap (fun x => match x with inr b => Some b | inl _ => None end) l.

(** ** Phase B: the fields of the PI, each at most one *)

Record PiFields := mkPi { pi_name : option string; pi_email : option string; pi_username : option string }.

(** [if (v) { if (old && old !== v) conflicts.push(m) else old = v }] *)
Definition agree (line : Z) (what : string) (old v : option string)
    : option string * list ImportIssue :=
  match v, old with
  | None, _ => (old, [])
  | Some x, Some y =>
      if String.eqb y x then (Some x, []) else (old, [mkIssue line ("conflicting PI " +:+ what +:+ " in 'pi' rows")])
  | Some x, None => (Some x, [])
  end.

Definition pi_row (s : PiFields * list ImportIssue) (r : ValidRow) : PiFields * list ImportIssue :=
  if bool_decide (vr_role r = RPi) then
    let '(u, c1) := agree (vr_line r) "username" (pi_username s.1) (Some (vr_user r)) in
    let '(n, c2) := agree (vr_line r) "name" (pi_name s.1) (vr_sname r) in
    let '(e, c3) := agree (vr_line r) "email" (pi_email s.1) (vr_semail r) in
    (mkPi n e u, s.2 ++ c1 ++ c2 ++ c3)
  else s.
Definition phaseB (valid : list ValidRow) : PiFields * list ImportIssue :=
  foldl pi_row (mkPi None None None, []) valid.

(** ** Phase C: one entry per username *)

Record BatchStudent := mkBatch {
  bs_sid : option string; bs_name : option string; bs_email : option string; bs_line : Z }.
Definition Batch : Type := list (string * BatchStudent).

Definition batch_row (s : Batch * list ImportIssue) (r : ValidRow) : Batch * list ImportIssue :=
  let user := vr_user r in
  match alookup user s.1 with
  | None => (aset user (mkBatch (vr_sid r) (vr_sname r) (vr_semail r) (vr_line r)) s.1, s.2)
  | Some prev =>
      let '(sid, c) :=
        match vr_sid r, bs_sid prev with
        | Some x, Some y =>
            (Some y, if String.eqb x y then []
                     else [mkIssue (vr_line r) ("username " +:+ q user +:+ " mapped to two student IDs")])
        | Some x, None => (Some x, [])
        | None, old => (old, [])
        end in
      let first (a b : option string) := match a with Some x => Some x | None => b end in
      (aset user (mkBatch sid (first (bs_name prev) (vr_sname r)) (first (bs_email prev) (vr_semail r))
                    (bs_line prev)) s.1, s.2 ++ c)
  end.
Definition phaseC (valid : list ValidRow) : Batch * list ImportIssue := foldl batch_row ([], []) valid.

(** Two usernames sharing one student id. *)
Definition sid_row (s : list (string * string) * list ImportIssue) (e : string * BatchStudent)
    : list (string * string) * list ImportIssue :=
  match bs_sid e.2 with
  | None => s
  | Some sid =>
      match alookup sid s.1 with
      | Some other =>
          if negb (String.eqb other e.1)
          then (s.1, s.2 ++ [mkIssue (bs_line e.2) ("student_id " +:+ q sid +:+ " used by two usernames (" +:+
                               q other +:+ ", " +:+ q e.1 +:+ ")")])
          else (aset sid e.1 s.1, s.2)
      | None => (aset sid e.1 s.1, s.2)
      end
  end.
Definition shared_sids (batch : Batch) : list ImportIssue := (foldl sid_row ([], []) batch).2.

(** ** Phase C2: against the database *)

(** [dbByName] and [dbById] *)
Definition db_by_name (d : Db) : list (string * StudentRow) :=
  foldl (fun m s => aset (s_username s) s m) [] (rows (students d)).
Definition db_by_id (d : Db) : list (string * StudentRow) :=
  foldl (fun m s => match s_student_id s with
                    | Some i => if truthy i then aset i s m else m
                    | None => m
                    end) [] (rows (students d)).

Inductive Resolution :=
| Conflict (i : ImportIssue)
| Create (c : StudentCreate)
| Update (u : StudentUpdate)
| Same.

(** [v && v !== old] *)
Definition changed (v old : option string) : option string :=
  match v with Some x => if bool_decide (old = Some x) then None else Some x | None => None end.

(** A non-empty value of a nullable column. *)
Definition present (o : option string) : option string := o ≫= or_null.

Definition resolve (d : Db) (user : string) (info : BatchStudent) : Resolution :=
  let byId := bs_sid info ≫= fun i => alookup i (db_by_id d) in
  let byName := alookup user (db_by_name d) in
  let owner := match byId with
               | Some o => if String.eqb (s_username o) user then None else Some (s_username o)
               | None => None
               end in
  let other_id := match byName ≫= fun b => present (s_student_id b), bs_sid info with
                  | Some old, Some i => if String.eqb old i then None else Some old
                  | _, _ => None
                  end in
  match owner, other_id with
  | Some o, _ => Conflict (mkIssue (bs_line info) ("student_id " +:+ q (default "" (bs_sid info)) +:+
                   " already belongs to " +:+ q o))
  | None, Some old => Conflict (mkIssue (bs_line info) ("username " +:+ q user +:+
                        " already has student_id " +:+ q old))
  | None, None =>
      match (match byId with Some o => Some o | None => byName end) with
      | None => Create (mkStudentCreate user (bs_sid info) (bs_name info) (bs_email info))
      | Some existing =>
          let name := changed (bs_name info) (s_name existing) in
          let email := changed (bs_email info) (s_email existing) in
          let sid := match present (s_student_id existing) with Some _ => None | None => bs_sid info end in
          if is_some name || is_some email || is_some sid
          then Update (mkStudentUpdate user sid name email) else Same
      end
  end.

Definition resolutions (d : Db) (batch : Batch) : list Resolution :=
  (fun e => resolve d e.1 e.2) <$> batch.
Definition creates (l : list Resolution) : list StudentCreate :=
  omap (fun r => match r with Create c => Some c | _ => None end) l.
Definition updates (l : list Resolution) : list StudentUpdate :=
  omap (fun r => match r with Update u => Some u | _ => None end) l.
Definition clashes (l : list Resolution) : list ImportIssue :=
  omap (fun r => match r with Conflict i => Some i | _ => None end) l.

(** ** The PI and the memberships *)

Definition pi_update (d : Db) (lab : LabRow) (pi : PiFields) : option PiUpdate :=
  let currentPi := l_pi_student_id lab ≫= fun i =>
    get_row (fun s => s_id s = i) (snd <$> db_by_name d) in
  let u := changed (pi_username pi) (s_username <$> currentPi) in
  let n := changed (pi_name pi) (l_pi_name lab) in
  let e := changed (pi_email pi) (l_pi_email lab) in
  if is_some u || is_some n || is_some e then Some (mkPiUpdate u n e) else None.

(** Whether the account the username resolves to is on the roster. *)
Definition on_roster (d : Db) (labId : Z) (user : string) (info : BatchStudent) : bool :=
  let existing := match alookup user (db_by_name d) with
                  | Some s => Some s
                  | None => bs_sid info ≫= fun i => alookup i (db_by_id d)
                  end in
  match existing with
  | Some s => bool_decide (s_id s ∈ lm_student_id <$> select (fun m => lm_lab_id m = labId) (rows (lab_members d)))
  | None => false
  end.
Definition memberships (d : Db) (labId : Z) (batch : Batch) : list string :=
  fst <$> filter (fun e => on_roster d labId e.1 e.2 = false) batch.

(** The plan of the rows of a file. *)
Definition rows_plan (d : Db) (lab : LabRow) (rows : list CsvRow) : RosterImportPlan :=
  let checked := phaseA rows in
  let invalid := lefts checked in
  let valid := rights checked in
  let '(pi, c1) := phaseB valid in
  let '(batch, c2) := phaseC valid in
  let res := resolutions d batch in
  let conflicts := c1 ++ c2 ++ shared_sids batch ++ clashes res in
  mkPlan (l_name lab) (pi_update d lab pi) (creates res) (updates res)
    (memberships d (l_id lab) batch) conflicts invalid
    (bool_decide (length conflicts = 0%nat) && bool_decide (length invalid = 0%nat)).

(** The plan, for a lab that exists. *)
Definition roster_plan (d : Db) (lab : LabRow) (text : string) : RosterImportPlan :=
  let bytes := Z.of_nat (String.length text) in
  if MAX_IMPORT_BYTES <? bytes
  then emptyPlan (l_name lab) (Some (mkIssue 0 ("File too large (" +:+ string_of_Z bytes +:+
         " bytes; max " +:+ string_of_Z MAX_IMPORT_BYTES +:+ ")")))
  else
    let parsed := parseCsv text in
    let n := Z.of_nat (length (csv_rows parsed)) in
    if bool_decide (headers parsed = []) then emptyPlan (l_name lab) (Some (mkIssue 0 "Empty CSV"))
    else if negb (bool_decide ("username" ∈ headers parsed))
    then emptyPlan (l_name lab) (Some (mkIssue 1 "Missing required column 'username'"))
    else if MAX_IMPORT_ROWS <? n
    then emptyPlan (l_name lab) (Some (mkIssue 0 ("Too many rows (" +:+ string_of_Z n +:+ "; max " +:+
           string_of_Z MAX_IMPORT_ROWS +:+ ")")))
    else rows_plan d lab (csv_rows parsed).

Record RosterImportResult := mkImported {
  ri_piUpdated : bool; ri_studentsCreated : nat; ri_studentsUpdated : nat;
  ri_membershipsAdded : nat; ri_provisioned : nat }.

Definition result_json (r : RosterImportResult) : json :=
  JObj [("piUpdated", JBool (ri_piUpdated r)); ("studentsCreated", jz (Z.of_nat (ri_studentsCreated r)));
        ("studentsUpdated", jz (Z.of_nat (ri_studentsUpdated r)));
        ("membershipsAdded", jz (Z.of_nat (ri_membershipsAdded r)));
        ("provisioned", jz (Z.of_nat (ri_provisioned r)))].

Section labimport.
Context {HK : Honker} {PF : Platform}.

Definition planRosterImport (labId : Z) (text : string) : Act RosterImportPlan :=
  lab ← getLab labId;
  match lab with
  | None => mret (emptyPlan "" (Some (mkIssue 0 "Unknown lab")))
  | Some l => d ← db; mret (roster_plan d l text)
  end.

(** [if (v !== undefined) UPDATE ...] *)
Definition set_if {A} (v : option A) (m : A -> Act unit) : Act unit :=
  match v with Some x => m x | None => mret tt end.

(** The uids in use and the map from usernames to ids, through the creations. *)
Fixpoint create_students (now : Z) (l : list StudentCreate) (used : list Z) (ids : list (string * Z))
    : Act (list (string * Z)) :=
  match l with
  | [] => mret ids
  | s :: l' =>
      let uid := next_uid used UID_MIN uid_fuel in
      throw_if (UID_MAX <? uid) EUidExhausted;;
      id ← insert_student (sc_studentId s) (sc_username s) (sc_email s) (sc_name s) uid now;
      create_students now l' (uid :: used) (aset (sc_username s) id ids)
  end.

Definition update_student (now : Z) (u : StudentUpdate) : Act unit :=
  let who := fun s => s_username s = su_username u in
  set_if (su_studentId u) (fun i => set_student_number (Some i) (su_username u));;
  set_if (su_name u) (fun n => update_students who (fun s => s <| s_name := Some n |>));;
  set_if (su_email u) (fun e => update_students who (fun s => s <| s_email := Some e |>));;
  update_students who (fun s => s <| s_updated_at := now |>).

(** The rows of the members added. *)
Fixpoint add_members (labId now : Z) (ids : list (string * Z)) (l : list string) : Act (list StudentRow) :=
  match l with
  | [] => mret []
  | user :: l' =>
      match alookup user ids with
      | None => throw (ESqlConstraint "lab_members")
      | Some sid =>
          d ← db;
          if is_some (lab_member d labId sid) then add_members labId now ids l'
          else
            insert_lab_member labId sid now;;
            d ← db;
            rest ← add_members labId now ids l';
            mret (match student_of d sid with Some s => s :: rest | None => rest end)
      end
  end.

(** The plan's [piUpdate], but for the designated account. *)
Definition pi_statements (labId now : Z) (u : option PiUpdate) : Act unit :=
  set_if u (fun u =>
    set_if (pu_piName u) (fun n => update_labs (fun l => l_id l = labId) (fun l => l <| l_pi_name := Some n |>));;
    set_if (pu_piEmail u) (fun e => update_labs (fun l => l_id l = labId) (fun l => l <| l_pi_email := Some e |>));;
    update_labs (fun l => l_id l = labId) (fun l => l <| l_updated_at := now |>)).

(** Designating the PI's account. *)
Definition designate_pi (labId : Z) (ids : list (string * Z)) (u : option PiUpdate) : Act unit :=
  set_if (u ≫= fun u => present (pu_piUsername u)) (fun user =>
    match alookup user ids with
    | Some piId => throw_if (piId =? 0) EPiNotCreated;; set_lab_pi labId piId
    | None => throw EPiNotCreated
    end).

(** The body of the transaction. *)
Definition commit_import (labId now : Z) (plan : RosterImportPlan) : Act (list StudentRow) :=
  d ← db;
  let used := s_linux_uid <$> rows (students d) in
  let ids := foldl (fun m s => aset (s_username s) (s_id s) m) [] (rows (students d)) in
  pi_statements labId now (pn_piUpdate plan);;
  ids ← create_students now (pn_studentsToCreate plan) used ids;
  for_each (update_student now) (pn_studentsToUpdate plan);;
  designate_pi labId ids (pn_piUpdate plan);;
  add_members labId now ids (pn_membershipsToAdd plan).

(** One new member on the placements the lab has; the number of accounts queued. *)
Definition provision_added (labId : Z) (actor : option string) (s : StudentRow) : Act nat :=
  ps ← listPlacements labId;
  res ← for_map (fun p => provisionMemberOnPlacement p (as_provision s) actor) ps;
  mret (length (omap id res)).

Definition applyRosterImport (labId : Z) (text : string) (actor : option string)
    : Act RosterImportResult :=
  plan ← planRosterImport labId text;
  throw_if (negb (pn_ok plan))
    (EImportNotCommittable (length (pn_invalid plan)) (length (pn_conflicts plan))
       ((fun i => (ii_line i, ii_message i)) <$> head (pn_invalid plan ++ pn_conflicts plan)));;
  now ← date_now;
  added ← transaction (commit_import labId now plan);
  let result := mkImported (is_some (pn_piUpdate plan)) (length (pn_studentsToCreate plan))
                  (length (pn_studentsToUpdate plan)) (length added) 0 in
  audit actor "lab.roster_import" (Some (pn_lab plan)) (Some (print_json (result_json result)));;
  counts ← for_map (provision_added labId actor) added;
  mret (result <| ri_provisioned := list_sum counts |>).
End labimport.

(** ** The database stays well-formed *)

Section labimport_wf.
Context {HK : Honker} {PF : Platform}.

Lemma set_if_wf {A} I (v : option A) m : (forall x, preserves I (m x)) -> preserves I (set_if v m : Act unit).
Proof. destruct v; cbn; auto with preserve. Qed.
Lemma planRosterImport_ro I i text : preserves I (planRosterImport i text).
Proof. unfold planRosterImport. solve_preserves. Qed.
Lemma create_students_wf now l used ids : preserves wf (create_students now l used ids).
Proof. revert used ids. induction l; intros used ids; cbn; solve_preserves. Qed.
Lemma update_student_wf now u : preserves wf (update_student now u).
Proof. unfold update_student. repeat (apply preserves_bind; [apply set_if_wf; intros|intros]); solve_preserves. Qed.
Lemma pi_statements_wf i now u : preserves wf (pi_statements i now u).
Proof.
  unfold pi_statements. apply set_if_wf. intros. repeat (apply preserves_bind; [apply set_if_wf; intros|intros]);
    solve_preserves.
Qed.
Lemma designate_pi_wf i ids u : preserves wf (designate_pi i ids u).
Proof. unfold designate_pi. apply set_if_wf. intros. solve_preserves. Qed.
Lemma add_members_wf i now ids l : preserves wf (add_members i now ids l).
Proof. induction l; cbn; solve_preserves. Qed.
#[local] Hint Resolve planRosterImport_ro create_students_wf update_student_wf pi_statements_wf
  designate_pi_wf add_members_wf : preserve.
Lemma commit_import_wf i now plan : preserves wf (commit_import i now plan).
Proof. unfold commit_import. solve_preserves. Qed.
Lemma applyRosterImport_wf i text actor : preserves wf (applyRosterImport i text actor).
Proof.
  unfold applyRosterImport, provision_added. solve_preserves. apply transaction_wf, commit_import_wf.
Qed.
End labimport_wf.
