(* ===== verification/Nodes.v ===== *)
(** * Nodes: [lib/nodes.ts], the identity of the nodes and their cold-storage topology

    With it [lib/nodegroups.ts], the named groups of nodes. *)
From S2P Require Import Prelude Js Redact Schema Sql DbWf Env Secrets Queue Settings Template Format Mailer Placements Labs.
From Stdlib Require Import Ascii.
Open Scope Z_scope.

Definition NODE_NAME_RE : re :=
  let c c := c_lower c || c_digit c in
  RSeq (RChr c) (rupto 62 (RChr (fun x => c x || c_of "-" x))).
Definition isValidNodeName (name : string) : bool := re_test NODE_NAME_RE name.

(** [Buffer.toString("hex")] *)
Definition hex_digit (n : Z) : ascii :=
  match String.get (Z.to_nat n) "0123456789abcdef" with Some c => c | None => "0"%char end.
Fixpoint to_hex (bytes : list Z) : string :=
  match bytes with
  | [] => ""
  | b :: bs => String (hex_digit (b / 16)) (String (hex_digit (b mod 16)) (to_hex bs))
  end.

Definition NUL : string := String Ascii.zero EmptyString.

(** [{ ok: true, tokenHash }] or [{ ok: false, reason }] *)
Inductive NodeAuthResult := AuthOk (tokenHash : string) | AuthNo (reason : string).

(** The DEFAULT values of a node's columns. *)
Definition new_node (name hash : string) (now i : Z) : NodeRow :=
  {| n_id := i; n_name := name; n_last_seen := None; n_online := false; n_capabilities := None;
     n_pools := None; n_created_at := now; n_last_scrub := None; n_scrub_status := None;
     n_token_hash := Some hash; n_allowed := true; n_alias := None; n_cold_backend := LocalZfs;
     n_cold_owner_node_id := None; n_cold_mount_path := None; n_cold_ready := false |}.

Definition node_named (d : Db) (name : string) : option NodeRow :=
  get_row (fun n => n_name n = name) (rows (nodes d)).
Definition placement_count (d : Db) (nodeId : Z) : nat :=
  length (select (fun p => p_node_id p = nodeId) (rows (lab_placements d))).
(** The SMB clients that use the node as cold-storage owner. *)
Definition cold_dependents (d : Db) (nodeId : Z) : list string :=
  n_name <$> select (fun n => n_cold_owner_node_id n = Some nodeId) (rows (nodes d)).

Definition backend_str (b : ColdBackend) : string :=
  match b with LocalZfs => "local_zfs" | Smb => "smb" end.

Section nodes.
Context {HK : Honker} {PF : Platform}.

(** [lib/auth.ts]: equality of the digests *)
Definition safeEqual (a b : string) : bool := String.eqb (sha256 a) (sha256 b).

Definition generateNodeToken : Act string := bytes ← random_bytes 32; mret (to_hex bytes).

Definition nodeTokenHash (name token : string) : result exn string :=
  key ← env_agentToken; mret (hmac_sha256 key (name +:+ NUL +:+ token)).

Definition verifyNodeAuth (name token : string) : Act NodeAuthResult :=
  if negb (isValidNodeName name) then mret (AuthNo "invalid node name")
  else if negb (truthy token) then mret (AuthNo "missing token")
  else
    d ← db;
    match node_named d name with
    | None => mret (AuthNo "unknown or blocked node")
    | Some row =>
        if negb (n_allowed row) then mret (AuthNo "unknown or blocked node")
        else
          match n_token_hash row with
          | None => mret (AuthNo "node not provisioned")
          | Some stored =>
              if negb (truthy stored) then mret (AuthNo "node not provisioned")
              else
                hash ← lift (nodeTokenHash name token);
                if negb (safeEqual hash stored) then mret (AuthNo "bad node token")
                else mret (AuthOk stored)
          end
    end.

Definition nodeStillAuthorized (name tokenHash : string) : Act bool :=
  d ← db;
  match node_named d name with
  | Some row => mret (n_allowed row && bool_decide (n_token_hash row = Some tokenHash))
  | None => mret false
  end.

Definition provisionNode (name : string) (actor : option string) : Act string :=
  throw_if (negb (isValidNodeName name)) (EInvalidNodeName name);;
  token ← generateNodeToken;
  hash ← lift (nodeTokenHash name token);
  now ← date_now;
  upsert_node name (new_node name hash now)
    (fun n => n <| n_allowed := true |> <| n_token_hash := Some hash |>);;
  audit actor "node.provision" (Some name) None;;
  mret token.

Definition rotateNodeToken (name : string) (actor : option string) : Act string :=
  d ← db;
  throw_if (negb (is_some (node_named d name))) (EUnknownNodeName name);;
  provisionNode name actor.

Definition setNodeAlias (name alias : string) (actor : option string) : Act unit :=
  d ← db;
  throw_if (negb (is_some (node_named d name))) (EUnknownNodeName name);;
  let clean := or_null (take_str 64 (trim alias)) in
  update_nodes (fun n => n_name n = name) (fun n => n <| n_alias := clean |>);;
  audit actor "node.alias" (Some name) (Some (nullish clean "(cleared)")).

Definition revokeNode (name : string) (actor : option string) : Act unit :=
  update_nodes (fun n => n_name n = name) (fun n => n <| n_allowed := false |>);;
  audit actor "node.revoke" (Some name) None.

(** What an audit row says about a forced deletion. *)
Definition delete_detail (force : bool) (count : nat) (dependents : list string) : option string :=
  if force then
    or_null (join "; " (filter (fun s => truthy s = true)
      [if (0 <? count)%nat then string_of_Z (Z.of_nat count) +:+ " placement(s) purged" else "";
       if bool_decide (dependents = []) then "" else "cold owner cleared on: " +:+ join ", " dependents]))
  else None.

Definition deleteNode (name : string) (actor : option string) (force : bool) : Act unit :=
  d ← db;
  match node_named d name with
  | None => throw (EUnknownNodeName name)
  | Some row =>
      throw_if (force && n_online row) (ENodeOnline name);;
      let count := placement_count d (n_id row) in
      throw_if (negb force && (0 <? count)%nat) (ENodeHasPlacements name count);;
      let dependents := cold_dependents d (n_id row) in
      throw_if (negb force && negb (bool_decide (dependents = []))) (ENodeIsOwner name dependents);;
      transaction (
        when force (
          delete_placements (fun p => p_node_id p = n_id row);;
          clear_node_owner (n_id row));;
        delete_tasks (fun t => t_node t = name);;
        delete_gpu_snapshot name;;
        delete_node (n_id row));;
      audit actor (if force then "node.force_delete" else "node.delete") (Some name)
        (delete_detail force count dependents)
  end.

Definition listLocalZfsNodes : Act (list (Z * string)) :=
  d ← db;
  mret ((fun n => (n_id n, n_name n)) <$>
    sort_by (by_name n_name) (select (fun n => n_cold_backend n = LocalZfs) (rows (nodes d)))).

(** The owner an SMB client is given, checked. *)
Definition check_owner (d : Db) (node : NodeRow) (ownerName : option string) : result exn Z :=
  match ownerName ≫= or_null with
  | None => Throw EOwnerRequired
  | Some o =>
      match node_named d o with
      | None => Throw (EUnknownOwner o)
      | Some owner =>
          if n_id owner =? n_id node then Throw EOwnOwner
          else if negb (bool_decide (n_cold_backend owner = LocalZfs)) then Throw (EOwnerNotLocal o)
          else Ok (n_id owner)
      end
  end.

Definition setNodeColdStorage (name : string) (backend : ColdBackend) (ownerName actor : option string)
    : Act unit :=
  d ← db;
  match node_named d name with
  | None => throw (EUnknownNodeName name)
  | Some node =>
      let count := placement_count d (n_id node) in
      throw_if (0 <? count)%nat (ENodeHasPlacements name count);;
      ownerId ← (match backend with
                 | Smb => i ← lift (check_owner d node ownerName); mret (Some i)
                 | LocalZfs => mret None
                 end);
      let dependents := cold_dependents d (n_id node) in
      throw_if (bool_decide (backend = Smb) && negb (bool_decide (dependents = [])))
        (ENodeIsOwner name dependents);;
      set_node_cold (n_id node) backend ownerId;;
      audit actor "node.cold_storage" (Some name)
        (Some (match ownerName ≫= or_null with
               | Some o => backend_str backend +:+ " owner=" +:+ o
               | None => backend_str backend
               end))
  end.
End nodes.

(** ** The database stays well-formed *)

Section nodes_wf.
Context {HK : Honker} {PF : Platform}.

Lemma verifyNodeAuth_ro I n t : preserves I (verifyNodeAuth n t).
Proof. unfold verifyNodeAuth. solve_preserves. Qed.
Lemma nodeStillAuthorized_ro I n h : preserves I (nodeStillAuthorized n h).
Proof. unfold nodeStillAuthorized. solve_preserves. Qed.
Lemma provisionNode_wf n actor : preserves wf (provisionNode n actor).
Proof. unfold provisionNode, generateNodeToken. solve_preserves. Qed.
#[local] Hint Resolve provisionNode_wf : preserve.
Lemma rotateNodeToken_wf n actor : preserves wf (rotateNodeToken n actor).
Proof. unfold rotateNodeToken. solve_preserves. Qed.
Lemma setNodeAlias_wf n a actor : preserves wf (setNodeAlias n a actor).
Proof. unfold setNodeAlias. solve_preserves. Qed.
Lemma revokeNode_wf n actor : preserves wf (revokeNode n actor).
Proof. unfold revokeNode. solve_preserves. Qed.
Lemma deleteNode_wf n actor force : preserves wf (deleteNode n actor force).
Proof. unfold deleteNode. solve_preserves. apply transaction_wf. solve_preserves. Qed.
Lemma setNodeColdStorage_wf n b o actor : preserves wf (setNodeColdStorage n b o actor).
Proof. unfold setNodeColdStorage. solve_preserves. Qed.
End nodes_wf.
#[export] Hint Resolve verifyNodeAuth_ro nodeStillAuthorized_ro provisionNode_wf rotateNodeToken_wf
  setNodeAlias_wf revokeNode_wf deleteNode_wf setNodeColdStorage_wf : preserve.

(** * NodeGroups: [lib/nodegroups.ts], named groups of nodes *)


Record NodeGroup := mkGroup { ng_id : Z; ng_name : string; ng_created_at : Z; ng_nodeIds : list Z }.

Definition MAX_NAME_LEN : nat := 40.

(** [s.replace(/\s+/g, " ")] *)
Fixpoint collapse_spaces (s : string) : string :=
  match s with
  | EmptyString => ""
  | String c s' =>
      if is_space c then
        match s' with
        | String c' _ => if is_space c' then collapse_spaces s' else String " " (collapse_spaces s')
        | EmptyString => " "
        end
      else String c (collapse_spaces s')
  end.

Definition cleanGroupName (name : string) : result exn string :=
  let clean := collapse_spaces (trim name) in
  if negb (truthy clean) then Throw EGroupNameRequired
  else if (MAX_NAME_LEN <? String.length clean)%nat then Throw EGroupNameTooLong
  else Ok clean.

Definition group_of (d : Db) (i : Z) : option NodeGroupRow :=
  get_row (fun g => g_id g = i) (rows (node_groups d)).

(** [[...new Set(ids)].filter((n) => valid.has(n))] *)
Definition wanted_nodes (d : Db) (nodeIds : list Z) : list Z :=
  filter (fun n => n ∈ n_id <$> rows (nodes d)) (dedup [] nodeIds).

Section groups.
Context {HK : Honker} {PF : Platform}.

Definition listNodeGroups : Act (list NodeGroup) :=
  d ← db;
  mret ((fun g => mkGroup (g_id g) (g_name g) (g_created_at g)
          (gm_node_id <$> select (fun m => gm_group_id m = g_id g) (node_group_members d)))
    <$> sort_by (by_name g_name) (rows (node_groups d))).

Definition createNodeGroup (name : string) (actor : option string) : Act NodeGroup :=
  clean ← lift (cleanGroupName name);
  d ← db;
  throw_if (is_some (get_row (fun g => g_name g = clean) (rows (node_groups d)))) (EGroupExists clean);;
  now ← date_now;
  id ← insert_group clean now;
  audit actor "nodegroup.create" (Some clean) None;;
  now ← date_now;
  mret (mkGroup id clean now []).

Definition renameNodeGroup (id : Z) (name : string) (actor : option string) : Act unit :=
  clean ← lift (cleanGroupName name);
  d ← db;
  match group_of d id with
  | None => throw EUnknownGroup
  | Some g =>
      throw_if (is_some (get_row (fun g => g_name g = clean /\ g_id g <> id) (rows (node_groups d))))
        (EGroupExists clean);;
      rename_group_row id clean;;
      audit actor "nodegroup.rename" (Some (g_name g)) (Some clean)
  end.

Definition deleteNodeGroup (id : Z) (actor : option string) : Act unit :=
  d ← db;
  match group_of d id with
  | None => mret tt
  | Some g => delete_group_row id;; audit actor "nodegroup.delete" (Some (g_name g)) None
  end.

Definition setNodeGroupMembers (id : Z) (nodeIds : list Z) (actor : option string) : Act unit :=
  d ← db;
  match group_of d id with
  | None => throw EUnknownGroup
  | Some g =>
      let wanted := wanted_nodes d nodeIds in
      transaction (
        delete_group_members id;;
        for_each (fun n => insert_group_member id n) wanted);;
      audit actor "nodegroup.members" (Some (g_name g))
        (Some (string_of_Z (Z.of_nat (length wanted)) +:+ " node(s)"))
  end.
End groups.

(** ** The database stays well-formed *)

Section groups_wf.
Context {HK : Honker} {PF : Platform}.

Lemma createNodeGroup_wf n actor : preserves wf (createNodeGroup n actor).
Proof. unfold createNodeGroup. solve_preserves. Qed.
Lemma renameNodeGroup_wf i n actor : preserves wf (renameNodeGroup i n actor).
Proof. unfold renameNodeGroup. solve_preserves. Qed.
Lemma deleteNodeGroup_wf i actor : preserves wf (deleteNodeGroup i actor).
Proof. unfold deleteNodeGroup. solve_preserves. Qed.
Lemma setNodeGroupMembers_wf i l actor : preserves wf (setNodeGroupMembers i l actor).
Proof. unfold setNodeGroupMembers. solve_preserves. apply transaction_wf. solve_preserves. Qed.
End groups_wf.
#[export] Hint Resolve createNodeGroup_wf renameNodeGroup_wf deleteNodeGroup_wf
  setNodeGroupMembers_wf : preserve.
