(* ===== verification/Protocol.v ===== *)
(** * Protocol: [lib/protocol.ts], the frames of the agent connection

    The schemas are data, written with the source's combinators.  zod, which interprets them,
    is a third-party library: an instance of [Zod] is one implementation, [ZodSpec] what the
    program relies on.  A frame that parsed is read at the type its schema gives it.

    The second part: what passes the schemas, and that the bounds hold of every frame a handler sees. *)
From S2P Require Import Prelude Js Schema.
Open Scope Z_scope.

Inductive schema :=
| ZLiteral (s : string)
| ZString (min max : nat)
| ZNumber                         (* [z.number().finite()] *)
| ZNat                            (* [z.number().int().nonnegative()] *)
| ZBoolean
| ZUnknown
| ZRecord                         (* [z.record(z.string(), z.unknown())] *)
| ZOptional (s : schema)
| ZNullish (s : schema)
| ZObject (fields : list (string * schema))
| ZUnion (tag : string) (l : list schema).   (* [z.discriminatedUnion] *)

Definition PROTOCOL_VERSION : Z := 2.

Definition ts_schema : schema := ZOptional ZNumber.

Definition HelloFrame : schema := ZObject
  [("type", ZLiteral "hello"); ("v", ZOptional ZNat); ("node", ZString 1 63);
   ("token", ZString 1 512); ("capabilities", ZOptional ZRecord); ("ts", ts_schema)].
Definition ResultFrame : schema := ZObject
  [("type", ZLiteral "result"); ("id", ZString 1 64); ("ok", ZBoolean);
   ("result", ZOptional ZUnknown); ("error", ZNullish (ZString 0 20000));
   ("logs", ZNullish (ZString 0 20000)); ("cached", ZOptional ZBoolean); ("ts", ts_schema)].
Definition ReceiptFrame : schema := ZObject
  [("type", ZLiteral "receipt"); ("id", ZString 1 64); ("ts", ts_schema)].
Definition LogFrame : schema := ZObject
  [("type", ZLiteral "log"); ("level", ZOptional (ZString 0 16)); ("source", ZNullish (ZString 0 64));
   ("lab", ZNullish (ZString 0 64)); ("user", ZNullish (ZString 0 64));
   ("task_id", ZNullish (ZString 0 64)); ("msg", ZOptional (ZString 0 20000));
   ("detail", ZNullish (ZString 0 20000)); ("ts", ts_schema)].
Definition EventFrame : schema := ZObject
  [("type", ZLiteral "event"); ("kind", ZString 0 32); ("payload", ZOptional ZRecord); ("ts", ts_schema)].
Definition TelemetryFrame : schema := ZObject
  [("type", ZLiteral "telemetry"); ("payload", ZOptional ZRecord); ("ts", ts_schema)].

Definition InboundFrame : schema :=
  ZUnion "type" [HelloFrame; ResultFrame; ReceiptFrame; LogFrame; EventFrame; TelemetryFrame].

(** [z.number().int().nonnegative()]: zod's integers are JavaScript's safe ones. *)
Definition MAX_SAFE_INTEGER : num := num_of_Z (2 ^ 53 - 1).
Definition safe_nat (n : num) : bool :=
  is_integer n && num_leb (num_of_Z 0) n && num_leb n MAX_SAFE_INTEGER.

(** [s.safeParse(v)]: [undefined] is [None]. *)
Class Zod := safe_parse : schema -> option json -> option (option json).

(** zod's documented behaviour of the combinators above. *)
Class ZodSpec `{Zod} : Prop := {
  zod_literal s v x : safe_parse (ZLiteral s) v = Some x <-> v = Some (JStr s) /\ x = v;
  zod_string lo hi v x : safe_parse (ZString lo hi) v = Some x <->
    (exists s, v = Some (JStr s) /\ (lo <= String.length s <= hi)%nat) /\ x = v;
  zod_number v x : safe_parse ZNumber v = Some x <->
    (exists n, v = Some (JNum n) /\ is_finite n = true) /\ x = v;
  zod_nat v x : safe_parse ZNat v = Some x <->
    (exists n, v = Some (JNum n) /\ safe_nat n = true) /\ x = v;
  zod_boolean v x : safe_parse ZBoolean v = Some x <-> (exists b, v = Some (JBool b)) /\ x = v;
  zod_unknown v : safe_parse ZUnknown v = Some v;
  zod_record v x : safe_parse ZRecord v = Some x -> exists l l',
    v = Some (JObj l) /\ x = Some (JObj l') /\ forall k, k ∈ l'.*1 -> k ∈ l.*1;
  zod_optional s v x : safe_parse (ZOptional s) v = Some x <->
    (v = None /\ x = None) \/ (v <> None /\ safe_parse s v = Some x);
  zod_nullish s v x : safe_parse (ZNullish s) v = Some x <->
    ((v = None \/ v = Some JNull) /\ x = v) \/
    (v <> None /\ v <> Some JNull /\ safe_parse s v = Some x);
  zod_object fs v x : NoDup fs.*1 -> (safe_parse (ZObject fs) v = Some x -> exists l l',
    v = Some (JObj l) /\ x = Some (JObj l') /\ (forall k, k ∈ l'.*1 -> k ∈ fs.*1) /\
    forall k s, (k, s) ∈ fs -> safe_parse s (alookup k l) = Some (alookup k l'));
  zod_union tag ss v x : safe_parse (ZUnion tag ss) v = Some x ->
    exists s, s ∈ ss /\ safe_parse s v = Some x }.

(** ** Frames at their types *)

Record Hello := mkHello {
  h_v : option num; h_node : string; h_token : string; h_capabilities : option json }.
Record Result := mkResult {
  r_id : string; r_ok : bool; r_result : option json; r_error : option string;
  r_logs : option string; r_cached : option bool }.
Record LogMsg := mkLogMsg {
  lg_level : option string; lg_source : option string; lg_lab : option string;
  lg_user : option string; lg_task_id : option string; lg_msg : option string;
  lg_detail : option string; lg_ts : option num }.
Record Event := mkEvent { ev_kind : string; ev_payload : option json; ev_ts : option num }.

Inductive Frame :=
| FHello (h : Hello)
| FResult (r : Result)
| FReceipt (id : string)
| FLog (l : LogMsg)
| FEvent (e : Event)
| FTelemetry (payload : option json).

Definition as_bool (v : option json) : option bool :=
  match v with Some (JBool b) => Some b | _ => None end.

(** The frame a parsed value is ([z.infer]). *)
Definition frame_of (v : json) : option Frame :=
  let s k := as_str (field k v) in
  kind ← s "type";
  if String.eqb kind "hello" then
    node ← s "node"; token ← s "token";
    Some (FHello (mkHello (as_num (field "v" v)) node token (field "capabilities" v)))
  else if String.eqb kind "result" then
    id ← s "id"; ok ← as_bool (field "ok" v);
    Some (FResult (mkResult id ok (field "result" v) (s "error") (s "logs")
            (as_bool (field "cached" v))))
  else if String.eqb kind "receipt" then id ← s "id"; Some (FReceipt id)
  else if String.eqb kind "log" then
    Some (FLog (mkLogMsg (s "level") (s "source") (s "lab") (s "user") (s "task_id") (s "msg")
            (s "detail") (as_num (field "ts" v))))
  else if String.eqb kind "event" then
    k ← s "kind"; Some (FEvent (mkEvent k (field "payload" v) (as_num (field "ts" v))))
  else if String.eqb kind "telemetry" then Some (FTelemetry (field "payload" v))
  else None.

Definition parseInboundFrame {ZP : Zod} (raw : json) : option Frame :=
  match safe_parse InboundFrame (Some raw) with
  | Some (Some v) => frame_of v
  | _ => None
  end.

(** [(v ?? 0) === PROTOCOL_VERSION] *)
Definition isProtocolCompatible (v : option num) : bool :=
  num_eqb (nullish v (num_of_Z 0)) (num_of_Z PROTOCOL_VERSION).

(** * A reference interpreter of the schemas, and what a parsed frame satisfies *)


(** ** One implementation of [Zod] *)

Section fields_of.
Context (parse : schema -> option json -> option (option json)).

(** The fields of an object, in the order of the schema. *)
Definition ref_fields (l : list (string * json)) : list (string * schema) -> option (list (string * json)) :=
  fix go fs :=
    match fs with
    | [] => Some []
    | (k, s) :: fs' =>
        match parse s (alookup k l), go fs' with
        | Some o, Some r => Some (match o with Some x => (k, x) :: r | None => r end)
        | _, _ => None
        end
    end.

(** The first member that accepts the value. *)
Definition ref_union (v : option json) : list schema -> option (option json) :=
  fix go ss :=
    match ss with
    | [] => None
    | s :: ss' => match parse s v with Some x => Some x | None => go ss' end
    end.
End fields_of.

Fixpoint zod_ref (s : schema) (v : option json) : option (option json) :=
  match s with
  | ZLiteral t => match v with Some (JStr x) => if String.eqb x t then Some v else None | _ => None end
  | ZString lo hi =>
      match v with
      | Some (JStr x) => if (lo <=? String.length x)%nat && (String.length x <=? hi)%nat then Some v else None
      | _ => None
      end
  | ZNumber => match v with Some (JNum n) => if is_finite n then Some v else None | _ => None end
  | ZNat =>
      match v with
      | Some (JNum n) => if safe_nat n then Some v else None
      | _ => None
      end
  | ZBoolean => match v with Some (JBool _) => Some v | _ => None end
  | ZUnknown => Some v
  | ZRecord => match v with Some (JObj _) => Some v | _ => None end
  | ZOptional s => match v with None => Some None | Some _ => zod_ref s v end
  | ZNullish s => match v with None => Some None | Some JNull => Some v | Some _ => zod_ref s v end
  | ZObject fs =>
      match v with
      | Some (JObj l) => (fun l' => Some (JObj l')) <$> ref_fields zod_ref l fs
      | _ => None
      end
  | ZUnion _ ss => ref_union zod_ref v ss
  end.

Definition ref_zod : Zod := zod_ref.

Lemma alookup_notin {A} k (l : list (string * A)) : k ∉ l.*1 -> alookup k l = None.
Proof.
  induction l as [|[k' v] l IH]; [done|]. cbn. rewrite not_elem_of_cons. intros [Hne Hn].
  rewrite (proj2 (String.eqb_neq k k')) by done. by apply IH.
Qed.

(** What the object case builds. *)
Lemma zod_fields l fs l' : NoDup fs.*1 -> ref_fields zod_ref l fs = Some l' ->
  (forall k, k ∈ l'.*1 -> k ∈ fs.*1) /\
  forall k s, (k, s) ∈ fs -> zod_ref s (alookup k l) = Some (alookup k l').
Proof.
  revert l'. induction fs as [|[k s] fs IH]; intros l' Hnd Hgo.
  { injection Hgo as <-. split; [done|]. intros ? ? H. by apply elem_of_nil in H. }
  cbn in Hnd. apply NoDup_cons in Hnd as [Hk Hnd]. cbn in Hgo.
  destruct (zod_ref s (alookup k l)) as [o|] eqn:Ho; [|done].
  destruct (ref_fields zod_ref l fs) as [r|]; [|done].
  injection Hgo as <-. destruct (IH r Hnd eq_refl) as [H1 H2].
  assert (k ∉ r.*1) as Hkr by (intros Hin; by apply Hk, H1). split.
  - intros j. destruct o; cbn; rewrite ?elem_of_cons; [intros [->|Hj]; [by left|right; by apply H1]|].
    intros Hj. right. by apply H1.
  - intros j s' [[= -> ->]|Hj]%elem_of_cons.
    + rewrite Ho. f_equal. destruct o; cbn; [by rewrite String.eqb_refl|]. by rewrite alookup_notin.
    + rewrite (H2 j s' Hj). f_equal. destruct o; cbn; [|done].
      rewrite (proj2 (String.eqb_neq j k)); [done|]. intros ->. apply Hk. by apply (list_elem_of_fmap_2 fst) in Hj.
Qed.

#[export] Instance ref_zod_spec : @ZodSpec ref_zod.
Proof.
  split; unfold safe_parse, ref_zod; cbn.
  - intros s v x. split; [|by intros [-> ->]; cbn; rewrite String.eqb_refl].
    destruct v as [[| | |t| |]|]; try done. destruct (String.eqb_spec t s); [|done].
    intros [= <-]. by subst.
  - intros lo hi v x. split.
    + destruct v as [[| | |t| |]|]; try done. destruct (_ && _) eqn:H; [|done].
      intros [= <-]. apply andb_true_iff in H as [H1 H2]. rewrite Nat.leb_le in H1, H2. by eauto.
    + intros [(t & -> & H1 & H2) ->]. apply Nat.leb_le in H1, H2. by rewrite H1, H2.
  - intros v x. split; [|by intros [(n & -> & H) ->]; rewrite H].
    destruct v as [[| |n| | |]|]; try done. destruct (is_finite n) eqn:?; [|done]. intros [= <-]. by eauto.
  - intros v x. split; [|by intros [(n & -> & H) ->]; rewrite H].
    destruct v as [[| |n| | |]|]; try done. destruct (safe_nat n) eqn:H; [|done].
    intros [= <-]. by eauto.
  - intros v x. split; [|by intros [[b ->] ->]]. destruct v as [[]|]; try done. intros [= <-]. by eauto.
  - done.
  - intros v x. destruct v as [[| | | | |l]|]; try done. intros [= <-]. by exists l, l.
  - intros s v x. destruct v; split; [by right|by intros [[]|[]]|intros [= <-]; by left|by intros [[? ->]|[]]].
  - intros s v x. split.
    + destruct v as [[]|]; try (intros [= <-]; left; by eauto); right; by split_and!.
    + intros [[[->| ->] ->]|(H1 & H2 & H3)]; [done..|]. by destruct v as [[]|].
  - intros fs v x Hnd. destruct v as [[]|]; try done. rewrite fmap_Some.
    intros (l' & Hgo & ->). destruct (zod_fields _ _ _ Hnd Hgo) as [H1 H2]. by exists l, l'.
  - intros tag ss v x. induction ss as [|s ss IH]; intros H; [done|]. cbn in H.
    destruct (zod_ref s v) as [y|] eqn:Hs.
    + injection H as <-. exists s. split; [constructor|done].
    + destruct (IH H) as (s' & Hin & Hp). exists s'. split; [by constructor|done].
Qed.

(** ** Parsed frames *)

Definition short (hi : nat) (o : option string) : Prop := forall s, o = Some s -> (String.length s <= hi)%nat.
Definition is_obj (o : option json) : Prop := forall v, o = Some v -> exists l, v = JObj l.
Definition finite_num (o : option num) : Prop := forall n, o = Some n -> is_finite n = true.

(** The bounds the schemas promise the handlers. *)
Definition frame_ok (f : Frame) : Prop :=
  match f with
  | FHello h => (1 <= String.length (h_node h) <= 63)%nat /\ (1 <= String.length (h_token h) <= 512)%nat /\
      is_obj (h_capabilities h) /\
      (forall n, h_v h = Some n -> is_integer n = true /\ num_leb (num_of_Z 0) n = true /\
        num_leb n MAX_SAFE_INTEGER = true)
  | FResult r => (1 <= String.length (r_id r) <= 64)%nat /\ short 20000 (r_error r) /\ short 20000 (r_logs r)
  | FReceipt id => (1 <= String.length id <= 64)%nat
  | FLog l => short 16 (lg_level l) /\ short 64 (lg_source l) /\ short 64 (lg_lab l) /\ short 64 (lg_user l) /\
      short 64 (lg_task_id l) /\ short 20000 (lg_msg l) /\ short 20000 (lg_detail l) /\ finite_num (lg_ts l)
  | FEvent e => (String.length (ev_kind e) <= 32)%nat /\ is_obj (ev_payload e) /\ finite_num (ev_ts e)
  | FTelemetry p => is_obj p
  end.

Section fields.
Context {ZP : Zod} {ZS : ZodSpec}.
Implicit Types (v x : option json).

Lemma opt_string hi v x : safe_parse (ZOptional (ZString 0 hi)) v = Some x -> short hi (as_str x).
Proof.
  rewrite zod_optional, zod_string. intros [[-> ->]|(_ & (s & -> & H) & ->)] t Ht; [done|].
  injection Ht as <-. lia.
Qed.
Lemma nullish_string hi v x : safe_parse (ZNullish (ZString 0 hi)) v = Some x -> short hi (as_str x).
Proof.
  rewrite zod_nullish, zod_string. intros [[[->| ->] ->]|(_ & _ & (s & -> & H) & ->)] t Ht; [done..|].
  injection Ht as <-. lia.
Qed.
Lemma opt_record v x : safe_parse (ZOptional ZRecord) v = Some x -> is_obj x.
Proof.
  rewrite zod_optional. intros [[-> ->]|(_ & (l & l' & _ & -> & _)%zod_record)] t Ht; [done|].
  injection Ht as <-. by eexists.
Qed.
Lemma opt_number v x : safe_parse ts_schema v = Some x -> finite_num (as_num x).
Proof.
  unfold ts_schema. rewrite zod_optional, zod_number.
  intros [[-> ->]|(_ & (n & -> & H) & ->)] t Ht; [done|]. by injection Ht as <-.
Qed.
Lemma opt_nat v x : safe_parse (ZOptional ZNat) v = Some x ->
  forall n, as_num x = Some n -> is_integer n = true /\ num_leb (num_of_Z 0) n = true /\
    num_leb n MAX_SAFE_INTEGER = true.
Proof.
  rewrite zod_optional, zod_nat. intros [[-> ->]|(_ & (n & -> & H) & ->)] t Ht; [done|].
  injection Ht as <-. by apply andb_true_iff in H as [[? ?]%andb_true_iff ?].
Qed.
Lemma req_string lo hi v x : safe_parse (ZString lo hi) v = Some x ->
  exists s, x = Some (JStr s) /\ (lo <= String.length s <= hi)%nat.
Proof. rewrite zod_string. intros [(s & -> & H) ->]. by exists s. Qed.

(** Reads the fields of a parsed object. *)
Lemma object_frame fs v x :
  NoDup fs.*1 -> safe_parse (ZObject fs) v = Some x -> exists l',
    x = Some (JObj l') /\ forall k s, (k, s) ∈ fs -> exists y, safe_parse s y = Some (field k (JObj l')).
Proof.
  intros Hnd H. destruct (zod_object _ _ _ Hnd H) as (l & l' & -> & -> & _ & Hf).
  exists l'. split; [done|]. intros k s Hin. exists (alookup k l). by apply Hf.
Qed.

(** The kind of a parsed object. *)
Lemma literal_kind t y (v : json) : safe_parse (ZLiteral t) y = Some (field "type" v) -> field "type" v = Some (JStr t).
Proof. rewrite zod_literal. by intros [-> ->]. Qed.
Lemma req_bool y x : safe_parse ZBoolean y = Some x -> exists b, x = Some (JBool b).
Proof. rewrite zod_boolean. by intros [[b ->] ->]; exists b. Qed.

(** A value that matches [s] reads as a frame within its bounds. *)
Definition typed (s : schema) : Prop :=
  forall v x, safe_parse s v = Some x -> exists (j : json) f, x = Some j /\ frame_of j = Some f /\ frame_ok f.

#[local] Ltac fields H := apply object_frame in H as (l & -> & H); [|by repeat constructor; set_solver].
#[local] Ltac known k E := match goal with H : forall _ _, _ ∈ _ -> _ |- _ =>
  let y := fresh "y" in edestruct (H k) as [y E]; [repeat constructor|] end.
#[local] Ltac kind k := let E := fresh "E" in known "type" E; apply literal_kind in E;
  eexists _, _; split; [done|]; unfold frame_of; cbv zeta; rewrite E; cbn [as_str mbind option_bind String.eqb Ascii.eqb Bool.eqb].

Lemma hello_typed : typed HelloFrame.
Proof.
  intros v x H. fields H. known "node" Hn. known "token" Ht. known "capabilities" Hc. known "v" Hv.
  apply req_string in Hn as (n & Hn & ?), Ht as (t & Ht & ?).
  kind "hello". rewrite Hn, Ht. split; [done|]. cbn [frame_ok h_node h_token h_capabilities h_v].
  split_and!; try lia; [by eapply opt_record|by eapply opt_nat].
Qed.
Lemma result_typed : typed ResultFrame.
Proof.
  intros v x H. fields H. known "id" Hi. known "ok" Ho. known "error" He. known "logs" Hl.
  apply req_string in Hi as (i & Hi & ?). apply req_bool in Ho as [b Ho].
  kind "result". rewrite Hi, Ho. split; [done|]. cbn [frame_ok r_id r_error r_logs].
  split_and!; try lia; by eapply nullish_string.
Qed.
Lemma receipt_typed : typed ReceiptFrame.
Proof.
  intros v x H. fields H. known "id" Hi. apply req_string in Hi as (i & Hi & ?).
  kind "receipt". rewrite Hi. split; [done|]. cbn [frame_ok]. lia.
Qed.
Lemma log_typed : typed LogFrame.
Proof.
  intros v x H. fields H. known "level" H1. known "source" H2. known "lab" H3. known "user" H4.
  known "task_id" H5. known "msg" H6. known "detail" H7. known "ts" H8.
  kind "log". split; [done|]. cbn [frame_ok lg_level lg_source lg_lab lg_user lg_task_id lg_msg lg_detail lg_ts].
  split_and!; first [by eapply opt_string | by eapply nullish_string | by eapply opt_number].
Qed.
Lemma event_typed : typed EventFrame.
Proof.
  intros v x H. fields H. known "kind" Hk. known "payload" Hp. known "ts" Ht.
  apply req_string in Hk as (k & Hk & ?). kind "event". rewrite Hk. split; [done|].
  cbn [frame_ok ev_kind ev_payload ev_ts]. split_and!; [lia|by eapply opt_record|by eapply opt_number].
Qed.
Lemma telemetry_typed : typed TelemetryFrame.
Proof.
  intros v x H. fields H. known "payload" Hp. kind "telemetry". split; [done|]. cbn [frame_ok].
  by eapply opt_record.
Qed.

Lemma inbound_typed : typed InboundFrame.
Proof.
  intros v x (s & Hin & H)%zod_union.
  repeat (apply elem_of_cons in Hin as [->|Hin]; [|]); [..|by apply elem_of_nil in Hin]; revert v x H;
    [apply hello_typed|apply result_typed|apply receipt_typed|apply log_typed|apply event_typed|apply telemetry_typed].
Qed.
End fields.

(** C12: an inbound message reaches a handler exactly when it matches one of the six schemas,
    and then as a frame of that kind whose node name, token, ids, texts and numbers are within
    the bounds the schemas state; every other message is dropped. *)
Theorem parseInboundFrame_bounded {ZP : Zod} {ZS : ZodSpec} raw :
  match parseInboundFrame raw with
  | Some f => frame_ok f
  | None => safe_parse InboundFrame (Some raw) = None
  end.
Proof.
  unfold parseInboundFrame. destruct (safe_parse InboundFrame (Some raw)) as [x|] eqn:H; [|done].
  destruct (inbound_typed _ _ H) as (v & f & -> & Hf & Ho). by rewrite Hf.
Qed.

Definition receipt_raw : json := JObj [("type", JStr "receipt"); ("id", JStr "uuid-0"); ("extra", JNull)].
Lemma parseInboundFrame_bounded_witness :
  @parseInboundFrame ref_zod receipt_raw = Some (FReceipt "uuid-0") /\ frame_ok (FReceipt "uuid-0").
Proof.
  split; [reflexivity|]. exact (@parseInboundFrame_bounded ref_zod ref_zod_spec receipt_raw).
Defined.
