(* ===== verification/Ingest.v ===== *)
(** * Ingest: [lib/ingest.ts], what a node's telemetry does to the database

    A telemetry payload is whatever the agent sent: an object, checked field by field.  Every
    row is resolved to the placement of (lab, authenticated node). *)
From S2P Require Import Prelude Js Redact Schema Sql DbWf Env Secrets Queue Settings Template Format Mailer Alerts Placements.
From Stdlib Require Import Ascii.
Open Scope Z_scope.

Definition STORAGE_SAMPLE_MIN_INTERVAL_MS : Z := 5 * 60 * 1000.
Definition QUOTA_ALERT_DEDUP_MS : Z := 6 * 60 * 60 * 1000.
Definition STUDENT_QUOTA_ALERT_DEDUP_MS : Z := 24 * 60 * 60 * 1000.

(** [a ?? b] on values that may be undefined or null *)
Definition nn (o : option json) : option json := match o with Some JNull => None | _ => o end.

(** The elements [for (... of o ?? [])] visits. *)
Fixpoint chars (s : string) : list json :=
  match s with EmptyString => [] | String c s' => JStr (String c "") :: chars s' end.
Definition iterate (o : option json) : result exn (list json) :=
  match nn o with
  | None => Ok []
  | Some (JArr l) => Ok l
  | Some (JStr s) => Ok (chars s)
  | _ => Throw ETypeError
  end.

(** [v.k]: reading a property of null throws. *)
Definition prop (k : string) (v : json) : result exn (option json) :=
  match v with JNull => Throw ETypeError | _ => Ok (field k v) end.

Definition studentIdInLab (d : Db) (labId : Z) (username : string) : option Z :=
  s_id <$> get_row (fun s => s_username s = username)
    (omap (fun m => student_of d (lm_student_id m))
       (select (fun m => lm_lab_id m = labId) (rows (lab_members d)))).

(** The samples of one series: placement, student (or the lab itself) and pool. *)
Definition series (placementId : Z) (studentId : option Z) (pool : string) (s : SampleRow) : Prop :=
  ss_placement_id s = Some placementId /\ ss_student_id s = studentId /\ ss_pool s = pool.
#[global] Instance series_dec p s pool r : Decision (series p s pool r).
Proof. unfold series. apply _. Defined.

(** [ORDER BY id DESC LIMIT 1]: rows are in id order. *)
Definition latest_sample (d : Db) (p : Z) (s : option Z) (pool : string) : option SampleRow :=
  last (select (series p s pool) (rows (storage_samples d))).

Definition shouldSample (d : Db) (placementId : Z) (studentId : option Z) (pool : string)
    (used : num) (now : Z) (scanDerived : bool) : bool :=
  match latest_sample d placementId studentId pool with
  | None => true
  | Some row =>
      (STORAGE_SAMPLE_MIN_INTERVAL_MS <=? now - ss_ts row) ||
      (scanDerived && negb (num_eqb (ss_used_bytes row) used))
  end.

(** The latest of some times. *)
Definition latest (l : list Z) : option Z :=
  fold_left (fun acc t => Some (match acc with Some a => Z.max a t | None => t end)) l None.

(** [Math.round((used / quota) * 100)] *)
Definition percent (used quota : num) : num :=
  num_round (num_mul (num_div used quota) (num_of_Z 100)).

Definition TIERS : list string := ["fast"; "cold"; "rootfs"].

(** A storage entry that passes the checks. *)
Record StorageUsage := mkUsage {
  su_lab : string; su_user : option json; su_tier : string; su_used : num; su_quota : option json }.
Definition storage_usage (v : json) : option StorageUsage :=
  lab ← as_str (field "lab" v);
  tier ← as_str (field "tier" v);
  used ← as_num (field "used_bytes" v);
  if bool_decide (tier ∈ TIERS) && is_finite used
  then Some (mkUsage lab (field "user" v) tier used (nn (field "quota_bytes" v))) else None.

Definition json_z (z : Z) : json := JNum (num_of_Z z).

(** The quota a user's usage is compared with. *)
Definition user_quota (p : PlacementRow) (tier : string) (quota : option json) : option json :=
  if String.eqb tier "fast"
  then nullish_or quota (nullish_or (json_z <$> p_student_fast_quota_bytes p)
                                    (Some (json_z (p_fast_quota_bytes p))))
  else if String.eqb tier "cold"
  then nullish_or quota (nullish_or (json_z <$> p_student_cold_quota_bytes p)
                                    (json_z <$> p_cold_quota_bytes p))
  else None.

Definition isBadScrub (p : json) : result exn bool :=
  healthy ← prop "healthy" p;
  errors ← prop "errors" p;
  mret (bool_decide (healthy = Some (JBool false)) ||
        match errors with Some (JNum n) => negb (num_eqb n (num_of_Z 0)) | _ => false end).

(** [prev.filter(isBadScrub).map((p) => p.pool)] *)
Fixpoint bad_pools (l : list json) : result exn (list (option json)) :=
  match l with
  | [] => Ok []
  | p :: l' =>
      bad ← isBadScrub p;
      rest ← bad_pools l';
      mret (if bad : bool then field "pool" p :: rest else rest)
  end.

(** Membership in a [Set] of pools: arrays and objects are compared by identity. *)
Definition same_pool (a b : option json) : bool :=
  match a with Some (JArr _ | JObj _) => false | _ => bool_decide (a = b) end.

Section ingest.
Context {HK : Honker} {PF : Platform}.

(** [${v ?? d}] and [${v}] *)
Definition show_or (d : string) (v : option json) : string :=
  match nn v with Some v => js_String v | None => d end.
Definition show_any (v : option json) : string :=
  match v with Some v => js_String v | None => "undefined" end.

Definition maybeStudentQuotaAlert (placementId labId studentId : Z) (node pool : string)
    (used quota : num) (now : Z) : Act unit :=
  enabled ← getSetting_bool "studentQuotaAlertsEnabled";
  if negb enabled then mret tt
  else
    let pct := percent used quota in
    threshold ← getSetting_num "studentQuotaAlertPct";
    if num_leb pct threshold then mret tt
    else
      d ← db;
      let recent := latest (sqa_ts <$> select (fun a => sqa_placement_id a = placementId /\
                      sqa_student_id a = studentId /\ sqa_pool a = pool)
                      (rows (student_quota_alerts d))) in
      if match recent with Some t => now - t <? STUDENT_QUOTA_ALERT_DEDUP_MS | None => false end
      then mret tt
      else
        match student_of d studentId, lab_of d labId,
              get_row (fun n => n_name n = node) (rows (nodes d)) with
        | Some s, Some l, Some n =>
            let email := default "" (s_email s) in
            if negb (truthy email) then mret tt
            else
              insert_student_quota_alert placementId studentId pool pct now;;
              let info to :=
                {| sq_to := to; sq_name := or_str (default "" (s_name s)) (s_username s);
                   sq_username := s_username s; sq_lab := l_name l;
                   sq_node := or_str (default "" (trim <$> n_alias n)) node;
                   sq_pool := pool; sq_pct := pct; sq_used := fmtBytes (Some used);
                   sq_quota := fmtBytes (Some quota) |} in
              detached (sendStudentQuotaEmail (info email);; mret tt);;
              notify ← getSetting_bool "studentQuotaNotifyAdmins";
              when notify (
                d ← db;
                for_each (fun a => detached (sendStudentQuotaEmail (info (ad_email a));; mret tt))
                  (select (fun a => ad_is_active a = true) (rows (admins d))))
        | _, _, _ => mret tt
        end.

(** The latest usage of each student on the placement's pool, largest first. *)
Definition usage_breakdown (d : Db) (placementId : Z) (pool : string) : list (string * num) :=
  let used s := last (ss_used_bytes <$> filter (fun r => Some (ss_ts r) =
                  latest (ss_ts <$> select (series placementId (Some (s_id s)) pool) (rows (storage_samples d))))
                (select (series placementId (Some (s_id s)) pool) (rows (storage_samples d)))) in
  sort_by (fun a b => num_leb b.2 a.2)
    (omap (fun s => (fun u => (s_username s, u)) <$> used s) (rows (students d))).

Definition maybeQuotaAlert (placementId labId : Z) (pool : string) (used quota : num) (now : Z)
    : Act unit :=
  let pct := percent used quota in
  threshold ← getSetting_num "quotaAlertPct";
  if num_ltb pct threshold then mret tt
  else
    d ← db;
    let recent := latest (qa_ts <$> select (fun a => qa_placement_id a = Some placementId /\ qa_pool a = pool)
                    (rows (quota_alerts d))) in
    if match recent with Some t => now - t <? QUOTA_ALERT_DEDUP_MS | None => false end
    then mret tt
    else
      match lab_of d labId with
      | None => mret tt
      | Some l =>
          insert_quota_alert (Some placementId) (Some labId) pool pct now;;
          let email := default "" (l_pi_email l) in
          if negb (truthy email) then mret tt
          else
            detached (sendQuotaEmail
              {| qe_to := email; qe_lab := l_name l; qe_pool := pool; qe_pct := pct;
                 qe_used := fmtBytes (Some used); qe_quota := fmtBytes (Some quota);
                 qe_breakdown := (fun b => (b.1, fmtBytes (Some b.2)))
                                   <$> usage_breakdown d placementId pool |};; mret tt)
      end.

Definition ingestColdStorage (node : string) (cold : option json) : Act unit :=
  match cold with
  | Some (JObj _ | JArr _) =>
      let c := default JNull cold in
      let mount := take_str 512 <$> as_str (field "mount_path" c) in
      let ready := bool_decide (field "ready" c = Some (JBool true)) in
      update_nodes (fun n => n_name n = node)
        (fun n => n <| n_cold_mount_path := mount |> <| n_cold_ready := ready |>)
  | _ => mret tt
  end.

Definition ingestScrub (node : string) (scrub : option json) (now : Z) : Act unit :=
  match scrub with
  | Some (JArr entries) =>
      d ← db;
      let status := get_row (fun n => n_name n = node) (rows (nodes d)) ≫= n_scrub_status in
      let parsed := match status with Some t => default (JArr []) (json_parse t) | None => JArr [] end in
      prev ← lift (match parsed with JArr l => Ok l | _ => Throw ETypeError end);
      prevBad ← lift (bad_pools prev);
      update_nodes (fun n => n_name n = node)
        (fun n => n <| n_scrub_status := Some (TJson (JArr entries)) |>);;
      for_each (fun p =>
        bad ← lift (isBadScrub p);
        if negb bad || existsb (same_pool (field "pool" p)) prevBad then mret tt
        else
          let pool := show_any (field "pool" p) in
          let msg := "ZFS scrub on " +:+ node +:+ ": pool '" +:+ pool +:+ "' reports errors" in
          let detail := nullish (nn (field "detail" p))
            (JStr ("state=" +:+ show_or "?" (field "state" p) +:+
                   "; errors=" +:+ show_or "?" (field "errors" p) +:+
                   "; scan=" +:+ show_or "n/a" (field "last_scrub" p))) in
          text ← lift (bind_text (Some detail));
          insert_log (fun i => {| log_id := i; log_ts := num_of_Z now; log_node := Some node;
            log_level := "ERROR"; log_source := Some "scrub"; log_lab := None; log_user := None;
            log_task_id := None; log_msg := msg; log_detail := text |});;
          detached (alertAdmins ("scrub:" +:+ node +:+ ":" +:+ pool)
            ("ZFS scrub errors on " +:+ node) (msg +:+ nl +:+ nl +:+ js_String detail))) entries
  | _ => mret tt
  end.

(** One storage entry. *)
Definition ingest_storage (node : string) (now : Z) (v : json) : Act unit :=
  match storage_usage v with
  | None => mret tt
  | Some ds =>
      d ← db;
      match find_by_lab_node d (su_lab ds) node with
      | None => mret tt
      | Some ref =>
          let p := pl_row ref in
          let user := ojson_truthy (su_user ds) in
          name ← lift (if user then bind_text (su_user ds) else Ok None);
          let studentId := name ≫= studentIdInLab d (p_lab_id p) in
          if user && negb (is_some studentId) then mret tt
          else
            let scanDerived := String.eqb (su_tier ds) "rootfs" ||
                               negb (bool_decide (su_user ds = Some JNull)) in
            if negb (shouldSample d (p_id p) studentId (su_tier ds) (su_used ds) now scanDerived)
            then mret tt
            else
              quota ← lift (bind_numeric (su_quota ds));
              insert_sample (Some (p_id p)) (Some (p_lab_id p)) studentId (su_tier ds) (su_used ds)
                quota now;;
              let assigned := user_quota p (su_tier ds) (su_quota ds) in
              match studentId with
              | Some sid =>
                  when (ojson_truthy assigned)
                    (maybeStudentQuotaAlert (p_id p) (p_lab_id p) sid node (su_tier ds) (su_used ds)
                       (js_Number assigned) now)
              | None => mret tt
              end;;
              when (negb user && ojson_truthy (su_quota ds) && negb (String.eqb (su_tier ds) "rootfs"))
                (maybeQuotaAlert (p_id p) (p_lab_id p) (su_tier ds) (su_used ds)
                   (js_Number (su_quota ds)) now)
      end
  end.

(** One usage-scan time: it only moves forward. *)
Definition ingest_scan (node : string) (u : json) : Act unit :=
  lab ← lift (prop "lab" u);
  if negb (ojson_truthy lab) then mret tt
  else
    match as_num (field "scanned_at" u) with
    | None => mret tt
    | Some at_ =>
        name ← lift (bind_text lab);
        d ← db;
        match (l ← name; find_by_lab_node d l node) with
        | None => mret tt
        | Some ref =>
            update_placements (fun p => p_id p = p_id (pl_row ref) /\
                match p_usage_scanned_at p with
                | None => true | Some t => num_ltb t at_ end = true)
              (fun p => p <| p_usage_scanned_at := Some at_ |>)
        end
    end.

(** One process of the GPU snapshot. *)
Definition ingest_gpu (node : string) (now : Z) (p : json) : Act unit :=
  lab ← lift (prop "lab" p);
  let labName := as_str lab in
  d ← db;
  let placementId := match labName with
                     | Some l => if truthy l then (fun v => p_id (pl_row v)) <$> find_by_lab_node d l node
                                 else None
                     | None => None
                     end in
  pid ← lift (bind_numeric (field "pid" p));
  user ← lift (bind_text (field "user" p));
  vram ← lift (bind_numeric (field "vram_bytes" p));
  util ← lift (bind_numeric (field "util" p));
  replace_gpu_snapshot
    {| gs_node := node; gs_pid := default JNull pid; gs_user := user; gs_lab := labName;
       gs_placement_id := placementId; gs_vram_bytes := vram; gs_util := util; gs_ts := now;
       gs_cmd := take_str 200 <$> as_str (field "cmd" p);
       gs_started_at := match as_num (field "started_at" p) with
                        | Some n => if is_finite n then Some n else None
                        | None => None
                        end |}.

Definition ingestTelemetry (node : string) (payload : json) : Act unit :=
  now ← date_now;
  update_nodes (fun n => n_name n = node)
    (fun n => n <| n_pools := Some (TJson (nullish (nn (field "pools" payload)) (JArr []))) |>
               <| n_last_seen := Some now |>);;
  ingestColdStorage node (field "cold" payload);;
  ingestScrub node (field "scrub" payload) now;;
  storage ← lift (iterate (field "storage" payload));
  for_each (ingest_storage node now) storage;;
  scans ← lift (iterate (field "usage_scans" payload));
  for_each (ingest_scan node) scans;;
  transaction (
    delete_gpu_snapshot node;;
    ps ← lift (iterate (field "gpu_processes" payload));
    for_each (ingest_gpu node now) ps).
End ingest.

(** ** The database stays well-formed *)

Section ingest_wf.
Context {HK : Honker} {PF : Platform}.

Lemma maybeStudentQuotaAlert_wf p l s n pool u q now :
  preserves wf (maybeStudentQuotaAlert p l s n pool u q now).
Proof. unfold maybeStudentQuotaAlert, detached. solve_preserves. Qed.
Lemma maybeQuotaAlert_wf p l pool u q now : preserves wf (maybeQuotaAlert p l pool u q now).
Proof. unfold maybeQuotaAlert, detached. solve_preserves. Qed.
Lemma ingestColdStorage_wf n c : preserves wf (ingestColdStorage n c).
Proof. unfold ingestColdStorage. solve_preserves. Qed.
Lemma ingestScrub_wf n s now : preserves wf (ingestScrub n s now).
Proof. unfold ingestScrub, detached. solve_preserves. Qed.
#[local] Hint Resolve maybeStudentQuotaAlert_wf maybeQuotaAlert_wf ingestColdStorage_wf
  ingestScrub_wf : preserve.
Lemma ingest_storage_wf n now v : preserves wf (ingest_storage n now v).
Proof. unfold ingest_storage. solve_preserves. Qed.
Lemma ingest_scan_wf n u : preserves wf (ingest_scan n u).
Proof. unfold ingest_scan. solve_preserves. Qed.
Lemma ingest_gpu_wf n now p : preserves wf (ingest_gpu n now p).
Proof. unfold ingest_gpu. solve_preserves. Qed.
#[local] Hint Resolve ingest_storage_wf ingest_scan_wf ingest_gpu_wf : preserve.
Lemma ingestTelemetry_wf n payload : preserves wf (ingestTelemetry n payload).
Proof.
  unfold ingestTelemetry. solve_preserves. apply transaction_wf. solve_preserves.
Qed.
End ingest_wf.
#[export] Hint Resolve ingestTelemetry_wf : preserve.
