(* ===== verification/Hub.v ===== *)
(** * Hub: the frames of [lib/hub.ts]

    What an authenticated agent's frames do to the database.  The connections themselves are
    in [HubConn]. *)
From S2P Require Import Prelude Js Redact Schema Sql DbWf Env Secrets Queue Settings Template Format Mailer Alerts Placements Nodes Protocol Ingest.
From Stdlib Require Import Ascii.
Open Scope Z_scope.

Definition GPU_STATES : list string := ["idle"; "warned"; "killed"].
Definition GPU_MAIL_WINDOW_MS : Z := 10 * 60 * 1000.

(** The characters at or above a space, without DEL. *)
Fixpoint strip_control (s : string) : string :=
  match s with
  | EmptyString => ""
  | String c s' =>
      if (32 <=? code c)%N && negb (code c =? 127)%N then String c (strip_control s')
      else strip_control s'
  end.
Definition boundedStr (v : option json) (max : nat) : option string :=
  match as_str v with Some s => or_null (take_str max (strip_control s)) | None => None end.
Definition intOrNull (v : option json) : option num :=
  match as_num v with Some n => if is_finite n then Some (num_trunc n) else None | None => None end.
Definition clampText (v : option string) (max : nat) : option string := take_str max <$> v.

(** The payload of a GPU event, validated. *)
Record GpuPayload := mkGpu {
  gp_pid : option num; gp_user : option string; gp_lab : option string;
  gp_vram_bytes : option num; gp_state : string; gp_cmd : option string; gp_idle_s : option num }.

Definition gpu_payload (raw : json) : GpuPayload :=
  {| gp_pid := intOrNull (field "pid" raw);
     gp_user := boundedStr (field "user" raw) 32;
     gp_lab := boundedStr (field "lab" raw) 40;
     gp_vram_bytes := intOrNull (field "vram_bytes" raw);
     gp_state := match as_str (field "state" raw) with
                 | Some s => if bool_decide (s ∈ GPU_STATES) then s else "idle"
                 | None => "idle"
                 end;
     gp_cmd := boundedStr (field "cmd" raw) 200;
     gp_idle_s := intOrNull (field "idle_s" raw) |}.

(** A student with this username is on the roster of a lab placed on the node. *)
Definition hosts_student (d : Db) (username node : string) : bool :=
  existsb (fun m =>
    match student_of d (lm_student_id m) with
    | Some s => String.eqb (s_username s) username &&
                existsb (fun p => (p_lab_id p =? lm_lab_id m) &&
                    match node_of d (p_node_id p) with
                    | Some n => String.eqb (n_name n) node | None => false end)
                  (rows (lab_placements d))
    | None => false
    end) (rows (lab_members d)).

Section hub.
Context {HK : Honker} {PF : Platform}.

Definition safeParams (params : option text) : json :=
  match params with
  | Some t => default (JObj []) (json_parse t)
  | None => JObj []
  end.

(** An ERROR row of the log. *)
Definition log_error (node source lab : string) (user : option string) (msg : string) (e : exn)
    : Act unit :=
  now ← date_now;
  insert_log (fun i => {| log_id := i; log_ts := num_of_Z now; log_node := Some node;
    log_level := "ERROR"; log_source := Some source; log_lab := Some lab; log_user := user;
    log_task_id := None; log_msg := msg; log_detail := Some (error_text e) |}).

(** The handlers of the two mails of a confirmed account. *)
Definition credential_failed (node lab : string) (user : option string) : exn -> Act unit :=
  log_error node "credential" lab user "credential delivery failed".
Definition completion_failed (node lab : string) : exn -> Act unit :=
  log_error node "placement-completion" lab None "PI completion email failed".

(** The two calls nothing waits for, as far as they run before an [await] ... *)
Definition deliver_mails (labName node username : string) : Act unit :=
  catch (deliverPlacementCredential labName node username)
    (credential_failed node labName (Some username));;
  catch (maybeDeliverPlacementCompletion labName node) (completion_failed node labName).

(** ... and, at any later time, the rest of the [k]-th of those in flight. *)
Definition settle_mail (k : nat) : Act unit :=
  fs ← gets w_mails;
  match fs !! k with
  | None => mret tt
  | Some f =>
      modify (fun w => w <| w_mails ::= delete k |>);;
      match if_delivery f with
      | DCredential memberId =>
          catch (finishCredentialDelivery memberId (if_mail f);; mret tt)
            (credential_failed (if_node f) (if_lab f) (if_user f))
      | DCompletion placementId =>
          catch (settlePlacementCompletion placementId (if_mail f);; mret tt)
            (completion_failed (if_node f) (if_lab f))
      end
  end.

Definition set_capabilities (node : string) (v : json) : Act unit :=
  now ← date_now;
  update_nodes (fun n => n_name n = node)
    (fun n => n <| n_capabilities := Some (TJson v) |> <| n_last_seen := Some now |>).

(** [frame.result?.lab ?? params.lab] *)
Definition result_lab (frame : Result) (params : json) : result exn (option json) :=
  match nn (r_result frame ≫= field "lab") with
  | Some v => Ok (Some v)
  | None => prop "lab" params
  end.

(** What the result of task [t] does to placements and members. *)
Definition lifecycle (node : string) (frame : Result) (t : TaskRow) : Act unit :=
  let params := safeParams (t_params t) in
  let username := default "" (str_field "username" params) in
  let action := t_action t in
  let ok := r_ok frame in
  labName ← lift (result_lab frame params);
  let lab := ojson_truthy labName in
  let error fallback := if ok then None else Some (nullish (r_error frame) fallback) in
  if ok && String.eqb action "node.check" && ojson_truthy (r_result frame) then
    set_capabilities node (default JNull (r_result frame))
  else if ok && String.eqb action "node.repair" && ojson_truthy (r_result frame ≫= field "health") then
    set_capabilities node (default JNull (r_result frame ≫= field "health"))
  else if negb lab then mret tt
  else if String.eqb action "lab.create" then
    name ← lift (bind_text labName);
    markPlacementStateByLabNode (default "" name) node (if ok then PActive else PFailed)
      (error "lab.create failed")
  else if String.eqb action "lab.destroy" then
    name ← lift (bind_text labName);
    if ok then confirmPlacementDestroyed (default "" name) node
    else markPlacementStateByLabNode (default "" name) node PDeleting (error "lab.destroy failed")
  else if truthy username && String.eqb action "student.add" then
    name ← lift (bind_text labName);
    markPlacementMemberState (default "" name) node username (if ok then MActive else MFailed)
      (error "student.add failed");;
    when ok (deliver_mails (default "" name) node username)
  else if truthy username && String.eqb action "student.remove" && ok then
    completeStudentRemoval (r_id frame)
  else mret tt.

Definition handleResult (node : string) (frame : Result) : Act unit :=
  changed ← markTaskState node (r_id frame) (if r_ok frame then TOk else TFailed) (r_result frame)
    (if r_ok frame then None else r_error frame) (bool_decide (r_cached frame = Some true));
  if negb changed then mret tt
  else
    d ← db;
    match get_row (fun t => t_task_uuid t = r_id frame) (rows (task_log d)) with
    | Some t =>
        when (negb (r_ok frame))
          (alertTaskFailed (t_node t) (t_action t) (nullish (r_error frame) "unknown error"));;
        lifecycle node frame t
    | None => mret tt
    end;;
    match r_logs frame with
    | Some text =>
        when (truthy text) (
          now ← date_now;
          insert_log (fun i => {| log_id := i; log_ts := num_of_Z now; log_node := None;
            log_level := if r_ok frame then "INFO" else "ERROR"; log_source := Some "task";
            log_lab := None; log_user := None; log_task_id := Some (r_id frame);
            log_msg := "task " +:+ (if r_ok frame then "ok" else "failed");
            log_detail := Some text |}))
    | None => mret tt
    end.

Definition handleLog (node : string) (frame : LogMsg) : Act unit :=
  ts ← match lg_ts frame with
       | Some t => mret t
       | None => now ← date_now; mret (num_of_Z now)
       end;
  insert_log (fun i => {| log_id := i; log_ts := ts; log_node := Some node;
    log_level := nullish (lg_level frame) "INFO";
    log_source := boundedStr (JStr <$> lg_source frame) 32;
    log_lab := boundedStr (JStr <$> lg_lab frame) 40;
    log_user := boundedStr (JStr <$> lg_user frame) 32;
    log_task_id := boundedStr (JStr <$> lg_task_id frame) 64;
    log_msg := nullish (clampText (lg_msg frame) 2000) "";
    log_detail := clampText (lg_detail frame) 8000 |});;
  maybeAlertOnLog (Some node) (nullish (lg_level frame) "INFO") (lg_source frame)
    (nullish (lg_msg frame) "") (lg_detail frame).

Definition emailGpuEvent (node : string) (p : GpuPayload) : Act unit :=
  match gp_user p with
  | None => mret tt
  | Some user =>
      if negb (String.eqb (gp_state p) "warned") && negb (String.eqb (gp_state p) "killed") then mret tt
      else
        d ← db;
        if negb (hosts_student d user node) then mret tt
        else
          match get_row (fun s => s_username s = user) (rows (students d)) with
          | None => mret tt
          | Some row =>
              let email := default "" (s_email row) in
              if negb (truthy email) then mret tt
              else
                let key := node +:+ ":" +:+ user +:+ ":" +:+ gp_state p in
                now ← date_now;
                last_ ← gets (fun w => default 0 (w_gpu_mail w !! key));
                if now - last_ <? GPU_MAIL_WINDOW_MS then mret tt
                else
                  modify (fun w => w <| w_gpu_mail ::= insert key now |>);;
                  (if String.eqb (gp_state p) "warned" then
                     grace ← getSetting_num "gpuGraceMinutes";
                     sendGpuWarningEmail email
                       {| ge_username := user; ge_labname := gp_lab p; ge_pidno := gp_pid p;
                          ge_nodename := node; ge_graceMinutes := Some grace |};; mret tt
                   else
                     sendGpuKillEmail email
                       {| ge_username := user; ge_labname := gp_lab p; ge_pidno := gp_pid p;
                          ge_nodename := node; ge_graceMinutes := None |};; mret tt)
          end
  end.

Definition handleEvent (node : string) (frame : Event) : Act unit :=
  if negb (String.eqb (ev_kind frame) "gpu") then mret tt
  else
    let p := gpu_payload (nullish (nn (ev_payload frame)) (JObj [])) in
    placement ← match gp_lab p with
                | Some l => getPlacementByLabNode l node
                | None => mret None
                end;
    ts ← match intOrNull (JNum <$> ev_ts frame) with
         | Some t => mret t
         | None => now ← date_now; mret (num_of_Z now)
         end;
    let placementId := (fun v => p_id (pl_row v)) <$> placement in
    insert_gpu_event placementId (fun i =>
      {| ge_id := i; ge_node := node; ge_pid := gp_pid p; ge_user := gp_user p; ge_lab := gp_lab p;
         ge_placement_id := placementId; ge_vram_bytes := gp_vram_bytes p; ge_state := gp_state p;
         ge_ts := ts; ge_cmd := gp_cmd p; ge_idle_s := gp_idle_s p |});;
    detached (emailGpuEvent node p).

Definition handleTelemetry (node : string) (payload : option json) : Act unit :=
  ingestTelemetry node (nullish (nn payload) (JObj [])).

Definition ingestFrame (node : string) (frame : Frame) : Act unit :=
  match frame with
  | FResult r => handleResult node r
  | FReceipt id => markTaskReceived node id
  | FLog l => handleLog node l
  | FEvent e => handleEvent node e
  | FTelemetry p => handleTelemetry node p
  | FHello _ => mret tt
  end.

(** The row of a node that says hello. *)
Definition register_row (node : string) (capabilities : json) : Act unit :=
  now ← date_now;
  upsert_node node
    (fun i => {| n_id := i; n_name := node; n_last_seen := Some now; n_online := true;
       n_capabilities := Some (TJson capabilities); n_pools := None; n_created_at := now;
       n_last_scrub := None; n_scrub_status := None; n_token_hash := None; n_allowed := false;
       n_alias := None; n_cold_backend := LocalZfs; n_cold_owner_node_id := None;
       n_cold_mount_path := None; n_cold_ready := false |})
    (fun n => n <| n_last_seen := Some now |> <| n_online := true |>
                <| n_capabilities := Some (TJson capabilities) |>).

Definition offline_row (node : string) : Act unit :=
  now ← date_now;
  update_nodes (fun n => n_name n = node)
    (fun n => n <| n_online := false |> <| n_last_seen := Some now |>).
End hub.

(** ** The database stays well-formed *)

Section hub_wf.
Context {HK : Honker} {PF : Platform}.

Lemma log_error_wf n s l u m e : preserves wf (log_error n s l u m e).
Proof. unfold log_error. solve_preserves. Qed.
#[local] Hint Resolve log_error_wf : preserve.
Lemma deliver_mails_wf l n u : preserves wf (deliver_mails l n u).
Proof. unfold deliver_mails, credential_failed, completion_failed. solve_preserves. Qed.
Lemma settle_mail_wf k : preserves wf (settle_mail k).
Proof. unfold settle_mail, credential_failed, completion_failed. solve_preserves; by apply preserves_modify. Qed.
Lemma set_capabilities_wf n v : preserves wf (set_capabilities n v).
Proof. unfold set_capabilities. solve_preserves. Qed.
#[local] Hint Resolve deliver_mails_wf set_capabilities_wf : preserve.
Lemma lifecycle_wf n f t : preserves wf (lifecycle n f t).
Proof. unfold lifecycle. solve_preserves. Qed.
#[local] Hint Resolve lifecycle_wf : preserve.
Lemma handleResult_wf n f : preserves wf (handleResult n f).
Proof. unfold handleResult. solve_preserves. Qed.
Lemma handleLog_wf n f : preserves wf (handleLog n f).
Proof. unfold handleLog. solve_preserves. Qed.
Lemma emailGpuEvent_wf n p : preserves wf (emailGpuEvent n p).
Proof. unfold emailGpuEvent. solve_preserves; by apply preserves_modify. Qed.
#[local] Hint Resolve emailGpuEvent_wf : preserve.
Lemma handleEvent_wf n f : preserves wf (handleEvent n f).
Proof. unfold handleEvent, detached. solve_preserves. Qed.
#[local] Hint Resolve handleResult_wf handleLog_wf handleEvent_wf : preserve.
Lemma ingestFrame_wf n f : preserves wf (ingestFrame n f).
Proof. unfold ingestFrame, handleTelemetry. solve_preserves. Qed.
Lemma register_row_wf n c : preserves wf (register_row n c).
Proof. unfold register_row. solve_preserves. Qed.
Lemma offline_row_wf n : preserves wf (offline_row n).
Proof. unfold offline_row. solve_preserves. Qed.
End hub_wf.
#[export] Hint Resolve ingestFrame_wf register_row_wf offline_row_wf : preserve.
