(* ===== verification/HubConn.v ===== *)
(** * HubConn: the agent connections of [lib/hub.ts] as a state machine

    [Hub] is the process's state: the sockets with the variables their handlers close over,
    the map of connections, the intervals and the pending offline alerts.  An event is one
    callback of the source; [hub_step] is one event, or one statement of the rest of the
    controller between events. *)
From S2P Require Import Prelude Js Redact Schema Sql DbWf Env Secrets Queue Settings Template Format Mailer Alerts Placements Nodes Protocol Ingest Hub.
From Stdlib Require Import Ascii.
Open Scope Z_scope.

Inductive ReadyState := SOpen | SClosing | SClosed.
#[global] Instance ReadyState_eq_dec : EqDecision ReadyState.
Proof. solve_decision. Defined.

(** A socket: [node], [tokens], [lastRefill] and [helloTimer] of its connection handler, the
    frames sent down it and the code of its first [close]. *)
Record Socket := mkSocket {
  so_ready : ReadyState; so_node : option string; so_tokens : num; so_lastRefill : Z;
  so_helloTimer : bool; so_sent : list json; so_closeCode : option Z }.

Record NodeConn := mkConn {
  cn_ws : nat; cn_node : string; cn_consumer : nat; cn_tokenHash : string; cn_isAlive : bool }.

Record HubState := mkHub {
  hs_sockets : gmap nat Socket;
  hs_connections : gmap string NodeConn;
  hs_consumers : gmap nat (string * nat);    (* live intervals: [drainNode(node, ws)] *)
  hs_offline : gset string;                  (* [pendingOfflineAlerts] *)
  hs_next : nat }.                           (* the next interval's id *)

Definition MAX_FRAME_BYTES : Z := 1024 * 1024.
Definition MSG_RATE_PER_SEC : Z := 50.
Definition MSG_BURST : Z := 100.
Definition HELLO_DEADLINE_MS : Z := 10000.
Definition PING_INTERVAL_MS : Z := 30000.
Definition DRAIN_BATCH : nat := 20.
Definition worker_id (node : string) : string := "controller-hub-" +:+ node.

Definition empty_hub : HubState := mkHub ∅ ∅ ∅ ∅ 0.

(** [tokens = Math.min(MSG_BURST, tokens + ((now - lastRefill) / 1000) * MSG_RATE_PER_SEC)] *)
Definition num_min (a b : num) : num := if num_ltb b a then b else a.
Definition refill (tokens : num) (elapsed : Z) : num :=
  num_min (num_of_Z MSG_BURST)
    (num_add tokens (num_mul (num_div (num_of_Z elapsed) (num_of_Z 1000)) (num_of_Z MSG_RATE_PER_SEC))).

Inductive HostHeader := HOne (s : string) | HMany (l : list string).

(** [requestHost(req)] *)
Definition requestHost (fwd : option HostHeader) (host : option string) : string :=
  let first := match fwd with Some (HOne s) => s | Some (HMany l) => default "" (head l) | None => "" end in
  let raw := or_str first (default "" host) in
  to_lower (default "" (head (split_on ":" (trim (default "" (head (split_on "," raw))))))).

(** Whether an upgrade request reaches the hub. *)
Definition accepts_upgrade (path pathname : string) (domain : option string)
    (fwd : option HostHeader) (host : option string) : bool :=
  String.eqb pathname path &&
  match domain with
  | Some d => if truthy d then String.eqb (requestHost fwd host) d else true
  | None => true
  end.

Section conn.
Context {HK : Honker} {PF : Platform} {ZP : Zod}.

Record HubWorld := mkHubWorld { hw_world : World; hw_hub : HubState }.

#[local] Notation HAct := (M HubWorld exn).

(** Running code of the rest of the controller. *)
Definition on_world {A} (m : Act A) : HAct A := fun s =>
  let '(r, w) := m (hw_world s) in (r, s <| hw_world := w |>).

Definition hub : HAct HubState := gets hw_hub.
Definition socket (ws : nat) : HAct (option Socket) :=
  gets (fun s => hs_sockets (hw_hub s) !! ws).
Definition update_socket (ws : nat) (f : Socket -> Socket) : HAct unit :=
  modify (fun s => s <| hw_hub ::= fun h => h <| hs_sockets ::= alter f ws |> |>).
Definition set_connection (node : string) (c : NodeConn) : HAct unit :=
  modify (fun s => s <| hw_hub ::= fun h => h <| hs_connections ::= insert node c |> |>).

(** [ws.close(code)]: an open socket starts its closing handshake. *)
Definition close_socket (ws : nat) (code : Z) : HAct unit :=
  update_socket ws (fun o =>
    if bool_decide (so_ready o = SOpen)
    then o <| so_ready := SClosing |> <| so_closeCode := Some code |> else o).

Definition clear_consumer (i : nat) : HAct unit :=
  modify (fun s => s <| hw_hub ::= fun h => h <| hs_consumers ::= delete i |> |>).

Definition is_open (h : HubState) (ws : nat) : bool :=
  match hs_sockets h !! ws with Some o => bool_decide (so_ready o = SOpen) | None => false end.

Definition connectedNodes : HAct (list string) := h ← hub; mret (map_to_list (hs_connections h)).*1.

(** [ws.send(...)] *)
Definition send_socket (ws : nat) (frame : json) : HAct unit :=
  update_socket ws (fun o =>
    if bool_decide (so_ready o = SOpen) then o <| so_sent ::= fun l => l ++ [frame] |> else o).

Definition sendToNode (node : string) (frame : json) : HAct bool :=
  h ← hub;
  match hs_connections h !! node with
  | Some c => if is_open h (cn_ws c) then send_socket (cn_ws c) frame;; mret true else mret false
  | None => mret false
  end.

Definition cancelOfflineAlert (node : string) : HAct unit :=
  modify (fun s => s <| hw_hub ::= fun h => h <| hs_offline ::= fun t => t ∖ {[node]} |> |>).

Definition registerNode (node : string) (capabilities : json) : HAct unit :=
  cancelOfflineAlert node;; on_world (register_row node capabilities).

(** The timer's body. *)
Definition offline_fire (node : string) : HAct unit :=
  cancelOfflineAlert node;;
  h ← hub;
  if is_some (hs_connections h !! node) then mret tt
  else
    d ← on_world db;
    match node_named d node with
    | Some row => if n_online row then mret tt
                  else on_world (alertNodeOffline node (n_alias row))
    | None => mret tt
    end.

Definition deregisterNode (node : string) : HAct unit :=
  h ← hub;
  match hs_connections h !! node with
  | Some c =>
      clear_consumer (cn_consumer c);;
      modify (fun s => s <| hw_hub ::= fun h => h <| hs_connections ::= delete node |> |>)
  | None => mret tt
  end;;
  on_world (offline_row node);;
  cancelOfflineAlert node;;
  grace ← on_world (getSetting_num "nodeOfflineGraceSeconds");
  if num_leb grace (num_of_Z 0) then offline_fire node
  else modify (fun s => s <| hw_hub ::= fun h => h <| hs_offline ::= fun t => t ∪ {[node]} |> |>).

Definition handleHello (ws : nat) (frame : Hello) : HAct (option string) :=
  let node := h_node frame in
  auth ← on_world (verifyNodeAuth node (h_token frame));
  match auth with
  | AuthNo _ => close_socket ws 4001;; mret None
  | AuthOk tokenHash =>
      if negb (isProtocolCompatible (h_v frame)) then close_socket ws 4009;; mret None
      else
        h ← hub;
        let existing := hs_connections h !! node in
        if match existing with Some c => is_open h (cn_ws c) | None => false end
        then close_socket ws 4003;; mret None
        else
          match existing with
          | Some c => clear_consumer (cn_consumer c);; close_socket (cn_ws c) 1005
          | None => mret tt
          end;;
          registerNode node (nullish (nn (h_capabilities frame)) (JObj []));;
          h ← hub;
          let i := hs_next h in
          modify (fun s => s <| hw_hub ::= fun h =>
            h <| hs_next ::= S |> <| hs_consumers ::= insert i (node, ws) |> |>);;
          set_connection node (mkConn ws node i tokenHash true);;
          mret (Some node)
  end.

(** One task of the batch: sent, acknowledged and counted, or given back; the result is whether
    the batch goes on. *)
Definition drain_one (node : string) (ws : nat) : HAct bool :=
  claimed ← on_world (claimTask node (worker_id node));
  match claimed with
  | None => mret false
  | Some (jobId, frame) =>
      let id := default "" (as_str (field "id" frame)) in
      catch (send_socket ws frame;;
             on_world (ackTask node jobId (worker_id node);;
                       markTaskState node id TSent None None false;;
                       bumpAttempts node id);;
             mret true)
        (fun _ => on_world (retryTask node jobId (worker_id node) "send failed");; mret false)
  end.

Fixpoint drain_loop (n : nat) (node : string) (ws : nat) : HAct unit :=
  match n with
  | O => mret tt
  | S n' => more ← drain_one node ws; if more : bool then drain_loop n' node ws else mret tt
  end.

Definition drainNode (node : string) (ws : nat) : HAct unit :=
  h ← hub;
  if negb (is_open h ws) then mret tt
  else
    match hs_connections h !! node with
    | None => mret tt
    | Some c =>
        if negb (cn_ws c =? ws)%nat then mret tt
        else
          ok ← on_world (nodeStillAuthorized node (cn_tokenHash c));
          if negb ok then close_socket ws 4001;; deregisterNode node
          else drain_loop DRAIN_BATCH node ws
    end.

(** [wss.on("connection")] *)
Definition on_connection (ws : nat) : HAct unit :=
  now ← on_world date_now;
  modify (fun s => s <| hw_hub ::= fun h => h <| hs_sockets ::=
    insert ws (mkSocket SOpen None (num_of_Z MSG_BURST) now true [] None) |> |>).

(** The body of the hello timer. *)
Definition on_hello_timeout (ws : nat) : HAct unit :=
  o ← socket ws;
  match o with
  | Some o =>
      update_socket ws (fun o => o <| so_helloTimer := false |>);;
      if is_some (so_node o) then mret tt else close_socket ws 4002
  | None => mret tt
  end.

(** [ws.on("message")]: [raw] is the parsed text, [None] where it does not parse. *)
Definition on_message (ws : nat) (raw : option json) : HAct unit :=
  o ← socket ws;
  match o with
  | None => mret tt
  | Some o =>
      now ← on_world date_now;
      let tokens := refill (so_tokens o) (now - so_lastRefill o) in
      update_socket ws (fun o => o <| so_tokens := tokens |> <| so_lastRefill := now |>);;
      if num_ltb tokens (num_of_Z 1) then close_socket ws 4008
      else
        update_socket ws (fun o => o <| so_tokens := num_sub tokens (num_of_Z 1) |>);;
        match raw ≫= parseInboundFrame with
        | None => mret tt
        | Some (FHello hello) =>
            node ← handleHello ws hello;
            update_socket ws (fun o => o <| so_node := node |>);;
            when (is_some node) (update_socket ws (fun o => o <| so_helloTimer := false |>))
        | Some frame =>
            match so_node o with
            | Some node => on_world (ingestFrame node frame)
            | None => mret tt
            end
        end
  end.

(** [ws.on("close")]; after an error the socket closes too, and both handlers run. *)
Definition on_gone (ws : nat) (final : bool) : HAct unit :=
  o ← socket ws;
  match o with
  | None => mret tt
  | Some o =>
      update_socket ws (fun o =>
        o <| so_helloTimer := false |> <| so_ready := if final then SClosed else SClosing |>);;
      match so_node o with
      | Some node => deregisterNode node
      | None => mret tt
      end
  end.

(** The liveness sweep: one connection. *)
Definition sweep_one (node : string) : HAct unit :=
  h ← hub;
  match hs_connections h !! node with
  | Some c =>
      if negb (cn_isAlive c) then close_socket (cn_ws c) 1006
      else set_connection node (c <| cn_isAlive := false |>)
  | None => mret tt
  end.
Definition sweep : HAct unit := nodes ← connectedNodes; for_each sweep_one nodes.

(** [ws.on("pong")]: it marks the connection the socket registered. *)
Definition on_pong (ws : nat) : HAct unit :=
  modify (fun s => s <| hw_hub ::= fun h => h <| hs_connections ::=
    fmap (fun c => if (cn_ws c =? ws)%nat then c <| cn_isAlive := true |> else c) |> |>).

(** ** Events *)

Inductive event :=
| EvConnect (ws : nat)
| EvHelloTimeout (ws : nat)
| EvMessage (ws : nat) (raw : option json)
| EvClose (ws : nat)
| EvError (ws : nat)
| EvTick (interval : nat)
| EvSweep
| EvPong (ws : nat)
| EvOfflineTimer (node : string).

(** When the runtime may fire an event. *)
Definition enabled (h : HubState) (e : event) : Prop :=
  match e with
  | EvConnect ws => hs_sockets h !! ws = None
  | EvHelloTimeout ws => exists o, hs_sockets h !! ws = Some o /\ so_helloTimer o = true
  | EvMessage ws _ | EvClose ws | EvError ws =>
      exists o, hs_sockets h !! ws = Some o /\ so_ready o <> SClosed
  | EvTick i => is_Some (hs_consumers h !! i)
  | EvSweep => True
  | EvPong ws => is_Some (hs_sockets h !! ws)
  | EvOfflineTimer node => node ∈ hs_offline h
  end.

Definition handle (e : event) : HAct unit :=
  match e with
  | EvConnect ws => on_connection ws
  | EvHelloTimeout ws => on_hello_timeout ws
  | EvMessage ws raw => on_message ws raw
  | EvClose ws => on_gone ws true
  | EvError ws => on_gone ws false
  | EvTick i =>
      h ← hub;
      match hs_consumers h !! i with
      | Some (node, ws) => drainNode node ws
      | None => mret tt
      end
  | EvSweep => sweep
  | EvPong ws => on_pong ws
  | EvOfflineTimer node => offline_fire node
  end.

(** One event; or the rest of the controller changes the world, the hub standing still. *)
Inductive hub_step : HubWorld -> HubWorld -> Prop :=
| step_event s e : enabled (hw_hub s) e -> hub_step s (handle e s).2
| step_world s {A} (m : Act A) : preserves wf m -> hub_step s (on_world m s).2.

Definition booted (w : World) : HubWorld := mkHubWorld w empty_hub.
Definition hub_reachable (s : HubWorld) : Prop :=
  exists w, wf w /\ rtc hub_step (booted w) s.
End conn.
