(* ===== verification/Web.v ===== *)
(** * Web: the requests of the admin console

    [WebWorld] is the controller with the stores that live in the process's memory (the rate
    limiter's buckets, the flash messages) and the request being served: its headers and the
    browser's session cookie.  [redirect] is an exception, as in Next.js. *)
From S2P Require Import Prelude Js Numbers Schema Sql DbWf Settings Hub HubConn.
From Stdlib Require Import Ascii.
Open Scope Z_scope.

(** The entries of [lib/ratelimit.ts] and [lib/flash.ts]. *)
Record Bucket := mkBucket { b_tokens : num; b_last : Z }.
Record Entry := mkEntry { e_value : string; e_expires : Z }.

Section web.
Context {HK : Honker}.

Record WebWorld := mkWeb {
  ww_hub : HubWorld;
  ww_buckets : list (string * Bucket);   (* [buckets], oldest insertion first *)
  ww_flash : list (string * Entry);      (* [store], oldest insertion first *)
  ww_headers : list (string * string);   (* the request's headers, names in lower case *)
  ww_cookie : option string }.           (* the cookie [lab_session] *)

(** Running code below the web layer. *)
Definition on_hub {A} (m : M HubWorld exn A) : M WebWorld exn A := fun s =>
  let '(r, h) := m (ww_hub s) in (r, s <| ww_hub := h |>).
Definition on_act {A} (m : Act A) : M WebWorld exn A := on_hub (on_world m).

Definition web_world (s : WebWorld) : World := hw_world (ww_hub s).
Definition web_db (s : WebWorld) : Db := w_db (web_world s).

Definition redirect {A} (to : string) : M WebWorld exn A := throw (ERedirect to).
(** [(await headers()).get(name)] *)
Definition header (name : string) : M WebWorld exn (option string) :=
  gets (fun s => alookup name (ww_headers s)).

Definition set_world (w : World) (s : WebWorld) : WebWorld :=
  s <| ww_hub ::= fun h => h <| hw_world := w |> |>.

Lemma on_act_run {A} (m : Act A) s r w :
  m (web_world s) = (r, w) -> on_act m s = (r, set_world w s).
Proof. unfold on_act, on_hub, on_world, web_world. intros ->. done. Qed.

Lemma preserves_on_act {A} (I : World -> Prop) (m : Act A) :
  preserves I m -> preserves (fun s => I (web_world s)) (on_act m).
Proof.
  intros Hm s Hs. unfold on_act, on_hub, on_world. specialize (Hm (web_world s) Hs).
  unfold web_world in *. destruct (m _) as [r w]. exact Hm.
Qed.
End web.

Abbreviation WAct := (M WebWorld exn).

(** [formData.get(k)] of a form without files: the first value of the field. *)
Definition FormData : Type := list (string * string).
Definition form_get (k : string) (f : FormData) : option string := alookup k f.
Definition form_all (k : string) (f : FormData) : list string :=
  omap (fun kv => if String.eqb k kv.1 then Some kv.2 else None) f.
(** [String(formData.get(k) ?? "")] *)
Definition form_str (k : string) (f : FormData) : string := default "" (form_get k f).
(** [Number(formData.get(k))]: an absent field is null, which is zero. *)
Definition form_num `{Platform} (k : string) (f : FormData) : num :=
  js_Number (Some (match form_get k f with Some s => JStr s | None => JNull end)).
(** [formData.get(k) === "on"] *)
Definition form_is (k v : string) (f : FormData) : bool :=
  match form_get k f with Some s => String.eqb s v | None => false end.

(** A number used as a row's id: no row has id 0, and an id is an integer. *)
Definition row_id (n : num) : Z := if is_integer n then trunc_Z n else 0.
Lemma row_id_of_Z z : 0 <= z < 2 ^ 53 -> row_id (num_of_Z z) = z.
Proof. intros Hz. unfold row_id. by rewrite is_integer_of_Z, trunc_of_Z. Qed.

(** [encodeURIComponent(s)], by the bytes of [s] *)
Definition uri_unreserved (c : ascii) : bool := c_alnum c || c_of "-_.!~*'()" c.
Definition hex_upper (n : N) : ascii := ascii_of_N (if (n <? 10)%N then 48 + n else 55 + n).
Fixpoint encodeURIComponent (s : string) : string :=
  match s with
  | EmptyString => ""
  | String c s' =>
      if uri_unreserved c then String c (encodeURIComponent s')
      else String "%" (String (hex_upper (code c / 16)) (String (hex_upper (code c mod 16))
             (encodeURIComponent s')))
  end.
