(* ===== verification/WebFixture.v ===== *)
(** * WebFixture: a populated console in which the witnesses of the web layer run

    The world of [Fixture] with two administrators, under a platform behind a trusted reverse
    proxy whose clock is an argument. *)
From S2P Require Import Prelude Js Numbers Schema Sql DbWf Env Secrets Queue Testbed QueueFacts Hub HubConn Web.
Open Scope Z_scope.

Definition web_env : list (string * string) := ("TRUST_PROXY", "1") :: toy_env.
Definition web_pf (clk : nat -> Z) : Platform := toy_platform_at clk web_env demo_accepts.

(** Every reading of the clock is a second later, and the same reading forever. *)
Definition ticking (n : nat) : Z := 1700000000000 + 1000 * Z.of_nat n.
Definition frozen (n : nat) : Z := 1700000000000.

Definition root_row : AdminRow := mkAdmin 1 "Root" "root@lab.edu" "correct horse" 0 true 0.

Definition web_setup {PF : Platform} : @M (@World toy_honker) exn unit :=
  demo_setup;;
  insert_admin "Root" "root@lab.edu" "correct horse" 0;;
  insert_admin "Eve" "eve@lab.edu" "tr0ub4dor" 0;;
  mret tt.

Definition web_world0 (clk : nat -> Z) : @World toy_honker := (@web_setup (web_pf clk) toy_world).2.
Definition demo_web (clk : nat -> Z) : @WebWorld toy_honker :=
  @mkWeb toy_honker (@mkHubWorld toy_honker (web_world0 clk) empty_hub) [] [] [] None.

Lemma web_world0_wf clk : wf (web_world0 clk).
Proof.
  assert (@preserves (@World toy_honker) exn unit wf (@web_setup (web_pf clk))) as H.
  { unfold web_setup. apply preserves_bind; [apply demo_setup_wf|]. intros []. solve_preserves. }
  apply H. split; [apply db_wf_empty|apply content_ok_empty].
Qed.
