(* ===== verification/Maintenance.v ===== *)
(** * Maintenance: [lib/maintenance.ts], the hourly ticker

    Retention of logs and events, the backup schedule, and the scrubs and usage scans it
    starts.  The calendar of a time zone is the platform's ([Zones]). *)
From S2P Require Import Prelude Js Redact Schema Sql DbWf Env Secrets Queue Settings Template Format Mailer Placements Ingest.
Open Scope Z_scope.

(** The wall clock of an instant in a zone ([Intl.DateTimeFormat]): the month from 1, the hour
    as the [en-US] 24-hour format prints it (0 to 24). *)
Record WallClock := mkWall {
  wc_year : Z; wc_month : Z; wc_day : Z; wc_hour : Z; wc_minute : Z; wc_second : Z }.

(** [None] where the zone's name is invalid. *)
Class Zones := wall_clock : string -> Z -> option WallClock.

(** ** Log rotation *)

(** [LOG_ROW_BYTES] *)
Definition log_row_bytes (l : LogRow) : Z :=
  let len o := Z.of_nat (String.length (default "" o)) in
  Z.of_nat (String.length (log_msg l)) + len (log_detail l) + len (log_source l) + len (log_node l) +
  len (log_lab l) + len (log_user l) + len (log_task_id l) + 48.

Definition logs_bytes (l : list LogRow) : Z := fold_right (fun r n => log_row_bytes r + n) 0 l.

(** The rows older than the [n] newest; rows are in id order. *)
Definition surplus_id (n : nat) (l : list LogRow) : option Z := log_id <$> reverse l !! n.

(** [SUM(...) OVER (ORDER BY id DESC)]: a row's size and that of every newer row. *)
Definition newer_bytes (l : list LogRow) (r : LogRow) : Z :=
  logs_bytes (filter (fun x => log_id r <= log_id x) l).

Definition DAY_MS : Z := 86400 * 1000.
Definition STORAGE_SAMPLE_RETENTION_DAYS : Z := 180.
Definition USAGE_SCAN_MIN_GAP_MS : Z := 20 * 3600 * 1000.

Record Pruned := mkPruned { pr_logs : nat; pr_gpuEvents : nat; pr_storageSamples : nat; pr_quotaAlerts : nat }.

(** ** The calendar *)

(** Days from 1970-01-01 to a civil date, the month from 1. *)
Definition days_from_civil (y m d : Z) : Z :=
  let y' := if m <=? 2 then y - 1 else y in
  let era := y' / 400 in
  let yoe := y' mod 400 in
  let doy := (153 * (m + (if m <=? 2 then 9 else -3)) + 2) / 5 + d - 1 in
  let doe := yoe * 365 + yoe / 4 - yoe / 100 + doy in
  era * 146097 + doe - 719468.

(** [Date.UTC(y, mo, d, h, mi, s)], the month from 0, of a year after 99. *)
Definition date_utc (y mo d h mi s : Z) : Z :=
  let y' := y + mo / 12 in
  (days_from_civil y' (mo mod 12 + 1) 1 + (d - 1)) * DAY_MS + h * 3600000 + mi * 60000 + s * 1000.

Record Grid := mkGrid { gr_anchor : Z; gr_intervalMs : Z }.

(** [while (next <= ref) next += interval] *)
Fixpoint advance (fuel : nat) (next ref interval : Z) : Z :=
  match fuel with
  | O => next
  | S n => if next <=? ref then advance n (next + interval) ref interval else next
  end.

(** The first slot of the grid after [ref]: one step is enough for the loop. *)
Definition grid_after (g : Grid) (ref : Z) : Z :=
  let k := (ref - gr_anchor g) / gr_intervalMs g + 1 in
  advance 1 (gr_anchor g + k * gr_intervalMs g) ref (gr_intervalMs g).

Section maintenance.
Context {HK : Honker} {PF : Platform} {TZ : Zones}.

Definition logsContentBytes : Act Z := d ← db; mret (logs_bytes (rows (logs d))).

(** [DELETE FROM logs WHERE P], with the number of rows it removed *)
Definition prune_logs_where (P : LogRow -> Prop) `{!forall x, Decision (P x)} : Act nat :=
  d ← db;
  delete_logs P;;
  mret (length (select P (rows (logs d)))).

(** What [OFFSET ?] takes: a positive number that is a 64-bit integer; the engine refuses another. *)
Definition is_offset (n : num) : bool := is_integer n && num_ltb n (num_of_Z (2 ^ 63)).

Definition pruneLogs (now : Z) : Act nat :=
  retentionDays ← getSetting_num "logRetentionDays";
  aged ← (if num_ltb (num_of_Z 0) retentionDays then
            let cutoff := num_sub (num_of_Z now)
                            (num_mul (num_mul retentionDays (num_of_Z 86400)) (num_of_Z 1000)) in
            prune_logs_where (fun l => num_ltb (log_ts l) cutoff = true)
          else mret 0%nat);
  maxEntries ← getSetting_num "logMaxEntries";
  counted ← (if num_ltb (num_of_Z 0) maxEntries then
               if negb (is_offset maxEntries) then throw ETypeError
               else
                 d ← db;
                 match surplus_id (Z.to_nat (trunc_Z maxEntries)) (rows (logs d)) with
                 | Some i => prune_logs_where (fun l => log_id l <= i)
                 | None => mret 0%nat
                 end
             else mret 0%nat);
  maxMb ← getSetting_num "logMaxSizeMb";
  let maxBytes := num_mul (num_mul maxMb (num_of_Z 1024)) (num_of_Z 1024) in
  sized ← (if num_ltb (num_of_Z 0) maxBytes then
             d ← db;
             prune_logs_where (fun l => num_ltb maxBytes (num_of_Z (newer_bytes (rows (logs d)) l)) = true)
           else mret 0%nat);
  mret (aged + counted + sized)%nat.

Definition pruneOldData : Act Pruned :=
  now ← date_now;
  logs_ ← pruneLogs now;
  retentionDays ← getSetting_num "logRetentionDays";
  let eventCutoff := num_sub (num_of_Z now)
                       (num_mul (num_mul retentionDays (num_of_Z 86400)) (num_of_Z 1000)) in
  let kept := num_ltb (num_of_Z 0) retentionDays in
  d ← db;
  when kept (delete_gpu_events (fun e => num_ltb (ge_ts e) eventCutoff = true));;
  when kept (delete_quota_alerts (fun a => num_ltb (num_of_Z (qa_ts a)) eventCutoff = true));;
  let cutoff := now - STORAGE_SAMPLE_RETENTION_DAYS * DAY_MS in
  delete_samples (fun s => ss_ts s < cutoff);;
  let count {A} (P : A -> bool) (l : list A) := length (List.filter P l) in
  mret {| pr_logs := logs_;
    pr_gpuEvents := if kept then count (fun e => num_ltb (ge_ts e) eventCutoff) (rows (gpu_events d)) else 0%nat;
    pr_storageSamples := count (fun s => ss_ts s <? cutoff) (rows (storage_samples d));
    pr_quotaAlerts :=
      if kept then count (fun a => num_ltb (num_of_Z (qa_ts a)) eventCutoff) (rows (quota_alerts d)) else 0%nat |}.

Definition hourInTimezone (now : Z) (tz : string) : option Z :=
  (fun c => wc_hour c mod 24) <$> wall_clock tz now.

(** ** The backup schedule *)

(** [hourCycle: "h23"]: midnight prints as 0. *)
Definition tzOffsetMs (utcMs : Z) (tz : string) : option Z :=
  (fun c => date_utc (wc_year c) (wc_month c - 1) (wc_day c) (wc_hour c mod 24) (wc_minute c)
              (wc_second c) - utcMs) <$> wall_clock tz utcMs.

(** An invalid zone would throw; the callers have used it before. *)
Definition wallClockToUtc (y mo d h mi : Z) (tz : string) : option Z :=
  let base := date_utc y mo d h mi 0 in
  o1 ← tzOffsetMs base tz;
  o2 ← tzOffsetMs (base - o1) tz;
  Some (base - o2).

Definition backupGrid (now : Z) : Act (option Grid) :=
  enabled ← getSetting_bool "backupEnabled";
  if negb enabled then mret None
  else
    intervalHours ← getSetting_num "backupIntervalHours";
    if negb (num_ltb (num_of_Z 0) intervalHours) then mret None
    else
      tz ← getSetting_str "backupTimezone";
      match wall_clock tz now with
      | None => mret None
      | Some c =>
          hour ← getSetting_Z "backupAnchorHour";
          minute ← getSetting_Z "backupAnchorMinute";
          match wallClockToUtc (wc_year c) (wc_month c - 1) (wc_day c) hour minute tz with
          | None => throw ETypeError
          | Some anchor =>
              mret (Some (mkGrid anchor
                (trunc_Z (num_mul (num_mul intervalHours (num_of_Z 3600)) (num_of_Z 1000)))))
          end
      end.

Definition slotAfter (ref now : Z) : Act (option Z) :=
  g ← backupGrid now; mret ((fun g => grid_after g ref) <$> g).

Definition nextBackupRun (now : Z) : Act (option Z) :=
  intervalHours ← getSetting_num "backupIntervalHours";
  let intervalMs := trunc_Z (num_mul (num_mul intervalHours (num_of_Z 3600)) (num_of_Z 1000)) in
  last_ ← getSetting_Z "backupLastRun";
  slotAfter (Z.max last_ (now - intervalMs)) now.

Definition backupDue (now : Z) : Act bool :=
  last_ ← getSetting_Z "backupLastRun";
  next ← slotAfter last_ now;
  mret (match next with Some n => n <=? now | None => false end).

(** ** Scrubs and usage scans *)

(** The gate on the hour of the day; an invalid zone is no gate. *)
Definition in_window (now : Z) (tz : string) (hour : num) : bool :=
  match hourInTimezone now tz with Some h => num_eqb (num_of_Z h) hour | None => true end.

(** [last && now - last < gap] *)
Definition too_recent (last_ : option Z) (now : Z) (gap : num) : bool :=
  match last_ with
  | Some t => negb (t =? 0) && num_ltb (num_of_Z (now - t)) gap
  | None => false
  end.

Fixpoint scrub_loop (now : Z) (intervalMs : num) (l : list NodeRow) : Act (list string) :=
  match l with
  | [] => mret []
  | n :: l' =>
      let caps := match n_capabilities n with
                  | Some t => default (JObj []) (json_parse t)
                  | None => JObj []
                  end in
      zfs ← lift (prop "zfs" caps);
      if negb (ojson_truthy zfs) || too_recent (n_last_scrub n) now intervalMs
      then scrub_loop now intervalMs l'
      else
        enqueueTask (n_name n) "node.scrub" (JObj []) (Some "scrub-scheduler");;
        update_nodes (fun m => n_name m = n_name n) (fun m => m <| n_last_scrub := Some now |>);;
        rest ← scrub_loop now intervalMs l';
        mret (n_name n :: rest)
  end.

Definition scheduleScrubs (now : Z) : Act (list string) :=
  enabled ← getSetting_bool "scrubEnabled";
  if negb enabled then mret []
  else
    tz ← getSetting_str "scrubTimezone";
    hour ← getSetting_num "scrubHour";
    if negb (in_window now tz hour) then mret []
    else
      days ← getSetting_num "scrubIntervalDays";
      let intervalMs := num_mul (num_mul days (num_of_Z 86400)) (num_of_Z 1000) in
      d ← db;
      scrub_loop now intervalMs (select (fun n => n_online n = true) (rows (nodes d))).

(** The usernames of a lab's roster. *)
Definition roster_names (d : Db) (labId : Z) : list string :=
  omap (fun m => s_username <$> student_of d (lm_student_id m))
    (select (fun m => lm_lab_id m = labId) (rows (lab_members d))).

Fixpoint scan_loop (now : Z) (l : list Placement) : Act (list string) :=
  match l with
  | [] => mret []
  | p :: l' =>
      if too_recent (p_last_usage_scan (pl_row p)) now (num_of_Z USAGE_SCAN_MIN_GAP_MS)
      then scan_loop now l'
      else
        d ← db;
        enqueueTask (pl_node_name p) "usage.scan"
          (JObj [("lab", JStr (pl_lab_name p));
                 ("users", JArr (JStr <$> roster_names d (p_lab_id (pl_row p))))])
          (Some "usage-scheduler");;
        update_placements (fun r => p_id r = p_id (pl_row p))
          (fun r => r <| p_last_usage_scan := Some now |>);;
        rest ← scan_loop now l';
        mret ((pl_lab_name p +:+ "@" +:+ pl_node_name p) :: rest)
  end.

Definition scheduleUsageScans (now : Z) : Act (list string) :=
  enabled ← getSetting_bool "usageScanEnabled";
  if negb enabled then mret []
  else
    tz ← getSetting_str "usageScanTimezone";
    hour ← getSetting_num "usageScanHour";
    if negb (in_window now tz hour) then mret []
    else
      d ← db;
      scan_loop now (filter (fun v => pl_online v = true /\ p_state (pl_row v) = PActive) (views d)).

(** The hourly tick up to the question whether a backup is due. *)
Definition maintenance_due : Act bool :=
  pruneOldData;;
  now ← date_now;
  scheduleScrubs now;;
  now ← date_now;
  scheduleUsageScans now;;
  now ← date_now;
  backupDue now.
End maintenance.

(** ** The database stays well-formed *)

Section maintenance_wf.
Context {HK : Honker} {PF : Platform} {TZ : Zones}.

Lemma prune_logs_where_wf P {PDec : forall x, Decision (P x)} : preserves wf (prune_logs_where P).
Proof. unfold prune_logs_where. solve_preserves. Qed.
#[local] Hint Resolve prune_logs_where_wf : preserve.
Lemma pruneLogs_wf now : preserves wf (pruneLogs now).
Proof. unfold pruneLogs. solve_preserves. Qed.
#[local] Hint Resolve pruneLogs_wf : preserve.
Lemma pruneOldData_wf : preserves wf pruneOldData.
Proof. unfold pruneOldData. solve_preserves. Qed.
Lemma backupGrid_ro I now : preserves I (backupGrid now).
Proof. unfold backupGrid. solve_preserves. Qed.
#[local] Hint Resolve pruneOldData_wf backupGrid_ro : preserve.
Lemma backupDue_ro I now : preserves I (backupDue now).
Proof. unfold backupDue, slotAfter. solve_preserves. Qed.
Lemma scheduleScrubs_wf now : preserves wf (scheduleScrubs now).
Proof.
  unfold scheduleScrubs. solve_preserves.
  match goal with |- preserves _ (scrub_loop _ _ ?l) => induction l; cbn; solve_preserves end.
Qed.
Lemma scheduleUsageScans_wf now : preserves wf (scheduleUsageScans now).
Proof.
  unfold scheduleUsageScans. solve_preserves.
  match goal with |- preserves _ (scan_loop _ ?l) => induction l; cbn; solve_preserves end.
Qed.
#[local] Hint Resolve backupDue_ro scheduleScrubs_wf scheduleUsageScans_wf : preserve.
Lemma maintenance_due_wf : preserves wf maintenance_due.
Proof. unfold maintenance_due. solve_preserves. Qed.
End maintenance_wf.
#[export] Hint Resolve pruneLogs_wf maintenance_due_wf : preserve.
