(* ===== verification/WebDav.v ===== *)
(** * WebDav: [lib/webdav.ts], the client of the backup server

    The HTTP client with the server behind it is the parameter [HttpClient]: a request is
    answered or fails, and may change the server's state.  Bodies are byte strings. *)
From S2P Require Import Prelude Js Schema Sql DbWf Secrets Settings Hub HubConn Web.
From Stdlib Require Import Ascii.
Open Scope Z_scope.

Record WebdavConfig := mkWebdav { wd_url : string; wd_user : string; wd_pass : string }.

Record DavRequest := mkRequest {
  rq_method : string; rq_url : string; rq_auth : option string; rq_body : option string }.
Record DavResponse := mkResponse { rs_status : Z; rs_statusText : string; rs_body : string }.

(** [fetch], [None] where it rejects (unreachable, timed out); the origin and the path of
    [new URL(u)], [None] where it throws; [base64] of a text. *)
Class HttpClient := {
  http : Type;
  fetch : DavRequest -> http -> option DavResponse * http;
  parse_url : string -> option (string * string);
  base64 : string -> string }.

(** The controller with the backup target: [bk_restore] is the file [<dbPath>.restore]. *)
Record BackupWorld `{Honker} `{HttpClient} := mkBackup {
  bk_web : WebWorld; bk_http : http; bk_restore : option string; bk_warned : bool }.

(** [res.ok] *)
Definition rs_ok (r : DavResponse) : bool := (200 <=? rs_status r) && (rs_status r <=? 299).

(** ** Strings *)

Definition ends_with (p s : string) : bool :=
  String.eqb (drop_str (String.length s - String.length p) s) p && (String.length p <=? String.length s)%nat.

(** [s.split("/")] *)
Definition segments (s : string) : list string := split_on "/" s.
(** [s.replace(/\/$/, "").split("/").pop() ?? ""] *)
Definition last_segment (s : string) : string := List.last (segments s) "".
Fixpoint drop_last_slash (s : string) : string :=
  match s with
  | EmptyString => ""
  | String c EmptyString => if Ascii.eqb c "/" then "" else s
  | String c s' => String c (drop_last_slash s')
  end.

(** The text before the first [c], and from [c] on. *)
Fixpoint until (c : ascii) (s : string) : option (string * string) :=
  match s with
  | EmptyString => None
  | String d s' =>
      if Ascii.eqb d c then Some ("", s)
      else match until c s' with Some (a, b) => Some (String d a, b) | None => None end
  end.

(** [<[a-z]*:?href>] and [<\/[a-z]*:?href>] under the [i] flag, up to the closing bracket *)
Definition HREF_OPEN : re :=
  RSeq (rlit "<") (RSeq (RStar (RChr c_alpha)) (RSeq (ropt (rlit ":")) (rlit_ci "href"))).
Definition HREF_CLOSE : re :=
  RSeq (rlit "</") (RSeq (RStar (RChr c_alpha)) (RSeq (ropt (rlit ":")) (rlit_ci "href"))).

(** A match of [<..href>([^<]+)</..href>] at the start: its group, and the text after it.  No
    part of the pattern before a bracket can contain one, so the match is unique. *)
Definition href_at (s : string) : option (string * string) :=
  '(tag, rest) ← until ">" s;
  if negb (re_test HREF_OPEN tag) then None
  else
    '(content, rest) ← until "<" (drop_str 1 rest);
    if negb (truthy content) then None
    else
      '(close, rest) ← until ">" rest;
      if re_test HREF_CLOSE close then Some (content, drop_str 1 rest) else None.

(** The groups of all matches; a match consumes at least one character. *)
Fixpoint hrefs (fuel : nat) (s : string) : list string :=
  match fuel with
  | O => []
  | S n =>
      match href_at s with
      | Some (content, rest) => content :: hrefs n rest
      | None => match s with String _ s' => hrefs n s' | EmptyString => [] end
      end
  end.

(** ** [decodeURIComponent], over UTF-8 bytes *)

Definition hex_val (c : ascii) : option N :=
  if in_range 48 57 c then Some (code c - 48)%N
  else if in_range 65 70 c then Some (code c - 55)%N
  else if in_range 97 102 c then Some (code c - 87)%N else None.

(** The byte of [%XY] at the start. *)
Definition percent_byte (s : string) : option (N * string) :=
  match s with
  | String "%" (String a (String b s')) =>
      x ← hex_val a; y ← hex_val b; Some (16 * x + y, s')%N
  | _ => None
  end.

(** The number of bytes that follow a leading byte, with the smallest code point it may start. *)
Definition utf8_tail (b : N) : option (nat * N * N) :=
  if (b <? 128)%N then Some (0%nat, b, 0%N)
  else if (b <? 194)%N then None
  else if (b <? 224)%N then Some (1%nat, (b - 192)%N, 128%N)
  else if (b <? 240)%N then Some (2%nat, (b - 224)%N, 2048%N)
  else if (b <? 245)%N then Some (3%nat, (b - 240)%N, 65536%N)
  else None.

Fixpoint percent_tail (n : nat) (cp : N) (s : string) : option (string * N * string) :=
  match n with
  | O => Some ("", cp, s)
  | S n' =>
      '(b, s') ← percent_byte s;
      if (128 <=? b)%N && (b <? 192)%N then
        '(bytes, cp', s'') ← percent_tail n' (64 * cp + (b - 128))%N s';
        Some (String (ascii_of_N b) bytes, cp', s'')
      else None
  end.

Definition percent_char (s : string) : option (string * string) :=
  '(b, s') ← percent_byte s;
  '(n, cp, least) ← utf8_tail b;
  '(bytes, cp, s'') ← percent_tail n cp s';
  if (least <=? cp)%N && (cp <? 1114112)%N && negb ((55296 <=? cp)%N && (cp <? 57344)%N)
  then Some (String (ascii_of_N b) bytes, s'') else None.

(** [None] where it throws an [URIError]. *)
Fixpoint decode_uri (fuel : nat) (s : string) : option string :=
  match fuel, s with
  | S n, String "%" _ =>
      '(bytes, s') ← percent_char s; rest ← decode_uri n s'; Some (bytes +:+ rest)
  | S n, String c s' => rest ← decode_uri n s'; Some (String c rest)
  | _, _ => Some ""
  end.
Definition decodeURIComponent (s : string) : option string := decode_uri (String.length s) s.

Section webdav.
Context {HK : Honker} {HC : HttpClient}.
#[local] Notation BAct := (M BackupWorld exn).

Definition on_web {A} (m : WAct A) : BAct A := fun s =>
  let '(r, w) := m (bk_web s) in (r, s <| bk_web := w |>).

Definition authHeader (cfg : WebdavConfig) : option string :=
  if truthy (wd_user cfg) then Some ("Basic " +:+ base64 (wd_user cfg +:+ ":" +:+ wd_pass cfg)) else None.

(** [None]: the promise is rejected. *)
Definition dav (method url : string) (cfg : WebdavConfig) (body : option string)
    : BAct (option DavResponse) := fun s =>
  let '(r, h) := fetch (mkRequest method url (authHeader cfg) body) (bk_http s) in
  (Ok r, s <| bk_http := h |>).

(** [const res = await dav(...)], a rejection being an exception *)
Definition dav_or_throw (method url : string) (cfg : WebdavConfig) (body : option string)
    : BAct DavResponse :=
  r ← dav method url cfg body;
  match r with Some res => mret res | None => throw EFetch end.

Fixpoint make_collections (cfg : WebdavConfig) (origin path : string) (l : list string) : BAct unit :=
  match l with
  | [] => mret tt
  | seg :: l' =>
      let path := path +:+ "/" +:+ seg in
      dav "MKCOL" (origin +:+ path) cfg None;; make_collections cfg origin path l'
  end.
Definition ensureCollection (cfg : WebdavConfig) : BAct unit :=
  match parse_url (wd_url cfg) with
  | None => mret tt
  | Some (origin, path) =>
      make_collections cfg origin "" (filter (fun s => truthy s = true) (segments path))
  end.

Definition put (cfg : WebdavConfig) (name data : string) : BAct unit :=
  res ← dav_or_throw "PUT" (wd_url cfg +:+ "/" +:+ name) cfg (Some data);
  throw_if (negb (rs_ok res)) (EDav ("WebDAV PUT " +:+ name +:+ " failed: " +:+
    string_of_Z (rs_status res) +:+ " " +:+ rs_statusText res)).

Definition dav_get (cfg : WebdavConfig) (name : string) : BAct string :=
  res ← dav_or_throw "GET" (wd_url cfg +:+ "/" +:+ name) cfg None;
  throw_if (negb (rs_ok res)) (EDav ("WebDAV GET " +:+ name +:+ " failed: " +:+
    string_of_Z (rs_status res)));;
  mret (rs_body res).

Definition del (cfg : WebdavConfig) (name : string) : BAct unit :=
  dav_or_throw "DELETE" (wd_url cfg +:+ "/" +:+ name) cfg None;; mret tt.

Definition PROPFIND_BODY : string :=
  let qt := String "034" "" in
  "<?xml version=" +:+ qt +:+ "1.0" +:+ qt +:+ "?><d:propfind xmlns:d=" +:+ qt +:+ "DAV:" +:+ qt +:+
  "><d:prop><d:displayname/></d:prop></d:propfind>".

(** The names of the collection's entries in a PROPFIND answer. *)
Definition entry_names (url xml : string) : option (list string) :=
  l ← mapM decodeURIComponent (hrefs (S (String.length xml)) xml);
  Some (filter (fun b => truthy b && negb (ends_with b url) = true)
          ((fun h => last_segment (drop_last_slash h)) <$> l)).

Definition listStrict (cfg : WebdavConfig) : BAct (list string) :=
  res ← dav_or_throw "PROPFIND" (wd_url cfg) cfg (Some PROPFIND_BODY);
  throw_if (negb (rs_ok res)) (EDav ("WebDAV PROPFIND failed: " +:+
    string_of_Z (rs_status res) +:+ " " +:+ rs_statusText res));;
  match entry_names (wd_url cfg) (rs_body res) with
  | Some l => mret l
  | None => throw EUri
  end.

Definition dav_list (cfg : WebdavConfig) : BAct (list string) :=
  catch (listStrict cfg) (fun _ => mret []).
End webdav.
Abbreviation BAct := (M BackupWorld exn).
