(* ===== verification/Backup.v ===== *)
(** * Backup: [lib/backup.ts] and [lib/backupcrypto.ts], backup and restore of the database

    A backup is the database's file, sealed when a key is set, uploaded under its timestamp and
    as the latest; old ones are pruned down to a grandfather-father-son selection.  A restore
    is staged in a file that the next boot swaps in.  SQLite's file format and the cipher are
    the parameter [BackupLib]. *)
From S2P Require Import Prelude Js Numbers Schema Sql DbWf Env Secrets Settings Mailer Maintenance Hub HubConn Web WebDav.
From Stdlib Require Import Ascii.
Open Scope Z_scope.

Class BackupLib := {
  (** the file [VACUUM INTO] writes, and opening a file; [None] where it is no database *)
  db_image : Db -> string;
  db_open : string -> option Db;
  (** [scryptSync(key, salt, 32)] and AES-256-GCM: nonce and plaintext to tag and ciphertext *)
  scrypt : string -> string -> string;
  seal : string -> string -> string -> string * string;
  open : string -> string -> string -> string -> option string }.

Definition LATEST : string := "controller-latest.db".
Definition BACKUP_PREFIX : string := "controller-".

(** ** [backupcrypto.ts]: MAGIC(6) | iv(12) | tag(16) | ciphertext *)

Definition MAGIC : string := "LMBK1" +:+ String zero "".
Definition IV_LEN : nat := 12.
Definition TAG_LEN : nat := 16.
Definition SALT : string := "lab-manager:backup:v1".

(** A buffer of bytes *)
Fixpoint buffer (bytes : list Z) : string :=
  match bytes with [] => "" | b :: l => String (ascii_of_N (Z.to_N b)) (buffer l) end.

Definition isEncryptedBackup (data : string) : bool := starts_with MAGIC data.

Section backup.
Context {HK : Honker} {PF : Platform} {HC : HttpClient} {BL : BackupLib}.

Definition backupEncryptionEnabled : result exn bool :=
  k ← env_backupKey; mret (negb (String.eqb k "")).
Definition backup_key : result exn string := k ← env_backupKey; mret (scrypt k SALT).

Definition maybeEncryptBackup (plain : string) : Act string :=
  enabled ← lift backupEncryptionEnabled;
  if negb enabled then mret plain
  else
    bytes ← random_bytes IV_LEN;
    let iv := buffer bytes in
    key ← lift backup_key;
    let '(tag, ct) := seal key iv plain in
    mret (MAGIC +:+ iv +:+ tag +:+ ct).

Definition decryptBackup (data : string) : result exn string :=
  if negb (isEncryptedBackup data) then Ok data
  else
    enabled ← backupEncryptionEnabled;
    if negb enabled then Throw EBackupKeyMissing
    else
      let body := drop_str (String.length MAGIC) data in
      let iv := take_str IV_LEN body in
      let tag := take_str TAG_LEN (drop_str IV_LEN body) in
      let ct := drop_str TAG_LEN (drop_str IV_LEN body) in
      key ← backup_key;
      match open key iv tag ct with Some plain => Ok plain | None => Throw EBackupCorrupt end.

(** ** Names and retention *)

(** [name.slice(PREFIX.length, -3)] as a timestamp *)
Definition parseStamp (name : string) : option num :=
  if negb (starts_with BACKUP_PREFIX name) || negb (ends_with ".db" name) || String.eqb name LATEST
  then None
  else
    let digits := drop_str (String.length BACKUP_PREFIX)
                    (take_str (String.length name - 3) name) in
    let n := str_to_num digits in
    if is_finite n && num_ltb (num_of_Z 0) n then Some n else None.

(** The civil date of a day number, the month from 1. *)
Definition civil_from_days (days : Z) : Z * Z * Z :=
  let z := days + 719468 in
  let era := z / 146097 in
  let doe := z mod 146097 in
  let yoe := (doe - doe / 1460 + doe / 36524 - doe / 146096) / 365 in
  let doy := doe - (365 * yoe + yoe / 4 - yoe / 100) in
  let mp := (5 * doy + 2) / 153 in
  let m := if mp <? 10 then mp + 3 else mp - 9 in
  (yoe + era * 400 + (if m <=? 2 then 1 else 0), m, doy - (153 * mp + 2) / 5 + 1).

(** The year and month of [new Date(s)] in UTC; [None] where the date is invalid. *)
Definition utc_month (s : num) : option (Z * Z) :=
  let t := trunc_Z s in
  if Z.abs t <=? 8640000000000000
  then let '(y, m, _) := civil_from_days (t / DAY_MS) in Some (y, m) else None.

(** [week], [month] and [year] *)
Definition week_of (s : num) : Z := floor_Z (num_div s (num_of_Z 604800000)).
Definition year_of (s : num) : option Z := fst <$> utc_month s.

Record Keep := mkKeep { kp_recent : num; kp_weekly : num; kp_monthly : num; kp_yearly : num }.

(** [b - a <= 0]: newest first *)
Definition newest_first (a b : num) : bool := num_leb b a.

Section buckets.
Context {B : Type} `{EqDecision B} (bucketOf : num -> B).

(** The newest of each of the [count] most recent buckets; [seen] are those already taken. *)
Fixpoint keepPerBucket (count : num) (seen : list B) (sorted : list num) : list num :=
  match sorted with
  | [] => []
  | s :: l =>
      let b := bucketOf s in
      if bool_decide (b ∈ seen) then keepPerBucket count seen l
      else if num_leb count (num_of_Z (Z.of_nat (length seen))) then []
      else s :: keepPerBucket count (b :: seen) l
  end.
End buckets.

Definition bucket_keep {B} `{EqDecision B} (bucketOf : num -> B) (count : num) (sorted : list num)
    : list num :=
  if num_leb count (num_of_Z 0) then [] else keepPerBucket bucketOf count [] sorted.

(** [for (i = 0; i < recent; i++)] *)
Definition recent_count (recent : num) (n : nat) : nat :=
  if num_leb (num_of_Z (Z.of_nat n)) recent then n else Z.to_nat (ceil_Z recent).

(** The stamps to retain, as a set. *)
Definition selectKeep (stamps : list num) (keep : Keep) : list num :=
  let sorted := sort_by newest_first stamps in
  take (recent_count (kp_recent keep) (length sorted)) sorted ++
  bucket_keep week_of (kp_weekly keep) sorted ++
  bucket_keep utc_month (kp_monthly keep) sorted ++
  bucket_keep year_of (kp_yearly keep) sorted.

(** ** Runs *)

Record BackupResult := mkBackupResult {
  br_ok : bool; br_name : option string; br_bytes : option nat; br_error : option string }.
Record BackupEntry := mkEntry { be_name : string; be_stamp : num }.
Record WebdavStatus := mkStatus {
  ws_configured : bool; ws_ok : bool; ws_error : option string; ws_backups : list BackupEntry }.

Definition lib {A} (m : Act A) : BAct A := on_web (on_act m).

Definition snapshot : Act string := d ← db; mret (db_image d).

Definition webdav_config : BAct WebdavConfig :=
  '(url, user, pass) ← lib webdavConfig; mret (mkWebdav url user pass).

(** The entries with a timestamp. *)
Definition stamped (names : list string) : list BackupEntry :=
  omap (fun name => mkEntry name <$> parseStamp name) names.
Definition newest_entry (a b : BackupEntry) : bool := newest_first (be_stamp a) (be_stamp b).

(** [keep.has(stamp)] *)
Definition has_stamp (keep : list num) (s : num) : bool := existsb (num_eqb s) keep.

Definition pruneBackups : BAct unit :=
  cfg ← webdav_config;
  names ← dav_list cfg;
  let entries := stamped names in
  recent ← lib (getSetting_num "backupKeepRecent");
  weekly ← lib (getSetting_num "backupKeepWeekly");
  monthly ← lib (getSetting_num "backupKeepMonthly");
  yearly ← lib (getSetting_num "backupKeepYearly");
  let keep := selectKeep (be_stamp <$> entries) (mkKeep recent weekly monthly yearly) in
  for_each (fun e => if has_stamp keep (be_stamp e) then mret tt else del cfg (be_name e)) entries.

(** The first unencrypted run of the process is reported on the console. *)
Definition backup_steps (stamp : Z) : BAct BackupResult :=
  cfg ← webdav_config;
  ensureCollection cfg;;
  enabled ← lift backupEncryptionEnabled;
  when (negb enabled) (modify (fun s => s <| bk_warned := true |>));;
  plain ← lib snapshot;
  data ← lib (maybeEncryptBackup plain);
  let name := BACKUP_PREFIX +:+ string_of_Z stamp +:+ ".db" in
  put cfg name data;;
  put cfg LATEST data;;
  pruneBackups;;
  mret (mkBackupResult true (Some name) (Some (String.length data)) None).

Definition backupNow (stamp : Z) : BAct BackupResult :=
  configured ← lib isWebdavConfigured;
  if negb configured then mret (mkBackupResult false None None (Some "WebDAV not configured"))
  else catch (backup_steps stamp)
         (fun e => mret (mkBackupResult false None None (Some (error_text e)))).

Definition recordRun (stamp : Z) (r : BackupResult) : Act unit :=
  setSetting "backupLastRun" (jz stamp);;
  setSetting "backupLastStatus" (JStr (if br_ok r then "ok" else "failed"));;
  setSetting "backupLastError" (JStr (if br_ok r then "" else nullish (br_error r) "Unknown error"));;
  match br_name r with
  | Some name => when (br_ok r && truthy name) (setSetting "backupLastName" (JStr name))
  | None => mret tt
  end.

Definition backupAll : BAct BackupResult :=
  stamp ← lib date_now;
  result ← backupNow stamp;
  lib (recordRun stamp result);;
  mret result.

Definition listBackups : BAct (list BackupEntry) :=
  configured ← lib isWebdavConfigured;
  if negb configured then mret []
  else
    cfg ← webdav_config;
    names ← dav_list cfg;
    mret (sort_by newest_entry (stamped names)).

Definition webdavStatus : BAct WebdavStatus :=
  configured ← lib isWebdavConfigured;
  if negb configured then mret (mkStatus false false None [])
  else
    catch (cfg ← webdav_config;
           names ← listStrict cfg;
           mret (mkStatus true true None (sort_by newest_entry (stamped names))))
      (fun e => mret (mkStatus true false (Some (error_text e)) [])).

Definition testConnection : BAct (option string) :=
  configured ← lib isWebdavConfigured;
  if negb configured then mret (Some "WebDAV not configured")
  else
    catch (cfg ← webdav_config;
           ensureCollection cfg;;
           put cfg ".labmgr-probe" "ok";;
           del cfg ".labmgr-probe";;
           mret None)
      (fun e => mret (Some (error_text e))).

(** [basename(name)] *)
Definition basename (name : string) : string := last_segment (strip_slashes_end name).

(** [None]: staged; an error's message otherwise. *)
(** The [try] of [stageRestore], after the name was found in the listing. *)
Definition restore_fetch (safe : string) : BAct (option string) :=
  catch (cfg ← webdav_config;
         data ← dav_get cfg safe;
         plain ← lift (decryptBackup data);
         modify (fun s => s <| bk_restore := Some plain |>);;
         mret None)
    (fun e => mret (Some (error_text e))).

Definition stageRestore (name : string) : BAct (option string) :=
  configured ← lib isWebdavConfigured;
  if negb configured then mret (Some "WebDAV not configured")
  else
    let safe := basename name in
    known ← listBackups;
    if negb (existsb (fun e => String.eqb (be_name e) safe) known) then mret (Some "Unknown backup name")
    else
      restore_fetch safe.

(** The hourly tick; the backup runs detached and its errors are logged. *)
Definition maintenance_tick {TZ : Zones} : BAct unit :=
  due ← lib maintenance_due;
  when due (catch (backupAll;; mret tt) (fun _ => mret tt)).

(** [applyStagedRestore] and opening the database at boot; [None] where the file is no
    database. *)
Definition boot_db (staged : option string) (current : Db) : option Db :=
  match staged with Some file => db_open file | None => Some current end.
End backup.
