(* ===== verification/BackupFacts.v ===== *)
(** * BackupFacts: what retention keeps, and what a restore can stage

    The second part: when the maintenance ticker runs a backup. *)
From S2P Require Import Prelude Js Numbers Schema Sql DbWf Env Secrets Testbed QueueFacts Settings SettingsFacts Mailer Hub HubConn Web Maintenance WebDav Backup.
From Stdlib Require Import Ascii.
Open Scope Z_scope.

(** ** Retention *)

(** A timestamp in milliseconds; a number of backups to keep. *)
Definition stamp_ok (z : Z) : Prop := 0 < z < 2 ^ 53.
Definition count_ok (k : Z) : Prop := 0 <= k < 2 ^ 53.

(** [s] is the newest of its bucket, and fewer than [k] buckets are newer. *)
Definition newest_of_bucket {B} `{EqDecision B} (bucketOf : num -> B) (k : Z) (sorted : list num)
    (s : num) : Prop :=
  exists newer older, sorted = newer ++ s :: older /\ bucketOf s ∉ bucketOf <$> newer /\
    Z.of_nat (length (dedup [] (bucketOf <$> newer))) < k.

Section retention.
Context {B : Type} `{EqDecision B} (f : num -> B) (k : Z) (k_ok : count_ok k).

Lemma length_dedup_le (seen l : list B) : (length (dedup seen l) <= length l)%nat.
Proof. revert seen. induction l as [|x l IH]; intros seen; cbn; [done|]. case_bool_decide; cbn; specialize (IH seen) as H1; [lia|]. specialize (IH (x :: seen)). lia. Qed.

Lemma keepPerBucket_spec l : forall seen s, (Z.of_nat (length seen + length l) < 2 ^ 53) ->
  s ∈ keepPerBucket f (num_of_Z k) seen l <->
  exists newer older, l = newer ++ s :: older /\ f s ∉ seen /\ f s ∉ f <$> newer /\
    Z.of_nat (length (dedup seen (f <$> newer)) + length seen) < k.
Proof using k_ok.
  induction l as [|x l IH]; intros seen s Hlen; cbn [keepPerBucket].
  { split; [by intros ?%elem_of_nil|]. by intros ([] & ? & ? & _). }
  cbn [length] in Hlen. case_bool_decide as Hx.
  - rewrite (IH seen s) by lia. split.
    + intros (newer & older & -> & Hs & Hn & Hk). exists (x :: newer), older. split_and!; [done|done| |].
      * rewrite fmap_cons, not_elem_of_cons. split; [congruence|done].
      * rewrite fmap_cons. cbn. by rewrite bool_decide_eq_true_2.
    + intros ([|y newer] & older & Heq & Hs & Hn & Hk); cbn in Heq; injection Heq as <- ->; [done|].
      exists newer, older. rewrite fmap_cons, not_elem_of_cons in Hn. rewrite fmap_cons in Hk. cbn in Hk.
      rewrite bool_decide_eq_true_2 in Hk by done. naive_solver.
  - rewrite num_of_Z_leb by (unfold count_ok in *; lia). destruct (Z.leb_spec k (Z.of_nat (length seen))).
    { split; [by intros ?%elem_of_nil|]. intros (? & ? & ? & ? & ? & ?). lia. }
    rewrite elem_of_cons, (IH (f x :: seen) s) by (cbn; lia). split.
    + intros [->|(newer & older & -> & Hs & Hn & Hk)].
      * exists [], l. cbn. split_and!; [done|done|apply not_elem_of_nil|lia].
      * apply not_elem_of_cons in Hs as [Hsx Hs]. exists (x :: newer), older.
        rewrite fmap_cons, not_elem_of_cons. split_and!; [done|done|done|done|].
        cbn. rewrite bool_decide_eq_false_2 by done. cbn in *. lia.
    + intros ([|y newer] & older & Heq & Hs & Hn & Hk); cbn in Heq; injection Heq as -> ->; [by left|right].
      rewrite fmap_cons, not_elem_of_cons in Hn. rewrite fmap_cons in Hk. cbn in Hk.
      rewrite bool_decide_eq_false_2 in Hk by done. exists newer, older.
      rewrite not_elem_of_cons. cbn in *. split_and!; [done|naive_solver|naive_solver|naive_solver|lia].
Qed.

Lemma bucket_keep_spec l s : Z.of_nat (length l) < 2 ^ 53 ->
  s ∈ bucket_keep f (num_of_Z k) l <-> newest_of_bucket f k l s.
Proof using k_ok.
  intros Hl. unfold bucket_keep, newest_of_bucket. rewrite (num_of_Z_leb k 0) by (unfold count_ok in *; lia).
  destruct (Z.leb_spec k 0) as [Hk|Hk].
  { split; [by intros ?%elem_of_nil|]. intros (? & ? & ? & ? & ?). lia. }
  rewrite keepPerBucket_spec by (cbn; lia). cbn [length].
  split; intros (newer & older & H); exists newer, older; rewrite ?Nat.add_0_r in *; [naive_solver|].
  split_and!; [naive_solver|apply not_elem_of_nil|naive_solver|naive_solver].
Qed.
End retention.

Lemma newest_first_sorted zs : Forall stamp_ok zs ->
  StronglySorted (fun a b => newest_first a b = true) (sort_by newest_first (num_of_Z <$> zs)).
Proof.
  intros Hz. assert (sort_by newest_first (num_of_Z <$> zs) =
    num_of_Z <$> sort_by (fun a b => b <=? a) zs) as ->.
  { induction Hz as [|z zs Hz0 Hz IH]; [done|]. cbn. rewrite IH. clear IH.
    assert (Forall stamp_ok (sort_by (fun a b => b <=? a) zs)) as Hs by (by rewrite sort_by_perm).
    induction Hs as [|y l Hy Hs IH]; [done|]. cbn. unfold newest_first at 1.
    unfold stamp_ok in *. rewrite num_of_Z_leb by lia. destruct (y <=? z); cbn; [done|]. by rewrite <- IH. }
  assert (StronglySorted (fun a b => (b <=? a) = true) (sort_by (fun a b => b <=? a) zs)) as Hs.
  { apply sort_by_sorted; intros *; rewrite !Z.leb_le; lia. }
  assert (Forall stamp_ok (sort_by (fun a b => b <=? a) zs)) as Hok by (by rewrite sort_by_perm).
  induction Hs as [|z l Hs IH Hz']; [constructor|]. apply Forall_cons in Hok as [Hz0 Hl]. cbn.
  constructor; [by apply IH|]. apply Forall_fmap, Forall_forall. intros y Hy. cbn. unfold newest_first.
  rewrite Forall_forall in Hz', Hl. specialize (Hz' y Hy). specialize (Hl y Hy). unfold stamp_ok in *.
  by rewrite num_of_Z_leb by lia.
Qed.

Lemma recent_count_eq r n : count_ok r -> Z.of_nat n < 2 ^ 53 ->
  recent_count (num_of_Z r) n = Nat.min (Z.to_nat r) n.
Proof.
  intros Hr Hn. unfold recent_count, count_ok in *. rewrite num_of_Z_leb by lia.
  destruct (Z.leb_spec (Z.of_nat n) r); [lia|]. rewrite ceil_of_Z by done. lia.
Qed.

(** C28: retention: the backups a prune keeps are exactly the newest [r], and the newest of each
    of the [w] most recent weeks, [m] most recent months and [y] most recent years that have
    one; and the newest backup is kept whenever one of the four numbers is positive. *)
Theorem selectKeep_retention zs r w m y :
  Forall stamp_ok zs -> Z.of_nat (length zs) < 2 ^ 53 ->
  count_ok r -> count_ok w -> count_ok m -> count_ok y ->
  let kept := selectKeep (num_of_Z <$> zs) (mkKeep (num_of_Z r) (num_of_Z w) (num_of_Z m) (num_of_Z y)) in
  exists sorted, sorted ≡ₚ num_of_Z <$> zs /\
    StronglySorted (fun a b => newest_first a b = true) sorted /\
    (forall s, s ∈ kept <->
       s ∈ take (Z.to_nat r) sorted \/ newest_of_bucket week_of w sorted s \/
       newest_of_bucket utc_month m sorted s \/ newest_of_bucket year_of y sorted s) /\
    (0 < r \/ 0 < w \/ 0 < m \/ 0 < y -> forall s, head sorted = Some s -> s ∈ kept).
Proof.
  intros Hz Hlen Hr Hw Hm Hy kept. exists (sort_by newest_first (num_of_Z <$> zs)).
  split; [apply sort_by_perm|]. split; [by apply newest_first_sorted|].
  assert (Z.of_nat (length (sort_by newest_first (num_of_Z <$> zs))) < 2 ^ 53) as Hl
    by (by rewrite length_sort_by, length_fmap).
  assert (forall s, s ∈ kept <->
       s ∈ take (Z.to_nat r) (sort_by newest_first (num_of_Z <$> zs)) \/
       newest_of_bucket week_of w (sort_by newest_first (num_of_Z <$> zs)) s \/
       newest_of_bucket utc_month m (sort_by newest_first (num_of_Z <$> zs)) s \/
       newest_of_bucket year_of y (sort_by newest_first (num_of_Z <$> zs)) s) as Hk.
  { intros s. unfold kept, selectKeep. cbn [kp_recent kp_weekly kp_monthly kp_yearly].
    rewrite !elem_of_app, !bucket_keep_spec by done. rewrite recent_count_eq by done.
    rewrite <- take_take. rewrite (take_ge _ (length _)) by done. done. }
  split; [done|]. intros Hpos s Hs. apply Hk.
  destruct (sort_by newest_first (num_of_Z <$> zs)) as [|s0 l]; [done|]. injection Hs as ->.
  assert (forall B (EB : EqDecision B) (f : num -> B) k, 0 < k -> newest_of_bucket f k (s :: l) s) as Hb.
  { intros B EB f k Hk0. exists [], l. cbn. split_and!; [done|apply not_elem_of_nil|lia]. }
  destruct Hpos as [Hr0|[Hw0|[Hm0|Hy0]]]; [left|right; left|right; right; left|right; right; right]; auto.
  destruct (Z.to_nat r) eqn:?; [lia|]. cbn. constructor.
Qed.

(** Three days in a row and one a year before: two recent, one weekly, no more. *)
Definition sample_stamps : list Z := [1700000000000; 1700086400000; 1668464000000; 1700172800000].
Lemma selectKeep_retention_witness :
  (exists sorted, sorted ≡ₚ num_of_Z <$> sample_stamps /\
     forall s, head sorted = Some s -> s ∈
       selectKeep (num_of_Z <$> sample_stamps) (mkKeep (num_of_Z 2) (num_of_Z 1) (num_of_Z 0) (num_of_Z 2))) /\
  selectKeep (num_of_Z <$> sample_stamps) (mkKeep (num_of_Z 2) (num_of_Z 1) (num_of_Z 0) (num_of_Z 2)) =
    num_of_Z <$> [1700172800000; 1700086400000; 1700172800000; 1700172800000; 1668464000000].
Proof.
  split; [|vm_compute; reflexivity].
  destruct (selectKeep_retention sample_stamps 2 1 0 2) as (sorted & Hp & _ & _ & Hh);
    try (unfold count_ok, stamp_ok; cbn; lia).
  - unfold sample_stamps, stamp_ok. repeat constructor; lia.
  - exists sorted. split; [exact Hp|]. apply Hh. lia.
Defined.

(** ** Sealing *)

(** What the cipher promises: what was sealed opens, and the tag has its length. *)
Class BackupCryptoSpec `{BackupLib} : Prop := {
  open_seal key iv plain : open key iv (seal key iv plain).1 (seal key iv plain).2 = Some plain;
  tag_length key iv plain : String.length (seal key iv plain).1 = TAG_LEN }.

Lemma drop_str_app a b : drop_str (String.length a) (a +:+ b) = b.
Proof. induction a as [|c a IH]; cbn; [by destruct b|exact IH]. Qed.
Lemma take_str_app a b : take_str (String.length a) (a +:+ b) = a.
Proof. induction a as [|c a IH]; cbn; [by destruct b|by f_equal]. Qed.
Lemma starts_with_app a b : starts_with a (a +:+ b) = true.
Proof. induction a as [|c a IH]; cbn; [done|]. by rewrite Ascii.eqb_refl. Qed.
Lemma length_buffer l : String.length (buffer l) = length l.
Proof. induction l; cbn; congruence. Qed.

Section sealing.
Context {HK : Honker} {PF : Platform} {HC : HttpClient} {BL : BackupLib}.

(** An envelope. *)
Definition envelope (iv tag ct : string) : string := MAGIC +:+ iv +:+ tag +:+ ct.

Lemma decrypt_envelope k iv tag ct : env_backupKey = Ok k -> k <> "" ->
  String.length iv = IV_LEN -> String.length tag = TAG_LEN ->
  decryptBackup (envelope iv tag ct) =
  match open (scrypt k SALT) iv tag ct with Some p => Ok p | None => Throw EBackupCorrupt end.
Proof.
  intros Hk Hne Hiv Htag. unfold decryptBackup, isEncryptedBackup, envelope. rewrite starts_with_app.
  unfold backupEncryptionEnabled, backup_key. rewrite Hk. cbn [mbind result_bind mret result_ret negb].
  destruct (String.eqb_spec k ""); [done|]. cbn [negb].
  rewrite drop_str_app, <- Hiv, take_str_app, drop_str_app, <- Htag, take_str_app, drop_str_app. done.
Qed.

Lemma maybeEncrypt_run k plain w : env_backupKey = Ok k -> k <> "" ->
  exists iv w', let '(tag, ct) := seal (scrypt k SALT) iv plain in
    maybeEncryptBackup plain w = (Ok (envelope iv tag ct), w') /\ String.length iv = IV_LEN /\
    w_db w' = w_db w.
Proof.
  intros Hk Hne. exists (buffer (random_byte <$> seq (w_bytes w) IV_LEN)).
  destruct (seal _ _ _) as [tag ct] eqn:Hs. eexists.
  unfold maybeEncryptBackup, backupEncryptionEnabled, backup_key. rewrite Hk.
  cbn [mbind result_bind mret result_ret].
  rewrite (bind_step (lift _) _ w (negb (String.eqb k "")) w) by done.
  destruct (String.eqb_spec k ""); [done|]. cbn [negb].
  rewrite (bind_step (random_bytes IV_LEN) _ w _ _) by done.
  rewrite (bind_step (lift _) _ _ (scrypt k SALT) _) by done. rewrite Hs.
  split; [done|]. split; [|done]. by rewrite length_buffer, length_fmap, length_seq.
Qed.
End sealing.

(** C29: a backup that was made restores to the database it was made of: the file of the
    snapshot, sealed or not, opens at the next boot as exactly that database.  With a key the
    uploaded bytes are an envelope, and a change of its nonce, tag or ciphertext is accepted
    only where the cipher accepts it. *)
Theorem backup_restores {HK : Honker} {PF : Platform} {HC : HttpClient} {BL : BackupLib}
    {CS : BackupCryptoSpec} key w :
  env_backupKey = Ok key ->
  db_open (db_image (w_db w)) = Some (w_db w) -> isEncryptedBackup (db_image (w_db w)) = false ->
  exists data w', maybeEncryptBackup (db_image (w_db w)) w = (Ok data, w') /\ w_db w' = w_db w /\
    decryptBackup data = Ok (db_image (w_db w)) /\
    (forall current, boot_db (Some (db_image (w_db w))) current = Some (w_db w)) /\
    (key <> "" -> exists iv tag ct, data = envelope iv tag ct /\
       forall iv' tag' ct' plain, String.length iv' = IV_LEN -> String.length tag' = TAG_LEN ->
         decryptBackup (envelope iv' tag' ct') = Ok plain -> open (scrypt key SALT) iv' tag' ct' = Some plain).
Proof.
  intros Hk Ho Hm.
  assert (forall current, boot_db (Some (db_image (w_db w))) current = Some (w_db w)) as Hb by done.
  destruct (String.eqb_spec key "") as [->|Hne].
  - exists (db_image (w_db w)), w. split.
    { unfold maybeEncryptBackup, backupEncryptionEnabled. by rewrite Hk. }
    split_and!; [done| |done|done]. unfold decryptBackup. by rewrite Hm.
  - destruct (maybeEncrypt_run key (db_image (w_db w)) w Hk Hne) as (iv & w' & H).
    pose proof (open_seal (scrypt key SALT) iv (db_image (w_db w))) as Hos.
    pose proof (tag_length (scrypt key SALT) iv (db_image (w_db w))) as Htl.
    destruct (seal (scrypt key SALT) iv (db_image (w_db w))) as [tag ct]. cbn in Hos, Htl.
    destruct H as (Hr & Hiv & Hd). exists (envelope iv tag ct), w'. split_and!; [done|done| |done|].
    + by rewrite (decrypt_envelope key), Hos.
    + intros _. exists iv, tag, ct. split; [done|]. intros iv' tag' ct' plain Hl Ht.
      rewrite (decrypt_envelope key) by done. by destruct (open (scrypt key SALT) iv' tag' ct'); intros [= ->].
Qed.

Section witness.
#[local] Existing Instance toy_honker.
#[local] Instance sealed_pf : Platform :=
  toy_platform (("BACKUP_KEY", "correct horse battery") :: toy_env) (fun _ => None).
#[local] Instance no_http : HttpClient := {|
  http := unit; fetch _ s := (None, s); parse_url _ := None; base64 s := s |}.
(** A file format for one database and a cipher without secrecy. *)
#[local] Instance toy_backup : BackupLib := {|
  db_image _ := "SQLite format 3"; db_open f := if String.eqb f "SQLite format 3" then Some (w_db toy_world) else None;
  scrypt k s := k +:+ s;
  seal _ _ plain := ("0123456789abcdef", plain);
  open _ _ tag ct := if String.eqb tag "0123456789abcdef" then Some ct else None |}.
#[local] Instance toy_backup_spec : BackupCryptoSpec.
Proof. by split. Qed.

Lemma backup_restores_witness :
  exists data w', maybeEncryptBackup (db_image (w_db toy_world)) toy_world = (Ok data, w') /\
    decryptBackup data = Ok (db_image (w_db toy_world)) /\ isEncryptedBackup data = true.
Proof.
  destruct (backup_restores "correct horse battery" toy_world) as (data & w' & Hr & _ & Hd & _ & He);
    [reflexivity|reflexivity|reflexivity|].
  exists data, w'. split; [exact Hr|]. split; [exact Hd|].
  destruct (He ltac:(discriminate)) as (iv & tag & ct & -> & _). apply starts_with_app.
Defined.
End witness.

(** The integrity check covers envelopes only.  Whatever key is set, a file on the backup
    server that does not start with the six bytes of the envelope is staged as it is: an
    encrypted backup whose first byte was altered, one truncated below six bytes, or a database
    made by whoever can write to the server. *)
Theorem restore_accepts_unsealed {HK : Honker} {PF : Platform} {HC : HttpClient} {BL : BackupLib} :
  (forall data, starts_with MAGIC data = false -> decryptBackup data = Ok data) /\
  (forall c s iv tag ct, envelope iv tag ct = String c s -> forall c', c' <> c ->
     decryptBackup (String c' s) = Ok (String c' s)) /\
  (forall n iv tag ct, (n < String.length MAGIC)%nat ->
     decryptBackup (take_str n (envelope iv tag ct)) = Ok (take_str n (envelope iv tag ct))).
Proof.
  assert (forall data, starts_with MAGIC data = false -> decryptBackup data = Ok data) as Hd.
  { intros data H. unfold decryptBackup, isEncryptedBackup. by rewrite H. }
  split; [done|]. split.
  - intros c s iv tag ct H c' Hc. apply Hd. unfold envelope in H. injection H as <- _.
    cbn [starts_with MAGIC]. change (starts_with MAGIC (String c' s)) with
      (Ascii.eqb "L" c' && starts_with (drop_str 1 MAGIC) s).
    by destruct (Ascii.eqb_spec "L" c') as [<-|].
  - intros n iv tag ct Hn. apply Hd. unfold envelope. cbn in Hn.
    do 6 (destruct n as [|n]; [done|]). lia.
Qed.

(** ** Restoring *)

Section restore.
Context {HK : Honker} {PF : Platform} {HC : HttpClient} {BL : BackupLib}.
Context (W : World) (R : option string).

(** Nothing written: the controller's state and the staged file. *)
Definition untouched (s : BackupWorld) : Prop := web_world (bk_web s) = W /\ bk_restore s = R.

Lemma lib_untouched {A} (m : Act A) : preserves (eq W) m -> preserves untouched (lib m).
Proof.
  intros Hm s [Hs Hr]. unfold lib, on_web.
  pose proof (preserves_on_act (eq W) m Hm (bk_web s) (eq_sym Hs)) as H.
  destruct (on_act m (bk_web s)) as [r w]. split; [by symmetry|done].
Qed.
Lemma dav_untouched meth url cfg body : preserves untouched (dav meth url cfg body).
Proof. intros s Hs. unfold dav. by destruct (fetch _ _). Qed.
#[local] Hint Resolve dav_untouched : preserve.
Lemma dav_or_throw_untouched meth url cfg body : preserves untouched (dav_or_throw meth url cfg body).
Proof. unfold dav_or_throw. solve_preserves. Qed.
#[local] Hint Resolve dav_or_throw_untouched : preserve.
Lemma listStrict_untouched cfg : preserves untouched (listStrict cfg).
Proof. unfold listStrict. solve_preserves. Qed.
#[local] Hint Resolve listStrict_untouched : preserve.
Lemma dav_list_untouched cfg : preserves untouched (dav_list cfg).
Proof. unfold dav_list. solve_preserves. Qed.
Lemma dav_get_untouched cfg n : preserves untouched (dav_get cfg n).
Proof. unfold dav_get. solve_preserves. Qed.
Lemma configured_untouched : preserves untouched (lib isWebdavConfigured).
Proof. apply lib_untouched. unfold isWebdavConfigured. solve_preserves. Qed.
Lemma webdav_config_untouched : preserves untouched webdav_config.
Proof.
  unfold webdav_config. apply preserves_bind; [|intros [[]]; solve_preserves].
  apply lib_untouched. unfold webdavConfig. solve_preserves.
Qed.
#[local] Hint Resolve dav_list_untouched configured_untouched webdav_config_untouched : preserve.
Lemma listBackups_untouched : preserves untouched listBackups.
Proof. unfold listBackups. solve_preserves. Qed.
End restore.

(** ** The listing, and what is fetched *)

Section listing.
Context {HK : Honker} {PF : Platform} {HC : HttpClient}.
Implicit Types (s : BackupWorld).

(** The target the settings name. *)
Definition target w (cfg : WebdavConfig) : Prop := exists url user pass,
  webdavConfig w = (Ok (url, user, pass), w) /\ cfg = mkWebdav url user pass.
(** The PROPFIND of the target, and the names in its answer. *)
Definition listed (cfg : WebdavConfig) (h : http) (names : list string) (h' : http) : Prop := exists res,
  fetch (mkRequest "PROPFIND" (wd_url cfg) (authHeader cfg) (Some PROPFIND_BODY)) h = (Some res, h') /\
  rs_ok res = true /\ entry_names (wd_url cfg) (rs_body res) = Some names.
(** A download: the body of a successful answer to the GET of [name]. *)
Definition downloaded (cfg : WebdavConfig) (name : string) (h : http) (data : string) (h' : http) : Prop :=
  exists res, fetch (mkRequest "GET" (wd_url cfg +:+ "/" +:+ name) (authHeader cfg) None) h = (Some res, h') /\
  rs_ok res = true /\ rs_body res = data.

Lemma lib_http {A} (m : Act A) s : bk_http (lib m s).2 = bk_http s.
Proof. unfold lib, on_web. by destruct (on_act m (bk_web s)). Qed.
Lemma webdav_config_run s cfg s' : webdav_config s = (Ok cfg, s') ->
  target (web_world (bk_web s)) cfg /\ bk_http s' = bk_http s.
Proof.
  unfold webdav_config, mbind, M_bind, lib, on_web, on_act, on_hub, on_world, web_world. intros H.
  change (hw_world (ww_hub (bk_web s))) with (web_world (bk_web s)) in *.
  destruct (webdavConfig (web_world (bk_web s))) as [[[[url user] pass]|e] w] eqn:Hw; cbn in H; [|done].
  injection H as <- <-. split; [|done]. exists url, user, pass. split; [|done]. rewrite Hw. f_equal.
  assert (preserves (eq (web_world (bk_web s))) webdavConfig) as Hp by (unfold webdavConfig; solve_preserves).
  specialize (Hp _ eq_refl). by rewrite Hw in Hp.
Qed.
Lemma dav_list_run cfg s names name s' : dav_list cfg s = (Ok names, s') -> name ∈ names ->
  listed cfg (bk_http s) names (bk_http s').
Proof.
  unfold dav_list, catch, listStrict, dav_or_throw, dav, mbind, M_bind. cbn -[rs_ok entry_names].
  destruct (fetch _ _) as [[res|] h'] eqn:Hf; cbn -[rs_ok entry_names]; [|by intros [= <- _] ?%elem_of_nil].
  destruct (rs_ok res) eqn:Hok; cbn -[rs_ok entry_names]; [|by intros [= <- _] ?%elem_of_nil].
  destruct (entry_names _ _) as [l|] eqn:Hl; [|by intros [= <- _] ?%elem_of_nil].
  intros [= <- <-] _. by exists res.
Qed.
Lemma listBackups_run s l e s' : listBackups s = (Ok l, s') -> e ∈ l -> exists cfg names,
  target (web_world (bk_web s)) cfg /\ listed cfg (bk_http s) names (bk_http s') /\
  be_name e ∈ names /\ is_Some (parseStamp (be_name e)).
Proof.
  unfold listBackups. intros H He. inv_bind H. rename E into Ec.
  assert (web_world (bk_web w) = web_world (bk_web s) /\ bk_http w = bk_http s) as [Hw Hh].
  { split; [|pose proof (lib_http isWebdavConfigured s) as Hh; by rewrite Ec in Hh].
    pose proof (configured_untouched _ (bk_restore s) s (conj eq_refl eq_refl)) as Hu. rewrite Ec in Hu. apply Hu. }
  destruct a; cbn [negb] in H; [|injection H as <- _; by apply elem_of_nil in He].
  inv_bind H. apply webdav_config_run in E as [Ht Hh1]. inv_bind H. injection H as <- <-.
  rewrite Hw in Ht. rewrite Hh in Hh1. apply elem_of_sort_by in He. unfold stamped in He.
  apply list_elem_of_omap in He as (n & Hn & He). destruct (parseStamp n) eqn:Hp; [|done]. injection He as <-.
  pose proof (dav_list_run _ _ _ n _ E Hn) as Hl. rewrite Hh1 in Hl. cbn. rewrite Hp. eauto 10.
Qed.
Lemma dav_get_run cfg name s data s' : dav_get cfg name s = (Ok data, s') ->
  downloaded cfg name (bk_http s) data (bk_http s').
Proof.
  unfold dav_get, dav_or_throw, dav, mbind, M_bind. cbn -[rs_ok].
  destruct (fetch _ _) as [[res|] h'] eqn:Hf; cbn -[rs_ok]; [|done]. destruct (rs_ok res) eqn:Hok; cbn; [|done].
  intros [= <- <-]. by exists res.
Qed.
Lemma target_fun w cfg cfg' : target w cfg -> target w cfg' -> cfg = cfg'.
Proof. intros (u & n & p & H & ->) (u' & n' & p' & H' & ->). rewrite H in H'. by injection H' as <- <- <-. Qed.
End listing.

(** The second half of a restore, in whatever state it runs. *)
Definition fetched {HK : Honker} {PF : Platform} {HC : HttpClient} {BL : BackupLib}
    (safe : string) (s : BackupWorld) (r : result exn (option string)) (s' : BackupWorld) : Prop :=
  web_world (bk_web s') = web_world (bk_web s) /\
  match r with
  | Ok None => exists cfg data plain,
      target (web_world (bk_web s)) cfg /\ downloaded cfg safe (bk_http s) data (bk_http s') /\
      decryptBackup data = Ok plain /\ bk_restore s' = Some plain
  | _ => bk_restore s' = bk_restore s
  end.
Lemma restore_fetch_run {HK : Honker} {PF : Platform} {HC : HttpClient} {BL : BackupLib} safe s :
  fetched safe s (restore_fetch safe s).1 (restore_fetch safe s).2.
Proof.
  set (I := untouched (web_world (bk_web s)) (bk_restore s)). assert (I s) as Hs by done.
  unfold fetched, restore_fetch, catch, mbind, M_bind.
  pose proof (webdav_config_untouched _ _ s Hs) as H3. pose proof (webdav_config_run s) as Hc.
  destruct (webdav_config s) as [[cfg|e'] s3]; [|exact H3]. destruct (Hc cfg s3 eq_refl) as [Ht Hh3].
  pose proof (dav_get_untouched _ _ cfg safe s3 H3) as H4. pose proof (dav_get_run cfg safe s3) as Hg.
  destruct (dav_get cfg safe s3) as [[data|e'] s4]; [|exact H4].
  cbn [lift]. destruct (decryptBackup data) as [plain|e'] eqn:Hd; [|exact H4].
  cbn. split; [exact (proj1 H4)|]. specialize (Hg data s4 eq_refl). rewrite Hh3 in Hg. by exists cfg, data, plain.
Qed.

(** C30: what a restore can stage. Whatever name the request carries and whatever the server
    answers, the database is left alone, and the staged file changes only when the call reports
    success. Then the call made two requests to the target the settings configure, with its
    credentials: a PROPFIND, in whose answer the name's last segment is listed and reads as a
    backup's timestamp, and a GET of that very entry; the file staged is the body of the answer,
    opened by the cipher if it is an envelope. Should anything change while the listing is
    awaited, the second half still stages nothing but what the target configured by then answers
    to the GET of that name. *)
Theorem stageRestore_safe {HK : Honker} {PF : Platform} {HC : HttpClient} {BL : BackupLib} name s :
  (let '(r, s') := stageRestore name s in
   web_world (bk_web s') = web_world (bk_web s) /\
   match r with
   | Ok None => exists cfg names h1 data plain,
       target (web_world (bk_web s)) cfg /\
       listed cfg (bk_http s) names h1 /\ basename name ∈ names /\ is_Some (parseStamp (basename name)) /\
       downloaded cfg (basename name) h1 data (bk_http s') /\
       decryptBackup data = Ok plain /\ bk_restore s' = Some plain
   | _ => bk_restore s' = bk_restore s
   end) /\
  forall s2, let '(r, s') := restore_fetch (basename name) s2 in fetched (basename name) s2 r s'.
Proof.
  split; [|intros s2; pose proof (restore_fetch_run (basename name) s2) as H; by destruct (restore_fetch _ s2)].
  set (I := untouched (web_world (bk_web s)) (bk_restore s)). assert (I s) as Hs by done.
  unfold stageRestore, mbind, M_bind.
  pose proof (configured_untouched _ _ s Hs) as H1. pose proof (lib_http isWebdavConfigured s) as Hh1.
  destruct (lib isWebdavConfigured s) as [[[]|e] s1]; cbn [negb]; [|exact H1|exact H1]. cbn in Hh1.
  pose proof (listBackups_untouched _ _ s1 H1) as H2. pose proof (listBackups_run s1) as Hl.
  destruct (listBackups s1) as [[known|e] s2]; [|exact H2].
  destruct (existsb _ known) eqn:Hk; cbn [negb]; [|exact H2].
  apply existsb_exists in Hk as (e & He%list_elem_of_In & Hn). apply String.eqb_eq in Hn.
  destruct (Hl known e s2 eq_refl He) as (cfg0 & names & Ht0 & Hlist & Hin & Hp). rewrite Hn in Hin, Hp.
  destruct H1 as [Hw1 _], H2 as [Hw2 Hr2]. cbn in Hw1, Hw2, Hr2. rewrite Hw1 in Ht0. rewrite Hh1 in Hlist.
  destruct (restore_fetch_run (basename name) s2) as [Hw Hf]. destruct (restore_fetch (basename name) s2) as [r s'].
  cbn in Hw, Hf. rewrite Hw2 in Hw. split; [exact Hw|].
  destruct r as [[msg|]|e']; [by rewrite <- Hr2| |by rewrite <- Hr2].
  destruct Hf as (cfg & data & plain & Ht & Hg & Hd & Hst). rewrite Hw2 in Ht. rewrite (target_fun _ _ _ Ht0 Ht) in *.
  by exists cfg, names, (bk_http s2), data, plain.
Qed.

(** * When a scheduled backup is due *)


(** UTC under every name: the calendar of [Backup]'s dates as a zone. *)
Definition utc : Zones := fun _ t =>
  let '(y, m, d) := civil_from_days (t / DAY_MS) in
  let s := t mod DAY_MS / 1000 in
  Some (mkWall y m d (s / 3600) (s / 60 mod 60) (s mod 60)).

(** The slots of a grid. *)
Definition slot (g : Grid) (k : Z) : Z := gr_anchor g + k * gr_intervalMs g.

(** The first slot after [ref], with no round of the loop: any fuel gives the same. *)
Lemma grid_after_first g ref : 0 < gr_intervalMs g ->
  let k := (ref - gr_anchor g) / gr_intervalMs g + 1 in
  grid_after g ref = slot g k /\ ref < slot g k /\ (forall j, ref < slot g j -> slot g k <= slot g j) /\
  forall fuel, advance fuel (slot g k) ref (gr_intervalMs g) = slot g k.
Proof.
  intros Hi k. unfold slot. assert (ref < gr_anchor g + k * gr_intervalMs g) as Hlt.
  { subst k. pose proof (Z.mul_succ_div_gt (ref - gr_anchor g) (gr_intervalMs g) Hi). lia. }
  assert (forall fuel, advance fuel (gr_anchor g + k * gr_intervalMs g) ref (gr_intervalMs g) =
    gr_anchor g + k * gr_intervalMs g) as Hadv.
  { intros [|n]; [done|]. cbn. by rewrite (proj2 (Z.leb_gt _ _)). }
  split_and!; [apply (Hadv 1%nat)|done| |exact Hadv].
  intros j Hj. apply Z.add_le_mono_l, Z.mul_le_mono_nonneg_r; [lia|]. subst k.
  assert ((ref - gr_anchor g) / gr_intervalMs g < j); [|lia].
  apply Z.div_lt_upper_bound; lia.
Qed.

Section schedule.
Context {HK : Honker} {PF : Platform} {TZ : Zones}.

(** C31: a scheduled backup is due exactly when a slot of the schedule - the anchor of the day of [now] plus
    a whole number of intervals - lies after the last run and not after [now].  The anchor of
    the day is itself a slot, so a backup is due at every day's anchor even when the interval
    is longer than a day. *)
Theorem backupDue_spec now w g last :
  backupGrid now w = (Ok (Some g), w) -> 0 < gr_intervalMs g ->
  getSetting_Z "backupLastRun" w = (Ok last, w) ->
  exists b, backupDue now w = (Ok b, w) /\
    (b = true <-> exists k, last < slot g k <= now) /\
    (last < gr_anchor g <= now -> b = true).
Proof.
  intros Hg Hi Hl. destruct (grid_after_first g last Hi) as (He & Hlt & Hleast & _).
  exists (grid_after g last <=? now). unfold backupDue. step_with Hl. unfold slotAfter.
  rewrite (bind_step _ _ w (Some (grid_after g last)) w) by (by step_with Hg). split; [done|].
  assert (forall k, last < slot g k <= now -> (grid_after g last <=? now) = true) as Hany.
  { intros k [Hk Hn]. apply Z.leb_le. rewrite He. specialize (Hleast k Hk). lia. }
  split; [split|].
  - intros H%Z.leb_le. rewrite He in H. by eexists.
  - intros (k & Hk). by apply (Hany k).
  - intros Ha. apply (Hany 0). unfold slot. lia.
Qed.
End schedule.

(** ** The schedule at work *)

Section witness.
#[local] Existing Instance toy_honker.
#[local] Existing Instance toy_pf.
#[local] Existing Instance utc.

(** Backups every 48 hours at 02:00, the last one yesterday at 02:00. *)
Definition two_days : World :=
  ((setSetting "backupEnabled" (JBool true);; setSetting "backupIntervalHours" (jz 48);;
   setSetting "backupTimezone" (JStr "UTC");; setSetting "backupLastRun" (jz 1699927200000) : Act unit) toy_world).2.

Lemma backupDue_spec_witness :
  backupGrid 1700013600000 two_days = (Ok (Some (mkGrid 1700013600000 (48 * 3600000))), two_days) /\
  backupDue 1700013600000 two_days = (Ok true, two_days).
Proof.
  assert (backupGrid 1700013600000 two_days = (Ok (Some (mkGrid 1700013600000 (48 * 3600000))), two_days)) as Hg
    by (vm_compute; reflexivity).
  split; [exact Hg|].
  destruct (backupDue_spec 1700013600000 two_days (mkGrid 1700013600000 (48 * 3600000)) 1699927200000 Hg)
    as (b & Hb & _ & Hd); [reflexivity|vm_compute; reflexivity|].
  rewrite Hb, Hd; [reflexivity|]. split; [reflexivity|discriminate].
Defined.
End witness.
