(* ===== verification/Gpu.v ===== *)
(** * Gpu: [lib/gpu.ts], the history of GPU idle kills

    The two ways of deleting history, the bounded read of the newest events, and their
    grouping by lab and student for the offender view. *)
From S2P Require Import Prelude Js Numbers Schema Sql DbWf Env Secrets Testbed.
Open Scope Z_scope.

(** [Math.max(a, b)] *)
Definition num_max (a b : num) : num :=
  match a, b with
  | S754_nan, _ | _, S754_nan => S754_nan
  | S754_zero true, S754_zero _ => b
  | _, _ => if num_ltb a b then b else a
  end.

(** ** Grouping *)

Record StudentKillStats := mkStudentStats {
  st_user : option string; st_warned : Z; st_killed : Z; st_lastTs : num;
  st_events : list GpuEventRow }.
Record LabKillStats := mkLabStats {
  lk_lab : option string; lk_warned : Z; lk_killed : Z; lk_students : list StudentKillStats }.

(** The entry of a lab while the events are read: [byUser] also gives the order of
    [students]. *)
Record LabEntry := mkLabEntry {
  le_lab : option string; le_warned : Z; le_killed : Z;
  le_byUser : list (string * StudentKillStats) }.

Definition is_killed (e : GpuEventRow) : bool := String.eqb (ge_state e) "killed".
Definition is_warned (e : GpuEventRow) : bool :=
  negb (is_killed e) && String.eqb (ge_state e) "warned".
Definition one (b : bool) : Z := if b then 1 else 0.

Definition labKey (e : GpuEventRow) : string := nullish (ge_lab e) "".
Definition userKey (e : GpuEventRow) : string := nullish (ge_user e) "".

Definition new_student (e : GpuEventRow) : StudentKillStats :=
  mkStudentStats (ge_user e) 0 0 (ge_ts e) [].
Definition add_to_student (e : GpuEventRow) (s : StudentKillStats) : StudentKillStats :=
  mkStudentStats (st_user s) (st_warned s + one (is_warned e)) (st_killed s + one (is_killed e))
    (num_max (st_lastTs s) (ge_ts e)) (st_events s ++ [e]).

Definition new_lab (e : GpuEventRow) : LabEntry := mkLabEntry (ge_lab e) 0 0 [].
Definition add_to_lab (e : GpuEventRow) (l : LabEntry) : LabEntry :=
  mkLabEntry (le_lab l) (le_warned l + one (is_warned e)) (le_killed l + one (is_killed e))
    (alter_or (userKey e) (new_student e) (add_to_student e) (le_byUser l)).

Definition by_lab (events : list GpuEventRow) : list (string * LabEntry) :=
  fold_left (fun labs e => alter_or (labKey e) (new_lab e) (add_to_lab e) labs) events [].

(** [byOffense(a, b) <= 0] *)
Definition offense_leb (ka wa kb wb : Z) : bool := (kb <? ka) || ((kb =? ka) && (wb <=? wa)).
Definition student_leb (a b : StudentKillStats) : bool :=
  offense_leb (st_killed a) (st_warned a) (st_killed b) (st_warned b).
Definition lab_leb (a b : LabKillStats) : bool :=
  offense_leb (lk_killed a) (lk_warned a) (lk_killed b) (lk_warned b).
(** [b.ts - a.ts <= 0], the order of an incomparable pair left alone *)
Definition newest_leb (a b : GpuEventRow) : bool :=
  negb (num_ltb (num_of_Z 0) (num_sub (ge_ts b) (ge_ts a))).

Definition sort_events (s : StudentKillStats) : StudentKillStats :=
  mkStudentStats (st_user s) (st_warned s) (st_killed s) (st_lastTs s)
    (sort_by newest_leb (st_events s)).
Definition close_lab (l : LabEntry) : LabKillStats :=
  mkLabStats (le_lab l) (le_warned l) (le_killed l)
    (sort_events <$> sort_by student_leb (snd <$> le_byUser l)).

Definition groupGpuEvents (events : list GpuEventRow) : list LabKillStats :=
  sort_by lab_leb (close_lab <$> (snd <$> by_lab events)).

Section gpu.
Context {HK : Honker} {PF : Platform}.

(** Events with the same timestamp keep the order of their ids. *)
Definition recentGpuEvents (limit : nat) : Act (list GpuEventRow) :=
  d ← db;
  mret (take limit (sort_by (fun a b => num_leb (ge_ts b) (ge_ts a)) (rows (gpu_events d)))).

Definition clearGpuEvents (actor : string) : Act nat :=
  transaction (
    d ← db;
    delete_gpu_events (fun _ => True);;
    let cleared := length (rows (gpu_events d)) in
    audit (Some actor) "gpu.events.clear" None
      (Some (string_of_Z (Z.of_nat cleared) +:+ " event(s)"));;
    mret cleared).

Definition deleteGpuEvent (id : Z) (actor : string) : Act unit :=
  d ← db;
  delete_gpu_events (fun e => ge_id e = id);;
  throw_if (bool_decide (select (fun e => ge_id e = id) (rows (gpu_events d)) = [])) EEventNotFound;;
  audit (Some actor) "gpu.event.delete" (Some (string_of_Z id)) None.

Lemma clearGpuEvents_wf actor : preserves wf (clearGpuEvents actor).
Proof. unfold clearGpuEvents. apply transaction_wf. solve_preserves. Qed.
Lemma deleteGpuEvent_wf id actor : preserves wf (deleteGpuEvent id actor).
Proof. unfold deleteGpuEvent. solve_preserves. Qed.
End gpu.
#[export] Hint Resolve clearGpuEvents_wf deleteGpuEvent_wf : preserve.

(** ** The offender view *)

Definition events_of (lab user : string) (events : list GpuEventRow) : list GpuEventRow :=
  filter (fun e => labKey e = lab /\ userKey e = user) events.
Definition kills (l : list GpuEventRow) : Z := Z.of_nat (length (filter (fun e => is_killed e = true) l)).
Definition warnings (l : list GpuEventRow) : Z := Z.of_nat (length (filter (fun e => is_warned e = true) l)).

(** A student's entry: exactly the events of the student in the lab, newest first. *)
Definition student_ok (lab : string) (events : list GpuEventRow) (s : StudentKillStats) : Prop :=
  let mine := events_of lab (nullish (st_user s) "") events in
  mine <> [] /\ st_events s = sort_by newest_leb mine /\
  st_killed s = kills mine /\ st_warned s = warnings mine.
(** A lab's entry: its students, each once, the worst offenders first. *)
Definition lab_ok (events : list GpuEventRow) (l : LabKillStats) : Prop :=
  let lab := nullish (lk_lab l) "" in
  let mine := filter (fun e => labKey e = lab) events in
  mine <> [] /\ lk_killed l = kills mine /\ lk_warned l = warnings mine /\
  Forall (student_ok lab events) (lk_students l) /\
  NoDup ((fun s => nullish (st_user s) "") <$> lk_students l) /\
  (forall e, e ∈ mine -> exists s, s ∈ lk_students l /\ nullish (st_user s) "" = userKey e) /\
  StronglySorted (fun a b => student_leb a b = true) (lk_students l).

Lemma one_length b (P : GpuEventRow -> Prop) {PDec : forall x, Decision (P x)} e :
  (P e <-> b = true) -> Z.of_nat (length (filter P [e])) = one b.
Proof.
  intros H. destruct b; cbn [one].
  - by rewrite filter_cons_True by tauto.
  - rewrite filter_cons_False; [done|]. intros HP. by apply H in HP.
Qed.

Lemma kills_snoc l e : kills (l ++ [e]) = kills l + one (is_killed e).
Proof. unfold kills. rewrite filter_app, length_app, Nat2Z.inj_add. f_equal. by apply one_length. Qed.
Lemma warnings_snoc l e : warnings (l ++ [e]) = warnings l + one (is_warned e).
Proof. unfold warnings. rewrite filter_app, length_app, Nat2Z.inj_add. f_equal. by apply one_length. Qed.

Lemma student_entry l e0 :
  let s := fold_left (fun a e => add_to_student e a) l (new_student e0) in
  st_user s = ge_user e0 /\ st_events s = l /\ st_killed s = kills l /\ st_warned s = warnings l.
Proof.
  induction l as [|e l IH] using rev_ind; [done|]. cbv zeta in *. rewrite fold_left_app. cbn.
  destruct IH as (-> & -> & -> & ->). by rewrite kills_snoc, warnings_snoc.
Qed.

Lemma lab_entry l e0 :
  let s := fold_left (fun a e => add_to_lab e a) l (new_lab e0) in
  le_lab s = ge_lab e0 /\ le_killed s = kills l /\ le_warned s = warnings l /\
  le_byUser s = grouped userKey new_student add_to_student l.
Proof.
  induction l as [|e l IH] using rev_ind; [done|]. cbv zeta in *. rewrite fold_left_app. cbn.
  destruct IH as (-> & -> & -> & ->). by rewrite kills_snoc, warnings_snoc, grouped_snoc.
Qed.

Lemma offense_total ka wa kb wb : offense_leb ka wa kb wb = true \/ offense_leb kb wb ka wa = true.
Proof. unfold offense_leb. rewrite !orb_true_iff, !andb_true_iff, !Z.ltb_lt, !Z.eqb_eq, !Z.leb_le. lia. Qed.
Lemma offense_trans ka wa kb wb kc wc :
  offense_leb ka wa kb wb = true -> offense_leb kb wb kc wc = true -> offense_leb ka wa kc wc = true.
Proof. unfold offense_leb. rewrite !orb_true_iff, !andb_true_iff, !Z.ltb_lt, !Z.eqb_eq, !Z.leb_le. lia. Qed.

Lemma elem_filter_head {A} (P : A -> Prop) {PDec : forall x, Decision (P x)} l x l' :
  filter P l = x :: l' -> P x.
Proof. intros H. assert (x ∈ filter P l) as Hx by (rewrite H; constructor). by apply list_elem_of_filter in Hx as [? _]. Qed.

Lemma close_lab_ok events k l :
  (k, l) ∈ by_lab events -> nullish (lk_lab (close_lab l)) "" = k /\ lab_ok events (close_lab l).
Proof.
  intros Hin. change (by_lab events) with (grouped labKey new_lab add_to_lab events) in Hin.
  apply grouped_entry in Hin. destruct (filter _ events) as [|e0 es] eqn:Hf; [done|].
  cbn [entry_of] in Hin. apply (inj Some) in Hin. rename Hin into Hl. pose proof (elem_filter_head _ _ _ _ Hf) as He0.
  pose proof (lab_entry (e0 :: es) e0) as H. rewrite Hl in H. destruct H as (H1 & H2 & H3 & H4).
  assert (nullish (lk_lab (close_lab l)) "" = k) as Hk by (cbn; by rewrite H1). split; [done|].
  unfold lab_ok. rewrite Hk, Hf. cbn [lk_killed lk_warned lk_students close_lab].
  pose proof (grouped_keys userKey new_student add_to_student (e0 :: es)) as [Hnd Hkeys].
  rewrite H4. set (g := grouped _ _ _ _) in *.
  assert (forall u s, (u, s) ∈ g -> nullish (st_user s) "" = u /\ student_ok k events (sort_events s)) as Hst.
  { intros u s Hin. apply grouped_entry in Hin. rewrite <- Hf in Hin at 1.
    rewrite list_filter_filter in Hin.
    destruct (filter (fun a => userKey a = u /\ labKey a = k) events) as [|u0 us] eqn:Hu; [done|]. cbn [entry_of] in Hin. apply (inj Some) in Hin. rename Hin into Hs.
    pose proof (elem_filter_head _ _ _ _ Hu) as Hu0.
    pose proof (student_entry (u0 :: us) u0) as H. rewrite Hs in H. destruct H as (S1 & S2 & S3 & S4).
    assert (nullish (st_user s) "" = u) as Hus by (rewrite S1; apply Hu0). split; [done|].
    assert (events_of k u events = u0 :: us) as Hev.
    { unfold events_of. rewrite <- Hu. apply list_filter_iff. intros x. split; intros []; auto. }
    unfold student_ok. cbn [st_user st_events st_killed st_warned sort_events].
    rewrite Hus, Hev, S2, S3, S4. done. }
  assert (forall l, Forall (fun us => nullish (st_user us.2) "" = us.1) l ->
    (fun s => nullish (st_user s) "") <$> (snd <$> l) = l.*1) as Hfst.
  { clear. induction 1 as [|[u s] l Hu _ IH]; [done|]. cbn in *. by rewrite Hu, IH. }
  split_and!; [done|done|done| | | |].
  - rewrite Forall_fmap, sort_by_perm, Forall_fmap. apply Forall_forall. intros [u s] Hin. by apply Hst in Hin as [_ ?].
  - rewrite <- list_fmap_compose. change (_ ∘ sort_events) with (fun s => nullish (st_user s) "").
    rewrite sort_by_perm, Hfst; [done|]. apply Forall_forall. intros [u s] Hin. by apply Hst in Hin as [? _].
  - intros e He. apply (list_elem_of_fmap_2 userKey), Hkeys, list_elem_of_fmap in He as ([u s] & -> & Hin).
    exists (sort_events s). split; [|by apply Hst in Hin as [? _]]. apply list_elem_of_fmap_2, elem_of_sort_by.
    by apply (list_elem_of_fmap_2 snd _ (u, s)).
  - assert (forall l, StronglySorted (fun a b => student_leb a b = true) l ->
      StronglySorted (fun a b => student_leb a b = true) (sort_events <$> l)) as Hmap.
    { clear. intros l0. induction 1 as [|s l' _ IH Hs]; [constructor|]. rewrite fmap_cons.
      constructor; [done|]. by apply Forall_fmap. }
    apply Hmap, sort_by_sorted; intros *; [apply offense_total|apply offense_trans].
Qed.

(** The offender view accounts for every event once: each lab and each of its students has
    one entry, a student's entry holds exactly the student's events in the lab, newest first,
    the counters are the numbers of its kills and warnings, and the worst offenders come
    first. *)
Theorem groupGpuEvents_partitions events :
  let view := groupGpuEvents events in
  Forall (lab_ok events) view /\ NoDup ((fun l => nullish (lk_lab l) "") <$> view) /\
  (forall e, e ∈ events -> exists l, l ∈ view /\ nullish (lk_lab l) "" = labKey e) /\
  StronglySorted (fun a b => lab_leb a b = true) view.
Proof.
  cbv zeta. unfold groupGpuEvents.
  pose proof (grouped_keys labKey new_lab add_to_lab events) as [Hnd Hkeys].
  change (grouped labKey new_lab add_to_lab events) with (by_lab events) in *. split_and!.
  - rewrite sort_by_perm, !Forall_fmap. apply Forall_forall. intros [k l] Hin. by apply close_lab_ok in Hin as [_ ?].
  - rewrite sort_by_perm. rewrite <- !list_fmap_compose.
    erewrite list_fmap_ext; [exact Hnd|]. intros i [k l] Hi%list_elem_of_lookup_2. by apply close_lab_ok in Hi as [? _].
  - intros e He. apply (list_elem_of_fmap_2 labKey), Hkeys, list_elem_of_fmap in He as ([k l] & -> & Hin).
    exists (close_lab l). split; [|by apply close_lab_ok in Hin as [? _]].
    apply elem_of_sort_by, list_elem_of_fmap_2. by apply (list_elem_of_fmap_2 snd _ (k, l)).
  - apply sort_by_sorted; intros *; [apply offense_total|apply offense_trans].
Qed.
