(* ===== verification/Announce.v ===== *)
(** * Announce: [lib/announcements.ts], announcements by mail and their templates

    The recipients of an announcement are the union of the chosen audiences and the people
    picked one by one, each address once; every send is recorded.  The messages of one send go
    out one after the other, which is one of the orders the concurrent sends can take. *)
From S2P Require Import Prelude Js Numbers Schema Sql DbWf Env Secrets Settings Template Mailer.
From Stdlib Require Import Ascii.
Open Scope Z_scope.

Inductive Audience := Students | Pis.
Definition audience_str (a : Audience) : string :=
  match a with Students => "students" | Pis => "pis" end.

Record Recipient := mkRecipient { rc_email : string; rc_name : string }.
Inductive PersonKind := KUser | KPi.
Record Person := mkPerson { pe_email : string; pe_name : string; pe_kind : PersonKind }.

Record TemplateInput := mkTemplateInput { ti_name : string; ti_subject : string; ti_body : string }.

Record Announcement := mkSendInput {
  as_subject : string; as_body : string; as_audiences : list Audience;
  as_individuals : list string; as_placeholders : list (string * string);
  as_sender : option (string * string); as_actor : option string }.
Record AnnouncementResult := mkAnnounced { ar_recipients : nat; ar_sent : nat; ar_skipped : bool }.

(** [TRIM(s) <> ''] in SQL: only blanks are stripped. *)
Fixpoint sql_nonblank (s : string) : bool :=
  match s with
  | EmptyString => false
  | String c s' => negb (Ascii.eqb c " ") || sql_nonblank s'
  end.

(** A [Map] by address: the first entry of an address stays. *)
Definition add_new {A} (key : A -> string) (m : list A) (x : A) : list A :=
  if bool_decide (key x ∈ key <$> m) then m else m ++ [x].
Definition union_by {A} (key : A -> string) (m l : list A) : list A := fold_left (add_new key) l m.

(** [r.name?.trim() || r.username?.trim() || email] *)
Definition display_name (name username : option string) (email : string) : string :=
  or_str (default "" (trim <$> name)) (or_str (default "" (trim <$> username)) email).

Definition recipient_of (email name username : option string) : option Recipient :=
  e ← email;
  if sql_nonblank e && truthy (trim e)
  then Some (mkRecipient (trim e) (display_name name username (trim e))) else None.

(** [ORDER BY name]: NULL comes first. *)
Definition null_first (a b : option string) : bool :=
  match a, b with
  | None, _ => true
  | Some _, None => false
  | Some x, Some y => str_leb x y
  end.

(** The PIs are ordered by the column the query calls [name]: the PI's. *)
Definition audience_recipients (d : Db) (a : Audience) : list Recipient :=
  let rows := match a with
    | Students =>
        omap (fun s => recipient_of (s_email s) (s_name s) (Some (s_username s)))
          (sort_by (fun a b => str_leb (s_username a) (s_username b)) (rows (students d)))
    | Pis =>
        omap (fun l => recipient_of (l_pi_email l) (l_pi_name l) None)
          (sort_by (fun a b => null_first (l_pi_name a) (l_pi_name b)) (rows (labs d)))
    end in
  union_by rc_email [] rows.

Section announce.
Context {HK : Honker} {PF : Platform}.

Definition announcement_people (d : Db) : list Person :=
  let person k r := mkPerson (rc_email r) (rc_name r) k in
  sort_by (fun a b => locale_leb (pe_name a) (pe_name b))
    (union_by pe_email (person KUser <$> audience_recipients d Students)
       (person KPi <$> audience_recipients d Pis)).

Definition audienceRecipients (a : Audience) : Act (list Recipient) :=
  d ← db; mret (audience_recipients d a).
Definition listAnnouncementPeople : Act (list Person) := d ← db; mret (announcement_people d).
Definition audienceCounts : Act (nat * nat) :=
  d ← db; mret (length (audience_recipients d Students), length (audience_recipients d Pis)).

(** ** The templates of the compose form *)

Definition template_leb (a b : AnnouncementTemplateRow) : bool :=
  (at_sort a <? at_sort b) || ((at_sort a =? at_sort b) && (at_id a <=? at_id b)).
Definition listAnnouncementTemplates : Act (list AnnouncementTemplateRow) :=
  d ← db; mret (sort_by template_leb (rows (announcement_templates d))).

(** [COALESCE(MAX(sort), -1)] *)
Definition max_sort (l : list AnnouncementTemplateRow) : Z :=
  match l with [] => -1 | t :: l' => fold_left (fun m t => Z.max m (at_sort t)) l' (at_sort t) end.

Definition createAnnouncementTemplate (input : TemplateInput) : Act Z :=
  let name := trim (ti_name input) in
  let subject := trim (ti_subject input) in
  let body := trim (ti_body input) in
  throw_if (negb (truthy name)) ETemplateName;;
  throw_if (negb (truthy body)) ETemplateBody;;
  d ← db;
  let maxSort := max_sort (rows (announcement_templates d)) in
  insert_template (fun i => mkAnnouncementTemplate i name subject body (maxSort + 1)).

Definition updateAnnouncementTemplate (id : Z) (input : TemplateInput) : Act unit :=
  let name := trim (ti_name input) in
  let subject := trim (ti_subject input) in
  let body := trim (ti_body input) in
  throw_if (negb (truthy name)) ETemplateName;;
  throw_if (negb (truthy body)) ETemplateBody;;
  d ← db;
  update_templates (fun t => at_id t = id)
    (fun t => t <| at_name := name |> <| at_subject := subject |> <| at_body := body |>);;
  throw_if (bool_decide (select (fun t => at_id t = id) (rows (announcement_templates d)) = []))
    ETemplateMissing.

Definition deleteAnnouncementTemplate (id : Z) : Act unit := delete_templates (fun t => at_id t = id).

(** ** Sending *)

(** A picked address must belong to a known student or PI. *)
Fixpoint add_individuals (people : list Person) (l : list string) (m : list Recipient)
    : result exn (list Recipient) :=
  match l with
  | [] => Ok m
  | email :: l' =>
      match get_row (fun p => pe_email p = email) people with
      | None => Throw (EUnknownRecipient email)
      | Some p => add_individuals people l' (add_new rc_email m (mkRecipient email (pe_name p)))
      end
  end.

Definition resolve_recipients (d : Db) (audiences : list Audience) (individuals : list string)
    : result exn (list Recipient) :=
  let groups := fold_left (fun m a => union_by rc_email m (audience_recipients d a)) audiences [] in
  add_individuals (announcement_people d) individuals groups.

Definition recipient_vars (sender : option (string * string)) (r : Recipient)
    : list (string * string) :=
  match sender with
  | Some (n, e) => [("sender", n); ("sender_email", e)]
  | None => []
  end ++ [("name", rc_name r); ("email", rc_email r)].

Definition send_one (subject body : string) (sender : option (string * string)) (r : Recipient)
    : Act SendResult :=
  let vars := recipient_vars sender r in
  sendMail (rc_email r) (renderTemplate subject vars) (renderTemplate body vars).

Definition audience_label (audiences : list Audience) (individuals : list string) : string :=
  join "," ((audience_str <$> audiences) ++
    match individuals with
    | [] => []
    | _ => [string_of_Z (Z.of_nat (length individuals)) +:+ " picked"]
    end).

Definition unfilled (values : list (string * string)) (token : string) : bool :=
  match alookup token values with Some v => negb (truthy (trim v)) | None => true end.

Definition sendAnnouncement (input : Announcement) : Act AnnouncementResult :=
  let subject := trim (as_subject input) in
  let body := trim (as_body input) in
  throw_if (negb (truthy subject)) ESubjectRequired;;
  throw_if (negb (truthy body)) EMessageRequired;;
  let values := as_placeholders input in
  let tokens := extractBracketTokens (subject +:+ nl +:+ body) in
  let missing := List.filter (unfilled values) tokens in
  throw_if (negb (bool_decide (missing = []))) (EPlaceholdersMissing missing);;
  let subject := fillBracketTokens subject values in
  let body := fillBracketTokens body values in
  let individuals := dedup [] (as_individuals input) in
  throw_if (match as_audiences input, individuals with [], [] => true | _, _ => false end)
    ENoRecipients;;
  d ← db;
  recipients ← lift (resolve_recipients d (as_audiences input) individuals);
  configured ← isSmtpConfigured;
  sent ← (if configured : bool then
            results ← for_map (send_one subject body (as_sender input)) recipients;
            mret (length (filter (fun r => sr_sent r = true) results))
          else mret 0%nat);
  let label := audience_label (as_audiences input) individuals in
  now ← date_now;
  insert_announcement (fun i => mkAnnouncement i now (as_actor input) label subject body
    (Z.of_nat (length recipients)) (Z.of_nat sent) (negb configured));;
  audit (as_actor input) "announcement.send" (Some label)
    (Some (string_of_Z (Z.of_nat sent) +:+ "/" +:+ string_of_Z (Z.of_nat (length recipients)) +:+ " sent"));;
  mret (mkAnnounced (length recipients) sent (negb configured)).

(** ** The history *)

Definition recentAnnouncements (limit : nat) : Act (list AnnouncementRow) :=
  d ← db; mret (take limit (sort_by (fun a b => an_ts b <=? an_ts a) (rows (announcements d)))).

Definition deleteAnnouncement (id : Z) (actor : string) : Act unit :=
  d ← db;
  delete_announcements (fun a => an_id a = id);;
  throw_if (bool_decide (select (fun a => an_id a = id) (rows (announcements d)) = []))
    EAnnouncementNotFound;;
  audit (Some actor) "announcement.delete" (Some (string_of_Z id)) None.

Definition clearAnnouncements (actor : string) : Act nat :=
  transaction (
    d ← db;
    delete_announcements (fun _ => True);;
    let cleared := length (rows (announcements d)) in
    audit (Some actor) "announcements.clear" None
      (Some (string_of_Z (Z.of_nat cleared) +:+ " announcement(s)"));;
    mret cleared).

(** ** The database stays well-formed *)

Lemma createAnnouncementTemplate_wf i : preserves wf (createAnnouncementTemplate i).
Proof. unfold createAnnouncementTemplate. solve_preserves. Qed.
Lemma updateAnnouncementTemplate_wf id i : preserves wf (updateAnnouncementTemplate id i).
Proof. unfold updateAnnouncementTemplate. solve_preserves. Qed.
Lemma deleteAnnouncementTemplate_wf id : preserves wf (deleteAnnouncementTemplate id).
Proof. unfold deleteAnnouncementTemplate. solve_preserves. Qed.
Lemma sendAnnouncement_wf i : preserves wf (sendAnnouncement i).
Proof. unfold sendAnnouncement, isSmtpConfigured, send_one. solve_preserves. Qed.
Lemma deleteAnnouncement_wf id actor : preserves wf (deleteAnnouncement id actor).
Proof. unfold deleteAnnouncement. solve_preserves. Qed.
Lemma clearAnnouncements_wf actor : preserves wf (clearAnnouncements actor).
Proof. unfold clearAnnouncements. apply transaction_wf. solve_preserves. Qed.
End announce.
#[export] Hint Resolve createAnnouncementTemplate_wf updateAnnouncementTemplate_wf
  deleteAnnouncementTemplate_wf sendAnnouncement_wf deleteAnnouncement_wf clearAnnouncements_wf : preserve.
