(* ===== verification/AnnounceFacts.v ===== *)
(** * AnnounceFacts: an announcement reaches each of its recipients at most once *)
From S2P Require Import Prelude Js Numbers Schema Sql DbWf Env Secrets Settings Template Mailer MailerFacts Announce.
Open Scope Z_scope.

(** ** The recipients *)

Section union.
Context {A : Type} (key : A -> string).
Implicit Types m l : list A.

Lemma add_new_keys m x : NoDup (key <$> m) ->
  NoDup (key <$> add_new key m x) /\
  forall k, k ∈ key <$> add_new key m x <-> k ∈ key <$> m \/ k = key x.
Proof.
  intros Hm. unfold add_new. case_bool_decide as Hx; [split; [done|set_solver]|].
  rewrite fmap_app. split; [|set_solver]. apply NoDup_app. split; [done|].
  split; [set_solver|apply NoDup_singleton].
Qed.

Lemma union_by_keys m l : NoDup (key <$> m) ->
  NoDup (key <$> union_by key m l) /\
  forall k, k ∈ key <$> union_by key m l <-> k ∈ key <$> m \/ k ∈ key <$> l.
Proof.
  revert m. induction l as [|x l IH]; intros m Hm; [split; [done|set_solver]|].
  destruct (add_new_keys m x Hm) as [Hn Hk]. destruct (IH _ Hn) as [Hn' Hk']. cbn.
  split; [done|]. intros k. unfold union_by in Hk'. rewrite Hk', Hk. set_solver.
Qed.
End union.

Section facts.
Context {HK : Honker} {PF : Platform}.

Definition emails_of (d : Db) (a : Audience) : list string := rc_email <$> audience_recipients d a.

Lemma people_emails d e :
  e ∈ pe_email <$> announcement_people d <-> e ∈ emails_of d Students \/ e ∈ emails_of d Pis.
Proof.
  unfold announcement_people. rewrite sort_by_perm.
  assert (NoDup (pe_email <$> ((fun r => mkPerson (rc_email r) (rc_name r) KUser) <$> audience_recipients d Students))) as Hn.
  { rewrite <- list_fmap_compose. apply union_by_keys. constructor. }
  rewrite (proj2 (union_by_keys pe_email _ _ Hn)), <- !list_fmap_compose. done.
Qed.

Lemma add_individuals_keys people l : forall m r,
  NoDup (rc_email <$> m) -> add_individuals people l m = Ok r ->
  NoDup (rc_email <$> r) /\ (forall e, e ∈ rc_email <$> r <-> e ∈ rc_email <$> m \/ e ∈ l) /\
  (forall e, e ∈ l -> e ∈ pe_email <$> people).
Proof.
  induction l as [|x l IH]; intros m r Hm; cbn [add_individuals].
  - intros [= <-]. split; [done|]. set_solver.
  - destruct (get_row _ people) as [p|] eqn:Hp; [|done]. apply get_row_Some in Hp as [Hpe Hp].
    destruct (add_new_keys rc_email m (mkRecipient x (pe_name p)) Hm) as [Hn Hk].
    intros H. destruct (IH _ _ Hn H) as (Hr & He & Hin). split; [done|]. split.
    + intros e. rewrite He, Hk. set_solver.
    + intros e [->|Hl]%elem_of_cons; [|by apply Hin]. rewrite <- Hpe. by apply list_elem_of_fmap_2.
Qed.

Lemma resolve_keys d audiences individuals r :
  resolve_recipients d audiences individuals = Ok r ->
  NoDup (rc_email <$> r) /\
  (forall e, e ∈ rc_email <$> r <->
     (exists a, a ∈ audiences /\ e ∈ emails_of d a) \/ e ∈ individuals) /\
  (forall e, e ∈ individuals -> e ∈ emails_of d Students \/ e ∈ emails_of d Pis).
Proof.
  assert (forall m, NoDup (rc_email <$> m) ->
    let g := fold_left (fun m a => union_by rc_email m (audience_recipients d a)) audiences m in
    NoDup (rc_email <$> g) /\
    forall e, e ∈ rc_email <$> g <->
      e ∈ rc_email <$> m \/ exists a, a ∈ audiences /\ e ∈ emails_of d a) as Hg.
  { induction audiences as [|a l IH]; intros m Hm; cbn.
    { split; [done|]. intros e. split; [by left|]. intros [?|(? & ?%elem_of_nil & _)]; done. }
    destruct (union_by_keys rc_email m (audience_recipients d a) Hm) as [Hn Hk].
    destruct (IH _ Hn) as [Hn' Hk']. split; [done|]. intros e. rewrite Hk', Hk. unfold emails_of.
    setoid_rewrite elem_of_cons. naive_solver. }
  unfold resolve_recipients. intros H. destruct (Hg [] ltac:(constructor)) as [Hn Hk].
  destruct (add_individuals_keys _ _ _ _ Hn H) as (Hr & He & Hin). split; [done|]. split.
  - intros e. rewrite He, Hk. split; [|tauto]. intros [[Hnil|?]|?]; [|tauto|tauto]. by apply elem_of_nil in Hnil.
  - intros e He'. apply people_emails, Hin, He'.
Qed.

(** ** The messages *)

Lemma getSmtpConfigs_db w w' : w_db w' = w_db w ->
  getSmtpConfigs w' = ((getSmtpConfigs w).1, w').
Proof.
  intros H. unfold getSmtpConfigs, getSetting_str, getSetting_num, getSetting_bool, getSetting,
    mbind, M_bind, mret, M_ret, db, gets. cbn -[read_setting]. rewrite H.
  destruct (alookup "smtpConfigs" (settings (w_db w))) as [t|] eqn:Ht;
    cbn -[read_setting]; rewrite ?H, ?Ht.
  - by destruct (read_setting "smtpConfigs" _).
  - by destruct (negb _ && negb _); cbn -[read_setting]; rewrite ?H.
Qed.

Lemma sendMail_copies to subject text w cs :
  getSmtpConfigs w = (Ok cs, w) ->
  exists r w' ms, sendMail to subject text w = (Ok r, w') /\ mail_only w w' /\
    w_outbox w' = w_outbox w ++ ms /\ m_to <$> ms = if sr_sent r then [to] else [].
Proof.
  intros Hcs. destruct (prepareMail_run to subject text w cs Hcs) as (o & Hp & Ho).
  unfold sendMail. rewrite (bind_step _ _ _ _ _ Hp). destruct o as [o|].
  - destruct Ho as (<- & <- & _ & _). edestruct try_servers_run as (r & w' & Hr & Hm & _ & Hrest).
    unfold transmit. rewrite Hr. destruct (first_accepting _ _) as [[n c]|].
    + destruct Hrest as (Hsent & _ & Hout). eexists r, w', _. split_and!; [done..|]. by rewrite Hsent.
    + destruct Hrest as (Hsent & _ & _ & Hout). exists r, w', []. rewrite Hsent, app_nil_r. done.
  - eexists _, w, []. rewrite app_nil_r. split; [done|]. split; [apply mail_only_refl|done].
Qed.

Definition delivered (results : list SendResult) : nat :=
  length (filter (fun r => sr_sent r = true) results).

Lemma send_all_copies subject body sender recipients : forall w cs,
  getSmtpConfigs w = (Ok cs, w) ->
  exists rs w' ms, for_map (send_one subject body sender) recipients w = (Ok rs, w') /\
    mail_only w w' /\ w_outbox w' = w_outbox w ++ ms /\
    m_to <$> ms `sublist_of` rc_email <$> recipients /\ length ms = delivered rs.
Proof.
  induction recipients as [|x l IH]; intros w cs Hcs; cbn [for_map].
  - exists [], w, []. rewrite app_nil_r. by split_and!.
  - edestruct (sendMail_copies (rc_email x)) as (r & w1 & ms1 & H1 & M1 & O1 & T1); [exact Hcs|].
    pose proof (getSmtpConfigs_db w w1 (mo_db _ _ M1)) as Hcs1. rewrite Hcs in Hcs1.
    destruct (IH w1 cs Hcs1) as (rs & w2 & ms2 & H2 & M2 & O2 & S2 & L2).
    exists (r :: rs), w2, (ms1 ++ ms2). split.
    { rewrite (bind_step (send_one subject body sender x) _ _ _ _ H1), (bind_step _ _ _ _ _ H2). done. }
    split; [by apply (mail_only_stable w w1 w2)|]. split; [by rewrite O2, O1, app_assoc|].
    rewrite fmap_app, T1, length_app, L2, fmap_cons. unfold delivered. rewrite filter_cons.
    assert (length ms1 = length (if sr_sent r then [rc_email x] else [])) as Hl
      by (by rewrite <- T1, length_fmap).
    rewrite Hl. destruct (sr_sent r); cbn.
    + split; [by constructor|done].
    + split; [by constructor|done].
Qed.

(** The sending part of an announcement always returns. *)
Lemma send_or_skip cs subject body sender recipients w :
  getSmtpConfigs w = (Ok cs, w) ->
  exists sent w1 ms, (if existsb usable_smtp cs then
      results ← for_map (send_one subject body sender) recipients;
      mret (length (filter (fun r => sr_sent r = true) results))
    else mret 0%nat) w = (Ok sent, w1) /\ mail_only w w1 /\ w_outbox w1 = w_outbox w ++ ms /\
    m_to <$> ms `sublist_of` rc_email <$> recipients /\ length ms = sent /\
    (existsb usable_smtp cs = false -> ms = []).
Proof.
  intros Hcs. destruct (existsb usable_smtp cs).
  - destruct (send_all_copies subject body sender recipients w cs Hcs)
      as (rs & w1 & ms & H1 & Hm & Ho & Hsub & Hlen).
    eexists _, w1, ms. by rewrite (bind_step _ _ _ _ _ H1).
  - exists 0%nat, w, []. rewrite app_nil_r. split_and!; try done. apply sublist_nil_l.
Qed.

(** An announcement that passes every check is sent. *)
Lemma sendAnnouncement_returns input recipients cs w :
  trim (as_subject input) <> "" -> trim (as_body input) <> "" ->
  List.filter (unfilled (as_placeholders input))
    (extractBracketTokens (trim (as_subject input) +:+ nl +:+ trim (as_body input))) = [] ->
  (as_audiences input <> [] \/ as_individuals input <> []) ->
  resolve_recipients (w_db w) (as_audiences input) (dedup [] (as_individuals input)) = Ok recipients ->
  getSmtpConfigs w = (Ok cs, w) ->
  exists r w', sendAnnouncement input w = (Ok r, w').
Proof.
  intros Hs Hb Hm Hi Hr Hcs. unfold sendAnnouncement. cbv zeta.
  rewrite (truthy_ne _ Hs), (truthy_ne _ Hb), Hm, bool_decide_true by done. cbn [negb].
  do 3 rewrite (bind_step (throw_if false _) _ w tt w) by done.
  assert (match as_audiences input, dedup [] (as_individuals input) with [], [] => true | _, _ => false end
          = false) as ->.
  { destruct (as_audiences input); [|done]. destruct Hi as [|Hi]; [done|].
    destruct (as_individuals input) as [|x l]; [done|]. cbn. by rewrite bool_decide_false by apply not_elem_of_nil. }
  rewrite (bind_step (throw_if false _) _ w tt w) by done.
  rewrite (bind_step db _ w (w_db w) w) by done. rewrite Hr.
  rewrite (bind_step (lift (Ok recipients)) _ w recipients w) by done. unfold isSmtpConfigured.
  rewrite (bind_step (cs ← getSmtpConfigs; mret (existsb usable_smtp cs)) _ w (existsb usable_smtp cs) w)
    by by rewrite (bind_step _ _ _ _ _ Hcs).
  edestruct (send_or_skip cs) as (sent & w1 & ms & Hsend & _); [exact Hcs|].
  rewrite (bind_step _ _ _ _ _ Hsend). by eexists _, _.
Qed.

(** People who are known can be picked. *)
Lemma add_individuals_ok people l : forall m,
  Forall (fun e => e ∈ pe_email <$> people) l -> exists r, add_individuals people l m = Ok r.
Proof.
  induction l as [|x l IH]; intros m; cbn; [by eexists|]. intros [Hx Hl]%Forall_cons.
  apply list_elem_of_fmap in Hx as (p & -> & Hp).
  destruct (get_row (fun q => pe_email q = pe_email p) people) as [q|] eqn:Hq; [by apply IH|].
  rewrite get_row_None in Hq. by destruct (Hq p Hp).
Qed.
End facts.

(** C32: an announcement goes at most once to every address. When the call throws (blank text,
    an unfilled placeholder, nobody chosen, a picked address that belongs to no student or PI,
    unreadable SMTP settings) nothing was sent or recorded. Otherwise the recipients are exactly
    the addresses of the chosen audiences and the picked ones, each once; the messages that
    left are the counted ones, at most one per recipient, none when SMTP is not configured; and
    one row of history is recorded with these counts. *)
Theorem sendAnnouncement_once {HK : Honker} {PF : Platform} input w :
  match sendAnnouncement input w with
  | (Throw _, w') => w' = w
  | (Ok r, w') => exists recipients ms row,
      NoDup (rc_email <$> recipients) /\
      (forall e, e ∈ rc_email <$> recipients <->
         (exists a, a ∈ as_audiences input /\ e ∈ emails_of (w_db w) a) \/ e ∈ as_individuals input) /\
      (forall e, e ∈ as_individuals input -> e ∈ emails_of (w_db w) Students \/ e ∈ emails_of (w_db w) Pis) /\
      w_outbox w' = w_outbox w ++ ms /\ m_to <$> ms `sublist_of` rc_email <$> recipients /\
      length ms = ar_sent r /\ length recipients = ar_recipients r /\
      (ar_skipped r = true -> ms = []) /\
      rows (announcements (w_db w')) = rows (announcements (w_db w)) ++ [row] /\
      an_recipients row = Z.of_nat (ar_recipients r) /\ an_sent row = Z.of_nat (ar_sent r) /\
      an_skipped row = ar_skipped r
  end.
Proof.
  unfold sendAnnouncement. cbv zeta.
  do 4 (match goal with |- context [(throw_if ?c _ ≫= _) w] => destruct c end; [by cbv [throw_if throw mbind M_bind]|];
        rewrite (bind_step (throw_if false _) _ w tt w) by done).
  rewrite (bind_step db _ w (w_db w) w) by done.
  destruct (resolve_recipients _ _ _) as [recipients|e] eqn:Hr; [|by cbv [lift mbind M_bind]].
  rewrite (bind_step (lift (Ok recipients)) _ w recipients w) by done.
  apply resolve_keys in Hr as (Hn & Hin & Hknown).
  assert (forall e, e ∈ dedup [] (as_individuals input) <-> e ∈ as_individuals input) as Hd
    by (intros e; rewrite elem_of_dedup; set_solver).
  setoid_rewrite Hd in Hin. setoid_rewrite Hd in Hknown.
  destruct (getSmtpConfigs w) as [r0 w1] eqn:Hcs.
  assert (w1 = w) as ->.
  { pose proof (getSmtpConfigs_db w w eq_refl) as H. rewrite Hcs in H. by injection H. }
  unfold isSmtpConfigured. destruct r0 as [cs|e];
    [|by rewrite (bind_throw _ _ _ _ _ (bind_throw _ _ _ _ _ Hcs))].
  edestruct (send_or_skip cs) as (sent & w1 & ms & Hs & Hm & Ho & Hsub & Hlen & Hskip); [exact Hcs|].
  rewrite (bind_step (cs ← getSmtpConfigs; mret (existsb usable_smtp cs)) _ w (existsb usable_smtp cs) w)
    by by rewrite (bind_step _ _ _ _ _ Hcs).
  rewrite (bind_step _ _ _ _ _ Hs). eexists recipients, ms, _. split_and!.
  all: cbn -[audience_recipients]; rewrite ?(mo_db _ _ Hm); try done.
  intros Hc. apply Hskip. by apply negb_true_iff.
Qed.
