(* ===== verification/RateLimit.v ===== *)
(** * RateLimit: [lib/ratelimit.ts], the throttle of login and signup *)
From S2P Require Import Prelude Js Schema Sql DbWf Env Secrets Testbed Hub HubConn Web WebFixture QueueFacts.
From Stdlib Require Import Ascii.
Open Scope Z_scope.

Definition MAX_BUCKETS : nat := Z.to_nat 10000.
Definition IDLE_MS : Z := 60 * 60 * 1000.

Record RateLimitOptions := mkLimit { ratePerSec : num; burst : num }.
Definition AUTH_LIMIT : RateLimitOptions :=
  mkLimit (num_div (num_of_Z 1) (num_of_Z 12)) (num_of_Z 5).

(** [while (map.size > max) map.delete(map.keys().next().value)] *)
Fixpoint drop_oldest {A} (max : nat) (l : list A) : list A :=
  match l with
  | [] => []
  | _ :: l' => if (max <? length l)%nat then drop_oldest max l' else l
  end.

(** [prune(now)] *)
Definition prune_buckets (now : Z) (bs : list (string * Bucket)) : list (string * Bucket) :=
  if (length bs <=? MAX_BUCKETS)%nat then bs
  else drop_oldest MAX_BUCKETS (filter (fun kb => ~ (IDLE_MS < now - b_last kb.2)) bs).

(** The bucket's tokens at [now]. *)
Definition refilled (opts : RateLimitOptions) (now : Z) (b : Bucket) : num :=
  num_min (burst opts)
    (num_add (b_tokens b)
      (num_mul (num_div (num_of_Z (now - b_last b)) (num_of_Z 1000)) (ratePerSec opts))).

(** The body of [consume] after [prune]: whether the attempt is allowed, and the new map. *)
Definition take_token (key : string) (opts : RateLimitOptions) (now : Z)
    (bs : list (string * Bucket)) : bool * list (string * Bucket) :=
  let b := default (mkBucket (burst opts) now) (alookup key bs) in
  let t := refilled opts now b in
  if num_ltb t (num_of_Z 1) then (false, aset key (mkBucket t now) bs)
  else (true, aset key (mkBucket (num_sub t (num_of_Z 1)) now) bs).

(** [fwd.split(",").map((s) => s.trim()).filter(Boolean)] *)
Definition hops (fwd : string) : list string :=
  filter (fun s => truthy s = true) (trim <$> split_on "," fwd).

Section ratelimit.
Context {HK : Honker} {PF : Platform}.

Definition consume (key : string) (opts : RateLimitOptions) : WAct bool :=
  now ← on_act date_now;
  s ← get;
  let '(ok, bs) := take_token key opts now (prune_buckets now (ww_buckets s)) in
  modify (fun s => s <| ww_buckets := bs |>);;
  mret ok.

Definition clientIp : WAct string :=
  trust ← lift env_trustProxy;
  if negb trust then mret "untrusted-proxy"
  else
    fwd ← header "x-forwarded-for";
    real ← header "x-real-ip";
    let fallback := default "unknown" ((trim <$> real) ≫= or_null) in
    match fwd with
    | Some f => if truthy f then mret (default fallback (last (hops f))) else mret fallback
    | None => mret fallback
    end.
End ratelimit.

(** ** The maps stay bounded *)

Lemma drop_oldest_drop {A} max (l : list A) : drop_oldest max l = drop (length l - max) l.
Proof.
  induction l as [|x l IH]; [done|]. cbn [drop_oldest].
  destruct (Nat.ltb_spec max (length (x :: l))) as [H|H].
  - rewrite IH. cbn [length] in *. by replace (S (length l) - max)%nat with (S (length l - max)) by lia.
  - by replace (length (x :: l) - max)%nat with 0%nat by lia.
Qed.

Lemma length_drop_oldest {A} max (l : list A) : (length (drop_oldest max l) <= max)%nat.
Proof. rewrite drop_oldest_drop, length_drop. lia. Qed.

Lemma length_prune_buckets now bs : (length (prune_buckets now bs) <= MAX_BUCKETS)%nat.
Proof.
  unfold prune_buckets. destruct (Nat.leb_spec (length bs) MAX_BUCKETS); [done|].
  apply length_drop_oldest.
Qed.

Lemma length_aset {A} k (v : A) l : (length (aset k v l) <= S (length l))%nat.
Proof.
  induction l as [|[k' v'] l IH]; cbn; [done|]. destruct (String.eqb k k'); cbn; lia.
Qed.

Lemma length_take_token key opts now bs :
  (length (take_token key opts now bs).2 <= S (length bs))%nat.
Proof. unfold take_token. case_match; apply length_aset. Qed.

(** The empty bucket at a distance of [100 * k] ms, on doubles: each case is computed. *)
Definition drained (d : Z) : bool :=
  num_ltb (refilled AUTH_LIMIT d (mkBucket (num_of_Z 0) 0)) (num_of_Z 1).

Lemma drained_grid :
  forallb (fun k => Bool.eqb (drained (100 * Z.of_nat k)) (Z.of_nat k <? 120)) (seq 0 300) = true.
Proof. vm_compute. reflexivity. Qed.

Lemma drained_spec k : 0 <= k < 300 -> drained (100 * k) = (k <? 120).
Proof.
  intros Hk. pose proof drained_grid as H. rewrite forallb_forall in H.
  specialize (H (Z.to_nat k)). rewrite Z2Nat.id in H by lia. apply Bool.eqb_prop, H, in_seq. lia.
Qed.

Lemma refilled_shift opts now t l : refilled opts now (mkBucket t l) = refilled opts (now - l) (mkBucket t 0).
Proof. unfold refilled. cbn. by rewrite Z.sub_0_r. Qed.

(** What [n] attempts find in a bucket that was full: the tokens left. *)
Lemma refilled_same (i : nat) t now : t = num_of_Z (5 - Z.of_nat i) -> (i <= 5)%nat ->
  refilled AUTH_LIMIT now (mkBucket t now) = t.
Proof.
  intros -> Hi. rewrite refilled_shift, Z.sub_diag.
  do 6 (destruct i as [|i]; [vm_compute; reflexivity|]). lia.
Qed.

Section ratelimit_facts.
Context {HK : Honker} {PF : Platform}.
Implicit Types s : WebWorld.

Lemma web_date_now s :
  on_act date_now s = (Ok (clock (w_ticks (web_world s))), set_world ((web_world s) <| w_ticks ::= S |>) s).
Proof. by apply on_act_run. Qed.

(** [consume] as a function of the state. *)
Lemma consume_eq key opts s :
  let now := clock (w_ticks (web_world s)) in
  let r := take_token key opts now (prune_buckets now (ww_buckets s)) in
  exists s', consume key opts s = (Ok r.1, s') /\ ww_buckets s' = r.2 /\
    web_db s' = web_db s /\ w_ticks (web_world s') = S (w_ticks (web_world s)).
Proof.
  cbv zeta. unfold consume. step_with (web_date_now s). rewrite (bind_step get _ _ _ _ eq_refl). cbv beta.
  change (ww_buckets (set_world _ s)) with (ww_buckets s).
  destruct (take_token _ _ _ _) as [ok bs] eqn:Ht. eexists. split; [reflexivity|]. done.
Qed.

(** [n] attempts for the same key, one after the other. *)
Fixpoint attempts (key : string) (n : nat) : WAct (list bool) :=
  match n with
  | O => mret []
  | S n' => ok ← consume key AUTH_LIMIT; oks ← attempts key n'; mret (ok :: oks)
  end.

Lemma length_aset_in {A} k (v b : A) l : alookup k l = Some b -> length (aset k v l) = length l.
Proof.
  induction l as [|[k' v'] l IH]; cbn; [done|]. destruct (String.eqb k k'); cbn; [done|].
  intros H. by rewrite IH.
Qed.

(** The key has [5 - i] tokens, of the time [t]. *)
Definition has_tokens (key : string) (i : nat) (t : Z) (s : WebWorld) : Prop :=
  (length (ww_buckets s) <= MAX_BUCKETS)%nat /\
  (alookup key (ww_buckets s) = Some (mkBucket (num_of_Z (5 - Z.of_nat i)) t) \/
   (i = 0%nat /\ alookup key (ww_buckets s) = None /\ (length (ww_buckets s) < MAX_BUCKETS)%nat)).

Lemma prune_id t s : (length (ww_buckets s) <= MAX_BUCKETS)%nat ->
  prune_buckets t (ww_buckets s) = ww_buckets s.
Proof. intros H. unfold prune_buckets. by rewrite (proj2 (Nat.leb_le _ _)). Qed.

Lemma consume_same key s i t :
  has_tokens key i t s -> clock (w_ticks (web_world s)) = t -> (i < 5)%nat ->
  exists s', consume key AUTH_LIMIT s = (Ok true, s') /\ has_tokens key (S i) t s' /\
    w_ticks (web_world s') = S (w_ticks (web_world s)).
Proof.
  intros [Hl Hk] Ht Hi. destruct (consume_eq key AUTH_LIMIT s) as (s' & Hc & Hb & _ & Hn).
  assert (take_token key AUTH_LIMIT t (ww_buckets s) =
    (true, aset key (mkBucket (num_of_Z (5 - Z.of_nat (S i))) t) (ww_buckets s))) as Htk.
  { unfold take_token.
    assert (default (mkBucket (burst AUTH_LIMIT) t) (alookup key (ww_buckets s)) =
            mkBucket (num_of_Z (5 - Z.of_nat i)) t) as ->.
    { destruct Hk as [->|(-> & -> & _)]; done. }
    rewrite (refilled_same i) by (done || lia).
    do 5 (destruct i as [|i]; [reflexivity|]). lia. }
  rewrite Ht, prune_id, Htk in Hc by done. rewrite Ht, prune_id, Htk in Hb by done. cbn in Hb.
  exists s'. split_and!; [done| |done]. unfold has_tokens. rewrite Hb, alookup_aset.
  split; [|by left]. destruct Hk as [Hk|(_ & Hk & Hlt)].
  - by rewrite (length_aset_in _ _ _ _ Hk).
  - pose proof (length_aset key (mkBucket (num_of_Z (5 - Z.of_nat (S i))) t) (ww_buckets s)). lia.
Qed.

(** A key without a bucket stays without one while other keys are consumed. *)
Lemma prune_absent now k bs : k ∉ bs.*1 -> k ∉ (prune_buckets now bs).*1.
Proof.
  intros H. unfold prune_buckets. case_match; [done|]. rewrite drop_oldest_drop.
  intros (x & -> & Hx)%list_elem_of_fmap. apply H, list_elem_of_fmap. exists x. split; [done|].
  eapply list_elem_of_filter, subseteq_drop, Hx.
Qed.

Lemma consume_absent key k opts s :
  k <> key -> alookup k (ww_buckets s) = None ->
  exists ok s', consume key opts s = (Ok ok, s') /\ alookup k (ww_buckets s') = None.
Proof.
  intros Hne Hk. destruct (consume_eq key opts s) as (s' & Hc & Hb & _).
  eexists _, s'. split; [exact Hc|]. rewrite Hb. unfold take_token.
  set (now := clock _). apply alookup_None, (prune_absent now), alookup_None in Hk.
  by case_match; cbn; rewrite alookup_aset_ne.
Qed.

Lemma attempts_absent key k n : forall s,
  k <> key -> alookup k (ww_buckets s) = None ->
  exists oks s', attempts key n s = (Ok oks, s') /\ alookup k (ww_buckets s') = None.
Proof.
  induction n as [|n IH]; intros s Hne Hk; cbn [attempts]; [by exists [], s|].
  destruct (consume_absent key k AUTH_LIMIT s Hne Hk) as (ok & s1 & H1 & Hk1).
  destruct (IH s1 Hne Hk1) as (oks & s2 & H2 & Hk2).
  exists (ok :: oks), s2. step_with H1. by step_with H2.
Qed.

(** A fresh key is allowed. *)
Lemma consume_fresh key s :
  alookup key (ww_buckets s) = None -> (consume key AUTH_LIMIT s).1 = Ok true.
Proof.
  intros Hk. destruct (consume_eq key AUTH_LIMIT s) as (s' & -> & _). cbn.
  set (now := clock _). apply alookup_None, (prune_absent now), alookup_None in Hk.
  unfold take_token. rewrite Hk. cbn [default]. by rewrite (refilled_same 0) by (done || lia).
Qed.

Lemma attempts_same key n t : forall i s,
  has_tokens key i t s -> (i + n <= 5)%nat ->
  (forall j, (j < n)%nat -> clock (w_ticks (web_world s) + j) = t) ->
  exists s', attempts key n s = (Ok (replicate n true), s') /\ has_tokens key (i + n) t s' /\
    w_ticks (web_world s') = (w_ticks (web_world s) + n)%nat.
Proof.
  induction n as [|n IH]; intros i s Hs Hi Hc; cbn [attempts].
  - exists s. rewrite !Nat.add_0_r. done.
  - destruct (consume_same key s i t Hs) as (s1 & H1 & Hs1 & Hn1);
      [by rewrite <- (Hc 0%nat), Nat.add_0_r by lia|lia|].
    destruct (IH (S i) s1 Hs1) as (s2 & H2 & Hs2 & Hn2); [lia| |].
    { intros j Hj. rewrite Hn1, Nat.add_succ_l, <- Nat.add_succ_r. apply Hc. lia. }
    exists s2. step_with H1. step_with H2. split; [done|].
    rewrite Hn2, Hn1. split; [by replace (i + S n)%nat with (S i + n)%nat by lia|lia].
Qed.

(** A fresh key gets exactly its burst: five attempts in the same millisecond are allowed, and
    a sixth is refused until twelve seconds have passed, when one token is back (computed on
    doubles, every 100 ms over thirty seconds). *)
Theorem auth_limit_throttles key s t k :
  alookup key (ww_buckets s) = None -> (length (ww_buckets s) < MAX_BUCKETS)%nat ->
  (forall i, (i < 5)%nat -> clock (w_ticks (web_world s) + i) = t) ->
  clock (w_ticks (web_world s) + 5) = t + 100 * k -> 0 <= k < 300 ->
  ((oks ← attempts key 5; ok ← consume key AUTH_LIMIT; mret (oks, ok)) s).1 =
  Ok ([true; true; true; true; true], 120 <=? k).
Proof.
  intros Hk Hl Hc H5 Hr.
  destruct (attempts_same key 5 t 0 s) as (s1 & H1 & [Hl1 Hs1] & Hn1);
    [split; [lia|by right]|lia|exact Hc|].
  step_with H1. destruct (consume_eq key AUTH_LIMIT s1) as (s2 & H2 & _).
  rewrite Hn1, H5, prune_id in H2 by done. destruct Hs1 as [Hs1|[? _]]; [|done].
  cbn [Nat.add] in Hs1. step_with H2.
  enough ((take_token key AUTH_LIMIT (t + 100 * k) (ww_buckets s1)).1 = (120 <=? k)) as He.
  { by rewrite He. }
  unfold take_token. rewrite Hs1. cbn [default]. unfold id. rewrite refilled_shift.
  replace (t + 100 * k - t) with (100 * k) by lia.
  pose proof (drained_spec k Hr) as Hd. unfold drained in Hd.
  change (num_of_Z (5 - Z.of_nat 5)) with (num_of_Z 0). rewrite Hd.
  destruct (Z.ltb_spec k 120), (Z.leb_spec 120 k); cbn; (done || lia).
Qed.

Definition other_buckets (key : string) (bs : list (string * Bucket)) : list (string * Bucket) :=
  filter (fun kb => kb.1 <> key) bs.

Lemma other_buckets_aset key b bs : other_buckets key (aset key b bs) = other_buckets key bs.
Proof.
  unfold other_buckets. induction bs as [|[k v] bs IH]; cbn [aset].
  - by rewrite filter_cons_False by naive_solver.
  - destruct (String.eqb_spec key k) as [->|Hne]; rewrite !filter_cons.
    + by rewrite !decide_False by naive_solver.
    + by rewrite IH.
Qed.

Lemma filter_sublist_mono {A} (P : A -> Prop) {PDec : forall x, Decision (P x)} (l k : list A) :
  l `sublist_of` k -> filter P l `sublist_of` filter P k.
Proof.
  induction 1 as [|x l k _ IH|x l k _ IH]; [constructor| |].
  - rewrite !filter_cons. case_decide; [by constructor|done].
  - rewrite filter_cons. case_decide; [by constructor|done].
Qed.

(** The table of buckets is bounded, and eviction is all an attempt does to other keys:
    whatever it held before, after any attempt it has at most one entry more than
    [MAX_BUCKETS], and the buckets of the other keys are buckets it had, in the same order. *)
Theorem consume_bounded key opts s :
  exists ok s', consume key opts s = (Ok ok, s') /\
    (length (ww_buckets s') <= S MAX_BUCKETS)%nat /\
    other_buckets key (ww_buckets s') `sublist_of` other_buckets key (ww_buckets s) /\
    web_db s' = web_db s.
Proof.
  destruct (consume_eq key opts s) as (s' & Hc & Hb & Hd & _). eexists _, s'. split; [exact Hc|].
  rewrite Hb. split_and!; [|..|done].
  - etransitivity; [apply length_take_token|]. apply le_n_S, length_prune_buckets.
  - assert (forall bs now, other_buckets key (take_token key opts now bs).2 = other_buckets key bs) as ->.
    { intros bs now. unfold take_token. case_match; apply other_buckets_aset. }
    apply filter_sublist_mono. unfold prune_buckets. case_match; [done|].
    rewrite drop_oldest_drop. etransitivity; [apply sublist_drop|apply sublist_filter].
Qed.

Lemma split_on_ne c (a : string) : split_on c a <> [].
Proof. destruct a as [|d a]; cbn; [done|]. destruct (Ascii.eqb d c); [done|]. by destruct (split_on c a). Qed.
Lemma split_on_app c a b : split_on c (a +:+ String c b) = split_on c a ++ split_on c b.
Proof.
  induction a as [|d a IH]; cbn [String.app split_on].
  - by rewrite Ascii.eqb_refl.
  - rewrite IH. destruct (Ascii.eqb d c); [done|]. pose proof (split_on_ne c a).
    by destruct (split_on c a).
Qed.

(** Behind the reverse proxy the throttle's key is the address the proxy saw: whatever a
    client wrote into X-Forwarded-For before the last hop, [clientIp] is the hop the proxy
    appended; without a proxy no header is read and every client shares one key. *)
Theorem clientIp_not_spoofable s trust spoofed ip :
  env_trustProxy = Ok trust ->
  alookup "x-forwarded-for" (ww_headers s) = Some (spoofed +:+ String "," ip) ->
  has_char "," ip = false -> trim ip = ip -> ip <> "" ->
  clientIp s = (Ok (if trust then ip else "untrusted-proxy"), s).
Proof.
  intros Ht Hf Hc Hi Hne. unfold clientIp. rewrite Ht. destruct trust; [|done].
  rewrite (bind_step (lift _) _ s true s) by done. cbn [negb].
  rewrite (bind_step (header _) _ s (Some (spoofed +:+ String "," ip)) s) by (by unfold header, gets; rewrite Hf).
  rewrite (bind_step (header _) _ s (alookup "x-real-ip" (ww_headers s)) s) by done.
  rewrite truthy_ne by (by destruct spoofed).
  assert (last (hops (spoofed +:+ String "," ip)) = Some ip) as ->; [|done].
  unfold hops. rewrite split_on_app, (split_on_single _ ip Hc), fmap_app, filter_app.
  change (trim <$> [ip]) with [trim ip]. rewrite Hi.
  rewrite (filter_cons_True _ ip []) by (by apply truthy_ne). by rewrite filter_nil, last_snoc.
Qed.
End ratelimit_facts.

(** ** The theorems at work *)

#[local] Instance still_pf : Platform := web_pf frozen.

Lemma auth_limit_throttles_witness :
  alookup "login:ip:10.0.0.7" (ww_buckets (demo_web frozen)) = None /\
  ((oks ← attempts "login:ip:10.0.0.7" 5; ok ← consume "login:ip:10.0.0.7" AUTH_LIMIT;
    mret (oks, ok)) (demo_web frozen)).1 = Ok ([true; true; true; true; true], false).
Proof.
  split; [reflexivity|].
  apply (auth_limit_throttles "login:ip:10.0.0.7" (demo_web frozen) 1700000000000 0);
    [reflexivity|apply Nat.ltb_lt; vm_compute; reflexivity|reflexivity|reflexivity|lia].
Defined.

Definition proxied : WebWorld :=
  (demo_web frozen) <| ww_headers := [("x-forwarded-for", "127.0.0.1, 8.8.8.8,10.0.0.7")] |>.

Lemma clientIp_not_spoofable_witness : clientIp proxied = (Ok "10.0.0.7", proxied).
Proof.
  apply (clientIp_not_spoofable proxied true "127.0.0.1, 8.8.8.8" "10.0.0.7"); done.
Defined.
