(* ===== verification/Flash.v ===== *)
(** * Flash: [lib/flash.ts], the one-time messages between a redirect and the next page *)
From S2P Require Import Prelude Js Schema Sql DbWf Testbed Nodes Hub HubConn Web WebFixture RateLimit QueueFacts.
Open Scope Z_scope.

Definition TTL_MS : Z := 60 * 1000.
Definition MAX_ENTRIES : nat := 1000.

(** [prune(now)] *)
Definition prune_flash (now : Z) (st : list (string * Entry)) : list (string * Entry) :=
  filter (fun ie => ~ (e_expires ie.2 < now)) st.

Definition flash_delete (id : string) (st : list (string * Entry)) : list (string * Entry) :=
  filter (fun ie => ie.1 <> id) st.

Section flash.
Context {HK : Honker} {PF : Platform}.

(** [while (store.size >= MAX_ENTRIES)] is [while (store.size > MAX_ENTRIES - 1)]. *)
Definition putFlash (value : string) : WAct string :=
  now ← on_act date_now;
  modify (fun s => s <| ww_flash ::= fun st => drop_oldest (MAX_ENTRIES - 1) (prune_flash now st) |>);;
  bytes ← on_act (random_bytes 16);
  let id := to_hex bytes in
  modify (fun s => s <| ww_flash ::= aset id (mkEntry value (now + TTL_MS)) |>);;
  mret id.

Definition takeFlash (id : string) : WAct (option string) :=
  s ← get;
  match alookup id (ww_flash s) with
  | None => mret None
  | Some e =>
      modify (fun s => s <| ww_flash ::= flash_delete id |>);;
      now ← on_act date_now;
      mret (if e_expires e <? now then None else Some (e_value e))
  end.
End flash.

(** ** A message survives until it is read *)

(** The entry is stored, with at most [k] entries younger than it. *)
Definition kept (id : string) (e : Entry) (k : nat) (st : list (string * Entry)) : Prop :=
  exists pre post, st = pre ++ (id, e) :: post /\ id ∉ pre.*1 /\ (length post <= k)%nat.

Lemma kept_lookup id e k st : kept id e k st -> alookup id st = Some e.
Proof.
  intros (pre & post & -> & Hn & _). induction pre as [|[i v] pre IH]; cbn.
  - by rewrite String.eqb_refl.
  - apply not_elem_of_cons in Hn as [Hi Hn]. rewrite (proj2 (String.eqb_neq id i)) by done. auto.
Qed.

Lemma kept_prune id e k st now : now <= e_expires e -> kept id e k st -> kept id e k (prune_flash now st).
Proof.
  intros He (pre & post & -> & Hn & Hl). unfold prune_flash.
  rewrite filter_app, filter_cons_True by (cbn; lia).
  eexists _, _. split; [reflexivity|]. split.
  - intros (x & -> & [_ Hx]%list_elem_of_filter)%list_elem_of_fmap. apply Hn.
    apply list_elem_of_fmap. by exists x.
  - etransitivity; [apply length_filter|done].
Qed.

Lemma kept_evict id e k st max : (k < max)%nat -> kept id e k st -> kept id e k (drop_oldest max st).
Proof.
  intros Hk (pre & post & -> & Hn & Hl). rewrite drop_oldest_drop, length_app.
  rewrite drop_app_le by (cbn; lia). eexists _, _. split; [reflexivity|]. split; [|done].
  rewrite fmap_drop. intros H. apply Hn. by eapply subseteq_drop.
Qed.

Lemma kept_set id e k st i v : i <> id -> kept id e k st -> kept id e (S k) (aset i v st).
Proof.
  intros Hne (pre & post & -> & Hn & Hl). induction pre as [|[j w] pre IH]; cbn [app aset].
  - rewrite (proj2 (String.eqb_neq i id)) by done. exists [], (aset i v post).
    split; [done|]. split; [apply not_elem_of_nil|]. etransitivity; [apply length_aset|lia].
  - apply not_elem_of_cons in Hn as [Hj Hn]. destruct (String.eqb_spec i j) as [->|Hij].
    + exists ((j, v) :: pre), post. split; [done|]. split; [by apply not_elem_of_cons|lia].
    + destruct (IH Hn) as (pre' & post' & Heq & Hn' & Hl').
      exists ((j, w) :: pre'), post'. rewrite Heq. split; [done|]. split; [by apply not_elem_of_cons|done].
Qed.

Lemma not_in_evicted (id : string) n now st : id ∉ st.*1 -> id ∉ (drop n (prune_flash now st)).*1.
Proof.
  intros H (x & -> & Hx)%list_elem_of_fmap. apply H, list_elem_of_fmap. exists x. split; [done|].
  eapply list_elem_of_filter, subseteq_drop, Hx.
Qed.

Lemma alookup_flash_delete id st : alookup id (flash_delete id st) = None.
Proof.
  unfold flash_delete. induction st as [|[i v] st IH]; [done|]. rewrite filter_cons. cbn.
  case_decide as H; [|done]. cbn in *. by rewrite (proj2 (String.eqb_neq id i)).
Qed.

Section flash_facts.
Context {HK : Honker} {PF : Platform}.
Implicit Types s : WebWorld.

(** The id [putFlash] draws in [s]. *)
Definition drawn (n : nat) : string := to_hex (random_byte <$> seq n 16).

Lemma putFlash_eq v s :
  let now := clock (w_ticks (web_world s)) in
  let id := drawn (w_bytes (web_world s)) in
  exists s', putFlash v s = (Ok id, s') /\
    ww_flash s' = aset id (mkEntry v (now + TTL_MS))
      (drop_oldest (MAX_ENTRIES - 1) (prune_flash now (ww_flash s))) /\
    w_ticks (web_world s') = S (w_ticks (web_world s)) /\
    w_bytes (web_world s') = (w_bytes (web_world s) + 16)%nat.
Proof.
  cbv zeta. unfold putFlash. step_with (web_date_now s).
  set (s1 := set_world _ s).
  set (s2 := s1 <| ww_flash ::= fun st => drop_oldest (MAX_ENTRIES - 1) (prune_flash (clock (w_ticks (web_world s))) st) |>).
  rewrite (bind_step (modify _) _ s1 tt s2) by done. cbv beta.
  rewrite (bind_step (on_act (random_bytes 16)) _ s2 (random_byte <$> seq (w_bytes (web_world s2)) 16)
    (set_world ((web_world s2) <| w_bytes ::= Nat.add 16 |>) s2)) by by apply on_act_run.
  eexists. split; [reflexivity|]. split; [reflexivity|]. split; [done|].
  change (16 + w_bytes (web_world s) = w_bytes (web_world s) + 16)%nat. lia.
Qed.

(** The store never holds more than its capacity. *)
Lemma putFlash_bounded v s : (length (ww_flash (putFlash v s).2) <= MAX_ENTRIES)%nat.
Proof.
  destruct (putFlash_eq v s) as (s' & -> & Hf & _). cbn. rewrite Hf.
  etransitivity; [apply length_aset|].
  pose proof (length_drop_oldest (MAX_ENTRIES - 1) (prune_flash (clock (w_ticks (web_world s))) (ww_flash s))).
  unfold MAX_ENTRIES in *. lia.
Qed.

Lemma puts_keep vs : forall id e k s,
  kept id e k (ww_flash s) -> (k + length vs < MAX_ENTRIES)%nat ->
  (forall i, (i < length vs)%nat -> clock (w_ticks (web_world s) + i) <= e_expires e /\
     drawn (w_bytes (web_world s) + 16 * i) <> id) ->
  exists ids s', for_map putFlash vs s = (Ok ids, s') /\ kept id e (k + length vs) (ww_flash s') /\
    w_ticks (web_world s') = (w_ticks (web_world s) + length vs)%nat.
Proof.
  induction vs as [|v vs IH]; intros id e k s Hk Hl Hc; cbn [for_map length].
  - exists [], s. by rewrite !Nat.add_0_r.
  - destruct (putFlash_eq v s) as (s1 & H1 & Hf & Ht & Hb).
    destruct (Hc 0%nat) as [Hc0 Hd0]; [cbn; lia|]. rewrite Nat.add_0_r in Hc0, Hd0.
    cbn [length] in Hl.
    assert (kept id e (S k) (ww_flash s1)) as Hk1.
    { rewrite Hf. apply kept_set; [done|]. apply kept_evict; [lia|]. by apply kept_prune. }
    destruct (IH id e (S k) s1 Hk1) as (ids & s2 & H2 & Hk2 & Ht2); [lia| |].
    { intros i Hi. rewrite Ht, Hb.
      destruct (Hc (S i)) as [? ?]; [cbn; lia|]. split.
      - by rewrite Nat.add_succ_l, <- Nat.add_succ_r.
      - by replace (w_bytes (web_world s) + 16 + 16 * i)%nat with (w_bytes (web_world s) + 16 * S i)%nat by lia. }
    eexists _, s2. step_with H1. step_with H2. split; [reflexivity|].
    rewrite Ht2, Ht. split; [by replace (k + S (length vs))%nat with (S k + length vs)%nat by lia|lia].
Qed.

Lemma takeFlash_eq id e s :
  alookup id (ww_flash s) = Some e ->
  exists s', takeFlash id s =
      (Ok (if e_expires e <? clock (w_ticks (web_world s)) then None else Some (e_value e)), s') /\
    ww_flash s' = flash_delete id (ww_flash s).
Proof.
  intros He. unfold takeFlash. rewrite (bind_step get _ s s s) by done. cbv beta. rewrite He.
  set (s1 := s <| ww_flash ::= flash_delete id |>).
  rewrite (bind_step (modify _) _ s tt s1) by done. cbv beta.
  step_with (web_date_now s1). eexists. split; [reflexivity|done].
Qed.

(** A flash message is read exactly once: a stored value is returned to the first read of its
    id within a minute, even when up to 999 other messages were stored in between, and every
    later read of the id finds nothing. *)
Theorem flash_read_once v vs s :
  let now i := clock (w_ticks (web_world s) + i) in
  (length vs < MAX_ENTRIES)%nat ->
  (forall i, (1 <= i <= S (length vs))%nat -> now i <= now 0%nat + TTL_MS) ->
  drawn (w_bytes (web_world s)) ∉ (ww_flash s).*1 ->
  (forall i, (1 <= i <= length vs)%nat ->
     drawn (w_bytes (web_world s) + 16 * i) <> drawn (w_bytes (web_world s))) ->
  ((id ← putFlash v; for_map putFlash vs;; first ← takeFlash id; second ← takeFlash id;
    mret (first, second)) s).1 = Ok (Some v, None).
Proof.
  cbv beta zeta. intros Hl Hc Hn Hd. destruct (putFlash_eq v s) as (s1 & H1 & Hf & Ht & Hb).
  rewrite Nat.add_0_r in Hc. set (e := mkEntry v (clock (w_ticks (web_world s)) + TTL_MS)) in *.
  set (id := drawn (w_bytes (web_world s))) in *.
  assert (kept id e 0 (ww_flash s1)) as Hk.
  { rewrite Hf, drop_oldest_drop, aset_fresh.
    - eexists _, []. split; [reflexivity|]. split; [by apply not_in_evicted|done].
    - by apply not_in_evicted. }
  destruct (puts_keep vs id e 0 s1 Hk) as (ids & s2 & H2 & Hk2 & Ht2); [lia| |].
  { intros i Hi. rewrite Ht, Hb. split.
    - rewrite Nat.add_succ_l, <- Nat.add_succ_r. apply Hc. lia.
    - replace (w_bytes (web_world s) + 16 + 16 * i)%nat with
        (w_bytes (web_world s) + 16 * S i)%nat by lia. apply Hd. lia. }
  apply kept_lookup in Hk2. destruct (takeFlash_eq id e s2 Hk2) as (s3 & H3 & Hf3).
  step_with H1. step_with H2. step_with H3.
  rewrite (bind_step (takeFlash id) _ s3 None s3).
  - rewrite Ht2, Ht. destruct (Z.ltb_spec (e_expires e) (clock (S (w_ticks (web_world s)) + length vs))) as [Hx|Hx];
      [|done]. exfalso. cbn in Hx. specialize (Hc (S (length vs))). rewrite Nat.add_succ_r in Hc. lia.
  - unfold takeFlash. rewrite (bind_step get _ s3 s3 s3) by done. cbv beta.
    by rewrite Hf3, alookup_flash_delete.
Qed.
End flash_facts.

(** ** The theorem at work *)

#[local] Instance ticking_pf : Platform := web_pf ticking.

Lemma flash_read_once_witness :
  ((id ← putFlash "s3cret"; for_map putFlash ["saved"; "deleted"];; first ← takeFlash id;
    second ← takeFlash id; mret (first, second)) (demo_web ticking)).1 = Ok (Some "s3cret", None).
Proof.
  apply (flash_read_once "s3cret" ["saved"; "deleted"] (demo_web ticking)).
  - apply Nat.ltb_lt. vm_compute. reflexivity.
  - intros i Hi. change (clock ?n) with (ticking n). unfold ticking, TTL_MS.
    change (length ["saved"; "deleted"]) with 2%nat in Hi. lia.
  - apply not_elem_of_nil.
  - intros i Hi. change (length ["saved"; "deleted"]) with 2%nat in Hi.
    destruct i as [|[|[|i]]]; [lia|by vm_compute|by vm_compute|lia].
Defined.
