(* ===== verification/Auth.v ===== *)
(** * Auth: [lib/auth.ts], the administrators' accounts and sessions, and the actions of the
    login and signup pages

    bcryptjs and jose are parameters; [AuthSpec] states what the program relies on.  The
    session cookie's own lifetime is the browser's, the token's is checked by jose. *)
From S2P Require Import Prelude Js Numbers Schema Sql DbWf Env Secrets Settings Testbed Nodes Hub HubConn Web WebFixture RateLimit QueueFacts.
From Stdlib Require Import Ascii.
Open Scope Z_scope.

Definition SESSION_TTL_S : Z := 60 * 60 * 24.
Definition BCRYPT_COST : Z := 12.
Definition MIN_PASSWORD_LEN : nat := 12.

Record Admin := mkAdminId { adm_id : Z; adm_name : string; adm_email : string }.
#[global] Instance Admin_eq_dec : EqDecision Admin.
Proof. solve_decision. Defined.

(** [sub], [email] and [name] are what the token holds, unchecked. *)
Record SessionClaims := mkClaims {
  cl_sub : option json; cl_email : option json; cl_name : option json; cl_ver : num }.

Class AuthLib := {
  bcrypt_hash : Z -> list Z -> string -> string;      (* cost, salt, password *)
  bcrypt_compare : string -> string -> bool;          (* password, hash *)
  dummy_hash : string;                                (* [DUMMY_HASH] *)
  jwt_sign : string -> json -> string;                (* HS256: secret, payload *)
  jwt_verify : string -> string -> Z -> option json   (* secret, token, time in ms *) }.

Class AuthSpec `{AuthLib} : Prop := {
  bcrypt_correct c salt p : bcrypt_compare p (bcrypt_hash c salt p) = true;
  (** a token with an [exp] in the future verifies to the payload it was signed for *)
  jwt_roundtrip k p e t : field "exp" p = Some (jz e) -> t < e * 1000 ->
    jwt_verify k (jwt_sign k p) t = Some p;
  jwt_nonempty k p : jwt_sign k p <> "" }.

(** [Math.floor(date.getTime() / 1000)] *)
Definition epoch (ms : Z) : Z := ms / 1000.

Section auth.
Context {HK : Honker} {PF : Platform} {AL : AuthLib}.

(** [WHERE id = ?] with a number: an id is far below 2^53. *)
Definition admin_by_num (d : Db) (n : num) : option AdminRow :=
  get_row (fun a => num_eqb (num_of_Z (ad_id a)) n = true) (rows (admins d)).
Definition admin_by_id (d : Db) (i : Z) : option AdminRow :=
  get_row (fun a => ad_id a = i) (rows (admins d)).

Definition tokenVersion (adminId : Z) : Act Z :=
  d ← db; mret (match admin_by_id d adminId with Some a => ad_token_version a | None => 0 end).

Definition createAdmin (name email password signupToken : string) : Act Admin :=
  expected ← lift env_signupToken;
  throw_if (negb (safeEqual signupToken expected)) ESignupToken;;
  throw_if (String.length password <? MIN_PASSWORD_LEN)%nat EPasswordShort;;
  match normalizeEmail (Some email) with
  | None => throw EEmailRequired
  | Some normEmail =>
      d ← db;
      throw_if (bool_decide (normEmail ∈ ad_email <$> rows (admins d))) EAdminExists;;
      salt ← random_bytes 16;
      let hash := bcrypt_hash BCRYPT_COST salt password in
      now ← date_now;
      id ← insert_admin name normEmail hash now;
      mret (mkAdminId id name normEmail)
  end.

Definition verifyLogin (email password : string) : Act (option Admin) :=
  d ← db;
  let row := get_row (fun a => Some (ad_email a) = normalizeEmail (Some email)) (rows (admins d)) in
  let ok := bcrypt_compare password
              (match row with Some a => ad_password_hash a | None => dummy_hash end) in
  match row with
  | Some a =>
      if negb ok then mret None
      else if negb (ad_is_active a) then mret None
      else mret (Some (mkAdminId (ad_id a) (ad_name a) (ad_email a)))
  | None => mret None
  end.

(** The payload jose builds: the literal, then [sub], [iat] and [exp]. *)
Definition session_payload (a : Admin) (ver iat exp : Z) : json :=
  JObj [("email", JStr (adm_email a)); ("name", JStr (adm_name a)); ("ver", jz ver);
        ("sub", JStr (string_of_Z (adm_id a))); ("iat", jz iat); ("exp", jz exp)].

Definition issueSession (a : Admin) : Act string :=
  ver ← tokenVersion (adm_id a);
  iat ← date_now;
  exp ← date_now;
  key ← lift env_sessionSecret;
  mret (jwt_sign key (session_payload a ver (epoch iat) (epoch exp + SESSION_TTL_S))).

Definition setSessionCookie (a : Admin) : WAct unit :=
  token ← on_act (issueSession a);
  modify (fun s => s <| ww_cookie := Some token |>).

Definition logoutAllSessions (adminId : Z) : Act unit :=
  update_admins (fun a => ad_id a = adminId) (fun a => a <| ad_token_version ::= Z.add 1 |>).

Definition setAdminActive (adminId : Z) (active : bool) : Act unit :=
  update_admins (fun a => ad_id a = adminId) (fun a => a <| ad_is_active := active |>).

Definition clearSessionCookie : WAct unit := modify (fun s => s <| ww_cookie := None |>).

Definition claims_of (payload : json) : SessionClaims :=
  mkClaims (field "sub" payload) (field "email" payload) (field "name" payload)
    (default (num_of_Z 0) (as_num (field "ver" payload))).

(** An exception of the verification, the missing secret's included, is no session. *)
Definition currentAdmin : WAct (option SessionClaims) :=
  s ← get;
  match ww_cookie s with
  | None => mret None
  | Some token =>
      if negb (truthy token) then mret None
      else
        match env_sessionSecret with
        | Throw _ => mret None
        | Ok key => now ← on_act date_now; mret (claims_of <$> jwt_verify key token now)
        end
  end.

(** [row && row.is_active === 1 && row.token_version === claims.ver] *)
Definition session_row (d : Db) (claims : SessionClaims) : option Admin :=
  match admin_by_num d (js_Number (cl_sub claims)) with
  | Some a =>
      if ad_is_active a && num_eqb (num_of_Z (ad_token_version a)) (cl_ver claims)
      then Some (mkAdminId (ad_id a) (ad_name a) (ad_email a)) else None
  | None => None
  end.

Definition requireAdmin : WAct Admin :=
  claims ← currentAdmin;
  match claims with
  | None => redirect "/login"
  | Some c =>
      d ← on_act db;
      match session_row d c with
      | None => clearSessionCookie;; redirect "/login"
      | Some a => mret a
      end
  end.

Definition requireAdminPage : WAct Admin :=
  claims ← currentAdmin;
  match claims with
  | None => redirect "/login"
  | Some c =>
      d ← on_act db;
      match session_row d c with None => redirect "/login" | Some a => mret a end
  end.

Definition adminCount : Act nat := d ← db; mret (length (rows (admins d))).

(** ** The login and signup pages' actions *)

Definition login (f : FormData) : WAct unit :=
  let email := form_str "email" f in
  let password := form_str "password" f in
  ip ← clientIp;
  ok1 ← consume ("login:ip:" +:+ ip) AUTH_LIMIT;
  ok2 ← (if ok1 : bool then consume ("login:email:" +:+ email) AUTH_LIMIT else mret false);
  if negb ok2 then redirect "/login?error=Too+many+attempts.+Try+again+later."
  else
    admin ← on_act (verifyLogin email password);
    match admin with
    | None => redirect "/login?error=Invalid+email+or+password"
    | Some a => setSessionCookie a;; redirect "/dashboard"
    end.

Definition signup (f : FormData) : WAct unit :=
  ip ← clientIp;
  ok ← consume ("signup:ip:" +:+ ip) AUTH_LIMIT;
  if negb ok then redirect "/signup?error=Too+many+attempts.+Try+again+later."
  else
    catch (admin ← on_act (createAdmin (form_str "name" f) (form_str "email" f)
                             (form_str "password" f) (form_str "token" f));
           setSessionCookie admin)
      (fun e => redirect ("/signup?error=" +:+ encodeURIComponent (error_text e)));;
    redirect "/dashboard".

(** The sign-out button of the layout. *)
Definition logout : WAct unit := clearSessionCookie;; redirect "/login".
End auth.

(** [Number(String(n))] of an id. *)
Class NumberSpec `{Platform} : Prop :=
  number_of_digits z : 0 <= z < 2 ^ 53 -> str_to_num (string_of_Z z) = num_of_Z z.

Section auth_facts.
Context {HK : Honker} {PF : Platform} {AL : AuthLib}.
Implicit Types s : WebWorld.

(** What [currentAdmin] finds in the cookie. *)
Definition session_claims (s : WebWorld) : option SessionClaims :=
  match ww_cookie s, env_sessionSecret with
  | Some token, Ok key =>
      if truthy token then claims_of <$> jwt_verify key token (clock (w_ticks (web_world s))) else None
  | _, _ => None
  end.

Lemma currentAdmin_eq s : exists s', currentAdmin s = (Ok (session_claims s), s') /\
  web_db s' = web_db s /\ ww_cookie s' = ww_cookie s /\ ww_buckets s' = ww_buckets s /\
  (w_ticks (web_world s') <= S (w_ticks (web_world s)))%nat.
Proof.
  unfold currentAdmin, session_claims. rewrite (bind_step get _ s s s) by done. cbv beta.
  destruct (ww_cookie s) as [token|] eqn:Hc; [|exists s; split_and!; (done || lia)].
  destruct (truthy token); cbn [negb].
  - destruct env_sessionSecret as [key|]; [|exists s; split_and!; (done || lia)].
    step_with (web_date_now s). eexists. split; [reflexivity|]. split_and!; (done || cbn; lia).
  - exists s. split_and!; try done; [by destruct env_sessionSecret|lia].
Qed.

Lemma requireAdmin_eq s :
  (requireAdmin s).1 =
    match session_claims s ≫= session_row (web_db s) with Some a => Ok a | None => Throw (ERedirect "/login") end /\
  web_db (requireAdmin s).2 = web_db s /\
  ww_cookie (requireAdmin s).2 =
    match session_claims s with
    | Some c => match session_row (web_db s) c with Some _ => ww_cookie s | None => None end
    | None => ww_cookie s
    end.
Proof.
  destruct (currentAdmin_eq s) as (s' & H & Hd & Hk & _). unfold requireAdmin.
  step_with H. destruct (session_claims s) as [c|]; [|by rewrite <- Hd].
  rewrite (bind_step (on_act db) _ s' (web_db s') s') by (by destruct s' as [[]]). cbv beta.
  rewrite Hd. cbn. destruct (session_row (web_db s) c); by rewrite <- Hd.
Qed.

Lemma requireAdminPage_eq s :
  (requireAdminPage s).1 =
    match session_claims s ≫= session_row (web_db s) with Some a => Ok a | None => Throw (ERedirect "/login") end /\
  web_db (requireAdminPage s).2 = web_db s /\ ww_cookie (requireAdminPage s).2 = ww_cookie s.
Proof.
  destruct (currentAdmin_eq s) as (s' & H & Hd & Hk & _). unfold requireAdminPage.
  step_with H. destruct (session_claims s) as [c|]; [|by rewrite <- Hd].
  rewrite (bind_step (on_act db) _ s' (web_db s') s') by (by destruct s' as [[]]). cbv beta.
  rewrite Hd. cbn. destruct (session_row (web_db s) c); by rewrite <- Hd.
Qed.

(** The request carries a token that verifies under the session secret, whose subject is the
    account [a], active, at the token version the token was issued for. *)
Definition authorised (s : WebWorld) (a : AdminRow) : Prop :=
  exists token key payload,
    ww_cookie s = Some token /\ env_sessionSecret = Ok key /\
    jwt_verify key token (clock (w_ticks (web_world s))) = Some payload /\
    a ∈ rows (admins (web_db s)) /\
    num_eqb (num_of_Z (ad_id a)) (js_Number (field "sub" payload)) = true /\
    ad_is_active a = true /\
    num_eqb (num_of_Z (ad_token_version a))
      (default (num_of_Z 0) (as_num (field "ver" payload))) = true.

(** The outcome of the gate. *)
Lemma requireAdmin_case s :
  match (requireAdmin s).1 with
  | Ok who => exists a, authorised s a /\ who = mkAdminId (ad_id a) (ad_name a) (ad_email a)
  | Throw e => e = ERedirect "/login"
  end.
Proof.
  destruct (requireAdmin_eq s) as (-> & _). unfold session_claims, session_row, authorised.
  destruct (ww_cookie s) as [token|]; [|done]. destruct env_sessionSecret as [key|] eqn:Hk; [|done].
  destruct (truthy token); [|done].
  destruct (jwt_verify key token _) as [payload|] eqn:Hv; [|done]. cbn.
  destruct (admin_by_num _ _) as [a|] eqn:Ha; [|done].
  destruct (ad_is_active a) eqn:Hact; [|done]. destruct (num_eqb _ _) eqn:Hver; [|done]. cbn.
  apply get_row_Some in Ha as [Hn Hin]. exists a. split; [|done]. by exists token, key, payload.
Qed.

(** The gate of the console: an action or a page gets past its gate only for a request that
    is authorised as the administrator it then acts for; every other request is redirected to
    the login page, nothing in the database changed, and the two gates agree. *)
Theorem requireAdmin_gate s :
  match (requireAdmin s).1 with
  | Ok who => exists a, authorised s a /\ who = mkAdminId (ad_id a) (ad_name a) (ad_email a)
  | Throw e => e = ERedirect "/login"
  end /\
  web_db (requireAdmin s).2 = web_db s /\
  (requireAdminPage s).1 = (requireAdmin s).1 /\ web_db (requireAdminPage s).2 = web_db s.
Proof.
  split; [apply requireAdmin_case|].
  by destruct (requireAdmin_eq s) as (-> & -> & _), (requireAdminPage_eq s) as (-> & -> & _).
Qed.

Lemma admin_by_num_id a d {NS : NumberSpec} :
  pk ad_id (admins d) -> a ∈ rows (admins d) -> last_id (admins d) < 2 ^ 53 ->
  admin_by_num d (js_Number (Some (JStr (string_of_Z (ad_id a))))) = Some a.
Proof.
  intros [Hnd Hr] Ha Hl. rewrite Forall_forall in Hr. cbn.
  rewrite number_of_digits by (pose proof (Hr _ Ha); lia).
  apply (get_row_unique _ ad_id); [done|done| |].
  - apply num_of_Z_eqb; [| |done]; pose proof (Hr _ Ha); lia.
  - intros y Hy H. apply num_of_Z_eqb in H; [done| |]; [pose proof (Hr _ Hy)|pose proof (Hr _ Ha)]; lia.
Qed.

(** A session issued in [s] for the account [a]. *)
Definition session_of (key : string) (a : AdminRow) (s : WebWorld) : string :=
  let t := w_ticks (web_world s) in
  jwt_sign key (session_payload (mkAdminId (ad_id a) (ad_name a) (ad_email a)) (ad_token_version a)
    (epoch (clock t)) (epoch (clock (S t)) + SESSION_TTL_S)).

Lemma setSessionCookie_eq key a s :
  env_sessionSecret = Ok key -> admin_by_id (web_db s) (ad_id a) = Some a ->
  exists s', setSessionCookie (mkAdminId (ad_id a) (ad_name a) (ad_email a)) s = (Ok tt, s') /\
    ww_cookie s' = Some (session_of key a s) /\ web_db s' = web_db s /\
    w_ticks (web_world s') = S (S (w_ticks (web_world s))).
Proof.
  intros Hk Ha. unfold setSessionCookie.
  rewrite (bind_step (on_act _) _ s (session_of key a s)
    (set_world ((web_world s) <| w_ticks := S (S (w_ticks (web_world s))) |>) s)).
  - eexists. split; [reflexivity|]. done.
  - apply on_act_run. unfold issueSession, tokenVersion. rewrite Hk.
    unfold web_db in Ha. unfold mbind, M_bind, db, gets, mret, M_ret, lift, date_now. cbn -[epoch].
    rewrite Ha. done.
Qed.

(** The claims of that session, while it has not expired. *)
Lemma session_of_claims {AS : AuthSpec} key a s s' :
  env_sessionSecret = Ok key -> ww_cookie s' = Some (session_of key a s) ->
  clock (w_ticks (web_world s')) < (epoch (clock (S (w_ticks (web_world s)))) + SESSION_TTL_S) * 1000 ->
  exists c, session_claims s' = Some c /\ cl_sub c = Some (JStr (string_of_Z (ad_id a))) /\
    cl_ver c = num_of_Z (ad_token_version a).
Proof.
  intros Hk Hc Ht. unfold session_claims. rewrite Hc, Hk. unfold session_of.
  rewrite truthy_ne by apply jwt_nonempty.
  erewrite jwt_roundtrip by first [reflexivity|exact Ht]. eexists. split; [reflexivity|]. done.
Qed.

(** The gate's answer to that session: the account's row decides. *)
Lemma session_row_of {NS : NumberSpec} d a v c :
  pk ad_id (admins d) -> last_id (admins d) < 2 ^ 53 -> a ∈ rows (admins d) ->
  0 <= v < 2 ^ 53 -> 0 <= ad_token_version a < 2 ^ 53 ->
  cl_sub c = Some (JStr (string_of_Z (ad_id a))) -> cl_ver c = num_of_Z v ->
  session_row d c =
    if ad_is_active a && bool_decide (ad_token_version a = v)
    then Some (mkAdminId (ad_id a) (ad_name a) (ad_email a)) else None.
Proof.
  intros Hpk Hl Ha Hv Hva Hs Hver. unfold session_row. rewrite Hs, admin_by_num_id by done.
  destruct (ad_is_active a); cbn; [|done]. rewrite Hver.
  destruct (num_eqb _ _) eqn:He; case_bool_decide as Hd; try done.
  - by apply num_of_Z_eqb in He.
  - exfalso. rewrite Hd in He.
    assert (num_eqb (num_of_Z v) (num_of_Z v) = true) by (by apply num_of_Z_eqb). congruence.
Qed.

(** Signing in, then [m], then the next request. *)
Definition signed_in_then (a : AdminRow) (m : Act unit) : WAct Admin :=
  setSessionCookie (mkAdminId (ad_id a) (ad_name a) (ad_email a));; on_act m;; requireAdmin.

Lemma signed_in_then_eq {AS : AuthSpec} {NS : NumberSpec} key a a' (m : Act unit) s d' :
  env_sessionSecret = Ok key -> db_wf (web_db s) -> a ∈ rows (admins (web_db s)) ->
  (forall w, w_db w = web_db s -> m w = (Ok tt, w <| w_db := d' |>)) ->
  pk ad_id (admins d') -> last_id (admins d') < 2 ^ 53 -> a' ∈ rows (admins d') -> ad_id a' = ad_id a ->
  0 <= ad_token_version a < 2 ^ 53 -> 0 <= ad_token_version a' < 2 ^ 53 ->
  clock (S (S (w_ticks (web_world s)))) <
    (epoch (clock (S (w_ticks (web_world s)))) + SESSION_TTL_S) * 1000 ->
  (signed_in_then a m s).1 =
    if ad_is_active a' && bool_decide (ad_token_version a' = ad_token_version a)
    then Ok (mkAdminId (ad_id a') (ad_name a') (ad_email a')) else Throw (ERedirect "/login").
Proof.
  intros Hk Hwf Ha Hm Hpk Hl Ha' Hid Hv Hv' Ht.
  assert (admin_by_id (web_db s) (ad_id a) = Some a) as Hrow.
  { destruct (wf_admins _ Hwf) as [[Hnd _] _]. by apply (get_row_unique _ ad_id). }
  destruct (setSessionCookie_eq key a s Hk Hrow) as (s1 & H1 & Hc1 & Hd1 & Hn1).
  unfold signed_in_then. step_with H1.
  rewrite (bind_step (on_act m) _ s1 tt (set_world ((web_world s1) <| w_db := d' |>) s1))
    by (by apply on_act_run, Hm). cbv beta.
  set (s2 := set_world _ s1). destruct (requireAdmin_eq s2) as (-> & _).
  destruct (session_of_claims key a s s2) as (c & Hc & Hsub & Hver); [done|exact Hc1| |].
  { change (w_ticks (web_world s2)) with (w_ticks (web_world s1)). by rewrite Hn1. }
  rewrite Hc. cbn [mbind option_bind]. change (web_db s2) with d'. rewrite <- Hid in Hsub.
  rewrite (session_row_of d' a' (ad_token_version a) c) by done.
  by destruct (_ && _).
Qed.

(** C37: a session opens the console for the account it was issued to, and stops doing so the moment
    all of the account's sessions are revoked or the account is disabled; revoking the sessions
    of another account leaves it alone. *)
Theorem session_lifecycle {AS : AuthSpec} {NS : NumberSpec} key a s :
  env_sessionSecret = Ok key -> db_wf (web_db s) -> last_id (admins (web_db s)) < 2 ^ 53 ->
  a ∈ rows (admins (web_db s)) -> ad_is_active a = true ->
  0 <= ad_token_version a -> ad_token_version a + 1 < 2 ^ 53 ->
  clock (S (S (w_ticks (web_world s)))) <
    (epoch (clock (S (w_ticks (web_world s)))) + SESSION_TTL_S) * 1000 ->
  let who := mkAdminId (ad_id a) (ad_name a) (ad_email a) in
  (signed_in_then a (mret tt) s).1 = Ok who /\
  (signed_in_then a (logoutAllSessions (ad_id a)) s).1 = Throw (ERedirect "/login") /\
  (signed_in_then a (setAdminActive (ad_id a) false) s).1 = Throw (ERedirect "/login") /\
  (forall i, i <> ad_id a -> (signed_in_then a (logoutAllSessions i) s).1 = Ok who).
Proof.
  intros Hk Hwf Hl Ha Hact Hv0 Hv1 Ht who. destruct (wf_admins _ Hwf) as [Hpk _].
  assert (forall P {PDec : forall x, Decision (P x)} f, (forall r, ad_id (f r) = ad_id r) ->
    pk ad_id (tbl_update P f (admins (web_db s)))) as Hup by (intros; by apply pk_update).
  split_and!.
  - rewrite (signed_in_then_eq key a a (mret tt) s (web_db s)) by (done || lia || by intros [] <-).
    by rewrite Hact, bool_decide_eq_true_2.
  - rewrite (signed_in_then_eq key a (a <| ad_token_version ::= Z.add 1 |>) _ s
      ((web_db s) <| admins ::= tbl_update (fun x => ad_id x = ad_id a) (fun x => x <| ad_token_version ::= Z.add 1 |>) |>));
      try (done || (cbn; lia)).
    + rewrite bool_decide_eq_false_2; [by rewrite andb_false_r|]. cbn. lia.
    + by intros w <-.
    + by apply Hup.
    + apply elem_of_update_where. exists a. auto.
  - rewrite (signed_in_then_eq key a (a <| ad_is_active := false |>) _ s
      ((web_db s) <| admins ::= tbl_update (fun x => ad_id x = ad_id a) (fun x => x <| ad_is_active := false |>) |>));
      try (done || (cbn; lia)).
    + by intros w <-.
    + by apply Hup.
    + apply elem_of_update_where. exists a. auto.
  - intros i Hi. rewrite (signed_in_then_eq key a a _ s
      ((web_db s) <| admins ::= tbl_update (fun x => ad_id x = i) (fun x => x <| ad_token_version ::= Z.add 1 |>) |>));
      try (done || (cbn; lia)).
    + by rewrite Hact, bool_decide_eq_true_2.
    + by intros w <-.
    + by apply Hup.
    + apply elem_of_update_where. exists a. naive_solver.
Qed.

(** Registration: a call without the signup token, with a short password, without an address or
    with the address of an existing administrator changes no row; otherwise it adds one active
    account with the normalised address, and the address and password it was registered with,
    in any spelling of the address, log in as that account. *)
Theorem createAdmin_login {AS : AuthSpec} name email password signupToken w :
  db_wf (w_db w) ->
  match createAdmin name email password signupToken w with
  | (Throw _, w') => w_db w' = w_db w
  | (Ok a, w') =>
      (exists expected, env_signupToken = Ok expected /\ sha256 signupToken = sha256 expected) /\
      (MIN_PASSWORD_LEN <= String.length password)%nat /\
      normalizeEmail (Some email) = Some (adm_email a) /\
      adm_email a ∉ ad_email <$> rows (admins (w_db w)) /\
      (exists hash now, rows (admins (w_db w')) = rows (admins (w_db w)) ++
         [mkAdmin (adm_id a) name (adm_email a) hash now true 0]) /\
      forall spelling, normalizeEmail (Some spelling) = Some (adm_email a) ->
        (verifyLogin spelling password w').1 = Ok (Some (mkAdminId (adm_id a) name (adm_email a)))
  end.
Proof.
  intros Hwf. unfold createAdmin. destruct env_signupToken as [expected|e]; [|done].
  rewrite (bind_step (lift _) _ w expected w) by done. unfold safeEqual.
  destruct (String.eqb_spec (sha256 signupToken) (sha256 expected)) as [Hs|]; [|done].
  rewrite (bind_step (throw_if _ _) _ w tt w) by done.
  destruct (Nat.ltb_spec (String.length password) MIN_PASSWORD_LEN) as [|Hp]; [done|].
  rewrite (bind_step (throw_if _ _) _ w tt w) by done.
  destruct (normalizeEmail (Some email)) as [e|] eqn:He; [|done].
  rewrite (bind_step db _ w (w_db w) w) by done. case_bool_decide as Hin; [done|].
  rewrite (bind_step (throw_if _ _) _ w tt w) by done.
  set (salt := random_byte <$> seq (w_bytes w) 16).
  rewrite (bind_step (random_bytes 16) _ w salt (w <| w_bytes ::= Nat.add 16 |>)) by done.
  set (w1 := w <| w_bytes ::= Nat.add 16 |>).
  rewrite (bind_step date_now _ w1 (clock (w_ticks w)) (w1 <| w_ticks ::= S |>)) by done.
  set (w2 := w1 <| w_ticks ::= S |>). set (now := clock (w_ticks w)).
  set (hash := bcrypt_hash BCRYPT_COST salt password).
  unfold insert_admin, mbind, M_bind, db, gets, exec, modify, mret, M_ret. cbn -[hash now normalizeEmail].
  rewrite bool_decide_eq_false_2 by done. cbn -[hash now normalizeEmail].
  split_and!; [eauto|done|done|done| |].
  - exists hash, now. done.
  - intros spelling Hsp. unfold verifyLogin, mbind, M_bind, db, gets. cbn -[hash now normalizeEmail get_row].
    rewrite Hsp, get_row_last; [|intros y Hy; cbn; intros [= <-]; by apply Hin, list_elem_of_fmap_2|done].
    cbn. unfold hash. by rewrite bcrypt_correct.
Qed.

(** The throttle of login attempts on one account is per spelling of its address: two spellings
    of the same address are the same account to [verifyLogin], but after any number of attempts
    with one spelling the bucket of the other still has its whole burst. *)
Theorem login_limit_per_spelling e1 e2 s n :
  normalizeEmail (Some e1) = normalizeEmail (Some e2) -> e1 <> e2 ->
  alookup ("login:email:" +:+ e2) (ww_buckets s) = None ->
  (forall p w, verifyLogin e1 p w = verifyLogin e2 p w) /\
  ((attempts ("login:email:" +:+ e1) n;; consume ("login:email:" +:+ e2) AUTH_LIMIT) s).1 = Ok true.
Proof.
  intros He Hne Hk. split; [by intros p w; unfold verifyLogin; rewrite He|].
  destruct (attempts_absent ("login:email:" +:+ e1) ("login:email:" +:+ e2) n s) as (oks & s' & H & Hk').
  - intros Heq. by apply (inj (String.app "login:email:")) in Heq.
  - done.
  - step_with H. by apply consume_fresh.
Qed.
End auth_facts.

(** ** The theorems at work *)

#[local] Instance console_pf : Platform := web_pf ticking.

(** Passwords are stored as they are and a token is its payload: nothing here says anything about
    bcrypt or JWT. *)
#[local] Instance toy_auth : AuthLib := {|
  bcrypt_hash _ _ p := p;
  bcrypt_compare p h := String.eqb p h;
  dummy_hash := "no-such-user-placeholder";
  jwt_sign k p := "jwt" +:+ (gcm_seal k "" (TJson p)).2;
  jwt_verify k tok _ :=
    match gcm_open k "" "tag" (drop_str 3 tok) with Some (TJson p) => Some p | _ => None end |}.

Lemma toy_auth_spec : AuthSpec.
Proof.
  split.
  - intros c salt p. apply String.eqb_refl.
  - intros k p e t He Ht. unfold jwt_verify, jwt_sign, toy_auth.
    change (drop_str 3 _) with (gcm_seal k "" (TJson p)).2.
    pose proof (@seal_open console_pf (toy_crypto _ _) k "" (TJson p)) as H.
    change (gcm_seal k "" (TJson p)).1 with "tag" in H. by rewrite H.
  - done.
Qed.

Lemma console_numbers : NumberSpec.
Proof.
  intros z Hz. unfold str_to_num. cbn -[num_of_Z parse_digits]. unfold string_of_Z.
  by rewrite parse_pretty by lia.
Qed.

Lemma session_lifecycle_witness :
  (signed_in_then root_row (mret tt) (demo_web ticking)).1 = Ok (mkAdminId 1 "Root" "root@lab.edu") /\
  (signed_in_then root_row (logoutAllSessions 1) (demo_web ticking)).1 = Throw (ERedirect "/login").
Proof.
  pose proof (@session_lifecycle _ _ _ toy_auth_spec console_numbers "0123456789abcdef0123456789abcdef"
    root_row (demo_web ticking)) as H.
  destruct H as (H1 & H2 & _).
  - vm_compute. reflexivity.
  - apply (proj1 (web_world0_wf ticking)).
  - vm_compute. reflexivity.
  - vm_compute. left.
  - reflexivity.
  - vm_compute. discriminate.
  - vm_compute. reflexivity.
  - vm_compute. reflexivity.
  - split; [exact H1|exact H2].
Defined.

Lemma createAdmin_login_witness :
  exists a w', createAdmin "Ada" " Ada@Lab.edu" "analytical-engine" "signup-token-0123456789"
    (web_world0 ticking) = (Ok a, w') /\
  (verifyLogin "ada@lab.edu " "analytical-engine" w').1 = Ok (Some (mkAdminId (adm_id a) "Ada" (adm_email a))).
Proof.
  destruct (createAdmin "Ada" " Ada@Lab.edu" "analytical-engine" "signup-token-0123456789"
    (web_world0 ticking)) as [[a|e] w'] eqn:He; [|vm_compute in He; discriminate He].
  exists a, w'. split; [reflexivity|].
  pose proof (@createAdmin_login _ _ _ toy_auth_spec "Ada" " Ada@Lab.edu" "analytical-engine"
    "signup-token-0123456789" (web_world0 ticking) (proj1 (web_world0_wf ticking))) as H.
  rewrite He in H. destruct H as (_ & _ & Hn & _ & _ & H). apply H. rewrite <- Hn. reflexivity.
Defined.

Lemma login_limit_per_spelling_witness :
  (verifyLogin "root@lab.edu" "x" (web_world0 ticking) = verifyLogin "Root@lab.edu" "x" (web_world0 ticking)) /\
  ((attempts ("login:email:" +:+ "root@lab.edu") 100;;
    consume ("login:email:" +:+ "Root@lab.edu") AUTH_LIMIT) (demo_web ticking)).1 = Ok true.
Proof.
  destruct (login_limit_per_spelling "root@lab.edu" "Root@lab.edu" (demo_web ticking) 100) as [H1 H2];
    [reflexivity|discriminate|reflexivity|]. split; [apply H1|exact H2].
Defined.
