(* ===== verification/Stats.v ===== *)
(** * Stats: [lib/stats.ts], the storage figures of the stats page

    The newest sample of every (placement, student or lab, pool), and what the page builds from
    it: per node the placements with their students, and the pools of every node.  Used and
    quota bytes are numbers; a stored quota that is no number counts as absent.

    With it [lib/usage-report.ts], the report of one placement as text. *)
From S2P Require Import Prelude Js Numbers Schema Sql DbWf Env Secrets Settings Format Mailer Placements Labs Students.
Open Scope Z_scope.

Record StudentUsage := mkStudentUsage {
  su_studentId : Z; su_username : string; su_name : option string; su_email : option string;
  su_fast : option num; su_cold : option num }.

Record LabStats := mkLabStatsBlock {
  bl_labId : Z; bl_placementId : Z; bl_labName : string; bl_image : string;
  bl_piName : option string; bl_piEmail : option string; bl_students : list StudentUsage;
  bl_rootfs : option num; bl_fast : option num * option num; bl_cold : option num * option num;
  bl_liveUpdatedAt : option Z; bl_liveStale : bool;
  bl_usageScannedAt : option num; bl_scanStale : bool; bl_scanPending : bool }.

Record NodeStats := mkNodeStats {
  ns_node : string; ns_online : bool; ns_labs : list LabStats; ns_totalRootfsBytes : num }.

Record Cell := mkCell { c_used : num; c_quota : option num; c_ts : Z }.
Record Scan := mkScanTask { sc_state : TaskState; sc_createdAt : Z }.

Definition USAGE_STALE_MS : Z := 25 * 60 * 60 * 1000.
Definition LIVE_STALE_MS : Z := 15 * 60 * 1000.
Definition SCAN_INGEST_GRACE_MS : Z := 10 * 60 * 1000.

(** [student] is absent for the lab-level samples. *)
Definition sampleKey (placementId : Z) (student : option Z) (pool : string) : string :=
  string_of_Z placementId +:+ ":" +:+ match student with Some i => string_of_Z i | None => "L" end +:+
  ":" +:+ pool.

(** A sample of the same placement, student and pool. *)
Definition same_series (a b : SampleRow) : bool :=
  bool_decide (ss_placement_id a = ss_placement_id b) && bool_decide (ss_student_id a = ss_student_id b) &&
  String.eqb (ss_pool a) (ss_pool b).
(** The rows the query of [latestSamples] returns: no newer sample in their series. *)
Definition latest_row (all : list SampleRow) (s : SampleRow) : bool :=
  is_some (ss_placement_id s) && forallb (fun s2 => negb (same_series s s2) || (ss_ts s2 <=? ss_ts s)) all.

Definition cell_of (s : SampleRow) : Cell := mkCell (ss_used_bytes s) (as_num (ss_quota_bytes s)) (ss_ts s).
Definition row_key (s : SampleRow) : string :=
  sampleKey (default 0 (ss_placement_id s)) (ss_student_id s) (ss_pool s).

Definition latest_samples (d : Db) : list (string * Cell) :=
  let all := rows (storage_samples d) in
  fold_left (fun m s => aset (row_key s) (cell_of s) m)
    (List.filter (latest_row all) all) [].

(** [(b.fast ?? 0) - (a.fast ?? 0) || a.username.localeCompare(b.username)] *)
Definition usage_leb `{HK : Honker, PF : Platform} (a b : StudentUsage) : bool :=
  let fast s := nullish (su_fast s) (num_of_Z 0) in
  let diff := num_sub (fast b) (fast a) in
  num_ltb diff (num_of_Z 0) ||
  (negb (num_ltb (num_of_Z 0) diff) && locale_leb (su_username a) (su_username b)).

Definition max_ts (l : list Z) : option Z :=
  match l with [] => None | t :: l' => Some (fold_left Z.max l' t) end.

Definition num_older (now : Z) (t : num) (limit : Z) : bool :=
  num_ltb (num_of_Z limit) (num_sub (num_of_Z now) t).

Record NodeUsage := mkNodeUsage {
  nu_nodeId : Z; nu_name : string; nu_alias : option string; nu_online : bool;
  nu_coldBackend : ColdBackend; nu_coldOwnerName : option string;
  nu_fastUsed : option num; nu_fastQuota : option num;
  nu_coldUsed : option num; nu_coldQuota : option num }.

Section stats.
Context {HK : Honker} {PF : Platform}.

Definition latestSamples : Act (list (string * Cell)) := d ← db; mret (latest_samples d).

(** The newest [usage.scan] task of every node and lab; unreadable parameters are passed over. *)
Definition usage_scans (d : Db) : list (string * Scan) :=
  fold_left (fun m t =>
      match json_parse (nullish (t_params t) (TJson (JObj []))) with
      | Some v =>
          match field "lab" v with
          | Some lab =>
              if json_truthy lab
              then aset (t_node t +:+ "::" +:+ js_String lab) (mkScanTask (t_state t) (t_created_at t)) m
              else m
          | None => m
          end
      | None => m
      end)
    (sort_by (fun a b => t_created_at a <=? t_created_at b)
       (select (fun t => t_action t = "usage.scan") (rows (task_log d)))) [].

Definition isScanPending (scan : option Scan) (usageScannedAt : option num) (now : Z) : bool :=
  match scan with
  | None => false
  | Some s =>
      match sc_state s with
      | TQueued | TSent => true
      | TOk =>
          match usageScannedAt with
          | None => true
          | Some t => num_ltb t (num_of_Z (sc_createdAt s))
          end && (now - sc_createdAt s <? SCAN_INGEST_GRACE_MS)
      | TFailed => false
      end
  end.

(** The figures of one placement. *)
Definition lab_stats (d : Db) (now : Z) (samples : list (string * Cell)) (scans : list (string * Scan))
    (p : Placement) : LabStats :=
  let pid := p_id (pl_row p) in
  let lab := lab_of d (p_lab_id (pl_row p)) in
  let used sid pool := c_used <$> alookup (sampleKey pid sid pool) samples in
  let cell pool := let c := alookup (sampleKey pid None pool) samples in
                   (c_used <$> c, c ≫= c_quota) in
  let students := (fun m =>
      let s := mb_student m in
      mkStudentUsage (s_id s) (s_username s) (s_name s) (s_email s)
        (used (Some (s_id s)) "fast") (used (Some (s_id s)) "cold"))
    <$> members_of d (p_lab_id (pl_row p)) in
  let usageScannedAt := p_usage_scanned_at (pl_row p) in
  let liveUpdatedAt := max_ts
    (omap (fun pool => c_ts <$> alookup (sampleKey pid None pool) samples) ["rootfs"; "fast"; "cold"]) in
  {| bl_labId := p_lab_id (pl_row p); bl_placementId := pid; bl_labName := pl_lab_name p;
     bl_image := p_image (pl_row p); bl_piName := lab ≫= l_pi_name; bl_piEmail := lab ≫= l_pi_email;
     bl_students := sort_by usage_leb students;
     bl_rootfs := (cell "rootfs").1; bl_fast := cell "fast"; bl_cold := cell "cold";
     bl_liveUpdatedAt := liveUpdatedAt;
     bl_liveStale := match liveUpdatedAt with Some t => LIVE_STALE_MS <? now - t | None => true end;
     bl_usageScannedAt := usageScannedAt;
     bl_scanStale := match usageScannedAt with Some t => num_older now t USAGE_STALE_MS | None => true end;
     bl_scanPending := isScanPending (alookup (pl_node_name p +:+ "::" +:+ pl_lab_name p) scans)
                         usageScannedAt now |}.

Definition new_node_stats (p : Placement) : NodeStats :=
  mkNodeStats (pl_node_name p) (pl_online p) [] (num_of_Z 0).
Definition add_lab_stats (b : LabStats) (n : NodeStats) : NodeStats :=
  mkNodeStats (ns_node n) (ns_online n) (ns_labs n ++ [b])
    (num_add (ns_totalRootfsBytes n) (nullish (bl_rootfs b) (num_of_Z 0))).
Definition sort_labs (n : NodeStats) : NodeStats :=
  mkNodeStats (ns_node n) (ns_online n)
    (sort_by (fun a b => locale_leb (bl_labName a) (bl_labName b)) (ns_labs n)) (ns_totalRootfsBytes n).

Definition buildStats : Act (list NodeStats) :=
  samples ← latestSamples;
  d ← db;
  now ← date_now;
  placements ← listAllPlacements;
  let byNode := fold_left (fun m p =>
      alter_or (pl_node_name p) (new_node_stats p)
        (add_lab_stats (lab_stats d now samples (usage_scans d) p)) m) placements [] in
  mret (sort_labs <$> sort_by (fun a b => locale_leb (ns_node a) (ns_node b)) (snd <$> byNode)).

(** ** The pools of the nodes *)

(** The entries of the telemetry with a number of allocated bytes and of bytes in all. *)
Definition parsePools (raw : option text) : list (num * num) :=
  match raw with
  | None => []
  | Some t =>
      match json_parse t with
      | Some (JArr l) =>
          omap (fun p => match as_num (field "alloc" p), as_num (field "size" p) with
                         | Some a, Some s => Some (a, s)
                         | _, _ => None
                         end) l
      | _ => []
      end
  end.

Definition node_usage (d : Db) (n : NodeRow) : NodeUsage :=
  let pools := parsePools (n_pools n) in
  let smb := bool_decide (n_cold_backend n = Smb) in
  let fast := pools !! 0%nat in
  let cold := if smb then None else pools !! 1%nat in
  {| nu_nodeId := n_id n; nu_name := n_name n; nu_alias := n_alias n; nu_online := n_online n;
     nu_coldBackend := n_cold_backend n;
     nu_coldOwnerName := if smb then n_name <$> (n_cold_owner_node_id n ≫= node_of d) else None;
     nu_fastUsed := fst <$> fast; nu_fastQuota := snd <$> fast;
     nu_coldUsed := fst <$> cold; nu_coldQuota := snd <$> cold |}.

Definition buildNodeUsage : Act (list NodeUsage) :=
  d ← db; mret (node_usage d <$> sort_by (by_name n_name) (rows (nodes d))).
End stats.

(** * UsageReport: [lib/usage-report.ts], the storage report of one placement as text *)


Record UsageReportStudent := mkReportStudent {
  rs_studentId : Z; rs_username : string; rs_name : option string; rs_email : option string }.
Record UsageReport := mkReport {
  rp_text : string; rp_labId : Z; rp_labName : string; rp_nodeName : string;
  rp_piName : option string; rp_piEmail : option string; rp_students : list UsageReportStudent }.

(** [Math.abs(v)] *)
Definition num_abs (x : num) : num :=
  match x with
  | S754_zero _ => S754_zero false
  | S754_infinity _ => S754_infinity false
  | S754_nan => S754_nan
  | S754_finite _ m e => S754_finite false m e
  end.

(** [s.repeat(n)] of one character *)
Fixpoint repeat_str (s : string) (n : nat) : string :=
  match n with O => "" | S n' => s +:+ repeat_str s n' end.

(** [Math.max(...l)] of lengths *)
Definition max_nat (l : list nat) : nat := fold_left Nat.max l 0%nat.

(** The table: [rows[i][j]], every row as long as the first. *)
Definition widths (rows : list (list string)) : list nat :=
  match rows with
  | [] => []
  | r :: _ => (fun i => max_nat ((fun row => js_length (default "" (row !! i))) <$> rows)) <$> seq 0 (length r)
  end.
Definition rule (ws : list nat) : string := "  " +:+ join "  " (repeat_str "-" <$> ws).
Definition table_line (ws : list nat) (r : list string) : string :=
  trim_end ("  " +:+ join "  " (zip_with (fun w c => padEnd w c) ws r)).
Fixpoint table_lines (ws : list nat) (first : bool) (rows : list (list string)) : list string :=
  match rows with
  | [] => []
  | r :: rest =>
      (match rest with [] => [rule ws] | _ => [] end) ++ [table_line ws r] ++
      (if first then [rule ws] else []) ++ table_lines ws false rest
  end.
Definition renderTable (rows : list (list string)) : string :=
  join nl (table_lines (widths rows) true rows).

Section report.
Context {HK : Honker} {PF : Platform}.

Fixpoint fmt_binary (v : num) (unit : string) (rest : list string) : string :=
  match rest with
  | [] => toFixed 1 v +:+ " " +:+ unit
  | u :: rest' =>
      if num_ltb (num_abs v) (num_of_Z 1024)
      then (if String.eqb unit "B" then num_str (num_round v) else toFixed 1 v) +:+ " " +:+ unit
      else fmt_binary (num_div v (num_of_Z 1024)) u rest'
  end.
(** The units of [labquota]. *)
Definition fmtBytes (n : option num) : string :=
  match n with None => "—" | Some v => fmt_binary v "B" ["KiB"; "MiB"; "GiB"; "TiB"] end.

Definition fmtPct (used quota : option num) : string :=
  match used, quota with
  | Some u, Some q =>
      if negb (num_truthy q) || num_leb q (num_of_Z 0) then ""
      else " (" +:+ num_str (num_floor (num_div (num_mul u (num_of_Z 100)) q)) +:+ "%)"
  | _, _ => ""
  end.

Definition fmtPair (cell : option Cell) : string :=
  match cell with
  | None => "—"
  | Some c =>
      (match c_quota c with
       | Some q => if num_truthy q then fmtBytes (Some (c_used c)) +:+ " / " +:+ fmtBytes (Some q)
                   else fmtBytes (Some (c_used c))
       | None => fmtBytes (Some (c_used c))
       end) +:+ fmtPct (Some (c_used c)) (c_quota c)
  end.

Definition fmtShare (used totalQuota : option num) : string :=
  match used with None => "—" | Some u => fmtBytes (Some u) +:+ fmtPct (Some u) totalQuota end.

(** The rows of the table for a roster: header, students by name, total. *)
Definition report_rows (samples : list (string * Cell)) (placementId : Z) (highlight : option Z)
    (members : list Member) : list (list string) :=
  let cell student pool := alookup (sampleKey placementId student pool) samples in
  let usedOf student pool := c_used <$> cell student pool in
  let fastQuota := cell None "fast" ≫= c_quota in
  let coldQuota := cell None "cold" ≫= c_quota in
  [["STUDENT"; "HOME (fast)"; "COLD (slow)"]] ++
  ((fun m =>
      let s := mb_student m in
      [(if bool_decide (Some (s_id s) = highlight) then s_username s +:+ "  (you)" else s_username s);
       fmtShare (usedOf (Some (s_id s)) "fast") fastQuota;
       fmtShare (usedOf (Some (s_id s)) "cold") coldQuota])
    <$> sort_by (fun a b => locale_leb (s_username (mb_student a)) (s_username (mb_student b))) members) ++
  [["TOTAL"; fmtPair (cell None "fast"); fmtPair (cell None "cold")]].

Definition buildUsageReport (placementId : Z) (highlight : option Z) : Act (option UsageReport) :=
  p ← getPlacement placementId;
  match p with
  | None => mret None
  | Some v =>
      lab ← getLab (p_lab_id (pl_row v));
      samples ← latestSamples;
      members ← listMembers (p_lab_id (pl_row v));
      let cell pool := alookup (sampleKey placementId None pool) samples in
      let rows := report_rows samples placementId highlight members in
      let liveUpdatedAt := max_ts (omap (fun pool => c_ts <$> cell pool) ["fast"; "cold"; "rootfs"]) in
      live ← ago liveUpdatedAt;
      scanned ← ago (ceil_Z <$> p_usage_scanned_at (pl_row v));
      let lines :=
        ["Lab '" +:+ pl_lab_name v +:+ "' on node " +:+ pl_node_name v +:+ " — storage usage";
         "  live totals " +:+ live +:+ " · per-student scan " +:+ scanned; "";
         renderTable rows; ""; "  ROOTFS (shared)  " +:+ fmtPair (cell "rootfs")] ++
        (if is_some liveUpdatedAt then [] else [""; "  (no live lab totals have been reported yet)"]) in
      mret (Some {| rp_text := join nl lines; rp_labId := p_lab_id (pl_row v);
        rp_labName := pl_lab_name v; rp_nodeName := pl_node_name v;
        rp_piName := lab ≫= l_pi_name; rp_piEmail := lab ≫= l_pi_email;
        rp_students := (fun m => let s := mb_student m in
            mkReportStudent (s_id s) (s_username s) (s_name s) (s_email s)) <$> members |})
  end.
End report.
