(* ===== verification/Actions.v ===== *)
(** * Actions: the server actions of the nodes, GPU, announcements, templates and students pages

    The [actions.ts] files of [app/(app)/]: each action gates on an administrator's session,
    reads its form, calls the libraries and redirects.  [revalidatePath] marks a page for
    re-rendering and touches no state modelled here, so it is left out.  This file also holds
    the steps the actions of all pages share. *)
From S2P Require Import Prelude Js Numbers Csv Schema Sql DbWf Env Secrets Queue Settings Mailer Placements Labs Students Nodes Hub HubConn Web Gpu Announce RateLimit Flash Auth.
Open Scope Z_scope.

Section actions.
Context {HK : Honker} {PF : Platform} {AL : AuthLib}.

(** ** Shared steps *)

(** [(await requireAdmin()).email] *)
Definition actor : WAct string := a ← requireAdmin; mret (adm_email a).

(** [try { m } catch (e) { redirect(to(putFlash(e.message))) }] *)
Definition or_flash {A} (m : Act A) (to : string) : WAct A :=
  catch (on_act m) (fun e => fid ← putFlash (error_text e); redirect (to +:+ fid)).

(** [let error = null; try { m } catch (e) { error = e.message }] *)
Definition error_of (m : Act unit) : WAct (option string) :=
  catch (on_act m;; mret None) (fun e => mret (Some (error_text e))).

(** [try { m; msg = ok } catch (e) { msg = e.message }] *)
Definition message_of {A} (m : Act A) (ok : A -> string) : WAct string :=
  catch (a ← on_act m; mret (ok a)) (fun e => mret (error_text e)).

(** [putFlash(msg); redirect(`${to}${fid}`)] *)
Definition flash_redirect {A} (msg to : string) : WAct A := fid ← putFlash msg; redirect (to +:+ fid).

(** [String(formData.get(k) ?? "").trim()], and in lower case *)
Definition form_trim (k : string) (f : FormData) : string := trim (form_str k f).
Definition form_name (k : string) (f : FormData) : string := to_lower (form_trim k f).
(** [... || undefined] *)
Definition form_opt (k : string) (f : FormData) : option string := or_null (form_trim k f).

Definition plural (n : nat) (s : string) : string := if (n =? 1)%nat then s else s +:+ "s".
Definition nat_str (n : nat) : string := string_of_Z (Z.of_nat n).

(** ** [nodes/actions.ts] *)

Definition showToken (name token : string) : WAct unit :=
  flash ← putFlash token;
  redirect ("/nodes?provisioned=" +:+ encodeURIComponent name +:+ "&token_flash=" +:+ flash).

Definition provisionNodeAction (f : FormData) : WAct unit :=
  admin ← requireAdmin;
  let name := form_name "name" f in
  if negb (isValidNodeName name)
  then redirect "/nodes?error=Invalid+node+name+(use+a-z+0-9+and+hyphen)"
  else token ← on_act (provisionNode name (Some (adm_email admin))); showToken name token.

Definition rotateNodeTokenAction (f : FormData) : WAct unit :=
  admin ← requireAdmin;
  let name := form_name "name" f in
  token ← on_act (rotateNodeToken name (Some (adm_email admin)));
  showToken name token.

Definition revokeNodeAction (f : FormData) : WAct unit :=
  admin ← requireAdmin;
  let name := form_name "name" f in
  on_act (revokeNode name (Some (adm_email admin)));;
  redirect ("/nodes?revoked=" +:+ encodeURIComponent name).

(** [if (error) redirect("/nodes?error=" + ...); redirect(to)] *)
Definition nodes_redirect (error : option string) (to : string) : WAct unit :=
  match error ≫= or_null with
  | Some e => redirect ("/nodes?error=" +:+ encodeURIComponent e)
  | None => redirect to
  end.

Definition setNodeAliasAction (f : FormData) : WAct unit :=
  admin ← requireAdmin;
  let name := form_name "name" f in
  error ← error_of (setNodeAlias name (form_str "alias" f) (Some (adm_email admin)));
  nodes_redirect error "/nodes".

(** The cast of the form's text to a backend; any other text makes [setNodeColdStorage] throw
    before anything is read. *)
Definition backend_of (s : string) : option ColdBackend :=
  if String.eqb s "local_zfs" then Some LocalZfs else if String.eqb s "smb" then Some Smb else None.

Definition setNodeColdStorageAction (f : FormData) : WAct unit :=
  admin ← requireAdmin;
  let name := form_name "name" f in
  let backend := nullish (form_get "backend" f) "local_zfs" in
  let ownerName := or_null (form_name "ownerName" f) in
  error ← error_of (
    match backend_of backend with
    | Some b => setNodeColdStorage name b (if bool_decide (b = Smb) then ownerName else None)
                  (Some (adm_email admin))
    | None => throw (EInvalidBackend backend)
    end);
  nodes_redirect error "/nodes".

Definition deleteNodeAction (f : FormData) : WAct unit :=
  admin ← requireAdmin;
  let name := form_name "name" f in
  error ← error_of (deleteNode name (Some (adm_email admin)) (form_is "force" "1" f));
  nodes_redirect error ("/nodes?deleted=" +:+ encodeURIComponent name).

Definition nodeTask (f : FormData) (action who : string) : Act string :=
  let name := form_name "name" f in
  throw_if (negb (isValidNodeName name)) EBadNodeName;;
  enqueueTask name action (JObj []) (Some who);;
  mret name.

(** The queued action and the notice of the three maintenance buttons. *)
Definition node_button (action notice : string) (f : FormData) : WAct unit :=
  who ← actor;
  name ← on_act (nodeTask f action who);
  redirect ("/nodes?maintenance=" +:+ encodeURIComponent (notice +:+ " queued for " +:+ name)).
Definition checkNodeAction : FormData -> WAct unit := node_button "node.check" "Health check".
Definition repairNodeAction : FormData -> WAct unit := node_button "node.repair" "Safe repair".
Definition rebootNodeAction : FormData -> WAct unit := node_button "node.reboot" "Reboot".

(** ** [gpu/actions.ts] *)

Definition clearGpuEventsAction : WAct unit :=
  who ← actor;
  cleared ← on_act (clearGpuEvents who);
  redirect ("/gpu?cleared=" +:+
    encodeURIComponent ("Cleared " +:+ nat_str cleared +:+ " " +:+ plural cleared "event")).

Definition deleteGpuEventAction (f : FormData) : WAct unit :=
  who ← actor;
  msg ← message_of (deleteGpuEvent (row_id (form_num "id" f)) who) (fun _ => "Event deleted");
  redirect ("/gpu?cleared=" +:+ encodeURIComponent msg).

(** ** [announcements/actions.ts] *)

Definition to_announcements (msg : string) : WAct unit :=
  redirect ("/announcements?msg=" +:+ encodeURIComponent msg).

(** The fields [ph_<TOKEN>] of the form; a later field of a token wins. *)
Definition placeholders_of (f : FormData) : list (string * string) :=
  fold_left (fun m kv => if starts_with "ph_" kv.1 then aset (drop_str 3 kv.1) kv.2 m else m) f [].

(** What the action hands to [sendAnnouncement]. *)
Definition announcement_of (admin : Admin) (f : FormData) : Announcement :=
  {| as_subject := form_str "subject" f; as_body := form_str "body" f;
     as_audiences := (if form_is "students" "on" f then [Students] else []) ++
                     (if form_is "pis" "on" f then [Pis] else []);
     as_individuals := form_all "recipient" f; as_placeholders := placeholders_of f;
     as_sender := Some (adm_name admin, adm_email admin); as_actor := Some (adm_email admin) |}.

Definition sendAnnouncementAction (f : FormData) : WAct unit :=
  admin ← requireAdmin;
  msg ← message_of (sendAnnouncement (announcement_of admin f))
    (fun res =>
       if ar_skipped res
       then "SMTP not configured — nothing sent (" +:+ nat_str (ar_recipients res) +:+
            " recipient(s) would have been targeted)"
       else "Sent to " +:+ nat_str (ar_sent res) +:+ " of " +:+ nat_str (ar_recipients res) +:+
            " recipient(s)");
  to_announcements msg.

Definition deleteAnnouncementAction (f : FormData) : WAct unit :=
  admin ← requireAdmin;
  msg ← message_of (deleteAnnouncement (row_id (form_num "id" f)) (adm_email admin))
          (fun _ => "Announcement deleted");
  to_announcements msg.

Definition clearAnnouncementsAction : WAct unit :=
  admin ← requireAdmin;
  cleared ← on_act (clearAnnouncements (adm_email admin));
  to_announcements ("Cleared " +:+ nat_str cleared +:+ " " +:+ plural cleared "announcement").

(** ** [email-templates/actions.ts] *)

Definition saveUniversalSignatureAction (f : FormData) : WAct unit :=
  requireAdmin;;
  on_act (setSetting "emailSignatureText" (JStr (form_trim "signatureText" f))).

(** A subject and a body under the keys of one mail: ten actions differ in the keys only. *)
Definition save_pair (subjectKey bodyKey : string) (f : FormData) : WAct unit :=
  requireAdmin;;
  on_act (setSetting subjectKey (JStr (form_trim "subject" f)));;
  on_act (setSetting bodyKey (JStr (form_str "body" f))).
Definition saveWelcomeEmailAction := save_pair "welcomeEmailSubject" "welcomeEmailBody".
Definition saveGpuWarnEmailAction := save_pair "gpuWarnEmailSubject" "gpuWarnEmailBody".
Definition saveGpuKillEmailAction := save_pair "gpuKillEmailSubject" "gpuKillEmailBody".
Definition saveRemovalEmailAction := save_pair "removalEmailSubject" "removalEmailBody".
Definition saveQuotaEmailAction := save_pair "quotaEmailSubject" "quotaEmailBody".
Definition saveStudentQuotaEmailAction := save_pair "studentQuotaEmailSubject" "studentQuotaEmailBody".
Definition savePlacementCompleteEmailAction :=
  save_pair "placementCompleteEmailSubject" "placementCompleteEmailBody".
Definition saveUsageReportStudentEmailAction :=
  save_pair "usageReportStudentSubject" "usageReportStudentBody".
Definition saveUsageReportPiEmailAction := save_pair "usageReportPiSubject" "usageReportPiBody".
Definition saveTestEmailAction := save_pair "testEmailSubject" "testEmailBody".

(** The action a card of the templates page submits to. *)
Inductive Mail :=
| MWelcome | MPlacementComplete | MGpuWarn | MGpuKill | MRemoval | MQuota | MStudentQuota
| MUsageReportStudent | MUsageReportPi | MTest.
Definition save_mail (m : Mail) : FormData -> WAct unit :=
  match m with
  | MWelcome => saveWelcomeEmailAction
  | MPlacementComplete => savePlacementCompleteEmailAction
  | MGpuWarn => saveGpuWarnEmailAction
  | MGpuKill => saveGpuKillEmailAction
  | MRemoval => saveRemovalEmailAction
  | MQuota => saveQuotaEmailAction
  | MStudentQuota => saveStudentQuotaEmailAction
  | MUsageReportStudent => saveUsageReportStudentEmailAction
  | MUsageReportPi => saveUsageReportPiEmailAction
  | MTest => saveTestEmailAction
  end.

Definition withTemplateFlash {A} (fn : Act A) : WAct unit :=
  requireAdmin;; or_flash fn "/email-templates?error=";; mret tt.

Definition template_input (f : FormData) : TemplateInput :=
  mkTemplateInput (form_str "name" f) (form_str "subject" f) (form_str "body" f).

Definition createAnnouncementTemplateAction (f : FormData) : WAct unit :=
  withTemplateFlash (createAnnouncementTemplate (template_input f)).
Definition updateAnnouncementTemplateAction (f : FormData) : WAct unit :=
  withTemplateFlash (updateAnnouncementTemplate (row_id (form_num "id" f)) (template_input f)).
Definition deleteAnnouncementTemplateAction (f : FormData) : WAct unit :=
  withTemplateFlash (deleteAnnouncementTemplate (row_id (form_num "id" f)));;
  flash_redirect "Announcement template deleted." "/email-templates?saved=".

(** ** [students/actions.ts] *)

Definition MAX_IMPORT_ROWS : nat := 500.
Record ImportResult := mkImportResult { res_added : nat; res_skipped : nat; res_error : option string }.

(** One row: rows with issues, and rows the roster refuses, are skipped. *)
Fixpoint import_loop (labId : Z) (who : string) (l : list ImportRow) (added skipped : nat)
    : Act (nat * nat) :=
  match l with
  | [] => mret (added, skipped)
  | row :: l' =>
      ok ← (if negb (bool_decide (ir_issues row = [])) then mret false
            else catch (
              addStudentToLab labId
                {| si_username := ir_username row; si_email := ir_email row;
                   si_name := ir_name row; si_studentId := ir_studentId row |} (Some who);;
              mret true) (fun _ => mret false));
      if ok : bool then import_loop labId who l' (S added) skipped
      else import_loop labId who l' added (S skipped)
  end.

(** The rows have the type the browser sends; [labId] is [Number(input.labId)]. *)
Definition importStudentsAction (labId : num) (rows : list RawImportRow) (requireEmail : bool)
    : WAct ImportResult :=
  who ← actor;
  if negb (num_truthy labId) then mret (mkImportResult 0 0 (Some "Select a target lab"))
  else if bool_decide (rows = []) then mret (mkImportResult 0 0 (Some "No rows to import"))
  else if (MAX_IMPORT_ROWS <? length rows)%nat
  then mret (mkImportResult 0 0 (Some ("Too many rows (" +:+ nat_str (length rows) +:+ "); max " +:+
               nat_str MAX_IMPORT_ROWS +:+ " per import")))
  else
    counts ← on_act (import_loop (row_id labId) who (validateImportRows rows requireEmail) 0 0);
    mret (mkImportResult counts.1 counts.2 None).

Definition removeStudentAction (f : FormData) : WAct unit :=
  who ← actor;
  on_act (removeStudentFromLab (row_id (form_num "labId" f)) (row_id (form_num "studentId" f))
    (form_is "deleteData" "on" f) (Some who));;
  redirect "/students".
End actions.
