(* ===== verification/LabActions.v ===== *)
(** * LabActions: [app/(app)/labs/actions.ts], the server actions of the lab pages

    An id of a form is [Number] of its field; the redirects print it as JavaScript prints the
    number. *)
From S2P Require Import Prelude Js Numbers Csv Schema Sql DbWf Env Secrets Queue Settings Format Mailer Placements Labs Students LabImport Nodes Hub HubConn Web RateLimit Flash Auth Actions.
Open Scope Z_scope.

Definition MAX_QUOTA_BYTES : num := num_mul (num_of_Z 100000) (num_of_Z TIB).
Definition DEFAULT_IMAGE : string := "ghcr.io/ec061/custom-ssh:latest".

(** [String(formData.get(k) ?? d)] *)
Definition form_or (k d : string) (f : FormData) : string := nullish (form_get k f) d.

Definition containerOptionsFromForm (f : FormData) : ContainerOptions :=
  {| co_cpus := form_or "cpus" "4" f; co_memory := form_or "memory" "8g" f;
     co_shm_size := form_or "shmSize" "1g" f; co_rootfs_quota := form_or "rootfsQuota" "300g" f;
     co_restart := form_or "restart" "unless-stopped" f |}.

(** [QUOTA_UNIT_BYTES[String(unit)]]; an inherited property of the object is no number and its
    bytes are refused as well, with another message. *)
Definition unit_of (unit : option string) : option QuotaUnit :=
  match unit with
  | Some "MB" => Some UMB
  | Some "GB" => Some UGB
  | Some "TB" => Some UTB
  | _ => None
  end.

Section lab_actions.
Context {HK : Honker} {PF : Platform} {AL : AuthLib}.

(** [Number(value)] of a form's field *)
Definition entry_num (value : option string) : num :=
  js_Number (Some (match value with Some s => JStr s | None => JNull end)).

Definition tbToBytes (value : option string) (label : string) : result exn Z :=
  let tb := entry_num value in
  if negb (is_finite tb) || num_leb tb (num_of_Z 0) || num_ltb (num_of_Z 100000) tb
  then Throw (EQuotaTb label)
  else Ok (trunc_Z (num_round (num_mul tb (num_of_Z TIB)))).

Definition amountToBytes (amount unit : option string) (label : string) : result exn Z :=
  let n := entry_num amount in
  match unit_of unit with
  | None => Throw (EQuotaUnit label)
  | Some u =>
      if negb (is_finite n) || num_leb n (num_of_Z 0) then Throw (EQuotaAmount label)
      else
        let bytes := num_round (num_mul n (num_of_Z (QUOTA_UNIT_BYTES u))) in
        if num_ltb MAX_QUOTA_BYTES bytes then Throw (EQuotaTooLarge label) else Ok (trunc_Z bytes)
  end.

(** A quota guarded by its check box. *)
Definition optional_tb (enabled : bool) (value : option string) (label : string)
    : result exn (option Z) :=
  if enabled then q ← tbToBytes value label; mret (Some q) else mret None.

(** [`/labs/${labId}...`] and the page of a placement *)
Definition lab_page (labId : num) (rest : string) : string := "/labs/" +:+ num_str labId +:+ rest.
Definition placement_page (v : Placement) (placementId : string) (rest : string) : string :=
  "/labs/" +:+ string_of_Z (p_lab_id (pl_row v)) +:+ "/placements/" +:+ placementId +:+ rest.

(** ** Labs *)

Definition createLabAction (f : FormData) : WAct unit :=
  who ← actor;
  let name := form_trim "name" f in
  let piName := form_opt "piName" f in
  let piEmail := form_opt "piEmail" f in
  let piUsername := form_name "piUsername" f in
  (if truthy name then mret tt else throw ELabNameRequired);;
  lab ← on_act (createLab (mkCreateLab name piName piEmail (Some who)));
  when (truthy piUsername) (on_act (
    ensurePiAccess (l_id lab) {| si_username := piUsername; si_email := piEmail;
      si_name := piName; si_studentId := None |} (Some who);; mret tt));;
  let copyFromLabId := form_num "copyFromLabId" f in
  if num_truthy copyFromLabId && form_is "copyStudents" "on" f then
    res ← on_act (copyMembers (row_id copyFromLabId) (l_id lab) (Some who));
    flash_redirect
      ("Created " +:+ l_name lab +:+ ". Copied " +:+ nat_str (cm_added res) +:+ " " +:+
       plural (cm_added res) "student" +:+ " to the roster" +:+
       (if (0 <? cm_skipped res)%nat then "; " +:+ nat_str (cm_skipped res) +:+ " already members" else "") +:+
       ". Grant the lab access to a node to provision them.")
      ("/labs/" +:+ string_of_Z (l_id lab) +:+ "?saved=")
  else redirect ("/labs/" +:+ string_of_Z (l_id lab)).

Definition updateLabMetaAction (f : FormData) : WAct unit :=
  who ← actor;
  let labId := form_num "labId" f in
  let piName := form_trim "piName" f in
  let piEmail := form_trim "piEmail" f in
  let piUsername := form_name "piUsername" f in
  (if truthy piUsername
   then on_act (ensurePiAccess (row_id labId) {| si_username := piUsername;
          si_email := Some piEmail; si_name := Some piName; si_studentId := None |} (Some who);; mret tt)
   else on_act (updateLabMeta (row_id labId) (Some (Some piName)) (Some (Some piEmail)) (Some who)));;
  flash_redirect "Lab metadata saved." (lab_page labId "?saved=").

Definition destroyLabAction (f : FormData) : WAct unit :=
  who ← actor;
  let labId := form_num "labId" f in
  res ← or_flash (destroyLab (row_id labId) (Some who) (form_is "force" "1" f))
          (lab_page labId "?error=");
  if dl_deleted res then redirect "/labs"
  else flash_redirect
    ("Tearing down " +:+ nat_str (dl_teardownStarted res) +:+
     " placement(s). The lab is removed once every node confirms; delete again then.")
    (lab_page labId "?saved=").

(** ** Placements *)

(** The arguments are evaluated in the order of the object literal. *)
Definition grant_input (f : FormData) (labId nodeId : Z) (image who : string)
    : Act CreatePlacementInput :=
  fast ← lift (tbToBytes (form_get "fastTb" f) "Fast");
  cold ← lift (match form_get "coldTb" f with
               | None => mret None
               | Some s => if truthy s then q ← tbToBytes (Some s) "Cold"; mret (Some q) else mret None
               end);
  studentFast ← lift (optional_tb (form_is "enableStudentFastQuota" "on" f)
                        (form_get "studentFastTb" f) "Per-student fast");
  studentCold ← lift (optional_tb (form_is "enableStudentColdQuota" "on" f)
                        (form_get "studentColdTb" f) "Per-student cold");
  port ← nextSshPortForNode nodeId;
  mret {| ci_labId := labId; ci_nodeId := nodeId; ci_fastQuotaBytes := fast;
          ci_coldQuotaBytes := cold; ci_studentFastQuotaBytes := studentFast;
          ci_studentColdQuotaBytes := studentCold; ci_sshPort := port; ci_image := image;
          ci_containerOptions := containerOptionsFromForm f; ci_actor := Some who |}.

Definition grantNodeAccessAction (f : FormData) : WAct unit :=
  who ← actor;
  let labId := form_num "labId" f in
  let nodeId := form_num "nodeId" f in
  let image := or_str (form_trim "image" f) DEFAULT_IMAGE in
  or_flash (
    throw_if (negb (num_truthy labId) || negb (num_truthy nodeId)) ELabAndNodeRequired;;
    input ← grant_input f (row_id labId) (row_id nodeId) image who;
    createPlacement input) (lab_page labId "?error=");;
  flash_redirect "Node access granted — provisioning the lab and roster on that node."
    (lab_page labId "?saved=").

(** A filled-in field. *)
Definition filled (value : option string) : bool :=
  match value with Some s => truthy s | None => false end.

Definition setPlacementQuotaAction (f : FormData) : WAct unit :=
  who ← actor;
  let placementId := row_id (form_num "placementId" f) in
  placement ← on_act (getPlacement placementId);
  match placement with
  | None => mret tt
  | Some v =>
      let fastAmount := form_get "fastAmount" f in
      let coldAmount := form_get "coldAmount" f in
      let page := placement_page v (string_of_Z (p_id (pl_row v))) in
      or_flash (
        fast ← lift (if filled fastAmount
                     then q ← amountToBytes fastAmount (form_get "fastUnit" f) "Fast"; mret (Some q)
                     else mret None);
        cold ← lift (if is_some (p_cold_quota_bytes (pl_row v)) && filled coldAmount
                     then q ← amountToBytes coldAmount (form_get "coldUnit" f) "Cold"; mret (Some (Some q))
                     else mret None);
        updatePlacementQuota placementId fast cold (Some who)) (page "?error=");;
      flash_redirect "Quota update queued. Desired and agent-reported values are shown separately until it applies."
        (page "?saved=")
  end.

Definition recreatePlacementAction (f : FormData) : WAct unit :=
  who ← actor;
  let placementId := row_id (form_num "placementId" f) in
  placement ← on_act (getPlacement placementId);
  match placement with
  | None => mret tt
  | Some _ => on_act (recreatePlacement placementId (mkRecreate None None None None) (Some who))
  end.

Definition recreatePlacementSettingsAction (f : FormData) : WAct unit :=
  who ← actor;
  let placementId := form_num "placementId" f in
  placement ← on_act (getPlacement (row_id placementId));
  match placement with
  | None => redirect "/labs"
  | Some v =>
      let image := or_str (form_trim "image" f) DEFAULT_IMAGE in
      let page := placement_page v (num_str placementId) in
      or_flash (
        fast ← lift (optional_tb (form_is "enableStudentFastQuota" "on" f)
                       (form_get "studentFastTb" f) "Per-student fast");
        cold ← lift (optional_tb (negb (bool_decide (pl_cold_backend v = Smb)) &&
                                  form_is "enableStudentColdQuota" "on" f)
                       (form_get "studentColdTb" f) "Per-student cold");
        recreatePlacement (row_id placementId)
          (mkRecreate (Some image) (Some (containerOptionsFromForm f)) (Some fast) (Some cold)) (Some who))
        (page "/recreate?error=");;
      flash_redirect "Container recreate queued — the node validates the image, brings up a candidate, verifies readiness, then promotes it (data preserved)."
        (page "?saved=")
  end.

Definition retryPlacementAction (f : FormData) : WAct unit :=
  who ← actor;
  let placementId := form_num "placementId" f in
  placement ← on_act (getPlacement (row_id placementId));
  match placement with
  | None => redirect "/labs"
  | Some v =>
      let page := placement_page v (num_str placementId) in
      or_flash (retryPlacement (row_id placementId) (Some who)) (page "?error=");;
      flash_redirect "Placement retry queued with its existing storage and container settings."
        (page "?saved=")
  end.

Definition revealPlacementCredentialAction (f : FormData) : WAct unit :=
  who ← actor;
  let placementId := form_num "placementId" f in
  let studentId := row_id (form_num "studentId" f) in
  placement ← on_act (getPlacement (row_id placementId));
  match placement with
  | None => redirect "/labs"
  | Some v =>
      let page := placement_page v (num_str placementId) in
      revealed ← or_flash (consumePlacementCredential (row_id placementId) studentId (Some who))
                   (page "?error=");
      fid ← putFlash revealed.2;
      redirect (page ("?credential=" +:+ fid +:+ "&username=" +:+ encodeURIComponent revealed.1))
  end.

Definition removePlacementAction (f : FormData) : WAct unit :=
  who ← actor;
  let placementId := form_num "placementId" f in
  let force := form_is "force" "1" f in
  placement ← on_act (getPlacement (row_id placementId));
  match placement with
  | None => redirect "/labs"
  | Some v =>
      or_flash (if force then forceDeletePlacement (row_id placementId) (Some who)
                else destroyPlacement (row_id placementId) (Some who))
        (placement_page v (num_str placementId) "?error=");;
      flash_redirect
        (if force
         then "Placement force-removed from the controller. If the node ever reconnects, its leftover container and data are cleaned up then."
         else "Removal queued. The placement remains visible on the lab page until the node confirms destruction.")
        ("/labs/" +:+ string_of_Z (p_lab_id (pl_row v)) +:+ "?saved=")
  end.

(** ** The roster *)

Definition addMemberAction (f : FormData) : WAct unit :=
  who ← actor;
  let labId := form_num "labId" f in
  let username := form_name "username" f in
  (if truthy username then mret tt else throw EUsernameRequired);;
  res ← on_act (addStudentToLab (row_id labId) {| si_username := username;
          si_email := form_opt "email" f; si_name := form_opt "name" f;
          si_studentId := form_opt "studentId" f |} (Some who));
  let n := length (am_provisioned res) in
  flash_redirect
    (if (n =? 0)%nat
     then "Added " +:+ username +:+ " to the roster. They are provisioned automatically when the lab is granted node access."
     else "Added " +:+ username +:+ "; provisioning queued on " +:+ nat_str n +:+
          " node(s). Credentials are delivered only after each node confirms success.")
    (lab_page labId "?saved=").

Definition previewRosterImportAction (labId : num) (text : string) : WAct RosterImportPlan :=
  requireAdmin;; on_act (planRosterImport (row_id labId) text).

(** The result, or the error's message. *)
Definition applyRosterImportAction (labId : num) (text : string) : WAct (RosterImportResult + string) :=
  who ← actor;
  catch (res ← on_act (applyRosterImport (row_id labId) text (Some who)); mret (inl res))
    (fun e => mret (inr (error_text e))).

Definition removeMemberAction (f : FormData) : WAct unit :=
  who ← actor;
  let labId := form_num "labId" f in
  let deleteData := form_is "deleteData" "on" f in
  or_flash (removeStudentFromLab (row_id labId) (row_id (form_num "studentId" f)) deleteData (Some who))
    (lab_page labId "?error=");;
  flash_redirect
    (if deleteData
     then "Student removed from the roster; their account and data are being deleted on every node."
     else "Student removed from the roster; their account is being deprovisioned on every node (data kept).")
    (lab_page labId "?saved=").
End lab_actions.
