(* ===== verification/SettingsActions.v ===== *)
(** * SettingsActions: [app/(app)/settings/actions.ts], the server actions of the settings page

    With them the actions of the backups page. *)
From S2P Require Import Prelude Js Numbers Schema Sql DbWf Env Secrets Queue Settings Format Mailer Hub HubConn Web Maintenance WebDav Backup RateLimit Flash Auth Actions.
From Stdlib Require Import Ascii.
Open Scope Z_scope.

(** [/^(https?):\/\//i] at the start of the host: the scheme's security and the rest. *)
Definition match_scheme (input : string) : option (bool * string) :=
  if starts_with "https://" (to_lower input) then Some (true, drop_str 8 input)
  else if starts_with "http://" (to_lower input) then Some (false, drop_str 7 input)
  else None.

(** [input.split(/[/?#]/)[0]] *)
Fixpoint before_path (s : string) : string :=
  match s with
  | EmptyString => ""
  | String c s' => if c_of "/?#" c then "" else String c (before_path s')
  end.

(** The text before and after the last colon. *)
Fixpoint split_last_colon (s : string) : option (string * string) :=
  match s with
  | EmptyString => None
  | String c s' =>
      match split_last_colon s' with
      | Some (a, b) => Some (String c a, b)
      | None => if Ascii.eqb c ":" then Some ("", s') else None
      end
  end.

Record SmtpHost := mkSmtpHost { sh_host : string; sh_port : num; sh_secure : bool }.

Section settings_actions.
Context {HK : Honker} {PF : Platform} {AL : AuthLib} {TZ : Zones}.

(** An embedded port wins over the field's; the scheme, or the port 465, decides about TLS. *)
Definition parseSmtpHost (raw : string) (portField : num) : SmtpHost :=
  let input := trim raw in
  let scheme := match_scheme input in
  let input := before_path (match scheme with Some (_, rest) => rest | None => input end) in
  let '(input, port) := match split_last_colon input with
    | Some (host, p) =>
        let p := str_to_num p in
        (host, if num_ltb (num_of_Z 0) p then p else portField)
    | None => (input, portField)
    end in
  mkSmtpHost (trim input) port
    (match scheme with Some (secure, _) => secure | None => num_eqb port (num_of_Z 465) end).

(** [Number(...) || d] *)
Definition num_or (n : num) (d : Z) : num := if num_truthy n then n else num_of_Z d.
(** [Number.isFinite(n) && ok ? x : d] *)
Definition finite_or (n : num) (ok : bool) (x : num) (d : Z) : num :=
  if is_finite n && ok then x else num_of_Z d.
Definition hour_or (hour : num) (d : Z) : num :=
  finite_or hour (num_leb (num_of_Z 0) hour && num_leb hour (num_of_Z 23)) (num_trunc hour) d.

(** The zone's name if [Intl.DateTimeFormat] takes it. *)
Definition valid_zone (tz : string) : string :=
  if truthy tz && is_some (wall_clock tz 0) then tz else "UTC".

Definition set_flag (key : string) (f : FormData) : Act unit := setSetting key (JBool (form_is key "on" f)).

Definition saveStorageSettingsAction (f : FormData) : WAct unit :=
  requireAdmin;;
  let fastTb := form_num "fastTb" f in
  let slowTb := form_num "slowTb" f in
  let portStart := form_num "sshPortStart" f in
  let portEnd := form_num "sshPortEnd" f in
  let positive n := num_ltb (num_of_Z 0) n in
  let bytes n := JNum (num_round (num_mul n (num_of_Z TIB))) in
  on_act (
    when (positive fastTb) (setSetting "fastQuotaDefaultBytes" (bytes fastTb));;
    when (positive slowTb) (setSetting "slowQuotaDefaultBytes" (bytes slowTb));;
    when (positive portStart) (setSetting "sshPortStart" (JNum portStart));;
    when (num_ltb portStart portEnd) (setSetting "sshPortEnd" (JNum portEnd))).

Definition saveUsageScanSettingsAction (f : FormData) : WAct unit :=
  requireAdmin;;
  on_act (
    set_flag "usageScanEnabled" f;;
    setSetting "usageScanHour" (JNum (hour_or (form_num "usageScanHour" f) 3));;
    setSetting "usageScanTimezone" (JStr (valid_zone (form_trim "usageScanTimezone" f)))).

Definition config_json (c : SmtpConfig) : json :=
  JObj [("id", JStr (sc_id c)); ("name", JStr (sc_name c)); ("rank", JNum (sc_rank c));
        ("host", JStr (sc_host c)); ("port", JNum (sc_port c)); ("secure", JBool (sc_secure c));
        ("user", JStr (sc_user c)); ("pass", JStr (sc_pass c)); ("from", JStr (sc_from c))].

(** [Math.max(0, ...configs.map((c) => c.rank)) + 1]; the ranks are finite. *)
Definition next_rank (configs : list SmtpConfig) : num :=
  num_add (fold_left (fun m c => if num_ltb m (sc_rank c) then sc_rank c else m) configs (num_of_Z 0))
    (num_of_Z 1).

Definition saveSmtpSettingsAction (f : FormData) : WAct unit :=
  requireAdmin;;
  let server := parseSmtpHost (form_str "smtpHost" f) (num_or (form_num "smtpPort" f) 587) in
  on_act (
    configs ← getSmtpConfigs;
    id ← (match form_opt "smtpId" f with Some i => mret i | None => new_uuid end);
    let existing := get_row (fun c => sc_id c = id) configs in
    let rankValue := form_num "smtpRank" f in
    let rank := if is_finite rankValue && num_ltb (num_of_Z 0) rankValue then num_trunc rankValue
                else nullish (sc_rank <$> existing) (next_rank configs) in
    let updated := {| sc_id := id;
      sc_name := or_str (form_trim "smtpName" f) ("SMTP " +:+ num_str rank); sc_rank := rank;
      sc_host := sh_host server; sc_port := sh_port server; sc_user := form_trim "smtpUser" f;
      sc_pass := or_str (form_str "smtpPass" f) (default "" (sc_pass <$> existing));
      sc_from := form_trim "smtpFrom" f; sc_secure := sh_secure server |} in
    setSetting "smtpConfigs" (JArr (config_json <$>
      (if is_some existing then update_where (fun c => sc_id c = id) (fun _ => updated) configs
       else configs ++ [updated])))).

Definition deleteSmtpSettingsAction (f : FormData) : WAct unit :=
  requireAdmin;;
  let id := form_str "smtpId" f in
  removed ← on_act (
    configs ← getSmtpConfigs;
    setSetting "smtpConfigs" (JArr (config_json <$> delete_where (fun c => sc_id c = id) configs));;
    mret (get_row (fun c => sc_id c = id) configs));
  redirect ("/settings?smtp=" +:+ encodeURIComponent
    (match removed with Some c => "Deleted " +:+ sc_name c | None => "SMTP server deleted" end)).

Definition saveAlertSettingsAction (f : FormData) : WAct unit :=
  requireAdmin;;
  let level := nullish (form_get "alertLevel" f) "ERROR" in
  let grace := form_num "nodeOfflineGraceSeconds" f in
  let maxEntries := form_num "logMaxEntries" f in
  let maxSizeMb := form_num "logMaxSizeMb" f in
  let studentPct := form_num "studentQuotaAlertPct" f in
  let positive n := num_ltb (num_of_Z 0) n in
  on_act (
    set_flag "alertsEnabled" f;;
    setSetting "alertLevel" (JStr (if String.eqb level "WARN" then "WARN" else "ERROR"));;
    setSetting "alertDedupMinutes" (JNum (num_or (form_num "alertDedupMinutes" f) 15));;
    setSetting "nodeOfflineGraceSeconds"
      (JNum (finite_or grace (num_leb (num_of_Z 0) grace) (num_trunc grace) 60));;
    setSetting "logRetentionDays" (JNum (num_or (form_num "logRetentionDays" f) 30));;
    setSetting "logMaxEntries"
      (JNum (finite_or maxEntries (positive maxEntries) (num_trunc maxEntries) 0));;
    setSetting "logMaxSizeMb" (JNum (finite_or maxSizeMb (positive maxSizeMb) maxSizeMb 0));;
    setSetting "quotaAlertPct" (JNum (num_or (form_num "quotaAlertPct" f) 90));;
    set_flag "studentQuotaAlertsEnabled" f;;
    setSetting "studentQuotaAlertPct"
      (JNum (finite_or studentPct (positive studentPct && num_leb studentPct (num_of_Z 100)) studentPct 50));;
    set_flag "studentQuotaNotifyAdmins" f;;
    now ← date_now;
    pruneLogs now;; mret tt).

(** [n.toLocaleString()] *)
Definition clearLogsAction (toLocaleString : nat -> string) : WAct unit :=
  requireAdmin;;
  n ← on_act (d ← db; delete_logs (fun _ => True);; mret (length (rows (logs d))));
  redirect ("/settings?logs=" +:+ encodeURIComponent
    ("Deleted " +:+ toLocaleString n +:+ " log " +:+ (if (n =? 1)%nat then "entry" else "entries"))).

Definition saveGpuPolicyAction (f : FormData) : WAct unit :=
  who ← actor;
  on_act (
    set_flag "gpuEnabled" f;;
    set_flag "gpuImmediate" f;;
    setSetting "gpuUtilThreshold" (JNum (num_or (form_num "gpuUtilThreshold" f) 5));;
    setSetting "gpuIdleMinutes" (JNum (num_or (form_num "gpuIdleMinutes" f) 20));;
    setSetting "gpuGraceMinutes" (JNum (num_or (form_num "gpuGraceMinutes" f) 10));;
    setSetting "gpuWhitelistUsers" (JStr (form_trim "gpuWhitelistUsers" f));;
    setSetting "gpuWhitelistLabs" (JStr (form_trim "gpuWhitelistLabs" f));;
    broadcastGpuPolicy (Some who)).

Definition saveScrubSettingsAction (f : FormData) : WAct unit :=
  requireAdmin;;
  on_act (
    set_flag "scrubEnabled" f;;
    setSetting "scrubIntervalDays" (JNum (num_or (form_num "scrubIntervalDays" f) 30));;
    setSetting "scrubHour" (JNum (hour_or (form_num "scrubHour" f) 2));;
    setSetting "scrubTimezone" (JStr (valid_zone (form_trim "scrubTimezone" f)))).

(** [!!(n.capabilities && JSON.parse(n.capabilities).zfs)], an exception counting as false *)
Definition zfs_node (n : NodeRow) : bool :=
  match n_capabilities n with
  | Some t => truthy (text_str t) && match json_parse t with Some v => ojson_truthy (field "zfs" v) | None => false end
  | None => false
  end.

Definition scrub_nodes (who : string) (l : list NodeRow) : Act unit :=
  for_each (fun n =>
    enqueueTask (n_name n) "node.scrub" (JObj []) (Some who);;
    now ← date_now;
    update_nodes (fun m => n_name m = n_name n) (fun m => m <| n_last_scrub := Some now |>)) l.

Definition scrubNowAction : WAct unit :=
  who ← actor;
  d ← on_act db;
  let l := filter (fun n => zfs_node n = true) (select (fun n => n_online n = true) (rows (nodes d))) in
  on_act (scrub_nodes who l);;
  redirect ("/settings?scrub=" +:+ encodeURIComponent
    ("Scrub started on " +:+ nat_str (length l) +:+ " node(s)")).

Definition testEmailAction (f : FormData) : WAct unit :=
  requireAdmin;;
  res ← on_act (sendTestEmail (form_trim "to" f));
  redirect ("/settings?smtp=" +:+ encodeURIComponent
    (if sr_sent res then "Test email sent"
     else if sr_skipped res then "SMTP not configured"
     else "Failed: " +:+ default "undefined" (sr_error res))).
End settings_actions.

(** * BackupActions: [app/(app)/backups/actions.ts], the server actions of the backups page *)


Section backup_actions.
Context {HK : Honker} {PF : Platform} {AL : AuthLib} {TZ : Zones} {HC : HttpClient} {BL : BackupLib}.

Definition done {A} (msg : string) : WAct A := redirect ("/backups?msg=" +:+ encodeURIComponent msg).

Definition saveWebdavSettingsAction (f : FormData) : WAct unit :=
  requireAdmin;;
  let pass := form_str "webdavPass" f in
  on_act (
    setSetting "webdavUrl" (JStr (form_trim "webdavUrl" f));;
    setSetting "webdavUser" (JStr (form_trim "webdavUser" f));;
    when (truthy pass) (setSetting "webdavPass" (JStr pass));;
    setSetting "webdavBaseDir" (JStr (or_str (form_trim "webdavBaseDir" f) "/backups")));;
  done "Configuration saved".

(** [Number.isInteger(n) && n >= 0 && n <= max ? n : d]; a missing part is undefined. *)
Definition clock_part (part : option string) (max d : Z) : num :=
  match part with
  | Some s =>
      let n := str_to_num s in
      if is_integer n && num_leb (num_of_Z 0) n && num_leb n (num_of_Z max) then n else num_of_Z d
  | None => num_of_Z d
  end.

(** [nonNeg(name, fallback)] *)
Definition nonNeg (f : FormData) (name : string) (fallback : Z) : num :=
  let n := form_num name f in finite_or n (num_leb (num_of_Z 0) n) (num_trunc n) fallback.

Definition saveScheduleAction (f : FormData) : WAct unit :=
  requireAdmin;;
  let parts := split_on ":" (nullish (form_get "backupAnchor" f) "02:00") in
  on_act (
    set_flag "backupEnabled" f;;
    setSetting "backupIntervalHours" (JNum (num_or (form_num "backupIntervalHours" f) 24));;
    setSetting "backupAnchorHour" (JNum (clock_part (parts !! 0%nat) 23 2));;
    setSetting "backupAnchorMinute" (JNum (clock_part (parts !! 1%nat) 59 0));;
    setSetting "backupTimezone" (JStr (valid_zone (form_trim "backupTimezone" f)));;
    setSetting "backupKeepRecent" (JNum (nonNeg f "backupKeepRecent" 7));;
    setSetting "backupKeepWeekly" (JNum (nonNeg f "backupKeepWeekly" 4));;
    setSetting "backupKeepMonthly" (JNum (nonNeg f "backupKeepMonthly" 12));;
    setSetting "backupKeepYearly" (JNum (nonNeg f "backupKeepYearly" 3)));;
  done "Schedule saved".

Definition testConnectionAction : BAct unit :=
  on_web requireAdmin;;
  error ← testConnection;
  on_web (done (match error with None => "Connection OK" | Some e => "Connection failed: " +:+ e end)).

Definition backupNowAction : BAct unit :=
  on_web requireAdmin;;
  res ← backupAll;
  on_web (done (if br_ok res then "Backed up " +:+ default "undefined" (br_name res)
                else "Backup failed: " +:+ default "undefined" (br_error res))).

Definition restoreAction (f : FormData) : BAct unit :=
  on_web requireAdmin;;
  error ← stageRestore (form_str "name" f);
  on_web (done (match error with
                | None => "Restore staged — restart the controller to apply it"
                | Some e => "Restore failed: " +:+ e
                end)).

Definition refreshAction : WAct unit := requireAdmin;; redirect "/backups".
End backup_actions.
