(* ===== verification/StatsActions.v ===== *)
(** * StatsActions: [app/(app)/stats/actions.ts], scans, report mails and node groups *)
From S2P Require Import Prelude Js Numbers Schema Sql DbWf Env Secrets Queue Settings Format Mailer Placements Labs Students Nodes Stats Hub HubConn Web RateLimit Flash Auth Actions.
Open Scope Z_scope.

(** The result of [emailUsageReportAction]. *)
Inductive EmailUsageReportResult :=
| RSent (to : string) | RSkipped (to : string) | RMissingEmail | RUnknownRecipient
| RUnknownPlacement | RSendFailed (error : string).

(** [labUsernames], in the order of the roster's rows *)
Definition labUsernames (d : Db) (labId : Z) : list string :=
  omap (fun m => s_username <$> student_of d (lm_student_id m))
    (select (fun m => lm_lab_id m = labId) (rows (lab_members d))).

Definition scan_params (lab : string) (users : list string) : json :=
  JObj [("lab", JStr lab); ("users", JArr (JStr <$> users))].

Section stats_actions.
Context {HK : Honker} {PF : Platform} {AL : AuthLib}.

Definition usageScanAction (f : FormData) : WAct unit :=
  who ← actor;
  d ← on_act db;
  match find_placement d (row_id (form_num "placementId" f)) with
  | None => mret tt
  | Some v =>
      on_act (enqueueTask (pl_node_name v) "usage.scan"
        (scan_params (pl_lab_name v) (labUsernames d (p_lab_id (pl_row v)))) (Some who);; mret tt)
  end.

Definition refreshAllAction : WAct unit :=
  who ← actor;
  on_act (
    placements ← listAllPlacements;
    for_each (fun p =>
      if pl_online p then
        d ← db;
        enqueueTask (pl_node_name p) "usage.scan"
          (scan_params (pl_lab_name p) (labUsernames d (p_lab_id (pl_row p)))) (Some who);; mret tt
      else mret tt) placements).

(** The address and the name a report goes to; [studentId] is absent for the PI. *)
Definition report_recipient (report : UsageReport) (studentId : option Z)
    : option (option string * string) :=
  match studentId with
  | None => Some (rp_piEmail report, or_str (default "" (trim <$> rp_piName report)) "Professor")
  | Some i =>
      s ← get_row (fun s => rs_studentId s = i) (rp_students report);
      Some (rs_email s, or_str (default "" (trim <$> rs_name s)) (rs_username s))
  end.

Definition emailUsageReportAction (f : FormData) : WAct EmailUsageReportResult :=
  who ← actor;
  let placementId := row_id (form_num "placementId" f) in
  let recipient := form_str "recipient" f in
  let toPi := String.eqb recipient "pi" in
  let number := str_to_num recipient in
  if negb toPi && (negb (is_integer number) || num_leb number (num_of_Z 0))
  then mret RUnknownRecipient
  else
    let studentId := if toPi then None else Some (trunc_Z number) in
    on_act (
      o ← buildUsageReport placementId studentId;
      match o with
      | None => mret RUnknownPlacement
      | Some report =>
          match report_recipient report studentId with
          | None => mret RUnknownRecipient
          | Some (None, _) => mret RMissingEmail
          | Some (Some to, name) =>
              if negb (truthy (trim to)) then mret RMissingEmail
              else
                res ← sendUsageReportEmail to toPi
                  {| ur_name := name; ur_lab := rp_labName report; ur_node := rp_nodeName report;
                     ur_report := rp_text report |};
                if sr_sent res then
                  audit (Some who) "usage_report.email"
                    (Some (rp_labName report +:+ "@" +:+ rp_nodeName report))
                    (Some ("to " +:+ to +:+ " (" +:+ (if toPi then "PI" else "student") +:+ ")"));;
                  mret (RSent to)
                else if sr_skipped res then mret (RSkipped to)
                else mret (RSendFailed (nullish (sr_error res) "Unknown send error"))
          end
      end).

Definition withGroupFlash {A} (fn : string -> Act A) : WAct unit :=
  who ← actor; or_flash (fn who) "/stats?error=";; mret tt.

Definition createNodeGroupAction (f : FormData) : WAct unit :=
  withGroupFlash (fun who => createNodeGroup (form_str "name" f) (Some who)).
Definition renameNodeGroupAction (f : FormData) : WAct unit :=
  withGroupFlash (fun who =>
    renameNodeGroup (row_id (form_num "groupId" f)) (form_str "name" f) (Some who)).
Definition deleteNodeGroupAction (f : FormData) : WAct unit :=
  withGroupFlash (fun who => deleteNodeGroup (row_id (form_num "groupId" f)) (Some who));;
  flash_redirect "Node group deleted. The nodes and their data are untouched." "/stats?saved=".
Definition setNodeGroupMembersAction (f : FormData) : WAct unit :=
  let nodeIds := row_id <$> filter (fun n => is_finite n = true) (str_to_num <$> form_all "nodeId" f) in
  withGroupFlash (fun who => setNodeGroupMembers (row_id (form_num "groupId" f)) nodeIds (Some who)).
End stats_actions.
