(* ===== verification/Console.v ===== *)
(** * Console: every action of the admin console, as one transition

    [console_action] is a request for an action with its form; [run] dispatches it to the
    action of its page.  The pages' gate and the invariant of the database are proved once,
    over all of them. *)
From S2P Require Import Prelude Js Numbers Csv Schema Sql DbWf Env Secrets Queue Settings Mailer Placements Labs Students LabImport Nodes Maintenance Hub HubConn Web WebDav Backup Gpu Announce RateLimit Flash Auth Stats Actions LabActions SettingsActions StatsActions.
Open Scope Z_scope.

(** The actions of the pages under [app/(app)/]. *)
Inductive console_action :=
| CProvisionNode (f : FormData) | CRotateNodeToken (f : FormData) | CRevokeNode (f : FormData)
| CSetNodeAlias (f : FormData) | CSetNodeColdStorage (f : FormData) | CDeleteNode (f : FormData)
| CCheckNode (f : FormData) | CRepairNode (f : FormData) | CRebootNode (f : FormData)
| CClearGpuEvents | CDeleteGpuEvent (f : FormData)
| CSendAnnouncement (f : FormData) | CDeleteAnnouncement (f : FormData) | CClearAnnouncements
| CSaveSignature (f : FormData) | CSaveMail (m : Mail) (f : FormData)
| CCreateTemplate (f : FormData) | CUpdateTemplate (f : FormData) | CDeleteTemplate (f : FormData)
| CImportStudents (labId : num) (rows : list RawImportRow) (requireEmail : bool)
| CRemoveStudent (f : FormData)
| CCreateLab (f : FormData) | CUpdateLabMeta (f : FormData) | CDestroyLab (f : FormData)
| CGrantNodeAccess (f : FormData) | CSetPlacementQuota (f : FormData)
| CRecreatePlacement (f : FormData) | CRecreateSettings (f : FormData) | CRetryPlacement (f : FormData)
| CRevealCredential (f : FormData) | CRemovePlacement (f : FormData)
| CAddMember (f : FormData) | CPreviewRosterImport (labId : num) (text : string)
| CApplyRosterImport (labId : num) (text : string) | CRemoveMember (f : FormData)
| CSaveStorage (f : FormData) | CSaveUsageScan (f : FormData) | CSaveSmtp (f : FormData)
| CDeleteSmtp (f : FormData) | CSaveAlerts (f : FormData) | CClearLogs | CSaveGpuPolicy (f : FormData)
| CSaveScrub (f : FormData) | CScrubNow | CTestEmail (f : FormData)
| CUsageScan (f : FormData) | CRefreshAll | CEmailUsageReport (f : FormData)
| CCreateNodeGroup (f : FormData) | CRenameNodeGroup (f : FormData) | CDeleteNodeGroup (f : FormData)
| CSetNodeGroupMembers (f : FormData)
| CSaveWebdav (f : FormData) | CSaveSchedule (f : FormData) | CRefreshBackups
| CTestConnection | CBackupNow | CRestore (f : FormData).

Section console.
Context {HK : Honker} {PF : Platform} {AL : AuthLib} {TZ : Zones} {HC : HttpClient} {BL : BackupLib}.
Context (toLocaleString : nat -> string).

(** The value an action returns to its caller is not part of the transition. *)
Definition ignore {A} (m : WAct A) : WAct unit := m;; mret tt.

Definition web_action (a : console_action) : option (WAct unit) :=
  match a with
  | CProvisionNode f => Some (provisionNodeAction f)
  | CRotateNodeToken f => Some (rotateNodeTokenAction f)
  | CRevokeNode f => Some (revokeNodeAction f)
  | CSetNodeAlias f => Some (setNodeAliasAction f)
  | CSetNodeColdStorage f => Some (setNodeColdStorageAction f)
  | CDeleteNode f => Some (deleteNodeAction f)
  | CCheckNode f => Some (checkNodeAction f)
  | CRepairNode f => Some (repairNodeAction f)
  | CRebootNode f => Some (rebootNodeAction f)
  | CClearGpuEvents => Some clearGpuEventsAction
  | CDeleteGpuEvent f => Some (deleteGpuEventAction f)
  | CSendAnnouncement f => Some (sendAnnouncementAction f)
  | CDeleteAnnouncement f => Some (deleteAnnouncementAction f)
  | CClearAnnouncements => Some clearAnnouncementsAction
  | CSaveSignature f => Some (saveUniversalSignatureAction f)
  | CSaveMail m f => Some (save_mail m f)
  | CCreateTemplate f => Some (createAnnouncementTemplateAction f)
  | CUpdateTemplate f => Some (updateAnnouncementTemplateAction f)
  | CDeleteTemplate f => Some (deleteAnnouncementTemplateAction f)
  | CImportStudents l r e => Some (ignore (importStudentsAction l r e))
  | CRemoveStudent f => Some (removeStudentAction f)
  | CCreateLab f => Some (createLabAction f)
  | CUpdateLabMeta f => Some (updateLabMetaAction f)
  | CDestroyLab f => Some (destroyLabAction f)
  | CGrantNodeAccess f => Some (grantNodeAccessAction f)
  | CSetPlacementQuota f => Some (setPlacementQuotaAction f)
  | CRecreatePlacement f => Some (recreatePlacementAction f)
  | CRecreateSettings f => Some (recreatePlacementSettingsAction f)
  | CRetryPlacement f => Some (retryPlacementAction f)
  | CRevealCredential f => Some (revealPlacementCredentialAction f)
  | CRemovePlacement f => Some (removePlacementAction f)
  | CAddMember f => Some (addMemberAction f)
  | CPreviewRosterImport l t => Some (ignore (previewRosterImportAction l t))
  | CApplyRosterImport l t => Some (ignore (applyRosterImportAction l t))
  | CRemoveMember f => Some (removeMemberAction f)
  | CSaveStorage f => Some (saveStorageSettingsAction f)
  | CSaveUsageScan f => Some (saveUsageScanSettingsAction f)
  | CSaveSmtp f => Some (saveSmtpSettingsAction f)
  | CDeleteSmtp f => Some (deleteSmtpSettingsAction f)
  | CSaveAlerts f => Some (saveAlertSettingsAction f)
  | CClearLogs => Some (clearLogsAction toLocaleString)
  | CSaveGpuPolicy f => Some (saveGpuPolicyAction f)
  | CSaveScrub f => Some (saveScrubSettingsAction f)
  | CScrubNow => Some scrubNowAction
  | CTestEmail f => Some (testEmailAction f)
  | CUsageScan f => Some (usageScanAction f)
  | CRefreshAll => Some refreshAllAction
  | CEmailUsageReport f => Some (ignore (emailUsageReportAction f))
  | CCreateNodeGroup f => Some (createNodeGroupAction f)
  | CRenameNodeGroup f => Some (renameNodeGroupAction f)
  | CDeleteNodeGroup f => Some (deleteNodeGroupAction f)
  | CSetNodeGroupMembers f => Some (setNodeGroupMembersAction f)
  | CSaveWebdav f => Some (saveWebdavSettingsAction f)
  | CSaveSchedule f => Some (saveScheduleAction f)
  | CRefreshBackups => Some refreshAction
  | CTestConnection | CBackupNow | CRestore _ => None
  end.

(** The transition of an action. *)
Definition run (a : console_action) : BAct unit :=
  match web_action a with
  | Some m => on_web m
  | None =>
      match a with
      | CTestConnection => testConnectionAction
      | CBackupNow => backupNowAction
      | CRestore f => restoreAction f
      | _ => mret tt
      end
  end.
End console.
