(* ===== verification/HubConnFacts.v ===== *)
(** * HubConnFacts: the connection table, and who is fed tasks *)
From S2P Require Import Prelude Js Redact Schema Sql DbWf Env Secrets Queue Testbed QueueFacts Settings Template Format Mailer Alerts Placements Nodes Protocol Ingest Hub HubConn.
Open Scope Z_scope.

(** The connection table and the intervals agree: a connection has its own live interval, for
    its node and its socket, and no interval is live without its connection. *)
Record hub_inv (h : HubState) : Prop := {
  hi_conn node c : hs_connections h !! node = Some c ->
    cn_node c = node /\ hs_consumers h !! cn_consumer c = Some (node, cn_ws c) /\
    is_Some (hs_sockets h !! cn_ws c);
  hi_consumer i node ws : hs_consumers h !! i = Some (node, ws) ->
    exists c, hs_connections h !! node = Some c /\ cn_consumer c = i /\ cn_ws c = ws;
  hi_next i : is_Some (hs_consumers h !! i) -> (i < hs_next h)%nat }.

Lemma hub_inv_empty : hub_inv empty_hub.
Proof. split; cbn; intros *; rewrite lookup_empty; [done|done|by intros []]. Qed.

Section conn.
Context {HK : Honker} {PF : Platform} {ZP : Zod}.
Implicit Types (s : HubWorld) (h : HubState).

#[local] Notation HAct := (M HubWorld exn).
Definition I_hub (s : HubWorld) : Prop := hub_inv (hw_hub s) /\ wf (hw_world s).

Lemma on_world_inv {A} (m : Act A) : preserves wf m -> preserves I_hub (on_world m).
Proof.
  intros Hm [w h] [Hh Hw]. unfold on_world. pose proof (Hm w Hw) as H. cbn.
  destruct (m w) as [r w']. by split.
Qed.

(** A change of the hub's state. *)
Lemma modify_hub_inv (f : HubState -> HubState) :
  (forall h, hub_inv h -> hub_inv (f h)) -> preserves I_hub (modify (fun s => s <| hw_hub ::= f |>) : HAct unit).
Proof. intros Hf [w h] [Hh Hw]. split; [by apply Hf|done]. Qed.

Lemma update_socket_inv ws f : preserves I_hub (update_socket ws f).
Proof.
  apply modify_hub_inv. intros h [H1 H2 H3]. split; cbn; [|done|done].
  intros node c Hc. destruct (H1 _ _ Hc) as (? & ? & Hs). split_and!; [done|done|].
  destruct (decide (ws = cn_ws c)) as [->|]; [|by rewrite lookup_alter_ne].
  rewrite lookup_alter_eq. destruct Hs as [o ->]. by eexists.
Qed.
Lemma close_socket_inv ws c : preserves I_hub (close_socket ws c).
Proof. apply update_socket_inv. Qed.
Lemma send_socket_inv ws v : preserves I_hub (send_socket ws v).
Proof. apply update_socket_inv. Qed.
Lemma cancelOfflineAlert_inv node : preserves I_hub (cancelOfflineAlert node).
Proof. apply modify_hub_inv. intros h [H1 H2 H3]. by split. Qed.
Lemma hub_ro I : preserves I hub. Proof. by intros s. Qed.
Lemma socket_ro I ws : preserves I (socket ws). Proof. by intros s. Qed.
#[local] Hint Resolve update_socket_inv close_socket_inv send_socket_inv cancelOfflineAlert_inv
  hub_ro socket_ro : preserve.
#[local] Hint Extern 1 (preserves I_hub (on_world _)) =>
  (apply on_world_inv; solve_preserves) : preserve.

(** Removing a connection with its interval. *)
Lemma drop_conn_inv h node c : hub_inv h -> hs_connections h !! node = Some c ->
  hub_inv (h <| hs_consumers ::= delete (cn_consumer c) |> <| hs_connections ::= delete node |>).
Proof.
  intros [H1 H2 H3] Hc. destruct (H1 _ _ Hc) as (_ & Hi & _). split; cbn.
  - intros node' c' [Hne Hc']%lookup_delete_Some. destruct (H1 _ _ Hc') as (? & Hi' & ?).
    split_and!; [done| |done]. rewrite lookup_delete_ne; [done|]. intros He. congruence.
  - intros i node' ws [Hne Hi']%lookup_delete_Some. destruct (H2 _ _ _ Hi') as (c' & Hc' & <- & <-).
    exists c'. split_and!; [|done|done]. rewrite lookup_delete_ne; [done|].
    intros ->. rewrite Hc in Hc'. congruence.
  - intros i [x [_ Hx]%lookup_delete_Some]. apply H3. by eexists.
Qed.

(** The connection of a hello replaces the one that was there, with its interval. *)
Lemma new_conn_inv h node ws hash : hub_inv h -> is_Some (hs_sockets h !! ws) ->
  let h1 := match hs_connections h !! node with
            | Some c => h <| hs_consumers ::= delete (cn_consumer c) |> | None => h end in
  hub_inv (h1 <| hs_next ::= S |> <| hs_consumers ::= insert (hs_next h) (node, ws) |>
             <| hs_connections ::= insert node (mkConn ws node (hs_next h) hash true) |>).
Proof.
  intros [H1 H2 H3] Hws h1.
  assert (hs_connections h1 = hs_connections h /\ hs_sockets h1 = hs_sockets h /\ hs_next h1 = hs_next h) as (E1 & E2 & E3)
    by (unfold h1; by destruct (hs_connections h !! node)).
  assert (forall i x, hs_consumers h1 !! i = Some x -> hs_consumers h !! i = Some x /\
    forall c, hs_connections h !! node = Some c -> cn_consumer c <> i) as Hsub.
  { intros i x. unfold h1. destruct (hs_connections h !! node) as [c|]; [|done].
    cbn. intros [Hne Hx]%lookup_delete_Some. split; [done|]. by intros c' [= <-]. }
  split; cbn; rewrite ?E1, ?E2, ?E3.
  - intros node' c [[<- <-]|[Hne Hc]]%lookup_insert_Some; cbn.
    + by rewrite lookup_insert_eq.
    + destruct (H1 _ _ Hc) as (? & Hi & ?). split_and!; [done| |done].
      assert (cn_consumer c <> hs_next h) as Hlt.
      { intros He. specialize (H3 (cn_consumer c)). rewrite Hi in H3. specialize (H3 ltac:(by eexists)). lia. }
      rewrite lookup_insert_ne by done. unfold h1. destruct (hs_connections h !! node) as [c0|] eqn:Hc0; [|done].
      cbn. rewrite lookup_delete_ne; [done|]. intros He. destruct (H1 _ _ Hc0) as (_ & Hi0 & _). congruence.
  - intros i node' ws' [[<- [= <- <-]]|[Hne Hi]]%lookup_insert_Some.
    + eexists. by rewrite lookup_insert_eq.
    + apply Hsub in Hi as [Hi Hno]. destruct (H2 _ _ _ Hi) as (c & Hc & <- & <-). exists c.
      split_and!; [|done|done]. rewrite lookup_insert_ne; [done|]. intros ->. by apply (Hno c).
  - intros i [x [[<- _]|[_ Hi]]%lookup_insert_Some]; [lia|]. apply Hsub in Hi as [Hi _].
    specialize (H3 i). rewrite Hi in H3. specialize (H3 ltac:(by eexists)). lia.
Qed.

(** A sequence from one state, the first statement computed. *)
Lemma seq_at {A B} (I : HubWorld -> Prop) (m : HAct A) (k : A -> HAct B) s a s1 :
  m s = (Ok a, s1) -> I (k a s1).2 -> I ((m ≫= k) s).2.
Proof. intros Hm HI. by rewrite (bind_step _ _ _ _ _ Hm). Qed.

Lemma offline_fire_inv node : preserves I_hub (offline_fire node).
Proof. unfold offline_fire. solve_preserves. Qed.
#[local] Hint Resolve offline_fire_inv : preserve.

Lemma deregisterNode_inv node : preserves I_hub (deregisterNode node).
Proof.
  intros s Hs. unfold deregisterNode. eapply seq_at; [done|].
  set (rest := fun _ : unit => on_world (offline_row node);; _).
  assert (preserves I_hub (rest tt)) as Hrest.
  { unfold rest. solve_preserves. apply modify_hub_inv. intros h [H1 H2 H3]. by split. }
  destruct (hs_connections (hw_hub s) !! node) as [c|] eqn:Hc.
  - eapply seq_at; [done|]. apply Hrest. destruct Hs as [Hh Hw]. split; [|done].
    by apply (drop_conn_inv (hw_hub s) node c).
  - eapply seq_at; [done|]. by apply Hrest.
Qed.
#[local] Hint Resolve deregisterNode_inv : preserve.

(** The statements of a hello that passed the checks. *)
Definition accept_hello (ws : nat) (frame : Hello) (tokenHash : string) : HAct (option string) :=
  let node := h_node frame in
  h ← hub;
  match hs_connections h !! node with
  | Some c => clear_consumer (cn_consumer c);; close_socket (cn_ws c) 1005
  | None => mret tt
  end;;
  registerNode node (nullish (nn (h_capabilities frame)) (JObj []));;
  h ← hub;
  let i := hs_next h in
  modify (fun s => s <| hw_hub ::= fun h =>
    h <| hs_next ::= S |> <| hs_consumers ::= insert i (node, ws) |> |>);;
  set_connection node (mkConn ws node i tokenHash true);;
  mret (Some node).

Lemma register_row_ok node v w : exists w', register_row node v w = (Ok tt, w').
Proof. by eexists. Qed.

Lemma close_in_map m ws0 f : is_Some (m !! ws0) -> forall ws, is_Some ((alter f ws m : gmap nat Socket) !! ws0).
Proof.
  intros [o Ho] ws. destruct (decide (ws = ws0)) as [->|].
  - rewrite lookup_alter_eq, Ho. by eexists.
  - rewrite lookup_alter_ne by done. by eexists.
Qed.

Lemma registerNode_run node v s w' :
  register_row node v (hw_world s) = (Ok tt, w') ->
  registerNode node v s = (Ok tt, mkHubWorld w' ((hw_hub s) <| hs_offline ::= fun t => t ∖ {[node]} |>)).
Proof.
  intros H. unfold registerNode. rewrite (bind_step _ _ s tt
    (s <| hw_hub ::= fun h => h <| hs_offline ::= fun t => t ∖ {[node]} |> |>)) by done.
  unfold on_world. cbn [hw_world]. unset. cbn [hw_world hw_hub]. by rewrite H.
Qed.

(** What an accepted hello leaves in the hub. *)
Lemma accept_hello_run ws frame hash s :
  let node := h_node frame in let h := hw_hub s in
  exists w' h1, accept_hello ws frame hash s =
    (Ok (Some node), mkHubWorld w' (h1 <| hs_next ::= S |> <| hs_consumers ::= insert (hs_next h) (node, ws) |>
             <| hs_connections ::= insert node (mkConn ws node (hs_next h) hash true) |>)) /\
    register_row node (nullish (nn (h_capabilities frame)) (JObj [])) (hw_world s) = (Ok tt, w') /\
    hs_connections h1 = hs_connections h /\ hs_next h1 = hs_next h /\
    hs_consumers h1 = match hs_connections h !! node with
      | Some c => delete (cn_consumer c) (hs_consumers h) | None => hs_consumers h end /\
    (forall i, is_Some (hs_sockets h !! i) -> is_Some (hs_sockets h1 !! i)) /\
    hs_sockets h1 = match hs_connections h !! node with
      | Some c => alter (fun o => if bool_decide (so_ready o = SOpen)
          then o <| so_ready := SClosing |> <| so_closeCode := Some 1005 |> else o) (cn_ws c) (hs_sockets h)
      | None => hs_sockets h end.
Proof.
  intros node h. destruct (register_row_ok node (nullish (nn (h_capabilities frame)) (JObj [])) (hw_world s)) as [w' Hw].
  exists w'. unfold accept_hello. rewrite (bind_step hub _ s h s) by done. fold node.
  destruct (hs_connections h !! node) as [c|] eqn:Hc.
  - erewrite bind_step by reflexivity. erewrite bind_step by (by apply registerNode_run).
    eexists. split; [reflexivity|]. cbn. split_and!; try done. intros i Hi. by apply close_in_map.
  - erewrite bind_step by reflexivity. erewrite bind_step by (by apply registerNode_run).
    eexists. split; [reflexivity|]. by split_and!.
Qed.

Lemma hub_inv_ext h h' :
  hub_inv h -> hs_connections h' = hs_connections h -> hs_consumers h' = hs_consumers h ->
  hs_next h' = hs_next h -> (forall i, is_Some (hs_sockets h !! i) -> is_Some (hs_sockets h' !! i)) ->
  hub_inv h'.
Proof.
  intros [H1 H2 H3] E1 E2 E3 Hs. split; rewrite ?E1, ?E2, ?E3; [|done|done].
  intros node c Hc. destruct (H1 _ _ Hc) as (? & ? & ?). by auto.
Qed.

Lemma accept_hello_inv ws frame hash s :
  I_hub s -> is_Some (hs_sockets (hw_hub s) !! ws) -> I_hub (accept_hello ws frame hash s).2.
Proof.
  intros [Hh Hw] Hws. destruct (accept_hello_run ws frame hash s)
    as (w' & h1 & -> & Hr & E1 & E2 & E3 & Hs & _). split.
  - eapply hub_inv_ext; [apply (new_conn_inv (hw_hub s) (h_node frame) ws hash Hh Hws)|..]; cbn;
      destruct (hs_connections (hw_hub s) !! h_node frame); cbn; rewrite ?E1, ?E2, ?E3; done.
  - cbn. pose proof (register_row_wf (h_node frame) (nullish (nn (h_capabilities frame)) (JObj [])) _ Hw) as H.
    by rewrite Hr in H.
Qed.

(** Code that only reads the world. *)
Lemma on_world_ro {A} (m : Act A) s :
  (forall I, preserves I m) -> exists r, on_world m s = (r, s) /\ (m (hw_world s)).1 = r.
Proof.
  intros Hm. pose proof (Hm (fun w => w = hw_world s) (hw_world s) eq_refl) as H.
  unfold on_world. destruct (m (hw_world s)) as [r w]. cbn in H. subst w. exists r. by destruct s.
Qed.

(** The cases of a hello: it is refused and only its own socket is closed, or accepted. *)
Lemma handleHello_cases ws (frame : Hello) s :
  (exists e, handleHello ws frame s = (Throw e, s)) \/
  (exists code, handleHello ws frame s = (Ok None, (close_socket ws code s).2)) \/
  (exists hash, (verifyNodeAuth (h_node frame) (h_token frame) (hw_world s)).1 = Ok (AuthOk hash) /\
     isProtocolCompatible (h_v frame) = true /\
     (forall c, hs_connections (hw_hub s) !! h_node frame = Some c -> is_open (hw_hub s) (cn_ws c) = false) /\
     handleHello ws frame s = accept_hello ws frame hash s).
Proof.
  remember (handleHello ws frame s) as x eqn:Hx. unfold handleHello in Hx.
  destruct (on_world_ro (verifyNodeAuth (h_node frame) (h_token frame)) s) as (r & Hr & Hr1).
  { intros I. apply verifyNodeAuth_ro. }
  unfold mbind at 1, M_bind at 1 in Hx. rewrite Hr in Hx.
  destruct r as [[hash|e]|e]; [|right; left; by exists 4001|left; by exists e].
  destruct (isProtocolCompatible (h_v frame)) eqn:Hv; cbn [negb] in Hx; [|right; left; by exists 4009].
  rewrite (bind_step hub _ s (hw_hub s) s) in Hx by done.
  destruct (hs_connections (hw_hub s) !! h_node frame) as [c|] eqn:Hc.
  - destruct (is_open (hw_hub s) (cn_ws c)) eqn:Ho; [right; left; by exists 4003|].
    right; right. exists hash. split_and!; [done|done|by intros ? [= <-]|].
    unfold accept_hello. rewrite (bind_step hub _ s (hw_hub s) s) by done. by rewrite Hc.
  - right; right. exists hash. split_and!; [done|done|done|].
    unfold accept_hello. rewrite (bind_step hub _ s (hw_hub s) s) by done. by rewrite Hc.
Qed.

Lemma handleHello_inv ws (frame : Hello) s :
  I_hub s -> is_Some (hs_sockets (hw_hub s) !! ws) -> I_hub (handleHello ws frame s).2.
Proof.
  intros Hs Hws. destruct (handleHello_cases ws frame s) as [[e ->]|[[c ->]|(h & _ & _ & _ & ->)]].
  - done.
  - by apply close_socket_inv.
  - by apply accept_hello_inv.
Qed.

(** ** Every event keeps the table consistent *)

Lemma on_connection_inv ws s :
  hs_sockets (hw_hub s) !! ws = None -> I_hub s -> I_hub (on_connection ws s).2.
Proof.
  intros Hn [Hh Hw]. destruct Hh as [H1 H2 H3]. split; [|done]. split; [|done|done].
  intros node c Hc. destruct (H1 _ _ Hc) as (? & ? & Hs). split_and!; [done|done|].
  change (is_Some (<[ws := mkSocket SOpen None (num_of_Z MSG_BURST) (clock (w_ticks (hw_world s))) true [] None]>
    (hs_sockets (hw_hub s)) !! cn_ws c)).
  rewrite lookup_insert_ne; [done|]. intros He. rewrite <- He, Hn in Hs. by destruct Hs.
Qed.

Lemma on_hello_timeout_inv ws : preserves I_hub (on_hello_timeout ws).
Proof. unfold on_hello_timeout. solve_preserves. Qed.

Lemma on_gone_inv ws final : preserves I_hub (on_gone ws final).
Proof. unfold on_gone. solve_preserves. Qed.

Lemma drain_loop_inv n node ws : preserves I_hub (drain_loop n node ws).
Proof.
  induction n as [|n IH]; cbn; [solve_preserves|]. unfold drain_one. solve_preserves.
Qed.
#[local] Hint Resolve drain_loop_inv : preserve.

Lemma drainNode_inv node ws : preserves I_hub (drainNode node ws).
Proof. unfold drainNode. solve_preserves. Qed.
#[local] Hint Resolve drainNode_inv : preserve.

(** A connection is marked alive or not. *)
Lemma mark_conn_inv h node c b : hub_inv h -> hs_connections h !! node = Some c ->
  hub_inv (h <| hs_connections ::= insert node (c <| cn_isAlive := b |>) |>).
Proof.
  intros [H1 H2 H3] Hc. split; cbn; [| |done].
  - intros node' c' [[<- <-]|[_ Hc']]%lookup_insert_Some; [|by apply H1].
    by destruct (H1 _ _ Hc) as (? & ? & ?).
  - intros i node' ws Hi. destruct (H2 _ _ _ Hi) as (c' & Hc' & <- & <-).
    destruct (decide (node = node')) as [<-|Hne].
    + rewrite Hc in Hc'. injection Hc' as <-. exists (c <| cn_isAlive := b |>).
      by rewrite lookup_insert_eq.
    + exists c'. by rewrite lookup_insert_ne.
Qed.

Lemma sweep_inv : preserves I_hub sweep.
Proof.
  unfold sweep, connectedNodes. solve_preserves. intros s Hs. unfold sweep_one.
  eapply seq_at; [done|]. cbv beta. destruct (hs_connections (hw_hub s) !! _) as [c|] eqn:Hc; [|done].
  destruct (cn_isAlive c); cbn [negb]; [|by apply close_socket_inv].
  destruct Hs as [Hh Hw]. split; [|done]. by apply (mark_conn_inv (hw_hub s)).
Qed.

Lemma on_pong_inv ws : preserves I_hub (on_pong ws).
Proof.
  apply modify_hub_inv. intros h [H1 H2 H3]. split; cbn; [| |done].
  - intros node c. rewrite lookup_fmap. destruct (hs_connections h !! node) as [c'|] eqn:Hc; [|done].
    cbn. intros [= <-]. destruct (H1 _ _ Hc) as (? & ? & ?). by case_match.
  - intros i node ws' Hi. destruct (H2 _ _ _ Hi) as (c' & Hc' & <- & <-).
    rewrite lookup_fmap, Hc'. cbn. eexists. split; [done|]. by case_match.
Qed.

(** A message takes a token of its socket's bucket and reads the clock. *)
Definition quiet (f : Socket -> Socket) : Prop := forall o,
  so_ready (f o) = so_ready o /\ so_node (f o) = so_node o /\ so_sent (f o) = so_sent o.
Definition spent ws s s1 : Prop := exists f, quiet f /\
  s1 = mkHubWorld ((hw_world s) <| w_ticks ::= S |>) ((hw_hub s) <| hs_sockets ::= alter f ws |>).

Lemma spent_step ws s f g : quiet f -> quiet g ->
  spent ws s (mkHubWorld ((hw_world s) <| w_ticks ::= S |>)
    ((hw_hub s) <| hs_sockets ::= fun m => alter g ws (alter f ws m) |>)).
Proof.
  intros Hf Hg. exists (g ∘ f). split.
  - intros o. destruct (Hf o) as (<- & <- & <-), (Hg (f o)) as (<- & <- & <-). done.
  - f_equal. unset. cbn. f_equal. apply map_eq. intros i. destruct (decide (ws = i)) as [->|].
    + by rewrite !lookup_alter_eq, <- option_fmap_compose.
    + by rewrite !lookup_alter_ne.
Qed.

(** A hello's continuation in the handler. *)
Definition hello_message (ws : nat) (hello : Hello) : HAct unit :=
  node ← handleHello ws hello;
  update_socket ws (fun o => o <| so_node := node |>);;
  when (is_some node) (update_socket ws (fun o => o <| so_helloTimer := false |>)).

Lemma on_message_cases ws raw s :
  let s' := (on_message ws raw s).2 in
  s' = s \/ exists s1, spent ws s s1 /\
    (s' = (close_socket ws 4008 s1).2 \/ s' = s1 \/
     (exists hello, s' = (hello_message ws hello s1).2) \/
     (exists o node frame, hs_sockets (hw_hub s) !! ws = Some o /\ so_node o = Some node /\
        s' = (on_world (ingestFrame node frame) s1).2)).
Proof.
  cbv zeta. unfold on_message, socket. erewrite !bind_step by reflexivity. cbv beta.
  destruct (hs_sockets (hw_hub s) !! ws) as [o|]; [right|by left].
  set (tk := refill (so_tokens o) (clock (w_ticks (hw_world s)) - so_lastRefill o)).
  destruct (num_ltb tk (num_of_Z 1)) eqn:Ht.
  - exists (mkHubWorld ((hw_world s) <| w_ticks ::= S |>) ((hw_hub s) <| hs_sockets ::= alter (fun o =>
      o <| so_tokens := tk |> <| so_lastRefill := clock (w_ticks (hw_world s)) |>) ws |>)).
    split; [eexists; split; [|reflexivity]; by intros ?|]. left.
    erewrite !bind_step by reflexivity. fold tk. by rewrite Ht.
  - eexists. split; [eapply (spent_step ws s
      (fun o => o <| so_tokens := tk |> <| so_lastRefill := clock (w_ticks (hw_world s)) |>)
      (fun o => o <| so_tokens := num_sub tk (num_of_Z 1) |>)); by split|].
    right. erewrite !bind_step by reflexivity. fold tk. rewrite Ht.
    erewrite !bind_step by reflexivity. 
    destruct (raw ≫= parseInboundFrame) as [frame|]; [|by left].
    destruct frame; [right; left; by eexists| ..];
      (destruct (so_node o) as [node|] eqn:Hn; [right; right; exists o, node; eexists; by split_and!|by left]).
Qed.

Lemma spent_inv ws s s1 : spent ws s s1 -> I_hub s -> I_hub s1.
Proof.
  intros (f & _ & ->) [Hh Hw]. split; [|done].
  apply (hub_inv_ext (hw_hub s)); [done..|]. intros i Hi. by apply close_in_map.
Qed.

Lemma spent_socket ws s s1 i :
  spent ws s s1 -> is_Some (hs_sockets (hw_hub s) !! i) -> is_Some (hs_sockets (hw_hub s1) !! i).
Proof. intros (f & _ & ->) Hi. by apply close_in_map. Qed.

Lemma hello_message_inv ws hello s :
  I_hub s -> is_Some (hs_sockets (hw_hub s) !! ws) -> I_hub (hello_message ws hello s).2.
Proof.
  intros Hs Hws. pose proof (handleHello_inv ws hello s Hs Hws) as H.
  unfold hello_message, mbind at 1, M_bind at 1. destruct (handleHello ws hello s) as [[node|e] s1]; [|done].
  cut (preserves I_hub (update_socket ws (fun o => o <| so_node := node |>);;
    when (is_some node) (update_socket ws (fun o => o <| so_helloTimer := false |>)))); [|solve_preserves].
  intros Hp. by apply Hp.
Qed.

Lemma on_message_inv ws raw s :
  is_Some (hs_sockets (hw_hub s) !! ws) -> I_hub s -> I_hub (on_message ws raw s).2.
Proof.
  intros Hws Hs. destruct (on_message_cases ws raw s) as [->|(s1 & Hs1 & Hcase)]; [done|].
  pose proof (spent_inv _ _ _ Hs1 Hs) as H1.
  destruct Hcase as [->|[->|[(hello & ->)|(o & node & frame & _ & _ & ->)]]].
  - by apply close_socket_inv.
  - done.
  - apply hello_message_inv; [done|]. by eapply spent_socket.
  - apply on_world_inv; [|done]. auto with preserve nocore.
Qed.

Lemma handle_inv e s : enabled (hw_hub s) e -> I_hub s -> I_hub (handle e s).2.
Proof.
  destruct e as [ws|ws|ws raw|ws|ws|i| |ws|node]; cbn [handle enabled]; intros He Hs.
  - by apply on_connection_inv.
  - by apply on_hello_timeout_inv.
  - destruct He as (o & Ho & _). apply on_message_inv; [by eexists|done].
  - by apply on_gone_inv.
  - by apply on_gone_inv.
  - clear He. revert s Hs. change (preserves I_hub (handle (EvTick i))). cbn [handle]. solve_preserves.
  - by apply sweep_inv.
  - by apply on_pong_inv.
  - by apply offline_fire_inv.
Qed.

Lemma hub_step_inv s s' : hub_step s s' -> I_hub s -> I_hub s'.
Proof. intros [s0 e He|s0 A m Hm]; [by apply handle_inv|]. by apply on_world_inv. Qed.

Lemma reachable_inv s : hub_reachable s -> I_hub s.
Proof.
  intros (w & Hw & Hr). assert (I_hub (booted w)) as Hs by (split; [apply hub_inv_empty|done]).
  induction Hr as [|s0 s1 s2 Hst _ IH]; [done|]. apply IH. by eapply hub_step_inv.
Qed.

(** ** A live connection *)

Record live (node : string) (c : NodeConn) s : Prop := {
  lv_conn : hs_connections (hw_hub s) !! node = Some c;
  lv_open : is_open (hw_hub s) (cn_ws c) = true;
  lv_consumer : hs_consumers (hw_hub s) !! cn_consumer c = Some (node, cn_ws c) }.

Lemma live_update node c ws f s : ws <> cn_ws c -> live node c s -> live node c (update_socket ws f s).2.
Proof.
  intros Hne []. split; [done| |done]. revert lv_open0. unfold is_open. cbn.
  by rewrite lookup_alter_ne.
Qed.

Lemma live_spent node c ws s s1 : spent ws s s1 -> live node c s -> live node c s1.
Proof.
  intros (f & Hf & ->) []. split; [done| |done]. revert lv_open0. unfold is_open. cbn.
  destruct (decide (ws = cn_ws c)) as [->|]; [|by rewrite lookup_alter_ne].
  rewrite lookup_alter_eq. destruct (hs_sockets _ !! _) as [o|]; [|done]. cbn.
  by destruct (Hf o) as (-> & _).
Qed.

Lemma live_accept node c ws frame hash s :
  hub_inv (hw_hub s) -> ws <> cn_ws c -> live node c s ->
  (forall c', hs_connections (hw_hub s) !! h_node frame = Some c' -> is_open (hw_hub s) (cn_ws c') = false) ->
  live node c (accept_hello ws frame hash s).2.
Proof.
  intros [H1 _ H3] Hws [Hc Ho Hi] Hdead.
  assert (h_node frame <> node) as Hne by (intros <-; by rewrite (Hdead _ Hc) in Ho).
  destruct (accept_hello_run ws frame hash s) as (w' & h1 & -> & _ & E1 & E2 & E3 & _ & E4).
  split; cbn; [|unfold is_open; cbn|].
  - by rewrite lookup_insert_ne, E1.
  - rewrite E4. destruct (hs_connections (hw_hub s) !! h_node frame) as [c'|] eqn:Hc'; [|done].
    specialize (Hdead _ eq_refl). rewrite lookup_alter_ne; [done|]. intros He. by rewrite He, Ho in Hdead.
  - rewrite lookup_insert_ne.
    + rewrite E3. destruct (hs_connections (hw_hub s) !! h_node frame) as [c'|] eqn:Hc'; [|done].
      rewrite lookup_delete_ne; [done|]. intros He. destruct (H1 _ _ Hc') as (_ & Hi' & _). congruence.
    + specialize (H3 (cn_consumer c)). rewrite Hi in H3. specialize (H3 ltac:(by eexists)). lia.
Qed.

Lemma live_hello node c ws hello s :
  hub_inv (hw_hub s) -> ws <> cn_ws c -> live node c s -> live node c (hello_message ws hello s).2.
Proof.
  intros Hh Hne Hl. unfold hello_message, mbind at 1, M_bind at 1.
  assert (live node c (handleHello ws hello s).2) as H1.
  { destruct (handleHello_cases ws hello s) as [[e ->]|[[code ->]|(h & _ & _ & Hd & ->)]];
      [done|by apply live_update|by apply live_accept]. }
  destruct (handleHello ws hello s) as [[n|e] s1]; [|done]. cbn in H1.
  eapply (seq_at (live node c)); [done|]. destruct n; cbn [when]; by repeat apply live_update.
Qed.
End conn.

(** C5: in every state the hub can reach, whatever sockets connect, say hello, flood, hang up
    or stall and whatever the rest of the controller does in between, each node has at most
    one connection, which owns exactly one live polling interval for its own socket; no
    interval survives its connection; and the database stays well-formed. *)
Theorem hub_reachable_consistent {HK : Honker} {PF : Platform} {ZP : Zod} s :
  hub_reachable s -> hub_inv (hw_hub s) /\ wf (hw_world s).
Proof. apply reachable_inv. Qed.

(** C10: nobody can take a live node's queue over: while a node's connection is open, a message
    on any other socket, a hello with the node's own valid token included, leaves the node's
    connection, its open socket and its polling interval as they are. *)
Theorem live_connection_not_stolen {HK : Honker} {PF : Platform} {ZP : Zod} node c ws raw s :
  hub_reachable s -> hs_connections (hw_hub s) !! node = Some c ->
  is_open (hw_hub s) (cn_ws c) = true -> ws <> cn_ws c ->
  let s' := (on_message ws raw s).2 in
  hs_connections (hw_hub s') !! node = Some c /\ is_open (hw_hub s') (cn_ws c) = true /\
  hs_consumers (hw_hub s') !! cn_consumer c = Some (node, cn_ws c).
Proof.
  intros Hr Hc Ho Hne s'. apply reachable_inv in Hr as [Hh _].
  assert (live node c s) as Hl by (split; [done|done|by apply (hi_conn _ Hh)]).
  cut (live node c s'); [by intros []|]. subst s'.
  destruct (on_message_cases ws raw s) as [->|(s1 & Hs1 & Hcase)]; [done|].
  pose proof (live_spent node c ws s s1 Hs1 Hl) as Hl1.
  destruct Hcase as [->|[->|[(hello & ->)|(o & n & frame & _ & _ & ->)]]].
  - by apply live_update.
  - done.
  - apply live_hello; [|done|done]. destruct Hs1 as (f & _ & ->).
    apply (hub_inv_ext (hw_hub s)); [done..|]. intros i Hi. by apply close_in_map.
  - destruct Hl1. unfold on_world. destruct (ingestFrame n frame (hw_world s1)). by split.
Qed.
