(* ===== verification/ConsoleFacts.v ===== *)
(** * ConsoleFacts: the gate of every action, and the invariant every action keeps *)
From S2P Require Import Prelude Js Numbers Csv Schema Sql DbWf Env Secrets Queue Settings Format Mailer Placements Labs Students LabImport Nodes Maintenance Hub HubConn Web WebDav Backup HubConnFacts Gpu Announce RateLimit Flash Auth Stats Actions LabActions SettingsActions StatsActions Console.
Open Scope Z_scope.

Section gate.
Context {HK : Honker} {PF : Platform} {AL : AuthLib} {TZ : Zones} {HC : HttpClient} {BL : BackupLib}.

(** Nothing but the number of clock readings and the browser's cookie. *)
Definition with_clock_cookie (ticks : nat) (cookie : option string) (s : WebWorld) : WebWorld :=
  s <| ww_hub ::= fun h => h <| hw_world ::= fun w => w <| w_ticks := ticks |> |> |>
    <| ww_cookie := cookie |>.

Lemma with_clock_cookie_id s : with_clock_cookie (w_ticks (web_world s)) (ww_cookie s) s = s.
Proof. by destruct s as [[[] ?]]. Qed.

Lemma requireAdmin_touches s : exists ticks cookie, (requireAdmin s).2 = with_clock_cookie ticks cookie s.
Proof.
  assert (exists c ticks, currentAdmin s = (Ok c, with_clock_cookie ticks (ww_cookie s) s)) as (c & ticks & Hc).
  { unfold currentAdmin. rewrite (bind_step get _ s s s) by done. cbv beta.
    destruct (ww_cookie s) as [token|] eqn:Hk.
    2: { exists None, (w_ticks (web_world s)). by rewrite <- Hk, with_clock_cookie_id. }
    destruct (truthy token); cbn [negb].
    2: { exists None, (w_ticks (web_world s)). by rewrite <- Hk, with_clock_cookie_id. }
    destruct env_sessionSecret as [key|].
    2: { exists None, (w_ticks (web_world s)). by rewrite <- Hk, with_clock_cookie_id. }
    eexists _, (S (w_ticks (web_world s))). destruct s as [[[] ?]]. cbn in *. by subst. }
  unfold requireAdmin. rewrite (bind_step _ _ _ _ _ Hc). destruct c as [c|]; [|by eexists _, _].
  rewrite (bind_step (on_act db) _ (with_clock_cookie ticks (ww_cookie s) s) (web_db s)
    (with_clock_cookie ticks (ww_cookie s) s)) by (by destruct s as [[[] ?]]). cbv beta.
  destruct (session_row _ _); [by eexists _, _|]. exists ticks, None. by destruct s as [[[] ?]].
Qed.

(** An action whose first step is the gate. *)
Definition gated {A} (m : WAct A) : Prop :=
  forall s e, (requireAdmin s).1 = Throw e -> m s = (Throw e, (requireAdmin s).2).

Lemma gated_requireAdmin : gated requireAdmin.
Proof. intros s e H. destruct (requireAdmin s). cbn in *. by subst. Qed.
Lemma gated_bind {A B} (m : WAct A) (k : A -> WAct B) : gated m -> gated (m ≫= k).
Proof. intros Hm s e H. unfold mbind, M_bind. by rewrite (Hm s e H). Qed.

Lemma save_mail_gated m f : gated (save_mail m f).
Proof. destruct m; repeat first [apply gated_requireAdmin | apply gated_bind]. Qed.
Lemma web_action_gated nf a m : web_action nf a = Some m -> gated m.
Proof.
  destruct a; intros [= <-]; repeat first [apply save_mail_gated | apply gated_requireAdmin | apply gated_bind].
Qed.

(** C8: no action of the console does anything for a request that is not signed in: whichever
    action it names and whatever its form holds, it is redirected to the login page, and the
    whole state - database, queues, mail, connections, flash messages, backup server, staged
    restore - is as before, but for readings of the clock and the browser's own cookie. *)
Theorem console_gated nf a s :
  (forall admin, ~ authorised (bk_web s) admin) ->
  exists ticks cookie,
    run nf a s = (Throw (ERedirect "/login"), s <| bk_web ::= with_clock_cookie ticks cookie |>).
Proof.
  intros Hno. assert ((requireAdmin (bk_web s)).1 = Throw (ERedirect "/login")) as Hr.
  { pose proof (requireAdmin_case (bk_web s)) as H. destruct (requireAdmin (bk_web s)).1 as [who|e].
    - destruct H as (admin & Ha & _). by destruct (Hno admin).
    - by subst. }
  destruct (requireAdmin_touches (bk_web s)) as (ticks & cookie & Ht). exists ticks, cookie.
  assert (forall A (m : WAct A), gated m ->
    on_web m s = (Throw (ERedirect "/login"), s <| bk_web ::= with_clock_cookie ticks cookie |>)) as Hg.
  { intros A m Hm. unfold on_web. rewrite (Hm _ _ Hr), Ht. done. }
  unfold run. destruct (web_action nf a) as [m|] eqn:Ha; [by apply Hg, (web_action_gated nf a)|].
  destruct a; try done; unfold testConnectionAction, backupNowAction, restoreAction, mbind, M_bind;
    by rewrite (Hg _ _ gated_requireAdmin).
Qed.
End gate.

(** ** The database stays well-formed *)

Section wf.
Context {HK : Honker} {PF : Platform} {AL : AuthLib} {TZ : Zones} {HC : HttpClient} {BL : BackupLib}.

(** The connections of the hub agree, the database is well-formed, and the stores that live in
    the process's memory satisfy [P]: in [web_wf], they are within their capacities. *)
Definition web_inv (P : list (string * Bucket) -> list (string * Entry) -> Prop) (s : WebWorld) : Prop :=
  I_hub (ww_hub s) /\ P (ww_buckets s) (ww_flash s).
Definition within_capacity (bs : list (string * Bucket)) (st : list (string * Entry)) : Prop :=
  (length bs <= S MAX_BUCKETS)%nat /\ (length st <= MAX_ENTRIES)%nat.
Definition web_wf : WebWorld -> Prop := web_inv within_capacity.

Lemma on_hub_inv {A} P (m : M HubWorld exn A) : preserves I_hub m -> preserves (web_inv P) (on_hub m).
Proof.
  intros Hm s [Hs Hb]. pose proof (Hm (ww_hub s) Hs) as H. unfold on_hub, web_inv.
  by destruct (m (ww_hub s)).
Qed.
Lemma on_act_inv {A} P (m : Act A) : preserves wf m -> preserves (web_inv P) (on_act m).
Proof. intros Hm. by apply on_hub_inv, on_world_inv. Qed.
Lemma on_act_wf {A} (m : Act A) : preserves wf m -> preserves web_wf (on_act m).
Proof. apply on_act_inv. Qed.
Lemma redirect_wf {A} to : preserves web_wf (redirect (A:=A) to).
Proof. apply preserves_throw. Qed.
#[local] Hint Resolve on_act_wf redirect_wf : preserve.
Lemma putFlash_wf v : preserves web_wf (putFlash v).
Proof.
  intros s [Hh [Hb Hf]]. assert (preserves (web_inv (fun bs _ => length bs <= S MAX_BUCKETS)%nat) (putFlash v)) as H.
  { unfold putFlash. solve_preserves; try (apply on_act_inv; solve_preserves); by intros s' H'. }
  destruct (H s (conj Hh Hb)) as [H1 H2]. split; [done|]. split; [done|]. apply putFlash_bounded.
Qed.
Lemma requireAdmin_wf : preserves web_wf requireAdmin.
Proof.
  intros s [[Hh Hw] Hb]. destruct (requireAdmin_touches s) as (n & c & ->). by split.
Qed.
#[local] Hint Resolve putFlash_wf requireAdmin_wf : preserve.
Lemma actor_wf : preserves web_wf actor.
Proof. unfold actor. solve_preserves. Qed.
Lemma or_flash_wf {A} (m : Act A) to : preserves wf m -> preserves web_wf (or_flash m to).
Proof. intros Hm. unfold or_flash. solve_preserves. Qed.
Lemma error_of_wf m : preserves wf m -> preserves web_wf (error_of m).
Proof. intros Hm. unfold error_of. solve_preserves. Qed.
Lemma message_of_wf {A} (m : Act A) ok : preserves wf m -> preserves web_wf (message_of m ok).
Proof. intros Hm. unfold message_of. solve_preserves. Qed.
Lemma flash_redirect_wf {A} msg to : preserves web_wf (flash_redirect (A:=A) msg to).
Proof. unfold flash_redirect. solve_preserves. Qed.
#[local] Hint Resolve actor_wf or_flash_wf error_of_wf message_of_wf flash_redirect_wf : preserve.

(** [import_loop] and [scrub_nodes] are loops of library calls. *)
Lemma import_loop_wf labId who l : forall a k, preserves wf (import_loop labId who l a k).
Proof. induction l as [|row l IH]; intros a k; cbn; solve_preserves. Qed.
Lemma listAllPlacements_ro I : preserves I (listAllPlacements : Act _).
Proof. unfold listAllPlacements. solve_preserves. Qed.
Lemma ago_ro ts : preserves wf (ago ts).
Proof. unfold ago. solve_preserves. Qed.
#[local] Hint Resolve import_loop_wf listAllPlacements_ro ago_ro planRosterImport_ro applyRosterImport_wf : preserve.

(** The steps of an action: those of the web layer, then those of the libraries. *)
Ltac action :=
  repeat (first [ solve [auto with preserve nocore] | preserves_step | apply on_act_wf
                | apply or_flash_wf | apply error_of_wf | apply message_of_wf ]).

Lemma clock_part_typed part max d :
  is_integer (num_of_Z d) && num_leb (num_of_Z 0) (num_of_Z d) && num_leb (num_of_Z d) (num_of_Z max) = true ->
  reads_as (TClock max) (JNum (clock_part part max d)) = true.
Proof. intros Hd. unfold clock_part, reads_as, typed_by, stored_as. apply orb_true_iff. left. cbn. repeat case_match; done. Qed.
Lemma configs_typed l : setting_typed "smtpConfigs" (JArr (config_json <$> l)) = true.
Proof.
  apply (forallb_forall (config_by stored_as)). intros v (c & <- & _)%in_map_iff. reflexivity.
Qed.
Lemma anchor_hour_typed part : setting_typed "backupAnchorHour" (JNum (clock_part part 23 2)) = true.
Proof. by apply (clock_part_typed part 23 2). Qed.
Lemma anchor_minute_typed part : setting_typed "backupAnchorMinute" (JNum (clock_part part 59 0)) = true.
Proof. by apply (clock_part_typed part 59 0). Qed.
#[local] Hint Resolve configs_typed anchor_hour_typed anchor_minute_typed : preserve.
Lemma save_pair_wf subjectKey bodyKey f :
  alookup subjectKey Settings = Some TString -> alookup bodyKey Settings = Some TString ->
  preserves web_wf (save_pair subjectKey bodyKey f).
Proof.
  intros Hs Hb. assert (forall k v, alookup k Settings = Some TString -> preserves wf (setSetting k (JStr v))) as Hw.
  { intros k v Hk. apply setSetting_wf. unfold setting_typed. by rewrite Hk. }
  unfold save_pair. apply preserves_bind; [apply requireAdmin_wf|intros _].
  apply preserves_bind; [|intros _]; by apply on_act_wf, Hw.
Qed.
Lemma web_action_wf nf a m : web_action nf a = Some m -> preserves web_wf m.
Proof.
  destruct a; intros [= <-].
  - unfold provisionNodeAction, showToken. action.
  - unfold rotateNodeTokenAction, showToken. action.
  - unfold revokeNodeAction. action.
  - unfold setNodeAliasAction, nodes_redirect. action.
  - unfold setNodeColdStorageAction, nodes_redirect. action.
  - unfold deleteNodeAction, nodes_redirect. action.
  - unfold checkNodeAction, node_button, nodeTask. action.
  - unfold repairNodeAction, node_button, nodeTask. action.
  - unfold rebootNodeAction, node_button, nodeTask. action.
  - unfold clearGpuEventsAction. action.
  - unfold deleteGpuEventAction. action.
  - unfold sendAnnouncementAction, to_announcements. action.
  - unfold deleteAnnouncementAction, to_announcements. action.
  - unfold clearAnnouncementsAction, to_announcements. action.
  - unfold saveUniversalSignatureAction. action.
  - match goal with |- context [save_mail ?x] => destruct x end; unfold save_mail; apply save_pair_wf; reflexivity.
  - unfold createAnnouncementTemplateAction, withTemplateFlash. action.
  - unfold updateAnnouncementTemplateAction, withTemplateFlash. action.
  - unfold deleteAnnouncementTemplateAction, withTemplateFlash. action.
  - unfold ignore, importStudentsAction. action.
  - unfold removeStudentAction. action.
  - unfold createLabAction. action.
  - unfold updateLabMetaAction. action.
  - unfold destroyLabAction. action.
  - unfold grantNodeAccessAction, grant_input. action.
  - unfold setPlacementQuotaAction. action.
  - unfold recreatePlacementAction. action.
  - unfold recreatePlacementSettingsAction. action.
  - unfold retryPlacementAction. action.
  - unfold revealPlacementCredentialAction. action.
  - unfold removePlacementAction. action.
  - unfold addMemberAction. action.
  - unfold ignore, previewRosterImportAction. action.
  - unfold ignore, applyRosterImportAction. action.
  - unfold removeMemberAction. action.
  - unfold saveStorageSettingsAction. action.
  - unfold saveUsageScanSettingsAction, set_flag. action.
  - unfold saveSmtpSettingsAction. action.
  - unfold deleteSmtpSettingsAction. action.
  - unfold saveAlertSettingsAction, set_flag. action.
  - unfold clearLogsAction. action.
  - unfold saveGpuPolicyAction, set_flag. action.
  - unfold saveScrubSettingsAction, set_flag. action.
  - unfold scrubNowAction, scrub_nodes. action.
  - unfold testEmailAction. action.
  - unfold usageScanAction. action.
  - unfold refreshAllAction. action.
  - unfold ignore, emailUsageReportAction, buildUsageReport, latestSamples. action.
  - unfold createNodeGroupAction, withGroupFlash. action.
  - unfold renameNodeGroupAction, withGroupFlash. action.
  - unfold deleteNodeGroupAction, withGroupFlash. action.
  - unfold setNodeGroupMembersAction, withGroupFlash. action.
  - unfold saveWebdavSettingsAction, done. action.
  - unfold saveScheduleAction, set_flag, done. action.
  - unfold refreshAction. action.
Qed.
End wf.
