(* ===== verification/System.v ===== *)
(** * System: the controller as a whole, between two boots and across them

    The hub's events, the requests a browser can make, the hourly tick and a restart, as one
    step relation; what every state it reaches satisfies. *)
From S2P Require Import Prelude Js Numbers Csv Schema Sql DbWf Env Secrets Queue Settings SettingsFacts Template Format Mailer Alerts Placements Labs Students LabImport Nodes Protocol Ingest Maintenance Testbed QueueFacts Hub HubConn Web WebFixture WebDav Backup BackupFacts HubConnFacts Gpu Announce RateLimit Flash Auth Stats Actions LabActions SettingsActions StatsActions Console ConsoleFacts.
From stdpp Require Import pretty.
Open Scope Z_scope.

(** What a browser can ask for: the public pages' actions, the sign-out button, a message a page
    shows, and the actions of the console. *)
Inductive request :=
| RLogin (f : FormData) | RSignup (f : FormData) | RLogout
| RFlash (id : string)
| RAction (a : console_action).

Section system.
Context {HK : Honker} {PF : Platform} {ZP : Zod} {AL : AuthLib} {TZ : Zones} {HC : HttpClient} {BL : BackupLib}.
Context (toLocaleString : nat -> string).

Definition respond (r : request) : BAct unit :=
  match r with
  | RLogin f => on_web (login f)
  | RSignup f => on_web (signup f)
  | RLogout => on_web logout
  | RFlash id => on_web (takeFlash id);; mret tt
  | RAction a => run toLocaleString a
  end.

(** The request being served. *)
Definition with_request (headers : list (string * string)) (cookie : option string) (s : BackupWorld)
    : BackupWorld :=
  s <| bk_web ::= fun w => w <| ww_headers := headers |> <| ww_cookie := cookie |> |>.

(** A new process: its memory is empty; the database it opens is [d], the queue's file is the
    one that was there. *)
Definition restarted (d : Db) (s : BackupWorld) : BackupWorld :=
  let w := web_world (bk_web s) in
  {| bk_web := mkWeb (booted (w <| w_db := d |> <| w_alert_state := ∅ |> <| w_gpu_mail := ∅ |>
      <| w_mails := [] |>)) [] [] [] None;
     bk_http := bk_http s; bk_restore := None; bk_warned := false |}.

(** The first boot. *)
Definition initial (w : World) (h : http) : BackupWorld :=
  {| bk_web := mkWeb (booted w) [] [] [] None; bk_http := h; bk_restore := None; bk_warned := false |}.

Inductive system_step : BackupWorld -> BackupWorld -> Prop :=
| sys_hub s e : enabled (hw_hub (ww_hub (bk_web s))) e -> system_step s (on_web (on_hub (handle e)) s).2
| sys_request s headers cookie r : system_step s (respond r (with_request headers cookie s)).2
| sys_tick s : system_step s (maintenance_tick s).2
| sys_mail s k : system_step s (lib (settle_mail k) s).2
| sys_restart s d :
    boot_db (bk_restore s) (web_db (bk_web s)) = Some d -> db_wf d -> content_ok d ->
    system_step s (restarted d s).

(** The states of the controller from the first boot on, the target of the backups being in any
    state. *)
Definition system_reachable (s : BackupWorld) : Prop :=
  exists w h, wf w /\ rtc system_step (initial w h) s.
End system.

(** ** Every step keeps the invariant *)

Section facts.
Context {HK : Honker} {PF : Platform} {ZP : Zod} {AL : AuthLib} {TZ : Zones} {HC : HttpClient} {BL : BackupLib}.

Definition sys_wf (s : BackupWorld) : Prop := web_wf (bk_web s).

Lemma on_web_wf {A} (m : WAct A) : preserves web_wf m -> preserves sys_wf (on_web m).
Proof.
  intros Hm s Hs. pose proof (Hm (bk_web s) Hs) as H. unfold on_web, sys_wf. by destruct (m (bk_web s)).
Qed.
Lemma lib_wf {A} (m : Act A) : preserves wf m -> preserves sys_wf (lib m).
Proof. intros Hm. by apply on_web_wf, on_act_wf. Qed.
Lemma dav_wf method url cfg body : preserves sys_wf (dav method url cfg body).
Proof. intros s Hs. unfold dav. by destruct (fetch _ _). Qed.
Lemma modify_sys_wf f : (forall s, bk_web (f s) = bk_web s) -> preserves sys_wf (modify f : BAct unit).
Proof. intros H s Hs. unfold sys_wf. cbn. by rewrite H. Qed.
#[local] Hint Resolve dav_wf requireAdmin_wf redirect_wf putFlash_wf : preserve.
#[local] Hint Extern 1 (preserves sys_wf (lib _)) => (apply lib_wf; solve_preserves) : preserve.
#[local] Hint Extern 1 (preserves sys_wf (on_web _)) => (apply on_web_wf; solve_preserves) : preserve.
#[local] Hint Extern 1 (preserves sys_wf (modify _)) => (apply modify_sys_wf; done) : preserve.
#[local] Hint Extern 1 (preserves web_wf (on_act _)) => (apply on_act_wf; solve_preserves) : preserve.

(** *** The backups *)

Lemma dav_or_throw_wf method url cfg body : preserves sys_wf (dav_or_throw method url cfg body).
Proof. unfold dav_or_throw. solve_preserves. Qed.
#[local] Hint Resolve dav_or_throw_wf : preserve.
Lemma make_collections_wf cfg origin l : forall path, preserves sys_wf (make_collections cfg origin path l).
Proof. induction l as [|seg l IH]; intros path; cbn [make_collections]; solve_preserves. Qed.
#[local] Hint Resolve make_collections_wf : preserve.
Lemma ensureCollection_wf cfg : preserves sys_wf (ensureCollection cfg).
Proof. unfold ensureCollection. solve_preserves. Qed.
Lemma put_wf cfg name data : preserves sys_wf (put cfg name data).
Proof. unfold put. solve_preserves. Qed.
Lemma dav_get_wf cfg name : preserves sys_wf (dav_get cfg name).
Proof. unfold dav_get. solve_preserves. Qed.
Lemma del_wf cfg name : preserves sys_wf (del cfg name).
Proof. unfold del. solve_preserves. Qed.
Lemma listStrict_wf cfg : preserves sys_wf (listStrict cfg).
Proof. unfold listStrict. solve_preserves. Qed.
#[local] Hint Resolve ensureCollection_wf put_wf dav_get_wf del_wf listStrict_wf : preserve.
Lemma dav_list_wf cfg : preserves sys_wf (dav_list cfg).
Proof. unfold dav_list. solve_preserves. Qed.
Lemma configured_wf : preserves sys_wf (lib isWebdavConfigured).
Proof. apply lib_wf. unfold isWebdavConfigured. solve_preserves. Qed.
Lemma webdav_config_wf : preserves sys_wf webdav_config.
Proof. unfold webdav_config. apply preserves_bind; [|intros [[]]; solve_preserves]. apply lib_wf. unfold webdavConfig. solve_preserves. Qed.
#[local] Hint Resolve dav_list_wf configured_wf webdav_config_wf : preserve.
Lemma maybeEncryptBackup_ro plain : preserves wf (maybeEncryptBackup plain).
Proof. unfold maybeEncryptBackup. solve_preserves. Qed.
Lemma pruneBackups_wf : preserves sys_wf pruneBackups.
Proof. unfold pruneBackups. solve_preserves. Qed.
#[local] Hint Resolve maybeEncryptBackup_ro pruneBackups_wf : preserve.
Lemma backup_steps_wf stamp : preserves sys_wf (backup_steps stamp).
Proof. unfold backup_steps, snapshot. solve_preserves. Qed.
#[local] Hint Resolve backup_steps_wf : preserve.
Lemma backupNow_wf stamp : preserves sys_wf (backupNow stamp).
Proof. unfold backupNow. solve_preserves. Qed.
Lemma recordRun_wf stamp r : preserves wf (recordRun stamp r).
Proof. unfold recordRun. solve_preserves. Qed.
#[local] Hint Resolve backupNow_wf recordRun_wf : preserve.
Lemma backupAll_wf : preserves sys_wf backupAll.
Proof. unfold backupAll. solve_preserves. Qed.
Lemma listBackups_wf : preserves sys_wf listBackups.
Proof. unfold listBackups. solve_preserves. Qed.
#[local] Hint Resolve backupAll_wf listBackups_wf : preserve.
Lemma restore_fetch_wf safe : preserves sys_wf (restore_fetch safe).
Proof. unfold restore_fetch. solve_preserves. Qed.
#[local] Hint Resolve restore_fetch_wf : preserve.
Lemma stageRestore_wf name : preserves sys_wf (stageRestore name).
Proof. unfold stageRestore. solve_preserves. Qed.
Lemma testConnection_wf : preserves sys_wf testConnection.
Proof. unfold testConnection. solve_preserves. Qed.
#[local] Hint Resolve stageRestore_wf testConnection_wf : preserve.

Lemma run_wf nf a : preserves sys_wf (run nf a).
Proof.
  unfold run. destruct (web_action nf a) as [m|] eqn:Ha.
  { apply on_web_wf. by apply (web_action_wf nf a). }
  destruct a; try apply preserves_ret; unfold testConnectionAction, backupNowAction, restoreAction, done;
    solve_preserves.
Qed.
Lemma maintenance_tick_wf : preserves sys_wf maintenance_tick.
Proof. unfold maintenance_tick. solve_preserves. Qed.

(** *** The public requests *)

Lemma consume_wf key opts : preserves web_wf (consume key opts).
Proof.
  intros s [Hh [Hb Hf]]. assert (preserves (web_inv (fun _ st => length st <= MAX_ENTRIES)%nat) (consume key opts)) as H.
  { unfold consume. solve_preserves; try (apply on_act_inv; solve_preserves); by intros s' H'. }
  destruct (H s (conj Hh Hf)) as [H1 H2]. split; [done|]. split; [|done].
  destruct (consume_bounded key opts s) as (ok & s' & He & Hl & _). by rewrite He.
Qed.
Lemma clientIp_wf : preserves web_wf clientIp.
Proof. unfold clientIp, header. solve_preserves. Qed.
Lemma setSessionCookie_wf a : preserves web_wf (setSessionCookie a).
Proof. unfold setSessionCookie, issueSession, tokenVersion. solve_preserves; by intros s Hs. Qed.
Lemma verifyLogin_ro email password : preserves wf (verifyLogin email password).
Proof. unfold verifyLogin. solve_preserves. Qed.
Lemma createAdmin_wf name email password token : preserves wf (createAdmin name email password token).
Proof. unfold createAdmin. solve_preserves. Qed.
Lemma takeFlash_wf id : preserves web_wf (takeFlash id).
Proof.
  unfold takeFlash. solve_preserves. intros s [Hh [Hb Hf]]. split; [done|]. split; [done|].
  etransitivity; [apply length_filter|exact Hf].
Qed.
#[local] Hint Resolve consume_wf clientIp_wf setSessionCookie_wf verifyLogin_ro createAdmin_wf takeFlash_wf : preserve.

Lemma login_wf f : preserves web_wf (login f).
Proof. unfold login. solve_preserves. Qed.
Lemma signup_wf f : preserves web_wf (signup f).
Proof. unfold signup. solve_preserves. Qed.
Lemma logout_wf : preserves web_wf logout.
Proof. unfold logout, clearSessionCookie. solve_preserves; by intros s Hs. Qed.
#[local] Hint Resolve login_wf signup_wf logout_wf run_wf : preserve.

Lemma respond_wf nf r : preserves sys_wf (respond nf r).
Proof. destruct r; cbn [respond]; solve_preserves. Qed.

Lemma system_step_wf nf s s' : system_step nf s s' -> sys_wf s -> sys_wf s'.
Proof.
  intros [s0 e He|s0 headers cookie r|s0|s0 k|s0 d _ Hd Hl] Hs.
  - destruct Hs as [Hh Hb]. pose proof (handle_inv e _ He Hh) as H. unfold on_web, on_hub, sys_wf, web_wf, web_inv.
    by destruct (handle e _).
  - by apply respond_wf.
  - by apply maintenance_tick_wf.
  - by apply (lib_wf _ (settle_mail_wf k)).
  - split; [split; [apply hub_inv_empty|done]|]. split; cbn; lia.
Qed.

Lemma initial_reachable nf w h : wf w -> system_reachable nf (initial w h).
Proof. intros Hw. by exists w, h. Qed.
Lemma request_reachable nf s headers cookie r :
  system_reachable nf s -> system_reachable nf (respond nf r (with_request headers cookie s)).2.
Proof.
  intros (w & h & Hw & Hr). exists w, h. split; [done|]. eapply rtc_r; [exact Hr|]. apply sys_request.
Qed.

Lemma reachable_sys_wf nf s : system_reachable nf s -> sys_wf s.
Proof.
  intros (w & h & Hw & Hr).
  assert (sys_wf (initial w h)) as H0.
  { split; [split; [apply hub_inv_empty|done]|]. split; cbn; lia. }
  revert H0. clear Hw. induction Hr as [|s1 s2 s3 Hstep _ IH]; [done|]. intros H. apply IH.
  by eapply system_step_wf.
Qed.

(** C1: the invariant of the controller: whatever the agents send, whoever signs in, out or up, whichever
    action of the console is called with whatever form, whatever the WebDAV server answers, through
    hourly ticks and restarts, in every state the database is well-formed (its keys and references,
    a log free of secrets, settings of their types), the hub's connections and polling intervals agree, the throttle's
    table and the flash messages stay within their capacities. *)
Theorem system_type_invariant nf s :
  system_reachable nf s ->
  wf (web_world (bk_web s)) /\ hub_inv (hw_hub (ww_hub (bk_web s))) /\
  (length (ww_buckets (bk_web s)) <= S MAX_BUCKETS)%nat /\
  (length (ww_flash (bk_web s)) <= MAX_ENTRIES)%nat.
Proof. intros Hs. by destruct (reachable_sys_wf nf s Hs) as [[] []]. Qed.

(** C4: what a setting reads as: in every state of the controller each of the 74 keys of the
    interface is read without an exception, whatever the forms held and whatever is stored: a text
    key as a text, a flag as a flag, a key with a word list as one of its words, an hour or a minute
    as a whole number within range.  Only the number keys fall short of their declaration: they
    read as a number or as null, which is what JSON keeps of a number that is not finite, and the
    ranked servers are a list of complete configurations up to the same null in their numbers. *)
Theorem reachable_settings_typed nf s k ty :
  system_reachable nf s -> alookup k Settings = Some ty ->
  exists v, getSetting k (web_world (bk_web s)) = (Ok v, web_world (bk_web s)) /\
    (has_type ty v = true \/ (ty = TNumber /\ v = JNull) \/ (ty = TConfigs /\ reads_as TConfigs v = true)).
Proof.
  intros Hs Hk. destruct (reachable_sys_wf nf s Hs) as [[_ [_ Hc]] _].
  destruct (getSetting_typed (web_world (bk_web s)) k ty (proj2 Hc) Hk) as (v & Hg & Ht).
  exists v. split; [exact Hg|by apply reads_as_cases].
Qed.
End facts.

(** ** A run of the controller *)

Section witness.
#[local] Existing Instance toy_honker.
#[local] Instance run_pf : Platform := web_pf ticking.
#[local] Existing Instance toy_auth.
#[local] Existing Instance ref_zod.

#[local] Existing Instance utc.
#[local] Existing Instances no_http toy_backup.

Definition boot : BackupWorld := initial (web_world0 ticking) tt.

(** Ada signs up with the deployment's token, and provisions a node with the cookie she was
    given. *)
Definition signup_form : FormData :=
  [("name", "Ada"); ("email", "ada@lab.edu"); ("password", "analytical-engine");
   ("token", "signup-token-0123456789")].
Definition signed_up : BackupWorld := (respond pretty (RSignup signup_form) (with_request [] None boot)).2.
Definition ada_cookie : option string := ww_cookie (bk_web signed_up).
Definition with_node : BackupWorld :=
  (respond pretty (RAction (CProvisionNode [("name", "n9")])) (with_request [] ada_cookie signed_up)).2.

Lemma with_node_reachable : system_reachable pretty with_node.
Proof. unfold with_node. apply request_reachable. unfold signed_up. apply request_reachable, initial_reachable, web_world0_wf. Qed.

Lemma system_type_invariant_witness :
  wf (web_world (bk_web with_node)) /\
  bool_decide ("n9" ∈ n_name <$> rows (nodes (web_db (bk_web with_node)))) = true /\
  length (ww_flash (bk_web with_node)) = 1%nat.
Proof.
  split; [|split; vm_compute; reflexivity].
  exact (proj1 (system_type_invariant pretty with_node with_node_reachable)).
Defined.

(** She saves the alert settings with a level there is not. *)
Definition with_alerts : BackupWorld :=
  (respond pretty (RAction (CSaveAlerts [("alertLevel", "DEBUG")])) (with_request [] ada_cookie with_node)).2.
Lemma reachable_settings_typed_witness :
  exists v, getSetting "alertLevel" (web_world (bk_web with_alerts)) = (Ok v, web_world (bk_web with_alerts)) /\
    existsb (fun s => bool_decide (v = JStr s)) ["WARN"; "ERROR"] = true.
Proof.
  destruct (reachable_settings_typed pretty with_alerts "alertLevel" (TOneOf ["WARN"; "ERROR"])) as (v & Hv & Ht).
  - unfold with_alerts. apply request_reachable, with_node_reachable.
  - reflexivity.
  - exists v. split; [exact Hv|]. destruct Ht as [Ht|[[? _]|[? _]]]; [|discriminate..]. destruct v as [| | |l| |]; try discriminate Ht. cbn in *.
    rewrite orb_false_r in *. apply orb_true_iff in Ht. apply orb_true_iff.
    destruct Ht as [->%String.eqb_eq| ->%String.eqb_eq]; [left|right]; reflexivity.
Defined.

(** A request without a cookie to reveal a password. *)
Definition anonymous : BackupWorld := with_request [("x-forwarded-for", "10.0.0.9")] None with_node.

Lemma console_gated_witness :
  (run pretty (CRevealCredential [("labId", "1"); ("placementId", "1")]) anonymous).1 = Throw (ERedirect "/login").
Proof.
  destruct (console_gated pretty (CRevealCredential [("labId", "1"); ("placementId", "1")]) anonymous)
    as (ticks & cookie & H).
  - intros admin (token & key & payload & Hc & _). discriminate Hc.
  - rewrite H. reflexivity.
Defined.
End witness.
