(* ===== verification/DrainFacts.v ===== *)
(** * DrainFacts: what a polling tick sends, and that a revoked node gets nothing more *)
From S2P Require Import Prelude Js Redact Schema Sql DbWf Env Secrets Queue Testbed QueueFacts Settings Template Format Mailer Alerts Placements Nodes Protocol Ingest Hub HubConn HubConnFacts.
Open Scope Z_scope.

(** A queued payload that decodes to the frame. *)
Definition decodes {PF : Platform} (j : Z * json) (f : json) : Prop := decodeFrame j.2 = Ok f.

Lemma decodes_map {PF : Platform} l frames :
  (fun j => decodeFrame j.2) <$> l = Ok <$> frames -> Forall2 decodes l frames.
Proof.
  revert frames. induction l as [|j l IH]; intros [|f frames]; try done.
  intros [= Hj Hl]. constructor; [exact Hj|by apply IH].
Qed.

Section drain.
Context {HK : Honker} {HS : HonkerSpec} {PF : Platform} {ZP : Zod}.
Implicit Types (s : HubWorld).

Definition waiting s (node : string) : list (Z * json) := pending (w_hk (hw_world s)) (node_queue node).
Definition send_all (ws : nat) (frames : list json) (h : HubState) : HubState :=
  h <| hs_sockets ::= alter (fun o => o <| so_sent ::= fun l => l ++ frames |>) ws |>.

(** What a number of sends on one socket leaves. *)
Record sent (node : string) (ws : nat) (frames : list json) s s' : Prop := {
  se_hub : hw_hub s' = send_all ws frames (hw_hub s);
  se_other m : m <> node_queue node ->
    pending (w_hk (hw_world s')) m = pending (w_hk (hw_world s)) m;
  se_log : Forall2 (evolves node) (tasks (hw_world s)) (tasks (hw_world s'));
  se_nodes : nodes (w_db (hw_world s')) = nodes (w_db (hw_world s)) }.

Lemma send_all_nil ws h : send_all ws [] h = h.
Proof.
  destruct h. unfold send_all. unset. cbn. f_equal. apply alter_id. intros [] _. unset. cbn.
  by rewrite app_nil_r.
Qed.
Lemma send_all_app ws fs gs h : send_all ws gs (send_all ws fs h) = send_all ws (fs ++ gs) h.
Proof.
  unfold send_all. unset. cbn. f_equal. apply map_eq. intros i. destruct (decide (ws = i)) as [->|].
  - rewrite !lookup_alter_eq, <- option_fmap_compose. apply option_fmap_ext. intros []. cbn.
    by rewrite app_assoc.
  - by rewrite !lookup_alter_ne.
Qed.

Lemma is_open_send ws fs h i : is_open (send_all ws fs h) i = is_open h i.
Proof.
  unfold is_open, send_all. cbn. destruct (decide (ws = i)) as [->|]; [|by rewrite lookup_alter_ne].
  rewrite lookup_alter_eq. by destruct (hs_sockets h !! i).
Qed.

Lemma sent_trans node ws fs gs s1 s2 s3 :
  sent node ws fs s1 s2 -> sent node ws gs s2 s3 -> sent node ws (fs ++ gs) s1 s3.
Proof.
  intros [H1 H2 H3 HN] [H4 H5 H6 HN']. split.
  - by rewrite H4, H1, send_all_app.
  - intros m Hm. by rewrite H5, H2.
  - eapply Forall2_trans; [|exact H3|exact H6]. intros t1 t2 t3. apply evolves_trans.
  - by rewrite HN'.
Qed.

Lemma evolves_same node (l : list TaskRow) : Forall2 (evolves node) l l.
Proof. induction l; constructor; [apply evolves_refl|done]. Qed.

Lemma send_open ws v s : is_open (hw_hub s) ws = true ->
  (send_socket ws v s).2 = mkHubWorld (hw_world s) (send_all ws [v] (hw_hub s)).
Proof.
  intros Ho. unfold send_socket, update_socket, modify, send_all. cbn. unset. cbn. f_equal. f_equal.
  apply map_eq. intros i. destruct (decide (ws = i)) as [->|]; [|by rewrite !lookup_alter_ne].
  rewrite !lookup_alter_eq. unfold is_open in Ho. destruct (hs_sockets (hw_hub s) !! i) as [o|]; [|done].
  cbn. by rewrite Ho.
Qed.

Lemma drain_one_empty node ws s :
  waiting s node = [] -> exists s', drain_one node ws s = (Ok false, s') /\ sent node ws [] s s' /\
    waiting s' node = [].
Proof.
  intros Hw. pose proof (claim_empty _ _ (worker_id node) Hw) as [Hc Hl].
  pose proof (claim_other (w_hk (hw_world s)) (node_queue node)) as Hother.
  destruct (hk_claim_one (node_queue node) (worker_id node) (w_hk (hw_world s))) as [o q] eqn:Hq.
  cbn in Hc, Hl. subst o.
  assert (on_world (claimTask node (worker_id node)) s =
    (Ok None, s <| hw_world := (hw_world s) <| w_hk := q |> |>)) as Hclaim.
  { unfold on_world, claimTask, hk_claim_act, mbind, M_bind. by rewrite Hq. }
  unfold drain_one. rewrite (bind_step _ _ _ _ _ Hclaim).
  eexists. split; [done|]. split; [|done]. split; [by rewrite send_all_nil| |apply evolves_same|done].
  intros m Hm. specialize (Hother m (worker_id node) ltac:(congruence)). by rewrite Hq in Hother.
Qed.

(** The statements of a task that was sent. *)
Lemma after_send node jid id w :
  (ackTask node jid (worker_id node);; markTaskState node id TSent None None false;;
   bumpAttempts node id) w = (Ok tt,
   (bumpAttempts node id (markTaskState node id TSent None None false
      (ackTask node jid (worker_id node) w).2).2).2).
Proof. done. Qed.

Lemma drain_one_step node ws s j l f :
  is_open (hw_hub s) ws = true -> waiting s node = j :: l -> decodes j f ->
  exists s', drain_one node ws s = (Ok true, s') /\ sent node ws [f] s s' /\ waiting s' node = l.
Proof.
  intros Ho Hw Hd. destruct (claim_first _ _ (worker_id node) _ _ Hw) as [Hc Hl].
  pose proof (claim_other (w_hk (hw_world s)) (node_queue node)) as Hother.
  destruct (hk_claim_one (node_queue node) (worker_id node) (w_hk (hw_world s))) as [o q] eqn:Hq.
  cbn in Hc, Hl. subst o. destruct j as [jid payload]. unfold decodes in Hd. cbn in Hd.
  set (s1 := s <| hw_world := (hw_world s) <| w_hk := q |> |>).
  assert (on_world (claimTask node (worker_id node)) s = (Ok (Some (jid, f)), s1)) as Hclaim.
  { unfold on_world, claimTask, hk_claim_act, mbind, M_bind. rewrite Hq. cbn. by rewrite Hd. }
  unfold drain_one. rewrite (bind_step _ _ _ _ _ Hclaim). cbv beta iota zeta.
  set (id := default "" (as_str (field "id" f))).
  assert (send_socket ws f s1 = (Ok tt, mkHubWorld (hw_world s1) (send_all ws [f] (hw_hub s1)))) as Hsend.
  { rewrite <- send_open by done. done. }
  unfold catch. rewrite (bind_step _ _ _ _ _ Hsend).
  unfold on_world at 1. unfold mbind at 1, M_bind at 1. cbn [hw_world].
  rewrite after_send. eexists. split; [reflexivity|]. split.
  - split.
    + done.
    + intros m Hm. change (pending (hk_ack_batch (node_queue node) [jid] (worker_id node) q) m = pending (w_hk (hw_world s)) m).
      rewrite pending_ack. specialize (Hother m (worker_id node) ltac:(congruence)).
      by rewrite Hq in Hother.
    + eapply Forall2_trans; [intros t1 t2 t3; apply evolves_trans| |].
      * apply (agent_call_evolves node (ackTask node jid (worker_id node) (hw_world s1)).2). apply call_mark.
      * apply agent_call_evolves, call_attempt.
    + done.
  - change (pending (hk_ack_batch (node_queue node) [jid] (worker_id node) q) (node_queue node) = l).
    by rewrite pending_ack.
Qed.

Lemma drain_loop_run node ws n s frames :
  is_open (hw_hub s) ws = true -> Forall2 decodes (take n (waiting s node)) frames ->
  exists s', drain_loop n node ws s = (Ok tt, s') /\ sent node ws frames s s' /\
    waiting s' node = drop n (waiting s node).
Proof.
  revert s frames. induction n as [|n IH]; intros s frames Ho Hd.
  { inversion Hd. subst. exists s. split; [done|]. split; [|by rewrite drop_0].
    split; [by rewrite send_all_nil|done|apply evolves_same|done]. }
  cbn. destruct (waiting s node) as [|j l] eqn:Hw.
  - inversion Hd. subst. destruct (drain_one_empty node ws s Hw) as (s' & He & Hs & Hw').
    exists s'. rewrite (bind_step _ _ _ _ _ He). by rewrite Hw'.
  - cbn in Hd. inversion Hd as [|? f ? fs Hj Hl]; subst.
    destruct (drain_one_step node ws s j l f Ho Hw Hj) as (s1 & He & Hs1 & Hw1).
    rewrite (bind_step _ _ _ _ _ He). destruct (IH s1 fs) as (s2 & H2 & Hs2 & Hw2).
    + by rewrite (se_hub _ _ _ _ _ Hs1), is_open_send.
    + by rewrite Hw1.
    + exists s2. split; [done|]. split; [|by rewrite Hw2, Hw1].
      by apply (sent_trans node ws [f] fs s s1 s2).
Qed.

(** The connection of the node is live: its socket is open and its token still authorised. *)
Definition serving (node : string) (c : NodeConn) s : Prop :=
  is_open (hw_hub s) (cn_ws c) = true /\ hs_connections (hw_hub s) !! node = Some c /\
  nodeStillAuthorized node (cn_tokenHash c) (hw_world s) = (Ok true, hw_world s).

Lemma drainNode_run node c s frames :
  serving node c s -> Forall2 decodes (take 20 (waiting s node)) frames ->
  exists s', drainNode node (cn_ws c) s = (Ok tt, s') /\ sent node (cn_ws c) frames s s' /\
    waiting s' node = drop 20 (waiting s node).
Proof.
  intros (Ho & Hc & Ha) Hd. unfold drainNode. rewrite (bind_step hub _ s (hw_hub s) s) by done.
  rewrite Ho, Hc, Nat.eqb_refl. cbn [negb].
  assert (on_world (nodeStillAuthorized node (cn_tokenHash c)) s = (Ok true, s)) as Hs.
  { unfold on_world. rewrite Ha. by destruct s. }
  rewrite (bind_step _ _ _ _ _ Hs). by apply drain_loop_run.
Qed.

Lemma authorized_nodes node hash w w' :
  nodes (w_db w') = nodes (w_db w) -> nodeStillAuthorized node hash w = (Ok true, w) ->
  nodeStillAuthorized node hash w' = (Ok true, w').
Proof.
  unfold nodeStillAuthorized, mbind, M_bind, node_named. cbn. intros ->.
  destruct (get_row _ _) as [n|]; [|done]. unfold mret, M_ret. by intros [= ->].
Qed.

Lemma sent_serving node c frames s s' :
  sent node (cn_ws c) frames s s' -> serving node c s -> serving node c s'.
Proof.
  intros [Hh _ _ Hn] (Ho & Hc & Ha). split_and!.
  - by rewrite Hh, is_open_send.
  - by rewrite Hh.
  - by apply (authorized_nodes _ _ (hw_world s)).
Qed.

(** What was sent on a socket. *)
Definition sent_on (ws : nat) s : list json :=
  match hs_sockets (hw_hub s) !! ws with Some o => so_sent o | None => [] end.

(** A run in which the connection [c] stays live: [k] of its ticks, and in between anything that
    sends nothing on its socket and at most appends to the node's queue ([extra], in order). *)
Inductive served (node : string) (c : NodeConn) : nat -> list (Z * json) -> HubWorld -> HubWorld -> Prop :=
| served_end s : served node c 0 [] s s
| served_tick k extra s s' :
    served node c k extra (drainNode node (cn_ws c) s).2 s' -> served node c (S k) extra s s'
| served_other k added extra s s1 s' :
    serving node c s1 -> sent_on (cn_ws c) s1 = sent_on (cn_ws c) s ->
    waiting s1 node = waiting s node ++ added -> served node c k extra s1 s' ->
    served node c k (added ++ extra) s s'.

Lemma sent_sent_on node ws frames s s' : is_open (hw_hub s) ws = true ->
  sent node ws frames s s' -> sent_on ws s' = sent_on ws s ++ frames.
Proof.
  intros Ho [Hh _ _ _]. unfold sent_on. rewrite Hh. cbn. rewrite lookup_alter_eq.
  unfold is_open in Ho. by destruct (hs_sockets (hw_hub s) !! ws).
Qed.

Lemma served_spec node c k extra s s' : served node c k extra s s' -> forall fs efs,
  serving node c s -> Forall2 decodes (waiting s node) fs -> Forall2 decodes extra efs ->
  exists out rest, sent_on (cn_ws c) s' = sent_on (cn_ws c) s ++ out /\ fs ++ efs = out ++ rest /\
    Forall2 decodes (waiting s' node) rest /\ (Nat.min (20 * k) (length fs) <= length out)%nat.
Proof.
  induction 1 as [s|k extra s s' _ IH|k added extra s s1 s' Hs1 Hso Hw _ IH]; intros fs efs Hs Hfs Hefs.
  - inversion Hefs. subst. exists [], fs. rewrite !app_nil_r. split_and!; [done|done|done|cbn; lia].
  - destruct (drainNode_run node c s (take 20 fs) Hs) as (s1 & Hr & Hse & Hw1); [by apply Forall2_take|].
    rewrite Hr in IH. cbn [snd] in IH.
    destruct (IH (drop 20 fs) efs) as (out & rest & Hout & Heq & Hrest & Hlen).
    + by eapply sent_serving.
    + rewrite Hw1. by apply Forall2_drop.
    + done.
    + exists (take 20 fs ++ out), rest. split_and!; [| |done|].
      * rewrite Hout, (sent_sent_on _ _ _ _ _ (proj1 Hs) Hse), app_assoc. done.
      * by rewrite <- app_assoc, <- Heq, app_assoc, take_drop.
      * rewrite length_app, length_take. rewrite length_drop in Hlen. lia.
  - apply Forall2_app_inv_l in Hefs as (f1 & f2 & H1 & H2 & ->).
    destruct (IH (fs ++ f1) f2) as (out & rest & Hout & Heq & Hrest & Hlen); [done| |done|].
    + rewrite Hw. by apply Forall2_app.
    + exists out, rest. rewrite <- Hso, app_assoc. split_and!; [done|done|done|].
      rewrite length_app in Hlen. lia.
Qed.
End drain.

(** ** Cutting a node off *)

Definition hk_is {HK : Honker} (q : hkq) (w : World) : Prop := w_hk w = q.

Section cut.
Context {HK : Honker} {PF : Platform} {ZP : Zod}.

#[export] Instance hk_is_mail q : MailStable (hk_is q).
Proof. intros w w' Hm. unfold hk_is. by rewrite (mo_hk _ _ Hm). Qed.

Lemma hk_is_modify q f : (forall w, w_hk (f w) = w_hk w) -> preserves (hk_is q) (modify f : Act unit).
Proof. intros H w. unfold hk_is. cbn. by rewrite H. Qed.

Lemma alertNodeOffline_hk q node label : preserves (hk_is q) (alertNodeOffline node label).
Proof.
  unfold alertNodeOffline, detached, alertAdmins, adminEmails. solve_preserves; by apply hk_is_modify.
Qed.

Lemma hk_is_exec q f : preserves (hk_is q) (exec f).
Proof. by apply hk_is_modify. Qed.
Lemma hk_is_transaction {A} q (m : Act A) : preserves (hk_is q) m -> preserves (hk_is q) (transaction m).
Proof. intros Hm w Hw. specialize (Hm w Hw). unfold transaction. by destruct (m w) as [[a|e] w']. Qed.
#[local] Hint Resolve hk_is_exec : preserve.
Ltac queue_kept := solve_preserves; repeat first [apply hk_is_transaction | apply hk_is_exec | by apply hk_is_modify];
  solve_preserves.

Lemma audit_hk q actor action target detail : preserves (hk_is q) (audit actor action target detail).
Proof. unfold audit, insert_audit. queue_kept. Qed.
#[local] Hint Resolve audit_hk : preserve.
Lemma deleteNode_hk q name actor force : preserves (hk_is q) (deleteNode name actor force).
Proof.
  unfold deleteNode, delete_placements, clear_node_owner, delete_tasks, delete_gpu_snapshot, delete_node,
    update_nodes. queue_kept.
Qed.
Lemma deleteNode_log name actor force w w1 :
  deleteNode name actor force w = (Ok tt, w1) -> forall t, t ∈ tasks w1 -> t_node t <> name.
Proof.
  intros H. unfold deleteNode in H. inv_bind H. destruct (node_named a name) as [row|]; [|done].
  cbv zeta in H. inv_bind H. inv_bind H. inv_bind H. inv_bind H. injection H as <-.
  unfold transaction in E3. match type of E3 with context [match ?m with _ => _ end] => destruct m as [[[]|] wt] eqn:Hm end; [|done].
  injection E3 as _ <-. inv_bind Hm. inv_bind Hm. inv_bind Hm.
  injection E4 as _ <-. injection E5 as _ <-. unfold delete_node in Hm. inv_bind Hm. injection E4 as _ <-.
  inv_bind Hm. unfold throw_if in E4. case_match; [done|]. injection E4 as _ <-. injection Hm as <-.
  intros t Ht. unfold tasks in Ht. cbn in Ht. unfold delete_where in Ht. by apply elem_of_select in Ht as [Hn _].
Qed.
Lemma provisionNode_hk q name actor : preserves (hk_is q) (provisionNode name actor).
Proof. unfold provisionNode, generateNodeToken, upsert_node. queue_kept. Qed.

(** The hub's tables and the queue, fixed. *)
Definition tables_are (q : hkq) (sk : gmap nat Socket) (cn : gmap string NodeConn)
    (cs : gmap nat (string * nat)) (s : HubWorld) : Prop :=
  hk_is q (hw_world s) /\ hs_sockets (hw_hub s) = sk /\ hs_connections (hw_hub s) = cn /\
  hs_consumers (hw_hub s) = cs.

Lemma on_world_tables {A} q sk cn cs (m : Act A) :
  preserves (hk_is q) m -> preserves (tables_are q sk cn cs) (on_world m).
Proof.
  intros Hm [w h] (Hq & Hh). unfold on_world. specialize (Hm w Hq). cbn.
  destruct (m w) as [r w']. by split.
Qed.

Lemma deregister_rest_tables q sk cn cs node : preserves (tables_are q sk cn cs)
  (on_world (offline_row node);;
   cancelOfflineAlert node;;
   grace ← on_world (getSetting_num "nodeOfflineGraceSeconds");
   if num_leb grace (num_of_Z 0) then offline_fire node
   else modify (fun s => s <| hw_hub ::= fun h => h <| hs_offline ::= fun t => t ∪ {[node]} |> |>)
   : M HubWorld exn unit).
Proof.
  assert (preserves (tables_are q sk cn cs) (cancelOfflineAlert node)) as Hc by by intros s.
  assert (forall A (m : Act A), preserves (hk_is q) m -> preserves (tables_are q sk cn cs) (on_world m)) as Hw
    by (intros; by apply on_world_tables).
  unfold offline_fire. solve_preserves; apply Hw; solve_preserves.
  apply alertNodeOffline_hk.
Qed.

Lemma deregisterNode_tables node c s :
  hs_connections (hw_hub s) !! node = Some c ->
  tables_are (w_hk (hw_world s)) (hs_sockets (hw_hub s)) (delete node (hs_connections (hw_hub s)))
    (delete (cn_consumer c) (hs_consumers (hw_hub s))) (deregisterNode node s).2.
Proof.
  intros Hc. unfold deregisterNode. eapply seq_at; [done|]. cbv beta. rewrite Hc.
  eapply seq_at; [done|]. by apply deregister_rest_tables.
Qed.

(** A tick that finds the token no longer authorised. *)
Lemma drainNode_unauthorized node c ws s :
  is_open (hw_hub s) ws = true -> hs_connections (hw_hub s) !! node = Some c -> cn_ws c = ws ->
  nodeStillAuthorized node (cn_tokenHash c) (hw_world s) = (Ok false, hw_world s) ->
  drainNode node ws s = deregisterNode node (close_socket ws 4001 s).2.
Proof.
  intros Ho Hc Hws Ha. unfold drainNode. rewrite (bind_step hub _ s (hw_hub s) s) by done.
  rewrite Ho, Hc, Hws, Nat.eqb_refl. cbn [negb].
  assert (on_world (nodeStillAuthorized node (cn_tokenHash c)) s = (Ok false, s)) as Hs.
  { unfold on_world. rewrite Ha. by destruct s. }
  by rewrite (bind_step _ _ _ _ _ Hs).
Qed.

(** A revoked node's row. *)
Lemma revokeNode_row node actor w w1 :
  revokeNode node actor w = (Ok tt, w1) ->
  node_named (w_db w1) node = (fun n => n <| n_allowed := false |>) <$> node_named (w_db w) node.
Proof.
  intros H. unfold revokeNode in H. inv_bind H. injection E as <- <-. injection H as <-.
  unfold node_named. cbn. rewrite get_row_update; [|done].
  destruct (get_row _ _) as [n|] eqn:Hn; [|done]. apply get_row_Some in Hn as [Hn _].
  cbn. by rewrite decide_True.
Qed.

Lemma revoked_unauthorized node actor w w1 hash :
  revokeNode node actor w = (Ok tt, w1) -> nodeStillAuthorized node hash w1 = (Ok false, w1).
Proof.
  intros H%revokeNode_row. unfold nodeStillAuthorized, mbind, M_bind. cbn. rewrite H.
  by destruct (node_named (w_db w) node).
Qed.

Lemma revoked_refused node actor w w1 token :
  revokeNode node actor w = (Ok tt, w1) -> exists reason,
    verifyNodeAuth node token w1 = (Ok (AuthNo reason), w1).
Proof.
  intros H%revokeNode_row. unfold verifyNodeAuth. repeat (case_match; [by eexists|]).
  unfold mbind, M_bind. cbn. rewrite H. destruct (node_named (w_db w) node); by eexists.
Qed.
End cut.

(** What a polling tick sends: over the authorised open socket of a node's current
    connection the first twenty waiting tasks of the node, decrypted, in the order in which
    they were queued, and nothing else; they leave the node's queue, every other queue and
    every other socket is untouched, and the log's rows only evolve. *)
Theorem drainNode_in_order {HK : Honker} {HS : HonkerSpec} {PF : Platform} {ZP : Zod}
    node c ws s frames :
  is_open (hw_hub s) ws = true -> hs_connections (hw_hub s) !! node = Some c -> cn_ws c = ws ->
  nodeStillAuthorized node (cn_tokenHash c) (hw_world s) = (Ok true, hw_world s) ->
  Forall2 decodes (take 20 (waiting s node)) frames ->
  exists s', drainNode node ws s = (Ok tt, s') /\ sent node ws frames s s' /\
    waiting s' node = drop 20 (waiting s node).
Proof.
  intros Ho Hc <- Ha Hd. by apply drainNode_run.
Qed.

(** C7: delivery: every task that waits for a node is sent while its connection stays live: after
    [k] ticks, with anything in between that leaves the connection alone, at least the first
    [20 * k] waiting tasks went over its socket - all that waited at the start once [20 * k]
    reaches their number -, in the order in which they were queued, followed by tasks queued
    meanwhile, none twice and none skipped; what is left waits in order. *)
Theorem queued_tasks_delivered {HK : Honker} {HS : HonkerSpec} {PF : Platform} {ZP : Zod}
    node c k extra s s' frames eframes :
  served node c k extra s s' -> serving node c s ->
  Forall2 decodes (waiting s node) frames -> Forall2 decodes extra eframes ->
  exists out rest, sent_on (cn_ws c) s' = sent_on (cn_ws c) s ++ out /\
    frames ++ eframes = out ++ rest /\ Forall2 decodes (waiting s' node) rest /\
    (length frames <= 20 * k -> frames `prefix_of` out)%nat.
Proof.
  intros Hsv Hs Hf He. destruct (served_spec _ _ _ _ _ _ Hsv _ _ Hs Hf He)
    as (out & rest & Ho & Heq & Hr & Hl).
  exists out, rest. split_and!; [done|done|done|]. intros Hk.
  assert (out = take (length out) (frames ++ eframes)) as -> by (by rewrite Heq, take_app_length).
  rewrite take_app, take_ge by lia. apply prefix_app_r. done.
Qed.

(** C11: revocation is immediate: after [revokeNode], the next tick of the node's connection
    sends nothing and claims nothing, closes the socket with code 4001 and takes the
    connection and its interval out of the table; and from then on the node's hello is refused
    whatever token it carries. *)
Theorem revokeNode_cuts_off {HK : Honker} {PF : Platform} {ZP : Zod} node actor c ws s w1 :
  is_open (hw_hub s) ws = true -> hs_connections (hw_hub s) !! node = Some c -> cn_ws c = ws ->
  revokeNode node actor (hw_world s) = (Ok tt, w1) ->
  let s' := (drainNode node ws (mkHubWorld w1 (hw_hub s))).2 in
  tables_are (w_hk w1)
    (alter (fun o => o <| so_ready := SClosing |> <| so_closeCode := Some 4001 |>) ws (hs_sockets (hw_hub s)))
    (delete node (hs_connections (hw_hub s))) (delete (cn_consumer c) (hs_consumers (hw_hub s))) s' /\
  forall token, exists reason, verifyNodeAuth node token w1 = (Ok (AuthNo reason), w1).
Proof.
  intros Ho Hc Hws Hr s'. split; [|intros token; by eapply revoked_refused].
  subst s'. rewrite (drainNode_unauthorized node c ws); [|done..|by eapply revoked_unauthorized].
  pose proof (deregisterNode_tables node c (close_socket ws 4001 (mkHubWorld w1 (hw_hub s))).2 Hc) as H.
  cbn in H. match type of H with tables_are _ ?m _ _ _ => replace m with
    (alter (fun o => o <| so_ready := SClosing |> <| so_closeCode := Some 4001 |>) ws (hs_sockets (hw_hub s))) in H;
    [exact H|] end.
  apply map_eq. intros i. destruct (decide (ws = i)) as [->|]; [|by rewrite !lookup_alter_ne].
  rewrite !lookup_alter_eq. unfold is_open in Ho. destruct (hs_sockets (hw_hub s) !! i) as [o|]; [|done].
  cbn. by rewrite Ho.
Qed.

(** C24: a deleted node's tasks outlive it: [deleteNode] removes the node's rows of the log but not its
    waiting jobs, so an agent that is provisioned later under the same name is sent every task
    that waited for the deleted node, with the parameters of the time, and the log knows none
    of them. *)
Theorem deleted_node_queue_survives {HK : Honker} {HS : HonkerSpec} {PF : Platform} {ZP : Zod}
    node actor by_ force token c w w1 w2 s frames :
  deleteNode node actor force w = (Ok tt, w1) -> provisionNode node by_ w1 = (Ok token, w2) ->
  w_hk (hw_world s) = w_hk w2 -> serving node c s ->
  Forall2 decodes (take 20 (pending (w_hk w) (node_queue node))) frames ->
  (forall t, t ∈ tasks w1 -> t_node t <> node) /\
  exists s', drainNode node (cn_ws c) s = (Ok tt, s') /\
    sent_on (cn_ws c) s' = sent_on (cn_ws c) s ++ frames.
Proof.
  intros Hd Hp Hq Hs Hf. split; [by eapply deleteNode_log|].
  pose proof (deleteNode_hk (w_hk w) node actor force w eq_refl) as H1. rewrite Hd in H1. cbn in H1.
  pose proof (provisionNode_hk (w_hk w1) node by_ w1 eq_refl) as H2. rewrite Hp in H2. cbn in H2.
  unfold hk_is in *. destruct (drainNode_run node c s frames Hs) as (s' & Hr & Hse & _).
  { unfold waiting. rewrite Hq, H2, H1. exact Hf. }
  exists s'. split; [done|]. apply (sent_sent_on node); [apply Hs|done].
Qed.
