(* ===== verification/HubTraces.v ===== *)
(** * HubTraces: runs of the hub, and two ways a connection and its table part

    The runs start in a world with one provisioned node and drive the hub by events, the
    hello frames going through the schema check.  They instantiate the properties of
    [HubConnFacts] and [DrainFacts], and show what the two theorems at the end of the first
    part say of reachable states. *)
From S2P Require Import Prelude Js Redact Schema Sql DbWf Env Secrets Queue Testbed QueueFacts Settings Template Format Mailer Alerts Placements Nodes Protocol Ingest Hub HubConn HubConnFacts DrainFacts.
Open Scope Z_scope.

(** Events in turn. *)
Fixpoint run_events {HK : Honker} {PF : Platform} {ZP : Zod} (es : list event) (s : HubWorld) : HubWorld :=
  match es with [] => s | e :: es' => run_events es' (handle e s).2 end.

(** Every event may fire when its turn comes. *)
Fixpoint all_enabled {HK : Honker} {PF : Platform} {ZP : Zod} (es : list event) (s : HubWorld) : Prop :=
  match es with [] => True | e :: es' => enabled (hw_hub s) e /\ all_enabled es' (handle e s).2 end.

Section traces.
Context {HK : Honker} {PF : Platform} {ZP : Zod}.
Implicit Types (s : HubWorld).

Lemma run_events_steps es s : all_enabled es s -> rtc hub_step s (run_events es s).
Proof.
  revert s. induction es as [|e es IH]; intros s; cbn; [done|]. intros [He Hes].
  econstructor; [|by apply IH]. by apply step_event.
Qed.

Lemma run_events_reachable es w : wf w -> all_enabled es (booted w) -> hub_reachable (run_events es (booted w)).
Proof. intros Hw He. exists w. split; [done|]. by apply run_events_steps. Qed.

(** The close handler of a socket that registered a node. *)
Lemma gone_run ws final s o node :
  hs_sockets (hw_hub s) !! ws = Some o -> so_node o = Some node ->
  on_gone ws final s = deregisterNode node (update_socket ws (fun o =>
    o <| so_helloTimer := false |> <| so_ready := if final then SClosed else SClosing |>) s).2.
Proof.
  intros Ho Hn. unfold on_gone, socket. rewrite (bind_step _ _ s (Some o) s).
  - erewrite bind_step by reflexivity. by rewrite Hn.
  - unfold gets. by rewrite Ho.
Qed.
End traces.

(** C13: the close handler unregisters whatever connection the node has, not the connection of
    the socket that closed: when a superseded socket finishes closing after its successor said
    hello, the successor's connection and interval are removed while its socket stays open and
    authenticated, so the node gets no tasks until that socket drops too. *)
Theorem late_close_unregisters_successor {HK : Honker} {PF : Platform} {ZP : Zod} node c ws o s :
  hs_sockets (hw_hub s) !! ws = Some o -> so_node o = Some node ->
  hs_connections (hw_hub s) !! node = Some c -> cn_ws c <> ws ->
  let s' := (handle (EvClose ws) s).2 in
  hs_connections (hw_hub s') !! node = None /\ hs_consumers (hw_hub s') !! cn_consumer c = None /\
  hs_sockets (hw_hub s') !! cn_ws c = hs_sockets (hw_hub s) !! cn_ws c.
Proof.
  intros Ho Hn Hc Hne s'. subst s'. cbn [handle]. rewrite (gone_run ws true s o node Ho Hn).
  match goal with |- context [deregisterNode node ?s1] =>
    destruct (deregisterNode_tables node c s1 Hc) as (_ & Hs & Hcn & Hcs) end.
  rewrite Hs, Hcn, Hcs. split_and!; [by rewrite lookup_delete_eq..|].
  cbn. by rewrite lookup_alter_ne.
Qed.

(** ** Runs *)

Section witness.
#[local] Existing Instance toy_honker.
#[local] Instance traces_pf : Platform := demo_pf demo_accepts.
#[local] Existing Instance ref_zod.
#[local] Instance traces_cs : CryptoSpec := toy_crypto toy_env demo_accepts.

(** The world after an admin provisioned n1, and the token the agent was given. *)
Definition provision_run := provisionNode "n1" (Some "root") (demo_world demo_accepts).
Definition n1_token : string := match provision_run.1 with Ok t => t | Throw _ => "" end.
Definition hello_raw : json :=
  JObj [("type", JStr "hello"); ("v", jz 2); ("node", JStr "n1"); ("token", JStr n1_token)].

(** Two tasks wait when the agent says hello on socket 1. *)
Definition task_world : World :=
  ((enqueueTask "n1" "student.add" toy_params (Some "root");;
   enqueueTask "n1" "node.check" (JObj []) None) (provision_run.2)).2.
Definition greet : list event := [EvConnect 1; EvMessage 1 (Some hello_raw)].
Definition greeted : HubWorld := run_events greet (booted task_world).
Definition n1_conn : NodeConn :=
  default (mkConn 0 "" 0 "" false) (hs_connections (hw_hub greeted) !! "n1").

(** Two sweeps without a pong terminate socket 1; the agent is back on socket 2 before the
    close of socket 1 is reported. *)
Definition reconnect : list event :=
  greet ++ [EvSweep; EvSweep; EvConnect 2; EvMessage 2 (Some hello_raw)].
Definition reconnected : HubWorld := run_events reconnect (booted task_world).

Lemma task_world_wf : wf task_world.
Proof.
  unfold task_world, provision_run. 
  assert (preserves wf (enqueueTask "n1" "student.add" toy_params (Some "root");;
    enqueueTask "n1" "node.check" (JObj []) None)) as H by solve_preserves.
  apply H. apply provisionNode_wf, demo_world_wf.
Qed.


(** Whether every event of a run may fire, computed. *)
Definition enabledb (h : HubState) (e : event) : bool :=
  match e with
  | EvConnect ws => negb (is_some (hs_sockets h !! ws))
  | EvHelloTimeout ws => match hs_sockets h !! ws with Some o => so_helloTimer o | None => false end
  | EvMessage ws _ | EvClose ws | EvError ws =>
      match hs_sockets h !! ws with Some o => negb (bool_decide (so_ready o = SClosed)) | None => false end
  | EvTick i => is_some (hs_consumers h !! i)
  | EvSweep => true
  | EvPong ws => is_some (hs_sockets h !! ws)
  | EvOfflineTimer node => bool_decide (node ∈ hs_offline h)
  end.

Lemma enabledb_spec h e : enabledb h e = true -> enabled h e.
Proof.
  destruct e; cbn.
  - by destruct (_ !! _).
  - destruct (_ !! _); [by eexists|done].
  - destruct (_ !! _) as [o|]; [|done]. intros H%negb_true_iff%bool_decide_eq_false. by exists o.
  - destruct (_ !! _) as [o|]; [|done]. intros H%negb_true_iff%bool_decide_eq_false. by exists o.
  - destruct (_ !! _) as [o|]; [|done]. intros H%negb_true_iff%bool_decide_eq_false. by exists o.
  - destruct (_ !! _); [by eexists|done].
  - done.
  - destruct (_ !! _); [by eexists|done].
  - by intros ?%bool_decide_eq_true.
Qed.

Fixpoint runs_ok (es : list event) (s : HubWorld) : bool :=
  match es with [] => true | e :: es' => enabledb (hw_hub s) e && runs_ok es' (handle e s).2 end.

Lemma runs_ok_reachable es : runs_ok es (booted task_world) = true ->
  hub_reachable (run_events es (booted task_world)).
Proof.
  intros H. apply run_events_reachable; [apply task_world_wf|]. revert H.
  generalize (booted task_world). induction es as [|e es IH]; intros s; cbn; [done|].
  intros [He Hes]%andb_true_iff. split; [by apply enabledb_spec|by apply IH].
Qed.

Lemma hub_reachable_consistent_witness :
  hub_inv (hw_hub greeted) /\ cn_ws n1_conn = 1%nat.
Proof.
  split; [|vm_compute; reflexivity]. apply hub_reachable_consistent.
  apply runs_ok_reachable. vm_compute. reflexivity.
Defined.

(** Socket 2 sends the same hello while socket 1 is live. *)
Definition crowded : HubWorld := run_events (greet ++ [EvConnect 2]) (booted task_world).

Lemma live_connection_not_stolen_witness :
  hs_connections (hw_hub (on_message 2 (Some hello_raw) crowded).2) !! "n1"
    = Some n1_conn.
Proof.
  refine (proj1 (live_connection_not_stolen "n1" n1_conn 2 (Some hello_raw) crowded _ _ _ _)).
  - unfold crowded. apply runs_ok_reachable. vm_compute. reflexivity.
  - vm_compute. reflexivity.
  - vm_compute. reflexivity.
  - vm_compute. discriminate.
Defined.

Definition sent_frames : list json :=
  match hs_sockets (hw_hub (drainNode "n1" 1 greeted).2) !! 1%nat with Some o => so_sent o | None => [] end.

Lemma drainNode_in_order_witness :
  length sent_frames = 2%nat /\ field "params" (default JNull (head sent_frames)) = Some toy_params /\
  exists s', drainNode "n1" 1 greeted = (Ok tt, s') /\ waiting s' "n1" = [].
Proof.
  split; [vm_compute; reflexivity|]. split; [vm_compute; reflexivity|].
  destruct (drainNode_in_order "n1" n1_conn 1 greeted sent_frames) as (s' & Hr & _ & Hw).
  - vm_compute. reflexivity.
  - vm_compute. reflexivity.
  - vm_compute. reflexivity.
  - vm_compute. reflexivity.
  - apply decodes_map. vm_compute. reflexivity.
  - exists s'. split; [exact Hr|]. rewrite Hw. vm_compute. reflexivity.
Defined.

(** A third task is queued before the tick. *)
Definition busier : HubWorld := (on_world (enqueueTask "n1" "node.reboot" (JObj []) (Some "root")) greeted).2.
Definition added_jobs : list (Z * json) := drop 2 (waiting busier "n1").
Definition added_frames : list json := omap (fun j => match decodeFrame j.2 with Ok f => Some f | Throw _ => None end) added_jobs.

Lemma queued_tasks_delivered_witness :
  length added_jobs = 1%nat /\
  exists out, sent_on (cn_ws n1_conn) (drainNode "n1" (cn_ws n1_conn) busier).2 = sent_on (cn_ws n1_conn) greeted ++ out /\ sent_frames `prefix_of` out.
Proof.
  split; [vm_compute; reflexivity|].
  destruct (queued_tasks_delivered "n1" n1_conn 1 (added_jobs ++ []) greeted (drainNode "n1" (cn_ws n1_conn) busier).2 sent_frames added_frames)
    as (out & rest & Ho & _ & _ & Hp).
  - apply served_other with (s1 := busier).
    + vm_compute. repeat split.
    + vm_compute. reflexivity.
    + vm_compute. reflexivity.
    + apply served_tick. apply served_end.
  - vm_compute. repeat split.
  - apply decodes_map. vm_compute. reflexivity.
  - apply decodes_map. vm_compute. reflexivity.
  - exists out. split; [exact Ho|]. apply Hp. vm_compute. repeat constructor.
Defined.

Lemma revokeNode_cuts_off_witness : exists w1,
  revokeNode "n1" (Some "root") (hw_world greeted) = (Ok tt, w1) /\
  tables_are (w_hk w1) (hs_sockets (hw_hub (close_socket 1 4001 greeted).2)) ∅ ∅
    (drainNode "n1" 1 (mkHubWorld w1 (hw_hub greeted))).2.
Proof.
  exists (revokeNode "n1" (Some "root") (hw_world greeted)).2. split; [vm_compute; reflexivity|].
  destruct (revokeNode_cuts_off "n1" (Some "root") n1_conn 1 greeted
    (revokeNode "n1" (Some "root") (hw_world greeted)).2) as [H _];
    [vm_compute; reflexivity|vm_compute; reflexivity|vm_compute; reflexivity|vm_compute; reflexivity|].
  replace (hs_sockets (hw_hub (close_socket 1 4001 greeted).2)) with
    (alter (fun o => o <| so_ready := SClosing |> <| so_closeCode := Some 4001 |>) 1%nat (hs_sockets (hw_hub greeted)))
    by (vm_compute; reflexivity).
  replace (∅ : gmap string NodeConn) with (delete "n1" (hs_connections (hw_hub greeted)))
    by (vm_compute; reflexivity).
  replace (∅ : gmap nat (string * nat)) with (delete (cn_consumer n1_conn) (hs_consumers (hw_hub greeted)))
    by (vm_compute; reflexivity).
  exact H.
Defined.

(** n1 went down and is deleted with its two tasks waiting; a new machine is provisioned as n1 and says hello. *)
Definition gone_down : World := (offline_row "n1" task_world).2.
Definition after_delete : World := (deleteNode "n1" (Some "root") true gone_down).2.
Definition renewed := provisionNode "n1" (Some "root") after_delete.
Definition renewed_token : string := match renewed.1 with Ok t => t | Throw _ => "" end.
Definition renewed_hub : HubWorld := run_events [EvConnect 1; EvMessage 1 (Some
  (JObj [("type", JStr "hello"); ("v", jz 2); ("node", JStr "n1"); ("token", JStr renewed_token)]))]
  (booted renewed.2).
Definition renewed_conn : NodeConn :=
  default (mkConn 0 "" 0 "" false) (hs_connections (hw_hub renewed_hub) !! "n1").

Lemma deleted_node_queue_survives_witness :
  length sent_frames = 2%nat /\
  exists s', drainNode "n1" (cn_ws renewed_conn) renewed_hub = (Ok tt, s') /\
    sent_on (cn_ws renewed_conn) s' = sent_on (cn_ws renewed_conn) renewed_hub ++ sent_frames.
Proof.
  split; [vm_compute; reflexivity|].
  refine (proj2 (deleted_node_queue_survives "n1" (Some "root") (Some "root") true renewed_token renewed_conn
    gone_down after_delete renewed.2 renewed_hub sent_frames _ _ _ _ _)).
  - vm_compute. reflexivity.
  - vm_compute. reflexivity.
  - vm_compute. reflexivity.
  - vm_compute. repeat split.
  - apply decodes_map. vm_compute. reflexivity.
Defined.

(** The state is reachable: two sweeps without a pong terminate socket 1, the agent says hello
    on socket 2, and only then the close of socket 1 is reported. *)
Lemma late_close_unregisters_successor_witness :
  hub_reachable reconnected /\ is_open (hw_hub reconnected) 2 = true /\
  hs_connections (hw_hub (handle (EvClose 1) reconnected).2) !! "n1" = None.
Proof.
  split; [|split; [vm_compute; reflexivity|]].
  - apply runs_ok_reachable. vm_compute. reflexivity.
  - refine (proj1 (late_close_unregisters_successor "n1"
      (default (mkConn 0 "" 0 "" false) (hs_connections (hw_hub reconnected) !! "n1")) 1
      (default (mkSocket SClosed None (num_of_Z 0) 0 false [] None) (hs_sockets (hw_hub reconnected) !! 1%nat))
      reconnected _ _ _ _)); vm_compute; [reflexivity|reflexivity|reflexivity|discriminate].
Defined.
End witness.
