(* ===== verification/Isolation.v ===== *)
(** * Isolation: what an agent's frames can reach

    Whatever frames the agent of one node sends, the rows of the other nodes stay as they are. *)
From S2P Require Import Prelude Js Redact Schema Sql DbWf Env Secrets Queue Testbed QueueFacts Settings Template Format Mailer Alerts DbInv Placements PlacementFacts ProvisionFacts CreateFacts Nodes Protocol Ingest Hub.
Open Scope Z_scope.

(** A placement on another node. *)
Definition foreign (d : Db) (node : string) (p : PlacementRow) : Prop :=
  n_name <$> node_of d (p_node_id p) <> Some node.
#[global] Instance foreign_dec d node p : Decision (foreign d node p).
Proof. unfold foreign. apply _. Defined.

Definition foreign_ids (d : Db) (node : string) : list Z :=
  p_id <$> filter (foreign d node) (rows (lab_placements d)).

(** What an agent may change of its own node's row: what it reports. *)
Definition node_identity (n : NodeRow) :=
  (n_id n, n_name n, n_online n, n_token_hash n, n_allowed n, n_alias n, n_cold_backend n,
   n_cold_owner_node_id n, n_created_at n, n_last_scrub n).
Definition reported (node : string) (n n' : NodeRow) : Prop :=
  node_identity n' = node_identity n /\ (n_name n <> node -> n' = n).

(** The tables no frame writes. *)
Definition untouched (d : Db) :=
  (admins d, settings d, labs d, students d, lab_members d, audit_log d, node_groups d,
   node_group_members d, announcements d, announcement_templates d).

(** The tables agents report into. *)
Record Reports := mkReports {
  rp_logs : list LogRow; rp_snapshot : list GpuSnapshotRow; rp_events : list GpuEventRow;
  rp_samples : list SampleRow; rp_alerts : list QuotaAlertRow;
  rp_student_alerts : list StudentQuotaAlertRow }.
Definition reports_of (d : Db) : Reports :=
  mkReports (rows (logs d)) (gpu_snapshot d) (rows (gpu_events d)) (rows (storage_samples d))
    (rows (quota_alerts d)) (rows (student_quota_alerts d)).

(** A reference to a placement on another node, or none. *)
Definition ref_foreign (d0 : Db) (node : string) (o : option Z) : Prop :=
  match o with Some i => i ∈ foreign_ids d0 node | None => True end.
#[global] Instance ref_foreign_dec d0 node o : Decision (ref_foreign d0 node o).
Proof. destruct o; cbn; apply _. Defined.
(** A reference stays, or that to a deleted placement of the node is cleared. *)
Definition ref_stays (d0 : Db) (node : string) (o o' : option Z) : Prop :=
  o' = o \/ (o' = None /\ ~ ref_foreign d0 node o).
Definition snapshot_stays d0 node (g g' : GpuSnapshotRow) : Prop :=
  g' = g <| gs_placement_id := gs_placement_id g' |> /\
  ref_stays d0 node (gs_placement_id g) (gs_placement_id g').
Definition event_stays d0 node (g g' : GpuEventRow) : Prop :=
  g' = g <| ge_placement_id := ge_placement_id g' |> /\
  ref_stays d0 node (ge_placement_id g) (ge_placement_id g').

(** The log only grows, by rows of the node (or of no node); the GPU processes of the other nodes
    stay, the GPU events all stay and grow by the node's own; the samples and alerts of the
    placements on other nodes are the same rows. *)
Record reported_elsewhere (node : string) (d0 : Db) (r : Reports) : Prop := {
  re_logs : exists new, rp_logs r = rows (logs d0) ++ new /\
    Forall (fun l => log_node l = Some node \/ log_node l = None) new;
  re_snapshot : Forall2 (snapshot_stays d0 node) (filter (fun g => gs_node g <> node) (gpu_snapshot d0))
    (filter (fun g => gs_node g <> node) (rp_snapshot r));
  re_events : exists old new, rp_events r = old ++ new /\
    Forall2 (event_stays d0 node) (rows (gpu_events d0)) old /\ Forall (fun g => ge_node g = node) new;
  re_samples : filter (fun s => ref_foreign d0 node (ss_placement_id s)) (rp_samples r) =
               filter (fun s => ref_foreign d0 node (ss_placement_id s)) (rows (storage_samples d0));
  re_alerts : filter (fun a => ref_foreign d0 node (qa_placement_id a)) (rp_alerts r) =
              filter (fun a => ref_foreign d0 node (qa_placement_id a)) (rows (quota_alerts d0));
  re_student_alerts :
    filter (fun a => sqa_placement_id a ∈ foreign_ids d0 node) (rp_student_alerts r) =
    filter (fun a => sqa_placement_id a ∈ foreign_ids d0 node) (rows (student_quota_alerts d0)) }.

Record elsewhere (node : string) (d0 d : Db) : Prop := {
  el_static : untouched d = untouched d0;
  el_nodes : Forall2 (reported node) (rows (nodes d0)) (rows (nodes d));
  el_placements : filter (foreign d0 node) (rows (lab_placements d)) =
                  filter (foreign d0 node) (rows (lab_placements d0));
  el_members : filter (fun m => pm_placement_id m ∈ foreign_ids d0 node) (rows (placement_members d)) =
               filter (fun m => pm_placement_id m ∈ foreign_ids d0 node) (rows (placement_members d0));
  el_tasks : exists old new, rows (task_log d) = old ++ new /\
    Forall2 (evolves node) (rows (task_log d0)) old /\
    Forall (fun t => t_action t = "student.delete_cold") new;
  el_pid : NoDup (p_id <$> rows (lab_placements d));
  el_mid : NoDup (pm_id <$> rows (placement_members d));
  el_reports : reported_elsewhere node d0 (reports_of d) }.

Lemma snapshot_stays_refl d0 node g : snapshot_stays d0 node g g.
Proof. split; [by destruct g|by left]. Qed.
Lemma event_stays_refl d0 node g : event_stays d0 node g g.
Proof. split; [by destruct g|by left]. Qed.
Lemma reported_refl node d : reported_elsewhere node d (reports_of d).
Proof.
  split; try done.
  - exists []. by rewrite app_nil_r.
  - cbn. induction (filter (fun g => gs_node g <> node) (gpu_snapshot d)); constructor; [apply snapshot_stays_refl|done].
  - exists (rows (gpu_events d)), []. rewrite app_nil_r. split_and!; [done| |constructor].
    induction (rows (gpu_events d)); constructor; [apply event_stays_refl|done].
Qed.

Lemma elsewhere_refl node d : db_wf d -> elsewhere node d d.
Proof.
  intros Hd. split; try done; [| |apply (wf_pl _ Hd)|apply (wf_pm _ Hd)|apply reported_refl].
  - induction (rows (nodes d)); by constructor.
  - exists (rows (task_log d)), []. rewrite app_nil_r. split_and!; [done| |constructor].
    induction (rows (task_log d)); constructor; [apply evolves_refl|done].
Qed.

(** ** Lists *)

Lemma filter_update_where {A} (P F : A -> Prop) {PDec : forall x, Decision (P x)} {FDec : forall x, Decision (F x)}
    (f : A -> A) l :
  (forall x, x ∈ l -> P x -> ~ F x /\ ~ F (f x)) -> filter F (update_where P f l) = filter F l.
Proof.
  intros H. unfold update_where. induction l as [|x l IH]; [done|].
  rewrite fmap_cons, !filter_cons. destruct (decide (P x)) as [HP|HP].
  - destruct (H x ltac:(constructor) HP) as [H1 H2]. rewrite !decide_False by done.
    apply IH. intros y Hy. apply H. by constructor.
  - destruct (decide (F x)); [f_equal|]; apply IH; intros y Hy; apply H; by constructor.
Qed.

Lemma filter_delete_where {A} (P F : A -> Prop) {PDec : forall x, Decision (P x)} {FDec : forall x, Decision (F x)} l :
  (forall x, x ∈ l -> P x -> ~ F x) -> filter F (delete_where P l) = filter F l.
Proof.
  intros H. unfold delete_where. induction l as [|x l IH]; [done|]. rewrite !filter_cons.
  assert (filter F (filter (fun x => ~ P x) l) = filter F l) as IH' by (apply IH; intros y Hy; apply H; by constructor).
  destruct (decide (~ P x)) as [HP|HP]; rewrite ?filter_cons, IH'; [done|].
  rewrite decide_False; [done|]. apply H; [by constructor|]. by apply dec_stable.
Qed.

Section isolation.
Context {HK : Honker} {PF : Platform} (node : string) (d0 : Db).
#[local] Notation J := (elsewhere node d0).
#[local] Notation I := (on_db J).
Implicit Types (d : Db).

(** ** Reading *)

Lemma node_name_same d i : J d -> n_name <$> node_of d i = n_name <$> node_of d0 i.
Proof.
  intros Hd. pose proof (el_nodes _ _ _ Hd) as H. unfold node_of, get_row, select.
  induction H as [|n n' l l' [Hn _] _ IH]; [done|]. injection Hn as Hid Hnm _ _ _ _ _ _ _ _.
  rewrite !filter_cons, Hid. case_decide; cbn; [congruence|done].
Qed.

Lemma own_not_foreign d p : J d -> p ∈ rows (lab_placements d) -> ~ foreign d0 node p ->
  p_id p ∉ foreign_ids d0 node.
Proof.
  intros Hd Hp Hf Hin. unfold foreign_ids in Hin. rewrite <- (el_placements _ _ _ Hd) in Hin.
  apply list_elem_of_fmap in Hin as (q & Hq & [Hfq Hqin]%list_elem_of_filter).
  apply Hf. by rewrite (NoDup_fmap_inj p_id _ p q (el_pid _ _ _ Hd)).
Qed.

Lemma named_not_foreign d p n : J d -> node_of d (p_node_id p) = Some n -> n_name n = node ->
  ~ foreign d0 node p.
Proof.
  intros Hd Hn Hname Hf. apply Hf. rewrite <- (node_name_same d), Hn by done. cbn. by rewrite Hname.
Qed.

Lemma found_own d lab v : J d -> find_by_lab_node d lab node = Some v ->
  p_id (pl_row v) ∉ foreign_ids d0 node.
Proof.
  intros Hd [[_ Hname] (p & Hp & Hv)%elem_of_views]%get_row_Some.
  pose proof (view_row _ _ _ Hv) as ->. destruct (view_names _ _ _ Hv) as (l & n & _ & Hn & _ & Hnn & _).
  apply (own_not_foreign d); [done|done|]. eapply named_not_foreign; [done|done|congruence].
Qed.

(** A member whose account is on the node. *)
Definition own_member (i : Z) : Prop :=
  forall m, m ∈ rows (placement_members d0) -> pm_placement_id m ∈ foreign_ids d0 node -> pm_id m <> i.

Lemma pending_own d lab user c : J d -> pendingCredential d lab node user = Some c ->
  own_member (pm_id (pc_member c)).
Proof.
  intros Hd [(_ & Hname & _) (m & Hm & Hj)%list_elem_of_omap]%get_row_Some m' Hm' Hf Hi.
  unfold join_member in Hj. apply bind_Some in Hj as (s & _ & Hj). apply bind_Some in Hj as (p & Hp & Hj).
  apply bind_Some in Hj as (l & _ & Hj). apply bind_Some in Hj as (n & Hn & [= <-]). cbn in *.
  assert (m' ∈ rows (placement_members d)) as Hin.
  { assert (m' ∈ filter (fun m => pm_placement_id m ∈ foreign_ids d0 node) (rows (placement_members d)))
      as [_ ?]%list_elem_of_filter; [|done].
    rewrite (el_members _ _ _ Hd). by apply list_elem_of_filter. }
  assert (m' = m) as -> by by apply (NoDup_fmap_inj pm_id _ _ _ (el_mid _ _ _ Hd)).
  revert Hf. apply get_row_Some in Hp as [<- Hp].
  apply (own_not_foreign d); [done|done|]. by eapply named_not_foreign.
Qed.

(** ** Writing *)

Lemma update_placements_el P {PDec : forall x, Decision (P x)} f :
  (forall p, P p -> p_id p ∉ foreign_ids d0 node) ->
  (forall p, p_id (f p) = p_id p) -> (forall p, p_node_id (f p) = p_node_id p) ->
  preserves I (update_placements P f).
Proof.
  intros HP Hid Hn. apply exec_inv. intros d Hd. destruct Hd as [H1 H2 H3 H4 H5 H6 H7 H8].
  split; try done; cbn; [|by rewrite update_where_fmap]. rewrite <- H3.
  apply filter_update_where. intros p Hp HPp.
  assert (~ foreign d0 node p) as Hnf.
  { intros Hf. apply (HP p HPp). unfold foreign_ids. rewrite <- H3.
    apply list_elem_of_fmap_2. by apply list_elem_of_filter. }
  split; [done|]. unfold foreign in *. by rewrite Hn.
Qed.

(** A reference once the placement [i] of the node is gone. *)
Lemma clear_stays o o' ids : (forall i, i ∈ ids -> i ∉ foreign_ids d0 node) ->
  ref_stays d0 node o o' -> ref_stays d0 node o (clear_ref o' ids).
Proof.
  intros Hids [->|[-> Ho]]; [|by right]. unfold clear_ref. case_decide as Hin; [|by left]. right. split; [done|].
  destruct o as [i|]; [|done]. by apply Hids.
Qed.
Lemma reported_drop P {PDec : forall x, Decision (P x)} d :
  (forall i, i ∈ p_id <$> select P (rows (lab_placements d)) -> i ∉ foreign_ids d0 node) ->
  reported_elsewhere node d0 (reports_of d) -> reported_elsewhere node d0 (reports_of (drop_placements P d)).
Proof.
  intros Hids [H1 H2 (old & new & He & Ho & Hn) H4 H5 H6]. cbn in *. set (ids := p_id <$> _) in *.
  split; cbn; try done.
  - assert (forall l, filter (fun g => gs_node g <> node)
      ((fun g => g <| gs_placement_id ::= fun o => clear_ref o ids |>) <$> l) =
      (fun g => g <| gs_placement_id ::= fun o => clear_ref o ids |>) <$> filter (fun g => gs_node g <> node) l) as ->.
    { intros l. induction l as [|g l IH]; [done|]. rewrite fmap_cons, !filter_cons.
      destruct (decide (gs_node g <> node)); [|by rewrite !decide_False].
      rewrite !decide_True by done. by rewrite fmap_cons, IH. }
    apply Forall2_fmap_r. eapply Forall2_impl; [exact H2|]. intros g g' [Hg Hr]. split; [by rewrite Hg; cbn|].
    by apply clear_stays.
  - exists ((fun g => g <| ge_placement_id ::= fun o => clear_ref o ids |>) <$> old),
      ((fun g => g <| ge_placement_id ::= fun o => clear_ref o ids |>) <$> new).
    rewrite He, fmap_app. split; [done|]. split; [|by apply Forall_fmap].
    apply Forall2_fmap_r. eapply Forall2_impl; [exact Ho|]. intros g g' [Hg Hr]. split; [by rewrite Hg; cbn|].
    by apply clear_stays.
  - rewrite <- H4. apply filter_delete_where. intros x _. destruct (ss_placement_id x); cbn; [apply Hids|done].
  - rewrite <- H5. apply filter_delete_where. intros x _. destruct (qa_placement_id x); cbn; [apply Hids|done].
  - rewrite <- H6. apply filter_delete_where. intros x _. apply Hids.
Qed.

Lemma delete_placements_el i :
  i ∉ foreign_ids d0 node -> preserves I (delete_placements (fun p => p_id p = i)).
Proof.
  intros Hi. apply exec_inv. intros d Hd. destruct Hd as [H1 H2 H3 H4 H5 H6 H7 H8].
  split; try done; [..|apply reported_drop; [|done]]; cbn.
  - rewrite <- H3. apply filter_delete_where. intros p Hp <- Hf. apply Hi. unfold foreign_ids.
    rewrite <- H3. apply list_elem_of_fmap_2. by apply list_elem_of_filter.
  - rewrite <- H4. apply filter_delete_where.
    intros m _ (p & Hid & [Hpi _]%elem_of_select)%list_elem_of_fmap Hf. rewrite Hid, Hpi in Hf. done.
  - by apply NoDup_delete.
  - by apply NoDup_delete.
  - by intros j (p & -> & [-> _]%elem_of_select)%list_elem_of_fmap.
Qed.

Lemma update_member_el i f :
  own_member i -> (forall m, pm_id (f m) = pm_id m) ->
  (forall m, pm_placement_id (f m) = pm_placement_id m) ->
  preserves I (update_members (fun m => pm_id m = i) f).
Proof.
  intros Hi Hid Hp. apply exec_inv. intros d Hd. destruct Hd as [H1 H2 H3 H4 H5 H6 H7 H8].
  split; try done; cbn; [|by rewrite update_where_fmap]. rewrite <- H4.
  apply filter_update_where. intros m Hm Hmi. rewrite Hp.
  assert (pm_placement_id m ∉ foreign_ids d0 node) as Hnf; [|done].
  intros Hf. assert (m ∈ filter (fun m => pm_placement_id m ∈ foreign_ids d0 node)
    (rows (placement_members d0))) as [_ Hin]%list_elem_of_filter.
  { rewrite <- H4. by apply list_elem_of_filter. }
  by apply (Hi m Hin).
Qed.

Lemma update_nodes_el f : (forall n, node_identity (f n) = node_identity n) ->
  preserves I (update_nodes (fun n => n_name n = node) f).
Proof.
  intros Hf. apply exec_inv. intros d Hd. destruct Hd as [H1 H2 H3 H4 H5 H6 H7 H8].
  split; try done. cbn. clear -H2 Hf. unfold update_where.
  induction H2 as [|n n' l l' [Hn Hne] _ IH]; cbn; constructor; [|done].
  assert (n_name n' = n_name n) as Hnm by by injection Hn.
  case_decide as Hc; [|by split]. split; [by rewrite Hf|]. intros Hx. congruence.
Qed.

Lemma update_tasks_el P {PDec : forall x, Decision (P x)} f :
  (forall t, P t -> evolves node t (f t)) -> preserves I (update_tasks P f).
Proof.
  intros Hf. apply exec_inv. intros d Hd. destruct Hd as [H1 H2 H3 H4 (old & new & He & Ho & Hn) H6 H7 H8].
  split; try done. cbn. exists (update_where P f old), (update_where P f new). split.
  { rewrite He. unfold update_where. by rewrite fmap_app. }
  split.
  - eapply Forall2_trans; [|exact Ho|by apply evolves_update]. intros t1 t2 t3. apply evolves_trans.
  - apply Forall_forall. intros t (t' & Ht & H)%elem_of_update_where. rewrite Forall_forall in Hn.
    specialize (Hn _ Ht). destruct H as [[HP ->]|[_ ->]]; [|done].
    pose proof (ev_ident _ _ _ (Hf _ HP)) as Hi. by injection Hi as _ _ _ _ -> _ _ _.
Qed.

(** A write to the tables agents report into. *)
Record frame_tables (d d' : Db) : Prop := {
  ft_static : untouched d' = untouched d;
  ft_nodes : nodes d' = nodes d;
  ft_placements : lab_placements d' = lab_placements d;
  ft_members : placement_members d' = placement_members d;
  ft_tasks : task_log d' = task_log d }.
Lemma exec_el f : (forall d, frame_tables d (f d)) ->
  (forall d, reported_elsewhere node d0 (reports_of d) -> reported_elsewhere node d0 (reports_of (f d))) ->
  preserves I (exec f).
Proof.
  intros H HR. apply exec_inv. intros d [H1 H2 H3 H4 H5 H6 H7 H8]. destruct (H d) as [Hu Hn Hp Hm Ht].
  split; rewrite ?Hu, ?Hn, ?Hp, ?Hm, ?Ht; try done. by apply HR.
Qed.

(** Rows the node adds. *)
Lemma filter_snoc_out {A} (F : A -> Prop) {FDec : forall x, Decision (F x)} l x :
  ~ F x -> filter F (l ++ [x]) = filter F l.
Proof. intros H. by rewrite filter_app, filter_cons, decide_False, app_nil_r. Qed.
Lemma insert_log_el mk : (forall i, log_node (mk i) = Some node \/ log_node (mk i) = None) ->
  preserves I (insert_log mk).
Proof.
  intros Hmk. unfold insert_log. solve_preserves. apply exec_el; [by split|].
  intros d [(new & He & Hn) H2 H3 H4 H5 H6]. split; try done. cbn in *.
  eexists (new ++ [_]). rewrite He, <- app_assoc. split; [done|]. apply Forall_app. split; [done|].
  constructor; [apply Hmk|done].
Qed.
Lemma insert_gpu_event_el p mk : (forall i, ge_node (mk i) = node) -> preserves I (insert_gpu_event p mk).
Proof.
  intros Hmk. unfold insert_gpu_event. solve_preserves. apply exec_el; [by split|].
  intros d [H1 H2 (old & new & He & Ho & Hn) H4 H5 H6]. split; try done. cbn in *.
  eexists old, (new ++ [_]). rewrite He, <- app_assoc. split; [done|]. split; [done|].
  apply Forall_app. split; [done|]. constructor; [apply Hmk|done].
Qed.
Lemma insert_sample_el p l s pool u q ts : p ∉ foreign_ids d0 node ->
  preserves I (insert_sample (Some p) l s pool u q ts).
Proof.
  intros Hp. unfold insert_sample. solve_preserves. apply exec_el; [by split|].
  intros d [H1 H2 H3 H4 H5 H6]. split; try done. etrans; [by apply filter_snoc_out|exact H4].
Qed.
Lemma insert_quota_alert_el p l pool pct ts : p ∉ foreign_ids d0 node ->
  preserves I (insert_quota_alert (Some p) l pool pct ts).
Proof.
  intros Hp. unfold insert_quota_alert. solve_preserves. apply exec_el; [by split|].
  intros d [H1 H2 H3 H4 H5 H6]. split; try done. etrans; [by apply filter_snoc_out|exact H5].
Qed.
Lemma insert_student_quota_alert_el p s pool pct ts : p ∉ foreign_ids d0 node ->
  preserves I (insert_student_quota_alert p s pool pct ts).
Proof.
  intros Hp. unfold insert_student_quota_alert. solve_preserves. apply exec_el; [by split|].
  intros d [H1 H2 H3 H4 H5 H6]. split; try done. etrans; [by apply filter_snoc_out|exact H6].
Qed.
Lemma replace_gpu_snapshot_el g : gs_node g = node -> preserves I (replace_gpu_snapshot g).
Proof.
  intros Hg. unfold replace_gpu_snapshot. solve_preserves. apply exec_el; [by split|].
  intros d [H1 H2 H3 H4 H5 H6]. split; try done. cbn in *.
  rewrite filter_snoc_out by auto. rewrite filter_delete_where; [done|]. intros x _ [Hx _] Hn. congruence.
Qed.
Lemma delete_gpu_snapshot_el : preserves I (delete_gpu_snapshot node).
Proof.
  apply exec_el; [by split|]. intros d [H1 H2 H3 H4 H5 H6]. split; try done. cbn in *.
  rewrite filter_delete_where; [done|]. intros x _ Hx Hn. congruence.
Qed.

Lemma cleanup_el target params by_ : preserves I (enqueueTask target "student.delete_cold" params by_).
Proof.
  apply enqueueTask_db. intros d uuid j now [H1 H2 H3 H4 (old & new & He & Ho & Hn) H6 H7 H8] _.
  split; try done. cbn. exists old, (new ++ [mkTask (last_id (task_log d) + 1) uuid j target
    "student.delete_cold" (Some (TJson (redactSecrets params))) by_ TQueued None None None 0 false now now]).
  rewrite He, <- app_assoc. split; [done|]. split; [done|]. apply Forall_app. split; [done|].
  by constructor.
Qed.
End isolation.

(** ** The frames *)

Section frames.
Context {HK : Honker} {PF : Platform} (node : string) (d0 : Db).
#[local] Notation J := (elsewhere node d0).
#[local] Notation I := (on_db J).

#[local] Hint Resolve insert_log_el insert_gpu_event_el insert_sample_el insert_quota_alert_el
  insert_student_quota_alert_el replace_gpu_snapshot_el delete_gpu_snapshot_el : preserve.
#[local] Hint Extern 1 (forall _, _ = Some _ \/ _ = None) =>
  (intros; first [left; reflexivity | right; reflexivity]) : preserve.
#[local] Hint Extern 1 (forall _, ge_node _ = _) => (intros; reflexivity) : preserve.
#[local] Hint Extern 1 (gs_node _ = _) => reflexivity : preserve.

Lemma markTaskState_el u s r e c : preserves I (markTaskState node u s r e c).
Proof.
  unfold markTaskState. solve_preserves. apply update_tasks_el.
  intros t (_ & Hn & Hd). split; cbn; try done; congruence.
Qed.
Lemma markTaskReceived_el u : preserves I (markTaskReceived node u).
Proof.
  unfold markTaskReceived. solve_preserves. apply update_tasks_el.
  intros t (_ & Hn & Hr). split; cbn; try done; congruence.
Qed.
Lemma markPlacementStateByLabNode_el l s e : preserves I (markPlacementStateByLabNode l node s e).
Proof.
  unfold markPlacementStateByLabNode. apply (read_inv _ _ (fun d => find_by_lab_node d l node)); [done|]. intros d Hd.
  destruct (find_by_lab_node d l node) as [v|] eqn:Hv; [|solve_preserves].
  unfold markPlacementState. solve_preserves. apply update_placements_el; [|done..].
  intros p ->. by eapply found_own.
Qed.
Lemma markPlacementMemberState_el l u s e : preserves I (markPlacementMemberState l node u s e).
Proof.
  unfold markPlacementMemberState. read_db d Hd.
  destruct (pendingCredential d l node u) as [c|] eqn:Hc; [|solve_preserves].
  solve_preserves. apply update_member_el; [|done..]. by eapply pending_own.
Qed.
Lemma confirmPlacementDestroyed_el l : preserves I (confirmPlacementDestroyed l node).
Proof.
  unfold confirmPlacementDestroyed. apply (read_inv _ _ (fun d => find_by_lab_node d l node)); [done|]. intros d Hd.
  destruct (find_by_lab_node d l node) as [v|] eqn:Hv; [|solve_preserves].
  destruct (bool_decide _); [|solve_preserves]. apply delete_placements_el. by eapply found_own.
Qed.
Lemma claimPlacementCompletion_el l : preserves I (claimPlacementCompletion l node).
Proof.
  unfold claimPlacementCompletion, claim_completion. read_db d Hd.
  destruct (find_by_lab_node d l node) as [v|] eqn:Hv; [|solve_preserves].
  solve_preserves. apply update_placements_el; [|done..]. intros p [-> _]. by eapply found_own.
Qed.
#[local] Hint Resolve markTaskState_el markTaskReceived_el markPlacementStateByLabNode_el
  markPlacementMemberState_el confirmPlacementDestroyed_el cleanup_el : preserve.

Lemma completeStudentRemoval_el u : preserves I (completeStudentRemoval u).
Proof. unfold completeStudentRemoval. solve_preserves. Qed.
Lemma set_capabilities_el v : preserves I (set_capabilities node v).
Proof. unfold set_capabilities. solve_preserves. by apply update_nodes_el. Qed.
Lemma handleLog_el f : preserves I (handleLog node f).
Proof. unfold handleLog. solve_preserves. Qed.
Lemma emailGpuEvent_el p : preserves I (emailGpuEvent node p).
Proof. unfold emailGpuEvent. solve_preserves. Qed.
#[local] Hint Resolve emailGpuEvent_el : preserve.
Lemma handleEvent_el f : preserves I (handleEvent node f).
Proof. unfold handleEvent, detached. solve_preserves. Qed.

Lemma maybeStudentQuotaAlert_el p l s pool u q now : p ∉ foreign_ids d0 node ->
  preserves I (maybeStudentQuotaAlert p l s node pool u q now).
Proof. intros Hp. unfold maybeStudentQuotaAlert, detached. solve_preserves. Qed.
Lemma maybeQuotaAlert_el p l pool u q now : p ∉ foreign_ids d0 node ->
  preserves I (maybeQuotaAlert p l pool u q now).
Proof. intros Hp. unfold maybeQuotaAlert, detached. solve_preserves. Qed.
Lemma ingestColdStorage_el c : preserves I (ingestColdStorage node c).
Proof. unfold ingestColdStorage. solve_preserves; by apply update_nodes_el. Qed.
Lemma ingestScrub_el s now : preserves I (ingestScrub node s now).
Proof. unfold ingestScrub, detached. solve_preserves. by apply update_nodes_el. Qed.
#[local] Hint Resolve maybeStudentQuotaAlert_el maybeQuotaAlert_el ingestColdStorage_el ingestScrub_el : preserve.
Lemma ingest_storage_el now v : preserves I (ingest_storage node now v).
Proof.
  unfold ingest_storage. destruct (storage_usage v) as [ds|]; [|solve_preserves]. read_db d Hd.
  destruct (find_by_lab_node d (su_lab ds) node) as [ref|] eqn:Hv; [|solve_preserves].
  pose proof (found_own _ _ _ _ _ Hd Hv) as Hown. solve_preserves.
Qed.
Lemma ingest_scan_el u : preserves I (ingest_scan node u).
Proof.
  unfold ingest_scan. apply preserves_bind; [solve_preserves|]. intros lab.
  destruct (negb _); [solve_preserves|]. destruct (as_num _) as [ts|]; [|solve_preserves].
  apply preserves_bind; [solve_preserves|]. intros name. read_db d Hd.
  destruct (l ← name; find_by_lab_node d l node) as [v|] eqn:Hv; [|solve_preserves].
  apply bind_Some in Hv as (l & _ & Hv). apply update_placements_el; [|done..].
  intros p [-> _]. by eapply found_own.
Qed.
Lemma ingest_gpu_el now p : preserves I (ingest_gpu node now p).
Proof. unfold ingest_gpu. solve_preserves. Qed.
#[local] Hint Resolve ingest_storage_el ingest_scan_el ingest_gpu_el : preserve.
Lemma ingestTelemetry_el payload : preserves I (ingestTelemetry node payload).
Proof.
  unfold ingestTelemetry. solve_preserves; [by apply update_nodes_el|].
  apply transaction_inv. solve_preserves.
Qed.
#[local] Hint Resolve handleLog_el handleEvent_el ingestTelemetry_el : preserve.
End frames.

(** ** The mails a frame sets off *)

(** A mail in flight whose end can only touch the node's own member or placement. *)
Definition own_flight (node : string) (d0 : Db) (f : InFlight) : Prop :=
  match if_delivery f with
  | DCredential i => own_member node d0 i
  | DCompletion i => i ∉ foreign_ids d0 node
  end.

(** Everything but the two deliveries leaves the mails in flight alone. *)
Section mails.
Context {HK : Honker} {PF : Platform} (node : string) (ml : list InFlight).
Definition mails_are (w : World) : Prop := w_mails w = ml.
#[export] Instance mails_are_mail : MailStable mails_are.
Proof. intros w w' Hm. unfold mails_are. by rewrite (mo_mails _ _ Hm). Qed.
#[local] Notation F := mails_are.

Lemma same_mails {A} (m : Act A) : (forall w, w_mails (m w).2 = w_mails w) -> preserves F m.
Proof. intros H w. unfold mails_are. by rewrite H. Qed.
Lemma exec_mails f : preserves F (exec f). Proof. by apply same_mails. Qed.
Lemma date_now_mails : preserves F date_now. Proof. by apply same_mails. Qed.
Lemma new_uuid_mails : preserves F new_uuid. Proof. by apply same_mails. Qed.
Lemma new_iv_mails : preserves F new_iv. Proof. by apply same_mails. Qed.
Lemma hk_enqueue_act_mails n v : preserves F (hk_enqueue_act n v).
Proof. apply same_mails. intros w. unfold hk_enqueue_act. by destruct (hk_enqueue _ _ _). Qed.
Lemma transaction_mails {A} (m : Act A) : preserves F m -> preserves F (transaction m).
Proof. intros Hm w Hw. pose proof (Hm w Hw) as H. unfold transaction. by destruct (m w) as [[a|e] w1]. Qed.
#[local] Hint Resolve exec_mails date_now_mails new_uuid_mails new_iv_mails hk_enqueue_act_mails : preserve.
#[local] Hint Extern 2 (preserves mails_are (modify _)) => (apply same_mails; reflexivity) : preserve.

Lemma insert_log_mails mk : preserves F (insert_log mk).
Proof. unfold insert_log. solve_preserves. Qed.
Lemma enqueueTask_mails n a p b : preserves F (enqueueTask n a p b).
Proof. unfold enqueueTask, encryptSecret, insert_task. solve_preserves. Qed.
Lemma alertAdmins_mails k s b : preserves F (alertAdmins k s b).
Proof. unfold alertAdmins, adminEmails. solve_preserves. Qed.
#[local] Hint Resolve insert_log_mails enqueueTask_mails alertAdmins_mails : preserve.
Lemma alertTaskFailed_mails n a e : preserves F (alertTaskFailed n a e).
Proof. unfold alertTaskFailed, detached. solve_preserves. Qed.
Lemma maybeAlertOnLog_mails n l s m d : preserves F (maybeAlertOnLog n l s m d).
Proof. unfold maybeAlertOnLog, detached. solve_preserves. Qed.
#[local] Hint Resolve alertTaskFailed_mails maybeAlertOnLog_mails : preserve.

Lemma markTaskState_mails u s r e c : preserves F (markTaskState node u s r e c).
Proof. unfold markTaskState, update_tasks. solve_preserves. Qed.
Lemma markTaskReceived_mails u : preserves F (markTaskReceived node u).
Proof. unfold markTaskReceived, update_tasks. solve_preserves. Qed.
Lemma markPlacementStateByLabNode_mails l s e : preserves F (markPlacementStateByLabNode l node s e).
Proof. unfold markPlacementStateByLabNode, markPlacementState, update_placements. solve_preserves. Qed.
Lemma markPlacementMemberState_mails l u s e : preserves F (markPlacementMemberState l node u s e).
Proof. unfold markPlacementMemberState, update_members. solve_preserves. Qed.
Lemma confirmPlacementDestroyed_mails l : preserves F (confirmPlacementDestroyed l node).
Proof. unfold confirmPlacementDestroyed, delete_placements. solve_preserves. Qed.
Lemma completeStudentRemoval_mails u : preserves F (completeStudentRemoval u).
Proof. unfold completeStudentRemoval. solve_preserves. Qed.
Lemma set_capabilities_mails v : preserves F (set_capabilities node v).
Proof. unfold set_capabilities, update_nodes. solve_preserves. Qed.
Lemma log_error_mails n s l u m e : preserves F (log_error n s l u m e).
Proof. unfold log_error. solve_preserves. Qed.
Lemma handleLog_mails f : preserves F (handleLog node f).
Proof. unfold handleLog. solve_preserves. Qed.
Lemma emailGpuEvent_mails p : preserves F (emailGpuEvent node p).
Proof. unfold emailGpuEvent. solve_preserves. Qed.
#[local] Hint Resolve emailGpuEvent_mails : preserve.
Lemma handleEvent_mails f : preserves F (handleEvent node f).
Proof. unfold handleEvent, insert_gpu_event, detached. solve_preserves. Qed.
Lemma alert_mails p l s pool u q now : preserves F (maybeStudentQuotaAlert p l s node pool u q now).
Proof. unfold maybeStudentQuotaAlert, insert_student_quota_alert, detached. solve_preserves. Qed.
Lemma quota_alert_mails p l pool u q now : preserves F (maybeQuotaAlert p l pool u q now).
Proof. unfold maybeQuotaAlert, insert_quota_alert, detached. solve_preserves. Qed.
#[local] Hint Resolve alert_mails quota_alert_mails : preserve.
Lemma ingestTelemetry_mails payload : preserves F (ingestTelemetry node payload).
Proof.
  unfold ingestTelemetry, ingestColdStorage, ingestScrub, ingest_storage, ingest_scan, ingest_gpu,
    update_nodes, update_placements, insert_sample, delete_gpu_snapshot, replace_gpu_snapshot, detached.
  solve_preserves. apply transaction_mails. solve_preserves.
Qed.
End mails.

Section own_mails.
Context {HK : Honker} {PF : Platform} (node : string) (d0 : Db) (m0 : list InFlight).
#[local] Notation J := (elsewhere node d0).
(** The database elsewhere, and only own mails since. *)
Definition isolated (w : World) : Prop :=
  on_db J w /\ exists new, w_mails w = m0 ++ new /\ Forall (own_flight node d0) new.

Lemma isolated_both {A} (m : Act A) :
  preserves (on_db J) m -> (forall ml, preserves (mails_are ml) m) -> preserves isolated m.
Proof.
  intros HJ HM w [Hw (new & Hm & Hn)]. split; [by apply HJ|]. exists new.
  split; [exact (HM _ w Hm)|done].
Qed.
Lemma send_off_isolated f : own_flight node d0 f -> preserves isolated (send_off f).
Proof.
  intros Hf w [Hw (new & Hm & Hn)]. split; [done|]. exists (new ++ [f]). cbn. rewrite Hm, app_assoc.
  split; [done|]. apply Forall_app. split; [done|]. by constructor.
Qed.

Lemma start_own l u w i o :
  on_db J w -> (startCredentialDelivery l node u w).1 = Ok (Some (i, o)) -> own_member node d0 i.
Proof.
  intros Hw. unfold startCredentialDelivery. rewrite (bind_step db _ w (w_db w) w) by done.
  destruct (pendingCredential (w_db w) l node u) as [c|] eqn:Hc; [|done]. pose proof (pending_own _ _ _ _ _ _ Hw Hc) as Ho.
  destruct (pm_state (pc_member c)), (pm_credential_secret (pc_member c)), (s_email (pc_student c)); try done.
  destruct (_ || _); [done|]. cbv zeta.
  destruct (negb _); [done|]. unfold mbind at 1, M_bind at 1. destruct (prepareCredentialEmail _ w) as [[x|] w1]; [|done].
  by intros [= <- _].
Qed.
Lemma deliverPlacementCredential_isolated l u : preserves isolated (deliverPlacementCredential l node u).
Proof.
  unfold deliverPlacementCredential.
  apply (preserves_bind_post _ (fun s => forall i o, s = Some (i, o) -> own_member node d0 i)).
  - unfold startCredentialDelivery. solve_preserves.
  - intros w s [Hw _] Hs i o ->. by eapply start_own.
  - intros [[i o]|] Ho; [|solve_preserves]. apply send_off_isolated. by apply (Ho i o).
Qed.
(** A completion job is for a placement of the node. *)
Lemma claim_own l w j :
  on_db J w -> (claimPlacementCompletion l node w).1 = Ok (Some j) -> cj_placement j ∉ foreign_ids d0 node.
Proof.
  intros Hw. unfold claimPlacementCompletion. rewrite (bind_step db _ w (w_db w) w) by done. cbv beta.
  destruct (find_by_lab_node (w_db w) l node) as [v|] eqn:Hv; [|done].
  pose proof (found_own _ _ _ _ _ Hw Hv) as Hown. clear Hv.
  destruct (lab_of (w_db w) (p_lab_id (pl_row v))), (node_of (w_db w) (p_node_id (pl_row v))); try done.
  cbv zeta. destruct (_ || _); [done|]. destruct (_ || _); [done|].
  unfold mbind at 1, M_bind at 1. destruct (claim_completion _ w) as [[[]|] w1]; try done.
  cbn -[completion_mail]. intros [= <-]. exact Hown.
Qed.
Lemma maybeDeliverPlacementCompletion_isolated l : preserves isolated (maybeDeliverPlacementCompletion l node).
Proof.
  unfold maybeDeliverPlacementCompletion.
  apply (preserves_bind_post _ (fun s => forall j, s = Some j -> cj_placement j ∉ foreign_ids d0 node)).
  - apply isolated_both; [apply claimPlacementCompletion_el|]. intros ml.
    unfold claimPlacementCompletion, claim_completion, update_placements. solve_preserves. by apply exec_mails.
  - intros w s [Hw _] Hs j ->. by eapply claim_own.
  - intros [j|] Ho; [|solve_preserves]. apply preserves_bind; [solve_preserves|]. intros o.
    apply send_off_isolated. by apply (Ho j).
Qed.
Lemma log_error_isolated s l u m e : preserves isolated (log_error node s l u m e).
Proof.
  apply isolated_both; [|intros; apply log_error_mails]. unfold log_error. solve_preserves.
  apply insert_log_el. by left.
Qed.
#[local] Hint Resolve deliverPlacementCredential_isolated maybeDeliverPlacementCompletion_isolated log_error_isolated : preserve.
Lemma deliver_mails_isolated l u : preserves isolated (deliver_mails l node u).
Proof. unfold deliver_mails, credential_failed, completion_failed. solve_preserves. Qed.
#[local] Hint Extern 3 (preserves isolated _) => (apply isolated_both; [|intros]) : preserve.
#[local] Hint Resolve deliver_mails_isolated markTaskState_el markTaskState_mails markTaskReceived_el markTaskReceived_mails
  set_capabilities_el set_capabilities_mails markPlacementStateByLabNode_el markPlacementStateByLabNode_mails
  markPlacementMemberState_el markPlacementMemberState_mails confirmPlacementDestroyed_el
  confirmPlacementDestroyed_mails completeStudentRemoval_el completeStudentRemoval_mails
  alertTaskFailed_inv alertTaskFailed_mails handleLog_el handleLog_mails handleEvent_el handleEvent_mails
  ingestTelemetry_el ingestTelemetry_mails date_now_inv date_now_mails insert_log_mails : preserve.
Lemma lifecycle_isolated f t : preserves isolated (lifecycle node f t).
Proof. unfold lifecycle. solve_preserves. Qed.
#[local] Hint Resolve lifecycle_isolated : preserve.
Lemma handleResult_isolated f : preserves isolated (handleResult node f).
Proof.
  unfold handleResult. solve_preserves.
  apply isolated_both; [apply insert_log_el; by right|intros; apply insert_log_mails].
Qed.
#[local] Hint Resolve handleResult_isolated : preserve.
Lemma ingestFrame_run f : preserves isolated (ingestFrame node f).
Proof. unfold ingestFrame, handleTelemetry. solve_preserves. Qed.
End own_mails.

(** C9: whatever frame the agent of [node] sends (results of any task, receipts, logs, events,
    telemetry with any payload), it changes no row of another node. Labs, students, rosters,
    settings, admins, groups and the audit log are untouched; every other node's row is untouched
    and the node's own row keeps its name, token, allow flag, cold topology and liveness; the
    placements on other nodes, their members, their storage samples and their quota alerts are the
    same rows; the GPU processes of the other nodes and all GPU events so far stay (a reference to
    a placement of the node that is deleted is cleared), and what is added names the node; the log
    keeps every row; completed tasks keep their outcome, and the only tasks a frame can queue are
    the shared cold-data cleanups of a removal. The mails it leaves in flight, whose end is still
    to come, are for members and placements of the node. *)
Theorem ingestFrame_isolated {HK : Honker} {PF : Platform} node frame w :
  wf w ->
  elsewhere node (w_db w) (w_db (ingestFrame node frame w).2) /\
  exists new, w_mails (ingestFrame node frame w).2 = w_mails w ++ new /\
    Forall (own_flight node (w_db w)) new.
Proof.
  intros [Hd _]. apply (ingestFrame_run node (w_db w) (w_mails w) frame). split; [by apply elsewhere_refl|].
  exists []. by rewrite app_nil_r.
Qed.

Section witness.
#[local] Existing Instance toy_honker.
#[local] Instance isolation_pf : Platform := demo_pf demo_accepts.

(** A placement on n1, and n2's agent claiming that n1's lab.create failed. *)
Definition placed_world : World := (createPlacement demo_input (demo_world demo_accepts)).2.
Definition forged : Frame := FResult
  (mkResult "uuid-0" false (Some (JObj [("lab", JStr "vision")])) (Some "forged") None None).

Lemma ingestFrame_isolated_witness :
  filter (foreign (w_db placed_world) "n2") (rows (lab_placements (w_db (ingestFrame "n2" forged placed_world).2))) =
  filter (foreign (w_db placed_world) "n2") (rows (lab_placements (w_db placed_world))) /\
  length (filter (foreign (w_db placed_world) "n2") (rows (lab_placements (w_db placed_world)))) = 1%nat.
Proof.
  split; [|vm_compute; reflexivity]. apply (el_placements "n2").
  apply (ingestFrame_isolated "n2" forged placed_world).
  apply createPlacement_wf, demo_world_wf.
Defined.
End witness.
