(* ===== verification/IngestFacts.v ===== *)
(** * IngestFacts: one malformed scrub entry stops a node's telemetry for good *)
From S2P Require Import Prelude Js Redact Schema Sql DbWf Env Secrets Queue Testbed QueueFacts Settings Mailer Alerts Placements Nodes Protocol Ingest Hub.
Open Scope Z_scope.

(** ** What the controller remembers of a node's last scrub *)

Section scrub.
Context {HK : Honker} {PF : Platform}.
Implicit Types (w : World).

Definition scrub_status (node : string) (w : World) : option text :=
  node_named (w_db w) node ≫= n_scrub_status.
(** The stored list holds a null. *)
Definition poisoned (node : string) (w : World) : Prop :=
  exists l, scrub_status node w = Some (TJson (JArr l)) /\ JNull ∈ l.
(** The node is registered, and what is stored can be read back. *)
Definition readable (node : string) (w : World) : Prop :=
  is_Some (node_named (w_db w) node) /\
  match scrub_status node w with
  | None => True
  | Some t => exists l bad, json_parse t = Some (JArr l) /\ bad_pools l = Ok bad
  end.

Lemma isBadScrub_null p e : isBadScrub p = Throw e -> e = ETypeError.
Proof. by destruct p; intros [=]. Qed.
Lemma bad_pools_null l : JNull ∈ l -> bad_pools l = Throw ETypeError.
Proof.
  induction l as [|p l IH]; [by intros ?%elem_of_nil|]. intros [<-|Hl]%elem_of_cons; [done|].
  cbn [bad_pools]. destruct (isBadScrub p) as [bad|e] eqn:Hb.
  - cbn. by rewrite IH.
  - by apply isBadScrub_null in Hb as ->.
Qed.

(** A statement on the node's row that leaves its name. *)
Lemma named_update node f w :
  (forall n, n_name (f n) = n_name n) ->
  node_named (w_db (w <| w_db ::= fun d => d <| nodes ::= tbl_update (fun n => n_name n = node) f |> |>)) node =
  f <$> node_named (w_db w) node.
Proof.
  intros Hf. unfold node_named. cbn. rewrite get_row_update by (intros n; by rewrite Hf).
  destruct (get_row _ _) as [n|] eqn:Hn; [|done]. apply get_row_Some in Hn as [Hn _]. cbn.
  by rewrite decide_True.
Qed.

(** The statements of a telemetry frame before its scrub list: the same database but for the
    rows of nodes, and the same scrub status. *)
Lemma telemetry_prefix node p w :
  exists now w1 ns, w_db w1 = (w_db w) <| nodes := ns |> /\
    scrub_status node w1 = scrub_status node w /\
    (is_Some (node_named (w_db w1) node) <-> is_Some (node_named (w_db w) node)) /\
    ingestTelemetry node p w = (ingestScrub node (field "scrub" p) now;;
      storage ← lift (iterate (field "storage" p));
      for_each (ingest_storage node now) storage;;
      scans ← lift (iterate (field "usage_scans" p));
      for_each (ingest_scan node) scans;;
      transaction (
        delete_gpu_snapshot node;;
        ps ← lift (iterate (field "gpu_processes" p));
        for_each (ingest_gpu node now) ps)) w1.
Proof.
  exists (clock (w_ticks w)).
  set (f := fun n : NodeRow => n <| n_pools := Some (TJson (nullish (nn (field "pools" p)) (JArr []))) |>
               <| n_last_seen := Some (clock (w_ticks w)) |>).
  set (w1 := (w <| w_ticks ::= S |>) <| w_db ::= fun d => d <| nodes ::= tbl_update (fun n => n_name n = node) f |> |>).
  assert (forall g w0, (forall n, n_name (g n) = n_name n) -> (forall n, n_scrub_status (g n) = n_scrub_status n) ->
    let w' := w0 <| w_db ::= fun d => d <| nodes ::= tbl_update (fun n => n_name n = node) g |> |> in
    scrub_status node w' = scrub_status node w0 /\
    (is_Some (node_named (w_db w') node) <-> is_Some (node_named (w_db w0) node))) as Hup.
  { intros g w0 Hn Hs w'. unfold scrub_status, w'. rewrite named_update by done. split.
    - destruct (node_named (w_db w0) node); cbn; [apply Hs|done].
    - by rewrite fmap_is_Some. }
  destruct (Hup f (w <| w_ticks ::= S |>)) as [Hs1 Hn1]; [done|done|].
  unfold ingestTelemetry. rewrite (bind_step date_now _ w (clock (w_ticks w)) (w <| w_ticks ::= S |>)) by done.
  rewrite (bind_step (update_nodes _ _) _ _ tt w1) by done.
  assert (exists w2 ns, ingestColdStorage node (field "cold" p) w1 = (Ok tt, w2) /\
    w_db w2 = (w_db w) <| nodes := ns |> /\ scrub_status node w2 = scrub_status node w1 /\
    (is_Some (node_named (w_db w2) node) <-> is_Some (node_named (w_db w1) node))) as (w2 & ns & Hc & Hdb & Hs2 & Hn2).
  { unfold ingestColdStorage. destruct (field "cold" p) as [[]|]; try (by exists w1, (nodes (w_db w1)));
      (eexists _, _; split; [reflexivity|]; split; [reflexivity|]; by apply Hup). }
  exists w2, ns. rewrite (bind_step _ _ _ _ _ Hc). split_and!; [done| | |done].
  - by rewrite Hs2.
  - by rewrite Hn2.
Qed.
End scrub.

(** C25: a telemetry frame whose scrub list holds a null stops the node's telemetry for good: the frame
    is within the wire schema, so it is ingested, its list is stored before it is looked at, and the
    handler throws; from then on every frame of the node with a scrub list throws before its
    storage figures, usage scans and GPU processes are read, changing nothing but the row of the
    node, and the stored list stays. *)
Theorem null_scrub_poisons {HK : Honker} {PF : Platform} node :
  (forall p w, readable node w -> field "scrub" p = Some (JArr [JNull]) ->
     exists w1, ingestFrame node (FTelemetry (Some p)) w = (Throw ETypeError, w1) /\ poisoned node w1) /\
  (forall p entries w, poisoned node w -> field "scrub" p = Some (JArr entries) ->
     exists w1 ns, ingestFrame node (FTelemetry (Some p)) w = (Throw ETypeError, w1) /\
       w_db w1 = (w_db w) <| nodes := ns |> /\ poisoned node w1).
Proof.
  assert (forall p, field "scrub" p <> None -> forall w, ingestFrame node (FTelemetry (Some p)) w = ingestTelemetry node p w) as Heq
    by (by intros []).
  split.
  - intros p w [Hn Hr] Hp. rewrite Heq by congruence.
    destruct (telemetry_prefix node p w) as (now & w1 & ns & Hdb & Hst & Hn1 & ->). rewrite Hp. apply Hn1 in Hn.
    assert (exists w2, ingestScrub node (Some (JArr [JNull])) now w1 = (Throw ETypeError, w2) /\ poisoned node w2)
      as (w2 & Hi & Hpo); [|exists w2; split; [by rewrite (bind_throw _ _ _ _ _ Hi)|done]].
    unfold ingestScrub. rewrite (bind_step db _ w1 (w_db w1) w1) by done. cbv zeta.
    change (get_row (fun n => n_name n = node) (rows (nodes (w_db w1))) ≫= n_scrub_status) with (scrub_status node w1).
    rewrite Hst. set (parsed := match scrub_status node w with Some _ => _ | None => _ end).
    assert (exists l bad, parsed = JArr l /\ bad_pools l = Ok bad) as (l & bad & -> & Hb).
    { subst parsed. destruct (scrub_status node w) as [t|]; [|by exists [], []].
      destruct Hr as (l & bad & -> & Hb). by exists l, bad. }
    cbv iota. rewrite (bind_step (lift (Ok l)) _ w1 l w1) by done.
    rewrite Hb, (bind_step (lift (Ok bad)) _ w1 bad w1) by done.
    set (f := fun n : NodeRow => n <| n_scrub_status := Some (TJson (JArr [JNull])) |>).
    exists (w1 <| w_db ::= fun d => d <| nodes ::= tbl_update (fun n => n_name n = node) f |> |>). split; [done|].
    exists [JNull]. unfold scrub_status. rewrite named_update by done. destruct Hn as [n ->]. split; [done|by left].
  - intros p entries w (l & Hl & Hin) Hp. rewrite Heq by congruence.
    destruct (telemetry_prefix node p w) as (now & w1 & ns & Hdb & Hst & Hn1 & ->). rewrite Hp.
    exists w1, ns. assert (ingestScrub node (Some (JArr entries)) now w1 = (Throw ETypeError, w1)) as Hi.
    { unfold ingestScrub. rewrite (bind_step db _ w1 (w_db w1) w1) by done. cbv zeta.
      change (get_row (fun n => n_name n = node) (rows (nodes (w_db w1))) ≫= n_scrub_status) with (scrub_status node w1).
      rewrite Hst, Hl. rewrite (bind_step (lift _) _ w1 l w1) by done.
      by rewrite bad_pools_null. }
    rewrite (bind_throw _ _ _ _ _ Hi). split_and!; [done|done|]. exists l. by rewrite Hst.
Qed.

(** ** A quota that is not a number *)

Section quota.
Context {HK : Honker} {PF : Platform}.

(** The type of a reported quota is not checked: where it reads as no number, so does the
    percentage, which no threshold stops, and the row that would record the alert is refused.  The
    frame ends there, after the sample was stored and before everything that follows it. *)
Lemma percent_nan used : percent used S754_nan = S754_nan.
Proof. by destruct used. Qed.
Lemma quota_not_a_number p l pool used now w w1 v :
  getSetting "quotaAlertPct" w = (Ok v, w1) -> is_Some (lab_of (w_db w1) l) ->
  select (fun a => qa_placement_id a = Some p /\ qa_pool a = pool) (rows (quota_alerts (w_db w1))) = [] ->
  maybeQuotaAlert p l pool used S754_nan now w = (Throw (ESqlConstraint "quota_alerts"), w1).
Proof.
  intros Hs [lr Hl] Hr. unfold maybeQuotaAlert, getSetting_num, mbind, M_bind. rewrite Hs. cbn [mret M_ret].
  rewrite percent_nan. cbn [num_ltb SFltb SFcompare]. cbn [db gets]. rewrite Hr. cbn [fmap list_fmap latest fold_left].
  rewrite Hl. unfold insert_quota_alert, mbind, M_bind. by cbn.
Qed.
End quota.

Section witness.
#[local] Existing Instance toy_honker.
#[local] Instance ingest_pf : Platform := demo_pf demo_accepts.

Definition null_scrub : json := JObj [("scrub", JArr [JNull])].
Definition poisoned_world : World := (ingestFrame "n1" (FTelemetry (Some null_scrub)) (demo_world demo_accepts)).2.

(** A later frame in order, with a healthy pool. *)
Lemma null_scrub_poisons_witness :
  (ingestFrame "n1" (FTelemetry (Some null_scrub)) (demo_world demo_accepts)).1 = Throw ETypeError /\
  (ingestFrame "n1" (FTelemetry (Some (JObj [("scrub", JArr [JObj [("pool", JStr "tank"); ("healthy", JBool true)]])])))
     poisoned_world).1 = Throw ETypeError.
Proof.
  destruct (null_scrub_poisons "n1") as [H1 H2].
  destruct (H1 null_scrub (demo_world demo_accepts)) as (w1 & Hw1 & Hp).
  - split; [by eexists|]. vm_compute. exact I.
  - reflexivity.
  - split; [by rewrite Hw1|].
    destruct (H2 (JObj [("scrub", JArr [JObj [("pool", JStr "tank"); ("healthy", JBool true)]])])
      [JObj [("pool", JStr "tank"); ("healthy", JBool true)]] w1 Hp) as (w2 & ns & Hw2 & _); [reflexivity|].
    unfold poisoned_world. rewrite Hw1. cbn [snd]. by rewrite Hw2.
Defined.
End witness.
