(* ===== verification/CredentialFacts.v ===== *)
(** * CredentialFacts: how a login password leaves the controller; a completion mail is sent once

    The automatic delivery and the completion mail are each two steps, before and after the
    [await] on the mail; the theorems quantify over the state of the second. *)
From S2P Require Import Prelude Js Redact Schema Sql DbWf Env Secrets Queue Testbed QueueFacts Settings SettingsFacts Template Format Mailer Alerts DbInv MailerFacts Placements PlacementFacts ProvisionFacts CreateFacts.
Open Scope Z_scope.

Definition members_of {HK : Honker} (w : World) : list PlacementMemberRow := rows (placement_members (w_db w)).

(** The update that burns a member's credential. *)
Definition burnt (i now : Z) (m : PlacementMemberRow) : PlacementMemberRow :=
  if decide (pm_id m = i)
  then m <| pm_credential_secret := None |> <| pm_credential_delivered_at := Some now |> else m.

Section facts.
Context {HK : Honker} {PF : Platform}.
Implicit Types (w : World).

(** The rest of a mail: one message as it was prepared, when it reports success; nothing
    otherwise. *)
Lemma transmit_run o w : exists res w', transmit o w = (Ok res, w') /\ mail_only w w' /\
  if sr_sent res
  then exists out m, o = Some out /\ w_outbox w' = w_outbox w ++ [m] /\
         m_to m = og_to out /\ m_subject m = og_subject out /\ m_text m = og_text out
  else w_outbox w' = w_outbox w.
Proof.
  destruct o as [out|]; [|by eexists _, w; split; [|split; [apply mail_only_refl|]]].
  unfold transmit. edestruct try_servers_run as (r & w' & Hr & Hm & _ & Hrest). rewrite Hr.
  exists r, w'. split; [done|]. split; [done|]. destruct (first_accepting _ _) as [[n c]|].
  - destruct Hrest as (-> & _ & ->). by eexists _, _.
  - by destruct Hrest as (-> & _ & _ & ->).
Qed.
(** It is through exactly when some server takes it. *)
Lemma transmit_sent out w res w' : transmit (Some out) w = (Ok res, w') ->
  sr_sent res = bool_decide (is_Some (first_accepting (w_smtp w) (og_configs out))).
Proof.
  unfold transmit. edestruct try_servers_run as (r & w2 & Hr & _ & _ & Hrest). rewrite Hr.
  intros [= <- <-]. destruct (first_accepting _ _) as [[n c]|]; by destruct Hrest as (-> & _).
Qed.

(** Preparing a mail only reads. *)
Lemma prepared_same {A} (m : Act A) w r w' : (forall I, preserves I m) -> m w = (r, w') -> w' = w.
Proof. intros H E. pose proof (H (eq w) w eq_refl) as Hr. by rewrite E in Hr. Qed.

Lemma render_pair_same a b c d vars w : exists x, render_pair a b c d vars w = (Ok x, w).
Proof.
  unfold render_pair, template_or. destruct (getSetting_str_run a w) as [s Hs].
  destruct (getSetting_str_run c w) as [s' Hs'].
  unfold mbind, M_bind. rewrite Hs. cbn. rewrite Hs'. by eexists.
Qed.

(** A rendered mail goes to its recipient. *)
Lemma prepared_to (render : Act (string * string)) to w o w' :
  (exists x, render w = (Ok x, w)) ->
  ('(subject, body) ← render; prepareMail to subject body) w = (Ok (Some o), w') ->
  og_to o = to.
Proof.
  intros [[s b] Hx]. rewrite (bind_step _ _ _ _ _ Hx). unfold prepareMail. intros H.
  inv_bind H. case_bool_decide; [done|]. destruct (negb (truthy to)); [done|]. inv_bind H. by injection H as <- <-.
Qed.

(** ** The joined members after an update of a member *)

Definition on_member (f : PlacementMemberRow -> PlacementMemberRow) (c : PendingCredential) :=
  mkPending (f (pc_member c)) (pc_student c) (pc_placement c) (pc_lab_row c) (pc_node_row c).

Lemma join_member_update d f m :
  pm_student_id (f m) = pm_student_id m -> pm_placement_id (f m) = pm_placement_id m ->
  join_member (d <| placement_members ::= tbl_map f |>) (f m) = on_member f <$> join_member d m.
Proof.
  intros Hs Hp. unfold join_member, student_of, placement_of, lab_of, node_of. cbn. rewrite Hs, Hp.
  destruct (get_row (fun s => s_id s = _) _) as [s|]; cbn; [|done].
  destruct (get_row (fun p => p_id p = _) _) as [p|]; cbn; [|done].
  destruct (get_row (fun l => l_id l = _) _) as [l|]; cbn; [|done].
  by destruct (get_row (fun n => n_id n = _) _).
Qed.

Lemma join_member_row d m c : join_member d m = Some c -> pc_member c = m.
Proof. unfold join_member. intros H. by repeat (apply bind_Some in H as (? & ? & H)); simplify_eq. Qed.

Lemma update_is_map {A} (P : A -> Prop) {PDec : forall x, Decision (P x)} f (t : table A) :
  tbl_update P f t = tbl_map (fun x => if decide (P x) then f x else x) t.
Proof. done. Qed.

(** The look-up of a pending credential after a member was burnt. *)
Lemma burn_run i w :
  burn_credential i w = (Ok tt, w <| w_ticks ::= S |> <| w_db ::= fun d =>
    d <| placement_members ::= tbl_map (burnt i (clock (w_ticks w))) |> |>).
Proof. done. Qed.

Lemma lookup_burnt (P : PendingCredential -> Prop) {PDec : forall x, Decision (P x)} d i now :
  (forall c, P (on_member (burnt i now) c) <-> P c) ->
  let d' := d <| placement_members ::= tbl_map (burnt i now) |> in
  get_row P (omap (join_member d') (rows (placement_members d'))) =
  on_member (burnt i now) <$> get_row P (omap (join_member d) (rows (placement_members d))).
Proof.
  intros HP d'. assert (forall m, pm_student_id (burnt i now m) = pm_student_id m /\
    pm_placement_id (burnt i now m) = pm_placement_id m) as Hb.
  { intros m. unfold burnt. by case_decide. }
  rewrite <- get_row_fmap.
  - f_equal. unfold d'. cbn. apply omap_fmap_comm. intros m. by apply join_member_update; apply Hb.
  - exact HP.
Qed.

(** The member an admin reveals. *)
Definition owned_by (placementId studentId : Z) (c : PendingCredential) : Prop :=
  pm_placement_id (pc_member c) = placementId /\ pm_student_id (pc_member c) = studentId.
#[global] Instance owned_by_dec p s c : Decision (owned_by p s c).
Proof. unfold owned_by. apply _. Defined.

Definition joined (d : Db) : list PendingCredential := omap (join_member d) (rows (placement_members d)).

Lemma joined_elem d c : c ∈ joined d -> pc_member c ∈ rows (placement_members d).
Proof.
  unfold joined. intros (m & Hm & Hj)%list_elem_of_omap. by rewrite (join_member_row _ _ _ Hj).
Qed.

Lemma consume_run pid sid actor u pw w w1 :
  consumePlacementCredential pid sid actor w = (Ok (u, pw), w1) ->
  exists c secret, get_row (owned_by pid sid) (joined (w_db w)) = Some c /\
    pm_state (pc_member c) = MActive /\ pm_credential_secret (pc_member c) = Some secret /\
    pw = text_str (decryptSecret secret) /\ pw <> "" /\ u = s_username (pc_student c) /\ w_mails w1 = w_mails w /\
    exists ts, w_db w1 = (w_db w) <| placement_members ::= tbl_map (burnt (pm_id (pc_member c)) (clock (w_ticks w))) |>
      <| audit_log ::= tbl_insert (fun i => mkAudit i ts actor "placement.credential_reveal"
        (Some (l_name (pc_lab_row c) +:+ "/" +:+ u +:+ "@" +:+ n_name (pc_node_row c))) None) |>.
Proof.
  unfold consumePlacementCredential. intros H. inv_bind H. injection E as <- <-.
  change (omap (join_member (w_db w)) (rows (placement_members (w_db w)))) with (joined (w_db w)) in H.
  destruct (get_row _ (joined (w_db w))) as [c|] eqn:Hc; [|done].
  inv_bind H. unfold throw_if in E. case_bool_decide; [|done]. injection E as <- <-.
  destruct (pm_credential_secret (pc_member c)) as [secret|] eqn:Hs; [|done].
  inv_bind H. unfold throw_if in E. destruct (truthy secret); [|done]. injection E as <- <-.
  inv_bind H. unfold throw_if in E. destruct (truthy (text_str (decryptSecret secret))) eqn:Hp; [|done].
  injection E as <- <-. inv_bind H. rewrite burn_run in E. injection E as <- <-.
  inv_bind H. injection E as <- <-. injection H as <- <- <-.
  exists c, secret. split_and!; try done.
  - intros He. by rewrite He in Hp.
  - by eexists.
Qed.

Lemma consume_gone pid sid actor c w :
  get_row (owned_by pid sid) (joined (w_db w)) = Some c -> pm_state (pc_member c) = MActive ->
  pm_credential_secret (pc_member c) = None ->
  consumePlacementCredential pid sid actor w = (Throw ECredentialGone, w).
Proof.
  intros Hc Ha Hs. unfold consumePlacementCredential. rewrite (bind_step db _ w (w_db w) w) by done.
  match goal with |- context [get_row ?P ?l] =>
    change (get_row P l) with (get_row (owned_by pid sid) (joined (w_db w))) end.
  rewrite Hc, Ha. cbn. by rewrite Hs.
Qed.

(** A member that was burnt is not revealed again. *)
Lemma consume_burnt pid sid actor c now w w1 :
  get_row (owned_by pid sid) (joined (w_db w)) = Some c -> pm_state (pc_member c) = MActive ->
  joined (w_db w1) = joined ((w_db w) <| placement_members ::= tbl_map (burnt (pm_id (pc_member c)) now) |>) ->
  consumePlacementCredential pid sid actor w1 = (Throw ECredentialGone, w1).
Proof.
  intros Hc Ha Hj. set (i := pm_id (pc_member c)) in *. apply (consume_gone _ _ _ (on_member (burnt i now) c)).
  - rewrite Hj. unfold joined. rewrite lookup_burnt; [|by intros c'; unfold owned_by; cbn; unfold burnt; case_decide].
    change (omap (join_member (w_db w)) (rows (placement_members (w_db w)))) with (joined (w_db w)).
    by rewrite Hc.
  - cbn. unfold burnt. by case_decide.
  - cbn. unfold burnt. by rewrite decide_True.
Qed.

Lemma start_gone lab node user c w :
  pendingCredential (w_db w) lab node user = Some c -> pm_credential_secret (pc_member c) = None ->
  startCredentialDelivery lab node user w = (Ok None, w).
Proof.
  intros Hc Hs. unfold startCredentialDelivery. rewrite (bind_step db _ w (w_db w) w) by done.
  rewrite Hc, Hs. by destruct (pm_state (pc_member c)).
Qed.

Lemma start_ro lab node user I : preserves I (startCredentialDelivery lab node user).
Proof. unfold startCredentialDelivery. solve_preserves. Qed.

(** The mail that starts is that of the member, with the password of this moment. *)
Lemma start_run lab node user i o w w1 :
  startCredentialDelivery lab node user w = (Ok (Some (i, o)), w1) ->
  exists c secret info, pendingCredential (w_db w) lab node user = Some c /\
    pm_state (pc_member c) = MActive /\ pm_credential_secret (pc_member c) = Some secret /\
    i = pm_id (pc_member c) /\ s_email (pc_student c) = Some (ce_to info) /\
    ce_password info = text_str (decryptSecret secret) /\ prepareCredentialEmail info w = (Ok o, w).
Proof.
  unfold startCredentialDelivery. intros H. inv_bind H. injection E as <- <-.
  destruct (pendingCredential _ _ _ _) as [c|] eqn:Hc; [|done].
  destruct (pm_state (pc_member c)) eqn:Ha; try done.
  destruct (pm_credential_secret (pc_member c)) as [secret|] eqn:Hs; [|done].
  destruct (s_email (pc_student c)) as [email|] eqn:He; [|done].
  destruct (negb (truthy secret) || _); [done|]. cbv zeta in H.
  destruct (negb (truthy (text_str _))); [done|]. inv_bind H. injection H as <- <- <-.
  pose proof (prepared_same _ _ _ _ (fun I => prepareCredentialEmail_ro I _) E) as ->.
  match type of E with prepareCredentialEmail ?info _ = _ => exists c, secret, info end. by split_and!.
Qed.

(** The rest of a delivery. *)
Lemma finish_run i o w : exists b w', finishCredentialDelivery i o w = (Ok b, w') /\
  if b
  then exists out m now, o = Some out /\ w_outbox w' = w_outbox w ++ [m] /\
    m_to m = og_to out /\ m_subject m = og_subject out /\ m_text m = og_text out /\
    w_db w' = (w_db w) <| placement_members ::= tbl_map (burnt i now) |>
  else w_db w' = w_db w /\ w_outbox w' = w_outbox w.
Proof.
  unfold finishCredentialDelivery. destruct (transmit_run o w) as (res & w1 & Ht & Hm & Ho).
  rewrite (bind_step _ _ _ _ _ Ht). destruct (sr_sent res); cbn [negb].
  - destruct Ho as (out & m & -> & Ho & Hto & Hs & Hx). rewrite (bind_step _ _ _ _ _ (burn_run _ _)).
    eexists true, _. split; [done|]. exists out, m, (clock (w_ticks w1)). split_and!; try done.
    cbn. by rewrite (mo_db _ _ Hm).
  - exists false, w1. split; [done|]. split; [apply (mo_db _ _ Hm)|done].
Qed.
(** It is through exactly when a server takes the mail. *)
Lemma finish_exact i o w : exists b w', finishCredentialDelivery i o w = (Ok b, w') /\
  b = match o with
      | Some out => bool_decide (is_Some (first_accepting (w_smtp w) (og_configs out)))
      | None => false end /\
  if b
  then exists out m now, o = Some out /\ w_outbox w' = w_outbox w ++ [m] /\
    m_to m = og_to out /\ m_subject m = og_subject out /\ m_text m = og_text out /\
    w_db w' = (w_db w) <| placement_members ::= tbl_map (burnt i now) |>
  else w_db w' = w_db w /\ w_outbox w' = w_outbox w.
Proof.
  destruct (finish_run i o w) as (b & w3 & Hf & Hb). exists b, w3. split; [done|]. split; [|done].
  unfold finishCredentialDelivery in Hf. destruct (transmit_run o w) as (res & w' & Ht & _ & Ho).
  rewrite (bind_step _ _ _ _ _ Ht) in Hf. destruct o as [out|]; [|by injection Ht as <- <-; injection Hf as <- <-].
  rewrite <- (transmit_sent _ _ _ _ Ht). destruct (sr_sent res); cbn [negb] in Hf; [|by injection Hf as <- <-].
  rewrite (bind_step _ _ _ _ _ (burn_run _ _)) in Hf. by injection Hf as <- <-.
Qed.
Lemma finish_sent i out w : is_Some (first_accepting (w_smtp w) (og_configs out)) ->
  exists w' m now, finishCredentialDelivery i (Some out) w = (Ok true, w') /\
    w_outbox w' = w_outbox w ++ [m] /\ m_text m = og_text out /\
    w_db w' = (w_db w) <| placement_members ::= tbl_map (burnt i now) |>.
Proof.
  intros Hs. destruct (finish_exact i (Some out) w) as (b & w' & Hf & Hb & H). subst b.
  rewrite bool_decide_eq_true_2 in H, Hf by done. destruct H as (? & m & now & [= <-] & Ho & _ & _ & Hx & Hd).
  by exists w', m, now.
Qed.
End facts.

(** C15: a stored password is revealed at most once. A successful reveal returns the decrypted secret
    of the active member of that placement and student, erases it from that member's row and no
    other, and is recorded in the audit log with the admin, lab, user and node; a further reveal
    of the member is refused as already used, and no delivery of its credential starts. The mails
    already in flight stay as they are: one that was on its way before is not called back. *)
Theorem credential_revealed_once {HK : Honker} {PF : Platform} pid sid actor u pw w w1 :
  wf w -> consumePlacementCredential pid sid actor w = (Ok (u, pw), w1) ->
  exists m secret,
    (m ∈ members_of w /\ pm_placement_id m = pid /\ pm_student_id m = sid /\ pm_state m = MActive /\
     pm_credential_secret m = Some secret /\ pw = text_str (decryptSecret secret)) /\
    (forall m', m' ∈ members_of w1 <-> (m' ∈ members_of w /\ m' <> m) \/
       m' = m <| pm_credential_secret := None |> <| pm_credential_delivered_at := Some (clock (w_ticks w)) |>) /\
    (forall actor', consumePlacementCredential pid sid actor' w1 = (Throw ECredentialGone, w1)) /\
    (forall lab node user c, pendingCredential (w_db w1) lab node user = Some c ->
       pm_id (pc_member c) = pm_id m -> startCredentialDelivery lab node user w1 = (Ok None, w1)) /\
    w_mails w1 = w_mails w.
Proof.
  intros [Hwf _] Hr. apply consume_run in Hr as (c & secret & Hc & Ha & Hs & -> & _ & -> & Hmails & ts & Hd).
  pose proof Hc as [[Hp Hst] Hin%joined_elem]%get_row_Some. exists (pc_member c), secret.
  split; [done|]. set (now := clock (w_ticks w)) in *. set (i := pm_id (pc_member c)) in *.
  assert (members_of w1 = burnt i now <$> members_of w) as Hm by (unfold members_of; by rewrite Hd).
  assert (forall m, m ∈ members_of w -> pm_id m = i -> m = pc_member c) as Hu.
  { intros m Hm1 He. by apply (NoDup_fmap_inj pm_id (members_of w)); [apply (wf_pm _ Hwf)|..]. }
  split; [|split; [|split; [|exact Hmails]]].
  - intros m'. rewrite Hm, list_elem_of_fmap. split.
    + intros (m0 & -> & Hm0). unfold burnt. case_decide as He.
      * right. by rewrite (Hu m0 Hm0 He).
      * left. split; [done|]. intros ->. by apply He.
    + intros [[Hm' Hne]| ->].
      * exists m'. split; [|done]. unfold burnt. rewrite decide_False; [done|]. intros He. by apply Hne, Hu.
      * exists (pc_member c). split; [|done]. unfold burnt. by rewrite decide_True.
  - intros actor'. apply (consume_burnt _ _ _ c now w); [done..|]. by rewrite Hd.
  - intros lab node user c' Hc' Hi. eapply start_gone; [done|].
    pose proof Hc' as [_ Hin'%joined_elem]%get_row_Some.
    assert (pc_member c' ∈ members_of w1) as Hin'' by done. rewrite Hm in Hin''.
    apply list_elem_of_fmap in Hin'' as (m0 & Hm0 & _). rewrite Hm0 in Hi |- *. unfold burnt in *.
    case_decide; [done|]. by destruct H.
Qed.

(** C16: the automatic delivery of a credential, before and after its [await] on the mail. A call
    changes nothing; what it leaves in flight, if anything, is one mail for the member named, who
    is active with a stored password, to the student's own address and with the password stored
    at that moment. Whatever happened in between, the rest of the call goes through exactly when a
    server takes that mail: then one message went out, as it was prepared, and the credential of
    that member and of no other is erased; otherwise the database is as it was and nothing was
    sent, so the password stays for a later delivery. *)
Theorem credential_mailed_or_kept {HK : Honker} {PF : Platform} lab node user w :
  (let '(r, w1) := deliverPlacementCredential lab node user w in
   w1 = w \/
   exists c secret info o, w1 = w <| w_mails ::= fun l => l ++
       [mkInFlight node lab (Some user) (DCredential (pm_id (pc_member c))) o] |> /\
     pendingCredential (w_db w) lab node user = Some c /\ pm_state (pc_member c) = MActive /\
     pm_credential_secret (pc_member c) = Some secret /\ s_email (pc_student c) = Some (ce_to info) /\
     ce_password info = text_str (decryptSecret secret) /\ prepareCredentialEmail info w = (Ok o, w) /\
     (forall out, o = Some out -> og_to out = ce_to info)) /\
  forall i o w2, exists b w3, finishCredentialDelivery i o w2 = (Ok b, w3) /\
    b = match o with
        | Some out => bool_decide (is_Some (first_accepting (w_smtp w2) (og_configs out)))
        | None => false end /\
    if b
    then exists out m now, o = Some out /\ w_outbox w3 = w_outbox w2 ++ [m] /\
      m_to m = og_to out /\ m_subject m = og_subject out /\ m_text m = og_text out /\
      w_db w3 = (w_db w2) <| placement_members ::= tbl_map (burnt i now) |>
    else w_db w3 = w_db w2 /\ w_outbox w3 = w_outbox w2.
Proof.
  split.
  - unfold deliverPlacementCredential. destruct (startCredentialDelivery lab node user w) as [r w1] eqn:Hs.
    pose proof (prepared_same _ _ _ _ (start_ro lab node user) Hs) as ->.
    destruct r as [[[i o]|]|e]; [|rewrite (bind_step _ _ _ _ _ Hs); by left|rewrite (bind_throw _ _ _ _ _ Hs); by left].
    rewrite (bind_step _ _ _ _ _ Hs). right.
    destruct (start_run _ _ _ _ _ _ _ Hs) as (c & secret & info & Hc & Ha & Hsec & -> & He & Hp & Hmail).
    exists c, secret, info, o. split_and!; try done. intros out ->. unfold prepareCredentialEmail in Hmail.
    apply prepared_to in Hmail; [done|apply render_pair_same].
  - apply finish_exact.
Qed.

(** C17: a delivery that comes through burns what is stored by then: when the member's credential was
    replaced while the mail was on its way (a recreated container stores a new password for every
    member), the server takes the mail with the old password, the new one is erased although no
    mail carried it, a new delivery finds nothing to send and an admin's reveal is refused as
    already used. *)
Theorem late_delivery_burns_newer {HK : Honker} {PF : Platform} lab node user w0 i out w pid sid actor c newer :
  startCredentialDelivery lab node user w0 = (Ok (Some (i, Some out)), w0) ->
  is_Some (first_accepting (w_smtp w) (og_configs out)) ->
  get_row (owned_by pid sid) (joined (w_db w)) = Some c -> pm_id (pc_member c) = i ->
  pm_state (pc_member c) = MActive -> pm_credential_secret (pc_member c) = Some newer ->
  exists c0 old info w1 mail,
    pendingCredential (w_db w0) lab node user = Some c0 /\ pm_credential_secret (pc_member c0) = Some old /\
    ce_password info = text_str (decryptSecret old) /\ prepareCredentialEmail info w0 = (Ok (Some out), w0) /\
    finishCredentialDelivery i (Some out) w = (Ok true, w1) /\
    w_outbox w1 = w_outbox w ++ [mail] /\ m_text mail = og_text out /\
    (forall m, m ∈ members_of w1 -> pm_id m = i -> pm_credential_secret m = None) /\
    consumePlacementCredential pid sid actor w1 = (Throw ECredentialGone, w1).
Proof.
  intros Hs Ht Hc Hi Ha _. apply start_run in Hs as (c0 & old & info & Hc0 & _ & Hold & _ & _ & Hp & Hmail).
  destruct (finish_sent i out w Ht) as (w1 & m & now & Hf & Ho & Hx & Hd). exists c0, old, info, w1, m.
  split_and!; try done.
  - intros m'. unfold members_of. rewrite Hd. cbn. intros (m0 & -> & _)%list_elem_of_fmap. unfold burnt.
    case_decide; [done|]. intros He. by destruct H.
  - apply (consume_burnt pid sid actor c now w); [done..|by rewrite Hd, Hi].
Qed.

(** ** The completion mail *)

(** The column of one placement, set where [Q] holds. *)
Definition stamp (Q : PlacementRow -> bool) (i : Z) (o : option Z) (p : PlacementRow) : PlacementRow :=
  if bool_decide (p_id p = i) && Q p then p <| p_completion_email_sent_at := o |> else p.

Section completion.
Context {HK : Honker} {PF : Platform}.
Implicit Types (w : World).

Definition stamped (Q : PlacementRow -> bool) (i : Z) (o : option Z) (d : Db) : Db :=
  d <| lab_placements ::= tbl_map (stamp Q i o) |>.

Lemma find_stamped Q i o d lab node :
  find_by_lab_node (stamped Q i o d) lab node =
  (fun v => v <| pl_row ::= stamp Q i o |>) <$> find_by_lab_node d lab node.
Proof. apply find_by_lab_node_map. intros p. unfold stamp. by case_match. Qed.

Lemma claim_stamp i (t : table PlacementRow) :
  tbl_update (unclaimed i) (fun p => p <| p_completion_email_sent_at := Some (-1) |>) t =
  tbl_map (stamp (fun p => negb (is_some (p_completion_email_sent_at p))) i (Some (-1))) t.
Proof.
  unfold tbl_update, tbl_map. f_equal. unfold update_where. apply list_fmap_ext. intros k p _.
  unfold stamp. destruct (decide (unclaimed i p)) as [[-> Hp]|Hn].
  - by rewrite bool_decide_eq_true_2, Hp.
  - case_bool_decide; [|done]. cbn. destruct (p_completion_email_sent_at p) eqn:Hp; [done|]. by destruct Hn.
Qed.

Lemma claim_completion_run i w :
  claim_completion i w =
    (Ok (bool_decide (select (unclaimed i) (rows (lab_placements (w_db w))) <> [])),
     w <| w_db ::= stamped (fun p => negb (is_some (p_completion_email_sent_at p))) i (Some (-1)) |>).
Proof. unfold stamped. unset. by rewrite <- claim_stamp. Qed.

Lemma stamp_all_run i o w :
  update_placements (fun p => p_id p = i) (fun p => p <| p_completion_email_sent_at := o |>) w =
  (Ok tt, w <| w_db ::= stamped (fun _ => true) i o |>).
Proof.
  unfold update_placements, exec, modify, stamped. unset. repeat f_equal.
  unfold tbl_update, tbl_map. f_equal. unfold update_where. apply list_fmap_ext. intros k p _.
  unfold stamp. rewrite andb_true_r. by repeat case_decide; case_bool_decide.
Qed.

(** Giving the claim back restores the table. *)
Lemma stamp_back Q i d p :
  db_wf d -> p ∈ rows (lab_placements d) -> p_id p = i -> p_completion_email_sent_at p = None ->
  stamped (fun _ => true) i None (stamped Q i (Some (-1)) d) = d.
Proof.
  intros Hd Hp Hi Hn. destruct d. unfold stamped, tbl_map. unset. cbn in *. f_equal.
  destruct lab_placements as [rs k]. cbn in *. f_equal. rewrite <- list_fmap_compose.
  rewrite <- (list_fmap_id rs) at 2. apply list_fmap_ext. intros n q Hq%list_elem_of_lookup_2. cbn.
  assert (p_id q = i -> p_completion_email_sent_at q = None) as Hq'.
  { intros Hqi. by rewrite (NoDup_fmap_inj p_id rs q p (proj1 (proj1 (wf_pl _ Hd))) Hq Hp) by congruence. }
  unfold stamp. destruct (decide (p_id q = i)) as [He|He].
  - rewrite (bool_decide_eq_true_2 (p_id q = i)) by done. specialize (Hq' He). cbn. destruct q.
    cbn in *. subst. destruct (Q _); cbn; rewrite bool_decide_eq_true_2 by done; done.
  - rewrite (bool_decide_eq_false_2 (p_id q = i)) by done. cbn. by rewrite bool_decide_eq_false_2.
Qed.

(** A placement whose mail was claimed or sent is not claimed again. *)
Lemma claim_refused lab node v w :
  find_by_lab_node (w_db w) lab node = Some v -> p_completion_email_sent_at (pl_row v) <> None ->
  claimPlacementCompletion lab node w = (Ok None, w).
Proof.
  intros Hv Hc. unfold claimPlacementCompletion. rewrite (bind_step db _ w (w_db w) w) by done.
  rewrite Hv. cbv zeta. destruct (lab_of _ _) as [l|]; [|done]. destruct (node_of _ _) as [n|]; [|done].
  destruct (p_completion_email_sent_at (pl_row v)); [|done]. by rewrite orb_true_r.
Qed.

Lemma claim_run lab node w j w1 :
  claimPlacementCompletion lab node w = (Ok (Some j), w1) ->
  exists v l, find_by_lab_node (w_db w) lab node = Some v /\ lab_of (w_db w) (p_lab_id (pl_row v)) = Some l /\
    cj_placement j = p_id (pl_row v) /\ pc_to (cj_mail j) = default "" (l_pi_email l) /\
    p_state (pl_row v) = PActive /\ p_completion_email_sent_at (pl_row v) = None /\
    member_states (w_db w) (p_id (pl_row v)) <> [] /\
    Forall (fun m => m.2 = MActive) (member_states (w_db w) (p_id (pl_row v))) /\
    w1 = w <| w_db ::= stamped (fun p => negb (is_some (p_completion_email_sent_at p))) (p_id (pl_row v)) (Some (-1)) |>.
Proof.
  unfold claimPlacementCompletion. intros H. inv_bind H. injection E as <- <-.
  destruct (find_by_lab_node _ _ _) as [v|] eqn:Hv; [|done]. cbv zeta in H.
  destruct (lab_of _ _) as [l|] eqn:Hl; [|done]. destruct (node_of _ _) as [n|] eqn:Hn; [|done].
  destruct (negb (bool_decide (p_state (pl_row v) = PActive)) || _ || _ || _) eqn:Hg; [done|]. guards Hg.
  destruct (bool_decide (member_states (w_db w) (p_id (pl_row v)) = []) || _) eqn:Hg'; [done|].
  apply orb_false_iff in Hg' as [Hne%bool_decide_eq_false Hall].
  inv_bind H. rewrite claim_completion_run in E. injection E as <- <-.
  case_bool_decide; [|done]. injection H as <- <-. exists v, l. split_and!; try done.
  - by destruct (p_completion_email_sent_at (pl_row v)).
  - apply Forall_forall. intros m Hm. destruct (decide (m.2 = MActive)) as [|Hno]; [done|].
    assert (existsb (fun m => negb (bool_decide (m.2 = MActive))) (member_states (w_db w) (p_id (pl_row v))) = true)
      as Ht; [|by rewrite Ht in Hall]. apply existsb_exists. exists m. split; [by apply list_elem_of_In|].
    by rewrite bool_decide_eq_false_2.
Qed.

(** The end of a call. *)
Lemma settle_run i o w : exists b w', settlePlacementCompletion i o w = (Ok b, w') /\
  if b
  then exists out m now, o = Some out /\ w_outbox w' = w_outbox w ++ [m] /\ m_to m = og_to out /\
    m_text m = og_text out /\ w_db w' = stamped (fun _ => true) i (Some now) (w_db w)
  else w_outbox w' = w_outbox w /\ w_db w' = stamped (fun _ => true) i None (w_db w).
Proof.
  unfold settlePlacementCompletion. destruct (transmit_run o w) as (res & w1 & Ht & Hm & Ho).
  rewrite (bind_step _ _ _ _ _ Ht). destruct (sr_sent res).
  - destruct Ho as (out & m & -> & Ho & Hto & _ & Hx).
    rewrite (bind_step _ _ w1 (Some (clock (w_ticks w1))) (w1 <| w_ticks ::= S |>)) by done.
    rewrite (bind_step _ _ _ _ _ (stamp_all_run _ _ _)). eexists true, _. split; [done|].
    exists out, m, (clock (w_ticks w1)). split_and!; try done. cbn. by rewrite (mo_db _ _ Hm).
  - rewrite (bind_step _ _ w1 None w1) by done. rewrite (bind_step _ _ _ _ _ (stamp_all_run _ _ _)).
    eexists false, _. split; [done|]. cbn. by rewrite (mo_db _ _ Hm).
Qed.
End completion.

(** C20: the completion mail of a placement is sent at most once and never lost to a refusal.
    It is claimed only when the placement and every account on it are active; while it is being
    sent no other caller gets the claim; when a server takes it, one message went to the lab's
    address and the claim stays taken for good; when every server refuses, the database is
    exactly as it was before the claim. Whatever happened while the mail was in flight, the end of
    the call sends at most that mail and touches only the claim of that placement. *)
Theorem completion_mail_once {HK : Honker} {PF : Platform} lab node w j w1 :
  wf w -> claimPlacementCompletion lab node w = (Ok (Some j), w1) ->
  (exists v, find_by_lab_node (w_db w) lab node = Some v /\ cj_placement j = p_id (pl_row v) /\
     p_state (pl_row v) = PActive /\ member_states (w_db w) (cj_placement j) <> [] /\
     Forall (fun m => m.2 = MActive) (member_states (w_db w) (cj_placement j))) /\
  claimPlacementCompletion lab node w1 = (Ok None, w1) /\
  (let '(r, w2) := finishPlacementCompletion j w1 in
  match r with
  | Ok true => (exists m, w_outbox w2 = w_outbox w ++ [m] /\ m_to m = pc_to (cj_mail j)) /\
      claimPlacementCompletion lab node w2 = (Ok None, w2)
  | Ok false => w_db w2 = w_db w /\ w_outbox w2 = w_outbox w
  | Throw _ => w_db w2 = w_db w1 /\ w_outbox w2 = w_outbox w
  end) /\
  forall o w3, exists b w4, settlePlacementCompletion (cj_placement j) o w3 = (Ok b, w4) /\
    if b
    then exists out m now, o = Some out /\ w_outbox w4 = w_outbox w3 ++ [m] /\ m_to m = og_to out /\
      m_text m = og_text out /\ w_db w4 = stamped (fun _ => true) (cj_placement j) (Some now) (w_db w3)
    else w_outbox w4 = w_outbox w3 /\
      w_db w4 = stamped (fun _ => true) (cj_placement j) None (w_db w3).
Proof.
  intros [Hwf _] Hclaim. apply claim_run in Hclaim as (v & l & Hv & _ & Hj & _ & Ha & Hn & Hne & Hall & ->).
  rewrite Hj. split; [by eauto 10|]. set (Q := fun p => negb (is_some (p_completion_email_sent_at p))) in *.
  set (i := p_id (pl_row v)) in *. split.
  { eapply claim_refused; [cbn; rewrite find_stamped, Hv; done|]. cbn. unfold stamp.
    rewrite bool_decide_eq_true_2 by done. unfold Q. by rewrite Hn. }
  set (w1 := w <| w_db ::= _ |>). split; [|intros o w3; apply settle_run].
  unfold finishPlacementCompletion.
  destruct (preparePlacementCompleteEmail (cj_mail j) w1) as [r wp] eqn:Hp.
  pose proof (prepared_same _ _ _ _ (fun I => preparePlacementCompleteEmail_ro I _) Hp) as ->.
  destruct r as [o|e]; [|by rewrite (bind_throw _ _ _ _ _ Hp)]. rewrite (bind_step _ _ _ _ _ Hp).
  destruct (settle_run (cj_placement j) o w1) as (b & w2 & Hs & Hb). rewrite Hs. destruct b.
  - destruct Hb as (out & m & now & -> & Ho & Hto & _ & Hd). split.
    { exists m. split; [done|]. rewrite Hto. unfold preparePlacementCompleteEmail in Hp.
      apply prepared_to in Hp; [done|apply render_pair_same]. }
    rewrite Hj in Hd. fold i in Hd. eapply claim_refused.
    + rewrite Hd, find_stamped. cbn. rewrite find_stamped, Hv. done.
    + cbn. unfold stamp at 1. rewrite bool_decide_eq_true_2; [done|].
      unfold stamp. by case_match.
  - destruct Hb as [Ho Hd]. split; [|exact Ho]. rewrite Hd, Hj. fold i.
    apply stamp_back with (p := pl_row v); [done|..|done|done].
    apply get_row_Some in Hv as [_ (p & Hp' & Hpv)%elem_of_views]. by rewrite (view_row _ _ _ Hpv).
Qed.

Section witness.
#[local] Existing Instance toy_honker.
#[local] Instance credential_pf : Platform := demo_pf demo_accepts.

(** The lab of the fixture on n1, its two accounts confirmed. *)
Definition confirmed_world : World :=
  ((createPlacement demo_input;; markPlacementState 1 PActive None;;
   markPlacementMemberState "vision" "n1" "ann" MActive None;;
   markPlacementMemberState "vision" "n1" "ben" MActive None) (demo_world demo_accepts)).2.

Lemma confirmed_world_wf : wf confirmed_world.
Proof.
  assert (preserves wf (createPlacement demo_input;; markPlacementState 1 PActive None;;
    markPlacementMemberState "vision" "n1" "ann" MActive None;;
    markPlacementMemberState "vision" "n1" "ben" MActive None)) as H by solve_preserves.
  apply H, demo_world_wf.
Qed.

Definition ann_reveal := consumePlacementCredential 1 1 (Some "root") confirmed_world.
Definition ann_password : string := match ann_reveal.1 with Ok (_, p) => p | Throw _ => "" end.

Lemma credential_revealed_once_witness :
  String.length ann_password = 14%nat /\
  (consumePlacementCredential 1 1 None ann_reveal.2).1 = Throw ECredentialGone.
Proof.
  split; [vm_compute; reflexivity|].
  destruct (credential_revealed_once 1 1 (Some "root") "ann" ann_password confirmed_world ann_reveal.2)
    as (m & secret & _ & _ & Hgone & _ & _).
  - exact confirmed_world_wf.
  - vm_compute. reflexivity.
  - rewrite Hgone. reflexivity.
Defined.

(** Ann's mail is under way when her container is recreated and she is confirmed again. *)
Definition mailing_world : World :=
  (setSetting "smtpConfigs" (JArr [toy_server "a" "a@x" 1]) confirmed_world).2.
Definition ann_start := (startCredentialDelivery "vision" "n1" "ann" mailing_world).1.
Definition ann_mail : Outgoing :=
  match ann_start with Ok (Some (_, Some o)) => o | _ => mkOutgoing "" "" "" [] end.
Definition recreated_world : World :=
  ((recreatePlacement 1 (mkRecreate None None None None) (Some "root");;
    markPlacementMemberState "vision" "n1" "ann" MActive None) mailing_world).2.
Definition new_password : string :=
  match get_row (owned_by 1 1) (joined (w_db recreated_world)) ≫= fun c => pm_credential_secret (pc_member c) with
  | Some s => text_str (decryptSecret s) | None => "" end.

Lemma ann_again_spec c : get_row (owned_by 1 1) (joined (w_db recreated_world)) = Some c ->
  pm_id (pc_member c) = 1 /\ pm_state (pc_member c) = MActive /\ is_Some (pm_credential_secret (pc_member c)).
Proof. intros H. vm_compute in H. injection H as <-. split_and!; [reflexivity..|by eexists]. Qed.

Lemma late_delivery_burns_newer_witness :
  ann_password <> new_password /\ String.length new_password = 14%nat /\
  exists w1 mail, finishCredentialDelivery 1 (Some ann_mail) recreated_world = (Ok true, w1) /\
    w_outbox w1 = w_outbox recreated_world ++ [mail] /\
    consumePlacementCredential 1 1 (Some "root") w1 = (Throw ECredentialGone, w1).
Proof.
  split; [vm_compute; discriminate|]. split; [vm_compute; reflexivity|].
  destruct (get_row (owned_by 1 1) (joined (w_db recreated_world))) as [c|] eqn:Hc; [|vm_compute in Hc; discriminate Hc].
  destruct (ann_again_spec c Hc) as (Hi & Ha & [newer Hn]).
  destruct (late_delivery_burns_newer "vision" "n1" "ann" mailing_world 1 ann_mail recreated_world 1 1 (Some "root") c newer)
    as (c0 & old & info & w1 & mail & _ & _ & _ & _ & Hf & Ho & _ & _ & Hr).
  - vm_compute. reflexivity.
  - vm_compute. eexists. reflexivity.
  - exact Hc.
  - exact Hi.
  - exact Ha.
  - exact Hn.
  - exists w1, mail. split; [exact Hf|]. split; [exact Ho|exact Hr].
Defined.

Definition completion_run := claimPlacementCompletion "vision" "n1" confirmed_world.
Definition completion_job : CompletionJob :=
  match completion_run.1 with Ok (Some j) => j | _ => mkCompletion 0 (mkCompleteEmail "" "" "" "" [] "" "" "" "") end.

Lemma completion_mail_once_witness :
  pc_usernames (cj_mail completion_job) = ["ann"; "ben"] /\
  claimPlacementCompletion "vision" "n1" completion_run.2 = (Ok None, completion_run.2).
Proof.
  split; [vm_compute; reflexivity|].
  destruct (completion_mail_once "vision" "n1" confirmed_world completion_job completion_run.2) as (_ & H & _).
  - exact confirmed_world_wf.
  - vm_compute. reflexivity.
  - exact H.
Defined.
End witness.
