(* ===== verification/RemovalFacts.v ===== *)
(** * RemovalFacts: the shared cold data of a removed student is deleted once, and only after
    every node of the removal has confirmed *)
From S2P Require Import Prelude Js Redact Schema Sql DbWf Env Secrets Queue Testbed QueueFacts Settings Template Format Mailer Alerts DbInv Placements PlacementFacts.
Open Scope Z_scope.

Section facts.
Context {HK : Honker} {PF : Platform} {US : UuidSpec}.
Implicit Types (w : World).

(** A confirmed removal task and what its parameters name. *)
Record confirmed w (uuid : string) (t : TaskRow) (v : json) (rid lab username : string) : Prop := {
  cf_row : get_row (fun t => t_task_uuid t = uuid /\ t_action t = "student.remove" /\ t_state t = TOk)
             (tasks w) = Some t;
  cf_params : t_params t = Some (TJson v);
  cf_rid : str_field "removal_id" v = Some rid /\ rid <> "";
  cf_lab : str_field "lab" v = Some lab /\ lab <> "";
  cf_username : str_field "username" v = Some username /\ username <> "" }.

(** The nodes that still lack their cleanup task. *)
Definition missing w (rid : string) (nodes : list string) : list string :=
  filter (fun n => select (cleanup_of n rid) (tasks w) = []) nodes.

(** The row of a queued cleanup. *)
Definition cleanup_row (rid lab username : string) (t : TaskRow) : Prop :=
  t_action t = "student.delete_cold" /\ t_state t = TQueued /\
  t_params t = Some (TJson (JObj [("lab", JStr lab); ("username", JStr username); ("removal_id", JStr rid)])).

Definition cleanup_step (rid lab username : string) (by_ : option string) (node : string) : Act unit :=
  d ← db;
  if bool_decide (select (cleanup_of node rid) (rows (task_log d)) = [])
  then enqueueTask node "student.delete_cold"
         (JObj [("lab", JStr lab); ("username", JStr username); ("removal_id", JStr rid)]) by_;; mret tt
  else mret tt.

Lemma complete_eq uuid w t v rid lab username :
  confirmed w uuid t v rid lab username ->
  completeStudentRemoval uuid w =
    (if bool_decide (t_state <$> select (removal_of rid) (tasks w) = []) ||
        existsb (fun s => negb (bool_decide (s = TOk))) (t_state <$> select (removal_of rid) (tasks w))
     then (Ok tt, w)
     else for_each (cleanup_step rid lab username (t_requested_by t)) (cleanup_nodes v) w).
Proof.
  intros [Hr Hp [Hrid Hrid'] [Hl Hl'] [Hu Hu']]. unfold completeStudentRemoval.
  rewrite (bind_step db _ w (w_db w) w) by done. unfold tasks in *. rewrite Hr, Hp. cbn.
  rewrite Hrid, Hl, Hu. rewrite !truthy_ne by done. cbn [negb andb]. by case_match.
Qed.

Lemma select_app {A} (P : A -> Prop) {PDec : forall x, Decision (P x)} l k :
  select P (l ++ k) = select P l ++ select P k.
Proof. apply filter_app. Qed.

Lemma select_nil {A} (P : A -> Prop) {PDec : forall x, Decision (P x)} l :
  select P l = [] <-> forall x, x ∈ l -> ~ P x.
Proof.
  split.
  - intros H x Hx HP. assert (x ∈ select P l) as Hin by by apply elem_of_select.
    rewrite H in Hin. by apply elem_of_nil in Hin.
  - intros H. destruct (select P l) as [|x k] eqn:Hs; [done|]. exfalso.
    assert (x ∈ select P l) as [HP Hx]%elem_of_select by (rewrite Hs; constructor). by apply (H x).
Qed.

Lemma confirmed_removal w uuid t v rid lab username :
  confirmed w uuid t v rid lab username -> t ∈ tasks w /\ removal_of rid t /\ t_action t = "student.remove".
Proof.
  intros [((_ & Ha & _) & Hin)%get_row_Some Hp [Hrid _] _ _]. split; [done|]. split; [|done]. split; [done|].
  unfold has_removal_id. rewrite Hp. unfold str_field in Hrid.
  destruct (field "removal_id" v) as [[| | |s| |]|]; cbn in Hrid; try done.
  unfold or_null in Hrid. by destruct (truthy s); simplify_eq.
Qed.

Lemma all_ok_exists l : Forall (fun t => t_state t = TOk) l ->
  existsb (fun s => negb (bool_decide (s = TOk))) (t_state <$> l) = false.
Proof. induction 1 as [|x l Hx _ IH]; [done|]. cbn. by rewrite IH, bool_decide_eq_true_2. Qed.

(** With every removal task confirmed the completion is the loop. *)
Lemma complete_all_ok uuid w t v rid lab username :
  confirmed w uuid t v rid lab username ->
  Forall (fun t' => t_state t' = TOk) (select (removal_of rid) (tasks w)) ->
  completeStudentRemoval uuid w =
    for_each (cleanup_step rid lab username (t_requested_by t)) (cleanup_nodes v) w.
Proof.
  intros Hc Hall. rewrite (complete_eq _ _ _ _ _ _ _ Hc), all_ok_exists by done.
  rewrite bool_decide_eq_false_2; [done|]. intros He%fmap_nil_inv.
  destruct (confirmed_removal _ _ _ _ _ _ _ Hc) as (Hin & Hrm & _).
  by apply select_nil with (x := t) in He.
Qed.

Lemma cleanup_row_of rid lab username t : cleanup_row rid lab username t ->
  cleanup_of (t_node t) rid t /\ ~ t_action t = "student.remove".
Proof.
  intros (Ha & _ & Hp). split; [split; [done|]; split; [done|]; unfold has_removal_id; by rewrite Hp|].
  by rewrite Ha.
Qed.

(** The loop queues one task per node that lacks it. *)
Lemma runs_cleanup rid lab username by_ nodes w :
  ready w -> NoDup nodes ->
  runs (for_each (cleanup_step rid lab username by_) nodes) w (fun _ w' => ready w' /\ exists ts,
    tasks w' = tasks w ++ ts /\ t_node <$> ts = missing w rid nodes /\
    Forall (cleanup_row rid lab username) ts).
Proof.
  intros Hr Hnd.
  apply (runs_mono _ _ (fun _ w' => nodes = nodes ++ [] /\ ready w' /\ exists ts,
    tasks w' = tasks w ++ ts /\ t_node <$> ts = missing w rid nodes /\
    Forall (cleanup_row rid lab username) ts)); [|by intros ? ? []].
  apply (runs_for_each _ _ _ (fun ds td w' => nodes = ds ++ td /\ ready w' /\ exists ts,
    tasks w' = tasks w ++ ts /\ t_node <$> ts = missing w rid ds /\
    Forall (cleanup_row rid lab username) ts)).
  { split; [done|]. split; [done|]. exists []. by rewrite app_nil_r. }
  intros n ds td w1 (Hn & Hr1 & ts & Ht & Hts & Hf).
  assert (n ∉ ds) as Hnew.
  { rewrite Hn in Hnd. apply NoDup_app in Hnd as (_ & Hd & _). intros Hin. apply (Hd n Hin). constructor. }
  assert (select (cleanup_of n rid) ts = []) as Hno.
  { apply select_nil. intros t Hin (Hnode & _). apply Hnew.
    assert (t_node t ∈ missing w rid ds) as Hm by (rewrite <- Hts; by apply list_elem_of_fmap_2).
    apply list_elem_of_filter in Hm as [_ Hm]. by rewrite Hnode in Hm. }
  unfold cleanup_step. apply runs_gets. change (rows (task_log (w_db w1))) with (tasks w1).
  rewrite Ht, select_app, Hno, app_nil_r. unfold missing. rewrite filter_app.
  rewrite (filter_cons (fun n => select (cleanup_of n rid) (tasks w) = []) n []).
  case_bool_decide as Hs.
  - rewrite decide_True by done. eapply runs_mono; [by apply runs_enqueue_unit|].
    intros _ w2 (f & Hq & Hr2). split; [by rewrite <- app_assoc|]. split; [done|].
    destruct (enq_queue _ _ _ _ _ _ _ Hq) as (enc & now & _ & _ & Hd).
    eexists (ts ++ [_]). rewrite app_assoc. split; [unfold tasks in *; rewrite Hd; cbn; by rewrite Ht|].
    rewrite fmap_app, Hts. split; [done|]. apply Forall_app. split; [done|]. constructor; [|done].
    done.
  - rewrite decide_False by done. apply runs_ret. split; [by rewrite <- app_assoc|]. split; [done|].
    exists ts. rewrite app_nil_r. done.
Qed.

Lemma cleanup_done rid lab username by_ nodes w :
  (forall n, n ∈ nodes -> select (cleanup_of n rid) (tasks w) <> []) ->
  for_each (cleanup_step rid lab username by_) nodes w = (Ok tt, w).
Proof.
  induction nodes as [|n ns IH]; intros H; cbn; [done|].
  rewrite (bind_step _ _ w tt w); [apply IH; intros; apply H; by constructor|].
  unfold cleanup_step. rewrite (bind_step db _ w (w_db w) w) by done.
  rewrite bool_decide_eq_false_2; [done|]. apply H. constructor.
Qed.
End facts.

(** C19: a confirmed removal waits for the others: while any removal task of the same removal is
    not confirmed the completion does nothing. When all are, it queues one cleanup of the
    shared cold data for each node the removal names that has none yet, and for no other, in
    order and naming the same lab and student; and it can be repeated (a redelivered result)
    without queueing anything more. *)
Theorem cold_cleanup_once {HK : Honker} {PF : Platform} {US : UuidSpec} uuid t v rid lab username w :
  ready w -> confirmed w uuid t v rid lab username ->
  (forall t', t' ∈ tasks w -> removal_of rid t' -> t_state t' <> TOk ->
     completeStudentRemoval uuid w = (Ok tt, w)) /\
  (Forall (fun t' => t_state t' = TOk) (select (removal_of rid) (tasks w)) ->
     exists w' ts, completeStudentRemoval uuid w = (Ok tt, w') /\ tasks w' = tasks w ++ ts /\
       t_node <$> ts = missing w rid (cleanup_nodes v) /\ NoDup (t_node <$> ts) /\
       Forall (cleanup_row rid lab username) ts /\
       completeStudentRemoval uuid w' = (Ok tt, w')).
Proof.
  intros Hr Hc. assert (NoDup (cleanup_nodes v)) as Hnd.
  { unfold cleanup_nodes. repeat case_match; try constructor. apply NoDup_dedup. }
  split.
  - intros t' Hin Hrm Hs. rewrite (complete_eq _ _ _ _ _ _ _ Hc).
    destruct (existsb _ _) eqn:He; [by rewrite orb_true_r|]. exfalso.
    assert (existsb (fun s => negb (bool_decide (s = TOk))) (t_state <$> select (removal_of rid) (tasks w)) = true)
      as Ht; [|by rewrite Ht in He]. apply existsb_exists. exists (t_state t').
    split; [|by rewrite bool_decide_eq_false_2].
    apply list_elem_of_In, list_elem_of_fmap_2. by apply elem_of_select.
  - intros Hall. rewrite (complete_all_ok _ _ _ _ _ _ _ Hc Hall).
    destruct (runs_cleanup rid lab username (t_requested_by t) (cleanup_nodes v) w Hr Hnd)
      as ([] & w' & Hrun & Hr' & ts & Ht & Hts & Hf).
    assert (Forall (fun t' => cleanup_of (t_node t') rid t' /\ ~ t_action t' = "student.remove") ts) as Hf'
      by (eapply Forall_impl; [exact Hf|]; apply cleanup_row_of). rewrite Forall_forall in Hf'.
    exists w', ts. split_and!; [done|done|done| |done|].
    { rewrite Hts. by apply NoDup_filter. }
    assert (confirmed w' uuid t v rid lab username) as Hc'.
    { destruct Hc. split; try done. rewrite Ht, get_row_app. by rewrite cf_row0. }
    rewrite (complete_all_ok _ _ _ _ _ _ _ Hc').
    + apply cleanup_done. intros n Hn. rewrite Ht, select_app.
      destruct (decide (select (cleanup_of n rid) (tasks w) = [])) as [He|He].
      * assert (n ∈ t_node <$> ts) as (t' & -> & Hin)%list_elem_of_fmap
          by (rewrite Hts; by apply list_elem_of_filter).
        rewrite He. cbn. intros Hs. by apply select_nil with (x := t') in Hs; [|done]; apply Hs, Hf'.
      * by destruct (select (cleanup_of n rid) (tasks w)).
    + rewrite Ht, select_app. apply Forall_app. split; [done|].
      assert (select (removal_of rid) ts = []) as ->; [|done].
      apply select_nil. intros t' Hin (Ha & _). by apply Hf' in Hin as [_ ?].
Qed.

Section witness.
#[local] Existing Instance toy_honker.
#[local] Instance removal_pf : Platform := demo_pf demo_accepts.
#[local] Instance removal_us : UuidSpec := demo_uuid demo_accepts.

(** One removal task on n1, which then confirms it; the shared data is on n1. *)
Definition removal_params : json :=
  JObj [("lab", JStr "vision"); ("username", JStr "ben"); ("delete_data", JBool true);
        ("removal_id", JStr "r1"); ("cold_cleanup_nodes", JArr [JStr "n1"; JStr "n1"])].
Definition removed_world : World :=
  ((enqueueTask "n1" "student.remove" removal_params (Some "root");;
    markTaskState "n1" "uuid-0" TOk None None false) (demo_world demo_accepts)).2.
Definition removal_row : TaskRow :=
  default (mkTask 0 "" 0 "" "" None None TQueued None None None 0 false 0 0) (head (tasks removed_world)).

Lemma removed_ready : ready removed_world.
Proof.
  split.
  - eexists. vm_compute. reflexivity.
  - assert (preserves wf (enqueueTask "n1" "student.remove" removal_params (Some "root");;
      markTaskState "n1" "uuid-0" TOk None None false)) as H by solve_preserves.
    apply H, demo_world_wf.
  - unfold uuids_drawn. assert (tasks removed_world = [removal_row]) as -> by (vm_compute; reflexivity).
    constructor; [|constructor]. exists 0%nat. split; [vm_compute; lia|vm_compute; reflexivity].
Qed.

Lemma cold_cleanup_once_witness : exists w' ts,
  completeStudentRemoval "uuid-0" removed_world = (Ok tt, w') /\ t_node <$> ts = ["n1"] /\
  completeStudentRemoval "uuid-0" w' = (Ok tt, w').
Proof.
  destruct (cold_cleanup_once "uuid-0" removal_row removal_params "r1" "vision" "ben" removed_world)
    as [_ H].
  - exact removed_ready.
  - split.
    + vm_compute. reflexivity.
    + vm_compute. reflexivity.
    + split; [vm_compute; reflexivity|discriminate].
    + split; [vm_compute; reflexivity|discriminate].
    + split; [vm_compute; reflexivity|discriminate].
  - destruct H as (w' & ts & Hr & _ & Hn & _ & _ & Hagain).
    + vm_compute. repeat constructor.
    + exists w', ts. split; [exact Hr|]. split; [rewrite Hn; vm_compute; reflexivity|exact Hagain].
Defined.
End witness.
