(* ===== verification/TeardownFacts.v ===== *)
(** * TeardownFacts: removing a lab from a node, and a late result that loses the removal *)
From S2P Require Import Prelude Js Redact Schema Sql DbWf Env Secrets Queue Testbed QueueFacts Settings SettingsFacts Template Format Mailer Alerts DbInv MailerFacts Placements PlacementFacts ProvisionFacts CreateFacts Nodes Protocol Ingest Hub.
Open Scope Z_scope.

Section facts.
Context {HK : Honker} {PF : Platform}.
Implicit Types (w : World) (v : Placement) (d : Db).

Lemma views_ext d d' :
  labs d' = labs d -> nodes d' = nodes d -> lab_placements d' = lab_placements d -> views d' = views d.
Proof. unfold views, view, lab_of, node_of. by intros -> -> ->. Qed.

(** In a well-formed database the names of a placement find it. *)
Lemma names_find d v : db_wf d -> v ∈ views d -> find_by_lab_node d (pl_lab_name v) (pl_node_name v) = Some v.
Proof.
  intros Hd Hv. unfold find_by_lab_node.
  assert (forall p v, view d p = Some v -> p ∈ rows (lab_placements d) -> exists l n,
    l ∈ rows (labs d) /\ n ∈ rows (nodes d) /\ l_id l = p_lab_id p /\ n_id n = p_node_id p /\
    l_name l = pl_lab_name v /\ n_name n = pl_node_name v) as Hnames.
  { intros p x Hx Hp. destruct (view_names _ _ _ Hx) as (l & n & Hl & Hn & -> & -> & _).
    apply get_row_Some in Hl as [? ?], Hn as [? ?]. by exists l, n. }
  apply (get_row_unique _ (fun v => p_id (pl_row v))); [|done|done|].
  - unfold views. assert ((fun v => p_id (pl_row v)) <$> omap (view d) (rows (lab_placements d)) =
      p_id <$> rows (lab_placements d)) as ->; [|apply (wf_pl _ Hd)].
    apply omap_fmap_id.
    + intros p x Hx. by rewrite (view_row _ _ _ Hx).
    + intros p Hp. by apply view_total.
  - intros y Hy [Hl Hn]. apply elem_of_views in Hv as (p & Hp & Hv), Hy as (q & Hq & Hy).
    destruct (Hnames _ _ Hv Hp) as (l & n & Hl1 & Hn1 & Hl2 & Hn2 & Hl3 & Hn3).
    destruct (Hnames _ _ Hy Hq) as (l' & n' & Hl1' & Hn1' & Hl2' & Hn2' & Hl3' & Hn3').
    assert (l' = l) as -> by (apply (NoDup_fmap_inj l_name (rows (labs d))); [apply (wf_lab_name _ Hd)|done|done|congruence]).
    assert (n' = n) as -> by (apply (NoDup_fmap_inj n_name (rows (nodes d))); [apply (wf_node_name _ Hd)|done|done|congruence]).
    rewrite (view_row _ _ _ Hv), (view_row _ _ _ Hy). f_equal.
    apply (NoDup_fmap_inj (fun p => (p_lab_id p, p_node_id p)) (rows (lab_placements d)));
      [apply (wf_pl_lab_node _ Hd)|done|done|congruence].
Qed.

Lemma find_placement_view d pid v : find_placement d pid = Some v -> v ∈ views d /\ p_id (pl_row v) = pid.
Proof.
  unfold find_placement. intros (p & Hp & Hv)%bind_Some. apply get_row_Some in Hp as [Hi Hp].
  rewrite (view_row _ _ _ Hv). split; [|done]. apply elem_of_views. eauto.
Qed.

(** A successful result of a task about the lab. *)
Definition ok_result (id : string) : Result := mkResult id true None None None None.
Definition about (action lab : string) (t : TaskRow) : Prop :=
  t_action t = action /\ exists l, safeParams (t_params t) = JObj l /\ alookup "lab" l = Some (JStr lab).

Lemma lifecycle_create lab node id t w :
  lab <> "" -> about "lab.create" lab t ->
  lifecycle node (ok_result id) t w = markPlacementStateByLabNode lab node PActive None w.
Proof.
  intros Hl (Ha & l & Hp & Hlab). unfold lifecycle. rewrite Hp, Ha. cbn -[truthy]. unfold field. cbn -[truthy].
  rewrite Hlab. rewrite (bind_step _ _ w (Some (JStr lab)) w) by done. cbn -[truthy].
  change (json_truthy (JStr lab)) with (truthy lab). by rewrite (truthy_ne lab Hl).
Qed.
Lemma lifecycle_destroy lab node id t w :
  lab <> "" -> about "lab.destroy" lab t ->
  lifecycle node (ok_result id) t w = confirmPlacementDestroyed lab node w.
Proof.
  intros Hl (Ha & l & Hp & Hlab). unfold lifecycle. rewrite Hp, Ha. cbn -[truthy]. unfold field. cbn -[truthy].
  rewrite Hlab. rewrite (bind_step _ _ w (Some (JStr lab)) w) by done. cbn -[truthy].
  change (json_truthy (JStr lab)) with (truthy lab). by rewrite (truthy_ne lab Hl).
Qed.

(** What [destroyPlacement] leaves when it returns. *)
Record tearing_down {HS : HonkerSpec} v w w1 : Prop := {
  td_ready : ready w1;
  td_state : exists now, lab_placements (w_db w1) = tbl_update (fun p => p_id p = p_id (pl_row v))
    (fun p => p <| p_state := PDeleting |> <| p_updated_at := now |>) (lab_placements (w_db w));
  td_rest : placement_members (w_db w1) = placement_members (w_db w) /\
    labs (w_db w1) = labs (w_db w) /\ nodes (w_db w1) = nodes (w_db w) /\
    students (w_db w1) = students (w_db w) /\ lab_members (w_db w1) = lab_members (w_db w);
  td_sent : sends (pl_node_name v) [("lab.destroy", JObj [("lab", JStr (pl_lab_name v))])] w w1 }.

Lemma delete_update {A} (P : A -> Prop) {PDec : forall x, Decision (P x)} f (l : list A) :
  (forall x, P (f x) <-> P x) -> delete_where P (update_where P f l) = delete_where P l.
Proof.
  intros Hf. unfold delete_where, update_where. induction l as [|x l IH]; [done|].
  rewrite fmap_cons, !filter_cons, IH. destruct (decide (P x)) as [Hp|Hp].
  - by rewrite !decide_False by (rewrite ?Hf; tauto).
  - done.
Qed.

Lemma elem_of_updated_ids (f : PlacementRow -> PlacementRow) pid p l i :
  (forall p, p_id (f p) = p_id p) -> p_id p = pid -> p ∈ l ->
  i ∈ p_id <$> select (fun p => p_id p = pid) (update_where (fun p => p_id p = pid) f l) <-> i = pid.
Proof.
  intros Hf Hp Hin. rewrite list_elem_of_fmap. setoid_rewrite elem_of_select.
  setoid_rewrite elem_of_update_where. split; [by intros (q & -> & <- & _)|]. intros ->.
  exists (f p). rewrite Hf. split; [done|]. split; [done|]. exists p. auto.
Qed.

Lemma runs_no_dependents v w :
  (pl_cold_backend v = LocalZfs -> smb_dependents (w_db w) v = []) ->
  runs (assertNoSmbDependents v) w (fun _ w' => w' = w).
Proof.
  intros Hsmb. unfold assertNoSmbDependents. apply runs_gets. case_bool_decide as Hb; cbn [negb].
  - rewrite Hsmb by done. by apply runs_ret.
  - by apply runs_ret.
Qed.

Lemma runs_destroy {HS : HonkerSpec} {CS : CryptoSpec} {US : UuidSpec} pid actor v w :
  ready w -> find_placement (w_db w) pid = Some v ->
  (pl_cold_backend v = LocalZfs -> smb_dependents (w_db w) v = []) ->
  runs (destroyPlacement pid actor) w (fun _ w1 => tearing_down v w w1).
Proof.
  intros Hr Hv Hsmb. pose proof (find_placement_view _ _ _ Hv) as [_ Hid].
  unfold destroyPlacement. apply runs_getPlacement. rewrite Hv.
  eapply runs_bind; [by apply runs_no_dependents|].
  intros [] ? ->. set (now := clock (w_ticks w)).
  set (f := fun p => p <| p_state := PDeleting |> <| p_updated_at := now |>).
  set (w0 := w <| w_ticks ::= S |> <| w_db ::= fun d => d <| lab_placements ::= tbl_update (fun p => p_id p = pid) f |> |>).
  assert (ready w0) as Hr0.
  { apply (ready_step w); [done| |done|done].
    assert (preserves wf (now ← date_now; update_placements (fun p => p_id p = pid)
      (fun p => p <| p_state := PDeleting |> <| p_updated_at := now |>))) as H by solve_preserves.
    by apply (H w), (rd_wf w Hr). }
  eapply (runs_bind _ _ _ (fun x w' => x = now /\ w' = w <| w_ticks ::= S |>)).
  { by eapply runs_eq. }
  intros ? ? [-> ->]. eapply (runs_bind _ _ _ (fun _ w' => w' = w0)).
  { by eapply runs_eq. }
  intros [] ? ->. eapply runs_bind; [by apply runs_enqueue|]. intros fr w2 [Hq Hr2].
  eapply runs_mono; [by apply runs_audit|]. intros [] w3 (Hr3 & Ht3 & Hk3 & Hc3 & Hm3).
  pose proof (enqueued_sends _ _ _ _ _ _ _ Hq) as Hs.
  destruct Hq as [_ _ _ _ (enc & now2 & _ & _ & Hd2) _ _ _ _].
  injection Hc3 as _ Hn3 Hl3 Hst3 Hlm3 Hp3. rewrite Hd2 in Hn3, Hl3, Hst3, Hlm3, Hp3, Hm3. split.
  - done.
  - exists now. rewrite Hp3, Hid. done.
  - by rewrite Hn3, Hl3, Hm3, Hst3, Hlm3.
  - eapply sends_same; [|done|done]. eapply sends_same_l; [exact Hs|done|done].
Qed.

(** Purging the placement of an unreachable node. *)
Lemma runs_force {HS : HonkerSpec} {CS : CryptoSpec} {US : UuidSpec} pid actor v w :
  ready w -> find_placement (w_db w) pid = Some v -> pl_online v = false ->
  (pl_cold_backend v = LocalZfs -> smb_dependents (w_db w) v = []) ->
  runs (forceDeletePlacement pid actor) w (fun _ w1 => ready w1 /\
    lab_placements (w_db w1) = tbl_delete (fun p => p_id p = pid) (lab_placements (w_db w)) /\
    labs (w_db w1) = labs (w_db w) /\ nodes (w_db w1) = nodes (w_db w) /\
    students (w_db w1) = students (w_db w) /\ lab_members (w_db w1) = lab_members (w_db w)).
Proof.
  intros Hr Hv Hon Hsmb. unfold forceDeletePlacement. apply runs_getPlacement. rewrite Hv.
  apply runs_throw_if; [done|]. eapply runs_bind; [by apply runs_no_dependents|]. intros [] ? ->.
  eapply runs_bind; [by apply runs_enqueue|]. intros fr w2 [Hq Hr2].
  destruct Hq as [_ _ _ _ (enc & now2 & _ & _ & Hd2) _ _ _ _].
  set (w3 := w2 <| w_db ::= drop_placements (fun p => p_id p = pid) |>).
  assert (ready w3) as Hr3.
  { apply (ready_step w2); [done| |done|done].
    assert (preserves wf (delete_placements (fun p => p_id p = pid))) as H by solve_preserves.
    by apply (H w2), (rd_wf w2 Hr2). }
  eapply (runs_bind _ _ _ (fun _ w' => w' = w3)); [by eapply runs_eq|]. intros [] ? ->.
  eapply runs_mono; [by apply runs_audit|]. intros [] w4 (Hr4 & _ & _ & Hc4 & _).
  injection Hc4 as _ Hn4 Hl4 Hst4 Hlm4 Hp4. split; [done|].
  rewrite Hn4, Hl4, Hst4, Hlm4, Hp4. unfold w3. cbn -[tbl_delete]. by rewrite Hd2.
Qed.
End facts.

(** C18: removing a lab from a node. A node that owns the cold pool of another node on which the
    lab is still placed is refused, naming those nodes, and nothing changes. Otherwise the row
    is marked deleting, nothing else of it changes, one lab.destroy is queued for its node, and
    the agent's confirmation deletes exactly that row and its accounts. *)
Theorem destroyPlacement_guarded {HK : Honker} {HS : HonkerSpec} {PF : Platform} {CS : CryptoSpec}
    {US : UuidSpec} pid actor v w :
  ready w -> find_placement (w_db w) pid = Some v -> pl_lab_name v <> "" ->
  if decide (pl_cold_backend v = LocalZfs /\ smb_dependents (w_db w) v <> []) then
    destroyPlacement pid actor w =
      (Throw (ESmbDependents (pl_lab_name v) (pl_node_name v) (smb_dependents (w_db w) v)), w)
  else exists w1, destroyPlacement pid actor w = (Ok tt, w1) /\ tearing_down v w w1 /\
    forall id t, about "lab.destroy" (pl_lab_name v) t -> exists w2,
      lifecycle (pl_node_name v) (ok_result id) t w1 = (Ok tt, w2) /\
      rows (lab_placements (w_db w2)) = delete_where (fun p => p_id p = pid) (rows (lab_placements (w_db w))) /\
      rows (placement_members (w_db w2)) =
        delete_where (fun m => pm_placement_id m = pid) (rows (placement_members (w_db w))).
Proof.
  intros Hr Hv Hname. pose proof (find_placement_view _ _ _ Hv) as [Hview Hid]. case_decide as Hdep.
  - unfold destroyPlacement, getPlacement. rewrite (bind_step _ _ w (Some v) w)
      by (rewrite (bind_step db _ w (w_db w) w) by done; by rewrite Hv).
    apply bind_throw. unfold assertNoSmbDependents. rewrite (bind_step db _ w (w_db w) w) by done.
    destruct Hdep as [Hl Hd]. rewrite bool_decide_eq_true_2, bool_decide_eq_false_2 by done. done.
  - destruct (runs_destroy pid actor v w Hr Hv) as ([] & w1 & Hrun & Htd).
    { intros Hl. destruct (decide (smb_dependents (w_db w) v = [])); [done|]. by destruct Hdep. }
    exists w1. split; [done|]. split; [done|]. intros id t Ht.
    rewrite (lifecycle_destroy (pl_lab_name v)) by done. destruct Htd as [_ [now Hpl] (Hm & Hl & Hn & _) _].
    set (f := fun p => if decide (p_id p = p_id (pl_row v))
      then p <| p_state := PDeleting |> <| p_updated_at := now |> else p).
    assert (find_by_lab_node (w_db w1) (pl_lab_name v) (pl_node_name v) = Some (v <| pl_row ::= f |>)) as Hf.
    { unfold find_by_lab_node at 1.
      rewrite (views_ext ((w_db w) <| lab_placements ::= tbl_map f |>) (w_db w1)) by done.
      fold (find_by_lab_node ((w_db w) <| lab_placements ::= tbl_map f |>) (pl_lab_name v) (pl_node_name v)).
      rewrite (find_by_lab_node_map f) by (intros p; unfold f; by case_decide).
      by rewrite (names_find _ _ (proj1 (rd_wf w Hr)) Hview). }
    assert (f (pl_row v) = (pl_row v) <| p_state := PDeleting |> <| p_updated_at := now |>) as Hfv
      by (unfold f; by rewrite decide_True).
    rewrite (confirm_run _ _ _ _ Hf). cbn. rewrite Hfv. cbn.
    eexists. split; [done|]. cbn. rewrite Hpl, Hm, Hid. cbn. split.
    { apply (delete_update (fun p => p_id p = pid)). done. }
    unfold delete_where. apply list_filter_iff. intros m.
    apply not_iff_compat. eapply (elem_of_updated_ids _ _ (pl_row v)); [done|done|].
    apply elem_of_views in Hview as (p & Hp & Hpv). by rewrite (view_row _ _ _ Hpv).
Qed.

(** C23: a late lab.create result loses a removal. When the confirmation of a lab.create that was
    still running arrives after the placement was marked deleting, it is set back to active;
    the confirmation of the lab.destroy that follows then deletes nothing: the row stays, active,
    for a container and datasets the agent has destroyed. *)
Theorem late_create_result_loses_teardown {HK : Honker} {PF : Platform} lab node v w ic tc id td :
  lab <> "" -> find_by_lab_node (w_db w) lab node = Some v -> p_state (pl_row v) = PDeleting ->
  about "lab.create" lab tc -> about "lab.destroy" lab td ->
  exists w2 v2, (lifecycle node (ok_result ic) tc;; lifecycle node (ok_result id) td) w = (Ok tt, w2) /\
    find_by_lab_node (w_db w2) lab node = Some v2 /\ p_id (pl_row v2) = p_id (pl_row v) /\
    p_state (pl_row v2) = PActive.
Proof.
  intros Hl Hv _ Hc Hd. destruct (mark_run lab node PActive None v w Hv) as (w1 & Hr & Hdb).
  rewrite <- (lifecycle_create lab node ic tc w Hl Hc) in Hr. rewrite (bind_step _ _ _ _ _ Hr).
  pose proof (find_marked lab node PActive None (clock (w_ticks w)) v (w_db w) Hv) as Hf. rewrite <- Hdb in Hf.
  rewrite (lifecycle_destroy lab node id td w1 Hl Hd), (confirm_run _ _ _ _ Hf). cbn.
  exists w1. eexists. split; [done|]. by rewrite Hf.
Qed.

Section witness.
#[local] Existing Instance toy_honker.
#[local] Instance teardown_pf : Platform := demo_pf demo_accepts.
#[local] Instance teardown_cs : CryptoSpec := toy_crypto toy_env demo_accepts.
#[local] Instance teardown_us : UuidSpec := demo_uuid demo_accepts.

(** The lab placed on n1, which nothing depends on. *)
Definition granted_world : World := (createPlacement demo_input (demo_world demo_accepts)).2.
Definition granted_view : Placement :=
  default (mkView (mkPlacement 0 0 0 0 None None None 0 "" None PFailed None None None None 0 0)
    "" "" false Smb None None false) (find_placement (w_db granted_world) 1).
Definition destroying_world : World := (destroyPlacement 1 (Some "root") granted_world).2.
Definition destroying_view : Placement := default granted_view (find_placement (w_db destroying_world) 1).
Definition task_about (action : string) : TaskRow :=
  mkTask 9 "uuid-9" 9 "n1" action (Some (TJson (JObj [("lab", JStr "vision")]))) None TOk None None None 0 false 0 0.

Lemma task_about_vision action : about action "vision" (task_about action).
Proof. split; [reflexivity|]. by eexists. Qed.

Lemma granted_ready : ready granted_world.
Proof.
  split.
  - eexists. vm_compute. reflexivity.
  - apply createPlacement_wf, demo_world_wf.
  - apply uuids_drawn_seq. vm_compute. reflexivity.
Qed.

Lemma destroyPlacement_guarded_witness : exists w2,
  lifecycle "n1" (ok_result "uuid-9") (task_about "lab.destroy") destroying_world = (Ok tt, w2) /\
  rows (lab_placements (w_db granted_world)) <> [] /\ rows (lab_placements (w_db w2)) = [].
Proof.
  pose proof (destroyPlacement_guarded 1 (Some "root") granted_view granted_world granted_ready) as H.
  destruct (decide _) as [[_ Hno]|_] in H.
  - exfalso. apply Hno. vm_compute. reflexivity.
  - destruct H as (w1 & Hr & _ & Hc).
    + vm_compute. reflexivity.
    + vm_compute. discriminate.
    + assert (w1 = destroying_world) as -> by (unfold destroying_world; rewrite Hr; reflexivity).
      destruct (Hc "uuid-9" (task_about "lab.destroy") (task_about_vision "lab.destroy")) as (w2 & H2 & Hp & _).
      exists w2. split; [exact H2|]. split; [vm_compute; discriminate|]. rewrite Hp. vm_compute. reflexivity.
Defined.

Lemma late_create_result_loses_teardown_witness : exists w2 v2,
  (lifecycle "n1" (ok_result "uuid-0") (task_about "lab.create");;
   lifecycle "n1" (ok_result "uuid-9") (task_about "lab.destroy")) destroying_world = (Ok tt, w2) /\
  find_by_lab_node (w_db w2) "vision" "n1" = Some v2 /\ p_state (pl_row v2) = PActive.
Proof.
  destruct (late_create_result_loses_teardown "vision" "n1" destroying_view destroying_world
    "uuid-0" (task_about "lab.create") "uuid-9" (task_about "lab.destroy")) as (w2 & v2 & Hr & Hf & _ & Hs).
  - discriminate.
  - vm_compute. reflexivity.
  - vm_compute. reflexivity.
  - apply task_about_vision.
  - apply task_about_vision.
  - exists w2, v2. split; [exact Hr|]. split; [exact Hf|exact Hs].
Defined.
End witness.
