(* ===== verification/NodeFacts.v ===== *)
(** * NodeFacts: the cold-storage topology stays a star, and a node is who its token says *)
From S2P Require Import Prelude Js Redact Schema Sql DbWf Env Secrets Queue Testbed QueueFacts Settings Template Format Mailer Alerts DbInv Placements PlacementFacts Labs Nodes.
Open Scope Z_scope.

(** The owner of a node is an existing node with a local pool, and only SMB clients have one. *)
Definition cold_topology (d : Db) : Prop := forall n i,
  n ∈ rows (nodes d) -> n_cold_owner_node_id n = Some i ->
  n_cold_backend n = Smb /\ n_id n <> i /\
  exists o, o ∈ rows (nodes d) /\ n_id o = i /\ n_cold_backend o = LocalZfs.

(** The invariant is about the nodes, whose ids are unique. *)
Definition topology_ok (d : Db) : Prop := db_wf d /\ cold_topology d.

Section topology.
Context {HK : Honker} {PF : Platform}.
Implicit Types (w : World) (d : Db).

#[local] Notation I := (on_db cold_topology).

(** The three columns of the topology. *)
Definition cold_cols (n : NodeRow) := (n_id n, n_cold_backend n, n_cold_owner_node_id n).

(** Updates that keep the three columns. *)
Lemma topology_update (P : NodeRow -> Prop) {PDec : forall x, Decision (P x)} f d :
  (forall n, cold_cols (f n) = cold_cols n) -> cold_topology d ->
  cold_topology (d <| nodes ::= tbl_update P f |>).
Proof.
  intros Hf Hd n i (n0 & Hn0 & Hcase)%elem_of_update_where Ho.
  assert (cold_cols n = cold_cols n0) as Hcols by (destruct Hcase as [[_ ->]|[_ ->]]; [apply Hf|done]).
  injection Hcols as H1 H2 H3. rewrite H3 in Ho. destruct (Hd n0 i Hn0 Ho) as (Hb & Hne & o & Hin & Hi & Hl).
  split; [congruence|]. split; [congruence|].
  exists (if decide (P o) then f o else o). split.
  - apply elem_of_update_where. exists o. split; [done|]. case_decide; auto.
  - case_decide; [|done]. specialize (Hf o). injection Hf as Hf1 Hf2 _. split; congruence.
Qed.

Lemma topology_same_nodes d d' : nodes d' = nodes d -> cold_topology d -> cold_topology d'.
Proof. unfold cold_topology. by intros ->. Qed.

Lemma topology_cols d d' :
  cold_cols <$> rows (nodes d') = cold_cols <$> rows (nodes d) -> cold_topology d -> cold_topology d'.
Proof.
  intros He Hd n i Hn Ho.
  assert (forall n', n' ∈ rows (nodes d') -> exists n, n ∈ rows (nodes d) /\ cold_cols n = cold_cols n') as Hto.
  { intros n' Hin. assert (cold_cols n' ∈ cold_cols <$> rows (nodes d)) as (m & -> & ?)%list_elem_of_fmap
      by (rewrite <- He; by apply list_elem_of_fmap_2). by exists m. }
  destruct (Hto n Hn) as (m & Hm & [= H1 H2 H3]). destruct (Hd m i Hm) as (Hb & Hne & o & Hin & Hi & Hl); [congruence|].
  split; [congruence|]. split; [congruence|].
  assert (cold_cols o ∈ cold_cols <$> rows (nodes d')) as (o' & [= E1 E2 E3] & ?)%list_elem_of_fmap
    by (rewrite He; by apply list_elem_of_fmap_2). exists o'. split; [done|]. split; congruence.
Qed.

Lemma update_nodes_topology (P : NodeRow -> Prop) {PDec : forall x, Decision (P x)} f :
  (forall n, cold_cols (f n) = cold_cols n) -> preserves I (update_nodes P f).
Proof. intros Hf. apply exec_inv. intros d. by apply topology_update. Qed.

Lemma upsert_node_topology name mk f :
  (forall n, cold_cols (f n) = cold_cols n) -> preserves I (upsert_node name mk f).
Proof.
  intros Hf. apply exec_inv. intros d Hd. case_decide; [by apply topology_update|].
  intros n i Hn Ho. cbn in Hn. apply elem_of_app in Hn as [Hn| ->%list_elem_of_singleton]; [|done].
  destruct (Hd n i Hn Ho) as (? & ? & o & ? & ?). split; [done|]. split; [done|].
  exists o. split; [cbn; apply elem_of_app; by left|done].
Qed.

Lemma clear_owner_topology i : preserves I (clear_node_owner i).
Proof.
  apply exec_inv. intros d Hd n j (n0 & Hn0 & [[Ho0 ->]|[Ho0 ->]])%elem_of_update_where Ho; [done|].
  destruct (Hd n0 j Hn0 Ho) as (? & ? & o & Hin & ? & Hl). split; [done|]. split; [done|].
  exists o. split; [|done]. apply elem_of_update_where. exists o. split; [done|]. right. split; [|done].
  intros Hoo. destruct (Hd o i Hin Hoo) as (Hs & _). congruence.
Qed.

Lemma delete_node_topology i : preserves I (delete_node i).
Proof.
  unfold delete_node. apply checked_inv. intros d Hd [_ Hno%bool_decide_eq_false]%orb_false_iff.
  intros n j Hn Ho. apply elem_of_delete_where in Hn as [Hi Hn].
  destruct (Hd n j Hn Ho) as (? & ? & o & Hin & Hoi & ?). split; [done|]. split; [done|].
  exists o. split; [|done]. apply elem_of_delete_where. split; [|done]. intros Heq.
  apply Hno. rewrite list_elem_of_fmap. exists n. split; [congruence|]. by apply elem_of_select.
Qed.

Lemma audit_topology actor action target detail : preserves I (audit actor action target detail).
Proof. unfold audit. solve_preserves. by apply exec_inv. Qed.
#[local] Hint Resolve clear_owner_topology delete_node_topology audit_topology : preserve.
#[local] Hint Extern 1 (preserves _ (update_nodes _ _)) => (by apply update_nodes_topology) : preserve.
#[local] Hint Extern 1 (preserves _ (upsert_node _ _ _)) => (by apply upsert_node_topology) : preserve.

Lemma provisionNode_topology n actor : preserves I (provisionNode n actor).
Proof. unfold provisionNode, generateNodeToken. solve_preserves. Qed.
#[local] Hint Resolve provisionNode_topology : preserve.
Lemma rotateNodeToken_topology n actor : preserves I (rotateNodeToken n actor).
Proof. unfold rotateNodeToken. solve_preserves. Qed.
Lemma setNodeAlias_topology n a actor : preserves I (setNodeAlias n a actor).
Proof. unfold setNodeAlias. solve_preserves. Qed.
Lemma revokeNode_topology n actor : preserves I (revokeNode n actor).
Proof. unfold revokeNode. solve_preserves. Qed.
Lemma deleteNode_topology n actor force : preserves I (deleteNode n actor force).
Proof.
  unfold deleteNode. solve_preserves. apply transaction_inv. solve_preserves; by apply exec_inv.
Qed.

(** The checked owner of an SMB client. *)
Lemma check_owner_Ok d node o i : check_owner d node o = Ok i ->
  i <> n_id node /\ exists r, r ∈ rows (nodes d) /\ n_id r = i /\ n_cold_backend r = LocalZfs.
Proof.
  unfold check_owner. destruct (o ≫= or_null) as [name|]; [|done].
  destruct (node_named d name) as [r|] eqn:Hr; [|done]. apply get_row_Some in Hr as [_ Hr].
  destruct (Z.eqb_spec (n_id r) (n_id node)); [done|]. case_bool_decide as Hl; [|done]. cbn.
  intros [= <-]. split; [congruence|]. by exists r.
Qed.

Lemma set_node_cold_topology d node backend owner :
  cold_topology d ->
  match backend with
  | Smb => cold_dependents d (n_id node) = [] /\ exists i, owner = Some i /\ i <> n_id node /\
      exists r, r ∈ rows (nodes d) /\ n_id r = i /\ n_cold_backend r = LocalZfs
  | LocalZfs => owner = None
  end ->
  cold_topology (d <| nodes ::= tbl_update (fun n => n_id n = n_id node)
    (fun n => n <| n_cold_backend := backend |> <| n_cold_owner_node_id := owner |>) |>).
Proof.
  intros Hd Hb. set (f := fun n => n <| n_cold_backend := backend |> <| n_cold_owner_node_id := owner |>).
  assert (forall o, o ∈ rows (nodes d) -> n_id o <> n_id node ->
    o ∈ rows (tbl_update (fun n => n_id n = n_id node) f (nodes d))) as Hkeep.
  { intros o Ho Hne. apply elem_of_update_where. exists o. auto. }
  intros n i (n0 & Hn0 & [[Hid ->]|[Hid ->]])%elem_of_update_where Ho.
  - destruct backend; cbn in Ho; [congruence|]. destruct Hb as (_ & j & -> & Hne & r & Hr & Hrj & Hl).
    injection Ho as <-. split; [done|]. split; [cbn; congruence|]. exists r. split; [|done].
    apply Hkeep; [done|]. congruence.
  - destruct (Hd n0 i Hn0 Ho) as (? & Hne & o & Hin & Hoi & Hl). split; [done|]. split; [done|].
    destruct (decide (n_id o = n_id node)) as [He|He]; [|exists o; auto].
    exists (f o). split; [apply elem_of_update_where; exists o; auto|]. split; [done|].
    destruct backend; [done|]. destruct Hb as [Hdep _]. exfalso. unfold cold_dependents in Hdep.
    apply fmap_nil_inv in Hdep. assert (n0 ∈ select (fun n => n_cold_owner_node_id n = Some (n_id node)) (rows (nodes d)))
      as Hin' by (apply elem_of_select; split; [congruence|done]). rewrite Hdep in Hin'. by apply elem_of_nil in Hin'.
Qed.

Lemma setNodeColdStorage_topology n b o actor : preserves I (setNodeColdStorage n b o actor).
Proof.
  intros w Hw. cut (wp (setNodeColdStorage n b o actor) (fun _ => I) w); [done|].
  unfold setNodeColdStorage. apply wp_gets. destruct (node_named (w_db w) n) as [node|]; [|done]. cbv zeta.
  apply wp_throw_if; [done|intros _].
  assert (forall owner, match b with
    | Smb => cold_dependents (w_db w) (n_id node) = [] /\ exists i, owner = Some i /\ i <> n_id node /\
        exists r, r ∈ rows (nodes (w_db w)) /\ n_id r = i /\ n_cold_backend r = LocalZfs
    | LocalZfs => owner = None
    end -> wp (set_node_cold (n_id node) b owner;; audit actor "node.cold_storage" (Some n)
      (Some (match o ≫= or_null with Some o => backend_str b +:+ " owner=" +:+ o | None => backend_str b end)))
      (fun _ => I) w) as Hset.
  { intros owner Hb. apply wp_bind. unfold set_node_cold. apply wp_gets. apply wp_throw_if; [done|intros _].
    eapply wp_step; [done|]. apply audit_topology. by apply set_node_cold_topology. }
  destruct b.
  - apply (wp_step _ _ _ _ None w); [done|]. apply wp_throw_if; [done|intros _]. by apply Hset.
  - apply wp_bind. apply wp_lift; [|done]. intros i Hi. cbn.
    apply wp_throw_if; [done|]. intros Hdep. apply Hset.
    apply check_owner_Ok in Hi as [Hne Hr]. split; [|by exists i].
    by apply andb_false_iff in Hdep as [Hdep%bool_decide_eq_false|Hdep%negb_false_iff%bool_decide_eq_true].
Qed.
End topology.

(** The operations of the node registry, and the rest of the controller, which writes none of
    the three columns. *)
Inductive node_op {HK : Honker} {PF : Platform} : World -> World -> Prop :=
| op_provision n actor w : node_op w (provisionNode n actor w).2
| op_rotate n actor w : node_op w (rotateNodeToken n actor w).2
| op_alias n a actor w : node_op w (setNodeAlias n a actor w).2
| op_revoke n actor w : node_op w (revokeNode n actor w).2
| op_delete n actor force w : node_op w (deleteNode n actor force w).2
| op_cold n b o actor w : node_op w (setNodeColdStorage n b o actor w).2
| op_other w w' : cold_cols <$> rows (nodes (w_db w')) = cold_cols <$> rows (nodes (w_db w)) -> node_op w w'.

(** C22: whatever sequence of registry operations runs, refused ones and forced deletions
    included, the cold storage keeps the shape the agents rely on: a node with an owner is an
    SMB client, its owner is another registered node, and that owner exports a local pool
    itself, so there are no chains, cycles or dangling owners. *)
Theorem cold_topology_invariant {HK : Honker} {PF : Platform} w w' :
  cold_topology (w_db w) -> rtc node_op w w' -> cold_topology (w_db w').
Proof.
  intros Hw Hr. induction Hr as [|w w1 w' Hop _ IH]; [done|]. apply IH. clear IH. destruct Hop.
  - by apply provisionNode_topology.
  - by apply rotateNodeToken_topology.
  - by apply setNodeAlias_topology.
  - by apply revokeNode_topology.
  - by apply deleteNode_topology.
  - by apply setNodeColdStorage_topology.
  - by eapply topology_cols.
Qed.

Section identity.
Context {HK : Honker} {PF : Platform}.
Implicit Types (w : World).

Lemma length_to_hex bs : String.length (to_hex bs) = (2 * length bs)%nat.
Proof. induction bs as [|b bs IH]; cbn; [done|]. rewrite IH. lia. Qed.

(** What an accepted hello proves. *)
Lemma verifyNodeAuth_Ok name token w h w' :
  verifyNodeAuth name token w = (Ok (AuthOk h), w') ->
  w' = w /\ isValidNodeName name = true /\ token <> "" /\ h <> "" /\
  exists row key, node_named (w_db w) name = Some row /\ n_allowed row = true /\
    n_token_hash row = Some h /\ env_agentToken = Ok key /\
    sha256 (hmac_sha256 key (name +:+ NUL +:+ token)) = sha256 h.
Proof.
  intros H. assert (w' = w) as ->.
  { pose proof (verifyNodeAuth_ro (eq w) name token w eq_refl) as Hr. by rewrite H in Hr. }
  split; [done|]. unfold verifyNodeAuth in H.
  destruct (isValidNodeName name); [|done]. destruct (truthy token) eqn:Ht; [|done].
  inv_bind H. injection E as <- <-. destruct (node_named (w_db w) name) as [row|]; [|done].
  destruct (n_allowed row) eqn:Ha; [|done]. destruct (n_token_hash row) as [st|] eqn:Hst; [|done].
  destruct (truthy st) eqn:Hs; [|done]. inv_bind H. unfold nodeTokenHash in E.
  destruct env_agentToken as [key|] eqn:Hk; [|done]. injection E as <- <-.
  destruct (safeEqual _ st) eqn:He; [|done]. injection H as <-.
  split; [done|]. split; [by intros ->|]. split; [by intros ->|]. exists row, key.
  split_and!; try done. by apply String.eqb_eq in He.
Qed.

Lemma verifyNodeAuth_accepts name token w row h key :
  isValidNodeName name = true -> token <> "" -> h <> "" -> node_named (w_db w) name = Some row ->
  n_allowed row = true -> n_token_hash row = Some h -> env_agentToken = Ok key ->
  hmac_sha256 key (name +:+ NUL +:+ token) = h -> verifyNodeAuth name token w = (Ok (AuthOk h), w).
Proof.
  intros Hn Ht Hh Hrow Ha Hst Hk He. unfold verifyNodeAuth. rewrite Hn, (truthy_ne token Ht). cbn [negb].
  rewrite (bind_step db _ w (w_db w) w) by done. rewrite Hrow, Ha, Hst, (truthy_ne h Hh). cbn [negb].
  rewrite (bind_step _ _ w h w).
  - unfold safeEqual. by rewrite String.eqb_refl.
  - unfold lift, nodeTokenHash. rewrite Hk. unfold mbind, result_bind. by rewrite He.
Qed.

(** The row of a provisioned node. *)
Lemma provision_run name actor w token w1 :
  provisionNode name actor w = (Ok token, w1) ->
  isValidNodeName name = true /\ token = to_hex (random_byte <$> seq (w_bytes w) 32) /\
  exists key row, env_agentToken = Ok key /\ node_named (w_db w1) name = Some row /\
    n_allowed row = true /\ n_token_hash row = Some (hmac_sha256 key (name +:+ NUL +:+ token)) /\
    forall other, other <> name -> node_named (w_db w1) other = node_named (w_db w) other.
Proof.
  intros H. unfold provisionNode in H. inv_bind H. unfold throw_if in E.
  destruct (isValidNodeName name) eqn:Hn; [|done]. injection E as <- <-.
  inv_bind H. injection E as <- <-. inv_bind H. unfold lift, nodeTokenHash in E.
  destruct env_agentToken as [key|] eqn:Hk; [|done]. injection E as <- <-.
  inv_bind H. injection E as <- <-. inv_bind H. injection E as _ <-. inv_bind H. injection E as _ <-.
  injection H as <- <-. split; [done|]. split; [done|]. exists key.
  generalize (hmac_sha256 key (name +:+ NUL +:+ to_hex (random_byte <$> seq (w_bytes w) 32))).
  intros hash. unfold node_named. cbn.
  destruct (decide (name ∈ n_name <$> rows (nodes (w_db w)))) as [Hin|Hno]; cbn.
  - rewrite get_row_update by done.
    destruct (get_row (fun n => n_name n = name) (rows (nodes (w_db w)))) as [n|] eqn:Hg.
    + apply get_row_Some in Hg as [Hnn _]. eexists. split; [done|]. cbn. rewrite decide_True by done.
      split; [done|]. split; [done|]. split; [done|]. intros other Ho.
      rewrite get_row_update by done. destruct (get_row (fun n => n_name n = other) _) as [m|] eqn:Hm; [|done].
      apply get_row_Some in Hm as [Hm _]. cbn. by rewrite decide_False by congruence.
    + exfalso. apply list_elem_of_fmap in Hin as (n & Hnn & Hin). rewrite get_row_None in Hg. by apply (Hg n).
  - rewrite get_row_app. assert (get_row (fun n => n_name n = name) (rows (nodes (w_db w))) = None) as ->.
    { apply get_row_None. intros n Hin Hnn. apply Hno. rewrite <- Hnn. by apply list_elem_of_fmap_2. }
    rewrite get_row_single by done. eexists. split; [done|]. split; [done|]. split; [done|]. split; [done|].
    intros other Ho. rewrite get_row_app. destruct (get_row _ (rows (nodes (w_db w)))); [done|].
    apply get_row_None. intros n ->%list_elem_of_singleton. cbn. congruence.
Qed.
End identity.

(** Provisioning issues the only credential of a node. The token it returns (32 random
    bytes in hex) is accepted from that node from then on; any token that is accepted has the
    same keyed digest; a connection made under an earlier token is no longer authorised unless
    its digest was the same; and no other node's row changes, nor what it is accepted with. *)
Theorem provisionNode_issues {HK : Honker} {PF : Platform} name actor w token w1 :
  (forall k m, hmac_sha256 k m <> "") -> provisionNode name actor w = (Ok token, w1) ->
  String.length token = 64%nat /\ exists h,
    verifyNodeAuth name token w1 = (Ok (AuthOk h), w1) /\
    nodeStillAuthorized name h w1 = (Ok true, w1) /\
    (forall old, old <> h -> nodeStillAuthorized name old w1 = (Ok false, w1)) /\
    (forall token' h', verifyNodeAuth name token' w1 = (Ok (AuthOk h'), w1) -> exists key,
       env_agentToken = Ok key /\ sha256 (hmac_sha256 key (name +:+ NUL +:+ token')) = sha256 h) /\
    (forall other, other <> name -> node_named (w_db w1) other = node_named (w_db w) other).
Proof.
  intros Hmac Hp. apply provision_run in Hp as (Hn & Ht & key & row & Hk & Hrow & Ha & Hh & Hother).
  assert (String.length token = 64%nat) as Hlen by (rewrite Ht, length_to_hex, length_fmap, length_seq; done).
  split; [done|]. exists (hmac_sha256 key (name +:+ NUL +:+ token)).
  assert (forall h, nodeStillAuthorized name h w1 =
    (Ok (bool_decide (Some (hmac_sha256 key (name +:+ NUL +:+ token)) = Some h)), w1)) as Hst.
  { intros h. unfold nodeStillAuthorized. rewrite (bind_step db _ w1 (w_db w1) w1) by done.
    by rewrite Hrow, Ha, Hh. }
  split_and!.
  - apply (verifyNodeAuth_accepts _ _ _ row _ key); try done. intros He. by rewrite He in Hlen.
  - by rewrite Hst, bool_decide_eq_true_2.
  - intros old Ho. rewrite Hst, bool_decide_eq_false_2; [done|]. congruence.
  - intros t' h' Hv. apply verifyNodeAuth_Ok in Hv as (_ & _ & _ & _ & row' & key' & Hr' & _ & Hh' & Hk' & Hs).
    exists key'. split; [done|]. congruence.
  - exact Hother.
Qed.

Section witness.
#[local] Existing Instance toy_honker.
#[local] Instance node_pf : Platform := demo_pf demo_accepts.

(** The fixture: n2 is an SMB client of n1. *)
Lemma demo_topology : cold_topology (w_db (demo_world demo_accepts)).
Proof.
  intros n i Hn Ho. vm_compute in Hn.
  apply elem_of_cons in Hn as [->|Hn]; [vm_compute in Ho; discriminate|].
  apply elem_of_cons in Hn as [->|Hn]; [|by apply elem_of_nil in Hn].
  vm_compute in Ho. injection Ho as <-. split; [reflexivity|]. split; [discriminate|].
  exists (nth 0 (rows (nodes (w_db (demo_world demo_accepts)))) (demo_node "" false 0 0)).
  split; [vm_compute; constructor|]. split; vm_compute; reflexivity.
Qed.

(** Making n1 a client of its own client is refused. *)
Lemma cold_topology_invariant_witness :
  cold_topology (w_db (revokeNode "n1" None (setNodeColdStorage "n1" Smb (Some "n2") None (demo_world demo_accepts)).2).2) /\
  (setNodeColdStorage "n1" Smb (Some "n2") None (demo_world demo_accepts)).1 = Throw (EOwnerNotLocal "n2").
Proof.
  split; [|vm_compute; reflexivity].
  apply (cold_topology_invariant (demo_world demo_accepts)); [exact demo_topology|].
  eapply rtc_l; [apply op_cold|]. eapply rtc_l; [apply op_revoke|]. apply rtc_refl.
Defined.

Definition issued := provisionNode "n1" (Some "root") (demo_world demo_accepts).
Definition issued_token : string := match issued.1 with Ok t => t | Throw _ => "" end.

Lemma provisionNode_issues_witness : exists h,
  verifyNodeAuth "n1" issued_token issued.2 = (Ok (AuthOk h), issued.2) /\
  nodeStillAuthorized "n1" "hash" issued.2 = (Ok false, issued.2).
Proof.
  destruct (provisionNode_issues "n1" (Some "root") (demo_world demo_accepts) issued_token issued.2)
    as (_ & h & Hv & _ & Hold & _).
  - intros k m. cbn. discriminate.
  - vm_compute. reflexivity.
  - exists h. split; [exact Hv|]. apply Hold. intros He. rewrite <- He in Hv.
    revert Hv. vm_compute. discriminate.
Defined.
End witness.
