(* ===== verification/LabFacts.v ===== *)
(** * LabFacts: deleting a lab cannot stop half-way *)
From S2P Require Import Prelude Js Redact Schema Sql DbWf Env Secrets Queue Testbed QueueFacts Settings Template Format Mailer Alerts DbInv Placements PlacementFacts ProvisionFacts CreateFacts Labs Nodes NodeFacts TeardownFacts.
Open Scope Z_scope.

(** The PI of a lab is on its roster. *)
Definition pi_rule (d : Db) : Prop := forall l s,
  l ∈ rows (labs d) -> l_pi_student_id l = Some s ->
  exists m, m ∈ rows (lab_members d) /\ lm_lab_id m = l_id l /\ lm_student_id m = s.

(** SMB clients come first. *)
Definition clients_first (l : list Placement) : Prop :=
  StronglySorted (fun a b => pl_cold_backend b = Smb -> pl_cold_backend a = Smb) l.

Lemma smb_first_sorted l : clients_first (sort_by smb_first l).
Proof.
  unfold clients_first, smb_first.
  rewrite (sort_by_bool (fun p => bool_decide (pl_cold_backend p = Smb))).
  induction l as [|x l IH]; [constructor|]. rewrite !filter_cons.
  set (A := filter (fun p => bool_decide (pl_cold_backend p = Smb) = true) l) in *.
  set (B := filter (fun p => bool_decide (pl_cold_backend p = Smb) = false) l) in *.
  assert (Forall (fun p => pl_cold_backend p = Smb) A) as HA.
  { apply Forall_forall. by intros p [?%bool_decide_eq_true _]%list_elem_of_filter. }
  assert (Forall (fun p => pl_cold_backend p <> Smb) B) as HB.
  { apply Forall_forall. by intros p [?%bool_decide_eq_false _]%list_elem_of_filter. }
  destruct (decide (pl_cold_backend x = Smb)) as [Hx|Hx].
  - rewrite decide_True, decide_False by (by case_bool_decide). cbn. constructor; [done|].
    apply Forall_forall. by intros.
  - rewrite decide_False, decide_True by (by case_bool_decide).
    clear IH. induction HA as [|a A' Ha HA' IHA]; cbn.
    + constructor.
      * clear -HB. induction HB as [|b B' Hb HB' IHB]; constructor; [done|].
        eapply Forall_impl; [exact HB'|]. by intros ? ? ?.
      * eapply Forall_impl; [exact HB|]. by intros ? ? ?.
    + constructor; [done|]. apply Forall_forall. by intros.
Qed.

Section facts.
Context {HK : Honker} {HS : HonkerSpec} {PF : Platform} {CS : CryptoSpec} {US : UuidSpec}.
Implicit Types (w : World) (v : Placement) (d : Db).

(** The state of the loop over the placements of a lab, the ones still to be torn down given. *)
Record tearing (labId : Z) w0 (todo : list Placement) w : Prop := {
  te_ready : ready w;
  te_nodes : nodes (w_db w) = nodes (w_db w0);
  te_labs : labs (w_db w) = labs (w_db w0);
  te_students : students (w_db w) = students (w_db w0);
  te_members : lab_members (w_db w) = lab_members (w_db w0);
  te_rows q : q ∈ rows (lab_placements (w_db w)) -> exists q0, q0 ∈ rows (lab_placements (w_db w0)) /\
    p_id q0 = p_id q /\ p_lab_id q0 = p_lab_id q /\ p_node_id q0 = p_node_id q;
  te_done q : q ∈ rows (lab_placements (w_db w)) -> p_lab_id q = labId ->
    p_state q = PDeleting \/ p_id q ∈ (fun v => p_id (pl_row v)) <$> todo }.

(** The dependents of a local owner: no SMB client is left when its turn comes. *)
Lemma no_dependents labId w0 x todo w v :
  cold_topology (w_db w0) -> tearing labId w0 (x :: todo) w -> clients_first (x :: todo) ->
  (forall y, y ∈ x :: todo -> y ∈ views (w_db w0)) -> db_wf (w_db w0) ->
  find_placement (w_db w) (p_id (pl_row x)) = Some v -> p_lab_id (pl_row v) = labId ->
  pl_cold_backend v = LocalZfs -> pl_cold_backend v = pl_cold_backend x ->
  smb_dependents (w_db w) v = [].
Proof.
  intros Htop Ht Hsort Hviews Hwf Hv Hlab Hloc Hvx.
  destruct (smb_dependents (w_db w) v) as [|name l] eqn:Hs; [done|]. exfalso.
  assert (name ∈ smb_dependents (w_db w) v) as Hin by (rewrite Hs; constructor).
  unfold smb_dependents in Hin. apply list_elem_of_omap in Hin as (q & Hq & Hqn).
  apply elem_of_select in Hq as [[Hql Hqs] Hq]. apply bind_Some in Hqn as (n & Hn & Hd).
  case_decide as Ho; [|done]. unfold node_of in Hn. rewrite (te_nodes _ _ _ _ Ht) in Hn.
  pose proof Hn as [Hnid Hnin]%get_row_Some. destruct (Htop n _ Hnin Ho) as (Hsmb & _).
  destruct (te_done _ _ _ _ Ht q Hq) as [?|Hid]; [congruence|done|].
  apply list_elem_of_fmap in Hid as (y & Hy & Hyin).
  destruct (te_rows _ _ _ _ Ht q Hq) as (q0 & Hq0 & Hq0id & _ & Hq0n).
  specialize (Hviews y Hyin). apply elem_of_views in Hviews as (p & Hp & Hpv).
  pose proof (view_row _ _ _ Hpv) as Hrow.
  assert (p = q0) as -> by (apply (NoDup_fmap_inj p_id (rows (lab_placements (w_db w0)))); [apply (wf_pl _ Hwf)|done|done|congruence]).
  destruct (view_names _ _ _ Hpv) as (_ & n' & _ & Hn' & _ & _ & _ & Hb).
  assert (n' = n) as -> by (unfold node_of in Hn'; rewrite Hq0n in Hn'; congruence).
  assert (pl_cold_backend y = Smb) as Hysmb by congruence.
  apply elem_of_cons in Hyin as [->|Hyin]; [congruence|].
  apply StronglySorted_inv in Hsort as [_ Hf]. rewrite Forall_forall in Hf.
  specialize (Hf y Hyin Hysmb). congruence.
Qed.

(** The current row of a placement of the list, or none. *)
Lemma current_view labId w0 x todo w :
  tearing labId w0 (x :: todo) w -> db_wf (w_db w0) -> x ∈ views (w_db w0) -> p_lab_id (pl_row x) = labId ->
  match find_placement (w_db w) (p_id (pl_row x)) with
  | Some v => pl_row v ∈ rows (lab_placements (w_db w)) /\ p_id (pl_row v) = p_id (pl_row x) /\
      p_lab_id (pl_row v) = labId /\ pl_cold_backend v = pl_cold_backend x /\ pl_online v = pl_online x
  | None => forall q, q ∈ rows (lab_placements (w_db w)) -> p_id q <> p_id (pl_row x)
  end.
Proof.
  intros Ht Hwf Hx Hlab. destruct (find_placement _ _) as [v|] eqn:Hv.
  - pose proof (find_placement_view _ _ _ Hv) as [Hview Hid].
    apply elem_of_views in Hview as (q & Hq & Hqv). pose proof (view_row _ _ _ Hqv) as Hr. rewrite Hr in *.
    destruct (te_rows _ _ _ _ Ht q Hq) as (q0 & Hq0 & Hq0i & Hq0l & Hq0n).
    apply elem_of_views in Hx as (p & Hp & Hpv). pose proof (view_row _ _ _ Hpv) as Hr0. rewrite Hr0 in *.
    assert (p = q0) as -> by (apply (NoDup_fmap_inj p_id (rows (lab_placements (w_db w0)))); [apply (wf_pl _ Hwf)|done|done|congruence]).
    destruct (view_names _ _ _ Hqv) as (_ & n & _ & Hn & _ & _ & Hon & Hb).
    destruct (view_names _ _ _ Hpv) as (_ & n0 & _ & Hn0 & _ & _ & Hon0 & Hb0).
    assert (n = n0) as -> by (unfold node_of in *; rewrite (te_nodes _ _ _ _ Ht), <- Hq0n in Hn; congruence).
    split_and!; congruence.
  - intros q Hq Hid. unfold find_placement, placement_of in Hv.
    rewrite (get_row_unique _ p_id q) in Hv; [|apply (wf_pl _ (proj1 (rd_wf w (te_ready _ _ _ _ Ht))))|done|done|congruence].
    destruct (view_total (w_db w) q (proj1 (rd_wf w (te_ready _ _ _ _ Ht))) Hq) as [v Hv']. cbn in Hv. congruence.
Qed.

(** One round of the loop. *)
Definition tear_one (force : bool) (actor : option string) (p : Placement) : Act nat :=
  if force && negb (pl_online p)
  then forceDeletePlacement (p_id (pl_row p)) actor;; mret 0%nat
  else destroyPlacement (p_id (pl_row p)) actor;; mret 1%nat.

Definition gone (x : Placement) w : Prop :=
  forall q, q ∈ rows (lab_placements (w_db w)) -> p_id q <> p_id (pl_row x).

Definition fewer w w' : Prop := forall q, q ∈ rows (lab_placements (w_db w')) ->
  exists q', q' ∈ rows (lab_placements (w_db w)) /\ p_id q' = p_id q.

Lemma runs_tear_one labId w0 force actor x todo w :
  cold_topology (w_db w0) -> db_wf (w_db w0) -> tearing labId w0 (x :: todo) w ->
  clients_first (x :: todo) -> (forall y, y ∈ x :: todo -> y ∈ views (w_db w0)) -> p_lab_id (pl_row x) = labId ->
  runs (tear_one force actor x) w (fun n w' =>
    tearing labId w0 todo w' /\ fewer w w' /\ (n = 0%nat -> gone x w')).
Proof.
  intros Htop Hwf Ht Hsort Hviews Hlab.
  pose proof (current_view labId w0 x todo w Ht Hwf (Hviews x ltac:(constructor)) Hlab) as Hcur.
  destruct (find_placement (w_db w) (p_id (pl_row x))) as [v|] eqn:Hv.
  - destruct Hcur as (Hin & Hid & Hvl & Hb & Hon).
    assert (pl_cold_backend v = LocalZfs -> smb_dependents (w_db w) v = []) as Hdep
      by (intros Hloc; by eapply no_dependents).
    destruct Ht as [Hr Hn Hl Hs Hm Hrows Hdone]. unfold tear_one. destruct (force && negb (pl_online x)) eqn:Hf.
    + apply andb_true_iff in Hf as [_ Hoff%negb_true_iff].
      eapply runs_bind; [apply (runs_force _ _ v); [done|done|congruence|done]|].
      intros [] w1 (Hr1 & Hp1 & Hl1 & Hn1 & Hs1 & Hm1). apply runs_ret.
      assert (gone x w1) as Hgone by (intros q Hq; rewrite Hp1 in Hq; by apply elem_of_delete_where in Hq as [? _]).
      split; [|split; [|done]].
      2: { intros q Hq. rewrite Hp1 in Hq. apply elem_of_delete_where in Hq as [_ Hq]. by exists q. }
      split; try congruence.
      * intros q Hq. apply Hrows. rewrite Hp1 in Hq. by apply elem_of_delete_where in Hq as [_ ?].
      * intros q Hq Hql. pose proof (Hgone q Hq) as Hne. rewrite Hp1 in Hq. apply elem_of_delete_where in Hq as [_ Hq].
        destruct (Hdone q Hq Hql) as [?|[?|?]%elem_of_cons]; [by left|done|by right].
    + eapply runs_bind; [by apply (runs_destroy _ _ v)|].
      intros [] w1 [Hr1 [now Hp1] (_ & Hl1 & Hn1 & Hs1 & Hm1) _]. apply runs_ret. split; [|split; [|done]].
      2: { intros q Hq. rewrite Hp1 in Hq.
           apply elem_of_update_where in Hq as (q1 & Hq1 & [[_ ->]|[_ ->]]); by exists q1. }
      split; try congruence.
      * intros q Hq. rewrite Hp1 in Hq. apply elem_of_update_where in Hq as (q1 & Hq1 & [[_ ->]|[_ ->]]);
          by destruct (Hrows q1 Hq1) as (q0 & ? & ? & ? & ?); exists q0.
      * intros q Hq Hql. rewrite Hp1 in Hq. apply elem_of_update_where in Hq as (q1 & Hq1 & [[_ ->]|[Hne ->]]); [by left|].
        destruct (Hdone q1 Hq1 Hql) as [?|[?|?]%elem_of_cons]; [by left|congruence|by right].
  - assert (tearing labId w0 todo w) as Ht'.
    { destruct Ht as [Hr Hn Hl Hs Hm Hrows Hdone]. split; try done. intros q Hq Hql.
      destruct (Hdone q Hq Hql) as [?|[?|?]%elem_of_cons]; [by left| |by right]. by destruct (Hcur q Hq). }
    exists (if force && negb (pl_online x) then 0%nat else 1%nat), w.
    split; [|split; [done|]; split; [intros q Hq; by exists q|done]].
    unfold tear_one, forceDeletePlacement, destroyPlacement, getPlacement.
    destruct (force && _); rewrite (bind_step _ _ w tt w); try done;
      rewrite (bind_step _ _ w None w); try done; rewrite (bind_step db _ w (w_db w) w) by done; by rewrite Hv.
Qed.

Lemma runs_teardown labId w0 force actor todo w :
  cold_topology (w_db w0) -> db_wf (w_db w0) -> tearing labId w0 todo w -> clients_first todo ->
  (forall y, y ∈ todo -> y ∈ views (w_db w0) /\ p_lab_id (pl_row y) = labId) ->
  runs (teardown force actor todo) w (fun n w' => tearing labId w0 [] w' /\
    fewer w w' /\ (n = 0%nat -> forall y, y ∈ todo -> gone y w')).
Proof.
  intros Htop Hwf. revert w. induction todo as [|x todo IH]; intros w Ht Hsort Hviews; cbn.
  { apply runs_ret. split; [done|]. split; [intros q Hq; by exists q|]. by intros _ y ?%elem_of_nil. }
  assert (forall y, y ∈ x :: todo -> y ∈ views (w_db w0)) as Hv by (intros y Hy; by apply Hviews).
  eapply runs_bind.
  { apply (runs_tear_one labId w0 force actor x todo w Htop Hwf Ht Hsort Hv), Hviews. constructor. }
  intros n1 w1 (Ht1 & Hf1 & Hg1). eapply runs_bind.
  { apply IH; [done|by apply StronglySorted_inv in Hsort as [? _]|]. intros y Hy. apply Hviews. by constructor. }
  intros n2 w2 (Ht2 & Hf2 & Hg2). apply runs_ret. split; [done|]. split.
  - intros q Hq. destruct (Hf2 q Hq) as (q' & Hq' & <-). by apply Hf1.
  - intros Hz y [->|Hy]%elem_of_cons; [|apply Hg2; [lia|done]].
    intros q Hq. destruct (Hf2 q Hq) as (q' & Hq' & <-). apply Hg1; [lia|done].
Qed.

(** Students without a lab are dropped; nobody is a PI without being on the lab's roster. *)
Definition homeless (d : Db) (s : Z) : Prop := forall m, m ∈ rows (lab_members d) -> lm_student_id m <> s.

Lemma drop_student_pi d s : homeless d s -> pi_rule d -> pi_rule (drop_student s d).
Proof.
  intros Hh Hd l i Hl Hi. destruct (Hd l i Hl Hi) as (m & Hm & Hml & Hms). exists m. split; [|done].
  apply elem_of_delete_where. split; [|done]. by apply Hh.
Qed.

Lemma runs_drop_orphans ids w :
  ready w -> pi_rule (w_db w) ->
  runs (drop_orphans ids) w (fun _ w' => ready w' /\ labs (w_db w') = labs (w_db w) /\
    lab_placements (w_db w') = lab_placements (w_db w) /\
    lab_members (w_db w') = lab_members (w_db w) /\
    (forall s, s ∈ s_id <$> rows (students (w_db w')) -> s ∈ s_id <$> rows (students (w_db w))) /\
    (forall s, s ∈ ids -> homeless (w_db w) s -> s ∉ s_id <$> rows (students (w_db w')))).
Proof.
  revert w. induction ids as [|sid ids IH]; intros w Hr Hpi; cbn.
  { apply runs_ret. split_and!; try done. by intros s ?%elem_of_nil. }
  apply runs_gets. destruct (get_row (fun m => lm_student_id m = sid) _) as [m|] eqn:Hg.
  - eapply (runs_bind _ _ _ (fun _ w' => w' = w)); [by apply runs_ret|]. intros n1 ? ->.
    eapply runs_bind; [by apply IH|]. intros n2 w2 (H1 & H2 & H3 & H4 & H5 & H6). apply runs_ret.
    split_and!; try done. intros s [->|Hs]%elem_of_cons Hh; [|by apply H6].
    apply get_row_Some in Hg as [Hg Hin]. by destruct (Hh m Hin).
  - rewrite get_row_None in Hg. set (w1 := w <| w_db ::= drop_student sid |>).
    assert (delete_student sid w = (Ok tt, w1)) as Hdel.
    { unfold delete_student. rewrite (bind_step db _ w (w_db w) w) by done.
      rewrite bool_decide_eq_false_2; [done|]. intros (l & Hl & Hin)%list_elem_of_fmap.
      destruct (Hpi l sid Hin (eq_sym Hl)) as (m & Hm & _ & Hms). by apply (Hg m). }
    assert (ready w1) as Hr1.
    { apply (ready_step w); [done| |done|done]. pose proof (delete_student_wf sid w (rd_wf w Hr)) as Hw.
      by rewrite Hdel in Hw. }
    assert (lab_members (w_db w1) = lab_members (w_db w)) as Hlm.
    { unfold w1. cbn. unfold tbl_delete. destruct (lab_members (w_db w)) as [ms k] eqn:Hms. cbn. f_equal.
      apply delete_where_none. intros m Hm. by apply (Hg m). }
    eapply (runs_bind _ _ _ (fun _ w' => w' = w1)).
    { eapply runs_bind; [by eapply (runs_eq _ _ _ _ (fun _ w' => w' = w1))|]. intros [] ? ->. by apply runs_ret. }
    intros n1 ? ->. eapply runs_bind; [apply IH; [done|by apply drop_student_pi]|].
    intros n2 w2 (H1 & H2 & H3 & H4 & H5 & H6). apply runs_ret.
    split_and!; try done.
    + by rewrite H4.
    + intros s (st & -> & Hst)%H5%list_elem_of_fmap. apply elem_of_delete_where in Hst as [_ Hst].
      by apply list_elem_of_fmap_2.
    + intros s [->|Hs]%elem_of_cons Hh Hin.
      * apply H5, list_elem_of_fmap in Hin as (st & Hid & Hst). by apply elem_of_delete_where in Hst as [Hne _].
      * revert Hin. apply H6; [done|]. unfold homeless. by rewrite Hlm.
Qed.

Lemma drop_lab_pi d i : pi_rule d -> pi_rule (drop_lab i d).
Proof.
  intros Hd l s Hl Hs. apply elem_of_delete_where in Hl as [Hne Hl].
  destruct (Hd l s Hl Hs) as (m & Hm & Hml & Hms). exists m. split; [|done].
  apply elem_of_delete_where. split; [congruence|done].
Qed.

(** What the deletion of a lab leaves: either everything of it is gone, its former members
    without another lab included, or some teardown is still to be confirmed. *)
Definition lab_deleted (labId : Z) (members : list Z) w' : Prop :=
  (forall l, l ∈ rows (labs (w_db w')) -> l_id l <> labId) /\
  (forall p, p ∈ rows (lab_placements (w_db w')) -> p_lab_id p <> labId) /\
  (forall m, m ∈ rows (lab_members (w_db w')) -> lm_lab_id m <> labId) /\
  (forall s, s ∈ members -> homeless (w_db w') s -> s ∉ s_id <$> rows (students (w_db w'))).
Definition lab_tearing (labId : Z) w w' : Prop :=
  labs (w_db w') = labs (w_db w) /\ students (w_db w') = students (w_db w) /\
  lab_members (w_db w') = lab_members (w_db w) /\
  (forall p, p ∈ rows (lab_placements (w_db w')) -> p_lab_id p = labId -> p_state p = PDeleting).

Lemma runs_delete_tail labId ids w :
  ready w -> pi_rule (w_db w) ->
  (forall p, p ∈ rows (lab_placements (w_db w)) -> p_lab_id p <> labId) ->
  runs (delete_lab labId;; drop_orphans ids) w (fun _ w' => ready w' /\ lab_deleted labId ids w').
Proof.
  intros Hr Hpi Hno. set (w1 := w <| w_db ::= drop_lab labId |>).
  assert (ready w1) as Hr1.
  { apply (ready_step w); [done| |done|done]. apply (delete_lab_wf labId w (rd_wf w Hr)). }
  eapply (runs_bind _ _ _ (fun _ w' => w' = w1)); [by eapply runs_eq|]. intros [] ? ->.
  eapply runs_mono; [apply runs_drop_orphans; [done|by apply drop_lab_pi]|].
  intros n w2 (H1 & H2 & H3 & H4 & H5 & H6). split; [done|]. split_and!.
  - intros l Hl. rewrite H2 in Hl. by apply elem_of_delete_where in Hl as [? _].
  - intros p Hp. rewrite H3 in Hp. apply elem_of_delete_where in Hp as [_ Hp]. by apply Hno.
  - intros m Hm. rewrite H4 in Hm. by apply elem_of_delete_where in Hm as [? _].
  - intros s Hs Hh. apply H6; [done|]. unfold homeless. by rewrite <- H4.
Qed.

Lemma start_tearing labId w : ready w ->
  tearing labId w (sort_by smb_first (sort_by (by_name pl_node_name)
    (filter (fun v => p_lab_id (pl_row v) = labId) (views (w_db w))))) w.
Proof.
  intros Hr. split; try done.
  - intros q Hq. by exists q.
  - intros q Hq Hql. right. destruct (view_total (w_db w) q (proj1 (rd_wf w Hr)) Hq) as [v Hv].
    apply list_elem_of_fmap. exists v. split; [by rewrite (view_row _ _ _ Hv)|].
    rewrite !elem_of_sort_by. apply list_elem_of_filter.
    split; [by rewrite (view_row _ _ _ Hv)|]. apply elem_of_views. eauto.
Qed.
End facts.

(** C21: deleting a lab never stops half-way. With the cold topology and the rosters in order it
    always returns: the clients of a cold pool are torn down before its owner, so no placement
    is refused because another one still depends on it. Either no teardown was started, and the
    lab, its placements, its roster and every former member without another lab are gone; or
    the lab stays and every placement it still has is marked deleting. *)
Theorem destroyLab_never_stuck {HK : Honker} {HS : HonkerSpec} {PF : Platform} {CS : CryptoSpec}
    {US : UuidSpec} labId actor force l w :
  ready w -> cold_topology (w_db w) -> pi_rule (w_db w) -> lab_of (w_db w) labId = Some l ->
  exists r w', destroyLab labId actor force w = (Ok r, w') /\ ready w' /\
    if dl_deleted r
    then dl_teardownStarted r = 0%nat /\ lab_deleted labId
      (lm_student_id <$> select (fun m => lm_lab_id m = labId) (rows (lab_members (w_db w)))) w'
    else (0 < dl_teardownStarted r)%nat /\ lab_tearing labId w w'.
Proof.
  intros Hr Htop Hpi Hlab. cut (runs (destroyLab labId actor force) w (fun r w' => ready w' /\
    if dl_deleted r then dl_teardownStarted r = 0%nat /\ lab_deleted labId
      (lm_student_id <$> select (fun m => lm_lab_id m = labId) (rows (lab_members (w_db w)))) w'
    else (0 < dl_teardownStarted r)%nat /\ lab_tearing labId w w')); [done|].
  unfold destroyLab. eapply (runs_bind _ _ _ (fun o w' => o = Some l /\ w' = w)).
  { eapply runs_eq; [by unfold getLab; rewrite (bind_step db _ w (w_db w) w) by done|done]. }
  intros ? ? [-> ->]. eapply (runs_bind _ _ _ (fun ps w' => ps = sort_by (by_name pl_node_name)
    (filter (fun v => p_lab_id (pl_row v) = labId) (views (w_db w))) /\ w' = w)).
  { by eapply runs_eq. }
  intros ? ? [-> ->]. eapply runs_bind.
  { eapply runs_teardown; [done|apply (rd_wf w Hr)|by apply start_tearing|apply smb_first_sorted|].
    intros y Hy. rewrite !elem_of_sort_by in Hy. by apply list_elem_of_filter in Hy as [? ?]. }
  intros n w1 ([Hr1 _ Hl1 Hs1 Hm1 Hrows Hdone] & _ & Hgone).
  destruct (Nat.ltb_spec 0 n) as [Hn|Hn].
  - apply runs_ret. split; [done|]. cbn. split; [done|]. split_and!; try done.
    intros p Hp Hpl. by destruct (Hdone p Hp Hpl) as [?|?%elem_of_nil].
  - assert (n = 0%nat) as Hz by lia. apply runs_gets. cbv zeta. rewrite Hm1.
    rewrite <- runs_assoc. eapply runs_bind.
    { apply runs_delete_tail; [done|unfold pi_rule; by rewrite Hl1, Hm1|].
      intros p Hp Hpl. destruct (Hrows p Hp) as (q0 & Hq0 & Hid & Hql & _).
      destruct (view_total (w_db w) q0 (proj1 (rd_wf w Hr)) Hq0) as [v Hv].
      apply (Hgone Hz v) in Hp; [by rewrite (view_row _ _ _ Hv) in Hp|].
      rewrite !elem_of_sort_by. apply list_elem_of_filter.
      rewrite (view_row _ _ _ Hv). split; [congruence|]. apply elem_of_views. eauto. }
    intros orphans w2 [Hr2 Hdel]. eapply runs_bind; [by apply runs_audit|].
    intros [] w3 (Hr3 & _ & _ & Hc & _). apply runs_ret. split; [done|]. cbn. split; [done|].
    injection Hc as _ _ Hl3 Hs3 Hm3 Hp3. unfold lab_deleted, homeless in *. by rewrite Hl3, Hs3, Hm3, Hp3.
Qed.

Section witness.
#[local] Existing Instance toy_honker.
#[local] Instance lab_pf : Platform := demo_pf demo_accepts.
#[local] Instance lab_cs : CryptoSpec := toy_crypto toy_env demo_accepts.
#[local] Instance lab_us : UuidSpec := demo_uuid demo_accepts.

Definition vision : LabRow :=
  default (mkLab 0 "" None None None 0 0) (lab_of (w_db granted_world) 1).

Lemma granted_topology : cold_topology (w_db granted_world).
Proof. assert (nodes (w_db granted_world) = nodes (w_db (demo_world demo_accepts))) as He by (vm_compute; reflexivity).
  unfold cold_topology. rewrite He. exact demo_topology.
Qed.

Lemma granted_pi : pi_rule (w_db granted_world).
Proof.
  intros l s Hl Hs. vm_compute in Hl. apply elem_of_cons in Hl as [->|Hl]; [|by apply elem_of_nil in Hl].
  vm_compute in Hs. injection Hs as <-.
  exists (nth 0 (rows (lab_members (w_db granted_world))) (mkLabMember 0 0 0 0)).
  split; [vm_compute; constructor|]. split; vm_compute; reflexivity.
Qed.

(** The lab is placed on n1, which is online: its teardown is started. *)
Lemma destroyLab_never_stuck_witness : exists w',
  destroyLab 1 (Some "root") false granted_world = (Ok (mkDestroyed false 1), w') /\
  lab_tearing 1 granted_world w'.
Proof.
  destruct (destroyLab_never_stuck 1 (Some "root") false vision granted_world granted_ready granted_topology granted_pi)
    as (r & w' & Hr & _ & Hcase); [vm_compute; reflexivity|].
  assert ((destroyLab 1 (Some "root") false granted_world).1 = Ok (mkDestroyed false 1)) as He
    by (vm_compute; reflexivity).
  pose proof (eq_trans (eq_sym (f_equal fst Hr)) He) as Hok. injection Hok as ->. exists w'. split; [exact Hr|exact (proj2 Hcase)].
Defined.
End witness.
