(* ===== verification/LabImportFacts.v ===== *)
(** * LabImportFacts: what a roster import does to the database

    An import only adds: no account and no membership is removed or renamed.  An import that
    succeeded is settled: the plan of the same text on the new database is empty. *)
From S2P Require Import Prelude Js Csv Redact Schema Sql DbWf Env Secrets Queue Testbed Settings Template Format Mailer Alerts DbInv Placements PlacementFacts Labs Students LabImport QueueFacts.
From Stdlib Require Import Ascii.
Open Scope Z_scope.

(** ** Only additions *)

Definition account (s : StudentRow) : Z * string * Z := (s_id s, s_username s, s_linux_uid s).

Definition grown (d0 d : Db) : Prop :=
  rows (lab_members d0) `prefix_of` rows (lab_members d) /\
  account <$> rows (students d0) `prefix_of` account <$> rows (students d) /\
  l_id <$> rows (labs d) = l_id <$> rows (labs d0) /\
  lab_placements d = lab_placements d0.

Lemma grown_refl d : grown d d.
Proof. by split_and!. Qed.

Section grown.
Context {HK : Honker} {PF : Platform} (d0 : Db).
#[local] Notation I := (on_db (grown d0)).

Lemma grown_students_add d mk : grown d0 d -> grown d0 (d <| students ::= tbl_insert mk |>).
Proof.
  intros (H1 & H2 & H3 & H4). split_and!; [done| |done|done]. cbn. rewrite fmap_app. by apply prefix_app_r.
Qed.
Lemma grown_members_add d mk : grown d0 d -> grown d0 (d <| lab_members ::= tbl_insert mk |>).
Proof. intros (H1 & H2 & H3 & H4). split_and!; [|done..]. by apply prefix_app_r. Qed.
Lemma grown_students_set P {PDec : forall x, Decision (P x)} f d :
  (forall s, account (f s) = account s) -> grown d0 d -> grown d0 (d <| students ::= tbl_update P f |>).
Proof.
  intros Hf (H1 & H2 & H3 & H4). split_and!; [done| |done|done]. cbn. by rewrite update_where_fmap.
Qed.
Lemma grown_labs_set P {PDec : forall x, Decision (P x)} f d :
  (forall l, l_id (f l) = l_id l) -> grown d0 d -> grown d0 (d <| labs ::= tbl_update P f |>).
Proof.
  intros Hf (H1 & H2 & H3 & H4). split_and!; [done|done| |done]. cbn. by rewrite update_where_fmap.
Qed.

Lemma insert_student_grown sid u e n uid now : preserves I (insert_student sid u e n uid now).
Proof. unfold insert_student. inv_writes. by apply grown_students_add. Qed.
Lemma insert_lab_member_grown i s now : preserves I (insert_lab_member i s now).
Proof. unfold insert_lab_member. inv_writes. by apply grown_members_add. Qed.
Lemma update_students_grown P {PDec : forall x, Decision (P x)} f :
  (forall s, account (f s) = account s) -> preserves I (update_students P f).
Proof. intros Hf. unfold update_students. inv_writes. by apply grown_students_set. Qed.
Lemma update_labs_grown P {PDec : forall x, Decision (P x)} f :
  (forall l, l_id (f l) = l_id l) -> preserves I (update_labs P f).
Proof. intros Hf. unfold update_labs. inv_writes. by apply grown_labs_set. Qed.
#[local] Hint Resolve insert_student_grown insert_lab_member_grown : preserve.
#[local] Hint Extern 2 (preserves _ (update_students _ _)) => (apply update_students_grown; done) : preserve.
#[local] Hint Extern 2 (preserves _ (update_labs _ _)) => (apply update_labs_grown; done) : preserve.

Lemma set_lab_pi_grown i s : preserves I (set_lab_pi i s).
Proof. unfold set_lab_pi. solve_preserves. Qed.
Lemma set_student_number_grown i u : preserves I (set_student_number i u).
Proof. unfold set_student_number. solve_preserves. Qed.
#[local] Hint Resolve set_lab_pi_grown set_student_number_grown planRosterImport_ro : preserve.
Lemma set_if_inv {A} (v : option A) m : (forall x, preserves I (m x)) -> preserves I (set_if v m).
Proof. destruct v; cbn; auto with preserve. Qed.
Lemma create_students_grown now l used ids : preserves I (create_students now l used ids).
Proof. revert used ids. induction l; intros used ids; cbn; solve_preserves. Qed.
Lemma update_student_grown now u : preserves I (update_student now u).
Proof. unfold update_student. repeat (apply preserves_bind; [apply set_if_inv; intros|intros]); solve_preserves. Qed.
Lemma add_members_grown i now ids l : preserves I (add_members i now ids l).
Proof. induction l; cbn; solve_preserves. Qed.
Lemma pi_statements_grown i now u : preserves I (pi_statements i now u).
Proof.
  unfold pi_statements. apply set_if_inv. intros. repeat (apply preserves_bind; [apply set_if_inv; intros|intros]);
    solve_preserves.
Qed.
Lemma designate_pi_grown i ids u : preserves I (designate_pi i ids u).
Proof. unfold designate_pi. apply set_if_inv. intros. solve_preserves. Qed.
#[local] Hint Resolve create_students_grown update_student_grown add_members_grown pi_statements_grown
  designate_pi_grown : preserve.
Lemma commit_import_grown i now plan : preserves I (commit_import i now plan).
Proof. unfold commit_import. solve_preserves. Qed.

End grown.

(** What follows the transaction writes none of these tables. *)
Section after_commit.
Context {HK : Honker} {PF : Platform} (J : Db -> Prop).
Context (J_other : forall d d', students d' = students d -> labs d' = labs d ->
  lab_members d' = lab_members d -> lab_placements d' = lab_placements d -> J d -> J d').
#[local] Notation I := (on_db J).

Lemma audit_other actor a t dt : preserves I (audit actor a t dt).
Proof using J_other. unfold audit, insert_audit. inv_writes. by apply (J_other d). Qed.
Lemma insert_placement_member_other p s sec now : preserves I (insert_placement_member p s sec now).
Proof using J_other. unfold insert_placement_member. inv_writes. by apply (J_other d). Qed.
#[local] Hint Resolve insert_placement_member_other listPlacements_ro : preserve.
Lemma provision_added_other i actor s : preserves I (provision_added i actor s).
Proof using J_other.
  unfold provision_added, provisionMemberOnPlacement. solve_preserves.
  apply enqueueTask_db. intros d uuid j now Hd _. by apply (J_other d).
Qed.
End after_commit.

Lemma grown_other d0 d d' :
  students d' = students d -> labs d' = labs d -> lab_members d' = lab_members d ->
  lab_placements d' = lab_placements d -> grown d0 d -> grown d0 d'.
Proof. unfold grown. by intros -> -> -> ->. Qed.

Section grown_import.
Context {HK : Honker} {PF : Platform} (d0 : Db).
#[local] Notation I := (on_db (grown d0)).
#[local] Hint Resolve planRosterImport_ro commit_import_grown : preserve.
#[local] Hint Extern 2 (preserves _ (audit _ _ _ _)) => (apply audit_other, grown_other) : preserve.
#[local] Hint Extern 2 (preserves _ (provision_added _ _ _)) =>
  (apply provision_added_other, grown_other) : preserve.
Lemma applyRosterImport_grown i text actor : preserves I (applyRosterImport i text actor).
Proof. unfold applyRosterImport. solve_preserves. apply transaction_inv. solve_preserves. Qed.
End grown_import.

Section only_adds.
Context {HK : Honker} {PF : Platform}.

(** The plan [applyRosterImport] derives. *)
Definition derived_plan (d : Db) (labId : Z) (text : string) : RosterImportPlan :=
  match lab_of d labId with
  | Some l => roster_plan d l text
  | None => emptyPlan "" (Some (mkIssue 0 "Unknown lab"))
  end.

Lemma planRosterImport_eq labId text w :
  planRosterImport labId text w = (Ok (derived_plan (w_db w) labId text), w).
Proof.
  unfold planRosterImport, derived_plan, getLab.
  rewrite (bind_step _ _ w (lab_of (w_db w) labId) w) by done. cbv beta.
  by destruct (lab_of (w_db w) labId).
Qed.

(** C27: a roster import only adds: whatever its outcome, every membership, every account (id, user
    name and uid), every lab and every placement is still there; and when the plan has an
    invalid row or a conflict, or the transaction fails part way, the import throws and the
    database is what it was. *)
Theorem roster_import_only_adds labId text actor w :
  let plan := derived_plan (w_db w) labId text in
  let run := applyRosterImport labId text actor w in
  grown (w_db w) (w_db run.2) /\
  (pn_ok plan = false \/
   (exists e, (commit_import labId (clock (w_ticks w)) plan (w <| w_ticks ::= S |>)).1 = Throw e) ->
   (exists e, run.1 = Throw e) /\ w_db run.2 = w_db w).
Proof.
  cbv zeta. split; [apply applyRosterImport_grown, grown_refl|].
  intros H. unfold applyRosterImport. step_with (planRosterImport_eq labId text w).
  destruct (pn_ok (derived_plan _ _ _)) eqn:Hok; [|by split; [eauto|]].
  destruct H as [|[e He]]; [done|]. cbn [negb].
  rewrite (bind_step (throw_if _ _) _ w tt w) by done.
  rewrite (bind_step date_now _ w (clock (w_ticks w)) (w <| w_ticks ::= S |>)) by done. cbv beta.
  destruct (commit_import _ _ _ _) as [r w1] eqn:Hc. cbn in He. subst r.
  rewrite (bind_throw (transaction _) _ _ e (w1 <| w_db := w_db w |>)) by (unfold transaction; by rewrite Hc).
  by split; [eauto|].
Qed.
End only_adds.

(** ** Lookups in the plan's maps *)

(** The map of the rows that have a key: the last row with a key is under it. *)
Definition index {A V} (key : A -> option string) (val : A -> V) (acc : list (string * V)) (l : list A)
    : list (string * V) :=
  foldl (fun m s => match key s with Some k => aset k (val s) m | None => m end) acc l.

Section index.
Context {A V : Type} (key : A -> option string) (val : A -> V).

Lemma index_cons acc r l : index key val acc (r :: l) =
  index key val (match key r with Some k => aset k (val r) acc | None => acc end) l.
Proof. done. Qed.

Lemma index_miss k acc l :
  (forall r, r ∈ l -> key r <> Some k) -> alookup k (index key val acc l) = alookup k acc.
Proof.
  revert acc. induction l as [|r l IH]; intros acc H; [done|].
  rewrite index_cons, IH by (intros x Hx; apply H; by constructor).
  destruct (key r) as [k'|] eqn:Hk; [|done]. apply alookup_aset_ne. intros ->.
  by apply (H r); [constructor|].
Qed.

Lemma index_hit k acc l r :
  (forall x, x ∈ l -> key x = Some k -> x = r) -> r ∈ l -> key r = Some k ->
  alookup k (index key val acc l) = Some (val r).
Proof.
  intros Hu Hr Hk. revert acc. induction l as [|x l IH]; intros acc; [by apply elem_of_nil in Hr|].
  rewrite index_cons. assert (r ∈ l \/ r ∉ l) as [Hin|Hin].
  { clear -key Hk Hu. assert ((exists y, y ∈ l /\ key y = Some k) \/ (forall y, y ∈ l -> key y <> Some k)) as [(y & Hy & Hky)|H].
    - clear Hu. induction l as [|y l IH]; [right; intros y Hy; by apply elem_of_nil in Hy|].
      destruct (decide (key y = Some k)) as [Hy|Hy]; [left; exists y; split; [constructor|done]|].
      destruct IH as [(z & Hz & Hkz)|H]; [left; exists z; split; [by constructor|done]|].
      right. intros z [->|Hz]%elem_of_cons; [done|by apply H].
    - left. rewrite <- (Hu y); [done|by constructor|done].
    - right. intros Hr. by apply (H r). }
  - apply IH; [|done]. intros y Hy. apply Hu. by constructor.
  - apply elem_of_cons in Hr as [->|]; [|done]. rewrite Hk, index_miss; [apply alookup_aset|].
    intros y Hy Hky. apply Hin. rewrite <- (Hu y); [done|by constructor|done].
Qed.

Lemma index_Some k l v :
  alookup k (index key val [] l) = Some v -> exists r, r ∈ l /\ key r = Some k /\ v = val r.
Proof.
  assert (forall acc, alookup k (index key val acc l) = Some v ->
    alookup k acc = Some v \/ exists r, r ∈ l /\ key r = Some k /\ v = val r) as H.
  { induction l as [|x l IH]; intros acc Hv; [by left|]. rewrite index_cons in Hv.
    apply IH in Hv as [Hv|(r & Hr & Hk & ->)]; [|right; exists r; split; [by constructor|done]].
    destruct (key x) as [k'|] eqn:Hx; [|by left].
    destruct (decide (k = k')) as [->|Hne].
    - rewrite alookup_aset in Hv. injection Hv as <-. right. exists x. split; [constructor|done].
    - rewrite alookup_aset_ne in Hv by done. by left. }
  intros Hv. by destruct (H [] Hv) as [|].
Qed.
End index.

Lemma db_by_name_index d : db_by_name d = index (fun s => Some (s_username s)) id [] (rows (students d)).
Proof. done. Qed.
Lemma db_by_id_index d : db_by_id d = index (fun s => present (s_student_id s)) id [] (rows (students d)).
Proof.
  unfold db_by_id, index. generalize (@nil (string * StudentRow)).
  induction (rows (students d)) as [|s l IH]; intros acc; [done|]. cbn [foldl].
  rewrite <- IH. f_equal. unfold present, or_null. destruct (s_student_id s) as [i|]; cbn; [|done].
  by destruct (truthy i).
Qed.

Lemma present_Some o i : present o = Some i <-> o = Some i /\ i <> "".
Proof. destruct o as [x|]; cbn; [rewrite or_null_Some|]; naive_solver. Qed.

Section lookups.
Context (d : Db) (Hwf : db_wf d).

Lemma by_name_hit r : r ∈ rows (students d) -> alookup (s_username r) (db_by_name d) = Some r.
Proof.
  intros Hr. rewrite db_by_name_index. apply (index_hit _ id); [|done|done].
  intros x Hx [= Heq]. by apply (NoDup_fmap_inj s_username _ x r (wf_username _ Hwf)).
Qed.
Lemma by_name_Some u r : alookup u (db_by_name d) = Some r -> r ∈ rows (students d) /\ s_username r = u.
Proof. rewrite db_by_name_index. intros (x & Hx & [= <-] & ->)%index_Some. done. Qed.
Lemma by_id_hit r i : r ∈ rows (students d) -> s_student_id r = Some i -> i <> "" ->
  alookup i (db_by_id d) = Some r.
Proof.
  intros Hr Hi Hne. rewrite db_by_id_index. apply (index_hit _ id); [|done|by apply present_Some].
  intros x Hx [Hxi _]%present_Some. by apply (wf_student_id _ Hwf x r i).
Qed.
Lemma by_id_Some i r : alookup i (db_by_id d) = Some r ->
  r ∈ rows (students d) /\ s_student_id r = Some i /\ i <> "".
Proof. rewrite db_by_id_index. intros (x & Hx & [H1 H2]%present_Some & ->)%index_Some. done. Qed.
End lookups.

(** ** A settled database: the plan of the same text is empty *)

Definition agrees (info : BatchStudent) (r : StudentRow) : Prop :=
  (forall x, bs_sid info = Some x -> s_student_id r = Some x) /\
  (forall x, bs_name info = Some x -> s_name r = Some x) /\
  (forall x, bs_email info = Some x -> s_email r = Some x).

Definition member_pairs (d : Db) : list (Z * Z) :=
  (fun m => (lm_lab_id m, lm_student_id m)) <$> rows (lab_members d).

(** Every account of the batch exists as the batch has it, and is on the roster. *)
Definition settled (d : Db) (labId : Z) (batch : Batch) : Prop :=
  forall user info, (user, info) ∈ batch ->
    exists r, r ∈ rows (students d) /\ s_username r = user /\ agrees info r /\
      (labId, s_id r) ∈ member_pairs d.

Lemma changed_same v old : (forall x, v = Some x -> old = Some x) -> changed v old = None.
Proof. destruct v as [x|]; cbn; [|done]. intros H. by rewrite bool_decide_eq_true_2 by auto. Qed.

Lemma changed_Some v old x : changed v old = Some x -> v = Some x.
Proof. destruct v as [y|]; cbn; [|done]. case_bool_decide; naive_solver. Qed.

Lemma resolve_same d user info r :
  db_wf d -> r ∈ rows (students d) -> s_username r = user -> agrees info r ->
  (forall x, bs_sid info = Some x -> x <> "") -> resolve d user info = Same.
Proof.
  intros Hwf Hr <- (Hs & Hn & He) Hne. unfold resolve. rewrite (by_name_hit d Hwf r Hr).
  assert ((bs_sid info ≫= fun i => alookup i (db_by_id d)) =
    match bs_sid info with Some _ => Some r | None => None end) as ->.
  { destruct (bs_sid info) as [i|]; [|done]. cbn. by apply by_id_hit; auto. }
  pose proof (changed_same _ _ Hn) as Hcn. pose proof (changed_same _ _ He) as Hce.
  destruct (bs_sid info) as [i|] eqn:Hi; cbn -[changed present].
  - assert (present (s_student_id r) = Some i) as Hp by (apply present_Some; auto).
    rewrite Hp, !String.eqb_refl, Hcn, Hce. done.
  - destruct (present (s_student_id r)); by rewrite Hcn, Hce.
Qed.

Lemma on_roster_true d labId user info r :
  db_wf d -> r ∈ rows (students d) -> s_username r = user -> (labId, s_id r) ∈ member_pairs d ->
  on_roster d labId user info = true.
Proof.
  intros Hwf Hr <- Hm. unfold on_roster. rewrite (by_name_hit d Hwf r Hr).
  apply bool_decide_eq_true. apply list_elem_of_fmap in Hm as (m & [= -> Hs] & Hm).
  apply list_elem_of_fmap. exists m. split; [done|]. by apply elem_of_select.
Qed.

Lemma omap_nil {A B} (f : A -> option B) l : (forall x, x ∈ l -> f x = None) -> omap f l = [].
Proof.
  induction l as [|x l IH]; intros H; [done|]. cbn. rewrite H by constructor.
  apply IH. intros y Hy. apply H. by constructor.
Qed.

Lemma settled_empty d labId batch :
  db_wf d -> settled d labId batch ->
  (forall user info x, (user, info) ∈ batch -> bs_sid info = Some x -> x <> "") ->
  creates (resolutions d batch) = [] /\ updates (resolutions d batch) = [] /\
  clashes (resolutions d batch) = [] /\ memberships d labId batch = [].
Proof.
  intros Hwf Hs Hne.
  assert (forall x, x ∈ resolutions d batch -> x = Same) as Hres.
  { intros x ([user info] & -> & Hin)%list_elem_of_fmap.
    destruct (Hs user info Hin) as (r & Hr & Hu & Ha & _). eapply resolve_same; eauto. }
  split_and!; try (apply omap_nil; by intros x ->%Hres).
  assert (filter (fun e => on_roster d labId e.1 e.2 = false) batch = []) as Hf;
    [|by unfold memberships; rewrite Hf].
  apply filter_none. intros [user info] Hin.
  destruct (Hs user info Hin) as (r & Hr & Hu & _ & Hm). cbn.
  by rewrite (on_roster_true d labId user info r).
Qed.

(** ** What phases A to C build *)

Lemma check_row_right line r v : check_row line r = inr v ->
  vr_user v <> "" /\ (forall x, vr_sid v = Some x -> x <> "").
Proof.
  unfold check_row. pose proof (or_null_Some (norm_cell "student_id" r)) as Hs.
  pose proof (or_null_Some (lower_cell "username" r)) as Hu.
  destruct (or_null (norm_cell "student_id" r)) as [sid|], (or_null (lower_cell "username" r)) as [u|],
    (role_of _) as [[]|]; repeat case_match; try done; intros [= <-]; cbn; naive_solver.
Qed.

Lemma rights_phaseA rows v : v ∈ rights (phaseA rows) ->
  vr_user v <> "" /\ (forall x, vr_sid v = Some x -> x <> "").
Proof.
  intros (x & Hx & Hv)%list_elem_of_omap. unfold phaseA in Hx.
  apply elem_of_lookup_imap in Hx as (i & r & -> & _). cbn in Hv.
  destruct (check_row _ r) eqn:Hc; [done|]. injection Hv as <-. by eapply check_row_right.
Qed.

Lemma elem_of_aset {A} k (v : A) l x : x ∈ aset k v l -> x = (k, v) \/ x ∈ l.
Proof.
  induction l as [|[k' v'] l IH]; cbn.
  - intros ->%list_elem_of_singleton. by left.
  - destruct (String.eqb k k'); rewrite !elem_of_cons; tauto.
Qed.

(** The batch has one entry per username of the rows. *)
Record batch_ok (valid : list ValidRow) (b : Batch) : Prop := {
  bo_nodup : NoDup b.*1;
  bo_user v : v ∈ valid -> vr_user v ∈ b.*1;
  bo_sid user info x : (user, info) ∈ b -> bs_sid info = Some x -> x <> "" }.

Lemma aset_key {A} k (v : A) l x : x ∈ (aset k v l).*1 <-> x = k \/ x ∈ l.*1.
Proof.
  rewrite fst_aset. case_decide; [naive_solver|].
  rewrite elem_of_app, list_elem_of_singleton. tauto.
Qed.

Lemma batch_row_ok valid b c r :
  batch_ok valid b -> (forall x, vr_sid r = Some x -> x <> "") ->
  batch_ok (valid ++ [r]) (batch_row (b, c) r).1.
Proof.
  intros [Hnd Hu Hs] Hr.
  assert (exists e, (batch_row (b, c) r).1 = aset (vr_user r) e b /\
    (forall x, bs_sid e = Some x -> x <> "")) as (e & -> & He).
  { unfold batch_row. cbn. destruct (alookup (vr_user r) b) as [prev|] eqn:Hp.
    - apply alookup_in in Hp. pose proof (fun x => Hs _ _ x Hp) as Hprev.
      destruct (vr_sid r) as [x|] eqn:Hx, (bs_sid prev) as [y|] eqn:Hy; eexists; (split; [reflexivity|]);
        cbn; naive_solver.
    - eexists. split; [reflexivity|]. cbn. naive_solver. }
  split.
  - by apply NoDup_aset.
  - intros v [Hv| ->%list_elem_of_singleton]%elem_of_app; apply aset_key; auto.
  - intros user info x [Heq|Hin]%elem_of_aset; [injection Heq as -> ->; apply He|by eapply Hs].
Qed.

Lemma phaseC_ok valid :
  (forall v x, v ∈ valid -> vr_sid v = Some x -> x <> "") -> batch_ok valid (phaseC valid).1.
Proof.
  unfold phaseC. induction valid as [|r valid IH] using rev_ind; intros H.
  - split; [apply NoDup_nil_2|intros v Hv; by apply elem_of_nil in Hv|intros ??? Hv; by apply elem_of_nil in Hv].
  - rewrite foldl_app. cbn [foldl]. destruct (foldl batch_row ([], []) valid) as [b c].
    apply batch_row_ok; [apply IH; intros v x Hv; apply H, elem_of_app; by left|].
    intros x. apply H, elem_of_app. right. constructor.
Qed.

Lemma phaseB_username valid u : pi_username (phaseB valid).1 = Some u -> u ∈ vr_user <$> valid.
Proof.
  unfold phaseB. induction valid as [|r valid IH] using rev_ind; [done|].
  rewrite foldl_app, fmap_app, elem_of_app. cbn [foldl].
  destruct (foldl pi_row (mkPi None None None, []) valid) as [pi c]. unfold pi_row. cbn -[agree].
  case_bool_decide; [|auto].
  assert ((agree (vr_line r) "username" (pi_username pi) (Some (vr_user r))).1 = Some u ->
    u = vr_user r \/ pi_username pi = Some u) as Ha.
  { unfold agree. destruct (pi_username pi); [destruct (String.eqb _ _)|]; cbn; naive_solver. }
  destruct (agree _ "username" _ _), (agree _ "name" _ _), (agree _ "email" _ _). cbn in *.
  intros Hu. destruct (Ha Hu) as [->|Hp]; [right; constructor|by left; apply IH].
Qed.

(** ** What a committed transaction wrote *)

Definition ids_ok (ids : list (string * Z)) (l : list StudentRow) : Prop :=
  forall s, s ∈ l -> alookup (s_username s) ids = Some (s_id s).

Definition created_as (c : StudentCreate) (r : StudentRow) : Prop :=
  s_username r = sc_username c /\ s_student_id r = sc_studentId c /\ s_name r = sc_name c /\
  s_email r = sc_email c.

(** [v ?? old] *)
Definition set_to (v old : option string) : option string := match v with Some x => Some x | None => old end.
(** A row after an update of [updates]. *)
Definition updated_by (now : Z) (u : StudentUpdate) (s : StudentRow) : StudentRow :=
  if decide (s_username s = su_username u)
  then s <| s_student_id ::= set_to (su_studentId u) |> <| s_name ::= set_to (su_name u) |>
         <| s_email ::= set_to (su_email u) |> <| s_updated_at := now |>
  else s.

(** The same database but for some tables. *)
Definition same_but_students (d d' : Db) : Prop := lab_members d' = lab_members d /\ labs d' = labs d.

Section commit.
Context {HK : Honker} {PF : Platform}.
Implicit Types w : World.

Lemma insert_student_inv sid u e n uid now w id w' :
  insert_student sid u e n uid now w = (Ok id, w') ->
  u ∉ s_username <$> rows (students (w_db w)) /\
  w' = w <| w_db ::= fun d => d <| students ::= tbl_insert (fun i => mkStudent i sid u e n uid now now) |> |> /\
  id = last_id (students (w_db w)) + 1.
Proof.
  unfold insert_student. intros H. inv_bind H. injection E as <- <-. inv_bind H.
  unfold throw_if in E. destruct (_ || _) eqn:Hc; [done|]. injection E as <- <-. inv_bind H.
  injection E as <- <-. injection H as <- <-. rewrite !orb_false_iff in Hc.
  destruct Hc as [[[Hc _] _] _]. by apply bool_decide_eq_false in Hc.
Qed.

Lemma create_students_inv now l : forall used ids w ids' w',
  create_students now l used ids w = (Ok ids', w') ->
  ids_ok ids (rows (students (w_db w))) ->
  same_but_students (w_db w) (w_db w') /\ ids_ok ids' (rows (students (w_db w'))) /\
  exists new, rows (students (w_db w')) = rows (students (w_db w)) ++ new /\ Forall2 created_as l new.
Proof.
  induction l as [|c l IH]; intros used ids w ids' w' H Hids; cbn [create_students] in H.
  - injection H as <- <-. split; [done|]. split; [done|]. exists []. by rewrite app_nil_r.
  - cbv zeta in H. inv_bind H. unfold throw_if in E. destruct (UID_MAX <? _); [done|].
    injection E as <- <-. inv_bind H. apply insert_student_inv in E as (Hu & -> & ->).
    set (r := mkStudent (last_id (students (w_db w)) + 1) (sc_studentId c) (sc_username c)
                (sc_email c) (sc_name c) (next_uid used UID_MIN uid_fuel) now now).
    apply IH in H as ([H1 H2] & H3 & new & H4 & H5).
    + split; [done|]. split; [done|]. exists (r :: new). split; [|by constructor].
      rewrite H4. cbn. by rewrite <- app_assoc.
    + intros s [Hs| ->%list_elem_of_singleton]%elem_of_app.
      * rewrite alookup_aset_ne; [by apply Hids|]. intros He. apply Hu. rewrite <- He.
        by apply list_elem_of_fmap_2.
      * apply alookup_aset.
Qed.

Lemma set_if_student {A} (v : option A) (m : A -> Act unit) (f : A -> StudentRow -> StudentRow) w w' :
  (forall x w1, m x w = (Ok tt, w1) -> same_but_students (w_db w) (w_db w1) /\
     rows (students (w_db w1)) = f x <$> rows (students (w_db w))) ->
  set_if v m w = (Ok tt, w') ->
  same_but_students (w_db w) (w_db w') /\
  rows (students (w_db w')) = (match v with Some x => f x | None => id end) <$> rows (students (w_db w)).
Proof.
  intros Hm. destruct v as [x|]; cbn; [apply Hm|]. intros [= <-]. by rewrite list_fmap_id.
Qed.

Lemma update_student_inv now u w w' :
  update_student now u w = (Ok tt, w') ->
  same_but_students (w_db w) (w_db w') /\
  rows (students (w_db w')) = updated_by now u <$> rows (students (w_db w)).
Proof.
  unfold update_student. intros H. inv_bind H. inv_bind H. inv_bind H. destruct a, a0, a1.
  apply (set_if_student _ _ (fun i s => if decide (s_username s = su_username u) then s <| s_student_id := Some i |> else s))
    in E as [[H1 H2] H3].
  2: { intros x w9. unfold set_student_number. intros Hx. inv_bind Hx. injection E2 as <- <-.
       inv_bind Hx. unfold throw_if in E2. destruct (bool_decide _); [done|]. injection E2 as <- <-.
       injection Hx as <-. done. }
  apply (set_if_student _ _ (fun n s => if decide (s_username s = su_username u) then s <| s_name := Some n |> else s))
    in E0 as [[H4 H5] H6]; [|by intros x w9 [= <-]].
  apply (set_if_student _ _ (fun n s => if decide (s_username s = su_username u) then s <| s_email := Some n |> else s))
    in E1 as [[H7 H8] H9]; [|by intros x w9 [= <-]].
  injection H as <-. split; [by split; cbn; congruence|]. cbn. unfold update_where.
  rewrite H9, H6, H3, <- !list_fmap_compose. apply list_fmap_ext. intros i s _. unfold updated_by. cbn.
  destruct (su_studentId u), (su_name u), (su_email u); cbn; repeat (case_decide; cbn in *; try done);
    by destruct s.
Qed.

Lemma updates_inv now us : forall w w',
  for_each (update_student now) us w = (Ok tt, w') ->
  same_but_students (w_db w) (w_db w') /\
  rows (students (w_db w')) = (fun s => foldl (fun s u => updated_by now u s) s us) <$> rows (students (w_db w)).
Proof.
  induction us as [|u us IH]; intros w w' H; cbn [for_each] in H.
  - injection H as <-. split; [done|]. by rewrite list_fmap_id.
  - inv_bind H. destruct a. apply update_student_inv in E as [[H1 H2] H3].
    apply IH in H as [[H4 H5] H6]. split; [split; congruence|].
    rewrite H6, H3, <- list_fmap_compose. done.
Qed.

Lemma updated_by_username now u s : s_username (updated_by now u s) = s_username s.
Proof. unfold updated_by. by case_decide. Qed.

(** The one update for a username. *)
Lemma foldl_updated_by now us s :
  NoDup (su_username <$> us) ->
  (forall u, u ∈ us -> su_username u = s_username s ->
     foldl (fun s u => updated_by now u s) s us = updated_by now u s) /\
  ((forall u, u ∈ us -> su_username u <> s_username s) -> foldl (fun s u => updated_by now u s) s us = s).
Proof.
  assert (forall us s, (forall u, u ∈ us -> su_username u <> s_username s) ->
    foldl (fun s u => updated_by now u s) s us = s) as Hno.
  { clear us s. intros us s. induction us as [|u us IH]; intros H; [done|]. cbn.
    assert (updated_by now u s = s) as ->.
    { unfold updated_by. rewrite decide_False; [done|]. intros He. by apply (H u); [constructor|]. }
    apply IH. intros v Hv. apply H. by constructor. }
  intros Hnd. split; [|apply Hno]. intros u Hu He.
  induction us as [|v us IH] in s, Hnd, Hu, He |- *; [by apply elem_of_nil in Hu|].
  apply NoDup_cons in Hnd as [Hv Hnd]. cbn. apply elem_of_cons in Hu as [->|Hu].
  - apply Hno. intros x Hx Heq. rewrite updated_by_username in Heq. apply Hv.
    rewrite He, <- Heq. by apply list_elem_of_fmap_2.
  - assert (updated_by now v s = s) as ->; [|by apply IH].
    unfold updated_by. rewrite decide_False; [done|]. intros Hs. apply Hv.
    rewrite <- Hs, <- He. by apply list_elem_of_fmap_2.
Qed.

Lemma insert_lab_member_inv i s now w w' :
  insert_lab_member i s now w = (Ok tt, w') ->
  students (w_db w') = students (w_db w) /\ labs (w_db w') = labs (w_db w) /\
  member_pairs (w_db w') = member_pairs (w_db w) ++ [(i, s)].
Proof.
  unfold insert_lab_member. intros H. inv_bind H. injection E as <- <-. inv_bind H.
  unfold throw_if in E. destruct (_ || _); [done|]. injection E as <- <-. injection H as <-.
  split_and!; [done|done|]. unfold member_pairs. cbn. by rewrite fmap_app.
Qed.

Lemma add_members_inv i now ids l : forall w added w',
  add_members i now ids l w = (Ok added, w') ->
  students (w_db w') = students (w_db w) /\ labs (w_db w') = labs (w_db w) /\
  member_pairs (w_db w) `prefix_of` member_pairs (w_db w') /\
  (forall user, user ∈ l -> exists sid, alookup user ids = Some sid /\ (i, sid) ∈ member_pairs (w_db w')).
Proof.
  induction l as [|user l IH]; intros w added w' H; cbn [add_members] in H.
  - injection H as <- <-. split_and!; try done. intros u Hu. by apply elem_of_nil in Hu.
  - destruct (alookup user ids) as [sid|] eqn:Hsid; [|done].
    assert (exists w1 added1, add_members i now ids l w1 = (Ok added1, w') /\
      students (w_db w1) = students (w_db w) /\ labs (w_db w1) = labs (w_db w) /\
      member_pairs (w_db w) `prefix_of` member_pairs (w_db w1) /\ (i, sid) ∈ member_pairs (w_db w1))
      as (w1 & added1 & H1 & Hs & Hl & Hp & Hin).
    { inv_bind H. injection E as <- <-. destruct (lab_member _ i sid) as [m|] eqn:Hm.
      - exists w, added. split_and!; try done. apply get_row_Some in Hm as [[<- <-] Hm].
        by apply (list_elem_of_fmap_2 (fun m => (lm_lab_id m, lm_student_id m))).
      - inv_bind H. destruct a. apply insert_lab_member_inv in E as (Hs & Hl & Hp).
        inv_bind H. injection E as <- <-. inv_bind H. exists w0, a. rewrite Hp.
        assert (w1 = w') as -> by (by destruct (student_of _ _); injection H).
        split_and!; try done; [by apply prefix_app_r|]. apply elem_of_app. right. constructor. }
    apply IH in H1 as (H2 & H3 & H4 & H5). split_and!; [congruence|congruence|by etransitivity|].
    intros u [->|Hu]%elem_of_cons; [|by apply H5]. exists sid. split; [done|].
    destruct H4 as [k ->]. apply elem_of_app. by left.
Qed.
End commit.

Section idempotent.
Context {HK : Honker} {PF : Platform}.
Implicit Types w : World.

(** The lab's row after the PI's fields were written. *)
Definition lab_like (u : option PiUpdate) (lab lab' : LabRow) : Prop :=
  l_id lab' = l_id lab /\ l_name lab' = l_name lab /\ l_pi_student_id lab' = l_pi_student_id lab /\
  l_pi_name lab' = set_to (u ≫= pu_piName) (l_pi_name lab) /\
  l_pi_email lab' = set_to (u ≫= pu_piEmail) (l_pi_email lab).

Lemma update_labs_inv i f w :
  (forall l, l_id (f l) = l_id l) ->
  exists w', update_labs (fun l => l_id l = i) f w = (Ok tt, w') /\
    students (w_db w') = students (w_db w) /\ lab_members (w_db w') = lab_members (w_db w) /\
    (forall j, lab_of (w_db w') j = (fun l => if decide (l_id l = i) then f l else l) <$> lab_of (w_db w) j).
Proof.
  intros Hf. eexists. split; [reflexivity|]. split; [done|]. split; [done|]. intros j.
  unfold lab_of. cbn. apply get_row_update. intros l. by rewrite Hf.
Qed.

Lemma pi_statements_inv labId now u w w' lab :
  pi_statements labId now u w = (Ok tt, w') -> lab_of (w_db w) labId = Some lab ->
  students (w_db w') = students (w_db w) /\ lab_members (w_db w') = lab_members (w_db w) /\
  exists lab', lab_of (w_db w') labId = Some lab' /\ lab_like u lab lab'.
Proof.
  intros H Hl. assert (l_id lab = labId) as Hid by by apply get_row_Some in Hl as [? _].
  unfold pi_statements in H.
  destruct u as [[u n e]|]; cbn [set_if] in H; [|injection H as <-; split; [done|]; split; [done|]; by exists lab].
  inv_bind H. inv_bind H. cbn [pu_piName pu_piEmail] in *.
  assert (students (w_db w0) = students (w_db w) /\ lab_members (w_db w0) = lab_members (w_db w) /\
    exists l1, lab_of (w_db w0) labId = Some l1 /\ lab_like (Some (mkPiUpdate u n None)) lab l1)
    as (Hs1 & Hm1 & l1 & Hl1 & Hk1).
  { destruct n as [n|]; cbn [set_if] in E; [|injection E as <- <-; split; [done|]; split; [done|]; by exists lab].
    destruct (update_labs_inv labId (fun l => l <| l_pi_name := Some n |>) w) as (w2 & H2 & Hs & Hm & Hf); [done|].
    rewrite H2 in E. injection E as <- <-. split; [done|]. split; [done|].
    rewrite Hf, Hl. cbn. rewrite decide_True by done. by eexists. }
  assert (students (w_db w1) = students (w_db w0) /\ lab_members (w_db w1) = lab_members (w_db w0) /\
    exists l2, lab_of (w_db w1) labId = Some l2 /\ lab_like (Some (mkPiUpdate u None e)) l1 l2)
    as (Hs2 & Hm2 & l2 & Hl2 & Hk2).
  { destruct e as [e|]; cbn [set_if] in E0; [|injection E0 as <- <-; split; [done|]; split; [done|]; by exists l1].
    destruct (update_labs_inv labId (fun l => l <| l_pi_email := Some e |>) w0) as (w2 & H2 & Hs & Hm & Hf); [done|].
    rewrite H2 in E0. injection E0 as <- <-. split; [done|]. split; [done|].
    rewrite Hf, Hl1. cbn. rewrite decide_True by (destruct Hk1 as [-> _]; done). by eexists. }
  destruct Hk1 as (A1 & A2 & A3 & A4 & A5), Hk2 as (B1 & B2 & B3 & B4 & B5).
  destruct (update_labs_inv labId (fun l => l <| l_updated_at := now |>) w1) as (w2 & H2 & Hs & Hm & Hf); [done|].
  rewrite H2 in H. injection H as <-. split; [congruence|]. split; [congruence|]. rewrite Hf, Hl2.
  eexists. split; [reflexivity|]. cbn in *. case_decide; unfold lab_like; cbn in *; split_and!; congruence.
Qed.

Lemma set_lab_pi_inv i s w w' lab :
  set_lab_pi i s w = (Ok tt, w') -> lab_of (w_db w) i = Some lab ->
  students (w_db w') = students (w_db w) /\ lab_members (w_db w') = lab_members (w_db w) /\
  lab_of (w_db w') i = Some (lab <| l_pi_student_id := Some s |>).
Proof.
  intros H Hl. assert (l_id lab = i) as Hid by by apply get_row_Some in Hl as [? _].
  unfold set_lab_pi in H. inv_bind H. injection E as <- <-. inv_bind H. unfold throw_if in E.
  destruct (negb _); [done|]. injection E as <- <-.
  destruct (update_labs_inv i (fun l => l <| l_pi_student_id := Some s |>) w) as (w2 & H2 & Hs & Hm & Hf); [done|].
  rewrite H2 in H. injection H as <-. split; [done|]. split; [done|]. rewrite Hf, Hl. cbn.
  by rewrite decide_True.
Qed.

(** How the plan met one entry of the batch. *)
Lemma resolve_cases d labId user info :
  db_wf d -> (forall x, bs_sid info = Some x -> x <> "") ->
  (exists i, resolve d user info = Conflict i) \/
  (resolve d user info = Create (mkStudentCreate user (bs_sid info) (bs_name info) (bs_email info)) /\
     on_roster d labId user info = false) \/
  (exists e, e ∈ rows (students d) /\ s_username e = user /\
     (on_roster d labId user info = true -> (labId, s_id e) ∈ member_pairs d) /\
     ((resolve d user info = Same /\ agrees info e) \/
      (exists u, resolve d user info = Update u /\ su_username u = user /\
         forall now, agrees info (updated_by now u e)))).
Proof.
  intros Hwf Hne. unfold resolve.
  destruct (match bs_sid info ≫= _ with Some o => _ | None => None end) as [o|] eqn:Howner; [by left; eauto|].
  destruct (match alookup user (db_by_name d) ≫= _ with Some old => _ | None => None end) as [old|] eqn:Hother;
    [by left; eauto|].
  set (byId := bs_sid info ≫= fun i => alookup i (db_by_id d)) in *.
  destruct (match byId with Some o => Some o | None => alookup user (db_by_name d) end) as [e|] eqn:He.
  - right; right. assert (e ∈ rows (students d) /\ s_username e = user) as [Hin Hu].
    { destruct byId as [o|] eqn:Hb; [|by apply by_name_Some]. injection He as ->.
      unfold byId in Hb. apply bind_Some in Hb as (i & _ & Hb). apply by_id_Some in Hb as (? & _).
      by destruct (String.eqb_spec (s_username e) user). }
    exists e. split; [done|]. split; [done|]. pose proof (by_name_hit d Hwf e Hin) as Hn. rewrite Hu in Hn.
    split.
    { unfold on_roster. rewrite Hn. intros H%bool_decide_eq_true.
      apply list_elem_of_fmap in H as (m & -> & [Hl Hm]%elem_of_select).
      apply list_elem_of_fmap. exists m. by rewrite Hl. }
    rewrite Hn in Hother. cbn in Hother.
    assert (forall x, bs_sid info = Some x -> present (s_student_id e) = None \/ s_student_id e = Some x) as Hsid.
    { intros x Hx. rewrite Hx in Hother. destruct (present (s_student_id e)) as [y|] eqn:Hp; [|by left].
      right. apply present_Some in Hp as [-> _]. destruct (String.eqb_spec y x); [congruence|done]. }
    assert (forall v old, match changed v old with Some _ => false | None => true end = true ->
      forall x, v = Some x -> old = Some x) as Hch.
    { intros v old H x ->. cbn in H. by case_bool_decide. }
    destruct (_ || _) eqn:Hany.
    + right. eexists. split; [reflexivity|]. split; [done|]. intros now.
      unfold updated_by, agrees. rewrite decide_True by done. cbn. split_and!; intros x Hx.
      * destruct (Hsid x Hx) as [->| ->]; [by rewrite Hx|]. cbn. unfold or_null. rewrite truthy_ne by auto. done.
      * unfold changed. rewrite Hx. by case_bool_decide.
      * unfold changed. rewrite Hx. by case_bool_decide.
    + left. split; [done|]. rewrite !orb_false_iff in Hany. destruct Hany as [[Hc1 Hc2] Hc3].
      split_and!; intros x Hx.
      * destruct (Hsid x Hx) as [Hp|]; [|done]. rewrite Hp, Hx in Hc3. done.
      * apply (Hch (bs_name info)); [|done]. by destruct (changed _ _).
      * apply (Hch (bs_email info)); [|done]. by destruct (changed (bs_email info) _).
  - right; left. split; [done|]. unfold on_roster. destruct byId as [|] eqn:Hb; [done|]. rewrite He.
    unfold byId in Hb. by rewrite Hb.
Qed.

Lemma resolve_update_user d user info u : resolve d user info = Update u -> su_username u = user.
Proof. unfold resolve. cbv zeta. repeat case_match; try done; by intros [= <-]. Qed.

Lemma updates_nodup d b : NoDup b.*1 -> NoDup (su_username <$> updates (resolutions d b)).
Proof.
  intros Hnd. eapply sublist_NoDup; [exact Hnd|]. clear Hnd.
  induction b as [|[user info] b IH]; [constructor|]. cbn.
  destruct (resolve d user info) eqn:Hr; cbn; try (by constructor).
  apply resolve_update_user in Hr as ->. by constructor.
Qed.

(** The update of an entry is the only one for its username. *)
Lemma update_of d b user info u :
  NoDup b.*1 -> (user, info) ∈ b -> u ∈ updates (resolutions d b) -> su_username u = user ->
  resolve d user info = Update u.
Proof.
  intros Hnd Hin Hu Hname. apply list_elem_of_omap in Hu as (x & Hx & Hxu).
  apply list_elem_of_fmap in Hx as ([user' info'] & -> & Hin'). cbn in Hxu.
  destruct (resolve d user' info') eqn:Hr; try done. injection Hxu as ->.
  apply resolve_update_user in Hr as Hn. assert (user' = user) as -> by congruence.
  assert (info' = info) as ->; [|done].
  assert ((user, info') = (user, info)) by by apply (NoDup_fmap_inj fst b). congruence.
Qed.

Lemma ids_of_rows l : NoDup (s_username <$> l) ->
  ids_ok (foldl (fun m s => aset (s_username s) (s_id s) m) [] l) l.
Proof.
  intros Hnd s Hs. change (alookup (s_username s) (index (fun s => Some (s_username s)) s_id [] l) = Some (s_id s)).
  apply (index_hit _ s_id); [|done|done]. intros x Hx [= Heq]. by apply (NoDup_fmap_inj s_username l).
Qed.

Lemma updated_by_id now u s : s_id (updated_by now u s) = s_id s.
Proof. unfold updated_by. by case_decide. Qed.
Lemma updates_id now us s : s_id (foldl (fun s u => updated_by now u s) s us) = s_id s /\
  s_username (foldl (fun s u => updated_by now u s) s us) = s_username s.
Proof.
  revert s. induction us as [|u us IH]; intros s; [done|]. cbn. destruct (IH (updated_by now u s)) as [-> ->].
  by rewrite updated_by_id, updated_by_username.
Qed.

Lemma index_elem {A V} (key : A -> option string) (val : A -> V) l x :
  x ∈ index key val [] l -> exists r, r ∈ l /\ x.2 = val r.
Proof.
  assert (forall acc, x ∈ index key val acc l -> x ∈ acc \/ exists r, r ∈ l /\ x.2 = val r) as H.
  { induction l as [|r l IH]; intros acc Hx; [by left|]. rewrite index_cons in Hx.
    apply IH in Hx as [Hx|(y & Hy & Hv)]; [|right; exists y; split; [by constructor|done]].
    destruct (key r); [|by left].
    apply elem_of_aset in Hx as [->|Hx]; [right; exists r; split; [constructor|done]|by left]. }
  intros Hx. destruct (H [] Hx) as [Hn|]; [by apply elem_of_nil in Hn|done].
Qed.

Lemma pi_update_fields d lab pi :
  (pi_update d lab pi ≫= pu_piName) = changed (pi_name pi) (l_pi_name lab) /\
  (pi_update d lab pi ≫= pu_piEmail) = changed (pi_email pi) (l_pi_email lab) /\
  (pi_update d lab pi ≫= pu_piUsername) =
    changed (pi_username pi) (s_username <$> (l_pi_student_id lab ≫= fun i =>
      get_row (fun s => s_id s = i) (snd <$> db_by_name d))).
Proof.
  unfold pi_update. cbv zeta.
  destruct (changed (pi_username pi) _), (changed (pi_name pi) _), (changed (pi_email pi) _); done.
Qed.

Lemma set_changed v old x : v = Some x -> set_to (changed v old) old = Some x.
Proof. intros ->. cbn. case_bool_decide; [done|done]. Qed.

(** A committable plan. *)
Lemma rows_plan_ok d lab rs :
  let valid := rights (phaseA rs) in
  let batch := (phaseC valid).1 in
  pn_ok (rows_plan d lab rs) = true ->
  lefts (phaseA rs) = [] /\ (phaseB valid).2 = [] /\ (phaseC valid).2 = [] /\ shared_sids batch = [] /\
  clashes (resolutions d batch) = [] /\
  rows_plan d lab rs = mkPlan (l_name lab) (pi_update d lab (phaseB valid).1)
    (creates (resolutions d batch)) (updates (resolutions d batch)) (memberships d (l_id lab) batch)
    [] [] true.
Proof.
  cbv zeta. unfold rows_plan. destruct (phaseB _) as [pi c1], (phaseC _) as [batch c2]. cbn [fst snd pn_ok].
  intros [H1%bool_decide_eq_true%nil_length_inv H2%bool_decide_eq_true%nil_length_inv]%andb_true_iff.
  apply app_nil in H1 as [-> [-> [-> H1]%app_nil]%app_nil]. rewrite H1, H2. split_and!; done.
Qed.

Definition commit_post (d : Db) (labId now : Z) (plan : RosterImportPlan) (lab : LabRow) (d' : Db) : Prop :=
  exists ids new lab',
    let F s := foldl (fun s u => updated_by now u s) s (pn_studentsToUpdate plan) in
    rows (students d') = F <$> (rows (students d) ++ new) /\
    Forall2 created_as (pn_studentsToCreate plan) new /\
    ids_ok ids (rows (students d) ++ new) /\
    member_pairs d `prefix_of` member_pairs d' /\
    (forall user, user ∈ pn_membershipsToAdd plan ->
       exists sid, alookup user ids = Some sid /\ (labId, sid) ∈ member_pairs d') /\
    lab_of d' labId = Some lab' /\ l_name lab' = l_name lab /\
    l_pi_name lab' = set_to (pn_piUpdate plan ≫= pu_piName) (l_pi_name lab) /\
    l_pi_email lab' = set_to (pn_piUpdate plan ≫= pu_piEmail) (l_pi_email lab) /\
    match pn_piUpdate plan ≫= fun u => present (pu_piUsername u) with
    | Some x => exists i, alookup x ids = Some i /\ l_pi_student_id lab' = Some i
    | None => l_pi_student_id lab' = l_pi_student_id lab
    end.

Lemma commit_import_inv labId now plan w added w' lab :
  commit_import labId now plan w = (Ok added, w') -> db_wf (w_db w) ->
  lab_of (w_db w) labId = Some lab ->
  commit_post (w_db w) labId now plan lab (w_db w').
Proof.
  unfold commit_import. intros H Hwf Hl. inv_bind H. injection E as <- <-. cbv zeta in H.
  inv_bind H. destruct a. destruct (pi_statements_inv _ _ _ _ _ _ E Hl) as (Hs1 & Hm1 & l1 & Hl1 & _ & Hn & Hp & Hpn & Hpe).
  inv_bind H. rename a into ids. apply create_students_inv in E0 as ([Hm2 Hl2] & Hids & new & Hnew & Hc);
    [|rewrite Hs1; apply ids_of_rows, (wf_username _ Hwf)].
  inv_bind H. destruct a. apply updates_inv in E0 as ([Hm3 Hl3] & Hup).
  inv_bind H. destruct a. apply add_members_inv in H as (Hs5 & Hl5 & Hp5 & Hin).
  assert (lab_of (w_db w2) labId = Some l1) as Hlab3 by (unfold lab_of; by rewrite Hl3, Hl2).
  assert (students (w_db w3) = students (w_db w2) /\ lab_members (w_db w3) = lab_members (w_db w2) /\
    exists lab', lab_of (w_db w3) labId = Some lab' /\ l_name lab' = l_name l1 /\
      l_pi_name lab' = l_pi_name l1 /\ l_pi_email lab' = l_pi_email l1 /\
      match pn_piUpdate plan ≫= fun u => present (pu_piUsername u) with
      | Some x => exists i, alookup x ids = Some i /\ l_pi_student_id lab' = Some i
      | None => l_pi_student_id lab' = l_pi_student_id l1
      end) as (Hs4 & Hm4 & lab' & Hlab & Hn4 & Hpn4 & Hpe4 & Hpi4).
  { unfold designate_pi in E0. destruct (pn_piUpdate plan ≫= _) as [x|]; cbn [set_if] in E0.
    - destruct (alookup x ids) as [i|] eqn:Hi; [|done]. inv_bind E0. unfold throw_if in E1.
      destruct (i =? 0); [done|]. injection E1 as <- <-.
      destruct (set_lab_pi_inv _ _ _ _ _ E0 Hlab3) as (H1 & H2 & H3). split; [done|]. split; [done|].
      eexists. split; [exact H3|]. split_and!; try done. by exists i.
    - injection E0 as <-. split; [done|]. split; [done|]. by exists l1. }
  rewrite Hs1 in *. exists ids, new, lab'. cbv zeta. split_and!.
  - by rewrite Hs5, Hs4, Hup, Hnew.
  - done.
  - by rewrite <- Hnew.
  - unfold member_pairs in *. rewrite <- Hm1, <- Hm2, <- Hm3, <- Hm4. done.
  - done.
  - unfold lab_of in *. by rewrite Hl5.
  - congruence.
  - congruence.
  - congruence.
  - case_match; [done|congruence].
Qed.

Section settle.
Context (d : Db) (labId now : Z) (lab : LabRow) (rs : list CsvRow) (d' : Db).
Context (Hwf : db_wf d) (Hlab : lab_of d labId = Some lab).
#[local] Notation valid := (rights (phaseA rs)).
#[local] Notation batch := (phaseC valid).1.
#[local] Notation pi := (phaseB valid).1.
Context (Hok : pn_ok (rows_plan d lab rs) = true).
Context (Hpost : commit_post d labId now (rows_plan d lab rs) lab d').

Lemma the_batch_ok : batch_ok valid batch.
Proof. apply phaseC_ok. intros v x Hv. apply (rights_phaseA rs v Hv). Qed.

(** Every entry of the batch has its account. *)
Lemma commit_settles : settled d' labId batch.
Proof using Hwf Hlab Hok Hpost.
  destruct (rows_plan_ok d lab rs Hok) as (_ & _ & _ & _ & Hclash & Hplan).
  destruct Hpost as (ids & new & lab' & Hrows & Hnew & Hids & Hpairs & Hin & _).
  rewrite Hplan in *. cbn [pn_studentsToUpdate pn_studentsToCreate pn_membershipsToAdd] in *.
  set (us := updates (resolutions d batch)) in *.
  destruct the_batch_ok as [Hnd Huser Hsid].
  assert (l_id lab = labId) as Hid by by apply get_row_Some in Hlab as [? _].
  intros user info Hentry.
  assert (forall r, r ∈ rows (students d) ++ new -> s_username r = user ->
    (on_roster d labId user info = true -> (labId, s_id r) ∈ member_pairs d) ->
    agrees info (foldl (fun s u => updated_by now u s) r us) ->
    exists r', r' ∈ rows (students d') /\ s_username r' = user /\ agrees info r' /\
      (labId, s_id r') ∈ member_pairs d') as Hfin.
  { intros r Hr Hu Hros Hag. exists (foldl (fun s u => updated_by now u s) r us).
    destruct (updates_id now us r) as [-> ->]. split_and!; [|done|done|].
    - rewrite Hrows. by apply (list_elem_of_fmap_2 (fun s => foldl _ s us)).
    - destruct (on_roster d labId user info) eqn:Hon.
      + destruct Hpairs as [k ->]. apply elem_of_app. left. by apply Hros.
      + destruct (Hin user) as (sid & Hsid' & Hp).
        { unfold memberships. apply list_elem_of_fmap. exists (user, info). split; [done|].
          apply list_elem_of_filter. cbn. by rewrite Hid. }
        rewrite <- Hu in Hsid'. rewrite (Hids r Hr) in Hsid'. by injection Hsid' as ->. }
  assert (forall s, s_username s = user -> (forall u, resolve d user info <> Update u) ->
    foldl (fun s u => updated_by now u s) s us = s) as Hsame.
  { intros s Hs Hno. apply (foldl_updated_by now us s); [by apply updates_nodup|].
    intros u Hu Hname. apply (Hno u). apply (update_of d batch); [done|done|done|congruence]. }
  destruct (resolve_cases d labId user info Hwf (fun x => Hsid user info x Hentry))
    as [[i Hi]|[[Hc Hon]|(e & He & Hu & Hros & [[Hs Hag]|(u & Hr & Hname & Hag)])]].
  - exfalso. assert (i ∈ clashes (resolutions d batch)) as H; [|rewrite Hclash in H; by apply elem_of_nil in H].
    apply list_elem_of_omap. exists (Conflict i). split; [|done]. rewrite <- Hi.
    by apply (list_elem_of_fmap_2 (fun e => resolve d e.1 e.2) _ (user, info)).
  - assert (mkStudentCreate user (bs_sid info) (bs_name info) (bs_email info) ∈ creates (resolutions d batch)) as Hin'.
    { apply list_elem_of_omap. exists (resolve d user info). rewrite Hc at 2. split; [|done].
      by apply (list_elem_of_fmap_2 (fun e => resolve d e.1 e.2) _ (user, info)). }
    apply list_elem_of_lookup in Hin' as [k Hk].
    destruct (Forall2_lookup_l _ _ _ _ _ Hnew Hk) as (r & Hr & Hu & H1 & H2 & H3).
    apply (Hfin r); [apply elem_of_app; right; by eapply list_elem_of_lookup_2|done|congruence|].
    rewrite (Hsame r Hu) by (intros u; congruence). cbn in H1, H2, H3. unfold agrees. by rewrite H1, H2, H3.
  - apply (Hfin e); [apply elem_of_app; by left|done|done|]. rewrite (Hsame e Hu) by (intros u; congruence). done.
  - apply (Hfin e); [apply elem_of_app; by left|done|done|].
    assert (u ∈ us) as Hin'.
    { apply list_elem_of_omap. exists (Update u). split; [|done]. rewrite <- Hr.
      by apply (list_elem_of_fmap_2 (fun e => resolve d e.1 e.2) _ (user, info)). }
    destruct (foldl_updated_by now us e) as [H1 _]; [by apply updates_nodup|].
    rewrite (H1 u Hin') by congruence. apply Hag.
Qed.

(** The lab names the PI of the file. *)
Lemma commit_settles_pi (Hwf' : db_wf d') lab' : lab_of d' labId = Some lab' ->
  l_name lab' = l_name lab /\ pi_update d' lab' pi = None.
Proof using Hwf Hlab Hok Hpost.
  intros Hl'. destruct (rows_plan_ok d lab rs Hok) as (_ & _ & _ & _ & _ & Hplan).
  pose proof commit_settles as Hset.
  destruct Hpost as (ids & new & lab2 & Hrows & _ & Hids & _ & _ & Hl2 & Hn & Hpn & Hpe & Hpi).
  assert (lab2 = lab') as -> by congruence. split; [done|].
  rewrite Hplan in *. cbn [pn_piUpdate pn_studentsToUpdate] in *.
  destruct (pi_update_fields d lab pi) as (Hfn & Hfe & Hfu).
  enough (changed (pi_username pi) (s_username <$> (l_pi_student_id lab' ≫= fun i =>
      get_row (fun s => s_id s = i) (snd <$> db_by_name d'))) = None) as Hu.
  { unfold pi_update. cbv zeta. rewrite Hu, (changed_same (pi_name pi)), (changed_same (pi_email pi)); [done|..].
    - intros x Hx. rewrite Hpe, Hfe. by apply set_changed.
    - intros x Hx. rewrite Hpn, Hfn. by apply set_changed. }
  assert (forall r i, r ∈ rows (students d') -> s_id r = i ->
    get_row (fun s => s_id s = i) (snd <$> db_by_name d') = Some r) as Hget.
  { intros r i Hr <-. destruct (wf_students _ Hwf') as [[Hnd _] _].
    assert (forall y, y ∈ (snd <$> db_by_name d') -> y ∈ rows (students d')) as Hsub.
    { intros y (x & -> & Hx)%list_elem_of_fmap. rewrite db_by_name_index in Hx.
      apply index_elem in Hx as (z & Hz & ->). done. }
    assert (r ∈ (snd <$> db_by_name d')) as Hr'.
    { apply list_elem_of_fmap. exists (s_username r, r). split; [done|]. by apply alookup_in, by_name_hit. }
    destruct (get_row _ _) as [y|] eqn:Hy.
    - apply get_row_Some in Hy as [Hyi Hy]. f_equal. apply (NoDup_fmap_inj s_id (rows (students d'))); auto.
    - rewrite get_row_None in Hy. by destruct (Hy r Hr'). }
  apply changed_same. intros x Hx.
  assert (exists r, r ∈ rows (students d') /\ s_username r = x /\ l_pi_student_id lab' = Some (s_id r))
    as (r & Hr & <- & ->); [|cbn [mbind option_bind]; by rewrite (Hget r (s_id r) Hr eq_refl)].
  assert (x <> "" /\ exists info, (x, info) ∈ batch) as [Hne [info Hin]].
  { pose proof (phaseB_username valid x Hx) as Hv. apply list_elem_of_fmap in Hv as (v & -> & Hv).
    split; [exact (proj1 (rights_phaseA rs v Hv))|]. pose proof (bo_user _ _ the_batch_ok v Hv) as Hk.
    apply list_elem_of_fmap in Hk as ([k info] & -> & Hk). by exists info. }
  assert ((pi_update d lab pi ≫= fun u => present (pu_piUsername u)) =
    changed (pi_username pi) (s_username <$> (l_pi_student_id lab ≫= fun i =>
      get_row (fun s => s_id s = i) (snd <$> db_by_name d)))) as Hp.
  { rewrite <- Hfu. destruct (pi_update d lab pi) as [u|] eqn:Hup; [|done]. cbn in *.
    destruct (pu_piUsername u) as [y|] eqn:Hy; [|done]. apply present_Some. split; [done|].
    symmetry in Hfu. apply changed_Some in Hfu. congruence. }
  rewrite Hp in Hpi. destruct (changed (pi_username pi) _) as [y|] eqn:Hc.
  - apply changed_Some in Hc as Hy. assert (y = x) as -> by congruence.
    destruct Hpi as (i & Hi & ->). destruct (Hset x info Hin) as (r & Hr & Hu & _).
    exists r. split; [done|]. split; [done|]. rewrite Hrows in Hr.
    apply list_elem_of_fmap in Hr as (r0 & -> & Hr0).
    destruct (updates_id now (updates (resolutions d batch)) r0) as [-> Hname].
    rewrite <- Hu, Hname, (Hids r0 Hr0) in Hi. done.
  - assert (s_username <$> (l_pi_student_id lab ≫= fun i =>
      get_row (fun s => s_id s = i) (snd <$> db_by_name d)) = Some x) as Hcur.
    { rewrite Hx in Hc. cbn in Hc. by case_bool_decide. }
    apply fmap_Some in Hcur as (s & Hs & ->). apply bind_Some in Hs as (i & Hi & Hs).
    apply get_row_Some in Hs as [<- Hs]. apply list_elem_of_fmap in Hs as (z & Hz & Hzin).
    rewrite db_by_name_index in Hzin. apply index_elem in Hzin as (s' & Hs' & Hz2).
    assert (s' = s) as -> by (unfold id in Hz2; congruence).
    exists (foldl (fun s u => updated_by now u s) s (updates (resolutions d batch))).
    destruct (updates_id now (updates (resolutions d batch)) s) as [-> ->]. split_and!; [|done|congruence].
    rewrite Hrows. apply (list_elem_of_fmap_2 (fun s => foldl _ s _)), elem_of_app. by left.
Qed.
End settle.

(** The tables the plan reads. *)
Definition same_tables (d d' : Db) : Prop :=
  students d' = students d /\ labs d' = labs d /\ lab_members d' = lab_members d.

(** A committable plan is the plan of the file's rows. *)
Lemma roster_plan_shape d lab text :
  pn_ok (roster_plan d lab text) = true ->
  forall d' l', roster_plan d' l' text = rows_plan d' l' (csv_rows (parseCsv text)).
Proof.
  unfold roster_plan. destruct (MAX_IMPORT_BYTES <? _); [done|].
  destruct (bool_decide (headers _ = [])); [done|]. destruct (negb _); [done|].
  by destruct (MAX_IMPORT_ROWS <? _).
Qed.

Lemma rows_plan_tables d d' lab rs : same_tables d d' -> rows_plan d' lab rs = rows_plan d lab rs.
Proof.
  intros (Hs & _ & Hm).
  unfold rows_plan, pi_update, resolutions, memberships, resolve, on_roster, db_by_name, db_by_id.
  by rewrite Hs, Hm.
Qed.

Lemma after_commit_tables labId actor text name result w1 (added : list StudentRow) r w' :
  (audit actor "lab.roster_import" (Some name) text;;
   counts ← for_map (provision_added labId actor) added;
   mret (result <| ri_provisioned := list_sum counts |>)) w1 = (Ok r, w') ->
  same_tables (w_db w1) (w_db w').
Proof.
  intros H.
  assert (forall d d', students d' = students d -> labs d' = labs d -> lab_members d' = lab_members d ->
    lab_placements d' = lab_placements d -> same_tables (w_db w1) d -> same_tables (w_db w1) d') as HJ.
  { intros d d' H1 H2 H3 _ (H4 & H5 & H6). unfold same_tables. split_and!; congruence. }
  assert (preserves (on_db (same_tables (w_db w1))) (
    audit actor "lab.roster_import" (Some name) text;;
    counts ← for_map (provision_added labId actor) added;
    mret (result <| ri_provisioned := list_sum counts |>))) as Hp.
  { apply preserves_bind; [by apply audit_other|]. intros []. apply preserves_bind; [|intros; apply preserves_ret].
    apply preserves_for_map. intros s. by apply provision_added_other. }
  specialize (Hp w1). rewrite H in Hp. by apply Hp.
Qed.

(** C26: an import is idempotent: after an import that succeeded, the plan of the same text is
    committable and empty, with no conflict, nobody to create, to update or to add, and the PI
    unchanged. *)
Theorem roster_import_idempotent labId text actor w r w' :
  wf w -> applyRosterImport labId text actor w = (Ok r, w') ->
  exists name, planRosterImport labId text w' = (Ok (mkPlan name None [] [] [] [] [] true), w').
Proof.
  intros Hwf H. rewrite planRosterImport_eq. unfold applyRosterImport in H.
  rewrite (bind_step _ _ _ _ _ (planRosterImport_eq labId text w)) in H. cbv beta in H.
  destruct (pn_ok (derived_plan _ _ _)) eqn:Hok; [|done]. cbn [negb] in H.
  rewrite (bind_step (throw_if _ _) _ w tt w) in H by done.
  rewrite (bind_step date_now _ w (clock (w_ticks w)) (w <| w_ticks ::= S |>)) in H by done. cbv beta in H.
  inv_bind H. rename a into added, w0 into w1. unfold transaction in E.
  destruct (commit_import _ _ _ _) as [[a|e] w2] eqn:Hc; [|done]. injection E as -> ->.
  unfold derived_plan in *. destruct (lab_of (w_db w) labId) as [lab|] eqn:Hlab; [|done].
  pose proof (roster_plan_shape _ _ _ Hok) as Htext. set (rs := csv_rows (parseCsv text)) in *.
  rewrite Htext in Hok, Hc, H.
  assert (db_wf (w_db w1)) as Hwf1.
  { assert (wf (@Ok exn _ added, w1).2) as Hx; [rewrite <- Hc; by apply commit_import_wf|]. apply Hx. }
  pose proof (commit_import_inv _ _ _ _ _ _ _ Hc (proj1 Hwf) Hlab) as Hpost.
  change (w_db (w <| w_ticks ::= S |>)) with (w_db w) in Hpost.
  pose proof (commit_settles (w_db w) labId _ lab rs (w_db w1) (proj1 Hwf) Hlab Hok Hpost) as Hset.
  pose proof (commit_settles_pi (w_db w) labId _ lab rs (w_db w1) (proj1 Hwf) Hlab Hok Hpost Hwf1) as Hpi.
  destruct Hpost as (_ & _ & lab' & _ & _ & _ & _ & _ & Hl' & _).
  assert (same_tables (w_db w1) (w_db w')) as (Hs & Hl & Hm).
  { eapply after_commit_tables. exact H. }
  assert (lab_of (w_db w') labId = Some lab') as -> by (unfold lab_of; by rewrite Hl).
  destruct (Hpi lab' Hl') as [Hn Hpu]. exists (l_name lab').
  rewrite Htext, (rows_plan_tables (w_db w1)) by done. do 2 f_equal.
  destruct (rows_plan_ok (w_db w) lab rs Hok) as (H1 & H2 & H3 & H4 & _).
  assert (l_id lab' = labId) as Hid by by apply get_row_Some in Hl' as [? _].
  destruct (settled_empty (w_db w1) labId (phaseC (rights (phaseA rs))).1 Hwf1 Hset) as (E1 & E2 & E3 & E4);
    [apply bo_sid with (1 := the_batch_ok rs)|].
  unfold rows_plan. destruct (phaseB _) as [pi c1], (phaseC _) as [batch c2]. cbn [fst snd] in *. subst c1 c2.
  by rewrite Hid, Hpu, E1, E2, E3, E4, H1, H4.
Qed.
End idempotent.

(** ** The theorem at work: a roster with an account to update, one to create and the PI *)

#[local] Instance import_pf : Platform := demo_pf demo_accepts.

Definition roster_file : string :=
  "role,username,email,student_id" +:+ String lf (",ben,ben@lab.edu,s2" +:+ String lf
  ("student,cid,,s3" +:+ String lf ("pi,ann,lin@lab.edu," +:+ String lf ""))).

Lemma roster_file_plan :
  derived_plan (w_db (demo_world demo_accepts)) 1 roster_file =
  mkPlan "vision" None [mkStudentCreate "cid" (Some "s3") None None]
    [mkStudentUpdate "ben" (Some "s2") None (Some "ben@lab.edu");
     mkStudentUpdate "ann" None None (Some "lin@lab.edu")] ["cid"] [] [] true.
Proof. vm_compute. reflexivity. Qed.

Lemma roster_import_idempotent_witness :
  exists r w' name, applyRosterImport 1 roster_file (Some "root") (demo_world demo_accepts) = (Ok r, w') /\
    planRosterImport 1 roster_file w' = (Ok (mkPlan name None [] [] [] [] [] true), w').
Proof.
  destruct (applyRosterImport 1 roster_file (Some "root") (demo_world demo_accepts)) as [[r|e] w'] eqn:He.
  - exists r, w'. destruct (roster_import_idempotent 1 roster_file (Some "root") (demo_world demo_accepts) r w')
      as [name H]; [apply demo_world_wf|exact He|]. exists name. split; [reflexivity|exact H].
  - vm_compute in He. discriminate He.
Defined.
