(* ===== verification/View.v ===== *)
(** * View: what a page shows, and what its forms send

    A page is a function that reads the database and returns a tree: the texts that depend on
    data, the links, and the forms with their controls.  Wording that is fixed, table heads,
    icons and styling are left out.  [entries] is the data set a browser builds from a form
    nobody has edited, [requests] the requests the enabled buttons of a page send; a form of
    the pages is tied to the action it posts to, of a type [A] of requests. *)
From S2P Require Import Prelude Js Schema Sql Mailer Web.
From Stdlib Require Import Ascii.
Open Scope Z_scope.

(** ** Controls *)

Inductive kind :=
| KHidden | KText | KNumber | KPassword | KArea
| KCheck (checked : bool)
| KSelect (options : list (string * bool)).    (* value, disabled *)

Record control := mkControl {
  ct_name : string; ct_kind : kind; ct_value : string; ct_disabled : bool; ct_required : bool }.

(** A line break of a text area is sent as CRLF. *)
Fixpoint crlf (s : string) : string :=
  match s with
  | EmptyString => ""
  | String c s' =>
      if Ascii.eqb c "013" then
        match s' with
        | String c' s'' => if Ascii.eqb c' "010" then String c (String c' (crlf s''))
                           else String c (String "010" (crlf s'))
        | EmptyString => String c (String "010" "")
        end
      else if Ascii.eqb c "010" then String "013" (String "010" (crlf s'))
      else String c (crlf s')
  end.

(** The option a select shows: the one with the value asked for, or else the first enabled. *)
Definition selected (options : list (string * bool)) (value : string) : option (string * bool) :=
  match get_row (fun o => o.1 = value) options with
  | Some o => Some o
  | None => get_row (fun o => o.2 = false) options
  end.

(** The entry of a control: none without a name, when disabled, for a box that is not ticked and
    for a disabled option. *)
Definition entry (c : control) : FormData :=
  if ct_disabled c || negb (truthy (ct_name c)) then []
  else match ct_kind c with
       | KCheck false => []
       | KSelect os =>
           match selected os (ct_value c) with Some (v, false) => [(ct_name c, v)] | _ => [] end
       | KArea => [(ct_name c, crlf (ct_value c))]
       | _ => [(ct_name c, ct_value c)]
       end.

(** A required control that is empty keeps the browser from submitting its form. *)
Definition filled_in (c : control) : bool := negb (ct_required c) || truthy (ct_value c).

(** ** Trees *)

Section view.
Context {A : Type}.

Unset Elimination Schemes.
Inductive html :=
| HText (s : string)
| HCtl (c : control)
| HButton (label : string) (disabled : bool)
| HEl (l : list html)
| HLink (href : string) (l : list html)
| HForm (act : FormData -> A) (l : list html).
Set Elimination Schemes.

Section html_ind.
Context (P : html -> Prop).
Context (Htext : forall s, P (HText s)) (Hctl : forall c, P (HCtl c))
  (Hbutton : forall s b, P (HButton s b)) (Hel : forall l, Forall P l -> P (HEl l))
  (Hlink : forall h l, Forall P l -> P (HLink h l)) (Hform : forall a l, Forall P l -> P (HForm a l)).

Fixpoint html_ind (h : html) : P h :=
  let go := fix go l : Forall P l :=
    match l with [] => List.Forall_nil _ | x :: l' => List.Forall_cons _ _ _ (html_ind x) (go l') end in
  match h with
  | HText s => Htext s
  | HCtl c => Hctl c
  | HButton s b => Hbutton s b
  | HEl l => Hel l (go l)
  | HLink u l => Hlink u l (go l)
  | HForm a l => Hform a l (go l)
  end.
End html_ind.

Fixpoint controls (h : html) : list control :=
  match h with
  | HCtl c => [c]
  | HText _ | HButton _ _ => []
  | HEl l | HLink _ l | HForm _ l => List.flat_map controls l
  end.

Fixpoint live_button (h : html) : bool :=
  match h with
  | HButton _ d => negb d
  | HText _ | HCtl _ => false
  | HEl l | HLink _ l | HForm _ l => existsb live_button l
  end.

Fixpoint texts (h : html) : list string :=
  match h with
  | HText s => [s]
  | HCtl c => [ct_value c]
  | HButton s _ => [s]
  | HEl l | HForm _ l => List.flat_map texts l
  | HLink u l => u :: List.flat_map texts l
  end.

Definition entries (l : list html) : FormData := List.flat_map entry (List.flat_map controls l).

Definition submittable (l : list html) : bool :=
  existsb live_button l && forallb filled_in (List.flat_map controls l).

(** What can be sent from the page as it was rendered. *)
Fixpoint requests (h : html) : list A :=
  match h with
  | HText _ | HCtl _ | HButton _ _ => []
  | HEl l | HLink _ l => List.flat_map requests l
  | HForm act l => if submittable l then [act (entries l)] else []
  end.

(** ** Writing a page *)

Definition hidden (name value : string) : html := HCtl (mkControl name KHidden value false false).
Definition input (name value : string) : html := HCtl (mkControl name KText value false false).
Definition input_required (name value : string) : html := HCtl (mkControl name KText value false true).
Definition number_input (name value : string) : html := HCtl (mkControl name KNumber value false false).
Definition password_input (name : string) : html := HCtl (mkControl name KPassword "" false false).
Definition area (name value : string) : html := HCtl (mkControl name KArea value false false).
Definition checkbox (name : string) (checked : bool) : html :=
  HCtl (mkControl name (KCheck checked) "on" false false).
Definition select_input (name value : string) (options : list string) : html :=
  HCtl (mkControl name (KSelect ((fun o => (o, false)) <$> options)) value false false).
Definition submit (label : string) : html := HButton label false.

(** [{c && <...>}] and [{o ? <...> : null}] *)
Definition show (c : bool) (l : list html) : list html := if c then l else [].
Definition show_some {B} (o : option B) (f : B -> list html) : list html :=
  match o with Some b => f b | None => [] end.
(** The same for a string, which is false when empty. *)
Definition show_str (o : option string) (f : string -> list html) : list html :=
  show_some (o ≫= or_null) f.

(** ** What a part of a page sends, the page sends *)

Lemma elem_of_flat_map {B C} (f : B -> list C) l y :
  y ∈ List.flat_map f l <-> exists x, x ∈ l /\ y ∈ f x.
Proof.
  rewrite list_elem_of_In, in_flat_map. split; intros (x & Hx & Hy); exists x;
    [rewrite !list_elem_of_In|rewrite <- !list_elem_of_In]; done.
Qed.

Lemma flat_map_app' {B C} (f : B -> list C) l k :
  List.flat_map f (l ++ k) = List.flat_map f l ++ List.flat_map f k.
Proof. apply flat_map_app. Qed.

Lemma requests_El l : requests (HEl l) = List.flat_map requests l.
Proof. done. Qed.
Lemma requests_show c l : List.flat_map requests (show c l) = if c then List.flat_map requests l else [].
Proof. by destruct c. Qed.
Lemma elem_of_requests_map {B} (f : B -> html) (l : list B) a :
  a ∈ List.flat_map requests (f <$> l) <-> exists x, x ∈ l /\ a ∈ requests (f x).
Proof.
  rewrite elem_of_flat_map. split.
  - intros (h & (x & -> & Hx)%list_elem_of_fmap & Ha). by exists x.
  - intros (x & Hx & Ha). exists (f x). split; [by apply list_elem_of_fmap_2|done].
Qed.

(** ** The data set of a form made of parts *)

Lemma entries_app l k : entries (l ++ k) = entries l ++ entries k.
Proof. unfold entries. by rewrite !flat_map_app. Qed.
Lemma entries_cons h l : entries (h :: l) = entries [h] ++ entries l.
Proof. apply (entries_app [h]). Qed.
Lemma entries_fmap {B} (f : B -> html) l : entries (f <$> l) = List.flat_map (fun x => entries [f x]) l.
Proof. induction l as [|x l IH]; [done|]. by rewrite fmap_cons, entries_cons, IH. Qed.
Lemma entries_flat_map {B} (f : B -> list html) l :
  entries (List.flat_map f l) = List.flat_map (fun x => entries (f x)) l.
Proof. induction l as [|x l IH]; [done|]. cbn [List.flat_map]. by rewrite entries_app, IH. Qed.
Lemma entries_show c l : entries (show c l) = if c then entries l else [].
Proof. by destruct c. Qed.
End view.
Arguments html : clear implicits.

Lemma flat_map_nil {A B} (f : A -> list B) l : (forall x, f x = []) -> List.flat_map f l = [].
Proof. intros H. induction l as [|x l IH]; [done|]. cbn. by rewrite H, IH. Qed.
Lemma flat_map_single {A B} (f : A -> B) (l : list A) : List.flat_map (fun x => [f x]) l = f <$> l.
Proof. induction l as [|x l IH]; [done|]. cbn. by rewrite IH. Qed.

#[export] Hint Rewrite @flat_map_app' @requests_El @requests_show : html.

(** ** Texts *)

Definition badge {A} (s : string) : html A := HText s.
(** [o ?? "—"] *)
Definition or_dash (o : option string) : string := nullish o "—".

Lemma crlf_truthy s : truthy (crlf s) = truthy s.
Proof.
  destruct s as [|c s]; [done|]. cbn. destruct (Ascii.eqb c "013").
  - destruct s as [|c' s]; [done|]. by destruct (Ascii.eqb c' "010").
  - by destruct (Ascii.eqb c "010").
Qed.
