(* ===== verification/LabPages.v ===== *)
(** * LabPages: the lab and student pages, [app/(app)/labs] and [app/(app)/students]

    The list of labs, a lab, one of its placements and the form that recreates its container,
    with their client components.  A component with state takes it as an argument.  [None] is
    [notFound()].

    The second part relates what the pages offer to what the actions accept. *)
From stdpp Require Import pretty.
From S2P Require Import Prelude Js Numbers Schema Sql DbWf Secrets Queue Testbed Settings Format Mailer Placements Labs Students Nodes Hub HubConn Web RateLimit Flash Actions LabActions Console View QueueFacts.
Open Scope Z_scope.

Abbreviation page := (html console_action).

(** [labs/_components/PlacementForm.tsx]: a node a lab can be granted access to. *)
Record NodeOpt := mkNodeOpt {
  no_id : Z; no_name : string; no_online : bool; no_coldBackend : ColdBackend;
  no_ownerName : option string; no_ready : bool; no_blockedReason : option string }.

Definition state_str (s : PlacementState) : string :=
  match s with
  | PQueued => "queued" | PProvisioning => "provisioning" | PActive => "active"
  | PFailed => "failed" | PDeleting => "deleting"
  end.
Definition member_state_str (s : MemberState) : string :=
  match s with
  | MQueued => "queued" | MProvisioning => "provisioning" | MActive => "active"
  | MFailed => "failed" | MRemoving => "removing"
  end.
Definition online_str (b : bool) : string := if b then "online" else "offline".

(** The state of the grant form: the node chosen, and the boxes of the quota fields. *)
Record GrantState := mkGrant { gr_nodeId : Z; gr_fast : bool; gr_cold : bool }.
Definition grant0 : GrantState := mkGrant 0 false false.

Section lab_pages.
Context {HK : Honker} {PF : Platform}.

(** [{ key: value }[key]] of the settings, at the type the pages use *)
Definition s_num (key : string) (s : list (string * json)) : num :=
  num_of_json (default JNull (alookup key s)).
(** A value as the default of an input. *)
Definition s_attr (key : string) (s : list (string * json)) : string :=
  match default JNull (alookup key s) with JNull => "" | v => js_String v end.
Definition s_bool (key : string) (s : list (string * json)) : bool :=
  json_truthy (default JNull (alookup key s)).
Definition tb_attr (bytes : num) : string := num_str (num_div bytes (num_of_Z TIB)).

(** [x ? takeFlash(x) : null] *)
Definition flash_of (o : option string) : WAct (option string) :=
  match o ≫= or_null with Some id => takeFlash id | None => mret None end.
Definition notice (o : option string) : list page := show_str o (fun s => [HText s]).

(** ** [labs/_components] *)

Definition CreateLabForm (labs : list (Z * string)) (copyFrom : Z) : page :=
  HForm CCreateLab (
    [input_required "name" ""; input_required "piUsername" ""; input_required "piName" "";
     input_required "piEmail" ""] ++
    show (0 <? length labs)%nat
      [HCtl (mkControl "copyFromLabId"
         (KSelect (("0", false) :: ((fun l => (string_of_Z l.1, false)) <$> labs)))
         (string_of_Z copyFrom) false false);
       HCtl (mkControl "copyStudents" (KCheck false) "on" (copyFrom =? 0) false)] ++
    [submit "Create lab"]).

Definition StudentQuotaFields (allowCold : bool) (fastDefault coldDefault : option num) (fast cold : bool)
    : list page :=
  let quota name d := HCtl (mkControl name KNumber (num_str (nullish d (num_of_Z 1))) false true) in
  [checkbox "enableStudentFastQuota" fast] ++ show fast [quota "studentFastTb" fastDefault] ++
  (if allowCold
   then [checkbox "enableStudentColdQuota" cold] ++ show cold [quota "studentColdTb" coldDefault]
   else []).

Definition PlacementForm (labId : Z) (nodes : list NodeOpt) (defaultFastTb defaultColdTb : num)
    (st : GrantState) : page :=
  match nodes with
  | [] => HText "No nodes available"
  | _ =>
      let noNodeSelected := gr_nodeId st =? 0 in
      let selected := get_row (fun n => no_id n = gr_nodeId st) nodes in
      let isSmb := match selected with Some n => bool_decide (no_coldBackend n = Smb) | None => false end in
      let blocked := match selected with Some n => negb (no_ready n) | None => false end in
      HForm CGrantNodeAccess (
        [hidden "labId" (string_of_Z labId);
         HCtl (mkControl "nodeId"
           (KSelect (("", true) :: ((fun n => (string_of_Z (no_id n), false)) <$> nodes)))
           (if noNodeSelected then "" else string_of_Z (gr_nodeId st)) false true);
         number_input "fastTb" (num_str defaultFastTb)] ++
        (if isSmb
         then [HText ("Managed by owner " +:+ or_dash (selected ≫= no_ownerName))]
         else [number_input "coldTb" (num_str defaultColdTb)]) ++
        [input "image" DEFAULT_IMAGE; input "cpus" "4"; input "memory" "8g"; input "shmSize" "1g";
         input "rootfsQuota" "300g"; input "restart" "unless-stopped"] ++
        StudentQuotaFields (negb isSmb) None None (gr_fast st) (gr_cold st) ++
        show blocked (show_some (selected ≫= no_blockedReason) (fun r => [HText r])) ++
        [HButton "Grant node access" (blocked || noNodeSelected)])
  end.

(** ** [labs/page.tsx] *)

(** [Map.get(k) ?? []], extended by one. *)
Definition push_to {V} (k : Z) (v : V) (m : gmap Z (list V)) : gmap Z (list V) :=
  <[k := default [] (m !! k) ++ [v]]> m.
Definition placements_by_lab (l : list LabPlacementSummary) : gmap Z (list LabPlacementSummary) :=
  fold_left (fun m p => push_to (lp_lab_id p) p m) l ∅.

Definition placement_href (labId placementId : Z) : string :=
  "/labs/" +:+ string_of_Z labId +:+ "/placements/" +:+ string_of_Z placementId.

Definition lab_row (m : gmap Z (list LabPlacementSummary)) (l : LabSummary) : page :=
  let lab := ls_lab l in
  HEl ([HLink ("/labs/" +:+ string_of_Z (l_id lab)) [HText (l_name lab)];
        HText (or_dash (l_pi_name lab))] ++
       show_str (l_pi_email lab) (fun e => [HText e]) ++
       [HText (nat_str (ls_student_count l))] ++
       (if (ls_placement_count l =? 0)%nat then [HText "none"]
        else (fun p => HLink (placement_href (l_id lab) (lp_id p))
                         [HText (lp_node_name p +:+ ": " +:+ state_str (lp_state p))])
               <$> default [] (m !! l_id lab))).

Definition LabsPage (imported : option string) (copyFrom : Z) : WAct page :=
  importedMsg ← flash_of imported;
  labs ← on_act listLabs;
  summaries ← on_act listLabPlacementSummaries;
  mret (HEl (notice importedMsg ++
    [CreateLabForm ((fun l => (l_id (ls_lab l), l_name (ls_lab l))) <$> labs) copyFrom] ++
    match labs with
    | [] => [HText "No labs yet."]
    | _ => lab_row (placements_by_lab summaries) <$> labs
    end)).

(** ** [labs/[id]/page.tsx] *)

Definition PlacementCard (p : Placement) (clients : list string) : page :=
  let r := pl_row p in
  HEl ([HText (pl_node_name p); badge (online_str (pl_online p)); badge (state_str (p_state r))] ++
       show (bool_decide (p_state r = PFailed)) (show_str (p_last_error r) (fun e => [HText e])) ++
       [HText ("SSH port " +:+ string_of_Z (p_ssh_port r) +:+ " · image " +:+ p_image r);
        HText (if bool_decide (pl_cold_backend p = Smb)
               then "Cold storage managed by " +:+ nullish (pl_cold_owner_name p) "unconfigured owner"
               else if (0 <? length clients)%nat then "Cold-storage owner for " +:+ join ", " clients
               else "Local ZFS cold storage.");
        HLink (placement_href (p_lab_id r) (p_id r)) [HText "Manage placement"]]).

(** The SMB clients of a placement's node among the lab's placements. *)
Definition clients_of (placements : list Placement) (p : Placement) : list string :=
  pl_node_name <$> filter (fun c => pl_cold_owner_node_id c = Some (p_node_id (pl_row p))) placements.

(** A node with its owner's name and the state of the owner's placement of the lab. *)
Definition node_opt (d : Db) (labId : Z) (n : NodeRow) : NodeOpt :=
  let owner_name := n_name <$> (n_cold_owner_node_id n ≫= node_of d) in
  let owner_state := i ← n_cold_owner_node_id n;
    p_state <$> get_row (fun p => p_lab_id p = labId /\ p_node_id p = i) (rows (lab_placements d)) in
  let '(ready, blockedReason) :=
    if bool_decide (n_cold_backend n = Smb) then
      match owner_name ≫= or_null with
      | None => (false, Some "This SMB node has no cold-storage owner configured (set it on the Nodes page).")
      | Some o =>
          if negb (bool_decide (owner_state = Some PActive))
          then (false, Some ("Grant the owner '" +:+ o +:+ "' access to this lab first (its placement is " +:+
                             nullish (state_str <$> owner_state) "missing" +:+ ")."))
          else if negb (n_cold_ready n)
          then (false, Some ("The SMB cold-storage mount on '" +:+ n_name n +:+ "' is not active yet."))
          else (true, None)
      end
    else (true, None) in
  mkNodeOpt (n_id n) (n_name n) (n_online n) (n_cold_backend n) owner_name ready blockedReason.

Definition availableNodes (d : Db) (labId : Z) (placements : list Placement) : list NodeOpt :=
  node_opt d labId <$>
    filter (fun n => n_id n ∉ (fun p => p_node_id (pl_row p)) <$> placements)
      (sort_by (by_name n_name) (rows (nodes d))).

(** A student's row of a roster, with the form that removes them. *)
Definition roster_row (act : FormData -> console_action) (labId : Z) (m : Member) : page :=
  let s := mb_student m in
  HEl [HText (s_username s); HText (or_dash (s_email s)); HText (or_dash (s_name s));
       HText (or_dash (s_student_id s));
       if mb_is_pi m then badge "PI · protected"
       else HForm act [hidden "labId" (string_of_Z labId); hidden "studentId" (string_of_Z (s_id s));
                       checkbox "deleteData" false; submit "Remove"]].

Definition lab_meta_form (lab : LabRow) (members : list Member) : page :=
  HForm CUpdateLabMeta
    [hidden "labId" (string_of_Z (l_id lab));
     input_required "piUsername"
       (nullish ((fun m => s_username (mb_student m)) <$> get_row (fun m => mb_is_pi m = true) members) "");
     input "piName" (nullish (l_pi_name lab) ""); input "piEmail" (nullish (l_pi_email lab) "");
     submit "Save"].

Definition add_member_form (labId : Z) : page :=
  HForm CAddMember [hidden "labId" (string_of_Z labId); input_required "username" ""; input "email" "";
                    input "name" ""; input "studentId" ""; submit "Add student"].

Definition destroy_lab_forms (lab : LabRow) (placements : list Placement) : list page :=
  let offline := filter (fun p => pl_online p = false) placements in
  [HForm CDestroyLab [hidden "labId" (string_of_Z (l_id lab)); submit "Delete lab"]] ++
  show (0 <? length offline)%nat
    [HForm CDestroyLab [hidden "labId" (string_of_Z (l_id lab)); hidden "force" "1";
       HText ("Node(s) " +:+ join ", " (pl_node_name <$> offline) +:+ " are offline and cannot confirm teardown.");
       submit "Force delete lab"]].

Definition LabDetail (id : string) (saved error : option string) (st : GrantState) : WAct (option page) :=
  savedMsg ← flash_of saved;
  errorMsg ← flash_of error;
  let labId := row_id (str_to_num id) in
  lab ← on_act (getLab labId);
  match lab with
  | None => mret None
  | Some lab =>
      members ← on_act (listMembers labId);
      placements ← on_act (listPlacements labId);
      d ← on_act db;
      s ← on_act getSettings;
      let tb key := num_div (s_num key s) (num_of_Z TIB) in
      mret (Some (HEl (
        [HText ("Lab: " +:+ l_name lab)] ++ notice savedMsg ++ notice errorMsg ++
        [lab_meta_form lab members; HText ("Nodes (" +:+ nat_str (length placements) +:+ ")")] ++
        match placements with
        | [] => [HText "This lab has no node access yet"]
        | _ => (fun p => PlacementCard p (clients_of placements p)) <$> placements
        end ++
        [PlacementForm (l_id lab) (availableNodes d labId placements)
           (tb "fastQuotaDefaultBytes") (tb "slowQuotaDefaultBytes") st;
         HText ("Roster (" +:+ nat_str (length members) +:+ ")"); add_member_form (l_id lab)] ++
        match members with
        | [] => [HText "No students yet."]
        | _ => roster_row CRemoveMember (l_id lab) <$> members
        end ++ destroy_lab_forms lab placements)))
  end.

(** ** [labs/[id]/placements/[placementId]/page.tsx] *)

Record Usage := mkUsage { us_used : num; us_quota : option num; us_ts : Z }.
Record TaskStatus := mkTaskStatus { ts_state : TaskState; ts_error : option string; ts_updated_at : Z }.

(** [ORDER BY key DESC LIMIT 1] *)
Definition newest {B} (key : B -> Z) (l : list B) : option B :=
  head (sort_by (fun a b => key b <=? key a) l).

Definition latestUsage (d : Db) (placementId : Z) (pool : string) : option Usage :=
  (fun s => mkUsage (ss_used_bytes s) (as_num (ss_quota_bytes s)) (ss_ts s)) <$>
    newest ss_ts (select (fun s => ss_placement_id s = Some placementId /\ ss_student_id s = None /\
                                   ss_pool s = pool) (rows (storage_samples d))).

(** [json_extract(params, '$.lab') = lab] *)
Definition task_lab (lab : string) (t : TaskRow) : Prop :=
  match t_params t with Some (TJson v) => field "lab" v = Some (JStr lab) | _ => False end.
#[global] Instance task_lab_dec lab t : Decision (task_lab lab t).
Proof. unfold task_lab. destruct (t_params t) as [[]|]; apply _. Defined.

Definition latestTask (d : Db) (p : Placement) (action : string) : option TaskStatus :=
  (fun t => mkTaskStatus (t_state t) (t_error t) (t_updated_at t)) <$>
    newest t_created_at (select (fun t => t_node t = pl_node_name p /\ t_action t = action /\
                                          task_lab (pl_lab_name p) t) (rows (task_log d))).

Definition taskLabel (task : option TaskStatus) : option string :=
  (fun t => match ts_state t with TOk => "applied" | TFailed => "failed" | _ => "queued" end) <$> task.

Definition QuotaStatus (desired : Z) (usage : option Usage) (capBytes : option num) : page :=
  let percent := u ← usage; pct (us_used u) (Some (num_of_Z desired)) in
  let quota := u ← usage; q ← us_quota u; if num_truthy q then Some (fmtBytes (Some q)) else None in
  HText ("Desired " +:+ fmtBytesZ desired +:+ " · agent reported " +:+ or_dash quota +:+ " · used " +:+
    or_dash ((fun u => fmtBytes (Some (us_used u))) <$> usage) +:+
    (match percent with Some p => " (" +:+ num_str p +:+ "%)" | None => "" end) +:+
    (match capBytes with Some c => " · node pool capacity " +:+ fmtBytes (Some c) | None => "" end)).

Definition unit_str (u : QuotaUnit) : string := match u with UMB => "MB" | UGB => "GB" | UTB => "TB" end.

(** An amount and its unit. *)
Definition quota_fields (amountName unitName : string) (bytes : Z) (canEdit : bool) : list page :=
  let '(amount, unit) := bytesToQuotaInput (num_of_Z bytes) in
  [HCtl (mkControl amountName KNumber (num_str amount) (negb canEdit) false);
   HCtl (mkControl unitName (KSelect [("MB", false); ("GB", false); ("TB", false)]) (unit_str unit)
           (negb canEdit) false)].

Definition quota_form (d : Db) (p : Placement) (owner : option Placement) (canEdit : bool) : page :=
  let r := pl_row p in
  let capacity := pool_capacity d (p_node_id r) in
  HForm CSetPlacementQuota (
    [hidden "placementId" (string_of_Z (p_id r))] ++
    quota_fields "fastAmount" "fastUnit" (p_fast_quota_bytes r) canEdit ++
    [QuotaStatus (p_fast_quota_bytes r) (latestUsage d (p_id r) "fast") (cap_fast capacity)] ++
    match p_cold_quota_bytes r with
    | None => [HText ("Managed by " +:+ nullish (nullish_or (pl_node_name <$> owner) (pl_cold_owner_name p))
                        "owner node" +:+ "; change it on the owner placement.")]
    | Some q =>
        quota_fields "coldAmount" "coldUnit" q canEdit ++
        [QuotaStatus q (latestUsage d (p_id r) "cold") (cap_cold capacity)]
    end ++ [HButton "Apply live" (negb canEdit)]).

Definition cold_text (p : Placement) (owner : option Placement) (clients : list string) : page :=
  if bool_decide (pl_cold_backend p = Smb) then
    HEl ([HText "Cold storage is managed by "] ++
         match owner with
         | Some o => [HLink (placement_href (p_lab_id (pl_row p)) (p_id (pl_row o))) [HText (pl_node_name o)];
                      HText (" (" +:+ fmtBytesZ (nullish (p_cold_quota_bytes (pl_row o)) 0) +:+ " desired)")]
         | None => [HText (nullish (pl_cold_owner_name p) "an unconfigured owner")]
         end ++ [HText (". Mount " +:+ if pl_cold_ready p then "ready" else "not ready")])
  else if (0 <? length clients)%nat
  then HText ("This placement owns shared cold storage for " +:+ join ", " clients +:+ ".")
  else HText "Fast and cold storage are local ZFS datasets on this node.".

(** [{opts.k}] *)
Definition option_text (k : string) (o : list (string * json)) : string :=
  match alookup k o with Some JNull | None => "" | Some v => js_String v end.

Definition container_card (p : Placement) : page :=
  let r := pl_row p in
  let opts := containerOptionsOf r in
  let per_student o := match o with None => "not enabled" | Some q => fmtBytesZ q end in
  HEl ([HText (p_image r)] ++
       ((fun k => HText (option_text k opts)) <$> ["cpus"; "memory"; "shm_size"; "rootfs_quota"; "restart"]) ++
       [HText ("Per-student quota: fast " +:+ per_student (p_student_fast_quota_bytes r) +:+ " · cold " +:+
               per_student (p_student_cold_quota_bytes r));
        HLink (placement_href (p_lab_id r) (p_id r) +:+ "/recreate") [HText "Recreate container…"]]).

(** A member of a placement, with the form that reveals the password while there is one. *)
Definition member_row_view (placementId : Z) (m : PlacementMember) : page :=
  let s := mem_student m in
  HEl [HText (s_username s); HText (or_dash (s_name s)); badge (member_state_str (mem_state m));
       HText (or_dash (mem_last_error m));
       if bool_decide (mem_state m = MActive) && mem_credential_available m
       then HForm CRevealCredential [hidden "placementId" (string_of_Z placementId);
                                     hidden "studentId" (string_of_Z (s_id s)); submit "Reveal once"]
       else HText (if bool_decide (mem_state m = MActive) then "Delivered or revealed"
                   else "Available after success")].

Definition placement_forms (p : Placement) : list page :=
  let r := pl_row p in
  let id := hidden "placementId" (string_of_Z (p_id r)) in
  let deleting := bool_decide (p_state r = PDeleting) in
  show (bool_decide (p_state r = PFailed)) [HForm CRetryPlacement [id; submit "Retry provisioning"]] ++
  [HForm CRemovePlacement [id; HButton (if deleting then "Removal queued" else "Remove access") deleting]] ++
  show (negb (pl_online p)) [HForm CRemovePlacement [id; hidden "force" "1"; submit "Force remove"]].

Definition placement_view (d : Db) (p : Placement) (members : list PlacementMember)
    (labPlacements : list Placement) (savedMsg errorMsg credential username : option string) : page :=
  let r := pl_row p in
  let owner := i ← pl_cold_owner_node_id p;
    get_row (fun c => p_node_id (pl_row c) = i) labPlacements in
  let canEdit := negb (bool_decide (p_state r = PDeleting)) in
  let quotaTask := latestTask d p "lab.set_quota" in
  HEl ([HLink ("/labs/" +:+ string_of_Z (p_lab_id r)) [HText (pl_lab_name p)];
        HText (pl_lab_name p +:+ " on " +:+ pl_node_name p); badge (online_str (pl_online p));
        badge (state_str (p_state r))] ++
       notice savedMsg ++ notice errorMsg ++
       show_str credential (fun c => show_str username (fun u =>
         [HText ("One-time password for " +:+ u +:+ ":"); HText c])) ++
       show_str (p_last_error r) (fun e => [HText e]) ++
       [HText ("ssh -p " +:+ string_of_Z (p_ssh_port r) +:+ " <user>@" +:+ pl_node_name p);
        cold_text p owner (clients_of labPlacements p)] ++
       show_some (taskLabel quotaTask) (fun t => [badge t]) ++
       show_str (quotaTask ≫= ts_error) (fun e => [HText e]) ++
       [quota_form d p owner canEdit] ++
       show_some (taskLabel (latestTask d p "container.recreate")) (fun t => [badge ("recreate " +:+ t)]) ++
       [container_card p; HText ("Placement roster (" +:+ nat_str (length members) +:+ ")")] ++
       match members with
       | [] => [HText "No students in this placement."]
       | _ => member_row_view (p_id r) <$> members
       end ++ placement_forms p).

(** [getPlacement(Number(placementId))], if it is one of the lab in the address *)
Definition placement_at (id placementId : string) : WAct (option Placement) :=
  placement ← on_act (getPlacement (row_id (str_to_num placementId)));
  mret (p ← placement;
        if num_eqb (num_of_Z (p_lab_id (pl_row p))) (str_to_num id) then Some p else None).

Definition PlacementPage (id placementId : string) (saved error credential username : option string)
    : WAct (option page) :=
  placement ← placement_at id placementId;
  match placement with
  | None => mret None
  | Some p =>
      savedMsg ← flash_of saved;
      errorMsg ← flash_of error;
      revealedCredential ← flash_of credential;
      members ← on_act (listPlacementMembers (p_id (pl_row p)));
      labPlacements ← on_act (listPlacements (p_lab_id (pl_row p)));
      d ← on_act db;
      mret (Some (placement_view d p members labPlacements savedMsg errorMsg revealedCredential username))
  end.

(** ** [labs/[id]/placements/[placementId]/recreate/page.tsx] *)

(** [fast] and [cold] are the boxes of the quota fields, ticked at first when there is a quota. *)
Definition recreate_form (p : Placement) (fast cold : bool) : page :=
  let r := pl_row p in
  let opts := containerOptionsOf r in
  let tb (o : option Z) := (fun q => num_div (num_of_Z q) (num_of_Z TIB)) <$> o in
  HForm CRecreateSettings (
    [hidden "placementId" (string_of_Z (p_id r)); input "image" (p_image r);
     input "cpus" (option_text "cpus" opts); input "memory" (option_text "memory" opts);
     input "shmSize" (option_text "shm_size" opts); input "rootfsQuota" (option_text "rootfs_quota" opts);
     input "restart" (option_text "restart" opts)] ++
    StudentQuotaFields (negb (bool_decide (pl_cold_backend p = Smb)))
      (tb (p_student_fast_quota_bytes r)) (tb (p_student_cold_quota_bytes r)) fast cold ++
    [submit "Recreate container"]).

Definition recreate_view (id : string) (p : Placement) (errMsg : option string) (fast cold : bool) : page :=
  let opts := containerOptionsOf (pl_row p) in
  HEl ([HText ("Recreate container — " +:+ pl_lab_name p +:+ " on " +:+ pl_node_name p);
        HText ("Current: image " +:+ p_image (pl_row p) +:+ " · " +:+ option_text "cpus" opts +:+ " CPU · " +:+
               option_text "memory" opts +:+ " RAM · " +:+ option_text "shm_size" opts +:+
               " shm · rootfs-quota " +:+ option_text "rootfs_quota" opts +:+ " · restart " +:+
               option_text "restart" opts)] ++
       notice errMsg ++
       [recreate_form p fast cold; HLink ("/labs/" +:+ id) [HText "Cancel"]]).

Definition RecreatePage (id placementId : string) (error : option string) : WAct (option page) :=
  errMsg ← flash_of error;
  placement ← placement_at id placementId;
  mret ((fun p => recreate_view id p errMsg (is_some (p_student_fast_quota_bytes (pl_row p)))
                    (is_some (p_student_cold_quota_bytes (pl_row p)))) <$> placement).

(** ** [students/page.tsx] *)

Definition lab_students (d : Db) (l : LabSummary) : list page :=
  let lab := ls_lab l in
  let members := members_of d (l_id lab) in
  show (0 <? length members)%nat
    ([HLink ("/labs/" +:+ string_of_Z (l_id lab)) [HText (l_name lab)];
      HText (nat_str (length members) +:+ " " +:+ plural (length members) "student")] ++
     (roster_row CRemoveStudent (l_id lab) <$> members)).

(** The table below the import form. *)
Definition StudentsPage : WAct page :=
  labs ← on_act listLabs;
  d ← on_act db;
  let shown := lab_students d in
  mret (HEl (match List.flat_map shown labs with
             | [] => [HText "No students yet."]
             | l => l
             end)).
End lab_pages.

(** * What the lab pages offer is what the actions accept *)


Lemma row_of_id {A} (id : A -> Z) (l : list A) x : NoDup (id <$> l) -> x ∈ l ->
  get_row (fun y => id y = id x) l = Some x.
Proof. intros Hn Hx. by apply (get_row_unique (fun y => id y = id x) id). Qed.

Section grant.
Context {HK : Honker} {PF : Platform}.

Ltac refused :=
  split; [done|]; let H := fresh in intros H;
  match goal with Hb : n_cold_backend _ = Smb |- _ => destruct (H Hb) as [|(? & ? & ?)]; done end.

(** A node the page calls ready passes the rules of [createPlacement] for SMB clients, but for
    the user namespaces, which the page does not look at. *)
Definition smb_admits (d : Db) (labId : Z) (n : NodeRow) : Prop :=
  n_cold_backend n = Smb -> smb_gate d labId n = Ok tt \/ exists a b, smb_gate d labId n = Throw (EUsernsMismatch a b).

Lemma node_opt_ready d labId n : db_wf d -> Forall (fun n => n_name n <> "") (rows (nodes d)) ->
  n ∈ rows (nodes d) -> no_ready (node_opt d labId n) = true <-> smb_admits d labId n.
Proof.
  intros Hwf Hnames Hn. unfold node_opt, smb_admits, smb_gate. case_bool_decide as Hb; [|by split].
  destruct (n_cold_owner_node_id n) as [oid|] eqn:Ho; cbn;
    [|refused].
  pose proof (fk_elim _ _ _ n oid (fk_node_owner d Hwf) Hn Ho) as (o & -> & Hin)%list_elem_of_fmap.
  assert (node_of d (n_id o) = Some o) as -> by (apply row_of_id; [apply Hwf|done]). cbn.
  rewrite Forall_forall in Hnames. unfold or_null. rewrite (truthy_ne _ (Hnames o Hin)).
  destruct (get_row _ (rows (lab_placements d))) as [p|]; cbn;
    [|refused].
  destruct (decide (p_state p = PActive)) as [->|Hs].
  2: { rewrite !bool_decide_false by congruence. cbn. refused. }
  rewrite !bool_decide_true by done. cbn. destruct (n_cold_ready n); cbn; [|refused].
  split; [|done]. intros _ _. destruct (userns_mapping (n_capabilities n)), (userns_mapping (n_capabilities o));
    try (by right; eexists _, _). case_bool_decide; [by left|by right; eexists _, _].
Qed.

Lemma no_id_node_opt d labId n : no_id (node_opt d labId n) = n_id n.
Proof. unfold node_opt. by repeat case_match. Qed.
Lemma no_coldBackend_node_opt d labId n : no_coldBackend (node_opt d labId n) = n_cold_backend n.
Proof. unfold node_opt. by repeat case_match. Qed.

Lemma availableNodes_opt d labId placements n : db_wf d -> n ∈ rows (nodes d) ->
  n_id n ∉ (fun p => p_node_id (pl_row p)) <$> placements ->
  get_row (fun o => no_id o = n_id n) (availableNodes d labId placements) = Some (node_opt d labId n).
Proof.
  intros Hwf Hn Hp. rewrite <- (no_id_node_opt d labId n). apply row_of_id.
  - unfold availableNodes. rewrite <- list_fmap_compose.
    rewrite (list_fmap_ext (no_id ∘ node_opt d labId) n_id) by (intros; apply no_id_node_opt).
    eapply sublist_NoDup; [|apply fmap_sublist, sublist_filter]. rewrite sort_by_perm. apply Hwf.
  - apply list_elem_of_fmap_2, list_elem_of_filter. by rewrite elem_of_sort_by.
Qed.

Lemma string_of_pos z : 0 < z -> string_of_Z z <> "".
Proof. intros Hz E. pose proof (parse_pretty z ltac:(lia)) as H. unfold string_of_Z in E. rewrite E in H. cbn in H. lia. Qed.

(** The option the form shows for the node chosen. *)
Lemma node_option nodes i o : string_of_Z i <> "" -> get_row (fun n => no_id n = i) nodes = Some o ->
  selected (("", true) :: ((fun n => (string_of_Z (no_id n), false)) <$> nodes)) (string_of_Z i) =
    Some (string_of_Z i, false).
Proof.
  intros Hne [Hid Ho]%get_row_Some. unfold selected.
  destruct (get_row (fun o : string * bool => o.1 = string_of_Z i) _) as [[v b]|] eqn:Hg.
  - apply get_row_Some in Hg as [Hv Hin]. cbn in Hv. subst v. rewrite elem_of_cons in Hin.
    destruct Hin as [Hin|(n & Hin & _)%list_elem_of_fmap]; cbn in Hin; congruence.
  - rewrite get_row_None in Hg. destruct (Hg (string_of_Z (no_id o), false)); [|cbn; by rewrite Hid].
    right. by apply (list_elem_of_fmap_2 (fun n => (string_of_Z (no_id n), false))).
Qed.

(** The request of the form with a node of the list chosen. *)
Lemma grant_requests labId nodes ft ct st o : 0 < gr_nodeId st ->
  get_row (fun n => no_id n = gr_nodeId st) nodes = Some o ->
  requests (PlacementForm labId nodes ft ct st) =
    if no_ready o then
      [CGrantNodeAccess ([("labId", string_of_Z labId); ("nodeId", string_of_Z (gr_nodeId st));
         ("fastTb", num_str ft)] ++
        (if bool_decide (no_coldBackend o = Smb) then [] else [("coldTb", num_str ct)]) ++
        [("image", DEFAULT_IMAGE); ("cpus", "4"); ("memory", "8g"); ("shmSize", "1g");
         ("rootfsQuota", "300g"); ("restart", "unless-stopped")] ++
        (if gr_fast st then [("enableStudentFastQuota", "on"); ("studentFastTb", "1")] else []) ++
        (if negb (bool_decide (no_coldBackend o = Smb)) && gr_cold st
         then [("enableStudentColdQuota", "on"); ("studentColdTb", "1")] else []))]
    else [].
Proof.
  intros Hpos Hsel. unfold PlacementForm. destruct nodes as [|n0 nodes]; [done|].
  rewrite Hsel. rewrite (proj2 (Z.eqb_neq (gr_nodeId st) 0)) by lia.
  pose proof (string_of_pos _ Hpos) as Hne.
  pose proof (node_option _ _ _ Hne Hsel) as Hopt. cbn -[selected string_of_Z] in Hopt.
  assert (num_str (nullish None (num_of_Z 1)) = "1") as Hone by by vm_compute.
  unfold StudentQuotaFields. rewrite Hone. clear Hone Hsel.
  pose proof (truthy_ne _ Hne) as Htrue. change (Some o ≫= no_blockedReason) with (no_blockedReason o).
  destruct (bool_decide _), (no_ready o), (gr_fast st), (gr_cold st), (no_blockedReason o);
    cbn -[selected string_of_Z num_str truthy]; unfold submittable, entries, entry, filled_in;
    cbn -[selected string_of_Z num_str truthy]; rewrite ?Htrue; cbn -[selected string_of_Z num_str];
    rewrite ?Hopt; done.
Qed.

(** Granting a lab access to a node. For a node the lab is not on, the form of the lab's page
    can be sent exactly when the node keeps its cold data in a pool of its own or passes the
    rules of [createPlacement] for an SMB client (its owner hosts the lab and is active, the
    mount is ready), the agreement of the user namespaces excepted, which only the server looks
    at. The request then names the lab and the node chosen, and carries a cold quota exactly
    for a node with a pool. *)
Theorem grant_form_offers d labId placements n ft ct fast cold
    (Hwf : db_wf d) (Hnames : Forall (fun n => n_name n <> "") (rows (nodes d)))
    (Hn : n ∈ rows (nodes d)) (Hfree : n_id n ∉ (fun p => p_node_id (pl_row p)) <$> placements) :
  let sent := requests (PlacementForm labId (availableNodes d labId placements) ft ct
                          (mkGrant (n_id n) fast cold)) in
  (sent <> [] <-> smb_admits d labId n) /\
  forall a, a ∈ sent -> exists f, a = CGrantNodeAccess f /\
    form_get "labId" f = Some (string_of_Z labId) /\ form_get "nodeId" f = Some (string_of_Z (n_id n)) /\
    is_some (form_get "coldTb" f) = negb (bool_decide (n_cold_backend n = Smb)) /\
    (n_cold_backend n = Smb -> form_get "enableStudentColdQuota" f = None).
Proof.
  intros sent. assert (0 < n_id n) as Hpos.
  { pose proof (proj2 (proj1 (wf_nodes d Hwf))) as H. rewrite Forall_forall in H. apply H, Hn. }
  unfold sent. rewrite (grant_requests _ _ _ _ _ (node_opt d labId n)) by
    (first [done|by apply availableNodes_opt]).
  rewrite <- (node_opt_ready d labId n), no_coldBackend_node_opt by done.
  destruct (no_ready (node_opt d labId n)); [|by split; [|intros a ?%elem_of_nil]].
  split; [done|]. intros a ->%list_elem_of_singleton. eexists. split; [done|].
  case_bool_decide; destruct fast, cold; by cbn.
Qed.

(** A node the form no longer lists, such as the one just granted while the page stays open: no
    option has its id, so the browser shows the first node, the form does not notice that this
    node may not be ready, and the button is live. *)
Theorem grant_form_stale labId o nodes ft ct st
    (Hpos : 0 < gr_nodeId st) (Hgone : Forall (fun n => no_id n <> gr_nodeId st) (o :: nodes)) :
  exists f, requests (PlacementForm labId (o :: nodes) ft ct st) = [CGrantNodeAccess f] /\
    form_get "labId" f = Some (string_of_Z labId) /\ form_get "nodeId" f = Some (string_of_Z (no_id o)).
Proof.
  assert (get_row (fun n => no_id n = gr_nodeId st) (o :: nodes) = None) as Hsel.
  { apply get_row_None. intros n Hn. rewrite Forall_forall in Hgone. by apply Hgone. }
  unfold PlacementForm. rewrite Hsel. rewrite (proj2 (Z.eqb_neq (gr_nodeId st) 0)) by lia.
  pose proof (string_of_pos _ Hpos) as Hne.
  assert (selected (("", true) :: ((fun n => (string_of_Z (no_id n), false)) <$> o :: nodes))
    (string_of_Z (gr_nodeId st)) = Some (string_of_Z (no_id o), false)) as Hopt.
  { unfold selected. destruct (get_row (fun o : string * bool => o.1 = _) _) as [[v b]|] eqn:Hg; [|done].
    apply get_row_Some in Hg as [Hv Hin]. cbn in Hv. subst v. rewrite elem_of_cons in Hin.
    destruct Hin as [Hin|(n & Hin & Hl)%list_elem_of_fmap]; [congruence|]. injection Hin as Hid.
    apply (inj pretty) in Hid. rewrite Forall_forall in Hgone. by destruct (Hgone n Hl). }
  cbn -[selected string_of_Z] in Hopt. pose proof (truthy_ne _ Hne) as Htrue.
  assert (num_str (nullish None (num_of_Z 1)) = "1") as Hone by by vm_compute.
  unfold StudentQuotaFields. rewrite Hone. clear Hone Hsel Hgone.
  destruct (gr_fast st), (gr_cold st);
    cbn -[selected string_of_Z num_str truthy]; unfold submittable, entries, entry, filled_in;
    cbn -[selected string_of_Z num_str truthy]; rewrite Htrue; cbn -[selected string_of_Z num_str];
    rewrite Hopt; eexists; (split; [done|]); by cbn.
Qed.
End grant.

Definition demo_db : Db := w_db (demo_world demo_accepts).

Lemma grant_form_offers_witness : exists n, n ∈ rows (nodes demo_db) /\
  forall ft ct, @requests console_action (@PlacementForm (demo_pf demo_accepts) 1
    (availableNodes demo_db 1 []) ft ct (mkGrant (n_id n) true false)) <> [].
Proof.
  pose proof (proj1 (demo_world_wf demo_accepts) : db_wf demo_db) as Hwf.
  assert (Forall (fun n => n_name n <> "") (rows (nodes demo_db))) as Hnames
    by (vm_compute; repeat constructor; discriminate).
  destruct (rows (nodes demo_db)) as [|n l] eqn:Hl; [by vm_compute in Hl|]. exists n. split; [by left|].
  intros ft ct. apply (grant_form_offers (PF := demo_pf demo_accepts) demo_db 1 [] n ft ct true false);
    [done|by rewrite Hl|rewrite Hl; by left|by intros ?%elem_of_nil|].
  assert (head (rows (nodes demo_db)) = Some n) as Hn by by rewrite Hl.
  intros Hb. vm_compute in Hn. injection Hn as <-. discriminate.
Defined.
