(* ===== verification/SettingsPages.v ===== *)
(** * SettingsPages: the settings, backups and email-template pages

    [app/(app)/settings/page.tsx], [backups/page.tsx] with [ClientTime.tsx], and
    [email-templates/page.tsx] with [SignatureEditor.tsx].  Their forms show the stored settings
    and post to the actions of [SettingsActions], [BackupActions] and [Actions].  Formatting by
    the viewer's locale is a parameter.

    The second part: what saving an unedited form does, and that no page shows a secret. *)
From S2P Require Import Prelude Js Numbers Schema Sql DbWf Env Secrets Queue Testbed Settings SettingsFacts Format Mailer MailerFacts Hub HubConn Web WebFixture Maintenance WebDav Backup Announce AnnounceFacts RateLimit Flash Auth Actions SettingsActions Console View LabPages QueueFacts.
From Stdlib Require Import Ascii.
Open Scope Z_scope.

(** The placeholders shown with the templates, without their descriptions: [lib/settings.ts],
    [lib/announcements.ts]. *)
Definition WELCOME_EMAIL_VARS : list string :=
  ["name"; "username"; "password"; "host"; "host_alias"; "port"; "lab"; "node"; "student_id"; "email"].
Definition GPU_EMAIL_VARS : list string := ["username"; "pid"; "lab"; "node"; "grace_minutes"].
Definition REMOVAL_EMAIL_VARS : list string := ["lab"; "data_status"].
Definition QUOTA_EMAIL_VARS : list string := ["lab"; "pool"; "pct"; "used"; "quota"; "breakdown"].
Definition STUDENT_QUOTA_EMAIL_VARS : list string :=
  ["name"; "username"; "lab"; "node"; "pool"; "pct"; "used"; "quota"].
Definition USAGE_REPORT_EMAIL_VARS : list string := ["name"; "lab"; "node"; "report"].
Definition PLACEMENT_COMPLETE_EMAIL_VARS : list string :=
  ["name"; "lab"; "node"; "usernames"; "fast_quota"; "cold_quota"; "student_fast_quota"; "student_cold_quota"].
Definition ANNOUNCEMENT_VARS : list string := ["name"; "email"; "sender"; "sender_email"].

Section settings_pages.
Context {HK : Honker} {PF : Platform} {TZ : Zones} {HC : HttpClient} {BL : BackupLib}.
Context (toLocaleString : nat -> string).
(** [new Date(ts).toLocaleString(undefined, { timeZone })], [None] for a zone that does not exist;
    the browser's own zone; and whether the page has been hydrated. *)
Context (localeTime : num -> option string -> option string) (browserTz : string) (hydrated : bool).

(** ** [settings/page.tsx] *)

Definition storage_form (s : list (string * json)) : page :=
  HForm CSaveStorage
    [number_input "fastTb" (tb_attr (s_num "fastQuotaDefaultBytes" s));
     number_input "slowTb" (tb_attr (s_num "slowQuotaDefaultBytes" s));
     number_input "sshPortStart" (s_attr "sshPortStart" s);
     number_input "sshPortEnd" (s_attr "sshPortEnd" s); submit "Save"].

Definition usage_scan_form (s : list (string * json)) : page :=
  HForm CSaveUsageScan
    [checkbox "usageScanEnabled" (s_bool "usageScanEnabled" s);
     number_input "usageScanHour" (s_attr "usageScanHour" s);
     input "usageScanTimezone" (s_attr "usageScanTimezone" s); submit "Save usage scan"].

(** One stored server: the form that saves it, its password left blank, and the one that deletes it. *)
Definition smtp_forms (c : SmtpConfig) : page :=
  HEl [HForm CSaveSmtp
         [hidden "smtpId" (sc_id c); input "smtpName" (sc_name c); number_input "smtpRank" (num_str (sc_rank c));
          input "smtpHost" (sc_host c); number_input "smtpPort" (num_str (sc_port c));
          input "smtpUser" (sc_user c); password_input "smtpPass";
          HText (if truthy (sc_pass c) then "•••••• (unchanged)" else "");
          input "smtpFrom" (sc_from c); submit "Save config"];
       HForm CDeleteSmtp [hidden "smtpId" (sc_id c); submit "Delete config"]].

Definition add_smtp_form (rank : num) : page :=
  HForm CSaveSmtp
    [input "smtpName" ""; number_input "smtpRank" (num_str rank); input "smtpHost" "";
     number_input "smtpPort" "587"; input "smtpUser" ""; password_input "smtpPass"; input "smtpFrom" "";
     submit "Add SMTP config"].

Definition test_email_form : page := HForm CTestEmail [input "to" ""; submit "Send test"].

Definition gpu_policy_form (s : list (string * json)) : page :=
  HForm CSaveGpuPolicy
    [checkbox "gpuEnabled" (s_bool "gpuEnabled" s); checkbox "gpuImmediate" (s_bool "gpuImmediate" s);
     number_input "gpuUtilThreshold" (s_attr "gpuUtilThreshold" s);
     number_input "gpuIdleMinutes" (s_attr "gpuIdleMinutes" s);
     number_input "gpuGraceMinutes" (s_attr "gpuGraceMinutes" s);
     input "gpuWhitelistUsers" (s_attr "gpuWhitelistUsers" s);
     input "gpuWhitelistLabs" (s_attr "gpuWhitelistLabs" s); submit "Save & push to nodes"].

Definition alerts_form (s : list (string * json)) : page :=
  HForm CSaveAlerts (
    [checkbox "alertsEnabled" (s_bool "alertsEnabled" s);
     checkbox "studentQuotaAlertsEnabled" (s_bool "studentQuotaAlertsEnabled" s);
     checkbox "studentQuotaNotifyAdmins" (s_bool "studentQuotaNotifyAdmins" s);
     select_input "alertLevel" (s_attr "alertLevel" s) ["WARN"; "ERROR"]] ++
    ((fun k => number_input k (s_attr k s)) <$>
      ["alertDedupMinutes"; "quotaAlertPct"; "studentQuotaAlertPct"; "nodeOfflineGraceSeconds";
       "logRetentionDays"; "logMaxEntries"; "logMaxSizeMb"]) ++
    [submit "Save alerts"]).

Definition scrub_form (s : list (string * json)) : page :=
  HForm CSaveScrub
    [checkbox "scrubEnabled" (s_bool "scrubEnabled" s);
     number_input "scrubIntervalDays" (s_attr "scrubIntervalDays" s);
     number_input "scrubHour" (s_attr "scrubHour" s);
     input "scrubTimezone" (s_attr "scrubTimezone" s); submit "Save scrub"].

Definition settings_view (s : list (string * json)) (configs : list SmtpConfig) (logCount : nat)
    (logBytes : Z) (smtp scrub logs : option string) : page :=
  HEl ([storage_form s; usage_scan_form s] ++ notice smtp ++ (smtp_forms <$> configs) ++
       [add_smtp_form (next_rank configs); test_email_form; gpu_policy_form s; alerts_form s;
        HText (toLocaleString logCount +:+ " log " +:+ (if (logCount =? 1)%nat then "entry" else "entries") +:+
               " · ~" +:+ fmtBytesZ logBytes +:+ " stored.");
        HForm (fun _ => CClearLogs)
          [HText ("Permanently delete all " +:+ toLocaleString logCount +:+ " log entries?");
           submit "Delete all logs"]] ++
       notice logs ++ notice scrub ++
       [scrub_form s; HForm (fun _ => CScrubNow) [submit "Scrub now"]]).

Definition SettingsPage (smtp scrub logsMsg : option string) : WAct page :=
  s ← on_act getSettings;
  smtpConfigs ← on_act getSmtpConfigs;
  d ← on_act db;
  logBytes ← on_act logsContentBytes;
  mret (settings_view s smtpConfigs (length (rows (logs d))) logBytes smtp scrub logsMsg).

(** ** [backups/page.tsx] *)

(** [backups/_components/ClientTime.tsx] *)
Definition ClientTime (ts : num) (tz : option string) : page :=
  if negb (num_truthy ts) then HText "never"
  else if negb hydrated then HText "…"
  else HEl ([HText (default "Invalid Date" (localeTime ts None))] ++
            show_str tz (fun z =>
              show (negb (String.eqb z browserTz))
                (show_str (localeTime ts (Some z)) (fun t => [HText (" · " +:+ t +:+ " (" +:+ z +:+ ")")])))).

Definition WebdavStatusBadge (st : WebdavStatus) : page :=
  HText (if negb (ws_configured st) then "Not configured"
         else if ws_ok st
         then "Connected — " +:+ nat_str (length (ws_backups st)) +:+ " " +:+
              plural (length (ws_backups st)) "backup" +:+ " available"
         else "Unreachable — " +:+ default "" (ws_error st)).

Definition BackupsList (st : WebdavStatus) (tz : string) : list page :=
  if negb (ws_configured st) then [HText "Configure a WebDAV target above to see backups."]
  else if negb (ws_ok st) then [HText ("Could not list backups: " +:+ default "" (ws_error st))]
  else match ws_backups st with
       | [] => [HText "No backups found."]
       | l => (fun b => HEl [HText (be_name b); ClientTime (be_stamp b) (Some tz);
                             HForm CRestore [hidden "name" (be_name b); submit "Stage restore"]]) <$> l
       end.

(** [String(n).padStart(2, "0")] *)
Definition pad2 (s : string) : string := pad_zeros 2 s.

Definition webdav_form (s : list (string * json)) : page :=
  HForm CSaveWebdav
    [input "webdavUrl" (s_attr "webdavUrl" s); input "webdavUser" (s_attr "webdavUser" s);
     password_input "webdavPass";
     HText (if s_bool "webdavPass" s then "•••••••• (unchanged)" else "");
     input "webdavBaseDir" (s_attr "webdavBaseDir" s);
     HText (strip_slashes_end (s_attr "webdavBaseDir" s) +:+ "/prod"); submit "Save configuration"].

Definition schedule_form (s : list (string * json)) : page :=
  HForm CSaveSchedule (
    [checkbox "backupEnabled" (s_bool "backupEnabled" s);
     number_input "backupIntervalHours" (s_attr "backupIntervalHours" s);
     input "backupAnchor" (pad2 (s_attr "backupAnchorHour" s) +:+ ":" +:+ pad2 (s_attr "backupAnchorMinute" s));
     input "backupTimezone" (s_attr "backupTimezone" s)] ++
    ((fun k => number_input k (s_attr k s)) <$>
      ["backupKeepRecent"; "backupKeepWeekly"; "backupKeepMonthly"; "backupKeepYearly"]) ++
    [submit "Save configuration"]).

Definition backups_view (s : list (string * json)) (env : string) (nextRun : option Z) (configured : bool)
    (st : WebdavStatus) (msg : option string) : page :=
  let tz := s_attr "backupTimezone" s in
  let failed := String.eqb (s_attr "backupLastStatus" s) "failed" in
  HEl (notice msg ++
       [if configured then WebdavStatusBadge st else HText "not configured";
        ClientTime (s_num "backupLastRun" s) (Some tz)] ++
       show (s_bool "backupLastStatus" s) [HText (if failed then "(FAILED)" else "(OK)")] ++
       [match nextRun with
        | Some n => if n =? 0 then HText "disabled" else ClientTime (num_of_Z n) (Some tz)
        | None => HText "disabled"
        end] ++
       show failed (show (s_bool "backupLastError" s) [HText ("Last error: " +:+ s_attr "backupLastError" s)]) ++
       [webdav_form s; HForm (fun _ => CTestConnection) [submit "Test connection"];
        HForm (fun _ => CBackupNow) [submit "Backup now"]; schedule_form s;
        HText ("Available backups (" +:+ env +:+ ")"); HForm (fun _ => CRefreshBackups) [submit "Refresh"]] ++
       BackupsList st tz).

(** [cache(webdavStatus)]: the badge and the list share one answer. *)
Definition BackupsPage (msg : option string) : BAct page :=
  s ← lib getSettings;
  now ← lib date_now;
  nextRun ← lib (nextBackupRun now);
  configured ← lib isWebdavConfigured;
  st ← webdavStatus;
  mret (backups_view s backupEnv nextRun configured st msg).

(** ** [email-templates/page.tsx] *)

Definition VarList (vars : list string) : list page :=
  match vars with
  | [] => [HText "No variables — this message is fixed text."]
  | _ => (fun v => HText ("{" +:+ v +:+ "}")) <$> vars
  end.

Definition EditableTemplate (name : string) (action : FormData -> console_action) (subject body : string)
    (vars : list string) : page :=
  HForm action
    ([HText name; input "subject" subject; area "body" body] ++ VarList vars ++ [submit "Save template"]).

Definition AnnouncementTemplateCard (tpl : AnnouncementTemplateRow) : page :=
  HEl [HForm CUpdateTemplate
         [hidden "id" (string_of_Z (at_id tpl)); input_required "name" (at_name tpl);
          input "subject" (at_subject tpl);
          HCtl (mkControl "body" KArea (at_body tpl) false true); submit "Save"];
       HForm CDeleteTemplate [hidden "id" (string_of_Z (at_id tpl)); submit "Delete"]].

Definition SignatureEditor (text : string) : page :=
  HForm CSaveSignature [area "signatureText" text; submit "Save signature"].

Definition new_template_form : page :=
  HForm CCreateTemplate [input_required "name" ""; input "subject" "";
                         HCtl (mkControl "body" KArea "" false true); submit "Add template"].

(** The cards of the page: name, action, keys, placeholders. *)
Definition mail_templates : list (string * Mail * string * string * list string) :=
  [("Welcome / credentials", MWelcome, "welcomeEmailSubject", "welcomeEmailBody", WELCOME_EMAIL_VARS);
   ("Node setup complete — PI", MPlacementComplete, "placementCompleteEmailSubject", "placementCompleteEmailBody",
    PLACEMENT_COMPLETE_EMAIL_VARS);
   ("GPU idle warning", MGpuWarn, "gpuWarnEmailSubject", "gpuWarnEmailBody", GPU_EMAIL_VARS);
   ("GPU process terminated", MGpuKill, "gpuKillEmailSubject", "gpuKillEmailBody",
    filter (fun v => v <> "grace_minutes") GPU_EMAIL_VARS);
   ("Removed from lab", MRemoval, "removalEmailSubject", "removalEmailBody", REMOVAL_EMAIL_VARS);
   ("Storage quota alert", MQuota, "quotaEmailSubject", "quotaEmailBody", QUOTA_EMAIL_VARS);
   ("Per-user quota warning", MStudentQuota, "studentQuotaEmailSubject", "studentQuotaEmailBody", STUDENT_QUOTA_EMAIL_VARS);
   ("Storage usage report — student", MUsageReportStudent, "usageReportStudentSubject", "usageReportStudentBody",
    USAGE_REPORT_EMAIL_VARS);
   ("Storage usage report — PI", MUsageReportPi, "usageReportPiSubject", "usageReportPiBody", USAGE_REPORT_EMAIL_VARS);
   ("Test email", MTest, "testEmailSubject", "testEmailBody", [])].

Definition EmailTemplatesPage (error saved : option string) : WAct page :=
  errorMsg ← flash_of error;
  savedMsg ← flash_of saved;
  s ← on_act getSettings;
  templates ← on_act listAnnouncementTemplates;
  mret (HEl (
    [SignatureEditor (s_attr "emailSignatureText" s)] ++
    ((fun '(name, m, k, b, vars) => EditableTemplate name (CSaveMail m) (s_attr k s) (s_attr b s) vars) <$> mail_templates) ++
    VarList ANNOUNCEMENT_VARS ++ notice errorMsg ++ notice savedMsg ++
    match templates with
    | [] => [HText "No templates yet — add one below."]
    | _ => AnnouncementTemplateCard <$> templates
    end ++ [new_template_form])).
End settings_pages.

(** * Saving what the settings page shows, and what it does not show *)


(** ** Every card of the templates page saves the texts it shows *)

Lemma cards_save_what_they_show {HK : Honker} {PF : Platform} {AL : AuthLib} :
  Forall (fun '(_, m, subjectKey, bodyKey, _) => save_mail m = save_pair subjectKey bodyKey) mail_templates.
Proof. repeat (apply Forall_cons_2; [reflexivity|]). apply Forall_nil_2. Qed.

(** ** A host without a scheme, a path or a port *)

Definition plain_host (s : string) : Prop := str_all (fun c => c_of "/?#:" c = false) s.

Lemma before_path_plain s : plain_host s -> before_path s = s.
Proof.
  induction s as [|c s IH]; [done|]. intros [Hc Hs]. cbn [before_path]. rewrite IH by done.
  assert (c_of "/?#" c = false) as ->; [|done]. revert Hc. cbn. rewrite !orb_false_iff. tauto.
Qed.

Lemma split_last_colon_plain s : plain_host s -> split_last_colon s = None.
Proof.
  induction s as [|c s IH]; [done|]. intros [Hc Hs]. cbn [split_last_colon]. rewrite IH by done.
  assert (Ascii.eqb c ":" = false) as ->; [|done]. revert Hc. cbn. rewrite !orb_false_iff. tauto.
Qed.

Lemma starts_with_split p s : starts_with p s = true -> exists t, s = p +:+ t.
Proof.
  revert s. induction p as [|a p IH]; intros s; [by exists s|]. destruct s as [|b s]; [done|]. cbn.
  intros [->%Ascii.eqb_eq Hp]%andb_true_iff. destruct (IH s Hp) as [t ->]. by exists t.
Qed.

Lemma lower_no_colon s : plain_host s -> str_all (fun c => c <> ":"%char) (to_lower s).
Proof.
  induction s as [|c s IH]; [done|]. intros [Hc Hs]. split; [|by apply IH]. intros E. revert Hc.
  unfold lower_char in E. destruct (_ || _) eqn:Hr; [|by subst c].
  revert E Hr. by destruct c as [[] [] [] [] [] [] [] []].
Qed.

Lemma match_scheme_plain s : plain_host s -> match_scheme s = None.
Proof.
  intros Hs%lower_no_colon. unfold match_scheme.
  destruct (starts_with "https://" _) eqn:H1;
    [apply starts_with_split in H1 as [t H1]; rewrite H1, str_all_app in Hs; cbn in Hs; naive_solver|].
  destruct (starts_with "http://" _) eqn:H2; [|done].
  apply starts_with_split in H2 as [t H2]. rewrite H2, str_all_app in Hs. cbn in Hs. naive_solver.
Qed.

(** ** Saving an SMTP server again *)

(** A stored server as [saveSmtpSettingsAction] leaves it: trimmed texts, a bare host, a
    positive whole port and rank. *)
Record plain_config (c : SmtpConfig) : Prop := {
  pc_id : trim (sc_id c) = sc_id c /\ sc_id c <> "";
  pc_name : trim (sc_name c) = sc_name c /\ sc_name c <> "";
  pc_host : trim (sc_host c) = sc_host c /\ plain_host (sc_host c);
  pc_user : trim (sc_user c) = sc_user c;
  pc_from : trim (sc_from c) = sc_from c;
  pc_port : exists z, 0 < z < 2 ^ 53 /\ sc_port c = num_of_Z z;
  pc_rank : exists z, 0 < z < 2 ^ 53 /\ sc_rank c = num_of_Z z }.

(** The same server, with the TLS mode its port implies. *)
Definition tls_by_port (c : SmtpConfig) : SmtpConfig :=
  c <| sc_secure := num_eqb (sc_port c) (num_of_Z 465) |>.

Section smtp.
Context {HK : Honker} {PF : Platform} {AL : AuthLib} {TZ : Zones}.

Lemma num_truthy_pos z : 0 < z < 2 ^ 53 -> num_truthy (num_of_Z z) = true.
Proof. intros Hz. destruct z as [|z|z]; [lia| |lia]. by rewrite num_of_pos by (apply digits2_small; lia). Qed.

Lemma num_str_of_Z z : 0 <= z < 2 ^ 53 -> num_str (num_of_Z z) = string_of_Z z.
Proof. intros Hz. unfold num_str. by rewrite is_integer_of_Z, trunc_of_Z. Qed.

(** The data set of the form of a stored server. *)
Definition smtp_form_data (c : SmtpConfig) : FormData :=
  [("smtpId", sc_id c); ("smtpName", sc_name c); ("smtpRank", num_str (sc_rank c)); ("smtpHost", sc_host c);
   ("smtpPort", num_str (sc_port c)); ("smtpUser", sc_user c); ("smtpPass", ""); ("smtpFrom", sc_from c)].

Lemma smtp_forms_requests c :
  requests (smtp_forms c) = [CSaveSmtp (smtp_form_data c); CDeleteSmtp [("smtpId", sc_id c)]].
Proof. done. Qed.

Context {NS : NumberSpec}.

Lemma num_field z : 0 < z < 2 ^ 53 -> js_Number (Some (JStr (num_str (num_of_Z z)))) = num_of_Z z.
Proof. intros Hz. cbn. rewrite num_str_of_Z by lia. apply number_of_digits. lia. Qed.

(** What the action makes of the unchanged form of a plain server. *)
Lemma parseSmtpHost_plain c : plain_config c ->
  parseSmtpHost (form_str "smtpHost" (smtp_form_data c)) (num_or (form_num "smtpPort" (smtp_form_data c)) 587) =
    mkSmtpHost (sc_host c) (sc_port c) (num_eqb (sc_port c) (num_of_Z 465)).
Proof.
  intros Hc. destruct (pc_host c Hc) as [Ht Hp], (pc_port c Hc) as (p & Hpz & Hport).
  change (form_str "smtpHost" _) with (sc_host c).
  change (form_num "smtpPort" _) with (js_Number (Some (JStr (num_str (sc_port c))))).
  rewrite Hport, num_field by done. unfold num_or. rewrite num_truthy_pos by done.
  unfold parseSmtpHost. by rewrite Ht, match_scheme_plain, before_path_plain, split_last_colon_plain, Ht.
Qed.

Lemma saved_rank c : plain_config c ->
  is_finite (form_num "smtpRank" (smtp_form_data c)) && num_ltb (num_of_Z 0) (form_num "smtpRank" (smtp_form_data c)) = true /\
  num_trunc (form_num "smtpRank" (smtp_form_data c)) = sc_rank c.
Proof.
  intros Hc. destruct (pc_rank c Hc) as (r & Hrz & Hrank).
  change (form_num "smtpRank" _) with (js_Number (Some (JStr (num_str (sc_rank c))))).
  rewrite Hrank, num_field by done. rewrite is_finite_of_Z, num_of_Z_ltb by lia.
  rewrite (proj2 (Z.ltb_lt 0 r)) by lia. split; [done|]. unfold num_trunc. rewrite is_finite_of_Z, trunc_of_Z by lia.
  done.
Qed.

(** A plain server is read back from its stored form. *)
Lemma smtp_of_config i c : plain_config c -> smtp_of_json i (stringified (config_json c)) = c.
Proof.
  intros Hc. destruct (pc_rank c Hc) as (r & Hrz & Hrank), (pc_port c Hc) as (p & Hpz & Hport).
  assert (forall z, 0 < z < 2 ^ 53 -> num_trunc (num_of_Z z) = num_of_Z z) as Htrunc
    by (intros z Hz; unfold num_trunc; by rewrite is_finite_of_Z, trunc_of_Z by lia).
  assert (forall s, (if truthy s then s else "") = s) as Hstr by (by intros []).
  destruct (pc_id c Hc) as [_ Hid], (pc_name c Hc) as [_ Hname], (pc_host c Hc) as [Hh _].
  pose proof (pc_user c Hc) as Hu. pose proof (pc_from c Hc) as Hf.
  unfold config_json, smtp_of_json. cbn -[num_of_Z truthy num_trunc num_ltb is_finite trim].
  rewrite Hrank, Hport, !is_finite_of_Z by lia. cbn -[num_of_Z truthy num_trunc num_ltb is_finite trim].
  rewrite !Hstr, !Htrunc, !num_of_Z_ltb by lia.
  rewrite (proj2 (Z.ltb_ge r 1)), (proj2 (Z.ltb_lt 0 p)) by lia.
  unfold or_str. rewrite (truthy_ne _ Hid), (truthy_ne _ Hname), Hh, Hu, Hf. destruct c; cbn in *. by subst.
Qed.

Lemma smtp_of_configs l : Forall plain_config l -> forall k,
  imap (fun i => smtp_of_json (k + i)) (filter (fun c => is_object c = true) (List.map stringified (config_json <$> l))) = l.
Proof.
  induction 1 as [|c l Hc _ IH]; intros k; [done|].
  change (List.map stringified (config_json <$> c :: l)) with
    (stringified (config_json c) :: List.map stringified (config_json <$> l)).
  rewrite filter_cons_True by done. rewrite imap_cons, smtp_of_config by done. f_equal.
  rewrite <- (IH (S k)) at 2. apply imap_ext. intros i x _. cbn. f_equal. lia.
Qed.

Lemma plain_tls c : plain_config c -> plain_config (tls_by_port c).
Proof. by intros []. Qed.

Lemma tls_saved (P : SmtpConfig -> Prop) {PDec : forall x, Decision (P x)} cs :
  Forall plain_config cs -> Forall plain_config (update_where P tls_by_port cs).
Proof.
  intros H. apply Forall_fmap. eapply Forall_impl; [done|]. intros c Hc. cbn.
  case_decide; [by apply plain_tls|done].
Qed.

Lemma on_act_ok {A} (m : Act A) s x s' :
  on_act m s = (Ok x, s') -> m (web_world s) = (Ok x, web_world s').
Proof.
  unfold on_act, on_hub, on_world, web_world. destruct (m _) as [r w]. by intros [= -> <-].
Qed.

(** What the action writes over a plain server. *)
Lemma smtp_update c cs : plain_config c -> c ∈ cs -> NoDup (sc_id <$> cs) ->
  update_where (fun c' => sc_id c' = sc_id c) (fun _ => tls_by_port c) cs =
  update_where (fun c' => sc_id c' = sc_id c) tls_by_port cs.
Proof.
  intros _ Hc Hnd. apply list_fmap_ext. intros i x Hx%list_elem_of_lookup_2. cbn.
  case_decide as Hid; [|done]. f_equal. symmetry. by apply (NoDup_fmap_inj sc_id cs).
Qed.

(** The stored configurations read back, sorted by rank. *)
Lemma getSmtpConfigs_saved l w :
  Forall plain_config l -> is_some (alookup "smtpConfigs" (settings (w_db w))) = true ->
  (getSetting "smtpConfigs" w).1 = Ok (stringified (JArr (config_json <$> l))) ->
  (getSmtpConfigs w).1 = Ok (sort_by smtp_leb l).
Proof.
  intros Hl Hs Hg. unfold getSmtpConfigs. rewrite (bind_step db _ w (w_db w) w) by done. cbv beta. rewrite Hs.
  rewrite (bind_step _ _ w (stringified (JArr (config_json <$> l))) w)
    by (by rewrite <- Hg).
  cbn [stringified fst mret M_ret]. do 2 f_equal. exact (smtp_of_configs l Hl 0).
Qed.

Lemma saved_config c server rank :
  plain_config c -> server = mkSmtpHost (sc_host c) (sc_port c) (num_eqb (sc_port c) (num_of_Z 465)) ->
  rank = sc_rank c ->
  {| sc_id := sc_id c; sc_name := or_str (form_trim "smtpName" (smtp_form_data c)) ("SMTP " +:+ num_str rank);
     sc_rank := rank; sc_host := sh_host server; sc_port := sh_port server;
     sc_user := form_trim "smtpUser" (smtp_form_data c);
     sc_pass := or_str (form_str "smtpPass" (smtp_form_data c)) (sc_pass c);
     sc_from := form_trim "smtpFrom" (smtp_form_data c); sc_secure := sh_secure server |} = tls_by_port c.
Proof.
  intros Hc -> ->. destruct (pc_name c Hc) as [Hn Hne]. pose proof (pc_user c Hc) as Hu. pose proof (pc_from c Hc) as Hf.
  change (form_trim "smtpName" _) with (trim (sc_name c)). change (form_trim "smtpUser" _) with (trim (sc_user c)).
  change (form_trim "smtpFrom" _) with (trim (sc_from c)). change (form_str "smtpPass" _) with "".
  unfold or_str. rewrite Hn, (truthy_ne _ Hne), Hu, Hf. by destruct c.
Qed.

(** Pressing Save on the form the settings page shows for a stored SMTP server, with nothing
    edited, leaves every server as it was but one thing: the server's TLS mode becomes the one
    its port implies, so that a server saved for implicit TLS on another port loses it. The
    password the form leaves blank is kept. *)
Theorem smtp_resave {CS : CryptoSpec} c f a s s1 cs s' :
  CSaveSmtp f ∈ requests (smtp_forms c) -> requireAdmin s = (Ok a, s1) ->
  (getSmtpConfigs (web_world s1)).1 = Ok cs -> c ∈ cs -> Forall plain_config cs -> NoDup (sc_id <$> cs) ->
  saveSmtpSettingsAction f s = (Ok tt, s') ->
  exists cs', (getSmtpConfigs (web_world s')).1 = Ok cs' /\
    cs' ≡ₚ update_where (fun c' => sc_id c' = sc_id c) tls_by_port cs.
Proof.
  rewrite smtp_forms_requests. intros Hf Ha Hcs Hc Hall Hnd.
  apply elem_of_cons in Hf as [[= ->]|Hf]; [|apply list_elem_of_singleton in Hf; discriminate].
  rewrite Forall_forall in Hall. pose proof (Hall c Hc) as Hp. rewrite <- Forall_forall in Hall.
  unfold saveSmtpSettingsAction. rewrite (bind_step _ _ _ _ _ Ha). cbv beta zeta.
  rewrite (parseSmtpHost_plain c Hp). intros H%on_act_ok.
  rewrite (bind_step getSmtpConfigs _ _ cs (web_world s1)) in H
    by (by rewrite (getSmtpConfigs_db (web_world s1) (web_world s1) eq_refl), Hcs).
  assert (form_opt "smtpId" (smtp_form_data c) = Some (sc_id c)) as Hid.
  { unfold form_opt. change (form_trim "smtpId" _) with (trim (sc_id c)). destruct (pc_id c Hp) as [-> Hne].
    unfold or_null. by rewrite (truthy_ne _ Hne). }
  rewrite Hid in H. rewrite (bind_step (mret (sc_id c)) _ _ (sc_id c) (web_world s1)) in H by done. cbv beta zeta in H.
  rewrite (get_row_unique (fun c' => sc_id c' = sc_id c) sc_id c cs) in H by (done || by intros ? _ ->).
  destruct (saved_rank c Hp) as [Hr1 Hr2]. rewrite Hr1, Hr2 in H. cbn [fmap option_fmap option_map default from_option] in H.
  rewrite (saved_config c) in H by done. change (is_some (Some c)) with true in H. cbv iota in H.
  rewrite smtp_update in H by done.
  revert H. generalize (web_world s'). intros w' H.
  destruct (setSetting_stored _ _ _ _ H) as (stored & Hd & Hread & _).
  eexists. split; [|apply sort_by_perm]. apply getSmtpConfigs_saved; [by apply tls_saved| |].
  - rewrite Hd. cbn. by rewrite alookup_aset.
  - unfold getSetting, mbind, M_bind. cbn -[read_setting]. rewrite Hd. cbn -[read_setting].
    by rewrite alookup_aset, Hread.
Qed.
End smtp.

(** ** What the pages do not show *)

Section secrets.
Context {HK : Honker} {PF : Platform} {TZ : Zones} (toLocaleString : nat -> string).

(** Two lists of settings that differ in the secret ones, and two servers that differ in a
    password, if there is one. *)
Definition public_key (k : string) : Prop := k ∉ ENCRYPTED_KEYS /\ k <> "smtpConfigs".
Definition low_settings (s1 s2 : list (string * json)) : Prop :=
  forall k, public_key k -> alookup k s1 = alookup k s2.
Definition low_config (c1 c2 : SmtpConfig) : Prop :=
  exists p, c2 = c1 <| sc_pass := p |> /\ truthy p = truthy (sc_pass c1).

(** The public settings of a list. *)
Definition public (l : list (string * text)) : list (string * text) :=
  List.filter (fun kv => negb (bool_decide (kv.1 ∈ ENCRYPTED_KEYS)) && negb (String.eqb kv.1 "smtpConfigs")) l.
Lemma alookup_public k l : public_key k -> alookup k l = alookup k (public l).
Proof.
  intros [Hk Hc]. induction l as [|[k' t] l IH]; [done|]. cbn.
  destruct (String.eqb_spec k k') as [<-|Hne].
  - rewrite bool_decide_eq_false_2, (proj2 (String.eqb_neq _ _) Hc) by done. cbn. by rewrite String.eqb_refl.
  - rewrite IH. destruct (_ && _); [|done]. cbn. by rewrite (proj2 (String.eqb_neq _ _) Hne).
Qed.

Lemma low_attr s1 s2 k : low_settings s1 s2 -> public_key k -> s_attr k s1 = s_attr k s2.
Proof. intros H Hk. unfold s_attr. by rewrite H. Qed.
Lemma low_num s1 s2 k : low_settings s1 s2 -> public_key k -> s_num k s1 = s_num k s2.
Proof. intros H Hk. unfold s_num. by rewrite H. Qed.
Lemma low_bool s1 s2 k : low_settings s1 s2 -> public_key k -> s_bool k s1 = s_bool k s2.
Proof. intros H Hk. unfold s_bool. by rewrite H. Qed.

Lemma public_by_compute k :
  negb (bool_decide (k ∈ ENCRYPTED_KEYS)) && negb (String.eqb k "smtpConfigs") = true -> public_key k.
Proof.
  intros [Hk Hc]%andb_true_iff. split.
  - intros Hin. by rewrite bool_decide_eq_true_2 in Hk.
  - by intros ->.
Qed.

(** [low H] replaces every public setting of the one list by that of the other. *)
Ltac low H :=
  repeat match type of H with
  | low_settings ?s1 ?s2 => match goal with
    | |- context [s_attr ?k s1] => rewrite (low_attr s1 s2 k H) by (apply public_by_compute; reflexivity)
    | |- context [s_num ?k s1] => rewrite (low_num s1 s2 k H) by (apply public_by_compute; reflexivity)
    | |- context [s_bool ?k s1] => rewrite (low_bool s1 s2 k H) by (apply public_by_compute; reflexivity)
    end end.

Lemma low_forms s1 s2 : low_settings s1 s2 ->
  storage_form s1 = storage_form s2 /\ usage_scan_form s1 = usage_scan_form s2 /\
  gpu_policy_form s1 = gpu_policy_form s2 /\ alerts_form s1 = alerts_form s2 /\ scrub_form s1 = scrub_form s2.
Proof.
  intros H. unfold storage_form, usage_scan_form, gpu_policy_form, alerts_form, scrub_form.
  cbn [fmap list_fmap app]. low H. done.
Qed.

Lemma low_smtp_forms c1 c2 : low_config c1 c2 -> smtp_forms c1 = smtp_forms c2.
Proof. intros (p & -> & Hp). unfold smtp_forms. cbn -[truthy num_str]. by rewrite Hp. Qed.

Lemma low_next_rank l1 l2 : Forall2 low_config l1 l2 -> next_rank l1 = next_rank l2.
Proof.
  intros H. unfold next_rank. f_equal. generalize (num_of_Z 0).
  induction H as [|c1 c2 l1 l2 (p & -> & _) _ IH]; intros m; [done|]. cbn -[num_ltb]. apply IH.
Qed.

Lemma low_settings_view s1 s2 l1 l2 n b smtp scrub lg :
  low_settings s1 s2 -> Forall2 low_config l1 l2 ->
  settings_view toLocaleString s1 l1 n b smtp scrub lg = settings_view toLocaleString s2 l2 n b smtp scrub lg.
Proof.
  intros H Hl. unfold settings_view. destruct (low_forms s1 s2 H) as (-> & -> & -> & -> & ->).
  rewrite (low_next_rank _ _ Hl). do 4 f_equal.
  assert (smtp_forms <$> l1 = smtp_forms <$> l2) as ->; [|done].
  induction Hl as [|c1 c2 l1 l2 Hc _ IH]; [done|]. by rewrite !fmap_cons, IH, (low_smtp_forms _ _ Hc).
Qed.

(** The backups page shows of the WebDAV password that there is one. *)
Theorem backups_view_hides_secrets (localeTime : num -> option string -> option string) tz (hydrated : bool)
    s1 s2 env next configured st msg :
  low_settings s1 s2 -> s_bool "webdavPass" s1 = s_bool "webdavPass" s2 ->
  backups_view localeTime tz hydrated s1 env next configured st msg =
  backups_view localeTime tz hydrated s2 env next configured st msg.
Proof.
  intros H Hp. unfold backups_view, webdav_form, schedule_form. cbn [fmap list_fmap app]. rewrite Hp. low H. done.
Qed.

(** Two consoles that store the same but for the secrets. *)
Record low_web (x1 x2 : WebWorld) : Prop := {
  lw_settings : forall k, public_key k -> (getSetting k (web_world x1)).1 = (getSetting k (web_world x2)).1;
  lw_smtp : match (getSmtpConfigs (web_world x1)).1, (getSmtpConfigs (web_world x2)).1 with
            | Ok l1, Ok l2 => Forall2 low_config l1 l2
            | Throw e1, Throw e2 => e1 = e2
            | _, _ => False
            end;
  lw_logs : logs (web_db x1) = logs (web_db x2) }.

Lemma getSettings_run w : exists s, getSettings w = (Ok s, w) /\
  forall k, alookup k s = if decide (k ∈ DEFAULT_SETTINGS.*1)
                          then Some (read_setting k (alookup k (settings (w_db w)))) else None.
Proof.
  unfold getSettings. induction (DEFAULT_SETTINGS.*1) as [|k0 l (s & H & Hs)]; [by exists []|].
  cbn [for_map]. rewrite (bind_step _ _ w (k0, read_setting k0 (alookup k0 (settings (w_db w)))) w)
    by by rewrite (bind_step _ _ _ _ _ (getSetting_run k0 w)).
  rewrite (bind_step _ _ _ _ _ H). eexists. split; [done|]. intros k. cbn [alookup].
  destruct (String.eqb_spec k k0) as [->|Hne].
  - by rewrite decide_True by left.
  - rewrite Hs. case_decide as H1; case_decide as H2; try done.
    + destruct H2. by right.
    + by apply elem_of_cons in H2 as [->|?].
Qed.

Lemma on_act_read {A} (m : Act A) x r : m (web_world x) = (r, web_world x) -> on_act m x = (r, x).
Proof. intros H. rewrite (on_act_run _ _ _ _ H). by destruct x as [[]]. Qed.

(** The rest of the page reads the log table only. *)
Lemma logs_read {A} (f : nat -> Z -> A) x :
  ((d ← on_act db; logBytes ← on_act logsContentBytes; mret (f (length (rows (logs d))) logBytes)) x).1 =
  Ok (f (length (rows (logs (web_db x)))) (logs_bytes (rows (logs (web_db x))))).
Proof. by destruct x as [[]]. Qed.

(** C35: the settings page reveals no stored secret: two consoles that differ only in the SMTP
    passwords, where both or neither are set, and in the credentials among the settings show the
    same page. *)
Theorem settings_page_hides_secrets smtp scrub lg x1 x2 :
  low_web x1 x2 ->
  (SettingsPage toLocaleString smtp scrub lg x1).1 = (SettingsPage toLocaleString smtp scrub lg x2).1.
Proof.
  intros [Hset Hsmtp Hlogs]. unfold SettingsPage.
  destruct (getSettings_run (web_world x1)) as (s1 & H1 & Hs1), (getSettings_run (web_world x2)) as (s2 & H2 & Hs2).
  assert (low_settings s1 s2) as Hlow.
  { intros k Hk. rewrite Hs1, Hs2. specialize (Hset k Hk). rewrite !getSetting_run in Hset.
    case_decide; [|done]. f_equal. by injection Hset. }
  pose proof (getSmtpConfigs_db (web_world x1) (web_world x1) eq_refl) as Hc1.
  pose proof (getSmtpConfigs_db (web_world x2) (web_world x2) eq_refl) as Hc2.
  rewrite (bind_step _ _ _ _ _ (on_act_read _ _ _ H1)), (bind_step _ _ _ _ _ (on_act_read _ _ _ H2)).
  destruct (getSmtpConfigs (web_world x1)).1 as [l1|e1], (getSmtpConfigs (web_world x2)).1 as [l2|e2]; try done.
  - rewrite (bind_step _ _ _ _ _ (on_act_read _ _ _ Hc1)), (bind_step _ _ _ _ _ (on_act_read _ _ _ Hc2)).
    etransitivity; [apply (logs_read (fun n b => settings_view toLocaleString s1 l1 n b smtp scrub lg) x1)|].
    etransitivity; [|symmetry; apply (logs_read (fun n b => settings_view toLocaleString s2 l2 n b smtp scrub lg) x2)].
    rewrite Hlogs. f_equal. by apply low_settings_view.
  - rewrite (bind_throw _ _ _ _ _ (on_act_read _ _ _ Hc1)), (bind_throw _ _ _ _ _ (on_act_read _ _ _ Hc2)).
    by subst e2.
Qed.
End secrets.

(** ** A relay that wants TLS on port 2465 *)

Section witness.
#[local] Existing Instance toy_honker.
#[local] Existing Instance console_pf.
#[local] Existing Instance toy_auth.

Definition relay : SmtpConfig := {|
  sc_id := "a1"; sc_name := "Relay"; sc_rank := num_of_Z 1; sc_host := "relay.lab.edu";
  sc_port := num_of_Z 2465; sc_user := "lab"; sc_pass := "hunter22"; sc_from := "lab@lab.edu";
  sc_secure := true |}.
Definition smtp_setup : WAct unit :=
  on_act (setSetting "smtpConfigs" (JArr [config_json relay]));;
  setSessionCookie (mkAdminId 1 "Root" "root@lab.edu").
Definition smtp_web : WebWorld := (smtp_setup (demo_web ticking)).2.

(** The same console under other passwords. *)
Definition secret_web (pass webdav : string) : WebWorld :=
  set_world ((setSetting "smtpConfigs" (JArr [config_json (relay <| sc_pass := pass |>)]);;
              setSetting "webdavPass" (JStr webdav)) (web_world (demo_web ticking))).2 (demo_web ticking).

Lemma settings_page_hides_secrets_witness :
  (SettingsPage nat_str None None None (secret_web "hunter22" "a")).1 =
  (SettingsPage nat_str None None None (secret_web "swordfish" "b")).1.
Proof.
  assert (forall w1 w2, public (settings (w_db w1)) = public (settings (w_db w2)) ->
    forall k, public_key k -> (getSetting k w1).1 = (getSetting k w2).1) as Hset.
  { intros w1 w2 H k Hk. rewrite !getSetting_run. by rewrite (alookup_public k _ Hk), H, <- (alookup_public k _ Hk). }
  apply settings_page_hides_secrets. split.
  - apply Hset. by vm_compute.
  - replace ((getSmtpConfigs (web_world (secret_web "hunter22" "a"))).1) with (Ok (E := exn) [relay]) by by vm_compute.
    replace ((getSmtpConfigs (web_world (secret_web "swordfish" "b"))).1)
      with (Ok (E := exn) [relay <| sc_pass := "swordfish" |>]) by by vm_compute.
    constructor; [by exists "swordfish"|constructor].
  - by vm_compute.
Defined.

Lemma relay_plain : plain_config relay.
Proof.
  split.
  - by split.
  - by split.
  - split; [done|by vm_compute].
  - done.
  - done.
  - exists 2465. split; [lia|reflexivity].
  - exists 1. split; [lia|reflexivity].
Qed.

Lemma smtp_resave_witness :
  sc_secure relay = true /\
  (getSmtpConfigs (web_world (saveSmtpSettingsAction (smtp_form_data relay) smtp_web).2)).1 =
    Ok [relay <| sc_secure := false |>].
Proof.
  split; [done|].
  destruct (@smtp_resave _ _ _ console_numbers (toy_crypto web_env demo_accepts) relay (smtp_form_data relay)
    (mkAdminId 1 "Root" "root@lab.edu") smtp_web (requireAdmin smtp_web).2 [relay]
    (saveSmtpSettingsAction (smtp_form_data relay) smtp_web).2) as (cs' & Hcs & Hperm).
  - rewrite smtp_forms_requests. by left.
  - by vm_compute.
  - by vm_compute.
  - by left.
  - apply Forall_singleton, relay_plain.
  - apply NoDup_singleton.
  - by vm_compute.
  - rewrite Hcs. f_equal. by apply Permutation_singleton_r in Hperm as ->.
Defined.
End witness.
