(* ===== verification/NodePages.v ===== *)
(** * NodePages: the nodes, logs, task, GPU and dashboard pages

    [app/(app)/nodes/page.tsx] with [ColdStorageForm.tsx], [logs/page.tsx],
    [tasks/[id]/page.tsx], [gpu/page.tsx] and [dashboard/page.tsx].  These pages show what the
    agents reported, as it was stored: reading a property of a value that is null, calling a
    method a value does not have, and rendering an object throw, and then the page is an
    error.  Calendar formatting is a parameter.

    The second part: what reported data does to the pages. *)
From S2P Require Import Prelude Js Numbers Redact Schema Sql DbWf Secrets Queue Testbed Settings Format Mailer Placements Labs Students Nodes Protocol Ingest Hub HubConn Web WebFixture Maintenance Gpu RateLimit Flash Actions Console View LabPages QueueFacts.
From Stdlib Require Import Ascii.
Open Scope Z_scope.

(** SQLite's [s LIKE p]: ASCII letters without their case, [%] and [_]. *)
Fixpoint sql_like (p : string) : string -> bool :=
  match p with
  | EmptyString => fun s => String.eqb s ""
  | String c p' =>
      if Ascii.eqb c "%" then
        fix any s := sql_like p' s || match s with EmptyString => false | String _ s' => any s' end
      else fun s =>
        match s with
        | EmptyString => false
        | String c' s' => (Ascii.eqb c "_" || Ascii.eqb (lower_char c) (lower_char c')) && sql_like p' s'
        end
  end.

(** An element of a JSX expression: text, or nothing for null and booleans; an object throws. *)
Fixpoint react_child `{HK : Honker, PF : Platform} (v : json) : result exn string :=
  match v with
  | JNull | JBool _ => Ok ""
  | JNum n => Ok (num_str n)
  | JStr s => Ok s
  | JArr l => (fix go l := match l with
                           | [] => Ok ""
                           | x :: l' => a ← react_child x; b ← go l'; Ok (a +:+ b)
                           end) l
  | JObj _ => Throw EReactChild
  end.

(** [v.k]: the property of a value, [None] undefined; it throws on null and undefined. *)
Definition js_prop (k : string) (v : option json) : result exn (option json) :=
  match v with
  | None | Some JNull => Throw ETypeError
  | Some v => Ok (field k v)
  end.
(** [v?.k] *)
Definition opt_prop (k : string) (v : option json) : option json :=
  match v with None | Some JNull => None | Some v => field k v end.

(** [v?.length] *)
Definition length_of (v : option json) : option json :=
  match v with
  | Some (JArr l) => Some (jz (Z.of_nat (length l)))
  | Some (JStr s) => Some (jz (Z.of_nat (js_length s)))
  | _ => opt_prop "length" v
  end.
(** [v.length === 0], where [v] is not null *)
Definition is_empty (v : json) : bool :=
  match length_of (Some v) with Some (JNum n) => num_eqb n (num_of_Z 0) | _ => false end.

Section node_pages.
Context {HK : Honker} {PF : Platform}.
(** [new Date(ts).toISOString()] and [toLocaleString("en-US", ...)] of a time in range, and
    [JSON.stringify(v, null, 2)]. *)
Context (isoString localeDate : num -> string) (print_pretty : json -> string).

(** ** [nodes/page.tsx] *)

(** [`${o}`] of a property *)
Definition template_str (o : option json) : string :=
  match o with None => "undefined" | Some v => js_String v end.

Definition scrub_bad (p : json) : bool :=
  bool_decide (field "healthy" p = Some (JBool false)) ||
  match field "errors" p with Some (JNum n) => negb (num_eqb n (num_of_Z 0)) | _ => false end.

(** [p.errors && p.errors !== 0] *)
Definition scrub_errors (p : json) : bool :=
  match field "errors" p with
  | Some v => json_truthy v && negb (match v with JNum n => num_eqb n (num_of_Z 0) | _ => false end)
  | None => false
  end.
Definition scrub_text (p : json) : string :=
  template_str (field "pool" p) +:+
  (if bool_decide (field "healthy" p = Some (JBool false)) || scrub_errors p then ": errors"
   else if ojson_truthy (field "scrubbing" p) then ": scrubbing" else ": ok").

Definition scrubSummary (raw : option text) : result exn (string * bool) :=
  match raw with
  | None => Ok ("—", false)
  | Some t =>
      match json_parse t with
      | None => Ok ("—", false)
      | Some entries =>
          if is_empty entries then Ok ("—", false)
          else match entries with
               | JArr l => if existsb (fun p => bool_decide (p = JNull)) l then Throw ETypeError
                           else Ok (join ", " (scrub_text <$> l), existsb scrub_bad l)
               | _ => Throw ETypeError
               end
      end
  end.

Fixpoint nodes_units (v : num) (unit : string) (rest : list string) : string :=
  match rest with
  | u :: rest' =>
      if num_leb (num_of_Z 1024) v then nodes_units (num_div v (num_of_Z 1024)) u rest'
      else toFixed 1 v +:+ " " +:+ unit
  | [] => toFixed 1 v +:+ " " +:+ unit
  end.
(** The page's own [fmtBytes], on whatever the telemetry holds: a value that is no number is
    divided, and so converted, only when it compares as at least 1024; else it has no [toFixed]. *)
Definition nodes_fmtBytes (n : option json) : result exn string :=
  let units := ["KB"; "MB"; "GB"; "TB"; "PB"] in
  match n with
  | Some (JNum v) => Ok (nodes_units v "B" units)
  | Some v =>
      let x := match v with JArr _ | JObj _ => str_to_num (js_String v) | _ => js_Number (Some v) end in
      if num_leb (num_of_Z 1024) x then Ok (nodes_units x "B" units) else Throw ETypeError
  | None => Throw ETypeError
  end.

(** The page's own [ago]. *)
Definition nodes_ago (ts : option Z) : Act string :=
  match ts with
  | None => mret "never"
  | Some t =>
      if t =? 0 then mret "never"
      else
        now ← date_now;
        let s := (now - t) / 1000 in
        mret (if s <? 60 then string_of_Z s +:+ "s ago"
              else if s <? 3600 then string_of_Z (s / 60) +:+ "m ago"
              else string_of_Z (s / 3600) +:+ "h ago")
  end.

Definition authLabel (n : NodeRow) : string := if n_allowed n then "per-node" else "revoked".

(** A row of the query. *)
Record NodeView := mkNodeView {
  nv_node : NodeRow; nv_owner : option string; nv_placements : nat;
  nv_hosted : option string; nv_clients : option string }.

(** [group_concat(x, ', ')]: null without rows *)
Definition group_concat (l : list string) : option string :=
  match l with [] => None | _ => Some (join ", " l) end.

Definition node_view (d : Db) (n : NodeRow) : NodeView :=
  {| nv_node := n; nv_owner := n_name <$> (n_cold_owner_node_id n ≫= node_of d);
     nv_placements := placement_count d (n_id n);
     nv_hosted := group_concat (omap (fun p =>
         (fun l => l_name l +:+ " (" +:+ state_str (p_state p) +:+ ")") <$> lab_of d (p_lab_id p))
       (select (fun p => p_node_id p = n_id n) (rows (lab_placements d))));
     nv_clients := group_concat (cold_dependents d (n_id n)) |}.

(** [nodes/_components/ColdStorageForm.tsx]; [b] is the backend picked. *)
Definition ColdStorageForm (name : string) (ownerName : option string) (localZfsNodes : list string)
    (b : ColdBackend) : page :=
  let owners := filter (fun n => n <> name) localZfsNodes in
  HForm CSetNodeColdStorage (
    [hidden "name" name; select_input "backend" (backend_str b) ["local_zfs"; "smb"]] ++
    show (bool_decide (b = Smb))
      [HCtl (mkControl "ownerName" (KSelect (("", true) :: ((fun n => (n, false)) <$> owners)))
               (nullish ownerName "") false false)] ++
    [submit "Save"]).

(** [o] is a non-empty string. *)
Definition str_truthy (o : option string) : bool := match o with Some s => truthy s | None => false end.

Definition cold_cell (v : NodeView) (localZfsNodes : list string) : list page :=
  let n := nv_node v in
  [HText (if bool_decide (n_cold_backend n = Smb) then "Managed by " +:+ nullish (nv_owner v) "no owner"
          else "local ZFS");
   HText (nullish (n_cold_mount_path n) "path not reported");
   badge (if n_cold_ready n then "ready" else "not ready");
   if (nv_placements v =? 0)%nat && negb (str_truthy (nv_clients v))
   then ColdStorageForm (n_name n) (nv_owner v) localZfsNodes (n_cold_backend n)
   else HText ("Configuration locked while " +:+
          (if (0 <? nv_placements v)%nat then nat_str (nv_placements v) +:+ " placement(s) are hosted"
           else "SMB clients depend on this node") +:+ ".")].

Definition node_button_form (act : FormData -> console_action) (name label : string) : page :=
  HForm act [hidden "name" name; submit label].

Definition node_forms (v : NodeView) : list page :=
  let n := nv_node v in
  let name := n_name n in
  [node_button_form CCheckNode name "Check"; node_button_form CRepairNode name "Repair";
   node_button_form CRebootNode name "Reboot"; node_button_form CRotateNodeToken name "Rotate"] ++
  show (n_allowed n) [node_button_form CRevokeNode name "Revoke"] ++
  [node_button_form CDeleteNode name "Delete"] ++
  show (negb (n_online n))
    [HForm CDeleteNode [hidden "name" name; hidden "force" "1";
       HText ("Force-deleting immediately removes the node" +:+
         (if (0 <? nv_placements v)%nat
          then " and its " +:+ nat_str (nv_placements v) +:+ " lab placement(s)" else "") +:+
         (if str_truthy (nv_clients v)
          then ", and its SMB clients (" +:+ default "" (nv_clients v) +:+ ") lose their cold-storage owner"
          else ""));
       submit "Force delete"]].

(** [pools.map(...)] *)
Fixpoint pool_cells (l : list json) : result exn (list page) :=
  match l with
  | [] => Ok []
  | p :: l' =>
      name ← js_prop "name" (Some p);
      shown ← react_child (default JNull name);
      free ← nodes_fmtBytes (field "free" p);
      rest ← pool_cells l';
      Ok (HText shown :: HText (free +:+ " free") :: rest)
  end.
Definition pools_cell (pools : json) : result exn (list page) :=
  if is_empty pools then Ok [HText "—"]
  else match pools with JArr l => pool_cells l | _ => Throw ETypeError end.

Definition issues_text (caps : option json) : result exn string :=
  health ← js_prop "health" caps;
  let issues := opt_prop "issues" health in
  let n := length_of issues in
  if num_ltb (num_of_Z 0) (js_Number n)
  then Ok (template_str (opt_prop "status" health) +:+ ": " +:+ template_str n) else Ok "—".

(** [raw ? JSON.parse(raw) : d] *)
Definition parse_or (raw : option text) (d : json) : result exn json :=
  match raw with
  | None => Ok d
  | Some t =>
      if truthy (text_str t) then match json_parse t with Some v => Ok v | None => Throw EJsonSyntax end
      else Ok d
  end.

Definition node_row (localZfsNodes : list string) (v : NodeView) : Act page :=
  let n := nv_node v in
  caps ← lift (parse_or (n_capabilities n) (JObj []));
  pools ← lift (parse_or (n_pools n) (JArr []));
  scrub ← lift (scrubSummary (n_scrub_status n));
  nvidia ← lift (js_prop "nvidia" (Some caps));
  gpus ← lift (react_child (match opt_prop "gpu_count" nvidia with
                            | None | Some JNull => jz 0
                            | Some v => v
                            end));
  storage ← lift (pools_cell pools);
  issues ← lift (issues_text (Some caps));
  seen ← nodes_ago (n_last_seen n);
  mret (HEl (
    (match n_alias n ≫= or_null with
     | Some a => [HText a; HText (n_name n)]
     | None => [HText (n_name n)]
     end) ++
    [HForm CSetNodeAlias [hidden "name" (n_name n); input "alias" (nullish (n_alias n) ""); submit "Save"];
     badge (online_str (n_online n)); HText (authLabel n); HText gpus] ++
    storage ++ cold_cell v localZfsNodes ++
    show_str (nv_hosted v) (fun s => [HText ("Labs: " +:+ s)]) ++
    show_str (nv_clients v) (fun s => [HText ("SMB clients: " +:+ s)]) ++
    [HText scrub.1; HText issues; HText ("Last seen " +:+ seen)] ++ node_forms v)).

Definition NodesPage (provisioned token_flash error deleted revoked maintenance : option string)
    : WAct page :=
  token ← (match token_flash with Some id => takeFlash id | None => mret None end);
  d ← on_act db;
  zfs ← on_act listLocalZfsNodes;
  rows ← on_act (for_map (fun n => node_row (snd <$> zfs) (node_view d n))
                   (sort_by (by_name n_name) (rows (nodes d))));
  mret (HEl (
    notice error ++
    show_str deleted (fun s => [HText ("Node “" +:+ s +:+ "” was deleted.")]) ++
    show_str revoked (fun s =>
      [HText ("Node “" +:+ s +:+ "” was revoked and its live connection is being closed.")]) ++
    notice maintenance ++
    show_str provisioned (fun p => show_str token (fun t =>
      [HText ("Token for node “" +:+ p +:+ "”"); HText ("sudo lab-agent set-token " +:+ t)])) ++
    [HForm CProvisionNode [input_required "name" ""; submit "Provision token"]] ++
    match rows with [] => [HText "No nodes have connected yet."] | _ => rows end)).

(** ** [logs/page.tsx] *)

(** [new Date(ts).toISOString()]: a time outside the range of dates throws. *)
Definition toISOString (ts : num) : result exn string :=
  if is_finite ts && num_leb (SFabs ts) (num_of_Z 8640000000000000) then Ok (isoString ts)
  else Throw ERangeError.

(** [ago] of [lib/format.ts], for a time an agent may have sent. *)
Definition ago_num (ts : num) : Act string :=
  if negb (num_truthy ts) then mret "never"
  else
    now ← date_now;
    let per x k := num_floor (num_div x (num_of_Z k)) in
    let s := per (num_sub (num_of_Z now) ts) 1000 in
    mret (if num_ltb s (num_of_Z 60) then num_str s +:+ "s ago"
          else if num_ltb s (num_of_Z 3600) then num_str (per s 60) +:+ "m ago"
          else if num_ltb s (num_of_Z 86400) then num_str (per s 3600) +:+ "h ago"
          else num_str (per s 86400) +:+ "d ago").

Definition LEVELS : list string := [""; "DEBUG"; "INFO"; "WARN"; "ERROR"].

(** [column LIKE ?], where a null column does not match *)
Definition like_opt (p : string) (o : option string) : bool :=
  match o with Some s => sql_like p s | None => false end.

(** The WHERE clause: a filter that is empty is not part of it. *)
Definition log_matches (level node q task : string) (l : LogRow) : bool :=
  (negb (truthy level) || String.eqb (log_level l) level) &&
  (negb (truthy node) || bool_decide (log_node l = Some node)) &&
  (negb (truthy task) || bool_decide (log_task_id l = Some task)) &&
  (negb (truthy q) ||
   (let p := "%" +:+ q +:+ "%" in
    sql_like p (log_msg l) || like_opt p (log_detail l) || like_opt p (log_source l))).

Definition logs_query (level node q task : string) (d : Db) : list LogRow :=
  take 300 (sort_by (fun a b => num_leb (log_ts b) (log_ts a))
    (List.filter (log_matches level node q task) (rows (logs d)))).

Definition log_nodes (d : Db) : list string := dedup [] (omap log_node (rows (logs d))).

Definition log_row (l : LogRow) : Act page :=
  title ← lift (toISOString (log_ts l));
  when_ ← ago_num (log_ts l);
  mret (HEl [HText title; HText when_; HText (log_level l); HText (or_dash (log_node l));
             HText (or_dash (log_source l)); HText (log_msg l);
             match log_task_id l ≫= or_null with
             | Some t => HLink ("/tasks/" +:+ encodeURIComponent t) [HText (take_str 8 t)]
             | None => HText "—"
             end]).

(** The search form is sent with GET: its fields are the page's next parameters. *)
Definition logs_form (level node q task : string) (nodes : list string) : list page :=
  [select_input "level" level LEVELS; select_input "node" node ("" :: nodes); input "q" q] ++
  show (truthy task) [hidden "task" task] ++ [submit "Filter"] ++
  show (truthy level || truthy node || truthy q || truthy task) [HLink "/logs" [HText "clear"]] ++
  show (truthy task) [HText ("Filtered to task " +:+ task)].

Definition LogsPage (level node q task : option string) : WAct page :=
  let level := nullish level "" in
  let node := nullish node "" in
  let q := nullish q "" in
  let task := nullish task "" in
  d ← on_act db;
  rows ← on_act (for_map log_row (logs_query level node q task d));
  mret (HEl (logs_form level node q task (log_nodes d) ++
             match rows with [] => [HText "No matching logs."] | _ => rows end)).

(** ** [tasks/[id]/page.tsx] *)

Definition prettyJson (raw : option text) : option string :=
  match raw with
  | None => None
  | Some t => Some (match json_parse t with
                    | Some v => print_pretty (redactSecrets v)
                    | None => text_str t
                    end)
  end.

(** [/\.\d+Z$/] *)
Definition MILLIS_RE : re := RSeq (rlit ".") (RSeq (rplus (RChr c_digit)) (rlit "Z")).
Fixpoint utc_suffix (s : string) : string :=
  if re_test MILLIS_RE s then " UTC"
  else match s with String c s' => String c (utc_suffix s') | EmptyString => "" end.
(** The first [T] is a blank. *)
Fixpoint blank_t (s : string) : string :=
  match s with
  | String c s' => if Ascii.eqb c "T" then String " " s' else String c (blank_t s')
  | EmptyString => ""
  end.
Definition fullTime (ts : num) : result exn string :=
  iso ← toISOString ts; Ok (utc_suffix (blank_t iso)).

Definition task_state_str (s : TaskState) : string :=
  match s with TQueued => "queued" | TSent => "sent" | TOk => "ok" | TFailed => "failed" end.

Definition task_log_row (l : LogRow) : Act page :=
  title ← lift (fullTime (log_ts l));
  when_ ← ago_num (log_ts l);
  mret (HEl ([HText title; HText when_; HText (log_level l); HText (or_dash (log_source l)); HText (log_msg l)] ++
             show_str (log_detail l) (fun s => [HText s]))).

Definition task_logs (d : Db) (id : string) : list LogRow :=
  sort_by (fun a b => num_leb (log_ts a) (log_ts b)) (select (fun l => log_task_id l = Some id) (rows (logs d))).

Definition TaskDetailPage (id : string) : WAct page :=
  task ← on_act (getTask id);
  match task with
  | None => mret (HEl [HText ("No task found with id " +:+ id +:+ "."); HLink "/logs" [HText "← Back to logs"]])
  | Some t =>
      d ← on_act db;
      let durationMs := t_updated_at t - t_created_at t in
      created ← on_act (lift (fullTime (num_of_Z (t_created_at t))));
      createdAgo ← on_act (ago (Some (t_created_at t)));
      updated ← on_act (lift (fullTime (num_of_Z (t_updated_at t))));
      updatedAgo ← on_act (ago (Some (t_updated_at t)));
      rows ← on_act (for_map task_log_row (task_logs d id));
      let ok := bool_decide (t_state t = TOk) in
      mret (HEl (
        [HText ("Task: " +:+ t_action t); HText (task_state_str (t_state t));
         HLink "/logs" [HText "← Back to logs"];
         HLink ("/logs?task=" +:+ encodeURIComponent (t_task_uuid t)) [HText "filter logs to this task"];
         HText (t_node t); HText (or_dash (t_requested_by t)); HText (t_task_uuid t);
         HText (string_of_Z (t_job_id t)); HText (created +:+ " (" +:+ createdAgo +:+ ")");
         HText (updated +:+ " (" +:+ updatedAgo +:+ ")");
         HText (if 0 <=? durationMs
                then toFixed 1 (num_div (num_of_Z durationMs) (num_of_Z 1000)) +:+ "s" else "—")] ++
        show_str (t_error t) (fun e => [HText e]) ++
        [HText (match prettyJson (t_params t) ≫= or_null with Some s => s | None => "No parameters." end);
         HText (match prettyJson (t_result t) ≫= or_null with
                | Some s => s
                | None => if ok then "Completed with no result payload." else "No result yet."
                end);
         HText ("Log entries (" +:+ nat_str (length rows) +:+ ")")] ++
        match rows with [] => [HText "No log entries reference this task."] | _ => rows end))
  end.

(** ** [gpu/page.tsx] *)

(** SQLite's order of stored values: null, numbers, texts. *)
Definition sql_value_leb (a b : option json) : bool :=
  match a, b with
  | None, _ | Some JNull, _ => true
  | Some (JNum x), Some (JNum y) => num_leb x y
  | Some (JNum _), Some (JStr _) => true
  | Some (JStr x), Some (JStr y) => str_leb x y
  | _, _ => false
  end.
(** [ORDER BY node, vram_bytes DESC] *)
Definition snapshot_leb (a b : GpuSnapshotRow) : bool :=
  if String.eqb (gs_node a) (gs_node b) then sql_value_leb (gs_vram_bytes b) (gs_vram_bytes a)
  else str_leb (gs_node a) (gs_node b).

(** [fmtBytes] of [lib/format.ts] on a stored value: a text below 1024 has no [toFixed]. *)
Definition fmtBytes_value (v : option json) : result exn string :=
  match v with
  | None | Some JNull => Ok "—"
  | Some (JNum n) => Ok (fmtBytes (Some n))
  | Some v =>
      let x := js_Number (Some v) in
      if num_leb (num_of_Z 1024) x then Ok (fmtBytes (Some x)) else Throw ETypeError
  end.

(** [{o ?? "—"}] *)
Definition child_or_dash (o : option json) : result exn string :=
  match o with None | Some JNull => Ok "—" | Some v => react_child v end.

Definition snapshot_row (r : GpuSnapshotRow) : result exn page :=
  pid ← react_child (gs_pid r);
  vram ← fmtBytes_value (gs_vram_bytes r);
  util ← child_or_dash (gs_util r);
  Ok (HEl [HText (gs_node r); HText pid; HText (or_dash (gs_user r)); HText (or_dash (gs_lab r));
           HText (match gs_started_at r with Some t => localeDate t | None => "—" end);
           HText (or_dash (gs_cmd r)); HText vram; HText util]).

Definition countBadges (killed warned : Z) : page :=
  HEl [HText (string_of_Z killed +:+ " killed"); HText (string_of_Z warned +:+ " warned")].

(** [fmtDuration] floors the seconds. *)
Definition event_row (e : GpuEventRow) : Act page :=
  when_ ← ago_num (ge_ts e);
  mret (HEl [HText when_; HText (ge_node e); HText (or_dash (num_str <$> ge_pid e)); HText (or_dash (ge_cmd e));
             HText (match ge_idle_s e with
                    | Some s => if num_ltb s (num_of_Z 0) then "—" else fmtDuration (Some (floor_Z s))
                    | None => "—"
                    end);
             HText (fmtBytes (ge_vram_bytes e)); HText (ge_state e);
             HForm CDeleteGpuEvent [hidden "id" (string_of_Z (ge_id e)); submit "Delete"]]).

Definition StudentDetails (s : StudentKillStats) : Act page :=
  last ← ago_num (st_lastTs s);
  events ← for_map event_row (st_events s);
  mret (HEl (HText (nullish (st_user s) "(unknown user)") :: countBadges (st_killed s) (st_warned s) ::
             HText ("last " +:+ last) :: events)).

Definition lab_kills (l : LabKillStats) : Act page :=
  students ← for_map StudentDetails (lk_students l);
  let n := length (lk_students l) in
  mret (HEl (HText (nullish (lk_lab l) "(no lab)") :: countBadges (lk_killed l) (lk_warned l) ::
             HText (nat_str n +:+ " " +:+ plural n "student") :: students)).

(** [recentGpuEvents()] reads at most 1000 events. *)
Definition GpuPage (cleared : option string) : WAct page :=
  d ← on_act db;
  events ← on_act (recentGpuEvents 1000);
  let snapshot := sort_by snapshot_leb (gpu_snapshot d) in
  rows ← on_act (for_map (fun r => lift (snapshot_row r)) snapshot);
  labs ← on_act (for_map lab_kills (groupGpuEvents events));
  mret (HEl (
    match rows with [] => [HText "No GPU processes reported."] | _ => rows end ++ notice cleared ++
    show (0 <? length events)%nat [HForm (fun _ => CClearGpuEvents) [submit "Clear events"]] ++
    match labs with [] => [HText "No events yet."] | _ => labs end)).

(** ** [dashboard/page.tsx] *)

Definition Dashboard : WAct page :=
  d ← on_act db;
  let count {B} (l : list B) := nat_str (length l) in
  mret (HEl [HText "Nodes online";
             HText (count (select (fun n => n_online n = true) (rows (nodes d))) +:+ " / " +:+ count (rows (nodes d)));
             HText "Labs"; HText (count (rows (labs d))); HText "Students"; HText (count (rows (students d)));
             HLink "/nodes" [HText "Nodes"]]).
End node_pages.

(** * What reported data does to the pages that show it *)


(** ** An order with a distinguished top *)

(** Rows that come before every other row are first after sorting, whatever the order does
    elsewhere. *)
Section top.
Context {A : Type} (leb : A -> A -> bool) (top : A -> Prop) {topDec : forall x, Decision (top x)}.

Definition top_first (l : list A) : Prop := (exists x, x ∈ l /\ top x) -> exists x, head l = Some x /\ top x.

Lemma insert_top_first x l :
  (forall y, y ∈ l -> top x -> ~ top y -> leb x y = true) ->
  (forall y, y ∈ l -> top y -> ~ top x -> leb x y = false) -> top_first l -> top_first (insert_by leb x l).
Proof.
  intros H1 H2 Hl (z & Hz & Ht). rewrite insert_by_perm in Hz. destruct l as [|y l].
  - apply list_elem_of_singleton in Hz as ->. by exists x.
  - cbn. destruct (leb x y) eqn:Hxy.
    + exists x. split; [done|]. apply elem_of_cons in Hz as [->|Hz]; [done|].
      destruct Hl as (? & [= <-] & Hy); [by exists z|]. destruct (decide (top x)); [done|].
      rewrite H2 in Hxy; [done|by left|done|done].
    + exists y. split; [done|]. destruct (decide (top y)) as [|Hy]; [done|].
      apply elem_of_cons in Hz as [->|Hz]; [rewrite H1 in Hxy; [done|by left|done|done]|].
      by destruct Hl as (? & [= <-] & ?); [by exists z|].
Qed.

Lemma sort_top_first l :
  (forall x y, x ∈ l -> y ∈ l -> top x -> ~ top y -> leb x y = true /\ leb y x = false) ->
  top_first (sort_by leb l).
Proof.
  induction l as [|x l IH]; intros H; cbn; [by intros (z & ?%elem_of_nil & _)|].
  apply insert_top_first.
  - intros y Hy Hx Hn. rewrite elem_of_sort_by in Hy. apply (H x y); [by left|by right|done|done].
  - intros y Hy Hx Hn. rewrite elem_of_sort_by in Hy. apply (H y x); [by right|by left|done|done].
  - apply IH. intros a b Ha Hb. apply H; by right.
Qed.
End top.

(** ** Times beyond the range of dates *)

Definition MAX_TIME : num := num_of_Z 8640000000000000.
Definition out_of_range (ts : num) : Prop := num_ltb MAX_TIME ts = true.
#[global] Instance out_of_range_dec ts : Decision (out_of_range ts).
Proof. unfold out_of_range. apply _. Defined.

Lemma max_time : MAX_TIME = S754_finite false 8640000000000000 0.
Proof. by vm_compute. Qed.

(** Doubles above a positive bound are above those that are not. *)
Lemma above_bound m e x y : is_finite x = true -> is_finite y = true ->
  num_ltb (S754_finite false m e) x = true -> num_ltb (S754_finite false m e) y = false ->
  num_leb y x = true /\ num_leb x y = false.
Proof.
  destruct x as [| | |[] mx ex], y as [[]| | |[] my ey]; try done.
  unfold num_ltb, num_leb, SFltb, SFleb, SFcompare. change (Pos.compare_cont Eq) with Pos.compare.
  repeat match goal with
    | |- context [(?a ?= ?b)] => destruct (Z.compare_spec a b)
    | |- context [(?a ?= ?b)%positive] => destruct (Pos.compare_spec a b)
    end; try done; intros; exfalso; lia.
Qed.

Lemma above_not_within m e x : num_ltb (S754_finite false m e) x = true ->
  is_finite x && num_leb (SFabs x) (S754_finite false m e) = false.
Proof.
  destruct x as [| | |[] mx ex]; try done. cbn [is_finite andb SFabs].
  unfold num_ltb, num_leb, SFltb, SFleb, SFcompare. change (Pos.compare_cont Eq) with Pos.compare.
  destruct (Z.compare_spec e ex), (Z.compare_spec ex e); try lia; try done.
  destruct (Pos.compare_spec m mx), (Pos.compare_spec mx m); try lia; done.
Qed.

(** ** The logs page *)

Section logs.
Context {HK : Honker} {PF : Platform}.
Context (isoString : num -> string).

Lemma out_of_range_throws l w : out_of_range (log_ts l) -> (log_row isoString l w) = (Throw ERangeError, w).
Proof.
  intros Ht. unfold log_row. rewrite (bind_throw _ _ w ERangeError w); [done|].
  unfold toISOString. change (num_of_Z 8640000000000000) with MAX_TIME. unfold out_of_range in Ht.
  rewrite max_time in *. by rewrite (above_not_within _ _ _ Ht).
Qed.

(** One log entry whose time is beyond the range of JavaScript's dates takes the logs page
    down. The wire schema asks of a log frame's time only that it is finite, [handleLog] stores
    it as it is, and the page formats the time of every entry it shows: while the entry is
    stored, every filter it passes shows an error and no entry at all, for it sorts before the
    entries with a time in range; retention by age compares the same time and never removes it. *)
Theorem logs_page_poisoned (level node q task : option string) l (s : WebWorld)
    (Hl : l ∈ rows (logs (web_db s))) (Hts : out_of_range (log_ts l))
    (Hfinite : Forall (fun l => is_finite (log_ts l) = true) (rows (logs (web_db s))))
    (Hmatch : log_matches (nullish level "") (nullish node "") (nullish q "") (nullish task "") l = true) :
  (LogsPage isoString level node q task s).1 = Throw ERangeError.
Proof.
  unfold LogsPage. rewrite (bind_step (on_act db) _ s (web_db s) s) by (by destruct s as [[]]).
  set (m := log_matches _ _ _ _) in *.
  set (rs := logs_query _ _ _ _ _).
  assert (exists x, head rs = Some x /\ out_of_range (log_ts x)) as (x & Hx & Hxt).
  { destruct (sort_top_first (fun a b => num_leb (log_ts b) (log_ts a)) (fun l => out_of_range (log_ts l))
      (List.filter m (rows (logs (web_db s))))) as (x & Hx & Hxt).
    - rewrite Forall_forall in Hfinite. intros x y Hx Hy Hxt Hyt.
      apply list_elem_of_In, filter_In in Hx as [Hx _], Hy as [Hy _]. rewrite <- list_elem_of_In in Hx, Hy.
      unfold out_of_range in *. rewrite max_time in *.
      eapply above_bound; [by apply Hfinite|by apply Hfinite|exact Hxt|by apply not_true_is_false].
    - exists l. split; [|done]. rewrite elem_of_sort_by. apply list_elem_of_In, filter_In.
      split; [by apply list_elem_of_In|done].
    - exists x. split; [|done]. unfold rs, logs_query. fold m. by destruct (sort_by _ _). }
  destruct rs as [|y rs]; [done|]. injection Hx as ->.
  erewrite (bind_throw (on_act _)); [done|]. apply on_act_run. cbn [for_map].
  apply bind_throw, out_of_range_throws, Hxt.
Qed.
End logs.

(** An agent whose clock counts nanoseconds sends a frame the schema accepts. *)
Definition nano_frame : json :=
  JObj [("type", JStr "log"); ("ts", JNum (num_of_Z 1700000000000000000)); ("msg", JStr "disk ok")].
Definition poisoned : @WebWorld toy_honker :=
  match @parseInboundFrame ref_zod nano_frame with
  | Some (FLog m) =>
      set_world ((@handleLog toy_honker (web_pf ticking) "n1" m (web_world (demo_web ticking))).2) (demo_web ticking)
  | _ => demo_web ticking
  end.

Lemma logs_page_poisoned_witness : length (rows (logs (web_db poisoned))) = 1%nat /\
  (@LogsPage toy_honker (web_pf ticking) (fun _ => "") None None None None poisoned).1 = Throw ERangeError.
Proof.
  assert (length (rows (logs (web_db poisoned))) = 1%nat) as Hlen by by vm_compute.
  split; [exact Hlen|].
  assert (forallb (fun l => bool_decide (out_of_range (log_ts l)) && is_finite (log_ts l) &&
    log_matches "" "" "" "" l) (rows (logs (web_db poisoned))) = true) as Hall by by vm_compute.
  destruct (rows (logs (web_db poisoned))) as [|l [|l' rs]] eqn:Hrows; [done| |done].
  cbn in Hall. rewrite andb_true_r in Hall. apply andb_true_iff in Hall as [[Ht Hf]%andb_true_iff Hm].
  apply bool_decide_eq_true in Ht.
  apply (@logs_page_poisoned toy_honker (web_pf ticking) (fun _ => "") None None None None l poisoned).
  - rewrite Hrows. by left.
  - exact Ht.
  - rewrite Hrows. by constructor; [|constructor].
  - exact Hm.
Defined.

(** ** The nodes page *)

(** A row that cannot be rendered takes the list down. *)
Lemma for_map_throws {W E A B} (f : A -> M W E B) l x : x ∈ l ->
  (forall w, exists e w', f x w = (Throw e, w')) -> forall w, exists e w', for_map f l w = (Throw e, w').
Proof.
  intros Hx Hf. induction l as [|y l IH]; [by apply elem_of_nil in Hx|]. intros w. cbn [for_map].
  destruct (f y w) as [[b|e] w1] eqn:Hy; [|by eexists _, _; apply bind_throw].
  apply elem_of_cons in Hx as [->|Hx].
  { destruct (Hf w) as (e & w' & H). rewrite H in Hy. done. }
  destruct (IH Hx w1) as (e & w2 & H2). exists e, w2.
  rewrite (bind_step _ _ _ _ _ Hy). by apply bind_throw.
Qed.

Section nodes.
Context {HK : Honker} {PF : Platform}.

Lemma pool_cells_null l : JNull ∈ l -> exists e, pool_cells l = Throw e.
Proof.
  induction l as [|p l IH]; [by intros ?%elem_of_nil|]. intros Hp. cbn [pool_cells].
  destruct (js_prop "name" (Some p)) as [name|e] eqn:Hn; [|by exists e].
  apply elem_of_cons in Hp as [<-|Hp]; [done|]. destruct (IH Hp) as [e He]. cbn.
  destruct (react_child _) as [shown|e1]; [|by exists e1]. cbn.
  destruct (nodes_fmtBytes _) as [free|e2]; [|by exists e2]. cbn. rewrite He. by exists e.
Qed.

(** The pools a node reported hold a null; the bound is one of JavaScript's arrays. *)
Definition null_pool (n : NodeRow) : Prop :=
  exists l, parse_or (n_pools n) (JArr []) = Ok (JArr l) /\ JNull ∈ l /\ Z.of_nat (length l) < 2 ^ 32.

Lemma node_row_null zfs d n w : null_pool n -> exists e w', node_row zfs (node_view d n) w = (Throw e, w').
Proof.
  intros (l & Hl & Hnull & Hlen). unfold node_row. cbn [node_view nv_node].
  destruct (parse_or (n_capabilities n) (JObj [])) as [caps|e]; [|by eexists _, _; apply bind_throw].
  rewrite (bind_step (lift (Ok caps)) _ w caps w) by done. rewrite Hl.
  rewrite (bind_step (lift (Ok (JArr l))) _ w (JArr l) w) by done.
  destruct (scrubSummary _) as [scrub|e]; [|by eexists _, _; apply bind_throw].
  rewrite (bind_step (lift (Ok scrub)) _ w scrub w) by done.
  destruct (js_prop "nvidia" _) as [nv|e]; [|by eexists _, _; apply bind_throw].
  rewrite (bind_step (lift (Ok nv)) _ w nv w) by done.
  destruct (react_child _) as [gpus|e]; [|by eexists _, _; apply bind_throw].
  rewrite (bind_step (lift (Ok gpus)) _ w gpus w) by done.
  assert (exists e, pools_cell (JArr l) = Throw e) as [e ->]; [|by eexists _, _; apply bind_throw].
  unfold pools_cell. replace (is_empty (JArr l)) with false; [by apply pool_cells_null|].
  unfold is_empty, length_of, jz. symmetry. apply not_true_is_false.
  change (2 ^ 32) with 4294967296 in Hlen. rewrite num_of_Z_eqb by lia. destruct l; [by apply elem_of_nil in Hnull|done].
Qed.

Lemma takeFlash_runs id s : exists v s', takeFlash id s = (Ok v, s') /\ web_db s' = web_db s.
Proof.
  unfold takeFlash. rewrite (bind_step get _ s s s) by done.
  destruct (alookup id (ww_flash s)) as [e|]; [|by eexists _, s].
  rewrite (bind_step (modify _) _ s tt (s <| ww_flash ::= flash_delete id |>)) by done.
  match goal with |- context [(on_act date_now ≫= _) ?s2] =>
    rewrite (bind_step _ _ _ _ _ (on_act_run date_now s2 _ _ eq_refl)) end.
  eexists _, _. split; [done|]. by destruct s as [[]].
Qed.

(** One null in the list of pools a node reports takes the nodes page down, for every node:
    no row is shown, and with the rows goes every form of the page, the ones that revoke and
    delete the node included. *)
Theorem nodes_page_poisoned provisioned token_flash error deleted revoked maintenance n (s : WebWorld)
    (Hn : n ∈ rows (nodes (web_db s))) (Hnull : null_pool n) :
  exists e, (NodesPage provisioned token_flash error deleted revoked maintenance s).1 = Throw e.
Proof.
  unfold NodesPage.
  assert (exists v s', (match token_flash with Some id => takeFlash id | None => mret None end) s = (Ok v, s') /\
    web_db s' = web_db s) as (token & s1 & H1 & Hd)
    by (destruct token_flash; [apply takeFlash_runs|by eexists _, s]).
  rewrite (bind_step _ _ _ _ _ H1). clear H1.
  rewrite (bind_step (on_act db) _ s1 (web_db s1) s1) by (by destruct s1 as [[]]).
  set (zl := (fun n => (n_id n, n_name n)) <$>
    sort_by (by_name n_name) (select (fun n => n_cold_backend n = LocalZfs) (rows (nodes (web_db s1))))).
  rewrite (bind_step (on_act listLocalZfsNodes) _ s1 zl s1) by (by destruct s1 as [[]]).
  rewrite <- Hd in Hn.
  destruct (for_map_throws (fun m => node_row (snd <$> zl) (node_view (web_db s1) m))
    (sort_by (by_name n_name) (rows (nodes (web_db s1)))) n) with (w := web_world s1) as (e & w' & He).
  - by apply elem_of_sort_by.
  - intros w. by apply node_row_null.
  - exists e. erewrite (bind_throw (on_act _)); [done|]. by apply on_act_run.
Qed.
End nodes.

(** Such a frame is within the wire schema. *)
Definition null_pool_frame : json :=
  JObj [("type", JStr "telemetry"); ("payload", JObj [("pools", JArr [JNull])])].
Definition pool_poisoned : @WebWorld toy_honker :=
  match @parseInboundFrame ref_zod null_pool_frame with
  | Some (FTelemetry (Some p)) =>
      set_world ((@ingestTelemetry toy_honker (web_pf ticking) "n1" p (web_world (demo_web ticking))).2) (demo_web ticking)
  | _ => demo_web ticking
  end.

Lemma nodes_page_poisoned_witness : exists e,
  (@NodesPage toy_honker (web_pf ticking) None None None None None None pool_poisoned).1 = Throw e.
Proof.
  assert (match rows (nodes (web_db pool_poisoned)) with
          | n :: _ => parse_or (PF := web_pf ticking) (n_pools n) (JArr []) = Ok (JArr [JNull]) | [] => False end) as Hn
    by by vm_compute.
  destruct (rows (nodes (web_db pool_poisoned))) as [|n l] eqn:Hrows; [destruct Hn|].
  apply (@nodes_page_poisoned toy_honker (web_pf ticking) None None None None None None n pool_poisoned).
  - rewrite Hrows. by left.
  - exists [JNull]. split; [exact Hn|]. split; [by left|cbn; lia].
Defined.
