(* ===== verification/StatsPage.v ===== *)
(** * StatsPage: the storage page, [app/(app)/stats/page.tsx] with its client components

    What [buildStats], [buildNodeUsage] and [listNodeGroups] hand to the page, the forms of the
    node groups, and [EmailReportControl.tsx] as a state machine: its state, what a click posts,
    and what an answer shows.

    The second part: saving the members of a node group. *)
From S2P Require Import Prelude Js Numbers Schema Sql DbWf Env Secrets Queue Testbed Settings Format Mailer Placements Labs Students Nodes Hub HubConn Web WebFixture RateLimit Flash Auth Stats Actions StatsActions Console View LabPages NodePages QueueFacts.
Open Scope Z_scope.

Section stats_page.
Context {HK : Honker} {PF : Platform}.

(** ** [stats/_components/EmailReportControl.tsx] *)

Definition resultMessage (r : EmailUsageReportResult) : string * bool :=
  match r with
  | RSent to => ("Report sent to " +:+ to, true)
  | RSkipped to => ("SMTP not configured — nothing sent (would go to " +:+ to +:+ ")", false)
  | RMissingEmail => ("That recipient has no email address on file", false)
  | RUnknownRecipient => ("Recipient is no longer on this lab's roster", false)
  | RUnknownPlacement => ("This placement no longer exists", false)
  | RSendFailed e => ("Send failed: " +:+ e, false)
  end.

(** [!!o?.trim()] *)
Definition has_text (o : option string) : bool := match o with Some s => truthy (trim s) | None => false end.

(** The PI, or else the first student with an address. *)
Definition defaultRecipient (lab : LabStats) : string :=
  if has_text (bl_piEmail lab) then "pi"
  else match get_row (fun s => has_text (su_email s) = true) (bl_students lab) with
       | Some s => string_of_Z (su_studentId s)
       | None => ""
       end.

Record ReportState := mkReportState {
  rs_recipient : string; rs_result : option EmailUsageReportResult; rs_pending : bool }.
Definition report_init (lab : LabStats) : ReportState := mkReportState (defaultRecipient lab) None false.

Inductive report_event :=
| EPickRecipient (value : string)
| ESend
| EAnswer (r : EmailUsageReportResult).

(** The new state, and the form a click posts. *)
Definition report_step (lab : LabStats) (e : report_event) (st : ReportState)
    : ReportState * option FormData :=
  match e with
  | EPickRecipient v => (mkReportState v None (rs_pending st), None)
  | ESend =>
      if rs_pending st || negb (truthy (rs_recipient st)) then (st, None)
      else (mkReportState (rs_recipient st) None true,
            Some [("placementId", string_of_Z (bl_placementId lab)); ("recipient", rs_recipient st)])
  | EAnswer r => (mkReportState (rs_recipient st) (Some r) false, None)
  end.

(** The options of the select, with those that are disabled. *)
Definition report_options (lab : LabStats) : list (string * bool) :=
  ("pi", negb (has_text (bl_piEmail lab))) ::
  ((fun s => (string_of_Z (su_studentId s), negb (has_text (su_email s)))) <$> bl_students lab).

Definition EmailReportControl (lab : LabStats) (st : ReportState) : page :=
  HEl ([HCtl (mkControl "" (KSelect (report_options lab)) (rs_recipient st) false false);
        HButton (if rs_pending st then "Sending…" else "Email report")
          (rs_pending st || negb (truthy (rs_recipient st)))] ++
       show_some (rs_result st) (fun r => [HText (resultMessage r).1])).

(** ** [stats/page.tsx] *)

Definition ScanControl (lab : LabStats) : Act page :=
  if bl_scanPending lab then mret (HText "Scanning…")
  else
    when_ ← (match bl_usageScannedAt lab with
             | Some t => if num_truthy t then a ← ago_num t; mret ("updated " +:+ a)
                         else mret "never scanned"
             | None => mret "never scanned"
             end);
    mret (HEl [HForm CUsageScan [hidden "placementId" (string_of_Z (bl_placementId lab)); submit "Scan now"];
               HText when_]).

Definition quotaCell (used quota : option num) : page :=
  match used with
  | None => HText "—"
  | Some u =>
      let q := q ← quota; if num_truthy q then Some q else None in
      HText (fmtBytes (Some u) +:+
        match q with
        | Some q => " / " +:+ fmtBytes (Some q) +:+
                    match pct u (Some q) with Some p => " (" +:+ num_str p +:+ "%)" | None => "" end
        | None => ""
        end)
  end.

Definition LabBlock (lab : LabStats) : Act page :=
  live ← (match bl_liveUpdatedAt lab with
          | Some t => if t =? 0 then mret "no data yet" else a ← ago (Some t); mret ("updated " +:+ a)
          | None => mret "no data yet"
          end);
  scan ← ScanControl lab;
  let n := length (bl_students lab) in
  mret (HEl (
    [HLink ("/labs/" +:+ string_of_Z (bl_labId lab)) [HText (bl_labName lab)];
     HText ("· image " +:+ bl_image lab +:+ " · " +:+ nat_str n +:+ " " +:+ plural n "student");
     HText live; HText (match bl_rootfs lab with Some r => fmtBytes (Some r) | None => "—" end);
     quotaCell (bl_fast lab).1 (bl_fast lab).2; quotaCell (bl_cold lab).1 (bl_cold lab).2;
     EmailReportControl lab (report_init lab); scan] ++
    match bl_students lab with
    | [] => [HText "No students enrolled."]
    | l => (fun s => HEl ([HText (su_username s)] ++ show_str (su_name s) (fun n => [HText ("· " +:+ n)]) ++
                          [HText (fmtBytes (su_fast s)); HText (fmtBytes (su_cold s))])) <$> l
    end)).

(** The sum over the nodes that report the pool; null when none does. *)
Definition sumUsed (nodes : list NodeUsage) (key : NodeUsage -> option num) : option num :=
  fold_left (fun s n => match key n with
                        | None => s
                        | Some u => Some (num_add (nullish s (num_of_Z 0)) u)
                        end) nodes None.

Definition NodeName (n : NodeUsage) : list page :=
  [HText (nu_name n)] ++ show_str (nu_alias n) (fun a => [HText ("· " +:+ a)]) ++
  [badge (online_str (nu_online n))].

Definition coldCell (n : NodeUsage) : page :=
  if bool_decide (nu_coldBackend n = Smb) then HText ("on " +:+ nullish (nu_coldOwnerName n) "no owner")
  else quotaCell (nu_coldUsed n) (nu_coldQuota n).

Definition NodeUsageTable (nodes : list NodeUsage) : list page :=
  match nodes with
  | [] => [HText "No nodes."]
  | _ =>
      ((fun n => HEl (NodeName n ++ [quotaCell (nu_fastUsed n) (nu_fastQuota n); coldCell n])) <$> nodes) ++
      show (1 <? length nodes)%nat
        [HText ("Total (" +:+ nat_str (length nodes) +:+ " nodes)");
         HText (fmtBytes (sumUsed nodes nu_fastUsed)); HText (fmtBytes (sumUsed nodes nu_coldUsed))]
  end.

Definition group_members (g : NodeGroup) (allNodes : list NodeUsage) : list NodeUsage :=
  filter (fun n => nu_nodeId n ∈ ng_nodeIds g) allNodes.

(** The form with one box per node, ticked for the members. *)
Definition members_form (g : NodeGroup) (allNodes : list NodeUsage) : page :=
  HForm CSetNodeGroupMembers (
    [hidden "groupId" (string_of_Z (ng_id g))] ++
    ((fun n => HCtl (mkControl "nodeId" (KCheck (bool_decide (nu_nodeId n ∈ ng_nodeIds g)))
                       (string_of_Z (nu_nodeId n)) false false)) <$> allNodes) ++
    [submit "Save nodes"]).

Definition GroupBlock (allNodes : list NodeUsage) (g : NodeGroup) : page :=
  let members := group_members g allNodes in
  let id := hidden "groupId" (string_of_Z (ng_id g)) in
  HEl ([HText (ng_name g); HText (nat_str (length members) +:+ " " +:+ plural (length members) "node");
        HForm CDeleteNodeGroup [id; submit "Delete"]] ++
       NodeUsageTable members ++
       [HForm CRenameNodeGroup [id; input "name" (ng_name g); submit "Rename"]; members_form g allNodes]).

(** The nodes that are in no group. *)
Definition ungrouped (groups : list NodeGroup) (usage : list NodeUsage) : list NodeUsage :=
  filter (fun n => nu_nodeId n ∉ List.flat_map ng_nodeIds groups) usage.

Definition PerNodeUsageSection (usage : list NodeUsage) (groups : list NodeGroup) (flash saved : option string)
    : list page :=
  notice flash ++ notice saved ++
  match usage with
  | [] => [HText "No nodes yet."]
  | _ =>
      (GroupBlock usage <$> groups) ++
      [HText (match groups with [] => "All nodes" | _ => "Ungrouped" end);
       HText (nat_str (length (ungrouped groups usage)) +:+ " " +:+ plural (length (ungrouped groups usage)) "node")] ++
      NodeUsageTable (ungrouped groups usage)
  end ++ [HForm CCreateNodeGroup [input_required "name" ""; submit "Create group"]].

Definition node_block (n : NodeStats) : Act page :=
  labs ← for_map LabBlock (ns_labs n);
  mret (HEl ([HText (ns_node n); badge (online_str (ns_online n));
              HText ("· rootfs usage on this node: " +:+ fmtBytes (Some (ns_totalRootfsBytes n)))] ++ labs)).

(** Whether the page polls ([ScanAutoRefresh]). *)
Definition anyScanPending (nodes : list NodeStats) : bool :=
  existsb (fun n => existsb bl_scanPending (ns_labs n)) nodes.

Definition StatsPage (error saved : option string) : WAct page :=
  errorMsg ← flash_of error;
  savedMsg ← flash_of saved;
  nodes ← on_act buildStats;
  nodeUsage ← on_act buildNodeUsage;
  groups ← on_act listNodeGroups;
  blocks ← on_act (for_map node_block nodes);
  let totalLabs := fold_left (fun n x => (n + length (ns_labs x))%nat) nodes 0%nat in
  mret (HEl (
    [HForm (fun _ => CRefreshAll) [submit "Refresh all"]] ++
    PerNodeUsageSection nodeUsage groups errorMsg savedMsg ++
    (if (totalLabs =? 0)%nat then [HText "No labs yet."] else blocks))).

(** [stats/_components/ScanAutoRefresh.tsx]: the refreshes of a mounted component, at once and
    then every [intervalMs], up to the time [now] since it became active. *)
Definition ScanAutoRefresh (active : bool) (intervalMs : Z) (now : Z) : list Z :=
  if active then (fun i => Z.of_nat i * intervalMs) <$> seq 0 (Z.to_nat (now / intervalMs + 1)) else [].
End stats_page.

(** * Saving the members of a node group from the storage page *)


(** ** The data set of the form *)

Definition ticked_nodes (ticked : list Z) (usage : list NodeUsage) : list Z :=
  filter (fun n => n ∈ ticked) (nu_nodeId <$> usage).

Section form.
Context {HK : Honker} {PF : Platform} {AL : AuthLib}.

Definition members_data (id : Z) (ids : list Z) : FormData :=
  ("groupId", string_of_Z id) :: ((fun n => ("nodeId", string_of_Z n)) <$> ids).

Lemma box_entries g usage :
  entries ((fun n => HCtl (mkControl "nodeId" (KCheck (bool_decide (nu_nodeId n ∈ ng_nodeIds g)))
             (string_of_Z (nu_nodeId n)) false false)) <$> usage : list page) =
  (fun n => ("nodeId", string_of_Z n)) <$> ticked_nodes (ng_nodeIds g) usage.
Proof.
  unfold ticked_nodes. induction usage as [|n l IH]; [done|].
  rewrite fmap_cons, entries_cons, IH, fmap_cons, filter_cons. cbn.
  case_decide as H; [by rewrite bool_decide_eq_true_2|by rewrite bool_decide_eq_false_2].
Qed.

Lemma boxes_optional g usage :
  forallb filled_in (List.flat_map controls
    ((fun n => HCtl (mkControl "nodeId" (KCheck (bool_decide (nu_nodeId n ∈ ng_nodeIds g)))
       (string_of_Z (nu_nodeId n)) false false)) <$> usage : list page)) = true.
Proof. by induction usage. Qed.

Lemma members_form_requests g usage :
  requests (members_form g usage) =
    [CSetNodeGroupMembers (members_data (ng_id g) (ticked_nodes (ng_nodeIds g) usage))].
Proof.
  unfold members_form. cbn [requests].
  assert (forall b l (x : page), live_button x = true -> existsb live_button (b :: l ++ [x]) = true) as Hlive.
  { intros b l x Hx. cbn. rewrite existsb_app. cbn. by rewrite Hx, !orb_true_r. }
  unfold submittable. cbn [app]. rewrite Hlive by done. cbn [andb List.flat_map controls app hidden].
  cbn [forallb]. rewrite flat_map_app', forallb_app, boxes_optional. cbn [andb forallb List.flat_map controls submit filled_in ct_required].
  f_equal. f_equal. rewrite entries_cons, entries_app, box_entries. cbn. by rewrite app_nil_r.
Qed.

(** ** What the action makes of it *)

Context {NS : NumberSpec}.
#[local] Notation ok n := (0 <= n < 2 ^ 53).

Lemma form_group id ids : ok id -> row_id (form_num "groupId" (members_data id ids)) = id.
Proof.
  intros Hi. change (form_num "groupId" _) with (str_to_num (string_of_Z id)).
  rewrite number_of_digits by done. by apply row_id_of_Z.
Qed.

Lemma form_nodes id ids : Forall (fun n => ok n) ids ->
  row_id <$> filter (fun n => is_finite n = true) (str_to_num <$> form_all "nodeId" (members_data id ids)) = ids.
Proof.
  change (form_all "nodeId" _) with (form_all "nodeId" ((fun n => ("nodeId", string_of_Z n)) <$> ids)).
  induction 1 as [|n l Hn _ IH]; [done|].
  change (form_all "nodeId" ((fun n => ("nodeId", string_of_Z n)) <$> n :: l)) with
    (string_of_Z n :: form_all "nodeId" ((fun n => ("nodeId", string_of_Z n)) <$> l)).
  rewrite fmap_cons, number_of_digits, filter_cons_True by (done || by apply is_finite_of_Z).
  by rewrite fmap_cons, row_id_of_Z, IH.
Qed.

(** The members of a group, and every other membership. *)
Definition members_of (id : Z) (d : Db) : list Z :=
  gm_node_id <$> select (fun m => gm_group_id m = id) (node_group_members d).
Definition other_members (id : Z) (d : Db) : list NodeGroupMemberRow :=
  delete_where (fun m => gm_group_id m = id) (node_group_members d).

(** A database whose only difference from [d] is the memberships [l]. *)
Definition with_members (l : list NodeGroupMemberRow) (d : Db) : Db := d <| node_group_members := l |>.

Lemma insert_members id l : forall w,
  id ∈ g_id <$> rows (node_groups (w_db w)) -> (forall n, n ∈ l -> n ∈ n_id <$> rows (nodes (w_db w))) ->
  NoDup l -> (forall n, n ∈ l -> mkNodeGroupMember id n ∉ node_group_members (w_db w)) ->
  for_each (insert_group_member id) l w =
    (Ok tt, w <| w_db ::= with_members (node_group_members (w_db w) ++ (mkNodeGroupMember id <$> l)) |>).
Proof.
  induction l as [|n l IH]; intros w Hid Hn Hnd Hnew.
  - cbn. rewrite app_nil_r. by destruct w as [[] ? ? ? ? ?].
  - apply NoDup_cons in Hnd as [Hnl Hnd]. cbn [for_each].
    set (w1 := w <| w_db ::= with_members (node_group_members (w_db w) ++ [mkNodeGroupMember id n]) |>).
    assert (insert_group_member id n w = (Ok tt, w1)) as Hins.
    { unfold insert_group_member. rewrite (bind_step db _ w (w_db w) w) by done. cbv beta.
      rewrite (bool_decide_eq_true_2 _ Hid), bool_decide_eq_true_2 by (apply Hn; by left).
      rewrite bool_decide_eq_false_2 by (apply Hnew; by left). done. }
    rewrite (bind_step _ _ _ _ _ Hins). rewrite IH; [|done| |done|].
    + subst w1. cbn. rewrite <- app_assoc. done.
    + intros m Hm. apply Hn. by right.
    + intros m Hm. subst w1. cbn. rewrite elem_of_app, list_elem_of_singleton. intros [H|[= ->]]; [|done].
      apply (Hnew m); [by right|done].
Qed.

Lemma setNodeGroupMembers_run id ids actor w :
  is_Some (group_of (w_db w) id) -> exists w', setNodeGroupMembers id ids actor w = (Ok tt, w') /\
    nodes (w_db w') = nodes (w_db w) /\ node_groups (w_db w') = node_groups (w_db w) /\
    node_group_members (w_db w') =
      other_members id (w_db w) ++ (mkNodeGroupMember id <$> wanted_nodes (w_db w) ids).
Proof.
  intros [g Hg]. unfold setNodeGroupMembers. rewrite (bind_step db _ w (w_db w) w) by done. cbv beta. rewrite Hg.
  apply get_row_Some in Hg as [Hid Hin]. cbv zeta.
  set (w1 := w <| w_db ::= with_members (other_members id (w_db w)) |>).
  assert (delete_group_members id w = (Ok tt, w1)) as Hdel by done.
  assert (for_each (fun n => insert_group_member id n) (wanted_nodes (w_db w) ids) w1 = (Ok tt,
    w1 <| w_db ::= with_members (other_members id (w_db w) ++ (mkNodeGroupMember id <$> wanted_nodes (w_db w) ids)) |>))
    as Hins.
  { apply (insert_members id (wanted_nodes (w_db w) ids) w1).
    - apply list_elem_of_fmap. by exists g.
    - intros n Hn. by apply list_elem_of_filter in Hn as [Hn _].
    - apply NoDup_filter, NoDup_dedup.
    - intros n _ Hn. subst w1. cbn in Hn. apply list_elem_of_filter in Hn as [Hn _]. by apply Hn. }
  set (w2 := w1 <| w_db ::= _ |>) in Hins.
  rewrite (bind_step (transaction _) _ w tt w2).
  - eexists. split; [reflexivity|]. done.
  - unfold transaction. rewrite (bind_step _ _ _ _ _ Hdel). cbv beta. by rewrite Hins.
Qed.

Lemma members_after id d d' l : node_group_members d' = other_members id d ++ (mkNodeGroupMember id <$> l) ->
  members_of id d' = l /\ other_members id d' = other_members id d.
Proof.
  unfold members_of, other_members, select, delete_where. intros ->. rewrite !filter_app, fmap_app.
  assert (filter (fun m => gm_group_id m = id) (mkNodeGroupMember id <$> l) = mkNodeGroupMember id <$> l) as ->
    by (apply filter_all, Forall_forall; by intros m (n & -> & _)%list_elem_of_fmap).
  rewrite (filter_none (fun m => gm_group_id m = id)) by (by intros m [H _]%list_elem_of_filter).
  rewrite (filter_none (fun m => gm_group_id m <> id) (mkNodeGroupMember id <$> l))
    by (intros m (n & -> & _)%list_elem_of_fmap H; by apply H).
  rewrite (filter_all (fun m => gm_group_id m <> id)) by (apply Forall_forall; by intros m [H _]%list_elem_of_filter).
  rewrite app_nil_r. split; [|done]. cbn. rewrite <- list_fmap_compose. apply list_fmap_id.
Qed.

(** Saving the members form of a node group, whatever boxes are ticked, makes the ticked nodes
    that still exist the members of the group, once each; every other membership, the groups and
    the nodes stay as they were, whatever is sent. The action returns. *)
Theorem group_form_saves g ticked usage f s a s1 :
  CSetNodeGroupMembers f ∈ requests (members_form (g <| ng_nodeIds := ticked |>) usage) ->
  requireAdmin s = (Ok a, s1) -> is_Some (group_of (web_db s1) (ng_id g)) ->
  ok (ng_id g) -> Forall (fun n => ok (nu_nodeId n)) usage ->
  exists s', setNodeGroupMembersAction f s = (Ok tt, s') /\
    NoDup (members_of (ng_id g) (web_db s')) /\
    (forall n, n ∈ members_of (ng_id g) (web_db s') <->
       n ∈ ticked /\ n ∈ nu_nodeId <$> usage /\ n ∈ n_id <$> rows (nodes (web_db s1))) /\
    other_members (ng_id g) (web_db s') = other_members (ng_id g) (web_db s1) /\
    nodes (web_db s') = nodes (web_db s1) /\ node_groups (web_db s') = node_groups (web_db s1).
Proof.
  rewrite members_form_requests. intros [= ->]%list_elem_of_singleton Ha Hg Hid Hu.
  cbn [ng_id ng_nodeIds]. change (ng_id (g <| ng_nodeIds := ticked |>)) with (ng_id g).
  change (ng_nodeIds (g <| ng_nodeIds := ticked |>)) with ticked.
  unfold setNodeGroupMembersAction, withGroupFlash. rewrite form_group by done.
  rewrite form_nodes by (unfold ticked_nodes; apply Forall_forall; intros n (_ & (m & -> & Hm)%list_elem_of_fmap)%list_elem_of_filter;
    by rewrite Forall_forall in Hu; apply Hu).
  destruct (setNodeGroupMembers_run (ng_id g) (ticked_nodes ticked usage) (Some (adm_email a)) (web_world s1) Hg)
    as (w' & Hrun & Hn & Hgr & Hm).
  destruct (members_after _ _ (web_db (set_world w' s1)) _ Hm) as [E1 E2].
  exists (set_world w' s1). rewrite E1, E2. split; [|split_and!; try done].
  - unfold actor. rewrite (bind_step _ _ _ (adm_email a) s1) by by rewrite (bind_step _ _ _ _ _ Ha).
    unfold or_flash. rewrite (bind_step (catch _ _) _ s1 tt (set_world w' s1)); [done|].
    unfold catch. by rewrite (on_act_run _ _ _ _ Hrun).
  - apply NoDup_filter, NoDup_dedup.
  - intros n. unfold wanted_nodes, ticked_nodes. rewrite list_elem_of_filter, elem_of_dedup, list_elem_of_filter.
    split; [tauto|]. intros (? & ? & ?). split_and!; try done. by intros ?%elem_of_nil.
Qed.
End form.

(** ** A group of two nodes, one of them ticked *)

Section witness.
#[local] Existing Instance toy_honker.
#[local] Existing Instance console_pf.
#[local] Existing Instance toy_auth.

Definition group_web : WebWorld :=
  ((on_act (insert_group "GPU" 0);; setSessionCookie (mkAdminId 1 "Root" "root@lab.edu")) (demo_web ticking)).2.
Definition gpu_group : NodeGroup := mkGroup 1 "GPU" 0 [].
Definition usage_row (i : Z) (name : string) : NodeUsage :=
  mkNodeUsage i name None true LocalZfs None None None None None.

Lemma group_form_saves_witness : exists s',
  setNodeGroupMembersAction (members_data 1 [1]) group_web = (Ok tt, s') /\ 1 ∈ members_of 1 (web_db s').
Proof.
  destruct (@group_form_saves _ _ _ console_numbers gpu_group [1] [usage_row 1 "n1"; usage_row 2 "n2"]
    (members_data 1 [1]) group_web (mkAdminId 1 "Root" "root@lab.edu") (requireAdmin group_web).2)
    as (s' & H & _ & Hm & _).
  - rewrite members_form_requests. apply list_elem_of_singleton. by vm_compute.
  - by vm_compute.
  - eexists. by vm_compute.
  - cbn. lia.
  - repeat constructor; cbn; lia.
  - exists s'. split; [exact H|]. apply Hm. split_and!; [by left|by left|].
    apply (bool_decide_unpack _). by vm_compute.
Defined.
End witness.
