(* ===== verification/AnnouncePage.v ===== *)
(** * AnnouncePage: the announcements page and its compose form

    [app/(app)/announcements/page.tsx], [AnnouncementComposer.tsx] and [RecipientPicker.tsx]: the
    two client components are one state machine, from which the form is rendered.

    The second part: what the compose form sends is what [sendAnnouncement] asks for. *)
From S2P Require Import Prelude Js Numbers Schema Sql DbWf Secrets Testbed Settings Template Format Mailer MailerFacts Hub HubConn Web Announce AnnounceFacts RateLimit Flash Auth Actions Console View LabPages SettingsPages QueueFacts.
From Stdlib Require Import Ascii.
Open Scope Z_scope.

(** The hooks of the composer and of the picker inside it; the boxes of the audiences are the
    browser's. *)
Record Composer := mkComposer {
  cp_subject : string; cp_body : string; cp_phValues : list (string * string);
  cp_query : string; cp_selected : list string;      (* the [Set], oldest first *)
  cp_students : bool; cp_pis : bool }.

Definition composer0 : Composer := mkComposer "" "" [] "" [] true false.

Inductive compose_event :=
| ESubject (s : string) | EBody (s : string)
| ETemplate (id : string)
| EInsert (key : string) (cursor : option (nat * nat))   (* the selection; absent without the element *)
| EPlaceholder (token value : string)
| EQuery (s : string) | EToggle (email : string)
| EStudents (b : bool) | EPis (b : bool).

(** [s.toLowerCase().includes(q)] *)
Definition contains_ci (s q : string) : bool := includes q (to_lower s).

Section announce_page.
Context {HK : Honker} {PF : Platform}.
Context (templates : list AnnouncementTemplateRow) (people : list Person).

(** [toggle(email)] *)
Definition toggle (email : string) (selected : list string) : list string :=
  if bool_decide (email ∈ selected) then filter (fun e => e <> email) selected else selected ++ [email].

Definition insertVar (key : string) (cursor : option (nat * nat)) (body : string) : string :=
  let token := "{" +:+ key +:+ "}" in
  match cursor with
  | None => body +:+ token
  | Some (start, end_) => take_str start body +:+ token +:+ drop_str end_ body
  end.

Definition compose_step (e : compose_event) (c : Composer) : Composer :=
  match e with
  | ESubject s => c <| cp_subject := s |>
  | EBody s => c <| cp_body := s |>
  | ETemplate id =>
      match get_row (fun t => string_of_Z (at_id t) = id) templates with
      | Some t => c <| cp_subject := at_subject t |> <| cp_body := at_body t |>
      | None => c
      end
  | EInsert key cursor => c <| cp_body ::= insertVar key cursor |>
  | EPlaceholder token v => c <| cp_phValues ::= aset token v |>
  | EQuery s => c <| cp_query := s |>
  | EToggle email => c <| cp_selected ::= toggle email |>
  | EStudents b => c <| cp_students := b |>
  | EPis b => c <| cp_pis := b |>
  end.

Definition compose (l : list compose_event) : Composer := fold_left (fun c e => compose_step e c) l composer0.

(** The tokens the form asks a value for. *)
Definition tokens (c : Composer) : list string := extractBracketTokens (cp_subject c +:+ nl +:+ cp_body c).

(** The list the picker shows for the search text. *)
Definition matches (c : Composer) : list Person :=
  let q := to_lower (trim (cp_query c)) in
  if truthy q then filter (fun p => contains_ci (pe_name p) q || contains_ci (pe_email p) q = true) people
  else people.
Definition chosen (c : Composer) : list Person := filter (fun p => pe_email p ∈ cp_selected c) people.

(** Its search field and boxes have no name. *)
Definition RecipientPicker (c : Composer) : list page :=
  match people with
  | [] => [HText "No addressable users or PIs yet."]
  | _ =>
      [input "" (cp_query c)] ++
      match matches c with
      | [] => [HText "No matches."]
      | l => List.flat_map (fun p =>
               [checkbox "" (bool_decide (pe_email p ∈ cp_selected c)); HText (pe_name p)] ++
               show (match pe_kind p with KPi => true | KUser => false end) [badge "PI"] ++
               [HText (pe_email p)]) l
      end ++
      List.flat_map (fun p => [HText (pe_name p); hidden "recipient" (pe_email p)]) (chosen c)
  end.

Definition placeholder_field (c : Composer) (token : string) : page :=
  input_required ("ph_" +:+ token) (nullish (alookup token (cp_phValues c)) "").

Definition composer_fields (counts : nat * nat) (c : Composer) : list page :=
  [HCtl (mkControl "" (KSelect (("", false) :: ((fun t => (string_of_Z (at_id t), false)) <$> templates)))
           "" false false);
   input_required "subject" (cp_subject c); HCtl (mkControl "body" KArea (cp_body c) false true)] ++
  ((fun v => HText ("{" +:+ v +:+ "}")) <$> ANNOUNCEMENT_VARS) ++
  (placeholder_field c <$> tokens c) ++
  [checkbox "students" (cp_students c); HText ("All users (" +:+ nat_str counts.1 +:+ ")");
   checkbox "pis" (cp_pis c); HText ("All PIs (" +:+ nat_str counts.2 +:+ ")")] ++
  RecipientPicker c ++ [submit "Send announcement"].

Definition AnnouncementComposer (counts : nat * nat) (c : Composer) : page :=
  HForm CSendAnnouncement (composer_fields counts c).
End announce_page.

Section announcements_page.
Context {HK : Honker} {PF : Platform}.

(** [s.replace("students", "users")] *)
Fixpoint replace_students (s : string) : string :=
  if starts_with "students" s then "users" +:+ drop_str 8 s
  else match s with String c s' => String c (replace_students s') | EmptyString => "" end.
(** [s.replace(/,/g, ", ")] *)
Fixpoint space_commas (s : string) : string :=
  match s with
  | String c s' => if Ascii.eqb c "," then ", " +:+ space_commas s' else String c (space_commas s')
  | EmptyString => ""
  end.

Definition announcement_row (a : AnnouncementRow) : Act page :=
  when_ ← ago (Some (an_ts a));
  mret (HEl [HText when_; HText (or_dash (an_actor a)); HText (space_commas (replace_students (an_audiences a)));
             HText (an_subject a);
             HText (if an_skipped a then "skipped (no SMTP)"
                    else string_of_Z (an_sent a) +:+ "/" +:+ string_of_Z (an_recipients a));
             HForm CDeleteAnnouncement [hidden "id" (string_of_Z (an_id a)); submit "Delete"]]).

(** The newest twenty announcements are shown. *)
Definition AnnouncementsPage (msg : option string) (c : Composer) : WAct page :=
  counts ← on_act audienceCounts;
  people ← on_act listAnnouncementPeople;
  history ← on_act (recentAnnouncements 20);
  templates ← on_act listAnnouncementTemplates;
  smtpOk ← on_act isSmtpConfigured;
  rows ← on_act (for_map announcement_row history);
  mret (HEl (
    notice msg ++ show (negb smtpOk) [HText "SMTP is not configured"; HLink "/settings" [HText "Settings → Email"]] ++
    [AnnouncementComposer templates people counts c] ++
    show (0 <? length history)%nat [HForm (fun _ => CClearAnnouncements) [submit "Clear all"]] ++
    match rows with [] => [HText "Nothing sent yet."] | _ => rows end)).
End announcements_page.

(** * What the compose form sends is what [sendAnnouncement] asks for

    The form and the library find the bracketed tokens each in its own text: the browser in what
    was typed, the server in the trimmed fields of the request, whose line breaks are CRLF. *)


(** ** Tokens of edited texts *)

Section find.
Context (op cl : ascii) (ok : string -> ascii -> bool).
Implicit Types (p : option string) (s t : string) (c : ascii).

(** A character that ends every token that is being read. *)
Definition breaks (c : ascii) : Prop := c <> op /\ c <> cl /\ forall b, ok b c = false.

Lemma find_break c p s : breaks c -> find_tokens op cl ok p (String c s) = find_tokens op cl ok None s.
Proof.
  intros (Ho & Hc & Hk). cbn. apply Ascii.eqb_neq in Ho, Hc. rewrite Ho, Hc.
  destruct p; [by rewrite Hk|done].
Qed.

Lemma find_app_break c p s t : breaks c ->
  find_tokens op cl ok p (s +:+ String c t) = find_tokens op cl ok p s ++ find_tokens op cl ok None t.
Proof.
  intros Hc. revert p. induction s as [|d s IH]; intros p.
  - cbn [String.append]. rewrite find_break by done. by destruct p.
  - cbn. repeat case_match; by rewrite ?IH.
Qed.

(** Text without the brackets after the end adds nothing, and before the start it is skipped. *)
Lemma find_none p t : str_all (fun c => c <> op /\ c <> cl) t -> find_tokens op cl ok p t = [].
Proof.
  revert p. induction t as [|c t IH]; intros p; [done|]. cbn. intros [[Ho Hc] Ht].
  apply Ascii.eqb_neq in Ho, Hc. rewrite Ho, Hc. cbn. repeat case_match; by apply IH.
Qed.

Lemma find_app_none p s t : str_all (fun c => c <> op /\ c <> cl) t ->
  find_tokens op cl ok p (s +:+ t) = find_tokens op cl ok p s.
Proof.
  intros Ht. revert p. induction s as [|c s IH]; intros p; [cbn; by rewrite find_none by done; destruct p|].
  cbn. repeat case_match; by rewrite ?IH.
Qed.

Lemma find_trim_start s : is_space op = false ->
  find_tokens op cl ok None (trim_start s) = find_tokens op cl ok None s.
Proof.
  intros Ho. induction s as [|c s IH]; cbn; [done|]. destruct (is_space c) eqn:Hc; [|done].
  rewrite IH. rewrite (proj2 (Ascii.eqb_neq c op)) by congruence. done.
Qed.

Lemma trim_end_split s : exists t, s = trim_end s +:+ t /\ str_all (fun c => is_space c = true) t.
Proof.
  induction s as [|c s (t & Hs & Ht)]; [by exists ""|]. cbn. destruct (trim_end s) as [|d u] eqn:Hu.
  - cbn in Hs. subst t. destruct (is_space c) eqn:Hc; [by exists (String c s)|by exists s].
  - exists t. by rewrite Hs at 1.
Qed.

Lemma find_trim s : is_space op = false -> is_space cl = false ->
  find_tokens op cl ok None (trim s) = find_tokens op cl ok None s.
Proof.
  intros Ho Hc. unfold trim. rewrite <- (find_trim_start s Ho).
  destruct (trim_end_split (trim_start s)) as (t & Hs & Ht). rewrite Hs at 2.
  rewrite find_app_none; [done|]. clear Hs. induction t as [|c t IH]; [done|]. cbn in *.
  destruct Ht as [Hcs Ht]. split; [split; congruence|by apply IH].
Qed.

(** A line break, however it is written, ends a token. *)
Lemma find_crlf p s : breaks "010" -> breaks "013" -> find_tokens op cl ok p (crlf s) = find_tokens op cl ok p s.
Proof.
  intros Hn Hr. assert (forall n s p, (String.length s <= n)%nat ->
    find_tokens op cl ok p (crlf s) = find_tokens op cl ok p s) as H; [|by eapply H].
  clear p s. induction n as [|n IH]; intros [|c s] p Hl; cbn in Hl; try done; [lia|].
  cbn [crlf]. destruct (Ascii.eqb_spec c "013") as [->|Hc].
  - destruct s as [|d s]; [by rewrite !find_break|]. cbn in Hl.
    destruct (Ascii.eqb_spec d "010") as [->|Hd]; rewrite !find_break by done; [apply IH; lia|].
    exact (IH (String d s) None ltac:(cbn; lia)).
  - destruct (Ascii.eqb_spec c "010") as [->|Hd]; [rewrite !find_break by done; apply IH; lia|].
    cbn. repeat case_match; rewrite ?IH by lia; done.
Qed.
End find.

Lemma bracket_breaks c : c = "010"%char \/ c = "013"%char -> breaks "[" "]" bracket_char c.
Proof. intros [-> | ->]; split_and!; try done; intros b; unfold bracket_char; by destruct (truthy b). Qed.

(** The tokens the server looks for are those the form shows. *)
Lemma request_tokens c : 
  extractBracketTokens (trim (cp_subject c) +:+ nl +:+ trim (crlf (cp_body c))) = tokens c.
Proof.
  unfold tokens, extractBracketTokens. cbn [nl String.append].
  pose proof (bracket_breaks _ (or_introl eq_refl)) as Hn.
  pose proof (bracket_breaks _ (or_intror eq_refl)) as Hr.
  by rewrite !find_app_break, !find_trim, find_crlf.
Qed.

(** ** Blank texts *)

Lemma trim_start_blank s : trim_start s = "" <-> str_all (fun c => is_space c = true) s.
Proof.
  induction s as [|c s IH]; cbn; [done|]. destruct (is_space c); rewrite ?IH; [tauto|].
  split; [done|]. by intros [? _].
Qed.
Lemma trim_end_blank s : trim_end s = "" <-> str_all (fun c => is_space c = true) s.
Proof.
  induction s as [|c s IH]; cbn; [done|]. revert IH. destruct (trim_end s), (is_space c); intros IH.
  - tauto.
  - split; [done|by intros []].
  - split; [done|]. intros [_ H%IH]. done.
  - split; [done|by intros []].
Qed.
Lemma trim_blank s : trim s = "" <-> str_all (fun c => is_space c = true) s.
Proof.
  unfold trim. rewrite trim_end_blank. induction s as [|c s IH]; cbn; [done|].
  destruct (is_space c) eqn:Hc; [tauto|]. cbn. rewrite Hc. split; [by intros []|by intros []].
Qed.
Lemma crlf_blank s : trim (crlf s) = "" <-> trim s = "".
Proof.
  rewrite !trim_blank. assert (forall n s, (String.length s <= n)%nat ->
    str_all (fun c => is_space c = true) (crlf s) <-> str_all (fun c => is_space c = true) s) as H; [|by eapply H].
  clear s. induction n as [|n IH]; intros [|c s] Hl; cbn in Hl; try done; [lia|].
  cbn [crlf]. destruct (Ascii.eqb_spec c "013") as [->|Hc].
  - destruct s as [|d s]; [done|]. cbn in Hl. destruct (Ascii.eqb_spec d "010") as [->|Hd].
    + cbn. rewrite IH by lia. done.
    + assert (Hs := IH (String d s) ltac:(cbn; lia)). cbn [crlf] in Hs. cbn [str_all] in *. rewrite Hs. tauto.
  - destruct (Ascii.eqb_spec c "010") as [->|Hd]; cbn; rewrite IH by lia; tauto.
Qed.

(** ** The request of the form *)

Section form.
Context {HK : Honker} {PF : Platform}.
Context (templates : list AnnouncementTemplateRow) (people : list Person) (counts : nat * nat).

Definition value_of (c : Composer) (token : string) : string := default "" (alookup token (cp_phValues c)).

Lemma picker_entries c :
  entries (RecipientPicker people c) = (fun p => ("recipient", pe_email p)) <$> chosen people c.
Proof.
  unfold RecipientPicker, chosen. destruct people as [|p l]; [done|].
  rewrite !entries_app, (entries_flat_map (fun p => [HText (pe_name p); hidden "recipient" (pe_email p)])).
  rewrite (flat_map_single (fun p => ("recipient", pe_email p))). cbn [app entries].
  destruct (matches (p :: l) c) as [|q k]; [done|]. rewrite entries_flat_map, flat_map_nil; [done|].
  intros x. by destruct (pe_kind x).
Qed.

Lemma request_entries c : entries (composer_fields templates people counts c) =
  [("subject", cp_subject c); ("body", crlf (cp_body c))] ++
  ((fun t => ("ph_" +:+ t, value_of c t)) <$> tokens c) ++
  (if cp_students c then [("students", "on")] else []) ++ (if cp_pis c then [("pis", "on")] else []) ++
  ((fun p => ("recipient", pe_email p)) <$> chosen people c).
Proof.
  unfold composer_fields. rewrite !entries_app, picker_entries, !entries_fmap.
  rewrite (flat_map_nil (fun v => entries [HText _])) by done.
  rewrite (flat_map_single (fun t => ("ph_" +:+ t, value_of c t))).
  replace (entries (A:=console_action) [submit "Send announcement"]) with ([] : FormData) by done.
  rewrite app_nil_r. by destruct (cp_students c), (cp_pis c).
Qed.

Lemma request_placeholders c :
  placeholders_of (entries (composer_fields templates people counts c)) =
  (fun t => (t, value_of c t)) <$> tokens c.
Proof.
  rewrite request_entries. unfold placeholders_of. rewrite !fold_left_app.
  assert (forall l m, NoDup (m.*1 ++ l) ->
    fold_left (fun m kv => if starts_with "ph_" kv.1 then aset (drop_str 3 kv.1) kv.2 m else m)
      ((fun t => ("ph_" +:+ t, value_of c t)) <$> l) m = m ++ ((fun t => (t, value_of c t)) <$> l)) as H.
  { induction l as [|t l IH]; intros m Hm; [by rewrite app_nil_r|]. cbn in *.
    rewrite aset_fresh; [|apply NoDup_app in Hm as (_ & Hm & _); set_solver].
    rewrite IH; [by rewrite <- app_assoc|]. by rewrite fmap_app, <- app_assoc. }
  rewrite H by apply NoDup_dedup. cbn [app].
  generalize ((fun t => (t, value_of c t)) <$> tokens c). intros m.
  assert (forall (l : list Person) m, fold_left (fun m kv => if starts_with "ph_" kv.1
    then aset (drop_str 3 kv.1) kv.2 m else m) ((fun p => ("recipient", pe_email p)) <$> l) m = m) as Hr
    by (by induction l as [|x l IH]; intros ?; cbn; rewrite ?IH).
  rewrite Hr. by destruct (cp_students c), (cp_pis c).
Qed.

Lemma request_recipients c :
  form_all "recipient" (entries (composer_fields templates people counts c)) = pe_email <$> chosen people c.
Proof.
  rewrite request_entries. unfold form_all. rewrite !omap_app.
  assert (omap (fun kv : string * string => if String.eqb "recipient" kv.1 then Some kv.2 else None)
    ((fun t => ("ph_" +:+ t, value_of c t)) <$> tokens c) = []) as ->
    by (by induction (tokens c) as [|t l IH]).
  assert (forall l, omap (fun kv : string * string => if String.eqb "recipient" kv.1 then Some kv.2 else None)
    ((fun p => ("recipient", pe_email p)) <$> l) = pe_email <$> l) as ->
    by (induction l as [|x l IH]; [done|]; cbn; by rewrite <- IH).
  by destruct (cp_students c), (cp_pis c).
Qed.

Lemma request_box c k (b : bool) : k = "students" /\ b = cp_students c \/ k = "pis" /\ b = cp_pis c ->
  form_is k "on" (entries (composer_fields templates people counts c)) = b.
Proof.
  intros Hk. unfold form_is, form_get. rewrite request_entries.
  assert (forall (l : list string) r, alookup k (((fun t => ("ph_" +:+ t, value_of c t)) <$> l) ++ r) =
    alookup k r) as Hskip.
  { intros l r. destruct Hk as [[-> _]|[-> _]]; by induction l as [|t l IH]. }
  assert (forall l : list Person, alookup k ((fun p => ("recipient", pe_email p)) <$> l) = None) as Hrec.
  { intros l. destruct Hk as [[-> _]|[-> _]]; by induction l as [|p l IH]. }
  destruct Hk as [[-> ->]|[-> ->]]; cbn [app alookup String.eqb Ascii.eqb Bool.eqb andb]; rewrite Hskip;
    destruct (cp_students c), (cp_pis c); cbn; by rewrite ?Hrec.
Qed.

(** What the action makes of the request. *)
Lemma request_announcement admin c :
  announcement_of admin (entries (composer_fields templates people counts c)) =
  {| as_subject := cp_subject c; as_body := crlf (cp_body c);
     as_audiences := (if cp_students c then [Students] else []) ++ (if cp_pis c then [Pis] else []);
     as_individuals := pe_email <$> chosen people c;
     as_placeholders := (fun t => (t, value_of c t)) <$> tokens c;
     as_sender := Some (adm_name admin, adm_email admin); as_actor := Some (adm_email admin) |}.
Proof.
  unfold announcement_of. rewrite request_recipients, request_placeholders.
  rewrite (request_box c "students" (cp_students c)) by by left.
  rewrite (request_box c "pis" (cp_pis c)) by by right.
  unfold form_str, form_get. by rewrite request_entries.
Qed.
End form.

(** ** Picking people *)

(** How often a person was toggled. *)
Definition toggles (email : string) (l : list compose_event) : nat :=
  length (List.filter (fun e => match e with EToggle x => String.eqb x email | _ => false end) l).

Lemma elem_of_toggle x e l : x ∈ toggle e l <-> if decide (x = e) then x ∉ l else x ∈ l.
Proof.
  unfold toggle. case_bool_decide; destruct (decide (x = e)) as [->|Hne];
    rewrite ?list_elem_of_filter, ?elem_of_app, ?list_elem_of_singleton; tauto.
Qed.

Lemma elem_of_selected templates l x :
  x ∈ cp_selected (compose templates l) <-> Nat.odd (toggles x l) = true.
Proof.
  induction l as [|e l IH] using rev_ind; [cbn; split; [by intros ?%elem_of_nil|done]|].
  unfold compose, toggles in *. rewrite fold_left_app, List.filter_app, length_app. cbn [fold_left].
  set (c := fold_left _ l composer0) in *. destruct e; cbn; rewrite ?Nat.add_0_r; try done;
    [by destruct (get_row _ templates)|].
  rewrite elem_of_toggle. destruct (decide (x = email)) as [->|Hne].
  - rewrite String.eqb_refl. cbn [length]. rewrite Nat.add_1_r, Nat.odd_succ, <- Nat.negb_odd, IH.
    by destruct (Nat.odd _).
  - rewrite (proj2 (String.eqb_neq _ _)) by done. cbn. by rewrite Nat.add_0_r.
Qed.

(** ** The server's checks *)

Lemma sendAnnouncement_gates `{HK : Honker, PF : Platform} input r w w' :
  sendAnnouncement input w = (Ok r, w') ->
  trim (as_subject input) <> "" /\ trim (as_body input) <> "" /\
  List.filter (unfilled (as_placeholders input))
    (extractBracketTokens (trim (as_subject input) +:+ nl +:+ trim (as_body input))) = [] /\
  (as_audiences input <> [] \/ as_individuals input <> []).
Proof.
  unfold sendAnnouncement. cbv zeta.
  destruct (truthy (trim (as_subject input))) eqn:Hs; [|by intros H].
  destruct (truthy (trim (as_body input))) eqn:Hb; [|by intros H].
  case_bool_decide as Hm; [|by intros H]. cbn [negb].
  do 3 rewrite (bind_step (throw_if false _) _ w tt w) by done. intros H. split_and!; try done.
  - by intros E; rewrite E in Hs.
  - by intros E; rewrite E in Hb.
  - destruct (as_audiences input); [|by left]. right. intros E. by rewrite E in H.
Qed.

Lemma List_filter_nil {A} (p : A -> bool) l : List.filter p l = [] <-> forall x, x ∈ l -> p x = false.
Proof.
  induction l as [|a l IH]; [by split; [intros _ x ?%elem_of_nil|]|]. cbn. split.
  - destruct (p a) eqn:Hp; [done|]. intros H x [->|Hx]%elem_of_cons; [done|by apply IH].
  - intros H. rewrite (H a) by by left. apply IH. intros x Hx. apply H. by right.
Qed.

Lemma alookup_fmap_fun (f : string -> string) l t : t ∈ l -> alookup t ((fun t => (t, f t)) <$> l) = Some (f t).
Proof.
  induction l as [|x l IH]; [by intros ?%elem_of_nil|]. cbn. destruct (String.eqb_spec t x) as [->|Hne]; [done|].
  intros [->|Ht]%elem_of_cons; [done|by apply IH].
Qed.

Lemma values_filled c : List.filter (unfilled ((fun t => (t, value_of c t)) <$> tokens c)) (tokens c) = [] <->
  forall t, t ∈ tokens c -> trim (value_of c t) <> "".
Proof.
  rewrite List_filter_nil. apply forall_proper. intros t.
  split; intros H Ht; specialize (H Ht); revert H; unfold unfilled; rewrite alookup_fmap_fun by done.
  - intros H E. by rewrite E in H.
  - intros H. by rewrite truthy_ne.
Qed.

(** C33: the compose form and the library agree. Whatever was done in the form (templates
    applied, placeholders typed and re-typed, lists filtered), the recipients its request
    carries are exactly the people who were toggled an odd number of times, whether or not the
    search shows them; and the library accepts the request exactly when the subject, the message and
    the value of every field that the form shows for a bracketed token are not blank and an audience or a person is chosen:
    no token is asked for that was not shown (line breaks arrive as CRLF and the texts are
    trimmed first), and no picked person is unknown. *)
Theorem compose_form_accepted {HK : Honker} {PF : Platform} templates counts events admin w cs
    (Hsmtp : getSmtpConfigs w = (Ok cs, w)) :
  let people := announcement_people (w_db w) in
  let c := compose templates events in
  let f := entries (composer_fields templates people counts c) in
  let picked := filter (fun p => Nat.odd (toggles (pe_email p) events) = true) people in
  form_all "recipient" f = pe_email <$> picked /\
  ((exists r w', sendAnnouncement (announcement_of admin f) w = (Ok r, w')) <->
   trim (cp_subject c) <> "" /\ trim (cp_body c) <> "" /\
   (forall t, t ∈ tokens c -> trim (value_of c t) <> "") /\
   (cp_students c = true \/ cp_pis c = true \/ picked <> [])).
Proof.
  intros people c f picked.
  assert (chosen people c = picked) as Hpick
    by (apply list_filter_iff; intros p; apply elem_of_selected).
  split; [unfold f; by rewrite request_recipients, Hpick|].
  unfold f. rewrite request_announcement, Hpick, <- (crlf_blank (cp_body c)).
  match goal with |- context [sendAnnouncement ?i w] => set (input := i) end.
  assert (forall p, p ∈ picked -> p ∈ people) as Hin by by intros p [_ Hp]%list_elem_of_filter.
  clearbody picked.
  assert (as_audiences input <> [] \/ as_individuals input <> [] <->
    cp_students c = true \/ cp_pis c = true \/ picked <> []) as Hwho
    by (unfold input; cbn [as_audiences as_individuals];
        destruct (cp_students c), (cp_pis c), picked; naive_solver).
  assert (List.filter (unfilled (as_placeholders input))
      (extractBracketTokens (trim (as_subject input) +:+ nl +:+ trim (as_body input))) = [] <->
    forall t, t ∈ tokens c -> trim (value_of c t) <> "") as Hph
    by (unfold input; cbn [as_subject as_body as_placeholders]; rewrite request_tokens; apply values_filled).
  rewrite <- Hwho, <- Hph. split; [by intros (r & w' & H%sendAnnouncement_gates)|].
  intros (Hs & Hb & Hm & Hi).
  destruct (add_individuals_ok people (dedup [] (as_individuals input))
    (fold_left (fun m a => union_by rc_email m (audience_recipients (w_db w) a)) (as_audiences input) []))
    as [rs Hrs]; [|by apply (sendAnnouncement_returns _ rs cs)].
  apply Forall_forall. intros e [(p & -> & Hp%Hin)%list_elem_of_fmap _]%elem_of_dedup.
  by apply list_elem_of_fmap_2.
Qed.

(** A template with a token, its value, and one person picked before the list is filtered. *)
Definition demo_templates : list AnnouncementTemplateRow :=
  [mkAnnouncementTemplate 1 "Closure" "Closed on [DATE]" "Hello {name}," 0].
Definition demo_events : list compose_event :=
  [ETemplate "1"; EToggle "ann@lab.edu"; EPlaceholder "DATE" "May 5"; EQuery "zz"; EStudents false].

Lemma compose_form_accepted_witness :
  let f := @entries console_action
    (composer_fields demo_templates (@announcement_people (demo_pf demo_accepts) (w_db (demo_world demo_accepts)))
       (2%nat, 1%nat) (compose demo_templates demo_events)) in
  form_all "recipient" f = ["ann@lab.edu"] /\
  exists r w', @sendAnnouncement _ (demo_pf demo_accepts)
    (announcement_of (mkAdminId 1 "Root" "root@lab.edu") f) (demo_world demo_accepts) = (Ok r, w').
Proof.
  destruct (@compose_form_accepted _ (demo_pf demo_accepts) demo_templates (2%nat, 1%nat) demo_events
    (mkAdminId 1 "Root" "root@lab.edu") (demo_world demo_accepts) []) as [Hall Hiff];
    [by vm_compute|].
  split; [rewrite Hall; by vm_compute|]. apply Hiff. split_and!; [by vm_compute|by vm_compute| |].
  - intros t. replace (tokens _) with ["DATE"] by by vm_compute.
    intros ->%list_elem_of_singleton. by vm_compute.
  - right. right. by vm_compute.
Defined.
