(* ===== verification/ImportForms.v ===== *)
(** * ImportForms: the two import forms and the confirmation dialog, as state machines

    [students/_components/ImportStudentsForm.tsx], [labs/_components/RosterImportForm.tsx] and
    [_components/ConfirmButton.tsx].  An event is a click, an edit or the answer of a server
    action; a step returns the new state and the call it makes.

    The second part: what the forms send. *)
From S2P Require Import Prelude Js Numbers Csv Schema Sql LabImport Web Actions View.
From Stdlib Require Import Ascii.
Open Scope Z_scope.

(** ** [ImportStudentsForm.tsx] *)

Record Columns := mkColumns {
  col_username : string; col_email : string; col_name : string; col_studentId : string }.

Record ImportState := mkImport {
  im_labId : Z; im_csvText : string; im_fileName : string; im_cols : Columns;
  im_submitting : bool; im_result : option ImportResult }.

Definition import0 : ImportState :=
  mkImport 0 "" "" (mkColumns "username" "email" "name" "") false None.

(** The column mapping of the form: an empty name is no column, but for the username's. *)
Definition mapping_of (c : Columns) : ColumnMapping :=
  mkMapping (or_str (col_username c) "username") (or_null (col_email c)) (or_null (col_name c))
    (or_null (col_studentId c)).

(** [{ headers, rows }]; [None] where the mapping throws while the form renders. *)
Definition parsed_rows (s : ImportState) : option (list string * list ImportRow) :=
  if negb (truthy (trim (im_csvText s))) then Some ([], [])
  else
    let parsed := parseCsv (im_csvText s) in
    (fun rows => (headers parsed, rows)) <$> applyMapping parsed (mapping_of (im_cols s)).

Definition validRows (rows : list ImportRow) : list ImportRow := filter (fun r => ir_issues r = []) rows.

(** What is sent of a row. *)
Definition raw_of (r : ImportRow) : RawImportRow :=
  mkRawRow (Some (ir_username r)) (ir_email r) (ir_name r) (ir_studentId r).

(** The input of the server action. *)
Record ImportCall := mkImportCall {
  ic_labId : Z; ic_rows : list RawImportRow; ic_requireEmail : bool }.

Inductive import_event :=
| ILab (id : Z) | IColumns (c : Columns) | IFile (name text : string) | IPaste (text : string)
| IImport | IDone (res : option ImportResult).      (* [None]: the call was rejected *)

Definition import_step (e : import_event) (s : ImportState) : option (ImportState * option ImportCall) :=
  match e with
  | ILab id => Some (s <| im_labId := id |>, None)
  | IColumns c => Some (s <| im_cols := c |>, None)
  | IFile name text => Some (s <| im_fileName := name |> <| im_result := None |> <| im_csvText := text |>, None)
  | IPaste text => Some (s <| im_csvText := text |> <| im_result := None |>, None)
  | IImport =>
      p ← parsed_rows s;
      let valid := validRows p.2 in
      let say m := Some (s <| im_result := Some (mkImportResult 0 0 (Some m)) |>, None) in
      if im_submitting s || bool_decide (valid = []) || (im_labId s =? 0) then Some (s, None)   (* disabled *)
      else if im_labId s =? 0 then say "Select a target lab"
      else if bool_decide (valid = []) then say "No valid rows to import"
      else Some (s <| im_result := None |> <| im_submitting := true |>,
                 Some (mkImportCall (im_labId s) (raw_of <$> valid) (truthy (col_email (im_cols s)))))
  | IDone None => Some (s <| im_submitting := false |>, None)
  | IDone (Some res) =>
      let s := s <| im_result := Some res |> <| im_submitting := false |> in
      Some (if (0 <? res_added res)%nat then s <| im_csvText := "" |> <| im_fileName := "" |> else s, None)
  end.

Definition PREVIEW_LIMIT : nat := 50.

(** The table of the preview and the lines around it. *)
Definition import_preview {A} (hs : list string) (rows : list ImportRow) : list (html A) :=
  let valid := length (validRows rows) in
  let invalid := (length rows - valid)%nat in
  show (0 <? length rows)%nat (
    [HText (nat_str valid +:+ " valid")] ++
    show (0 <? invalid)%nat [HText (nat_str invalid +:+ " will be skipped")] ++
    show (0 <? length hs)%nat [HText ("· detected columns: " +:+ join ", " hs)] ++
    ((fun r => HEl [HText (or_str (ir_username r) "—"); HText (nullish (ir_email r) "—");
                    HText (nullish (ir_name r) "—"); HText (nullish (ir_studentId r) "—");
                    HText (match ir_issues r with [] => "ok" | l => join "; " l end)])
       <$> take PREVIEW_LIMIT rows) ++
    show (PREVIEW_LIMIT <? length rows)%nat
      [HText ("Showing first " +:+ nat_str PREVIEW_LIMIT +:+ " of " +:+ nat_str (length rows) +:+ " rows.")]).

Definition ImportStudentsForm {A} (labs : list (Z * string)) (s : ImportState) : option (html A) :=
  match labs with
  | [] => Some (HText "Create a lab first.")
  | _ =>
      p ← parsed_rows s;
      let c := im_cols s in
      let valid := length (validRows p.2) in
      Some (HEl (
        [HCtl (mkControl "" (KSelect (("0", true) :: ((fun l => (string_of_Z l.1, false)) <$> labs)))
                 (string_of_Z (im_labId s)) false false);
         input "" (col_username c); input "" (col_email c); input "" (col_name c); input "" (col_studentId c);
         HText (im_fileName s); area "" (im_csvText s)] ++
        import_preview p.1 p.2 ++
        show_some (im_result s) (fun r =>
          [HText (match res_error r ≫= or_null with
                  | Some e => e
                  | None => "Imported " +:+ nat_str (res_added r) +:+ ", skipped " +:+ nat_str (res_skipped r) +:+ "."
                  end)]) ++
        [HButton (if im_submitting s then "Importing…"
                  else "Import " +:+ nat_str valid +:+ " " +:+ plural valid "student")
           (im_submitting s || (valid =? 0)%nat || (im_labId s =? 0))]))
  end.

(** ** [RosterImportForm.tsx] *)

Record RosterState := mkRosterState {
  rf_text : string; rf_plan : option RosterImportPlan; rf_done : option string;
  rf_err : option string; rf_pending : bool }.
Definition roster0 : RosterState := mkRosterState "" None None None false.

Inductive RosterCall := CallPreview (text : string) | CallApply (text : string).

Inductive roster_event :=
| RText (text : string)                         (* an edit, or the chosen file *)
| RPreview | RPreviewed (plan : RosterImportPlan + string)
| RApply | RApplied (res : RosterImportResult + string).

Definition planChangeCount (plan : RosterImportPlan) : nat :=
  ((if is_some (pn_piUpdate plan) then 1 else 0) + length (pn_studentsToCreate plan) +
   length (pn_studentsToUpdate plan) + length (pn_membershipsToAdd plan))%nat.

(** "Apply import" is shown. *)
Definition apply_shown (s : RosterState) : bool :=
  match rf_plan s with Some p => pn_ok p && (0 <? planChangeCount p)%nat | None => false end.

Definition imported_text (r : RosterImportResult) : string :=
  "Imported: " +:+ nat_str (ri_studentsCreated r) +:+ " students created, " +:+
  nat_str (ri_studentsUpdated r) +:+ " updated; " +:+ nat_str (ri_membershipsAdded r) +:+ " added to the roster" +:+
  (if ri_piUpdated r then "; PI metadata updated" else "") +:+
  (if (0 <? ri_provisioned r)%nat
   then "; " +:+ nat_str (ri_provisioned r) +:+
        " queued on existing nodes (credentials follow agent confirmation)" else "").

Definition roster_step (e : roster_event) (s : RosterState) : RosterState * option RosterCall :=
  match e with
  | RText t => (s <| rf_text := t |>, None)
  | RPreview =>
      if rf_pending s || negb (truthy (trim (rf_text s))) then (s, None)
      else (s <| rf_err := None |> <| rf_done := None |> <| rf_pending := true |>, Some (CallPreview (rf_text s)))
  | RPreviewed (inl plan) => (s <| rf_plan := Some plan |> <| rf_pending := false |>, None)
  | RPreviewed (inr e) => (s <| rf_err := Some e |> <| rf_pending := false |>, None)
  | RApply =>
      if rf_pending s || negb (apply_shown s) then (s, None)
      else (s <| rf_err := None |> <| rf_pending := true |>, Some (CallApply (rf_text s)))
  | RApplied (inr e) =>
      ((if truthy e then s <| rf_err := Some e |> else s) <| rf_pending := false |>, None)
  | RApplied (inl r) =>
      (s <| rf_done := Some (imported_text r) |> <| rf_plan := None |> <| rf_text := "" |>
         <| rf_pending := false |>, None)
  end.

Definition issue_lines {A} (l : list ImportIssue) : list (html A) :=
  (fun c => HText ("line " +:+ string_of_Z (ii_line c) +:+ ": " +:+ ii_message c)) <$> take 20 l.

Definition Summary {A} (plan : RosterImportPlan) : list (html A) :=
  [HText (if is_some (pn_piUpdate plan) then "changes" else "unchanged");
   HText (nat_str (length (pn_studentsToCreate plan))); HText (nat_str (length (pn_studentsToUpdate plan)));
   HText (nat_str (length (pn_membershipsToAdd plan)))] ++
  show (0 <? length (pn_invalid plan))%nat
    (HText ("Invalid rows (" +:+ nat_str (length (pn_invalid plan)) +:+ ")") :: issue_lines (pn_invalid plan)) ++
  show (0 <? length (pn_conflicts plan))%nat
    (HText ("Conflicts (" +:+ nat_str (length (pn_conflicts plan)) +:+ ")") :: issue_lines (pn_conflicts plan)).

Definition RosterImportForm {A} (s : RosterState) : html A :=
  HEl ([area "" (rf_text s);
        HButton (if rf_pending s then "Working…" else "Preview") (rf_pending s || negb (truthy (trim (rf_text s))))] ++
       show (apply_shown s) [HButton "Apply import" (rf_pending s)] ++
       show_str (rf_err s) (fun e => [HText e]) ++ show_str (rf_done s) (fun d => [HText d]) ++
       show_some (rf_plan s) (fun p =>
         show (negb (pn_ok p)) [HText "Not committable — fix the issues below and preview again."] ++
         show (pn_ok p && (planChangeCount p =? 0)%nat) [HText "Nothing to change — already up to date."] ++
         Summary p)).

(** ** [ConfirmButton.tsx] *)

Inductive confirm_event := KTrigger | KCancel | KDismiss | KConfirm.

(** [open], and whether the form is submitted; the dialog's buttons exist while it is open. *)
Definition confirm_step (e : confirm_event) (open : bool) : bool * bool :=
  match e with
  | KTrigger => (true, false)
  | KCancel | KDismiss => (false, false)
  | KConfirm => if open then (false, true) else (open, false)
  end.

(** * What the import forms send *)


(** ** The rows of the student import *)

Lemma trimmed_idem v : trimmed (trimmed v) = trimmed v.
Proof.
  destruct v as [s|]; [|done]. unfold trimmed. cbn -[trim]. unfold or_null.
  destruct (truthy (trim s)) eqn:Ht; [|done]. cbn -[trim]. by rewrite trim_idem, Ht.
Qed.

Lemma norm_kept r : to_lower (trim (to_lower (trim r))) = to_lower (trim r).
Proof. by rewrite (to_lower_trim (to_lower (trim r))), to_lower_idem, <- to_lower_trim, trim_idem. Qed.

Lemma row_fields req seen r : validate_row req seen r =
  mkImportRow (norm_username r) (trimmed (rr_email r)) (trimmed (rr_name r)) (trimmed (rr_studentId r))
    (ir_issues (validate_row req seen r)).
Proof. done. Qed.

(** A row that validates, sent back as the form sends it, validates as it is. *)
Lemma validate_kept req seen seen' r :
  (forall u, u ∈ seen' -> u ∈ seen) -> ir_issues (validate_row req seen r) = [] ->
  validate_row req seen' (raw_of (validate_row req seen r)) = validate_row req seen r.
Proof.
  intros Hs Hc. pose proof Hc as (Hu & Hn & He)%validate_row_clean.
  assert (norm_username (raw_of (validate_row req seen r)) = norm_username r) as Hnorm by apply norm_kept.
  assert (ir_issues (validate_row req seen' (raw_of (validate_row req seen r))) = []) as Hc'.
  { apply validate_row_clean. rewrite Hnorm. split_and!; [done|by intros ?%Hs|].
    intros Hr. destruct (He Hr) as [e Hee]. exists e.
    change (rr_email (raw_of _)) with (trimmed (rr_email r)). by rewrite trimmed_idem. }
  etransitivity; [apply row_fields|]. etransitivity; [|symmetry; apply row_fields].
  rewrite Hc, Hc', Hnorm. f_equal; apply trimmed_idem.
Qed.

Lemma validate_valid req rows : forall seen seen', (forall u, u ∈ seen' -> u ∈ seen) ->
  validate_rows req seen' (raw_of <$> validRows (validate_rows req seen rows)) =
  validRows (validate_rows req seen rows).
Proof.
  unfold validRows. induction rows as [|r rows IH]; intros seen seen' Hs; [done|].
  cbn [validate_rows]. cbv zeta. set (v := validate_row req seen r).
  assert (forall u, u ∈ (if truthy (ir_username v) then ir_username v :: seen else seen) <->
    u ∈ seen \/ truthy (ir_username v) = true /\ u = ir_username v) as Hseen.
  { intros u. destruct (truthy _); [rewrite elem_of_cons|]; naive_solver. }
  rewrite filter_cons. case_decide as Hc.
  - rewrite fmap_cons. cbn [validate_rows]. cbv zeta. unfold v at 1 2 3 4. rewrite validate_kept by done. fold v. f_equal.
    apply IH. intros u. rewrite Hseen. destruct (truthy _); [rewrite elem_of_cons|]; naive_solver.
  - apply IH. intros u Hu. apply Hseen. auto.
Qed.

(** C34: the rows the student import form sends are the rows its preview marks ok, and the server,
    which validates them again under the same requirement, finds nothing wrong with any of them and
    reads them as the form did. *)
Theorem import_form_agrees s s' call :
  import_step IImport s = Some (s', Some call) ->
  exists hs rows, parsed_rows s = Some (hs, rows) /\
    validateImportRows (ic_rows call) (ic_requireEmail call) = validRows rows /\
    ic_rows call <> [] /\ ic_labId call = im_labId s /\ im_labId s <> 0 /\ im_submitting s = false.
Proof.
  intros H. cbn [import_step] in H. destruct (parsed_rows s) as [[hs rows]|] eqn:Hp; [|done]. cbn in H.
  exists hs, rows. split; [done|].
  destruct (im_submitting s); [done|]. case_bool_decide as Hv; [done|]. cbn in H.
  destruct (Z.eqb_spec (im_labId s) 0) as [|Hl]; [done|]. injection H as <- <-.
  cbn [ic_rows ic_requireEmail ic_labId].
  split; [|split_and!; [by intros ?%fmap_nil_inv|done..]].
  unfold parsed_rows in Hp. destruct (negb _); [by injection Hp as <- <-|].
  apply fmap_Some in Hp as (l & Hl' & [= -> ->]). unfold applyMapping in Hl'.
  apply bind_Some in Hl' as (raw & _ & [= <-]).
  assert (truthy (col_email (im_cols s)) =
    match cm_email (mapping_of (im_cols s)) with Some e => truthy e | None => false end) as ->.
  { cbn. unfold or_null. destruct (truthy (col_email (im_cols s))) eqn:Ht; by rewrite ?Ht. }
  by apply validate_valid.
Qed.

Definition class_list : string :=
  "username,email,name" +:+ String lf ("Ann,ann@lab.edu,Ann" +:+ String lf ("bad name,b@lab.edu,B" +:+
  String lf (" ann ,dup@lab.edu,Dup" +:+ String lf "bob, bob@lab.edu ,Bob"))).
Definition import_ready : ImportState := import0 <| im_csvText := class_list |> <| im_labId := 7 |>.

Lemma import_form_agrees_witness : exists s' call,
  import_step IImport import_ready = Some (s', Some call) /\
  ir_username <$> validateImportRows (ic_rows call) (ic_requireEmail call) = ["ann"; "bob"].
Proof.
  destruct (import_step IImport import_ready) as [[s' [call|]]|] eqn:H; [|by vm_compute in H..].
  exists s', call. split; [done|].
  destruct (import_form_agrees import_ready s' call H) as (hs & rows & Hp & -> & _).
  assert (parsed_rows import_ready ≫= (fun p => Some (ir_username <$> validRows p.2)) = Some ["ann"; "bob"]) as E
    by by vm_compute.
  rewrite Hp in E. by injection E.
Defined.

(** ** The roster import: what a click can apply *)

(** The state after a run of events, and the calls made on the way. *)
Fixpoint roster_run (es : list roster_event) (s : RosterState) : RosterState * list RosterCall :=
  match es with
  | [] => (s, [])
  | e :: es =>
      let '(s, c) := roster_step e s in
      let '(s, cs) := roster_run es s in
      (s, match c with Some c => c :: cs | None => cs end)
  end.

(** The plan on the page: the last answer to a preview, until an import succeeds. *)
Definition note (o : option RosterImportPlan) (e : roster_event) : option RosterImportPlan :=
  match e with RPreviewed (inl p) => Some p | RApplied (inl _) => None | _ => o end.

Lemma roster_run_plan es s : rf_plan (roster_run es s).1 = foldl note (rf_plan s) es.
Proof.
  revert s. induction es as [|e es IH]; intros s; [done|]. cbn [roster_run foldl].
  assert (rf_plan (roster_step e s).1 = note (rf_plan s) e) as <-.
  { destruct e as [t| |[p|e]| |[r|e]]; cbn -[apply_shown truthy trim]; try done;
      by lazymatch goal with |- context [if ?b then _ else _] => destruct b end. }
  rewrite <- IH. destruct (roster_step e s) as [s1 c]. cbn [fst]. by destruct (roster_run es s1).
Qed.

(** An event that leaves the plan on the page alone. *)
Definition keeps_plan (e : roster_event) : Prop :=
  match e with RPreviewed (inl _) | RApplied (inl _) => False | _ => True end.

Lemma noted_plan es p : foldl note None es = Some p ->
  exists es1 es2, es = es1 ++ RPreviewed (inl p) :: es2 /\ Forall keeps_plan es2.
Proof.
  induction es as [|e es IH] using rev_ind; [done|]. rewrite foldl_app. cbn. intros H.
  destruct e as [t| |[q|e]| |[r|e]]; cbn in H; try done;
    try (destruct (IH H) as (es1 & es2 & -> & Hk); exists es1; eexists (es2 ++ [_]);
         rewrite <- app_assoc; split; [done|]; apply Forall_app; split; [done|by repeat constructor]).
  injection H as ->. exists es, []. by split.
Qed.

(** The roster import form posts an import only after the server answered a preview with a plan
    that is committable and changes something, with no later plan and no import since; and while it
    waits for an answer no click posts anything. *)
Theorem roster_apply_needs_plan es t :
  (roster_step RApply (roster_run es roster0).1).2 = Some (CallApply t) ->
  exists es1 p es2, es = es1 ++ RPreviewed (inl p) :: es2 /\ Forall keeps_plan es2 /\
    pn_ok p = true /\ (0 < planChangeCount p)%nat /\
    rf_pending (roster_run es roster0).1 = false /\ t = rf_text (roster_run es roster0).1.
Proof.
  cbn [roster_step]. destruct (rf_pending _) eqn:Hpend; [done|]. cbn [orb].
  destruct (apply_shown _) eqn:Hs; [|done]. cbn. intros [= <-]. unfold apply_shown in Hs.
  pose proof (roster_run_plan es roster0) as Hp. destruct (rf_plan (roster_run es roster0).1) as [p|]; [|done].
  destruct (noted_plan es p (eq_sym Hp)) as (es1 & es2 & -> & Hk).
  apply andb_true_iff in Hs as [Hok Hn%Nat.ltb_lt]. exists es1, p, es2. by split_and!.
Qed.

Definition one_student : RosterImportPlan := mkPlan "vision" None [] [] ["ann"] [] [] true.

Lemma roster_apply_needs_plan_witness : exists es1 p es2,
  [RText "a"; RPreview; RPreviewed (inl one_student)] = es1 ++ RPreviewed (inl p) :: es2 /\
  pn_ok p = true.
Proof.
  destruct (roster_apply_needs_plan [RText "a"; RPreview; RPreviewed (inl one_student)] "a")
    as (es1 & p & es2 & H & _ & Hok & _); [reflexivity|]. by exists es1, p, es2.
Defined.

(** The text that is applied need not be the text that was previewed: an edit leaves the plan and
    its button on the page. *)
Theorem roster_apply_unpreviewed t1 t2 p :
  truthy (trim t1) = true -> pn_ok p = true -> (0 < planChangeCount p)%nat ->
  (roster_run [RText t1; RPreview; RPreviewed (inl p); RText t2; RApply] roster0).2 =
    [CallPreview t1; CallApply t2].
Proof.
  intros Ht Hok Hn. cbn -[trim planChangeCount Nat.ltb]. rewrite Ht. cbn -[planChangeCount Nat.ltb].
  unfold apply_shown. cbn -[planChangeCount Nat.ltb]. by rewrite Hok, (proj2 (Nat.ltb_lt _ _) Hn).
Qed.
