(* ===== verification/Shell.v ===== *)
(** * Shell: what surrounds the pages

    The entry page, the login and signup forms, the layout with its navigation
    ([app/page.tsx], [app/login/page.tsx], [app/signup/page.tsx], [app/(app)/layout.tsx] and its
    [_components]), and the theme switch as a state machine over the browser's storage.

    With it [proxy.ts], the gate in front of every route, and what visiting any page changes. *)
From S2P Require Import Prelude Js Numbers Schema Sql DbWf Env Secrets Queue Settings Format Mailer Placements Labs Students Nodes Hub HubConn Web Maintenance WebDav Backup Gpu Announce RateLimit Flash Auth Stats Actions Console View LabPages SettingsPages NodePages StatsPage AnnouncePage ImportForms.
From Stdlib Require Import Ascii.
Open Scope Z_scope.

(** The requests of these forms. *)
Inductive shell_request := SLogin (f : FormData) | SSignup (f : FormData) | SLogout.

Section shell.
Context {HK : Honker} {PF : Platform} {AL : AuthLib}.

Definition Home : WAct unit :=
  admin ← currentAdmin;
  redirect (if is_some admin then "/dashboard" else "/login").

Definition required_kind {A} (name : string) (k : kind) : html A := HCtl (mkControl name k "" false true).

Definition LoginPage (error : option string) : WAct (html shell_request) :=
  n ← on_act adminCount;
  mret (HEl (
    show (n =? 0)%nat [HLink "/signup" [HText "Create the first account"]] ++
    [HForm SLogin [required_kind "email" KText; required_kind "password" KPassword; submit "Sign in"]] ++
    show_str error (fun e => [HText e]) ++ [HLink "/signup" [HText "Register a new admin"]])).

(** The password field also asks for eight characters. *)
Definition SignupPage (error : option string) : html shell_request :=
  HEl ([HForm SSignup [required_kind "name" KText; required_kind "email" KText;
                       required_kind "password" KPassword; required_kind "token" KText; submit "Create account"]] ++
       show_str error (fun e => [HText e]) ++ [HLink "/login" [HText "Back to sign in"]]).

(** ** The navigation *)

Definition NAV : list (string * string) :=
  [("/dashboard", "Dashboard"); ("/nodes", "Nodes"); ("/labs", "Labs"); ("/students", "Students");
   ("/stats", "Stats"); ("/gpu", "GPU"); ("/logs", "Logs"); ("/announcements", "Announce");
   ("/email-templates", "Templates"); ("/backups", "Backups"); ("/settings", "Settings")].

Definition nav_active (pathname href : string) : bool :=
  String.eqb pathname href || starts_with (href +:+ "/") pathname.

(** The entries with their highlight. *)
Definition NavLinks (pathname : string) : list (string * string * bool) :=
  (fun '(href, label) => (href, label, nav_active pathname href)) <$> NAV.

Definition SidebarContent (pathname email : string) : html shell_request :=
  HEl (((fun '(href, label, _) => HLink href [HText label]) <$> NavLinks pathname) ++
       [HForm (fun _ => SLogout) [submit "Sign out"]; HText email]).

(** The sidebar is rendered twice, in the rail and in the drawer. *)
Definition AppLayout (pathname : string) : WAct (list (html shell_request)) :=
  admin ← requireAdminPage;
  mret [SidebarContent pathname (adm_email admin); SidebarContent pathname (adm_email admin)].

(** [MobileNav.tsx]: the drawer closes when the path changes. *)
Inductive drawer_event := DOpenChange (b : bool) | DNavigate (pathname : string).
Definition drawer_step (e : drawer_event) (s : string * bool) : string * bool :=
  match e with
  | DOpenChange b => (s.1, b)
  | DNavigate p => (p, if String.eqb p s.1 then s.2 else false)
  end.

(** ** The theme *)

Inductive Theme := Dark | Light.
Definition theme_str (t : Theme) : string := match t with Dark => "dark" | Light => "light" end.

(** The attribute of the document, the stored choice ([None] in [th_storage]: storage is not
    available) and the component's state. *)
Record ThemeState := mkTheme {
  th_attr : string; th_storage : option (option string); th_state : option Theme }.

(** The inline script of [app/layout.tsx], before the first paint. *)
Definition THEME_INIT (s : ThemeState) : ThemeState :=
  let saved := mjoin (th_storage s) in
  s <| th_attr := if bool_decide (saved = Some "light") then "light" else "dark" |>.
Definition theme_mount (s : ThemeState) : ThemeState :=
  s <| th_state := Some (if String.eqb (th_attr s) "light" then Light else Dark) |>.
Definition theme_toggle (s : ThemeState) : ThemeState :=
  let next := match th_state s with Some Light => Dark | _ => Light end in
  s <| th_state := Some next |> <| th_attr := theme_str next |>
    <| th_storage ::= fun o => (fun _ => Some (theme_str next)) <$> o |>.

(** A page load: a fresh document and component over the storage that stayed. *)
Definition theme_load (storage : option (option string)) : ThemeState :=
  theme_mount (THEME_INIT (mkTheme "dark" storage None)).
End shell.

(** * Proxy: [proxy.ts], the gate in front of every route

    It runs before a request reaches a page or an action, without the database: it refuses
    requests of a foreign origin and requests without a verifiable session cookie. *)


(** The routes the matcher excludes, from the start of the path after its slash: a dot is any
    character. *)
Definition PUBLIC_ROUTE : re :=
  RSeq (RAlt (rlit "login") (RAlt (rlit "signup") (RAlt (rlit "_next/static") (RAlt (rlit "_next/image")
    (RAlt (RSeq (rlit "favicon") (RSeq (RChr (fun _ => true)) (rlit "ico"))) (rlit "agent"))))))
    rany.
Definition matched (path : string) : bool :=
  starts_with "/" path && negb (re_test PUBLIC_ROUTE (drop_str 1 path)).

Inductive ProxyResponse := PNext | PLogin | PForbidden.

Definition safe_method (m : string) : bool := existsb (String.eqb m) ["GET"; "HEAD"; "OPTIONS"].

Section proxy.
Context {HK : Honker} {PF : Platform} {AL : AuthLib}.

(** The origin a request that may change something must have. *)
Definition origin_ok (method : string) (origin : option string) : bool :=
  safe_method method ||
  let domain := to_lower (trim (nullish (process_env "CONTROLLER_DOMAIN") "")) in
  negb (truthy domain) || bool_decide (origin = Some ("https://" +:+ domain)).

Definition proxy (method : string) : WAct ProxyResponse :=
  origin ← header "origin";
  if negb (origin_ok method origin) then mret PForbidden
  else
    s ← get;
    match ww_cookie s, process_env "SESSION_SECRET" with
    | Some token, Some secret =>
        if negb (truthy token) || negb (truthy secret) then mret PLogin
        else
          now ← on_act date_now;
          mret (match jwt_verify secret token now with Some _ => PNext | None => PLogin end)
    | _, _ => mret PLogin
    end.

(** The whole of a request: the routes of the matcher go through the proxy first. *)
Definition through_proxy (method path : string) (m : WAct unit) : WAct unit :=
  if matched path then
    r ← proxy method;
    match r with
    | PNext => m
    | PLogin => redirect "/login"
    | PForbidden => mret tt
    end
  else m.

(** ** The two gates agree *)

Lemma proxy_lets_admins_in method s who :
  (requireAdmin s).1 = Ok who -> origin_ok method (alookup "origin" (ww_headers s)) = true ->
  (proxy method s).1 = Ok PNext.
Proof.
  intros Hr Ho. pose proof (requireAdmin_case s) as Hc. rewrite Hr in Hc.
  destruct Hc as (a & (token & key & payload & Hk & He & Hv & _) & _).
  assert (truthy token = true) as Ht.
  { destruct (requireAdmin_eq s) as (Heq & _). rewrite Heq in Hr. unfold session_claims in Hr.
    rewrite Hk, He in Hr. by destruct (truthy token). }
  apply sessionSecret_strong in He as (Henv & Hlen & _).
  unfold proxy. rewrite (bind_step (header "origin") _ s (alookup "origin" (ww_headers s)) s) by done.
  rewrite Ho. cbn [negb]. rewrite (bind_step get _ s s s) by done. rewrite Hk, Henv, Ht.
  rewrite (truthy_ne key) by (intros ->; cbn in Hlen; lia). cbn [negb orb].
  step_with (web_date_now s). cbn [fst mret M_ret]. by rewrite Hv.
Qed.
End proxy.

(** ** What a visit changes *)

(** The pages with the parameters of their addresses, and what the layout and the entry page do. *)
Inductive visit :=
| VHome | VLayout (pathname : string) | VLogin (error : option string)
| VLabs (imported : option string) (copyFrom : Z)
| VLab (id : string) (saved error : option string) (st : GrantState)
| VPlacement (id placementId : string) (saved error credential username : option string)
| VRecreate (id placementId : string) (error : option string)
| VStudents | VSettings (smtp scrub lg : option string) | VEmailTemplates (error saved : option string)
| VNodes (provisioned token error deleted revoked maintenance : option string)
| VLogs (level node q task : option string) | VTask (id : string) | VGpu (cleared : option string) | VDashboard
| VStats (error saved : option string) | VAnnouncements (msg : option string) (c : Composer).

Section visits.
Context {HK : Honker} {PF : Platform} {AL : AuthLib}.
Context (isoString localeDate : num -> string) (print_pretty : json -> string) (toLocaleString : nat -> string).

Definition discard {A} (m : WAct A) : WAct unit := m;; mret tt.
Definition visited (v : visit) : WAct unit :=
  match v with
  | VHome => Home
  | VLayout p => discard (AppLayout p)
  | VLogin e => discard (LoginPage e)
  | VLabs i c => discard (LabsPage i c)
  | VLab id s e st => discard (LabDetail id s e st)
  | VPlacement id p s e c u => discard (PlacementPage id p s e c u)
  | VRecreate id p e => discard (RecreatePage id p e)
  | VStudents => discard StudentsPage
  | VSettings a b c => discard (SettingsPage toLocaleString a b c)
  | VEmailTemplates e s => discard (EmailTemplatesPage e s)
  | VNodes a b c d e f => discard (NodesPage a b c d e f)
  | VLogs a b c d => discard (LogsPage isoString a b c d)
  | VTask id => discard (TaskDetailPage isoString print_pretty id)
  | VGpu c => discard (GpuPage localeDate c)
  | VDashboard => discard Dashboard
  | VStats e s => discard (StatsPage e s)
  | VAnnouncements m c => discard (AnnouncementsPage m c)
  end.

(** What a visit leaves alone: the database, the queue, the hub, the session and the limiter; of
    the one-time messages it may only take some. *)
Definition untouched (s0 s : WebWorld) : Prop :=
  web_db s = web_db s0 /\ w_hk (web_world s) = w_hk (web_world s0) /\
  hw_hub (ww_hub s) = hw_hub (ww_hub s0) /\ ww_cookie s = ww_cookie s0 /\ ww_buckets s = ww_buckets s0 /\
  ww_flash s `sublist_of` ww_flash s0.

Context (s0 : WebWorld).
#[local] Notation I := (untouched s0).
#[local] Notation J := (fun w => w_db w = web_db s0 /\ w_hk w = w_hk (web_world s0)).

Lemma on_act_untouched {A} (m : Act A) : preserves J m -> preserves I (on_act m).
Proof.
  intros Hm s (Hd & Hh & Hu & Hc & Hb & Hf). unfold on_act, on_hub, on_world.
  specialize (Hm (hw_world (ww_hub s)) (conj Hd Hh)). destruct (m _) as [r w]. destruct Hm as [Hd' Hh'].
  by split_and!.
Qed.
Lemma date_now_kept : preserves J date_now.
Proof. intros w Hw. exact Hw. Qed.
#[local] Hint Resolve date_now_kept db_act_ro : preserve.

Lemma takeFlash_untouched id : preserves I (takeFlash id).
Proof.
  unfold takeFlash. apply preserves_bind; [solve_preserves|]. intros s1. destruct (alookup id (ww_flash s1)); [|solve_preserves].
  apply preserves_bind; [|intros _; apply preserves_bind; [apply on_act_untouched, date_now_kept|solve_preserves]].
  intros s (Hd & Hh & Hu & Hc & Hb & Hf). cbn. split_and!; try done.
  etransitivity; [apply sublist_filter|done].
Qed.
Lemma flash_of_untouched o : preserves I (flash_of o).
Proof. unfold flash_of. destruct (o ≫= or_null); [apply takeFlash_untouched|solve_preserves]. Qed.
Lemma redirect_untouched {A} to : preserves I (redirect (A := A) to).
Proof. unfold redirect. solve_preserves. Qed.
Lemma currentAdmin_untouched : preserves I currentAdmin.
Proof.
  unfold currentAdmin. solve_preserves. apply on_act_untouched, date_now_kept.
Qed.
#[local] Hint Resolve takeFlash_untouched flash_of_untouched redirect_untouched currentAdmin_untouched : preserve.

Ltac reads :=
  repeat first [solve [auto with preserve nocore] | apply on_act_untouched | preserves_step].

Lemma ago_kept t : preserves J (ago t).
Proof. unfold ago. reads. Qed.
Lemma ago_num_kept t : preserves J (ago_num t).
Proof. unfold ago_num. reads. Qed.
Lemma getSetting_kept k : preserves J (getSetting k).
Proof. apply getSetting_ro. Qed.
#[local] Hint Resolve ago_kept ago_num_kept getSetting_kept : preserve.
Lemma getSettings_kept : preserves J getSettings.
Proof. unfold getSettings. reads. Qed.
Lemma getSmtpConfigs_kept : preserves J getSmtpConfigs.
Proof. unfold getSmtpConfigs, getSetting_str, getSetting_num, getSetting_bool. reads. Qed.
Lemma buildStats_kept : preserves J buildStats.
Proof. unfold buildStats, latestSamples, listAllPlacements. reads. Qed.
#[local] Hint Resolve getSettings_kept getSmtpConfigs_kept buildStats_kept : preserve.

Lemma lab_pages v :
  match v with VLabs _ _ | VLab _ _ _ _ | VPlacement _ _ _ _ _ _ | VRecreate _ _ _ | VStudents => True | _ => False end ->
  preserves I (visited v).
Proof.
  destruct v; intros []; unfold visited, discard, LabsPage, LabDetail, PlacementPage, RecreatePage, StudentsPage, placement_at,
    listLabs, listLabPlacementSummaries, getLab, listMembers, listPlacements, getPlacement, listPlacementMembers; reads.
Qed.
Lemma node_pages v :
  match v with VNodes _ _ _ _ _ _ | VLogs _ _ _ _ | VTask _ | VGpu _ | VDashboard | VStats _ _ => True | _ => False end ->
  preserves I (visited v).
Proof.
  destruct v; intros []; unfold visited, discard, NodesPage, LogsPage, TaskDetailPage, GpuPage, Dashboard, StatsPage,
    listLocalZfsNodes, node_row, log_row, task_log_row, getTask, recentGpuEvents, lab_kills, StudentDetails, event_row,
    buildNodeUsage, listNodeGroups, node_block, LabBlock, ScanControl, nodes_ago; reads.
Qed.
Lemma other_pages v :
  match v with VHome | VLayout _ | VLogin _ | VSettings _ _ _ | VEmailTemplates _ _ | VAnnouncements _ _ => True | _ => False end ->
  preserves I (visited v).
Proof.
  destruct v; intros []; unfold visited, discard, Home, AppLayout, LoginPage, SettingsPage, EmailTemplatesPage, AnnouncementsPage,
    requireAdminPage, adminCount, logsContentBytes, listAnnouncementTemplates, audienceCounts, listAnnouncementPeople,
    recentAnnouncements, isSmtpConfigured, announcement_row; reads.
Qed.
End visits.

(** C36: Visiting a page changes nothing: whatever page is asked for, with whatever parameters, and
    whether it is shown, redirects or fails, the database, the queue, the hub, the session and the
    rate limiter are as before, and the messages kept for one reading can only become fewer.  The
    backups page, which asks the backup server, is in the world of [Backup]. *)
Theorem visits_read_only {HK : Honker} {PF : Platform} {AL : AuthLib} isoString localeDate print_pretty toLocaleString v s :
  untouched s (visited isoString localeDate print_pretty toLocaleString v s).2.
Proof.
  assert (untouched s s) as H by by split_and!.
  destruct v; first [by apply lab_pages|by apply node_pages|by apply other_pages].
Qed.
