(* ===== verification/Catalog.v ===== *)
(** * Catalog: the schema statements of [lib/db.ts] and what SQLite makes of them

    A catalog is what [sqlite_schema] holds: tables with their columns and constraints, indexes
    and triggers.  A statement is a value that reads like the SQL it stands for; [define] is its
    effect on a catalog and throws where SQLite refuses it.  Where SQLite's answer would depend
    on the rows (a column without a default added to a table that has some, a table dropped
    while another refers to it) [define] refuses: no statement of the program is of that kind. *)
From S2P Require Import Prelude Js Schema Sql.
Open Scope Z_scope.

(** ** Values, columns, tables *)

(** What a cell holds: NULL, an integer, a double or a text. *)
Inductive SqlValue := VNull | VInt (z : Z) | VNum (x : num) | VText (t : text).
#[global] Instance text_eq_dec : EqDecision text.
Proof. solve_decision. Defined.
#[global] Instance SqlValue_eq_dec : EqDecision SqlValue.
Proof. solve_decision. Defined.

Inductive SqlType := INTEGER | TEXT | REAL.
Inductive RefAction := NO_ACTION | CASCADE | SET_NULL | RESTRICT.
Inductive ColumnConstraint :=
| NOT_NULL | UNIQUE | PRIMARY_KEY | AUTOINCREMENT
| DEFAULT (v : SqlValue)
| REFERENCES (parent column : string) (on_delete : RefAction).
#[global] Instance SqlType_eq_dec : EqDecision SqlType.
Proof. solve_decision. Defined.
#[global] Instance RefAction_eq_dec : EqDecision RefAction.
Proof. solve_decision. Defined.
#[global] Instance ColumnConstraint_eq_dec : EqDecision ColumnConstraint.
Proof. solve_decision. Defined.

Record Column := Col { c_name : string; c_type : SqlType; c_constraints : list ColumnConstraint }.

(** A table, with the constraints that follow its columns. *)
Record TableDef := mkTableDef {
  td_name : string; td_columns : list Column; td_primary : list string; td_uniques : list (list string) }.
Record IndexDef := mkIndexDef { ix_unique : bool; ix_name : string; ix_table : string; ix_columns : list string }.

Inductive TriggerEvent := BEFORE_INSERT | BEFORE_UPDATE_OF (column : string).
(** A trigger that refuses a row whose column is NULL or outside a range. *)
Record TriggerDef := mkTriggerDef {
  tg_name : string; tg_event : TriggerEvent; tg_table : string; tg_column : string; tg_lo : Z; tg_hi : Z }.

Record Catalog := mkCatalog {
  cat_tables : list TableDef; cat_indexes : list IndexDef; cat_triggers : list TriggerDef }.
Definition empty_catalog : Catalog := mkCatalog [] [] [].

(** ** What the constraints say of a column *)

Definition has (k : ColumnConstraint) (c : Column) : bool := bool_decide (k ∈ c_constraints c).
Fixpoint default_of (l : list ColumnConstraint) : SqlValue :=
  match l with [] => VNull | DEFAULT v :: _ => v | _ :: l' => default_of l' end.
Definition c_default (c : Column) : SqlValue := default_of (c_constraints c).
Fixpoint reference_of (l : list ColumnConstraint) : option (string * string) :=
  match l with [] => None | REFERENCES p k _ :: _ => Some (p, k) | _ :: l' => reference_of l' end.
Definition c_reference (c : Column) : option (string * string) := reference_of (c_constraints c).

Definition td_names (t : TableDef) : list string := c_name <$> td_columns t.
(** The columns that declare a key of their own, and the keys of the table. *)
Definition td_own_keys (t : TableDef) : list string :=
  c_name <$> filter (fun c => has UNIQUE c || has PRIMARY_KEY c = true) (td_columns t).
Definition td_keys (t : TableDef) : list (list string) :=
  (if decide (td_primary t = []) then [] else [td_primary t]) ++ td_uniques t ++
  ((fun k => [k]) <$> td_own_keys t).

(** ** Statements *)

Inductive statement :=
| CREATE_TABLE (t : TableDef)
| DROP_TABLE_IF_EXISTS (name : string)
| ADD_COLUMN (tname : string) (c : Column)
| DROP_COLUMN (tname column : string)
| RENAME_COLUMN (tname column to : string)
| CREATE_INDEX (i : IndexDef)
| CREATE_TRIGGER (g : TriggerDef).

(** [CREATE TABLE name (columns, PRIMARY KEY (p), UNIQUE (u), ...)] *)
Definition create (name : string) (columns : list Column) : statement :=
  CREATE_TABLE (mkTableDef name columns [] []).
Definition create_unique (name : string) (columns : list Column) (us : list (list string)) : statement :=
  CREATE_TABLE (mkTableDef name columns [] us).
Definition create_keyed (name : string) (columns : list Column) (p : list string) : statement :=
  CREATE_TABLE (mkTableDef name columns p []).
Definition index_on (name t : string) (columns : list string) : statement :=
  CREATE_INDEX (mkIndexDef false name t columns).

Definition table_named (c : Catalog) (name : string) : option TableDef :=
  get_row (fun t => td_name t = name) (cat_tables c).
(** Tables and indexes share one name space. *)
Definition taken (c : Catalog) (name : string) : bool :=
  bool_decide (name ∈ (td_name <$> cat_tables c) ++ (ix_name <$> cat_indexes c)).

(** A table definition SQLite takes: no column twice, the keys' columns there, one primary key,
    AUTOINCREMENT on an INTEGER PRIMARY KEY only. *)
Definition table_ok (t : TableDef) : bool :=
  bool_decide (NoDup (td_names t)) &&
  forallb (fun k => forallb (fun n => bool_decide (n ∈ td_names t)) k) (td_primary t :: td_uniques t) &&
  (length (filter (fun c => has PRIMARY_KEY c = true) (td_columns t)) +
     (if decide (td_primary t = []) then 0 else 1) <=? 1)%nat &&
  forallb (fun c => implb (has AUTOINCREMENT c) (has PRIMARY_KEY c && bool_decide (c_type c = INTEGER)))
    (td_columns t).

(** A column that can be added to a table with rows: not a key; NOT NULL with a default; a
    reference without one. *)
Definition column_addable (c : Column) : bool :=
  negb (has UNIQUE c) && negb (has PRIMARY_KEY c) &&
  implb (has NOT_NULL c) (negb (bool_decide (c_default c = VNull))) &&
  implb (is_some (c_reference c)) (bool_decide (c_default c = VNull)).

(** Something else of the catalog uses the column. *)
Definition column_used (c : Catalog) (t : TableDef) (k : string) : bool :=
  existsb (fun ks => bool_decide (k ∈ ks)) (td_keys t) ||
  existsb (fun i => bool_decide (ix_table i = td_name t /\ k ∈ ix_columns i)) (cat_indexes c) ||
  existsb (fun g => bool_decide (tg_table g = td_name t /\ tg_column g = k)) (cat_triggers c) ||
  existsb (fun u => existsb (fun l => bool_decide (c_reference l = Some (td_name t, k))) (td_columns u)) (cat_tables c) ||
  existsb (fun l => bool_decide (c_name l = k /\ is_Some (c_reference l))) (td_columns t).
Definition referenced (c : Catalog) (name : string) : bool :=
  existsb (fun u => negb (bool_decide (td_name u = name)) &&
    existsb (fun l => bool_decide (fst <$> c_reference l = Some name)) (td_columns u)) (cat_tables c).

Definition with_columns (name : string) (f : list Column -> list Column) (c : Catalog) : Catalog :=
  mkCatalog (update_where (fun t => td_name t = name)
    (fun t => mkTableDef (td_name t) (f (td_columns t)) (td_primary t) (td_uniques t)) (cat_tables c))
    (cat_indexes c) (cat_triggers c).

Definition refuse {A} (name : string) : result exn A := Throw (ESqlSchema name).

(** What one statement makes of the catalog. *)
Definition define (s : statement) (c : Catalog) : result exn Catalog :=
  match s with
  | CREATE_TABLE t =>
      if taken c (td_name t) || negb (table_ok t) then refuse (td_name t)
      else Ok (mkCatalog (cat_tables c ++ [t]) (cat_indexes c) (cat_triggers c))
  | DROP_TABLE_IF_EXISTS name =>
      match table_named c name with
      | None => Ok c
      | Some _ =>
          if referenced c name then refuse name
          else Ok (mkCatalog (delete_where (fun t => td_name t = name) (cat_tables c))
                 (delete_where (fun i => ix_table i = name) (cat_indexes c))
                 (delete_where (fun g => tg_table g = name) (cat_triggers c)))
      end
  | ADD_COLUMN name k =>
      match table_named c name with
      | None => refuse name
      | Some t =>
          if bool_decide (c_name k ∈ td_names t) || negb (column_addable k) then refuse (c_name k)
          else Ok (with_columns name (fun l => l ++ [k]) c)
      end
  | DROP_COLUMN name k =>
      match table_named c name with
      | None => refuse name
      | Some t =>
          if negb (bool_decide (k ∈ td_names t)) || column_used c t k then refuse k
          else Ok (with_columns name (delete_where (fun l => c_name l = k)) c)
      end
  | RENAME_COLUMN name k to =>
      match table_named c name with
      | None => refuse name
      | Some t =>
          if negb (bool_decide (k ∈ td_names t)) || bool_decide (to ∈ td_names t) || column_used c t k
          then refuse k
          else Ok (with_columns name
                 (update_where (fun l => c_name l = k) (fun l => Col to (c_type l) (c_constraints l))) c)
      end
  | CREATE_INDEX i =>
      match table_named c (ix_table i) with
      | None => refuse (ix_table i)
      | Some t =>
          if taken c (ix_name i) || negb (forallb (fun k => bool_decide (k ∈ td_names t)) (ix_columns i))
          then refuse (ix_name i)
          else Ok (mkCatalog (cat_tables c) (cat_indexes c ++ [i]) (cat_triggers c))
      end
  | CREATE_TRIGGER g =>
      match table_named c (tg_table g) with
      | None => refuse (tg_table g)
      | Some t =>
          if bool_decide (tg_name g ∈ tg_name <$> cat_triggers c) ||
             negb (bool_decide (tg_column g ∈ td_names t))
          then refuse (tg_name g)
          else Ok (mkCatalog (cat_tables c) (cat_indexes c) (cat_triggers c ++ [g]))
      end
  end.

Fixpoint define_all (l : list statement) (c : Catalog) : result exn Catalog :=
  match l with [] => Ok c | s :: l' => c' ← define s c; define_all l' c' end.

Lemma define_all_app l k c c' : define_all l c = Ok c' -> define_all (l ++ k) c = define_all k c'.
Proof.
  revert c. induction l as [|s l IH]; intros c; cbn; [by intros [= ->]|].
  destruct (define s c) as [c1|]; cbn; [apply IH|done].
Qed.
