(* ===== verification/Rows.v ===== *)
(** * Rows: the records of [Schema] as the rows SQLite stores

    Every record is written out as its table's columns, in the order the statements of
    [lib/db.ts] give them; [conforms] is what the constraints of a catalog ask of such rows. *)
From S2P Require Import Prelude Js Schema Sql DbWf Nodes LabPages NodePages Catalog.
Open Scope Z_scope.

Definition row : Type := list (string * SqlValue).

(** ** Cells *)

Definition v_str (s : string) : SqlValue := VText (TRaw s).
Definition v_bool (b : bool) : SqlValue := VInt (if b then 1 else 0).
Definition v_num (x : num) : SqlValue := if sql_null x then VNull else VNum x.
Definition v_opt {A} (f : A -> SqlValue) (o : option A) : SqlValue :=
  match o with Some a => f a | None => VNull end.
(** A value bound as it came. *)
Definition v_json (v : json) : SqlValue :=
  match v with JNull => VNull | JNum n => v_num n | JStr s => v_str s | v => VText (TJson v) end.

(** ** Rows *)

Definition admin_row (a : AdminRow) : row :=
  [("id", VInt (ad_id a)); ("name", v_str (ad_name a)); ("email", v_str (ad_email a));
   ("password_hash", v_str (ad_password_hash a)); ("created_at", VInt (ad_created_at a));
   ("is_active", v_bool (ad_is_active a)); ("token_version", VInt (ad_token_version a))].
Definition setting_row (s : string * text) : row := [("key", v_str s.1); ("value", VText s.2)].
Definition node_row (n : NodeRow) : row :=
  [("id", VInt (n_id n)); ("name", v_str (n_name n)); ("last_seen", v_opt VInt (n_last_seen n));
   ("online", v_bool (n_online n)); ("capabilities", v_opt VText (n_capabilities n));
   ("pools", v_opt VText (n_pools n)); ("created_at", VInt (n_created_at n));
   ("last_scrub", v_opt VInt (n_last_scrub n)); ("scrub_status", v_opt VText (n_scrub_status n));
   ("token_hash", v_opt v_str (n_token_hash n)); ("allowed", v_bool (n_allowed n));
   ("alias", v_opt v_str (n_alias n)); ("cold_backend", v_str (backend_str (n_cold_backend n)));
   ("cold_owner_node_id", v_opt VInt (n_cold_owner_node_id n));
   ("cold_mount_path", v_opt v_str (n_cold_mount_path n)); ("cold_ready", v_bool (n_cold_ready n))].
Definition lab_row (l : LabRow) : row :=
  [("id", VInt (l_id l)); ("name", v_str (l_name l)); ("pi_name", v_opt v_str (l_pi_name l));
   ("pi_email", v_opt v_str (l_pi_email l)); ("created_at", VInt (l_created_at l));
   ("updated_at", VInt (l_updated_at l)); ("pi_student_id", v_opt VInt (l_pi_student_id l))].
Definition student_row (s : StudentRow) : row :=
  [("id", VInt (s_id s)); ("student_id", v_opt v_str (s_student_id s)); ("username", v_str (s_username s));
   ("email", v_opt v_str (s_email s)); ("name", v_opt v_str (s_name s));
   ("created_at", VInt (s_created_at s)); ("updated_at", VInt (s_updated_at s));
   ("linux_uid", VInt (s_linux_uid s))].
Definition lab_member_row (m : LabMemberRow) : row :=
  [("id", VInt (lm_id m)); ("lab_id", VInt (lm_lab_id m)); ("student_id", VInt (lm_student_id m));
   ("created_at", VInt (lm_created_at m))].
Definition placement_row (p : PlacementRow) : row :=
  [("id", VInt (p_id p)); ("lab_id", VInt (p_lab_id p)); ("node_id", VInt (p_node_id p));
   ("fast_quota_bytes", VInt (p_fast_quota_bytes p)); ("cold_quota_bytes", v_opt VInt (p_cold_quota_bytes p));
   ("ssh_port", VInt (p_ssh_port p)); ("image", v_str (p_image p));
   ("container_options", v_opt VText (p_container_options p)); ("state", v_str (state_str (p_state p)));
   ("last_error", v_opt v_str (p_last_error p)); ("usage_scanned_at", v_opt v_num (p_usage_scanned_at p));
   ("last_usage_scan", v_opt VInt (p_last_usage_scan p)); ("created_at", VInt (p_created_at p));
   ("updated_at", VInt (p_updated_at p));
   ("student_fast_quota_bytes", v_opt VInt (p_student_fast_quota_bytes p));
   ("student_cold_quota_bytes", v_opt VInt (p_student_cold_quota_bytes p));
   ("completion_email_sent_at", v_opt VInt (p_completion_email_sent_at p))].
Definition placement_member_row (m : PlacementMemberRow) : row :=
  [("id", VInt (pm_id m)); ("placement_id", VInt (pm_placement_id m)); ("student_id", VInt (pm_student_id m));
   ("state", v_str (member_state_str (pm_state m))); ("last_error", v_opt v_str (pm_last_error m));
   ("created_at", VInt (pm_created_at m)); ("updated_at", VInt (pm_updated_at m));
   ("credential_secret", v_opt v_str (pm_credential_secret m));
   ("credential_delivered_at", v_opt VInt (pm_credential_delivered_at m))].
Definition task_row (t : TaskRow) : row :=
  [("id", VInt (t_id t)); ("task_uuid", v_str (t_task_uuid t)); ("job_id", VInt (t_job_id t));
   ("node", v_str (t_node t)); ("action", v_str (t_action t)); ("params", v_opt VText (t_params t));
   ("requested_by", v_opt v_str (t_requested_by t)); ("state", v_str (task_state_str (t_state t)));
   ("result", v_opt VText (t_result t)); ("error", v_opt v_str (t_error t));
   ("created_at", VInt (t_created_at t)); ("updated_at", VInt (t_updated_at t));
   ("received_at", v_opt VInt (t_received_at t)); ("attempts", VInt (t_attempts t));
   ("result_cached", v_bool (t_result_cached t))].
Definition log_row (l : LogRow) : row :=
  [("id", VInt (log_id l)); ("ts", v_num (log_ts l)); ("node", v_opt v_str (log_node l));
   ("level", v_str (log_level l)); ("source", v_opt v_str (log_source l)); ("lab", v_opt v_str (log_lab l));
   ("user", v_opt v_str (log_user l)); ("task_id", v_opt v_str (log_task_id l)); ("msg", v_str (log_msg l));
   ("detail", v_opt v_str (log_detail l))].
Definition gpu_snapshot_row (g : GpuSnapshotRow) : row :=
  [("node", v_str (gs_node g)); ("pid", v_json (gs_pid g)); ("user", v_opt v_str (gs_user g));
   ("lab", v_opt v_str (gs_lab g)); ("vram_bytes", v_opt v_json (gs_vram_bytes g));
   ("util", v_opt v_json (gs_util g)); ("ts", VInt (gs_ts g)); ("placement_id", v_opt VInt (gs_placement_id g));
   ("cmd", v_opt v_str (gs_cmd g)); ("started_at", v_opt v_num (gs_started_at g))].
Definition gpu_event_row (g : GpuEventRow) : row :=
  [("id", VInt (ge_id g)); ("node", v_str (ge_node g)); ("pid", v_opt v_num (ge_pid g));
   ("user", v_opt v_str (ge_user g)); ("lab", v_opt v_str (ge_lab g));
   ("vram_bytes", v_opt v_num (ge_vram_bytes g)); ("state", v_str (ge_state g)); ("ts", v_num (ge_ts g));
   ("placement_id", v_opt VInt (ge_placement_id g)); ("cmd", v_opt v_str (ge_cmd g));
   ("idle_s", v_opt v_num (ge_idle_s g))].
Definition sample_row (s : SampleRow) : row :=
  [("id", VInt (ss_id s)); ("placement_id", v_opt VInt (ss_placement_id s)); ("lab_id", v_opt VInt (ss_lab_id s));
   ("student_id", v_opt VInt (ss_student_id s)); ("pool", v_str (ss_pool s));
   ("used_bytes", v_num (ss_used_bytes s)); ("quota_bytes", v_opt v_json (ss_quota_bytes s)); ("ts", VInt (ss_ts s))].
Definition quota_alert_row (q : QuotaAlertRow) : row :=
  [("id", VInt (qa_id q)); ("placement_id", v_opt VInt (qa_placement_id q)); ("lab_id", v_opt VInt (qa_lab_id q));
   ("pool", v_str (qa_pool q)); ("pct", v_num (qa_pct q)); ("ts", VInt (qa_ts q))].
Definition student_quota_alert_row (q : StudentQuotaAlertRow) : row :=
  [("id", VInt (sqa_id q)); ("placement_id", VInt (sqa_placement_id q)); ("student_id", VInt (sqa_student_id q));
   ("pool", v_str (sqa_pool q)); ("pct", v_num (sqa_pct q)); ("ts", VInt (sqa_ts q))].
Definition audit_row (a : AuditRow) : row :=
  [("id", VInt (au_id a)); ("ts", VInt (au_ts a)); ("actor", v_opt v_str (au_actor a));
   ("action", v_str (au_action a)); ("target", v_opt v_str (au_target a)); ("detail", v_opt v_str (au_detail a))].
Definition node_group_row (g : NodeGroupRow) : row :=
  [("id", VInt (g_id g)); ("name", v_str (g_name g)); ("created_at", VInt (g_created_at g))].
Definition node_group_member_row (m : NodeGroupMemberRow) : row :=
  [("group_id", VInt (gm_group_id m)); ("node_id", VInt (gm_node_id m))].
Definition announcement_row (a : AnnouncementRow) : row :=
  [("id", VInt (an_id a)); ("ts", VInt (an_ts a)); ("actor", v_opt v_str (an_actor a));
   ("audiences", v_str (an_audiences a)); ("subject", v_str (an_subject a)); ("body", v_str (an_body a));
   ("recipients", VInt (an_recipients a)); ("sent", VInt (an_sent a)); ("skipped", v_bool (an_skipped a))].
Definition announcement_template_row (t : AnnouncementTemplateRow) : row :=
  [("id", VInt (at_id t)); ("name", v_str (at_name t)); ("subject", v_str (at_subject t));
   ("body", v_str (at_body t)); ("sort", VInt (at_sort t))].

(** The rows of every table. *)
Definition stored (d : Db) : list (string * list row) :=
  [("admins", admin_row <$> rows (admins d)); ("settings", setting_row <$> settings d);
   ("nodes", node_row <$> rows (nodes d)); ("task_log", task_row <$> rows (task_log d));
   ("logs", log_row <$> rows (logs d)); ("gpu_snapshot", gpu_snapshot_row <$> gpu_snapshot d);
   ("gpu_events", gpu_event_row <$> rows (gpu_events d)); ("audit_log", audit_row <$> rows (audit_log d));
   ("announcements", announcement_row <$> rows (announcements d));
   ("students", student_row <$> rows (students d)); ("labs", lab_row <$> rows (labs d));
   ("lab_members", lab_member_row <$> rows (lab_members d));
   ("lab_placements", placement_row <$> rows (lab_placements d));
   ("placement_members", placement_member_row <$> rows (placement_members d));
   ("storage_samples", sample_row <$> rows (storage_samples d));
   ("quota_alerts", quota_alert_row <$> rows (quota_alerts d));
   ("node_groups", node_group_row <$> rows (node_groups d));
   ("node_group_members", node_group_member_row <$> node_group_members d);
   ("announcement_templates", announcement_template_row <$> rows (announcement_templates d));
   ("student_quota_alerts", student_quota_alert_row <$> rows (student_quota_alerts d))].
Definition rows_of (d : Db) (name : string) : list row := default [] (alookup name (stored d)).

(** ** What a catalog asks of the rows *)

(** The value of a key; [None] where one of its columns is NULL, which makes it distinct from
    every other. *)
Fixpoint key_of (cols : list string) (r : row) : option (list SqlValue) :=
  match cols with
  | [] => Some []
  | k :: cols' =>
      match alookup k r with
      | None | Some VNull => None
      | Some v => (fun l => v :: l) <$> key_of cols' r
      end
  end.
Definition distinct (rs : list row) (cols : list string) : bool := bool_decide (NoDup (omap (key_of cols) rs)).

(** A value in a column: NULL only where it may be; in a TEXT column a text. *)
Definition cell_ok (c : Column) (v : SqlValue) : bool :=
  match v with
  | VNull => negb (has NOT_NULL c)
  | VText _ => true
  | VInt _ | VNum _ => negb (bool_decide (c_type c = TEXT))
  end.
Fixpoint row_ok (cols : list Column) (r : row) : bool :=
  match cols, r with
  | [], [] => true
  | c :: cols', (k, v) :: r' => bool_decide (c_name c = k) && cell_ok c v && row_ok cols' r'
  | _, _ => false
  end.

Definition cells (k : string) (rs : list row) : list SqlValue := omap (alookup k) rs.
Definition reference_ok (from : string -> list row) (rs : list row) (c : Column) : bool :=
  match c_reference c with
  | None => true
  | Some (p, k) => forallb (fun v => bool_decide (v = VNull \/ v ∈ cells k (from p))) (cells (c_name c) rs)
  end.

(** The rows of one table satisfy its definition; every index and trigger is satisfied. *)
Definition table_holds (from : string -> list row) (t : TableDef) : bool :=
  forallb (row_ok (td_columns t)) (from (td_name t)) &&
  forallb (distinct (from (td_name t))) (td_keys t) &&
  forallb (reference_ok from (from (td_name t))) (td_columns t).
Definition index_holds (from : string -> list row) (i : IndexDef) : bool :=
  implb (ix_unique i) (distinct (from (ix_table i)) (ix_columns i)).
Definition in_bounds (lo hi : Z) (v : SqlValue) : bool :=
  match v with VInt z => (lo <=? z) && (z <=? hi) | _ => false end.
Definition trigger_holds (from : string -> list row) (g : TriggerDef) : bool :=
  forallb (in_bounds (tg_lo g) (tg_hi g)) (cells (tg_column g) (from (tg_table g))).
Definition conforms (c : Catalog) (from : string -> list row) : bool :=
  forallb (table_holds from) (cat_tables c) && forallb (index_holds from) (cat_indexes c) &&
  forallb (trigger_holds from) (cat_triggers c).

(** ** Showing that rows conform *)

Section conform.
Context {A : Type} (enc : A -> row).
Implicit Types (l : list A).

Lemma forallb_intro {B} (f : B -> bool) k : Forall (fun x => f x = true) k -> forallb f k = true.
Proof. induction 1 as [|x k Hx _ IH]; [done|]. cbn. by rewrite Hx, IH. Qed.

Lemma NoDup_by {K L} (g : A -> K) (f : A -> L) l : NoDup (g <$> l) ->
  (forall x y, x ∈ l -> y ∈ l -> f x = f y -> g x = g y) -> NoDup (f <$> l).
Proof.
  intros Hnd Hf. induction l as [|x l IH]; [constructor|]. rewrite fmap_cons in *.
  apply NoDup_cons in Hnd as [Hx Hnd]. apply NoDup_cons. split.
  - intros (y & E & Hy)%list_elem_of_fmap. apply Hx. rewrite (Hf x y); [by apply list_elem_of_fmap_2|by left|by right|done].
  - apply IH; [done|]. intros a b Ha Hb. apply Hf; by right.
Qed.
Lemma distinct_key {K} (g : A -> K) l cols : NoDup (g <$> l) ->
  (forall x y k, x ∈ l -> y ∈ l -> key_of cols (enc x) = Some k -> key_of cols (enc y) = Some k -> g x = g y) ->
  distinct (enc <$> l) cols = true.
Proof.
  intros Hnd Hk. apply bool_decide_eq_true_2. induction l as [|x l IH]; [constructor|].
  rewrite fmap_cons in *. apply NoDup_cons in Hnd as [Hx Hnd].
  assert (NoDup (omap (key_of cols) (enc <$> l))) as Hl.
  { apply IH; [done|]. intros a b k Ha Hb. apply Hk; by right. }
  cbn. destruct (key_of cols (enc x)) as [k|] eqn:Hkx; [|done]. apply NoDup_cons. split; [|done].
  intros (r & (y & -> & Hy)%list_elem_of_fmap & Hky)%list_elem_of_omap. apply Hx.
  rewrite (Hk x y k); [by apply list_elem_of_fmap_2|by left|by right|done|done].
Qed.

Lemma cells_fmap k (f : A -> SqlValue) l : (forall x, alookup k (enc x) = Some (f x)) -> cells k (enc <$> l) = f <$> l.
Proof. intros H. unfold cells. induction l as [|x l IH]; [done|]. cbn. rewrite H. f_equal. exact IH. Qed.

(** A foreign key of [DbWf] satisfies the column's REFERENCES. *)
Lemma reference_fk {B} (encp : B -> row) from (ref : A -> option Z) (id : B -> Z) l ps c p k :
  c_reference c = Some (p, k) -> from p = encp <$> ps ->
  (forall x, alookup (c_name c) (enc x) = Some (v_opt VInt (ref x))) ->
  (forall y, alookup k (encp y) = Some (VInt (id y))) ->
  fk ref l (id <$> ps) -> reference_ok from (enc <$> l) c = true.
Proof.
  intros Hc Hp Hx Hy Hfk. unfold reference_ok. rewrite Hc, Hp, (cells_fmap _ _ _ Hx).
  assert (cells k (encp <$> ps) = (VInt ∘ id) <$> ps) as ->.
  { unfold cells. clear -Hy. induction ps as [|y ps IH]; [done|]. cbn. rewrite Hy. f_equal. exact IH. }
  apply forallb_intro, Forall_fmap. eapply Forall_impl; [exact Hfk|]. intros x Hr. cbn in Hr |- *.
  apply bool_decide_eq_true_2. destruct (ref x) as [i|]; [right|by left]. cbn.
  rewrite list_fmap_compose. by apply list_elem_of_fmap_2, Hr.
Qed.

Lemma table_holds_intro from t l :
  from (td_name t) = enc <$> l -> Forall (fun x => row_ok (td_columns t) (enc x) = true) l ->
  Forall (fun cols => distinct (enc <$> l) cols = true) (td_keys t) ->
  Forall (fun c => reference_ok from (enc <$> l) c = true) (td_columns t) ->
  table_holds from t = true.
Proof.
  intros Hf Hr Hk Hc. unfold table_holds. rewrite Hf. rewrite !andb_true_iff. split_and!.
  - apply forallb_intro. by apply Forall_fmap.
  - by apply forallb_intro.
  - by apply forallb_intro.
Qed.
End conform.

Lemma row_ok_cons c cols k v r :
  c_name c = k -> cell_ok c v = true -> row_ok cols r = true -> row_ok (c :: cols) ((k, v) :: r) = true.
Proof. intros Hk Hc Hr. cbn. rewrite Hc, Hr. by rewrite bool_decide_eq_true_2. Qed.
Lemma cell_opt {A} c (f : A -> SqlValue) o :
  has NOT_NULL c = false -> (forall a, cell_ok c (f a) = true) -> cell_ok c (v_opt f o) = true.
Proof. intros Hc Hf. destruct o; cbn; [done|]. by rewrite Hc. Qed.
Lemma cell_num c x : sql_null x = false -> c_type c <> TEXT -> cell_ok c (v_num x) = true.
Proof. intros Hx Hc. unfold v_num. rewrite Hx. cbn. by rewrite bool_decide_eq_false_2. Qed.
Lemma cell_num_null c x : has NOT_NULL c = false -> c_type c <> TEXT -> cell_ok c (v_num x) = true.
Proof. intros Hc Ht. unfold v_num. destruct (sql_null x); cbn; [by rewrite Hc|by rewrite bool_decide_eq_false_2]. Qed.
Lemma cell_json c v : has NOT_NULL c = false -> c_type c <> TEXT -> cell_ok c (v_json v) = true.
Proof. intros Hc Ht. destruct v; cbn; rewrite ?Hc; try done. by apply cell_num_null. Qed.

Lemma v_json_inj v w : v_json v = v_json w -> v_json v <> VNull -> v = w.
Proof. destruct v, w; cbn; unfold v_num; repeat case_match; intros; simplify_eq; done. Qed.
Lemma cell_json_some c v : json_null v = false -> c_type c <> TEXT -> cell_ok c (v_json v) = true.
Proof. intros Hv Ht. destruct v; try done. by apply cell_num. Qed.

Ltac cell_tac := first
  [ reflexivity | apply cell_num; [assumption|done] | apply cell_json_some; [assumption|done] | apply cell_num_null; [reflexivity|done]
  | apply cell_opt; [reflexivity|intros; first [reflexivity|apply cell_num_null; [reflexivity|done]|apply cell_json; [reflexivity|done]]] ].
Ltac row_tac := repeat (apply row_ok_cons; [reflexivity|cell_tac|]); reflexivity.

(** A key of integers and texts determines what it was made of. *)
Ltac key_tac := intros; cbn in *; simplify_eq; first [done|congruence].
