(* ===== verification/Scripts.v ===== *)
(** * Scripts: the migrations of [lib/db.ts], statement by statement

    Every migration is its list of statements: on the catalog, and on the rows.  [MIGRATIONS]
    hands them to the runner of [Migrate].  A migration's function that prepares statements and
    loops over rows is the operation of [Migrate] of the same name, between the statements it
    executes. *)
From S2P Require Import Prelude Js Schema Sql DbWf Env Secrets Queue Settings Template Signature Migrate Catalog Rows.
Open Scope Z_scope.

(** ** A database file: its catalog and its rows *)

Record Store := mkStore { st_catalog : Catalog; st_db : Db }.

(** One statement: on the catalog, or on rows; [CHECKED] ones may throw. *)
Inductive sql := DDL (s : statement) | DML (f : Db -> Db) | CHECKED (f : Db -> result exn Db).

(** The rows of a table that is made or dropped: none, and no id was given. *)
Definition WIPE : list (string * (Db -> Db)) :=
  [("admins", fun d => d <| admins := empty_table |>); ("settings", fun d => d <| settings := [] |>);
   ("nodes", fun d => d <| nodes := empty_table |>); ("labs", fun d => d <| labs := empty_table |>);
   ("students", fun d => d <| students := empty_table |>);
   ("lab_members", fun d => d <| lab_members := empty_table |>);
   ("lab_placements", fun d => d <| lab_placements := empty_table |>);
   ("placement_members", fun d => d <| placement_members := empty_table |>);
   ("task_log", fun d => d <| task_log := empty_table |>); ("logs", fun d => d <| logs := empty_table |>);
   ("gpu_snapshot", fun d => d <| gpu_snapshot := [] |>);
   ("gpu_events", fun d => d <| gpu_events := empty_table |>);
   ("storage_samples", fun d => d <| storage_samples := empty_table |>);
   ("quota_alerts", fun d => d <| quota_alerts := empty_table |>);
   ("student_quota_alerts", fun d => d <| student_quota_alerts := empty_table |>);
   ("audit_log", fun d => d <| audit_log := empty_table |>);
   ("node_groups", fun d => d <| node_groups := empty_table |>);
   ("node_group_members", fun d => d <| node_group_members := [] |>);
   ("announcements", fun d => d <| announcements := empty_table |>);
   ("announcement_templates", fun d => d <| announcement_templates := empty_table |>)].
Definition wipe (name : string) (d : Db) : Db :=
  match alookup name WIPE with Some f => f d | None => d end.

(** A column that is added holds its default in every row there is; a column the records of
    [Schema] do not have (none of the last version's) has no effect on them.  [linux_uid] is
    NULL until the statement after it gives every account a number. *)
Definition map_nodes (f : NodeRow -> NodeRow) (d : Db) : Db := d <| nodes ::= tbl_map f |>.
Definition map_members (f : PlacementMemberRow -> PlacementMemberRow) (d : Db) : Db :=
  d <| placement_members ::= tbl_map f |>.
Definition map_placements (f : PlacementRow -> PlacementRow) (d : Db) : Db := d <| lab_placements ::= tbl_map f |>.
Definition map_tasks (f : TaskRow -> TaskRow) (d : Db) : Db := d <| task_log ::= tbl_map f |>.
Definition map_admins (f : AdminRow -> AdminRow) (d : Db) : Db := d <| admins ::= tbl_map f |>.
Definition map_labs (f : LabRow -> LabRow) (d : Db) : Db := d <| labs ::= tbl_map f |>.
Definition map_events (f : GpuEventRow -> GpuEventRow) (d : Db) : Db := d <| gpu_events ::= tbl_map f |>.
Definition map_snapshot (f : GpuSnapshotRow -> GpuSnapshotRow) (d : Db) : Db := d <| gpu_snapshot ::= fmap f |>.
Definition FILL : list (string * string * (Db -> Db)) :=
  [("admins", "is_active", map_admins (fun a => a <| ad_is_active := true |>));
   ("admins", "token_version", map_admins (fun a => a <| ad_token_version := 0 |>));
   ("nodes", "last_scrub", map_nodes (fun n => n <| n_last_scrub := None |>));
   ("nodes", "scrub_status", map_nodes (fun n => n <| n_scrub_status := None |>));
   ("nodes", "token_hash", map_nodes (fun n => n <| n_token_hash := None |>));
   ("nodes", "allowed", map_nodes (fun n => n <| n_allowed := false |>));
   ("nodes", "alias", map_nodes (fun n => n <| n_alias := None |>));
   ("nodes", "cold_backend", map_nodes (fun n => n <| n_cold_backend := LocalZfs |>));
   ("nodes", "cold_owner_node_id", map_nodes (fun n => n <| n_cold_owner_node_id := None |>));
   ("nodes", "cold_mount_path", map_nodes (fun n => n <| n_cold_mount_path := None |>));
   ("nodes", "cold_ready", map_nodes (fun n => n <| n_cold_ready := false |>));
   ("task_log", "received_at", map_tasks (fun t => t <| t_received_at := None |>));
   ("task_log", "attempts", map_tasks (fun t => t <| t_attempts := 0 |>));
   ("task_log", "result_cached", map_tasks (fun t => t <| t_result_cached := false |>));
   ("gpu_snapshot", "placement_id", map_snapshot (fun g => g <| gs_placement_id := None |>));
   ("gpu_snapshot", "cmd", map_snapshot (fun g => g <| gs_cmd := None |>));
   ("gpu_snapshot", "started_at", map_snapshot (fun g => g <| gs_started_at := None |>));
   ("gpu_events", "placement_id", map_events (fun g => g <| ge_placement_id := None |>));
   ("gpu_events", "cmd", map_events (fun g => g <| ge_cmd := None |>));
   ("gpu_events", "idle_s", map_events (fun g => g <| ge_idle_s := None |>));
   ("placement_members", "credential_secret", map_members (fun m => m <| pm_credential_secret := None |>));
   ("placement_members", "credential_delivered_at", map_members (fun m => m <| pm_credential_delivered_at := None |>));
   ("lab_placements", "student_fast_quota_bytes", map_placements (fun p => p <| p_student_fast_quota_bytes := None |>));
   ("lab_placements", "student_cold_quota_bytes", map_placements (fun p => p <| p_student_cold_quota_bytes := None |>));
   ("lab_placements", "completion_email_sent_at", map_placements (fun p => p <| p_completion_email_sent_at := None |>));
   ("labs", "pi_student_id", map_labs (fun l => l <| l_pi_student_id := None |>))].
Definition fill (name column : string) (d : Db) : Db :=
  match get_row (fun e => e.1 = (name, column)) FILL with Some e => e.2 d | None => d end.

(** What a statement makes of the rows.  A UNIQUE index is refused over rows that repeat a key. *)
Definition rewrite (q : sql) (d : Db) : result exn Db :=
  match q with
  | DDL (CREATE_TABLE t) => Ok (wipe (td_name t) d)
  | DDL (DROP_TABLE_IF_EXISTS name) => Ok (wipe name d)
  | DDL (ADD_COLUMN name c) => Ok (fill name (c_name c) d)
  | DDL (CREATE_INDEX i) => if index_holds (rows_of d) i then Ok d else Throw (ESqlConstraint (ix_table i))
  | DDL _ => Ok d
  | DML f => Ok (f d)
  | CHECKED f => f d
  end.
Definition redefine (q : sql) (c : Catalog) : result exn Catalog :=
  match q with DDL s => define s c | _ => Ok c end.
Definition step_sql (q : sql) (u : Store) : result exn Store :=
  c ← redefine q (st_catalog u); d ← rewrite q (st_db u); Ok (mkStore c d).
(** [conn.exec]: statement after statement. *)
Fixpoint exec_sql (l : list sql) (u : Store) : result exn Store :=
  match l with [] => Ok u | q :: l' => u' ← step_sql q u; exec_sql l' u' end.

(** ** The statements *)

Definition ID : Column := Col "id" INTEGER [PRIMARY_KEY; AUTOINCREMENT].
Definition V0 : SqlValue := VInt 0.

Definition init_sql : list sql :=
  [DDL (create "admins"
     [ID; Col "name" TEXT [NOT_NULL]; Col "email" TEXT [NOT_NULL; UNIQUE]; Col "password_hash" TEXT [NOT_NULL];
      Col "created_at" INTEGER [NOT_NULL]]);
   DDL (create "settings" [Col "key" TEXT [PRIMARY_KEY]; Col "value" TEXT [NOT_NULL]]);
   DDL (create "nodes"
     [ID; Col "name" TEXT [NOT_NULL; UNIQUE]; Col "last_seen" INTEGER [];
      Col "online" INTEGER [NOT_NULL; DEFAULT V0]; Col "capabilities" TEXT []; Col "pools" TEXT [];
      Col "created_at" INTEGER [NOT_NULL]]);
   DDL (create "labs"
     [ID; Col "name" TEXT [NOT_NULL; UNIQUE]; Col "node_id" INTEGER [NOT_NULL; REFERENCES "nodes" "id" NO_ACTION];
      Col "pi_email" TEXT []; Col "fast_quota_bytes" INTEGER [NOT_NULL]; Col "slow_quota_bytes" INTEGER [NOT_NULL];
      Col "image" TEXT [NOT_NULL]; Col "ssh_port" INTEGER []; Col "container_options" TEXT [];
      Col "status" TEXT [NOT_NULL; DEFAULT (v_str "pending")]; Col "created_at" INTEGER [NOT_NULL]]);
   DDL (create "students"
     [ID; Col "student_id" TEXT [UNIQUE]; Col "username" TEXT [NOT_NULL]; Col "email" TEXT []; Col "name" TEXT [];
      Col "created_at" INTEGER [NOT_NULL]]);
   DDL (create_unique "lab_members"
     [ID; Col "lab_id" INTEGER [NOT_NULL; REFERENCES "labs" "id" CASCADE];
      Col "student_id" INTEGER [NOT_NULL; REFERENCES "students" "id" CASCADE];
      Col "scratch_quota_bytes" INTEGER []; Col "cold_quota_bytes" INTEGER []; Col "created_at" INTEGER [NOT_NULL]]
     [["lab_id"; "student_id"]]);
   DDL (create "task_log"
     [ID; Col "task_uuid" TEXT [NOT_NULL; UNIQUE]; Col "job_id" INTEGER []; Col "node" TEXT [NOT_NULL];
      Col "action" TEXT [NOT_NULL]; Col "params" TEXT []; Col "requested_by" TEXT [];
      Col "state" TEXT [NOT_NULL; DEFAULT (v_str "queued")]; Col "result" TEXT []; Col "error" TEXT [];
      Col "created_at" INTEGER [NOT_NULL]; Col "updated_at" INTEGER [NOT_NULL]]);
   DDL (create "logs"
     [ID; Col "ts" INTEGER [NOT_NULL]; Col "node" TEXT []; Col "level" TEXT [NOT_NULL]; Col "source" TEXT [];
      Col "lab" TEXT []; Col "user" TEXT []; Col "task_id" TEXT []; Col "msg" TEXT [NOT_NULL]; Col "detail" TEXT []]);
   DDL (index_on "idx_logs_ts" "logs" ["ts"]);
   DDL (index_on "idx_logs_level" "logs" ["level"]);
   DDL (create_keyed "gpu_snapshot"
     [Col "node" TEXT [NOT_NULL]; Col "pid" INTEGER [NOT_NULL]; Col "user" TEXT []; Col "lab" TEXT [];
      Col "vram_bytes" INTEGER []; Col "util" REAL []; Col "ts" INTEGER [NOT_NULL]] ["node"; "pid"]);
   DDL (create "gpu_events"
     [ID; Col "node" TEXT [NOT_NULL]; Col "pid" INTEGER []; Col "user" TEXT []; Col "lab" TEXT [];
      Col "vram_bytes" INTEGER []; Col "state" TEXT [NOT_NULL]; Col "ts" INTEGER [NOT_NULL]]);
   DDL (create "storage_samples"
     [ID; Col "lab_id" INTEGER [REFERENCES "labs" "id" CASCADE];
      Col "student_id" INTEGER [REFERENCES "students" "id" SET_NULL]; Col "pool" TEXT [NOT_NULL];
      Col "used_bytes" INTEGER [NOT_NULL]; Col "quota_bytes" INTEGER []; Col "ts" INTEGER [NOT_NULL]]);
   DDL (index_on "idx_storage_ts" "storage_samples" ["ts"]);
   DDL (create "quota_alerts"
     [ID; Col "lab_id" INTEGER [REFERENCES "labs" "id" CASCADE]; Col "pool" TEXT [NOT_NULL];
      Col "pct" REAL [NOT_NULL]; Col "ts" INTEGER [NOT_NULL]]);
   DDL (create "audit_log"
     [ID; Col "ts" INTEGER [NOT_NULL]; Col "actor" TEXT []; Col "action" TEXT [NOT_NULL]; Col "target" TEXT [];
      Col "detail" TEXT []])].

Definition scrub_sql : list sql :=
  [DDL (ADD_COLUMN "nodes" (Col "last_scrub" INTEGER []));
   DDL (ADD_COLUMN "nodes" (Col "scrub_status" TEXT []))].

Definition admin_session_state_sql : list sql :=
  [DDL (ADD_COLUMN "admins" (Col "is_active" INTEGER [NOT_NULL; DEFAULT (VInt 1)]));
   DDL (ADD_COLUMN "admins" (Col "token_version" INTEGER [NOT_NULL; DEFAULT V0]))].

(** [UPDATE nodes SET allowed = 1, auth_mode = 'legacy'] *)
Definition allow_nodes (d : Db) : Db := map_nodes (fun n => n <| n_allowed := true |>) d.
Definition node_tokens_sql : list sql :=
  [DDL (ADD_COLUMN "nodes" (Col "token_hash" TEXT []));
   DDL (ADD_COLUMN "nodes" (Col "allowed" INTEGER [NOT_NULL; DEFAULT V0]));
   DDL (ADD_COLUMN "nodes" (Col "token_pinned_at" INTEGER []));
   DDL (ADD_COLUMN "nodes" (Col "auth_mode" TEXT [NOT_NULL; DEFAULT (v_str "legacy")]));
   DML allow_nodes].

Definition oldfile_schedule_sql : list sql :=
  [DDL (ADD_COLUMN "labs" (Col "last_oldfile_scan" INTEGER []))].

Definition node_alias_announcements_sql : list sql :=
  [DDL (ADD_COLUMN "nodes" (Col "alias" TEXT []));
   DDL (create "announcements"
     [ID; Col "ts" INTEGER [NOT_NULL]; Col "actor" TEXT []; Col "audiences" TEXT [NOT_NULL];
      Col "subject" TEXT [NOT_NULL]; Col "body" TEXT [NOT_NULL]; Col "recipients" INTEGER [NOT_NULL];
      Col "sent" INTEGER [NOT_NULL]; Col "skipped" INTEGER [NOT_NULL; DEFAULT V0]]);
   DDL (index_on "idx_announcements_ts" "announcements" ["ts"])].

Definition usage_scan_time_sql : list sql :=
  [DDL (ADD_COLUMN "labs" (Col "usage_scanned_at" INTEGER []))].

Definition drop_oldfiles_sql : list sql :=
  [DDL (DROP_TABLE_IF_EXISTS "oldfile_scans");
   DDL (RENAME_COLUMN "labs" "last_oldfile_scan" "last_usage_scan")].

(** The function of 0009 counts the rows of before, then executes its statements. *)
Definition legacy_guard (d : Db) : result exn Db :=
  _ ← redesign_guard (length (rows (labs d))) (length (rows (nodes d))) (length (rows (students d))); Ok d.
Definition redesign_placements_sql : list sql :=
  [CHECKED legacy_guard;
   DDL (DROP_TABLE_IF_EXISTS "placement_members"); DDL (DROP_TABLE_IF_EXISTS "lab_placements");
   DDL (DROP_TABLE_IF_EXISTS "lab_members"); DDL (DROP_TABLE_IF_EXISTS "storage_samples");
   DDL (DROP_TABLE_IF_EXISTS "quota_alerts"); DDL (DROP_TABLE_IF_EXISTS "labs");
   DDL (DROP_TABLE_IF_EXISTS "students");
   DDL (create "students"
     [ID; Col "student_id" TEXT [UNIQUE]; Col "username" TEXT [NOT_NULL; UNIQUE]; Col "email" TEXT [];
      Col "name" TEXT []; Col "created_at" INTEGER [NOT_NULL]; Col "updated_at" INTEGER [NOT_NULL; DEFAULT V0]]);
   DDL (create "labs"
     [ID; Col "name" TEXT [NOT_NULL; UNIQUE]; Col "pi_name" TEXT []; Col "pi_email" TEXT [];
      Col "created_at" INTEGER [NOT_NULL]; Col "updated_at" INTEGER [NOT_NULL; DEFAULT V0]]);
   DDL (create_unique "lab_members"
     [ID; Col "lab_id" INTEGER [NOT_NULL; REFERENCES "labs" "id" CASCADE];
      Col "student_id" INTEGER [NOT_NULL; REFERENCES "students" "id" CASCADE]; Col "created_at" INTEGER [NOT_NULL]]
     [["lab_id"; "student_id"]]);
   DDL (create_unique "lab_placements"
     [ID; Col "lab_id" INTEGER [NOT_NULL; REFERENCES "labs" "id" CASCADE];
      Col "node_id" INTEGER [NOT_NULL; REFERENCES "nodes" "id" NO_ACTION];
      Col "fast_quota_bytes" INTEGER [NOT_NULL]; Col "cold_quota_bytes" INTEGER [];
      Col "ssh_port" INTEGER [NOT_NULL]; Col "image" TEXT [NOT_NULL]; Col "container_options" TEXT [];
      Col "state" TEXT [NOT_NULL; DEFAULT (v_str "queued")]; Col "last_error" TEXT [];
      Col "usage_scanned_at" INTEGER []; Col "last_usage_scan" INTEGER []; Col "created_at" INTEGER [NOT_NULL];
      Col "updated_at" INTEGER [NOT_NULL]]
     [["lab_id"; "node_id"]; ["node_id"; "ssh_port"]]);
   DDL (create_unique "placement_members"
     [ID; Col "placement_id" INTEGER [NOT_NULL; REFERENCES "lab_placements" "id" CASCADE];
      Col "student_id" INTEGER [NOT_NULL; REFERENCES "students" "id" CASCADE];
      Col "state" TEXT [NOT_NULL; DEFAULT (v_str "queued")]; Col "last_error" TEXT [];
      Col "created_at" INTEGER [NOT_NULL]; Col "updated_at" INTEGER [NOT_NULL]]
     [["placement_id"; "student_id"]]);
   DDL (create "storage_samples"
     [ID; Col "placement_id" INTEGER [REFERENCES "lab_placements" "id" CASCADE];
      Col "lab_id" INTEGER [REFERENCES "labs" "id" CASCADE];
      Col "student_id" INTEGER [REFERENCES "students" "id" SET_NULL]; Col "pool" TEXT [NOT_NULL];
      Col "used_bytes" INTEGER [NOT_NULL]; Col "quota_bytes" INTEGER []; Col "ts" INTEGER [NOT_NULL]]);
   DDL (index_on "idx_storage_ts" "storage_samples" ["ts"]);
   DDL (index_on "idx_storage_placement" "storage_samples" ["placement_id"]);
   DDL (create "quota_alerts"
     [ID; Col "placement_id" INTEGER [REFERENCES "lab_placements" "id" CASCADE];
      Col "lab_id" INTEGER [REFERENCES "labs" "id" CASCADE]; Col "pool" TEXT [NOT_NULL];
      Col "pct" REAL [NOT_NULL]; Col "ts" INTEGER [NOT_NULL]])].

Definition node_cold_storage_sql : list sql :=
  [DDL (ADD_COLUMN "nodes" (Col "cold_backend" TEXT [NOT_NULL; DEFAULT (v_str "local_zfs")]));
   DDL (ADD_COLUMN "nodes" (Col "cold_owner_node_id" INTEGER [REFERENCES "nodes" "id" NO_ACTION]));
   DDL (ADD_COLUMN "nodes" (Col "cold_mount_path" TEXT []));
   DDL (ADD_COLUMN "nodes" (Col "cold_ready" INTEGER [NOT_NULL; DEFAULT V0]))].

Definition node_hmac_tokens_sql : list sql :=
  [DML node_hmac_tokens; DDL (DROP_COLUMN "nodes" "auth_mode"); DDL (DROP_COLUMN "nodes" "token_pinned_at")].

Definition task_durability_sql : list sql :=
  [DDL (ADD_COLUMN "task_log" (Col "received_at" INTEGER []));
   DDL (ADD_COLUMN "task_log" (Col "attempts" INTEGER [NOT_NULL; DEFAULT V0]));
   DDL (ADD_COLUMN "task_log" (Col "result_cached" INTEGER [NOT_NULL; DEFAULT V0]))].

Definition gpu_placement_sql : list sql :=
  [DDL (ADD_COLUMN "gpu_snapshot" (Col "placement_id" INTEGER [REFERENCES "lab_placements" "id" SET_NULL]));
   DDL (ADD_COLUMN "gpu_events" (Col "placement_id" INTEGER [REFERENCES "lab_placements" "id" SET_NULL]))].

Definition normalize_emails_sql : list sql := [CHECKED normalize_emails].

Definition deferred_student_credentials_sql : list sql :=
  [DDL (ADD_COLUMN "placement_members" (Col "credential_secret" TEXT []));
   DDL (ADD_COLUMN "placement_members" (Col "credential_delivered_at" INTEGER []))].

Definition node_groups_sql : list sql :=
  [DDL (create "node_groups"
     [ID; Col "name" TEXT [NOT_NULL; UNIQUE]; Col "created_at" INTEGER [NOT_NULL]]);
   DDL (create_keyed "node_group_members"
     [Col "group_id" INTEGER [NOT_NULL; REFERENCES "node_groups" "id" CASCADE];
      Col "node_id" INTEGER [NOT_NULL; REFERENCES "nodes" "id" CASCADE]] ["group_id"; "node_id"])].

Definition announcement_templates_sql : list sql :=
  [DDL (create "announcement_templates"
     [ID; Col "name" TEXT [NOT_NULL]; Col "subject" TEXT [NOT_NULL; DEFAULT (v_str "")];
      Col "body" TEXT [NOT_NULL]; Col "sort" INTEGER [NOT_NULL; DEFAULT V0]]);
   DML announcement_templates_seed].

Definition gpu_event_forensics_sql : list sql :=
  [DDL (ADD_COLUMN "gpu_events" (Col "cmd" TEXT [])); DDL (ADD_COLUMN "gpu_events" (Col "idle_s" INTEGER []))].

Definition placement_student_quotas_sql : list sql :=
  [DDL (ADD_COLUMN "lab_placements" (Col "student_fast_quota_bytes" INTEGER []));
   DDL (ADD_COLUMN "lab_placements" (Col "student_cold_quota_bytes" INTEGER []))].

Definition pi_access_and_completion_sql : list sql :=
  [DDL (ADD_COLUMN "labs" (Col "pi_student_id" INTEGER [REFERENCES "students" "id" RESTRICT]));
   DDL (ADD_COLUMN "lab_placements" (Col "completion_email_sent_at" INTEGER []))].

Definition gpu_snapshot_process_details_sql : list sql :=
  [DDL (ADD_COLUMN "gpu_snapshot" (Col "cmd" TEXT [])); DDL (ADD_COLUMN "gpu_snapshot" (Col "started_at" INTEGER []))].

Definition student_quota_alerts_sql : list sql :=
  [DDL (create "student_quota_alerts"
     [ID; Col "placement_id" INTEGER [NOT_NULL; REFERENCES "lab_placements" "id" CASCADE];
      Col "student_id" INTEGER [NOT_NULL; REFERENCES "students" "id" CASCADE]; Col "pool" TEXT [NOT_NULL];
      Col "pct" REAL [NOT_NULL]; Col "ts" INTEGER [NOT_NULL]]);
   DDL (index_on "idx_student_quota_alert_lookup" "student_quota_alerts" ["placement_id"; "student_id"; "pool"; "ts"])].

Section migrations.
Context {PF : Platform}.

Definition student_linux_uid_sql : list sql :=
  [DDL (ADD_COLUMN "students" (Col "linux_uid" INTEGER [])); CHECKED student_linux_uid;
   DDL (CREATE_INDEX (mkIndexDef true "idx_students_linux_uid" "students" ["linux_uid"]));
   DDL (CREATE_TRIGGER (mkTriggerDef "students_linux_uid_insert" BEFORE_INSERT "students" "linux_uid" 10000 59999));
   DDL (CREATE_TRIGGER (mkTriggerDef "students_linux_uid_update" (BEFORE_UPDATE_OF "linux_uid") "students"
          "linux_uid" 10000 59999))].

(** A migration by its statements, and whether it runs them as SQL text or in a function. *)
Inductive source := SQL (l : list sql) | FN (l : list sql).
Definition statements (s : source) : list sql := match s with SQL l | FN l => l end.
Definition SCRIPTS : list (string * source) :=
  [("0001_init", SQL init_sql); ("0002_scrub", SQL scrub_sql);
   ("0003_admin_session_state", SQL admin_session_state_sql); ("0004_node_tokens", SQL node_tokens_sql);
   ("0005_oldfile_schedule", SQL oldfile_schedule_sql);
   ("0006_node_alias_announcements", SQL node_alias_announcements_sql);
   ("0007_usage_scan_time", SQL usage_scan_time_sql); ("0008_drop_oldfiles", SQL drop_oldfiles_sql);
   ("0009_redesign_placements", FN redesign_placements_sql); ("0010_node_cold_storage", SQL node_cold_storage_sql);
   ("0011_node_hmac_tokens", SQL node_hmac_tokens_sql); ("0012_task_durability", SQL task_durability_sql);
   ("0013_gpu_placement", SQL gpu_placement_sql); ("0014_normalize_emails", SQL normalize_emails_sql);
   ("0015_deferred_student_credentials", SQL deferred_student_credentials_sql);
   ("0016_node_groups", SQL node_groups_sql); ("0017_announcement_templates", FN announcement_templates_sql);
   ("0018_universal_email_signature", FN [DML universal_email_signature]);
   ("0019_plain_text_email_signature", FN [DML plain_text_email_signature]);
   ("0020_student_linux_uid", FN student_linux_uid_sql); ("0021_gpu_event_forensics", SQL gpu_event_forensics_sql);
   ("0022_system_intro_template", FN [DML system_intro_template]);
   ("0023_placement_student_quotas", SQL placement_student_quotas_sql);
   ("0024_pi_access_and_completion", SQL pi_access_and_completion_sql);
   ("0025_gpu_snapshot_process_details", SQL gpu_snapshot_process_details_sql);
   ("0026_student_quota_alerts", SQL student_quota_alerts_sql)].

Definition migration_of (m : string * source) : Migration :=
  match m.2 with
  | SQL l => mkMigration m.1 (Some l) None
  | FN l => mkMigration m.1 None (Some (exec_sql l))
  end.
Definition MIGRATIONS : list Migration := migration_of <$> SCRIPTS.

(** A text without a statement. *)
Definition no_sql (l : list sql) : bool := match l with [] => true | _ => false end.
Definition start (c : Connection) : result exn unit * Connection := migrate no_sql exec_sql MIGRATIONS c.

(** The statements of the first [k] migrations, and of those after. *)
Definition until (k : nat) : list sql := mjoin ((statements ∘ snd) <$> take k SCRIPTS).
Definition since (k : nat) : list sql := mjoin ((statements ∘ snd) <$> drop k SCRIPTS).
Definition ddl (l : list sql) : list statement := omap (fun q => match q with DDL s => Some s | _ => None end) l.
(** The catalog of version [k]. *)
Definition catalog_of (k : nat) : Catalog :=
  match define_all (ddl (until k)) empty_catalog with Ok c => c | Throw _ => empty_catalog end.
Definition SCHEMA : Catalog := catalog_of 26.
End migrations.
