(* ===== verification/Upgrade.v ===== *)
(** * Upgrade: what a start of the controller makes of the database file

    That the schema the migrations lead to is the one the records of [Schema] are written for;
    which files a start refuses; that it keeps the integrity of the rows. *)
From S2P Require Import Prelude Js Numbers Csv Redact Schema Sql DbWf Env Secrets Queue Testbed QueueFacts Settings Template Signature Migrate Format Mailer Alerts Placements Labs Students LabImport Nodes Protocol Ingest Hub HubConn Web WebFixture Maintenance WebDav Backup BackupFacts Gpu Announce RateLimit Flash Auth Stats Actions LabActions SettingsActions StatsActions Console HubConnFacts ConsoleFacts System LabImportFacts Catalog Rows Scripts.
From stdpp Require Import pretty.
Open Scope Z_scope.

(** ** The rows of the program's database satisfy the schema *)

Section conforms.
Context {PF : Platform} (d : Db) (Hd : db_wf d).

Definition schema_table (name : string) : TableDef :=
  default (mkTableDef "" [] [] []) (table_named SCHEMA name).

#[local] Ltac table_tac name :=
  let t := eval vm_compute in (schema_table name) in assert (schema_table name = t) as -> by (by vm_compute);
  eapply table_holds_intro; [reflexivity| | |];
  [ try (apply Forall_forall; intros ? _; row_tac)
  | match goal with |- Forall _ (td_keys ?t) => let k := eval vm_compute in (td_keys t) in change (td_keys t) with k end;
    repeat (apply Forall_cons; split); try apply Forall_nil; try trivial
  | repeat (apply Forall_cons; split); try apply Forall_nil; try reflexivity ].
#[local] Ltac key_by g H := apply (distinct_key _ g); [exact H|key_tac].
#[local] Ltac ref_by H :=
  match type of H with fk ?ref _ (?id <$> _) =>
    eapply (reference_fk _ _ _ ref id); [reflexivity|reflexivity|reflexivity|reflexivity|exact H]
  end.

Lemma admins_hold : table_holds (rows_of d) (schema_table "admins") = true.
Proof.
  table_tac "admins".
  - key_by ad_id (proj1 (proj1 (wf_admins d Hd))).
  - key_by ad_email (wf_admin_email d Hd).
Qed.

Lemma settings_hold : table_holds (rows_of d) (schema_table "settings") = true.
Proof.
  table_tac "settings".
  - key_by (fst : string * text -> string) (wf_setting d Hd).
Qed.

Lemma nodes_hold : table_holds (rows_of d) (schema_table "nodes") = true.
Proof.
  table_tac "nodes".
  - key_by n_id (proj1 (proj1 (wf_nodes d Hd))).
  - key_by n_name (wf_node_name d Hd).
  - ref_by (fk_node_owner d Hd).
Qed.

Lemma task_log_hold : table_holds (rows_of d) (schema_table "task_log") = true.
Proof.
  table_tac "task_log".
  - key_by t_id (proj1 (proj1 (wf_task d Hd))).
  - key_by t_task_uuid (wf_task_uuid d Hd).
Qed.

Lemma logs_hold : table_holds (rows_of d) (schema_table "logs") = true.
Proof.
  table_tac "logs".
  - eapply Forall_impl; [exact (nn_log_ts d Hd)|]. cbn beta. intros x Hx. row_tac.
  - key_by log_id (proj1 (proj1 (wf_log d Hd))).
Qed.

Lemma gpu_snapshot_hold : table_holds (rows_of d) (schema_table "gpu_snapshot") = true.
Proof.
  table_tac "gpu_snapshot".
  - eapply Forall_impl; [exact (wf_gpu_pid d Hd)|]. cbn beta. intros x Hx. row_tac.
  - apply (distinct_key _ (fun g => (gs_node g, gs_pid g))); [exact (wf_gpu_process d Hd)|].
    intros x y k _ _ Hkx Hky. cbn in Hkx, Hky. assert (v_json (gs_pid x) = v_json (gs_pid y) /\ v_json (gs_pid x) <> VNull /\
      gs_node x = gs_node y) as (E & N & ->) by (repeat case_match; simplify_eq; by simplify_eq/=).
    f_equal. by apply v_json_inj.
  - ref_by (fk_gs_pl d Hd).
Qed.

Lemma gpu_events_hold : table_holds (rows_of d) (schema_table "gpu_events") = true.
Proof.
  table_tac "gpu_events".
  - eapply Forall_impl; [exact (nn_event_ts d Hd)|]. cbn beta. intros x Hx. row_tac.
  - key_by ge_id (proj1 (proj1 (wf_gpu_event d Hd))).
  - ref_by (fk_ge_pl d Hd).
Qed.

Lemma audit_log_hold : table_holds (rows_of d) (schema_table "audit_log") = true.
Proof.
  table_tac "audit_log".
  - key_by au_id (proj1 (proj1 (wf_audit d Hd))).
Qed.

Lemma announcements_hold : table_holds (rows_of d) (schema_table "announcements") = true.
Proof.
  table_tac "announcements".
  - key_by an_id (proj1 (proj1 (wf_announcement d Hd))).
Qed.

Lemma students_hold : table_holds (rows_of d) (schema_table "students") = true.
Proof.
  table_tac "students".
  - key_by s_id (proj1 (proj1 (wf_students d Hd))).
  - apply (distinct_key _ s_id); [exact (proj1 (proj1 (wf_students d Hd)))|].
    intros x y k Hx Hy Hkx Hky. cbn in Hkx, Hky. destruct (s_student_id x) as [u|] eqn:Hux; [|done].
    destruct (s_student_id y) as [v|] eqn:Huy; [|done]. cbn in Hkx, Hky. simplify_eq.
    f_equal. by apply (wf_student_id d Hd x y v).
  - key_by s_username (wf_username d Hd).
Qed.

Lemma labs_hold : table_holds (rows_of d) (schema_table "labs") = true.
Proof.
  table_tac "labs".
  - key_by l_id (proj1 (proj1 (wf_labs d Hd))).
  - key_by l_name (wf_lab_name d Hd).
  - ref_by (fk_lab_pi d Hd).
Qed.

Lemma lab_members_hold : table_holds (rows_of d) (schema_table "lab_members") = true.
Proof.
  table_tac "lab_members".
  - key_by (fun m => (lm_lab_id m, lm_student_id m)) (wf_lm_unique d Hd).
  - key_by lm_id (proj1 (proj1 (wf_lm d Hd))).
  - ref_by (fk_lm_lab d Hd).
  - ref_by (fk_lm_student d Hd).
Qed.

Lemma lab_placements_hold : table_holds (rows_of d) (schema_table "lab_placements") = true.
Proof.
  table_tac "lab_placements".
  - key_by (fun p => (p_lab_id p, p_node_id p)) (wf_pl_lab_node d Hd).
  - key_by (fun p => (p_node_id p, p_ssh_port p)) (wf_pl_node_port d Hd).
  - key_by p_id (proj1 (proj1 (wf_pl d Hd))).
  - ref_by (fk_pl_lab d Hd).
  - ref_by (fk_pl_node d Hd).
Qed.

Lemma placement_members_hold : table_holds (rows_of d) (schema_table "placement_members") = true.
Proof.
  table_tac "placement_members".
  - key_by (fun m => (pm_placement_id m, pm_student_id m)) (wf_pm_unique d Hd).
  - key_by pm_id (proj1 (proj1 (wf_pm d Hd))).
  - ref_by (fk_pm_pl d Hd).
  - ref_by (fk_pm_student d Hd).
Qed.

Lemma storage_samples_hold : table_holds (rows_of d) (schema_table "storage_samples") = true.
Proof.
  table_tac "storage_samples".
  - eapply Forall_impl; [exact (nn_sample_used d Hd)|]. cbn beta. intros x Hx. row_tac.
  - key_by ss_id (proj1 (proj1 (wf_sample d Hd))).
  - ref_by (fk_ss_pl d Hd).
  - ref_by (fk_ss_lab d Hd).
  - ref_by (fk_ss_student d Hd).
Qed.

Lemma quota_alerts_hold : table_holds (rows_of d) (schema_table "quota_alerts") = true.
Proof.
  table_tac "quota_alerts".
  - eapply Forall_impl; [exact (nn_alert_pct d Hd)|]. cbn beta. intros x Hx. row_tac.
  - key_by qa_id (proj1 (proj1 (wf_quota_alert d Hd))).
  - ref_by (fk_qa_pl d Hd).
  - ref_by (fk_qa_lab d Hd).
Qed.

Lemma node_groups_hold : table_holds (rows_of d) (schema_table "node_groups") = true.
Proof.
  table_tac "node_groups".
  - key_by g_id (proj1 (proj1 (wf_groups d Hd))).
  - key_by g_name (wf_group_name d Hd).
Qed.

Lemma node_group_members_hold : table_holds (rows_of d) (schema_table "node_group_members") = true.
Proof.
  table_tac "node_group_members".
  - apply (distinct_key _ (fun m => m)); [rewrite list_fmap_id; exact (wf_group_member d Hd)|].
    intros [] [] k. key_tac.
  - ref_by (fk_gm_group d Hd).
  - ref_by (fk_gm_node d Hd).
Qed.

Lemma announcement_templates_hold : table_holds (rows_of d) (schema_table "announcement_templates") = true.
Proof.
  table_tac "announcement_templates".
  - key_by at_id (proj1 (proj1 (wf_template d Hd))).
Qed.

Lemma student_quota_alerts_hold : table_holds (rows_of d) (schema_table "student_quota_alerts") = true.
Proof.
  table_tac "student_quota_alerts".
  - eapply Forall_impl; [exact (nn_student_alert_pct d Hd)|]. cbn beta. intros x Hx. row_tac.
  - key_by sqa_id (proj1 (proj1 (wf_student_quota_alert d Hd))).
  - ref_by (fk_sqa_pl d Hd).
  - ref_by (fk_sqa_student d Hd).
Qed.

(** The keys, references, NOT NULL columns, indexes and triggers the migrations declare hold of
    every well-formed database. *)
Lemma db_conforms : conforms SCHEMA (rows_of d) = true.
Proof.
  unfold conforms. rewrite !andb_true_iff. split_and!.
  - assert (cat_tables SCHEMA = schema_table <$> (td_name <$> cat_tables SCHEMA)) as -> by by vm_compute. apply forallb_intro. apply Forall_fmap.
    let l := eval vm_compute in (td_name <$> cat_tables SCHEMA) in assert (td_name <$> cat_tables SCHEMA = l) as -> by by vm_compute.
    cbv beta.
    apply Forall_cons_2; [exact admins_hold|]. apply Forall_cons_2; [exact settings_hold|]. apply Forall_cons_2; [exact nodes_hold|].
    apply Forall_cons_2; [exact task_log_hold|]. apply Forall_cons_2; [exact logs_hold|]. apply Forall_cons_2; [exact gpu_snapshot_hold|].
    apply Forall_cons_2; [exact gpu_events_hold|]. apply Forall_cons_2; [exact audit_log_hold|]. apply Forall_cons_2; [exact announcements_hold|].
    apply Forall_cons_2; [exact students_hold|]. apply Forall_cons_2; [exact labs_hold|]. apply Forall_cons_2; [exact lab_members_hold|].
    apply Forall_cons_2; [exact lab_placements_hold|]. apply Forall_cons_2; [exact placement_members_hold|]. apply Forall_cons_2; [exact storage_samples_hold|].
    apply Forall_cons_2; [exact quota_alerts_hold|]. apply Forall_cons_2; [exact node_groups_hold|]. apply Forall_cons_2; [exact node_group_members_hold|].
    apply Forall_cons_2; [exact announcement_templates_hold|]. apply Forall_cons_2; [exact student_quota_alerts_hold|].
    apply Forall_nil_2.
    all: first [exact I|exact admins_hold|exact settings_hold|exact nodes_hold|exact task_log_hold|exact logs_hold
      |exact gpu_snapshot_hold|exact gpu_events_hold|exact audit_log_hold|exact announcements_hold|exact students_hold
      |exact labs_hold|exact lab_members_hold|exact lab_placements_hold|exact placement_members_hold
      |exact storage_samples_hold|exact quota_alerts_hold|exact node_groups_hold|exact node_group_members_hold
      |exact announcement_templates_hold|exact student_quota_alerts_hold].
  - let l := eval vm_compute in (cat_indexes SCHEMA) in assert (cat_indexes SCHEMA = l) as -> by by vm_compute.
    apply forallb_intro. repeat (apply Forall_cons; split); try apply Forall_nil; try reflexivity.
    change (distinct (student_row <$> rows (students d)) ["linux_uid"] = true).
    apply (distinct_key _ s_linux_uid); [exact (wf_uid d Hd)|key_tac].
  - let l := eval vm_compute in (cat_triggers SCHEMA) in assert (cat_triggers SCHEMA = l) as -> by by vm_compute.
    assert (forallb (in_bounds 10000 59999) (cells "linux_uid" (rows_of d "students")) = true) as H; [|apply forallb_intro; by repeat constructor].
    change (rows_of d "students") with (student_row <$> rows (students d)).
    rewrite (cells_fmap _ _ (VInt ∘ s_linux_uid)) by done.
    apply forallb_intro, Forall_fmap. eapply Forall_impl; [exact (wf_uid_range d Hd)|].
    intros s Hs. unfold UID_MIN, UID_MAX in Hs. cbn. lia.
Qed.
End conforms.

(** ** A start: what the statements make of the catalog and of the rows *)

Fixpoint rewrite_all (l : list sql) (d : Db) : result exn Db :=
  match l with [] => Ok d | q :: l' => d' ← rewrite q d; rewrite_all l' d' end.

Lemma rewrite_all_app l k d : rewrite_all (l ++ k) d = (d' ← rewrite_all l d; rewrite_all k d').
Proof. revert d. induction l as [|q l IH]; intros d; cbn; [done|]. destruct (rewrite q d); cbn; [apply IH|done]. Qed.
Lemma exec_sql_app l k u : exec_sql (l ++ k) u = (u' ← exec_sql l u; exec_sql k u').
Proof. revert u. induction l as [|q l IH]; intros u; cbn; [done|]. destruct (step_sql q u); cbn; [apply IH|done]. Qed.

(** The catalog does not depend on the rows. *)
Lemma exec_sql_split l : forall c d c', define_all (ddl l) c = Ok c' ->
  exec_sql l (mkStore c d) = (d' ← rewrite_all l d; Ok (mkStore c' d')).
Proof.
  induction l as [|q l IH]; intros c d c' Hc; [by injection Hc as ->|]. cbn [exec_sql rewrite_all]. unfold step_sql.
  assert (exists c1, redefine q c = Ok c1 /\ define_all (ddl l) c1 = Ok c') as (c1 & Hq & Hl).
  { destruct q as [s| |]; cbn in Hc |- *; [|by eauto..]. destruct (define s c); cbn in Hc; [by eauto|done]. }
  cbn [st_catalog st_db]. rewrite Hq. cbn. destruct (rewrite q d); cbn; [by apply IH|done].
Qed.

Section upgrade.
Context {PF : Platform}.

Lemma mg_run_migration m u : mg_run no_sql exec_sql (migration_of m) u = exec_sql (statements m.2) u.
Proof.
  destruct m as [i [[|q l]|l]]; cbn -[exec_sql]; [done| |done]. by destruct (exec_sql _ u).
Qed.
Lemma run_all_scripts l u :
  run_all no_sql exec_sql (migration_of <$> l) u = exec_sql (mjoin ((statements ∘ snd) <$> l)) u.
Proof.
  revert u. induction l as [|m l IH]; intros u; [done|]. cbn [run_all fmap list_fmap mjoin list_join].
  change (list_fmap _ _ migration_of l) with (migration_of <$> l). rewrite exec_sql_app, mg_run_migration. cbn.
  by destruct (exec_sql _ u); cbn; [apply IH|].
Qed.

(** The statements of the migrations [i] to [j]. *)
Definition between (i j : nat) : list sql := mjoin ((statements ∘ snd) <$> drop i (take j SCRIPTS)).
Lemma since_split i j : (i <= j <= 26)%nat -> since i = between i j ++ since j.
Proof.
  intros H. unfold since, between. rewrite <- join_app, <- fmap_app. f_equal. f_equal.
  rewrite <- (take_drop j SCRIPTS) at 1. apply drop_app_le. rewrite length_take. change (length SCRIPTS) with 26%nat. lia.
Qed.

(** Whatever the version, the statements that are left lead to the same catalog. *)
Lemma schema_of_all : define_all (ddl (until 26)) empty_catalog = Ok SCHEMA.
Proof. by vm_compute. Qed.
Lemma ddl_app l k : ddl (l ++ k) = ddl l ++ ddl k.
Proof. apply omap_app. Qed.
Lemma define_all_prefix l k c c' : define_all (l ++ k) c = Ok c' ->
  exists c1, define_all l c = Ok c1 /\ define_all k c1 = Ok c'.
Proof.
  revert c. induction l as [|s l IH]; intros c; cbn; [by eauto|]. destruct (define s c); cbn; [apply IH|done].
Qed.
Lemma catalog_since k : (k <= 26)%nat -> define_all (ddl (since k)) (catalog_of k) = Ok SCHEMA.
Proof.
  intros Hk. assert (until 26 = until k ++ since k) as Hu.
  { unfold until, since. rewrite <- join_app, <- fmap_app, take_drop. f_equal. }
  pose proof schema_of_all as H. rewrite Hu, ddl_app in H. apply define_all_prefix in H as (c1 & H1 & H2).
  unfold catalog_of. by rewrite H1.
Qed.

(** *** What the statements that may throw look at *)

Definition legacy_rows (d : Db) : nat := (length (rows (labs d)) + length (rows (nodes d)) + length (rows (students d)))%nat.
(** What decides whether a start can finish. *)
Definition deciding (d : Db) : nat * list string * list Z :=
  (legacy_rows d, ad_email <$> rows (admins d), s_id <$> rows (students d)).
Definition quiet (q : sql) : Prop := forall d, exists d', rewrite q d = Ok d' /\ deciding d' = deciding d.

#[local] Ltac quiet_tac := intros ?; unfold deciding, legacy_rows; cbn; rewrite ?length_fmap, <- ?list_fmap_compose; reflexivity.

Lemma fill_deciding name c d : deciding (fill name c d) = deciding d.
Proof.
  unfold fill. destruct (get_row _ FILL) as [e|] eqn:He; [|done]. apply get_row_Some in He as [_ He]. revert d.
  assert (Forall (fun e => forall d, deciding (e.2 d) = deciding d) FILL) as H.
  { repeat (apply Forall_cons_2; [quiet_tac|]). apply Forall_nil_2. }
  rewrite Forall_forall in H. by apply H.
Qed.
Lemma wipe_deciding name d :
  name ∉ ["admins"; "nodes"; "labs"; "students"] -> deciding (wipe name d) = deciding d.
Proof.
  intros Hn. unfold wipe. destruct (alookup name WIPE) as [f|] eqn:Hf; [|done]. apply alookup_in in Hf.
  assert (Forall (fun e => e.1 ∉ ["admins"; "nodes"; "labs"; "students"] -> forall d, deciding (e.2 d) = deciding d) WIPE) as H.
  { repeat (apply Forall_cons_2; [intros Hin; first [quiet_tac|destruct Hin; by apply (bool_decide_unpack _)]|]). apply Forall_nil_2. }
  rewrite Forall_forall in H. by apply (H _ Hf).
Qed.

Lemma quiet_add name c : quiet (DDL (ADD_COLUMN name c)).
Proof. intros d. eexists. split; [reflexivity|apply fill_deciding]. Qed.
Lemma quiet_create t : td_name t ∉ ["admins"; "nodes"; "labs"; "students"] -> quiet (DDL (CREATE_TABLE t)).
Proof. intros Ht d. eexists. split; [reflexivity|by apply wipe_deciding]. Qed.
Lemma quiet_dml f : (forall d, deciding (f d) = deciding d) -> quiet (DML f).
Proof. intros H d. by exists (f d). Qed.
Lemma quiet_index name t cols : quiet (DDL (index_on name t cols)).
Proof. intros d. by exists d. Qed.
Lemma quiet_drop name : name ∉ ["admins"; "nodes"; "labs"; "students"] -> quiet (DDL (DROP_TABLE_IF_EXISTS name)).
Proof. intros Hn d. eexists. split; [reflexivity|by apply wipe_deciding]. Qed.

Lemma quiet_all l d : Forall quiet l -> exists d', rewrite_all l d = Ok d' /\ deciding d' = deciding d.
Proof.
  intros H. revert d. induction H as [|q l Hq _ IH]; intros d; [by exists d|].
  destruct (Hq d) as (d1 & H1 & E1), (IH d1) as (d2 & H2 & E2). exists d2. cbn. rewrite H1. cbn.
  split; [done|congruence].
Qed.
#[local] Ltac quiet_scripts :=
  repeat (apply Forall_cons_2; [repeat (apply Forall_cons_2; [first
    [ apply quiet_add | apply quiet_index | apply quiet_create; by apply (bool_decide_unpack _)
    | apply quiet_drop; by apply (bool_decide_unpack _) | apply quiet_dml; quiet_tac | intros d; by exists d]|]); apply Forall_nil_2|]);
  apply Forall_nil_2.
Lemma quiet_1_8 : Forall (fun m => Forall quiet (statements m.2)) (drop 1 (take 8 SCRIPTS)).
Proof. quiet_scripts. Qed.
Lemma quiet_9_13 : Forall (fun m => Forall quiet (statements m.2)) (drop 9 (take 13 SCRIPTS)).
Proof. quiet_scripts. Qed.
Lemma quiet_14_19 : Forall (fun m => Forall quiet (statements m.2)) (drop 14 (take 19 SCRIPTS)).
Proof. quiet_scripts. Qed.
Lemma quiet_20_26 : Forall (fun m => Forall quiet (statements m.2)) (drop 20 (take 26 SCRIPTS)).
Proof. quiet_scripts. Qed.

Lemma quiet_from i b k : (i <= k)%nat ->
  Forall (fun m => Forall quiet (statements m.2)) (drop i (take b SCRIPTS)) -> Forall quiet (between k b).
Proof.
  intros Hk H. unfold between.
  assert (drop k (take b SCRIPTS) = drop (k - i) (drop i (take b SCRIPTS))) as -> by (rewrite drop_drop; f_equal; lia).
  apply (Forall_drop _ (k - i)) in H. induction H as [|m l Hm _ IH]; [constructor|]. cbn. by apply Forall_app.
Qed.

(** Version 0: every table is made anew. *)
Lemma init_deciding d : exists d', rewrite_all init_sql d = Ok d' /\ deciding d' = (0%nat, [], []).
Proof. eexists. by split. Qed.

(** A database without labs, nodes and accounts stays one when a table other than the
    administrators' is made or dropped. *)
Definition bare (es : list string) (d : Db) : Prop := deciding d = (0%nat, es, []).
Lemma wipe_bare name es d : name <> "admins" -> bare es d -> bare es (wipe name d).
Proof.
  intros Hn. unfold wipe. destruct (alookup name WIPE) as [f|] eqn:Hf; [|done]. apply alookup_in in Hf.
  assert (Forall (fun e => e.1 <> "admins" -> forall d, bare es d -> bare es (e.2 d)) WIPE) as H.
  { apply Forall_cons_2; [by intros []|].
    repeat (apply Forall_cons_2; [intros _ ?; unfold bare, deciding, legacy_rows; cbn; intros [= H1 H2 H3];
      rewrite ?H2, ?H3; repeat (f_equal; try lia)|]). apply Forall_nil_2. }
  rewrite Forall_forall in H. by apply (H _ Hf).
Qed.
Lemma bare_all l es d : Forall (fun q => forall d, bare es d -> exists d', rewrite q d = Ok d' /\ bare es d') l ->
  bare es d -> exists d', rewrite_all l d = Ok d' /\ bare es d'.
Proof.
  intros H. revert d. induction H as [|q l Hq _ IH]; intros d Hd; [by exists d|].
  destruct (Hq d Hd) as (d1 & H1 & E1), (IH d1 E1) as (d2 & H2 & E2). exists d2. cbn. by rewrite H1.
Qed.

(** The redesign is refused over rows of before, and leaves no lab and no account. *)
Lemma legacy_guard_spec d :
  legacy_guard d = if decide (0 < legacy_rows d)%nat then Throw EUpgradeRefused else Ok d.
Proof.
  unfold legacy_guard, redesign_guard. fold (legacy_rows d).
  case_decide as H; [by rewrite (proj2 (Nat.ltb_lt _ _) H)|by rewrite (proj2 (Nat.ltb_ge _ _)) by lia].
Qed.
Lemma redesign_deciding d :
  if decide (0 < legacy_rows d)%nat then rewrite_all redesign_placements_sql d = Throw EUpgradeRefused
  else exists d', rewrite_all redesign_placements_sql d = Ok d' /\ bare (ad_email <$> rows (admins d)) d'.
Proof.
  unfold redesign_placements_sql. cbn [rewrite_all]. change (rewrite (CHECKED legacy_guard) d) with (legacy_guard d).
  rewrite legacy_guard_spec. case_decide as Hl; [done|]. cbn [mbind result_bind].
  match goal with |- context [rewrite (DDL (DROP_TABLE_IF_EXISTS "placement_members")) d] => idtac end.
  apply (bare_all (tail redesign_placements_sql)).
  - repeat (apply Forall_cons_2; [first
      [intros ? Hb; eexists; split; [reflexivity|by apply wipe_bare] | intros d0 Hb; by exists d0]|]). apply Forall_nil_2.
  - unfold bare, deciding, legacy_rows in *.
    assert (rows (students d) = []) as -> by (apply nil_length_inv; lia). repeat f_equal. cbn. lia.
Qed.

Lemma finals_emails l : finals l = sql_email <$> (ad_email <$> l). Proof. done. Qed.
Lemma emails_deciding d : NoDup (ad_email <$> rows (admins d)) ->
  if decide (NoDup (sql_email <$> (ad_email <$> rows (admins d)))) then
    exists d', rewrite_all normalize_emails_sql d = Ok d' /\ legacy_rows d' = legacy_rows d /\
      s_id <$> rows (students d') = s_id <$> rows (students d)
  else rewrite_all normalize_emails_sql d = Throw (ESqlConstraint "admins").
Proof.
  intros Hnd. cbn [rewrite_all normalize_emails_sql rewrite]. rewrite normalize_emails_spec by done. rewrite finals_emails.
  case_decide; [|done]. eexists. split; [reflexivity|]. unfold legacy_rows. cbn.
  by rewrite length_fmap, <- list_fmap_compose.
Qed.

Lemma uids_deciding d : NoDup (s_id <$> rows (students d)) ->
  if decide (50000 < Z.of_nat (length (rows (students d)))) then rewrite_all student_linux_uid_sql d = Throw EUidExhausted
  else exists d', rewrite_all student_linux_uid_sql d = Ok d'.
Proof.
  intros Hnd. cbn [rewrite_all student_linux_uid_sql]. change (rewrite (DDL (ADD_COLUMN _ _)) d) with (@Ok exn Db d).
  cbn [mbind result_bind]. change (rewrite (CHECKED ?f) ?x) with (f x). case_decide as Hl.
  - unfold student_linux_uid. rewrite length_sort_by, length_fmap, (proj2 (Z.ltb_lt _ _)) by lia. done.
  - destruct (student_linux_uid_spec d Hnd ltac:(lia)) as (l & -> & (uid & ->) & _ & Hlt).
    set (l := (fun s : StudentRow => s <| s_linux_uid := uid s |>) <$> rows (students d)) in *.
    assert (NoDup (s_id <$> l)) as Hl' by (subst l; by rewrite <- list_fmap_compose).
    assert (distinct (student_row <$> l) ["linux_uid"] = true) as Hd.
    { apply (distinct_key _ s_id); [done|]. intros x y k Hx Hy Hkx Hky. cbn in Hkx, Hky. simplify_eq.
      destruct (Z.lt_trichotomy (s_id x) (s_id y)) as [Hz|[Hz|Hz]]; [|done|]; apply Hlt in Hz; try done; lia. }
    clearbody l. cbn [mbind result_bind].
    match goal with |- context [rewrite (DDL (CREATE_INDEX ?i)) ?x] =>
      change (rewrite (DDL (CREATE_INDEX i)) x) with
        (if distinct (student_row <$> l) ["linux_uid"] then Ok x else @Throw exn Db (ESqlConstraint "students")) end.
    rewrite Hd. by eexists.
Qed.

(** Why a start of version [k] does not finish, if it does not. *)
Definition refused (k : nat) (d : Db) : option exn :=
  if bool_decide ((1 <= k <= 8)%nat /\ (0 < legacy_rows d)%nat) then Some EUpgradeRefused
  else if bool_decide ((1 <= k <= 13)%nat /\ ~ NoDup (sql_email <$> (ad_email <$> rows (admins d))))
  then Some (ESqlConstraint "admins")
  else if bool_decide ((9 <= k <= 19)%nat /\ 50000 < Z.of_nat (length (rows (students d)))) then Some EUidExhausted
  else None.
Definition outcome (o : option exn) (r : result exn Db) : Prop :=
  match o with Some e => r = Throw e | None => exists d, r = Ok d end.

Lemma outcome_quiet k b d : Forall quiet (between k b) -> (k <= b <= 26)%nat ->
  exists d', deciding d' = deciding d /\ rewrite_all (since k) d = rewrite_all (since b) d'.
Proof.
  intros Hq Hb. destruct (quiet_all _ d Hq) as (d' & H & E). exists d'. split; [done|].
  by rewrite (since_split k b), rewrite_all_app, H.
Qed.
Lemma since_20 k d : (20 <= k <= 26)%nat -> exists d', rewrite_all (since k) d = Ok d'.
Proof.
  intros Hk. destruct (outcome_quiet k 26 d) as (d' & _ & ->); [by apply (quiet_from 20), quiet_20_26; lia|lia|].
  by exists d'.
Qed.
Lemma since_14 k d : (14 <= k <= 19)%nat -> NoDup (s_id <$> rows (students d)) ->
  outcome (if decide (50000 < Z.of_nat (length (rows (students d)))) then Some EUidExhausted else None)
    (rewrite_all (since k) d).
Proof.
  intros Hk Hnd. destruct (outcome_quiet k 19 d) as (d' & [= _ _ E] & ->);
    [by apply (quiet_from 14), quiet_14_19; lia|lia|].
  change (since 19) with (student_linux_uid_sql ++ since 20). rewrite rewrite_all_app.
  assert (length (rows (students d')) = length (rows (students d))) as El by (rewrite <- !(length_fmap s_id); by rewrite E).
  pose proof (uids_deciding d' ltac:(by rewrite E)) as H. rewrite El in H. case_decide; [by rewrite H|].
  destruct H as (d1 & ->). cbn [mbind result_bind outcome]. apply since_20. lia.
Qed.
Lemma since_9 k d : (9 <= k <= 13)%nat ->
  NoDup (ad_email <$> rows (admins d)) -> NoDup (s_id <$> rows (students d)) ->
  outcome (if decide (NoDup (sql_email <$> (ad_email <$> rows (admins d)))) then
      if decide (50000 < Z.of_nat (length (rows (students d)))) then Some EUidExhausted else None
    else Some (ESqlConstraint "admins")) (rewrite_all (since k) d).
Proof.
  intros Hk Ha Hs. destruct (outcome_quiet k 13 d) as (d' & [= _ E1 E2] & ->);
    [by apply (quiet_from 9), quiet_9_13; lia|lia|].
  change (since 13) with (normalize_emails_sql ++ since 14). rewrite rewrite_all_app.
  pose proof (emails_deciding d' ltac:(by rewrite E1)) as H. rewrite E1 in H. case_decide; [|by rewrite H].
  destruct H as (d1 & -> & _ & E3). cbn [mbind result_bind].
  assert (length (rows (students d1)) = length (rows (students d))) as El by (rewrite <- !(length_fmap s_id); by rewrite E3, E2).
  rewrite <- El. apply since_14; [lia|]. by rewrite E3, E2.
Qed.
Lemma since_bare k es d : (9 <= k <= 13)%nat -> bare es d -> NoDup es ->
  outcome (if decide (NoDup (sql_email <$> es)) then None else Some (ESqlConstraint "admins")) (rewrite_all (since k) d).
Proof.
  intros Hk [= Hl He Hs] Hnd. subst es. pose proof (since_9 k d Hk Hnd) as H. rewrite Hs in H. specialize (H (NoDup_nil_2)).
  assert (length (rows (students d)) = 0%nat) as El by (rewrite <- (length_fmap s_id); by rewrite Hs).
  rewrite El in H. by repeat case_decide.
Qed.
Lemma since_1 k d : (1 <= k <= 8)%nat -> NoDup (ad_email <$> rows (admins d)) ->
  outcome (if decide (0 < legacy_rows d)%nat then Some EUpgradeRefused
    else if decide (NoDup (sql_email <$> (ad_email <$> rows (admins d)))) then None
    else Some (ESqlConstraint "admins")) (rewrite_all (since k) d).
Proof.
  intros Hk Hnd. destruct (outcome_quiet k 8 d) as (d' & [= E1 E2 _] & ->);
    [by apply (quiet_from 1), quiet_1_8; lia|lia|].
  change (since 8) with (redesign_placements_sql ++ since 9). rewrite rewrite_all_app.
  pose proof (redesign_deciding d') as H. rewrite E1, E2 in H. case_decide; [by rewrite H|].
  destruct H as (d1 & -> & Hb). cbn [mbind result_bind]. by apply since_bare; [lia| |].
Qed.

Lemma holds_and (P Q : Prop) : P -> (P /\ Q) <-> Q.
Proof. tauto. Qed.
Lemma rewrite_outcome k d : (k <= 26)%nat ->
  NoDup (ad_email <$> rows (admins d)) -> NoDup (s_id <$> rows (students d)) ->
  outcome (refused k d) (rewrite_all (since k) d).
Proof.
  intros Hk Ha Hs. unfold refused. destruct (decide (k = 0%nat)) as [->|H0].
  { rewrite !bool_decide_eq_false_2 by lia. change (since 0) with (init_sql ++ since 1). rewrite rewrite_all_app.
    destruct (init_deciding d) as (d1 & -> & Hb). cbn [mbind result_bind].
    injection Hb as Hl He _. pose proof (since_1 1 d1 ltac:(lia)) as H. rewrite Hl, He in H.
    specialize (H NoDup_nil_2). rewrite decide_False in H by lia.
    by rewrite decide_True in H by constructor. }
  destruct (decide (k <= 8)%nat) as [H8|H8].
  { pose proof (since_1 k d ltac:(lia) Ha) as H. rewrite (bool_decide_ext _ (0 < legacy_rows d)%nat) by lia.
    rewrite (bool_decide_ext ((1 <= k <= 13)%nat /\ _) (~ NoDup (sql_email <$> (ad_email <$> rows (admins d))))) by (apply holds_and; lia).
    rewrite (bool_decide_eq_false_2 ((9 <= k <= 19)%nat /\ _)) by lia. repeat case_bool_decide; repeat case_decide; first [done|tauto]. }
  rewrite (bool_decide_eq_false_2 ((1 <= k <= 8)%nat /\ _)) by lia. destruct (decide (k <= 13)%nat) as [H13|H13].
  { pose proof (since_9 k d ltac:(lia) Ha Hs) as H.
    rewrite (bool_decide_ext ((1 <= k <= 13)%nat /\ _) (~ NoDup (sql_email <$> (ad_email <$> rows (admins d))))) by (apply holds_and; lia).
    rewrite (bool_decide_ext ((9 <= k <= 19)%nat /\ _) (50000 < Z.of_nat (length (rows (students d))))) by lia.
    repeat case_bool_decide; repeat case_decide; first [done|tauto]. }
  rewrite (bool_decide_eq_false_2 ((1 <= k <= 13)%nat /\ _)) by lia. destruct (decide (k <= 19)%nat) as [H19|H19].
  { pose proof (since_14 k d ltac:(lia) Hs) as H.
    rewrite (bool_decide_ext ((9 <= k <= 19)%nat /\ _) (50000 < Z.of_nat (length (rows (students d))))) by lia.
    repeat case_bool_decide; repeat case_decide; first [done|tauto]. }
  rewrite bool_decide_eq_false_2 by lia. apply since_20. lia.
Qed.

(** *** A start of the controller *)

(** The file is of version [k]: its first [k] migrations are recorded, and its catalog is theirs. *)
Definition at_version (k : nat) (c : Connection) : Prop :=
  (k <= 26)%nat /\ st_catalog (co_state c) = catalog_of k /\ (co_applied c).*1 = (take k SCRIPTS).*1.

Lemma migration_ids l : mg_id <$> (migration_of <$> l) = l.*1.
Proof. rewrite <- list_fmap_compose. apply list_fmap_ext. by intros i [n [q|q]] _. Qed.
Lemma script_names : NoDup SCRIPTS.*1.
Proof. apply (bool_decide_unpack _). reflexivity. Qed.
Lemma outstanding_version k c : (co_applied c).*1 = (take k SCRIPTS).*1 ->
  outstanding MIGRATIONS c = migration_of <$> drop k SCRIPTS.
Proof.
  intros Hc. unfold outstanding, MIGRATIONS. rewrite Hc.
  transitivity (filter (fun m : Migration => mg_id m ∉ (take k SCRIPTS).*1) (migration_of <$> (take k SCRIPTS ++ drop k SCRIPTS)));
    [by rewrite take_drop|].
  pose proof script_names as Hnd. rewrite <- (take_drop k SCRIPTS), fmap_app in Hnd. apply NoDup_app in Hnd as (_ & Hd & _).
  assert (forall m, mg_id (migration_of m) = m.1) as Hid by by intros [n [q|q]].
  rewrite fmap_app, filter_app, filter_none, filter_all; [done| |].
  - apply Forall_forall. intros ? (m & -> & Hm)%list_elem_of_fmap. rewrite Hid. intros Hin. apply (Hd _ Hin).
    by apply list_elem_of_fmap_2.
  - intros ? (m & -> & Hm)%list_elem_of_fmap. rewrite Hid. intros Hin. apply Hin. by apply list_elem_of_fmap_2.
Qed.

(** What the runner reports is what the outstanding migrations do. *)
Lemma progress_result {S Q} (e : Q -> bool) (x : Q -> S -> result exn S) out (c c' : Connection) r :
  progress e x out c c' r ->
  run_all e x out (co_state c) = match r with Ok _ => Ok (co_state c') | Throw t => Throw t end /\
  (r = Ok tt -> (co_applied c').*1 = (co_applied c).*1 ++ (mg_id <$> out)).
Proof.
  intros [(pre & post & -> & Ha & Hr & Hp)]. rewrite (run_all_app _ _ _ post _ _ Hr). destruct r as [[]|t].
  - subst post. rewrite app_nil_r. by split.
  - destruct Hp as (m & post' & -> & Hm). cbn. by rewrite Hm.
Qed.
Lemma start_runs k c : at_version k c ->
  exists r c', start c = (r, c') /\
    match r with
    | Ok _ => rewrite_all (since k) (st_db (co_state c)) = Ok (st_db (co_state c')) /\
        st_catalog (co_state c') = SCHEMA /\ (co_applied c').*1 = SCRIPTS.*1
    | Throw e => rewrite_all (since k) (st_db (co_state c)) = Throw e
    end.
Proof.
  intros (Hk & Hc & Ha). pose proof (migrate_resumes no_sql exec_sql MIGRATIONS c) as H.
  fold (start c) in H. destruct (start c) as [r c'] eqn:Hs. exists r, c'. split; [done|].
  destruct H as [H _]; [unfold MIGRATIONS; rewrite migration_ids; apply script_names|].
  apply progress_result in H as [H Happ]. rewrite (outstanding_version k c Ha), run_all_scripts in *.
  destruct (co_state c) as [cat d] eqn:Hst. cbn in Hc |- *. subst cat.
  change (exec_sql (since k) (mkStore (catalog_of k) d) = match r with Ok _ => Ok (co_state c') | Throw t => Throw t end) in H.
  rewrite (exec_sql_split _ _ _ _ (catalog_since k Hk)) in H.
  destruct (rewrite_all (since k) d) as [d'|e], r as [[]|t]; try discriminate H; [|by injection H as ->].
  injection H as H. rewrite <- H. split; [done|]. split; [done|].
  rewrite (Happ eq_refl), Ha, migration_ids, <- fmap_app. by rewrite take_drop.
Qed.
End upgrade.

(** ** Integrity *)

Section integrity.
Context {PF : Platform}.

(** A change of columns that are not keys; a reference may be cleared. *)
#[local] Ltac keep_rows := intros ? []; unfold map_nodes, map_members, map_placements, map_tasks, map_admins, map_labs, map_events, map_snapshot;
  wf_clauses; rewrite <- ?list_fmap_compose; first
  [ assumption | apply fk_map; [by intros|assumption] | apply fk_tbl_map; [by intros|assumption]
  | apply Forall_map_stable; [by intros|assumption] | apply Forall_fmap, Forall_forall; by intros ].

Lemma fill_wf name c d : db_wf d -> db_wf (fill name c d).
Proof.
  intros Hd. unfold fill. destruct (get_row _ FILL) as [e|] eqn:He; [|done]. apply get_row_Some in He as [_ He]. revert d Hd.
  assert (Forall (fun e => forall d, db_wf d -> db_wf (e.2 d)) FILL) as H; [|rewrite Forall_forall in H; by apply H].
  repeat (apply Forall_cons_2; [keep_rows|]). apply Forall_nil_2.
Qed.

Lemma allow_nodes_wf d : db_wf d -> db_wf (allow_nodes d). Proof. revert d. keep_rows. Qed.
Lemma node_hmac_tokens_wf d : db_wf d -> db_wf (node_hmac_tokens d). Proof. revert d. unfold node_hmac_tokens. keep_rows. Qed.

Lemma set_templates_wf d t : db_wf d -> pk at_id t /\ 0 <= last_id t -> db_wf (d <| announcement_templates := t |>).
Proof. intros [] Ht. wf_clauses. Qed.
Lemma set_settings_wf d s : db_wf d -> NoDup s.*1 -> db_wf (d <| settings := s |>).
Proof. intros [] Hs. wf_clauses. Qed.

Lemma insert_template_pk t sort d : db_wf d -> db_wf (Migrate.insert_template t sort d).
Proof. intros Hd. apply (set_templates_wf d); [done|]. 
  apply (pk_insert' at_id (announcement_templates d) (fun i => mkAnnouncementTemplate i t.1.1 t.1.2 t.2 sort)); [apply (wf_template d Hd)|done]. Qed.
Lemma announcement_templates_seed_wf d : db_wf d -> db_wf (announcement_templates_seed d).
Proof.
  intros Hd. unfold announcement_templates_seed. cbn [imap SEED_TEMPLATES fold_left].
  apply insert_template_pk, insert_template_pk, (set_templates_wf d); [done|]. split; [split; constructor|done].
Qed.
Lemma system_intro_template_wf d : db_wf d -> db_wf (system_intro_template d).
Proof. apply insert_template_pk. Qed.

Lemma unsign_nodup s k : NoDup s.*1 -> NoDup (unsign s k).*1.
Proof. intros Hs. unfold unsign. repeat case_match; try done. by apply NoDup_aset. Qed.
Lemma unsign_all_nodup l : forall s, NoDup s.*1 -> NoDup (fold_left unsign l s).*1.
Proof. induction l as [|k l IH]; intros s Hs; [exact Hs|]. apply IH. by apply unsign_nodup. Qed.
Lemma universal_email_signature_wf d : db_wf d -> db_wf (universal_email_signature d).
Proof. intros Hd. exact (set_settings_wf d _ Hd (unsign_all_nodup SIGNED_BODIES _ (wf_setting d Hd))). Qed.
Lemma plain_text_email_signature_wf d : db_wf d -> db_wf (plain_text_email_signature d).
Proof.
  intros Hd. apply (set_settings_wf d); [done|].
  eapply sublist_NoDup; [|apply fmap_sublist, sublist_filter]. pose proof (wf_setting d Hd) as Hs.
  repeat case_match; try done. by apply NoDup_aset.
Qed.

Lemma unique_opt_map {A K} (key : A -> option K) f l :
  (forall r, key (f r) = key r) -> unique_opt key l -> unique_opt key (f <$> l).
Proof.
  intros Hf Hu ? ? k (x & -> & Hx)%list_elem_of_fmap (y & -> & Hy)%list_elem_of_fmap Hkx Hky.
  rewrite Hf in Hkx, Hky. by rewrite (Hu x y k).
Qed.
Lemma normalize_emails_wf d d' : normalize_emails d = Ok d' -> db_wf d -> db_wf d'.
Proof.
  intros H Hd. rewrite normalize_emails_spec in H by apply (wf_admin_email d Hd). case_decide as Hf; [|done].
  injection H as <-. destruct Hd. wf_clauses; rewrite <- ?list_fmap_compose; first
    [ assumption | apply fk_map; [by intros|assumption] | apply Forall_map_stable; [by intros|assumption]
    | by apply unique_opt_map | idtac ].
  unfold finals in Hf. by rewrite <- list_fmap_compose in Hf.
Qed.
Lemma student_linux_uid_wf d d' : student_linux_uid d = Ok d' -> db_wf d -> db_wf d'.
Proof.
  intros H Hd. assert (Z.of_nat (length (rows (students d))) <= 50000) as Hl.
  { unfold student_linux_uid in H. rewrite length_sort_by, length_fmap in H. destruct (Z.ltb_spec 50000 (Z.of_nat (length (rows (students d))))); [done|lia]. }
  pose proof (proj1 (proj1 (wf_students d Hd))) as Hid.
  destruct (student_linux_uid_spec d Hid Hl) as (l & H' & (uid & ->) & Hr & Hlt). rewrite H' in H. injection H as <-. clear H'.
  set (f := fun s : StudentRow => s <| s_linux_uid := uid s |>) in *.
  assert (NoDup (s_linux_uid <$> (f <$> rows (students d)))) as Hu.
  { rewrite <- list_fmap_compose. apply (NoDup_by s_id); [done|]. intros x y Hx Hy E.
    destruct (Z.lt_trichotomy (s_id x) (s_id y)) as [Hz|[Hz|Hz]]; [|done|];
      apply (Hlt (f _) (f _)) in Hz; try (by apply list_elem_of_fmap_2); cbn in E, Hz; lia. }
  destruct Hd. wf_clauses; rewrite <- ?list_fmap_compose; first
    [ assumption | apply fk_map; [by intros|assumption] | by apply unique_opt_map ].
Qed.

(** Making or dropping a table nothing refers to. *)
Definition PARENTS : list string := ["nodes"; "labs"; "students"; "lab_placements"; "node_groups"].
Lemma wipe_wf name d : name ∉ PARENTS -> db_wf d -> db_wf (wipe name d).
Proof.
  intros Hn Hd. unfold wipe. destruct (alookup name WIPE) as [f|] eqn:Hf; [|done]. apply alookup_in in Hf.
  assert (Forall (fun e => e.1 ∉ PARENTS -> forall d, db_wf d -> db_wf (e.2 d)) WIPE) as H.
  { repeat (apply Forall_cons_2; [intros Hin; first
      [by destruct Hin; apply (bool_decide_unpack _)|intros ? []; wf_clauses; repeat split; try constructor; cbn; lia]|]). apply Forall_nil_2. }
  rewrite Forall_forall in H. by apply (H _ Hf).
Qed.

(** Without labs, nodes and accounts no row refers to one. *)
Lemma bare_rows es d : bare es d -> db_wf d ->
  rows (labs d) = [] /\ rows (nodes d) = [] /\ rows (students d) = [] /\ rows (lab_placements d) = [].
Proof.
  intros [= Hl _ _] Hd. unfold legacy_rows in Hl.
  assert (rows (labs d) = []) as El by (apply nil_length_inv; lia). split_and!; [done|apply nil_length_inv; lia..|].
  pose proof (fk_pl_lab d Hd) as H. rewrite El in H. destruct (rows (lab_placements d)) as [|p l]; [done|].
  apply Forall_cons_1 in H as [H _]. specialize (H _ eq_refl). by apply elem_of_nil in H.
Qed.
Lemma wipe_bare_wf name es d : name <> "admins" -> name <> "node_groups" -> bare es d -> db_wf d -> db_wf (wipe name d).
Proof.
  intros Ha Hg Hb Hd. destruct (decide (name ∈ PARENTS)) as [Hin|]; [|by apply wipe_wf].
  destruct (bare_rows es d Hb Hd) as (El & En & Es & Ep). destruct Hd.
  rewrite ?El, ?En, ?Es, ?Ep in *. unfold PARENTS in Hin. rewrite !elem_of_cons in Hin.
  destruct Hin as [->|[->|[->|[->|[->|Hin]]]]]; [..|by apply elem_of_nil in Hin]; try done.
  all: constructor; cbn; rewrite ?El, ?En, ?Es, ?Ep; try assumption; repeat split; try constructor.
  all: first [lia|intros x y k Hx; by apply elem_of_nil in Hx].
Qed.

(** Every migration but the first keeps the integrity of the database it is given. *)
Definition keeps (q : sql) : Prop := forall d d', rewrite q d = Ok d' -> db_wf d -> db_wf d'.
Definition keeps_all (l : list sql) : Prop := forall d d', rewrite_all l d = Ok d' -> db_wf d -> db_wf d'.
Lemma keeps_list l : Forall keeps l -> keeps_all l.
Proof.
  induction 1 as [|q l Hq _ IH]; intros d d'; cbn; [by intros [= ->]|].
  destruct (rewrite q d) as [d1|] eqn:H1; cbn; [|done]. intros H2 Hd. apply (IH d1); [done|]. by apply (Hq d).
Qed.
Lemma keeps_add name c : keeps (DDL (ADD_COLUMN name c)).
Proof. intros d d' [= <-]. apply fill_wf. Qed.
Lemma keeps_create t : td_name t ∉ PARENTS -> keeps (DDL (CREATE_TABLE t)).
Proof. intros Ht d d' [= <-]. by apply wipe_wf. Qed.
Lemma keeps_drop name : name ∉ PARENTS -> keeps (DDL (DROP_TABLE_IF_EXISTS name)).
Proof. intros Ht d d' [= <-]. by apply wipe_wf. Qed.
Lemma keeps_index i : keeps (DDL (CREATE_INDEX i)).
Proof. intros d d'. cbn. by destruct (index_holds _ i); [intros [= ->]|]. Qed.
Lemma keeps_dml f : (forall d, db_wf d -> db_wf (f d)) -> keeps (DML f).
Proof. intros H d d' [= <-]. apply H. Qed.
Lemma keeps_checked f : (forall d d', f d = Ok d' -> db_wf d -> db_wf d') -> keeps (CHECKED f).
Proof. intros H d d'. apply H. Qed.

Lemma node_groups_keeps : keeps_all node_groups_sql.
Proof.
  intros d d' [= <-] []. constructor; cbn; try assumption; repeat split; try constructor; lia.
Qed.

Definition keeps_bare (q : sql) : Prop :=
  forall d d' es, rewrite q d = Ok d' -> bare es d -> db_wf d -> bare es d' /\ db_wf d'.
Lemma keeps_bare_drop name : name <> "admins" -> name <> "node_groups" -> keeps_bare (DDL (DROP_TABLE_IF_EXISTS name)).
Proof. intros Ha Hg d d' es [= <-] Hb Hd. split; [by apply wipe_bare|by apply (wipe_bare_wf _ es)]. Qed.
Lemma keeps_bare_create t : td_name t <> "admins" -> td_name t <> "node_groups" -> keeps_bare (DDL (CREATE_TABLE t)).
Proof. intros Ha Hg d d' es [= <-] Hb Hd. split; [by apply wipe_bare|by apply (wipe_bare_wf _ es)]. Qed.
Lemma keeps_bare_index i : keeps_bare (DDL (CREATE_INDEX i)).
Proof. intros d d' es. cbn. by destruct (index_holds _ i); [intros [= ->]|]. Qed.
Lemma keeps_bare_list l : Forall keeps_bare l -> forall es d d', rewrite_all l d = Ok d' -> bare es d -> db_wf d -> db_wf d'.
Proof.
  induction 1 as [|q l Hq _ IH]; intros es d d'; cbn; [by intros [= ->]|].
  destruct (rewrite q d) as [d1|] eqn:H1; cbn; [|done]. intros H2 Hb Hd.
  destruct (Hq d d1 es H1 Hb Hd). by apply (IH es d1 d').
Qed.
Lemma redesign_statements : Forall keeps_bare (tail redesign_placements_sql).
Proof.
  unfold redesign_placements_sql. cbn [tail].
  repeat (apply Forall_cons_2; [first [by apply keeps_bare_drop|by apply keeps_bare_create|apply keeps_bare_index]|]).
  apply Forall_nil_2.
Qed.
Lemma redesign_keeps : keeps_all redesign_placements_sql.
Proof.
  assert (redesign_placements_sql = CHECKED legacy_guard :: tail redesign_placements_sql) as -> by done.
  pose proof redesign_statements as Hs. revert Hs. generalize (tail redesign_placements_sql). intros l Hs d d' H Hd.
  cbn [rewrite_all rewrite] in H. rewrite legacy_guard_spec in H.
  case_decide as Hl; [done|]. cbn [mbind result_bind] in H.
  apply (keeps_bare_list l Hs (ad_email <$> rows (admins d)) d); [done| |done].
  unfold bare, deciding, legacy_rows in *.
  assert (rows (students d) = []) as -> by (apply nil_length_inv; lia). repeat f_equal. cbn. lia.
Qed.

#[local] Ltac keeps_tac := apply keeps_list; repeat (apply Forall_cons_2; [first
  [ apply keeps_add | apply keeps_index | apply keeps_create; by apply (bool_decide_unpack _)
  | apply keeps_drop; by apply (bool_decide_unpack _)
  | apply keeps_dml; first [apply allow_nodes_wf|apply node_hmac_tokens_wf|apply announcement_templates_seed_wf
      |apply universal_email_signature_wf|apply plain_text_email_signature_wf|apply system_intro_template_wf]
  | apply keeps_checked; first [apply normalize_emails_wf|apply student_linux_uid_wf]
  | by intros ? ? [= <-] ]|]); apply Forall_nil_2.
Lemma scripts_keep : Forall (fun m => keeps_all (statements m.2)) (drop 1 SCRIPTS).
Proof.
  repeat (apply Forall_cons_2; [first [apply redesign_keeps|apply node_groups_keeps|keeps_tac]|]). apply Forall_nil_2.
Qed.
Lemma since_keeps k : (1 <= k)%nat -> keeps_all (since k).
Proof.
  intros Hk. pose proof (Forall_drop _ (k - 1) _ scripts_keep) as H. rewrite drop_drop in H.
  replace (1 + (k - 1))%nat with k in H by lia. unfold since.
  induction H as [|m l Hm _ IH]; intros d d'; cbn; [by intros [= ->]|]. rewrite rewrite_all_app.
  destruct (rewrite_all (statements m.2) d) as [d1|] eqn:H1; cbn; [|done]. intros H2 Hd. apply (IH d1); [done|]. by apply (Hm d).
Qed.
End integrity.

(** ** What a start comes to *)

Section properties.
Context {PF : Platform}.

(** C2: a start brings a file of any earlier version to the schema of this one: the catalog it ends
    with is the one of a new file, whatever version it began with and whatever the rows are, and
    every migration is recorded.  It is refused for three reasons only, each decided by the rows
    it found: labs, nodes or accounts from before the redesign; administrators whose addresses
    differ in case or blanks only; more accounts than there are numbers.  The rows it leaves are
    as consistent as those it was given and satisfy every constraint of the new schema. *)
Theorem upgrade_outcome k c :
  at_version k c ->
  NoDup (ad_email <$> rows (admins (st_db (co_state c)))) -> NoDup (s_id <$> rows (students (st_db (co_state c)))) ->
  exists c', match refused k (st_db (co_state c)) with
  | Some e => start c = (Throw e, c')
  | None =>
      start c = (Ok tt, c') /\ st_catalog (co_state c') = SCHEMA /\ (co_applied c').*1 = SCRIPTS.*1 /\
      ((1 <= k)%nat -> db_wf (st_db (co_state c)) ->
       db_wf (st_db (co_state c')) /\ conforms (st_catalog (co_state c')) (rows_of (st_db (co_state c'))) = true)
  end.
Proof.
  intros Hv Ha Hs. pose proof (rewrite_outcome k _ (proj1 Hv) Ha Hs) as Ho.
  destruct (start_runs k c Hv) as (r & c' & -> & Hr). exists c'. destruct (refused k _) as [e|]; cbn in Ho.
  - destruct r as [[]|e']; [destruct Hr as [Hr _]; congruence|]. congruence.
  - destruct Ho as [d' Ho]. destruct r as [[]|e']; [|congruence]. destruct Hr as (Hr & Hcat & Happ). split_and!; [done..|].
    intros Hk Hd. pose proof (since_keeps k Hk _ _ Hr Hd) as Hd'. split; [done|]. rewrite Hcat. by apply db_conforms.
Qed.

(** A new file: every table empty but for the three announcement templates the program ships. *)
Definition first_db : Db :=
  empty_db <| announcement_templates := mkTable (imap (fun i t => mkAnnouncementTemplate (Z.of_nat i + 1) t.1.1 t.1.2 t.2 (Z.of_nat i))
                                                  (SEED_TEMPLATES ++ [INTRO_TEMPLATE])) 3 |>.
Definition new_file : Connection := mkConnection (mkStore empty_catalog empty_db) [] 0.
Lemma first_rows : rewrite_all (since 0) empty_db = Ok first_db. Proof. by vm_compute. Qed.
Lemma first_db_wf : db_wf first_db.
Proof.
  assert (first_db = system_intro_template (announcement_templates_seed empty_db)) as -> by by vm_compute.
  apply system_intro_template_wf, announcement_templates_seed_wf, db_wf_empty.
Qed.
Theorem fresh_install : exists c', start new_file = (Ok tt, c') /\ co_state c' = mkStore SCHEMA first_db /\
  (co_applied c').*1 = SCRIPTS.*1 /\ db_wf first_db.
Proof.
  destruct (start_runs 0 new_file) as (r & c' & Hs & Hr); [split; [lia|by vm_compute]|]. exists c'.
  change (st_db (co_state new_file)) with empty_db in Hr. rewrite first_rows in Hr. destruct r as [[]|e]; [|discriminate Hr].
  destruct Hr as (Hd & Hc & Ha). apply (f_equal (fun r => match r with Ok d => d | Throw _ => empty_db end)) in Hd.
  split; [exact Hs|]. split; [rewrite <- Hc, Hd; by destruct (co_state c')|]. split; [exact Ha|apply first_db_wf].
Qed.
End properties.

(** ** Files of earlier versions *)

Section witness.
#[local] Existing Instance run_pf.

Definition old_file (k : nat) (d : Db) : Connection :=
  mkConnection (mkStore (catalog_of k) d) ((fun m => (m.1, 0)) <$> take k SCRIPTS) 0.
Lemma old_file_version k d : (k <= 26)%nat -> at_version k (old_file k d).
Proof. intros Hk. split; [done|]. split; [done|]. cbn. by rewrite <- list_fmap_compose. Qed.

(** Before the redesign, with a node; after it, with two administrators of one address, and with one. *)
Definition with_legacy_node : Db :=
  empty_db <| nodes := mkTable [mkNode 1 "n1" None false None None 0 None None None true None LocalZfs None None false] 1 |>.
Definition with_admins (es : list string) : Db :=
  empty_db <| admins := mkTable (imap (fun i e => mkAdmin (Z.of_nat i + 1) "Ada" e "hash" 0 true 0) es) (Z.of_nat (length es)) |>.
Definition one_admin : Db := with_admins [" Ada@Lab.edu"].

Lemma one_admin_wf : db_wf one_admin.
Proof.
  destruct db_wf_empty. constructor; try assumption; unfold pk; cbn; repeat split; try constructor; cbn; try lia; try constructor.
  all: apply not_elem_of_nil.
Qed.

Lemma upgrade_outcome_witness :
  (exists c', start (old_file 8 with_legacy_node) = (Throw EUpgradeRefused, c')) /\
  (exists c', start (old_file 13 (with_admins ["a@lab.edu"; "A@lab.edu"])) = (Throw (ESqlConstraint "admins"), c')) /\
  (exists c', start (old_file 13 one_admin) = (Ok tt, c') /\ st_catalog (co_state c') = SCHEMA /\ db_wf (st_db (co_state c'))).
Proof.
  split_and!.
  - apply (upgrade_outcome 8 (old_file 8 with_legacy_node)); [apply old_file_version; lia|apply (bool_decide_unpack _); reflexivity..].
  - apply (upgrade_outcome 13 (old_file 13 (with_admins ["a@lab.edu"; "A@lab.edu"])));
      [apply old_file_version; lia|apply (bool_decide_unpack _); reflexivity..].
  - assert (refused 13 one_admin = None) as Hn by by vm_compute.
    destruct (upgrade_outcome 13 (old_file 13 one_admin)) as [c' H];
      [apply old_file_version; lia|apply (bool_decide_unpack _); reflexivity..|].
    change (st_db (co_state (old_file 13 one_admin))) with one_admin in H. rewrite Hn in H.
    exists c'. destruct H as (Hs & Hc & _ & Hw). split; [exact Hs|]. split; [exact Hc|].
    apply Hw; [lia|apply one_admin_wf].
Defined.

End witness.
