(* ===== verification/Boot.v ===== *)
(** * Boot: [server.ts], a start of the process

    The environment is checked, the database file is opened and brought up to date, the hub is
    attached and the maintenance ticker started, and only then the server listens; a throw on the
    way ends the process. *)
From S2P Require Import Prelude Js Numbers Csv Redact Schema Sql DbWf Env Secrets Queue Testbed QueueFacts Settings Template Signature Migrate Format Mailer Alerts Placements Labs Students LabImport Nodes Protocol Ingest Hub HubConn Web WebFixture Maintenance WebDav Backup BackupFacts Gpu Announce RateLimit Flash Auth Stats Actions LabActions SettingsActions StatsActions Console HubConnFacts ConsoleFacts System LabImportFacts Catalog Rows Scripts Upgrade.
From stdpp Require Import pretty.
Open Scope Z_scope.

(** The database file beside its rows: its catalog and the migrations it records. *)
Record File := mkFile { fl_catalog : Catalog; fl_applied : list (string * Z) }.

Section boot.
Context {HK : Honker} {PF : Platform} {ZP : Zod} {AL : AuthLib} {TZ : Zones} {HC : HttpClient} {BL : BackupLib}.

Record Process := mkProcess {
  ps_world : BackupWorld;  (* its database is the rows of the file *)
  ps_file : File;
  ps_hub : bool;                     (* the hub answers upgrade requests *)
  ps_ticker : bool;                  (* the hourly interval is set *)
  ps_listening : option Z;
  ps_exit : option Z }.

(** SQLite opening a file that was staged, [None] where it is no database; [app.prepare()]. *)
Context (open_file : string -> option (Connection (S := Store))) (prepare : result exn unit).

Abbreviation PAct := (M Process exn).

(** [db()]: the staged file, if there is one, takes the place of the file; it is opened and
    migrated.  What a migration that throws leaves in the file stays in it. *)
Definition current_file (p : Process) : Connection (S := Store) :=
  mkConnection (mkStore (fl_catalog (ps_file p)) (web_db (bk_web (ps_world p)))) (fl_applied (ps_file p))
    (w_ticks (web_world (bk_web (ps_world p)))).
Definition found_file (p : Process) : option (Connection (S := Store)) :=
  match bk_restore (ps_world p) with Some file => open_file file | None => Some (current_file p) end.
Definition open_database : PAct unit := fun p =>
  match found_file p with
  | None => (Throw (ESqlSchema "file is not a database"), p <| ps_world ::= fun s => s <| bk_restore := None |> |>)
  | Some c =>
      let '(r, c') := start c in
      let w := restarted (st_db (co_state c')) (ps_world p) in
      (r, p <| ps_world := w <| bk_web ::= fun s => s <| ww_hub ::= fun h => h <| hw_world ::= fun x => x <| w_ticks := co_ticks c' |> |> |> |> |>
            <| ps_file := mkFile (st_catalog (co_state c')) (co_applied c') |>)
  end.

Definition on_library {A} (m : Act A) : PAct A := fun p =>
  let '(r, w) := lib m (ps_world p) in (r, p <| ps_world := w |>).

(** [startMaintenance()]: what is outdated goes at once; the ticker comes after. *)
Definition startMaintenance : PAct unit :=
  on_library pruneOldData;;
  modify (fun p => p <| ps_ticker := true |>).

(** [main()] *)
Definition main : PAct unit :=
  lift assertEnv;;
  open_database;;
  lift prepare;;
  modify (fun p => p <| ps_hub := true |>);;
  startMaintenance;;
  port ← lift env_port;
  modify (fun p => p <| ps_listening := Some port |>).

(** [main().catch(() => process.exit(1))] *)
Definition boot (p : Process) : Process :=
  match main p with
  | (Ok _, p') => p'
  | (Throw _, p') => p' <| ps_exit := Some 1 |>
  end.

(** A process about to start over the state the last one left. *)
Definition process_of (s : BackupWorld) (f : File) : Process := mkProcess s f false false None None.

End boot.

(** ** The migrations keep the log free of secrets and the settings at their types *)

Section content.
Context {PF : Platform}.

Definition keeps_content (q : sql) : Prop := forall d d', rewrite q d = Ok d' -> content_ok d -> content_ok d'.

Lemma wipe_content name d : content_ok d -> content_ok (wipe name d).
Proof.
  unfold wipe. destruct (alookup name WIPE) as [f|] eqn:Hf; [|done]. apply alookup_in in Hf. revert d.
  assert (Forall (fun e : string * (Db -> Db) => forall d, content_ok d -> content_ok (e.2 d)) WIPE) as H; [|rewrite Forall_forall in H; by apply (H _ Hf)].
  repeat (apply Forall_cons_2; [intros d [Hl Hs]; split; first [exact Hl|exact Hs|constructor]|]). apply Forall_nil_2.
Qed.
Lemma fill_content name c d : content_ok d -> content_ok (fill name c d).
Proof.
  unfold fill. destruct (get_row _ FILL) as [e|] eqn:He; [|done]. apply get_row_Some in He as [_ He]. revert d.
  assert (Forall (fun e : string * string * (Db -> Db) => forall d, content_ok d -> content_ok (e.2 d)) FILL) as H; [|rewrite Forall_forall in H; by apply H].
  repeat (apply Forall_cons_2; [intros d [Hl Hs]; split; [first [exact Hl|apply Forall_map_stable; [by intros|exact Hl]]|exact Hs]|]).
  apply Forall_nil_2.
Qed.

Lemma ddl_content st : keeps_content (DDL st).
Proof.
  intros d d'. destruct st; cbn [rewrite]; try (intros [= <-]; auto using wipe_content, fill_content).
  destruct (index_holds _ _); [by intros [= <-]|done].
Qed.
Lemma same_content q :
  (forall d d', rewrite q d = Ok d' -> task_log d' = task_log d /\ settings d' = settings d) -> keeps_content q.
Proof. intros H d d' Hq. unfold content_ok, log_clean, settings_typed. by destruct (H d d' Hq) as [-> ->]. Qed.

(** A text under the key of a text. *)
Lemma text_setting_typed key s l :
  alookup key Settings = Some TString -> Forall (fun r => setting_fits r = true) l ->
  Forall (fun r => setting_fits r = true) (aset key (TJson (JStr s)) l).
Proof. intros Hk. apply Forall_aset. unfold setting_fits. cbn [fst snd]. by rewrite Hk. Qed.
Lemma unsign_content : keeps_content (DML universal_email_signature).
Proof.
  intros d d' [= <-] [Hl Hs]. split; [exact Hl|]. unfold settings_typed. change (settings (universal_email_signature d))
    with (fold_left unsign SIGNED_BODIES (settings d)).
  assert (Forall (fun k => alookup k Settings = Some TString) SIGNED_BODIES) as Hk by by repeat constructor.
  revert Hs. unfold settings_typed. generalize (settings d). induction Hk as [|k ks Hk _ IH]; intros l Hs; [exact Hs|]. apply IH.
  unfold unsign. repeat case_match; first [exact Hs | by apply text_setting_typed].
Qed.
Lemma Forall_filter_stable {A} (P Q : A -> Prop) {QDec : forall x, Decision (Q x)} l : Forall P l -> Forall P (filter Q l).
Proof. rewrite !Forall_forall. intros H x [_ Hx]%list_elem_of_filter. by apply H. Qed.
Lemma plain_text_content : keeps_content (DML plain_text_email_signature).
Proof.
  intros d d' [= <-] [Hl Hs]. split; [exact Hl|]. unfold settings_typed, plain_text_email_signature. cbn.
  apply Forall_filter_stable. repeat case_match; first [exact Hs | by apply text_setting_typed].
Qed.

Lemma scripts_content : Forall (fun m => Forall keeps_content (statements m.2)) SCRIPTS.
Proof.
  repeat (apply Forall_cons_2; [repeat (apply Forall_cons_2; [first
    [apply ddl_content | apply unsign_content | apply plain_text_content
    | apply same_content; intros d d'; cbn [rewrite]; unfold legacy_guard, redesign_guard, normalize_emails, student_linux_uid, mbind, result_bind;
      repeat case_match; by intros [= <-]]|]); apply Forall_nil_2|]). apply Forall_nil_2.
Qed.
Lemma since_content k d d' : rewrite_all (since k) d = Ok d' -> content_ok d -> content_ok d'.
Proof.
  pose proof (Forall_drop _ k _ scripts_content) as H. unfold since. revert d.
  induction H as [|m l Hm _ IH]; intros d; cbn; [by intros [= ->]|]. rewrite rewrite_all_app.
  destruct (rewrite_all (statements m.2) d) as [d1|] eqn:H1; cbn; [|done]. intros H2 Hd. apply (IH d1); [done|].
  clear IH H2. revert d H1 Hd. induction Hm as [|q l' Hq _ IH]; intros d; cbn; [by intros [= ->]|].
  destruct (rewrite q d) as [d2|] eqn:H2; cbn; [|done]. intros H3 Hd. apply (IH d2); [done|]. by apply (Hq d).
Qed.
End content.

(** ** What a start comes to *)

Section facts.
Context {HK : Honker} {PF : Platform} {ZP : Zod} {AL : AuthLib} {TZ : Zones} {HC : HttpClient} {BL : BackupLib}.
Context (open_file : string -> option (Connection (S := Store))) (prepare : result exn unit).

Lemma lib_initial {A} (m : Act A) w h :
  lib m (initial w h) = ((m w).1, initial (m w).2 h).
Proof. unfold lib, on_web, on_act, on_hub, on_world, initial, booted. cbn. by destruct (m w). Qed.

(** A file a start may find: of some version, its rows consistent; a new one is empty. *)
Record file_ok (c : Connection (S := Store)) : Prop := {
  fo_version : exists k, at_version k c /\ (k = 0%nat -> st_db (co_state c) = empty_db);
  fo_wf : db_wf (st_db (co_state c));
  fo_content : content_ok (st_db (co_state c)) }.

(** Where the migrations run through, the rows are consistent and of this version. *)
Lemma start_file_ok c c' : file_ok c -> start c = (Ok tt, c') ->
  st_catalog (co_state c') = SCHEMA /\ (co_applied c').*1 = SCRIPTS.*1 /\
  db_wf (st_db (co_state c')) /\ content_ok (st_db (co_state c')).
Proof.
  intros [(k & Hv & H0) Hw Hc] Hs. destruct (start_runs k c Hv) as (r & c1 & Hs' & Hr). rewrite Hs in Hs'.
  injection Hs' as <- <-. destruct Hr as (Hr & Hcat & Happ). split_and!; [done..| |by apply (since_content k _ _ Hr)].
  destruct k as [|k]; [|by apply (since_keeps (S k) ltac:(lia) _ _ Hr)].
  rewrite (H0 eq_refl), first_rows in Hr. injection Hr as <-. apply first_db_wf.
Qed.

(** The process after its file was opened. *)
Lemma open_database_spec s f c :
  found_file open_file (process_of s f) = Some c -> file_ok c ->
  exists r p1, open_database open_file (process_of s f) = (r, p1) /\
    ps_listening p1 = None /\ ps_exit p1 = None /\ ps_hub p1 = false /\ ps_ticker p1 = false /\
    (r = Ok tt -> exists w, wf w /\ ps_world p1 = initial w (bk_http s) /\
       fl_catalog (ps_file p1) = SCHEMA /\ (fl_applied (ps_file p1)).*1 = SCRIPTS.*1).
Proof.
  intros Hf Hc. unfold open_database. rewrite Hf. destruct (start c) as [r c'] eqn:Hs. eexists r, _.
  split; [reflexivity|]. cbn [process_of ps_listening ps_exit ps_hub ps_ticker].
  do 4 (split; [reflexivity|]). intros ->.
  destruct (start_file_ok c c' Hc Hs) as (Hcat & Happ & Hd & Hl). clear Hs.
  exists ((web_world (bk_web s)) <| w_db := st_db (co_state c') |> <| w_alert_state := ∅ |> <| w_gpu_mail := ∅ |> <| w_mails := [] |>
            <| w_ticks := co_ticks c' |>).
  split; [split; [exact Hd|exact Hl]|]. split; [reflexivity|]. split; [exact Hcat|exact Happ].
Qed.

(** C3: a start of the process fails closed: either it ends with status 1 and never listens, or it
    listens on the port of the environment, and then every bootstrap variable was accepted, the file
    is of this version with every migration recorded, Next.js is prepared, the hub answers and the
    ticker runs, and the state is one the theorems on the running controller start from. *)
Theorem boot_fails_closed s f :
  (forall c, found_file open_file (process_of s f) = Some c -> file_ok c) ->
  let p := boot open_file prepare (process_of s f) in
  (ps_exit p = Some 1 /\ ps_listening p = None) \/
  (exists port w, ps_exit p = None /\ ps_listening p = Some port /\ env_port = Ok port /\ assertEnv = Ok tt /\
     prepare = Ok tt /\ ps_hub p = true /\ ps_ticker p = true /\
     fl_catalog (ps_file p) = SCHEMA /\ (fl_applied (ps_file p)).*1 = SCRIPTS.*1 /\
     wf w /\ ps_world p = initial w (bk_http s)).
Proof.
  intros Hok. cbv zeta. unfold boot, main, mbind, M_bind, lift.
  destruct assertEnv as [[]|e]; [|by left]. cbn [mret].
  destruct (found_file open_file (process_of s f)) as [c|] eqn:Hf; [|unfold open_database; rewrite Hf; by left].
  destruct (open_database_spec s f c Hf (Hok c eq_refl)) as (r & p1 & -> & Hl & He & _ & _ & Hr).
  destruct r as [[]|e]; [|by left]. destruct (Hr eq_refl) as (w & Hw & Hp & Hcat & Happ).
  destruct prepare as [[]|e]; [|left; by split]. cbn [modify mret]. unfold startMaintenance, on_library, mbind, M_bind. cbn.
  rewrite Hp, lib_initial. pose proof (pruneOldData_wf w Hw) as Hw'. destruct (pruneOldData w) as [[pr|e] w'] eqn:Hpr; cbn.
  - destruct env_port as [port|e]; cbn; [right|left; by split]. exists port, w'.
    split; [exact He|]. do 6 (split; [reflexivity|]). split; [exact Hcat|]. split; [exact Happ|]. split; [exact Hw'|reflexivity].
  - left. by split.
Qed.

(** *** A cap that keeps the controller from starting *)

Definition reboot (p : Process) : Process := boot open_file prepare (process_of (ps_world p) (ps_file p)).

(** The stored cap on log entries is a number beyond 64 bits. *)
Definition oversized_cap (d : Db) : Prop :=
  exists n, read_setting "logMaxEntries" (alookup "logMaxEntries" (settings d)) = JNum n /\
    num_ltb (num_of_Z 0) n = true /\ is_offset n = false.

Lemma pruneLogs_oversized now w : oversized_cap (w_db w) ->
  exists w', pruneLogs now w = (Throw ETypeError, w') /\ settings (w_db w') = settings (w_db w).
Proof.
  intros (n & Hn & Hp & Ho). unfold pruneLogs.
  assert (forall k w, getSetting_num k w = (Ok (num_of_json (read_setting k (alookup k (settings (w_db w))))), w)) as Hg by done.
  rewrite (bind_step _ _ _ _ _ (Hg _ w)).
  assert (forall (b : bool) P (PDec : forall l, Decision (P l)), exists k w1,
    (if b then prune_logs_where P else mret 0%nat) w = (Ok k, w1) /\ settings (w_db w1) = settings (w_db w)) as Hb.
  { intros [] P PDec; by do 2 eexists. }
  edestruct (Hb (num_ltb (num_of_Z 0) (num_of_json (read_setting "logRetentionDays" (alookup "logRetentionDays" (settings (w_db w)))))))
    as (k & w1 & Hw1 & Hs1).
  rewrite (bind_step _ _ _ _ _ Hw1), (bind_step _ _ _ _ _ (Hg _ w1)). rewrite Hs1, Hn. cbn [num_of_json]. rewrite Hp, Ho.
  cbn [negb]. exists w1. split; [by rewrite (bind_throw _ _ _ _ _ (eq_refl : throw ETypeError w1 = _))|exact Hs1].
Qed.
Lemma pruneOldData_oversized w : oversized_cap (w_db w) ->
  exists w', pruneOldData w = (Throw ETypeError, w') /\ settings (w_db w') = settings (w_db w).
Proof.
  intros Hc. set (w1 := w <| w_ticks ::= S |>). destruct (pruneLogs_oversized (clock (w_ticks w)) w1 Hc) as (w' & Hw & Hs).
  exists w'. split; [|exact Hs]. unfold pruneOldData.
  rewrite (bind_step date_now _ w (clock (w_ticks w)) w1) by done. exact (bind_throw _ _ _ _ _ Hw).
Qed.

Record stuck (s : BackupWorld) (f : File) : Prop := {
  sk_restore : bk_restore s = None;
  sk_catalog : fl_catalog f = SCHEMA;
  sk_applied : (fl_applied f).*1 = SCRIPTS.*1;
  sk_cap : oversized_cap (web_db (bk_web s)) }.

Lemma stuck_start s f : stuck s f ->
  exists c', start (current_file (process_of s f)) = (Ok tt, c') /\ st_db (co_state c') = web_db (bk_web s) /\
    st_catalog (co_state c') = SCHEMA /\ (co_applied c').*1 = SCRIPTS.*1.
Proof.
  intros [_ Hcat Happ _].
  destruct (start_runs 26 (current_file (process_of s f))) as (r & c' & Hs & Hr).
  { split; [lia|]. split; [exact Hcat|exact Happ]. }
  exists c'. change (rewrite_all (since 26) ?d) with (@Ok exn Db d) in Hr. destruct r as [[]|e]; [|discriminate Hr].
  destruct Hr as (Hd & Hc & Ha). split; [exact Hs|]. split; [by injection Hd|by split].
Qed.

(** The file opens as it was left. *)
Lemma open_database_stuck s f : stuck s f ->
  exists p1 w, open_database open_file (process_of s f) = (Ok tt, p1) /\ ps_listening p1 = None /\
    ps_world p1 = initial w (bk_http s) /\ oversized_cap (w_db w) /\
    fl_catalog (ps_file p1) = SCHEMA /\ (fl_applied (ps_file p1)).*1 = SCRIPTS.*1.
Proof.
  intros Hk. destruct (stuck_start s f Hk) as (c' & Hs & Hd & Hcat & Happ).
  unfold open_database, found_file. cbn [process_of ps_world]. rewrite (sk_restore s f Hk).
  change (mkProcess s f false false None None) with (process_of s f). rewrite Hs.
  eexists _, ((web_world (bk_web s)) <| w_db := st_db (co_state c') |> <| w_alert_state := ∅ |> <| w_gpu_mail := ∅ |> <| w_mails := [] |>
            <| w_ticks := co_ticks c' |>).
  split; [reflexivity|]. split; [reflexivity|]. split; [reflexivity|].
  split; [|split; [exact Hcat|exact Happ]].
  change (oversized_cap (st_db (co_state c'))). rewrite Hd. apply (sk_cap s f Hk).
Qed.

Lemma boot_stuck s f : stuck s f ->
  let p := boot open_file prepare (process_of s f) in
  ps_exit p = Some 1 /\ ps_listening p = None /\ stuck (ps_world p) (ps_file p).
Proof.
  intros Hk. cbv zeta. unfold boot, main, mbind, M_bind, lift.
  destruct assertEnv as [[]|e]; [|split; [reflexivity|split; [reflexivity|exact Hk]]]. cbn [mret].
  destruct (open_database_stuck s f Hk) as (p1 & w & -> & Hl & Hp & Hc & Hcat & Happ).
  destruct prepare as [[]|e].
  2: { split; [reflexivity|]. split; [exact Hl|]. cbn. split; [by rewrite Hp|exact Hcat|exact Happ|by rewrite Hp]. }
  cbn [modify mret]. unfold startMaintenance, on_library, mbind, M_bind. cbn. rewrite Hp, lib_initial.
  destruct (pruneOldData_oversized w Hc) as (w' & Hw & Hs). rewrite Hw. cbn.
  split; [reflexivity|]. split; [exact Hl|]. split; [reflexivity|exact Hcat|exact Happ|].
  change (oversized_cap (w_db w')). unfold oversized_cap. rewrite Hs. exact Hc.
Qed.

(** A number the settings form accepts keeps the controller from ever starting again.  With a
    cap on log entries beyond 64 bits stored, every start reaches the first prune, whose OFFSET the
    database engine refuses, and exits with status 1; the stored cap is untouched, so the next start
    ends the same way, however often the process is started over. *)
Theorem oversized_cap_stops_boot s f n :
  stuck s f ->
  let p := Nat.iter n reboot (boot open_file prepare (process_of s f)) in
  ps_exit p = Some 1 /\ ps_listening p = None.
Proof.
  intros Hk. cbv zeta.
  assert (ps_exit (Nat.iter n reboot (boot open_file prepare (process_of s f))) = Some 1 /\
    ps_listening (Nat.iter n reboot (boot open_file prepare (process_of s f))) = None /\
    stuck (ps_world (Nat.iter n reboot (boot open_file prepare (process_of s f))))
      (ps_file (Nat.iter n reboot (boot open_file prepare (process_of s f))))) as (H1 & H2 & _); [|by split].
  induction n as [|n (_ & _ & IH)]; [apply boot_stuck, Hk|]. exact (boot_stuck _ _ IH).
Qed.
End facts.

(** ** Two processes *)

Section witness.
#[local] Existing Instance toy_honker.
#[local] Existing Instance run_pf.
#[local] Existing Instance toy_auth.
#[local] Existing Instance ref_zod.
#[local] Existing Instance utc.
#[local] Existing Instances no_http toy_backup.

(** No file is staged, and Next.js prepares. *)
Definition no_file (file : string) : option (Connection (S := Store)) := None.
Definition new_world : BackupWorld := initial ((web_world0 ticking) <| w_db := empty_db |>) tt.
Definition no_schema : File := mkFile empty_catalog [].
Definition this_version : File := mkFile SCHEMA ((fun m => (m.1, 0)) <$> SCRIPTS).

Lemma no_schema_ok : file_ok (current_file (process_of new_world no_schema)).
Proof.
  split; [exists 0%nat; split; [split; [lia|split; [exact eq_refl|exact eq_refl]]|exact (fun _ => eq_refl)]|apply db_wf_empty|apply content_ok_empty].
Qed.

(** A new deployment starts and listens on the port nobody changed. *)
Lemma boot_fails_closed_witness :
  ps_listening (boot no_file (Ok tt) (process_of new_world no_schema)) = Some 8443 /\
  fl_catalog (ps_file (boot no_file (Ok tt) (process_of new_world no_schema))) = SCHEMA.
Proof.
  destruct (boot_fails_closed no_file (Ok tt) new_world no_schema) as [(_ & Hl)|(port & w & H)].
  - intros c Hc. injection Hc as <-. exact no_schema_ok.
  - assert (ps_listening (boot no_file (Ok tt) (process_of new_world no_schema)) = Some 8443) as Hp by by vm_compute.
    rewrite Hp in Hl. discriminate Hl.
  - destruct H as (_ & Hl & Hp & _ & _ & _ & _ & Hc & _). split; [|exact Hc]. rewrite Hl.
    assert (env_port = Ok 8443) as He by (vm_compute; reflexivity). rewrite He in Hp. by injection Hp as <-.
Defined.

(** The administrator of the run saves a cap of 2 ^ 63 entries. *)
Definition huge_cap : BackupWorld :=
  (respond pretty (RAction (CSaveAlerts [("logMaxEntries", "9223372036854775808")])) (with_request [] ada_cookie with_node)).2.

Lemma huge_cap_stuck : stuck huge_cap this_version.
Proof.
  split; [by vm_compute|exact eq_refl|by vm_compute|].
  exists (num_of_Z (2 ^ 63)). by vm_compute.
Qed.
Lemma oversized_cap_stops_boot_witness :
  system_reachable pretty huge_cap /\
  ps_listening (Nat.iter 3 (reboot no_file (Ok tt)) (boot no_file (Ok tt) (process_of huge_cap this_version))) = None.
Proof.
  split; [apply request_reachable, with_node_reachable|].
  apply (oversized_cap_stops_boot no_file (Ok tt) huge_cap this_version 3 huge_cap_stuck).
Defined.
End witness.
